(* ===== verification/_CoqProject ===== *)
-Q . S2P
Prelude.v
CString.v
Store.v
Chunks.v
ReadBody.v
SendBody.v
Headers.v
RingBuf.v
Membuf.v
CachedFile.v
SimpleFile.v
Encapsulated.v
IcapHeader.v
ParseRequest.v
HttpApi.v
Session.v
Response.v
Options.v
Server.v
Deliver.v
Duplex.v
Echo.v
Md5.v
Keepalive.v
GwRebuild.v
GwServe.v
Client.v
ClientSend.v
ClientReceive.v
ClientRun.v
ClientTransaction.v
ClientServer.v
ClientFaults.v
ConnQueue.v
Workers.v
WorkersSafe.v
WorkersFaults.v
Acl.v
AclPolicy.v
AclConfig.v
AclTypes.v
Buffers.v
BuffersSafe.v
ListApi.v
ListApiSafe.v
Cache.v
CacheSafe.v
Arrays.v
ArraysSafe.v
Serial.v
Config.v
ConfigSafe.v
Services.v
ServicesSafe.v
ConfigTypes.v
Base64.v
HttpAuth.v
Inflate.v
