(* ===== verification/Prelude.v ===== *)
(** * Verification of the Glasswall c-icap ICAP service

    The repository is an ICAP server (c-icap, under src/c-icap) with the Glasswall rebuild service (under
    src/c-icap-modules/services/gw_rebuild).  A proxy sends the server an HTTP request or response to
    be examined, encapsulated in an ICAP message; the server reads the ICAP header, finds the service, reads the
    encapsulated HTTP headers and the body in chunked coding, feeds the body to the service and sends what
    the service gives back.  The rebuild service stores the body in a file, has an external program
    rebuild it, and answers with the rebuilt file, the body as it came, or an error page.

    ** How the C code is modelled

    Functions become functions that pass the state they change.  A computation gives an [outcome]:
    [Ret] for a return, [UB] for an access outside an object, a null or dangling pointer or a signed
    overflow, [Abort] for a failed assert, [NoFuel] when the fuel of a loop is used up.  Objects of memory are
    lists of bytes (0 to 255, in [Z]); pointers into them are offsets, and every load and store is checked
    against the bounds.  Integers are [Z] with the wrap-around of their width written out ([to_int], [to_uint],
    [to_i64], [to_u64]).  What the operating system, the allocator, the network and other programs answer are
    arguments: the result of each allocation, the list of what each read, write and poll gives, the exit of the
    external program.  Fresh memory has the contents of an arbitrary function [junk].  Debug output
    is left out; it has no effect on the state.

    Loops that are not structural take fuel.  The theorems that say what a loop computes give a bound on the
    fuel from the input (the bytes in the block for [parse_chunk_data], the events of the network and the
    pieces of the body for the loops of the server) and say that the result is [Ret] with any
    fuel from there on; the loops that do not end are proved to give [NoFuel] with every fuel.

    ** The files

    - Prelude: outcomes, memory, integers, automation.  CString: the functions of the C library.
    - Store: the interface [Fifo] of the stores of body data.  RingBuf, Membuf, CachedFile, SimpleFile
      (body.c): the four stores; each is proved to be a [Fifo], with the behaviour of its short writes and the
      conditions under which the code leaves the specification.
    - Chunks, ReadBody (request_common.c, request.c): [parse_chunk_data] over [rstream], the refill
      [net_data_read], and [read_preview_data].  SendBody: the chunks the server and the client write.
      What is written is read back as it was, for every way the network may cut it.
    - Headers (header.c): the header list over one buffer and an index.  The predicates [hrepr]
      (edit mode) and [sealed] (packed) relate it to a list of lines.
    - Encapsulated (header.c, request_common.c, request.c): the entities of a message, the
      Encapsulated header both ways, the combinations allowed.
    - IcapHeader, ParseRequest (request.c, service.c): reading the headers from the network, the request
      line, the service lookup, the ICAP headers, the encapsulated headers.
    - HttpApi (simple_api.c): the HTTP headers as services see and edit them.
    - Session (request.h, service.h, os/unix/net_io.c): the request being served, the connection, the
      interface of services ([service_ops], and [Supplier] for what the sending loop needs of one).
    - Response, Options (request.c): error responses, the response header, the sending state machine
      and [send_remaining_response]; the OPTIONS response.
    - Server (request.c): [get_send_body], preview and end of data, [do_request], [process_request].
    - Deliver: the receiving half of [get_send_body] against the interface [Consumer], and a request served
      from its first body byte to the end of the response for any service with both interfaces.
    - Duplex: the other half of [get_send_body], receiving and sending in the same turns of its loop, against the interface
      [Pipe] of a service that passes data on.  Echo (srv_echo.c): the echo service, which implements [Pipe] and [Supplier].
    - Keepalive (request_common.c, request.c): allocation and reset of a request; after which
      requests a connection is kept, and that requests of a connection do not see each other.
    - GwRebuild, GwServe (gw_rebuild.c, gw_body.c): the rebuild service with its files as objects reached by
      pointers; it implements [Consumer] and [Supplier], and the theorems about the server give
      the exact response to a request by the exit code of the external program.
    - Client (request_common.c): the client library, [ci_client_icapfilter] and what it calls, over the record [client], with the
      user's data source and destination as arguments.  ClientSend: building and sending the request.  ClientReceive:
      reading the response, however it is cut.  ClientRun: both at once, and the loop with a bound on its rounds (the bytes to
      send, the bytes and the events to read).  ClientTransaction: whole requests, with and without a preview, and reuse.
      ClientServer: the server parses what the client sends.  ClientFaults: data the client loses or repeats.
    - ConnQueue (proc_threads_queues.c), Workers (mpmt_server.c): the threads of a child process as a machine with one place
      for each point of the code where another thread may come in between; a run is a list of events.  WorkersSafe: the
      invariant that every run keeps.  WorkersFaults: runs in which the child stops serving.
    - Acl (acl.c, access.c, default_acl.c): the types of acls, the acls and the rules the configuration builds, and the check of
      a request.  AclPolicy: what keeps the pointers between them right.  AclConfig: a reference reading of the configuration
      lines with finite maps, and the code as its refinement.  AclTypes (acl.c, types_ops.c): the values of acls.
    - Buffers (mem.c): the pools the buffers of all other parts come from, over a finite map of the blocks of malloc; what malloc
      answers is an argument.  BuffersSafe: the pools against a map from buffers to bytes.  Serial (mem.c): the serial
      allocator over the pools.  Arrays (mem.c, array.c): the pack allocator, arrays and vectors.  ArraysSafe: arrays as stacks.
    - ListApi (array.c): the linked lists, nodes in a finite map.  ListApiSafe: lists as sequences, and the sort.
    - Cache (hash.c, cache.c): hash tables and the local cache, entries in a table linked by a queue and by hash chains.
      CacheSafe: the cache as a log of entries.
    - Config (cfg_param.c, cfg_lib.c): the reader of the configuration, its tables and default values; the buffer of a line is
      memory that is cut in place.  ConfigSafe: the reader against the lines as they are meant, and its end.
      ConfigTypes: the actions against the declared types of the variables they write to.
    - Services (service.c, service_lib.c): loading, settings and aliases of services.  ServicesSafe: the arrays and tables
      against a registry.
    - Base64, Inflate (decode.c): base64 and URL coding; the loops around the decoders of zlib, bzip2 and brotli, which are arguments.
    - HttpAuth (http_auth.c, module.c): the authentication of the user of a request, with the tables of users as arguments.
    - Md5 (md5.c): the digest as it is computed piece by piece, and the definition of RFC 1321 for whole messages.

    ** What the theorems show

    Round trips of the codings (chunks, header blocks, the Encapsulated header); refinement of queues by the
    stores; the exact bytes of responses; requests parsed into what was sent; invariants of the header list and
    of the request across a connection; termination of the chunk parser where chunk sizes are in range, and the
    sizes for which it never ends; the safety of the rebuild service (the body of a client is
    passed on only when the program left it unprocessed) and of connections after errors; and the
    inputs on which the code leaves its buffers, frees twice or never ends.
    The client and the server are proved to fit: what the client sends is parsed by the server into what the user gave, and
    a request of the client runs to its end with the whole response delivered.

    The threads of a child are proved to keep its counters and its connections in order under every interleaving: the
    theorems quantify over all lists of events.

    The access lists are proved to decide a request as the lines of the configuration say, to stay within their memory
    whatever lines are read, and to read times and compare addresses as meant.

    The containers are proved to refine what their names say: buffers are independent regions, lists are sequences, arrays are
    stacks, the cache is a log with a time to live, under every sequence of operations and every failure of malloc the
    code survives; the failures it does not survive are lemmas and findings.

    The configuration is proved to be read as it is written and to end; the services are proved to be what its lines say, and
    the cases in which arrays that grow leave pointers behind are lemmas.

    Authentication is proved to let in exactly the users of the table, with the one exception that is a finding.  Decompression is
    proved to write the text up to its limit, and never more, whatever the decoder does.

    The digest computed is the one of the RFC, however the message is cut.

    ** Not modelled

    The monitor process (start_server in mpmt_server.c), the Windows server (winnt_server.c), and the system layer (os,
    proc_mutex).  The threads of a child are modelled with [process_request] as one of their events: the model of serving a
    request is sequential.
    TLS (openssl), which replaces the read and write functions of a connection.  The command line and the order of
    reconfiguration (cfg_param.c), logging, the modules that bind other programs (LDAP, memcached, Berkeley DB, Perl), the command line clients.
    The compression formats themselves, and compressing
    (encode.c calls zlib, bzip2 and brotli).  Freeing of memory is modelled where an
    object can be reached after it (GwRebuild, Buffers, ListApi, Serial), not elsewhere. *)

From stdpp Require Import base list list_numbers strings numbers.
From Stdlib Require Import ZArith Lia.

#[global] Open Scope Z_scope.

(** ** Outcomes of a C computation *)

(** [Ret a] is a normal return, [UB] an access outside an object (or another
    undefined operation), [Abort] a failed [assert], [NoFuel] a loop that did
    not finish within the fuel given to the model. *)
Inductive outcome (A : Type) : Type :=
| Ret (a : A)
| UB
| Abort
| NoFuel.

Arguments Ret {A} a.
Arguments UB {A}.
Arguments Abort {A}.
Arguments NoFuel {A}.

Declare Scope outcome_scope.
Delimit Scope outcome_scope with outcome.

#[export] Instance outcome_eq_dec {A : Type} `{EqDecision A} : EqDecision (outcome A).
Proof. solve_decision. Defined.

Definition obind {A B : Type} (m : outcome A) (k : A → outcome B) : outcome B :=
  match m with
  | Ret a => k a
  | UB => UB
  | Abort => Abort
  | NoFuel => NoFuel
  end.

Notation "'let*' p ':=' m 'in' k" := (obind m (λ x, match x with p => k end))
  (at level 10, p pattern, m at level 200, k at level 200,
   format "'[v' 'let*'  p  ':='  m  'in' '/' k ']'") : outcome_scope.

#[global] Open Scope outcome_scope.

(** [assert(b)] of C. *)
Definition assert_ (b : bool) : outcome unit := if b then Ret tt else Abort.

(** ** Machine integers *)

(** Conversion of a value to [int], [unsigned int], [long]/[int64_t] and
    [uint64_t]: reduction modulo the width, in the signed or unsigned range. *)
Definition to_int (z : Z) : Z := (z + 2 ^ 31) mod 2 ^ 32 - 2 ^ 31.
Definition to_uint (z : Z) : Z := z mod 2 ^ 32.
Definition to_u64 (z : Z) : Z := z mod 2 ^ 64.

#[global] Arguments to_int z : simpl never.
#[global] Arguments to_uint z : simpl never.
#[global] Arguments to_u64 z : simpl never.

Definition INT_MAX : Z := 2 ^ 31 - 1.
Definition INT_MIN : Z := - 2 ^ 31.
Definition LONG_MAX : Z := 2 ^ 63 - 1.
Definition LONG_MIN : Z := - 2 ^ 63.

Definition flag_set (flags bit : Z) : bool := negb (Z.land flags bit =? 0).

(** ** Bytes and byte memories *)

(** A byte is a [Z] of [0 .. 255]; an object of [n] bytes is a list of length
    [n]; a pointer into it is an offset. *)
Definition byte_of_ascii (c : Ascii.ascii) : Z := Z.of_N (Ascii.N_of_ascii c).

Fixpoint bytes (s : string) : list Z :=
  match s with
  | EmptyString => []
  | String c s' => byte_of_ascii c :: bytes s'
  end.

Definition NUL : Z := 0.
Definition TAB : Z := 9.
Definition LF : Z := 10.
Definition CR : Z := 13.
Definition SP : Z := 32.

Definition is_byte (b : Z) : Prop := 0 ≤ b < 256.

Definition zlen {A : Type} (l : list A) : Z := Z.of_nat (length l).

(** [m[i]]. *)
Definition load (m : list Z) (i : Z) : outcome Z :=
  if i <? 0 then UB
  else match m !! Z.to_nat i with Some b => Ret b | None => UB end.

(** [m[i] = b]. *)
Definition store (m : list Z) (i b : Z) : outcome (list Z) :=
  if (0 <=? i) && (i <? zlen m) then Ret (<[Z.to_nat i := b]> m) else UB.

(** Reading and writing an array of structures or pointers. *)
Definition arr_get {A : Type} (l : list A) (i : Z) : outcome A :=
  if i <? 0 then UB else match l !! Z.to_nat i with Some x => Ret x | None => UB end.

Definition arr_set {A : Type} (l : list A) (i : Z) (x : A) : outcome (list A) :=
  if (0 <=? i) && (i <? zlen l) then Ret (<[Z.to_nat i := x]> l) else UB.

(** The [n] bytes from offset [off]. *)
Definition slice (m : list Z) (off n : Z) : list Z :=
  take (Z.to_nat n) (drop (Z.to_nat off) m).

(** Overwrite the bytes from [off] by [d]. *)
Definition splice (m : list Z) (off : Z) (d : list Z) : list Z :=
  take (Z.to_nat off) m ++ d ++ drop (Z.to_nat off + length d) m.

(** The source side of [memcpy(_, m + off, n)]. *)
Definition read_bytes (m : list Z) (off n : Z) : outcome (list Z) :=
  if (0 <=? off) && (0 <=? n) && (off + n <=? zlen m)
  then Ret (slice m off n) else UB.

(** The destination side of [memcpy(m + off, d, length d)]. *)
Definition write_bytes (m : list Z) (off : Z) (d : list Z) : outcome (list Z) :=
  if (0 <=? off) && (off + zlen d <=? zlen m)
  then Ret (splice m off d) else UB.

(** A fresh block: [junk i] is the unspecified value of its byte [i]. *)
Fixpoint fresh_bytes (junk : Z → Z) (from : Z) (n : nat) : list Z :=
  match n with O => [] | S n' => junk from :: fresh_bytes junk (from + 1) n' end.

Definition fresh (junk : Z → Z) (from upto : Z) : list Z :=
  fresh_bytes junk from (Z.to_nat (upto - from)).

(** [realloc(m, n)] for [n] at least the size of [m]. *)
Definition grow (junk : Z → Z) (m : list Z) (n : Z) : list Z :=
  m ++ fresh junk (zlen m) n.

(** ** Lengths *)

Create Rewrite HintDb zlen.

Section zlen_lemmas.
Context {A : Type}.
Implicit Types l k : list A.

Lemma zlen_nonneg l : 0 ≤ zlen l.
Proof. unfold zlen. lia. Qed.

Lemma zlen_nil : zlen (@nil A) = 0.
Proof. done. Qed.

Lemma zlen_cons (x : A) l : zlen (x :: l) = 1 + zlen l.
Proof. unfold zlen. simpl. lia. Qed.

Lemma zlen_app l k : zlen (l ++ k) = zlen l + zlen k.
Proof. unfold zlen. rewrite length_app. lia. Qed.

Lemma zlen_take n l : zlen (take n l) = Z.min (Z.of_nat n) (zlen l).
Proof. unfold zlen. rewrite length_take. lia. Qed.

Lemma zlen_drop n l : zlen (drop n l) = Z.max 0 (zlen l - Z.of_nat n).
Proof. unfold zlen. rewrite length_drop. lia. Qed.

Lemma zlen_insert i (x : A) l : zlen (<[i := x]> l) = zlen l.
Proof. unfold zlen. by rewrite length_insert. Qed.

Lemma zlen_replicate n (x : A) : zlen (replicate n x) = Z.of_nat n.
Proof. unfold zlen. by rewrite length_replicate. Qed.
End zlen_lemmas.

Lemma zlen_fmap {A B : Type} (f : A → B) (l : list A) : zlen (f <$> l) = zlen l.
Proof. unfold zlen. by rewrite length_fmap. Qed.

Lemma zlen_seqZ m n : zlen (seqZ m n) = Z.max 0 n.
Proof. unfold zlen. rewrite length_seqZ. lia. Qed.

Lemma zlen_to_nat {A : Type} (l : list A) : Z.to_nat (zlen l) = length l.
Proof. unfold zlen. lia. Qed.

#[export] Hint Rewrite @zlen_nil @zlen_cons @zlen_app @zlen_take @zlen_drop
  @zlen_insert @zlen_replicate @zlen_fmap zlen_seqZ : zlen.

(** Arithmetic over lengths: normalise every [zlen], recall that lengths are
    not negative, then [lia]. *)
Ltac zlen_pose :=
  repeat match goal with
  | |- context [zlen ?l] =>
      lazymatch goal with
      | H : 0 ≤ zlen l |- _ => fail
      | _ => pose proof (zlen_nonneg l)
      end
  | _ : context [zlen ?l] |- _ =>
      lazymatch goal with
      | H : 0 ≤ zlen l |- _ => fail
      | _ => pose proof (zlen_nonneg l)
      end
  end.

Ltac zlia :=
  autorewrite with zlen in *; zlen_pose; lia.

Lemma length_fresh_bytes junk a n : length (fresh_bytes junk a n) = n.
Proof. revert a. induction n as [|n IH]; intros a; cbn; [done|by rewrite IH]. Qed.

Lemma zlen_fresh junk a b : a ≤ b → zlen (fresh junk a b) = b - a.
Proof. intros. unfold fresh, zlen. rewrite length_fresh_bytes. lia. Qed.

Lemma zlen_grow junk m n : zlen m ≤ n → zlen (grow junk m n) = n.
Proof. intros. unfold grow. rewrite zlen_app, zlen_fresh by done. lia. Qed.

(** ** Slices and splices *)

Lemma zlen_slice m off n :
  0 ≤ off → 0 ≤ n → off + n ≤ zlen m → zlen (slice m off n) = n.
Proof. intros. unfold slice. zlia. Qed.

Lemma zlen_splice m off d :
  0 ≤ off → off + zlen d ≤ zlen m → zlen (splice m off d) = zlen m.
Proof. intros. unfold splice. unfold zlen in *. rewrite !length_app, length_take, length_drop. lia. Qed.

Lemma slice_all m n : n = zlen m → slice m 0 n = m.
Proof. intros ->. unfold slice. rewrite zlen_to_nat. simpl. by rewrite drop_0, take_ge. Qed.

Lemma slice_nil m off n : n ≤ 0 → slice m off n = [].
Proof. intros. unfold slice. by replace (Z.to_nat n) with 0%nat by lia. Qed.

Lemma slice_app_l m k off n :
  0 ≤ off → 0 ≤ n → off + n ≤ zlen m → slice (m ++ k) off n = slice m off n.
Proof.
  intros. unfold slice, zlen in *. rewrite drop_app_le by lia.
  by rewrite take_app_le by (rewrite length_drop; lia).
Qed.

Lemma slice_app_r m k off n :
  zlen m ≤ off → slice (m ++ k) off n = slice k (off - zlen m) n.
Proof.
  intros. unfold slice. rewrite drop_app_ge by (unfold zlen in *; lia).
  do 2 f_equal. unfold zlen in *. lia.
Qed.

(** Concatenating two adjacent slices. *)
Lemma slice_split m off a b :
  0 ≤ off → 0 ≤ a → 0 ≤ b →
  slice m off (a + b) = slice m off a ++ slice m (off + a) b.
Proof.
  intros. unfold slice.
  replace (Z.to_nat (a + b)) with (Z.to_nat a + Z.to_nat b)%nat by lia.
  rewrite <- take_take_drop, drop_drop.
  do 3 f_equal. lia.
Qed.

Lemma slice_slice m a b c d :
  0 ≤ a → 0 ≤ c → 0 ≤ d → c + d ≤ b → slice (slice m a b) c d = slice m (a + c) d.
Proof.
  intros. unfold slice.
  rewrite skipn_firstn_comm, take_take, drop_drop.
  f_equal; [lia|f_equal; lia].
Qed.

Lemma slice_splice_same m off d :
  0 ≤ off → off + zlen d ≤ zlen m → slice (splice m off d) off (zlen d) = d.
Proof.
  intros. unfold slice, splice. unfold zlen in *.
  rewrite drop_app_ge by (rewrite length_take; lia).
  rewrite length_take, Nat.min_l by lia. rewrite Nat.sub_diag, drop_0.
  rewrite take_app_le by lia. apply take_ge. lia.
Qed.

Lemma slice_splice_before m off d a n :
  0 ≤ a → 0 ≤ n → a + n ≤ off → off + zlen d ≤ zlen m →
  slice (splice m off d) a n = slice m a n.
Proof.
  intros. unfold splice. rewrite slice_app_l by zlia.
  rewrite <- (take_drop (Z.to_nat off) m) at 2.
  by rewrite slice_app_l by zlia.
Qed.

Lemma slice_splice_after m off d a n :
  0 ≤ off → off + zlen d ≤ a → off + zlen d ≤ zlen m →
  slice (splice m off d) a n = slice m a n.
Proof.
  intros. unfold splice. rewrite app_assoc, slice_app_r by zlia.
  unfold slice. rewrite drop_drop. do 2 f_equal. unfold zlen in *.
  rewrite length_app, length_take. lia.
Qed.

(** ** Loads, stores and copies *)

Lemma load_app_l m k i : 0 ≤ i < zlen m → load (m ++ k) i = load m i.
Proof.
  intros. unfold load, zlen in *. destruct (i <? 0); [done|].
  by rewrite lookup_app_l by lia.
Qed.

Lemma load_app_r m k i : zlen m ≤ i → load (m ++ k) i = load k (i - zlen m).
Proof.
  intros. unfold load, zlen in *.
  destruct (i <? 0) eqn:E; [lia|]. destruct (_ - _ <? 0) eqn:E'; [lia|].
  rewrite lookup_app_r by lia. do 2 f_equal. by replace (Z.to_nat i - length m)%nat with (Z.to_nat (i - Z.of_nat (length m))) by lia.
Qed.

Lemma load_lookup m i b : 0 ≤ i → m !! Z.to_nat i = Some b → load m i = Ret b.
Proof. intros ? H. unfold load. destruct (i <? 0) eqn:E; [lia|]. by rewrite H. Qed.

Lemma load_in m i : 0 ≤ i < zlen m → ∃ b, load m i = Ret b ∧ m !! Z.to_nat i = Some b.
Proof.
  intros. destruct (lookup_lt_is_Some_2 m (Z.to_nat i)) as [b Hb].
  { unfold zlen in *. lia. }
  exists b. split; [by apply load_lookup; [lia|]|done].
Qed.

Lemma read_bytes_ok m off n :
  0 ≤ off → 0 ≤ n → off + n ≤ zlen m → read_bytes m off n = Ret (slice m off n).
Proof.
  intros. unfold read_bytes.
  destruct (0 <=? off) eqn:?, (0 <=? n) eqn:?, (off + n <=? zlen m) eqn:?; simpl; (done || lia).
Qed.

Lemma write_bytes_ok m off d :
  0 ≤ off → off + zlen d ≤ zlen m → write_bytes m off d = Ret (splice m off d).
Proof.
  intros. unfold write_bytes.
  destruct (0 <=? off) eqn:?, (off + zlen d <=? zlen m) eqn:?; simpl; (done || lia).
Qed.

Lemma store_ok m i b : 0 ≤ i < zlen m → store m i b = Ret (<[Z.to_nat i := b]> m).
Proof.
  intros. unfold store. destruct (0 <=? i) eqn:?, (i <? zlen m) eqn:?; simpl; (done || lia).
Qed.

Lemma store_splice (m : list Z) i b : 0 ≤ i < zlen m → store m i b = Ret (splice m i [b]).
Proof.
  intros. rewrite store_ok by done. unfold splice. f_equal.
  rewrite insert_take_drop by (unfold zlen in *; lia). simpl. do 3 f_equal. lia.
Qed.

(** Overwriting the start of the middle part. *)
Lemma splice_app (pre x r d : list Z) p :
  p = zlen pre → zlen d ≤ zlen x →
  splice (pre ++ x ++ r) p d = pre ++ d ++ drop (length d) x ++ r.
Proof.
  intros -> Hd. unfold splice, zlen in *. rewrite Nat2Z.id, take_app_length.
  rewrite drop_app_add, drop_app_le by lia. done.
Qed.

Lemma write_bytes_app (pre x r d : list Z) p :
  p = zlen pre → zlen d ≤ zlen x →
  write_bytes (pre ++ x ++ r) p d = Ret (pre ++ d ++ drop (length d) x ++ r).
Proof.
  intros -> Hd. rewrite write_bytes_ok by zlia. by rewrite splice_app.
Qed.

Lemma store_app (pre r : list Z) p b c :
  p = zlen pre → store (pre ++ c :: r) p b = Ret (pre ++ b :: r).
Proof.
  intros ->. rewrite store_splice by zlia.
  by rewrite (splice_app pre [c] r [b]).
Qed.

Lemma load_app (pre r : list Z) p c : p = zlen pre → load (pre ++ c :: r) p = Ret c.
Proof.
  intros ->. apply load_lookup; [zlia|]. rewrite zlen_to_nat.
  by rewrite lookup_app_r, Nat.sub_diag by lia.
Qed.

Lemma drop_zlen (pre r : list Z) p : p = zlen pre → drop (Z.to_nat p) (pre ++ r) = r.
Proof. intros ->. rewrite zlen_to_nat. by rewrite drop_app_length. Qed.

(** Cutting a list at a length. *)
Lemma split_at (l : list Z) n : 0 ≤ n ≤ zlen l → ∃ a b, l = a ++ b ∧ zlen a = n.
Proof.
  intros. exists (take (Z.to_nat n) l), (drop (Z.to_nat n) l). split; [by rewrite take_drop|zlia].
Qed.

(** Two concatenations of the same pieces. *)
Ltac by_app := repeat (progress (rewrite <- ?app_assoc; cbn [app])); reflexivity.

(** ** Machine integers *)

Lemma lor_shiftl_add a b n : 0 ≤ n → 0 ≤ b < 2 ^ n → Z.lor (Z.shiftl a n) b = a * 2 ^ n + b.
Proof.
  intros Hn Hb. assert (Z.land (Z.shiftl a n) b = 0) as Hl.
  { apply Z.bits_inj'. intros k Hk. rewrite Z.land_spec, Z.bits_0. destruct (Z.lt_ge_cases k n) as [H|H].
    - by rewrite Z.shiftl_spec_low.
    - rewrite <- (Z.mod_small b (2 ^ n)) by done. by rewrite Z.mod_pow2_bits_high, andb_false_r by lia. }
  by rewrite <- Z.lxor_lor, <- Z.add_nocarry_lxor, Z.shiftl_mul_pow2.
Qed.

Lemma to_int_id z : INT_MIN ≤ z ≤ INT_MAX → to_int z = z.
Proof. unfold INT_MIN, INT_MAX, to_int. intros. rewrite Z.mod_small; lia. Qed.

Lemma to_uint_id z : 0 ≤ z < 2 ^ 32 → to_uint z = z.
Proof. intros. unfold to_uint. by apply Z.mod_small. Qed.

Lemma to_u64_id z : 0 ≤ z < 2 ^ 64 → to_u64 z = z.
Proof. intros. unfold to_u64. by apply Z.mod_small. Qed.

Lemma to_int_range z : INT_MIN ≤ to_int z ≤ INT_MAX.
Proof.
  unfold INT_MIN, INT_MAX, to_int.
  pose proof (Z.mod_pos_bound (z + 2 ^ 31) (2 ^ 32)). lia.
Qed.

(** ** Tactics *)

(** Invert a successful [let*]. *)
Lemma obind_Ret {A B : Type} (m : outcome A) (k : A → outcome B) b :
  obind m k = Ret b ↔ ∃ a, m = Ret a ∧ k a = Ret b.
Proof.
  destruct m; simpl; split; try (by intros (? & [=] & _)); try done.
  - intros H. by exists a.
  - by intros (? & [= ->] & ?).
Qed.

(** Computations that use no fuel. *)
Create HintDb nofuel discriminated.

Lemma obind_nofuel {A B : Type} (m : outcome A) (k : A → outcome B) :
  m ≠ NoFuel → (∀ a, k a ≠ NoFuel) → obind m k ≠ NoFuel.
Proof. intros. by destruct m; simpl. Qed.

Lemma load_nofuel m i : load m i ≠ NoFuel.
Proof. unfold load. by repeat case_match. Qed.

#[export] Hint Resolve obind_nofuel load_nofuel : nofuel.

Ltac solve_nofuel :=
  repeat first
    [ progress intros
    | discriminate
    | solve [auto with nofuel nocore]
    | apply obind_nofuel
    | case_match ].

Ltac inv_ret :=
  repeat match goal with
  | H : obind _ _ = Ret _ |- _ => apply obind_Ret in H as (? & ? & ?)
  | H : Ret _ = Ret _ |- _ => injection H as H
  | H : UB = Ret _ |- _ => discriminate H
  | H : Abort = Ret _ |- _ => discriminate H
  | H : NoFuel = Ret _ |- _ => discriminate H
  end.

(** Case analysis on the boolean comparisons of the goal, as propositions. *)
Ltac case_cmp :=
  match goal with
  | |- context [?a <? ?b] => destruct (Z.ltb_spec a b)
  | |- context [?a <=? ?b] => destruct (Z.leb_spec a b)
  | |- context [?a =? ?b] => destruct (Z.eqb_spec a b)
  end.

Ltac case_cmp_in H :=
  match type of H with
  | context [?a <? ?b] => destruct (Z.ltb_spec a b)
  | context [?a <=? ?b] => destruct (Z.leb_spec a b)
  | context [?a =? ?b] => destruct (Z.eqb_spec a b)
  end.

(** Decide the comparisons of the goal whose answer [lia] knows. *)
Ltac solve_cmp :=
  repeat match goal with
  | |- context [?a <? ?b] =>
      first [ rewrite (proj2 (Z.ltb_lt a b)) by zlia
            | rewrite (proj2 (Z.ltb_ge a b)) by zlia ]
  | |- context [?a <=? ?b] =>
      first [ rewrite (proj2 (Z.leb_le a b)) by zlia
            | rewrite (proj2 (Z.leb_gt a b)) by zlia ]
  | |- context [?a =? ?b] =>
      first [ rewrite (proj2 (Z.eqb_eq a b)) by zlia
            | rewrite (proj2 (Z.eqb_neq a b)) by zlia ]
  end; cbn [andb orb negb].

(** ** Arrays *)

Lemma arr_get_app {A : Type} (pre : list A) x post : arr_get (pre ++ x :: post) (zlen pre) = Ret x.
Proof.
  unfold arr_get. pose proof (zlen_nonneg pre). solve_cmp. rewrite zlen_to_nat.
  by rewrite lookup_app_r, Nat.sub_diag by lia.
Qed.

Lemma arr_set_app {A : Type} (pre : list A) x y post :
  arr_set (pre ++ x :: post) (zlen pre) y = Ret (pre ++ y :: post).
Proof.
  unfold arr_set. pose proof (zlen_nonneg pre). solve_cmp. rewrite zlen_to_nat.
  by rewrite insert_app_r_alt, Nat.sub_diag by lia.
Qed.

Lemma arr_get_lookup {A : Type} (l : list A) i x : 0 ≤ i → l !! Z.to_nat i = Some x → arr_get l i = Ret x.
Proof. intros Hi Hx. unfold arr_get. solve_cmp. by rewrite Hx. Qed.

Lemma arr_set_ok {A : Type} (l : list A) i x : 0 ≤ i < zlen l → arr_set l i x = Ret (<[Z.to_nat i := x]> l).
Proof. intros. unfold arr_set. by solve_cmp. Qed.

(** Different numbers below [n]. *)
Lemma NoDup_bound (l : list nat) n : NoDup l → (∀ k, k ∈ l → (k < n)%nat) → (length l ≤ n)%nat.
Proof.
  intros Hn Hb. assert (l ⊆+ seq 0 n) as Hl%submseteq_length; [|by rewrite length_seq in Hl].
  apply NoDup_submseteq; [done|]. intros k Hk%Hb. apply elem_of_seq. lia.
Qed.
