(* ===== verification/CString.v ===== *)
(** * The C library functions the sources use

    [isspace], [tolower], the comparisons [strncmp]/[strncasecmp] against a
    literal, [strlen], [strtol], and the conversions ["%d"] and ["%x"] of
    [printf], on byte memories.  A function that scans memory gets the suffix of
    the object from the pointer on and gives [None] when it would read past
    the end of the object.  [ci_strnstr] is the program's own (util.c). *)

From stdpp Require Import base list list_numbers strings numbers option.
From Stdlib Require Import ZArith Lia.
From S2P Require Import Prelude.

(** ** Character classes *)

Definition isspace (b : Z) : bool := (b =? 32) || ((9 <=? b) && (b <=? 13)).

Definition tolower (b : Z) : Z := if (65 <=? b) && (b <=? 90) then b + 32 else b.

(** The value of a digit or letter in a number, [None] for other characters. *)
Definition digit_val (b : Z) : option Z :=
  if (48 <=? b) && (b <=? 57) then Some (b - 48)
  else if (97 <=? b) && (b <=? 122) then Some (b - 87)
  else if (65 <=? b) && (b <=? 90) then Some (b - 55)
  else None.

Definition is_digit (base b : Z) : bool :=
  match digit_val b with Some d => d <? base | None => false end.

(** ** Strings in memory *)

(** The characters before the first NUL. *)
Fixpoint cstr (s : list Z) : option (list Z) :=
  match s with
  | [] => None
  | b :: s' => if b =? 0 then Some [] else (r ← cstr s'; Some (b :: r))
  end.

Definition strlen (s : list Z) : option Z := zlen <$> cstr s.

(** [strncmp(s, lit, length lit) == 0] for a literal without NUL: bytes are
    compared from the left up to the first difference. *)
Fixpoint str_prefix (lit s : list Z) : option bool :=
  match lit, s with
  | [], _ => Some true
  | _ :: _, [] => None
  | c :: lit', b :: s' => if b =? c then str_prefix lit' s' else Some false
  end.

(** [strncasecmp(s, lit, length lit) == 0]. *)
Fixpoint str_prefix_case (lit s : list Z) : option bool :=
  match lit, s with
  | [], _ => Some true
  | _ :: _, [] => None
  | c :: lit', b :: s' =>
      if tolower b =? tolower c then str_prefix_case lit' s' else Some false
  end.

(** [ci_strnstr(s, find, slen)]: the offset of the first occurrence of [find]
    in the first [slen] bytes ([Some None] when there is none). *)
Fixpoint ci_strnstr (find : list Z) (slen : nat) (s : list Z) : option (option Z) :=
  if (length find =? 0)%nat then Some None
  else if (length find <=? slen)%nat then
    match slen with
    | O => Some None
    | S slen' =>
        m ← str_prefix find s;
        if (m : bool) then Some (Some 0)
        else (r ← ci_strnstr find slen' (tail s); Some (option_map Z.succ r))
    end
  else Some None.

(** ** strtol *)

Fixpoint skip_while (f : Z → bool) (s : list Z) : option (nat * list Z) :=
  match s with
  | [] => None
  | b :: s' =>
      if f b then ('(k, r) ← skip_while f s'; Some (S k, r)) else Some (O, s)
  end.

Fixpoint scan_digits (base acc : Z) (k : nat) (s : list Z) : option (Z * nat) :=
  match s with
  | [] => None
  | b :: s' =>
      match digit_val b with
      | Some d => if d <? base then scan_digits base (acc * base + d) (S k) s'
                  else Some (acc, k)
      | None => Some (acc, k)
      end
  end.

(** An optional ["0x"] before a hexadecimal digit. *)
Definition hex_prefix (base : Z) (s : list Z) : option nat :=
  if negb (base =? 16) then Some O
  else match s with
  | [] => None
  | 48 :: s' =>
      match s' with
      | [] => None
      | x :: s'' =>
          if (x =? 120) || (x =? 88) then
            match s'' with
            | [] => None
            | d :: _ => Some (if is_digit 16 d then 2 else 0)%nat
            end
          else Some O
      end
  | _ => Some O
  end.

Definition clamp_long (z : Z) : Z := Z.max LONG_MIN (Z.min LONG_MAX z).

(** [strtol(s, &end, base)]: the value and [end - s]. *)
Definition strtol (base : Z) (s : list Z) : option (Z * Z) :=
  '(k, s1) ← skip_while isspace s;
  match s1 with
  | [] => None
  | c :: s1' =>
      let signed := (c =? 45) || (c =? 43) in
      let s2 := if signed then s1' else s1 in
      p ← hex_prefix base s2;
      '(v, n) ← scan_digits base 0 0 (drop p s2);
      if (n =? 0)%nat then Some (0, 0)
      else Some (clamp_long (if c =? 45 then - v else v),
                 Z.of_nat (k + (if signed then 1 else 0) + p + n))
  end.

(** ** printf conversions *)

Definition digit_char (d : Z) : Z := if d <? 10 then 48 + d else 87 + d.

Fixpoint print_aux (base : Z) (fuel : nat) (n : Z) (acc : list Z) : list Z :=
  match fuel with
  | O => acc
  | S fuel' =>
      if n <? base then digit_char n :: acc
      else print_aux base fuel' (n / base) (digit_char (n mod base) :: acc)
  end.

(** The digits of [n ≥ 0]; [log2 n + 1] digits are enough in any base ≥ 2. *)
Definition print_num (base n : Z) : list Z :=
  print_aux base (S (Z.to_nat (Z.log2 n))) n [].

(** ["%x"] of a non-negative [int], ["%d"] of an [int]. *)
Definition print_x (n : Z) : list Z := print_num 16 n.
Definition print_d (n : Z) : list Z :=
  if n <? 0 then 45 :: print_num 10 (- n) else print_num 10 n.

#[global] Arguments print_num base n : simpl never.
#[global] Arguments print_x n : simpl never.
#[global] Arguments print_d n : simpl never.

(** ** Reading back a printed number *)

Lemma digit_val_char base d : 0 ≤ d < base → base ≤ 16 → digit_val (digit_char d) = Some d.
Proof.
  intros. unfold digit_char, digit_val. case_cmp; solve_cmp; f_equal; lia.
Qed.

Lemma digit_char_not_space d : 0 ≤ d < 16 → isspace (digit_char d) = false.
Proof. intros. unfold digit_char, isspace. case_cmp; by solve_cmp. Qed.

Lemma digit_char_range d : 0 ≤ d < 16 →
  48 ≤ digit_char d ≤ 57 ∨ 97 ≤ digit_char d ≤ 102.
Proof. intros. unfold digit_char. case_cmp; lia. Qed.

Lemma scan_digits_cons base acc k d s :
  0 ≤ d < base → base ≤ 16 →
  scan_digits base acc k (digit_char d :: s) = scan_digits base (acc * base + d) (S k) s.
Proof. intros. simpl. rewrite (digit_val_char base) by lia. by solve_cmp. Qed.

Lemma print_aux_app base fuel n acc s :
  print_aux base fuel n acc ++ s = print_aux base fuel n (acc ++ s).
Proof.
  revert n acc. induction fuel as [|fuel IH]; intros n acc; simpl; [done|].
  case_cmp; [done|]. by rewrite IH.
Qed.

(** The number of digits printed. *)
Fixpoint ndigits (base : Z) (fuel : nat) (n : Z) : nat :=
  match fuel with
  | O => 0
  | S fuel' => if n <? base then 1 else S (ndigits base fuel' (n / base))
  end.

Lemma length_print_aux base fuel n acc :
  length (print_aux base fuel n acc) = (ndigits base fuel n + length acc)%nat.
Proof.
  revert n acc. induction fuel as [|fuel IH]; intros n acc; simpl; [done|].
  case_cmp; [done|]. rewrite IH. simpl. lia.
Qed.

Lemma scan_print_aux base fuel n k acc :
  2 ≤ base ≤ 16 → 0 ≤ n < 2 ^ Z.of_nat fuel →
  scan_digits base 0 k (print_aux base fuel n acc) =
  scan_digits base n (k + ndigits base fuel n) acc.
Proof.
  intros Hb. revert n k acc. induction fuel as [|fuel IH]; intros n k acc Hn.
  { simpl in *. replace n with 0 by lia. by rewrite Nat.add_0_r. }
  cbn [print_aux ndigits]. case_cmp.
  { rewrite scan_digits_cons by lia. f_equal; lia. }
  rewrite IH.
  - rewrite scan_digits_cons by (pose proof (Z.mod_pos_bound n base); lia).
    f_equal; [|lia]. rewrite (Z.div_mod n base) at 3 by lia. lia.
  - split; [apply Z.div_pos; lia|].
    apply Z.div_lt_upper_bound; [lia|].
    rewrite Nat2Z.inj_succ, Z.pow_succ_r in Hn by lia.
    pose proof (Z.pow_pos_nonneg 2 (Z.of_nat fuel)). nia.
Qed.

Lemma print_fuel n : 0 ≤ n → n < 2 ^ Z.of_nat (S (Z.to_nat (Z.log2 n))).
Proof.
  intros. destruct (decide (n = 0)) as [->|]; [by cbn|].
  rewrite Nat2Z.inj_succ, Z2Nat.id by apply Z.log2_nonneg.
  apply Z.log2_spec. lia.
Qed.

(** Every character of a printed number is a digit character. *)
Lemma print_aux_chars base fuel n acc (P : Z → Prop) :
  2 ≤ base ≤ 16 → 0 ≤ n → (∀ d, 0 ≤ d < base → P (digit_char d)) →
  Forall P acc → Forall P (print_aux base fuel n acc).
Proof.
  intros Hb Hn HP. revert n acc Hn. induction fuel as [|fuel IH]; intros n acc Hn Hacc; simpl; [done|].
  case_cmp; [constructor; [apply HP; lia|done]|].
  apply IH; [apply Z.div_pos; lia|]. constructor; [|done].
  apply HP. pose proof (Z.mod_pos_bound n base). lia.
Qed.

Lemma print_num_chars base n (P : Z → Prop) :
  2 ≤ base ≤ 16 → 0 ≤ n → (∀ d, 0 ≤ d < base → P (digit_char d)) →
  Forall P (print_num base n).
Proof. intros. apply print_aux_chars; auto. Qed.

Lemma print_num_nonempty base n : print_num base n ≠ [].
Proof.
  intros H%(f_equal length). unfold print_num in H. rewrite length_print_aux in H.
  simpl in H. destruct (n <? base); simpl in H; lia.
Qed.

Lemma scan_digits_stop base acc k c s :
  is_digit base c = false → scan_digits base acc k (c :: s) = Some (acc, k).
Proof.
  unfold is_digit. intros Hc. simpl. destruct (digit_val c) as [d|]; [|done]. by rewrite Hc.
Qed.

(** A printed number followed by a non-digit is read back with its length. *)
Lemma scan_print_num base n c s :
  2 ≤ base ≤ 16 → 0 ≤ n → is_digit base c = false →
  scan_digits base 0 0 (print_num base n ++ c :: s) = Some (n, length (print_num base n)).
Proof.
  intros Hb Hn Hc. unfold print_num. rewrite print_aux_app. cbn [app].
  rewrite scan_print_aux by (auto using print_fuel; lia).
  rewrite scan_digits_stop by done. rewrite length_print_aux. simpl. do 2 f_equal. lia.
Qed.

Lemma skip_while_stop f c s : f c = false → skip_while f (c :: s) = Some (0%nat, c :: s).
Proof. intros Hc. simpl. by rewrite Hc. Qed.

(** [strtol] on an unsigned number: no blank, sign or ["0x"] before the digits. *)
Lemma strtol_print base n c s :
  2 ≤ base ≤ 16 → 0 ≤ n ≤ LONG_MAX → is_digit base c = false → c ≠ 120 → c ≠ 88 →
  strtol base (print_num base n ++ c :: s) = Some (n, zlen (print_num base n)).
Proof.
  intros Hb Hn Hc Hx HX.
  pose proof (scan_print_num base n c s Hb (proj1 Hn) Hc) as Hscan.
  pose proof (print_num_chars base n (λ b, 48 ≤ b ≤ 57 ∨ 97 ≤ b ≤ 102) Hb (proj1 Hn)
    ltac:(intros; apply digit_char_range; lia)) as Hch.
  pose proof (print_num_nonempty base n) as Hne.
  destruct (print_num base n) as [|d ds] eqn:E; [done|].
  assert (Hpre : hex_prefix base ((d :: ds) ++ c :: s) = Some 0%nat).
  { unfold hex_prefix. destruct (Z.eqb_spec base 16); [|done]. cbn [negb app].
    destruct (decide (d = 48)) as [->|Hd].
    - destruct ds as [|x xs].
      + simpl. by solve_cmp.
      + apply Forall_inv_tail, Forall_inv in Hch. simpl. by solve_cmp.
    - destruct d as [|p|]; try done.
      repeat (destruct p as [p|p|]; try done). }
  apply Forall_inv in Hch.
  unfold strtol. cbn [app] in *. rewrite skip_while_stop.
  2:{ unfold isspace. destruct Hch; by solve_cmp. }
  cbn [mbind option_bind]. 
  assert (Hsg : (d =? 45) || (d =? 43) = false) by (destruct Hch; by solve_cmp).
  rewrite Hsg. cbn [mbind option_bind]. rewrite Hpre. cbn [mbind option_bind drop].
  rewrite Hscan. cbn [mbind option_bind].
  destruct (length (d :: ds) =? 0)%nat eqn:E0; [by apply Nat.eqb_eq in E0|].
  assert ((d =? 45) = false) as -> by (destruct Hch; by solve_cmp).
  unfold zlen. repeat f_equal; unfold clamp_long, LONG_MAX, LONG_MIN in *; simpl; lia.
Qed.

(** ** Searching and comparing *)

Lemma str_prefix_app lit s : str_prefix lit (lit ++ s) = Some true.
Proof. induction lit as [|c lit IH]; [done|]. simpl. by rewrite Z.eqb_refl. Qed.

Lemma str_prefix_true lit s : str_prefix lit s = Some true → ∃ s', s = lit ++ s'.
Proof.
  revert s. induction lit as [|c lit IH]; intros s H; [by exists s|].
  destruct s as [|b s]; [done|]. simpl in H.
  destruct (Z.eqb_spec b c) as [->|]; [|done].
  apply IH in H as [s' ->]. by exists s'.
Qed.

Lemma ci_strnstr_step find n s :
  (0 < length find)%nat → (length find ≤ S n)%nat →
  ci_strnstr find (S n) s =
  (m ← str_prefix find s;
   if (m : bool) then Some (Some 0)
   else (r ← ci_strnstr find n (tail s); Some (option_map Z.succ r))).
Proof.
  intros. cbn [ci_strnstr].
  destruct (Nat.eqb_spec (length find) 0); [lia|].
  destruct (Nat.leb_spec (length find) (S n)); [done|lia].
Qed.

Lemma ci_strnstr_short find n s :
  (n < length find)%nat → ci_strnstr find n s = Some None.
Proof.
  intros. destruct n as [|n]; cbn [ci_strnstr].
  - by repeat case_match.
  - destruct (Nat.eqb_spec (length find) 0); [lia|].
    destruct (Nat.leb_spec (length find) (S n)); [lia|done].
Qed.

(** A byte string without [c] before an occurrence of a pattern starting with
    [c] is skipped by the search. *)
Lemma ci_strnstr_skip c find pre s n :
  Forall (λ b, b ≠ c) pre → (length pre + S (length find) ≤ n)%nat →
  ci_strnstr (c :: find) n (pre ++ c :: find ++ s) = Some (Some (zlen pre)).
Proof.
  revert n. induction pre as [|b pre IH]; intros n Hpre Hn.
  - simpl in Hn. destruct n as [|n]; [lia|].
    rewrite ci_strnstr_step by (simpl; lia). cbn [app].
    pose proof (str_prefix_app (c :: find) s) as E. cbn [app] in E. by rewrite E.
  - simpl in Hn. destruct n as [|n]; [lia|].
    rewrite ci_strnstr_step by (simpl; lia).
    apply Forall_cons_1 in Hpre as [Hb Hpre].
    cbn [app str_prefix]. rewrite (proj2 (Z.eqb_neq b c)) by done.
    cbn [mbind option_bind tail]. rewrite IH by (done || lia).
    cbn [mbind option_bind option_map]. do 2 f_equal. rewrite zlen_cons. lia.
Qed.

(** No occurrence when the searched bytes have no [c]. *)
Lemma ci_strnstr_none c find n s :
  Forall (λ b, b ≠ c) (take n s) → (n ≤ length s)%nat →
  ci_strnstr (c :: find) n s = Some None.
Proof.
  revert s. induction n as [|n IH]; intros s Hs Hn.
  { by apply ci_strnstr_short; simpl; lia. }
  destruct (decide (S (length find) ≤ S n)%nat) as [Hl|Hl].
  2:{ apply ci_strnstr_short. simpl. lia. }
  rewrite ci_strnstr_step by (simpl; lia).
  destruct s as [|b s]; [simpl in Hn; lia|].
  simpl in Hs, Hn. apply Forall_cons_1 in Hs as [Hb Hs].
  cbn [str_prefix]. rewrite (proj2 (Z.eqb_neq b c)) by done.
  cbn [mbind option_bind tail]. by rewrite IH by (done || lia).
Qed.

(** The search fails when the pattern is cut off at the end of the block. *)
Lemma ci_strnstr_cut c find pre s n :
  Forall (λ b, b ≠ c) pre → (n < length pre + S (length find))%nat →
  ci_strnstr (c :: find) n (pre ++ s) = Some None.
Proof.
  revert n. induction pre as [|b pre IH]; intros n Hpre Hn.
  { apply ci_strnstr_short. simpl in *. lia. }
  destruct (decide (n < S (length find))%nat) as [Hs|Hs].
  { by apply ci_strnstr_short. }
  destruct n as [|n]; [lia|]. rewrite ci_strnstr_step by (simpl; lia).
  apply Forall_cons_1 in Hpre as [Hb Hpre].
  cbn [app str_prefix]. rewrite (proj2 (Z.eqb_neq b c)) by done.
  cbn [mbind option_bind tail]. by rewrite IH by (simpl in Hn; done || lia).
Qed.

Lemma strtol_print_x n c s :
  0 ≤ n ≤ LONG_MAX → is_digit 16 c = false → c ≠ 120 → c ≠ 88 →
  strtol 16 (print_x n ++ c :: s) = Some (n, zlen (print_x n)).
Proof. intros. by apply strtol_print. Qed.

(** A found occurrence lies in the searched bytes. *)
Lemma ci_strnstr_range find n s off :
  ci_strnstr find n s = Some (Some off) → 0 ≤ off ∧ off + zlen find ≤ Z.of_nat n.
Proof.
  revert s off. induction n as [|n IH]; intros s off H.
  { simpl in H. by repeat case_match. }
  destruct (decide (length find = 0)%nat) as [E|E].
  { simpl in H. by rewrite E in H. }
  destruct (decide (length find ≤ S n)%nat) as [Hl|Hl].
  2:{ rewrite ci_strnstr_short in H by lia. done. }
  rewrite ci_strnstr_step in H by lia.
  destruct (str_prefix find s) as [[|]|]; simpl in H; [| |done].
  - injection H as <-. unfold zlen. lia.
  - destruct (ci_strnstr find n (tail s)) as [[o|]|] eqn:E'; simpl in H; try done.
    injection H as <-. apply IH in E'. unfold zlen in *. lia.
Qed.
