(* ===== verification/Store.v ===== *)
(** * Byte queues: the interface of the body stores

    The services, the server loop and the modules keep body data in a ring buffer, a
    memory buffer, a cached file or a plain file (body.c).  All of them promise the same
    thing to their clients: what is read is what was written, in order, once.  The class
    [Fifo] states this promise; each component proves its instance, and the theorems of this
    file hold for every instance. *)

From stdpp Require Import base list list_numbers strings numbers.
From Stdlib Require Import ZArith Lia.
From S2P Require Import Prelude.

(** [write s d] gives the count the C function returns and the new store; [read s n]
    the bytes copied to the caller's buffer of [n] bytes, with the value returned. [good] is the
    invariant of the store, [pending] the bytes written and not yet read. *)
Class Fifo (S : Type) := {
  write : S → list Z → outcome (Z * S);
  read : S → Z → outcome (Z * list Z * S);
  good : S → Prop;
  pending : S → list Z;
  write_law : ∀ s d, good s → ∃ n s',
    write s d = Ret (n, s') ∧ good s' ∧ 0 ≤ n ≤ zlen d ∧
    pending s' = pending s ++ take (Z.to_nat n) d;
  read_law : ∀ s len, good s → 0 < len → ∃ r d s',
    read s len = Ret (r, d, s') ∧ good s' ∧ pending s = d ++ pending s' ∧
    zlen d ≤ len ∧ (pending s ≠ [] → d ≠ [] ∧ r = zlen d)
}.

Section client.
Context {S : Type} `{!Fifo S}.

(** A client interleaves writes and reads. *)
Inductive op := OpWrite (d : list Z) | OpRead (len : Z).

Definition op_ok (o : op) : Prop := match o with OpWrite _ => True | OpRead len => 0 < len end.

(** Runs the operations; gives the bytes accepted by the writes and those handed
    out by the reads. *)
Fixpoint run (s : S) (ops : list op) : outcome (list Z * list Z * S) :=
  match ops with
  | [] => Ret ([], [], s)
  | OpWrite d :: ops' =>
      let* (n, s) := write s d in
      let* (i, o, s) := run s ops' in
      Ret (take (Z.to_nat n) d ++ i, o, s)
  | OpRead len :: ops' =>
      let* (_, d, s) := read s len in
      let* (i, o, s) := run s ops' in
      Ret (i, d ++ o, s)
  end.

Lemma run_fifo ops s :
  good s → Forall op_ok ops →
  ∃ i o s', run s ops = Ret (i, o, s') ∧ good s' ∧ pending s ++ i = o ++ pending s'.
Proof.
  intros Hg Hops. revert s Hg. induction Hops as [|[d|len] ops Ho Hops IH]; intros s Hg.
  - exists [], [], s. by rewrite app_nil_r.
  - destruct (write_law s d Hg) as (n & s1 & Hw & Hg1 & _ & Hp). cbn. rewrite Hw. cbn.
    destruct (IH s1 Hg1) as (i & o & s' & -> & Hg' & He). cbn.
    eexists _, _, _. split; [done|]. split; [done|]. by rewrite app_assoc, <- Hp.
  - destruct (read_law s len Hg Ho) as (r & d & s1 & Hrd & Hg1 & Hp & _). cbn. rewrite Hrd. cbn.
    destruct (IH s1 Hg1) as (i & o & s' & -> & Hg' & He). cbn.
    eexists _, _, _. split; [done|]. split; [done|]. by rewrite Hp, <- !app_assoc, He.
Qed.

(** Reading [len] bytes at a time until nothing is left. *)
Fixpoint drain (fuel : nat) (s : S) (len : Z) : outcome (list Z * S) :=
  match fuel with
  | O => Ret ([], s)
  | Datatypes.S fuel' =>
      let* (_, d, s) := read s len in
      let* (o, s) := drain fuel' s len in
      Ret (d ++ o, s)
  end.

(** As many reads as pending bytes empty the store. *)
Lemma drain_all fuel s len :
  good s → 0 < len → (length (pending s) ≤ fuel)%nat →
  ∃ s', drain fuel s len = Ret (pending s, s') ∧ good s' ∧ pending s' = [].
Proof.
  intros Hg Hl. revert s Hg. induction fuel as [|fuel IH]; intros s Hg Hf.
  - destruct (pending s) eqn:E; [|cbn in Hf; lia]. by exists s.
  - destruct (read_law s len Hg Hl) as (r & d & s1 & Hrd & Hg1 & Hp & Hd & Hne). cbn. rewrite Hrd. cbn.
    destruct (IH s1 Hg1) as (s' & -> & Hg' & He).
    + rewrite Hp in Hf, Hne. rewrite length_app in Hf.
      destruct (pending s1); [cbn; lia|]. destruct d; [|cbn in *; lia].
      by destruct (proj1 (Hne ltac:(done))).
    + exists s'. cbn. by rewrite Hp.
Qed.
End client.

(** ** Files of the body stores *)

Definition CI_FILE_USELOCK : Z := 1.
Definition CI_FILE_HAS_EOF : Z := 2.
Definition CI_FILE_RING_MODE : Z := 4.

(** [do_read(fd, buf, n)] at offset [off]: the value and the bytes. *)
Definition do_read (rd : bool) (file : list Z) (off n : Z) : Z * list Z :=
  if rd then let d := slice file off n in (zlen d, d) else (-1, []).

(** [do_write(fd, d, len)] at offset [off], with result [w]; a gap reads as zeros. *)
Definition do_write (file : list Z) (off w : Z) (d : list Z) : list Z :=
  let x := take (Z.to_nat w) d in
  take (Z.to_nat off) (file ++ replicate (Z.to_nat off - length file) 0) ++ x ++
  drop (Z.to_nat off + length x) file.

Lemma do_write_append f d :
  do_write f (zlen f) (zlen d) d = f ++ d.
Proof.
  unfold do_write. rewrite !zlen_to_nat, Nat.sub_diag, app_nil_r, firstn_all.
  rewrite firstn_all, drop_ge by lia. by rewrite app_nil_r.
Qed.

Lemma slice_append m r e d :
  0 ≤ r ≤ e → e = zlen m → slice (m ++ d) r (e + zlen d - r) = slice m r (e - r) ++ d.
Proof.
  intros Hr ->. replace (zlen m + zlen d - r) with ((zlen m - r) + zlen d) by lia.
  rewrite slice_split by zlia. f_equal; [by apply slice_app_l; lia|].
  rewrite slice_app_r by lia. replace (r + (zlen m - r) - zlen m) with 0 by lia. by apply slice_all.
Qed.
