(* ===== verification/Chunks.v ===== *)
(** * Chunked transfer coding (request_common.c, request.c)

    [parse_chunk_data] takes the body data out of the bytes read from the
    network; [format_body_chunk] (server) and [client_prepere_body_chunk]
    (client) write it.  The fields of [ci_request_t] the parser reads and writes are
    the record [rstream]; [m] is the object [pstrblock_read] points into (the
    header buffer or [rbuf]) and [pstrblock_read] is the offset in it. *)

From stdpp Require Import base list list_numbers strings numbers option.
From Stdlib Require Import ZArith Lia.
From S2P Require Import Prelude CString.

(** ** Return codes and sizes (request.h, header.h) *)

Definition CI_NO_STATUS : Z := 0.
Definition CI_OK : Z := 1.
Definition CI_NEEDS_MORE : Z := 2.
Definition CI_ERROR : Z := -1.
Definition CI_EOF : Z := -2.
Definition BUFSIZE : Z := 4096.
Definition EXTRA_CHUNK_SIZE : Z := 30.
Definition MAX_CHUNK_SIZE : Z := 4064.

Definition CRLF : list Z := [CR; LF].

(** ** State *)

Record rstream := mkRstream {
  pstrblock_read : Z;
  pstrblock_read_len : Z;
  current_chunk_len : Z;
  chunk_bytes_read : Z;
  write_to_module_pending : Z;
  eof_received : bool;
  i206_use_original_body : Z;
  request_bytes_in : Z;
  http_bytes_in : Z;
  body_bytes_in : Z
}.

Definition set_block (p len : Z) (s : rstream) : rstream :=
  mkRstream p len (current_chunk_len s) (chunk_bytes_read s) (write_to_module_pending s)
    (eof_received s) (i206_use_original_body s) (request_bytes_in s) (http_bytes_in s)
    (body_bytes_in s).

Definition set_chunk (cur rd : Z) (s : rstream) : rstream :=
  mkRstream (pstrblock_read s) (pstrblock_read_len s) cur rd (write_to_module_pending s)
    (eof_received s) (i206_use_original_body s) (request_bytes_in s) (http_bytes_in s)
    (body_bytes_in s).

Definition set_pending (n : Z) (s : rstream) : rstream :=
  mkRstream (pstrblock_read s) (pstrblock_read_len s) (current_chunk_len s)
    (chunk_bytes_read s) n (eof_received s) (i206_use_original_body s)
    (request_bytes_in s) (http_bytes_in s) (body_bytes_in s).

Definition set_eof_received (b : bool) (s : rstream) : rstream :=
  mkRstream (pstrblock_read s) (pstrblock_read_len s) (current_chunk_len s)
    (chunk_bytes_read s) (write_to_module_pending s) b (i206_use_original_body s)
    (request_bytes_in s) (http_bytes_in s) (body_bytes_in s).

Definition set_i206 (n : Z) (s : rstream) : rstream :=
  mkRstream (pstrblock_read s) (pstrblock_read_len s) (current_chunk_len s)
    (chunk_bytes_read s) (write_to_module_pending s) (eof_received s) n
    (request_bytes_in s) (http_bytes_in s) (body_bytes_in s).

Definition count_request (n : Z) (s : rstream) : rstream :=
  mkRstream (pstrblock_read s) (pstrblock_read_len s) (current_chunk_len s)
    (chunk_bytes_read s) (write_to_module_pending s) (eof_received s)
    (i206_use_original_body s) (to_u64 (request_bytes_in s + n)) (http_bytes_in s)
    (body_bytes_in s).

Definition count_body (n : Z) (s : rstream) : rstream :=
  mkRstream (pstrblock_read s) (pstrblock_read_len s) (current_chunk_len s)
    (chunk_bytes_read s) (write_to_module_pending s) (eof_received s)
    (i206_use_original_body s) (request_bytes_in s) (to_u64 (http_bytes_in s + n))
    (to_u64 (body_bytes_in s + n)).

(** ** parse_chunk_data *)

(** The result of a scan that may leave the object. *)
Definition scan {A : Type} (o : option A) : outcome A :=
  match o with Some a => Ret a | None => UB end.

Definition is_blank (b : Z) : bool := (b =? SP) || (b =? TAB).

(** The loop that skips blanks from offset [e]. *)
Definition skip_blanks (m : list Z) (e : Z) : outcome Z :=
  let* (k, _) := scan (skip_while is_blank (drop (Z.to_nat e) m)) in
  Ret (e + Z.of_nat k).

Inductive chunk_status := READ_CHUNK_DEF | READ_CHUNK_DATA.

(** What a part of the loop body does: return from the function with a code,
    or go on. *)
Inductive flow (A : Type) :=
| Return (code : Z) (s : rstream)
| Next (a : A).

Arguments Return {A} code s.
Arguments Next {A} a.

(** The extension of a zero chunk: the code under [if ( *end == ';')]. *)
Definition parse_eof_extension (m : list Z) (e : Z) (s : rstream) :
    outcome (flow (Z * rstream)) :=
  let* e := skip_blanks m (e + 1) in
  let remains := pstrblock_read_len s - (e - pstrblock_read s) in
  let rest := drop (Z.to_nat e) m in
  let* orig := if 18 <=? remains then scan (str_prefix (bytes "use-original-body=") rest)
               else Ret false in
  let* r :=
    if orig : bool then
      let* (v, n) := scan (strtol 10 (drop (Z.to_nat (e + 18)) m)) in
      Ret (Next (e + 18 + n, set_i206 v s))
    else
      let* ieof := if 4 <=? remains then scan (str_prefix (bytes "ieof") rest)
                   else Ret true in
      if ieof : bool then Ret (Next (e, s)) else Ret (Return CI_ERROR s) in
  match r with
  | Return c s => Ret (Return c s)
  | Next (e, s) =>
      let* (k, _) := scan (skip_while (λ b, negb (b =? CR)) (drop (Z.to_nat e) m)) in
      Ret (Next (e + Z.of_nat k, set_eof_received true s))
  end.

(** The code under [if (read_status == READ_CHUNK_DEF)]. *)
Definition parse_chunk_def (m : list Z) (s : rstream) : outcome (flow (chunk_status * rstream)) :=
  let p := pstrblock_read s in
  let* found := scan (ci_strnstr CRLF (Z.to_nat (pstrblock_read_len s)) (drop (Z.to_nat p) m)) in
  match found with
  | None =>
      if BUFSIZE <=? pstrblock_read_len s then Ret (Return CI_ERROR s)
      else Ret (Return CI_NEEDS_MORE s)
  | Some off =>
      let chunkLen := off + 2 in
      let s := count_request chunkLen s in
      let* (v, n) := scan (strtol 16 (drop (Z.to_nat p) m)) in
      let tmp := to_int v in
      if (tmp =? 0) && (n =? 0) then Ret (Return CI_ERROR s)
      else
      let s := set_chunk (to_uint tmp) 0 s in
      let* e := skip_blanks m (p + n) in
      let* r :=
        if current_chunk_len s =? 0 then
          if pstrblock_read_len s - chunkLen <? 2 then Ret (Return CI_NEEDS_MORE s)
          else
          let* c0 := load m (p + chunkLen) in
          let* bad := if negb (c0 =? CR)
                      then let* c1 := load m (p + chunkLen + 1) in Ret (negb (c1 =? LF))
                      else Ret false in
          if bad : bool then Ret (Return CI_ERROR s)
          else
          let s := count_request 2 s in
          let* c := load m e in
          if c =? 59 then
            let* r := parse_eof_extension m e s in
            match r with
            | Return code s => Ret (Return code s)
            | Next (e, s) => Ret (Next (e, chunkLen + 2, READ_CHUNK_DEF, s))
            end
          else Ret (Next (e, chunkLen + 2, READ_CHUNK_DEF, s))
        else
          Ret (Next (e, chunkLen, READ_CHUNK_DATA,
                     set_chunk (to_uint (current_chunk_len s + 2)) (chunk_bytes_read s) s)) in
      match r with
      | Return code s => Ret (Return code s)
      | Next (e, chunkLen, status, s) =>
          let* c0 := load m e in
          let* ok := if c0 =? CR then let* c1 := load m (e + 1) in Ret (c1 =? LF)
                     else Ret false in
          if ok : bool then
            Ret (Next (status, set_block (p + chunkLen) (pstrblock_read_len s - chunkLen) s))
          else Ret (Return CI_ERROR s)
      end
  end.

(** The code under the second [if (read_status == READ_CHUNK_DATA)]: the data
    at hand, up to the end of the chunk. *)
Definition take_chunk_data (s : rstream) : rstream :=
  let len := pstrblock_read_len s in
  let remains := to_int (current_chunk_len s - chunk_bytes_read s) in
  if remains <=? len then
    let pending := if 2 <? remains then remains - 2 else 0 in
    let s := set_pending (to_uint pending) s in
    let s := if 2 <? remains then count_body (write_to_module_pending s) s else s in
    let s := set_chunk (current_chunk_len s) (to_uint (chunk_bytes_read s + remains)) s in
    count_request remains (set_block (pstrblock_read s + remains) (len - remains) s)
  else
    let tmp := remains - len in
    let s := set_pending (to_uint (if tmp <? 2 then len - tmp else len)) s in
    let s := count_body (write_to_module_pending s) s in
    let s := count_request len s in
    let s := set_chunk (current_chunk_len s) (to_uint (chunk_bytes_read s + len)) s in
    set_block (pstrblock_read s + len) 0 s.

(** One iteration of [while (1)]; [wd] is [*wdata]. *)
Definition chunk_iter (m : list Z) (s : rstream) (wd : option Z) :
    outcome (flow (rstream * option Z) * option Z) :=
  let* d :=
    if current_chunk_len s =? chunk_bytes_read s then parse_chunk_def m s
    else Ret (Next (READ_CHUNK_DATA, s)) in
  match d with
  | Return code s => Ret (Return code s, wd)
  | Next (status, s) =>
      if current_chunk_len s =? 0 then Ret (Return CI_EOF s, wd)
      else if negb (write_to_module_pending s =? 0) then Ret (Return CI_OK s, wd)
      else
      match status with
      | READ_CHUNK_DATA =>
          if pstrblock_read_len s <=? 0 then Ret (Return CI_NEEDS_MORE s, wd)
          else
          let wd := Some (pstrblock_read s) in
          let s := take_chunk_data s in
          if pstrblock_read_len s =? 0 then Ret (Return CI_NEEDS_MORE s, wd)
          else Ret (Next (s, wd), wd)
      | READ_CHUNK_DEF =>
          if pstrblock_read_len s =? 0 then Ret (Return CI_NEEDS_MORE s, wd)
          else Ret (Next (s, wd), wd)
      end
  end.

Fixpoint chunk_loop (fuel : nat) (m : list Z) (s : rstream) (wd : option Z) :
    outcome (Z * option Z * rstream) :=
  match fuel with
  | O => NoFuel
  | S fuel' =>
      let* (r, wd) := chunk_iter m s wd in
      match r with
      | Return code s => Ret (code, wd, s)
      | Next (s, wd) => chunk_loop fuel' m s wd
      end
  end.

Definition parse_chunk_data (fuel : nat) (m : list Z) (s : rstream) :
    outcome (Z * option Z * rstream) :=
  if negb (write_to_module_pending s =? 0) then Ret (CI_ERROR, None, s)
  else chunk_loop fuel m s None.

(** ** Divergence on a negative chunk size *)

(** A block that starts with the size line [-6 CR LF] and one more byte. *)
Definition minus6_block : list Z := bytes "-6" ++ CRLF ++ [88].

Definition minus6_state (c : Z) (req : Z) : rstream :=
  mkRstream 0 5 c c 0 false (-1) req 0 0.

Lemma minus6_iter c wd :
  chunk_iter minus6_block (minus6_state c 0) wd
  = Ret (Next (minus6_state (2 ^ 32 - 4) 0, Some 4), Some 4).
Proof. unfold chunk_iter, minus6_state. cbn [current_chunk_len chunk_bytes_read]. rewrite Z.eqb_refl. reflexivity. Qed.

Lemma minus6_loop fuel c wd : chunk_loop fuel minus6_block (minus6_state c 0) wd = NoFuel.
Proof.
  revert c wd. induction fuel as [|fuel IH]; intros c wd; [done|].
  cbn [chunk_loop]. rewrite minus6_iter. cbn [obind]. apply IH.
Qed.

(** ** The coding of a body and the parser's invariant *)

Definition encode_chunk (d : list Z) : list Z := print_x (zlen d) ++ CRLF ++ d ++ CRLF.

Definition eof_chunk : list Z := bytes "0" ++ CRLF ++ CRLF.

Fixpoint encode (cs : list (list Z)) : list Z :=
  match cs with
  | [] => eof_chunk
  | d :: cs' => encode_chunk d ++ encode cs'
  end.

(** A chunk the parser can represent: not empty, and its length with the CR LF
    that follows fits an [int]. *)
Definition good_chunk (d : list Z) : Prop := 0 < zlen d ≤ INT_MAX - 2.

(** [phase cur rd R D]: with [cur = current_chunk_len] and
    [rd = chunk_bytes_read], the bytes [R] not yet consumed are the rest of a coded
    body whose data not yet delivered are [D]. *)
Inductive phase : Z → Z → list Z → list Z → Prop :=
| phase_def c cs : Forall good_chunk cs → phase c c (encode cs) (concat cs)
| phase_data c r d cs :
    Forall good_chunk cs → 0 ≤ r → c ≤ INT_MAX → c - r = zlen d + 2 →
    phase c r (d ++ CRLF ++ encode cs) (d ++ concat cs)
| phase_lf c r cs :
    Forall good_chunk cs → 0 ≤ r → c ≤ INT_MAX → c - r = 1 →
    phase c r (LF :: encode cs) (concat cs).

(** The block at hand followed by the bytes [fut] still in the network is [R]. *)
Definition inv (m fut : list Z) (s : rstream) (R D : list Z) : Prop :=
  ∃ blk stale,
    0 ≤ pstrblock_read s ∧
    drop (Z.to_nat (pstrblock_read s)) m = blk ++ stale ∧
    pstrblock_read_len s = zlen blk ∧
    R = blk ++ fut ∧
    phase (current_chunk_len s) (chunk_bytes_read s) R D.

Lemma encode_nonempty cs : encode cs ≠ [].
Proof.
  destruct cs as [|d cs]; [done|]. simpl. unfold encode_chunk.
  pose proof (print_num_nonempty 16 (zlen d)) as H. unfold print_x.
  by destruct (print_num 16 (zlen d)).
Qed.

Lemma print_x_no_CR n : 0 ≤ n → Forall (λ b, b ≠ CR) (print_x n).
Proof.
  intros. apply print_num_chars; [lia|done|]. intros d Hd.
  unfold CR. pose proof (digit_char_range d). lia.
Qed.

Lemma skip_blanks_stop (m r : list Z) e c :
  drop (Z.to_nat e) m = c :: r → is_blank c = false → skip_blanks m e = Ret e.
Proof.
  intros Hm Hc. unfold skip_blanks. rewrite Hm, skip_while_stop by done.
  simpl. f_equal. lia.
Qed.

Lemma load_drop (m r : list Z) e c : 0 ≤ e → drop (Z.to_nat e) m = c :: r → load m e = Ret c.
Proof.
  intros ? H. apply load_lookup; [done|].
  by rewrite <- (Nat.add_0_r (Z.to_nat e)), <- lookup_drop, H.
Qed.

(** Moving a pointer over a known prefix. *)
Lemma drop_advance (m pre r : list Z) p :
  0 ≤ p → drop (Z.to_nat p) m = pre ++ r → drop (Z.to_nat (p + zlen pre)) m = r.
Proof.
  intros ? H. replace (Z.to_nat (p + zlen pre)) with (Z.to_nat p + length pre)%nat by (unfold zlen; lia).
  by rewrite <- drop_drop, H, drop_app_length.
Qed.

Lemma drop_advance' (m pre r : list Z) p q :
  0 ≤ p → drop (Z.to_nat p) m = pre ++ r → q = p + zlen pre → drop (Z.to_nat q) m = r.
Proof. intros ? ? ->. by apply drop_advance. Qed.

(** A block cut out of [X ++ Y] ends inside [X] or contains it. *)
Lemma app_split_cases (blk fut X Y : list Z) :
  blk ++ fut = X ++ Y →
  (∃ x, x ≠ [] ∧ X = blk ++ x ∧ fut = x ++ Y) ∨ (∃ b, blk = X ++ b ∧ Y = b ++ fut).
Proof.
  intros H. apply app_eq_app in H as [l [[-> ->]|[-> ->]]].
  - right. by exists l.
  - destruct l as [|c l]; [right; exists []; by rewrite !app_nil_r|].
    left. by exists (c :: l).
Qed.

Lemma digit_CR base : base ≤ 16 → is_digit base CR = false.
Proof. done. Qed.

(** *** The size line *)

Lemma parse_chunk_def_line (m blk stale : list Z) s n :
  0 ≤ pstrblock_read s →
  drop (Z.to_nat (pstrblock_read s)) m = print_x n ++ CRLF ++ blk ++ stale →
  pstrblock_read_len s = zlen (print_x n ++ CRLF ++ blk) →
  0 < n ≤ INT_MAX - 2 →
  let k := zlen (print_x n) + 2 in
  parse_chunk_def m s =
    Ret (Next (READ_CHUNK_DATA,
      set_block (pstrblock_read s + k) (zlen blk)
        (set_chunk (n + 2) 0 (count_request k s)))).
Proof.
  intros Hp Hm Hlen Hn k. unfold parse_chunk_def. rewrite Hm.
  pose proof (print_x_no_CR n ltac:(lia)) as HCR.
  unfold CRLF. cbn [app].
  rewrite (ci_strnstr_skip CR [LF] (print_x n) (blk ++ stale)); [|done|].
  2:{ unfold zlen in Hlen. rewrite !length_app in Hlen. simpl in *. lia. }
  cbn [scan obind].
  unfold CRLF in Hm. cbn [app] in Hm.
  rewrite strtol_print_x; [|unfold INT_MAX, LONG_MAX in *; lia | done..].
  cbn [scan obind].
  rewrite to_int_id by (unfold INT_MIN, INT_MAX in *; lia). solve_cmp.
  rewrite to_uint_id by (unfold INT_MAX in *; lia).
  pose proof (drop_advance m (print_x n) _ _ Hp Hm) as He.
  rewrite (skip_blanks_stop _ _ _ _ He) by done. cbn [obind current_chunk_len set_chunk].
  solve_cmp. cbn [obind].
  rewrite (λ P, load_drop _ _ _ _ P He) by zlia. cbn [obind]. rewrite Z.eqb_refl.
  assert (He' : drop (Z.to_nat (pstrblock_read s + zlen (print_x n) + 1)) m = LF :: blk ++ stale).
  { apply (drop_advance' m [CR] _ (pstrblock_read s + zlen (print_x n))); [zlia|done|zlia]. }
  rewrite (λ P, load_drop _ _ _ _ P He') by zlia. cbn [obind]. rewrite Z.eqb_refl.
  cbn. rewrite to_uint_id by (unfold INT_MAX in *; lia).
  unfold set_block, set_chunk, count_request. cbn. do 4 f_equal. rewrite Hlen. unfold k, CRLF. zlia.
Qed.

(** The size line is not complete: nothing is consumed. *)
Lemma parse_chunk_def_cut (m pre rest : list Z) s :
  drop (Z.to_nat (pstrblock_read s)) m = pre ++ rest →
  Forall (λ b, b ≠ CR) pre → pstrblock_read_len s < zlen pre + 2 →
  pstrblock_read_len s < BUFSIZE →
  parse_chunk_def m s = Ret (Return CI_NEEDS_MORE s).
Proof.
  intros Hm Hpre Hlen Hsz. unfold parse_chunk_def. rewrite Hm. unfold CRLF.
  rewrite ci_strnstr_cut; [|done|unfold zlen in *; simpl; lia].
  cbn [scan obind]. by solve_cmp.
Qed.

(** The zero chunk. *)
Lemma parse_chunk_def_eof (m stale : list Z) s :
  0 ≤ pstrblock_read s →
  drop (Z.to_nat (pstrblock_read s)) m = eof_chunk ++ stale →
  pstrblock_read_len s = 5 →
  parse_chunk_def m s =
    Ret (Next (READ_CHUNK_DEF,
      set_block (pstrblock_read s + 5) 0 (count_request 2 (set_chunk 0 0 (count_request 3 s))))).
Proof.
  intros Hp Hm Hlen. unfold parse_chunk_def.
  assert (H1 : drop (Z.to_nat (pstrblock_read s + 1)) m = CR :: LF :: CRLF ++ stale)
    by (by apply (drop_advance' m [48] _ (pstrblock_read s))).
  assert (H2 : drop (Z.to_nat (pstrblock_read s + 1 + 1)) m = LF :: CRLF ++ stale)
    by (apply (drop_advance' m [48; CR] _ (pstrblock_read s)); [done..|zlia]).
  assert (H3 : drop (Z.to_nat (pstrblock_read s + (1 + 2))) m = CR :: LF :: stale)
    by (by apply (drop_advance' m [48; CR; LF] _ (pstrblock_read s))).
  rewrite Hm, Hlen, (eq_refl : ci_strnstr CRLF (Z.to_nat 5) (eof_chunk ++ stale) = Some (Some 1)).
  cbn [scan obind]. rewrite (eq_refl : strtol 16 (eof_chunk ++ stale) = Some (0, 1)).
  cbn [scan obind]. change (to_int 0) with 0. change (to_uint 0) with 0. cbn [Z.eqb andb].
  rewrite (skip_blanks_stop _ _ _ _ H1) by done.
  cbn [obind current_chunk_len set_chunk count_request pstrblock_read_len Z.eqb]. rewrite Hlen.
  change (5 - (1 + 2) <? 2) with false. cbn [obind].
  rewrite (λ P, load_drop _ _ _ _ P H3) by lia. cbn [obind]. rewrite Z.eqb_refl. cbn [negb obind].
  rewrite (λ P, load_drop _ _ _ _ P H1) by lia. cbn [obind]. change (CR =? 59) with false.
  cbn [obind]. rewrite (λ P, load_drop _ _ _ _ P H1) by lia. cbn [obind]. rewrite Z.eqb_refl.
  rewrite (λ P, load_drop _ _ _ _ P H2) by lia. cbn. by rewrite Hlen.
Qed.

(** The zero chunk is cut after its size line. *)
Lemma parse_chunk_def_eof_cut (m stale : list Z) s :
  0 ≤ pstrblock_read s →
  drop (Z.to_nat (pstrblock_read s)) m = bytes "0" ++ CRLF ++ stale →
  3 ≤ pstrblock_read_len s < 5 →
  parse_chunk_def m s = Ret (Return CI_NEEDS_MORE (set_chunk 0 0 (count_request 3 s))).
Proof.
  intros Hp Hm Hlen. unfold parse_chunk_def.
  assert (H1 : drop (Z.to_nat (pstrblock_read s + 1)) m = CR :: LF :: stale)
    by (by apply (drop_advance' m [48] _ (pstrblock_read s))).
  rewrite Hm. change (bytes "0" ++ CRLF ++ stale) with ([48] ++ CR :: [LF] ++ stale).
  rewrite (ci_strnstr_skip CR [LF] [48] stale); [|by repeat constructor|simpl; lia].
  cbn [scan obind]. rewrite (eq_refl : strtol 16 ([48] ++ CR :: [LF] ++ stale) = Some (0, 1)).
  cbn [scan obind]. change (to_int 0) with 0. change (to_uint 0) with 0. cbn [Z.eqb andb].
  rewrite (skip_blanks_stop _ _ _ _ H1) by done.
  cbn [obind current_chunk_len set_chunk count_request pstrblock_read_len Z.eqb].
  change (zlen [48] + 2) with 3. by solve_cmp.
Qed.

(** ** The size line, from the invariant *)

Lemma zlen_print_x n : 0 ≤ n ≤ INT_MAX → 0 < zlen (print_x n) ≤ 32.
Proof.
  intros Hn. unfold zlen, print_x, print_num. rewrite length_print_aux.
  assert (H : ∀ f x, (ndigits 16 f x ≤ f)%nat).
  { induction f as [|f IH]; intros x; simpl; [lia|]. case_cmp; [lia|]. specialize (IH (x / 16)). lia. }
  specialize (H (S (Z.to_nat (Z.log2 n))) n).
  assert (Z.log2 n < 31).
  { destruct (decide (n = 0)) as [->|]; [done|]. apply Z.log2_lt_pow2; unfold INT_MAX in *; lia. }
  split; [|simpl length; lia]. simpl. case_cmp; simpl; lia.
Qed.

(** At a size line the rest of the stream is the coding of the rest of the body. *)
Lemma phase_at_def c r R D :
  phase c r R D → c = r → ∃ cs, Forall good_chunk cs ∧ R = encode cs ∧ D = concat cs.
Proof. intros [c' cs Hcs|c' r' d cs ? ? ? ?|] ?; [by exists cs|zlia..]. Qed.

Lemma inv_def_cut (m fut blk stale x : list Z) s D :
  inv m fut s (blk ++ fut) D → drop (Z.to_nat (pstrblock_read s)) m = blk ++ stale →
  pstrblock_read_len s = zlen blk → zlen blk < BUFSIZE →
  ∀ pre, blk ++ x = pre ++ CRLF → x ≠ [] → Forall (λ b, b ≠ CR) pre →
  parse_chunk_def m s = Ret (Return CI_NEEDS_MORE s).
Proof.
  intros _ Hm Hlen Hsz pre HX Hx Hpre.
  assert (zlen blk < zlen pre + 2).
  { apply (f_equal zlen) in HX. destruct x; [done|]. rewrite !zlen_app, zlen_cons in HX.
    change (zlen CRLF) with 2 in HX. zlia. }
  apply app_split_cases in HX as [(y & Hy & -> & _)|(y & -> & _)].
  - apply Forall_app in Hpre as [Hpre _].
    apply (parse_chunk_def_cut m blk stale); [done|done|lia..].
  - rewrite <- app_assoc in Hm.
    apply (parse_chunk_def_cut m pre (y ++ stale)); [done|done|lia..].
Qed.

Lemma inv_def_spec m fut s R D :
  inv m fut s R D → current_chunk_len s = chunk_bytes_read s →
  (∃ s', parse_chunk_def m s = Ret (Return CI_NEEDS_MORE s') ∧ inv m fut s' R D ∧
         write_to_module_pending s' = write_to_module_pending s ∧
         eof_received s' = eof_received s ∧ fut ≠ [] ∧
         pstrblock_read_len s' = pstrblock_read_len s ∧ pstrblock_read_len s < BUFSIZE) ∨
  (∃ s', parse_chunk_def m s = Ret (Next (READ_CHUNK_DEF, s')) ∧ current_chunk_len s' = 0 ∧
         write_to_module_pending s' = write_to_module_pending s ∧
         eof_received s' = eof_received s ∧ fut = [] ∧ D = [] ∧ pstrblock_read_len s' = 0) ∨
  (∃ s' R', parse_chunk_def m s = Ret (Next (READ_CHUNK_DATA, s')) ∧ inv m fut s' R' D ∧
         current_chunk_len s' ≠ 0 ∧ current_chunk_len s' ≠ chunk_bytes_read s' ∧
         write_to_module_pending s' = write_to_module_pending s ∧
         eof_received s' = eof_received s ∧ zlen R' < zlen R ∧
         0 ≤ pstrblock_read_len s' < pstrblock_read_len s).
Proof.
  intros Hinv Hcr. pose proof Hinv as (blk & stale & Hp & Hm & Hlen & -> & Hph).
  destruct (phase_at_def _ _ _ _ Hph Hcr) as (cs & Hcs & HR & ->).
  destruct cs as [|d cs]; simpl in HR.
  - (* zero chunk *)
    assert (Hbf : blk ++ fut = (bytes "0" ++ CRLF) ++ CRLF) by (by rewrite HR).
    apply app_split_cases in Hbf as [(x & Hx & HX & ->)|(b & -> & Hb)].
    { left. exists s.
      assert (zlen blk < BUFSIZE).
      { apply (f_equal zlen) in HX. change (zlen (bytes "0" ++ CRLF)) with 3 in HX.
        unfold BUFSIZE. zlia. }
      split_and!; try done; [|by destruct x|lia].
      eapply inv_def_cut; [done..|by symmetry|done|by repeat constructor]. }
    assert (Hbf : b ++ fut = CRLF ++ []) by done. rewrite <- app_assoc in Hm.
    apply app_split_cases in Hbf as [(x & Hx & HX & ->)|(b' & -> & Hb')].
    + left. exists (set_chunk 0 0 (count_request 3 s)).
      assert (Hb5 : 3 ≤ pstrblock_read_len s < 5).
      { rewrite Hlen. apply (f_equal zlen) in HX. destruct x; [done|].
        rewrite zlen_app, zlen_cons in HX. change (zlen CRLF) with 2 in HX.
        rewrite zlen_app. change (zlen (bytes "0" ++ CRLF)) with 3. zlia. }
      split_and!; try done; [| |by destruct x|unfold BUFSIZE; lia].
      * apply (parse_chunk_def_eof_cut m (b ++ stale)); [done|by rewrite <- app_assoc in Hm|lia].
      * exists ((bytes "0" ++ CRLF) ++ b), stale. split_and!; try done.
        rewrite HR. by apply (phase_def 0 []).
    + right; left. symmetry in Hb'. apply app_eq_nil in Hb' as [-> ->].
      eexists. split; [apply (parse_chunk_def_eof m stale); [done| |by rewrite Hlen]|by destruct s].
      by rewrite Hm, !app_nil_r, <- !app_assoc.
  - (* a data chunk *)
    apply Forall_cons_1 in Hcs as [[Hd1 Hd2] Hcs].
    pose proof (zlen_print_x (zlen d) ltac:(unfold INT_MAX in *; lia)).
    assert (HR' : blk ++ fut = (print_x (zlen d) ++ CRLF) ++ (d ++ CRLF ++ encode cs))
      by (unfold encode_chunk in HR; by rewrite HR, <- !app_assoc).
    apply app_split_cases in HR' as [(x & Hx & HX & ->)|(b & -> & Hb)].
    + left. exists s.
      assert (zlen blk < BUFSIZE).
      { apply (f_equal zlen) in HX. rewrite !zlen_app in HX. change (zlen CRLF) with 2 in HX.
        unfold BUFSIZE. zlia. }
      split_and!; try done; [|by destruct x|lia].
      eapply inv_def_cut; [done..|by symmetry|done|by apply print_x_no_CR; lia].
    + right; right. rewrite <- !app_assoc in Hm. rewrite <- !app_assoc in Hlen.
      eexists _, (b ++ fut). split.
      { apply (parse_chunk_def_line m b stale _ (zlen d)); [done|done|done|lia]. }
      split_and!; cbn; try lia; try done.
      * exists b, stale. split_and!; cbn; try done; [zlia| |].
        { apply (drop_advance' m (print_x (zlen d) ++ CRLF) _ (pstrblock_read s));
            [done|by rewrite <- app_assoc|]. rewrite zlen_app. by change (zlen CRLF) with 2; lia. }
        rewrite <- Hb. apply phase_data; [done|lia..].
      * rewrite !zlen_app. change (zlen CRLF) with 2. zlia.
      * zlia.
      * rewrite Hlen, !zlen_app. change (zlen CRLF) with 2. zlia.
Qed.

(** *** Taking data *)

Lemma phase_not_def c r R D :
  phase c r R D → c ≠ r →
  0 ≤ r ∧ c ≤ INT_MAX ∧
  ∃ t d cs, Forall good_chunk cs ∧ zlen t = c - r ∧ R = t ++ encode cs ∧ D = d ++ concat cs ∧
    (t = d ++ CRLF ∨ (t = [LF] ∧ d = [])).
Proof.
  intros [c0 cs0 _|c1 r1 d cs Hcs ? ? ?|c1 r1 cs Hcs ? ? ?] ?; [done| |].
  - split_and!; [lia..|]. exists (d ++ CRLF), d, cs. rewrite <- app_assoc.
    split_and!; try done; [|by left]. rewrite zlen_app. change (zlen CRLF) with 2. lia.
  - split_and!; [lia..|]. exists [LF], [], cs. split_and!; try done. by right.
Qed.

(** What [take_chunk_data] computes when nothing overflows. *)
Lemma take_chunk_data_all s r :
  r = current_chunk_len s - chunk_bytes_read s → 0 < r ≤ pstrblock_read_len s →
  0 ≤ chunk_bytes_read s → current_chunk_len s ≤ INT_MAX →
  let s' := take_chunk_data s in
  pstrblock_read s' = pstrblock_read s + r ∧ pstrblock_read_len s' = pstrblock_read_len s - r ∧
  current_chunk_len s' = current_chunk_len s ∧ chunk_bytes_read s' = current_chunk_len s ∧
  write_to_module_pending s' = Z.max 0 (r - 2) ∧ eof_received s' = eof_received s.
Proof.
  intros Hr Hl H0 Hc s'. unfold s', take_chunk_data. unfold INT_MAX in *.
  rewrite <- Hr, (to_int_id r) by (unfold INT_MIN, INT_MAX; lia). solve_cmp.
  destruct (Z.ltb_spec 2 r); cbn; rewrite !to_uint_id by lia; split_and!; lia || done.
Qed.

Lemma take_chunk_data_part s r :
  r = current_chunk_len s - chunk_bytes_read s → 0 < pstrblock_read_len s < r →
  0 ≤ chunk_bytes_read s → current_chunk_len s ≤ INT_MAX →
  let s' := take_chunk_data s in
  let n := pstrblock_read_len s in
  pstrblock_read s' = pstrblock_read s + n ∧ pstrblock_read_len s' = 0 ∧
  current_chunk_len s' = current_chunk_len s ∧ chunk_bytes_read s' = chunk_bytes_read s + n ∧
  write_to_module_pending s' = Z.min n (r - 2) ∧ eof_received s' = eof_received s.
Proof.
  intros Hr Hl H0 Hc s' n. unfold s', take_chunk_data. unfold INT_MAX in *.
  rewrite <- Hr, (to_int_id r) by (unfold INT_MIN, INT_MAX; lia). solve_cmp.
  destruct (Z.ltb_spec (r - pstrblock_read_len s) 2); cbn; rewrite !to_uint_id by lia;
    unfold n; split_and!; lia || done.
Qed.

Lemma slice_drop_app (m d r : list Z) p :
  drop (Z.to_nat p) m = d ++ r → slice m p (zlen d) = d.
Proof. intros H. unfold slice. rewrite H, zlen_to_nat. by rewrite take_app_length. Qed.

(** The block ends inside the chunk: before the end of its data, or between the
    CR and the LF that follow. *)
Lemma inv_take_part m fut (blk stale d x : list Z) s cs :
  0 ≤ pstrblock_read s → drop (Z.to_nat (pstrblock_read s)) m = blk ++ stale →
  pstrblock_read_len s = zlen blk → 0 < zlen blk → x ≠ [] →
  Forall good_chunk cs → 0 ≤ chunk_bytes_read s → current_chunk_len s ≤ INT_MAX →
  zlen d + 2 = current_chunk_len s - chunk_bytes_read s →
  d ++ CRLF = blk ++ x → fut = x ++ encode cs →
  let s' := take_chunk_data s in
  ∃ D', inv m fut s' fut D' ∧
    d ++ concat cs = slice m (pstrblock_read s) (write_to_module_pending s') ++ D' ∧
    0 ≤ write_to_module_pending s' ≤ pstrblock_read_len s ∧ eof_received s' = eof_received s ∧
    pstrblock_read_len s' = 0.
Proof.
  intros Hp Hm Hlen Hl Hx Hcs H0 Hc Hr HX Hf.
  assert (Hlt : zlen blk < zlen d + 2).
  { apply (f_equal zlen) in HX. destruct x; [done|].
    rewrite !zlen_app, zlen_cons in HX. change (zlen CRLF) with 2 in HX. zlia. }
  destruct (take_chunk_data_part s (current_chunk_len s - chunk_bytes_read s))
    as (E1 & E2 & E3 & E4 & E5 & E6); [done|lia..|].
  set (s' := take_chunk_data s) in *. clearbody s'. rewrite Hlen in *.
  pose proof (drop_advance m blk stale _ Hp Hm) as Hm'. rewrite <- E1 in Hm'.
  assert (Hinv : ∀ D', phase (current_chunk_len s') (chunk_bytes_read s') fut D' → inv m fut s' fut D').
  { intros D' Hph. exists [], stale. split_and!; [lia|done|done|done|done]. }
  symmetry in HX. apply app_split_cases in HX as [(y & Hy & -> & Hxy)|(z & -> & Hz)].
  - exists (y ++ concat cs). rewrite zlen_app in *.
    replace (write_to_module_pending s') with (zlen blk) by zlia.
    rewrite (slice_drop_app _ _ _ _ Hm), <- app_assoc. split_and!; try done; [|zlia..].
    apply Hinv. rewrite Hf, Hxy, <- app_assoc. apply phase_data; [done|lia..].
  - rewrite zlen_app in *. destruct z as [|c1 [|c2 z]].
    + exists (concat cs). rewrite ?app_nil_r, ?zlen_nil in *.
      replace (write_to_module_pending s') with (zlen d) by zlia.
      rewrite (slice_drop_app _ _ _ _ Hm). split_and!; try done; [|zlia..].
      apply Hinv. rewrite Hf. simpl in Hz. subst x.
      apply (phase_data _ _ []); [done|rewrite ?zlen_nil; lia..].
    + injection Hz as <- <-. exists (concat cs).
      replace (write_to_module_pending s') with (zlen d) by zlia.
      rewrite <- app_assoc in Hm.
      rewrite (slice_drop_app _ _ _ _ Hm). split_and!; try done; [|zlia..].
      apply Hinv. rewrite Hf. apply phase_lf; [done|zlia..].
    + injection Hz as _ _ Hz. symmetry in Hz. by apply app_eq_nil in Hz as [_ ->].
Qed.

Lemma inv_take_spec m fut s R D :
  inv m fut s R D → current_chunk_len s ≠ chunk_bytes_read s → 0 < pstrblock_read_len s →
  let s' := take_chunk_data s in
  ∃ R' D', inv m fut s' R' D' ∧ zlen R' < zlen R ∧
    D = slice m (pstrblock_read s) (write_to_module_pending s') ++ D' ∧
    0 ≤ write_to_module_pending s' ≤ pstrblock_read_len s - pstrblock_read_len s' ∧ eof_received s' = eof_received s ∧
    0 ≤ pstrblock_read_len s' < pstrblock_read_len s ∧
    (pstrblock_read_len s' ≠ 0 → current_chunk_len s' = chunk_bytes_read s') ∧
    (pstrblock_read_len s' = 0 → fut ≠ []).
Proof.
  intros (blk & stale & Hp & Hm & Hlen & -> & Hph) Hne Hl s'.
  destruct (phase_not_def _ _ _ _ Hph Hne) as (H0 & Hc & t & d & cs & Hcs & Ht & HR & -> & Htd).
  assert (Hd : zlen d = Z.max 0 (zlen t - 2) ∧ ∃ y, t = d ++ y).
  { destruct Htd as [->|[-> ->]]; [|by split; [|exists [LF]]]. split; [|by exists CRLF].
    rewrite zlen_app. change (zlen CRLF) with 2. zlia. }
  destruct Hd as [Hdl [y Hy]].
  apply app_split_cases in HR as [(x & Hx & Htx & Hf)|(b & -> & Hb)].
  - assert (Hbt : zlen blk < zlen t) by (rewrite Htx, zlen_app; destruct x; [done|zlia]).
    destruct Htd as [->|[-> ->]]; [|by rewrite zlen_cons, zlen_nil in Hbt; zlia].
    destruct (inv_take_part m fut blk stale d x s cs) as (D' & I1 & I2 & I3 & I4 & I5);
      try done; [lia|rewrite zlen_app in Ht; change (zlen CRLF) with 2 in Ht; lia|].
    fold s' in I1, I2, I3, I4, I5. clearbody s'.
    exists fut, D'. split_and!; try done; try lia; [zlia|].
    intros _ Hn. rewrite Hn in Hf. symmetry in Hf. by apply app_eq_nil in Hf as [-> _].
  - rewrite zlen_app in Hlen.
    destruct (take_chunk_data_all s (current_chunk_len s - chunk_bytes_read s))
      as (E1 & E2 & E3 & E4 & E5 & E6); [done|zlia|lia..|].
    fold s' in E1, E2, E3, E4, E5, E6. clearbody s'. rewrite <- app_assoc in Hm.
    exists (b ++ fut), (concat cs).
    replace (write_to_module_pending s') with (zlen d) by lia.
    rewrite Hy, <- app_assoc in Hm. rewrite (slice_drop_app _ _ _ _ Hm).
    split_and!; try done; try zlia.
    + exists b, stale. split_and!; [zlia| |lia|done|].
      * apply (drop_advance' m t _ (pstrblock_read s)); [done|by rewrite Hy, <- app_assoc|lia].
      * rewrite E3, E4, <- Hb. by apply phase_def.
    + intros Hz Hn. rewrite Hn, app_nil_r in Hb.
      assert (b = []) as -> by (destruct b; [done|rewrite zlen_cons in Hlen; zlia]).
      by apply (encode_nonempty cs).
Qed.

(** ** One call of the parser *)

(** The data a call hands over: [write_to_module_pending] bytes at [*wdata]. *)
Definition delivered (m : list Z) (wd : option Z) (s : rstream) : list Z :=
  match wd with
  | Some w => slice m w (write_to_module_pending s)
  | None => []
  end.

(** What the caller may rely on when the rest of the stream is the coding of a
    body: more input is needed (and exists, and there is room to read it), data
    are handed over, or the body is complete. *)
Definition chunk_post (m fut : list Z) (code : Z) (s : rstream) (R D : list Z) : Prop :=
  (code = CI_NEEDS_MORE ∧ fut ≠ [] ∧ inv m fut s R D ∧ pstrblock_read_len s < BUFSIZE) ∨
  (code = CI_OK ∧ inv m fut s R D ∧ 0 < write_to_module_pending s) ∨
  (code = CI_EOF ∧ fut = [] ∧ D = [] ∧ pstrblock_read_len s = 0).

(** The data handed over lie in the block. *)
Definition pending_ok (m : list Z) (wd : option Z) (s : rstream) : Prop :=
  match wd with
  | Some w => 0 ≤ w ∧ 0 ≤ write_to_module_pending s ∧ w + write_to_module_pending s ≤ zlen m
  | None => write_to_module_pending s = 0
  end.

(** What is handed over was in the block. *)
Definition shrinks (s s' : rstream) : Prop :=
  write_to_module_pending s' + pstrblock_read_len s' ≤ write_to_module_pending s + pstrblock_read_len s.

(** The outcome of an iteration, relative to the state before it. *)
Definition iter_post (m fut : list Z) (s : rstream) (wd : option Z) (R D : list Z)
    (r : flow (rstream * option Z)) (wd' : option Z) : Prop :=
  match r with
  | Return code s' => ∃ R' D', chunk_post m fut code s' R' D' ∧ pending_ok m wd' s' ∧
      eof_received s' = eof_received s ∧
      delivered m wd s ++ D = delivered m wd' s' ++ D' ∧
      (code ≠ CI_EOF → zlen R' ≤ zlen R) ∧ (code = CI_OK → zlen R' < zlen R) ∧ shrinks s s'
  | Next (s', wd'') => wd'' = wd' ∧ ∃ R' D', inv m fut s' R' D' ∧ pending_ok m wd' s' ∧
      eof_received s' = eof_received s ∧
      delivered m wd s ++ D = delivered m wd' s' ++ D' ∧ zlen R' < zlen R ∧
      current_chunk_len s' = chunk_bytes_read s' ∧
      0 ≤ pstrblock_read_len s' < pstrblock_read_len s ∧ shrinks s s'
  end.

Lemma delivered_none m wd s : write_to_module_pending s = 0 → delivered m wd s = [].
Proof. intros H. unfold delivered. destruct wd; [|done]. by rewrite H, slice_nil. Qed.

Lemma same_pending m wd s s' :
  write_to_module_pending s' = write_to_module_pending s →
  delivered m wd s' = delivered m wd s ∧ (pending_ok m wd s → pending_ok m wd s').
Proof. intros H. unfold delivered, pending_ok. by rewrite H. Qed.

(** The data part of an iteration. *)
Lemma chunk_iter_data m fut s wd R D :
  inv m fut s R D → current_chunk_len s ≠ chunk_bytes_read s → write_to_module_pending s = 0 →
  pending_ok m wd s →
  ∃ r wd',
    (if pstrblock_read_len s <=? 0 then Ret (Return CI_NEEDS_MORE s, wd)
     else let wd := Some (pstrblock_read s) in
          let s := take_chunk_data s in
          if pstrblock_read_len s =? 0 then Ret (Return CI_NEEDS_MORE s, wd)
          else Ret (Next (s, wd), wd)) = Ret (r, wd') ∧
    iter_post m fut s wd R D r wd'.
Proof.
  intros Hinv Hne Hpd Hok. destruct (Z.leb_spec (pstrblock_read_len s) 0) as [Hl|Hl].
  - eexists _, _. split; [done|]. exists R, D.
    split_and!; try (done || (by unfold shrinks)). left. split_and!; try done; [|unfold BUFSIZE; lia].
    destruct Hinv as (blk & stale & _ & _ & Hlen & HR & Hph).
    destruct (phase_not_def _ _ _ _ Hph Hne) as (_ & _ & t & d & cs & _ & _ & HR' & _).
    intros ->. destruct blk; [|zlia]. subst R. symmetry in HR'.
    apply app_eq_nil in HR' as [_ HR']. by apply encode_nonempty in HR'.
  - destruct (inv_take_spec _ _ _ _ _ Hinv Hne Hl)
      as (R' & D' & Hinv' & HR & HD & Hp & He & Hlen & Hdef & Hfut).
    cbn zeta. set (s' := take_chunk_data s) in *. clearbody s'.
    pose proof (delivered_none m wd s Hpd) as Hdn.
    assert (pending_ok m (Some (pstrblock_read s)) s').
    { destruct Hinv as (blk & stale & Hp0 & Hm & Hbl & _ & _).
      apply (f_equal zlen) in Hm. rewrite zlen_drop, zlen_app in Hm.
      pose proof (zlen_nonneg stale). cbn. lia. }
    destruct (Z.eqb_spec (pstrblock_read_len s') 0) as [H0|H0];
      eexists _, _; (split; [done|]); cbn [iter_post]; rewrite Hdn.
    + exists R', D'. split_and!; try (done || (unfold shrinks; lia)). left.
      split_and!; auto. unfold BUFSIZE. lia.
    + split; [done|]. exists R', D'. split_and!; try done; unfold shrinks; lia || auto.
Qed.

Lemma chunk_iter_spec m fut s wd R D :
  inv m fut s R D → pending_ok m wd s →
  write_to_module_pending s = 0 ∨ current_chunk_len s = chunk_bytes_read s →
  ∃ r wd', chunk_iter m s wd = Ret (r, wd') ∧ iter_post m fut s wd R D r wd'.
Proof.
  intros Hinv Hpd Hst. unfold chunk_iter.
  destruct (Z.eqb_spec (current_chunk_len s) (chunk_bytes_read s)) as [Heq|Hne].
  - destruct (inv_def_spec _ _ _ _ _ Hinv Heq)
      as [(s' & -> & I & Hp & He & Hf & Hl & Hb)|[(s' & -> & Hc & Hp & He & Hf & -> & Hl0)|
          (s' & R' & -> & I & Hc & Hcr & Hp & He & HR & Hl)]]; cbn [obind].
    + destruct (same_pending m wd s s' Hp) as [Hd Hok].
      eexists _, _. split; [done|]. exists R, D. rewrite Hd.
      split_and!; try ((by auto) || (unfold shrinks; lia)). left. split_and!; try done. lia.
    + destruct (same_pending m wd s s' Hp) as [Hd Hok].
      rewrite (proj2 (Z.eqb_eq _ _) Hc). eexists _, _. split; [done|]. exists R, []. rewrite Hd.
      assert (0 ≤ pstrblock_read_len s) by (destruct Hinv as (blk & ? & _ & _ & -> & _); apply zlen_nonneg).
      split_and!; try ((by auto) || (unfold shrinks; lia)). by right; right.
    + rewrite (proj2 (Z.eqb_neq _ _) Hc).
      destruct (Z.eqb_spec (write_to_module_pending s') 0) as [H0|H0]; cbn [negb].
      * destruct (same_pending m wd s s' Hp) as [Hd Hok].
        destruct (chunk_iter_data m fut s' wd R' D I Hcr H0 (Hok Hpd)) as (r & wd' & Hrun & Hpost).
        exists r, wd'. split; [exact Hrun|]. unfold iter_post in *.
        rewrite (delivered_none m wd s) by congruence.
        rewrite (delivered_none m wd s') in Hpost by done. rewrite <- He.
        destruct r as [code s2|[s2 wd2]].
        -- destruct Hpost as (R2 & D2 & ? & ? & ? & ? & Hle & Hlt & Hsh). exists R2, D2. unfold shrinks in *.
           split_and!; try done; [|lia|lia]. intros H'. specialize (Hle H'). lia.
        -- destruct Hpost as (? & R2 & D2 & ? & ? & ? & ? & ? & ? & ? & Hsh). split; [done|]. unfold shrinks in *.
           exists R2, D2. split_and!; done || lia.
      * destruct (same_pending m wd s s' Hp) as [Hd Hok].
        eexists _, _. split; [done|]. exists R', D. rewrite Hd.
        split_and!; try ((by auto) || lia || (unfold shrinks; lia)). right; left. specialize (Hok Hpd).
        split_and!; try done. unfold pending_ok in Hok. destruct wd; lia.
  - destruct Hst as [H0|]; [|done]. cbn [obind].
    assert (Hc : current_chunk_len s ≠ 0).
    { destruct Hinv as (blk & stale & _ & _ & _ & _ & Hph).
      destruct (phase_not_def _ _ _ _ Hph Hne) as (? & ? & t & d & cs & _ & Ht & _).
      pose proof (zlen_nonneg t). lia. }
    rewrite (proj2 (Z.eqb_neq _ _) Hc), (proj2 (Z.eqb_eq _ _) H0). cbn [negb].
    by apply chunk_iter_data.
Qed.

Lemma chunk_loop_spec fuel m fut s wd R D :
  (Z.to_nat (pstrblock_read_len s) < fuel)%nat →
  inv m fut s R D → pending_ok m wd s →
  write_to_module_pending s = 0 ∨ current_chunk_len s = chunk_bytes_read s →
  ∃ code wd' s', chunk_loop fuel m s wd = Ret (code, wd', s') ∧
    iter_post m fut s wd R D (Return code s') wd'.
Proof.
  revert s wd R D. induction fuel as [|fuel IH]; intros s wd R D Hfuel Hinv Hpd Hst; [lia|].
  cbn [chunk_loop].
  destruct (chunk_iter_spec _ _ _ _ _ _ Hinv Hpd Hst) as (r & wd' & -> & Hpost). cbn [obind].
  destruct r as [code s'|[s' wd2]]; [by exists code, wd', s'|].
  destruct Hpost as (-> & R' & D' & Hinv' & Hpd' & He & HD & HR & Hcr & Hl & Hsh).
  destruct (IH s' wd' R' D' ltac:(lia) Hinv' Hpd' (or_intror Hcr)) as (code & wd3 & s3 & -> & Hp3).
  exists code, wd3, s3. split; [done|].
  destruct Hp3 as (R3 & D3 & ? & ? & He3 & HD3 & Hle & Hlt & Hsh3). exists R3, D3. unfold shrinks in *.
  rewrite HD, HD3, He3. split_and!; try done; [|lia|lia]. intros H'. specialize (Hle H'). lia.
Qed.

Lemma parse_chunk_data_spec fuel m fut s R D :
  (Z.to_nat (pstrblock_read_len s) < fuel)%nat →
  inv m fut s R D → write_to_module_pending s = 0 →
  ∃ code wd s', parse_chunk_data fuel m s = Ret (code, wd, s') ∧
    iter_post m fut s None R D (Return code s') wd.
Proof.
  intros Hfuel Hinv Hpd. unfold parse_chunk_data. rewrite Hpd. cbn [Z.eqb negb].
  apply chunk_loop_spec; [done|done|done|by left].
Qed.

(** ** Termination on non-negative sizes *)

Lemma parse_eof_extension_chunk m e s e' s' :
  parse_eof_extension m e s = Ret (Next (e', s')) → current_chunk_len s' = current_chunk_len s.
Proof.
  unfold parse_eof_extension. intros H.
  apply obind_Ret in H as (e1 & _ & H). apply obind_Ret in H as (orig & _ & H).
  apply obind_Ret in H as (r & Hr & H).
  assert (Hs : match r with Next (_, s2) => current_chunk_len s2 = current_chunk_len s | _ => True end).
  { destruct orig; [by apply obind_Ret in Hr as ([] & _ & [= <-])|].
    apply obind_Ret in Hr as ([] & _ & Hr); by injection Hr as <-. }
  destruct r as [|[e2 s2]]; [done|]. apply obind_Ret in H as ([] & _ & [= <- <-]). done.
Qed.

Lemma scan_nofuel {A : Type} (o : option A) : scan o ≠ NoFuel.
Proof. by destruct o. Qed.

Lemma skip_blanks_nofuel m e : skip_blanks m e ≠ NoFuel.
Proof. unfold skip_blanks. apply obind_nofuel; [apply scan_nofuel|by intros []]. Qed.

#[export] Hint Resolve scan_nofuel skip_blanks_nofuel : nofuel.

Lemma parse_eof_extension_nofuel m e s : parse_eof_extension m e s ≠ NoFuel.
Proof. unfold parse_eof_extension. solve_nofuel. Qed.

#[export] Hint Resolve parse_eof_extension_nofuel : nofuel.

Lemma parse_chunk_def_nofuel m s : parse_chunk_def m s ≠ NoFuel.
Proof. unfold parse_chunk_def. cbv zeta. solve_nofuel. Qed.

#[export] Hint Resolve parse_chunk_def_nofuel : nofuel.

Lemma chunk_iter_nofuel m s wd : chunk_iter m s wd ≠ NoFuel.
Proof. unfold chunk_iter. cbv zeta. solve_nofuel. Qed.

Section termination.
Context (m : list Z).

(** Every number the parser can read in [m] as a chunk size is representable. *)
Definition sizes_fit : Prop :=
  ∀ q v n, strtol 16 (drop q m) = Some (v, n) → 0 ≤ to_int v ≤ INT_MAX - 2.

Definition counters_ok (s : rstream) : Prop :=
  0 ≤ chunk_bytes_read s ≤ current_chunk_len s ∧ current_chunk_len s ≤ INT_MAX.

Lemma def_advances s status s' :
  sizes_fit → 0 ≤ pstrblock_read_len s →
  parse_chunk_def m s = Ret (Next (status, s')) → current_chunk_len s' ≠ 0 →
  status = READ_CHUNK_DATA ∧ counters_ok s' ∧ chunk_bytes_read s' < current_chunk_len s' ∧
  0 ≤ pstrblock_read_len s' < pstrblock_read_len s.
Proof.
  intros Hfit Hlen H Hc. unfold parse_chunk_def in H.
  destruct (ci_strnstr _ _ _) as [[off|]|] eqn:Efind; cbn [scan obind] in H; [|by case_match|done].
  apply ci_strnstr_range in Efind. change (zlen CRLF) with 2 in Efind.
  destruct (strtol _ _) as [[v n]|] eqn:Es; cbn [scan obind] in H; [|done].
  apply Hfit in Es. destruct (_ && _); [done|].
  destruct (skip_blanks _ _) as [e| | |]; cbn [obind] in H; try done.
  cbn [current_chunk_len set_chunk] in H. rewrite to_uint_id in H by (unfold INT_MAX in *; lia).
  destruct (Z.eqb_spec (to_int v) 0) as [E0|E0].
  - (* a zero chunk leaves the length 0 *)
    exfalso. apply Hc. rewrite E0 in H. destruct (_ <? 2); [done|].
    apply obind_Ret in H as (r & Hr & H).
    assert (Hz : match r with Next (_, _, _, s2) => current_chunk_len s2 = 0 | Return _ _ => True end).
    { apply obind_Ret in Hr as (c0 & _ & Hr). apply obind_Ret in Hr as (bad & _ & Hr).
      destruct bad; [by injection Hr as <-|]. apply obind_Ret in Hr as (c & _ & Hr).
      destruct (c =? 59); [|by injection Hr as <-].
      apply obind_Ret in Hr as ([|[e2 s2]] & Hx & Hr); injection Hr as <-; [done|].
      by apply parse_eof_extension_chunk in Hx. }
    destruct r as [|[[[e2 k2] st2] s2]]; [done|].
    apply obind_Ret in H as (c0 & _ & H). apply obind_Ret in H as (ok & _ & H).
    destruct ok; [|done]. by injection H as <- <-.
  - cbn [obind] in H. apply obind_Ret in H as (c0 & _ & H).
    apply obind_Ret in H as (ok & _ & H). destruct ok; [|done].
    injection H as <- <-. unfold counters_ok, INT_MAX in *. cbn.
    rewrite !to_uint_id by lia. split_and!; done || lia.
Qed.

(** An iteration that goes on has consumed some of the block. *)
Lemma chunk_iter_advances s wd s' wd' wd'' :
  sizes_fit → counters_ok s → 0 ≤ pstrblock_read_len s →
  chunk_iter m s wd = Ret (Next (s', wd'), wd'') →
  counters_ok s' ∧ 0 ≤ pstrblock_read_len s' < pstrblock_read_len s.
Proof.
  intros Hfit Hok Hlen H. unfold chunk_iter in H. apply obind_Ret in H as (d & Hd & H).
  destruct d as [|[status s1]]; [done|].
  destruct (Z.eqb_spec (current_chunk_len s1) 0) as [|Hc]; [done|].
  assert (H1 : status = READ_CHUNK_DATA ∧ counters_ok s1 ∧
    chunk_bytes_read s1 < current_chunk_len s1 ∧ pstrblock_read_len s1 ≤ pstrblock_read_len s).
  { destruct (Z.eqb_spec (current_chunk_len s) (chunk_bytes_read s)).
    - destruct (def_advances _ _ _ Hfit Hlen Hd Hc) as (? & ? & ? & ?). split_and!; done || lia.
    - injection Hd as <- <-. unfold counters_ok in *. split_and!; done || lia. }
  destruct H1 as (-> & Hok1 & Hlt & Hle). destruct (negb _); [done|].
  destruct (Z.leb_spec (pstrblock_read_len s1) 0); [done|].
  destruct (Z.eqb_spec (pstrblock_read_len (take_chunk_data s1)) 0) as [|Hl]; [done|].
  injection H as <- <- <-. unfold counters_ok in *.
  destruct (decide (current_chunk_len s1 - chunk_bytes_read s1 ≤ pstrblock_read_len s1)).
  - destruct (take_chunk_data_all s1 _ eq_refl) as (_ & -> & -> & -> & _); lia.
  - destruct (take_chunk_data_part s1 _ eq_refl) as (_ & ? & _); lia.
Qed.

Lemma chunk_loop_terminates fuel s wd :
  sizes_fit → counters_ok s → 0 ≤ pstrblock_read_len s →
  (Z.to_nat (pstrblock_read_len s) < fuel)%nat → chunk_loop fuel m s wd ≠ NoFuel.
Proof.
  intros Hfit. revert s wd. induction fuel as [|fuel IH]; intros s wd Hok Hlen Hf; [lia|].
  cbn [chunk_loop].
  destruct (chunk_iter m s wd) as [[[|[s' wd']] wd'']| | |] eqn:E; cbn [obind]; try done.
  - apply chunk_iter_advances in E as [Hok' Hl']; [|done..].
    apply IH; [done|lia|lia].
  - by apply chunk_iter_nofuel in E.
Qed.
End termination.

(** ** Properties *)


(** C10: when no chunk size readable in the block is negative or too large for an
    [int] with its CR LF, [parse_chunk_data] always leaves its [while (1)] loop: one more
    unit of fuel than bytes in the block is enough, whatever the bytes are. *)
Theorem parse_chunk_data_terminates m s fuel :
  sizes_fit m → counters_ok s → 0 ≤ pstrblock_read_len s →
  (Z.to_nat (pstrblock_read_len s) < fuel)%nat →
  parse_chunk_data fuel m s ≠ NoFuel.
Proof.
  intros. unfold parse_chunk_data. destruct (negb _); [done|]. by apply chunk_loop_terminates.
Qed.

(** A block with one data chunk and some garbage. *)
Definition sample_block : list Z := bytes "3" ++ CRLF ++ bytes "abc" ++ CRLF ++ bytes "zz" ++ CRLF.

Definition sample_state : rstream := mkRstream 0 (zlen sample_block) 0 0 0 false (-1) 0 0 0.

Lemma sample_sizes_fit : sizes_fit sample_block.
Proof.
  intros q v n. destruct (decide (q < 12)%nat) as [Hq|Hq].
  - do 12 (destruct q as [|q];
      [intros H; vm_compute in H; try discriminate H; injection H as <- <-; by vm_compute|]). lia.
  - rewrite drop_ge by (vm_compute; lia). done.
Qed.

Lemma parse_chunk_data_terminates_witness :
  parse_chunk_data 13 sample_block sample_state ≠ NoFuel.
Proof.
  apply (parse_chunk_data_terminates sample_block sample_state 13).
  - exact sample_sizes_fit.
  - vm_compute; repeat split; discriminate.
  - vm_compute; discriminate.
  - vm_compute; lia.
Defined.
