(* ===== verification/ReadBody.v ===== *)
(** * Reading a body from the network (request_common.c, request.c)

    The buffer [ci_buf_t], the refill of the read block [net_data_read], and
    [read_preview_data], the loop that decodes the preview of a request.  The
    network is the list of the events its descriptor delivers. *)

From stdpp Require Import base list list_numbers strings numbers option.
From Stdlib Require Import ZArith Lia.
From S2P Require Import Prelude CString Chunks.

(** ** struct ci_buf *)

(** [bbuf] is the object [buf->buf] points to, [None] for the null pointer. *)
Record ci_buf := mkBuf { bbuf : option (list Z); bsize : Z; bused : Z }.

Definition ci_buf_init : ci_buf := mkBuf None 0 0.

Definition ci_buf_reset (b : ci_buf) : ci_buf := mkBuf (bbuf b) (bsize b) 0.

(** [alloc = false] is the failure of the allocator. *)
Definition ci_buf_mem_alloc (junk : Z → Z) (alloc : bool) (b : ci_buf) (size : Z) : Z * ci_buf :=
  if alloc then (size, mkBuf (Some (fresh junk 0 size)) size 0)
  else (0, mkBuf None (bsize b) (bused b)).

Definition ci_buf_mem_free (b : ci_buf) : ci_buf := mkBuf None 0 0.

Definition ci_buf_write (b : ci_buf) (data : list Z) : outcome (Z * ci_buf) :=
  if bsize b - bused b <? zlen data then Ret (-1, b)
  else
  match bbuf b with
  | Some m =>
      let* m := write_bytes m (bused b) data in
      Ret (zlen data, mkBuf (Some m) (bsize b) (bused b + zlen data))
  | None => if zlen data =? 0 then Ret (0, b) else UB
  end.

Definition ci_buf_reset_size (junk : Z → Z) (alloc : bool) (b : ci_buf) (req_size : Z) :
    Z * ci_buf :=
  if req_size <? bsize b then (req_size, b)
  else ci_buf_mem_alloc junk alloc b req_size.

(** The bytes written since the last reset. *)
Definition buf_content (b : ci_buf) : list Z :=
  match bbuf b with Some m => slice m 0 (bused b) | None => [] end.

(** ** The connection *)

(** What waiting for the descriptor and reading it deliver, in order:
    nothing before the timeout, an error or the end of the stream, or bytes (none
    when the read would block). *)
Inductive net_event := EvTimeout | EvError | EvData (d : list Z).

(** [wait_for_data(conn, secs, ci_wait_for_read)]: the sign of the result. *)
Definition wait_for_read (c : list net_event) : Z :=
  match c with
  | [] | EvTimeout :: _ => -1
  | _ => 1
  end.

(** [ci_connection_read_nonblock(conn, buf, n)]: bytes that do not fit stay. *)
Definition ci_connection_read_nonblock (c : list net_event) (n : Z) :
    Z * list Z * list net_event :=
  match c with
  | EvData d :: c' =>
      if zlen d <=? n then (zlen d, d, c')
      else (n, take (Z.to_nat n) d, EvData (drop (Z.to_nat n) d) :: c')
  | _ :: c' => (-1, [], c')
  | [] => (-1, [], [])
  end.

(** ** The reader: the part of [ci_request_t] and its connection in use here *)

(** Where [pstrblock_read] points: nowhere, into the buffer of the request
    header, or into [rbuf]. *)
Inductive block_loc := BNull | BHeader | BRbuf.

Record reader := mkReader {
  rd_stream : rstream;
  rd_loc : block_loc;
  rd_hdr : list Z;
  rd_rbuf : list Z;
  rd_conn : list net_event;
  rd_bytes_in : Z;
  rd_preview : ci_buf
}.

Definition with_stream (s : rstream) (r : reader) : reader :=
  mkReader s (rd_loc r) (rd_hdr r) (rd_rbuf r) (rd_conn r) (rd_bytes_in r) (rd_preview r).

Definition with_preview (b : ci_buf) (r : reader) : reader :=
  mkReader (rd_stream r) (rd_loc r) (rd_hdr r) (rd_rbuf r) (rd_conn r) (rd_bytes_in r) b.

Definition block_mem (r : reader) : list Z :=
  match rd_loc r with BNull => [] | BHeader => rd_hdr r | BRbuf => rd_rbuf r end.

Definition at_rbuf_start (r : reader) : bool :=
  match rd_loc r with BRbuf => pstrblock_read (rd_stream r) =? 0 | _ => false end.

Definition net_data_read (r : reader) : outcome (Z * reader) :=
  let s := rd_stream r in
  let len := pstrblock_read_len s in
  let* rbuf :=
    if at_rbuf_start r then Ret (rd_rbuf r)
    else if len =? 0 then Ret (rd_rbuf r)
    else let* d := read_bytes (block_mem r) (pstrblock_read s) len in
         write_bytes (rd_rbuf r) 0 d in
  let r := mkReader (set_block 0 len s) BRbuf (rd_hdr r) rbuf (rd_conn r) (rd_bytes_in r)
             (rd_preview r) in
  if BUFSIZE - len <=? 0 then Ret (CI_ERROR, r)
  else
  let '(n, d, c) := ci_connection_read_nonblock (rd_conn r) (BUFSIZE - len) in
  if n <? 0 then
    Ret (CI_ERROR, mkReader (rd_stream r) BRbuf (rd_hdr r) rbuf c (rd_bytes_in r) (rd_preview r))
  else
  let* rbuf := write_bytes rbuf len d in
  Ret (CI_OK, mkReader (set_block 0 (len + n) (rd_stream r)) BRbuf (rd_hdr r) rbuf c
                (to_u64 (rd_bytes_in r + n)) (rd_preview r)).

(** ** read_preview_data *)

(** Hand the data over: [ci_buf_write(&preview_data, wdata, pending)]. *)
Definition pending_data (m : list Z) (wd : option Z) (n : Z) : outcome (list Z) :=
  match wd with
  | Some w => read_bytes m w n
  | None => if n =? 0 then Ret [] else UB
  end.

(** The two nested loops: one step is a call of the parser; after
    [CI_NEEDS_MORE] the block is refilled before the next one.  [pf] is the
    fuel of a call of the parser. *)
Fixpoint preview_loop (pf fuel : nat) (r : reader) : outcome (Z * reader) :=
  match fuel with
  | O => NoFuel
  | S fuel' =>
      let m := block_mem r in
      let* (ret, wd, s) := parse_chunk_data pf m (rd_stream r) in
      let r := with_stream s r in
      if ret =? CI_ERROR then Ret (CI_ERROR, r)
      else
      let* d := pending_data m wd (write_to_module_pending s) in
      let* (w, b) := ci_buf_write (rd_preview r) d in
      if w <? 0 then Ret (CI_ERROR, r)
      else
      let r := with_stream (set_pending 0 s) (with_preview b r) in
      if ret =? CI_EOF then
        let r := mkReader (set_block 0 0 (rd_stream r)) BNull (rd_hdr r) (rd_rbuf r)
                   (rd_conn r) (rd_bytes_in r) (rd_preview r) in
        if eof_received s then Ret (CI_EOF, r) else Ret (CI_OK, r)
      else if negb (ret =? CI_NEEDS_MORE) then preview_loop pf fuel' r
      else if wait_for_read (rd_conn r) <? 0 then Ret (CI_ERROR, r)
      else
      let* (n, r) := net_data_read r in
      if n =? CI_ERROR then Ret (CI_ERROR, r) else preview_loop pf fuel' r
  end.

Definition read_preview_data (pf fuel : nat) (r : reader) : outcome (Z * reader) :=
  let s := set_pending 0 (set_chunk 0 0 (rd_stream r)) in
  let r := with_stream s r in
  if pstrblock_read_len s =? 0 then
    if wait_for_read (rd_conn r) <? 0 then Ret (CI_ERROR, r)
    else
    let* (n, r) := net_data_read r in
    if n =? CI_ERROR then Ret (CI_ERROR, r) else preview_loop pf fuel r
  else preview_loop pf fuel r.

(** ** Refilling the block keeps the stream *)

Definition is_data (e : net_event) : Prop := match e with EvData _ => True | _ => False end.

Definition ev_data (e : net_event) : list Z := match e with EvData d => d | _ => [] end.

(** The bytes the connection still delivers. *)
Definition fut_of (c : list net_event) : list Z := concat (map ev_data c).

Lemma fut_nonempty c : fut_of c ≠ [] → c ≠ [].
Proof. by intros H ->. Qed.

Lemma wait_data c : Forall is_data c → c ≠ [] → wait_for_read c = 1.
Proof. intros H ?. destruct c as [|[]]; [done|by inversion H..|done]. Qed.

Lemma read_nonblock_data c n :
  Forall is_data c → c ≠ [] → 0 < n →
  ∃ d c', ci_connection_read_nonblock c n = (zlen d, d, c') ∧ zlen d ≤ n ∧
    Forall is_data c' ∧ fut_of c = d ++ fut_of c' ∧
    zlen (fut_of c') + zlen c' < zlen (fut_of c) + zlen c.
Proof.
  intros Hd Hne Hn. destruct c as [|e c]; [done|].
  apply Forall_cons_1 in Hd as [He Hc]. destruct e as [| |d]; [done|done|].
  cbn [ci_connection_read_nonblock]. destruct (Z.leb_spec (zlen d) n).
  - exists d, c. split_and!; try done. unfold fut_of. cbn. zlia.
  - exists (take (Z.to_nat n) d), (EvData (drop (Z.to_nat n) d) :: c).
    split_and!; [|zlia| |  |].
    + f_equal. f_equal. zlia.
    + by constructor.
    + unfold fut_of. cbn. by rewrite app_assoc, take_drop.
    + unfold fut_of. cbn. zlia.
Qed.

Definition reader_ok (r : reader) (R D : list Z) : Prop :=
  inv (block_mem r) (fut_of (rd_conn r)) (rd_stream r) R D ∧
  Forall is_data (rd_conn r) ∧ zlen (rd_rbuf r) = BUFSIZE.

(** The move to the start of [rbuf]: its first bytes are the block. *)
Lemma net_move_spec r (blk stale : list Z) :
  0 ≤ pstrblock_read (rd_stream r) →
  drop (Z.to_nat (pstrblock_read (rd_stream r))) (block_mem r) = blk ++ stale →
  pstrblock_read_len (rd_stream r) = zlen blk → zlen blk ≤ BUFSIZE →
  zlen (rd_rbuf r) = BUFSIZE →
  ∃ tl,
    (if at_rbuf_start r then Ret (rd_rbuf r)
     else if zlen blk =? 0 then Ret (rd_rbuf r)
     else let* d := read_bytes (block_mem r) (pstrblock_read (rd_stream r)) (zlen blk) in
          write_bytes (rd_rbuf r) 0 d) = Ret (blk ++ tl) ∧ zlen (blk ++ tl) = BUFSIZE.
Proof.
  intros Hp Hm Hlen Hle Hsz. unfold at_rbuf_start.
  assert (Hcopy : ∃ tl,
    (if zlen blk =? 0 then Ret (rd_rbuf r)
     else let* d := read_bytes (block_mem r) (pstrblock_read (rd_stream r)) (zlen blk) in
          write_bytes (rd_rbuf r) 0 d) = Ret (blk ++ tl) ∧ zlen (blk ++ tl) = BUFSIZE).
  { destruct (Z.eqb_spec (zlen blk) 0) as [H0|H0].
    { destruct blk; [by exists (rd_rbuf r)|zlia]. }
    assert (zlen blk + pstrblock_read (rd_stream r) ≤ zlen (block_mem r)).
    { apply (f_equal zlen) in Hm. zlia. }
    rewrite read_bytes_ok by zlia. cbn [obind].
    rewrite (slice_drop_app _ _ _ _ Hm), write_bytes_ok by zlia.
    exists (drop (length blk) (rd_rbuf r)). split; [done|].
    rewrite zlen_app, zlen_drop. unfold zlen in *. lia. }
  destruct (rd_loc r) eqn:E; [done..|].
  destruct (Z.eqb_spec (pstrblock_read (rd_stream r)) 0) as [H0|H0]; [|done].
  exists stale. unfold block_mem in Hm. rewrite E, H0 in Hm. rewrite drop_0 in Hm.
  by rewrite <- Hm.
Qed.

(** The block holds the bytes [U]; what the connection delivers are data. *)
Definition window (r : reader) (U : list Z) : Prop :=
  ∃ stale, 0 ≤ pstrblock_read (rd_stream r) ∧ drop (Z.to_nat (pstrblock_read (rd_stream r))) (block_mem r) = U ++ stale ∧
    pstrblock_read_len (rd_stream r) = zlen U ∧ Forall is_data (rd_conn r) ∧ zlen (rd_rbuf r) = BUFSIZE.

Lemma net_data_read_window r U :
  window r U → rd_conn r ≠ [] → zlen U < BUFSIZE →
  ∃ d r', net_data_read r = Ret (CI_OK, r') ∧ window r' (U ++ d) ∧ fut_of (rd_conn r) = d ++ fut_of (rd_conn r') ∧
    zlen (U ++ d) ≤ BUFSIZE ∧ rd_preview r' = rd_preview r ∧ rd_stream r' = set_block 0 (zlen (U ++ d)) (rd_stream r) ∧
    zlen (fut_of (rd_conn r')) + zlen (rd_conn r') < zlen (fut_of (rd_conn r)) + zlen (rd_conn r).
Proof.
  intros (stale & Hp & Hm & Hlen & Hd & Hsz) Hne Hroom.
  destruct (net_move_spec r U stale) as (tl & Hmv & Htl); [done..|lia|done|].
  destruct (read_nonblock_data (rd_conn r) (BUFSIZE - zlen U)) as (d & c' & Hrd & Hdl & Hc' & Hf & Hms);
    [done|done|lia|].
  unfold net_data_read. rewrite Hlen, Hmv. cbn [obind rd_conn].
  solve_cmp. rewrite Hrd. solve_cmp.
  rewrite write_bytes_ok by zlia. cbn [obind].
  eexists d, _. split; [done|]. cbn. split_and!; try done; [|zlia|by rewrite zlen_app].
  exists (drop (length d) tl). cbn. split_and!; try done; [|zlia|rewrite zlen_splice; zlia].
  unfold block_mem. cbn. unfold splice. rewrite drop_0, zlen_to_nat, take_app_length, <- app_assoc. do 2 f_equal. by rewrite drop_app_add.
Qed.

Lemma reader_ok_window r R D : reader_ok r R D → ∃ U, window r U ∧ R = U ++ fut_of (rd_conn r) ∧
  phase (current_chunk_len (rd_stream r)) (chunk_bytes_read (rd_stream r)) R D.
Proof. intros ((blk & stale & ? & ? & ? & -> & ?) & ? & ?). exists blk. split; [by exists stale|done]. Qed.

Lemma window_reader_ok r U D : window r U →
  phase (current_chunk_len (rd_stream r)) (chunk_bytes_read (rd_stream r)) (U ++ fut_of (rd_conn r)) D →
  reader_ok r (U ++ fut_of (rd_conn r)) D.
Proof. intros (stale & ? & ? & ? & ? & ?) ?. split_and!; try done. by exists U, stale. Qed.

Lemma net_data_read_spec r R D :
  reader_ok r R D → rd_conn r ≠ [] → pstrblock_read_len (rd_stream r) < BUFSIZE →
  ∃ r', net_data_read r = Ret (CI_OK, r') ∧ reader_ok r' R D ∧
    rd_preview r' = rd_preview r ∧
    write_to_module_pending (rd_stream r') = write_to_module_pending (rd_stream r) ∧
    eof_received (rd_stream r') = eof_received (rd_stream r) ∧
    pstrblock_read_len (rd_stream r') ≤ BUFSIZE ∧
    zlen (fut_of (rd_conn r')) + zlen (rd_conn r') < zlen (fut_of (rd_conn r)) + zlen (rd_conn r).
Proof.
  intros Hok Hne Hroom. destruct (reader_ok_window _ _ _ Hok) as (U & Hw & -> & Hph).
  assert (Hl : pstrblock_read_len (rd_stream r) = zlen U) by (by destruct Hw as (? & _ & _ & ? & _)).
  destruct (net_data_read_window r U Hw Hne) as (d & r' & Hrun & Hw' & Hf & Hle & Hp & Hs & Hms); [lia|].
  exists r'. split; [done|]. rewrite Hs. split_and!; try done. rewrite Hf, app_assoc. apply window_reader_ok; [done|].
  rewrite Hs, <- app_assoc, <- Hf. done.
Qed.

(** ** The preview buffer *)

Definition buf_ok (b : ci_buf) : Prop :=
  ∃ m, bbuf b = Some m ∧ zlen m = bsize b ∧ 0 ≤ bused b ≤ bsize b.

Lemma ci_buf_write_spec b d :
  buf_ok b → bused b + zlen d ≤ bsize b →
  ∃ b', ci_buf_write b d = Ret (zlen d, b') ∧ buf_ok b' ∧
    bsize b' = bsize b ∧ bused b' = bused b + zlen d ∧ buf_content b' = buf_content b ++ d.
Proof.
  intros (m & Hm & Hsz & Hu) Hd. unfold ci_buf_write. solve_cmp. rewrite Hm.
  rewrite write_bytes_ok by zlia. cbn [obind].
  eexists. split; [done|]. pose proof (zlen_nonneg d). split_and!; cbn; try done.
  - exists (splice m (bused b) d). cbn. rewrite zlen_splice by lia. split_and!; done || lia.
  - unfold buf_content. cbn. rewrite Hm, slice_split by lia.
    rewrite slice_splice_before, Z.add_0_l, slice_splice_same by lia. done.
Qed.

(** ** The preview loop *)

Lemma inv_set_pending m fut s n R D : inv m fut s R D → inv m fut (set_pending n s) R D.
Proof. done. Qed.

Lemma inv_block_len m fut s R D :
  inv m fut s R D → zlen R = pstrblock_read_len s + zlen fut.
Proof. intros (blk & stale & _ & _ & -> & -> & _). by rewrite zlen_app. Qed.

Lemma pending_data_spec m wd s :
  pending_ok m wd s → pending_data m wd (write_to_module_pending s) = Ret (delivered m wd s).
Proof.
  unfold pending_ok, pending_data, delivered. destruct wd as [w|].
  - intros (? & ? & ?). by rewrite read_bytes_ok.
  - by intros ->.
Qed.

Lemma zlen_delivered m wd s :
  pending_ok m wd s → zlen (delivered m wd s) = write_to_module_pending s.
Proof.
  unfold pending_ok, delivered. destruct wd as [w|]; [|by intros ->].
  intros (? & ? & ?). by rewrite zlen_slice.
Qed.

Lemma preview_loop_spec pf fuel r R D :
  (Z.to_nat BUFSIZE < pf)%nat → reader_ok r R D →
  write_to_module_pending (rd_stream r) = 0 → pstrblock_read_len (rd_stream r) ≤ BUFSIZE →
  buf_ok (rd_preview r) → bused (rd_preview r) + zlen D ≤ bsize (rd_preview r) →
  zlen R + zlen (fut_of (rd_conn r)) + zlen (rd_conn r) < Z.of_nat fuel →
  ∃ r', preview_loop pf fuel r =
          Ret (if eof_received (rd_stream r) then CI_EOF else CI_OK, r') ∧
    buf_content (rd_preview r') = buf_content (rd_preview r) ++ D.
Proof.
  intros Hpf. revert r R D. induction fuel as [|fuel IH];
    intros r R D Hr Hpd Hlen Hb Hroom Hfuel; [zlia|].
  destruct Hr as (Hinv & Hd & Hsz).
  destruct (parse_chunk_data_spec pf _ _ (rd_stream r) _ _ ltac:(lia) Hinv Hpd)
    as (code & wd & s & Hparse & R' & D' & Hpost & Hok & He & HD & Hle & Hlt & _).
  cbn [delivered app] in HD.
  assert (Hroom' : bused (rd_preview r) + zlen (delivered (block_mem r) wd s) + zlen D' ≤ bsize (rd_preview r)).
  { rewrite HD, zlen_app in Hroom. lia. }
  destruct (ci_buf_write_spec (rd_preview r) (delivered (block_mem r) wd s))
    as (b & Hw & Hbok & Hbs & Hbu & Hbc); [done|zlia|].
  cbn [preview_loop]. rewrite Hparse. cbn [obind].
  rewrite pending_data_spec by done. cbn [rd_preview with_stream].
  rewrite <- He.
  assert (HDc : ∀ x, x = buf_content b ++ D' → x = buf_content (rd_preview r) ++ D).
  { intros x ->. by rewrite Hbc, HD, app_assoc. }
  destruct Hpost as [(-> & Hfut & I & Hl)|[(-> & I & Hl)|(-> & Hfut & -> & _)]];
    cbn [Z.eqb CI_ERROR CI_OK CI_NEEDS_MORE CI_EOF obind negb]; rewrite Hw; cbn [obind];
    pose proof (zlen_nonneg (delivered (block_mem r) wd s)); solve_cmp; cbn [rd_conn with_stream with_preview].
  - rewrite wait_data by auto using fut_nonempty. cbn [Z.ltb Z.compare].
    destruct (net_data_read_spec (with_stream (set_pending 0 s) (with_preview b (with_stream s r))) R' D')
      as (r2 & -> & Hr2 & Hp2 & Hpd2 & He2 & Hl2 & Hm2);
      [by split_and!|by apply fut_nonempty|done|].
    cbn [obind Z.eqb CI_OK CI_ERROR]. specialize (Hle ltac:(done)).
    destruct (IH r2 R' D') as (r3 & Hrun & Hc3);
      [done|by rewrite Hpd2|done|by rewrite Hp2|rewrite Hp2; cbn; lia|cbn [rd_conn with_stream with_preview] in Hm2; lia|].
    exists r3. rewrite Hrun, He2. split; [done|]. apply HDc. by rewrite Hc3, Hp2.
  - specialize (Hlt eq_refl).
    pose proof (inv_block_len _ _ _ _ _ Hinv). pose proof (inv_block_len _ _ _ _ _ I).
    destruct (IH (with_stream (set_pending 0 s) (with_preview b (with_stream s r))) R' D')
      as (r3 & Hrun & Hc3); try done; cbn [rd_stream rd_preview rd_conn with_stream with_preview set_pending pstrblock_read_len]; [lia..|].
    exists r3. rewrite Hrun. split; [done|]. by apply HDc.
  - destruct (eof_received s); eexists; (split; [done|]); apply HDc; by rewrite app_nil_r.
Qed.

(** The whole function, from a block and the events of the connection. *)
Lemma read_preview_data_spec pf fuel r blk stale cs :
  Forall good_chunk cs →
  0 ≤ pstrblock_read (rd_stream r) →
  drop (Z.to_nat (pstrblock_read (rd_stream r))) (block_mem r) = blk ++ stale →
  pstrblock_read_len (rd_stream r) = zlen blk → zlen blk ≤ BUFSIZE →
  blk ++ fut_of (rd_conn r) = encode cs →
  Forall is_data (rd_conn r) → zlen (rd_rbuf r) = BUFSIZE →
  buf_ok (rd_preview r) → bused (rd_preview r) + zlen (concat cs) ≤ bsize (rd_preview r) →
  (Z.to_nat BUFSIZE < pf)%nat →
  2 * zlen (encode cs) + zlen (rd_conn r) < Z.of_nat fuel →
  ∃ r', read_preview_data pf fuel r =
          Ret (if eof_received (rd_stream r) then CI_EOF else CI_OK, r') ∧
    buf_content (rd_preview r') = buf_content (rd_preview r) ++ concat cs.
Proof.
  intros Hcs Hp Hm Hlen Hle HR Hd Hsz Hb Hroom Hpf Hfuel.
  unfold read_preview_data. set (r0 := with_stream _ r).
  assert (Hok : reader_ok r0 (encode cs) (concat cs)).
  { split_and!; [|done|done]. exists blk, stale. split_and!; try done. by apply phase_def. }
  assert (Hfut : zlen (fut_of (rd_conn r)) ≤ zlen (encode cs)) by (rewrite <- HR; zlia).
  cbn [pstrblock_read_len set_pending set_chunk].
  destruct (Z.eqb_spec (pstrblock_read_len (rd_stream r)) 0) as [H0|H0].
  - assert (Hne : rd_conn r ≠ []).
    { apply fut_nonempty. destruct blk; [|zlia]. simpl in HR. rewrite HR. apply encode_nonempty. }
    rewrite wait_data by done. cbn [Z.ltb Z.compare].
    destruct (net_data_read_spec r0 _ _ Hok Hne) as (r1 & -> & Hok1 & Hp1 & Hpd1 & He1 & Hl1 & Hm1).
    { cbn. unfold BUFSIZE. lia. }
    cbn [obind Z.eqb CI_OK CI_ERROR]. cbn [rd_conn r0 with_stream] in Hm1.
    destruct (preview_loop_spec pf fuel r1 _ _ Hpf Hok1) as (r2 & -> & Hc2);
      rewrite ?Hpd1, ?Hp1; try done; [lia|].
    exists r2. by rewrite He1, Hc2, Hp1.
  - destruct (preview_loop_spec pf fuel r0 _ _ Hpf Hok) as (r2 & Hrun & Hc2); try done;
      cbn [rd_stream rd_conn r0 with_stream set_pending set_chunk pstrblock_read_len]; [lia..|].
    by exists r2.
Qed.

(** ** Properties *)

(** C1: however the network cuts the coding of a body into reads (the first
    bytes may already be in the block, as after the headers), [read_preview_data]
    stores exactly the data of the body in the preview buffer, provided they fit, and
    returns [CI_OK] ([CI_EOF] if the [ieof] mark had been seen). *)
Theorem read_preview_data_correct pf fuel r blk stale cs :
  Forall good_chunk cs →
  0 ≤ pstrblock_read (rd_stream r) →
  drop (Z.to_nat (pstrblock_read (rd_stream r))) (block_mem r) = blk ++ stale →
  pstrblock_read_len (rd_stream r) = zlen blk → zlen blk ≤ BUFSIZE →
  blk ++ fut_of (rd_conn r) = encode cs →
  Forall is_data (rd_conn r) → zlen (rd_rbuf r) = BUFSIZE →
  buf_ok (rd_preview r) → bused (rd_preview r) + zlen (concat cs) ≤ bsize (rd_preview r) →
  (Z.to_nat BUFSIZE < pf)%nat →
  2 * zlen (encode cs) + zlen (rd_conn r) < Z.of_nat fuel →
  ∃ r', read_preview_data pf fuel r =
          Ret (if eof_received (rd_stream r) then CI_EOF else CI_OK, r') ∧
    buf_content (rd_preview r') = buf_content (rd_preview r) ++ concat cs.
Proof. apply read_preview_data_spec. Qed.

(** A preview of two chunks; the first bytes came with the header, the rest in
    three reads, one of them empty, cut inside a size line and before a LF. *)
Definition sample_preview : reader :=
  mkReader (mkRstream 2 3 0 0 0 false (-1) 0 0 0) BHeader
    (bytes "H:" ++ bytes "5" ++ CRLF) (replicate 4096 0)
    [EvData (bytes "hello" ++ [CR]); EvData []; EvData ([LF] ++ bytes "3");
     EvData (CRLF ++ bytes "abc" ++ CRLF ++ eof_chunk)] 0
    (mkBuf (Some (replicate 16 0)) 16 0).

Lemma read_preview_data_correct_witness :
  ∃ r', read_preview_data 5000 100 sample_preview = Ret (CI_OK, r') ∧
    buf_content (rd_preview r') = bytes "helloabc".
Proof.
  apply (read_preview_data_correct 5000 100 sample_preview
           (bytes "5" ++ CRLF) [] [bytes "hello"; bytes "abc"]).
  - repeat constructor; vm_compute; (reflexivity || discriminate).
  - vm_compute; discriminate.
  - reflexivity.
  - reflexivity.
  - vm_compute; discriminate.
  - reflexivity.
  - repeat constructor.
  - reflexivity.
  - exists (replicate 16 0). vm_compute. repeat split; discriminate.
  - vm_compute; discriminate.
  - vm_compute; lia.
  - vm_compute; reflexivity.
Defined.
