(* ===== verification/SendBody.v ===== *)
(** * Writing a body to the network (request.c, request_common.c)

    [format_body_chunk] (server) and [client_prepere_body_chunk] (client)
    frame the data a service or a user has put into [wbuf], at the offset
    [EXTRA_CHUNK_SIZE], as one chunk, in place. *)

From stdpp Require Import base list list_numbers strings numbers option.
From Stdlib Require Import ZArith Lia.
From S2P Require Import Prelude CString Chunks ReadBody.

Definition WBUF_SIZE : Z := MAX_CHUNK_SIZE + EXTRA_CHUNK_SIZE + 2.

(** The fields of [ci_request_t] the framing uses: [ws_ptr] is
    [pstrblock_responce] as an offset in [wbuf]. *)
Record wstream := mkWstream {
  ws_wbuf : list Z;
  ws_ptr : Z;
  remain_send_block_bytes : Z;
  responce_hasbody : bool;
  is_ec_206 : bool;
  use_original_body : Z;
  http_bytes_out : Z;
  body_bytes_out : Z
}.

Definition set_send (wbuf : list Z) (p n : Z) (w : wstream) : wstream :=
  mkWstream wbuf p n (responce_hasbody w) (is_ec_206 w) (use_original_body w)
    (http_bytes_out w) (body_bytes_out w).

Definition count_out (n : Z) (w : wstream) : wstream :=
  mkWstream (ws_wbuf w) (ws_ptr w) (remain_send_block_bytes w) (responce_hasbody w)
    (is_ec_206 w) (use_original_body w) (to_u64 (http_bytes_out w + n))
    (to_u64 (body_bytes_out w + n)).

(** The in-place framing of [n] data bytes, common to both sides: CR LF after
    the data, the size line before them.  Gives the buffer, the start of the chunk
    and its length. *)
Definition frame_chunk (wbuf : list Z) (n : Z) : outcome (list Z * Z * Z) :=
  let* wbuf := store wbuf (EXTRA_CHUNK_SIZE + n) CR in
  let* wbuf := store wbuf (EXTRA_CHUNK_SIZE + n + 1) LF in
  let def := print_x n ++ CRLF in
  let p := EXTRA_CHUNK_SIZE - zlen def in
  let* wbuf := write_bytes wbuf p def in
  Ret (wbuf, p, zlen def + n + 2).

Definition format_body_chunk (w : wstream) : outcome (Z * wstream) :=
  if negb (responce_hasbody w) then Ret (CI_EOF, w)
  else
  let n := remain_send_block_bytes w in
  if 0 <? n then
    let* _ := assert_ (n <=? MAX_CHUNK_SIZE) in
    let* (wbuf, p, len) := frame_chunk (ws_wbuf w) n in
    Ret (CI_OK, set_send wbuf p len (count_out n w))
  else if n =? CI_EOF then
    if is_ec_206 w && (0 <=? use_original_body w) then
      let line := bytes "0; use-original-body=" ++ print_d (use_original_body w) ++ CRLF ++ CRLF in
      let* wbuf := write_bytes (ws_wbuf w) 0 (line ++ [NUL]) in
      Ret (CI_EOF, set_send wbuf 0 (zlen line) w)
    else
      let* wbuf := write_bytes (ws_wbuf w) 0 (eof_chunk ++ [NUL]) in
      Ret (CI_EOF, set_send wbuf 0 5 w)
  else Ret (CI_OK, w).

(** What the user's [readdata] callback gives: bytes, or a code that is not
    positive. *)
Inductive src_result := SrcData (d : list Z) | SrcCode (c : Z).

Definition client_prepere_body_chunk (src : src_result) (w : wstream) : outcome (Z * wstream) :=
  match src with
  | SrcCode c =>
      if (c =? CI_EOF) || (c =? 0) then
        Ret (if c =? CI_EOF then CI_EOF else CI_NEEDS_MORE,
             set_send (ws_wbuf w) (ws_ptr w) 0 w)
      else Ret (c, w)
  | SrcData d =>
      let* wbuf := write_bytes (ws_wbuf w) EXTRA_CHUNK_SIZE d in
      let* (wbuf, p, len) := frame_chunk wbuf (zlen d) in
      Ret (CI_OK, set_send wbuf p len w)
  end.

(** The bytes the next write sends. *)
Definition send_block (w : wstream) : list Z :=
  slice (ws_wbuf w) (ws_ptr w) (remain_send_block_bytes w).

(** ** The frame is the coding of the data *)

Lemma zlen_print_x_small n : 0 ≤ n ≤ MAX_CHUNK_SIZE → 0 < zlen (print_x n) ≤ 12.
Proof.
  unfold MAX_CHUNK_SIZE. intros Hn. unfold zlen, print_x, print_num. rewrite length_print_aux.
  assert (H : ∀ f x, (ndigits 16 f x ≤ f)%nat).
  { induction f as [|f IH]; intros x; simpl; [lia|]. case_cmp; [lia|]. specialize (IH (x / 16)). lia. }
  specialize (H (S (Z.to_nat (Z.log2 n))) n).
  assert (Z.log2 n ≤ 11).
  { change 11 with (Z.log2 4064). apply Z.log2_le_mono. lia. }
  split; [|simpl length; lia]. simpl. case_cmp; simpl; lia.
Qed.

Lemma frame_chunk_spec wbuf d :
  zlen wbuf = WBUF_SIZE → 0 < zlen d ≤ MAX_CHUNK_SIZE →
  slice wbuf EXTRA_CHUNK_SIZE (zlen d) = d →
  ∃ wbuf' p, frame_chunk wbuf (zlen d) = Ret (wbuf', p, zlen (encode_chunk d)) ∧
    zlen wbuf' = WBUF_SIZE ∧ slice wbuf' p (zlen (encode_chunk d)) = encode_chunk d ∧
    0 ≤ p ∧ p + zlen (encode_chunk d) ≤ WBUF_SIZE.
Proof.
  intros Hsz Hd Hdata. pose proof (zlen_print_x_small (zlen d) ltac:(lia)) as Hx.
  unfold frame_chunk, WBUF_SIZE, EXTRA_CHUNK_SIZE in *. pose proof Hd as Hd'.
  unfold MAX_CHUNK_SIZE in Hd', Hsz.
  rewrite store_splice by lia. cbn [obind]. rewrite store_splice by (rewrite zlen_splice; zlia).
  cbn [obind]. change (zlen CRLF) with 2.
  set (w1 := splice wbuf (30 + zlen d) [CR]). set (w2 := splice w1 (30 + zlen d + 1) [LF]).
  assert (Hw1 : zlen w1 = 4096) by (unfold w1; rewrite zlen_splice; zlia).
  assert (Hw2 : zlen w2 = 4096) by (unfold w2; rewrite zlen_splice; zlia).
  assert (Hsl : slice w2 30 (zlen d + 2) = d ++ CRLF).
  { rewrite slice_split by lia. unfold w2.
    rewrite slice_splice_before by zlia. unfold w1 at 1. rewrite slice_splice_before by zlia.
    rewrite Hdata. f_equal.
    rewrite (slice_split _ _ 1 1) by lia. rewrite slice_splice_before by zlia.
    change 1 with (zlen [CR]) at 1. unfold w1. rewrite slice_splice_same by zlia.
    change 1 with (zlen [LF]) at 2. rewrite slice_splice_same; [done|zlia|].
    fold w1. rewrite Hw1. zlia. }
  set (def := print_x (zlen d) ++ CRLF).
  assert (Hdef : zlen def = zlen (print_x (zlen d)) + 2) by (unfold def; rewrite zlen_app; done).
  rewrite write_bytes_ok by (rewrite ?Hw2; lia). cbn [obind].
  assert (Henc : encode_chunk d = def ++ d ++ CRLF) by (unfold encode_chunk, def; by rewrite <- app_assoc).
  assert (Hlen : zlen (encode_chunk d) = zlen def + (zlen d + 2)).
  { rewrite Henc, !zlen_app. by change (zlen CRLF) with 2. }
  exists (splice w2 (30 - zlen def) def), (30 - zlen def). split_and!.
  - do 2 f_equal. lia.
  - rewrite zlen_splice by lia. by rewrite Hw2.
  - rewrite Hlen, slice_split by lia. rewrite slice_splice_same by lia.
    rewrite slice_splice_after by lia. replace (30 - zlen def + zlen def) with 30 by lia.
    by rewrite Hsl, Henc.
  - lia.
  - unfold WBUF_SIZE, MAX_CHUNK_SIZE, EXTRA_CHUNK_SIZE. lia.
Qed.

(** The block to send lies in [wbuf]. *)
Definition send_ok (w : wstream) : Prop :=
  0 ≤ ws_ptr w ∧ 0 ≤ remain_send_block_bytes w ∧
  ws_ptr w + remain_send_block_bytes w ≤ zlen (ws_wbuf w).

(** What the framing does not change. *)
Definition same_body (w w' : wstream) : Prop :=
  responce_hasbody w' = responce_hasbody w ∧ is_ec_206 w' = is_ec_206 w ∧
  use_original_body w' = use_original_body w.

(** A block of data is sent as its chunk. *)
Lemma format_body_chunk_data w d :
  responce_hasbody w = true → zlen (ws_wbuf w) = WBUF_SIZE →
  remain_send_block_bytes w = zlen d → 0 < zlen d ≤ MAX_CHUNK_SIZE →
  slice (ws_wbuf w) EXTRA_CHUNK_SIZE (zlen d) = d →
  ∃ w', format_body_chunk w = Ret (CI_OK, w') ∧ send_block w' = encode_chunk d ∧
    zlen (ws_wbuf w') = WBUF_SIZE ∧ send_ok w' ∧ same_body w w'.
Proof.
  intros Hb Hsz Hn Hd Hdata. unfold format_body_chunk. rewrite Hb, Hn. cbn [negb].
  destruct (frame_chunk_spec (ws_wbuf w) d) as (wbuf' & p & Hf & Hsz' & Hsl & Hp & Hpl); [done..|].
  solve_cmp. cbn [assert_ obind]. rewrite Hf. cbn [obind].
  eexists. split; [done|]. unfold send_ok, same_body. cbn. rewrite Hsz'. split_and!; done || zlia.
Qed.

(** The bytes that end a body. *)
Definition body_end (w : wstream) : list Z :=
  if is_ec_206 w && (0 <=? use_original_body w)
  then bytes "0; use-original-body=" ++ print_d (use_original_body w) ++ CRLF ++ CRLF else eof_chunk.

Lemma zlen_print_d_64 v : 0 ≤ v < 2 ^ 63 → zlen (print_d v) ≤ 64.
Proof.
  intros Hv. unfold print_d. rewrite (proj2 (Z.ltb_ge v 0)) by lia.
  unfold zlen, print_num. rewrite length_print_aux.
  assert (H : ∀ f x, (ndigits 10 f x ≤ f)%nat).
  { induction f as [|f IH]; intros x; simpl; [lia|]. case_cmp; [lia|]. specialize (IH (x / 10)). lia. }
  specialize (H (S (Z.to_nat (Z.log2 v))) v).
  assert (Z.log2 v < 63); [|cbn [length]; lia].
  destruct (Z.eq_dec v 0) as [->|]; [done|]. apply Z.log2_lt_pow2; lia.
Qed.

Lemma format_body_chunk_end w :
  responce_hasbody w = true → zlen (ws_wbuf w) = WBUF_SIZE → remain_send_block_bytes w = CI_EOF →
  (is_ec_206 w = true → use_original_body w < 2 ^ 63) →
  ∃ w', format_body_chunk w = Ret (CI_EOF, w') ∧ send_block w' = body_end w ∧
    zlen (ws_wbuf w') = WBUF_SIZE ∧ send_ok w' ∧ same_body w w'.
Proof.
  intros Hb Hsz Hn Ho. unfold format_body_chunk, body_end. rewrite Hb, Hn.
  cbn [negb Z.ltb CI_EOF Z.compare Z.eqb Pos.eqb].
  set (line := if is_ec_206 w && _ then _ else eof_chunk).
  assert (Hline : 0 < zlen line ∧ zlen line ≤ 100).
  { unfold line. destruct (is_ec_206 w && (0 <=? use_original_body w)) eqn:E; [|by vm_compute].
    apply andb_prop in E as [E6 E]. apply Z.leb_le in E. specialize (Ho E6).
    pose proof (zlen_print_d_64 (use_original_body w) ltac:(lia)). rewrite !zlen_app.
    change (zlen (bytes "0; use-original-body=")) with 21. change (zlen CRLF) with 2. zlia. }
  exists (set_send (splice (ws_wbuf w) 0 (line ++ [NUL])) 0 (zlen line) w).
  assert (Hz : zlen (ws_wbuf w) = 4096) by done.
  split_and!.
  - assert (Hw : write_bytes (ws_wbuf w) 0 (line ++ [NUL]) = Ret (splice (ws_wbuf w) 0 (line ++ [NUL])))
      by (apply write_bytes_ok; zlia).
    unfold line in *. destruct (is_ec_206 w && (0 <=? use_original_body w)); rewrite Hw; done.
  - unfold send_block. cbn [set_send ws_wbuf ws_ptr remain_send_block_bytes]. unfold splice, slice.
    change (Z.to_nat 0) with 0%nat. rewrite take_0, drop_0, zlen_to_nat, <- !app_assoc.
    cbn [app]. by rewrite take_app_length.
  - cbn [set_send ws_wbuf]. rewrite zlen_splice; zlia.
  - unfold send_ok. cbn [set_send ws_wbuf ws_ptr remain_send_block_bytes]. rewrite zlen_splice; zlia.
  - done.
Qed.

(** The end of the data is sent as the zero chunk. *)
Lemma format_body_chunk_eof w :
  responce_hasbody w = true → zlen (ws_wbuf w) = WBUF_SIZE → is_ec_206 w = false →
  remain_send_block_bytes w = CI_EOF →
  ∃ w', format_body_chunk w = Ret (CI_EOF, w') ∧ send_block w' = eof_chunk.
Proof.
  intros Hb Hsz H206 Hn. unfold format_body_chunk. rewrite Hb, Hn, H206. cbn [negb Z.ltb CI_EOF Z.compare Z.eqb Pos.eqb andb].
  rewrite write_bytes_ok by (rewrite ?Hsz; by vm_compute). cbn [obind].
  eexists. split; [done|]. unfold send_block. cbn [set_send ws_wbuf ws_ptr remain_send_block_bytes].
  unfold splice, slice. change (Z.to_nat 0) with 0%nat. change (Z.to_nat 5) with (length eof_chunk).
  rewrite take_0, drop_0. cbn [app]. by rewrite <- !app_assoc, take_app_length.
Qed.

(** ** Sending a whole body *)

(** The service puts each piece into [wbuf] and it is framed and sent; then
    the end of the data is. *)
Fixpoint send_body (w : wstream) (cs : list (list Z)) : outcome (list Z) :=
  match cs with
  | [] =>
      let* (_, w) := format_body_chunk (set_send (ws_wbuf w) (ws_ptr w) CI_EOF w) in
      Ret (send_block w)
  | d :: cs' =>
      let* wbuf := write_bytes (ws_wbuf w) EXTRA_CHUNK_SIZE d in
      let* (_, w) := format_body_chunk (set_send wbuf EXTRA_CHUNK_SIZE (zlen d) w) in
      let* rest := send_body w cs' in
      Ret (send_block w ++ rest)
  end.

Lemma send_body_encode w cs :
  responce_hasbody w = true → is_ec_206 w = false → zlen (ws_wbuf w) = WBUF_SIZE →
  Forall (λ d, 0 < zlen d ≤ MAX_CHUNK_SIZE) cs →
  send_body w cs = Ret (encode cs).
Proof.
  intros Hb H206 Hsz Hcs. revert w Hb H206 Hsz.
  induction Hcs as [|d cs Hd Hcs IH]; intros w Hb H206 Hsz; cbn [send_body encode].
  - destruct (format_body_chunk_eof (set_send (ws_wbuf w) (ws_ptr w) CI_EOF w)) as (w' & -> & Hs); [done..|].
    cbn [obind]. by rewrite Hs.
  - assert (zlen (ws_wbuf w) = 4096) as Hsz' by done.
    unfold MAX_CHUNK_SIZE in Hd.
    rewrite write_bytes_ok by (unfold EXTRA_CHUNK_SIZE; lia). cbn [obind].
    destruct (format_body_chunk_data
      (set_send (splice (ws_wbuf w) EXTRA_CHUNK_SIZE d) EXTRA_CHUNK_SIZE (zlen d) w) d)
      as (w' & -> & Hs & Hsz2 & _ & Hb2 & H2 & _); try done; cbn.
    + rewrite zlen_splice; unfold EXTRA_CHUNK_SIZE; lia.
    + rewrite slice_splice_same; unfold EXTRA_CHUNK_SIZE; done || lia.
    + cbn in Hb2, H2. rewrite IH by congruence. cbn [obind]. by rewrite Hs.
Qed.

(** ** Properties *)

(** C8: what the server's framing sends for a body given piece by piece (each
    piece not empty and at most [MAX_CHUNK_SIZE] bytes) is read back by
    [read_preview_data] as the concatenation of the pieces, however the network cuts it
    into reads. *)
Theorem send_receive_roundtrip pf fuel w r cs wire :
  responce_hasbody w = true → is_ec_206 w = false → zlen (ws_wbuf w) = WBUF_SIZE →
  Forall (λ d, 0 < zlen d ≤ MAX_CHUNK_SIZE) cs →
  send_body w cs = Ret wire →
  pstrblock_read_len (rd_stream r) = 0 → 0 ≤ pstrblock_read (rd_stream r) →
  fut_of (rd_conn r) = wire → Forall is_data (rd_conn r) → zlen (rd_rbuf r) = BUFSIZE →
  buf_ok (rd_preview r) → bused (rd_preview r) + zlen (concat cs) ≤ bsize (rd_preview r) →
  eof_received (rd_stream r) = false →
  (Z.to_nat BUFSIZE < pf)%nat → 2 * zlen wire + zlen (rd_conn r) < Z.of_nat fuel →
  ∃ r', read_preview_data pf fuel r = Ret (CI_OK, r') ∧
    buf_content (rd_preview r') = buf_content (rd_preview r) ++ concat cs.
Proof.
  intros Hb H206 Hw Hcs Hsend Hlen Hp Hwire Hd Hsz Hbuf Hroom He Hpf Hfuel.
  rewrite send_body_encode in Hsend by done. injection Hsend as <-.
  assert (Hgood : Forall good_chunk cs).
  { eapply Forall_impl; [|exact Hcs]. unfold good_chunk, MAX_CHUNK_SIZE, INT_MAX. lia. }
  destruct (read_preview_data_spec pf fuel r [] (drop (Z.to_nat (pstrblock_read (rd_stream r))) (block_mem r)) cs)
    as (r' & Hrun & Hc); try done.
  rewrite He in Hrun. by exists r'.
Qed.

(** One connection carries what the server sent, in two reads. *)
Definition sample_sender : wstream :=
  mkWstream (replicate 4096 0) 0 0 true false (-1) 0 0.

Definition sample_wire : list Z :=
  match send_body sample_sender [bytes "hello"; bytes "abc"] with Ret l => l | _ => [] end.

Definition sample_receiver : reader :=
  mkReader (mkRstream 0 0 0 0 0 false (-1) 0 0 0) BNull [] (replicate 4096 0)
    [EvData (take 7 sample_wire); EvData (drop 7 sample_wire)] 0
    (mkBuf (Some (replicate 16 0)) 16 0).

Lemma send_receive_roundtrip_witness :
  ∃ r', read_preview_data 5000 100 sample_receiver = Ret (CI_OK, r') ∧
    buf_content (rd_preview r') = bytes "helloabc".
Proof.
  apply (send_receive_roundtrip 5000 100 sample_sender sample_receiver
           [bytes "hello"; bytes "abc"] sample_wire).
  - reflexivity.
  - reflexivity.
  - reflexivity.
  - repeat constructor; vm_compute; (reflexivity || discriminate).
  - vm_compute; reflexivity.
  - reflexivity.
  - vm_compute; discriminate.
  - vm_compute; reflexivity.
  - repeat constructor.
  - reflexivity.
  - exists (replicate 16 0). vm_compute. repeat split; discriminate.
  - vm_compute; discriminate.
  - reflexivity.
  - vm_compute; lia.
  - vm_compute; reflexivity.
Defined.
