(* ===== verification/Headers.v ===== *)
(** * Header lists (header.c)

    [ci_headers_list_t] keeps the header lines in one growing buffer and an
    array of pointers to them.  [headers] is the used part of the pointer
    array, as offsets in [buf]; [size] is the capacity of the array and [bufsize] that
    of the buffer.  In edit mode every line is closed by NUL LF; [ci_headers_pack]
    turns each NUL into CR and appends the empty line, [ci_headers_unpack] does the
    converse on bytes that came from the network.

    The result of each allocation is an argument; [junk] gives the unspecified contents
    of fresh memory. *)

From stdpp Require Import base list list_numbers strings numbers option.
From Stdlib Require Import ZArith Lia.
From S2P Require Import Prelude CString Chunks.

Definition HEADERSTARTSIZE : Z := 64.
Definition HEADSBUFSIZE : Z := BUFSIZE.

(** The error codes (c-icap.h), by position in [ci_error_codes]. *)
Inductive ec :=
| EC_100 | EC_200 | EC_204 | EC_206 | EC_400 | EC_401 | EC_403 | EC_404 | EC_405
| EC_407 | EC_408 | EC_500 | EC_501 | EC_502 | EC_503 | EC_505.

#[export] Instance ec_eq_dec : EqDecision ec.
Proof. solve_decision. Defined.

Record ci_headers_list_t := mkHeaders {
  size : Z;
  headers : list Z;
  bufsize : Z;
  bufused : Z;
  buf : list Z;
  packed : bool
}.

Definition used (h : ci_headers_list_t) : Z := zlen (headers h).

Definition set_index (hs : list Z) (h : ci_headers_list_t) : ci_headers_list_t :=
  mkHeaders (size h) hs (bufsize h) (bufused h) (buf h) (packed h).

Definition set_buf (b : list Z) (n : Z) (h : ci_headers_list_t) : ci_headers_list_t :=
  mkHeaders (size h) (headers h) (bufsize h) n b (packed h).

Definition set_packed (p : bool) (h : ci_headers_list_t) : ci_headers_list_t :=
  mkHeaders (size h) (headers h) (bufsize h) (bufused h) (buf h) p.

Definition strlen_at (m : list Z) (p : Z) : outcome Z :=
  if p <? 0 then UB else scan (strlen (drop (Z.to_nat p) m)).

Section headers.
Context (junk : Z → Z).

(** ** Creation and growth *)

Definition ci_headers_create (a1 a2 a3 : bool) : option ci_headers_list_t :=
  if a1 && a2 && a3 then
    Some (mkHeaders HEADERSTARTSIZE [] HEADSBUFSIZE 0 (fresh junk 0 HEADSBUFSIZE) false)
  else None.

Definition ci_headers_setsize (alloc : bool) (h : ci_headers_list_t) (n : Z) :
    Z * ci_headers_list_t :=
  if n <? bufsize h then (1, h)
  else
  let new_size := (Z.quot n HEADSBUFSIZE + 1) * HEADSBUFSIZE in
  if alloc then
    (1, mkHeaders (size h) (headers h) new_size (bufused h) (grow junk (buf h) new_size) (packed h))
  else (0, h).

Definition ci_headers_reset (h : ci_headers_list_t) : ci_headers_list_t :=
  mkHeaders (size h) [] (bufsize h) 0 (buf h) false.

(** [while (len - used < need) len += step;] from [len]. *)
Fixpoint grow_len (fuel : nat) (len lim step : Z) : Z :=
  match fuel with
  | O => len
  | S fuel' => if len <? lim then grow_len fuel' (len + step) lim step else len
  end.

(** The loop runs at most once per missing byte. *)
Definition grown (len used need step : Z) : Z :=
  grow_len (Z.to_nat (used + need - len)) len (used + need) step.

(** The rebuilding of the pointer array after the buffer has moved: [n] pointers
    from [p], each two bytes after the end of the line before. *)
Fixpoint reindex (m : list Z) (p : Z) (n : nat) : outcome (list Z) :=
  match n with
  | O => Ret []
  | S O => Ret [p]
  | S n' =>
      let* l := strlen_at m p in
      let* r := reindex m (p + l + 2) n' in
      Ret (p :: r)
  end.

(** The index array grows when it is full. *)
Definition grow_index (alloc : bool) (len : Z) (h : ci_headers_list_t) : option ci_headers_list_t :=
  if size h <? len then
    if alloc then Some (mkHeaders len (headers h) (bufsize h) (bufused h) (buf h) (packed h))
    else None
  else Some h.

(** ** ci_headers_add *)

(** [a_idx] and [a_buf] are the results of the two reallocations.  Gives the
    pointer to the new line and the list; the null pointer on failure. *)
Definition ci_headers_add (a_idx a_buf : bool) (h : ci_headers_list_t) (line : list Z) :
    outcome (option Z * ci_headers_list_t) :=
  if packed h then Ret (None, h)
  else
  let len := if used h =? size h then size h + HEADERSTARTSIZE else size h in
  match grow_index a_idx len h with
  | None => Ret (None, h)
  | Some h =>
      let linelen := zlen line in
      let len := grown (bufsize h) (bufused h) (linelen + 4) HEADSBUFSIZE in
      if (bufsize h <? len) && negb a_buf then Ret (None, h)
      else
      let* h :=
        if bufsize h <? len then
          let b := grow junk (buf h) len in
          let* hs := reindex b 0 (length (headers h)) in
          Ret (mkHeaders (size h) hs len (bufused h) b (packed h))
        else Ret h in
      let newhead := bufused h in
      let* b := write_bytes (buf h) newhead (line ++ [NUL]) in
      let* b := store b (newhead + linelen + 1) LF in
      let* b := store b (newhead + linelen + 3) LF in
      Ret (Some newhead, set_index (headers h ++ [newhead]) (set_buf b (bufused h + linelen + 2) h))
  end.

(** ** ci_headers_addheaders *)

Definition ci_headers_addheaders (a_idx a_buf : bool) (h hs : ci_headers_list_t) :
    outcome (Z * ci_headers_list_t) :=
  if packed h then Ret (0, h)
  else
  let len := grown (size h) (used h) (used hs) HEADERSTARTSIZE in
  match grow_index a_idx len h with
  | None => Ret (0, h)
  | Some h =>
      let len := grown (bufsize h) (bufused h) (bufused hs + 2) HEADSBUFSIZE in
      if (bufsize h <? len) && negb a_buf then Ret (0, h)
      else
      let h := if bufsize h <? len
               then mkHeaders (size h) (headers h) len (bufused h) (grow junk (buf h) len) (packed h)
               else h in
      let* d := read_bytes (buf hs) 0 (bufused hs + 2) in
      let* b := write_bytes (buf h) (bufused h) d in
      let* idx := reindex b 0 (length (headers h) + length (headers hs)) in
      Ret (1, set_index idx (set_buf b (bufused h + bufused hs) h))
  end.

(** ** Searching *)

Definition is_eol (b : Z) : bool := (b =? NUL) || (b =? CR) || (b =? LF).

(** [while (e > lo && is_eol( *e)) --e;] for at most [n] steps. *)
Fixpoint trim_back (m : list Z) (lo e : Z) (n : nat) : outcome Z :=
  match n with
  | O => Ret e
  | S n' =>
      if lo <? e then
        let* c := load m e in
        if is_eol c then trim_back m lo (e - 1) n' else Ret e
      else Ret e
  end.

(** [while (lval <= h_end && ( *lval == ' ' || *lval == '\t')) ++lval;] *)
Fixpoint skip_value_blanks (m : list Z) (hi v : Z) (n : nat) : outcome Z :=
  match n with
  | O => Ret v
  | S n' =>
      if v <=? hi then
        let* c := load m v in
        if is_blank c then skip_value_blanks m hi (v + 1) n' else Ret v
      else Ret v
  end.

(** The loop of [do_header_search] from the pointers [hs] on.  [want_value] and
    [want_end] say which results the caller asks for; gives the header, the start
    of its value and its last character. *)
Fixpoint header_search (h : ci_headers_list_t) (name : list Z) (want_value want_end : bool)
    (hs : list Z) : outcome (option (Z * Z * Z)) :=
  match hs with
  | [] => Ret None
  | p :: hs' =>
      let n := zlen name in
      let h_end := bufused h in
      if h_end <? p + n then Ret None
      else
      let* c := load (buf h) (p + n) in
      if negb (c =? 58) then header_search h name want_value want_end hs'
      else
      let* eq := scan (str_prefix_case name (drop (Z.to_nat p) (buf h))) in
      if negb eq then header_search h name want_value want_end hs'
      else
      let* lval :=
        if want_value then skip_value_blanks (buf h) h_end (p + n + 1) (Z.to_nat (h_end + 1 - (p + n + 1)))
        else Ret (p + n + 1) in
      if want_end then
        let e := match hs' with q :: _ => q - 1 | [] => bufused h - 1 end in
        if e <? lval then Ret None
        else let* e := trim_back (buf h) lval e (Z.to_nat (e - lval)) in
             Ret (Some (p, lval, e))
      else Ret (Some (p, lval, 0))
  end.

Definition do_header_search (h : ci_headers_list_t) (name : list Z) (want_value want_end : bool) :
    outcome (option (Z * Z * Z)) :=
  if zlen name =? 0 then Ret None
  else header_search h name want_value want_end (headers h).

Definition ci_headers_search (h : ci_headers_list_t) (name : list Z) : outcome (option Z) :=
  let* r := do_header_search h name false false in
  Ret (match r with Some (p, _, _) => Some p | None => None end).

(** The header and the size of its text. *)
Definition ci_headers_search2 (h : ci_headers_list_t) (name : list Z) : outcome (option Z * Z) :=
  let* r := do_header_search h name false true in
  Ret (match r with Some (p, _, e) => (Some p, e - p + 1) | None => (None, 0) end).

Definition ci_headers_value (h : ci_headers_list_t) (name : list Z) : outcome (option Z) :=
  let* r := do_header_search h name true false in
  Ret (match r with Some (_, v, _) => Some v | None => None end).

Definition ci_headers_value2 (h : ci_headers_list_t) (name : list Z) : outcome (option (Z * Z)) :=
  let* r := do_header_search h name true true in
  Ret (match r with Some (_, v, e) => Some (v, e - v + 1) | None => None end).

Definition ci_headers_first_line (h : ci_headers_list_t) : option Z :=
  if used h =? 0 then None else Some 0.

Definition ci_headers_first_line2 (h : ci_headers_list_t) : outcome (option (Z * Z)) :=
  if used h =? 0 then Ret None
  else
  let e := match headers h with _ :: q :: _ => q - 1 | _ => bufused h end in
  let* e := trim_back (buf h) 0 e (Z.to_nat e) in
  Ret (Some (0, e + 1)).

(** [isspace] steps of [ci_headers_copy_value]. *)
Fixpoint skip_spaces_up (m : list Z) (v e : Z) (n : nat) : outcome Z :=
  match n with
  | O => Ret v
  | S n' => let* c := load m v in
            if isspace c && (v <? e) then skip_spaces_up m (v + 1) e n' else Ret v
  end.

Fixpoint skip_spaces_down (m : list Z) (v e : Z) (n : nat) : outcome Z :=
  match n with
  | O => Ret e
  | S n' => let* c := load m e in
            if isspace c && (v <? e) then skip_spaces_down m v (e - 1) n' else Ret e
  end.

(** The string written to [buf], of size [len > 0]; [None] for the null pointer. *)
Definition ci_headers_copy_value (h : ci_headers_list_t) (name : list Z) (len : Z) :
    outcome (option (list Z)) :=
  let* r := do_header_search h name true true in
  match r with
  | None => Ret None
  | Some (_, v, e) =>
      let* v := skip_spaces_up (buf h) v e (S (Z.to_nat (e - v))) in
      let* e := skip_spaces_down (buf h) v e (S (Z.to_nat (e - v))) in
      let* d := read_bytes (buf h) v (Z.min (len - 1) (Z.max 0 (e - v + 1))) in
      Ret (Some (d ++ [NUL]))
  end.

(** ** Removal *)

(** The rebuilding of the index from position [i + 1]: [p] is the pointer before, [n]
    pointers follow. *)
Fixpoint reindex_after (m : list Z) (p : Z) (n : nat) : outcome (list Z) :=
  match n with
  | O => Ret []
  | S n' =>
      let* l := strlen_at m p in
      let q := p + l + 1 in
      let* c := load m q in
      let q := if c =? LF then q + 1 else q in
      let* r := reindex_after m q n' in
      Ret (q :: r)
  end.

(** The loop of [ci_headers_remove]: [pre] are the pointers already passed. *)
Fixpoint headers_remove (h : ci_headers_list_t) (name pre hs : list Z) :
    outcome (Z * ci_headers_list_t) :=
  match hs with
  | [] => Ret (0, h)
  | p :: hs' =>
      let n := zlen name in
      if bufused h <? p + n then Ret (0, h)
      else
      let* c := load (buf h) (p + n) in
      if negb (c =? 58) then headers_remove h name (pre ++ [p]) hs'
      else
      let* eq := scan (str_prefix_case name (drop (Z.to_nat p) (buf h))) in
      if negb eq then headers_remove h name (pre ++ [p]) hs'
      else
      match hs' with
      | [] =>
          let* b := store (buf h) p CR in
          let* b := store b (p + 1) LF in
          Ret (1, set_index pre (set_buf b p h))
      | q :: hs'' =>
          let cur := q - p in
          let* d := read_bytes (buf h) q (bufused h - p - cur) in
          let* b := write_bytes (buf h) p d in
          let* rest := reindex_after b p (length hs'') in
          Ret (1, set_index (pre ++ p :: rest) (set_buf b (bufused h - cur) h))
      end
  end.

Definition ci_headers_remove (h : ci_headers_list_t) (name : list Z) :
    outcome (Z * ci_headers_list_t) :=
  if packed h then Ret (0, h) else headers_remove h name [] (headers h).

(** Not implemented in the source: always the null pointer. *)
Definition ci_headers_replace (h : ci_headers_list_t) (name newval : list Z) : option Z := None.

(** ** Packing and unpacking *)

Fixpoint pack_lines (m : list Z) (hs : list Z) : outcome (list Z) :=
  match hs with
  | [] => Ret m
  | p :: hs' =>
      let* len := strlen_at m p in
      let* c := load m (p + len + 1) in
      let* m := store m (p + len) (if c =? LF then CR else LF) in
      pack_lines m hs'
  end.

Definition ci_headers_pack (h : ci_headers_list_t) : outcome ci_headers_list_t :=
  let* m := pack_lines (buf h) (headers h) in
  let* c := load m (bufused h + 1) in
  if c =? LF then
    let* m := store m (bufused h) CR in
    Ret (set_packed true (set_buf m (bufused h + 2) h))
  else
    let* m := store m (bufused h) LF in
    Ret (set_packed true (set_buf m (bufused h + 1) h)).

(** Is [str] the end of a header?  Also replaces a NUL by a blank. *)
Definition unpack_eoh (m : list Z) (str ebuf : Z) : outcome (bool * list Z) :=
  let* c0 := load m str in
  let* c1 := if (c0 =? CR) || (c0 =? LF) then load m (str + 1) else Ret 0 in
  if (c0 =? CR) && (c1 =? LF) then
    if ebuf <=? str + 2 then Ret (true, m)
    else let* c2 := load m (str + 2) in Ret (negb (is_blank c2), m)
  else if (c0 =? LF) && negb (is_blank c1) then Ret (true, m)
  else if c0 =? NUL then let* m := store m str SP in Ret (false, m)
  else Ret (false, m).

(** The [for] loop; [alloc] is the result of the reallocations of the index, and
    [idx] the pointers found so far. *)
Fixpoint unpack_loop (fuel : nat) (alloc : bool) (ebuf : Z) (m : list Z) (sz : Z) (idx : list Z)
    (str : Z) : outcome (bool * list Z * Z * list Z) :=
  match fuel with
  | O => NoFuel
  | S fuel' =>
      if str <? ebuf then
        let* (eoh, m) := unpack_eoh m str ebuf in
        if eoh then
          let* m := store m str NUL in
          if (sz <=? zlen idx) && negb alloc then Ret (false, m, sz, idx)
          else
          let sz := if sz <=? zlen idx then sz + HEADERSTARTSIZE else sz in
          let str := str + 1 in
          let* c := load m str in
          let str := if c =? LF then str + 1 else str in
          unpack_loop fuel' alloc ebuf m sz (idx ++ [str]) (str + 1)
        else unpack_loop fuel' alloc ebuf m sz idx (str + 1)
      else Ret (true, m, sz, idx)
  end.

Definition ci_headers_unpack (alloc : bool) (h : ci_headers_list_t) : outcome (ec * ci_headers_list_t) :=
  if bufused h <? 2 then Ret (EC_400, h)
  else
  let ebuf := bufused h - 2 in
  let* c := load (buf h) ebuf in
  if negb (c =? CR) && negb (c =? LF) then Ret (EC_400, h)
  else
  let* m := store (buf h) ebuf NUL in
  let* (ok, m, sz, idx) := unpack_loop (S (Z.to_nat ebuf)) alloc ebuf m (size h) [0] 0 in
  if ok : bool then Ret (EC_100, mkHeaders sz idx (bufsize h) (bufused h) m false)
  else Ret (EC_500, mkHeaders sz idx (bufsize h) (bufused h) m (packed h)).

(** The loop of [ci_headers_pack_to_buffer]: [strchr(pos, 0)] from line to line. *)
Fixpoint pack_copy (m : list Z) (pos : Z) (n : nat) : outcome (list Z) :=
  match n with
  | O => Ret m
  | S n' =>
      let* l := strlen_at m pos in
      let pos := pos + l in
      let* c := load m (pos + 1) in
      let* m := store m pos (if c =? LF then CR else LF) in
      pack_copy m pos n'
  end.

(** [dst] is the destination object, of [size] bytes. *)
Definition ci_headers_pack_to_buffer (h : ci_headers_list_t) (dst : list Z) : outcome (Z * list Z) :=
  let n := if packed h then bufused h else bufused h + 2 in
  if zlen dst <? n then Ret (0, dst)
  else
  let* d := read_bytes (buf h) 0 (bufused h) in
  let* m := write_bytes dst 0 d in
  if packed h then Ret (n, m)
  else
  let* m := pack_copy m 0 (length (headers h)) in
  let* m := store m (bufused h) CR in
  let* m := store m (bufused h + 1) LF in
  Ret (n, m).

Definition sizeofheader (h : ci_headers_list_t) : Z := bufused h + 2.

End headers.

(** ** Representation of a list of lines *)

Definition edit_line (l : list Z) : list Z := l ++ [NUL; LF].
Definition edit (ls : list (list Z)) : list Z := concat (map edit_line ls).

(** The pointers to the lines, the first at [p]. *)
Fixpoint offs (p : Z) (ls : list (list Z)) : list Z :=
  match ls with
  | [] => []
  | l :: ls' => p :: offs (p + zlen l + 2) ls'
  end.

Definition no_nul (l : list Z) : Prop := Forall (λ b, b ≠ 0) l.

(** In edit mode, [h] holds the lines [ls], and [tl] is the rest of its buffer. *)
Record hrepr (h : ci_headers_list_t) (ls : list (list Z)) (tl : list Z) : Prop := {
  hr_mode : packed h = false;
  hr_index : headers h = offs 0 ls;
  hr_buf : buf h = edit ls ++ tl;
  hr_used : bufused h = zlen (edit ls);
  hr_size : zlen (buf h) = bufsize h;
  hr_cap : zlen ls ≤ size h;
  hr_lines : Forall no_nul ls
}.

(** The byte after the next one is a LF: [ci_headers_pack] relies on it. *)
Definition sealed (tl : list Z) : Prop := ∃ c r, tl = c :: LF :: r.

Lemma edit_app ls ks : edit (ls ++ ks) = edit ls ++ edit ks.
Proof. unfold edit. by rewrite map_app, concat_app. Qed.

Lemma edit_cons l ls : edit (l :: ls) = l ++ NUL :: LF :: edit ls.
Proof. unfold edit, edit_line. simpl. by rewrite <- app_assoc. Qed.

Lemma zlen_edit_line l : zlen (edit_line l) = zlen l + 2.
Proof. unfold edit_line. zlia. Qed.

Lemma zlen_edit_cons l ls : zlen (edit (l :: ls)) = zlen l + 2 + zlen (edit ls).
Proof. rewrite edit_cons. zlia. Qed.

Lemma edit_snoc ls l : edit (ls ++ [l]) = edit ls ++ l ++ [NUL; LF].
Proof. by rewrite edit_app, edit_cons. Qed.

Lemma length_offs p ls : length (offs p ls) = length ls.
Proof. revert p. induction ls as [|l ls IH]; intros p; simpl; [done|]. by rewrite IH. Qed.

Lemma offs_app p ls ks : offs p (ls ++ ks) = offs p ls ++ offs (p + zlen (edit ls)) ks.
Proof.
  revert p. induction ls as [|l ls IH]; intros p; simpl.
  { change (zlen (edit [])) with 0. by rewrite Z.add_0_r. }
  rewrite IH, zlen_edit_cons. do 3 f_equal. lia.
Qed.

Lemma cstr_no_nul l r : no_nul l → cstr (l ++ NUL :: r) = Some l.
Proof.
  induction l as [|b l IH]; intros Hl; [done|].
  apply Forall_cons_1 in Hl as [Hb Hl]. simpl.
  rewrite (proj2 (Z.eqb_neq b 0)) by done. by rewrite IH.
Qed.

Lemma strlen_at_line (pre l r : list Z) p :
  p = zlen pre → no_nul l → strlen_at (pre ++ l ++ NUL :: r) p = Ret (zlen l).
Proof.
  intros Hp Hl. unfold strlen_at. solve_cmp. rewrite (drop_zlen pre) by done.
  unfold strlen. by rewrite cstr_no_nul.
Qed.

Lemma reindex_step m p n :
  reindex m p (S (S n)) =
  (let* l := strlen_at m p in let* r := reindex m (p + l + 2) (S n) in Ret (p :: r)).
Proof. done. Qed.

Lemma reindex_spec ls (pre tl : list Z) p :
  p = zlen pre → Forall no_nul ls →
  reindex (pre ++ edit ls ++ tl) p (length ls) = Ret (offs p ls).
Proof.
  intros Hp Hls. revert pre p Hp. induction Hls as [|l ls Hl Hls IH]; intros pre p Hp; [done|].
  destruct ls as [|l2 ls]; [done|].
  change (length (l :: l2 :: ls)) with (S (S (length ls))). rewrite reindex_step.
  rewrite edit_cons, <- app_assoc. cbn [app].
  rewrite strlen_at_line by done. cbn [obind].
  specialize (IH (pre ++ edit_line l) (p + zlen l + 2) ltac:(rewrite zlen_app, zlen_edit_line; lia)).
  unfold edit_line in IH. rewrite <- !app_assoc in IH. cbn [app length] in IH.
  rewrite IH. done.
Qed.

Lemma grow_len_spec fuel len lim step :
  0 < step → lim ≤ len + Z.of_nat fuel → let n := grow_len fuel len lim step in lim ≤ n ∧ len ≤ n.
Proof.
  intros Hs. revert len. induction fuel as [|fuel IH]; intros len Hf; cbn [grow_len]; [lia|].
  case_cmp; [|lia]. specialize (IH (len + step) ltac:(lia)). simpl in IH. lia.
Qed.

Lemma grown_spec len u need step :
  0 < step → u + need ≤ grown len u need step ∧ len ≤ grown len u need step.
Proof. intros. apply grow_len_spec; lia. Qed.

Lemma grow_index_spec len h ls tl :
  hrepr h ls tl → size h ≤ len →
  ∃ h', grow_index true len h = Some h' ∧ hrepr h' ls tl ∧ size h' = len ∧
    bufsize h' = bufsize h ∧ bufused h' = bufused h ∧ buf h' = buf h ∧ headers h' = headers h.
Proof.
  intros [] Hl. unfold grow_index. case_cmp.
  - eexists. split; [done|]. split; [|done]. split; try done. simpl. lia.
  - exists h. split; [done|]. split; [done|]. split_and!; done || lia.
Qed.

(** ** Adding a line *)

Lemma write_line (pre tl line : list Z) p :
  p = zlen pre → zlen line + 4 ≤ zlen tl →
  ∃ c r,
    (let* b := write_bytes (pre ++ tl) p (line ++ [NUL]) in
     let* b := store b (p + zlen line + 1) LF in
     store b (p + zlen line + 3) LF) = Ret ((pre ++ edit_line line) ++ c :: LF :: r) ∧
    zlen (c :: LF :: r) = zlen tl - zlen line - 2.
Proof.
  intros Hp Hl. destruct (split_at tl (zlen line + 4)) as (x & r & -> & Hx); [zlia|].
  destruct (split_at x (zlen line + 1)) as (x1 & x2 & -> & Hx1); [zlia|].
  destruct x2 as [|c1 [|c2 [|c3 [|? ?]]]]; try (exfalso; zlia).
  exists c2, r. split; [|zlia].
  rewrite <- app_assoc. rewrite write_bytes_app by zlia. cbn [obind].
  rewrite drop_ge by (unfold zlen in *; rewrite length_app; simpl; lia). cbn [app].
  rewrite !app_assoc. rewrite store_app by zlia. cbn [obind].
  replace ((((pre ++ line) ++ [NUL]) ++ LF :: c2 :: c3 :: r))
    with ((((pre ++ line) ++ [NUL]) ++ [LF; c2]) ++ c3 :: r) by (by rewrite <- !app_assoc).
  rewrite store_app by zlia.
  unfold edit_line. by rewrite <- !app_assoc.
Qed.

Lemma add_in_place h ls tl line :
  hrepr h ls tl → no_nul line → zlen ls < size h → zlen line + 4 ≤ zlen tl →
  ∃ h' tl',
    (let newhead := bufused h in
     let* b := write_bytes (buf h) newhead (line ++ [NUL]) in
     let* b := store b (newhead + zlen line + 1) LF in
     let* b := store b (newhead + zlen line + 3) LF in
     Ret (Some newhead, set_index (headers h ++ [newhead]) (set_buf b (bufused h + zlen line + 2) h)))
    = Ret (Some (zlen (edit ls)), h') ∧
    hrepr h' (ls ++ [line]) tl' ∧ sealed tl'.
Proof.
  intros Hr Hn Hcap Hl. destruct Hr as [Hm Hi Hb Hu Hs Hc Hls].
  destruct (write_line (edit ls) tl line (bufused h) Hu Hl) as (c & r & Hw & Hz).
  cbn zeta. rewrite Hb.
  assert (Hbind : ∀ {B : Type} (k : list Z → outcome B),
    (let* b := write_bytes (edit ls ++ tl) (bufused h) (line ++ [NUL]) in
     let* b := store b (bufused h + zlen line + 1) LF in
     let* b := store b (bufused h + zlen line + 3) LF in k b)
    = k ((edit ls ++ edit_line line) ++ c :: LF :: r)).
  { intros B k. destruct (write_bytes _ _ _) as [b| | |]; cbn [obind] in *; try done.
    destruct (store b _ _) as [b2| | |]; cbn [obind] in *; try done. by rewrite Hw. }
  rewrite Hbind. rewrite Hu. eexists _, _. split; [done|]. split; [|by exists c, r].
  assert (He : edit [line] = edit_line line) by (unfold edit; simpl; by rewrite app_nil_r).
  split; cbn; try done.
  - by rewrite Hi, offs_app.
  - by rewrite edit_app, He.
  - rewrite edit_app, He, zlen_app, zlen_edit_line. lia.
  - rewrite <- Hs, Hb, !zlen_app, zlen_edit_line, Hz. lia.
  - zlia.
  - apply Forall_app. by repeat constructor.
Qed.

Section growing.
Context (junk : Z → Z).

(** Growing the buffer keeps the lines. *)
Lemma hrepr_grow h ls tl n :
  hrepr h ls tl → bufsize h ≤ n →
  hrepr (mkHeaders (size h) (headers h) n (bufused h) (grow junk (buf h) n) (packed h)) ls
    (tl ++ fresh junk (bufsize h) n).
Proof.
  intros [Hm Hi Hb Hu Hs Hc Hls] Hn. split; cbn; try done.
  - unfold grow. by rewrite Hs, Hb, app_assoc.
  - rewrite zlen_grow; lia.
Qed.

Lemma zlen_tail h ls tl : hrepr h ls tl → zlen tl = bufsize h - bufused h.
Proof. intros [Hm Hi Hb Hu Hs Hc Hls]. rewrite <- Hs, Hb, Hu. zlia. Qed.

(** With both allocations, a line is appended and the list is sealed. *)
Lemma ci_headers_add_spec h ls tl line :
  hrepr h ls tl → no_nul line →
  ∃ h' tl', ci_headers_add junk true true h line = Ret (Some (zlen (edit ls)), h') ∧
    hrepr h' (ls ++ [line]) tl' ∧ sealed tl'.
Proof.
  intros Hr Hn. unfold ci_headers_add. rewrite (hr_mode _ _ _ Hr).
  set (len := if used h =? size h then size h + HEADERSTARTSIZE else size h).
  assert (Hu : used h = zlen ls) by (unfold used, zlen; by rewrite (hr_index _ _ _ Hr), length_offs).
  pose proof (hr_cap _ _ _ Hr) as Hcap.
  assert (Hlen : size h ≤ len ∧ zlen ls < len).
  { unfold len, HEADERSTARTSIZE. rewrite Hu. case_cmp; lia. }
  destruct (grow_index_spec len h ls tl Hr ltac:(lia)) as (h1 & -> & Hr1 & Hs1 & _).
  set (n := grown (bufsize h1) (bufused h1) (zlen line + 4) HEADSBUFSIZE).
  destruct (grown_spec (bufsize h1) (bufused h1) (zlen line + 4) HEADSBUFSIZE) as [Hn1 Hn2];
    [done|]. fold n in Hn1, Hn2.
  rewrite andb_false_r. destruct (Z.ltb_spec (bufsize h1) n) as [Hg|Hg].
  - pose proof (hrepr_grow h1 ls tl n Hr1 Hn2) as Hr2.
    rewrite (hr_index _ _ _ Hr1), length_offs.
    pose proof (hr_buf _ _ _ Hr2) as Hb2. cbn in Hb2.
    pose proof (reindex_spec ls [] (tl ++ fresh junk (bufsize h1) n) 0 eq_refl (hr_lines _ _ _ Hr)) as Hre.
    cbn [app] in Hre. rewrite <- Hb2 in Hre. rewrite Hre. cbn [obind].
    rewrite <- (hr_index _ _ _ Hr1).
    eapply add_in_place; [exact Hr2|done|cbn; lia|].
    pose proof (zlen_tail _ _ _ Hr2) as Hz. cbn in Hz. lia.
  - cbn [obind]. apply (add_in_place h1 ls tl); [done|done|lia|].
    rewrite (zlen_tail _ _ _ Hr1). lia.
Qed.

Lemma create_repr :
  ∃ h tl, ci_headers_create junk true true true = Some h ∧ hrepr h [] tl.
Proof.
  eexists _, _. split; [done|]. split; cbn; try done.
Qed.

Lemma reset_repr h ls tl : hrepr h ls tl → hrepr (ci_headers_reset h) [] (buf h).
Proof. intros []. split; cbn; try done. zlia. Qed.

(** ** Appending a list *)

Lemma ci_headers_addheaders_spec h ls tl h2 ks tl2 :
  hrepr h ls tl → hrepr h2 ks tl2 → sealed tl2 →
  ∃ h' tl', ci_headers_addheaders junk true true h h2 = Ret (1, h') ∧
    hrepr h' (ls ++ ks) tl' ∧ sealed tl'.
Proof.
  intros Hr Hr2 (c & r2 & Ht2). unfold ci_headers_addheaders. rewrite (hr_mode _ _ _ Hr).
  assert (Hu : ∀ g l t, hrepr g l t → used g = zlen l).
  { intros g l t Hg. unfold used, zlen. by rewrite (hr_index _ _ _ Hg), length_offs. }
  rewrite (Hu _ _ _ Hr), (Hu _ _ _ Hr2).
  set (len := grown (size h) (zlen ls) (zlen ks) HEADERSTARTSIZE).
  destruct (grown_spec (size h) (zlen ls) (zlen ks) HEADERSTARTSIZE) as [Hl1 Hl2]; [done|].
  fold len in Hl1, Hl2.
  destruct (grow_index_spec len h ls tl Hr ltac:(lia)) as (h1 & -> & Hr1 & Hs1 & _).
  set (n := grown (bufsize h1) (bufused h1) (bufused h2 + 2) HEADSBUFSIZE).
  destruct (grown_spec (bufsize h1) (bufused h1) (bufused h2 + 2) HEADSBUFSIZE) as [Hn1 Hn2]; [done|].
  fold n in Hn1, Hn2. rewrite andb_false_r.
  set (h3 := if bufsize h1 <? n then _ else h1).
  assert (Hh3 : ∃ tl3, hrepr h3 ls tl3 ∧ bufsize h3 = n ∧ bufused h3 = bufused h1 ∧ size h3 = len).
  { unfold h3. destruct (Z.ltb_spec (bufsize h1) n).
    - eexists. split; [by apply hrepr_grow|]. by cbn.
    - exists tl. split_and!; done || lia. }
  destruct Hh3 as (tl3 & Hr3 & Hsz3 & Hus3 & Hcap3). clearbody h3.
  pose proof (hr_buf _ _ _ Hr2) as Hb2. pose proof (hr_used _ _ _ Hr2) as Hu2.
  subst tl2. rewrite Hb2.
  assert (Hd : read_bytes (edit ks ++ c :: LF :: r2) 0 (bufused h2 + 2) = Ret (edit ks ++ [c; LF])).
  { rewrite read_bytes_ok by zlia. f_equal.
    replace (edit ks ++ c :: LF :: r2) with ((edit ks ++ [c; LF]) ++ r2) by (by rewrite <- app_assoc).
    rewrite slice_app_l by zlia. apply slice_all. zlia. }
  rewrite Hd. cbn [obind].
  pose proof (zlen_tail _ _ _ Hr3) as Hz3. rewrite (hr_buf _ _ _ Hr3).
  destruct (split_at tl3 (bufused h2 + 2)) as (x & r & -> & Hx); [zlia|].
  rewrite write_bytes_app; [|by rewrite (hr_used _ _ _ Hr3)|zlia].
  rewrite drop_ge by (unfold zlen in *; rewrite length_app; simpl; lia). cbn [app obind].
  rewrite (hr_index _ _ _ Hr3), (hr_index _ _ _ Hr2), !length_offs, <- length_app.
  assert (Hall : edit ls ++ (edit ks ++ [c; LF]) ++ r = edit (ls ++ ks) ++ c :: LF :: r)
    by (by rewrite edit_app, <- !app_assoc).
  rewrite Hall.
  assert (Hnn : Forall no_nul (ls ++ ks)) by (apply Forall_app; split; [apply Hr|apply Hr2]).
  pose proof (reindex_spec (ls ++ ks) [] (c :: LF :: r) 0 eq_refl Hnn) as Hre. cbn [app] in Hre.
  rewrite Hre. cbn [obind].
  eexists _, (c :: LF :: r). split; [done|]. split; [|by exists c, r].
  split; cbn; try done.
  - apply Hr3.
  - rewrite edit_app, (hr_used _ _ _ Hr3), Hu2. zlia.
  - rewrite Hsz3, <- Hsz3, <- (hr_size _ _ _ Hr3), (hr_buf _ _ _ Hr3), edit_app. zlia.
  - zlia.
Qed.
End growing.

(** ** Packing *)

Definition wire_line (l : list Z) : list Z := l ++ CRLF.
Definition wire (ls : list (list Z)) : list Z := concat (map wire_line ls).

Lemma wire_cons l ls : wire (l :: ls) = l ++ CR :: LF :: wire ls.
Proof. unfold wire, wire_line, CRLF. simpl. by rewrite <- app_assoc. Qed.

Lemma zlen_wire ls : zlen (wire ls) = zlen (edit ls).
Proof.
  induction ls as [|l ls IH]; [done|]. rewrite wire_cons, zlen_edit_cons. zlia.
Qed.

Lemma pack_lines_spec ls (pre tl : list Z) p :
  p = zlen pre → Forall no_nul ls →
  pack_lines (pre ++ edit ls ++ tl) (offs p ls) = Ret (pre ++ wire ls ++ tl).
Proof.
  intros Hp Hls. revert pre p Hp. induction Hls as [|l ls Hl Hls IH]; intros pre p Hp; [done|].
  cbn [offs pack_lines]. rewrite edit_cons, <- app_assoc. cbn [app].
  rewrite strlen_at_line by done. cbn [obind].
  replace (pre ++ l ++ NUL :: LF :: edit ls ++ tl) with ((pre ++ l ++ [NUL]) ++ LF :: edit ls ++ tl)
    by (by rewrite <- !app_assoc).
  rewrite load_app by zlia. cbn [obind]. rewrite Z.eqb_refl.
  replace ((pre ++ l ++ [NUL]) ++ LF :: edit ls ++ tl) with ((pre ++ l) ++ NUL :: LF :: edit ls ++ tl)
    by (by rewrite <- !app_assoc).
  rewrite store_app by zlia. cbn [obind].
  replace ((pre ++ l) ++ CR :: LF :: edit ls ++ tl) with ((pre ++ wire_line l) ++ edit ls ++ tl)
    by (unfold wire_line; by rewrite <- !app_assoc).
  rewrite IH.
  - f_equal. rewrite wire_cons. unfold wire_line. by rewrite <- !app_assoc.
  - unfold wire_line, CRLF. zlia.
Qed.

Lemma ci_headers_pack_spec h ls tl :
  hrepr h ls tl → sealed tl →
  ∃ h' r, ci_headers_pack h = Ret h' ∧ buf h' = wire ls ++ CRLF ++ r ∧
    bufused h' = zlen (wire ls ++ CRLF) ∧ packed h' = true ∧ zlen (buf h') = bufsize h' ∧ size h' = size h.
Proof.
  intros Hr (c & r & ->). pose proof (hr_size _ _ _ Hr) as Hsz. unfold ci_headers_pack.
  rewrite (hr_buf _ _ _ Hr), (hr_index _ _ _ Hr), (hr_used _ _ _ Hr).
  pose proof (pack_lines_spec ls [] (c :: LF :: r) 0 eq_refl (hr_lines _ _ _ Hr)) as Hp.
  cbn [app] in Hp. rewrite Hp. cbn [obind]. rewrite <- zlen_wire.
  replace (wire ls ++ c :: LF :: r) with ((wire ls ++ [c]) ++ LF :: r) by (by rewrite <- app_assoc).
  rewrite load_app by zlia. cbn [obind]. rewrite Z.eqb_refl.
  replace ((wire ls ++ [c]) ++ LF :: r) with (wire ls ++ c :: LF :: r) by (by rewrite <- app_assoc).
  rewrite store_app by done. cbn [obind].
  eexists _, r. split; [done|]. cbn. split_and!; try done; [unfold CRLF; zlia|].
  rewrite <- Hsz, (hr_buf _ _ _ Hr), !zlen_app, zlen_wire. zlia.
Qed.

(** ** Unpacking *)

(** A line without NUL, CR or LF that does not look like the continuation of the
    one before. *)
Definition clean_byte (b : Z) : Prop := b ≠ NUL ∧ b ≠ CR ∧ b ≠ LF.
Definition clean_line (l : list Z) : Prop :=
  Forall clean_byte l ∧ ∃ c l', l = c :: l' ∧ is_blank c = false.

Lemma clean_no_nul l : clean_line l → no_nul l.
Proof. intros [H _]. eapply Forall_impl; [|exact H]. by intros b (? & ? & ?). Qed.

(** The rest [x] of the current line and the lines [ls] after it, when the last
    CR is already a NUL. *)
Fixpoint half (x : list Z) (ls : list (list Z)) : list Z :=
  match ls with
  | [] => x ++ [NUL; LF]
  | l :: ls' => x ++ CR :: LF :: half l ls'
  end.

Lemma zlen_half x ls : zlen (half x ls) = zlen (edit (x :: ls)).
Proof.
  revert x. induction ls as [|l ls IH]; intros x; cbn [half].
  - rewrite zlen_edit_cons. change (zlen (edit [])) with 0. zlia.
  - rewrite zlen_edit_cons, zlen_app, !zlen_cons, IH. zlia.
Qed.

Lemma unpack_eoh_clean m str ebuf c :
  clean_byte c → load m str = Ret c → unpack_eoh m str ebuf = Ret (false, m).
Proof.
  intros (H0 & HCR & HLF) Hl. unfold unpack_eoh. rewrite Hl. cbn [obind].
  rewrite (proj2 (Z.eqb_neq c CR)), (proj2 (Z.eqb_neq c LF)) by done. cbn [orb obind andb].
  by rewrite (proj2 (Z.eqb_neq c NUL)).
Qed.

(** The scan runs over the clean bytes of a line. *)
Lemma unpack_scan x fuel ebuf (pre r : list Z) sz idx :
  Forall clean_byte x → zlen pre + zlen x ≤ ebuf →
  unpack_loop (length x + fuel) true ebuf (pre ++ x ++ r) sz idx (zlen pre) =
  unpack_loop fuel true ebuf (pre ++ x ++ r) sz idx (zlen pre + zlen x).
Proof.
  revert pre. induction x as [|c x IH]; intros pre Hx Hle.
  { cbn. by rewrite Z.add_0_r. }
  apply Forall_cons_1 in Hx as [Hc Hx]. cbn [length Nat.add unpack_loop app].
  rewrite zlen_cons in Hle. pose proof (zlen_nonneg x). solve_cmp.
  rewrite (unpack_eoh_clean _ _ _ c) by (done || by apply load_app).
  cbn [obind].
  specialize (IH (pre ++ [c]) Hx ltac:(zlia)). rewrite <- app_assoc in IH. cbn [app] in IH.
  replace (zlen pre + 1) with (zlen (pre ++ [c])) by zlia. rewrite IH.
  f_equal. zlia.
Qed.

Lemma unpack_loop_spec ls x fuel ebuf (pre tl : list Z) sz idx :
  Forall clean_byte x → Forall clean_line ls → 0 < zlen idx ≤ sz →
  ebuf = zlen pre + zlen (half x ls) - 2 → ebuf - zlen pre < Z.of_nat fuel →
  ∃ sz', unpack_loop fuel true ebuf (pre ++ half x ls ++ tl) sz idx (zlen pre) =
    Ret (true, pre ++ edit (x :: ls) ++ tl, sz',
         idx ++ offs (zlen pre + zlen x + 2) ls) ∧ zlen idx + zlen ls ≤ sz'.
Proof.
  intros Hx Hls. revert x fuel pre sz idx Hx.
  induction Hls as [|l ls [Hl (c & l' & -> & Hb)] Hls IH]; intros x fuel pre sz idx Hx Hidx He Hf;
    cbn [half offs].
  - cbn [half] in He. assert (Hebuf : ebuf = zlen pre + zlen x) by zlia.
    replace fuel with (length x + (fuel - length x))%nat by (unfold zlen in *; lia).
    rewrite <- app_assoc. rewrite unpack_scan by (done || lia).
    destruct (fuel - length x)%nat as [|f] eqn:Ef; [unfold zlen in *; lia|].
    cbn [unpack_loop]. solve_cmp. exists sz. rewrite app_nil_r. split; [|zlia].
    by rewrite edit_cons, <- app_assoc.
  - cbn [half] in He. rewrite <- app_assoc. cbn [app].
    assert (Hh : 2 < zlen (half (c :: l') ls)).
    { rewrite zlen_half, zlen_edit_cons. zlia. }
    rewrite zlen_app, !zlen_cons in He.
    replace fuel with (length x + (fuel - length x))%nat by (unfold zlen in *; lia).
    rewrite unpack_scan by (done || zlia).
    destruct (fuel - length x)%nat as [|f] eqn:Ef; [unfold zlen in *; lia|].
    assert (Hf' : ebuf - zlen pre - zlen x < 1 + Z.of_nat f) by (unfold zlen in *; lia).
    cbn [unpack_loop]. solve_cmp.
    assert (Hhd : ∃ y, half (c :: l') ls ++ tl = c :: y) by (destruct ls; by eexists).
    destruct Hhd as [y Hy].
    assert (Heoh : unpack_eoh (pre ++ x ++ CR :: LF :: half (c :: l') ls ++ tl) (zlen pre + zlen x) ebuf =
      Ret (true, pre ++ x ++ CR :: LF :: half (c :: l') ls ++ tl)).
    { unfold unpack_eoh. rewrite Hy.
      replace (pre ++ x ++ CR :: LF :: c :: y) with ((pre ++ x) ++ CR :: LF :: c :: y) by (by rewrite <- app_assoc).
      rewrite load_app by zlia. cbn [obind]. rewrite Z.eqb_refl. cbn [orb].
      replace ((pre ++ x) ++ CR :: LF :: c :: y) with ((pre ++ x ++ [CR]) ++ LF :: c :: y) by (by rewrite <- !app_assoc).
      rewrite load_app by zlia. cbn [obind]. rewrite Z.eqb_refl. cbn [andb]. solve_cmp.
      replace ((pre ++ x ++ [CR]) ++ LF :: c :: y) with ((pre ++ x ++ [CR; LF]) ++ c :: y) by (by rewrite <- !app_assoc).
      rewrite load_app by zlia. cbn [obind]. by rewrite Hb. }
    rewrite Heoh. cbn [obind].
    rewrite (app_assoc pre x), store_app by zlia. cbn [obind]. rewrite andb_false_r.
    replace ((pre ++ x) ++ NUL :: LF :: half (c :: l') ls ++ tl)
      with ((pre ++ x ++ [NUL]) ++ LF :: half (c :: l') ls ++ tl) by (by rewrite <- !app_assoc).
    rewrite load_app by zlia. cbn [obind]. rewrite Z.eqb_refl.
    set (sz1 := if sz <=? zlen idx then sz + HEADERSTARTSIZE else sz).
    set (str := zlen pre + zlen x + 1 + 1).
    assert (Hrest : (pre ++ x ++ [NUL]) ++ LF :: half (c :: l') ls ++ tl =
      (pre ++ edit_line x ++ [c]) ++ half l' ls ++ tl).
    { unfold edit_line. rewrite <- !app_assoc. by destruct ls; cbn [half app]. }
    rewrite Hrest.
    replace (str + 1) with (zlen (pre ++ edit_line x ++ [c])) by (unfold edit_line, str; zlia).
    apply Forall_cons_1 in Hl as [_ Hl'].
    destruct (IH l' f (pre ++ edit_line x ++ [c]) sz1 (idx ++ [str])) as (sz' & Hrun & Hsz').
    + done.
    + unfold sz1, HEADERSTARTSIZE. case_cmp; zlia.
    + rewrite zlen_half, zlen_edit_cons in He |- *. unfold edit_line. zlia.
    + unfold edit_line. zlia.
    + exists sz'. split; [|zlia]. rewrite Hrun.
      replace ((pre ++ edit_line x ++ [c]) ++ edit (l' :: ls) ++ tl)
        with (pre ++ edit (x :: (c :: l') :: ls) ++ tl)
        by (rewrite !edit_cons; unfold edit_line; by_app).
      replace (zlen (pre ++ edit_line x ++ [c]) + zlen l' + 2)
        with (zlen pre + zlen x + 2 + zlen (c :: l') + 2) by (unfold edit_line; zlia).
      rewrite <- app_assoc. cbn [app]. unfold str.
      by replace (zlen pre + zlen x + 1 + 1) with (zlen pre + zlen x + 2) by lia.
Qed.

Lemma wire_last l ls :
  ∃ w, wire (l :: ls) = w ++ [CR; LF] ∧ half l ls = w ++ [NUL; LF].
Proof.
  revert l. induction ls as [|k ls IH]; intros l.
  - exists l. by rewrite wire_cons.
  - destruct (IH k) as (w & Hw & Hh). exists (l ++ CR :: LF :: w).
    rewrite wire_cons, Hw. cbn [half]. rewrite Hh. split; by_app.
Qed.

(** The bytes of well formed lines, as [ci_read_icap_header] and
    [read_encaps_header] leave them, become the list of the lines. *)
Lemma ci_headers_unpack_spec h ls tl :
  ls ≠ [] → Forall clean_line ls → 1 ≤ size h →
  buf h = wire ls ++ tl → bufused h = zlen (wire ls) → bufsize h = zlen (buf h) →
  ∃ h', ci_headers_unpack true h = Ret (EC_100, h') ∧ hrepr h' ls tl.
Proof.
  destruct ls as [|l ls]; [done|]. intros _ Hls Hsz Hb Hu Hbs.
  destruct (wire_last l ls) as (w & Hw & Hh). unfold ci_headers_unpack.
  assert (Hwl : zlen (wire (l :: ls)) = zlen w + 2) by (rewrite Hw; zlia).
  rewrite Hb, Hu, Hw in *. pose proof (zlen_nonneg w). solve_cmp.
  rewrite <- app_assoc. cbn [app]. rewrite load_app by zlia. cbn [obind].
  rewrite Z.eqb_refl. cbn [andb negb].
  rewrite store_app by zlia. cbn [obind].
  replace (w ++ NUL :: LF :: tl) with (half l ls ++ tl) by (rewrite Hh; by_app).
  pose proof (Forall_cons_1 _ _ _ Hls) as [[Hl _] Hls'].
  destruct (unpack_loop_spec ls l (S (Z.to_nat (zlen w + 2 - 2))) (zlen w + 2 - 2) [] tl
              (size h) [0]) as (sz' & Hrun & Hsz'); [done|done|zlia|rewrite Hh; zlia|zlia|].
  replace (zlen (w ++ [CR; LF]) - 2) with (zlen w + 2 - 2) by zlia.
  change (zlen []) with 0 in Hrun. cbn [app] in Hrun. rewrite Hrun. cbn [obind]. eexists. split; [done|].
  split; cbn; try done.
  - change (_ ++ concat _) with (edit (l :: ls)). by rewrite <- zlen_wire, Hw.
  - change (_ ++ concat _) with (edit (l :: ls)). rewrite Hbs, zlen_app, <- zlen_wire, Hw. zlia.
  - zlia.
  - eapply Forall_impl; [|exact Hls]. apply clean_no_nul.
Qed.

(** ** Searching *)

(** [l] is a header whose name is [name], up to case. *)
Fixpoint field_match (name l : list Z) : bool :=
  match name, l with
  | [], b :: _ => b =? 58
  | c :: name', b :: l' => (tolower b =? tolower c) && field_match name' l'
  | _, [] => false
  end.

Lemma field_match_len name l : field_match name l = true → zlen name < zlen l.
Proof.
  revert l. induction name as [|c name IH]; intros [|b l]; cbn [field_match]; intros H; try done.
  apply andb_prop in H as [_ H]. apply IH in H. zlia.
Qed.

Lemma tolower_nul c : is_byte c → c ≠ 0 → tolower NUL ≠ tolower c.
Proof. unfold is_byte, tolower, NUL. intros. cbn. case_match; lia. Qed.

(** A header name: bytes of a C string. *)
Definition good_name (name : list Z) : Prop := Forall (λ c, is_byte c ∧ c ≠ 0) name.

(** The test of one header by [do_header_search] and [ci_headers_remove]. *)
Lemma prefix_case_line name l r :
  good_name name → no_nul l →
  (∃ b, str_prefix_case name (l ++ NUL :: r) = Some b) ∧
  (field_match name l = true → str_prefix_case name (l ++ NUL :: r) = Some true).
Proof.
  intros Hn. revert l. induction Hn as [|c name [Hb Hc] Hn IH]; intros l Hl.
  { split; [by eexists|done]. }
  destruct l as [|b l]; cbn [app str_prefix_case field_match].
  - rewrite (proj2 (Z.eqb_neq _ _) (tolower_nul c Hb Hc)). split; [by eexists|done].
  - apply Forall_cons_1 in Hl as [_ Hl]. destruct (IH l Hl) as [He Ht].
    case_match; [|by split; [eexists|]]. split; [done|]. exact Ht.
Qed.

Lemma field_match_false name l r :
  good_name name → no_nul l → field_match name l = false →
  str_prefix_case name (l ++ NUL :: r) = Some true →
  ∃ x c y, l ++ NUL :: r = x ++ c :: y ∧ zlen x = zlen name ∧ c ≠ 58.
Proof.
  intros Hn. revert l. induction Hn as [|c name [Hb Hc] Hn IH]; intros l Hl Hf Hp.
  - destruct l as [|b l]; cbn in Hf.
    + by exists [], NUL, r.
    + exists [], b, (l ++ NUL :: r). split_and!; [done..|]. by apply Z.eqb_neq.
  - destruct l as [|b l]; cbn [app str_prefix_case field_match] in *.
    + by rewrite (proj2 (Z.eqb_neq _ _) (tolower_nul c Hb Hc)) in Hp.
    + destruct (tolower b =? tolower c); [|done].
      apply Forall_cons_1 in Hl as [_ Hl].
      destruct (IH l Hl Hf Hp) as (x & d & y & -> & Hx & Hd).
      exists (b :: x), d, y. split_and!; [done|zlia|done].
Qed.

Lemma field_match_true name l :
  field_match name l = true → ∃ x v, l = x ++ 58 :: v ∧ zlen x = zlen name.
Proof.
  revert l. induction name as [|c name IH]; intros [|b l]; cbn [field_match]; intros H; try done.
  - apply Z.eqb_eq in H as ->. by exists [], l.
  - apply andb_prop in H as [_ H]. destruct (IH _ H) as (x & v & -> & Hx).
    exists (b :: x), v. split; [done|zlia].
Qed.

Lemma line_test {A : Type} (m pre l r name : list Z) p (k1 k2 : outcome A) :
  m = pre ++ l ++ NUL :: r → p = zlen pre → good_name name → no_nul l →
  zlen name ≤ zlen l + zlen r →
  (let* c := load m (p + zlen name) in
   if negb (c =? 58) then k1
   else let* eq := scan (str_prefix_case name (drop (Z.to_nat p) m)) in
        if negb eq then k1 else k2) = if field_match name l then k2 else k1.
Proof.
  intros -> -> Hn Hl Hle. rewrite drop_zlen by done.
  destruct (prefix_case_line name l r Hn Hl) as [[eq He] Ht].
  destruct (field_match name l) eqn:Hf.
  - rewrite Ht by done. destruct (field_match_true _ _ Hf) as (x & v & -> & Hx).
    rewrite app_assoc, app_assoc, <- (app_assoc (pre ++ x)). cbn [app].
    by rewrite load_app by zlia.
  - rewrite He. destruct (load_in (pre ++ l ++ NUL :: r) (zlen pre + zlen name)) as (c & Hc & _);
      [zlia|]. rewrite Hc. cbn [obind scan]. destruct eq; [|by destruct (c =? 58)].
    destruct (field_match_false _ _ _ Hn Hl Hf He) as (x & d & y & Heq & Hx & Hd).
    rewrite Heq, app_assoc, load_app in Hc by zlia. injection Hc as <-.
    by rewrite (proj2 (Z.eqb_neq _ _) Hd).
Qed.

Lemma field_match_short name ls : zlen (edit ls) < zlen name →
  Forall (λ l, field_match name l = false) ls.
Proof.
  induction ls as [|l ls IH]; [constructor|]. rewrite zlen_edit_cons. intros Hlt.
  constructor.
  - destruct (field_match name l) eqn:E; [|done]. apply field_match_len in E. zlia.
  - apply IH. zlia.
Qed.

(** The first line named [name] among [ls], with its offset and the lines before and
    after it. *)
Fixpoint find_field (name : list Z) (bef ls : list (list Z)) :
    option (list (list Z) * list Z * list (list Z)) :=
  match ls with
  | [] => None
  | l :: ls' => if field_match name l then Some (bef, l, ls') else find_field name (bef ++ [l]) ls'
  end.

Lemma find_field_none name bef ls :
  Forall (λ l, field_match name l = false) ls → find_field name bef ls = None.
Proof. intros H. revert bef. induction H as [|l ls Hl _ IH]; intros bef; [done|]. cbn. by rewrite Hl. Qed.

Lemma find_field_some name bef ls a l b :
  find_field name bef ls = Some (a, l, b) → a ++ l :: b = bef ++ ls ∧ field_match name l = true.
Proof.
  revert bef. induction ls as [|k ls IH]; intros bef; [done|]. cbn.
  destruct (field_match name k) eqn:E.
  - by intros [= <- <- <-].
  - intros H. destruct (IH _ H) as [-> ?]. split; [by_app|done].
Qed.

(** What the search gives for the header [l] at [p], the last character of which is
    at [e] before trimming. *)
Definition found (h : ci_headers_list_t) (n : Z) (want_value want_end : bool) (p e : Z) :
    outcome (option (Z * Z * Z)) :=
  let* lval :=
    if want_value then
      skip_value_blanks (buf h) (bufused h) (p + n + 1) (Z.to_nat (bufused h + 1 - (p + n + 1)))
    else Ret (p + n + 1) in
  if want_end then
    if e <? lval then Ret None
    else let* e := trim_back (buf h) lval e (Z.to_nat (e - lval)) in Ret (Some (p, lval, e))
  else Ret (Some (p, lval, 0)).

Lemma header_search_spec h name wv we ls bef tl p :
  buf h = edit bef ++ edit ls ++ tl → p = zlen (edit bef) → tl ≠ [] →
  bufused h = p + zlen (edit ls) → good_name name → Forall no_nul ls →
  header_search h name wv we (offs p ls) =
  match find_field name bef ls with
  | None => Ret None
  | Some (a, l, _) => found h (zlen name) wv we (zlen (edit a)) (zlen (edit (a ++ [l])) - 1)
  end.
Proof.
  intros Hb Hp Htl Hu Hn Hls. revert bef p Hb Hp Hu.
  induction Hls as [|l ls Hl Hls IH]; intros bef p Hb Hp Hu; [done|].
  cbn [offs header_search]. destruct (Z.ltb_spec (bufused h) (p + zlen name)) as [Hlt|Hge].
  { rewrite find_field_none; [done|]. apply field_match_short. lia. }
  pose proof Hb as Hb0. rewrite edit_cons, <- app_assoc in Hb0. cbn [app] in Hb0.
  assert (0 < zlen tl) by (destruct tl; [done|zlia]).
  rewrite zlen_edit_cons in Hu.
  rewrite (line_test _ _ _ _ name p _ _ Hb0 Hp Hn Hl) by zlia.
  cbn [find_field]. destruct (field_match name l).
  - unfold found. rewrite edit_snoc, <- Hp.
    replace (match offs (p + zlen l + 2) ls with [] => bufused h - 1 | q :: _ => q - 1 end)
      with (zlen (edit bef ++ l ++ [NUL; LF]) - 1); [done|].
    destruct ls; cbn [offs]; [change (zlen (edit [])) with 0 in Hu|]; zlia.
  - apply IH; rewrite ?edit_snoc; [rewrite Hb0; by_app|zlia|zlia].
Qed.

Lemma find_field_find name bef ls :
  List.find (field_match name) ls =
  match find_field name bef ls with Some (_, l, _) => Some l | None => None end.
Proof.
  revert bef. induction ls as [|l ls IH]; intros bef; [done|]. cbn.
  destruct (field_match name l); [done|]. apply IH.
Qed.

Fixpoint drop_blanks (l : list Z) : list Z :=
  match l with
  | [] => []
  | b :: l' => if is_blank b then drop_blanks l' else l
  end.

Lemma skip_value_blanks_spec x (pre r : list Z) hi v n :
  v = zlen pre → v + zlen x ≤ hi → (length x < n)%nat →
  skip_value_blanks (pre ++ x ++ NUL :: r) hi v n = Ret (v + (zlen x - zlen (drop_blanks x))).
Proof.
  revert pre v n. induction x as [|b x IH]; intros pre v n Hv Hle Hn;
    (destruct n as [|n]; [cbn in Hn; lia|]); cbn [skip_value_blanks app drop_blanks].
  - solve_cmp. rewrite load_app by done. cbn. f_equal. zlia.
  - rewrite zlen_cons in Hle. pose proof (zlen_nonneg x). solve_cmp.
    rewrite load_app by done. cbn [obind]. destruct (is_blank b); [|f_equal; zlia].
    specialize (IH (pre ++ [b]) (v + 1) n). rewrite <- app_assoc in IH. cbn [app] in IH.
    rewrite IH; [f_equal; zlia|zlia|lia|cbn in Hn; lia].
Qed.

Lemma drop_blanks_suffix x : ∃ y, x = y ++ drop_blanks x.
Proof.
  induction x as [|b x [y IH]]; [by exists []|]. cbn. destruct (is_blank b).
  - exists (b :: y). cbn. by rewrite <- IH.
  - by exists [].
Qed.

(** The value of a header line, after the colon and the blanks that follow it. *)
Definition field_value (name l : list Z) : list Z := drop_blanks (drop (S (length name)) l).

Lemma ci_headers_value_found h ls tl name :
  hrepr h ls tl → tl ≠ [] → good_name name → name ≠ [] →
  match List.find (field_match name) ls with
  | None => ci_headers_value h name = Ret None
  | Some l => ∃ v, ci_headers_value h name = Ret (Some v) ∧
                   cstr (drop (Z.to_nat v) (buf h)) = Some (field_value name l)
  end.
Proof.
  intros Hr Htl Hn Hne. unfold ci_headers_value, do_header_search.
  assert (0 < zlen name) by (destruct name; [done|zlia]). solve_cmp.
  rewrite (hr_index _ _ _ Hr).
  rewrite (header_search_spec h name true false ls [] tl 0 (hr_buf _ _ _ Hr) eq_refl Htl
             (hr_used _ _ _ Hr) Hn (hr_lines _ _ _ Hr)).
  rewrite (find_field_find name [] ls).
  destruct (find_field name [] ls) as [[[a l] b]|] eqn:Hf; [|done].
  apply find_field_some in Hf as [Hls Hm]. cbn [app] in Hls.
  destruct (field_match_true _ _ Hm) as (x & v & -> & Hx).
  pose proof (hr_lines _ _ _ Hr) as Hnn. rewrite <- Hls in Hnn.
  apply Forall_app in Hnn as [_ Hnn]. apply Forall_cons_1 in Hnn as [Hl _].
  apply Forall_app in Hl as [_ Hl]. apply Forall_cons_1 in Hl as [_ Hv].
  assert (Hb : buf h = (edit a ++ x ++ [58]) ++ v ++ NUL :: LF :: edit b ++ tl).
  { rewrite (hr_buf _ _ _ Hr), <- Hls, edit_app, edit_cons. by_app. }
  assert (Hu : bufused h = zlen (edit a) + zlen x + 1 + zlen v + 2 + zlen (edit b)).
  { rewrite (hr_used _ _ _ Hr), <- Hls, edit_app, zlen_app, edit_cons. zlia. }
  unfold found. rewrite Hb, skip_value_blanks_spec; [|zlia|zlia|].
  2:{ pose proof (zlen_nonneg (edit b)). unfold zlen in *. lia. }
  cbn [obind]. eexists. split; [done|].
  unfold field_value. replace (drop (S (length name)) (x ++ 58 :: v)) with v.
  2:{ rewrite drop_app_ge by (unfold zlen in *; lia).
      by replace (S (length name) - length x)%nat with 1%nat by (unfold zlen in *; lia). }
  destruct (drop_blanks_suffix v) as [y Hy].
  set (w := drop_blanks v) in *. clearbody w. subst v.
  replace ((edit a ++ x ++ [58]) ++ (y ++ w) ++ NUL :: LF :: edit b ++ tl)
    with ((edit a ++ x ++ [58] ++ y) ++ w ++ NUL :: LF :: edit b ++ tl) by by_app.
  rewrite drop_zlen by zlia. apply cstr_no_nul. by apply Forall_app in Hv as [_ Hv].
Qed.

(** The header itself: its line, up to the NUL. *)
Lemma ci_headers_search_found h ls tl name l :
  hrepr h ls tl → tl ≠ [] → good_name name → name ≠ [] → List.find (field_match name) ls = Some l →
  ∃ p s, ci_headers_search h name = Ret (Some p) ∧ drop (Z.to_nat p) (buf h) = l ++ NUL :: s.
Proof.
  intros Hr Htl Hn Hne Hf. unfold ci_headers_search, do_header_search.
  assert (0 < zlen name) by (destruct name; [done|zlia]). solve_cmp. rewrite (hr_index _ _ _ Hr).
  rewrite (header_search_spec h name false false ls [] tl 0 (hr_buf _ _ _ Hr) eq_refl Htl
             (hr_used _ _ _ Hr) Hn (hr_lines _ _ _ Hr)).
  rewrite (find_field_find name [] ls) in Hf.
  destruct (find_field name [] ls) as [[[a l'] b]|] eqn:E; [|done]. injection Hf as ->.
  apply find_field_some in E as [Hls _]. cbn [app] in Hls. unfold found. cbn [obind]. eexists _, _. split; [done|].
  rewrite (hr_buf _ _ _ Hr), <- Hls, edit_app, edit_cons. rewrite <- app_assoc, drop_zlen by done. by_app.
Qed.

(** ** Removing *)

Lemma reindex_after_spec l ls (pre tl : list Z) p :
  p = zlen pre → no_nul l → Forall no_nul ls →
  reindex_after (pre ++ edit (l :: ls) ++ tl) p (length ls) = Ret (offs (p + zlen l + 2) ls).
Proof.
  intros Hp Hl Hls. revert l pre p Hp Hl.
  induction Hls as [|k ls Hk Hls IH]; intros l pre p Hp Hl; [done|].
  cbn [length reindex_after offs]. rewrite edit_cons, <- app_assoc. cbn [app].
  rewrite strlen_at_line by done. cbn [obind].
  replace (pre ++ l ++ NUL :: LF :: edit (k :: ls) ++ tl)
    with ((pre ++ l ++ [NUL]) ++ LF :: edit (k :: ls) ++ tl) by by_app.
  rewrite load_app by zlia. cbn [obind]. rewrite Z.eqb_refl.
  replace ((pre ++ l ++ [NUL]) ++ LF :: edit (k :: ls) ++ tl)
    with ((pre ++ l ++ [NUL; LF]) ++ edit (k :: ls) ++ tl) by by_app.
  replace (p + zlen l + 1 + 1) with (p + zlen l + 2) by lia.
  rewrite IH by (done || zlia). done.
Qed.

(** The list after [ci_headers_remove] found the line [l] between [a] and [b]. *)
Definition removed (h : ci_headers_list_t) (a b : list (list Z)) (r : outcome (Z * ci_headers_list_t)) :
    Prop :=
  ∃ h' tl', r = Ret (1, h') ∧ hrepr h' (a ++ b) tl' ∧ tl' ≠ [] ∧ (b = [] → sealed tl').

Lemma remove_last h a l tl name :
  hrepr h (a ++ [l]) tl → field_match name l = true →
  removed h a []
    (let* b := store (buf h) (zlen (edit a)) CR in
     let* b := store b (zlen (edit a) + 1) LF in
     Ret (1, set_index (offs 0 a) (set_buf b (zlen (edit a)) h))).
Proof.
  intros Hr Hm. destruct (field_match_true _ _ Hm) as (x & v & -> & Hx).
  pose proof (hr_size _ _ _ Hr) as Hsz. pose proof (hr_buf _ _ _ Hr) as Hb.
  pose proof (hr_cap _ _ _ Hr) as Hc.
  rewrite edit_snoc in Hb.
  assert (∃ c d r, (x ++ 58 :: v) ++ [NUL; LF] = c :: d :: r) as (c & d & r & Hcd).
  { destruct x as [|c [|d x]]; cbn [app]; [|by eexists _, _, _..].
    destruct v; by eexists _, _, _. }
  rewrite Hcd in Hb. rewrite Hb, <- app_assoc. cbn [app].
  rewrite store_app by done. cbn [obind].
  replace (edit a ++ CR :: d :: r ++ tl) with ((edit a ++ [CR]) ++ d :: r ++ tl) by by_app.
  rewrite store_app by zlia. cbn [obind].
  eexists _, (CR :: LF :: r ++ tl). split; [done|]. rewrite app_nil_r.
  split; [|by split; [|exists CR, (r ++ tl)]].
  split; cbn; try done.
  - apply Hr.
  - by_app.
  - rewrite <- Hsz, Hb. zlia.
  - zlia.
  - pose proof (hr_lines _ _ _ Hr) as Hls. by apply Forall_app in Hls as [Hls _].
Qed.

Lemma remove_middle h a l k b tl :
  hrepr h (a ++ l :: k :: b) tl → tl ≠ [] →
  let p := zlen (edit a) in let q := p + zlen l + 2 in
  removed h a (k :: b)
    (let* d := read_bytes (buf h) q (bufused h - p - (q - p)) in
     let* m := write_bytes (buf h) p d in
     let* rest := reindex_after m p (length b) in
     Ret (1, set_index (offs 0 a ++ p :: rest) (set_buf m (bufused h - (q - p)) h))).
Proof.
  intros Hr Htl p q. pose proof (hr_lines _ _ _ Hr) as Hls. pose proof (hr_cap _ _ _ Hr) as Hc.
  apply Forall_app in Hls as [Ha Hls]. apply Forall_cons_1 in Hls as [Hl Hls].
  pose proof (Forall_cons_1 _ _ _ Hls) as [Hk Hb'].
  assert (Hb : buf h = edit a ++ edit_line l ++ edit (k :: b) ++ tl).
  { rewrite (hr_buf _ _ _ Hr), edit_app, edit_cons. unfold edit_line. by_app. }
  assert (Hu : bufused h = p + (zlen l + 2) + zlen (edit (k :: b))).
  { rewrite (hr_used _ _ _ Hr), edit_app, zlen_app, zlen_edit_cons. unfold p. lia. }
  assert (Hrd : read_bytes (buf h) q (bufused h - p - (q - p)) = Ret (edit (k :: b))).
  { rewrite Hb, read_bytes_ok by (unfold edit_line, q, p in *; zlia). f_equal.
    rewrite app_assoc, slice_app_r by (unfold edit_line, q, p; zlia).
    replace (q - zlen (edit a ++ edit_line l)) with 0 by (unfold edit_line, q, p; zlia).
    rewrite slice_app_l by (unfold q; zlia). apply slice_all. unfold q. lia. }
  rewrite Hrd. cbn [obind]. rewrite Hb.
  set (x := edit_line l ++ edit (k :: b)).
  replace (edit a ++ edit_line l ++ edit (k :: b) ++ tl) with (edit a ++ x ++ tl) by (unfold x; by_app).
  rewrite write_bytes_app by (unfold x; zlia). cbn [obind].
  set (tl' := drop (length (edit (k :: b))) x ++ tl).
  rewrite reindex_after_spec by done. cbn [obind].
  assert (Hx : zlen tl' = zlen l + 2 + zlen tl).
  { unfold tl'. rewrite zlen_app, zlen_drop. unfold x. rewrite zlen_app, zlen_edit_line.
    unfold zlen. lia. }
  eexists _, tl'. split; [done|]. split; [|split; [|done]].
  - split; cbn -[edit offs]; try done.
    + apply Hr.
    + by rewrite offs_app.
    + rewrite edit_app. by_app.
    + rewrite edit_app, zlen_app, Hu. unfold q. lia.
    + rewrite <- (hr_size _ _ _ Hr), Hb, !zlen_app, Hx, zlen_edit_line. lia.
    + zlia.
    + by apply Forall_app.
  - intros ->. change (zlen []) with 0 in Hx. zlia.
Qed.

Lemma headers_remove_spec h name ls0 ls bef tl :
  hrepr h ls0 tl → ls0 = bef ++ ls → tl ≠ [] → good_name name →
  match find_field name bef ls with
  | None => headers_remove h name (offs 0 bef) (offs (zlen (edit bef)) ls) = Ret (0, h)
  | Some (a, _, b) =>
      removed h a b (headers_remove h name (offs 0 bef) (offs (zlen (edit bef)) ls))
  end.
Proof.
  intros Hr -> Htl Hn. revert bef Hr. induction ls as [|l ls IH]; intros bef Hr; [done|].
  pose proof (hr_lines _ _ _ Hr) as Hnn. apply Forall_app in Hnn as [_ Hnn].
  apply Forall_cons_1 in Hnn as [Hl Hls].
  pose proof (hr_used _ _ _ Hr) as Hu. rewrite edit_app, zlen_app in Hu.
  cbn [offs headers_remove].
  destruct (Z.ltb_spec (bufused h) (zlen (edit bef) + zlen name)) as [Hlt|Hge].
  { rewrite find_field_none; [done|]. apply field_match_short. lia. }
  assert (Hb : buf h = edit bef ++ l ++ NUL :: LF :: edit ls ++ tl).
  { rewrite (hr_buf _ _ _ Hr), edit_app, edit_cons. by_app. }
  assert (0 < zlen tl) by (destruct tl; [done|zlia]).
  rewrite zlen_edit_cons in Hu.
  rewrite (line_test _ _ _ _ name _ _ _ Hb eq_refl Hn Hl) by zlia.
  cbn [find_field]. destruct (field_match name l) eqn:Hm.
  - destruct ls as [|k ls]; cbn [offs].
    + by eapply remove_last.
    + rewrite length_offs. by eapply remove_middle.
  - specialize (IH (bef ++ [l])). rewrite edit_snoc, offs_app in IH. cbn [offs] in IH.
    rewrite Z.add_0_l in IH.
    replace (zlen (edit bef ++ l ++ [NUL; LF])) with (zlen (edit bef) + zlen l + 2) in IH by zlia.
    apply IH. by rewrite <- app_assoc.
Qed.

(** ** Properties *)

(** Adding lines one after the other. *)
Fixpoint add_lines (junk : Z → Z) (h : ci_headers_list_t) (ls : list (list Z)) :
    outcome ci_headers_list_t :=
  match ls with
  | [] => Ret h
  | l :: ls' => let* (_, h) := ci_headers_add junk true true h l in add_lines junk h ls'
  end.

Lemma add_lines_spec junk h ls tl ks :
  hrepr h ls tl → (ks = [] → sealed tl) → Forall no_nul ks →
  ∃ h' tl', add_lines junk h ks = Ret h' ∧ hrepr h' (ls ++ ks) tl' ∧ sealed tl'.
Proof.
  intros Hr Hs Hks. revert h ls tl Hr Hs. induction Hks as [|k ks Hk Hks IH]; intros h ls tl Hr Hs.
  - exists h, tl. rewrite app_nil_r. auto.
  - destruct (ci_headers_add_spec junk h ls tl k Hr Hk) as (h1 & tl1 & Ha & Hr1 & Hs1).
    cbn [add_lines]. rewrite Ha. cbn [obind].
    destruct (IH h1 _ tl1 Hr1 (λ _, Hs1)) as (h' & tl' & ? & Hr' & ?).
    exists h', tl'. split; [done|]. split; [|done]. by rewrite <- app_assoc in Hr'.
Qed.

(** A block of headers as the readers hand it to [ci_headers_unpack]: the empty line at
    its end is left out. *)
Definition received (block tl : list Z) : ci_headers_list_t :=
  mkHeaders HEADERSTARTSIZE [] (zlen (block ++ tl)) (zlen block - 2) (block ++ tl) false.

(** C11: a header list built from scratch by [ci_headers_add] and closed by
    [ci_headers_pack] holds exactly the lines, each followed by CR LF, and the empty
    line; [ci_headers_unpack] of that block, in a list that holds it as the network
    readers leave it, gives back the list of the same lines. *)
Theorem headers_pack_unpack_roundtrip junk h0 ls tl :
  ls ≠ [] → Forall clean_line ls → ci_headers_create junk true true true = Some h0 →
  ∃ h hp h', add_lines junk h0 ls = Ret h ∧ ci_headers_pack h = Ret hp ∧
    slice (buf hp) 0 (bufused hp) = wire ls ++ CRLF ∧
    ci_headers_unpack true (received (wire ls ++ CRLF) tl) = Ret (EC_100, h') ∧
    hrepr h' ls (CRLF ++ tl).
Proof.
  intros Hne Hls Hc. destruct (create_repr junk) as (h1 & tl0 & Hc' & Hr).
  rewrite Hc in Hc'. injection Hc' as <-.
  destruct (add_lines_spec junk h0 [] tl0 ls Hr) as (h & tl1 & Ha & Hr1 & Hs1).
  { done. } { eapply Forall_impl; [|exact Hls]. apply clean_no_nul. }
  destruct (ci_headers_pack_spec h ls tl1 Hr1 Hs1) as (hp & r & Hp & Hb & Hu & _).
  destruct (ci_headers_unpack_spec (received (wire ls ++ CRLF) tl) ls (CRLF ++ tl))
    as (h' & Hun & Hr'); [done|done|done|cbn -[wire]; by_app|cbn -[wire]; unfold CRLF; zlia|done|].
  exists h, hp, h'. split_and!; try done.
  rewrite Hb, Hu. replace (wire ls ++ CRLF ++ r) with ((wire ls ++ CRLF) ++ r) by by_app.
  rewrite slice_app_l by zlia. by apply slice_all.
Qed.

Definition sample_lines : list (list Z) := [bytes "GET / HTTP/1.1"; bytes "Host: a"; bytes "Accept: text"].

Definition sample_empty : ci_headers_list_t :=
  mkHeaders HEADERSTARTSIZE [] HEADSBUFSIZE 0 (fresh (λ _, 7) 0 HEADSBUFSIZE) false.

Lemma sample_clean : Forall clean_line sample_lines.
Proof. repeat constructor; try done; by eexists _, _. Qed.

Lemma headers_pack_unpack_roundtrip_witness :
  ∃ h hp h', add_lines (λ _, 7) sample_empty sample_lines = Ret h ∧ ci_headers_pack h = Ret hp ∧
    slice (buf hp) 0 (bufused hp) = wire sample_lines ++ CRLF ∧
    ci_headers_unpack true (received (wire sample_lines ++ CRLF) [9; 9]) = Ret (EC_100, h') ∧
    hrepr h' sample_lines (CRLF ++ [9; 9]).
Proof.
  exact (headers_pack_unpack_roundtrip (λ _, 7) sample_empty sample_lines [9; 9] ltac:(done)
    sample_clean eq_refl).
Defined.

(** On a list of lines, [ci_headers_value] of a name finds the first line with
    this name, compared without case and followed by a colon, and points at its
    value after the blanks, which reads as a C string; it gives the null pointer exactly
    when no line has the name. *)
Theorem ci_headers_value_correct h ls tl name :
  hrepr h ls tl → tl ≠ [] → good_name name → name ≠ [] →
  match List.find (field_match name) ls with
  | None => ci_headers_value h name = Ret None
  | Some l => ∃ v, ci_headers_value h name = Ret (Some v) ∧
                   cstr (drop (Z.to_nat v) (buf h)) = Some (field_value name l)
  end.
Proof. apply ci_headers_value_found. Qed.

Definition sample_list : ci_headers_list_t :=
  let b := edit sample_lines ++ [CR; LF; 0] in
  mkHeaders 64 (offs 0 sample_lines) (zlen b) (zlen b - 3) b false.

Lemma sample_repr : hrepr sample_list sample_lines [CR; LF; 0].
Proof. split; try done. by repeat constructor. Qed.

Lemma good_sample : good_name (bytes "hOST").
Proof. by repeat constructor. Qed.

Lemma ci_headers_value_correct_witness :
  ∃ v, ci_headers_value sample_list (bytes "hOST") = Ret (Some v) ∧
       cstr (drop (Z.to_nat v) (buf sample_list)) = Some (bytes "a").
Proof.
  exact (ci_headers_value_correct sample_list sample_lines [CR; LF; 0] (bytes "hOST") sample_repr
    ltac:(done) good_sample ltac:(done)).
Defined.

(** [ls] without its first line named [name]. *)
Fixpoint remove_first (name : list Z) (ls : list (list Z)) : list (list Z) :=
  match ls with
  | [] => []
  | l :: ls' => if field_match name l then ls' else l :: remove_first name ls'
  end.

Lemma find_field_remove name bef ls :
  match find_field name bef ls with
  | Some (a, _, b) => a ++ b = bef ++ remove_first name ls ∧ existsb (field_match name) ls = true
  | None => existsb (field_match name) ls = false
  end.
Proof.
  revert bef. induction ls as [|l ls IH]; intros bef; [done|]. cbn.
  destruct (field_match name l); [done|]. specialize (IH (bef ++ [l])).
  destruct (find_field _ _ _) as [[[a k] b]|]; [|done].
  destruct IH as [-> ?]. split; [by_app|done].
Qed.

Lemma ci_headers_remove_spec h ls tl name :
  hrepr h ls tl → tl ≠ [] → good_name name →
  if existsb (field_match name) ls then
    ∃ h' tl', ci_headers_remove h name = Ret (1, h') ∧ hrepr h' (remove_first name ls) tl'
  else ci_headers_remove h name = Ret (0, h).
Proof.
  intros Hr Htl Hn. unfold ci_headers_remove. rewrite (hr_mode _ _ _ Hr), (hr_index _ _ _ Hr).
  pose proof (headers_remove_spec h name ls ls [] tl Hr eq_refl Htl Hn) as Hs.
  pose proof (find_field_remove name [] ls) as Hf. cbn [offs app] in *.
  change (zlen (edit [])) with 0 in Hs.
  destruct (find_field name [] ls) as [[[a l] b]|]; [|by rewrite Hf].
  destruct Hf as [He ->], Hs as (h' & tl' & Hrun & Hr' & _). exists h', tl'.
  by rewrite <- He.
Qed.

(** [ci_headers_remove] deletes the first line with the given name, and only
    this one: the other lines stay, in order and indexed; it returns 1 exactly when such a
    line was there, and a list without one is not touched. *)
Theorem ci_headers_remove_correct h ls tl name :
  hrepr h ls tl → tl ≠ [] → good_name name →
  if existsb (field_match name) ls then
    ∃ h' tl', ci_headers_remove h name = Ret (1, h') ∧ hrepr h' (remove_first name ls) tl'
  else ci_headers_remove h name = Ret (0, h).
Proof. apply ci_headers_remove_spec. Qed.

Lemma ci_headers_remove_correct_witness :
  ∃ h' tl', ci_headers_remove sample_list (bytes "hOST") = Ret (1, h') ∧
    hrepr h' [bytes "GET / HTTP/1.1"; bytes "Accept: text"] tl'.
Proof.
  exact (ci_headers_remove_correct sample_list sample_lines [CR; LF; 0] (bytes "hOST") sample_repr
    ltac:(done) good_sample).
Defined.

(** After the removal of a header that is not the last, [ci_headers_pack] can
    produce a block that does not end in CR LF CR LF: it looks for the LF of the
    empty line in a byte that the removal did not write, and puts a bare LF. *)
Theorem remove_then_pack_breaks_block junk :
  ∃ h h1 hp, add_lines junk (mkHeaders HEADERSTARTSIZE [] HEADSBUFSIZE 0 (fresh junk 0 HEADSBUFSIZE) false)
      sample_lines = Ret h ∧
    ci_headers_remove h (bytes "Host") = Ret (1, h1) ∧
    ci_headers_pack h1 = Ret hp ∧
    slice (buf hp) 0 (bufused hp) = wire [bytes "GET / HTTP/1.1"; bytes "Accept: text"] ++ [LF].
Proof. eexists _, _, _. repeat (split; [vm_compute; reflexivity|]). vm_compute. reflexivity. Qed.

(** [ci_headers_add] never loses a line, whatever the result of its two
    reallocations: either it gives a pointer to the new line, now the last of the
    list and ready to be packed, or it gives the null pointer and the list still has the
    lines it had. *)
Theorem ci_headers_add_safe junk a_idx a_buf h ls tl line :
  hrepr h ls tl → no_nul line →
  ∃ r h' tl', ci_headers_add junk a_idx a_buf h line = Ret (r, h') ∧
    match r with
    | Some p => p = zlen (edit ls) ∧ hrepr h' (ls ++ [line]) tl' ∧ sealed tl'
    | None => hrepr h' ls tl ∧ (a_idx = false ∨ a_buf = false)
    end.
Proof.
  intros Hr Hn. destruct (ci_headers_add_spec junk h ls tl line Hr Hn) as (h' & tl' & Hok & Hr' & Hs').
  revert Hok. unfold ci_headers_add. rewrite (hr_mode _ _ _ Hr).
  set (len := if used h =? size h then size h + HEADERSTARTSIZE else size h).
  assert (Hlen : size h ≤ len) by (unfold len, HEADERSTARTSIZE; case_cmp; lia).
  destruct (grow_index_spec len h ls tl Hr Hlen) as (h1 & Hg1 & Hr1 & _).
  rewrite Hg1. destruct (grow_index a_idx len h) as [h2|] eqn:Hg.
  2:{ intros _. exists None, h, tl. split; [done|]. split; [done|]. left.
      unfold grow_index in Hg. by destruct (size h <? len), a_idx. }
  replace h2 with h1.
  2:{ unfold grow_index in Hg, Hg1. destruct (size h <? len), a_idx; congruence. }
  destruct (bufsize h1 <? _) eqn:Hlt; cbn [andb]; [destruct a_buf; cbn [negb]|]; intros Hok.
  - by exists (Some (zlen (edit ls))), h', tl'.
  - exists None, h1, tl. split; [done|]. auto.
  - by exists (Some (zlen (edit ls))), h', tl'.
Qed.

Lemma ci_headers_add_safe_witness :
  ∃ r h' tl', ci_headers_add (λ _, 7) true false sample_list (bytes "X: 1") = Ret (r, h') ∧
    match r with
    | Some p => p = zlen (edit sample_lines) ∧ hrepr h' (sample_lines ++ [bytes "X: 1"]) tl' ∧ sealed tl'
    | None => hrepr h' sample_lines [CR; LF; 0] ∧ (true = false ∨ false = false)
    end.
Proof.
  apply (ci_headers_add_safe (λ _, 7) true false sample_list sample_lines [CR; LF; 0] (bytes "X: 1")
    sample_repr). by repeat constructor.
Defined.
