(* ===== verification/RingBuf.v ===== *)
(** * The ring buffer (body.c, [ci_ring_buf])

    The pointers [read_pos] and [write_pos] are offsets in [buf]; [end_buf] is the last
    byte.  The buffer refines a bounded queue of bytes. *)

From stdpp Require Import base list list_numbers strings numbers.
From Stdlib Require Import ZArith Lia.
From S2P Require Import Prelude Store.

Record ci_ring_buf := mkRing {
  buf : list Z;
  read_pos : Z;
  write_pos : Z;
  full : bool
}.

Definition end_buf (b : ci_ring_buf) : Z := zlen (buf b) - 1.

Definition ci_ring_buf_new (junk : Z → Z) (a1 a2 : bool) (size : Z) : option ci_ring_buf :=
  if a1 && a2 then Some (mkRing (fresh junk 0 size) 0 0 false) else None.

Definition ci_ring_buf_is_empty (b : ci_ring_buf) : bool :=
  (read_pos b =? write_pos b) && negb (full b).

(** The returned value, the block and its length. *)
Definition ci_ring_buf_write_block (b : ci_ring_buf) : Z * Z * Z :=
  if (read_pos b =? write_pos b) && negb (full b) then
    (0, write_pos b, end_buf b - write_pos b + 1)
  else if write_pos b <=? read_pos b then (0, write_pos b, read_pos b - write_pos b)
  else (1, write_pos b, end_buf b - write_pos b + 1).

Definition ci_ring_buf_read_block (b : ci_ring_buf) : Z * Z * Z :=
  if (read_pos b =? write_pos b) && negb (full b) then (0, read_pos b, 0)
  else if write_pos b <=? read_pos b then
    (if negb (read_pos b =? 0) then 1 else 0, read_pos b, end_buf b - read_pos b + 1)
  else (0, read_pos b, write_pos b - read_pos b).

Definition ci_ring_buf_consume (b : ci_ring_buf) (len : Z) : ci_ring_buf :=
  if len <=? 0 then b
  else
  let r := read_pos b + len in
  mkRing (buf b) (if end_buf b <? r then 0 else r) (write_pos b) false.

Definition ci_ring_buf_produce (b : ci_ring_buf) (len : Z) : ci_ring_buf :=
  if len <=? 0 then b
  else
  let w := write_pos b + len in
  let w := if end_buf b <? w then 0 else w in
  mkRing (buf b) (read_pos b) w (if w =? read_pos b then true else full b).

(** One turn of the loop of [ci_ring_buf_write] when there is room. *)
Definition ring_put (b : ci_ring_buf) (wb : Z) (d : list Z) : outcome ci_ring_buf :=
  let* m := write_bytes (buf b) wb d in
  Ret (ci_ring_buf_produce (mkRing m (read_pos b) (write_pos b) (full b)) (zlen d)).

Fixpoint ring_write_loop (fuel : nat) (b : ci_ring_buf) (data : list Z) (written : Z) :
    outcome (Z * ci_ring_buf) :=
  match fuel with
  | O => NoFuel
  | S fuel' =>
      let '(ret, wb, wb_len) := ci_ring_buf_write_block b in
      let n := Z.min (zlen data) wb_len in
      let* b := if wb_len =? 0 then Ret b else ring_put b wb (take (Z.to_nat n) data) in
      let n := if wb_len =? 0 then 0 else n in
      let data := drop (Z.to_nat n) data in
      let written := written + n in
      if negb (ret =? 0) && (0 <? zlen data) then ring_write_loop fuel' b data written
      else Ret (written, b)
  end.

Definition ci_ring_buf_write (b : ci_ring_buf) (data : list Z) : outcome (Z * ci_ring_buf) :=
  ring_write_loop (S (length data)) b data 0.

Fixpoint ring_read_loop (fuel : nat) (b : ci_ring_buf) (size : Z) (data : list Z) :
    outcome (Z * list Z * ci_ring_buf) :=
  match fuel with
  | O => NoFuel
  | S fuel' =>
      let '(ret, rb, rb_len) := ci_ring_buf_read_block b in
      let n := if rb_len =? 0 then 0 else Z.min size rb_len in
      let* d := read_bytes (buf b) rb n in
      let b := ci_ring_buf_consume b n in
      let size := size - n in
      let data := data ++ d in
      if negb (ret =? 0) && (0 <? size) then ring_read_loop fuel' b size data
      else Ret (zlen data, data, b)
  end.

Definition ci_ring_buf_read (b : ci_ring_buf) (size : Z) : outcome (Z * list Z * ci_ring_buf) :=
  ring_read_loop (S (Z.to_nat size)) b size [].

(** ** The queue it holds *)

Record ring_ok (b : ci_ring_buf) : Prop := {
  ro_size : 0 < zlen (buf b);
  ro_read : 0 ≤ read_pos b < zlen (buf b);
  ro_write : 0 ≤ write_pos b < zlen (buf b);
  ro_full : full b = true → read_pos b = write_pos b
}.

Definition contents (b : ci_ring_buf) : list Z :=
  if ci_ring_buf_is_empty b then []
  else if read_pos b <? write_pos b then slice (buf b) (read_pos b) (write_pos b - read_pos b)
  else slice (buf b) (read_pos b) (zlen (buf b) - read_pos b) ++ slice (buf b) 0 (write_pos b).

(** The bytes that fit. *)
Definition room (b : ci_ring_buf) : Z := zlen (buf b) - zlen (contents b).

(** Writing [d] right after the data that ends at [w]. *)
Lemma slice_extend m r w d :
  0 ≤ r ≤ w → w + zlen d ≤ zlen m →
  slice (splice m w d) r (w - r + zlen d) = slice m r (w - r) ++ d.
Proof.
  intros. rewrite slice_split by zlia. f_equal.
  - by apply slice_splice_before; lia.
  - replace (r + (w - r)) with w by lia. by apply slice_splice_same; lia.
Qed.

Ltac ring_cases :=
  repeat first
    [ progress cbn [andb negb buf read_pos write_pos full]
    | match goal with
      | |- context [?a <? ?b] => destruct (Z.ltb_spec a b)
      | |- context [?a <=? ?b] => destruct (Z.leb_spec a b)
      | |- context [?a =? ?b] => destruct (Z.eqb_spec a b)
      end; try lia ].

Lemma ring_put_spec b d ret wb len :
  ring_ok b → ci_ring_buf_write_block b = (ret, wb, len) → zlen d ≤ len →
  ∃ b', ring_put b wb d = Ret b' ∧ ring_ok b' ∧ contents b' = contents b ++ d ∧
    zlen (buf b') = zlen (buf b).
Proof.
  intros [Hs Hr Hw Hf] Hb Hd. destruct b as [m r w f]. cbn in *.
  assert (Hwb : wb = w ∧ w + zlen d ≤ zlen m ∧ (w < r ∨ r = w ∧ f = true → w + zlen d ≤ r)).
  { revert Hb. unfold ci_ring_buf_write_block, end_buf. cbn. destruct f; ring_cases; intros [= <- <- <-]; lia. }
  clear Hb. destruct Hwb as (-> & Hle & Hwr). unfold ring_put. cbn.
  rewrite write_bytes_ok by lia. cbn [obind].
  assert (Hz : zlen (splice m w d) = zlen m) by (apply zlen_splice; lia).
  eexists. split; [done|]. pose proof (zlen_nonneg d).
  pose proof (slice_extend m r w d) as He. pose proof (slice_extend m 0 w d) as He0.
  pose proof (slice_splice_after m w d r (zlen m - r)) as Ha.
  unfold ci_ring_buf_produce, contents, ci_ring_buf_is_empty, end_buf. cbn.
  destruct (Z.leb_spec (zlen d) 0) as [Hd0|Hd0].
  { assert (d = []) as -> by (destruct d; [done|zlia]). cbn.
    assert (splice m w [] = m) as -> by (unfold splice; cbn; by rewrite Nat.add_0_r, take_drop).
    rewrite app_nil_r. by split; [split|]. }
  split; [|split; [|by rewrite ?Hz]].
  - split; cbn; rewrite ?Hz; ring_cases; try done; try lia; intros Hft; specialize (Hf Hft);
      specialize (Hwr (or_intror (conj Hf Hft))); lia.
  - rewrite ?Hz. rewrite Z.sub_0_r in He0. destruct f; [specialize (Hf eq_refl); specialize (Hwr (or_intror (conj Hf eq_refl))); lia|].
    ring_cases; rewrite ?Hz, ?app_nil_r;
      first [ rewrite Ha by lia; rewrite <- app_assoc; f_equal; rewrite <- He0 by lia; f_equal; lia
            | rewrite <- He by lia; rewrite ?(slice_nil _ 0 0) by lia; rewrite ?app_nil_r; f_equal; lia
            | rewrite <- (slice_nil m r (w - r)) by lia; rewrite <- He by lia; f_equal; lia ].
Qed.

(** Taking [n] bytes from the first block. *)
Lemma ring_take_spec b ret rb len n :
  ring_ok b → ci_ring_buf_read_block b = (ret, rb, len) → 0 ≤ n ≤ len →
  read_bytes (buf b) rb n = Ret (slice (buf b) rb n) ∧ ring_ok (ci_ring_buf_consume b n) ∧
  contents b = slice (buf b) rb n ++ contents (ci_ring_buf_consume b n) ∧
  0 ≤ len ∧ (len = 0 → contents b = []) ∧ (ret ≠ 0 → 0 < len).
Proof.
  intros [Hs Hr Hw Hf] Hb Hn. destruct b as [m r w f]. cbn in *.
  assert (Hrb : rb = r ∧ r + len ≤ zlen m ∧ 0 ≤ len ∧
            (len = 0 ↔ r = w ∧ f = false) ∧ (r < w → r + len = w) ∧
            (w < r ∨ r = w ∧ f = true → r + len = zlen m) ∧ (ret ≠ 0 → 0 < len)).
  { revert Hb. unfold ci_ring_buf_read_block, end_buf. cbn. destruct f; ring_cases;
      intros [= <- <- <-]; first [lia | specialize (Hf eq_refl); lia]. }
  clear Hb. destruct Hrb as (-> & Hle & Hl0 & He & Hlt & Hge & Hret).
  split; [by apply read_bytes_ok; lia|].
  pose proof (slice_split m r n (w - r - n)) as Hs1.
  pose proof (slice_split m r n (zlen m - r - n)) as Hs2.
  unfold ci_ring_buf_consume, contents, ci_ring_buf_is_empty, end_buf. cbn.
  destruct (Z.leb_spec n 0) as [Hn0|Hn0].
  { rewrite (slice_nil m r n) by lia. split; [by split|]. split; [done|]. split; [done|]. split; [|done].
    intros H0. destruct (proj1 He H0) as [-> ->]. by rewrite Z.eqb_refl. }
  split; [split; cbn; ring_cases; try done; lia|].
  split; [|by split; [|split; [lia|]]].
  ring_cases; try (destruct f; cbn [negb]; [|lia]); rewrite ?app_nil_r;
    first [ replace (w - r) with (n + (w - r - n)) by lia; rewrite Hs1 by lia; do 2 f_equal; lia
          | f_equal; lia
          | f_equal; f_equal; lia
          | rewrite (slice_nil m 0 w) by lia; rewrite app_nil_r; f_equal; lia
          | replace (zlen m - r) with (n + (zlen m - r - n)) by lia; rewrite Hs2 by lia;
            rewrite <- app_assoc; do 3 f_equal; lia ].
Qed.

Lemma contents_len b : ring_ok b →
  zlen (contents b) =
    if ci_ring_buf_is_empty b then 0
    else if read_pos b <? write_pos b then write_pos b - read_pos b
    else zlen (buf b) - read_pos b + write_pos b.
Proof.
  intros [Hs Hr Hw Hf]. unfold contents. destruct (ci_ring_buf_is_empty b); [done|].
  case_cmp; rewrite ?zlen_app, ?zlen_slice by lia; lia.
Qed.

Lemma is_empty_spec b : ring_ok b → (ci_ring_buf_is_empty b = true ↔ contents b = []).
Proof.
  intros Hok. pose proof (contents_len b Hok) as Hl. destruct Hok as [Hs Hr Hw Hf].
  split; intros H.
  - unfold contents. by rewrite H.
  - rewrite H in Hl. change (zlen []) with 0 in Hl.
    destruct (ci_ring_buf_is_empty b); [done|]. revert Hl. case_cmp; lia.
Qed.

Lemma contents_bound b : ring_ok b → zlen (contents b) ≤ zlen (buf b).
Proof.
  intros Hok. rewrite (contents_len b Hok). destruct Hok as [Hs Hr Hw Hf].
  destruct (ci_ring_buf_is_empty b) eqn:E; [lia|]. case_cmp; [lia|].
  revert E. unfold ci_ring_buf_is_empty. destruct (full b); [rewrite Hf by done; lia|].
  case_cmp; [done|lia].
Qed.

Lemma write_block_room b ret wb len :
  ring_ok b → ci_ring_buf_write_block b = (ret, wb, len) →
  0 ≤ len ∧ (ci_ring_buf_is_empty b = true → ret = 0 ∧ len = zlen (buf b) - write_pos b) ∧
  (ci_ring_buf_is_empty b = false → if ret =? 0 then len = room b else 0 < len ≤ room b).
Proof.
  intros Hok. unfold room. rewrite (contents_len b Hok). destruct Hok as [Hs Hr Hw Hf].
  unfold ci_ring_buf_write_block. fold (ci_ring_buf_is_empty b).
  destruct (ci_ring_buf_is_empty b); [|destruct (Z.leb_spec (write_pos b) (read_pos b))]; intros [= <- <- <-]; unfold end_buf.
  - split; [lia|]. split; [lia|done].
  - split; [lia|]. split; [done|]. intros _. cbn. solve_cmp. lia.
  - split; [lia|]. split; [done|]. intros _. cbn. solve_cmp. lia.
Qed.

Lemma ring_write_loop_spec fuel b d acc :
  ring_ok b → ci_ring_buf_is_empty b = false → (length d < fuel)%nat →
  ∃ b', ring_write_loop fuel b d acc = Ret (acc + Z.min (zlen d) (room b), b') ∧ ring_ok b' ∧
    contents b' = contents b ++ take (Z.to_nat (room b)) d ∧ zlen (buf b') = zlen (buf b).
Proof.
  revert b d acc. induction fuel as [|fuel IH]; intros b d acc Hok He Hf; [lia|].
  cbn [ring_write_loop]. destruct (ci_ring_buf_write_block b) as [[ret wb] len] eqn:Hb.
  destruct (write_block_room _ _ _ _ Hok Hb) as (Hl & _ & Hroom). specialize (Hroom He).
  pose proof (contents_bound b Hok).
  destruct (Z.eqb_spec len 0) as [->|Hne].
  { destruct (Z.eqb_spec ret 0) as [->|]; [|lia]. cbn. exists b. rewrite <- Hroom.
    rewrite app_nil_r. split; [|done]. do 2 f_equal. zlia. }
  set (k := Z.min (zlen d) len).
  destruct (ring_put_spec b (take (Z.to_nat k) d) ret wb len Hok Hb) as (b1 & -> & Hok1 & Hc1 & Hz1).
  { unfold k. zlia. }
  cbn [obind]. assert (Hroom1 : room b1 = room b - k) by (unfold room; rewrite Hz1, Hc1; unfold k; zlia).
  destruct (Z.eqb_spec ret 0) as [->|Hret]; cbn [negb andb].
  - exists b1. rewrite <- Hroom. split; [done|]. split; [done|]. split; [|done].
    rewrite Hc1. f_equal. unfold k. destruct (Z.le_gt_cases (zlen d) len).
    + rewrite !take_ge by (unfold zlen in *; lia). done.
    + by rewrite Z.min_r by lia.
  - case_cmp; cycle 1.
    + assert (zlen d ≤ len) by (unfold k in *; zlia). exists b1.
      replace (Z.min (zlen d) (room b)) with k by (unfold k; lia). split; [done|]. split; [done|].
      split; [|done]. rewrite Hc1. f_equal. rewrite !take_ge by (unfold k, zlen in *; lia). done.
    + assert (k = len) as Hk by (unfold k in *; zlia).
      destruct (IH b1 (drop (Z.to_nat k) d) (acc + k)) as (b' & -> & Hok' & Hc' & Hz').
      * done.
      * apply not_true_is_false. rewrite is_empty_spec by done. rewrite Hc1. intros H1.
        apply app_eq_nil in H1 as [H1 _]. apply is_empty_spec in H1; [congruence|done].
      * unfold zlen in *. rewrite length_drop in *. lia.
      * exists b'. rewrite Hroom1. split; [do 2 f_equal; zlia|]. split; [done|].
        split; [|congruence]. rewrite Hc', Hc1, <- app_assoc. f_equal. rewrite Hroom1.
        rewrite take_take_drop. f_equal. lia.
Qed.

(** The count [ci_ring_buf_write] returns: an empty ring whose pointers stand in the middle takes
    only what fits before the end of its memory. *)
Definition writable (b : ci_ring_buf) : Z :=
  if ci_ring_buf_is_empty b then zlen (buf b) - write_pos b else room b.

Lemma ci_ring_buf_write_spec b d :
  ring_ok b →
  ∃ b', ci_ring_buf_write b d = Ret (Z.min (zlen d) (writable b), b') ∧ ring_ok b' ∧
    contents b' = contents b ++ take (Z.to_nat (writable b)) d ∧ zlen (buf b') = zlen (buf b).
Proof.
  intros Hok. unfold ci_ring_buf_write, writable.
  destruct (ci_ring_buf_is_empty b) eqn:He.
  2:{ destruct (ring_write_loop_spec (S (length d)) b d 0 Hok He) as (b' & -> & ?); [lia|].
      by exists b'. }
  cbn [ring_write_loop]. destruct (ci_ring_buf_write_block b) as [[ret wb] len] eqn:Hb.
  destruct (write_block_room _ _ _ _ Hok Hb) as (Hl & Hroom & _). destruct (Hroom He) as [-> ->].
  pose proof (ro_write _ Hok). solve_cmp. set (k := Z.min (zlen d) _).
  destruct (ring_put_spec b (take (Z.to_nat k) d) 0 wb _ Hok Hb) as (b1 & -> & Hok1 & Hc1 & Hz1).
  { unfold k. zlia. }
  cbn. exists b1. split; [done|]. split; [done|]. split; [|done].
  rewrite Hc1. f_equal. unfold k. destruct (Z.le_gt_cases (zlen d) (zlen (buf b) - write_pos b)).
  - rewrite !take_ge by (unfold zlen in *; lia). done.
  - by rewrite Z.min_r by lia.
Qed.

Lemma read_block_len b ret rb len :
  ring_ok b → ci_ring_buf_read_block b = (ret, rb, len) →
  len ≤ zlen (contents b) ∧ (ret = 0 → len = zlen (contents b)).
Proof.
  intros Hok. rewrite (contents_len b Hok). destruct Hok as [Hs Hr Hw Hf].
  unfold ci_ring_buf_read_block. fold (ci_ring_buf_is_empty b).
  destruct (ci_ring_buf_is_empty b); [|destruct (Z.leb_spec (write_pos b) (read_pos b))];
    [| |solve_cmp]; intros [= <- <- <-]; unfold end_buf; [lia| |lia].
  rewrite (proj2 (Z.ltb_ge _ _)) by done. destruct (Z.eqb_spec (read_pos b) 0); cbn; lia.
Qed.

Lemma ring_read_loop_spec fuel b size acc :
  ring_ok b → 0 ≤ size < Z.of_nat fuel →
  ∃ d b', ring_read_loop fuel b size acc = Ret (zlen (acc ++ d), acc ++ d, b') ∧ ring_ok b' ∧
    contents b = d ++ contents b' ∧ zlen d = Z.min size (zlen (contents b)) ∧
    zlen (buf b') = zlen (buf b).
Proof.
  revert b size acc. induction fuel as [|fuel IH]; intros b size acc Hok Hf; [lia|].
  cbn [ring_read_loop]. destruct (ci_ring_buf_read_block b) as [[ret rb] len] eqn:Hb.
  set (k := if len =? 0 then 0 else Z.min size len).
  destruct (read_block_len _ _ _ _ Hok Hb) as [Hle Heq].
  assert (Hk : k = Z.min size len ∧ 0 ≤ k).
  { destruct (ring_take_spec b ret rb len 0 Hok Hb) as (_ & _ & _ & ? & _);
      [|unfold k; case_cmp; lia].
    revert Hb. unfold ci_ring_buf_read_block, end_buf. destruct Hok as [? ? ? ?].
    repeat case_match; intros [= <- <- <-]; lia. }
  destruct (ring_take_spec b ret rb len k Hok Hb) as (-> & Hok1 & Hc1 & Hl & _ & Hret); [lia|].
  cbn [obind]. set (b1 := ci_ring_buf_consume b k) in *.
  assert (Hz1 : zlen (buf b1) = zlen (buf b)).
  { unfold b1, ci_ring_buf_consume. by case_match. }
  assert (Hd : zlen (slice (buf b) rb k) = k).
  { revert Hb. unfold ci_ring_buf_read_block, end_buf. destruct Hok as [? ? ? ?].
    repeat case_match; intros [= <- <- <-]; apply zlen_slice; lia. }
  destruct (negb (ret =? 0) && (0 <? size - k)) eqn:Hgo.
  - apply andb_prop in Hgo as [Hr0 Hs0]. apply Z.ltb_lt in Hs0.
    apply negb_true_iff, Z.eqb_neq in Hr0. specialize (Hret Hr0).
    destruct (IH b1 (size - k) (acc ++ slice (buf b) rb k) Hok1) as (d & b' & -> & Hok' & Hc' & Hd' & Hz');
      [lia|]. exists (slice (buf b) rb k ++ d), b'. rewrite <- app_assoc. split; [done|].
    split; [done|]. split; [by rewrite Hc1, Hc', app_assoc|]. split; [|congruence].
    rewrite zlen_app, Hd, Hd'. rewrite Hc1, zlen_app, Hd. lia.
  - exists (slice (buf b) rb k), b1. split; [done|]. split; [done|]. split; [done|].
    split; [|done]. rewrite Hd. destruct (Z.eqb_spec ret 0) as [Hr0|]; cbn in Hgo.
    + rewrite <- Heq by done. lia.
    + apply Z.ltb_ge in Hgo. lia.
Qed.

(** The ring buffer is a queue. *)
#[export] Program Instance ring_fifo : Fifo ci_ring_buf := {|
  write := ci_ring_buf_write;
  read := ci_ring_buf_read;
  good := ring_ok;
  pending := contents
|}.
Next Obligation.
  intros b d Hok. destruct (ci_ring_buf_write_spec b d Hok) as (b' & Hw & Hok' & Hc & _).
  eexists _, b'. split; [exact Hw|]. split; [done|].
  assert (0 ≤ writable b).
  { pose proof (contents_bound b Hok). unfold writable, room.
    destruct Hok as [? ? ? ?]. case_match; lia. }
  split; [zlia|]. rewrite Hc. f_equal. destruct (Z.le_gt_cases (zlen d) (writable b)).
  - rewrite !take_ge by (unfold zlen in *; lia). done.
  - by rewrite Z.min_r by lia.
Qed.
Next Obligation.
  intros b len Hok Hl.
  destruct (ring_read_loop_spec (S (Z.to_nat len)) b len [] Hok) as (d & b' & Hr & Hok' & Hc & Hd & _);
    [lia|].
  exists (zlen d), d, b'. split; [exact Hr|]. split; [done|]. split; [done|]. split; [lia|].
  intros Hne. split; [|done]. intros ->. change (zlen []) with 0 in Hd.
  destruct (contents b); [done|zlia].
Qed.

(** C12: through any sequence of writes and reads a ring buffer delivers the bytes
    it accepted, in order and each once; after each run the bytes still
    inside are the difference, and they fit its memory. *)
Theorem ring_buffer_is_fifo junk size b ops :
  0 < size → ci_ring_buf_new junk true true size = Some b → Forall op_ok ops →
  ∃ accepted delivered b', run b ops = Ret (accepted, delivered, b') ∧
    accepted = delivered ++ contents b' ∧ zlen (contents b') ≤ zlen (buf b').
Proof.
  intros Hs [= <-] Hops.
  assert (Hok : ring_ok (mkRing (fresh junk 0 size) 0 0 false)).
  { split; cbn; rewrite ?zlen_fresh by lia; lia || done. }
  destruct (@run_fifo _ ring_fifo ops _ Hok Hops) as (i & o & b' & Hr & Hg & He).
  exists i, o, b'. split; [done|]. split; [done|]. by apply contents_bound.
Qed.

Lemma ring_buffer_is_fifo_witness :
  ∃ accepted delivered b',
    run (mkRing (fresh (λ _, 7) 0 4) 0 0 false)
      [OpWrite [1; 2; 3]; OpRead 2; OpWrite [4; 5; 6]; OpRead 9] = Ret (accepted, delivered, b') ∧
    accepted = delivered ++ contents b' ∧ zlen (contents b') ≤ zlen (buf b').
Proof.
  apply (ring_buffer_is_fifo (λ _, 7) 4); [lia|reflexivity|].
  repeat constructor; vm_compute; reflexivity.
Defined.

(** The count a write returns: everything that fits when the ring holds data, but
    only the bytes up to the end of its memory when the ring is empty; a read returns all the
    bytes asked for that the ring holds. *)
Theorem ring_buffer_counts b d n :
  ring_ok b → 0 ≤ n →
  (∃ b', ci_ring_buf_write b d =
     Ret (Z.min (zlen d) (if ci_ring_buf_is_empty b then zlen (buf b) - write_pos b
                          else zlen (buf b) - zlen (contents b)), b')) ∧
  (∃ data b', ci_ring_buf_read b n = Ret (Z.min n (zlen (contents b)), data, b')).
Proof.
  intros Hok Hn. split.
  - destruct (ci_ring_buf_write_spec b d Hok) as (b' & Hw & _). exists b'. exact Hw.
  - destruct (ring_read_loop_spec (S (Z.to_nat n)) b n [] Hok) as (x & b' & Hr & _ & _ & Hx & _); [lia|].
    exists x, b'. unfold ci_ring_buf_read. rewrite Hr. by rewrite <- Hx.
Qed.

Definition sample_ring : ci_ring_buf := mkRing [1; 2; 3; 4] 2 2 false.

Lemma ring_buffer_counts_witness :
  (∃ b', ci_ring_buf_write sample_ring [7; 8; 9] = Ret (2, b')) ∧
  (∃ data b', ci_ring_buf_read sample_ring 3 = Ret (0, data, b')).
Proof.
  apply (ring_buffer_counts sample_ring [7; 8; 9] 3); [|lia].
  split; vm_compute; try done; split; congruence.
Defined.
