(* ===== verification/Membuf.v ===== *)
(** * Memory buffers (body.c, [ci_membuf])

    A growing memory buffer with a write end [endpos], a read position [readpos] and an
    optional lock [unlocked] that stops the reader early.  The attribute array of the
    structure is left to its own component. *)

From stdpp Require Import base list list_numbers strings numbers.
From Stdlib Require Import ZArith Lia.
From S2P Require Import Prelude Store Chunks.

Definition STARTLEN : Z := 8192.
Definition INCSTEP : Z := 4096.

Definition CI_MEMBUF_NULL_TERMINATED : Z := 1.
Definition CI_MEMBUF_HAS_EOF : Z := 2.
Definition CI_MEMBUF_RO : Z := 4.
Definition CI_MEMBUF_CONST : Z := 8.
Definition CI_MEMBUF_FOREIGN_BUF : Z := 16.
Definition CI_MEMBUF_USER_FLAGS : Z := Z.lor CI_MEMBUF_NULL_TERMINATED CI_MEMBUF_RO.
Definition CI_MEMBUF_FROM_CONTENT_FLAGS : Z :=
  Z.lor (Z.lor (Z.lor CI_MEMBUF_NULL_TERMINATED CI_MEMBUF_RO) CI_MEMBUF_CONST) CI_MEMBUF_HAS_EOF.

Record ci_membuf := mkMembuf {
  endpos : Z;
  readpos : Z;
  bufsize : Z;
  unlocked : Z;
  flags : Z;
  buf : list Z
}.

Definition flagged (b : ci_membuf) (bit : Z) : bool := flag_set (flags b) bit.

Definition set_flags (f : Z) (b : ci_membuf) : ci_membuf :=
  mkMembuf (endpos b) (readpos b) (bufsize b) (unlocked b) f (buf b).

Definition set_data (m : list Z) (e : Z) (b : ci_membuf) : ci_membuf :=
  mkMembuf e (readpos b) (bufsize b) (unlocked b) (flags b) m.

Section membuf.
Context (junk : Z → Z).

(** [a1] and [a2] are the results of the two allocations. *)
Definition ci_membuf_new_sized (a1 a2 : bool) (size : Z) : option ci_membuf :=
  if a1 && a2 then Some (mkMembuf 0 0 size (-1) 0 (fresh junk 0 size)) else None.

Definition ci_membuf_new (a1 a2 : bool) : option ci_membuf := ci_membuf_new_sized a1 a2 STARTLEN.

(** [buf] is the object the caller passes, of at least [buf_size] bytes; [None] stands for the
    null pointer. *)
Definition ci_membuf_from_content (a : bool) (buf : option (list Z)) (buf_size content_size fl : Z) :
    outcome (option ci_membuf) :=
  match buf with
  | None => Ret None
  | Some m =>
      if (buf_size <=? 0) || (buf_size <? content_size) then Ret None
      else if negb (Z.land fl CI_MEMBUF_FROM_CONTENT_FLAGS =? fl) then Ret None
      else
      let* size :=
        if flag_set fl CI_MEMBUF_NULL_TERMINATED then
          let* c := load m (content_size - 1) in
          if c =? NUL then Ret (Some (content_size - 1))
          else if buf_size <=? content_size then Ret None
          else let* c := load m content_size in
               if negb (c =? NUL) then Ret None else Ret (Some content_size)
        else Ret (Some content_size) in
      match size with
      | None => Ret None
      | Some n =>
          if a then Ret (Some (mkMembuf n 0 buf_size (-1) (Z.lor CI_MEMBUF_FOREIGN_BUF fl) m))
          else Ret None
      end
  end.

Definition ci_membuf_set_flag (b : ci_membuf) (flag : Z) : Z * ci_membuf :=
  if negb (flag_set flag CI_MEMBUF_USER_FLAGS) then (0, b)
  else (Z.lor (flags b) flag, set_flags (Z.lor (flags b) flag) b).

(** [remains] of [ci_membuf_write]. *)
Definition remains (b : ci_membuf) : Z :=
  bufsize b - endpos b - (if flagged b CI_MEMBUF_NULL_TERMINATED then 1 else 0).

(** The [while (remains < len)] loop: [alloc n] tells whether [ci_buffer_realloc] to [n]
    bytes succeeds.  Gives whether the space was found. *)
Fixpoint membuf_grow (fuel : nat) (alloc : Z → bool) (b : ci_membuf) (len : Z) :
    outcome (bool * ci_membuf) :=
  match fuel with
  | O => NoFuel
  | S fuel' =>
      if remains b <? len then
        let newsize := bufsize b + INCSTEP in
        if INT_MAX <? newsize then UB
        else if negb (alloc newsize) then Ret (false, b)
        else membuf_grow fuel' alloc
               (mkMembuf (endpos b) (readpos b) newsize (unlocked b) (flags b)
                  (grow junk (buf b) newsize)) len
      else Ret (true, b)
  end.

(** [buf[endpos] = 0] when the buffer is to be NUL terminated. *)
Definition terminate (b : ci_membuf) : outcome ci_membuf :=
  if flagged b CI_MEMBUF_NULL_TERMINATED then
    let* m := store (buf b) (endpos b) NUL in Ret (set_data m (endpos b) b)
  else Ret b.

(** The copy when the buffer cannot grow. *)
Definition membuf_fill (b : ci_membuf) (data : list Z) : outcome (Z * ci_membuf) :=
  let r := remains b in
  if 0 <=? r then
    let* m := if negb (r =? 0)
              then let* d := read_bytes data 0 r in write_bytes (buf b) (endpos b) d
              else Ret (buf b) in
    let e := if flagged b CI_MEMBUF_NULL_TERMINATED then bufsize b - 1 else bufsize b in
    let* b := terminate (set_data m e b) in
    Ret (r, b)
  else Ret (r, b).

Definition ci_membuf_write (alloc : Z → bool) (b : ci_membuf) (data : list Z) (iseof : bool) :
    outcome (Z * ci_membuf) :=
  if flagged b CI_MEMBUF_RO || flagged b CI_MEMBUF_CONST then Ret (0, b)
  else if flagged b CI_MEMBUF_HAS_EOF then Ret (0, b)
  else
  let b := if iseof then set_flags (Z.lor (flags b) CI_MEMBUF_HAS_EOF) b else b in
  let* _ := assert_ (-1 <=? remains b) in
  let len := zlen data in
  let* (ok, b) := membuf_grow (S (Z.to_nat (len - remains b))) alloc b len in
  if ok : bool then
    let* b := if negb (len =? 0)
              then let* m := write_bytes (buf b) (endpos b) data in
                   Ret (set_data m (endpos b + len) b)
              else Ret b in
    let* b := terminate b in
    Ret (len, b)
  else membuf_fill b data.

(** The value returned and the bytes copied to the caller. *)
Definition ci_membuf_read (b : ci_membuf) (len : Z) : outcome (Z * list Z * ci_membuf) :=
  let r := (if 0 <=? unlocked b then unlocked b else endpos b) - readpos b in
  let* _ := assert_ (0 <=? r) in
  if (r =? 0) && flagged b CI_MEMBUF_HAS_EOF then Ret (CI_EOF, [], b)
  else
  let n := if len <=? r then len else r in
  if negb (n =? 0) then
    let* d := read_bytes (buf b) (readpos b) n in
    Ret (n, d, mkMembuf (endpos b) (readpos b + n) (bufsize b) (unlocked b) (flags b) (buf b))
  else Ret (n, [], b).

Definition ci_membuf_truncate (b : ci_membuf) (new_size : Z) : outcome (Z * ci_membuf) :=
  if endpos b <? new_size then Ret (0, b)
  else
  let* b := terminate (set_data (buf b) new_size b) in
  let rp := if endpos b <? readpos b then endpos b else readpos b in
  let ul := if endpos b <? unlocked b then endpos b else unlocked b in
  Ret (1, mkMembuf (endpos b) rp (bufsize b) ul (flags b) (buf b)).

(** The lock macros of body.h. *)
Definition ci_membuf_lock_all (b : ci_membuf) : ci_membuf :=
  mkMembuf (endpos b) (readpos b) (bufsize b) 0 (flags b) (buf b).
Definition ci_membuf_unlock (b : ci_membuf) (len : Z) : ci_membuf :=
  mkMembuf (endpos b) (readpos b) (bufsize b) (if len <? readpos b then readpos b else len)
    (flags b) (buf b).
Definition ci_membuf_unlock_all (b : ci_membuf) : ci_membuf :=
  mkMembuf (endpos b) (readpos b) (bufsize b) (-1) (flags b) (buf b).

End membuf.

(** ** Invariant *)

Definition term (b : ci_membuf) : Z := if flagged b CI_MEMBUF_NULL_TERMINATED then 1 else 0.

Lemma term_nonneg b : 0 ≤ term b.
Proof. unfold term. case_match; lia. Qed.

Record membuf_ok (b : ci_membuf) : Prop := {
  mo_read : 0 ≤ readpos b ≤ endpos b;
  mo_end : endpos b + term b ≤ bufsize b;
  mo_size : zlen (buf b) = bufsize b;
  mo_max : bufsize b ≤ INT_MAX - INCSTEP;
  mo_lock : unlocked b = -1 ∨ readpos b ≤ unlocked b ≤ endpos b
}.

(** What the reader may take. *)
Definition contents (b : ci_membuf) : list Z := slice (buf b) (readpos b) (endpos b - readpos b).

(** Same buffer in more memory. *)
Record larger (b b' : ci_membuf) : Prop := {
  lg_buf : ∃ x, buf b' = buf b ++ x;
  lg_end : endpos b' = endpos b;
  lg_read : readpos b' = readpos b;
  lg_lock : unlocked b' = unlocked b;
  lg_flags : flags b' = flags b
}.

Lemma term_flags b b' : flags b = flags b' → term b = term b'.
Proof. unfold term, flagged. by intros ->. Qed.

Lemma remains_term b : remains b = bufsize b - endpos b - term b.
Proof. done. Qed.

Lemma contents_larger b b' : membuf_ok b → larger b b' → contents b' = contents b.
Proof.
  intros [Hr He Hs _ _] [[x Hb] He' Hr' _ _]. unfold contents. rewrite Hb, He', Hr'.
  pose proof (term_nonneg b). apply slice_app_l; lia.
Qed.

Section grow.
Context (junk : Z → Z) (alloc : Z → bool).
(** The allocator does not hand out blocks whose size, one step later, leaves an [int]. *)
Hypothesis alloc_bounded : ∀ n, INT_MAX - INCSTEP < n → alloc n = false.

Lemma membuf_grow_spec fuel b len :
  membuf_ok b → Z.max 0 (len - remains b) < Z.of_nat fuel →
  ∃ ok b', membuf_grow junk fuel alloc b len = Ret (ok, b') ∧ membuf_ok b' ∧ larger b b' ∧
    if ok : bool then len ≤ remains b' else 0 ≤ remains b' < len ∧ alloc (bufsize b' + INCSTEP) = false.
Proof.
  revert b. induction fuel as [|fuel IH]; intros b Hok Hf; [lia|]. cbn [membuf_grow].
  pose proof Hok as [Hr He Hs Hm Hl]. pose proof (remains_term b) as Hrem.
  destruct (Z.ltb_spec (remains b) len) as [Hlt|Hge].
  2:{ exists true, b. split; [done|]. split; [done|]. split; [|done].
      split; try done. exists []. by rewrite app_nil_r. }
  set (n := bufsize b + INCSTEP). assert (n ≤ INT_MAX) by (unfold n; lia). solve_cmp.
  destruct (alloc n) eqn:Ha; cbn [negb].
  2:{ exists false, b. split; [done|]. split; [done|]. split.
      - split; try done. exists []. by rewrite app_nil_r.
      - split; [lia|done]. }
  assert (n ≤ INT_MAX - INCSTEP).
  { destruct (Z.le_gt_cases n (INT_MAX - INCSTEP)); [done|].
    rewrite alloc_bounded in Ha by done. discriminate. }
  set (b1 := mkMembuf _ _ n _ _ _).
  assert (Ht1 : term b1 = term b) by done.
  assert (Hn : bufsize b1 = bufsize b + INCSTEP) by done. unfold INCSTEP in *.
  assert (Hok1 : membuf_ok b1).
  { split; cbn; try done; [change (term _) with (term b1); lia|].
    apply zlen_grow. lia. }
  destruct (IH b1 Hok1) as (ok & b' & Hg & Hok' & [[x Hx] ? ? ? ?] & Hres).
  { rewrite (remains_term b1), Ht1, Hn. cbn [endpos b1]. lia. }
  exists ok, b'. split; [done|]. split; [done|]. split; [|done].
  split; try done. exists (fresh junk (zlen (buf b)) n ++ x). rewrite Hx. cbn. unfold grow. by_app.
Qed.

(** Appending [d] at the end, in memory that is large enough. *)
Lemma append_ok b d :
  membuf_ok b → zlen d ≤ remains b →
  ∃ m, write_bytes (buf b) (endpos b) d = Ret m ∧
    membuf_ok (set_data m (endpos b + zlen d) b) ∧
    contents (set_data m (endpos b + zlen d) b) = contents b ++ d.
Proof.
  intros [Hr He Hs Hm Hl] Hd. rewrite remains_term in Hd.
  pose proof (term_nonneg b). pose proof (zlen_nonneg d).
  exists (splice (buf b) (endpos b) d). split; [apply write_bytes_ok; lia|]. split.
  - split; cbn; try done; try lia.
    + change (term _) with (term b). lia.
    + rewrite zlen_splice; lia.
  - unfold contents. cbn.
    replace (endpos b + zlen d - readpos b) with ((endpos b - readpos b) + zlen d) by lia.
    rewrite slice_split by lia. f_equal.
    + apply slice_splice_before; lia.
    + replace (readpos b + (endpos b - readpos b)) with (endpos b) by lia.
      apply slice_splice_same; lia.
Qed.

(** Terminating the buffer does not touch its data. *)
Lemma terminate_ok b :
  membuf_ok b →
  ∃ b', terminate b = Ret b' ∧ membuf_ok b' ∧ contents b' = contents b ∧
    endpos b' = endpos b ∧ readpos b' = readpos b ∧ unlocked b' = unlocked b ∧ flags b' = flags b ∧
    bufsize b' = bufsize b ∧ (flagged b CI_MEMBUF_NULL_TERMINATED = true → load (buf b') (endpos b') = Ret NUL).
Proof.
  intros Hok. pose proof Hok as [Hr He Hs Hm Hl]. unfold term in He. unfold terminate.
  destruct (flagged b CI_MEMBUF_NULL_TERMINATED) eqn:Ht; [|by exists b].
  rewrite store_splice by lia. cbn [obind].
  eexists. split; [done|]. cbn. split_and!; try done.
  - split; cbn; try done; [change (term _) with (term b); unfold term; rewrite Ht; lia|].
    rewrite zlen_splice; zlia.
  - unfold contents. cbn. apply slice_splice_before; zlia.
  - intros _. unfold splice. destruct (split_at (buf b) (endpos b)) as (x & y & -> & Hx); [lia|].
    rewrite <- Hx, zlen_to_nat, take_app_length. by apply load_app.
Qed.

Lemma larger_remains b b' : membuf_ok b' → larger b b' → term b' = term b.
Proof. intros _ [_ _ _ _ Hf]. by apply term_flags. Qed.

(** The copy into a buffer that cannot grow: it is filled. *)
Lemma membuf_fill_spec b data :
  membuf_ok b → remains b < zlen data →
  ∃ b', membuf_fill b data = Ret (remains b, b') ∧ membuf_ok b' ∧
    contents b' = contents b ++ take (Z.to_nat (remains b)) data ∧
    endpos b' = endpos b + remains b ∧ unlocked b' = unlocked b ∧ bufsize b' = bufsize b ∧
    flags b' = flags b ∧ (flagged b CI_MEMBUF_NULL_TERMINATED = true → load (buf b') (endpos b') = Ret NUL).
Proof.
  intros Hok Hlt. unfold membuf_fill. pose proof (mo_end _ Hok). pose proof (remains_term b) as Hrem.
  solve_cmp. assert (Hd : ∃ m, (if negb (remains b =? 0)
      then let* d := read_bytes data 0 (remains b) in write_bytes (buf b) (endpos b) d
      else Ret (buf b)) = Ret m ∧ membuf_ok (set_data m (endpos b + remains b) b) ∧
      contents (set_data m (endpos b + remains b) b) =
        contents b ++ take (Z.to_nat (remains b)) data).
  { destruct (Z.eqb_spec (remains b) 0) as [Hz|Hz]; cbn [negb].
    - exists (buf b). rewrite Hz, Z.add_0_r, app_nil_r. by destruct b.
    - rewrite read_bytes_ok by lia. cbn [obind].
      change (slice data 0 (remains b)) with (take (Z.to_nat (remains b)) data).
      assert (Hz' : zlen (take (Z.to_nat (remains b)) data) = remains b) by zlia.
      destruct (append_ok b (take (Z.to_nat (remains b)) data) Hok) as (m & Hw & ? & ?); [lia|].
      rewrite Hz' in *. by exists m. }
  destruct Hd as (m & -> & Hokm & Hcm). cbn [obind].
  replace (if flagged b CI_MEMBUF_NULL_TERMINATED then bufsize b - 1 else bufsize b)
    with (endpos b + remains b) by (rewrite Hrem; unfold term; case_match; lia).
  destruct (terminate_ok _ Hokm) as (b' & -> & Hok' & Hc' & He' & _ & Hl' & Hf' & Hb' & Hn').
  cbn [obind]. exists b'. split; [done|]. split; [done|]. split; [by rewrite Hc'|].
  done.
Qed.

(** The effect of a write that is not refused: the data, or the part of it that fills the
    buffer when its next reallocation fails. *)
Lemma membuf_write_spec b data iseof :
  membuf_ok b → flagged b CI_MEMBUF_RO = false → flagged b CI_MEMBUF_CONST = false →
  flagged b CI_MEMBUF_HAS_EOF = false →
  ∃ n b', ci_membuf_write junk alloc b data iseof = Ret (n, b') ∧ membuf_ok b' ∧
    0 ≤ n ≤ zlen data ∧ contents b' = contents b ++ take (Z.to_nat n) data ∧
    unlocked b' = unlocked b ∧ endpos b' = endpos b + n ∧
    (n = zlen data ∨ alloc (bufsize b' + INCSTEP) = false ∧ endpos b' + term b' = bufsize b') ∧
    (flagged b CI_MEMBUF_NULL_TERMINATED = true → load (buf b') (endpos b') = Ret NUL).
Proof.
  intros Hok Hro Hco Heof. unfold ci_membuf_write. rewrite Hro, Hco, Heof. cbn [orb].
  set (b0 := if iseof then _ else b).
  assert (Hok0 : membuf_ok b0 ∧ contents b0 = contents b ∧ unlocked b0 = unlocked b ∧
            endpos b0 = endpos b ∧
            flagged b0 CI_MEMBUF_NULL_TERMINATED = flagged b CI_MEMBUF_NULL_TERMINATED).
  { unfold b0. destruct iseof; [|done].
    assert (Ht : flag_set (Z.lor (flags b) CI_MEMBUF_HAS_EOF) CI_MEMBUF_NULL_TERMINATED
      = flag_set (flags b) CI_MEMBUF_NULL_TERMINATED)
      by (unfold flag_set; by rewrite Z.land_lor_distr_l, Z.lor_0_r).
    split; [|done]. destruct Hok as [? He ? ? ?]. split; try done. cbn.
    unfold term, flagged in *. cbn. by rewrite Ht. }
  clearbody b0. destruct Hok0 as (Hok0 & <- & <- & <- & <-).
  pose proof (mo_end _ Hok0). pose proof (remains_term b0). solve_cmp. cbn [assert_ obind].
  destruct (membuf_grow_spec (S (Z.to_nat (zlen data - remains b0))) b0 (zlen data) Hok0)
    as (ok & b1 & -> & Hok1 & Hlg & Hres); [lia|]. cbn [obind].
  pose proof (contents_larger _ _ Hok0 Hlg) as Hc1. pose proof Hlg as [_ He1 _ Hl1 Hf1].
  destruct ok; cycle 1.
  - destruct Hres as [Hrem Ha].
    destruct (membuf_fill_spec b1 data Hok1) as (b' & -> & Hok' & Hc' & He' & Hl' & Hs' & Hf' & Hn'); [lia|].
    eexists _, b'. split; [done|]. split; [done|]. split; [lia|].
    split; [by rewrite Hc', Hc1|]. split; [congruence|]. split; [lia|]. split.
    + right. rewrite Hs', He', (term_flags b' b1 Hf'). pose proof (remains_term b1). split; [done|lia].
    + unfold flagged in *. by rewrite <- Hf1.
  - assert (∃ m, (if negb (zlen data =? 0)
              then let* m := write_bytes (buf b1) (endpos b1) data in
                   Ret (set_data m (endpos b1 + zlen data) b1)
              else Ret b1) = Ret (set_data m (endpos b1 + zlen data) b1) ∧
              membuf_ok (set_data m (endpos b1 + zlen data) b1) ∧
              contents (set_data m (endpos b1 + zlen data) b1) = contents b1 ++ data) as (m & -> & Hokm & Hcm).
    { destruct (append_ok b1 data Hok1 Hres) as (m & Hw & Hokm & Hcm).
      destruct (Z.eqb_spec (zlen data) 0) as [Hz|Hz]; cbn [negb]; [|exists m; by rewrite Hw].
      exists (buf b1). rewrite Hz, Z.add_0_r.
      assert (data = []) as -> by (destruct data; [done|zlia]). rewrite app_nil_r. by destruct b1. }
    cbn [obind]. destruct (terminate_ok _ Hokm) as (b' & -> & Hok' & Hc' & He' & _ & Hl' & _ & _ & Hn').
    cbn [obind]. eexists _, b'. split; [done|]. split; [done|]. split; [zlia|].
    split; [|split; [by rewrite Hl'|split; [rewrite He'; cbn; lia|split; [by left|]]]].
    2:{ unfold flagged in *. cbn in Hn'. by rewrite <- Hf1. }
    rewrite Hc', Hcm, Hc1. by rewrite take_ge by (unfold zlen; lia).
Qed.

Lemma membuf_read_spec b len :
  membuf_ok b → 0 ≤ len →
  let lim := if 0 <=? unlocked b then unlocked b else endpos b in
  let n := Z.min len (lim - readpos b) in
  ∃ r d b', ci_membuf_read b len = Ret (r, d, b') ∧ membuf_ok b' ∧ contents b = d ++ contents b' ∧
    zlen d = n ∧ unlocked b' = unlocked b ∧
    r = (if (lim - readpos b =? 0) && flagged b CI_MEMBUF_HAS_EOF then CI_EOF else n).
Proof.
  intros Hok Hlen lim n. pose proof Hok as [Hr He Hs Hm Hl]. unfold ci_membuf_read. fold lim.
  pose proof (term_nonneg b).
  assert (Hlim : readpos b ≤ lim ≤ endpos b) by (unfold lim; destruct Hl as [->|?]; [cbn; lia|case_cmp; lia]).
  solve_cmp. cbn [assert_ obind].
  destruct ((lim - readpos b =? 0) && flagged b CI_MEMBUF_HAS_EOF) eqn:Ee.
  { apply andb_prop in Ee as [Ee _]. apply Z.eqb_eq in Ee.
    exists CI_EOF, [], b. split; [done|]. split; [done|]. split; [done|]. split; [|done].
    unfold n. change (zlen []) with 0. lia. }
  replace (if len <=? lim - readpos b then len else lim - readpos b) with n by (unfold n; case_cmp; lia).
  assert (Hn : 0 ≤ n ≤ lim - readpos b) by (unfold n; lia).
  destruct (Z.eqb_spec n 0) as [Hn0|Hn0]; cbn [negb].
  { exists n, [], b. by rewrite Hn0. }
  rewrite read_bytes_ok by lia. cbn [obind]. eexists _, _, _. split; [done|].
  split.
  { split; cbn; try done; [lia|]. destruct Hl as [|Hl]; [by left|right].
    unfold lim in Hlim, Hn. rewrite (proj2 (Z.leb_le _ _)) in Hlim, Hn by lia. lia. }
  split; [|split; [apply zlen_slice; lia|done]].
  unfold contents. cbn. replace (endpos b - readpos b) with (n + (endpos b - (readpos b + n))) by lia.
  apply slice_split; lia.
Qed.

(** Without lock, the buffer is a queue. *)
#[local] Program Instance membuf_fifo : Fifo ci_membuf := {|
  write b d := ci_membuf_write junk alloc b d false;
  read := ci_membuf_read;
  good b := membuf_ok b ∧ unlocked b = -1;
  pending := contents
|}.
Next Obligation.
  intros b d [Hok Hl]. cbn.
  destruct (flagged b CI_MEMBUF_RO || flagged b CI_MEMBUF_CONST || flagged b CI_MEMBUF_HAS_EOF) eqn:E.
  - exists 0, b. split; [|rewrite app_nil_r; split; [done|split; [zlia|done]]].
    unfold ci_membuf_write. by destruct (flagged b CI_MEMBUF_RO), (flagged b CI_MEMBUF_CONST),
      (flagged b CI_MEMBUF_HAS_EOF).
  - apply orb_false_elim in E as [E Ee]. apply orb_false_elim in E as [Er Ec].
    destruct (membuf_write_spec b d false Hok Er Ec Ee) as (n & b' & Hw & Hok' & Hn & Hc & Hl' & _).
    exists n, b'. rewrite Hl'. auto.
Qed.
Next Obligation.
  intros b len [Hok Hl] Hlen. cbn.
  destruct (membuf_read_spec b len Hok ltac:(lia)) as (r & d & b' & Hr & Hok' & Hc & Hd & Hl' & Hres).
  exists r, d, b'. rewrite Hl in *. split; [done|]. split; [done|]. split; [done|].
  change (0 <=? -1) with false in *. cbn iota in *. split; [lia|]. intros Hne.
  pose proof Hok as [? ? ? _ _]. pose proof (term_nonneg b).
  assert (0 < endpos b - readpos b).
  { destruct (Z.le_gt_cases (endpos b - readpos b) 0); [|lia]. destruct Hne. by apply slice_nil. }
  rewrite (proj2 (Z.eqb_neq _ _)) in Hres by lia. cbn [andb] in Hres.
  split; [|lia]. intros ->. change (zlen []) with 0 in Hd. lia.
Qed.
End grow.

(** ** Properties *)

Lemma new_sized_ok junk size b :
  0 ≤ size ≤ INT_MAX - INCSTEP → ci_membuf_new_sized junk true true size = Some b →
  membuf_ok b ∧ unlocked b = -1 ∧ contents b = [].
Proof.
  intros Hs [= <-]. split; [|done]. split; cbn; try lia; [|rewrite zlen_fresh; lia].
  change (term _) with 0. lia.
Qed.

(** Whatever the reallocations answer, a memory buffer delivers through any
    sequence of writes and reads exactly the bytes its writes counted, in order, each
    once. *)
Theorem membuf_is_fifo junk alloc (Ha : ∀ n, INT_MAX - INCSTEP < n → alloc n = false) size b ops :
  0 ≤ size ≤ INT_MAX - INCSTEP →
  ci_membuf_new_sized junk true true size = Some b → Forall op_ok ops →
  ∃ i o b', @run _ (membuf_fifo junk alloc Ha) b ops = Ret (i, o, b') ∧
    i = o ++ contents b'.
Proof.
  intros Hs Hb Hops. destruct (new_sized_ok junk size b Hs Hb) as (Hok & Hl & Hc).
  destruct (@run_fifo _ (membuf_fifo junk alloc Ha) ops b (conj Hok Hl) Hops) as (i & o & b' & Hr & _ & He).
  exists i, o, b'. split; [exact Hr|]. cbn in He. by rewrite Hc in He.
Qed.

(** An allocator with a limit far below that of an [int]. *)
Definition small_alloc (n : Z) : bool := n <=? 10000.

Lemma small_alloc_bounded n : INT_MAX - INCSTEP < n → small_alloc n = false.
Proof. unfold small_alloc, INT_MAX, INCSTEP. intros. apply Z.leb_gt. lia. Qed.

Lemma membuf_is_fifo_witness :
  ∃ i o b', @run _ (membuf_fifo (λ _, 7) small_alloc small_alloc_bounded)
      (mkMembuf 0 0 2 (-1) 0 (fresh (λ _, 7) 0 2))
      [OpWrite [1; 2; 3]; OpRead 2; OpWrite [4]; OpRead 9] = Ret (i, o, b') ∧ i = o ++ contents b'.
Proof.
  apply (membuf_is_fifo (λ _, 7) small_alloc small_alloc_bounded 2); [done|reflexivity|].
  repeat constructor.
Defined.

(** A write to a memory buffer that is neither read-only nor closed keeps the
    invariant, appends the bytes it counts, and counts less than it got only when the next
    reallocation fails and the buffer is then full; a buffer with the NUL_TERMINATED
    flag ends in a NUL after it. *)
Theorem ci_membuf_write_correct junk alloc b data iseof :
  (∀ n, INT_MAX - INCSTEP < n → alloc n = false) → membuf_ok b →
  flagged b CI_MEMBUF_RO = false → flagged b CI_MEMBUF_CONST = false →
  flagged b CI_MEMBUF_HAS_EOF = false →
  ∃ n b', ci_membuf_write junk alloc b data iseof = Ret (n, b') ∧ membuf_ok b' ∧
    0 ≤ n ≤ zlen data ∧ contents b' = contents b ++ take (Z.to_nat n) data ∧
    unlocked b' = unlocked b ∧ endpos b' = endpos b + n ∧
    (n = zlen data ∨ alloc (bufsize b' + INCSTEP) = false ∧ endpos b' + term b' = bufsize b') ∧
    (flagged b CI_MEMBUF_NULL_TERMINATED = true → load (buf b') (endpos b') = Ret NUL).
Proof. intros Ha. by apply membuf_write_spec. Qed.

Definition sample_membuf : ci_membuf := mkMembuf 1 0 3 (-1) CI_MEMBUF_NULL_TERMINATED [65; 0; 0].

Lemma sample_membuf_ok : membuf_ok sample_membuf.
Proof. split; cbn; try lia; by vm_compute. Qed.

Lemma ci_membuf_write_correct_witness :
  ∃ n b', ci_membuf_write (λ _, 7) (λ _, false) sample_membuf [66; 67; 68] true = Ret (n, b') ∧
    contents b' = [65] ++ take (Z.to_nat n) [66; 67; 68].
Proof.
  destruct (ci_membuf_write_correct (λ _, 7) (λ _, false) sample_membuf [66; 67; 68] true
    (λ _ _, eq_refl) sample_membuf_ok eq_refl eq_refl eq_refl) as (n & b' & Hw & _ & _ & Hc & _).
  by exists n, b'.
Defined.

(** [ci_membuf_from_content] with the NUL_TERMINATED flag and an empty content
    reads the byte before the buffer. *)
Theorem from_content_empty_underflow a m buf_size fl :
  0 < buf_size → Z.land fl CI_MEMBUF_FROM_CONTENT_FLAGS = fl →
  flag_set fl CI_MEMBUF_NULL_TERMINATED = true →
  ci_membuf_from_content a (Some m) buf_size 0 fl = UB.
Proof.
  intros Hs Hf Ht. unfold ci_membuf_from_content. solve_cmp. by rewrite Ht.
Qed.

Lemma from_content_empty_underflow_witness :
  ci_membuf_from_content true (Some [0]) 1 0 CI_MEMBUF_FROM_CONTENT_FLAGS = UB.
Proof. apply from_content_empty_underflow; reflexivity. Defined.

(** [ci_membuf_truncate] keeps the invariant and cuts the data: what
    is left to read is the part of it before the new end. *)
Theorem ci_membuf_truncate_correct b new_size :
  membuf_ok b → 0 ≤ new_size →
  ∃ r b', ci_membuf_truncate b new_size = Ret (r, b') ∧ membuf_ok b' ∧
    contents b' = take (Z.to_nat (new_size - readpos b)) (contents b) ∧
    endpos b' = Z.min new_size (endpos b) ∧ (r = 1 ↔ new_size ≤ endpos b).
Proof.
  intros Hok Hn. pose proof Hok as [Hr He Hs Hm Hl]. unfold ci_membuf_truncate.
  destruct (Z.ltb_spec (endpos b) new_size) as [Hlt|Hge].
  { exists 0, b. split; [done|]. split; [done|]. split; [|lia].
    rewrite take_ge; [done|]. pose proof (term_nonneg b). unfold contents, slice.
    rewrite length_take, length_drop. lia. }
  assert (Hst : ∃ m, terminate (set_data (buf b) new_size b) = Ret (set_data m new_size b) ∧
    zlen m = zlen (buf b) ∧ ∀ a n, 0 ≤ a → 0 ≤ n → a + n ≤ new_size → slice m a n = slice (buf b) a n).
  { unfold terminate. change (flagged (set_data _ _ b) ?f) with (flagged b f). cbn. unfold term in He.
    destruct (flagged b CI_MEMBUF_NULL_TERMINATED); [|by exists (buf b)].
    rewrite store_splice by lia. eexists. split; [done|]. split; [rewrite zlen_splice; zlia|].
    intros. apply slice_splice_before; zlia. }
  pose proof (term_nonneg b).
  destruct Hst as (m & -> & Hz & Hsl). cbn. eexists _, _. split; [done|]. split.
  { split; cbn; try (change (term _) with (term b)); try lia; repeat case_cmp; lia. }
  split; [|cbn; lia]. unfold contents. cbn. rewrite Hsl by (case_cmp; lia).
  destruct (Z.ltb_spec new_size (readpos b)).
  - rewrite slice_nil by lia. by replace (Z.to_nat (new_size - readpos b)) with 0%nat by lia.
  - unfold slice. rewrite take_take. f_equal. lia.
Qed.

Lemma ci_membuf_truncate_correct_witness :
  ∃ r b', ci_membuf_truncate sample_membuf 1 = Ret (r, b') ∧ membuf_ok b' ∧ contents b' = [65] ∧
    endpos b' = 1 ∧ (r = 1 ↔ 1 ≤ 1).
Proof.
  exact (ci_membuf_truncate_correct sample_membuf 1 sample_membuf_ok ltac:(lia)).
Defined.

(** [ci_membuf_set_flag] accepts NUL_TERMINATED on a buffer without a spare
    byte; truncating it to its own size then writes the NUL past the end of the buffer. *)
Theorem truncate_full_terminated_overflow b b' r :
  endpos b = zlen (buf b) →
  ci_membuf_set_flag b CI_MEMBUF_NULL_TERMINATED = (r, b') →
  ci_membuf_truncate b' (endpos b) = UB.
Proof.
  intros He. unfold ci_membuf_set_flag. cbn [negb]. change (flag_set _ _) with true. cbn [negb].
  intros [= <- <-]. unfold ci_membuf_truncate. cbn. rewrite Z.ltb_irrefl.
  unfold terminate, flagged. cbn.
  replace (flag_set (Z.lor (flags b) CI_MEMBUF_NULL_TERMINATED) CI_MEMBUF_NULL_TERMINATED) with true.
  - unfold store. rewrite (proj2 (Z.ltb_ge _ _)) by lia. by rewrite andb_false_r.
  - unfold flag_set. rewrite Z.land_lor_distr_l, Z.land_diag. symmetry. apply negb_true_iff, Z.eqb_neq.
    intros H. by apply Z.lor_eq_0_iff in H as [_ ?].
Qed.

Lemma truncate_full_terminated_overflow_witness :
  ci_membuf_truncate (set_flags 1 (mkMembuf 2 0 2 (-1) 0 [65; 66])) 2 = UB.
Proof.
  exact (truncate_full_terminated_overflow (mkMembuf 2 0 2 (-1) 0 [65; 66]) _ 1 eq_refl eq_refl).
Defined.
