(* ===== verification/CachedFile.v ===== *)
(** * Cached files (body.c, [ci_cached_file])

    Body data kept in memory up to [bufsize] bytes and moved to a temporary file beyond.  The
    operating system answers are arguments: [mk] is the descriptor [ci_mktemp_file]
    gives, [w], [w1], [w2] the values of the [do_write] calls (a count of bytes put
    in the file, or negative), [rd] whether [do_read] succeeds.  The file is the list of its bytes;
    the null buffer is the empty list.  The global [CI_BODY_MAX_MEM] is a parameter. *)

From stdpp Require Import base list list_numbers strings numbers.
From Stdlib Require Import ZArith Lia.
From S2P Require Import Prelude Store Chunks.

Record ci_cached_file := mkCached {
  endpos : Z;
  readpos : Z;
  bufsize : Z;
  flags : Z;
  unlocked : Z;
  buf : list Z;
  fd : Z;
  file : list Z
}.

Definition flagged (b : ci_cached_file) (bit : Z) : bool := flag_set (flags b) bit.

Definition set_end (e : Z) (m : list Z) (d : Z) (f : list Z) (b : ci_cached_file) : ci_cached_file :=
  mkCached e (readpos b) (bufsize b) (flags b) (unlocked b) m d f.

Definition advance (n : Z) (b : ci_cached_file) : ci_cached_file :=
  mkCached (endpos b) (readpos b + n) (bufsize b) (flags b) (unlocked b) (buf b) (fd b) (file b).

Section cached_file.
Context (junk : Z → Z) (CI_BODY_MAX_MEM : Z).

Definition resize_buffer (alloc : bool) (b : ci_cached_file) (new_size : Z) : Z * ci_cached_file :=
  if new_size <? bufsize b then (1, b)
  else if CI_BODY_MAX_MEM <? new_size then (0, b)
  else if alloc then
    (1, mkCached (endpos b) (readpos b) new_size (flags b) (unlocked b)
          (grow junk (buf b) new_size) (fd b) (file b))
  else (1, b).

Definition ci_cached_file_new (a1 a2 : bool) (mk size : Z) : option ci_cached_file :=
  if negb a1 then None
  else
  let size := if size =? 0 then CI_BODY_MAX_MEM else size in
  if (0 <? size) && (size <=? CI_BODY_MAX_MEM) && a2 then
    Some (mkCached 0 0 size 0 0 (fresh junk 0 size) (-1) [])
  else if mk <? 0 then None
  else Some (mkCached 0 0 0 0 0 [] mk []).

Definition ci_cached_file_reset (alloc : bool) (b : ci_cached_file) (new_size : Z) : ci_cached_file :=
  snd (resize_buffer alloc (mkCached 0 0 (bufsize b) 0 0 (buf b) (-1) []) new_size).

Definition ci_cached_file_write (mk w1 w2 : Z) (b : ci_cached_file) (data : list Z) (iseof : bool) :
    outcome (Z * ci_cached_file) :=
  let b := if iseof then mkCached (endpos b) (readpos b) (bufsize b)
                           (Z.lor (flags b) CI_FILE_HAS_EOF) (unlocked b) (buf b) (fd b) (file b)
           else b in
  let len := zlen data in
  if len =? 0 then Ret (0, b)
  else if 0 <? fd b then
    Ret (len, set_end (endpos b + len) (buf b) (fd b)
                (if w1 <? 0 then file b else do_write (file b) (zlen (file b)) w1 data) b)
  else
  let remains := to_int (bufsize b - endpos b) in
  let* _ := assert_ (0 <=? remains) in
  if remains <? len then
    if mk <? 0 then Ret (-1, set_end (endpos b) (buf b) mk (file b) b)
    else
    let* d := read_bytes (buf b) 0 (endpos b) in
    if w1 <? 0 then Ret (CI_ERROR, set_end (endpos b) (buf b) mk [] b)
    else
    let f := do_write [] 0 w1 d in
    if w2 <? 0 then Ret (CI_ERROR, set_end (endpos b) (buf b) mk f b)
    else Ret (len, set_end (endpos b + len) (buf b) mk (do_write f (zlen f) w2 data) b)
  else
    let* m := write_bytes (buf b) (endpos b) data in
    Ret (len, set_end (endpos b + len) m (fd b) (file b) b).

Definition ci_cached_file_read (rd : bool) (b : ci_cached_file) (len : Z) :
    outcome (Z * list Z * ci_cached_file) :=
  if (readpos b =? endpos b) && flagged b CI_FILE_HAS_EOF then Ret (CI_EOF, [], b)
  else if len =? 0 then Ret (0, [], b)
  else
  let locked := flagged b CI_FILE_USELOCK && (0 <=? unlocked b) in
  if 0 <? fd b then
    let remains := if locked then to_int (unlocked b - readpos b) else len in
    let* _ := assert_ (0 <=? remains) in
    let n := if len <? remains then len else remains in
    let '(r, d) := do_read rd (file b) (readpos b) n in
    if 0 <? r then Ret (r, d, advance r b) else Ret (r, [], b)
  else
  let remains := to_int ((if locked then unlocked b else endpos b) - readpos b) in
  let* _ := assert_ (0 <=? remains) in
  let n := if len <=? remains then len else remains in
  if 0 <? n then
    let* d := read_bytes (buf b) (readpos b) n in
    Ret (n, d, advance n b)
  else Ret (0, [], b).

(** The lock macros of body.h. *)
Definition ci_cached_file_lock_all (b : ci_cached_file) : ci_cached_file :=
  mkCached (endpos b) (readpos b) (bufsize b) (Z.lor (flags b) CI_FILE_USELOCK) 0 (buf b) (fd b) (file b).
Definition ci_cached_file_unlock (b : ci_cached_file) (len : Z) : ci_cached_file :=
  mkCached (endpos b) (readpos b) (bufsize b) (flags b)
    (if len <? readpos b then readpos b else len) (buf b) (fd b) (file b).
Definition ci_cached_file_unlock_all (b : ci_cached_file) : ci_cached_file :=
  mkCached (endpos b) (readpos b) (bufsize b) (Z.ldiff (flags b) CI_FILE_USELOCK) 0 (buf b) (fd b) (file b).

End cached_file.

(** ** Invariant *)

(** [fd] is -1 while the data is in memory and a positive descriptor after. *)
Record cached_ok (b : ci_cached_file) : Prop := {
  co_read : 0 ≤ readpos b ≤ endpos b;
  co_size : zlen (buf b) = bufsize b ∧ 0 ≤ bufsize b ≤ INT_MAX;
  co_fd : fd b = -1 ∧ endpos b ≤ bufsize b ∨ 0 < fd b ∧ zlen (file b) = endpos b;
  co_lock : flagged b CI_FILE_USELOCK = false
}.

Definition contents (b : ci_cached_file) : list Z :=
  slice (if 0 <? fd b then file b else buf b) (readpos b) (endpos b - readpos b).

(** ** A healthy system: the temporary file opens and takes all the bytes *)

Section healthy.
Context (mk : Z) (mk_pos : 0 < mk).

Definition full_write (b : ci_cached_file) (d : list Z) (iseof : bool) : outcome (Z * ci_cached_file) :=
  ci_cached_file_write mk (if 0 <? fd b then zlen d else endpos b) (zlen d) b d iseof.

Lemma full_write_spec b d :
  cached_ok b →
  ∃ b', full_write b d false = Ret (zlen d, b') ∧ cached_ok b' ∧ contents b' = contents b ++ d ∧
    endpos b' = endpos b + zlen d.
Proof using mk_pos.
  intros [Hr [Hz Hs] Hfd Hl]. unfold full_write, ci_cached_file_write. pose proof (zlen_nonneg d).
  destruct (Z.eqb_spec (zlen d) 0) as [Hd|Hd].
  { assert (d = []) as -> by (destruct d; [done|zlia]). exists b. rewrite app_nil_r.
    split; [done|]. split; [done|]. split; [done|]. zlia. }
  destruct (Z.ltb_spec 0 (fd b)) as [Hfd0|Hfd0].
  - destruct Hfd as [[? ?]|[_ Hf]]; [lia|]. solve_cmp. eexists. split; [done|].
    rewrite do_write_append. split; [|split].
    + split; cbn; try done; [lia|]. right. zlia.
    + unfold contents. cbn. solve_cmp. by apply slice_append.
    + done.
  - destruct Hfd as [[Hfd He]|[? _]]; [|lia].
    rewrite to_int_id by (unfold INT_MAX, INT_MIN in *; lia). solve_cmp. cbn [assert_ obind].
    destruct (Z.ltb_spec (bufsize b - endpos b) (zlen d)) as [Hlt|Hge].
    + solve_cmp. rewrite read_bytes_ok by lia. cbn [obind].
      set (x := slice (buf b) 0 (endpos b)).
      assert (Hx : zlen x = endpos b) by (unfold x; rewrite zlen_slice; lia).
      assert (do_write [] 0 (endpos b) x = x) as ->.
      { rewrite <- Hx. exact (do_write_append [] x). }
      rewrite do_write_append. eexists. split; [done|]. split; [|split].
      * split; cbn; try done; [lia|]. right. zlia.
      * unfold contents. cbn. solve_cmp. rewrite slice_append by lia. f_equal.
        unfold x. rewrite slice_slice by lia. f_equal; lia.
      * done.
    + rewrite write_bytes_ok by lia. cbn [obind]. eexists. split; [done|]. split; [|split].
      * split; cbn; try done; [lia| |left; lia]. rewrite zlen_splice by lia. lia.
      * unfold contents. cbn. solve_cmp.
        replace (endpos b + zlen d - readpos b) with ((endpos b - readpos b) + zlen d) by lia.
        rewrite slice_split by lia. f_equal; [by apply slice_splice_before; lia|].
        replace (readpos b + (endpos b - readpos b)) with (endpos b) by lia.
        apply slice_splice_same; lia.
      * done.
Qed.

Lemma advance_ok b n :
  cached_ok b → 0 ≤ n ≤ endpos b - readpos b →
  cached_ok (advance n b) ∧
  contents b = slice (if 0 <? fd b then file b else buf b) (readpos b) n ++ contents (advance n b).
Proof.
  intros [Hr Hz Hfd Hl] Hn. split; [split; cbn; try done; lia|].
  unfold contents. cbn. replace (endpos b - readpos b) with (n + (endpos b - (readpos b + n))) by lia.
  apply slice_split; lia.
Qed.

Lemma full_read_spec b len :
  cached_ok b → 0 < len →
  ∃ r d b', ci_cached_file_read true b len = Ret (r, d, b') ∧ cached_ok b' ∧
    contents b = d ++ contents b' ∧ zlen d = Z.min len (zlen (contents b)) ∧
    endpos b' = endpos b ∧ flags b' = flags b ∧
    r = (if (readpos b =? endpos b) && flagged b CI_FILE_HAS_EOF then CI_EOF else zlen d).
Proof.
  intros Hok Hlen. pose proof Hok as [Hr [Hz Hs] Hfd Hl]. unfold ci_cached_file_read.
  assert (Hc : zlen (contents b) = endpos b - readpos b).
  { unfold contents. apply zlen_slice; try lia. case_cmp; lia. }
  destruct ((readpos b =? endpos b) && flagged b CI_FILE_HAS_EOF) eqn:Ee.
  { apply andb_prop in Ee as [Ee _]. apply Z.eqb_eq in Ee.
    exists CI_EOF, [], b. split; [done|]. split; [done|]. split; [done|]. split; [|done].
    change (zlen []) with 0. lia. }
  rewrite Hl. cbn [andb]. set (n := Z.min len (endpos b - readpos b)).
  destruct (advance_ok b n Hok ltac:(unfold n; lia)) as [Hok' Hc'].
  destruct (Z.ltb_spec 0 (fd b)) as [Hfd0|Hfd0]; solve_cmp.
  - destruct Hfd as [[? ?]|[_ Hf]]; [lia|]. cbn [assert_ obind]. unfold do_read.
    assert (Hsl : slice (file b) (readpos b) len = slice (file b) (readpos b) n).
    { unfold n. destruct (Z.le_gt_cases len (endpos b - readpos b)); [by rewrite Z.min_l|].
      rewrite Z.min_r by lia. unfold slice. rewrite !take_ge by (rewrite length_drop; unfold zlen in *; lia).
      done. }
    rewrite Hsl in *. assert (Hn : zlen (slice (file b) (readpos b) n) = n)
      by (apply zlen_slice; unfold n; lia).
    rewrite Hn. case_cmp.
    + eexists _, _, _. split; [done|]. split; [done|]. split; [done|]. rewrite Hn. split; [|done].
      unfold n. lia.
    + assert (n = 0) as Hn0 by (unfold n in *; lia). rewrite Hn0.
      eexists _, _, b. split; [done|]. split; [done|]. split; [done|]. split; [|done].
      change (zlen []) with 0. unfold n in *. lia.
  - destruct Hfd as [[Hfd He]|[? _]]; [|lia].
    rewrite to_int_id by (unfold INT_MAX, INT_MIN in *; lia). solve_cmp. cbn [assert_ obind].
    replace (if len <=? endpos b - readpos b then len else endpos b - readpos b) with n
      by (unfold n; case_cmp; lia).
    case_cmp.
    + rewrite read_bytes_ok by (unfold n in *; lia). cbn [obind].
      assert (Hn : zlen (slice (buf b) (readpos b) n) = n) by (apply zlen_slice; unfold n; lia).
      eexists _, _, _. split; [done|]. split; [done|]. split; [done|]. rewrite Hn. split; [|done].
      unfold n. lia.
    + eexists _, _, b. split; [done|]. split; [done|]. split; [done|]. split; [|done].
      change (zlen []) with 0. unfold n in *. lia.
Qed.

(** On a healthy system a cached file is a queue, across the move from memory to file. *)
#[local] Program Instance cached_fifo : Fifo ci_cached_file := {|
  write b d := full_write b d false;
  read := ci_cached_file_read true;
  good := cached_ok;
  pending := contents
|}.
Next Obligation.
  intros b d Hok. destruct (full_write_spec b d Hok) as (b' & Hw & Hok' & Hc & _).
  exists (zlen d), b'. split; [done|]. split; [done|]. split; [zlia|].
  rewrite Hc. by rewrite take_ge by (unfold zlen; lia).
Qed.
Next Obligation.
  intros b len Hok Hlen. cbn.
  destruct (full_read_spec b len Hok Hlen) as (r & d & b' & Hr & Hok' & Hc & Hd & _ & _ & Hres).
  exists r, d, b'. split; [done|]. split; [done|]. split; [done|]. split; [lia|]. intros Hne.
  assert (0 < zlen (contents b)) by (destruct (contents b); [done|zlia]).
  split; [intros ->; change (zlen []) with 0 in Hd; lia|].
  assert (readpos b ≠ endpos b).
  { intros E. destruct Hne. unfold contents. apply slice_nil. lia. }
  by rewrite (proj2 (Z.eqb_neq _ _)) in Hres by lia.
Qed.
End healthy.

(** ** Properties *)

(** C13: on a healthy system (temporary files open with a positive descriptor and take
    all the bytes) a cached file of any size delivers through any sequence of writes
    and reads all the bytes written, in order, whether they stay in memory or move to
    the file in between. *)
Theorem cached_file_is_fifo junk max mk (mk_pos : 0 < mk) a2 size b ops :
  0 ≤ max ≤ INT_MAX → ci_cached_file_new junk max true a2 mk size = Some b → Forall op_ok ops →
  ∃ i o b', @run _ (cached_fifo mk mk_pos) b ops = Ret (i, o, b') ∧ i = o ++ contents b'.
Proof.
  intros Hm Hb Hops.
  assert (Hok : cached_ok b ∧ contents b = []).
  { revert Hb. unfold ci_cached_file_new. cbn [negb].
    set (n := if size =? 0 then max else size).
    destruct ((0 <? n) && (n <=? max) && a2) eqn:E; [|rewrite (proj2 (Z.ltb_ge mk 0)) by lia]; intros [= <-].
    - apply andb_prop in E as [E _]. apply andb_prop in E as [E1 E2].
      apply Z.ltb_lt in E1. apply Z.leb_le in E2. split; [|done].
      split; cbn; try done; [rewrite zlen_fresh by lia; lia|left; lia].
    - split; [|unfold contents; cbn; by rewrite slice_nil]. split; cbn; try done. by right. }
  destruct Hok as [Hok Hc].
  destruct (@run_fifo _ (cached_fifo mk mk_pos) ops b Hok Hops) as (i & o & b' & Hr & _ & He).
  exists i, o, b'. split; [exact Hr|]. cbn in He. by rewrite Hc in He.
Qed.

Lemma cached_file_is_fifo_witness :
  ∃ i o b', @run _ (cached_fifo 5 eq_refl) (mkCached 0 0 2 0 0 [7; 7] (-1) [])
    [OpWrite [1; 2]; OpRead 1; OpWrite [3; 4]; OpRead 2; OpWrite [5]; OpRead 9] = Ret (i, o, b') ∧
    i = o ++ contents b'.
Proof.
  apply (cached_file_is_fifo (λ _, 7) 10 5 eq_refl true 2); [by vm_compute|reflexivity|].
  repeat constructor.
Defined.

(** Once the data is in the file, a failed write is reported as a complete one:
    the caller gets the full length, the file keeps its bytes, and the end position moves
    past them; a reader that has taken every byte of the file then gets 0 for ever and never
    the end of file, although the body was closed. *)
Theorem cached_file_failed_write_reported_complete mk w2 b data b' n :
  0 < fd b → data ≠ [] → readpos b = zlen (file b) → zlen (file b) ≤ endpos b →
  flagged b CI_FILE_USELOCK = false → 0 < n →
  ci_cached_file_write mk (-1) w2 b data true = Ret (zlen data, b') →
  file b' = file b ∧ flagged b' CI_FILE_HAS_EOF = true ∧
  ci_cached_file_read true b' n = Ret (0, [], b').
Proof.
  intros Hfd Hd Hr He Hl Hn. unfold ci_cached_file_write. cbn.
  assert (0 < zlen data) by (destruct data; [done|zlia]). solve_cmp. intros [= <-].
  assert (Hl' : flag_set (Z.lor (flags b) CI_FILE_HAS_EOF) CI_FILE_USELOCK = false).
  { unfold flagged, flag_set in *. by rewrite Z.land_lor_distr_l, Z.lor_0_r. }
  assert (He' : flag_set (Z.lor (flags b) CI_FILE_HAS_EOF) CI_FILE_HAS_EOF = true).
  { unfold flag_set. rewrite Z.land_lor_distr_l, Z.land_diag. apply negb_true_iff, Z.eqb_neq.
    intros H0. by apply Z.lor_eq_0_iff in H0 as [_ ?]. }
  split; [done|]. split; [done|]. unfold ci_cached_file_read, flagged. cbn. rewrite Hl', Hr.
  solve_cmp. cbn. solve_cmp. unfold do_read.
  assert (slice (file b) (zlen (file b)) n = []) as ->.
  { unfold slice. rewrite zlen_to_nat, drop_all. by destruct (Z.to_nat n). }
  done.
Qed.

Lemma cached_file_failed_write_reported_complete_witness :
  let b := mkCached 2 2 0 0 0 [] 5 [1; 2] in
  ∃ b', ci_cached_file_write 5 (-1) 0 b [3; 4] true = Ret (2, b') ∧
    ci_cached_file_read true b' 100 = Ret (0, [], b').
Proof.
  intros b. eexists. split; [reflexivity|].
  apply (cached_file_failed_write_reported_complete 5 0 b [3; 4] _ 100); try reflexivity; try done.
Defined.
