(* ===== verification/SimpleFile.v ===== *)
(** * Plain files (body.c, [ci_simple_file])

    Body data in a temporary file.  With a [max_store_size] the file is reused as a
    ring once the writer reaches that size.  [wr n] is the value of [do_write] for a request of [n]
    bytes, [rd], [ftr] and [mm] tell whether [do_read], [ftruncate] and [mmap] succeed.  The
    source is taken with USE_POSIX_MAPPED_FILES. *)

From stdpp Require Import base list list_numbers strings numbers.
From Stdlib Require Import ZArith Lia.
From S2P Require Import Prelude Store Chunks Membuf.

Record ci_simple_file := mkSimple {
  endpos : Z;
  readpos : Z;
  max_store_size : Z;
  bytes_in : Z;
  bytes_out : Z;
  flags : Z;
  unlocked : Z;
  fd : Z;
  file : list Z;
  mmap_addr : option (list Z)
}.

Definition flagged (b : ci_simple_file) (bit : Z) : bool := flag_set (flags b) bit.

(** [mk] is the descriptor of the new temporary file. *)
Definition ci_simple_file_new (a : bool) (mk maxsize : Z) : option ci_simple_file :=
  if negb a then None
  else if mk <? 0 then None
  else Some (mkSimple 0 0 (if 0 <? maxsize then maxsize else 0) 0 0 0 0 mk [] None).

(** With a name, [op] is the value of [do_open] with O_EXCL; without, [mk] that of
    [ci_mktemp_file]. *)
Definition ci_simple_file_named_new (a : bool) (op mk : Z) (named : bool) (maxsize : Z) :
    option ci_simple_file :=
  if negb a then None
  else
  let d := if named then op else mk in
  if d <? 0 then None
  else Some (mkSimple 0 0 (if 0 <? maxsize then maxsize else 0) 0 0 0 0 d [] None).

Definition add_flag (bit : Z) (b : ci_simple_file) : ci_simple_file :=
  mkSimple (endpos b) (readpos b) (max_store_size b) (bytes_in b) (bytes_out b)
    (Z.lor (flags b) bit) (unlocked b) (fd b) (file b) (mmap_addr b).

Definition set_end (e : Z) (b : ci_simple_file) : ci_simple_file :=
  mkSimple e (readpos b) (max_store_size b) (bytes_in b) (bytes_out b) (flags b) (unlocked b)
    (fd b) (file b) (mmap_addr b).

Definition set_read (r : Z) (b : ci_simple_file) : ci_simple_file :=
  mkSimple (endpos b) r (max_store_size b) (bytes_in b) (bytes_out b) (flags b) (unlocked b)
    (fd b) (file b) (mmap_addr b).

(** The choice of [wsize], with the wrap of [endpos]; [None] when nothing can be written. *)
Definition write_window (b : ci_simple_file) (len : Z) : option (Z * ci_simple_file) :=
  if endpos b <? readpos b then Some (Z.min (readpos b - endpos b - 1) len, b)
  else if negb (max_store_size b =? 0) && (max_store_size b <=? endpos b) then
    if negb (readpos b =? 0) && negb (flagged b CI_FILE_USELOCK) then
      let b := add_flag CI_FILE_RING_MODE (set_end 0 b) in
      Some (Z.min (readpos b - endpos b - 1) len, b)
    else None
  else if negb (max_store_size b =? 0) then Some (Z.min (max_store_size b - endpos b) len, b)
  else Some (len, b).

Definition ci_simple_file_write (wr : Z → Z) (b : ci_simple_file) (data : list Z) (iseof : bool) :
    Z * ci_simple_file :=
  let len := zlen data in
  if flagged b CI_FILE_HAS_EOF then (0, b)
  else if len <=? 0 then (0, if iseof then add_flag CI_FILE_HAS_EOF b else b)
  else
  match write_window b len with
  | None => (0, b)
  | Some (wsize, b) =>
      let ret := wr wsize in
      let b :=
        if ret <? 0 then b
        else mkSimple (endpos b + ret) (readpos b) (max_store_size b) (bytes_in b + ret) (bytes_out b)
               (flags b) (unlocked b) (fd b) (do_write (file b) (endpos b) ret data) (mmap_addr b) in
      (ret, if iseof && (ret =? len) then add_flag CI_FILE_HAS_EOF b else b)
  end.

Definition ci_simple_file_read (rd : bool) (b : ci_simple_file) (len : Z) :
    outcome (Z * list Z * ci_simple_file) :=
  if len <=? 0 then Ret (0, [], b)
  else if readpos b =? endpos b then
    if flagged b CI_FILE_HAS_EOF then Ret (CI_EOF, [], b) else Ret (0, [], b)
  else
  let b := if negb (max_store_size b =? 0) && (readpos b =? max_store_size b) then set_read 0 b else b in
  let remains :=
    if flagged b CI_FILE_USELOCK && (0 <=? unlocked b) then Some (unlocked b - readpos b)
    else if readpos b <? endpos b then Some (endpos b - readpos b)
    else if negb (max_store_size b =? 0) then Some (max_store_size b - readpos b)
    else None in
  match remains with
  | None => Ret (CI_EOF, [], b)
  | Some r =>
      let remains := to_int r in
      let* _ := assert_ (0 <=? remains) in
      let n := if len <? remains then len else remains in
      let '(r, d) := do_read rd (file b) (readpos b) n in
      if 0 <? r then
        Ret (r, d, mkSimple (endpos b) (readpos b + r) (max_store_size b) (bytes_in b) (bytes_out b + r)
                     (flags b) (unlocked b) (fd b) (file b) (mmap_addr b))
      else Ret (r, [], b)
  end.

Definition ci_simple_file_truncate (ftr : bool) (b : ci_simple_file) (new_size : Z) :
    Z * ci_simple_file :=
  if endpos b <? new_size then (0, b)
  else
  let size :=
    if new_size =? 0 then
      let n := zlen (file b) in if endpos b <? n then None else Some (n, file b)
    else if ftr then Some (new_size, take (Z.to_nat new_size) (file b)) else None in
  match size with
  | None => (0, b)
  | Some (n, f) =>
      (1, mkSimple n (if n <? readpos b then n else readpos b) (max_store_size b) (bytes_in b)
            (bytes_out b) (flags b) (if n <? unlocked b then n else unlocked b) (fd b) f (mmap_addr b))
  end.

(** [ftruncate(fd, n)]. *)
Definition ftruncate (f : list Z) (n : Z) : list Z :=
  take (Z.to_nat n) f ++ replicate (Z.to_nat n - length f) 0.

(** The value of a failed [mmap] is not the null pointer the source tests for: the store
    through it is undefined. *)
Definition ci_simple_file_to_const_string (ftr mm : bool) (b : ci_simple_file) :
    outcome (option (list Z) * ci_simple_file) :=
  if negb (flagged b CI_FILE_HAS_EOF) then Ret (None, b)
  else
  let map_size := endpos b + 1 in
  if negb ftr then Ret (None, b)
  else
  let f := ftruncate (file b) map_size in
  match mmap_addr b with
  | Some m => Ret (Some m, mkSimple (endpos b) (readpos b) (max_store_size b) (bytes_in b) (bytes_out b)
                             (flags b) (unlocked b) (fd b) f (mmap_addr b))
  | None =>
      if negb mm then UB
      else
      let* m := store f (map_size - 1) NUL in
      Ret (Some m, mkSimple (endpos b) (readpos b) (max_store_size b) (bytes_in b) (bytes_out b)
                     (flags b) (unlocked b) (fd b) f (Some m))
  end.

Definition CI_MEMBUF_SF_FLAGS : Z :=
  Z.lor (Z.lor CI_MEMBUF_CONST CI_MEMBUF_RO) CI_MEMBUF_NULL_TERMINATED.

(** [mmap_size] is the length of the mapping. *)
Definition ci_simple_file_to_membuf (a ftr mm : bool) (b : ci_simple_file) (fl : Z) :
    outcome (option ci_membuf * ci_simple_file) :=
  let* _ := assert_ (Z.land CI_MEMBUF_SF_FLAGS fl =? fl) in
  let* _ := assert_ (flag_set fl CI_MEMBUF_CONST) in
  let* (addr, b) := ci_simple_file_to_const_string ftr mm b in
  match addr with
  | None => Ret (None, b)
  | Some m =>
      let* r := ci_membuf_from_content a (Some m) (zlen m) (endpos b) CI_MEMBUF_FROM_CONTENT_FLAGS in
      Ret (r, b)
  end.

(** The lock of a reader: [ci_simple_file_lock_all] and the like. *)
Definition set_lock (f u : Z) (b : ci_simple_file) : ci_simple_file :=
  mkSimple (endpos b) (readpos b) (max_store_size b) (bytes_in b) (bytes_out b) f u (fd b) (file b) (mmap_addr b).
Definition ci_simple_file_lock_all (b : ci_simple_file) : ci_simple_file :=
  set_lock (Z.lor (flags b) CI_FILE_USELOCK) 0 b.
Definition ci_simple_file_unlock (b : ci_simple_file) (len : Z) : ci_simple_file :=
  set_lock (flags b) (if len <? readpos b then readpos b else len) b.
Definition ci_simple_file_unlock_all (b : ci_simple_file) : ci_simple_file :=
  set_lock (Z.ldiff (flags b) CI_FILE_USELOCK) 0 b.

(** ** Invariant *)

(** The data is a segment of the file, or two when the writer has wrapped. *)
Record simple_ok (b : ci_simple_file) : Prop := {
  so_max : 0 ≤ max_store_size b ≤ INT_MAX;
  so_pos : 0 ≤ readpos b ∧ 0 ≤ endpos b;
  so_file : endpos b ≤ zlen (file b) ≤ INT_MAX;
  so_cap : max_store_size b ≠ 0 → endpos b ≤ max_store_size b;
  so_wrap : endpos b < readpos b → 0 < endpos b ∧ readpos b ≤ max_store_size b ≤ zlen (file b);
  so_lock : flagged b CI_FILE_USELOCK = false
}.

Definition contents (b : ci_simple_file) : list Z :=
  if endpos b <? readpos b then
    slice (file b) (readpos b) (max_store_size b - readpos b) ++ slice (file b) 0 (endpos b)
  else slice (file b) (readpos b) (endpos b - readpos b).

(** A file system that takes every byte up to a file size of [INT_MAX]. *)
Definition quota (b : ci_simple_file) (n : Z) : Z :=
  if max_store_size b =? 0 then Z.min n (INT_MAX - endpos b) else n.

(** The state in which the wrap leaves no room: the writer is at the end, the reader has taken
    exactly one byte. *)
Definition stuck (b : ci_simple_file) : Prop :=
  max_store_size b ≠ 0 ∧ max_store_size b ≤ endpos b ∧ readpos b = 1.

Lemma do_write_in f off w d :
  0 ≤ off ≤ zlen f → 0 ≤ w ≤ zlen d →
  let x := take (Z.to_nat w) d in
  do_write f off w d = take (Z.to_nat off) f ++ x ++ drop (Z.to_nat off + length x) f.
Proof.
  intros Ho Hw x. unfold do_write. fold x.
  replace (Z.to_nat off - length f)%nat with 0%nat by (unfold zlen in *; lia).
  by rewrite app_nil_r.
Qed.

Lemma do_write_slices f off w d :
  0 ≤ off ≤ zlen f → 0 ≤ w ≤ zlen d →
  let f' := do_write f off w d in
  zlen f' = Z.max (zlen f) (off + w) ∧
  (∀ a n, 0 ≤ a → 0 ≤ n → a + n ≤ off → slice f' a n = slice f a n) ∧
  slice f' off w = take (Z.to_nat w) d ∧
  (∀ a n, off + w ≤ a → slice f' a n = slice f a n).
Proof.
  intros Ho Hw f'. unfold f'. rewrite do_write_in by done. set (x := take (Z.to_nat w) d).
  assert (Hx : zlen x = w) by (unfold x; zlia).
  assert (Hx' : length x = Z.to_nat w) by (unfold zlen in *; lia).
  split_and!.
  - rewrite !zlen_app, zlen_take, zlen_drop. unfold zlen in *. lia.
  - intros a n Ha Hn Hle. rewrite slice_app_l by zlia.
    rewrite <- (take_drop (Z.to_nat off) f) at 2. rewrite slice_app_l by zlia. done.
  - rewrite slice_app_r by zlia. replace (off - zlen (take (Z.to_nat off) f)) with 0 by zlia.
    rewrite slice_app_l by lia. by apply slice_all.
  - intros a n Ha. rewrite app_assoc, slice_app_r by zlia. unfold slice. rewrite drop_drop.
    do 2 f_equal. unfold zlen in *. rewrite length_app, length_take. lia.
Qed.

(** Writing [w] bytes at the end: the core of [ci_simple_file_write]. *)
Definition put (w : Z) (data : list Z) (b : ci_simple_file) : ci_simple_file :=
  mkSimple (endpos b + w) (readpos b) (max_store_size b) (bytes_in b + w) (bytes_out b)
    (flags b) (unlocked b) (fd b) (do_write (file b) (endpos b) w data) (mmap_addr b).

(** The writer is behind the reader. *)
Lemma put_behind b w data :
  0 ≤ endpos b → endpos b + w < readpos b → 0 < endpos b + w → 0 ≤ w ≤ zlen data →
  0 ≤ max_store_size b ≤ INT_MAX → readpos b ≤ max_store_size b ≤ zlen (file b) →
  zlen (file b) ≤ INT_MAX → flagged b CI_FILE_USELOCK = false →
  simple_ok (put w data b) ∧
  contents (put w data b) =
    slice (file b) (readpos b) (max_store_size b - readpos b) ++
    slice (file b) 0 (endpos b) ++ take (Z.to_nat w) data.
Proof.
  intros He Hr H0 Hw Hm Hf Hi Hl.
  destruct (do_write_slices (file b) (endpos b) w data ltac:(lia) Hw) as (Hz & Hbef & Hat & Haft).
  split; [split; cbn; try done; try rewrite Hz; lia|].
  unfold contents. cbn. solve_cmp. rewrite Haft by lia. f_equal.
  rewrite slice_split by lia. rewrite Hbef by lia. f_equal. exact Hat.
Qed.

(** The writer is ahead of the reader. *)
Lemma put_ahead b w data :
  simple_ok b → readpos b ≤ endpos b → 0 ≤ w ≤ zlen data → endpos b + w ≤ INT_MAX →
  (max_store_size b ≠ 0 → endpos b + w ≤ max_store_size b) →
  simple_ok (put w data b) ∧ contents (put w data b) = contents b ++ take (Z.to_nat w) data.
Proof.
  intros [Hm Hp Hf Hc Hwr Hl] Hr Hw Hi Hcap.
  destruct (do_write_slices (file b) (endpos b) w data ltac:(lia) Hw) as (Hz & Hbef & Hat & _).
  split; [split; cbn; try done; try rewrite Hz; lia|].
  unfold contents. cbn. solve_cmp.
  replace (endpos b + w - readpos b) with ((endpos b - readpos b) + w) by lia.
  rewrite slice_split by lia. rewrite Hbef by lia. f_equal.
  by replace (readpos b + (endpos b - readpos b)) with (endpos b) by lia.
Qed.

Lemma simple_write_spec b data :
  simple_ok b → flagged b CI_FILE_HAS_EOF = false → ¬ stuck b →
  ∃ n b', ci_simple_file_write (quota b) b data false = (n, b') ∧ simple_ok b' ∧
    0 ≤ n ≤ zlen data ∧ contents b' = contents b ++ take (Z.to_nat n) data.
Proof.
  intros Hok Heof Hst. unfold ci_simple_file_write. rewrite Heof.
  destruct (Z.leb_spec (zlen data) 0) as [Hd|Hd].
  { exists 0, b. rewrite app_nil_r. split; [done|]. split; [done|]. split; [zlia|done]. }
  cbn [andb]. pose proof Hok as [Hm Hp Hf Hc Hw Hl]. unfold write_window, stuck, quota in *. rewrite Hl.
  destruct (Z.ltb_spec (endpos b) (readpos b)) as [Hlt|Hge].
  - specialize (Hw Hlt). set (w := Z.min (readpos b - endpos b - 1) (zlen data)). assert (Hw0 : 0 ≤ w ≤ zlen data) by (unfold w; lia).
    solve_cmp. destruct (put_behind b w data) as [Hok' Hc']; try lia; [done|].
    eexists w, (put w data b). split; [done|]. split; [done|]. split; [done|].
    rewrite Hc'. unfold contents. solve_cmp. by rewrite app_assoc.
  - destruct (Z.eqb_spec (max_store_size b) 0) as [Hm0|Hm0]; cbn [negb andb].
    + set (w := Z.min (zlen data) (INT_MAX - endpos b)).
      assert (0 ≤ w) by (unfold w; lia). solve_cmp.
      destruct (put_ahead b w data Hok Hge) as [Hok' Hc']; [unfold w; lia..|].
      eexists w, (put w data b). split; [done|]. split; [done|]. split; [unfold w; lia|done].
    + specialize (Hc Hm0). destruct (Z.leb_spec (max_store_size b) (endpos b)) as [Hfull|Hroom].
      * destruct (Z.eqb_spec (readpos b) 0) as [Hr0|Hr0]; cbn [negb].
        { exists 0, b. rewrite app_nil_r. split; [done|]. split; [done|]. split; [zlia|done]. }
        set (b0 := add_flag CI_FILE_RING_MODE (set_end 0 b)).
        set (w := Z.min (readpos b0 - endpos b0 - 1) (zlen data)).
        assert (Hw0 : 0 < w ≤ zlen data ∧ w < readpos b) by (unfold w, b0; cbn; lia).
        solve_cmp. destruct (put_behind b0 w data) as [Hok' Hc']; try (unfold b0; cbn; lia).
        { unfold flagged, flag_set in *. cbn. rewrite Z.land_lor_distr_l. by rewrite Z.lor_0_r. }
        rewrite (proj2 (Z.ltb_ge w 0)) by lia. eexists w, (put w data b0). split; [done|]. split; [done|]. split; [lia|].
        rewrite Hc'. unfold contents. cbn. solve_cmp. f_equal. f_equal. lia.
      * set (w := Z.min (max_store_size b - endpos b) (zlen data)).
        assert (0 ≤ w) by (unfold w; lia). solve_cmp.
        destruct (put_ahead b w data Hok Hge) as [Hok' Hc']; [unfold w; lia..|].
        eexists w, (put w data b). split; [done|]. split; [done|]. split; [unfold w; lia|done].
Qed.

Definition rewind (b : ci_simple_file) : ci_simple_file :=
  if negb (max_store_size b =? 0) && (readpos b =? max_store_size b) then set_read 0 b else b.

Lemma rewind_ok b :
  simple_ok b → readpos b ≠ endpos b →
  simple_ok (rewind b) ∧ contents (rewind b) = contents b ∧ readpos (rewind b) ≠ endpos (rewind b) ∧
  (endpos (rewind b) < readpos (rewind b) → readpos (rewind b) < max_store_size (rewind b)).
Proof.
  intros Hok Hne. pose proof Hok as [Hm Hp Hf Hc Hw Hl]. unfold rewind.
  destruct (Z.eqb_spec (max_store_size b) 0); cbn [negb andb]; [split; [done|]; split; [done|]; lia|].
  destruct (Z.eqb_spec (readpos b) (max_store_size b)) as [E|]; [|split; [done|]; split; [done|]; lia].
  split; [split; cbn; try done; lia|]. split; [|cbn; lia].
  unfold contents. cbn. solve_cmp. rewrite (slice_nil _ (readpos b)) by lia. cbn. f_equal. lia.
Qed.

Lemma simple_read_spec b len :
  simple_ok b → 0 < len →
  ∃ r d b', ci_simple_file_read true b len = Ret (r, d, b') ∧ simple_ok b' ∧
    contents b = d ++ contents b' ∧ zlen d ≤ len ∧ (contents b ≠ [] → d ≠ [] ∧ r = zlen d).
Proof.
  intros Hok Hlen. unfold ci_simple_file_read. solve_cmp.
  destruct (Z.eqb_spec (readpos b) (endpos b)) as [E|Hne].
  { assert (contents b = []) as Hc by (unfold contents; solve_cmp; apply slice_nil; lia).
    destruct (flagged b CI_FILE_HAS_EOF); eexists _, [], b; rewrite Hc; (split; [done|]);
      (split; [done|]); (split; [done|]); (split; [zlia|done]). }
  fold (rewind b). destruct (rewind_ok b Hok Hne) as (Hok1 & <- & Hne1 & Hlt).
  set (b1 := rewind b) in *. clearbody b1. clear b Hok Hne.
  pose proof Hok1 as [Hm Hp Hf Hc Hw Hl]. rewrite Hl. cbn [andb].
  set (rem := if readpos b1 <? endpos b1 then endpos b1 - readpos b1 else max_store_size b1 - readpos b1).
  assert (Hrem : 0 < rem ≤ INT_MAX ∧ readpos b1 + rem ≤ zlen (file b1)).
  { unfold rem. case_cmp; lia. }
  replace (if readpos b1 <? endpos b1 then _ else _) with (Some rem).
  2:{ unfold rem. case_cmp; [done|]. by solve_cmp. }
  rewrite to_int_id by (unfold INT_MIN, INT_MAX in *; lia). solve_cmp. cbn [assert_ obind].
  set (n := if len <? rem then len else rem).
  assert (Hn : 0 < n ≤ len ∧ n ≤ rem) by (unfold n; case_cmp; lia).
  unfold do_read. assert (Hz : zlen (slice (file b1) (readpos b1) n) = n) by (apply zlen_slice; lia).
  rewrite Hz. solve_cmp. eexists _, _, _. split; [done|].
  split; [split; cbn; try done; unfold rem in *; revert Hrem Hn; case_cmp; lia|].
  split; [|split; [lia|]].
  2:{ intros _. split; [|done]. intros E. rewrite E in Hz. change (zlen []) with 0 in Hz. lia. }
  unfold contents. cbn. unfold rem in *. destruct (Z.ltb_spec (readpos b1) (endpos b1)); solve_cmp.
  - replace (endpos b1 - readpos b1) with (n + (endpos b1 - (readpos b1 + n))) by lia.
    apply slice_split; lia.
  - replace (max_store_size b1 - readpos b1) with (n + (max_store_size b1 - (readpos b1 + n))) by lia.
    rewrite slice_split by lia. by_app.
Qed.

(** Without a [max_store_size] the file is a queue. *)
#[local] Program Instance simple_fifo : Fifo ci_simple_file := {|
  write b d := Ret (ci_simple_file_write (quota b) b d false);
  read := ci_simple_file_read true;
  good b := simple_ok b ∧ max_store_size b = 0;
  pending := contents
|}.
Next Obligation.
  intros b d [Hok Hm]. cbn. destruct (flagged b CI_FILE_HAS_EOF) eqn:E.
  - exists 0, b. unfold ci_simple_file_write. rewrite E, app_nil_r.
    split; [done|]. split; [done|]. split; [zlia|done].
  - destruct (simple_write_spec b d Hok E) as (n & b' & Hw & Hok' & Hn & Hc).
    { unfold stuck. lia. }
    exists n, b'. rewrite Hw. split; [done|]. split; [|done]. split; [done|].
    revert Hw. unfold ci_simple_file_write, write_window. rewrite E, Hm. cbn.
    repeat case_match; intros; by simplify_eq/=.
Qed.
Next Obligation.
  intros b len [Hok Hm] Hl. cbn.
  destruct (simple_read_spec b len Hok Hl) as (r & d & b' & Hr & Hok' & Hc & Hd & Hne).
  exists r, d, b'. split; [done|]. split; [|done]. split; [done|].
  revert Hr. unfold ci_simple_file_read. rewrite Hm. cbn [negb andb]. unfold obind, assert_, do_read.
  repeat case_match; intros; by simplify_eq/=.
Qed.

(** ** Properties *)

(** A file without size limit delivers through any sequence of writes and
    reads the bytes its writes counted, in order, each once (on a file system that stores
    up to 2 GB per file). *)
Theorem simple_file_is_fifo mk b ops :
  0 ≤ mk → ci_simple_file_new true mk 0 = Some b → Forall op_ok ops →
  ∃ i o b', @run _ simple_fifo b ops = Ret (i, o, b') ∧ i = o ++ contents b'.
Proof.
  intros Hmk Hb Hops. revert Hb. unfold ci_simple_file_new. solve_cmp. intros [= <-].
  set (b := mkSimple _ _ _ _ _ _ _ _ _ _).
  assert (Hok : simple_ok b) by (by split).
  destruct (@run_fifo _ simple_fifo ops b (conj Hok eq_refl) Hops) as (i & o & b' & Hr & _ & He).
  exists i, o, b'. split; [exact Hr|]. exact He.
Qed.

Lemma simple_file_is_fifo_witness :
  ∃ i o b', @run _ simple_fifo (mkSimple 0 0 0 0 0 0 0 5 [] None)
    [OpWrite [1; 2]; OpRead 1; OpWrite [3; 4]; OpRead 9] = Ret (i, o, b') ∧ i = o ++ contents b'.
Proof. apply (simple_file_is_fifo 5); [lia|reflexivity|]. repeat constructor. Defined.

(** In ring mode too a write appends the bytes it counts to the unread data, and
    a read takes bytes from its front, except for a write when the writer stands at the end of
    the store and the reader has taken exactly one byte. *)
Theorem simple_file_ring_step b data len :
  simple_ok b → flagged b CI_FILE_HAS_EOF = false → ¬ stuck b → 0 < len →
  (∃ n b', ci_simple_file_write (quota b) b data false = (n, b') ∧ simple_ok b' ∧
     0 ≤ n ≤ zlen data ∧ contents b' = contents b ++ take (Z.to_nat n) data) ∧
  (∃ r d b', ci_simple_file_read true b len = Ret (r, d, b') ∧ simple_ok b' ∧
     contents b = d ++ contents b' ∧ zlen d ≤ len ∧ (contents b ≠ [] → d ≠ [] ∧ r = zlen d)).
Proof. intros. split; [by apply simple_write_spec|by apply simple_read_spec]. Qed.

Definition sample_ring : ci_simple_file := mkSimple 4 2 4 4 2 0 0 5 [1; 2; 3; 4] None.

Lemma sample_ring_ok : simple_ok sample_ring.
Proof. split; cbn; vm_compute; try done; (split; congruence) || (intros; split; congruence). Qed.

Lemma simple_file_ring_step_witness :
  (∃ n b', ci_simple_file_write (quota sample_ring) sample_ring [5; 6] false = (n, b') ∧ simple_ok b' ∧
     0 ≤ n ≤ 2 ∧ contents b' = [3; 4] ++ take (Z.to_nat n) [5; 6]) ∧
  (∃ r d b', ci_simple_file_read true sample_ring 9 = Ret (r, d, b') ∧ simple_ok b' ∧
     [3; 4] = d ++ contents b' ∧ zlen d ≤ 9 ∧ ([3; 4] ≠ ([] : list Z) → d ≠ [] ∧ r = zlen d)).
Proof.
  apply (simple_file_ring_step sample_ring [5; 6] 9 sample_ring_ok eq_refl); [|lia].
  unfold stuck. cbn. lia.
Defined.

(** The exception matters.  A store of four bytes that was filled, of which one byte was
    read and on which a write was then tried (and refused), gives the reader its last three bytes
    and then the same four bytes a second time. *)
Theorem simple_file_ring_replays_data :
  ∃ b0 b1 b2 b3 b4 b5,
    ci_simple_file_new true 5 4 = Some b0 ∧
    ci_simple_file_write (quota b0) b0 [1; 2; 3; 4] false = (4, b1) ∧
    ci_simple_file_read true b1 1 = Ret (1, [1], b2) ∧
    ci_simple_file_write (quota b2) b2 [5] false = (0, b3) ∧
    ci_simple_file_read true b3 3 = Ret (3, [2; 3; 4], b4) ∧
    ci_simple_file_read true b4 9 = Ret (4, [1; 2; 3; 4], b5).
Proof. do 6 eexists. repeat (split; [vm_compute; reflexivity|]). vm_compute. reflexivity. Qed.

(** The number of unread bytes is put in an [int]: with 2 GB of unread data
    the next read fails its assertion and the process aborts. *)
Theorem simple_file_read_large_aborts rd b len :
  0 < len → flagged b CI_FILE_USELOCK = false → max_store_size b = 0 →
  2 ^ 31 ≤ endpos b - readpos b < 2 ^ 32 →
  ci_simple_file_read rd b len = Abort.
Proof.
  intros Hl Hlock Hm Hbig. unfold ci_simple_file_read. rewrite Hm, Z.eqb_refl. cbn [negb andb].
  rewrite Hlock. cbn [andb]. solve_cmp.
  assert (to_int (endpos b - readpos b) < 0) as Hneg.
  { unfold to_int. replace ((endpos b - readpos b + 2 ^ 31) mod 2 ^ 32)
      with (endpos b - readpos b + 2 ^ 31 - 2 ^ 32); [lia|].
    rewrite <- (Z.mod_add _ (-1)) by lia. rewrite Z.mod_small; lia. }
  by rewrite (proj2 (Z.leb_gt _ _) Hneg).
Qed.

Lemma simple_file_read_large_aborts_witness :
  ci_simple_file_read true (mkSimple 3000000000 0 0 0 0 0 0 5 [] None) 100 = Abort.
Proof. apply simple_file_read_large_aborts; try done; cbn; lia. Defined.

(** The memory buffer made from a closed, non-empty file holds the whole body, but
    for a last byte that is a NUL, which is taken for the terminator and lost. *)
Theorem simple_file_to_membuf_contents b d c fl :
  flagged b CI_FILE_HAS_EOF = true → mmap_addr b = None → file b = d ++ [c] → endpos b = zlen (d ++ [c]) →
  Z.land CI_MEMBUF_SF_FLAGS fl = fl → flag_set fl CI_MEMBUF_CONST = true →
  ∃ mb b', ci_simple_file_to_membuf true true true b fl = Ret (Some mb, b') ∧
    Membuf.contents mb = if c =? NUL then d else d ++ [c].
Proof.
  intros He Hm Hf Hend Hfl1 Hfl2. unfold ci_simple_file_to_membuf. rewrite Hfl1, Z.eqb_refl, Hfl2.
  cbn [assert_ obind]. unfold ci_simple_file_to_const_string. rewrite He, Hm. cbn [negb].
  assert (Hft : ftruncate (file b) (endpos b + 1) = (d ++ [c]) ++ [0]).
  { unfold ftruncate. rewrite Hf, Hend, take_ge by (unfold zlen; lia).
    by replace (Z.to_nat (zlen (d ++ [c]) + 1) - length (d ++ [c]))%nat with 1%nat by (unfold zlen; lia). }
  rewrite Hft, store_app by zlia. cbn [obind endpos].
  unfold ci_membuf_from_content. rewrite Hend. solve_cmp.
  change (flag_set CI_MEMBUF_FROM_CONTENT_FLAGS _) with true. cbn iota.
  rewrite (load_app_l (d ++ [c])), (load_app d []) by zlia. cbn [obind].
  assert (Hsl : ∀ r : list Z, slice (d ++ r) 0 (zlen d) = d).
  { intros r. rewrite slice_app_l by zlia. by apply slice_all. }
  destruct (c =? NUL).
  - eexists _, _. split; [done|]. unfold Membuf.contents. cbn.
    replace (zlen (d ++ [c]) - 1 - 0) with (zlen d) by zlia. rewrite <- app_assoc. apply Hsl.
  - solve_cmp. rewrite load_app by done. cbn. eexists _, _. split; [done|].
    unfold Membuf.contents. cbn. rewrite Z.sub_0_r, slice_app_l by zlia. by apply slice_all.
Qed.

Lemma simple_file_to_membuf_contents_witness :
  ∃ mb b', ci_simple_file_to_membuf true true true
      (mkSimple 3 0 0 3 0 CI_FILE_HAS_EOF 0 5 [65; 66; 0] None) CI_MEMBUF_SF_FLAGS = Ret (Some mb, b') ∧
    Membuf.contents mb = [65; 66].
Proof.
  exact (simple_file_to_membuf_contents (mkSimple 3 0 0 3 0 CI_FILE_HAS_EOF 0 5 [65; 66; 0] None)
    [65; 66] 0 CI_MEMBUF_SF_FLAGS eq_refl eq_refl eq_refl eq_refl eq_refl eq_refl).
Defined.
