(* ===== verification/Encapsulated.v ===== *)
(** * The Encapsulated header and its entities (header.c, request_common.c, request.c)

    An ICAP message announces the parts it encapsulates (HTTP headers, body) with their offsets.
    [process_encapsulated] parses the header into the array [entities] of the
    request, [ci_request_t_pack] writes it; [ci_request_alloc_entity] and
    [ci_request_release_entity] recycle entities through [trash_entities], and
    [check_request] accepts the combinations a method allows. *)

From stdpp Require Import base list list_numbers strings numbers option.
From Stdlib Require Import ZArith Lia.
From S2P Require Import Prelude CString Chunks Headers.

(** enum ci_encapsulated_entities. *)
Definition ICAP_REQ_HDR : Z := 0.
Definition ICAP_RES_HDR : Z := 1.
Definition ICAP_REQ_BODY : Z := 2.
Definition ICAP_RES_BODY : Z := 3.
Definition ICAP_NULL_BODY : Z := 4.
Definition ICAP_OPT_BODY : Z := 5.

Definition ICAP_OPTIONS : Z := 1.
Definition ICAP_REQMOD : Z := 2.
Definition ICAP_RESPMOD : Z := 4.

Definition ci_encaps_entities : list (list Z) :=
  [bytes "req-hdr"; bytes "res-hdr"; bytes "req-body"; bytes "res-body"; bytes "null-body";
   bytes "opt-body"].

Definition ci_encaps_entity_string (e : Z) : list Z :=
  if (e <=? ICAP_OPT_BODY) && (ICAP_REQ_HDR <=? e)
  then default (bytes "UNKNOWN") (ci_encaps_entities !! Z.to_nat e) else bytes "UNKNOWN".

(** [entity] is the header list, [None] for the null pointer of a body. *)
Record ci_encaps_entity_t := mkEntity {
  start : Z;
  type : Z;
  entity : option ci_headers_list_t
}.

Definition is_hdr (t : Z) : bool := (t =? ICAP_REQ_HDR) || (t =? ICAP_RES_HDR).

(** The arrays of the request, of 5 and 7 pointers, and its flag. *)
Record encaps := mkEncaps {
  entities : list (option ci_encaps_entity_t);
  trash_entities : list (option ci_encaps_entity_t);
  hasbody : bool
}.

Section encaps.
Context (junk : Z → Z).

(** [a] is the result of malloc and [ah] that of [ci_headers_create]'s allocations. *)
Definition mk_encaps_entity (a ah : bool) (type val : Z) : option ci_encaps_entity_t :=
  if negb a then None
  else Some (mkEntity val type (if is_hdr type then ci_headers_create junk ah ah ah else None)).

(** The type and value at [s], and how far the pointer moves; the type is -1 when no name fits. *)
Definition get_encaps_type (s : list Z) : outcome (Z * Z * Z) :=
  let try_name (name : list Z) (t : Z) (k : outcome (Z * Z * Z)) : outcome (Z * Z * Z) :=
    let* eq := scan (str_prefix name s) in
    if eq : bool then
      let n := zlen name + 1 in
      let* (v, l) := scan (strtol 10 (drop (Z.to_nat n) s)) in
      Ret (t, to_int v, n + l)
    else k in
  try_name (bytes "req-hdr") ICAP_REQ_HDR
  (try_name (bytes "res-hdr") ICAP_RES_HDR
  (try_name (bytes "req-body") ICAP_REQ_BODY
  (try_name (bytes "res-body") ICAP_RES_BODY
  (try_name (bytes "null-body") ICAP_NULL_BODY
  (Ret (-1, 0, 0)))))).

Definition ci_request_alloc_entity (a ah : bool) (r : encaps) (t val : Z) :
    outcome (option ci_encaps_entity_t * encaps) :=
  if (ICAP_OPT_BODY <? t) || (t <? 0) then Ret (None, r)
  else
  let* old := arr_get (trash_entities r) t in
  match old with
  | Some e =>
      let* trash := arr_set (trash_entities r) t None in
      let hdr := if is_hdr t then option_map ci_headers_reset (entity e) else entity e in
      Ret (Some (mkEntity val t hdr), mkEncaps (entities r) trash (hasbody r))
  | None => Ret (mk_encaps_entity a ah t val, r)
  end.

Definition ci_request_release_entity (r : encaps) (pos : Z) : outcome (Z * encaps) :=
  let* e := arr_get (entities r) pos in
  match e with
  | None => Ret (0, r)
  | Some x =>
      let* es := arr_set (entities r) pos None in
      if (ICAP_OPT_BODY <? type x) || (type x <? 0) then
        Ret (0, mkEncaps es (trash_entities r) (hasbody r))
      else
      let* trash := arr_set (trash_entities r) (type x) (Some x) in
      Ret (1, mkEncaps es trash (hasbody r))
  end.

Definition is_sep (b : Z) : bool := isspace b || (b =? 44).

(** The [while] loop of [process_encapsulated]: [m] is the memory from the header line on,
    [pos] the offset of the pointer.  Gives the code and the request. *)
Fixpoint encaps_loop (fuel : nat) (a ah : bool) (m : list Z) (pos num : Z) (body : bool) (r : encaps) :
    outcome (ec * encaps) :=
  match fuel with
  | O => NoFuel
  | S fuel' =>
      let* c := load m pos in
      if c =? NUL then Ret (EC_100, mkEncaps (entities r) (trash_entities r) body)
      else
      let* (t, val, l) := get_encaps_type (drop (Z.to_nat pos) m) in
      if t <? 0 then Ret (EC_400, r)
      else if 5 <? num then Ret (EC_100, mkEncaps (entities r) (trash_entities r) body)
      else
      let body := if t =? ICAP_NULL_BODY then false else body in
      let* (e, r) := ci_request_alloc_entity a ah r t val in
      let* es := arr_set (entities r) num e in
      let r := mkEncaps es (trash_entities r) (hasbody r) in
      let pos := pos + l in
      let* _ := assert_ (negb (13 =? pos)) in
      let* (k, _) := scan (skip_while is_sep (drop (Z.to_nat pos) m)) in
      encaps_loop fuel' a ah m (pos + Z.of_nat k) (num + 1) body r
  end.

Definition process_encapsulated (a ah : bool) (r : encaps) (m : list Z) : outcome (ec * encaps) :=
  let* (k, _) := scan (skip_while isspace (drop 13 m)) in
  encaps_loop (S (length m)) a ah m (13 + Z.of_nat k) 0 true r.

(** ** check_request *)

(** The type of an entity the code dereferences without a test. *)
Definition type_of (e : option ci_encaps_entity_t) : outcome Z :=
  match e with Some x => Ret (type x) | None => UB end.

(** [if (entity->type != ok) return EC_400;] for each entity in turn. *)
Definition expect (e : option ci_encaps_entity_t) (ok : Z → bool) (k : outcome ec) : outcome ec :=
  let* t := type_of e in if ok t then k else Ret EC_400.

Definition check_request (method : Z) (r : encaps) : outcome ec :=
  let es := entities r in
  let* e0 := arr_get es 0 in let* e1 := arr_get es 1 in
  let* e2 := arr_get es 2 in let* e3 := arr_get es 3 in
  let some (e : option ci_encaps_entity_t) := match e with Some _ => true | None => false end in
  if negb (some e0) && negb (method =? ICAP_OPTIONS) then Ret EC_400
  else if method =? ICAP_REQMOD then
    if some e2 then Ret EC_400
    else if some e1 then
      expect e0 (λ t, t =? ICAP_REQ_HDR)
        (expect e1 (λ t, (t =? ICAP_REQ_BODY) || (t =? ICAP_NULL_BODY)) (Ret EC_100))
    else expect e0 (λ t, t =? ICAP_REQ_BODY) (Ret EC_100)
  else if method =? ICAP_RESPMOD then
    if some e3 then Ret EC_400
    else if some e2 then
      let* _ := assert_ (some e0) in
      let* _ := assert_ (some e1) in
      expect e0 (λ t, t =? ICAP_REQ_HDR)
        (expect e1 (λ t, t =? ICAP_RES_HDR)
           (expect e2 (λ t, (t =? ICAP_RES_BODY) || (t =? ICAP_NULL_BODY)) (Ret EC_100)))
    else if some e1 then
      expect e0 (λ t, (t =? ICAP_RES_HDR) || (t =? ICAP_REQ_HDR))
        (expect e1 (λ t, (t =? ICAP_RES_BODY) || (t =? ICAP_NULL_BODY)) (Ret EC_100))
    else expect e0 (λ t, t =? ICAP_RES_BODY) (Ret EC_100)
  else Ret EC_100.

(** ** ci_request_t_pack *)

Definition sizeofencaps (e : ci_encaps_entity_t) : outcome Z :=
  if is_hdr (type e) then
    match entity e with Some h => Ret (sizeofheader h) | None => UB end
  else Ret 0.

Definition set_start (v : Z) (e : ci_encaps_entity_t) : ci_encaps_entity_t :=
  mkEntity v (type e) (entity e).

(** The offsets of the first three entities. *)
Definition set_starts (es : list (option ci_encaps_entity_t)) : outcome (list (option ci_encaps_entity_t)) :=
  match es with
  | Some e0 :: Some e1 :: Some e2 :: es' =>
      let* n0 := sizeofencaps e0 in let* n1 := sizeofencaps e1 in
      Ret (Some (set_start 0 e0) :: Some (set_start n0 e1) :: Some (set_start (n1 + n0) e2) :: es')
  | Some e0 :: Some e1 :: es' =>
      let* n0 := sizeofencaps e0 in
      Ret (Some (set_start 0 e0) :: Some (set_start n0 e1) :: es')
  | Some e0 :: es' => Ret (Some (set_start 0 e0) :: es')
  | _ => Ret es
  end.

(** The [snprintf] loop over the first three entities; 512 bytes always suffice for them. *)
Fixpoint encaps_items (n : nat) (first : bool) (es : list (option ci_encaps_entity_t)) : list Z :=
  match n, es with
  | S n', Some e :: es' =>
      (if first then [] else bytes ", ") ++ ci_encaps_entity_string (type e) ++ bytes "=" ++
      print_d (start e) ++ encaps_items n' false es'
  | _, _ => []
  end.

Definition encaps_line (es : list (option ci_encaps_entity_t)) : list Z :=
  match es with
  | Some _ :: _ => bytes "Encapsulated: " ++ encaps_items 3 true es
  | _ => bytes "Encapsulated: null-body=0"
  end.

(** [ci_headers_pack] on every header entity up to the first null pointer. *)
Fixpoint pack_entities (es : list (option ci_encaps_entity_t)) : outcome (list (option ci_encaps_entity_t)) :=
  match es with
  | [] => UB
  | None :: _ => Ret es
  | Some e :: es' =>
      let* e :=
        if is_hdr (type e) then
          match entity e with
          | Some h => let* h := ci_headers_pack h in Ret (mkEntity (start e) (type e) (Some h))
          | None => UB
          end
        else Ret e in
      let* es' := pack_entities es' in
      Ret (Some e :: es')
  end.

(** [hdr] is the request header of a request and the response header of a response; [ai] and
    [ab] are the allocations of [ci_headers_add].  Gives the entities and the header. *)
Definition ci_request_t_pack (ai ab : bool) (is_request : bool) (preview : Z)
    (es : list (option ci_encaps_entity_t)) (hdr : ci_headers_list_t) :
    outcome (list (option ci_encaps_entity_t) * ci_headers_list_t) :=
  let* hdr :=
    if is_request && (0 <=? preview) then
      let* (_, hdr) := ci_headers_add junk ai ab hdr (bytes "Preview: " ++ print_d preview) in Ret hdr
    else Ret hdr in
  let* es := set_starts es in
  let* (_, hdr) := ci_headers_add junk ai ab hdr (encaps_line es) in
  let* es := pack_entities es in
  let* hdr := ci_headers_pack hdr in
  Ret (es, hdr).

End encaps.

(** ** The text of the header *)

Definition item_text (x : Z * Z) : list Z :=
  ci_encaps_entity_string (fst x) ++ bytes "=" ++ print_d (snd x).

Fixpoint items_text (xs : list (Z * Z)) : list Z :=
  match xs with
  | [] => []
  | [x] => item_text x
  | x :: xs' => item_text x ++ bytes ", " ++ items_text xs'
  end.

(** An entity [get_encaps_type] knows, with an offset that fits. *)
Definition item_ok (x : Z * Z) : Prop :=
  ICAP_REQ_HDR ≤ fst x ≤ ICAP_NULL_BODY ∧ 0 ≤ snd x ≤ INT_MAX.

Definition shape (es : list (option ci_encaps_entity_t)) : list (option (Z * Z)) :=
  option_map (λ e, (type e, start e)) <$> es.

Lemma strtol_print_d v c s :
  0 ≤ v ≤ INT_MAX → is_digit 10 c = false → c ≠ 120 → c ≠ 88 →
  strtol 10 (print_d v ++ c :: s) = Some (v, zlen (print_d v)).
Proof.
  intros Hv Hc Hx HX. unfold print_d. rewrite (proj2 (Z.ltb_ge v 0)) by lia.
  apply strtol_print; try done. unfold INT_MAX, LONG_MAX in *. lia.
Qed.

Lemma type_cases t : ICAP_REQ_HDR ≤ t ≤ ICAP_NULL_BODY → t = 0 ∨ t = 1 ∨ t = 2 ∨ t = 3 ∨ t = 4.
Proof. unfold ICAP_REQ_HDR, ICAP_NULL_BODY. lia. Qed.

(** On a known name followed by one character. *)
Lemma get_encaps_type_name t w :
  ICAP_REQ_HDR ≤ t ≤ ICAP_NULL_BODY →
  get_encaps_type (ci_encaps_entity_string t ++ bytes "=" ++ w) =
  let* (v, l) := scan (strtol 10 w) in
  Ret (t, to_int v, zlen (ci_encaps_entity_string t) + 1 + l).
Proof. intros Ht. by destruct (type_cases t Ht) as [-> | [-> | [-> | [-> | ->]]]]. Qed.

Lemma get_encaps_type_item x c s :
  item_ok x → is_digit 10 c = false → c ≠ 120 → c ≠ 88 →
  get_encaps_type (item_text x ++ c :: s) = Ret (fst x, snd x, zlen (item_text x)).
Proof.
  destruct x as [t v]. intros [Ht Hv] Hc Hx HX. cbn [fst snd] in *. unfold item_text. cbn [fst snd].
  rewrite <- !app_assoc. rewrite get_encaps_type_name by done.
  rewrite strtol_print_d by done. cbn [scan obind].
  rewrite to_int_id by (unfold INT_MIN, INT_MAX in *; lia). repeat f_equal.
  change (bytes "=") with [61]. zlia.
Qed.

Lemma item_text_head x : item_ok x → ∃ c w, item_text x = c :: w ∧ c ≠ NUL ∧ is_sep c = false.
Proof.
  destruct x as [t v]. intros [Ht _]. unfold item_text. cbn [fst snd] in *.
  destruct (type_cases t Ht) as [-> | [-> | [-> | [-> | ->]]]]; by eexists _, _.
Qed.

Lemma alloc_entity_shape junk r t val :
  0 ≤ t ≤ ICAP_OPT_BODY → zlen (trash_entities r) = 7 →
  ∃ e r', ci_request_alloc_entity junk true true r t val = Ret (Some e, r') ∧
    type e = t ∧ start e = val ∧ entities r' = entities r ∧ zlen (trash_entities r') = 7 ∧
    hasbody r' = hasbody r.
Proof.
  unfold ICAP_OPT_BODY. intros Ht Hz. unfold ci_request_alloc_entity, arr_get. unfold ICAP_OPT_BODY.
  solve_cmp. destruct (lookup_lt_is_Some_2 (trash_entities r) (Z.to_nat t)) as [o Ho].
  { unfold zlen in Hz. lia. }
  rewrite Ho. cbn [obind]. destruct o as [e|]; [|by eexists _, r].
  unfold arr_set. solve_cmp. cbn [obind]. eexists _, _. split; [done|]. cbn. split_and!; try done.
  by rewrite zlen_insert.
Qed.

(** The entities after [ds] were stored. *)
Definition filled (ds : list (Z * Z)) (es : list (option ci_encaps_entity_t)) : Prop :=
  shape es = (Some <$> ds) ++ replicate (5 - length ds) None ∧ zlen es = 5.

Lemma filled_set ds es e :
  filled ds es → zlen ds < 5 →
  ∃ es', arr_set es (zlen ds) (Some e) = Ret es' ∧ filled (ds ++ [(type e, start e)]) es'.
Proof.
  intros [Hs Hz] Hd. unfold arr_set. solve_cmp. eexists. split; [done|].
  split; [|by rewrite zlen_insert]. unfold shape in *. rewrite list_fmap_insert, Hs.
  rewrite zlen_to_nat, insert_app_r_alt by (rewrite length_fmap; lia).
  rewrite length_fmap, Nat.sub_diag, fmap_app, length_app. cbn [length].
  replace (5 - length ds)%nat with (S (5 - (length ds + 1)))%nat by (unfold zlen in *; lia).
  cbn. by rewrite <- app_assoc.
Qed.

Definition no_null_body (xs : list (Z * Z)) : bool :=
  forallb (λ x, negb (fst x =? ICAP_NULL_BODY)) xs.

(** One turn of the loop on an item followed by [c :: w], of which [k] are separators. *)
Lemma encaps_loop_item junk fuel (pre k w : list Z) x c rest num body r :
  item_ok x → is_digit 10 c = false → c ≠ 120 → c ≠ 88 →
  skip_while is_sep (c :: w) = Some (length k, rest) → 0 ≤ num ≤ 5 → zlen (trash_entities r) = 7 →
  13 ≤ zlen pre →
  let m := pre ++ item_text x ++ c :: w in
  ∃ e r1, type e = fst x ∧ start e = snd x ∧ zlen (trash_entities r1) = 7 ∧
    encaps_loop junk (S fuel) true true m (zlen pre) num body r =
    let* es := arr_set (entities r) num (Some e) in
    encaps_loop junk fuel true true m (zlen (pre ++ item_text x ++ k)) (num + 1)
      (if fst x =? ICAP_NULL_BODY then false else body) (mkEncaps es (trash_entities r1) (hasbody r1)).
Proof.
  intros Hx Hc Hc1 Hc2 Hskip Hnum Htr Hpre m.
  destruct (item_text_head x Hx) as (h & t & Hh & Hnul & _).
  assert (Hld : load m (zlen pre) = Ret h) by (unfold m; rewrite Hh; by apply load_app).
  assert (Hpos : 0 < zlen (item_text x)) by (rewrite Hh; zlia).
  assert (Hd : drop (Z.to_nat (zlen pre)) m = item_text x ++ c :: w) by (by apply drop_zlen).
  assert (Hd' : drop (Z.to_nat (zlen pre + zlen (item_text x))) m = c :: w).
  { unfold m. rewrite app_assoc. apply drop_zlen. zlia. }
  clearbody m. pose proof Hx as [Ht _]. unfold ICAP_REQ_HDR, ICAP_NULL_BODY in Ht.
  destruct (alloc_entity_shape junk r (fst x) (snd x)) as (e & r1 & He & Hte & Hse & He1 & Htr1 & _);
    [unfold ICAP_OPT_BODY; lia|done|].
  exists e, r1. split; [done|]. split; [done|]. split; [done|].
  cbn [encaps_loop]. rewrite Hld. cbn [obind]. rewrite (proj2 (Z.eqb_neq _ _) Hnul), Hd.
  rewrite (get_encaps_type_item x c w) by done. cbn [obind]. solve_cmp. rewrite He. cbn [obind].
  rewrite He1. destruct (arr_set (entities r) num (Some e)) as [es| | |]; try done. cbn [obind].
  solve_cmp. cbn [assert_ obind]. rewrite Hd', Hskip. cbn [scan obind].
  f_equal. rewrite !zlen_app. unfold zlen. lia.
Qed.

(** What follows an item in the text. *)
Lemma items_tail x xs s :
  Forall item_ok xs →
  ∃ c w k, items_text (x :: xs) ++ NUL :: s = item_text x ++ c :: w ∧
    is_digit 10 c = false ∧ c ≠ 120 ∧ c ≠ 88 ∧
    skip_while is_sep (c :: w) = Some (length (k : list Z), items_text xs ++ NUL :: s) ∧
    c :: w = k ++ items_text xs ++ NUL :: s.
Proof.
  intros Hxs. destruct xs as [|y xs].
  - by exists NUL, s, [].
  - exists 44, (32 :: items_text (y :: xs) ++ NUL :: s), [44; 32].
    split; [cbn [items_text]; change (bytes ", ") with [44; 32]; by_app|]. split_and!; try done.
    apply Forall_cons_1 in Hxs as [Hy _].
    destruct (item_text_head y Hy) as (c & w & Hc & _ & Hsep).
    assert (∃ w', items_text (y :: xs) = c :: w') as [w' ->] by (cbn; rewrite Hc; destruct xs; by eexists).
    cbn. by rewrite Hsep.
Qed.

(** The loop over the items [xs] when [ys] follow: all are stored while there is room. *)
Lemma encaps_loop_spec junk xs ys : ∀ fuel pre s ds body r,
  Forall item_ok (xs ++ ys) → zlen ds + zlen xs ≤ 5 →
  filled ds (entities r) → zlen (trash_entities r) = 7 → 13 ≤ zlen pre →
  ∃ pre' r', pre ++ items_text (xs ++ ys) ++ NUL :: s = pre' ++ items_text ys ++ NUL :: s ∧
    13 ≤ zlen pre' ∧ filled (ds ++ xs) (entities r') ∧ zlen (trash_entities r') = 7 ∧
    encaps_loop junk (length xs + fuel) true true (pre ++ items_text (xs ++ ys) ++ NUL :: s)
      (zlen pre) (zlen ds) body r =
    encaps_loop junk fuel true true (pre ++ items_text (xs ++ ys) ++ NUL :: s)
      (zlen pre') (zlen (ds ++ xs)) (body && no_null_body xs) r'.
Proof.
  induction xs as [|x xs IH]; intros fuel pre s ds body r Hxs Hle Hfl Htr Hpre.
  { exists pre, r. rewrite app_nil_r, andb_true_r. done. }
  cbn [app] in *. apply Forall_cons_1 in Hxs as [Hx Hxs]. rewrite zlen_cons in Hle.
  pose proof (zlen_nonneg xs). pose proof (zlen_nonneg ds).
  destruct (items_tail x (xs ++ ys) s Hxs) as (c & w & k & Htxt & Hc & Hc1 & Hc2 & Hskip & Hk).
  rewrite Htxt. cbn [length Nat.add].
  destruct (encaps_loop_item junk (length xs + fuel) pre k w x c _ (zlen ds) body r Hx Hc Hc1 Hc2 Hskip)
    as (e & r1 & Hte & Hse & Htr1 & ->); [lia|done|done|].
  destruct (filled_set ds (entities r) e Hfl ltac:(lia)) as (es & -> & Hfl'). cbn [obind].
  rewrite Hk. replace (pre ++ item_text x ++ k ++ items_text (xs ++ ys) ++ NUL :: s)
    with ((pre ++ item_text x ++ k) ++ items_text (xs ++ ys) ++ NUL :: s) by by_app.
  destruct (IH fuel (pre ++ item_text x ++ k) s (ds ++ [(type e, start e)])
              (if fst x =? ICAP_NULL_BODY then false else body)
              (mkEncaps es (trash_entities r1) (hasbody r1)) Hxs)
    as (pre' & r' & Hpre' & Hp13 & Hfl2 & Htr2 & Hrun); try done; try zlia.
  exists pre', r'. split; [done|]. split; [done|]. 
  replace (type e, start e) with x in * by (destruct x; cbn in *; congruence).
  replace ((ds ++ [x]) ++ xs) with (ds ++ x :: xs) in * by by_app.
  split; [done|]. split; [done|].
  replace (zlen ds + 1) with (zlen (ds ++ [x])) by zlia. rewrite Hrun.
  f_equal. cbn. destruct (fst x =? ICAP_NULL_BODY), body; by cbn.
Qed.

(** A request before its headers are parsed. *)
Definition blank (r : encaps) : Prop :=
  entities r = replicate 5 None ∧ zlen (trash_entities r) = 7.

Lemma blank_filled r : blank r → filled [] (entities r).
Proof. intros [-> _]. by split. Qed.

Lemma length_items xs : Forall item_ok xs → (length xs ≤ length (items_text xs))%nat.
Proof.
  intros Hxs. induction Hxs as [|y ys Hy Hys IH]; [done|].
  destruct (item_text_head y Hy) as (c & w & Hc & _). cbn. rewrite Hc.
  destruct ys; cbn [length app] in *; rewrite ?length_app; cbn [length app]; rewrite ?length_app in *; lia.
Qed.

(** The whole of [process_encapsulated] on items that start a header line: the first
    [xs] of them, up to five, are stored. *)
Lemma process_encapsulated_items junk r xs ys s :
  blank r → Forall item_ok (xs ++ ys) → xs ≠ [] → zlen xs ≤ 5 →
  ∃ fuel m pre' r', m = pre' ++ items_text ys ++ NUL :: s ∧ 13 ≤ zlen pre' ∧
    filled xs (entities r') ∧ zlen (trash_entities r') = 7 ∧
    process_encapsulated junk true true r (bytes "Encapsulated: " ++ items_text (xs ++ ys) ++ NUL :: s) =
    encaps_loop junk (S fuel) true true m (zlen pre') (zlen xs) (no_null_body xs) r'.
Proof.
  intros Hb Hxs Hne Hle. unfold process_encapsulated.
  set (m := bytes "Encapsulated: " ++ items_text (xs ++ ys) ++ NUL :: s).
  assert (Hsk : skip_while isspace (drop 13 m) = Some (1%nat, items_text (xs ++ ys) ++ NUL :: s)).
  { unfold m. destruct xs as [|x xs]; [done|]. cbn [app] in *. apply Forall_cons_1 in Hxs as [Hx _].
    destruct (item_text_head x Hx) as (c & w & Hc & _ & Hsep).
    assert (∃ w', items_text (x :: xs ++ ys) = c :: w') as [w' ->]
      by (cbn; rewrite Hc; destruct (xs ++ ys); by eexists).
    apply orb_false_elim in Hsep as [Hsp _]. cbn. by rewrite Hsp. }
  rewrite Hsk. cbn [scan obind].
  assert (Hlen : (length xs ≤ length m)%nat).
  { apply length_items in Hxs. unfold m. rewrite !length_app in *. lia. }
  replace (S (length m)) with (length xs + S (length m - length xs))%nat by lia.
  destruct (encaps_loop_spec junk xs ys (S (length m - length xs)) (bytes "Encapsulated: ") s [] true r Hxs)
    as (pre' & r' & Hm & Hp & Hfl & Htr & Hrun); try done; try (by apply blank_filled); try (by apply Hb).
  exists (length m - length xs)%nat, m, pre', r'. split; [exact Hm|]. split; [done|]. split; [done|].
  split; [done|]. exact Hrun.
Qed.

(** All the items are stored when the line ends after them. *)
Lemma process_encapsulated_spec junk r xs s :
  blank r → Forall item_ok xs → xs ≠ [] → zlen xs ≤ 5 →
  ∃ r', process_encapsulated junk true true r (bytes "Encapsulated: " ++ items_text xs ++ NUL :: s) = Ret (EC_100, r') ∧
    filled xs (entities r') ∧ zlen (trash_entities r') = 7 ∧ hasbody r' = no_null_body xs.
Proof.
  intros Hb Hxs Hne Hle.
  destruct (process_encapsulated_items junk r xs [] s Hb ltac:(by rewrite app_nil_r) Hne Hle)
    as (fuel & m & pre' & r' & -> & Hp & Hfl & Htr & Hrun).
  rewrite app_nil_r in Hrun. rewrite Hrun. cbn [items_text encaps_loop app]. rewrite load_app by done. cbn [obind].
  rewrite Z.eqb_refl. by eexists.
Qed.

(** ** Properties *)

Lemma encaps_items_text es xs k :
  shape es = (Some <$> xs) ++ replicate k None → xs ≠ [] → (length xs ≤ 3)%nat →
  encaps_items 3 true es = items_text xs.
Proof.
  intros Hs Hne Hle.
  assert (Hes : ∀ es a b, shape es = Some a :: b → ∃ e es', es = Some e :: es' ∧ (type e, start e) = a ∧ shape es' = b).
  { intros [|[e|] es'] a b; cbn; intros [= <- <-]. by exists e, es'. }
  assert (Hnil : ∀ n f es, shape es = replicate k None → encaps_items n f es = []).
  { intros n f es0 H0. destruct n; [done|]. destruct es0 as [|[e|] es0]; [done| |done].
    destruct k; cbn in H0; congruence. }
  assert (Hstep : ∀ n f e es', encaps_items (S n) f (Some e :: es') =
    (if f then [] else bytes ", ") ++ item_text (type e, start e) ++ encaps_items n false es').
  { intros n f e es'. cbn [encaps_items]. unfold item_text. cbn [fst snd]. by_app. }
  destruct xs as [|x0 [|x1 [|x2 [|]]]]; try done; try (cbn in Hle; lia);
    apply Hes in Hs as (e0 & es0 & -> & <- & Hs); rewrite Hstep;
    [|apply Hes in Hs as (e1 & es1 & -> & <- & Hs); rewrite Hstep..];
    [| |apply Hes in Hs as (e2 & es2 & -> & <- & Hs); rewrite Hstep];
    rewrite (Hnil _ _ _ Hs); cbn [items_text]; rewrite app_nil_r; by_app.
Qed.

(** The Encapsulated header that [ci_request_t_pack] writes for one to three entities is
    parsed by [process_encapsulated] into the same entities, with the same types and
    offsets; the request has a body unless one of them is a null-body. *)
Theorem encapsulated_header_roundtrip junk r es xs s :
  blank r → shape es = (Some <$> xs) ++ replicate (5 - length xs) None → xs ≠ [] →
  (length xs ≤ 3)%nat → Forall item_ok xs →
  ∃ r', process_encapsulated junk true true r (encaps_line es ++ NUL :: s) = Ret (EC_100, r') ∧
    shape (entities r') = shape es ∧ hasbody r' = no_null_body xs.
Proof.
  intros Hb Hs Hne Hle Hxs.
  assert (Hline : encaps_line es = bytes "Encapsulated: " ++ items_text xs).
  { rewrite <- (encaps_items_text es xs _ Hs Hne Hle).
    destruct xs as [|x xs]; [done|]. by destruct es as [|[e|] es]. }
  destruct (process_encapsulated_spec junk r xs s Hb Hxs Hne ltac:(unfold zlen; lia)) as (r' & Hrun & [Hfl _] & _ & Hh).
  rewrite Hline. replace ((bytes "Encapsulated: " ++ items_text xs) ++ NUL :: s)
    with (bytes "Encapsulated: " ++ items_text xs ++ NUL :: s) by by_app.
  exists r'. split; [done|]. split; [|done]. etrans; [exact Hfl|by symmetry].
Qed.

Definition fresh_encaps : encaps := mkEncaps (replicate 5 None) (replicate 7 None) false.

Definition sample_entities : list (option ci_encaps_entity_t) :=
  [Some (mkEntity 0 ICAP_REQ_HDR None); Some (mkEntity 137 ICAP_RES_HDR None);
   Some (mkEntity 2200 ICAP_RES_BODY None); None; None].

Lemma encapsulated_header_roundtrip_witness :
  ∃ r', process_encapsulated (λ _, 7) true true fresh_encaps (encaps_line sample_entities ++ [NUL; LF]) =
      Ret (EC_100, r') ∧ shape (entities r') = shape sample_entities ∧ hasbody r' = true.
Proof.
  apply (encapsulated_header_roundtrip (λ _, 7) fresh_encaps sample_entities [(0, 0); (1, 137); (3, 2200)] [LF]);
    try done. repeat constructor; by vm_compute.
Defined.

(** A header with six or more entities writes past the array of the request: the
    guard stops at six stored entities and the array has five places. *)
Theorem process_encapsulated_sixth_entity_overflow junk r xs y ys s :
  blank r → Forall item_ok (xs ++ y :: ys) → length xs = 5%nat →
  process_encapsulated junk true true r (bytes "Encapsulated: " ++ items_text (xs ++ y :: ys) ++ NUL :: s) = UB.
Proof.
  intros Hb Hall Hlen.
  destruct (process_encapsulated_items junk r xs (y :: ys) s Hb Hall)
    as (fuel & m & pre' & r' & -> & Hp & [_ Hz] & Htr & ->); [by destruct xs|unfold zlen; lia|].
  apply Forall_app in Hall as [_ Hall]. apply Forall_cons_1 in Hall as [Hy Hys].
  destruct (items_tail y ys s Hys) as (c & w & k & -> & Hc & Hc1 & Hc2 & Hskip & _).
  destruct (encaps_loop_item junk fuel pre' k w y c _ (zlen xs) (no_null_body xs) r' Hy Hc Hc1 Hc2 Hskip)
    as (e & r1 & _ & _ & _ & ->); [unfold zlen; lia|done|done|].
  unfold arr_set. replace (zlen xs) with 5 by (unfold zlen; lia). by rewrite Hz.
Qed.

Lemma process_encapsulated_sixth_entity_overflow_witness :
  process_encapsulated (λ _, 7) true true fresh_encaps
    (bytes "Encapsulated: req-hdr=0, req-hdr=0, req-hdr=0, req-hdr=0, req-hdr=0, req-hdr=0" ++ [NUL; LF]) = UB.
Proof.
  apply (process_encapsulated_sixth_entity_overflow (λ _, 7) fresh_encaps (replicate 5 (0, 0)) (0, 0) [] [LF]);
    try done. repeat constructor; by vm_compute.
Defined.

(** The combinations of entities RFC 3507 gives for a method, as [check_request] reads them. *)
Definition allowed (method : Z) (ts : list Z) : bool :=
  if method =? ICAP_REQMOD then
    match ts with
    | [b] => b =? ICAP_REQ_BODY
    | [h; b] => (h =? ICAP_REQ_HDR) && ((b =? ICAP_REQ_BODY) || (b =? ICAP_NULL_BODY))
    | _ => false
    end
  else if method =? ICAP_RESPMOD then
    match ts with
    | [b] => b =? ICAP_RES_BODY
    | [h; b] => is_hdr h && ((b =? ICAP_RES_BODY) || (b =? ICAP_NULL_BODY))
    | [q; h; b] => (q =? ICAP_REQ_HDR) && (h =? ICAP_RES_HDR) &&
                   ((b =? ICAP_RES_BODY) || (b =? ICAP_NULL_BODY))
    | _ => false
    end
  else (method =? ICAP_OPTIONS) || negb (length ts =? 0)%nat.

Lemma shape_lookup es (i : nat) ds k :
  shape es = (Some <$> ds) ++ replicate k None → (i < length ds + k)%nat →
  ∃ e, es !! i = Some e ∧ option_map type e = fst <$> (ds !! i).
Proof.
  intros Hs Hi. assert (Hl : shape es !! i = ((Some <$> ds) ++ replicate k None) !! i) by congruence.
  unfold shape in Hl. rewrite list_lookup_fmap in Hl.
  destruct (decide (i < length ds)%nat) as [Hlt|Hge].
  - rewrite lookup_app_l, list_lookup_fmap in Hl by (by rewrite length_fmap).
    destruct (lookup_lt_is_Some_2 ds i Hlt) as [d Hd]. rewrite Hd in *. cbn in *.
    destruct (es !! i) as [e|]; [|done]. exists e. split; [done|].
    cbn in Hl. destruct e; [|done]. cbn in *. by injection Hl as <-.
  - rewrite lookup_app_r in Hl by (rewrite length_fmap; lia).
    rewrite lookup_replicate_2 in Hl by (rewrite length_fmap; lia).
    destruct (es !! i) as [e|]; [|done]. exists e. split; [done|].
    rewrite (lookup_ge_None_2 ds i) by lia. cbn in Hl. by destruct e.
Qed.

(** [check_request] answers 100 to exactly the combinations of entities allowed for the
    method, and 400 to all others, without touching a missing entity. *)
Theorem check_request_exact method r ds :
  filled ds (entities r) → zlen ds ≤ 5 →
  check_request method r = Ret (if allowed method (fst <$> ds) then EC_100 else EC_400).
Proof.
  intros [Hs _] Hle. unfold check_request, arr_get. cbn [Z.ltb Z.compare].
  change (Z.to_nat 0) with 0%nat. change (Z.to_nat 1) with 1%nat.
  change (Z.to_nat 2) with 2%nat. change (Z.to_nat 3) with 3%nat.
  assert (Hlen : (length ds + (5 - length ds) = 5)%nat) by (unfold zlen in Hle; lia).
  destruct (shape_lookup _ 0 _ _ Hs ltac:(lia)) as (e0 & -> & H0).
  destruct (shape_lookup _ 1 _ _ Hs ltac:(lia)) as (e1 & -> & H1).
  destruct (shape_lookup _ 2 _ _ Hs ltac:(lia)) as (e2 & -> & H2).
  destruct (shape_lookup _ 3 _ _ Hs ltac:(lia)) as (e3 & -> & H3).
  cbn [obind]. unfold allowed, expect, type_of, is_hdr, ICAP_REQMOD, ICAP_RESPMOD, ICAP_OPTIONS.
  destruct ds as [|[t0 v0] [|[t1 v1] [|[t2 v2] [|[t3 v3] ds]]]]; cbn in H0, H1, H2, H3;
    destruct e0, e1, e2, e3; try discriminate; cbn in H0, H1, H2, H3; simplify_eq;
    cbn -[Z.eqb]; rewrite ?orb_true_r, ?orb_false_r, ?andb_true_r, ?andb_false_r;
    repeat match goal with
    | |- context [if ?a =? ?b then _ else _] => destruct (Z.eqb_spec a b); cbn -[Z.eqb]; try lia
    | |- context [?a =? ?b] => destruct (Z.eqb_spec a b); cbn -[Z.eqb]; try lia
    end; subst; try done; try lia.
Qed.

Lemma check_request_exact_witness :
  check_request ICAP_RESPMOD (mkEncaps sample_entities (replicate 7 None) true) = Ret EC_100.
Proof.
  exact (check_request_exact ICAP_RESPMOD (mkEncaps sample_entities (replicate 7 None) true)
    [(0, 0); (1, 137); (3, 2200)] (conj eq_refl eq_refl) ltac:(done)).
Defined.

(** ** Packing a message *)

(** The bytes an entity puts on the wire before the body. *)
Definition block (e : ci_encaps_entity_t) : list Z :=
  match entity e with
  | Some h => if is_hdr (type e) then slice (buf h) 0 (bufused h) else []
  | None => []
  end.

(** Each entity starts where the blocks of the entities before it end. *)
Fixpoint offsets_ok (p : Z) (es : list (option ci_encaps_entity_t)) : Prop :=
  match es with
  | Some e :: es' => start e = p ∧ offsets_ok (p + zlen (block e)) es'
  | _ => True
  end.

(** A header entity holds lines that can be packed. *)
Definition ent_ok (e : ci_encaps_entity_t) : Prop :=
  is_hdr (type e) = true → ∃ h ls tl, entity e = Some h ∧ hrepr h ls tl ∧ sealed tl.

(** The block of an entity once it is packed. *)
Definition ent_block (e : ci_encaps_entity_t) (bl : list Z) : Prop :=
  if is_hdr (type e) then ∃ h ls tl, entity e = Some h ∧ hrepr h ls tl ∧ sealed tl ∧ bl = wire ls ++ CRLF else bl = [].

(** The block of a packed entity is in its buffer, which can be used again. *)
Definition whole (e : ci_encaps_entity_t) : Prop :=
  is_hdr (type e) = true → ∃ h, entity e = Some h ∧ 0 < bufused h ≤ zlen (buf h) ∧ zlen (buf h) = bufsize h ∧
    (2 < bufused h → 1 ≤ size h).

Lemma ent_ok_blocks xs : Forall ent_ok xs → ∃ bls, Forall2 ent_block xs bls.
Proof.
  induction 1 as [|e xs He _ [bls IH]]; [by exists []|]. unfold ent_ok in He. destruct (is_hdr (type e)) eqn:Hh.
  - destruct (He eq_refl) as (h & ls & tl & ? & ? & ?). exists ((wire ls ++ CRLF) :: bls).
    constructor; [|done]. unfold ent_block. rewrite Hh. by exists h, ls, tl.
  - exists ([] :: bls). constructor; [|done]. unfold ent_block. by rewrite Hh.
Qed.

Lemma pack_entity v e bl :
  ent_block e bl → ∃ e', type e' = type e ∧ start e' = v ∧ block e' = bl ∧ whole e' ∧ sizeofencaps e = Ret (zlen bl) ∧
  ∀ es, pack_entities (Some (set_start v e) :: es) = let* es' := pack_entities es in Ret (Some e' :: es').
Proof.
  intros He. cbn [pack_entities]. unfold ent_block, sizeofencaps, block, whole in *. cbn.
  destruct (is_hdr (type e)) eqn:Hh.
  - destruct He as (h & ls & tl & -> & Hr & Hs & ->).
    destruct (ci_headers_pack_spec h ls tl Hr Hs) as (h' & r & -> & Hb & Hu & _ & Hbz & Hcap). cbn [obind].
    assert (Hz : slice (buf h') 0 (bufused h') = wire ls ++ CRLF).
    { rewrite Hb, Hu, app_assoc. rewrite slice_app_l by zlia. by apply slice_all. }
    exists (mkEntity v (type e) (Some h')). cbn. rewrite Hh. split_and!; try done.
    { intros _. exists h'. split; [done|]. split; [rewrite Hu, Hb; unfold CRLF; zlia|]. split; [done|].
      intros H2. rewrite Hcap. pose proof (hr_cap _ _ _ Hr). destruct ls; [by rewrite Hu in H2|zlia]. }
    unfold sizeofheader. rewrite (hr_used _ _ _ Hr), <- zlen_wire. unfold CRLF. by rewrite zlen_app.
  - subst bl. exists (set_start v e). cbn. rewrite Hh. by destruct (entity e).
Qed.

(** The entities of a message: one to three, then null pointers. *)
Lemma pack_message xs bls T :
  (1 ≤ length xs ≤ 3)%nat → Forall2 ent_block xs bls →
  ∃ es1 xs', set_starts ((Some <$> xs) ++ None :: T) = Ret es1 ∧ pack_entities es1 = Ret ((Some <$> xs') ++ None :: T) ∧
    offsets_ok 0 ((Some <$> xs') ++ None :: T) ∧ encaps_line es1 = encaps_line ((Some <$> xs') ++ None :: T) ∧
    type <$> xs' = type <$> xs ∧ block <$> xs' = bls ∧ Forall (λ x, 0 ≤ start x) xs' ∧ Forall whole xs'.
Proof.
  intros Hl Hok.
  destruct xs as [|x0 [|x1 [|x2 [|]]]]; cbn [length] in Hl; try lia;
    apply Forall2_cons_inv_l in Hok as (b0 & bls' & H0 & Hok & ->);
    [|apply Forall2_cons_inv_l in Hok as (b1 & bls'' & H1 & Hok & ->)..];
    [| |apply Forall2_cons_inv_l in Hok as (b2 & bls3 & H2 & Hok & ->)]; apply Forall2_nil_inv_l in Hok as ->;
    cbn [fmap list_fmap app set_starts];
    destruct (pack_entity 0 x0 b0 H0) as (e0 & Ht0 & Hs0 & Hb0 & Hw0 & Hz0 & Hp0); rewrite ?Hz0; cbn [obind];
    [|destruct (pack_entity (zlen b0) x1 b1 H1) as (e1 & Ht1 & Hs1 & Hb1 & Hw1 & Hz1 & Hp1);
      rewrite ?Hz1; cbn [obind]..];
    [| |destruct (pack_entity (zlen b1 + zlen b0) x2 b2 H2) as (e2 & Ht2 & Hs2 & Hb2 & Hw2 & Hz2 & Hp2)];
    [eexists _, [e0] | eexists _, [e0; e1] | eexists _, [e0; e1; e2]];
    (split; [done|]); rewrite Hp0; [|rewrite Hp1..]; [| |rewrite Hp2]; (split; [done|]);
    cbn [fmap list_fmap app offsets_ok encaps_line encaps_items type start set_start map];
    rewrite ?Hs0, ?Hs1, ?Hs2, ?Ht0, ?Ht1, ?Ht2, ?Hb0, ?Hb1, ?Hb2;
    (split; [split_and!; (done || lia)|]); (split; [done|]); (split; [done|]); (split; [done|]);
    split; repeat constructor; try done; rewrite ?Hs0, ?Hs1, ?Hs2; zlia.
Qed.

Lemma no_nul_app a b : no_nul a → no_nul b → no_nul (a ++ b).
Proof. intros. by apply Forall_app. Qed.

Lemma no_nul_print_d v : 0 ≤ v → no_nul (print_d v).
Proof.
  intros Hv. unfold print_d. rewrite (proj2 (Z.ltb_ge v 0)) by lia.
  apply print_num_chars; [lia|done|]. intros d Hd.
  pose proof (digit_char_range d ltac:(lia)). lia.
Qed.

Lemma no_nul_name t : no_nul (ci_encaps_entity_string t).
Proof.
  unfold ci_encaps_entity_string. destruct ((t <=? _) && _) eqn:E; [|by repeat constructor].
  apply andb_prop in E as [E1 E2]. apply Z.leb_le in E1, E2. unfold ICAP_OPT_BODY, ICAP_REQ_HDR in *.
  assert (t = 0 ∨ t = 1 ∨ t = 2 ∨ t = 3 ∨ t = 4 ∨ t = 5) as Ht by lia.
  destruct Ht as [-> | [-> | [-> | [-> | [-> | ->]]]]]; by repeat constructor.
Qed.

Lemma no_nul_items n f es :
  Forall (λ o, match o with Some e => 0 ≤ start e | None => True end) es → no_nul (encaps_items n f es).
Proof.
  revert n f. induction es as [|[e|] es IH]; intros n f Hes; destruct n; cbn; try done; try constructor.
  apply Forall_cons_1 in Hes as [He Hes].
  apply no_nul_app; [destruct f; by repeat constructor|]. apply no_nul_app; [apply no_nul_name|].
  constructor; [done|]. apply no_nul_app; [by apply no_nul_print_d|by apply IH].
Qed.

Lemma no_nul_line es :
  Forall (λ o, match o with Some e => 0 ≤ start e | None => True end) es → no_nul (encaps_line es).
Proof.
  intros H. destruct es as [|[e|] es]; try by repeat constructor. cbn [encaps_line].
  apply no_nul_app; [by repeat constructor|]. by apply no_nul_items.
Qed.

Lemma starts_ok xs T : Forall (λ x, 0 ≤ start x) xs →
  Forall (λ o, match o with Some e => 0 ≤ start e | None => True end) ((Some <$> xs) ++ None :: replicate T None).
Proof.
  intros H. apply Forall_app. split; [by apply Forall_fmap|]. constructor; [done|]. by apply Forall_replicate.
Qed.

(** The packed message: the lines of the ICAP header and the blocks of the entities. *)
Lemma ci_request_t_pack_spec junk is_request preview xs bls k hdr hls htl :
  (1 ≤ length xs ≤ 3)%nat → Forall2 ent_block xs bls → hrepr hdr hls htl →
  let pv := if is_request && (0 <=? preview) then [bytes "Preview: " ++ print_d preview] else [] in
  ∃ xs' hdr' r,
    let es' := (Some <$> xs') ++ None :: replicate k None in
    ci_request_t_pack junk true true is_request preview ((Some <$> xs) ++ None :: replicate k None) hdr = Ret (es', hdr') ∧
    offsets_ok 0 es' ∧ type <$> xs' = type <$> xs ∧ block <$> xs' = bls ∧ Forall (λ x, 0 ≤ start x) xs' ∧ Forall whole xs' ∧
    let ls := hls ++ pv ++ [encaps_line es'] in
    buf hdr' = wire ls ++ CRLF ++ r ∧ bufused hdr' = zlen (wire ls ++ CRLF).
Proof.
  intros Hl Hok Hr pv. unfold ci_request_t_pack.
  destruct (pack_message xs bls (replicate k None) Hl Hok) as (es1 & xs' & -> & Hpk & Hoff & Hline & Ht & Hb & Hst & Hwh).
  assert (Hpv : ∃ hdr1 tl1, (if is_request && (0 <=? preview) then
      let* (_, hdr) := ci_headers_add junk true true hdr (bytes "Preview: " ++ print_d preview) in Ret hdr
    else Ret hdr) = Ret hdr1 ∧ hrepr hdr1 (hls ++ pv) tl1).
  { unfold pv. destruct (is_request && (0 <=? preview)) eqn:E.
    - apply andb_prop in E as [_ E]. apply Z.leb_le in E.
      destruct (ci_headers_add_spec junk hdr hls htl (bytes "Preview: " ++ print_d preview) Hr)
        as (h1 & tl1 & -> & Hr1 & _).
      { apply no_nul_app; [by repeat constructor|by apply no_nul_print_d]. }
      by exists h1, tl1.
    - exists hdr, htl. by rewrite app_nil_r. }
  destruct Hpv as (hdr1 & tl1 & -> & Hr1). cbn [obind].
  destruct (ci_headers_add_spec junk hdr1 _ tl1 (encaps_line es1) Hr1) as (hdr2 & tl2 & -> & Hr2 & Hs2).
  { rewrite Hline. by apply no_nul_line, starts_ok. }
  cbn [obind]. rewrite Hpk. cbn [obind].
  destruct (ci_headers_pack_spec hdr2 _ tl2 Hr2 Hs2) as (hdr' & r & -> & Hb' & Hu & _). cbn [obind].
  exists xs', hdr', r. cbn zeta. rewrite Hline in Hb', Hu. rewrite <- app_assoc in Hb', Hu. by split_and!.
Qed.

(** [ci_request_t_pack] announces offsets that are those of the packed blocks: each
    entity starts where the packed headers before it end; and the ICAP header it packs holds
    the lines it had, the Preview line of a request with a preview, and the
    Encapsulated line with these offsets. *)
Theorem ci_request_t_pack_offsets junk is_request preview xs k hdr hls htl :
  (1 ≤ length xs ≤ 3)%nat → Forall ent_ok xs → hrepr hdr hls htl →
  let pv := if is_request && (0 <=? preview) then [bytes "Preview: " ++ print_d preview] else [] in
  ∃ es' hdr',
    ci_request_t_pack junk true true is_request preview ((Some <$> xs) ++ None :: replicate k None) hdr =
      Ret (es', hdr') ∧
    offsets_ok 0 es' ∧
    slice (buf hdr') 0 (bufused hdr') = wire (hls ++ pv ++ [encaps_line es']) ++ CRLF.
Proof.
  intros Hl Hok Hr pv. destruct (ent_ok_blocks _ Hok) as (bls & Hbl).
  destruct (ci_request_t_pack_spec junk is_request preview xs bls k hdr hls htl Hl Hbl Hr)
    as (xs' & hdr' & r & Hp & Ho & _ & _ & _ & _ & Hb & Hu).
  eexists _, hdr'. split; [exact Hp|]. split; [done|]. rewrite Hb, Hu, app_assoc, slice_app_l by zlia. by apply slice_all.
Qed.

Lemma ci_request_t_pack_offsets_witness :
  ∃ es' hdr',
    ci_request_t_pack (λ _, 7) true true true 1024
      ((Some <$> [mkEntity 9 ICAP_REQ_HDR (Some sample_list); mkEntity 9 ICAP_REQ_BODY None]) ++
       None :: replicate 2 None) sample_list = Ret (es', hdr') ∧
    offsets_ok 0 es' ∧
    slice (buf hdr') 0 (bufused hdr') =
      wire (sample_lines ++ [bytes "Preview: " ++ print_d 1024] ++ [encaps_line es']) ++ CRLF.
Proof.
  apply (ci_request_t_pack_offsets (λ _, 7) true 1024
    [mkEntity 9 ICAP_REQ_HDR (Some sample_list); mkEntity 9 ICAP_REQ_BODY None] 2 sample_list sample_lines
    [CR; LF; 0]).
  - cbn. lia.
  - constructor; [|by constructor]. intros _. exists sample_list, sample_lines, [CR; LF; 0].
    split; [done|]. split; [apply sample_repr|by exists CR, [0]].
  - apply sample_repr.
Defined.
