(* ===== verification/IcapHeader.v ===== *)
(** * Reading the ICAP header and the encapsulated headers (request.c)

    [ci_read_icap_header] reads in blocks of 512 bytes until the empty line and leaves
    what follows it in the read block of the request; [read_encaps_header] reads an
    encapsulated header of announced size.  The state is the [reader] of ReadBody and the
    header list that is filled; the block of the reader points into its buffer after the
    ICAP header was read. *)

From stdpp Require Import base list list_numbers strings numbers option.
From Stdlib Require Import ZArith Lia.
From S2P Require Import Prelude CString Chunks ReadBody Headers.

Definition ICAP_HEADER_READSIZE : Z := 512.

Definition CRLFCRLF : list Z := [CR; LF; CR; LF].

Section icap_header.
Context (junk : Z → Z) (PIPELINING CHECK_FOR_BUGGY_CLIENT : bool).

(** The code, the buffer and its size. *)
Definition icap_header_check_realloc (alloc : bool) (m : list Z) (size used mustadded : Z) :
    ec * list Z * Z :=
  if size - used <? mustadded then
    if alloc then (EC_100, grow junk m (size + ICAP_HEADER_READSIZE), size + ICAP_HEADER_READSIZE)
    else (EC_500, m, size)
  else (EC_100, m, size).

(** The search for the empty line: from offset [p], [n] positions. *)
Fixpoint find_eoh (m : list Z) (p : Z) (n : nat) : outcome (option Z) :=
  match n with
  | O => Ret None
  | S n' =>
      if p <? 0 then UB
      else
      let* eq := scan (str_prefix CRLFCRLF (drop (Z.to_nat p) m)) in
      if eq : bool then Ret (Some p) else find_eoh m (p + 1) n'
  end.

(** The local variables of [ci_read_icap_header] and the fields it changes on the way. *)
Record hstate := mkHstate {
  hs_buf : list Z;
  hs_size : Z;
  hs_conn : list net_event;
  hs_bytes_in : Z;
  readed : Z;
  buf_end : Z;
  startsearch : Z
}.

(** The part of the loop after the read of [bytes] bytes: [inl] leaves the loop with a code. *)
Definition search_step (alloc : bool) (bytes : Z) (s : hstate) : outcome (ec * hstate + hstate) :=
  let* f := find_eoh (hs_buf s) (buf_end s + startsearch s) (Z.to_nat (bytes - 3 - startsearch s)) in
  match f with
  | Some p => Ret (inl (EC_100, mkHstate (hs_buf s) (hs_size s) (hs_conn s) (hs_bytes_in s) (readed s)
                                  (p + 2) (startsearch s)))
  | None =>
      let '(st, m, size) := icap_header_check_realloc alloc (hs_buf s) (hs_size s) (readed s)
                              ICAP_HEADER_READSIZE in
      if negb (bool_decide (st = EC_100)) then
        Ret (inl (st, mkHstate m size (hs_conn s) (hs_bytes_in s) (readed s) (buf_end s) (startsearch s)))
      else
      Ret (inr (mkHstate m size (hs_conn s) (hs_bytes_in s) (readed s) (readed s)
        (if -3 <? startsearch s then (if 3 <? readed s then -3 else - readed s) else startsearch s)))
  end.

Fixpoint header_loop (fuel : nat) (alloc : bool) (s : hstate) : outcome (option ec * hstate) :=
  match fuel with
  | O => NoFuel
  | S fuel' =>
      if wait_for_read (hs_conn s) <? 0 then Ret (None, s)
      else
      let '(bytes, d, c) := ci_connection_read_nonblock (hs_conn s) ICAP_HEADER_READSIZE in
      if bytes <? 0 then Ret (None, s)
      else if bytes =? 0 then
        header_loop fuel' alloc (mkHstate (hs_buf s) (hs_size s) c (hs_bytes_in s) (readed s)
                                   (buf_end s) (startsearch s))
      else
      let* m := write_bytes (hs_buf s) (buf_end s) d in
      let* r := search_step alloc bytes
                  (mkHstate m (hs_size s) c (to_u64 (hs_bytes_in s + bytes)) (readed s + bytes)
                     (buf_end s) (startsearch s)) in
      match r with
      | inl (st, s) => Ret (Some st, s)
      | inr s => header_loop fuel' alloc s
      end
  end.

(** The header list and the reader after the loop; no code stands for the return of EC_408
    from inside it, which sets neither [bufused] nor the read block. *)
Definition finish_header (h : ci_headers_list_t) (r : reader) (x : option ec * hstate) :
    ec * ci_headers_list_t * reader :=
  let '(st, s) := x in
  let rs := rd_stream r in
  match st with
  | None =>
      (EC_408, mkHeaders (size h) (headers h) (hs_size s) (bufused h) (hs_buf s) (packed h),
       mkReader rs (rd_loc r) (hs_buf s) (rd_rbuf r) (hs_conn s) (hs_bytes_in s) (rd_preview r))
  | Some st =>
      let used := buf_end s in
      let rs := mkRstream (used + 2) (readed s - used - 2) (current_chunk_len rs) (chunk_bytes_read rs)
                  (write_to_module_pending rs) (eof_received rs) (i206_use_original_body rs)
                  (used + 2) (http_bytes_in rs) (body_bytes_in rs) in
      (st, mkHeaders (size h) (headers h) (hs_size s) used (hs_buf s) (packed h),
       mkReader rs BHeader (hs_buf s) (rd_rbuf r) (hs_conn s) (hs_bytes_in s) (rd_preview r))
  end.

Definition ci_read_icap_header (fuel : nat) (alloc : bool) (r : reader) (h : ci_headers_list_t) :
    outcome (ec * ci_headers_list_t * reader) :=
  let len := pstrblock_read_len (rd_stream r) in
  let prefetch := PIPELINING && (match rd_loc r with BNull => false | _ => true end) && (0 <? len) in
  if prefetch then
    let* d := read_bytes (block_mem r) (pstrblock_read (rd_stream r)) len in
    let '(st, m, size) := icap_header_check_realloc alloc (buf h) (bufsize h) len ICAP_HEADER_READSIZE in
    if negb (bool_decide (st = EC_100)) then Ret (st, h, r)
    else
    let* m := write_bytes m 0 d in
    let r := mkReader (set_block 0 0 (rd_stream r)) BNull (rd_hdr r) (rd_rbuf r) (rd_conn r)
               (rd_bytes_in r) (rd_preview r) in
    let* x := search_step alloc len (mkHstate m size (rd_conn r) (rd_bytes_in r) len 0 0) in
    let* x := match x with
              | inl (st, s) => Ret (Some st, s)
              | inr s => header_loop fuel alloc s
              end in
    Ret (finish_header h r x)
  else
  let* x := header_loop fuel alloc (mkHstate (buf h) (bufsize h) (rd_conn r) (rd_bytes_in r) 0 0 0) in
  Ret (finish_header h r x).

(** ** read_encaps_header *)

(** The loop that reads the [remains] bytes not in the block: [None] is CI_ERROR. *)
Fixpoint encaps_read_loop (fuel : nat) (m : list Z) (e remains : Z) (c : list net_event) (bytes_in : Z) :
    outcome (option (list Z * Z * list net_event * Z)) :=
  match fuel with
  | O => NoFuel
  | S fuel' =>
      if 0 <? remains then
        if wait_for_read c <? 0 then Ret None
        else
        let '(bytes, d, c) := ci_connection_read_nonblock c remains in
        if bytes <? 0 then Ret None
        else
        let* m := write_bytes m e d in
        encaps_read_loop fuel' m (e + bytes) (remains - bytes) c (to_u64 (bytes_in + bytes))
      else Ret (Some (m, e, c, bytes_in))
  end.

(** [strncmp(m + p, lit, n) == 0]; a pointer before the object is undefined. *)
Definition cmp_at (lit m : list Z) (p : Z) : outcome bool :=
  if p <? 0 then UB else scan (str_prefix lit (drop (Z.to_nat p) m)).

(** The code is that of the function, [None] for CI_ERROR. *)
Definition read_encaps_header (fuel : nat) (alloc : bool) (r : reader) (h : ci_headers_list_t) (sz : Z) :
    outcome (option ec * ci_headers_list_t * reader) :=
  let '(ok, h) := ci_headers_setsize junk alloc h (sz + (if CHECK_FOR_BUGGY_CLIENT then 2 else 0)) in
  if ok =? 0 then Ret (Some EC_500, h, r)
  else
  let rs := rd_stream r in
  let len := pstrblock_read_len rs in
  let n := if 0 <? len then (if len <? sz then len else sz) else 0 in
  let* m := if 0 <? len then
              let* d := read_bytes (block_mem r) (pstrblock_read rs) n in write_bytes (buf h) 0 d
            else Ret (buf h) in
  let r := if 0 <? len then
             if sz <=? len then with_stream (set_block (pstrblock_read rs + n) (len - n) rs) r
             else mkReader (set_block 0 0 rs) BNull (rd_hdr r) (rd_rbuf r) (rd_conn r) (rd_bytes_in r)
                    (rd_preview r)
           else r in
  let* x := encaps_read_loop fuel m n (sz - n) (rd_conn r) (rd_bytes_in r) in
  match x with
  | None => Ret (None, mkHeaders (size h) (headers h) (bufsize h) (bufused h) m (packed h), r)
  | Some (m, e, c, bi) =>
      let* eoh := cmp_at CRLFCRLF m (e - 4) in
      let* (m, used) :=
        if eoh then Ret (m, e - 2)
        else if CHECK_FOR_BUGGY_CLIENT then
          let* eol := cmp_at CRLF m (e - 2) in
          if eol : bool then Ret (m, e)
          else let* m := store m e CR in let* m := store m (e + 1) LF in Ret (m, e + 2)
        else Ret (m, e) in
      let rs := rd_stream r in
      let rs := mkRstream (pstrblock_read rs) (pstrblock_read_len rs) (current_chunk_len rs)
                  (chunk_bytes_read rs) (write_to_module_pending rs) (eof_received rs)
                  (i206_use_original_body rs) (to_u64 (request_bytes_in rs + sz))
                  (to_u64 (http_bytes_in rs + sz)) (body_bytes_in rs) in
      Ret (Some EC_100, mkHeaders (size h) (headers h) (bufsize h) used m (packed h),
           mkReader rs (rd_loc r) (rd_hdr r) (rd_rbuf r) c bi (rd_preview r))
  end.

End icap_header.

(** ** The end of the header is found, however the network cuts it *)

(** [hdr] is the part of the stream before its first CR LF CR LF. *)
Definition first_eoh (hdr rest : list Z) : Prop :=
  ∀ j, 0 ≤ j < zlen hdr → slice (hdr ++ CRLFCRLF ++ rest) j 4 ≠ CRLFCRLF.

Lemma str_prefix_exact lit s :
  (length lit ≤ length s)%nat →
  str_prefix lit s = Some (bool_decide (take (length lit) s = lit)).
Proof.
  revert s. induction lit as [|c lit IH]; intros [|b s] Hl; cbn in *; try done; try lia.
  destruct (Z.eqb_spec b c) as [->|Hne].
  - rewrite IH by lia. f_equal. apply bool_decide_ext. split; [by intros ->|by intros [= ->]].
  - f_equal. symmetry. apply bool_decide_eq_false_2. by intros [= ? _].
Qed.

Lemma find_eoh_spec m P n p :
  0 ≤ p → (n ≠ 0%nat → p + Z.of_nat n + 3 ≤ zlen m) →
  (∀ j, p ≤ j < P → j < p + Z.of_nat n → slice m j 4 ≠ CRLFCRLF) → p ≤ P →
  (P < p + Z.of_nat n → slice m P 4 = CRLFCRLF) →
  find_eoh m p n = Ret (if P <? p + Z.of_nat n then Some P else None).
Proof.
  revert p. induction n as [|n IH]; intros p Hp Hm Hno Hle Hat; cbn [find_eoh].
  { solve_cmp. done. }
  solve_cmp. rewrite str_prefix_exact by (rewrite length_drop; unfold zlen in *; cbn; lia).
  cbn [scan obind]. change (take (length CRLFCRLF) (drop (Z.to_nat p) m)) with (slice m p 4).
  destruct (decide (p = P)) as [->|Hne].
  - rewrite bool_decide_eq_true_2 by (apply Hat; lia). by solve_cmp.
  - rewrite bool_decide_eq_false_2 by (apply Hno; lia). rewrite IH; try lia.
    + replace (p + 1 + Z.of_nat n) with (p + Z.of_nat (S n)) by lia. done.
    + intros j Hj Hjn. apply Hno; lia.
    + intros HP. apply Hat. lia.
Qed.

Section read_header.
Context (junk : Z → Z) (hdr rest : list Z) (Hfirst : first_eoh hdr rest).

Let P := zlen hdr.
Let stream := hdr ++ CRLFCRLF ++ rest.

(** [D] was received, the end of the header is not in it. *)
Record searching (s : hstate) (D : list Z) : Prop := {
  se_buf : ∃ tl, hs_buf s = D ++ tl;
  se_size : zlen (hs_buf s) = hs_size s;
  se_room : ICAP_HEADER_READSIZE ≤ hs_size s - zlen D;
  se_pos : readed s = zlen D ∧ buf_end s = zlen D;
  se_start : startsearch s = - Z.min 3 (zlen D);
  se_conn : Forall is_data (hs_conn s);
  se_stream : D ++ fut_of (hs_conn s) = stream;
  se_more : zlen D < P + 4
}.

(** The end was found. *)
Record header_found (s : hstate) (D : list Z) : Prop := {
  hf_buf : ∃ tl, hs_buf s = D ++ tl;
  hf_size : zlen (hs_buf s) = hs_size s;
  hf_pos : readed s = zlen D ∧ buf_end s = P + 2;
  hf_conn : Forall is_data (hs_conn s);
  hf_stream : D ++ fut_of (hs_conn s) = stream;
  hf_enough : P + 4 ≤ zlen D
}.

Lemma slice_prefix (D tl F : list Z) j n :
  D ++ F = stream → 0 ≤ j → 0 ≤ n → j + n ≤ zlen D → slice (D ++ tl) j n = slice stream j n.
Proof. intros <- Hj Hn Hle. rewrite !slice_app_l by lia. done. Qed.

Lemma slice_eoh : slice stream P 4 = CRLFCRLF.
Proof.
  unfold stream, P. rewrite slice_app_r by lia. rewrite Z.sub_diag. done.
Qed.

(** After [d] was put behind [D]. *)
Lemma search_step_spec s D d :
  (∃ tl, hs_buf s = D ++ d ++ tl) → zlen (hs_buf s) = hs_size s → zlen (D ++ d) ≤ hs_size s →
  readed s = zlen (D ++ d) → buf_end s = zlen D → startsearch s = - Z.min 3 (zlen D) →
  Forall is_data (hs_conn s) → (D ++ d) ++ fut_of (hs_conn s) = stream → zlen D < P + 4 → d ≠ [] →
  ∃ x, search_step junk true (zlen d) s = Ret x ∧
    match x with
    | inl (st, s') => st = EC_100 ∧ header_found s' (D ++ d) ∧ hs_conn s' = hs_conn s
    | inr s' => searching s' (D ++ d) ∧ hs_conn s' = hs_conn s
    end.
Proof using Hfirst.
  intros [tl Hb] Hz Hfit Hrd He Hss Hc Hst Hlt Hd. unfold search_step.
  assert (Hd0 : 0 < zlen d) by (destruct d; [done|zlia]).
  pose proof (zlen_nonneg D). pose proof (zlen_nonneg hdr) as HP. fold P in HP.
  rewrite He, Hss, Hb. set (p := zlen D + - Z.min 3 (zlen D)).
  assert (HpP : p ≤ P) by (unfold p; lia).
  rewrite (find_eoh_spec _ P).
  - replace (p + Z.of_nat (Z.to_nat (zlen d - 3 - - Z.min 3 (zlen D))))
      with (Z.max p (zlen (D ++ d) - 3)) by (unfold p; zlia).
    destruct (Z.ltb_spec P (Z.max p (zlen (D ++ d) - 3))) as [Hin|Hout]; cbn [obind].
    + eexists. split; [done|]. cbn. split; [done|]. split; [|done].
      split; cbn; try done; [exists tl; by_app|by rewrite <- Hb|lia].
    + unfold icap_header_check_realloc, ICAP_HEADER_READSIZE.
      assert (HD : zlen (D ++ d) < P + 4) by lia.
      assert (Hs3 : (if -3 <? - Z.min 3 (zlen D) then if 3 <? readed s then -3 else - readed s
                     else - Z.min 3 (zlen D)) = - Z.min 3 (zlen (D ++ d))).
      { rewrite Hrd. repeat case_cmp; zlia. }
      rewrite Hs3.
      destruct (Z.ltb_spec (hs_size s - readed s) 512); cbn.
      * eexists. split; [done|]. cbn. split; [|done]. split; cbn; try done.
        -- unfold grow. exists (tl ++ fresh junk (zlen (D ++ d ++ tl)) (hs_size s + 512)). by_app.
        -- rewrite Hb in Hz. rewrite zlen_grow; lia.
        -- unfold ICAP_HEADER_READSIZE. lia.
      * eexists. split; [done|]. cbn. split; [|done]. split; cbn; try done.
        -- exists tl. by_app.
        -- by rewrite Hb in Hz.
        -- unfold ICAP_HEADER_READSIZE. lia.
  - unfold p. lia.
  - rewrite Hb in Hz. unfold p. zlia.
  - intros j Hj Hjn. replace (D ++ d ++ tl) with ((D ++ d) ++ tl) by by_app.
    rewrite (slice_prefix (D ++ d) tl _ j 4 Hst) by (unfold p in *; zlia). apply Hfirst. unfold p, P in *. lia.
  - done.
  - intros HPn. replace (D ++ d ++ tl) with ((D ++ d) ++ tl) by by_app.
    rewrite (slice_prefix (D ++ d) tl _ P 4 Hst) by (unfold p in *; zlia). apply slice_eoh.
Qed.

Lemma header_loop_spec fuel s D :
  searching s D → zlen (fut_of (hs_conn s)) + zlen (hs_conn s) < Z.of_nat fuel →
  ∃ s' D', header_loop junk fuel true s = Ret (Some EC_100, s') ∧ header_found s' D' ∧
    zlen (fut_of (hs_conn s')) + zlen (hs_conn s') ≤ zlen (fut_of (hs_conn s)) + zlen (hs_conn s).
Proof using Hfirst.
  revert s D. induction fuel as [|fuel IH]; intros s D Hs Hf; [zlia|].
  pose proof Hs as [[tl Hb] Hz Hroom [Hrd He] Hss Hc Hst Hlt]. cbn [header_loop].
  assert (Hne : hs_conn s ≠ []).
  { intros E. rewrite E in Hst. apply (f_equal zlen) in Hst. unfold stream, CRLFCRLF in Hst.
    cbn in Hst. unfold P in Hlt. zlia. }
  rewrite wait_data by done. cbn [Z.ltb Z.compare].
  destruct (read_nonblock_data (hs_conn s) ICAP_HEADER_READSIZE) as (d & c & -> & Hdl & Hc' & Hfut & Hms);
    [done|done|done|].
  pose proof (zlen_nonneg d). solve_cmp.
  destruct (Z.eqb_spec (zlen d) 0) as [Hd0|Hd0].
  - assert (d = []) as -> by (destruct d; [done|zlia]).
    destruct (IH (mkHstate (hs_buf s) (hs_size s) c (hs_bytes_in s) (readed s) (buf_end s) (startsearch s)) D) as (s' & D' & Hrun & Hfd & Hle).
    + split; cbn [hs_buf hs_size hs_conn readed buf_end startsearch]; try done; [by exists tl|]. cbn [app] in Hfut. by rewrite <- Hfut.
    + cbn [hs_conn]. lia.
    + exists s', D'. split; [exact Hrun|]. split; [done|]. cbn [hs_conn] in Hle. lia.
  - rewrite He, Hb. rewrite Hb in Hz.
    replace (D ++ tl) with (D ++ tl ++ []) by (by rewrite app_nil_r).
    rewrite write_bytes_app by zlia. cbn [obind]. rewrite app_nil_r.
    destruct (search_step_spec
      (mkHstate (D ++ d ++ drop (length d) tl) (hs_size s) c (to_u64 (hs_bytes_in s + zlen d))
         (readed s + zlen d) (zlen D) (startsearch s)) D d)
      as (x & -> & Hx); cbn [hs_buf hs_size hs_conn readed buf_end startsearch]; try done.
    + by eexists.
    + rewrite !zlen_app, zlen_drop. unfold zlen in *. rewrite length_app in Hz. lia.
    + zlia.
    + rewrite Hrd. zlia.
    + by rewrite <- app_assoc, <- Hfut.
    + by intros ->.
    + destruct x as [[st s']|s']; cbn [obind].
      * destruct Hx as (-> & Hx & Hcx). exists s', (D ++ d). split; [done|]. split; [done|]. rewrite Hcx. cbn [hs_conn]. lia.
      * destruct Hx as [Hx Hcx]. destruct (IH s' (D ++ d) Hx) as (s2 & D2 & Hrun & Hfd & Hle); rewrite Hcx in *; cbn [hs_conn] in *; [lia|].
        exists s2, D2. split; [done|]. split; [done|]. lia.
Qed.
End read_header.

(** ** A well formed header block *)

Lemma slice_head (l r : list Z) j n :
  0 ≤ j < zlen l → 0 < n → ∃ x t, l !! Z.to_nat j = Some x ∧ slice (l ++ r) j n = x :: t.
Proof.
  intros Hj Hn. destruct (lookup_lt_is_Some_2 l (Z.to_nat j)) as [x Hx]; [unfold zlen in Hj; lia|].
  unfold slice. rewrite drop_app_le by (unfold zlen in Hj; lia).
  rewrite (drop_S l x (Z.to_nat j) Hx). cbn [app].
  destruct (Z.to_nat n) eqn:E; [lia|]. cbn. by eexists _, _.
Qed.

Lemma no_early_eoh ls rest :
  Forall clean_line ls →
  ∀ j, 0 ≤ j < zlen (wire ls) - 2 → slice (wire ls ++ CRLF ++ rest) j 4 ≠ CRLFCRLF.
Proof.
  induction ls as [|l ls IH]; intros Hls j Hj; [change (zlen (wire [])) with 0 in Hj; lia|].
  apply Forall_cons_1 in Hls as [[Hl _] Hls]. rewrite wire_cons in *.
  replace ((l ++ CR :: LF :: wire ls) ++ CRLF ++ rest) with (l ++ CR :: LF :: wire ls ++ CRLF ++ rest) by by_app.
  destruct (Z.lt_ge_cases j (zlen l)) as [Hlt|Hge].
  - destruct (slice_head l (CR :: LF :: wire ls ++ CRLF ++ rest) j 4) as (x & t & Hx & ->); [lia..|].
    destruct (Forall_lookup_1 _ _ _ _ Hl Hx) as (_ & Hx' & _). by intros [= -> _].
  - rewrite slice_app_r by done. set (i := j - zlen l).
    assert (Hi : 0 ≤ i < zlen (wire ls)) by (unfold i; zlia).
    destruct ls as [|k ls]; [change (zlen (wire [])) with 0 in Hi; lia|].
    destruct (decide (i = 0)) as [->|H0].
    + apply Forall_cons_1 in Hls as [[Hk (c & k' & -> & _)] _]. rewrite wire_cons.
      apply Forall_cons_1 in Hk as [(_ & Hc & _) _]. by intros [= -> _].
    + destruct (decide (i = 1)) as [->|H1]; [done|].
      replace (CR :: LF :: wire (k :: ls) ++ CRLF ++ rest) with ([CR; LF] ++ wire (k :: ls) ++ CRLF ++ rest) by done.
      rewrite slice_app_r by zlia. change (zlen [CR; LF]) with 2. apply IH; [done|].
      unfold i in *. zlia.
Qed.

Lemma wire_first_eoh ls rest :
  Forall clean_line ls → ls ≠ [] →
  ∃ hdr, wire ls = hdr ++ CRLF ∧ first_eoh hdr rest.
Proof.
  intros Hls Hne. destruct ls as [|l ls]; [done|].
  destruct (wire_last l ls) as (w & Hw & _). exists w. split; [done|].
  intros j Hj. pose proof (no_early_eoh (l :: ls) rest Hls j) as H. rewrite Hw in H.
  replace (w ++ CRLFCRLF ++ rest) with ((w ++ [CR; LF]) ++ CRLF ++ rest) by by_app.
  apply H. zlia.
Qed.

(** A request whose network block is empty and whose header list can take a first read. *)
Definition ready (r : reader) (h : ci_headers_list_t) : Prop :=
  pstrblock_read_len (rd_stream r) = 0 ∧ Forall is_data (rd_conn r) ∧
  zlen (buf h) = bufsize h ∧ ICAP_HEADER_READSIZE ≤ bufsize h ∧ 1 ≤ size h.

(** The bytes received and not yet consumed: the read block, then the network. *)
Definition unread (r : reader) : list Z :=
  slice (block_mem r) (pstrblock_read (rd_stream r)) (pstrblock_read_len (rd_stream r)) ++
  fut_of (rd_conn r).

Lemma read_icap_header_spec junk pipelining fuel r h ls rest :
  ready r h → Forall clean_line ls → ls ≠ [] → fut_of (rd_conn r) = wire ls ++ CRLF ++ rest →
  zlen (fut_of (rd_conn r)) + zlen (rd_conn r) < Z.of_nat fuel →
  ∃ h' r' tl, ci_read_icap_header junk pipelining fuel true r h = Ret (EC_100, h', r') ∧
    buf h' = wire ls ++ CRLF ++ tl ∧ bufused h' = zlen (wire ls) ∧ bufsize h' = zlen (buf h') ∧
    size h' = size h ∧ unread r' = rest ∧ rd_loc r' = BHeader ∧ rd_hdr r' = buf h' ∧
    Forall is_data (rd_conn r') ∧ request_bytes_in (rd_stream r') = zlen (wire ls) + 2 ∧
    pstrblock_read (rd_stream r') = zlen (wire ls) + 2 ∧ 0 ≤ pstrblock_read_len (rd_stream r') ∧
    zlen (wire ls) + 2 + pstrblock_read_len (rd_stream r') ≤ zlen (buf h') ∧
    zlen (fut_of (rd_conn r')) + zlen (rd_conn r') ≤ zlen (fut_of (rd_conn r)) + zlen (rd_conn r).
Proof.
  intros (Hlen & Hdata & Hz & Hsz & H1) Hls Hne Hfut Hf.
  destruct (wire_first_eoh ls rest Hls Hne) as (hdr & Hw & Hfirst).
  unfold ci_read_icap_header. rewrite Hlen. rewrite andb_false_r.
  destruct (header_loop_spec junk hdr rest Hfirst fuel
    (mkHstate (buf h) (bufsize h) (rd_conn r) (rd_bytes_in r) 0 0 0) [])
    as (s & D & -> & [[tl Hb] Hz' [Hrd He] Hc Hst Hen] & Hms).
  { split; cbn [hs_buf hs_size hs_conn readed buf_end startsearch]; try done.
    - by exists (buf h).
    - rewrite zlen_nil. lia.
    - rewrite Hfut, Hw. unfold CRLF, CRLFCRLF. by_app.
    - zlia. }
  { done. }
  cbn [obind finish_header].
  assert (HD : ∃ got, D = (wire ls ++ CRLF) ++ got ∧ rest = got ++ fut_of (hs_conn s)).
  { assert (Hz4 : zlen D = zlen (wire ls) + 2 + (zlen D - zlen hdr - 4)) by (rewrite Hw; unfold CRLF; zlia).
    destruct (split_at D (zlen (wire ls ++ CRLF))) as (a & b & -> & Ha).
    { rewrite Hw. unfold CRLF. zlia. }
    exists b. replace (hdr ++ CRLFCRLF ++ rest) with ((wire ls ++ CRLF) ++ rest) in Hst
      by (rewrite Hw; unfold CRLF, CRLFCRLF; by_app).
    rewrite <- app_assoc in Hst. apply app_inj_1 in Hst as [-> ->]; [done|].
    unfold zlen in Ha. lia. }
  destruct HD as (got & -> & Hrest).
  assert (Hwz : zlen (wire ls) = zlen hdr + 2) by (rewrite Hw; unfold CRLF; zlia).
  eexists _, _, (got ++ tl). split; [done|].
  cbn [buf bufused bufsize size rd_loc rd_hdr rd_conn rd_stream request_bytes_in pstrblock_read
       pstrblock_read_len].
  split; [rewrite Hb; by_app|]. split; [lia|]. split; [lia|]. split; [done|].
  split; [|split_and!; try done; try lia; rewrite ?Hb, Hrd, He; unfold CRLF; zlia].
  unfold unread. cbn [rd_stream rd_conn pstrblock_read pstrblock_read_len]. unfold block_mem. cbn [rd_loc rd_hdr].
  rewrite Hb, Hrd, He, Hrest. f_equal.
  replace (((wire ls ++ CRLF) ++ got) ++ tl) with ((wire ls ++ CRLF) ++ got ++ tl) by by_app.
  rewrite slice_app_r by (unfold CRLF; zlia). rewrite slice_app_l by (unfold CRLF; zlia).
  replace (zlen hdr + 2 + 2 - zlen (wire ls ++ CRLF)) with 0 by (unfold CRLF; zlia).
  apply slice_all. unfold CRLF. zlia.
Qed.

(** C14: however the network cuts it into reads, a header block of well formed lines is read
    and unpacked into exactly these lines, and the bytes that follow the empty line are what
    the request still has to consume. *)
Theorem icap_header_read_any_cut junk pipelining fuel r h ls rest :
  ready r h → Forall clean_line ls → ls ≠ [] → fut_of (rd_conn r) = wire ls ++ CRLF ++ rest →
  zlen (fut_of (rd_conn r)) + zlen (rd_conn r) < Z.of_nat fuel →
  ∃ h1 r1 h2 tl, ci_read_icap_header junk pipelining fuel true r h = Ret (EC_100, h1, r1) ∧
    ci_headers_unpack true h1 = Ret (EC_100, h2) ∧ hrepr h2 ls tl ∧ unread r1 = rest.
Proof.
  intros Hrd Hls Hne Hfut Hf.
  destruct (read_icap_header_spec junk pipelining fuel r h ls rest Hrd Hls Hne Hfut Hf)
    as (h1 & r1 & tl & Hread & Hb & Hu & Hz & Hs & Hun & _).
  destruct Hrd as (_ & _ & _ & _ & H1).
  destruct (ci_headers_unpack_spec h1 ls (CRLF ++ tl)) as (h2 & Hunp & Hr2); try done; [lia|].
  by exists h1, r1, h2, (CRLF ++ tl).
Qed.

Definition sample_reader (evs : list net_event) : reader :=
  mkReader (mkRstream 0 0 0 0 0 false (-1) 0 0 0) BNull [] (fresh (λ _, 7) 0 BUFSIZE) evs 0 ci_buf_init.

Definition sample_evs : list net_event :=
  [EvData (bytes "OPTIONS icap://h/s ICAP/1.0" ++ [CR]); EvData []; EvData [LF];
   EvData (bytes "Host: h" ++ CRLF ++ [CR]); EvData ([LF] ++ bytes "next")].

Lemma icap_header_read_any_cut_witness :
  ∃ h1 r1 h2 tl,
    ci_read_icap_header (λ _, 7) true 100 true (sample_reader sample_evs) sample_empty = Ret (EC_100, h1, r1) ∧
    ci_headers_unpack true h1 = Ret (EC_100, h2) ∧
    hrepr h2 [bytes "OPTIONS icap://h/s ICAP/1.0"; bytes "Host: h"] tl ∧ unread r1 = bytes "next".
Proof.
  apply (icap_header_read_any_cut (λ _, 7) true 100 (sample_reader sample_evs) sample_empty
    [bytes "OPTIONS icap://h/s ICAP/1.0"; bytes "Host: h"] (bytes "next")); try done.
  - split; [done|]. split; [by repeat constructor|]. by vm_compute.
  - repeat constructor; try done; by eexists _, _.
Defined.

(** ** Encapsulated headers *)

Lemma encaps_read_loop_spec fuel : ∀ (X Y tl F : list Z) c bi,
  Forall is_data c → fut_of c = Y ++ F → zlen Y ≤ zlen tl →
  zlen (fut_of c) + zlen c < Z.of_nat fuel →
  ∃ tl' c' bi', encaps_read_loop fuel (X ++ tl) (zlen X) (zlen Y) c bi =
      Ret (Some (X ++ Y ++ tl', zlen X + zlen Y, c', bi')) ∧
    Forall is_data c' ∧ fut_of c' = F ∧ zlen (X ++ Y ++ tl') = zlen (X ++ tl) ∧
    zlen (fut_of c') + zlen c' ≤ zlen (fut_of c) + zlen c.
Proof.
  induction fuel as [|fuel IH]; intros X Y tl F c bi Hc Hfut Htl Hf; [zlia|].
  cbn [encaps_read_loop]. destruct (Z.ltb_spec 0 (zlen Y)) as [HY|HY].
  2:{ assert (Y = []) as -> by (destruct Y; [done|zlia]). exists tl, c, bi. cbn [app] in *.
      rewrite zlen_nil, Z.add_0_r. done. }
  assert (Hne : c ≠ []) by (intros ->; destruct Y; [change (zlen []) with 0 in HY; lia|done]).
  rewrite wait_data by done. cbn [Z.ltb Z.compare].
  destruct (read_nonblock_data c (zlen Y)) as (d & c1 & -> & Hdl & Hc1 & Hfut1 & Hms); [done|done|lia|].
  pose proof (zlen_nonneg d). solve_cmp.
  assert (∃ Y', Y = d ++ Y' ∧ fut_of c1 = Y' ++ F) as (Y' & -> & HF).
  { destruct (split_at Y (zlen d)) as (a & b & -> & Ha); [lia|]. exists b.
    rewrite Hfut, <- app_assoc in Hfut1. apply app_inj_1 in Hfut1 as [-> ?]; [done|unfold zlen in Ha; lia]. }
  pose proof (write_bytes_app X tl [] d (zlen X) eq_refl ltac:(zlia)) as Hw.
  rewrite !app_nil_r in Hw. rewrite Hw. cbn [obind]. clear Hw.
  destruct (IH (X ++ d) Y' (drop (length d) tl) F c1 (to_u64 (bi + zlen d)) Hc1 HF)
    as (tl' & c' & bi' & Hrun & Hc' & HF' & Hz' & Hms').
  { rewrite zlen_drop. unfold zlen in *. rewrite length_app in Htl. lia. }
  { lia. }
  exists tl', c', bi'. replace (zlen (d ++ Y') - zlen d) with (zlen Y') by zlia.
  replace (X ++ d ++ drop (length d) tl) with ((X ++ d) ++ drop (length d) tl) by by_app.
  replace (zlen X + zlen d) with (zlen (X ++ d)) by zlia. rewrite Hrun.
  split; [do 5 f_equal; [by_app|zlia]|]. split; [done|]. split; [done|]. split; [|lia].
  revert Hz'. rewrite !zlen_app, zlen_drop. rewrite zlen_app in Htl. pose proof (zlen_nonneg Y').
  change (Z.of_nat (length d)) with (zlen d). lia.
Qed.

(** The read block is a part of its object. *)
Definition block_ok (r : reader) : Prop :=
  0 ≤ pstrblock_read_len (rd_stream r) ∧
  (0 < pstrblock_read_len (rd_stream r) →
   0 ≤ pstrblock_read (rd_stream r) ∧
   pstrblock_read (rd_stream r) + pstrblock_read_len (rd_stream r) ≤ zlen (block_mem r)).

Lemma setsize_ok junk h n :
  zlen (buf h) = bufsize h → 0 ≤ n →
  ∃ h' tl, ci_headers_setsize junk true h n = (1, h') ∧ buf h' = buf h ++ tl ∧ zlen (buf h') = bufsize h' ∧
    n < bufsize h' ∧ size h' = size h ∧ packed h' = packed h ∧ headers h' = headers h ∧ bufused h' = bufused h.
Proof.
  intros Hz Hn. unfold ci_headers_setsize. destruct (Z.ltb_spec n (bufsize h)).
  - exists h, []. by rewrite app_nil_r.
  - eexists _, _. split; [done|]. cbn [buf bufsize size packed headers].
    split; [done|]. unfold HEADSBUFSIZE, BUFSIZE. rewrite Z.quot_div_nonneg by lia.
    pose proof (Z.mul_succ_div_gt n 4096 ltac:(lia)).
    split; [apply zlen_grow; lia|]. split; [lia|done].
Qed.

(** The use of the read block: [X] of the [W] wanted is copied, [Y] is still to come from the
    network. *)
Lemma encaps_block_step r h (W rest : list Z) :
  block_ok r → zlen W ≤ zlen (buf h) → unread r = W ++ rest →
  let len := pstrblock_read_len (rd_stream r) in
  let n := if 0 <? len then (if len <? zlen W then len else zlen W) else 0 in
  let r1 := if 0 <? len then
      if zlen W <=? len then with_stream (set_block (pstrblock_read (rd_stream r) + n) (len - n) (rd_stream r)) r
      else mkReader (set_block 0 0 (rd_stream r)) BNull (rd_hdr r) (rd_rbuf r) (rd_conn r) (rd_bytes_in r)
             (rd_preview r)
    else r in
  ∃ X Y F tl, W = X ++ Y ∧ n = zlen X ∧
    (if 0 <? len then
       let* d := read_bytes (block_mem r) (pstrblock_read (rd_stream r)) n in write_bytes (buf h) 0 d
     else Ret (buf h)) = Ret (X ++ tl) ∧ zlen (X ++ tl) = zlen (buf h) ∧
    rd_conn r1 = rd_conn r ∧ fut_of (rd_conn r) = Y ++ F ∧ block_ok r1 ∧
    slice (block_mem r1) (pstrblock_read (rd_stream r1)) (pstrblock_read_len (rd_stream r1)) ++ F = rest.
Proof.
  intros [Hl Hblk] Hfit Hun len n r1. unfold unread in Hun. unfold r1, n. clear r1 n. fold len in Hl, Hblk, Hun |- *.
  destruct (Z.ltb_spec 0 len) as [Hpos|H0].
  2:{ exists [], W, rest, (buf h). rewrite slice_nil in Hun |- * by lia. cbn [app] in *.
      by split_and!. }
  specialize (Hblk Hpos). set (blk := slice (block_mem r) (pstrblock_read (rd_stream r)) len) in *.
  assert (Hbz : zlen blk = len) by (unfold blk; rewrite zlen_slice; lia).
  assert (Hcopy : ∀ n, 0 ≤ n ≤ len → n ≤ zlen W →
    ∃ tl, (let* d := read_bytes (block_mem r) (pstrblock_read (rd_stream r)) n in write_bytes (buf h) 0 d) =
      Ret (take (Z.to_nat n) blk ++ tl) ∧ zlen (take (Z.to_nat n) blk ++ tl) = zlen (buf h)).
  { intros n Hn HnW. rewrite read_bytes_ok by lia. cbn [obind].
    assert (Hsl : slice (block_mem r) (pstrblock_read (rd_stream r)) n = take (Z.to_nat n) blk).
    { unfold blk, slice. rewrite take_take. f_equal. lia. }
    rewrite Hsl. assert (zlen (take (Z.to_nat n) blk) = n) by zlia.
    rewrite write_bytes_ok by lia. eexists. split; [done|]. rewrite <- (zlen_splice (buf h) 0 (take (Z.to_nat n) blk)); [done|lia|lia]. }
  destruct (Z.leb_spec (zlen W) len) as [HW|HW].
  - rewrite (proj2 (Z.ltb_ge len (zlen W))) by done.
    destruct (Hcopy (zlen W) ltac:(zlia) ltac:(lia)) as (tl & Hc & Hz).
    destruct (split_at blk (zlen W)) as (a & b & Hab & Ha); [zlia|].
    assert (a = W) as ->.
    { rewrite Hab, <- app_assoc in Hun. apply app_inj_1 in Hun as [-> _]; [done|unfold zlen in Ha; lia]. }
    assert (take (Z.to_nat (zlen W)) blk = W) as Ht by (rewrite Hab, zlen_to_nat; by apply take_app_length).
    rewrite Ht in Hc, Hz. exists W, [], (fut_of (rd_conn r)), tl. rewrite app_nil_r.
    split_and!; try done.
    + split; cbn [rd_stream with_stream set_block pstrblock_read pstrblock_read_len]; [lia|].
      change (block_mem (with_stream _ r)) with (block_mem r). pose proof (zlen_nonneg W). lia.
    + cbn [rd_stream with_stream set_block pstrblock_read pstrblock_read_len].
      change (block_mem (with_stream _ r)) with (block_mem r).
      replace (slice (block_mem r) (pstrblock_read (rd_stream r) + zlen W) (len - zlen W)) with b.
      * rewrite Hab, <- app_assoc in Hun. by apply app_inv_head in Hun.
      * assert (slice blk (zlen W) (len - zlen W) = b) as <-.
        { rewrite Hab, slice_app_r, Z.sub_diag by lia. apply slice_all. rewrite Hab in Hbz. zlia. }
        unfold blk. rewrite slice_slice by zlia. done.
  - rewrite (proj2 (Z.ltb_lt len (zlen W))) by done.
    destruct (Hcopy len ltac:(lia) ltac:(lia)) as (tl & Hc & Hz).
    destruct (split_at W len) as (a & b & -> & Ha); [lia|].
    rewrite <- app_assoc in Hun. apply app_inj_1 in Hun as [Hblk' Hfut]; [|unfold zlen in Ha, Hbz; lia].
    assert (take (Z.to_nat len) blk = a) as Ht by (rewrite Hblk', <- Ha, zlen_to_nat; apply firstn_all).
    rewrite Ht in Hc, Hz. exists a, b, rest, tl. by split_and!.
Qed.

(** A block of lines read from what is unread. *)
Lemma read_encaps_header_spec junk buggy fuel r h ls rest :
  block_ok r → Forall is_data (rd_conn r) → zlen (buf h) = bufsize h →
  ls ≠ [] → unread r = wire ls ++ CRLF ++ rest →
  zlen (fut_of (rd_conn r)) + zlen (rd_conn r) < Z.of_nat fuel →
  ∃ h' r' tl, read_encaps_header junk buggy fuel true r h (zlen (wire ls ++ CRLF)) =
      Ret (Some EC_100, h', r') ∧
    buf h' = wire ls ++ CRLF ++ tl ∧ bufused h' = zlen (wire ls) ∧ bufsize h' = zlen (buf h') ∧
    size h' = size h ∧ unread r' = rest ∧ block_ok r' ∧ Forall is_data (rd_conn r') ∧
    zlen (fut_of (rd_conn r')) + zlen (rd_conn r') ≤ zlen (fut_of (rd_conn r)) + zlen (rd_conn r).
Proof.
  intros Hblk Hdata Hz Hne Hun Hf. unfold read_encaps_header. set (W := wire ls ++ CRLF) in *.
  set (k := if buggy then 2 else 0). assert (0 ≤ k) by (unfold k; by destruct buggy).
  pose proof (zlen_nonneg W).
  destruct (setsize_ok junk h (zlen W + k) Hz ltac:(lia)) as (h1 & t1 & -> & Hb1 & Hz1 & Hlt1 & Hs1 & _).
  cbn [Z.eqb].
  destruct (encaps_block_step r h1 W rest Hblk ltac:(lia) ltac:(unfold W; rewrite Hun; by_app))
    as (X & Y & F & tl & HW & Hn & Hcp & Htl & Hconn & Hfut & Hblk1 & Hrest).
  rewrite Hcp. cbn [obind].
  set (n := if 0 <? _ then _ else 0) in *.
  set (r1 := if 0 <? pstrblock_read_len (rd_stream r) then _ else r) in *. rewrite Hconn, Hn.
  assert (HzX : zlen W = zlen X + zlen Y) by (rewrite HW; zlia).
  replace (zlen W - zlen X) with (zlen Y) by lia.
  destruct (encaps_read_loop_spec fuel X Y tl F (rd_conn r) (rd_bytes_in r1) Hdata Hfut)
    as (tl' & c' & bi' & Hrun & Hc' & HF & Hz' & Hms); [zlia|done|].
  rewrite Hrun. cbn [obind].
  assert (HWw : ∃ w, W = w ++ CRLFCRLF).
  { destruct ls as [|l ls]; [done|]. destruct (wire_last l ls) as (w & Hw & _). exists w.
    unfold W. rewrite Hw. unfold CRLF, CRLFCRLF. by_app. }
  destruct HWw as [w Hw].
  replace (X ++ Y ++ tl') with (w ++ CRLFCRLF ++ tl') by (rewrite (app_assoc X Y), <- HW, Hw; by_app).
  assert (Hww : zlen X + zlen Y = zlen w + 4) by (rewrite <- HzX, Hw; unfold CRLFCRLF; zlia).
  unfold cmp_at at 1. pose proof (zlen_nonneg w).
  rewrite (proj2 (Z.ltb_ge (zlen X + zlen Y - 4) 0)) by lia.
  rewrite drop_zlen by lia. rewrite str_prefix_app. cbn [scan obind].
  assert (HWz : zlen W = zlen (wire ls) + 2) by (unfold W, CRLF; zlia).
  assert (Hbuf : w ++ CRLFCRLF ++ tl' = wire ls ++ CRLF ++ tl').
  { replace (w ++ CRLFCRLF ++ tl') with (W ++ tl') by (rewrite Hw; by_app). unfold W. by_app. }
  eexists _, _, tl'. split; [done|].
  cbn [buf bufused bufsize size rd_conn]. split; [exact Hbuf|]. split; [lia|].
  split. { rewrite app_assoc, <- Hw. rewrite HW, <- app_assoc. lia. }
  split; [done|]. split; [|split; [|done]].
  - unfold unread. cbn [rd_stream rd_conn pstrblock_read pstrblock_read_len]. rewrite HF. exact Hrest.
  - exact Hblk1.
Qed.

(** A size of less than four bytes for an encapsulated header, which the client
    chooses with the offsets of the Encapsulated line and which may be negative, makes
    [read_encaps_header] access memory outside its buffers. *)
Theorem read_encaps_header_small_size junk buggy fuel r h sz :
  sz < 4 → sz + 2 < bufsize h → sz ≤ pstrblock_read_len (rd_stream r) → 0 ≤ pstrblock_read_len (rd_stream r) →
  read_encaps_header junk buggy (S fuel) true r h sz = UB.
Proof.
  intros Hsz Hbs Hle Hl. unfold read_encaps_header, ci_headers_setsize.
  rewrite (proj2 (Z.ltb_lt _ _)) by (destruct buggy; lia). cbn [Z.eqb].
  destruct (Z.ltb_spec 0 (pstrblock_read_len (rd_stream r))) as [Hpos|H0].
  - rewrite (proj2 (Z.ltb_ge _ sz)) by lia.
    destruct (read_bytes _ _ _) as [d| | |] eqn:Hrd; try (unfold read_bytes in Hrd; by case_match).
    cbn [obind]. destruct (write_bytes _ _ _) as [m| | |] eqn:Hwr; try (unfold write_bytes in Hwr; by case_match).
    cbn [obind encaps_read_loop]. rewrite Z.sub_diag. cbn [Z.ltb Z.compare obind].
    unfold cmp_at. by rewrite (proj2 (Z.ltb_lt (sz - 4) 0)) by lia.
  - cbn [obind encaps_read_loop]. rewrite (proj2 (Z.ltb_ge 0 (sz - 0))) by lia. done.
Qed.

Lemma read_encaps_header_small_size_witness :
  read_encaps_header (λ _, 7) true 10 true (sample_reader sample_evs) sample_empty (-100) = UB.
Proof.
  apply (read_encaps_header_small_size (λ _, 7) true 9); vm_compute; congruence.
Defined.
