(* ===== verification/ParseRequest.v ===== *)
(** * Parsing a request (request.c, service.c)

    The request line ([get_method], [parse_request]) with the lookup of the service, the ICAP
    headers the server understands ([parse_header]), and the encapsulated headers
    ([parse_encaps_headers]).  Pointers into the header buffer are the suffix of its memory from
    the pointer on; the strings of the request ([req_server], [service], [args]) are their
    characters before the NUL.  The service and alias tables, the default service
    and the configuration are parameters. *)

From stdpp Require Import base list list_numbers strings numbers option.
From Stdlib Require Import ZArith Lia.
From S2P Require Import Prelude CString Chunks ReadBody Headers Encapsulated IcapHeader.

Definition CI_MAXHOSTNAMELEN : Z := 256.
Definition MAX_SERVICE_NAME : Z := 63.
Definition MAX_SERVICE_ARGS : Z := 255.

(** ** The service tables *)

Record ci_service_module := mkService { mod_name : list Z; mod_type : Z }.

Record service_alias_t := mkAlias { alias : list Z; alias_service : ci_service_module; alias_args : list Z }.

Fixpoint find_service (l : list ci_service_module) (name : list Z) : option ci_service_module :=
  match l with
  | [] => None
  | s :: l' => if bool_decide (mod_name s = name) then Some s else find_service l' name
  end.

Fixpoint find_service_alias (l : list service_alias_t) (name : list Z) : option service_alias_t :=
  match l with
  | [] => None
  | a :: l' => if bool_decide (alias a = name) then Some a else find_service_alias l' name
  end.

Record tables := mkTables {
  service_list : list ci_service_module;
  service_aliases : list service_alias_t;
  DEFAULT_SERVICE : option (list Z)
}.

(** ** The request *)

Record ci_request := mkReq {
  rtype : Z;
  req_server : list Z;
  service : list Z;
  args : list Z;
  preview : Z;
  keepalive : bool;
  allow204 : bool;
  allow206 : bool;
  current_service_mod : option ci_service_module;
  request_header : ci_headers_list_t;
  rq_encaps : encaps;
  rq_reader : reader
}.

Definition set_type (t : Z) (q : ci_request) : ci_request :=
  mkReq t (req_server q) (service q) (args q) (preview q) (keepalive q) (allow204 q) (allow206 q)
    (current_service_mod q) (request_header q) (rq_encaps q) (rq_reader q).
Definition set_server (s : list Z) (q : ci_request) : ci_request :=
  mkReq (rtype q) s (service q) (args q) (preview q) (keepalive q) (allow204 q) (allow206 q)
    (current_service_mod q) (request_header q) (rq_encaps q) (rq_reader q).
Definition set_service (s : list Z) (q : ci_request) : ci_request :=
  mkReq (rtype q) (req_server q) s (args q) (preview q) (keepalive q) (allow204 q) (allow206 q)
    (current_service_mod q) (request_header q) (rq_encaps q) (rq_reader q).
Definition set_args (a : list Z) (q : ci_request) : ci_request :=
  mkReq (rtype q) (req_server q) (service q) a (preview q) (keepalive q) (allow204 q) (allow206 q)
    (current_service_mod q) (request_header q) (rq_encaps q) (rq_reader q).
Definition set_preview (p : Z) (q : ci_request) : ci_request :=
  mkReq (rtype q) (req_server q) (service q) (args q) p (keepalive q) (allow204 q) (allow206 q)
    (current_service_mod q) (request_header q) (rq_encaps q) (rq_reader q).
Definition set_keepalive (b : bool) (q : ci_request) : ci_request :=
  mkReq (rtype q) (req_server q) (service q) (args q) (preview q) b (allow204 q) (allow206 q)
    (current_service_mod q) (request_header q) (rq_encaps q) (rq_reader q).
Definition set_allow (a4 a6 : bool) (q : ci_request) : ci_request :=
  mkReq (rtype q) (req_server q) (service q) (args q) (preview q) (keepalive q) a4 a6
    (current_service_mod q) (request_header q) (rq_encaps q) (rq_reader q).
Definition set_mod (m : option ci_service_module) (q : ci_request) : ci_request :=
  mkReq (rtype q) (req_server q) (service q) (args q) (preview q) (keepalive q) (allow204 q) (allow206 q)
    m (request_header q) (rq_encaps q) (rq_reader q).
Definition set_encaps (e : encaps) (q : ci_request) : ci_request :=
  mkReq (rtype q) (req_server q) (service q) (args q) (preview q) (keepalive q) (allow204 q) (allow206 q)
    (current_service_mod q) (request_header q) e (rq_reader q).
Definition set_reader (r : reader) (q : ci_request) : ci_request :=
  mkReq (rtype q) (req_server q) (service q) (args q) (preview q) (keepalive q) (allow204 q) (allow206 q)
    (current_service_mod q) (request_header q) (rq_encaps q) r.

(** The request header is stored with the buffer the read block may point into. *)
Definition set_header (h : ci_headers_list_t) (q : ci_request) : ci_request :=
  let r := rq_reader q in
  mkReq (rtype q) (req_server q) (service q) (args q) (preview q) (keepalive q) (allow204 q) (allow206 q)
    (current_service_mod q) h (rq_encaps q)
    (mkReader (rd_stream r) (rd_loc r) (buf h) (rd_rbuf r) (rd_conn r) (rd_bytes_in r) (rd_preview r)).

(** ** The request line *)

(** The method and the rest of the line. *)
Definition get_method (s : list Z) : outcome (Z * list Z) :=
  let* o := scan (str_prefix (bytes "OPTIONS") s) in
  if o : bool then Ret (ICAP_OPTIONS, drop 7 s)
  else
  let* q := scan (str_prefix (bytes "REQMOD") s) in
  if q : bool then Ret (ICAP_REQMOD, drop 6 s)
  else
  let* p := scan (str_prefix (bytes "RESPMOD") s) in
  if p : bool then Ret (ICAP_RESPMOD, drop 7 s) else Ret (-1, s).

(** The text up to a character that satisfies [stop] or the NUL, and what follows it. *)
Definition span (stop : Z → bool) (s : list Z) : outcome (list Z * list Z) :=
  let* (k, r) := scan (skip_while (λ b, negb (stop b) && negb (b =? NUL)) s) in
  Ret (take k s, r).

(** The character a pointer points to. *)
Definition peek (s : list Z) : outcome Z := match s with c :: _ => Ret c | [] => UB end.

Definition skip_blanks (s : list Z) : outcome (list Z) :=
  let* (_, r) := scan (skip_while (λ b, b =? SP) s) in Ret r.

(** The scheme of the URI: the rest of the line after it, [None] when it is not an ICAP one. *)
Definition uri_scheme (s : list Z) : outcome (option (list Z)) :=
  let* a := scan (str_prefix_case (bytes "icap://") s) in
  if a : bool then Ret (Some (drop 7 s))
  else
  let* b := scan (str_prefix_case (bytes "icaps://") s) in
  if b : bool then Ret (Some (drop 8 s)) else Ret None.

(** The arguments after a question mark; the flag is off when no blank ends them. *)
Definition uri_args (q : ci_request) (s : list Z) : outcome (bool * ci_request * list Z) :=
  let* (a, e) := span (λ b, b =? SP) s in
  let* c := peek e in
  if negb (c =? SP) then Ret (false, q, e)
  else
  let sep := negb (zlen (args q) =? 0) && negb (zlen a =? 0) in
  let base := if sep then args q ++ [38] else args q in
  let room := MAX_SERVICE_ARGS - zlen base in
  let len := if zlen a <? room then zlen a else room in
  if len <? 0 then UB
  else Ret (true, set_args (base ++ take (Z.to_nat len) a) q, e).

(** The service name and its arguments, after the slash. *)
Definition uri_service (q : ci_request) (s : list Z) : outcome (bool * ci_request * list Z) :=
  let* (name, e) := span (λ b, (b =? SP) || (b =? 63)) s in
  let name := take (Z.to_nat MAX_SERVICE_NAME) name in
  let q := if negb (zlen name =? 0) then set_service name q else q in
  let* c := peek e in
  if c =? 63 then uri_args q (tail e) else Ret (true, q, e).

(** The version at the end of the line: major and minor, -1 when it is not there. *)
Definition icap_version (s : list Z) : outcome (Z * Z) :=
  let* p := scan (str_prefix (bytes "ICAP/") s) in
  if p : bool then
    let s := drop 5 s in
    let* (v, n) := scan (strtol 10 s) in
    let vmajor := to_int v in
    let s := drop (Z.to_nat n) s in
    let* c := peek s in
    if (0 <? vmajor) && (c =? 46) then
      let s := tail s in
      let* (v, n) := scan (strtol 10 s) in
      Ret (vmajor, if n =? 0 then -1 else to_int v)
    else Ret (vmajor, -1)
  else Ret (-1, -1).

(** The lookup of the service by name, then by alias, and the check of its method. *)
Definition find_request_service (t : tables) (q : ci_request) : ec * ci_request :=
  let q := match DEFAULT_SERVICE t with
           | Some d => if zlen (service q) =? 0 then set_service (take (Z.to_nat MAX_SERVICE_NAME) d) q else q
           | None => q
           end in
  let '(svc, q) :=
    if zlen (service q) =? 0 then (None, q)
    else match find_service (service_list t) (service q) with
         | Some s => (Some s, q)
         | None =>
             match find_service_alias (service_aliases t) (service q) with
             | Some a => (Some (alias_service a),
                          if negb (zlen (alias_args a) =? 0) then set_args (alias_args a) q else q)
             | None => (None, q)
             end
         end in
  let q := set_mod svc q in
  match svc with
  | None => (EC_404, q)
  | Some s =>
      if (Z.land (mod_type s) (rtype q) =? 0) && negb (rtype q =? ICAP_OPTIONS) then (EC_405, q)
      else (EC_100, q)
  end.

Definition parse_request (t : tables) (q : ci_request) (s : list Z) : outcome (ec * ci_request) :=
  let* (ty, s) := get_method s in
  let q := set_type ty q in
  if ty <? 0 then Ret (EC_400, q)
  else
  let* s := skip_blanks s in
  let* u := uri_scheme s in
  match u with
  | None => Ret (EC_400, q)
  | Some s =>
      let* (host, s) := span (λ b, (b =? 47) || (b =? SP)) s in
      let q := set_server (take (Z.to_nat CI_MAXHOSTNAMELEN) host) q in
      let* c := peek s in
      let* (ok, q, s) := if c =? 47 then uri_service q (tail s) else Ret (true, q, s) in
      if negb ok then Ret (EC_400, q)
      else
      let* s := skip_blanks s in
      let* (vmajor, vminor) := icap_version s in
      if (vminor =? -1) || (vmajor <? 1) then Ret (EC_400, q)
      else Ret (find_request_service t q)
  end.

(** ** The other headers *)

(** [strstr(s, lit) != NULL]. *)
Fixpoint infix_of (lit s : list Z) : bool :=
  match str_prefix lit s with
  | Some true => true
  | _ => match s with [] => false | _ :: s' => infix_of lit s' end
  end.

Definition strstr (s lit : list Z) : outcome bool :=
  let* t := scan (cstr s) in Ret (infix_of lit t).

(** Does [strtol] set ERANGE?  The value before it is clamped to a [long]. *)
Definition strtol_erange (base : Z) (s : list Z) : outcome bool :=
  let* (_, s1) := scan (skip_while isspace s) in
  match s1 with
  | [] => UB
  | c :: s1' =>
      let s2 := if (c =? 45) || (c =? 43) then s1' else s1 in
      let* p := scan (hex_prefix base s2) in
      let* (v, _) := scan (scan_digits base 0 0 (drop p s2)) in
      let v := if c =? 45 then - v else v in
      Ret ((v <? LONG_MIN) || (LONG_MAX <? v))
  end.

Definition skip_isspace (s : list Z) : outcome (list Z) :=
  let* (_, r) := scan (skip_while isspace s) in Ret r.

Section parse_header.
Context (junk : Z → Z) (PIPELINING CHECK_FOR_BUGGY_CLIENT : bool).

(** The preview buffer gets 64 bytes more than the preview; the sum is that of two [int]s. *)
Definition parse_preview (a : bool) (q : ci_request) (s : list Z) : outcome ci_request :=
  let* s := skip_isspace s in
  let* (v, _) := scan (strtol 10 s) in
  let* erange := strtol_erange 10 s in
  if erange : bool then Ret q
  else
  let result := to_int v in
  let q := set_preview result q in
  if 0 <=? result then
    if INT_MAX <? result + 64 then UB
    else
    let '(_, b) := ci_buf_reset_size junk a (rd_preview (rq_reader q)) (result + 64) in
    Ret (set_reader (with_preview b (rq_reader q)) q)
  else Ret q.

(** One header line, at [s]; [a] and [ah] are the results of allocations. *)
Definition parse_icap_line (a ah : bool) (q : ci_request) (s : list Z) : outcome (ec * ci_request) :=
  let* is_preview := scan (str_prefix_case (bytes "Preview:") s) in
  if is_preview : bool then let* q := parse_preview a q (drop 8 s) in Ret (EC_100, q)
  else
  let* is_encaps := scan (str_prefix_case (bytes "Encapsulated:") s) in
  if is_encaps : bool then
    let* (st, e) := process_encapsulated junk a ah (rq_encaps q) s in
    Ret (st, set_encaps e q)
  else
  let* is_conn := scan (str_prefix_case (bytes "Connection:") s) in
  if is_conn : bool then
    let* v := skip_isspace (drop 11 s) in
    let* close := scan (str_prefix_case (bytes "close") v) in
    Ret (EC_100, if close : bool then set_keepalive false q else q)
  else
  let* is_allow := scan (str_prefix_case (bytes "Allow:") s) in
  if is_allow : bool then
    let* a4 := strstr (drop 6 s) (bytes "204") in
    let* a6 := strstr (drop 6 s) (bytes "206") in
    Ret (EC_100, set_allow (allow204 q || a4) (allow206 q || a6) q)
  else Ret (EC_100, q).

(** The loop over the header pointers. *)
Fixpoint parse_icap_lines (a ah : bool) (q : ci_request) (m : list Z) (hs : list Z) :
    outcome (ec * ci_request) :=
  match hs with
  | [] => Ret (EC_100, q)
  | p :: hs' =>
      let* (st, q) := parse_icap_line a ah q (drop (Z.to_nat p) m) in
      if bool_decide (st = EC_100) then parse_icap_lines a ah q m hs' else Ret (st, q)
  end.

Definition parse_header (fuel : nat) (a ah : bool) (t : tables) (q : ci_request) : outcome (ec * ci_request) :=
  let* (st, h, r) := ci_read_icap_header junk PIPELINING fuel a (rq_reader q) (request_header q) in
  let q := set_header h (set_reader r q) in
  if negb (bool_decide (st = EC_100)) then Ret (st, q)
  else
  let* (st, h) := ci_headers_unpack a h in
  let q := set_header h q in
  if negb (bool_decide (st = EC_100)) then Ret (st, q)
  else
  match headers h with
  | [] => UB
  | p :: hs =>
      let* (st, q) := parse_request t q (drop (Z.to_nat p) (buf h)) in
      if negb (bool_decide (st = EC_100)) then Ret (st, q)
      else
      let* (st, q) := parse_icap_lines a ah q (buf h) hs in
      if negb (bool_decide (st = EC_100)) then Ret (st, q)
      else
      let* st := check_request (rtype q) (rq_encaps q) in
      Ret (st, q)
  end.

(** ** The encapsulated headers *)

(** The loop from entity [i] on, for at most [n] entities; no code is CI_ERROR. *)
Fixpoint parse_encaps_loop (n : nat) (fuel : nat) (a : bool) (i : Z) (q : ci_request) :
    outcome (option ec * ci_request) :=
  let* e := arr_get (entities (rq_encaps q)) i in
  match e, n with
  | None, _ => Ret (Some EC_100, q)
  | Some _, O => NoFuel
  | Some x, S n' =>
      if ICAP_RES_HDR <? type x then Ret (Some EC_100, q)
      else
      let* nx := arr_get (entities (rq_encaps q)) (i + 1) in
      match nx with
      | None => Ret (Some EC_400, q)
      | Some y =>
          let sz := start y - start x in
          if (sz <? INT_MIN) || (INT_MAX <? sz) then UB
          else
          match entity x with
          | None => UB
          | Some h =>
              let* (st, h, r) := read_encaps_header junk CHECK_FOR_BUGGY_CLIENT fuel a (rq_reader q) h sz in
              let put h q : outcome ci_request :=
                let* es := arr_set (entities (rq_encaps q)) i (Some (mkEntity (start x) (type x) (Some h))) in
                Ret (set_encaps (mkEncaps es (trash_entities (rq_encaps q)) (hasbody (rq_encaps q))) q) in
              let* q := put h (set_reader r q) in
              if negb (bool_decide (st = Some EC_100)) then Ret (st, q)
              else
              let* (st, h) := ci_headers_unpack a h in
              let* q := put h q in
              if negb (bool_decide (st = EC_100)) then Ret (Some st, q)
              else parse_encaps_loop n' fuel a (i + 1) q
          end
      end
  end.

Definition parse_encaps_headers (fuel : nat) (a : bool) (q : ci_request) : outcome (option ec * ci_request) :=
  parse_encaps_loop 5 fuel a 0 q.

End parse_header.

(** ** The request line is parsed into its parts *)

Lemma skip_while_app f (x : list Z) c s :
  Forall (λ b, f b = true) x → f c = false → skip_while f (x ++ c :: s) = Some (length x, c :: s).
Proof.
  intros Hx Hc. induction Hx as [|b x Hb Hx IH]; cbn [app skip_while length].
  - by rewrite Hc.
  - by rewrite Hb, IH.
Qed.

Lemma span_spec stop (x : list Z) c s :
  Forall (λ b, stop b = false ∧ b ≠ NUL) x → stop c = true ∨ c = NUL →
  span stop (x ++ c :: s) = Ret (x, c :: s).
Proof.
  intros Hx Hc. unfold span. rewrite (skip_while_app _ x c s).
  - cbn. by rewrite take_app_length.
  - eapply Forall_impl; [|exact Hx]. intros b [-> Hb]. cbn. by rewrite (proj2 (Z.eqb_neq _ _) Hb).
  - destruct Hc as [-> | ->]; [done|]. cbn. by rewrite andb_false_r.
Qed.

(** Texts without certain characters. *)
Definition without (stop : Z → bool) (x : list Z) : Prop := Forall (λ b, stop b = false ∧ b ≠ NUL) x.

Definition method_name (m : Z) : list Z :=
  if m =? ICAP_OPTIONS then bytes "OPTIONS" else if m =? ICAP_REQMOD then bytes "REQMOD"
  else bytes "RESPMOD".

Definition is_method (m : Z) : Prop := m = ICAP_OPTIONS ∨ m = ICAP_REQMOD ∨ m = ICAP_RESPMOD.

(** The arguments with their question mark, none when there are none. *)
Definition args_text (a : list Z) : list Z := match a with [] => [] | _ => 63 :: a end.

(** A request line; [client_create_request] writes it, without arguments. *)
Definition request_line (m : Z) (host svc a : list Z) : list Z :=
  method_name m ++ bytes " icap://" ++ host ++ [47] ++ svc ++ args_text a ++ bytes " ICAP/1.0".

Lemma get_method_name m s : is_method m → get_method (method_name m ++ s) = Ret (m, s).
Proof. by intros [-> | [-> | ->]]. Qed.

Lemma icap_version_10 s : icap_version (bytes "ICAP/1.0" ++ NUL :: s) = Ret (1, 0).
Proof. done. Qed.

Lemma uri_args_spec q a s :
  args q = [] → without (λ b, b =? SP) a → zlen a ≤ MAX_SERVICE_ARGS →
  uri_args q (a ++ SP :: s) = Ret (true, set_args a q, SP :: s).
Proof.
  intros Hq Ha Hl. unfold uri_args. rewrite span_spec by (done || by left). cbn [obind peek].
  rewrite Z.eqb_refl. cbn [negb]. rewrite Hq. change (zlen []) with 0. cbn [Z.eqb negb andb app].
  change (zlen []) with 0. rewrite Z.sub_0_r. unfold MAX_SERVICE_ARGS in *. pose proof (zlen_nonneg a).
  replace (if zlen a <? 255 then zlen a else 255) with (zlen a) by (case_cmp; lia).
  solve_cmp. by rewrite zlen_to_nat, firstn_all.
Qed.

Lemma uri_service_spec q svc a s :
  svc ≠ [] → without (λ b, (b =? SP) || (b =? 63)) svc → zlen svc ≤ MAX_SERVICE_NAME → args q = [] →
  without (λ b, b =? SP) a → zlen a ≤ MAX_SERVICE_ARGS →
  uri_service q (svc ++ args_text a ++ SP :: s) = Ret (true, set_args a (set_service svc q), SP :: s).
Proof.
  intros Hne Hs Hl Hq Ha Hla. unfold uri_service.
  assert (Htk : take (Z.to_nat MAX_SERVICE_NAME) svc = svc) by (apply take_ge; unfold zlen in Hl; lia).
  assert (Hnz : (zlen svc =? 0) = false) by (apply Z.eqb_neq; destruct svc; [done|zlia]).
  assert (Hself : a = [] → set_service svc q = set_args a (set_service svc q)).
  { intros ->. destruct q. cbn in *. by rewrite Hq. }
  destruct a as [|b a]; cbn [args_text app].
  - rewrite span_spec by (done || by left). cbn [obind peek]. rewrite Htk, Hnz. cbn [negb].
    by rewrite <- Hself.
  - rewrite span_spec by (done || by left). cbn [obind peek]. rewrite Htk, Hnz. cbn [negb tail Z.eqb].
    change (63 =? 63) with true. cbn iota.
    change (b :: a ++ SP :: s) with ((b :: a) ++ SP :: s). by apply uri_args_spec.
Qed.

Lemma parse_request_line t q m host svc a s :
  is_method m → without (λ b, (b =? 47) || (b =? SP)) host → zlen host ≤ CI_MAXHOSTNAMELEN →
  svc ≠ [] → without (λ b, (b =? SP) || (b =? 63)) svc → zlen svc ≤ MAX_SERVICE_NAME →
  args q = [] → without (λ b, b =? SP) a → zlen a ≤ MAX_SERVICE_ARGS →
  parse_request t q (request_line m host svc a ++ NUL :: s) =
  Ret (find_request_service t (set_args a (set_service svc (set_server host (set_type m q))))).
Proof.
  intros Hm Hh Hlh Hne Hs Hls Hq Ha Hla. unfold request_line.
  replace ((method_name m ++ bytes " icap://" ++ host ++ [47] ++ svc ++ args_text a ++ bytes " ICAP/1.0") ++ NUL :: s)
    with (method_name m ++ [SP] ++ bytes "icap://" ++ host ++ 47 :: svc ++ args_text a ++ SP :: bytes "ICAP/1.0" ++ NUL :: s)
    by by_app.
  unfold parse_request. rewrite get_method_name by done. cbn [obind].
  assert ((m <? 0) = false) as -> by (by destruct Hm as [-> | [-> | ->]]).
  assert (Hb : ∀ w, skip_blanks ([SP] ++ bytes "icap://" ++ w) = Ret (bytes "icap://" ++ w)) by done.
  assert (Hb' : ∀ w, skip_blanks (SP :: bytes "ICAP/1.0" ++ w) = Ret (bytes "ICAP/1.0" ++ w)) by done.
  rewrite Hb. cbn [obind].
  assert (Hu : ∀ w, uri_scheme (bytes "icap://" ++ w) = Ret (Some w)) by done.
  rewrite Hu. cbn [obind]. rewrite span_spec by (done || by left). cbn [obind peek].
  rewrite (Z.eqb_refl 47). cbn [tail].
  rewrite take_ge by (unfold zlen in Hlh; lia).
  rewrite uri_service_spec by done. cbn [obind negb].
  rewrite Hb'. cbn [obind].
  rewrite icap_version_10. done.
Qed.

(** ** Properties *)

(** C15: a request line with the method, host, service and arguments of the client is
    parsed into these parts; the answer is 404 for a service that is in neither table, 405 for
    one that does not offer the method, and 100 otherwise. *)
Theorem parse_request_correct t q m host svc a s :
  is_method m → without (λ b, (b =? 47) || (b =? SP)) host → zlen host ≤ CI_MAXHOSTNAMELEN →
  svc ≠ [] → without (λ b, (b =? SP) || (b =? 63)) svc → zlen svc ≤ MAX_SERVICE_NAME →
  args q = [] → without (λ b, b =? SP) a → zlen a ≤ MAX_SERVICE_ARGS →
  ∃ st q', parse_request t q (request_line m host svc a ++ NUL :: s) = Ret (st, q') ∧
    rtype q' = m ∧ req_server q' = host ∧ service q' = svc ∧
    match find_service (service_list t) svc, find_service_alias (service_aliases t) svc with
    | Some sv, _ => current_service_mod q' = Some sv ∧ args q' = a
    | None, Some al => current_service_mod q' = Some (alias_service al) ∧
                       args q' = (if zlen (alias_args al) =? 0 then a else alias_args al)
    | None, None => current_service_mod q' = None
    end ∧
    st = match current_service_mod q' with
         | None => EC_404
         | Some sv => if negb (Z.land (mod_type sv) m =? 0) || (m =? ICAP_OPTIONS) then EC_100 else EC_405
         end.
Proof.
  intros Hm Hh Hlh Hne Hs Hls Hq Ha Hla. rewrite parse_request_line by done.
  assert (Hnz : (zlen svc =? 0) = false) by (apply Z.eqb_neq; destruct svc; [done|zlia]).
  unfold find_request_service. set (q1 := set_args a _).
  assert (H1 : service q1 = svc ∧ rtype q1 = m ∧ req_server q1 = host ∧ args q1 = a) by done.
  clearbody q1. destruct H1 as (Hsv & Hty & Hsr & Har).
  assert (Hdef : match DEFAULT_SERVICE t with
    | Some d => if zlen (service q1) =? 0 then set_service (take (Z.to_nat MAX_SERVICE_NAME) d) q1 else q1
    | None => q1 end = q1) by (rewrite Hsv, Hnz; by destruct (DEFAULT_SERVICE t)).
  rewrite Hdef, Hsv, Hnz.
  assert (Hsplit : ∀ sv x, rtype x = m →
    Ret (if (Z.land (mod_type sv) (rtype x) =? 0) && negb (rtype x =? ICAP_OPTIONS) then (EC_405, x) else (EC_100, x)) =
    Ret (if negb (Z.land (mod_type sv) m =? 0) || (m =? ICAP_OPTIONS) then EC_100 else EC_405, x)).
  { intros sv x ->. by destruct (Z.land (mod_type sv) m =? 0), (m =? ICAP_OPTIONS). }
  destruct (find_service (service_list t) svc) as [sv|]; [|destruct (find_service_alias (service_aliases t) svc) as [al|]].
  - rewrite Hsplit by done. by eexists _, _.
  - destruct (zlen (alias_args al) =? 0); cbn [negb]; rewrite Hsplit by done; by eexists _, _.
  - by eexists _, _.
Qed.

Definition sample_request : ci_request :=
  mkReq (-1) [] [] [] (-1) true false false None sample_empty fresh_encaps (sample_reader []).

Definition sample_tables : tables :=
  mkTables [mkService (bytes "echo") 6] [mkAlias (bytes "av") (mkService (bytes "echo") 6) (bytes "x=1")] None.

Lemma parse_request_correct_witness :
  ∃ st q', parse_request sample_tables sample_request
      (request_line ICAP_RESPMOD (bytes "h:1344") (bytes "av") (bytes "p=2") ++ [NUL; LF]) = Ret (st, q') ∧
    rtype q' = ICAP_RESPMOD ∧ req_server q' = bytes "h:1344" ∧ service q' = bytes "av" ∧
    (current_service_mod q' = Some (mkService (bytes "echo") 6) ∧ args q' = bytes "x=1") ∧
    st = match current_service_mod q' with
         | None => EC_404
         | Some sv => if negb (Z.land (mod_type sv) ICAP_RESPMOD =? 0) || (ICAP_RESPMOD =? ICAP_OPTIONS)
                      then EC_100 else EC_405
         end.
Proof.
  apply (parse_request_correct sample_tables sample_request ICAP_RESPMOD (bytes "h:1344") (bytes "av")
    (bytes "p=2") [LF]); try done; try (by repeat constructor).
Defined.

Lemma strtol_no_erange base s v n :
  strtol base s = Some (v, n) → n ≠ 0 → LONG_MIN < v < LONG_MAX → strtol_erange base s = Ret false.
Proof.
  unfold strtol, strtol_erange. intros H Hn Hv.
  destruct (skip_while isspace s) as [[k s1]|]; [|done]. cbn in H |- *.
  destruct s1 as [|c s1]; [done|].
  destruct (hex_prefix base _) as [p|]; [|done]. cbn in H |- *.
  destruct (scan_digits base 0 0 _) as [[w d]|]; [|done]. cbn in H |- *.
  destruct (d =? 0)%nat; injection H as Hc Hd; [lia|].
  unfold clamp_long in Hc. f_equal. apply orb_false_intro; apply Z.ltb_ge; lia.
Qed.

Lemma print_d_head v : 0 ≤ v → ∃ c w, print_d v = c :: w ∧ isspace c = false.
Proof.
  intros Hv. unfold print_d. rewrite (proj2 (Z.ltb_ge v 0)) by lia.
  pose proof (print_num_nonempty 10 v) as Hne.
  pose proof (print_num_chars 10 v (λ b, 48 ≤ b ≤ 57 ∨ 97 ≤ b ≤ 102) ltac:(lia) Hv
    ltac:(intros; apply digit_char_range; lia)) as Hch.
  destruct (print_num 10 v) as [|c w]; [done|]. exists c, w. split; [done|].
  apply Forall_cons_1 in Hch as [Hc _]. unfold isspace. destruct Hc; by solve_cmp.
Qed.

(** What [parse_preview] makes of a number. *)
Lemma parse_preview_value junk a q v s :
  0 ≤ v ≤ INT_MAX →
  parse_preview junk a q (SP :: print_d v ++ NUL :: s) =
  if INT_MAX <? v + 64 then UB
  else Ret (let q := set_preview v q in
            set_reader (with_preview (snd (ci_buf_reset_size junk a (rd_preview (rq_reader q)) (v + 64)))
              (rq_reader q)) q).
Proof.
  intros Hv. unfold parse_preview, skip_isspace.
  destruct (print_d_head v (proj1 Hv)) as (c & w & Hp & Hc).
  replace (SP :: print_d v ++ NUL :: s) with ([SP] ++ c :: w ++ NUL :: s) by (rewrite Hp; by_app).
  rewrite skip_while_app by (done || by repeat constructor). cbn [scan obind].
  replace (c :: w ++ NUL :: s) with (print_d v ++ NUL :: s) by (rewrite Hp; by_app).
  pose proof (strtol_print_d v NUL s Hv eq_refl ltac:(done) ltac:(done)) as Hs. rewrite Hs. cbn [scan obind].
  rewrite (strtol_no_erange _ _ _ _ Hs); [|rewrite Hp; zlia|unfold INT_MAX, LONG_MAX, LONG_MIN in *; lia].
  cbn [obind]. rewrite to_int_id by (unfold INT_MIN, INT_MAX in *; lia). solve_cmp.
  destruct (INT_MAX <? v + 64); [done|]. by destruct (ci_buf_reset_size _ _ _ _).
Qed.

(** A Preview header sets the preview of the request and gets a buffer for 64 bytes
    more; a value in the last 64 of the range of an [int] makes that sum overflow. *)
Theorem parse_preview_bounds junk q v s :
  0 ≤ v ≤ INT_MAX →
  (v + 64 ≤ INT_MAX → ∃ q', parse_preview junk true q (SP :: print_d v ++ NUL :: s) = Ret q' ∧
     preview q' = v ∧ (bsize (rd_preview (rq_reader q)) ≤ v + 64 →
                       bsize (rd_preview (rq_reader q')) = v + 64)) ∧
  (INT_MAX < v + 64 → parse_preview junk true q (SP :: print_d v ++ NUL :: s) = UB).
Proof.
  intros Hv. rewrite parse_preview_value by done. split; intros H; solve_cmp; [|done].
  eexists. split; [done|]. split; [done|]. cbn. intros Hb.
  unfold ci_buf_reset_size. by rewrite (proj2 (Z.ltb_ge _ _)) by lia.
Qed.

Lemma parse_preview_bounds_witness :
  (1024 + 64 ≤ INT_MAX → ∃ q', parse_preview (λ _, 7) true sample_request (SP :: print_d 1024 ++ [NUL]) = Ret q' ∧
     preview q' = 1024 ∧ (bsize (rd_preview (rq_reader sample_request)) ≤ 1024 + 64 →
                       bsize (rd_preview (rq_reader q')) = 1024 + 64)) ∧
  (INT_MAX < 1024 + 64 → parse_preview (λ _, 7) true sample_request (SP :: print_d 1024 ++ [NUL]) = UB).
Proof. apply (parse_preview_bounds (λ _, 7) sample_request 1024 []). unfold INT_MAX. lia. Defined.

(** ** The encapsulated headers of a message *)

(** Header entities [xs] that announce the blocks of [lss], the last one up to the entity [y]. *)
Fixpoint announced (xs : list ci_encaps_entity_t) (y : ci_encaps_entity_t) (lss : list (list (list Z))) : Prop :=
  match xs, lss with
  | [], [] => ICAP_RES_HDR < type y
  | x :: xs', ls :: lss' =>
      type x ≤ ICAP_RES_HDR ∧ (∃ h, entity x = Some h ∧ zlen (buf h) = bufsize h ∧ 1 ≤ size h) ∧
      ls ≠ [] ∧ Forall clean_line ls ∧
      start (hd y xs') - start x = zlen (wire ls ++ CRLF) ∧ zlen (wire ls ++ CRLF) ≤ INT_MAX ∧
      announced xs' y lss'
  | _, _ => False
  end.

Definition blocks (lss : list (list (list Z))) : list Z := concat (map (λ ls, wire ls ++ CRLF) lss).

(** The entity holds the lines. *)
Definition holds (x : ci_encaps_entity_t) (ls : list (list Z)) (o : option ci_encaps_entity_t) : Prop :=
  ∃ h tl, o = Some (mkEntity (start x) (type x) (Some h)) ∧ hrepr h ls tl.

Lemma parse_encaps_loop_spec junk buggy fuel xs : ∀ n y lss pre post rest q,
  announced xs y lss → entities (rq_encaps q) = pre ++ (Some <$> (xs ++ [y])) ++ post →
  block_ok (rq_reader q) → Forall is_data (rd_conn (rq_reader q)) →
  unread (rq_reader q) = blocks lss ++ rest → (length xs < n)%nat →
  zlen (fut_of (rd_conn (rq_reader q))) + zlen (rd_conn (rq_reader q)) < Z.of_nat fuel →
  ∃ q' os, parse_encaps_loop junk buggy n fuel true (zlen pre) q = Ret (Some EC_100, q') ∧
    entities (rq_encaps q') = pre ++ os ++ Some y :: post ∧
    unread (rq_reader q') = rest ∧ Forall2 (λ '(x, ls) o, holds x ls o) (combine xs lss) os.
Proof.
  induction xs as [|x xs IH]; intros n y lss pre post rest q Hann Hes Hblk Hdata Hun Hn Hf;
    (destruct n as [|n]; [cbn in Hn; lia|]); destruct lss as [|ls lss]; cbn [announced] in Hann; try done.
  { cbn [parse_encaps_loop fmap list_fmap app] in *. rewrite Hes, arr_get_app. cbn [obind].
    rewrite (proj2 (Z.ltb_lt _ _) Hann). exists q, []. by split_and!. }
  destruct Hann as (Ht & (h & Hh & Hz & Hs1) & Hne & Hcl & Hsz & Hmax & Hann).
  cbn [parse_encaps_loop]. cbn [fmap list_fmap app] in Hes. rewrite Hes, arr_get_app. cbn [obind].
  rewrite (proj2 (Z.ltb_ge _ _) Ht).
  assert (Hnext : arr_get (pre ++ Some x :: (Some <$> (xs ++ [y])) ++ post) (zlen pre + 1) = Ret (Some (hd y xs))).
  { replace (pre ++ Some x :: (Some <$> (xs ++ [y])) ++ post)
      with ((pre ++ [Some x]) ++ (Some <$> (xs ++ [y])) ++ post) by by_app.
    replace (zlen pre + 1) with (zlen (pre ++ [Some x])) by zlia.
    destruct xs; cbn [fmap list_fmap app hd]; apply arr_get_app. }
  cbn [fmap] in Hnext. rewrite Hnext. cbn [obind]. rewrite Hsz.
  pose proof (zlen_nonneg (wire ls ++ CRLF)). unfold INT_MIN in *.
  rewrite (proj2 (Z.ltb_ge _ _)) by lia. rewrite (proj2 (Z.ltb_ge INT_MAX _)) by lia. cbn [orb].
  rewrite Hh.
  destruct (read_encaps_header_spec junk buggy fuel (rq_reader q) h ls (blocks lss ++ rest) Hblk Hdata Hz Hne)
    as (h1 & r1 & tl & Hrd & Hb1 & Hu1 & Hz1 & Hsize1 & Hun1 & Hblk1 & Hdata1 & Hms); [|done|].
  { rewrite Hun. unfold blocks. cbn. by_app. }
  rewrite Hrd. cbn [obind]. cbn [rq_encaps set_reader entities]. rewrite Hes, arr_set_app. cbn [obind].
  rewrite bool_decide_eq_true_2 by done. cbn [negb].
  destruct (ci_headers_unpack_spec h1 ls (CRLF ++ tl)) as (h2 & Hunp & Hr2); try done; [lia|].
  rewrite Hunp. cbn [obind rq_encaps set_encaps entities]. rewrite arr_set_app. cbn [obind].
  rewrite bool_decide_eq_true_2 by done. cbn [negb].
  set (x' := mkEntity (start x) (type x) (Some h2)).
  destruct (IH n y lss (pre ++ [Some x']) post rest
    (set_encaps (mkEncaps (pre ++ Some x' :: (Some <$> (xs ++ [y])) ++ post) (trash_entities (rq_encaps q))
        (hasbody (rq_encaps q))) (set_reader r1 q)) Hann)
    as (q' & os & Hrun & Hes' & Hun' & Hall); try done.
  { cbn [rq_encaps set_encaps entities]. by_app. }
  { cbn in Hn. lia. }
  { cbn [rq_reader set_encaps set_reader]. lia. }
  exists q', (Some x' :: os). replace (zlen pre + 1) with (zlen (pre ++ [Some x'])) by zlia.
  split; [exact Hrun|]. split; [rewrite Hes'; by_app|]. split; [done|].
  cbn [combine]. constructor; [|done]. by exists h2, (CRLF ++ tl).
Qed.

(** C16: when the offsets of the Encapsulated header are those of the blocks the client
    sends, [parse_encaps_headers] fills every header entity with the lines of its block,
    however the blocks are spread over the read block and the network, and leaves the body
    that follows unread. *)
Theorem parse_encaps_headers_correct junk buggy fuel xs y lss post rest q :
  announced xs y lss → entities (rq_encaps q) = (Some <$> (xs ++ [y])) ++ post → (length xs < 5)%nat →
  block_ok (rq_reader q) → Forall is_data (rd_conn (rq_reader q)) →
  unread (rq_reader q) = blocks lss ++ rest →
  zlen (fut_of (rd_conn (rq_reader q))) + zlen (rd_conn (rq_reader q)) < Z.of_nat fuel →
  ∃ q' os, parse_encaps_headers junk buggy fuel true q = Ret (Some EC_100, q') ∧
    entities (rq_encaps q') = os ++ Some y :: post ∧
    unread (rq_reader q') = rest ∧ Forall2 (λ '(x, ls) o, holds x ls o) (combine xs lss) os.
Proof.
  intros. by apply (parse_encaps_loop_spec junk buggy fuel xs 5 y lss [] post rest q).
Qed.

Definition sample_http : list (list Z) := [bytes "GET / HTTP/1.1"; bytes "Host: a"].

Definition sample_encaps_request : ci_request :=
  mkReq ICAP_REQMOD [] [] [] (-1) true false false None sample_empty
    (mkEncaps [Some (mkEntity 0 ICAP_REQ_HDR (Some sample_list)); Some (mkEntity 27 ICAP_REQ_BODY None);
               None; None; None] (replicate 7 None) true)
    (sample_reader [EvData (take 10 (wire sample_http)); EvData (drop 10 (wire sample_http) ++ CRLF ++ bytes "body")]).

Lemma parse_encaps_headers_correct_witness :
  ∃ q' os, parse_encaps_headers (λ _, 7) true 100 true sample_encaps_request = Ret (Some EC_100, q') ∧
    entities (rq_encaps q') = os ++ [Some (mkEntity 27 ICAP_REQ_BODY None); None; None; None] ∧
    unread (rq_reader q') = bytes "body" ∧
    Forall2 (λ '(x, ls) o, holds x ls o) [(mkEntity 0 ICAP_REQ_HDR (Some sample_list), sample_http)] os.
Proof.
  apply (parse_encaps_headers_correct (λ _, 7) true 100 [mkEntity 0 ICAP_REQ_HDR (Some sample_list)]
    (mkEntity 27 ICAP_REQ_BODY None) [sample_http] [None; None; None] (bytes "body")); try done.
  - split; [done|]. split; [by exists sample_list|]. split; [done|].
    split; [repeat constructor; try done; by eexists _, _|]. by vm_compute.
  - cbn. lia.
  - by repeat constructor.
Defined.
