(* ===== verification/HttpApi.v ===== *)
(** * The HTTP headers of a request, for services (simple_api.c)

    The API through which the server and the services reach the encapsulated HTTP headers: finding
    them among the entities, editing them, replacing the whole message, and reading the length
    and the URL.  Header lists are reached by their place, so that an edit is seen by everyone who reads
    the request. *)

From stdpp Require Import base list list_numbers strings numbers option.
From Stdlib Require Import ZArith Lia.
From S2P Require Import Prelude CString Chunks Headers Encapsulated ParseRequest.

(** Where a header list is: an entity of the message or a released one. *)
Inductive http_loc := InEntities (i : Z) | InTrash (t : Z).

Section http.
Context (junk : Z → Z).

(** [e_list[i] != NULL && i < 3]: the null test comes first, so that a fourth element is read. *)
Fixpoint response_headers_from (n : nat) (i : Z) (es : list (option ci_encaps_entity_t)) :
    outcome (option http_loc) :=
  let* o := arr_get es i in
  match n, o with
  | _, None | O, _ => Ret None
  | S n', Some e =>
      if type e =? ICAP_RES_HDR then
        Ret (match entity e with Some _ => Some (InEntities i) | None => None end)
      else response_headers_from n' (i + 1) es
  end.

Definition ci_http_response_headers (r : encaps) : outcome (option http_loc) :=
  response_headers_from 3 0 (entities r).

Definition ci_http_request_headers (r : encaps) : outcome (option http_loc) :=
  let* o := arr_get (entities r) 0 in
  let found := match o with Some e => type e =? ICAP_REQ_HDR | None => false end in
  if found then
    Ret (match o with Some (mkEntity _ _ (Some _)) => Some (InEntities 0) | _ => None end)
  else
  let* t := arr_get (trash_entities r) ICAP_REQ_HDR in
  Ret (match t with
       | Some (mkEntity _ _ (Some h)) => if used h =? 0 then None else Some (InTrash ICAP_REQ_HDR)
       | _ => None
       end).

Definition slot (r : encaps) (l : http_loc) : outcome (option ci_encaps_entity_t) :=
  match l with
  | InEntities i => arr_get (entities r) i
  | InTrash t => arr_get (trash_entities r) t
  end.

Definition heads_at (r : encaps) (l : http_loc) : outcome ci_headers_list_t :=
  let* o := slot r l in
  match o with Some (mkEntity _ _ (Some h)) => Ret h | _ => UB end.

Definition set_heads (r : encaps) (l : http_loc) (h : ci_headers_list_t) : outcome encaps :=
  let* o := slot r l in
  match o with
  | Some e =>
      let e := Some (mkEntity (start e) (type e) (Some h)) in
      match l with
      | InEntities i => let* es := arr_set (entities r) i e in Ret (mkEncaps es (trash_entities r) (hasbody r))
      | InTrash t => let* ts := arr_set (trash_entities r) t e in Ret (mkEncaps (entities r) ts (hasbody r))
      end
  | None => UB
  end.

(** An edit of a header list in its place; [fail] is the value when there is none. *)
Definition edit_heads {A : Type} (fail : A) (f : ci_headers_list_t → outcome (A * ci_headers_list_t))
    (o : option http_loc) (r : encaps) : outcome (A * encaps) :=
  match o with
  | None => Ret (fail, r)
  | Some l =>
      let* h := heads_at r l in
      let* (a, h) := f h in
      let* r := set_heads r l h in
      Ret (a, r)
  end.

Definition ci_http_response_reset_headers (r : encaps) : outcome (Z * encaps) :=
  let* o := ci_http_response_headers r in
  edit_heads 0 (λ h, Ret (1, ci_headers_reset h)) o r.

Definition ci_http_request_reset_headers (r : encaps) : outcome (Z * encaps) :=
  let* o := ci_http_request_headers r in
  edit_heads 0 (λ h, Ret (1, ci_headers_reset h)) o r.

Definition ci_http_response_add_header (ai ab packed : bool) (r : encaps) (line : list Z) :
    outcome (option Z * encaps) :=
  if packed then Ret (None, r)
  else
  let* o := ci_http_response_headers r in
  edit_heads None (λ h, ci_headers_add junk ai ab h line) o r.

Definition ci_http_request_add_header (ai ab packed : bool) (r : encaps) (line : list Z) :
    outcome (option Z * encaps) :=
  if packed then Ret (None, r)
  else
  let* o := ci_http_request_headers r in
  edit_heads None (λ h, ci_headers_add junk ai ab h line) o r.

Definition ci_http_response_remove_header (packed : bool) (r : encaps) (name : list Z) : outcome (Z * encaps) :=
  if packed then Ret (0, r)
  else
  let* o := ci_http_response_headers r in
  edit_heads 0 (λ h, ci_headers_remove h name) o r.

Definition ci_http_request_remove_header (packed : bool) (r : encaps) (name : list Z) : outcome (Z * encaps) :=
  if packed then Ret (0, r)
  else
  let* o := ci_http_request_headers r in
  edit_heads 0 (λ h, ci_headers_remove h name) o r.

(** The memory from the value on. *)
Definition value_at (o : option http_loc) (r : encaps) (name : list Z) : outcome (option (list Z)) :=
  match o with
  | None => Ret None
  | Some l =>
      let* h := heads_at r l in
      let* v := ci_headers_value h name in
      Ret (option_map (λ p, drop (Z.to_nat p) (buf h)) v)
  end.

Definition ci_http_response_get_header (r : encaps) (name : list Z) : outcome (option (list Z)) :=
  let* o := ci_http_response_headers r in value_at o r name.

Definition ci_http_request_get_header (r : encaps) (name : list Z) : outcome (option (list Z)) :=
  let* o := ci_http_request_headers r in value_at o r name.

(** [strtoll] on 64-bit offsets has the range of [strtol]. *)
Definition ci_http_content_length (r : encaps) : outcome Z :=
  let* o := ci_http_response_headers r in
  let* o := match o with Some l => Ret (Some l) | None => ci_http_request_headers r end in
  match o with
  | None => Ret 0
  | Some l =>
      let* h := heads_at r l in
      let* v := ci_headers_value h (bytes "Content-Length") in
      match v with
      | None => Ret (-1)
      | Some p =>
          let s := drop (Z.to_nat p) (buf h) in
          let* (res, n) := scan (strtol 10 s) in
          let* erange := strtol_erange 10 s in
          if (erange : bool) then Ret (-2)
          else if n =? 0 then Ret (-2)
          else Ret res
      end
  end.

Definition ci_http_request (r : encaps) : outcome (option Z) :=
  let* o := ci_http_request_headers r in
  match o with
  | None => Ret None
  | Some l => let* h := heads_at r l in Ret (head (headers h))
  end.

(** Replacing the message: the first four entities are released. *)
Fixpoint release_first (n : nat) (i : Z) (r : encaps) : outcome encaps :=
  match n with
  | O => Ret r
  | S n' =>
      let* o := arr_get (entities r) i in
      let* r :=
        match o with
        | Some _ => let* (_, r) := ci_request_release_entity r i in Ret r
        | None => Ret r
        end in
      release_first n' (i + 1) r
  end.

Definition place_entity (a ah : bool) (r : encaps) (i t : Z) : outcome encaps :=
  let* (e, r) := ci_request_alloc_entity junk a ah r t 0 in
  let* es := arr_set (entities r) i e in
  Ret (mkEncaps es (trash_entities r) (hasbody r)).

Definition ci_http_response_create (a ah : bool) (r : encaps) (has_reshdr has_body : bool) : outcome (Z * encaps) :=
  let* r := release_first 4 0 r in
  let* r := if has_reshdr then place_entity a ah r 0 ICAP_RES_HDR else Ret r in
  let i := if has_reshdr then 1 else 0 in
  let* r := place_entity a ah r i (if has_body then ICAP_RES_BODY else ICAP_NULL_BODY) in
  Ret (1, r).

Definition ci_http_request_create (a ah : bool) (r : encaps) (has_body : bool) : outcome (Z * encaps) :=
  let* r := release_first 4 0 r in
  let* r := place_entity a ah r 0 ICAP_REQ_HDR in
  let* r := place_entity a ah r 1 (if has_body then ICAP_REQ_BODY else ICAP_NULL_BODY) in
  Ret (1, r).

(** ** ci_http_request_url *)

Definition header_end (c : Z) : bool := (c =? NUL) || (c =? LF) || (c =? CR).

(** [for (i = 0; i < n && !stop(s[i]); i++) buf[i] = s[i];] gives the bytes copied. *)
Fixpoint copy_until (stop : Z → bool) (n : nat) (s : list Z) : outcome (list Z) :=
  match n with
  | O => Ret []
  | S n' =>
      let* c := peek s in
      if stop c then Ret []
      else let* d := copy_until stop n' (drop 1 s) in Ret (c :: d)
  end.

(** The bytes put into a buffer of [size] bytes, with the NUL; their count is the length
    without it. *)
Definition ci_http_request_url (r : encaps) (size : Z) : outcome (option (list Z)) :=
  let* o := ci_http_request_headers r in
  match o with
  | None => Ret None
  | Some l =>
      let* h := heads_at r l in
      match headers h with
      | [] => Ret None
      | p :: _ =>
          let* (w, e) := span (λ b, b =? SP) (drop (Z.to_nat p) (buf h)) in
          let* c := peek e in
          if negb (c =? SP) then Ret None
          else
          let* s := skip_blanks e in
          let* c := peek s in
          let* host :=
            if c =? 47 then
              let* v := ci_headers_value h (bytes "Host") in
              match v with
              | Some q => copy_until (λ b, header_end b || isspace b) (Z.to_nat (size - 1)) (drop (Z.to_nat q) (buf h))
              | None => Ret []
              end
            else Ret [] in
          let size := size - zlen host in
          let* u := copy_until (λ b, header_end b || isspace b || (b =? 63)) (Z.to_nat (size - 1)) s in
          if size <=? zlen u then UB else Ret (Some (host ++ u ++ [NUL]))
      end
  end.

End http.
