(* ===== verification/Session.v ===== *)
(** * The state of a request being served (request.h, net_io.c, simple_api.c, service.h)

    [session] is [ci_request_t] while the server answers it: the parsed request with its reader,
    the sending side and the connection.  The connection is described by what each wait and
    each write on it gives.  Services reach the request through callbacks: they read all of it, and what they
    may change is the [view].  The interface [Supplier] says what the sending loop needs of
    the function that supplies the body. *)

From stdpp Require Import base list list_numbers strings numbers option.
From Stdlib Require Import ZArith Lia.
From S2P Require Import Prelude CString Chunks ReadBody SendBody RingBuf Headers Encapsulated IcapHeader ParseRequest.


(** enum SENDDATA_STATUS. *)
Definition SEND_NOTHING : Z := 0.
Definition SEND_RESPHEAD : Z := 1.
Definition SEND_HEAD1 : Z := 2.
Definition SEND_HEAD2 : Z := 3.
Definition SEND_HEAD3 : Z := 4.
Definition SEND_BODY : Z := 5.
Definition SEND_EOF : Z := 6.

(** ** The sending side of a connection *)

Definition ci_wait_for_read : Z := 1.
Definition ci_wait_for_write : Z := 2.
Definition ci_wait_should_retry : Z := 4.

(** [waits] are the results of the polls to come, [writes] those of the [write] calls (negative for
    an error, otherwise the bytes the kernel takes, 0 when it would block), [sent] what the
    peer has been given. *)
Record conn := mkConn { waits : list Z; writes : list Z; sent : list Z }.

(** A poll reports only what was asked for. *)
Definition ci_connection_wait (what w : Z) : Z :=
  if w <? 0 then -1 else Z.land w (Z.lor what ci_wait_should_retry).

(** The loop of [wait_for_data], over the results of the polls; [halt] is CHILD_HALT. *)
Fixpoint wait_loop (what : Z) (ws : list Z) : Z * list Z :=
  match ws with
  | [] => (-1, [])
  | w :: ws' =>
      let r := ci_connection_wait what w in
      if r <? 0 then (-1, ws')
      else if flag_set r ci_wait_should_retry then wait_loop what ws'
      else if r =? 0 then (-1, ws')
      else (r, ws')
  end.

Definition wait_for_data (halt : bool) (what : Z) (c : conn) : Z * conn :=
  if halt then (-1, c)
  else let '(r, ws) := wait_loop what (waits c) in (r, mkConn ws (writes c) (sent c)).

Definition ci_write_nonblock (c : conn) (d : list Z) : Z * conn :=
  match writes c with
  | [] => (-1, c)
  | w :: ws =>
      if w <? 0 then (-1, mkConn (waits c) ws (sent c))
      else let n := Z.min w (zlen d) in
           (n, mkConn (waits c) ws (sent c ++ take (Z.to_nat n) d))
  end.

(** [ci_write]: the bytes not written, nothing when all were, and the writes left. *)
Fixpoint write_loop (ws : list Z) (d : list Z) : list Z * list Z :=
  match d with
  | [] => ([], ws)
  | _ =>
      match ws with
      | [] => (d, [])
      | w :: ws' => if w <? 0 then (d, ws') else write_loop ws' (drop (Z.to_nat (Z.min w (zlen d))) d)
      end
  end.

Definition ci_write (c : conn) (d : list Z) : Z * conn :=
  let '(r, ws) := write_loop (writes c) d in
  let dn := take (length d - length r) d in
  (if bool_decide (r = []) then zlen d else -1, mkConn (waits c) ws (sent c ++ dn)).

(** ** The request *)

(** Where [pstrblock_responce] points. *)
Inductive out_loc := ONull | OHeader | OEntity (i : Z) | OWbuf.

Section session.
Context {D : Type}.

(** [ss_code] is [return_code], [None] for -1; [ss_data] is [service_data]. *)
Record session := mkSession {
  ss_req : ci_request;
  ss_status : Z;
  ss_code : option ec;
  ss_out : wstream;
  ss_loc : out_loc;
  ss_response : ci_headers_list_t;
  ss_xheaders : ci_headers_list_t;
  ss_packed : bool;
  ss_locked : bool;
  ss_echo : option ci_ring_buf;
  ss_bytes_out : Z;
  ss_conn : conn;
  ss_data : option D
}.

Definition with_req (q : ci_request) (s : session) : session :=
  mkSession q (ss_status s) (ss_code s) (ss_out s) (ss_loc s) (ss_response s) (ss_xheaders s) (ss_packed s)
    (ss_locked s) (ss_echo s) (ss_bytes_out s) (ss_conn s) (ss_data s).
Definition with_status (x : Z) (s : session) : session :=
  mkSession (ss_req s) x (ss_code s) (ss_out s) (ss_loc s) (ss_response s) (ss_xheaders s) (ss_packed s)
    (ss_locked s) (ss_echo s) (ss_bytes_out s) (ss_conn s) (ss_data s).
Definition with_response (h : ci_headers_list_t) (s : session) : session :=
  mkSession (ss_req s) (ss_status s) (ss_code s) (ss_out s) (ss_loc s) h (ss_xheaders s) (ss_packed s)
    (ss_locked s) (ss_echo s) (ss_bytes_out s) (ss_conn s) (ss_data s).
Definition with_packed (b : bool) (s : session) : session :=
  mkSession (ss_req s) (ss_status s) (ss_code s) (ss_out s) (ss_loc s) (ss_response s) (ss_xheaders s) b
    (ss_locked s) (ss_echo s) (ss_bytes_out s) (ss_conn s) (ss_data s).
Definition with_conn (n : Z) (c : conn) (s : session) : session :=
  mkSession (ss_req s) (ss_status s) (ss_code s) (ss_out s) (ss_loc s) (ss_response s) (ss_xheaders s) (ss_packed s)
    (ss_locked s) (ss_echo s) (to_u64 (ss_bytes_out s + n)) c (ss_data s).
Definition with_out (l : out_loc) (w : wstream) (s : session) : session :=
  mkSession (ss_req s) (ss_status s) (ss_code s) w l (ss_response s) (ss_xheaders s) (ss_packed s)
    (ss_locked s) (ss_echo s) (ss_bytes_out s) (ss_conn s) (ss_data s).
Definition with_echo (e : option ci_ring_buf) (s : session) : session :=
  mkSession (ss_req s) (ss_status s) (ss_code s) (ss_out s) (ss_loc s) (ss_response s) (ss_xheaders s) (ss_packed s)
    (ss_locked s) e (ss_bytes_out s) (ss_conn s) (ss_data s).
Definition with_locked (b : bool) (s : session) : session :=
  mkSession (ss_req s) (ss_status s) (ss_code s) (ss_out s) (ss_loc s) (ss_response s) (ss_xheaders s) (ss_packed s)
    b (ss_echo s) (ss_bytes_out s) (ss_conn s) (ss_data s).
Definition with_data (d : option D) (s : session) : session :=
  mkSession (ss_req s) (ss_status s) (ss_code s) (ss_out s) (ss_loc s) (ss_response s) (ss_xheaders s) (ss_packed s)
    (ss_locked s) (ss_echo s) (ss_bytes_out s) (ss_conn s) d.

Definition with_xheaders (h : ci_headers_list_t) (s : session) : session :=
  mkSession (ss_req s) (ss_status s) (ss_code s) (ss_out s) (ss_loc s) (ss_response s) h (ss_packed s)
    (ss_locked s) (ss_echo s) (ss_bytes_out s) (ss_conn s) (ss_data s).

Definition is_206 (c : option ec) : bool := bool_decide (c = Some EC_206).

(** The return code; the sending side keeps whether it is 206. *)
Definition with_code (c : option ec) (s : session) : session :=
  let w := ss_out s in
  mkSession (ss_req s) (ss_status s) c
    (mkWstream (ws_wbuf w) (ws_ptr w) (remain_send_block_bytes w) (responce_hasbody w) (is_206 c)
       (use_original_body w) (http_bytes_out w) (body_bytes_out w))
    (ss_loc s) (ss_response s) (ss_xheaders s) (ss_packed s)
    (ss_locked s) (ss_echo s) (ss_bytes_out s) (ss_conn s) (ss_data s).

(** The assignments to [responce_hasbody] and [i206_use_original_body]. *)
Definition with_hasbody (b : bool) (s : session) : session :=
  let w := ss_out s in
  with_out (ss_loc s) (mkWstream (ws_wbuf w) (ws_ptr w) (remain_send_block_bytes w) b (is_ec_206 w)
    (use_original_body w) (http_bytes_out w) (body_bytes_out w)) s.
Definition with_origin (n : Z) (s : session) : session :=
  let w := ss_out s in
  with_out (ss_loc s) (mkWstream (ws_wbuf w) (ws_ptr w) (remain_send_block_bytes w) (responce_hasbody w) (is_ec_206 w)
    n (http_bytes_out w) (body_bytes_out w)) s.

Definition remain (s : session) : Z := remain_send_block_bytes (ss_out s).

(** The block to send: a pointer and a length. *)
Definition point (l : out_loc) (p n : Z) (s : session) : session :=
  with_out l (set_send (ws_wbuf (ss_out s)) p n (ss_out s)) s.

Definition ss_encaps (s : session) : encaps := rq_encaps (ss_req s).
Definition with_encaps (e : encaps) (s : session) : session := with_req (set_encaps e (ss_req s)) s.

(** ** Callbacks *)

(** What a service may change: its data, the lock ([ci_req_lock_data]), the encapsulated headers
    ([ci_http_response_create] and the like), the offset of [ci_request_206_origin_body], and the
    extra ICAP headers. *)
Record view := mkView {
  v_data : option D;
  v_locked : bool;
  v_encaps : encaps;
  v_origin : Z;
  v_xheaders : ci_headers_list_t
}.

Definition apply_view (v : view) (s : session) : session :=
  let w := ss_out s in
  mkSession (set_encaps (v_encaps v) (ss_req s)) (ss_status s) (ss_code s)
    (mkWstream (ws_wbuf w) (ws_ptr w) (remain_send_block_bytes w) (responce_hasbody w) (is_ec_206 w)
       (v_origin v) (http_bytes_out w) (body_bytes_out w))
    (ss_loc s) (ss_response s) (v_xheaders v) (ss_packed s)
    (v_locked v) (ss_echo s) (ss_bytes_out s) (ss_conn s) (v_data v).

Definition view_of (s : session) : view :=
  mkView (ss_data s) (ss_locked s) (ss_encaps s) (use_original_body (ss_out s)) (ss_xheaders s).

(** [mod_service_io(rbuf, &rlen, wbuf, &wlen, iseof, req)]: the room at [rbuf] ([None] for the
    null pointer) and the data at [wbuf]; gives the value returned, what was put into [rbuf], the
    count of the data taken, and the view. *)
Definition service_io := session → option Z → option (list Z) → bool → outcome (Z * src_result * Z * view).

(** The same as the server calls it. *)
Definition io_fun := session → option Z → option (list Z) → bool → outcome (Z * src_result * Z * session).

Definition call_io (f : service_io) : io_fun :=
  λ s room d eof, let* (ret, r, w, v) := f s room d eof in Ret (ret, r, w, apply_view v s).

(** struct ci_service_module: null function pointers are [None]. *)
Record service_ops := mkOps {
  mod_init_request_data : option (session → outcome view);
  mod_release_request_data : option (session → D → outcome view);
  mod_check_preview_handler : option (session → option (list Z) → outcome (Z * view));
  mod_end_of_data_handler : option (session → outcome (Z * view));
  mod_service_io : option service_io
}.

(** What changes in a session when it is asked for data. *)
Definition served (d : option D) (e : option ci_ring_buf) (l : bool) (s : session) : session :=
  with_locked l (with_echo e (with_data d s)).

(** The state a supplier depends on. *)
Definition same_service (s s' : session) : Prop :=
  ss_data s' = ss_data s ∧ ss_echo s' = ss_echo s ∧
  eof_received (rd_stream (rq_reader (ss_req s'))) = eof_received (rd_stream (rq_reader (ss_req s))).

(** A function that supplies a body: [gives s cs] says that it will give the pieces [cs] in turn
    and then the end of the data. *)
Class Supplier (io : io_fun) := {
  gives : session → list (list Z) → Prop;
  gives_frame : ∀ s s' cs, gives s cs → same_service s s' → gives s' cs;
  gives_step : ∀ s cs, gives s cs → ∃ ret n d e l,
    io s (Some MAX_CHUNK_SIZE) None true =
      Ret (ret, match cs with [] => SrcCode CI_EOF | c :: _ => SrcData c end, n, served d e l s) ∧
    (∀ c cs', cs = c :: cs' → 0 < zlen c ≤ MAX_CHUNK_SIZE ∧ gives (served d e l s) cs')
}.

End session.
Arguments session : clear implicits.
Arguments view : clear implicits.
Arguments service_io : clear implicits.
Arguments io_fun : clear implicits.
Arguments service_ops : clear implicits.
