(* ===== verification/Response.v ===== *)
(** * Sending a response (request.c, header.c)

    The error responses ([ec_responce]), the ICAP header of a modified message
    ([mk_responce_header]), the state machine that sends the header, the encapsulated headers
    and the body block by block ([update_send_status], [send_current_block_data]), and
    [send_remaining_response], the loop that runs it to its end. *)

From stdpp Require Import base list list_numbers strings numbers option.
From Stdlib Require Import ZArith Lia.
From S2P Require Import Prelude CString Chunks ReadBody SendBody RingBuf Headers Encapsulated IcapHeader ParseRequest HttpApi Session.

(** ** Codes *)

Definition ci_error_code (e : ec) : Z :=
  match e with
  | EC_100 => 100 | EC_200 => 200 | EC_204 => 204 | EC_206 => 206 | EC_400 => 400 | EC_401 => 401
  | EC_403 => 403 | EC_404 => 404 | EC_405 => 405 | EC_407 => 407 | EC_408 => 408 | EC_500 => 500
  | EC_501 => 501 | EC_502 => 502 | EC_503 => 503 | EC_505 => 505
  end.

Definition ci_error_code_string (e : ec) : list Z :=
  match e with
  | EC_100 => bytes "Continue" | EC_200 => bytes "OK" | EC_204 => bytes "Unmodified"
  | EC_206 => bytes "Partial Content" | EC_400 => bytes "Bad request" | EC_401 => bytes "Unauthorized"
  | EC_403 => bytes "Forbidden" | EC_404 => bytes "Service not found" | EC_405 => bytes "Not allowed"
  | EC_407 => bytes "Authentication Required" | EC_408 => bytes "Request timeout"
  | EC_500 => bytes "Server error" | EC_501 => bytes "Not implemented" | EC_502 => bytes "Bad Gateway"
  | EC_503 => bytes "Service overloaded" | EC_505 => bytes "Unsupported version"
  end.

Definition status_line (e : ec) : list Z :=
  bytes "ICAP/1.0 " ++ print_d (ci_error_code e) ++ [SP] ++ ci_error_code_string e.

(** ** The environment *)

(** struct ci_service_xdata, the fields the responses use; strings without their NUL. *)
Record ci_service_xdata_t := mkXdata {
  xd_ok : bool;
  xopts : Z;
  ISTag : list Z;
  TransferPreview : list Z;
  TransferIgnore : list Z;
  TransferComplete : list Z;
  preview_size : Z;
  max_connections : Z;
  options_ttl : Z;
  allow_204 : bool;
  allow_206 : bool
}.

(** The version and the configuration of the server.  [service_data] gives the data of a
    service, [descr] its short description, or its name without one. *)
Record server_env := mkEnv {
  VERSION : list Z;
  MY_HOSTNAME : list Z;
  ALLOW204_AS_200OK_ZERO_ENCAPS : bool;
  FAKE_ALLOW204 : bool;
  PIPELINING : bool;
  CHILD_HALT : bool;
  service_data : ci_service_module → option ci_service_xdata_t;
  descr : ci_service_module → list Z
}.

Section response.
Context (junk : Z → Z) (ai ab : bool) (env : server_env) {D : Type}.

(** [ci_headers_add] where its result is not looked at. *)
Definition add_line (h : ci_headers_list_t) (line : list Z) : outcome ci_headers_list_t :=
  let* (_, h) := ci_headers_add junk ai ab h line in Ret h.

Definition add_xheaders (h xh : ci_headers_list_t) : outcome ci_headers_list_t :=
  if used xh =? 0 then Ret h
  else let* (_, h) := ci_headers_addheaders junk ai ab h xh in Ret h.

Definition server_line : list Z := bytes "Server: C-ICAP/" ++ VERSION env.
Definition connection_line (k : bool) : list Z :=
  if k then bytes "Connection: keep-alive" else bytes "Connection: close".

Definition ec_responce_simple (s : session D) (e : ec) : session D :=
  let line := status_line e ++ CRLF ++ CRLF in
  let '(_, c) := ci_write (ss_conn s) line in
  with_code (Some e) (with_conn (zlen line) c s).

(** The zero response a 204 is turned into. *)
Definition zero_encaps_line (t : Z) : list Z :=
  if t =? ICAP_REQMOD then bytes "Encapsulated: req-hdr=0, null-body=0"
  else bytes "Encapsulated: res-hdr=0, null-body=0".

Definition ec_responce (s : session D) (e : ec) : outcome (Z * session D) :=
  let xdata := match current_service_mod (ss_req s) with Some m => service_data env m | None => None end in
  let zero := bool_decide (e = EC_204) && ALLOW204_AS_200OK_ZERO_ENCAPS env in
  let e := if zero then EC_200 else e in
  let h := ci_headers_reset (ss_response s) in
  let* h := add_line h (status_line e) in
  let* h := add_line h server_line in
  let* h := add_line h (connection_line (keepalive (ss_req s))) in
  let* h := match xdata with Some x => add_line h (ISTag x) | None => Ret h end in
  let* h := add_xheaders h (ss_xheaders s) in
  let* h := if zero then add_line h (zero_encaps_line (rtype (ss_req s))) else Ret h in
  let* h := ci_headers_pack h in
  let s := with_code (Some e) (with_response h s) in
  let* d := read_bytes (buf h) 0 (bufused h) in
  let '(len, c) := ci_write (ss_conn s) d in
  let s := with_status SEND_EOF s in
  if len <? 0 then Ret (-1, with_conn 0 c s) else Ret (len, with_conn len c s).

(** ** mk_responce_header *)

(** [e_list[0] = e_list[1]; e_list[1] = e_list[2]; e_list[2] = NULL;] *)
Definition shift_entities (es : list (option ci_encaps_entity_t)) : outcome (list (option ci_encaps_entity_t)) :=
  let* e1 := arr_get es 1 in
  let* es := arr_set es 0 e1 in
  let* e2 := arr_get es 2 in
  let* es := arr_set es 1 e2 in
  arr_set es 2 None.

(** The request headers of a RESPMOD request are not sent back. *)
Definition drop_request_header (t : Z) (r : encaps) : outcome encaps :=
  if t =? ICAP_RESPMOD then
    let* e0 := arr_get (entities r) 0 in
    let* t0 := type_of e0 in
    if t0 =? ICAP_REQ_HDR then
      let* (_, r) := ci_request_release_entity r 0 in
      let* es := shift_entities (entities r) in
      Ret (mkEncaps es (trash_entities r) (hasbody r))
    else Ret r
  else Ret r.

Definition via_line (m : ci_service_module) : list Z :=
  take 511 (bytes "Via: ICAP/1.0 " ++ MY_HOSTNAME env ++ bytes " (C-ICAP/" ++ VERSION env ++ [SP] ++
            descr env m ++ bytes " )").

Definition mk_responce_header (s : session D) : outcome (session D) :=
  match current_service_mod (ss_req s), ss_code s with
  | Some m, Some code =>
    match service_data env m with
    | None => UB
    | Some x =>
      let t := rtype (ss_req s) in
      let h := ci_headers_reset (ss_response s) in
      let* h := add_line h (status_line code) in
      let* h := add_line h server_line in
      let* h := add_line h (connection_line (keepalive (ss_req s))) in
      let* h := add_line h (ISTag x) in
      let* h := add_xheaders h (ss_xheaders s) in
      let* r := drop_request_header t (ss_encaps s) in
      let* r :=
        if t =? ICAP_RESPMOD then
          let* (_, r) := ci_http_response_add_header junk ai ab (ss_packed s) r (via_line m) in Ret r
        else if t =? ICAP_REQMOD then
          let* (_, r) := ci_http_request_add_header junk ai ab (ss_packed s) r (via_line m) in Ret r
        else Ret r in
      let* (es, h) := ci_request_t_pack junk ai ab false 0 (entities r) h in
      Ret (with_packed true (with_response h (with_encaps (mkEncaps es (trash_entities r) (hasbody r)) s)))
    end
  | Some m, None => Abort
  | None, _ => UB
  end.

(** ** The blocks of a response *)

(** The memory [pstrblock_responce] points into. *)
Definition out_mem (s : session D) : list Z :=
  match ss_loc s with
  | ONull => []
  | OHeader => buf (ss_response s)
  | OEntity i =>
      match entities (ss_encaps s) !! Z.to_nat i with
      | Some (Some (mkEntity _ _ (Some h))) => buf h
      | _ => []
      end
  | OWbuf => ws_wbuf (ss_out s)
  end.

(** [n] bytes of the block were sent. *)
Definition advance (n : Z) (s : session D) : session D :=
  let w := ss_out s in
  let http := if (SEND_HEAD1 <=? ss_status s) && (ss_status s <=? SEND_HEAD3)
              then to_u64 (http_bytes_out w + n) else http_bytes_out w in
  with_out (ss_loc s)
    (mkWstream (ws_wbuf w) (ws_ptr w + n) (remain_send_block_bytes w - n) (responce_hasbody w) (is_ec_206 w)
       (use_original_body w) http (body_bytes_out w)) s.

Definition send_current_block_data (s : session D) : outcome (Z * session D) :=
  let n := remain s in
  if n =? 0 then Ret (0, s)
  else
  let* d := read_bytes (out_mem s) (ws_ptr (ss_out s)) n in
  let '(b, c) := ci_write_nonblock (ss_conn s) d in
  if b <? 0 then Ret (CI_ERROR, with_conn 0 c s)
  else
  let s := advance b (with_conn b c s) in
  Ret (remain s, s).

(** No entity up to the null pointer announces an empty body. *)
Fixpoint resp_check_body (es : list (option ci_encaps_entity_t)) : outcome bool :=
  match es with
  | [] => UB
  | None :: _ => Ret true
  | Some e :: es' => if type e =? ICAP_NULL_BODY then Ret false else resp_check_body es'
  end.

Definition update_send_status (s : session D) : outcome (Z * session D) :=
  if ss_status s =? SEND_NOTHING then
    let* s := mk_responce_header s in
    let* b := resp_check_body (entities (ss_encaps s)) in
    let s := point OHeader 0 (bufused (ss_response s)) (with_hasbody b s) in
    Ret (CI_OK, with_status SEND_RESPHEAD s)
  else if ss_status s =? SEND_EOF then
    Ret (if remain s =? 0 then CI_EOF else CI_OK, s)
  else if ss_status s =? SEND_BODY then Ret (CI_OK, s)
  else
  let status := if ss_status s <? SEND_HEAD3 then ss_status s + 1 else ss_status s in
  if (SEND_RESPHEAD <? status) && (status <? SEND_BODY) then
    let i := status - SEND_HEAD1 in
    let* o := arr_get (entities (ss_encaps s)) i in
    let is_header := match o with Some e => is_hdr (type e) | None => false end in
    if is_header then
      match o with
      | Some (mkEntity _ _ (Some h)) => Ret (CI_OK, with_status status (point (OEntity i) 0 (bufused h) s))
      | _ => UB
      end
    else if responce_hasbody (ss_out s) then Ret (CI_OK, with_status SEND_BODY s)
    else Ret (CI_EOF, with_status SEND_EOF (point ONull 0 0 s))
  else Ret (CI_ERROR, s).

(** ** send_remaining_response *)

(** [while (remain_send_block_bytes > 0)]: every turn takes a result of the waits. *)
Fixpoint flush_loop (fuel : nat) (s : session D) : outcome (Z * session D) :=
  match fuel with
  | O => NoFuel
  | S fuel' =>
      if 0 <? remain s then
        let '(r, c) := wait_for_data (CHILD_HALT env) ci_wait_for_write (ss_conn s) in
        let s := with_conn 0 c s in
        if r <? 0 then Ret (CI_ERROR, s)
        else
        let* (b, s) := send_current_block_data s in
        if b =? CI_ERROR then Ret (CI_ERROR, s) else flush_loop fuel' s
      else Ret (CI_OK, s)
  end.

Definition flush (s : session D) : outcome (Z * session D) := flush_loop (S (S (length (waits (ss_conn s))))) s.

(** What the service put at [p] of [wbuf]: the count or the code left in [rlen]. *)
Definition put_read (p : Z) (r : src_result) (s : session D) : outcome (Z * session D) :=
  match r with
  | SrcCode c => Ret (c, s)
  | SrcData d =>
      let w := ss_out s in
      let* wbuf := write_bytes (ws_wbuf w) p d in
      Ret (zlen d, with_out (ss_loc s) (set_send wbuf (ws_ptr w) (remain_send_block_bytes w) w) s)
  end.

(** One call of [format_body_chunk] on the session. *)
Definition format_chunk (s : session D) : outcome (Z * session D) :=
  let* (ret, w) := format_body_chunk (ss_out s) in
  let moved := (ret =? CI_EOF) || (0 <? remain s) in
  Ret (ret, with_out (if moved && responce_hasbody (ss_out s) then OWbuf else ss_loc s) w s).

(** The next block of the body: [Some] of the value returned at once, or [None]. *)
Definition fetch_chunk (io : io_fun D) (s : session D) : outcome (option Z * session D) :=
  let s := point OWbuf EXTRA_CHUNK_SIZE MAX_CHUNK_SIZE s in
  let* (_, r, _, s) := io s (Some MAX_CHUNK_SIZE) None true in
  let* (n, s) := put_read EXTRA_CHUNK_SIZE r s in
  let s := point OWbuf EXTRA_CHUNK_SIZE n s in
  if n =? CI_ERROR then Ret (Some CI_ERROR, s)
  else if n =? 0 then Ret (Some CI_OK, s)
  else
  let* (ret, s) := format_chunk s in
  Ret (None, if ret =? CI_EOF then with_status SEND_EOF s else s).

(** The [do ... while] loop; [io] is the function that supplies the body. *)
Fixpoint remaining_loop (fuel : nat) (io : io_fun D) (s : session D) : outcome (Z * session D) :=
  match fuel with
  | O => NoFuel
  | S fuel' =>
      let* (f, s) := flush s in
      if f =? CI_ERROR then Ret (CI_ERROR, s)
      else
      let* (stop, s) :=
        if (ss_status s =? SEND_BODY) && (remain s =? 0) then fetch_chunk io s else Ret (None, s) in
      match stop with
      | Some code => Ret (code, s)
      | None =>
          let* (ret, s) := update_send_status s in
          if 0 <=? ret then remaining_loop fuel' io s
          else Ret (if ret =? CI_ERROR then ret else CI_OK, s)
      end
  end.

(** [mod_echo_io(wbuf, wlen, rbuf, rlen, iseof, req)]. *)
Definition mod_echo_io : io_fun D := λ s room d eof,
  match ss_echo s with
  | None => Ret (CI_ERROR, SrcCode 0, 0, s)
  | Some b =>
      let* (n, b) :=
        match d with Some x => ci_ring_buf_write b x | None => Ret (0, b) end in
      if n <? 0 then Ret (CI_ERROR, SrcCode 0, n, with_echo (Some b) s)
      else
      match room with
      | None => Ret (CI_OK, SrcCode 0, n, with_echo (Some b) s)
      | Some r =>
          let* (k, x, b) := ci_ring_buf_read b r in
          let s := with_echo (Some b) s in
          if (k =? 0) && eof_received (rd_stream (rq_reader (ss_req s))) then Ret (CI_OK, SrcCode CI_EOF, n, s)
          else Ret (CI_OK, if 0 <? k then SrcData x else SrcCode k, n, s)
      end
  end.

(** The function that supplies the body: [None] for a null pointer. *)
Definition body_io (ops : service_ops D) (s : session D) : option (io_fun D) :=
  match ss_echo s with
  | Some _ => Some mod_echo_io
  | None => option_map call_io (mod_service_io ops)
  end.

Definition send_remaining_response (fuel : nat) (ops : service_ops D) (s : session D) : outcome (Z * session D) :=
  match body_io ops s with
  | None => Ret (CI_ERROR, s)
  | Some io =>
      if (ss_status s =? SEND_EOF) && (remain s =? 0) then Ret (CI_OK, s)
      else remaining_loop fuel io s
  end.

End response.

(** ** Sending a block *)

Section blocks.
Context (env : server_env) {D : Type}.
Implicit Types (d : list Z).

Definition out_block (s : session D) : list Z := slice (out_mem s) (ws_ptr (ss_out s)) (remain s).

(** The block lies in the memory it points into. *)
Definition block_in (s : session D) : Prop :=
  0 ≤ ws_ptr (ss_out s) ∧ 0 ≤ remain s ∧ ws_ptr (ss_out s) + remain s ≤ zlen (out_mem s).

(** From [s] to [s'] the bytes [d] of the block were sent, and nothing else changed. *)
Record progress d (s s' : session D) : Prop := {
  pg_req : ss_req s' = ss_req s;
  pg_status : ss_status s' = ss_status s;
  pg_loc : ss_loc s' = ss_loc s;
  pg_code : ss_code s' = ss_code s;
  pg_response : ss_response s' = ss_response s;
  pg_echo : ss_echo s' = ss_echo s;
  pg_data : ss_data s' = ss_data s;
  pg_locked : ss_locked s' = ss_locked s;
  pg_wbuf : ws_wbuf (ss_out s') = ws_wbuf (ss_out s);
  pg_body : same_body (ss_out s) (ss_out s');
  pg_ptr : ws_ptr (ss_out s') = ws_ptr (ss_out s) + zlen d;
  pg_remain : remain s' = remain s - zlen d;
  pg_sent : sent (ss_conn s') = sent (ss_conn s) ++ d
}.

Lemma progress_conn n c (s : session D) : sent c = sent (ss_conn s) → progress [] s (with_conn n c s).
Proof. intros Hc. split; try done; cbn; rewrite ?app_nil_r; try done; unfold remain; cbn; zlia. Qed.

Lemma same_body_trans w w1 w2 : same_body w w1 → same_body w1 w2 → same_body w w2.
Proof. intros (?&?&?) (?&?&?). split_and!; congruence. Qed.

Lemma progress_trans d1 d2 (s s1 s2 : session D) :
  progress d1 s s1 → progress d2 s1 s2 → progress (d1 ++ d2) s s2.
Proof.
  intros [] []. split; try congruence; [by eapply same_body_trans|zlia|zlia|].
  by rewrite app_assoc; congruence.
Qed.

Lemma progress_mem d (s s' : session D) : progress d s s' → out_mem s' = out_mem s.
Proof.
  intros Hp. unfold out_mem, ss_encaps.
  by rewrite (pg_loc _ _ _ Hp), (pg_response _ _ _ Hp), (pg_req _ _ _ Hp), (pg_wbuf _ _ _ Hp).
Qed.

Lemma progress_block d (s s' : session D) :
  progress d s s' → block_in s → zlen d ≤ remain s →
  block_in s' ∧ (d = take (length d) (out_block s) → out_block s = d ++ out_block s').
Proof.
  intros Hp (H1 & H2 & H3) Hd. pose proof (progress_mem _ _ _ Hp) as Hm.
  pose proof (pg_ptr _ _ _ Hp) as H4. pose proof (pg_remain _ _ _ Hp) as H5. split.
  { unfold block_in. rewrite Hm, H4, H5. zlia. }
  intros Htake. unfold out_block at 1. replace (remain s) with (zlen d + remain s') by lia.
  rewrite slice_split by zlia. unfold out_block at 1. rewrite Hm, H4.
  apply (f_equal (λ x, x ++ _)). etrans; [|symmetry; exact Htake].
  unfold out_block, slice. rewrite take_take. f_equal. unfold zlen in *. lia.
Qed.

(** A network on which the next waits find the connection writable, no write fails, and the writes
    that take at least one byte are at least [n]. *)
Definition write_ready (w : Z) : Prop := ci_connection_wait ci_wait_for_write w = ci_wait_for_write.

Fixpoint npos (ws : list Z) : Z :=
  match ws with [] => 0 | w :: ws' => (if 0 <? w then 1 else 0) + npos ws' end.

Definition willing (n : Z) (c : conn) : Prop :=
  Forall write_ready (waits c) ∧ Forall (λ w, 0 ≤ w) (writes c) ∧ n ≤ npos (writes c) ∧
  zlen (writes c) ≤ zlen (waits c).

Lemma send_block_spec (s : session D) :
  block_in s → 0 < remain s →
  ∃ r d s', send_current_block_data s = Ret (r, s') ∧ progress d s s' ∧
    d = take (length d) (out_block s) ∧ zlen d ≤ remain s ∧ waits (ss_conn s') = waits (ss_conn s) ∧
    (r ≠ CI_ERROR → zlen (writes (ss_conn s')) + 1 = zlen (writes (ss_conn s))) ∧
    (Forall (λ w, 0 ≤ w) (writes (ss_conn s)) → remain s ≤ npos (writes (ss_conn s)) → r ≠ CI_ERROR) ∧
    (Forall (λ w, 0 ≤ w) (writes (ss_conn s)) → Forall (λ w, 0 ≤ w) (writes (ss_conn s')) ∧
       npos (writes (ss_conn s)) - zlen d ≤ npos (writes (ss_conn s')) ∧
       zlen (writes (ss_conn s')) ≤ Z.max 0 (zlen (writes (ss_conn s)) - 1)).
Proof.
  intros Hb Hn. pose proof Hb as (H1 & H2 & H3). unfold send_current_block_data. solve_cmp.
  rewrite read_bytes_ok by lia. cbn [obind]. fold (out_block s).
  assert (Hz : zlen (out_block s) = remain s) by (unfold out_block; rewrite zlen_slice; lia).
  unfold ci_write_nonblock. destruct (writes (ss_conn s)) as [|w ws] eqn:Hw.
  { eexists _, [], _. split; [done|]. split; [by apply progress_conn|]. cbn. rewrite Hw. split_and!; try done; zlia. }
  destruct (Z.ltb_spec w 0) as [Hneg|Hpos].
  { eexists _, [], _. split; [done|]. split; [by apply progress_conn|]. cbn. split_and!; try done.
    - intros HF. apply Forall_cons_1 in HF. lia.
    - intros HF. apply Forall_cons_1 in HF. lia. }
  set (k := Z.min w (zlen (out_block s))). assert (Hk : 0 ≤ k ≤ remain s) by (unfold k; lia). solve_cmp.
  assert (Hd : zlen (take (Z.to_nat k) (out_block s)) = k) by (rewrite zlen_take; unfold zlen in *; lia).
  eexists _, (take (Z.to_nat k) (out_block s)), _. split; [done|].
  split. { split; cbn; rewrite ?Hd; try done; unfold remain; cbn; lia. }
  assert (Hlen : length (take (Z.to_nat k) (out_block s)) = Z.to_nat k) by (unfold zlen in Hd; lia).
  rewrite Hlen, Hd. split; [done|]. split; [lia|]. split; [done|]. cbn [writes ss_conn advance with_out with_conn].
  split; [intros _; zlia|].
  split.
  - intros _ _. unfold remain, CI_ERROR in *. cbn. lia.
  - intros HF. apply Forall_cons_1 in HF as [_ HF]. split; [done|]. cbn [npos]. split; [|zlia].
    destruct (Z.ltb_spec 0 w); [|lia]. unfold k. lia.
Qed.

Lemma flush_loop_spec fuel (s : session D) :
  (length (waits (ss_conn s)) < fuel)%nat → block_in s →
  ∃ r d s', flush_loop env fuel s = Ret (r, s') ∧ progress d s s' ∧ block_in s' ∧
    out_block s = d ++ out_block s' ∧
    (r = CI_ERROR ∨ r = CI_OK ∧ remain s' = 0) ∧
    ∀ n, CHILD_HALT env = false → willing n (ss_conn s) → remain s ≤ n →
      r = CI_OK ∧ willing (n - zlen d) (ss_conn s').
Proof.
  revert s. induction fuel as [|fuel IH]; intros s Hf Hb; [lia|]. cbn [flush_loop].
  destruct (Z.ltb_spec 0 (remain s)) as [Hr|Hr].
  2:{ exists CI_OK, [], s. split; [done|]. split.
      { split; try done; rewrite ?app_nil_r; try done; unfold remain; zlia. }
      split; [done|]. split; [done|]. split; [right; destruct Hb; lia|].
      intros n _ Hw _. split; [done|]. by replace (n - zlen []) with n by zlia. }
  unfold wait_for_data. destruct (CHILD_HALT env) eqn:Hh.
  { eexists CI_ERROR, [], _. cbn. split; [done|]. split; [by apply progress_conn|].
    split; [done|]. split; [done|]. by split; [left|]. }
  destruct (wait_loop ci_wait_for_write (waits (ss_conn s))) as [rw ws] eqn:Hwait.
  assert (Hws : (length ws ≤ length (waits (ss_conn s)))%nat ∧
                (0 ≤ rw → (length ws < length (waits (ss_conn s)))%nat) ∧
                (waits (ss_conn s) ≠ [] → Forall write_ready (waits (ss_conn s)) →
                 rw = 2 ∧ ws = drop 1 (waits (ss_conn s)))).
  { clear - Hwait. revert rw ws Hwait. induction (waits (ss_conn s)) as [|w l IHl]; intros rw ws Hw; cbn in Hw.
    { injection Hw as <- <-. split; [done|]. split; [lia|done]. }
    split; [|split].
    - repeat case_match; simplify_eq; cbn; try lia. destruct (IHl _ _ Hw) as [? _]. lia.
    - intros ?. repeat case_match; simplify_eq; cbn; try lia. destruct (IHl _ _ Hw) as [? _]. lia.
    - intros _ HF. apply Forall_cons_1 in HF as [Hrd _]. unfold write_ready in Hrd. rewrite Hrd in Hw.
      vm_compute in Hw. by simplify_eq. }
  destruct Hws as (Hl1 & Hl2 & Hl3).
  set (c := mkConn ws (writes (ss_conn s)) (sent (ss_conn s))).
  assert (Hp0 : progress [] s (with_conn 0 c s)) by (by apply progress_conn).
  destruct (progress_block _ _ _ Hp0 Hb ltac:(change (zlen []) with 0; lia)) as [Hb1 _].
  cbn zeta. destruct (Z.ltb_spec rw 0) as [Hrw|Hrw].
  { eexists CI_ERROR, [], _. split; [done|]. split; [done|].
    split; [done|]. split; [done|]. split; [by left|].
    intros n _ (HF & _ & Hn & Hwl) Hle. exfalso. destruct Hl3 as [-> _]; [|done|lia].
    destruct (waits (ss_conn s)); [|done]. destruct (writes (ss_conn s)); cbn in *; [lia|zlia]. }
  destruct (send_block_spec (with_conn 0 c s) Hb1 Hr) as (rb & d & s2 & -> & Hp1 & Hd & Hdl & Hwt & _ & Hnoerr & Hwr).
  cbn [obind]. pose proof (progress_trans _ _ _ _ _ Hp0 Hp1) as Hp. cbn [app] in Hp.
  destruct (progress_block _ _ _ Hp1 Hb1 Hdl) as [Hb2 Hblk]. specialize (Hblk Hd).
  change (out_block (with_conn 0 c s)) with (out_block s) in Hblk.
  destruct (Z.eqb_spec rb CI_ERROR) as [->|Hrb].
  { eexists CI_ERROR, d, s2. split; [done|]. split; [done|]. split; [done|]. split; [done|].
    split; [by left|]. intros n _ (HF & HF2 & Hn & Hwl) Hle. destruct Hnoerr; [done| |done].
    cbn. change (remain (with_conn 0 c s)) with (remain s). lia. }
  cbn in Hwt. destruct (IH s2) as (r & d2 & s3 & Hfl & Hp2 & Hb3 & Hblk2 & Hres & Hlive).
  { rewrite Hwt. specialize (Hl2 Hrw). lia. }
  { done. }
  exists r, (d ++ d2), s3. split; [exact Hfl|]. split; [by eapply progress_trans|]. split; [done|].
  split; [by rewrite Hblk, Hblk2, app_assoc|]. split; [done|].
  intros n Hh' (HF & HF2 & Hn & Hwl) Hle. destruct (Hwr HF2) as (HF2' & Hn' & Hwl').
  cbn [ss_conn with_conn writes] in Hn', Hwl'. unfold c in Hn', Hwl'. cbn [writes] in Hn', Hwl'.
  destruct (Hlive (n - zlen d) eq_refl) as [-> Hw]; [|rewrite (pg_remain _ _ _ Hp); lia|].
  - assert (Hne : waits (ss_conn s) ≠ []).
    { intros Hnil. rewrite Hnil in Hl2. specialize (Hl2 Hrw). cbn in Hl2. lia. }
    destruct (Hl3 Hne HF) as [_ Hdrop].
    split_and!; [|done|lia|].
    + rewrite Hwt, Hdrop. by apply Forall_drop.
    + rewrite Hwt, Hdrop, zlen_drop. cbn. unfold zlen in *. lia.
  - split; [done|]. by replace (n - zlen (d ++ d2)) with (n - zlen d - zlen d2) by zlia.
Qed.

End blocks.

(** ** The whole response *)

Definition chunks (cs : list (list Z)) : list Z := concat (map encode_chunk cs).

Lemma encode_chunks cs : encode cs = chunks cs ++ eof_chunk.
Proof. induction cs as [|c cs IH]; [done|]. unfold chunks. cbn. by rewrite IH, app_assoc. Qed.

(** The headers the entities put before the body. *)
Fixpoint hdr_blocks (es : list (option ci_encaps_entity_t)) : list Z :=
  match es with
  | Some e :: es' => if is_hdr (type e) then block e ++ hdr_blocks es' else []
  | _ => []
  end.

(** Only the first two entities are headers, and their buffers hold them. *)
Definition headers_ok (es : list (option ci_encaps_entity_t)) : Prop :=
  (3 ≤ length es)%nat ∧
  ∀ i e, es !! i = Some (Some e) → is_hdr (type e) = true →
    (i < 2)%nat ∧ ∃ h, entity e = Some h ∧ 0 ≤ bufused h ≤ zlen (buf h).

Section remaining.
Context (junk : Z → Z) (ai ab : bool) (env : server_env) {D : Type} (io : io_fun D) `{!Supplier io}.

Definition body_of (s : session D) (cs : list (list Z)) : list Z :=
  if responce_hasbody (ss_out s) then chunks cs ++ body_end (ss_out s) else [].

(** What is still to be sent when the service will give [cs]. *)
Definition rest_of (s : session D) (cs : list (list Z)) : list Z :=
  out_block s ++
  if ss_status s =? SEND_EOF then []
  else if ss_status s =? SEND_BODY then body_of s cs
  else hdr_blocks (drop (Z.to_nat (ss_status s - SEND_RESPHEAD)) (entities (ss_encaps s))) ++ body_of s cs.

Record sending (s : session D) : Prop := {
  sd_status : SEND_RESPHEAD ≤ ss_status s ≤ SEND_EOF ∧ ss_status s ≠ SEND_HEAD3;
  sd_body : ss_status s = SEND_BODY → responce_hasbody (ss_out s) = true;
  sd_block : block_in s;
  sd_wbuf : zlen (ws_wbuf (ss_out s)) = WBUF_SIZE;
  sd_origin : is_ec_206 (ss_out s) = true → use_original_body (ss_out s) < 2 ^ 63;
  sd_headers : headers_ok (entities (ss_encaps s))
}.

Lemma sending_progress d s s' : progress d s s' → block_in s' → sending s → sending s'.
Proof.
  intros Hp Hb [H1 H2 H3 H4 H5 H6]. pose proof (pg_body _ _ _ Hp) as (B1 & B2 & B3). split; unfold ss_encaps.
  - by rewrite (pg_status _ _ _ Hp).
  - rewrite (pg_status _ _ _ Hp), B1. done.
  - done.
  - by rewrite (pg_wbuf _ _ _ Hp).
  - by rewrite B2, B3.
  - by rewrite (pg_req _ _ _ Hp).
Qed.

Lemma rest_progress d s s' cs :
  progress d s s' → out_block s = d ++ out_block s' → rest_of s cs = d ++ rest_of s' cs.
Proof.
  intros Hp Hb. unfold rest_of, body_of, body_end, ss_encaps. destruct (pg_body _ _ _ Hp) as (B1 & B2 & B3).
  by rewrite Hb, (pg_status _ _ _ Hp), (pg_req _ _ _ Hp), B1, B2, B3, <- app_assoc.
Qed.

Lemma same_service_progress d s s' : progress (D:=D) d s s' → same_service s s'.
Proof. intros Hp. split_and!; [apply Hp|apply Hp|by rewrite (pg_req _ _ _ Hp)]. Qed.

(** What the move to the next block leaves as it was; a header comes before the body. *)
Definition next_block (s s' : session D) : Prop :=
  ss_req s' = ss_req s ∧ (ss_locked s' = ss_locked s ∧ ss_code s' = ss_code s) ∧ same_body (ss_out s) (ss_out s') ∧
  (ss_status s' = SEND_BODY ∧ remain s' = 0 ∨
   ss_status s' < SEND_BODY ∧
     ∃ i e h, entities (ss_encaps s) !! i = Some (Some e) ∧ is_hdr (type e) = true ∧ entity e = Some h ∧ remain s' = bufused h).

(** The next block of headers, or the body, or the end. *)
Lemma update_headers_spec s :
  sending s → remain s = 0 → ss_status s < SEND_BODY →
  ∃ ret s', update_send_status junk ai ab env s = Ret (ret, s') ∧
    sending s' ∧ same_service s s' ∧ ss_conn s' = ss_conn s ∧
    (ret = CI_OK ∧ ss_status s < ss_status s' ∧ (∀ cs, rest_of s cs = rest_of s' cs) ∧ next_block s s' ∨
     ret = CI_EOF ∧ responce_hasbody (ss_out s) = false ∧ ∀ cs, rest_of s cs = []).
Proof.
  intros [[Hst H3] Hbd Hb Hw Ho [Hlen Hes]] Hr Hlt.
  assert (Hs0 : out_block s = []) by (unfold out_block; by rewrite Hr).
  unfold SEND_RESPHEAD, SEND_EOF, SEND_BODY, SEND_HEAD3 in *.
  assert (Hi : ∃ i : nat, ss_status s = Z.of_nat i + 1 ∧ (i < 3)%nat) by (exists (Z.to_nat (ss_status s - 1)); lia).
  destruct Hi as (i & Hi & Hi3). unfold update_send_status. rewrite Hi.
  unfold SEND_NOTHING, SEND_EOF, SEND_BODY, SEND_HEAD3, SEND_RESPHEAD, SEND_HEAD1. solve_cmp.
  replace (Z.of_nat i + 1 + 1 - 2) with (Z.of_nat i) by lia. unfold arr_get. solve_cmp. rewrite Nat2Z.id.
  destruct (lookup_lt_is_Some_2 (entities (ss_encaps s)) i ltac:(lia)) as [o Ho'].
  rewrite Ho'. cbn [obind].
  assert (Hrest : ∀ cs, rest_of s cs = hdr_blocks (o :: drop (S i) (entities (ss_encaps s))) ++ body_of s cs).
  { intros cs. unfold rest_of. rewrite Hs0, Hi. unfold SEND_EOF, SEND_BODY, SEND_RESPHEAD. solve_cmp.
    replace (Z.to_nat (Z.of_nat i + 1 - 1)) with i by lia. by rewrite <- (drop_S _ _ _ Ho'). }
  destruct (match o with Some e => is_hdr (type e) | None => false end) eqn:Hh.
  - destruct o as [e|]; [|done]. destruct (Hes i e Ho' Hh) as (Hi2 & h & He & Hu).
    destruct e as [st ty en]. cbn [entity type] in *. subst en.
    eexists _, _. split; [done|]. cbn [ss_conn with_status point with_out].
    assert (Hm : out_mem (with_status (Z.of_nat i + 1 + 1) (point (OEntity (Z.of_nat i)) 0 (bufused h) s)) = buf h).
    { unfold out_mem. cbn. rewrite Nat2Z.id. unfold ss_encaps in *. cbn. by rewrite Ho'. }
    split; [split; try done|split; [done|split; [done|left]]].
    + cbn. unfold SEND_RESPHEAD, SEND_EOF, SEND_HEAD3. lia.
    + cbn. unfold SEND_BODY. lia.
    + unfold block_in. rewrite Hm. unfold remain. cbn. lia.
    + split; [done|]. split; [cbn; lia|].
      split; [|split_and!; try done; right; split; [cbn; unfold SEND_BODY; lia|by exists i, (mkEntity st ty (Some h)), h]].
      intros cs. rewrite Hrest. unfold rest_of at 1. cbn [ss_status with_status].
      unfold SEND_EOF, SEND_BODY, SEND_RESPHEAD. solve_cmp. unfold out_block. rewrite Hm. cbn -[hdr_blocks].
      replace (Z.to_nat (Z.of_nat i + 1 + 1 - 1)) with (S i) by lia.
      cbn [hdr_blocks type]. rewrite Hh. unfold block. cbn [entity type]. rewrite Hh. by rewrite app_assoc.
  - assert (Hnone : hdr_blocks (o :: drop (S i) (entities (ss_encaps s))) = []).
    { destruct o as [e|]; [|done]. cbn. by rewrite Hh. }
    destruct (responce_hasbody (ss_out s)) eqn:Hbody.
    + eexists _, _. split; [done|]. split; [split; try done|split; [done|split; [done|left]]].
      split; [done|]. split; [cbn; unfold SEND_BODY; lia|]. split; [|split_and!; try done; by left].
      intros cs. rewrite Hrest, Hnone. assert (Hs1 : out_block (with_status 5 s) = []) by exact Hs0.
      unfold rest_of. by rewrite Hs1.
    + eexists _, _. split; [done|]. split; [split; try done|split; [done|split; [done|right]]].
      split; [done|]. split; [done|]. intros cs. rewrite Hrest, Hnone. unfold body_of. by rewrite Hbody.
Qed.

Lemma format_chunk_eq (s : session D) ret w' :
  format_body_chunk (ss_out s) = Ret (ret, w') → responce_hasbody (ss_out s) = true →
  ret = CI_EOF ∨ 0 < remain s → format_chunk s = Ret (ret, with_out OWbuf w' s).
Proof.
  intros Hf Hb Hm. unfold format_chunk. rewrite Hf. cbn [obind]. rewrite Hb, andb_true_r.
  destruct Hm as [-> | Hm]; [done|]. rewrite (proj2 (Z.ltb_lt _ _) Hm), orb_true_r. done.
Qed.

(** The next piece of the body, in [wbuf], as a chunk; or the end of the body. *)
Lemma next_chunk_spec s cs :
  sending s → gives s cs → ss_status s = SEND_BODY → remain s = 0 →
  ∃ s', ss_conn s' = ss_conn s ∧ sending s' ∧ rest_of s cs = rest_of s' (tail cs) ∧
    fetch_chunk io s = Ret (None, s') ∧
    match cs with
    | [] => ss_status s' = SEND_EOF
    | _ :: cs' => ss_status s' = SEND_BODY ∧ gives s' cs'
    end.
Proof.
  intros [Hst Hbd Hb Hw Ho Hes] Hg Hs Hr. specialize (Hbd Hs).
  assert (Hs0 : out_block s = []) by (unfold out_block; by rewrite Hr).
  set (s1 := point OWbuf EXTRA_CHUNK_SIZE MAX_CHUNK_SIZE s).
  destruct (gives_step s1 cs) as (ret & n & d & e & l & Hio & Hnext).
  { by apply (gives_frame s); [|split_and!]. }
  assert (Hrest : rest_of s cs = chunks cs ++ body_end (ss_out s)).
  { unfold rest_of, body_of. by rewrite Hs0, Hs, Hbd. }
  assert (Hz : zlen (ws_wbuf (ss_out s)) = 4096) by done.
  destruct cs as [|c cs].
  - destruct (format_body_chunk_end (set_send (ws_wbuf (ss_out s)) EXTRA_CHUNK_SIZE CI_EOF (ss_out s)))
      as (w' & Hf & Hsb & Hw' & Hok & (B1 & B2 & B3)); [done..|].
    set (s2 := with_status SEND_EOF (with_out OWbuf w' (point OWbuf EXTRA_CHUNK_SIZE CI_EOF (served d e l s1)))).
    exists s2. split; [done|]. split.
    { split; try done. unfold s2. cbn. by rewrite B2, B3. }
    split. { rewrite Hrest. unfold rest_of. cbn. rewrite app_nil_r. symmetry. exact Hsb. }
    split; [|done]. unfold fetch_chunk. fold s1. rewrite Hio. cbn [obind put_read Z.eqb CI_EOF CI_ERROR Pos.eqb].
    rewrite (format_chunk_eq _ CI_EOF w'); [done|exact Hf|exact Hbd|by left].
  - destruct (Hnext c cs eq_refl) as [Hc Hg']. pose proof Hc as Hc'. unfold MAX_CHUNK_SIZE in Hc'.
    assert (Hwr : write_bytes (ws_wbuf (ss_out s)) EXTRA_CHUNK_SIZE c = Ret (splice (ws_wbuf (ss_out s)) EXTRA_CHUNK_SIZE c)).
    { apply write_bytes_ok; unfold EXTRA_CHUNK_SIZE; lia. }
    destruct (format_body_chunk_data
      (set_send (splice (ws_wbuf (ss_out s)) EXTRA_CHUNK_SIZE c) EXTRA_CHUNK_SIZE (zlen c) (ss_out s)) c)
      as (w' & Hf & Hsb & Hw' & Hok & (B1 & B2 & B3)); [done| |done|done| |].
    { cbn. rewrite zlen_splice; unfold EXTRA_CHUNK_SIZE; lia. }
    { cbn. rewrite slice_splice_same; unfold EXTRA_CHUNK_SIZE; done || lia. }
    cbn in B1, B2, B3.
    set (s2 := with_out OWbuf w' (served d e l s1)).
    exists s2. split; [done|]. split.
    { split; try done. - cbn. by rewrite B1. - cbn. by rewrite B2, B3. }
    split.
    { rewrite Hrest. unfold rest_of, body_of, body_end. cbn [ss_status s2 with_out served with_locked with_echo with_data
        s1 point ss_out tail]. rewrite Hs, B1, B2, B3, Hbd. unfold chunks at 1. cbn [map concat Z.eqb Pos.eqb SEND_BODY SEND_EOF].
      rewrite <- app_assoc. f_equal. symmetry. exact Hsb. }
    split; [|split; [done|]].
    + unfold fetch_chunk. fold s1. rewrite Hio. cbn [obind put_read].
      change (ws_wbuf (ss_out (served d e l s1))) with (ws_wbuf (ss_out s)). rewrite Hwr. cbn [obind].
      assert (Hn1 : (zlen c =? CI_ERROR) = false) by (unfold CI_ERROR; lia). rewrite Hn1. solve_cmp.
      rewrite (format_chunk_eq _ CI_OK w'); [done|exact Hf|exact Hbd|right; unfold remain; cbn; lia].
    + apply (gives_frame (served d e l s1)); [done|by split_and!].
Qed.

Lemma update_eof_spec (s : session D) :
  ss_status s = SEND_EOF → remain s = 0 → update_send_status junk ai ab env s = Ret (CI_EOF, s).
Proof. intros Hs Hr. unfold update_send_status. by rewrite Hs, Hr. Qed.

Lemma update_pending_spec (s : session D) :
  sending s → SEND_BODY ≤ ss_status s → remain s ≠ 0 ∨ ss_status s = SEND_BODY →
  update_send_status junk ai ab env s = Ret (CI_OK, s).
Proof.
  intros [[Hst _] _ _ _ _ _] Hlt Hr. unfold update_send_status.
  unfold SEND_NOTHING, SEND_EOF, SEND_BODY, SEND_RESPHEAD in *. solve_cmp.
  destruct (Z.eqb_spec (ss_status s) 6); [|by solve_cmp]. destruct Hr; [|lia]. by solve_cmp.
Qed.

Lemma chunk_pending s s' cs :
  sending s' → rest_of s cs = rest_of s' (tail cs) → ss_status s = SEND_BODY → remain s = 0 →
  responce_hasbody (ss_out s) = true →
  match cs with [] => ss_status s' = SEND_EOF | _ => ss_status s' = SEND_BODY end → 
  remain s' ≠ 0 ∨ ss_status s' = SEND_BODY.
Proof.
  intros Hs' Hrest Hs Hr Hb Hcs. destruct cs as [|c cs]; [|by right]. left. intros H0.
  unfold rest_of at 2, out_block in Hrest. rewrite Hcs, H0 in Hrest. cbn in Hrest.
  unfold rest_of, body_of, out_block in Hrest. rewrite Hs, Hr, Hb in Hrest. cbn in Hrest.
  unfold body_end in Hrest. by destruct (_ && _).
Qed.

Lemma remaining_loop_spec fuel s cs :
  sending s → ss_status s = SEND_EOF ∨ gives s cs →
  (Z.to_nat (SEND_EOF - ss_status s) + length cs < fuel)%nat →
  ∃ ret d s', remaining_loop junk ai ab env fuel io s = Ret (ret, s') ∧
    sent (ss_conn s') = sent (ss_conn s) ++ d ∧ (∃ d2, rest_of s cs = d ++ d2) ∧
    (ret = CI_ERROR ∨ ret = CI_OK ∧ d = rest_of s cs) ∧
    (CHILD_HALT env = false → willing (zlen (rest_of s cs)) (ss_conn s) → ret = CI_OK).
Proof.
  revert s cs. induction fuel as [|fuel IH]; intros s cs Hs Hg Hf; [lia|]. cbn [remaining_loop].
  destruct (flush_loop_spec env (S (S (length (waits (ss_conn s))))) s) as (r & d & s1 & Hfl & Hp & Hb1 & Hblk & Hres & Hlive);
    [lia|apply Hs|]. unfold flush. rewrite Hfl. cbn [obind].
  pose proof (rest_progress _ _ _ cs Hp Hblk) as Hrest.
  pose proof (pg_sent _ _ _ Hp) as Hsent. pose proof (pg_status _ _ _ Hp) as Hst1.
  assert (Hrl : remain s ≤ zlen (rest_of s cs)).
  { unfold rest_of. rewrite zlen_app. unfold out_block. destruct (sd_block _ Hs) as (?&?&?).
    rewrite zlen_slice by lia. zlia. }
  destruct Hres as [-> | [-> Hr0]].
  { exists CI_ERROR, d, s1. split; [done|]. split; [done|]. split; [by exists (rest_of s1 cs)|].
    split; [by left|]. intros Hh Hw. by destruct (Hlive _ Hh Hw Hrl) as [? _]. }
  cbn [Z.eqb CI_OK CI_ERROR Pos.eqb]. pose proof (sending_progress _ _ _ Hp Hb1 Hs) as Hs1.
  assert (Hwill : CHILD_HALT env = false → willing (zlen (rest_of s cs)) (ss_conn s) →
                  willing (zlen (rest_of s1 cs)) (ss_conn s1)).
  { intros Hh Hw. destruct (Hlive _ Hh Hw Hrl) as [_ Hw1]. rewrite Hrest in Hw1.
    by replace (zlen (d ++ rest_of s1 cs) - zlen d) with (zlen (rest_of s1 cs)) in Hw1 by zlia. }
  assert (Hg1 : ss_status s1 = SEND_EOF ∨ gives s1 cs).
  { rewrite Hst1. destruct Hg; [by left|right]. eapply gives_frame; [done|by eapply same_service_progress]. }
  (* what the rest of the loop gives from a later state *)
  assert (Hstep : ∀ s2 cs2, sending s2 → ss_status s2 = SEND_EOF ∨ gives s2 cs2 → ss_conn s2 = ss_conn s1 →
    rest_of s1 cs = rest_of s2 cs2 →
    (Z.to_nat (SEND_EOF - ss_status s2) + length cs2 < Z.to_nat (SEND_EOF - ss_status s) + length cs)%nat →
    ∃ ret d s', remaining_loop junk ai ab env fuel io s2 = Ret (ret, s') ∧
      sent (ss_conn s') = sent (ss_conn s) ++ d ∧ (∃ d2, rest_of s cs = d ++ d2) ∧
      (ret = CI_ERROR ∨ ret = CI_OK ∧ d = rest_of s cs) ∧
      (CHILD_HALT env = false → willing (zlen (rest_of s cs)) (ss_conn s) → ret = CI_OK)).
  { intros s2 cs2 H2 Hg2 Hc2 Hr2 Hm.
    destruct (IH s2 cs2 H2 Hg2 ltac:(lia)) as (ret & d2 & s' & Hrun & Hsn & (d3 & Hd3) & Hret & Hlv).
    exists ret, (d ++ d2), s'. split; [done|]. split; [by rewrite Hsn, Hc2, Hsent, app_assoc|].
    split; [exists d3; by rewrite Hrest, Hr2, Hd3, app_assoc|]. split.
    - destruct Hret as [-> | [-> ->]]; [by left|right]. by rewrite Hrest, Hr2.
    - intros Hh Hw. apply Hlv; [done|]. rewrite Hc2, <- Hr2. by apply Hwill. }
  destruct (Z.eqb_spec (ss_status s1) SEND_BODY) as [Hbody|Hbody].
  - rewrite Hr0. cbn [Z.eqb andb].
    destruct Hg1 as [Heof|Hg1]; [by rewrite Heof in Hbody|].
    destruct (next_chunk_spec s1 cs Hs1 Hg1 Hbody Hr0) as (s2 & Hc2 & Hs2 & Hr2 & Hrun & Hnext).
    rewrite Hrun. cbn [obind].
    rewrite update_pending_spec; [|done|by destruct cs as [|c cs]; [rewrite Hnext|destruct Hnext as [-> _]]|].
    2:{ eapply (chunk_pending s1 s2 cs); try done; [by apply (sd_body _ Hs1)|].
        destruct cs; [done|]. by destruct Hnext. }
    cbn [obind Z.leb Z.compare CI_OK]. apply (Hstep s2 (tail cs)); try done.
    + destruct cs; [by left|]. right. by destruct Hnext.
    + destruct cs as [|c cs]; [rewrite Hnext|destruct Hnext as [-> _]];
        rewrite <- Hst1, Hbody; unfold SEND_EOF, SEND_BODY; cbn; lia.
  - cbn [andb obind]. destruct (Z.eqb_spec (ss_status s1) SEND_EOF) as [Heof|Heof].
    + rewrite update_eof_spec by done. cbn. exists CI_OK, d, s1. split; [done|]. split; [done|].
      assert (Hr1 : rest_of s1 cs = []).
      { unfold rest_of, out_block. by rewrite Hr0, Heof. }
      rewrite Hr1, app_nil_r in Hrest. rewrite Hrest. split; [by exists []; rewrite app_nil_r|].
      split; [by right|done].
    + destruct (update_headers_spec s1 Hs1 Hr0) as (ret & s2 & -> & Hs2 & Hss & Hc2 & Hcase).
      { pose proof (sd_status _ Hs1) as [? _]. unfold SEND_EOF, SEND_BODY in *. lia. }
      cbn [obind]. destruct Hcase as [(-> & Hlt & Hr2 & _) | (-> & _ & Hr1)].
      * cbn [Z.leb Z.compare CI_OK]. apply (Hstep s2 cs); try done.
        -- right. eapply gives_frame; [|done]. by destruct Hg1.
        -- pose proof (sd_status _ Hs2) as [? _]. rewrite <- Hst1. unfold SEND_EOF in *. lia.
      * cbn. exists CI_OK, d, s2. split; [done|]. split; [by rewrite Hc2|].
        rewrite Hr1, app_nil_r in Hrest. rewrite Hrest. split; [by exists []; rewrite app_nil_r|].
        split; [by right|done].
Qed.

End remaining.

(** ** The ICAP header of a modified message *)

(** The entities of a request with an HTTP header [h] and a body or its absence [b]. *)
Definition message (t : Z) (es : list (option ci_encaps_entity_t)) (h : ci_headers_list_t) (b : ci_encaps_entity_t) : Prop :=
  (t = ICAP_REQMOD ∧ ∃ st, es = [Some (mkEntity st ICAP_REQ_HDR (Some h)); Some b; None; None; None]) ∨
  (t = ICAP_RESPMOD ∧ ∃ st, es = [Some (mkEntity st ICAP_RES_HDR (Some h)); Some b; None; None; None]) ∨
  (t = ICAP_RESPMOD ∧ ∃ e0 st, type e0 = ICAP_REQ_HDR ∧
     es = [Some e0; Some (mkEntity st ICAP_RES_HDR (Some h)); Some b; None; None]).

Definition hdr_type (t : Z) : Z := if t =? ICAP_REQMOD then ICAP_REQ_HDR else ICAP_RES_HDR.

(** The Encapsulated line of such a message, whose HTTP header takes [n] bytes. *)
Definition message_line (t n : Z) (b : ci_encaps_entity_t) : list Z :=
  bytes "Encapsulated: " ++ ci_encaps_entity_string (hdr_type t) ++ bytes "=0, " ++
  ci_encaps_entity_string (type b) ++ bytes "=" ++ print_d n.

Definition env_ok (env : server_env) (m : ci_service_module) (x : ci_service_xdata_t) : Prop :=
  no_nul (VERSION env) ∧ no_nul (MY_HOSTNAME env) ∧ no_nul (descr env m) ∧ no_nul (ISTag x).

Lemma no_nul_status e : no_nul (status_line e).
Proof. destruct e; vm_compute; repeat constructor; discriminate. Qed.

Lemma no_nul_take n l : no_nul l → no_nul (take n l).
Proof. apply Forall_take. Qed.

Lemma no_nul_via env m x : env_ok env m x → no_nul (via_line env m).
Proof.
  intros (H1 & H2 & H3 & _). unfold via_line. apply no_nul_take.
  repeat (apply no_nul_app; [by repeat constructor || done|]). by repeat constructor.
Qed.

Section header.
Context (junk : Z → Z) (env : server_env) {D : Type}.

Lemma add_line_spec h ls tl line :
  hrepr h ls tl → no_nul line →
  ∃ h' tl', add_line junk true true h line = Ret h' ∧ hrepr h' (ls ++ [line]) tl' ∧ sealed tl'.
Proof.
  intros Hr Hn. unfold add_line. destruct (ci_headers_add_spec junk h ls tl line Hr Hn) as (h' & tl' & -> & H).
  by exists h', tl'.
Qed.

Lemma add_xheaders_spec h ls tl xh xls xtl :
  hrepr h ls tl → sealed tl → hrepr xh xls xtl → xls = [] ∨ sealed xtl →
  ∃ h' tl', add_xheaders junk true true h xh = Ret h' ∧ hrepr h' (ls ++ xls) tl' ∧ sealed tl'.
Proof.
  intros Hr Hs Hx Hxs. unfold add_xheaders.
  assert (Hu : used xh = zlen xls) by (unfold used, zlen; by rewrite (hr_index _ _ _ Hx), length_offs).
  rewrite Hu. destruct (Z.eqb_spec (zlen xls) 0) as [H0|H0].
  { destruct xls; [|zlia]. exists h, tl. by rewrite app_nil_r. }
  destruct Hxs as [-> | Hxs]; [done|].
  destruct (ci_headers_addheaders_spec junk h ls tl xh xls xtl Hr Hx Hxs) as (h' & tl' & -> & H). by exists h', tl'.
Qed.

(** After the request header was dropped, the HTTP header is the first entity. *)
Lemma drop_request_spec t r h b :
  message t (entities r) h b → zlen (trash_entities r) = 7 →
  ∃ st tr, drop_request_header t r =
    Ret (mkEncaps [Some (mkEntity st (hdr_type t) (Some h)); Some b; None; None; None] tr (hasbody r)).
Proof.
  intros Hm Htr. destruct r as [es tr hb]. cbn in *.
  destruct Hm as [(-> & st & ->) | [(-> & st & ->) | (-> & e0 & st & H0 & ->)]].
  - by exists st, tr.
  - by exists st, tr.
  - assert (Hset : arr_set tr (type e0) (Some e0) = Ret (<[0%nat := Some e0]> tr))
      by (rewrite H0; unfold arr_set; by rewrite Htr).
    set (es := [Some e0; _; _; _; _]).
    assert (Hrel : ci_request_release_entity (mkEncaps es tr hb) 0 =
      Ret (1, mkEncaps (None :: drop 1 es) (<[0%nat := Some e0]> tr) hb)).
    { unfold ci_request_release_entity. change (arr_get (entities (mkEncaps es tr hb)) 0) with (Ret (Some e0)).
      cbn [obind]. change (arr_set (entities (mkEncaps es tr hb)) 0 None) with (Ret (None :: drop 1 es)).
      cbn [obind trash_entities hasbody]. rewrite Hset. by rewrite H0. }
    unfold drop_request_header. change (arr_get (entities (mkEncaps es tr hb)) 0) with (Ret (Some e0)).
    cbn [obind type_of]. rewrite H0, Hrel. by exists st, (<[0%nat := Some e0]> tr).
Qed.

Lemma add_via_spec t st h b tr hb ls tl line :
  t = ICAP_REQMOD ∨ t = ICAP_RESPMOD → hrepr h ls tl → no_nul line →
  let r := mkEncaps [Some (mkEntity st (hdr_type t) (Some h)); Some b; None; None; None] tr hb in
  ∃ h' tl', hrepr h' (ls ++ [line]) tl' ∧ sealed tl' ∧
    (if t =? ICAP_RESPMOD then
       let* (_, r) := ci_http_response_add_header junk true true false r line in Ret r
     else if t =? ICAP_REQMOD then
       let* (_, r) := ci_http_request_add_header junk true true false r line in Ret r
     else Ret r) =
    Ret (mkEncaps [Some (mkEntity st (hdr_type t) (Some h')); Some b; None; None; None] tr hb).
Proof.
  intros Ht Hr Hn r. destruct (ci_headers_add_spec junk h ls tl line Hr Hn) as (h' & tl' & Ha & Hr' & Hs').
  exists h', tl'. split; [done|]. split; [done|].
  assert (Hedit : edit_heads None (λ h, ci_headers_add junk true true h line) (Some (InEntities 0)) r =
    Ret (Some (zlen (edit ls)), mkEncaps [Some (mkEntity st (hdr_type t) (Some h')); Some b; None; None; None] tr hb)).
  { unfold edit_heads. change (heads_at r (InEntities 0)) with (Ret h). cbn [obind]. rewrite Ha. reflexivity. }
  destruct Ht as [-> | ->].
  - change (ICAP_REQMOD =? ICAP_RESPMOD) with false. cbn match. unfold ci_http_request_add_header.
    change (ci_http_request_headers r) with (Ret (Some (InEntities 0))). cbn [obind]. by rewrite Hedit.
  - change (ICAP_RESPMOD =? ICAP_RESPMOD) with true. cbn match. unfold ci_http_response_add_header.
    change (ci_http_response_headers r) with (Ret (Some (InEntities 0))). cbn [obind]. by rewrite Hedit.
Qed.

Lemma pack_message_spec st t h b ls tl hdr hls htl :
  hrepr h ls tl → sealed tl → is_hdr (type b) = false → hrepr hdr hls htl →
  let n := zlen (wire ls ++ CRLF) in
  ∃ h' hdr' r r',
    ci_request_t_pack junk true true false 0 [Some (mkEntity st (hdr_type t) (Some h)); Some b; None; None; None] hdr =
      Ret ([Some (mkEntity 0 (hdr_type t) (Some h')); Some (set_start n b); None; None; None], hdr') ∧
    buf h' = wire ls ++ CRLF ++ r ∧ bufused h' = n ∧
    buf hdr' = wire (hls ++ [message_line t n b]) ++ CRLF ++ r' ∧
    bufused hdr' = zlen (wire (hls ++ [message_line t n b]) ++ CRLF).
Proof.
  intros Hr Hs Hb Hh n.
  assert (Ht : is_hdr (hdr_type t) = true) by (unfold hdr_type; by destruct (_ =? _)).
  destruct (ci_headers_pack_spec h ls tl Hr Hs) as (h' & r & Hp & Hpb & Hpu & _).
  assert (Hsz : sizeofheader h = n).
  { unfold sizeofheader, n. rewrite (hr_used _ _ _ Hr), <- zlen_wire. unfold CRLF. zlia. }
  unfold ci_request_t_pack. cbn [andb obind set_starts]. unfold sizeofencaps. cbn [type entity]. rewrite Ht, Hsz.
  cbn [obind].
  set (es := [Some (set_start 0 _); Some (set_start n b); None; None; None]).
  assert (Hline : encaps_line es = message_line t n b).
  { unfold encaps_line, es, message_line. cbn [encaps_items set_start type start].
    change (print_d 0) with (bytes "0"). rewrite app_nil_r. cbn [app].
    reflexivity. }
  destruct (ci_headers_add_spec junk hdr hls htl (encaps_line es) Hh) as (hdr1 & htl1 & -> & Hh1 & Hs1).
  { rewrite Hline. unfold message_line. repeat (apply no_nul_app; [by repeat constructor || apply no_nul_name|]).
    apply no_nul_print_d. unfold n. zlia. }
  cbn [obind]. unfold es. cbn [pack_entities set_start type entity start]. rewrite Ht, Hb, Hp. cbn [obind].
  destruct (ci_headers_pack_spec hdr1 _ htl1 Hh1 Hs1) as (hdr' & r' & -> & Hb' & Hu' & _). cbn [obind].
  rewrite Hline in Hb', Hu'. by exists h', hdr', r, r'.
Qed.

(** The lines of the ICAP header before the Encapsulated one. *)
Definition icap_lines (code : ec) (k : bool) (x : ci_service_xdata_t) (xls : list (list Z)) : list (list Z) :=
  [status_line code; server_line env; connection_line k; ISTag x] ++ xls.

(** A request that can be answered: its service, its header lists, its message. *)
Record answerable (s : session D) (m : ci_service_module) (x : ci_service_xdata_t) (code : ec)
    (xls : list (list Z)) (h : ci_headers_list_t) (ls : list (list Z)) (b : ci_encaps_entity_t) : Prop := {
  an_mod : current_service_mod (ss_req s) = Some m;
  an_data : service_data env m = Some x;
  an_env : env_ok env m x;
  an_code : ss_code s = Some code;
  an_packed : ss_packed s = false;
  an_response : ∃ l tl, hrepr (ss_response s) l tl;
  an_xheaders : ∃ tl, hrepr (ss_xheaders s) xls tl ∧ (xls = [] ∨ sealed tl);
  an_message : message (rtype (ss_req s)) (entities (ss_encaps s)) h b;
  an_trash : zlen (trash_entities (ss_encaps s)) = 7;
  an_http : ∃ tl, hrepr h ls tl;
  an_body : is_hdr (type b) = false
}.

Lemma mk_responce_header_spec s m x code xls h ls b :
  answerable s m x code xls h ls b →
  let http := wire (ls ++ [via_line env m]) ++ CRLF in
  let icap := wire (icap_lines code (keepalive (ss_req s)) x xls ++
                    [message_line (rtype (ss_req s)) (zlen http) b]) ++ CRLF in
  ∃ hdr h' tr r r', mk_responce_header junk true true env s =
    Ret (with_packed true (with_response hdr (with_encaps
      (mkEncaps [Some (mkEntity 0 (hdr_type (rtype (ss_req s))) (Some h')); Some (set_start (zlen http) b); None; None; None]
         tr (hasbody (ss_encaps s))) s))) ∧
    buf hdr = icap ++ r ∧ bufused hdr = zlen icap ∧ buf h' = http ++ r' ∧ bufused h' = zlen http.
Proof.
  intros [Hm Hd He Hc Hp (l & tl & Hr) (xtl & Hx & Hxs) Hmsg Htr (htl & Hh) Hb] http icap.
  pose proof He as (He1 & _ & _ & He4).
  assert (Ht : rtype (ss_req s) = ICAP_REQMOD ∨ rtype (ss_req s) = ICAP_RESPMOD)
    by (destruct Hmsg as [[? _]|[[? _]|[? _]]]; auto).
  unfold mk_responce_header. rewrite Hm, Hc, Hd, Hp.
  destruct (add_line_spec _ _ _ (status_line code) (reset_repr _ _ _ Hr) (no_nul_status code)) as (h1 & t1 & -> & Hr1 & _).
  cbn [obind].
  destruct (add_line_spec _ _ _ (server_line env) Hr1) as (h2 & t2 & -> & Hr2 & _).
  { apply no_nul_app; [by repeat constructor|done]. }
  cbn [obind].
  destruct (add_line_spec _ _ _ (connection_line (keepalive (ss_req s))) Hr2) as (h3 & t3 & -> & Hr3 & _).
  { by destruct (keepalive _); repeat constructor. }
  cbn [obind].
  destruct (add_line_spec _ _ _ (ISTag x) Hr3 He4) as (h4 & t4 & -> & Hr4 & Hs4). cbn [obind].
  destruct (add_xheaders_spec _ _ _ _ _ _ Hr4 Hs4 Hx Hxs) as (h5 & t5 & -> & Hr5 & _). cbn [obind].
  destruct (drop_request_spec _ _ _ _ Hmsg Htr) as (st & tr & ->). cbn [obind].
  destruct (add_via_spec (rtype (ss_req s)) st h b tr (hasbody (ss_encaps s)) ls htl (via_line env m) Ht Hh)
    as (h6 & t6 & Hr6 & Hs6 & ->); [by eapply no_nul_via|]. cbn [obind].
  destruct (pack_message_spec st (rtype (ss_req s)) h6 b _ t6 h5 _ t5 Hr6 Hs6 Hb Hr5)
    as (h' & hdr' & r & r' & Hpk & Hb1 & Hu1 & Hb2 & Hu2).
  change (rq_encaps (ss_req s)) with (ss_encaps s) in *. cbn [entities trash_entities hasbody]. rewrite Hpk. cbn [obind].
  exists hdr', h', tr, r', r. split; [done|]. unfold icap, http. rewrite <- !app_assoc in *. done.
Qed.
End header.

(** ** Suppliers *)

(** The pieces a body is cut into, reading at most [MAX_CHUNK_SIZE] bytes at a time. *)
Inductive pieces : list Z → list (list Z) → Prop :=
| pieces_nil : pieces [] []
| pieces_cons d cs : d ≠ [] → pieces (drop (Z.to_nat MAX_CHUNK_SIZE) d) cs →
    pieces d (take (Z.to_nat MAX_CHUNK_SIZE) d :: cs).

(** A read takes the first piece of what a ring buffer holds. *)
Lemma ring_read_piece b cs :
  ring_ok b → pieces (contents b) cs →
  ∃ x b', ci_ring_buf_read b MAX_CHUNK_SIZE = Ret (zlen x, x, b') ∧ ring_ok b' ∧
    match cs with [] => x = [] | c :: cs' => x = c ∧ 0 < zlen x ≤ MAX_CHUNK_SIZE ∧ pieces (contents b') cs' end.
Proof.
  intros Hok Hp. destruct (ring_read_loop_spec (S (Z.to_nat MAX_CHUNK_SIZE)) b MAX_CHUNK_SIZE [] Hok)
    as (x & b' & Hr & Hok' & Hc & Hx & _); [unfold MAX_CHUNK_SIZE; lia|].
  exists x, b'. split; [exact Hr|]. split; [done|]. inversion Hp as [Hnil|d cs' Hne Hp' Heq]; subst.
  - rewrite <- Hnil in Hc. symmetry in Hc. by apply app_eq_nil in Hc as [-> _].
  - assert (0 < zlen (contents b)) by (destruct (contents b); [done|zlia]).
    assert (Htake : take (Z.to_nat MAX_CHUNK_SIZE) (contents b) = x ∧
                    drop (Z.to_nat MAX_CHUNK_SIZE) (contents b) = contents b').
    { destruct (Z.le_ge_cases (zlen (contents b)) MAX_CHUNK_SIZE) as [Hle|Hle].
      - assert (contents b' = []) as Hnil.
        { apply (f_equal zlen) in Hc. rewrite zlen_app in Hc. destruct (contents b'); [done|]. zlia. }
        rewrite Hnil, app_nil_r in Hc. rewrite Hnil, take_ge, drop_ge by (unfold zlen in *; lia). done.
      - rewrite Hc. assert (Z.to_nat MAX_CHUNK_SIZE = length x) as -> by (unfold zlen in *; lia).
        by rewrite take_app_length, drop_app_length. }
    destruct Htake as [<- Hdrop]. rewrite Hdrop in Hp'. split; [done|]. split; [|done]. unfold MAX_CHUNK_SIZE in *. lia.
Qed.

(** The echo of a body that was received to its end: what the ring buffer holds. *)
#[export] Program Instance echo_supplier {D : Type} : Supplier (D:=D) mod_echo_io := {|
  gives s cs := ∃ b, ss_echo s = Some b ∧ ring_ok b ∧
    eof_received (rd_stream (rq_reader (ss_req s))) = true ∧ pieces (contents b) cs
|}.
Next Obligation.
  intros D s s' cs (b & Hb & Hok & He & Hp) (_ & Hecho & Heof). exists b. by rewrite Hecho, Heof.
Qed.
Next Obligation.
  intros D s cs (b & Hb & Hok & He & Hp). unfold mod_echo_io. rewrite Hb. cbn [obind Z.ltb Z.compare].
  destruct (ring_read_piece b cs Hok Hp) as (x & b' & -> & Hok' & Hcs). cbn [obind].
  change (eof_received (rd_stream (rq_reader (ss_req (with_echo (Some b') s))))) with
    (eof_received (rd_stream (rq_reader (ss_req s)))). rewrite He, andb_true_r.
  destruct cs as [|c cs].
  - subst x. eexists _, _, (ss_data s), (Some b'), (ss_locked s). by split.
  - destruct Hcs as (-> & Hpos & Hp'). solve_cmp. eexists _, _, (ss_data s), (Some b'), (ss_locked s). split; [done|].
    intros c' cs' [= <- <-]. split; [done|]. by exists b'.
Qed.

(** A service that holds its body as a list of pieces. *)
Definition list_io : service_io (list (list Z)) := λ s room d eof,
  match ss_data s with
  | Some (c :: cs) => Ret (CI_OK, SrcData c, 0, mkView (Some cs) (ss_locked s) (ss_encaps s) (use_original_body (ss_out s)) (ss_xheaders s))
  | _ => Ret (CI_OK, SrcCode CI_EOF, 0, view_of s)
  end.

Lemma apply_same_view {D : Type} (d : option D) (s : session D) :
  apply_view (mkView d (ss_locked s) (ss_encaps s) (use_original_body (ss_out s)) (ss_xheaders s)) s =
  served d (ss_echo s) (ss_locked s) s.
Proof. by destruct s as [[] st c [] l h xh p k e n cn dd]. Qed.

#[export] Program Instance list_supplier : Supplier (call_io list_io) := {|
  gives s cs := ss_data s = Some cs ∧ Forall (λ c, 0 < zlen c ≤ MAX_CHUNK_SIZE) cs
|}.
Next Obligation. intros s s' cs (H1 & H2) (H3 & _). by rewrite H3. Qed.
Next Obligation.
  intros s cs (H1 & H2). unfold call_io, list_io. rewrite H1. destruct cs as [|c cs]; cbn [obind].
  - unfold view_of. rewrite apply_same_view. by eexists _, _, _, _, _.
  - rewrite apply_same_view. eexists _, _, _, _, _. split; [done|].
    intros c' cs' [= <- <-]. apply Forall_cons_1 in H2 as [? ?]. split; [done|]. by split.
Qed.

(** ** Properties *)

(** What the client gets: the ICAP header, the HTTP header and the chunks of the body. *)
Definition response_message (env : server_env) {D : Type} (s : session D) (m : ci_service_module) (x : ci_service_xdata_t)
    (code : ec) (xls ls : list (list Z)) (b : ci_encaps_entity_t) (cs : list (list Z)) : list Z :=
  let http := wire (ls ++ [via_line env m]) ++ CRLF in
  wire (icap_lines env code (keepalive (ss_req s)) x xls ++
        [message_line (rtype (ss_req s)) (zlen http) b]) ++ CRLF ++ http ++
  if type b =? ICAP_NULL_BODY then [] else chunks cs ++ body_end (ss_out s).

(** The answer is begun: the ICAP header is to be sent first. *)
Lemma start_answer junk env {D : Type} (s : session D) m x code xls h ls b :
  answerable env s m x code xls h ls b → ss_status s = SEND_NOTHING → zlen (ws_wbuf (ss_out s)) = WBUF_SIZE →
  (is_ec_206 (ss_out s) = true → use_original_body (ss_out s) < 2 ^ 63) →
  ∃ s', update_send_status junk true true env s = Ret (CI_OK, s') ∧ sending s' ∧ ss_status s' = SEND_RESPHEAD ∧
    (∀ cs, rest_of s' cs = response_message env s m x code xls ls b cs) ∧ same_service s s' ∧ ss_conn s' = ss_conn s ∧
    rq_reader (ss_req s') = rq_reader (ss_req s) ∧ (ss_locked s' = ss_locked s ∧ ss_code s' = ss_code s) ∧ 0 < remain s' ∧
    responce_hasbody (ss_out s') = negb (type b =? ICAP_NULL_BODY) ∧ is_ec_206 (ss_out s') = is_ec_206 (ss_out s) ∧
    (∀ i e h, entities (ss_encaps s') !! i = Some (Some e) → is_hdr (type e) = true → entity e = Some h → 0 < bufused h).
Proof.
  intros Ha Hst Hw Ho.
  destruct (mk_responce_header_spec junk env s m x code xls h ls b Ha) as (hdr & h' & tr & r & r' & Hmk & Hb1 & Hu1 & Hb2 & Hu2).
  unfold update_send_status. rewrite Hst. cbn [Z.eqb SEND_NOTHING]. rewrite Hmk. cbn [obind].
  set (http := wire (ls ++ [via_line env m]) ++ CRLF) in *.
  set (icap := wire (icap_lines env code (keepalive (ss_req s)) x xls ++ [message_line (rtype (ss_req s)) (zlen http) b]) ++ CRLF) in *.
  set (es := [Some (mkEntity 0 (hdr_type (rtype (ss_req s))) (Some h')); Some (set_start (zlen http) b); None; None; None]) in *.
  set (s1 := with_packed true _).
  assert (Hht : is_hdr (hdr_type (rtype (ss_req s))) = true) by (unfold hdr_type; by destruct (_ =? _)).
  assert (Hcb : resp_check_body (entities (ss_encaps s1)) = Ret (negb (type b =? ICAP_NULL_BODY))).
  { cbn. destruct (Z.eqb_spec (hdr_type (rtype (ss_req s))) ICAP_NULL_BODY) as [E|E];
      [rewrite E in Hht; done|]. by destruct (type b =? ICAP_NULL_BODY). }
  rewrite Hcb. cbn [obind]. set (s2 := with_status SEND_RESPHEAD _).
  assert (Hblk : out_block s2 = icap).
  { unfold out_block, remain. cbn. rewrite Hb1, Hu1. rewrite slice_app_l by zlia. by apply slice_all. }
  assert (Hcr : ∀ l, 0 < zlen (l ++ CRLF)) by (intros l; rewrite zlen_app; change (zlen CRLF) with 2; zlia).
  assert (Hes : ∀ i e, es !! i = Some (Some e) → is_hdr (type e) = true → i = 0%nat ∧ entity e = Some h').
  { intros i e Hi Hhd. unfold es in Hi. destruct i as [|[|[|[|[|i]]]]]; cbn in Hi; simplify_eq; [done|].
    cbn in Hhd. by rewrite (an_body _ _ _ _ _ _ _ _ _ Ha) in Hhd. }
  exists s2. split; [done|]. split; [|split; [done|split]].
  - split; try done.
    + unfold block_in, remain. cbn. rewrite Hb1, Hu1. zlia.
    + split; [cbn; lia|]. intros i e Hi Hhd. destruct (Hes i e Hi Hhd) as [-> He]. split; [lia|]. exists h'. split; [done|]. rewrite Hb2, Hu2. zlia.
  - intros cs. unfold rest_of. rewrite Hblk. cbn [ss_status s2 with_status Z.eqb SEND_RESPHEAD SEND_EOF SEND_BODY].
    change (entities (ss_encaps s2)) with es. unfold es.
    change (Z.to_nat (1 - 1)) with 0%nat. rewrite drop_0. cbn [hdr_blocks type set_start]. rewrite Hht, (an_body _ _ _ _ _ _ _ _ _ Ha).
    unfold response_message. fold http. unfold icap. rewrite <- !app_assoc. repeat f_equal.
    + unfold block. cbn [entity type]. rewrite Hht, Hb2, Hu2, slice_app_l by zlia. by apply slice_all.
    + unfold body_of. cbn. by destruct (type b =? ICAP_NULL_BODY).
  - split; [done|]. split; [done|]. split; [done|]. split; [done|]. split; [unfold remain; cbn; rewrite Hu1; apply Hcr|]. split; [done|]. split; [done|].
    intros i e h0 Hi Hhd He. destruct (Hes i e Hi Hhd) as [_ He']. assert (h0 = h') as -> by congruence. rewrite Hu2. apply Hcr.
Qed.

Lemma send_remaining_response_spec junk env {D : Type} fuel (ops : service_ops D) io `{!Supplier io}
    (s : session D) m x code xls h ls b cs :
  answerable env s m x code xls h ls b → ss_status s = SEND_NOTHING → remain s = 0 →
  zlen (ws_wbuf (ss_out s)) = WBUF_SIZE →
  (is_ec_206 (ss_out s) = true → use_original_body (ss_out s) < 2 ^ 63) →
  body_io ops s = Some io → gives s cs → (length cs + 7 < fuel)%nat →
  let msg := response_message env s m x code xls ls b cs in
  ∃ ret s' d rest, send_remaining_response junk true true env fuel ops s = Ret (ret, s') ∧
    sent (ss_conn s') = sent (ss_conn s) ++ d ∧ msg = d ++ rest ∧
    (ret = CI_ERROR ∨ ret = CI_OK ∧ rest = []) ∧
    (CHILD_HALT env = false → willing (zlen msg) (ss_conn s) → ret = CI_OK).
Proof.
  intros Ha Hst Hr Hw Ho Hio Hg Hf msg. unfold send_remaining_response. rewrite Hio, Hst. cbn [Z.eqb andb SEND_NOTHING SEND_EOF].
  destruct fuel as [|fuel]; [lia|]. cbn [remaining_loop]. unfold flush. cbn [flush_loop].
  rewrite Hr. cbn [Z.ltb Z.compare obind Z.eqb CI_OK CI_ERROR Pos.eqb]. rewrite Hst. cbn [Z.eqb andb SEND_NOTHING SEND_BODY obind].
  destruct (start_answer junk env s m x code xls h ls b Ha Hst Hw Ho) as (s2 & -> & Hs2 & Hst2 & Hrest & Hsv & Hcn & _).
  cbn [obind Z.leb Z.compare CI_OK]. specialize (Hrest cs). fold msg in Hrest.
  destruct (remaining_loop_spec junk true true env io fuel s2 cs Hs2) as (ret & d & s' & Hrun & Hsent & (d2 & Hd2) & Hret & Hlive).
  - right. by eapply gives_frame.
  - rewrite Hst2. cbn. unfold SEND_EOF, SEND_RESPHEAD. lia.
  - rewrite Hrest in *. exists ret, s', d, d2. split; [done|]. split; [by rewrite Hsent, Hcn|]. split; [done|]. split; [|by rewrite Hcn in Hlive].
    destruct Hret as [-> | [-> Hd]]; [by left|right]. split; [done|].
    rewrite <- Hd in Hd2. apply (app_inv_head d). by rewrite app_nil_r, <- Hd2.
Qed.

(** C17: a response to a REQMOD or RESPMOD request is sent whole, whatever the writes take.  On
    every network, [send_remaining_response] returns CI_OK or CI_ERROR; it has sent a prefix of the ICAP
    header (status, Server, Connection, ISTag, extra headers, Encapsulated with the length of
    the HTTP header as the offset of the body), the HTTP header with the Via line, and the chunks of what the
    service gave with the last chunk; and CI_OK is returned only when all of it was sent.
    When the connection stays writable and no write fails, CI_OK is returned. *)
Theorem send_remaining_response_exact junk env {D : Type} fuel (ops : service_ops D) io `{!Supplier io}
    (s : session D) m x code xls h ls b cs :
  answerable env s m x code xls h ls b → ss_status s = SEND_NOTHING → remain s = 0 →
  zlen (ws_wbuf (ss_out s)) = WBUF_SIZE →
  (is_ec_206 (ss_out s) = true → use_original_body (ss_out s) < 2 ^ 63) →
  body_io ops s = Some io → gives s cs → (length cs + 7 < fuel)%nat →
  let msg := response_message env s m x code xls ls b cs in
  ∃ ret s' d rest, send_remaining_response junk true true env fuel ops s = Ret (ret, s') ∧
    sent (ss_conn s') = sent (ss_conn s) ++ d ∧ msg = d ++ rest ∧
    (ret = CI_ERROR ∨ ret = CI_OK ∧ rest = []) ∧
    (CHILD_HALT env = false → willing (zlen msg) (ss_conn s) → ret = CI_OK).
Proof. by apply send_remaining_response_spec. Qed.

Definition sample_service : ci_service_module := mkService (bytes "echo") ICAP_RESPMOD.

Definition sample_xdata : ci_service_xdata_t :=
  mkXdata true 0 (bytes "ISTag: CI0001") [] [] [] 1024 (-1) 3600 true false.

Definition sample_env : server_env :=
  mkEnv (bytes "0.5.6") (bytes "localhost") false true true false (λ _, Some sample_xdata) mod_name.

Definition sample_message : encaps :=
  mkEncaps [Some (mkEntity 0 ICAP_REQ_HDR None); Some (mkEntity 10 ICAP_RES_HDR (Some sample_list));
            Some (mkEntity 20 ICAP_RES_BODY None); None; None] (replicate 7 None) true.

Definition sample_session (d : list (list Z)) : session (list (list Z)) :=
  mkSession (set_mod (Some sample_service) (set_type ICAP_RESPMOD (set_encaps sample_message sample_request)))
    SEND_NOTHING (Some EC_200) (mkWstream (replicate 4096 0) 0 0 false false (-1) 0 0) ONull sample_empty sample_empty
    false true None 0 (mkConn (replicate 600 2) (replicate 600 3) []) (Some d).

Definition sample_ops : service_ops (list (list Z)) := mkOps None None None None (Some list_io).

Lemma sample_answerable d :
  answerable sample_env (sample_session d) sample_service sample_xdata EC_200 [] sample_list sample_lines
    (mkEntity 20 ICAP_RES_BODY None).
Proof.
  assert (He : hrepr sample_empty [] (buf sample_empty)) by (split; try done; by vm_compute).
  split; try done.
  - split_and!; vm_compute; repeat constructor; discriminate.
  - by exists [], (buf sample_empty).
  - exists (buf sample_empty). split; [done|by left].
  - right. right. split; [done|]. exists (mkEntity 0 ICAP_REQ_HDR None), 10. split; reflexivity.
  - exists [CR; LF; 0]. apply sample_repr.
Defined.

Lemma send_remaining_response_exact_witness :
  let cs := [bytes "hello"; bytes "abc"] in
  let msg := response_message sample_env (sample_session cs) sample_service sample_xdata EC_200 [] sample_lines
               (mkEntity 20 ICAP_RES_BODY None) cs in
  zlen msg = 228 ∧
  ∃ ret s' d rest, send_remaining_response (λ _, 7) true true sample_env 20 sample_ops (sample_session cs) = Ret (ret, s') ∧
    sent (ss_conn s') = sent (ss_conn (sample_session cs)) ++ d ∧ msg = d ++ rest ∧
    (ret = CI_ERROR ∨ ret = CI_OK ∧ rest = []) ∧
    (CHILD_HALT sample_env = false → willing (zlen msg) (ss_conn (sample_session cs)) → ret = CI_OK).
Proof.
  split; [vm_compute; reflexivity|].
  apply (send_remaining_response_exact (λ _, 7) sample_env 20 sample_ops (call_io list_io)
    (sample_session [bytes "hello"; bytes "abc"]) sample_service sample_xdata EC_200 [] sample_list sample_lines
    (mkEntity 20 ICAP_RES_BODY None) [bytes "hello"; bytes "abc"]).
  - apply sample_answerable.
  - reflexivity.
  - reflexivity.
  - vm_compute; reflexivity.
  - vm_compute; discriminate.
  - reflexivity.
  - split; [reflexivity|]. repeat constructor; vm_compute; (reflexivity || discriminate).
  - cbn; lia.
Defined.

(** The network of the sample is willing. *)
Example sample_sends_all :
  let s := sample_session [bytes "hello"; bytes "abc"] in
  match send_remaining_response (λ _, 7) true true sample_env 20 sample_ops s with
  | Ret (ret, s') =>
      ret = CI_OK ∧ sent (ss_conn s') = response_message sample_env s sample_service sample_xdata EC_200 [] sample_lines
        (mkEntity 20 ICAP_RES_BODY None) [bytes "hello"; bytes "abc"]
  | _ => False
  end.
Proof. vm_compute. split; reflexivity. Qed.

(** A service that has no data ready after the end of the request (it gives 0 bytes, not the end of
    the data) ends the response: [send_remaining_response] returns CI_OK at once, the state stays
    SEND_BODY and nothing more is sent, so that the body has no last chunk although
    the connection is kept. *)
Theorem stalled_service_truncates_response junk ai ab env {D : Type} fuel (ops : service_ops D) f (s : session D) ret n v :
  ss_status s = SEND_BODY → remain s = 0 → ss_echo s = None → mod_service_io ops = Some f →
  f (point OWbuf EXTRA_CHUNK_SIZE MAX_CHUNK_SIZE s) (Some MAX_CHUNK_SIZE) None true = Ret (ret, SrcCode 0, n, v) →
  ∃ s', send_remaining_response junk ai ab env (S fuel) ops s = Ret (CI_OK, s') ∧
    ss_conn s' = ss_conn s ∧ ss_status s' = SEND_BODY ∧ keepalive (ss_req s') = keepalive (ss_req s).
Proof.
  intros Hs Hr He Hf Hio. unfold send_remaining_response, body_io. rewrite He, Hf, Hs. cbn [option_map Z.eqb Pos.eqb andb SEND_BODY SEND_EOF].
  cbn [remaining_loop]. unfold flush. cbn [flush_loop]. rewrite Hr. cbn [Z.ltb Z.compare obind Z.eqb CI_OK CI_ERROR Pos.eqb].
  rewrite Hs, Hr. cbn [Z.eqb Pos.eqb andb SEND_BODY]. unfold fetch_chunk, call_io. rewrite Hio. cbn [obind put_read].
  eexists. split; [done|]. done.
Qed.

Lemma stalled_service_truncates_response_witness :
  ∃ s', send_remaining_response (λ _, 7) true true sample_env 1
    (mkOps None None None None (Some (λ s _ _ _, Ret (CI_OK, SrcCode 0, 0, view_of s))))
    (with_status SEND_BODY (sample_session [])) = Ret (CI_OK, s') ∧
    ss_conn s' = ss_conn (sample_session []) ∧ ss_status s' = SEND_BODY ∧
    keepalive (ss_req s') = keepalive (ss_req (sample_session [])).
Proof.
  eapply (stalled_service_truncates_response (λ _, 7) true true sample_env 0
    (mkOps None None None None (Some (λ s _ _ _, Ret (CI_OK, SrcCode 0, 0, view_of s))))
    _ (with_status SEND_BODY (sample_session []))); reflexivity.
Defined.

(** ** Error responses *)

Lemma write_loop_spec ws d r ws' :
  write_loop ws d = (r, ws') →
  (∃ p, d = p ++ r) ∧ (Forall (λ w, 0 ≤ w) ws → zlen d ≤ npos ws → r = []).
Proof.
  revert d r ws'. induction ws as [|w ws IH]; intros d r ws' H; destruct d as [|c d]; cbn [write_loop] in H;
    [by injection H as <- <-; split; [exists []|]..| |by injection H as <- <-; split; [exists []|]|].
  - injection H as <- <-. split; [by exists []|]. cbn. intros _ ?. zlia.
  - destruct (Z.ltb_spec w 0) as [Hw|Hw].
    { injection H as <- <-. split; [by exists []|]. intros HF. apply Forall_cons_1 in HF. lia. }
    set (k := Z.to_nat (Z.min w (zlen (c :: d)))) in *. apply IH in H as [(p & Hp) Hl]. split.
    + exists (take k (c :: d) ++ p). by rewrite <- app_assoc, <- Hp, take_drop.
    + intros HF Hn. apply Forall_cons_1 in HF as [_ HF]. apply Hl; [done|]. cbn [npos] in Hn.
      rewrite zlen_drop. destruct (Z.ltb_spec 0 w); unfold k in *; zlia.
Qed.

Lemma ci_write_spec c d : ∃ n p r,
  ci_write c d = (n, mkConn (waits c) (snd (write_loop (writes c) d)) (sent c ++ p)) ∧ d = p ++ r ∧
  (n = -1 ∨ n = zlen d ∧ r = []) ∧
  (Forall (λ w, 0 ≤ w) (writes c) → zlen d ≤ npos (writes c) → r = [] ∧ n = zlen d).
Proof.
  unfold ci_write. destruct (write_loop (writes c) d) as [r ws'] eqn:H.
  apply write_loop_spec in H as [(p & ->) Hl].
  exists (if bool_decide (r = []) then zlen (p ++ r) else -1), p, r. split_and!; try done.
  - replace (length (p ++ r) - length r)%nat with (length p) by (rewrite length_app; lia).
    by rewrite take_app_length.
  - destruct (bool_decide (r = [])) eqn:E; [right|by left]. by apply bool_decide_eq_true in E.
  - intros H1 H2. specialize (Hl H1 H2) as ->. done.
Qed.

(** The lines of an error response; [zero] when a 204 is sent as an empty 200. *)
Definition ec_lines (env : server_env) (e : ec) (zero k : bool) (t : Z) (x : option ci_service_xdata_t)
    (xls : list (list Z)) : list (list Z) :=
  [status_line e; server_line env; connection_line k] ++
  match x with Some x => [ISTag x] | None => [] end ++ xls ++ if zero then [zero_encaps_line t] else [].

(** The data of the service, when there is one. *)
Definition xdata_of (env : server_env) {D : Type} (s : session D) : option ci_service_xdata_t :=
  match current_service_mod (ss_req s) with Some m => service_data env m | None => None end.

Lemma ec_responce_spec junk env {D : Type} (s : session D) e xls l tl xtl :
  no_nul (VERSION env) → (∀ x, xdata_of env s = Some x → no_nul (ISTag x)) →
  hrepr (ss_response s) l tl → hrepr (ss_xheaders s) xls xtl → xls = [] ∨ sealed xtl →
  let zero := bool_decide (e = EC_204) && ALLOW204_AS_200OK_ZERO_ENCAPS env in
  let code := if zero then EC_200 else e in
  let msg := wire (ec_lines env code zero (keepalive (ss_req s)) (rtype (ss_req s)) (xdata_of env s) xls) ++ CRLF in
  ∃ n s' d rest, ec_responce junk true true env s e = Ret (n, s') ∧ ss_req s' = ss_req s ∧
    ss_status s' = SEND_EOF ∧ ss_code s' = Some code ∧
    sent (ss_conn s') = sent (ss_conn s) ++ d ∧ msg = d ++ rest ∧ (n = -1 ∨ n = zlen msg ∧ rest = []) ∧
    (Forall (λ w, 0 ≤ w) (writes (ss_conn s)) → zlen msg ≤ npos (writes (ss_conn s)) → rest = [] ∧ n = zlen msg).
Proof.
  intros Hv Hx Hr Hxr Hxs zero code msg. unfold ec_responce. fold (xdata_of env s). fold zero. fold code.
  destruct (add_line_spec junk _ _ _ (status_line code) (reset_repr _ _ _ Hr) (no_nul_status code)) as (h1 & t1 & -> & Hr1 & _).
  cbn [obind]. destruct (add_line_spec junk _ _ _ (server_line env) Hr1) as (h2 & t2 & -> & Hr2 & _).
  { apply no_nul_app; [by repeat constructor|done]. }
  cbn [obind]. destruct (add_line_spec junk _ _ _ (connection_line (keepalive (ss_req s))) Hr2) as (h3 & t3 & -> & Hr3 & Hs3).
  { by destruct (keepalive _); repeat constructor. }
  cbn [obind].
  assert (H4 : ∃ h4 t4, (match xdata_of env s with Some x => add_line junk true true h3 (ISTag x) | None => Ret h3 end) = Ret h4 ∧
    hrepr h4 ([status_line code; server_line env; connection_line (keepalive (ss_req s))] ++
      match xdata_of env s with Some x => [ISTag x] | None => [] end) t4 ∧ sealed t4).
  { destruct (xdata_of env s) as [x|]; [|by exists h3, t3].
    destruct (add_line_spec junk _ _ _ (ISTag x) Hr3 (Hx x eq_refl)) as (h4 & t4 & -> & ?). by exists h4, t4. }
  destruct H4 as (h4 & t4 & -> & Hr4 & Hs4). cbn [obind].
  destruct (add_xheaders_spec junk _ _ _ _ _ _ Hr4 Hs4 Hxr Hxs) as (h5 & t5 & -> & Hr5 & Hs5). cbn [obind].
  assert (H6 : ∃ h6 t6, (if zero then add_line junk true true h5 (zero_encaps_line (rtype (ss_req s))) else Ret h5) = Ret h6 ∧
    hrepr h6 (ec_lines env code zero (keepalive (ss_req s)) (rtype (ss_req s)) (xdata_of env s) xls) t6 ∧ sealed t6).
  { unfold ec_lines. rewrite <- app_assoc in Hr5. destruct zero; [|exists h5, t5; by rewrite app_nil_r].
    destruct (add_line_spec junk _ _ _ (zero_encaps_line (rtype (ss_req s))) Hr5) as (h6 & t6 & -> & Hr6 & Hs6).
    { unfold zero_encaps_line. by destruct (_ =? _); repeat constructor. }
    exists h6, t6. split; [done|]. split; [|done]. by rewrite <- !app_assoc in Hr6. }
  destruct H6 as (h6 & t6 & -> & Hr6 & Hs6). cbn [obind].
  destruct (ci_headers_pack_spec h6 _ t6 Hr6 Hs6) as (h7 & r & -> & Hb & Hu & _). cbn [obind]. fold msg in Hu.
  assert (Hread : read_bytes (buf h7) 0 (bufused h7) = Ret msg).
  { rewrite read_bytes_ok by (rewrite ?Hb, ?app_assoc, ?Hu; fold msg; zlia).
    rewrite Hb, app_assoc, Hu. fold msg. rewrite slice_app_l by zlia. f_equal. by apply slice_all. }
  rewrite Hread. cbn [obind].
  destruct (ci_write_spec (ss_conn (with_code (Some code) (with_response h7 s))) msg) as (n & d & rest & Hw & Hmsg & Hn & Hlive).
  rewrite Hw. destruct (Z.ltb_spec n 0).
  - eexists n, _, d, rest. split; [by destruct Hn as [-> | [-> _]]; [|zlia]|]. done.
  - eexists n, _, d, rest. split; [done|]. done.
Qed.

(** An error response.  [ec_responce] gives the client the status line of the code (of 200 when the server is
    configured to send a 204 as an empty 200), the Server and Connection lines, the
    ISTag of the service if there is one, and the extra headers; the return code and the state are set. It returns
    the count only when all was sent, and -1 otherwise, with a prefix sent. *)
Theorem ec_responce_exact junk env {D : Type} (s : session D) e xls l tl xtl :
  no_nul (VERSION env) → (∀ x, xdata_of env s = Some x → no_nul (ISTag x)) →
  hrepr (ss_response s) l tl → hrepr (ss_xheaders s) xls xtl → xls = [] ∨ sealed xtl →
  let zero := bool_decide (e = EC_204) && ALLOW204_AS_200OK_ZERO_ENCAPS env in
  let code := if zero then EC_200 else e in
  let msg := wire (ec_lines env code zero (keepalive (ss_req s)) (rtype (ss_req s)) (xdata_of env s) xls) ++ CRLF in
  ∃ n s' d rest, ec_responce junk true true env s e = Ret (n, s') ∧ ss_req s' = ss_req s ∧
    ss_status s' = SEND_EOF ∧ ss_code s' = Some code ∧
    sent (ss_conn s') = sent (ss_conn s) ++ d ∧ msg = d ++ rest ∧ (n = -1 ∨ n = zlen msg ∧ rest = []) ∧
    (Forall (λ w, 0 ≤ w) (writes (ss_conn s)) → zlen msg ≤ npos (writes (ss_conn s)) → rest = [] ∧ n = zlen msg).
Proof. apply ec_responce_spec. Qed.

Lemma ec_responce_exact_witness :
  let msg := wire (ec_lines sample_env EC_500 false true ICAP_RESPMOD (Some sample_xdata) []) ++ CRLF in
  ∃ n s' d rest, ec_responce (λ _, 7) true true sample_env (sample_session []) EC_500 = Ret (n, s') ∧
    ss_req s' = ss_req (sample_session []) ∧ ss_status s' = SEND_EOF ∧ ss_code s' = Some EC_500 ∧
    sent (ss_conn s') = sent (ss_conn (sample_session [])) ++ d ∧ msg = d ++ rest ∧ (n = -1 ∨ n = zlen msg ∧ rest = []) ∧
    (Forall (λ w, 0 ≤ w) (writes (ss_conn (sample_session []))) → zlen msg ≤ npos (writes (ss_conn (sample_session []))) →
      rest = [] ∧ n = zlen msg).
Proof.
  apply (ec_responce_exact (λ _, 7) sample_env (sample_session []) EC_500 [] [] (buf sample_empty) (buf sample_empty)).
  - vm_compute; repeat constructor; discriminate.
  - intros x [= <-]. vm_compute; repeat constructor; discriminate.
  - split; try reflexivity; by vm_compute.
  - split; try reflexivity; by vm_compute.
  - by left.
Defined.
