(* ===== verification/Options.v ===== *)
(** * The answer to an OPTIONS request (request.c)

    [options_responce] describes the service to the client and sends the description. *)

From stdpp Require Import base list list_numbers strings numbers option.
From Stdlib Require Import ZArith Lia.
From S2P Require Import Prelude CString Chunks ReadBody SendBody RingBuf Headers Encapsulated IcapHeader ParseRequest HttpApi Session Response.

Definition MAX_HEADER_SIZE : Z := 1023.

Definition CI_XCLIENTIP : Z := 1.
Definition CI_XSERVERIP : Z := 2.
Definition CI_XSUBSCRIBERID : Z := 4.
Definition CI_XAUTHENTICATEDUSER : Z := 8.
Definition CI_XAUTHENTICATEDGROUPS : Z := 16.

(** [ci_method_support(METHOD, METHOD_DEF)]. *)
Definition ci_method_support (methods method : Z) : bool := flag_set methods method.

Section options.
Context (junk : Z → Z) (ai ab : bool) (env : server_env) {D : Type}.

Definition methods_line (m : ci_service_module) : list Z :=
  bytes "Methods: " ++
  if ci_method_support (mod_type m) ICAP_RESPMOD then
    bytes "RESPMOD" ++ (if ci_method_support (mod_type m) ICAP_REQMOD then bytes ", REQMOD" else [])
  else bytes "REQMOD".

(** [snprintf(buf, MAX_HEADER_SIZE, ...)]. *)
Definition service_line (m : ci_service_module) : list Z :=
  take (Z.to_nat (MAX_HEADER_SIZE - 1))
    (bytes "Service: C-ICAP/" ++ VERSION env ++ bytes " server - " ++ descr env m).

(** A string of the service data is sent when it is set. *)
Definition opt_line (c : bool) (l : list Z) : list (list Z) := if c then [l] else [].

Definition transfer_lines (x : ci_service_xdata_t) : list (list Z) :=
  let set (l : list Z) := negb (zlen l =? 0) in
  let p := set (TransferPreview x) && (0 <=? preview_size x) in
  let i := set (TransferIgnore x) in
  let c := set (TransferComplete x) in
  opt_line p (TransferPreview x) ++ opt_line i (TransferIgnore x) ++ opt_line c (TransferComplete x) ++
  opt_line (negb (p || i || c) && (0 <=? preview_size x)) (bytes "Transfer-Preview: *").

(** One name of the X-Include line after the names [acc]. *)
Definition x_include_item (opts flag : Z) (name acc : list Z) : list Z :=
  if flag_set opts flag then (if zlen acc =? 0 then name else acc ++ bytes ", " ++ name) else acc.

Definition x_include (opts : Z) : list Z :=
  let n := x_include_item opts CI_XCLIENTIP (bytes "X-Client-IP") [] in
  let n := x_include_item opts CI_XSERVERIP (bytes "X-Server-IP") n in
  let n := x_include_item opts CI_XSUBSCRIBERID (bytes "X-Subscriber-ID") n in
  let n := x_include_item opts CI_XAUTHENTICATEDUSER (bytes "X-Authenticated-User") n in
  x_include_item opts CI_XAUTHENTICATEDGROUPS (bytes "X-Authenticated-Groups") n.

(** The lines in their order; [ok] is the result of the option handlers of the service and [date] that
    of [ci_strtime_rfc822]. *)
Definition options_lines (ok : bool) (date : list Z) (m : ci_service_module) (x : ci_service_xdata_t) : list (list Z) :=
  [if ok then bytes "ICAP/1.0 200 OK" else bytes "ICAP/1.0 500 Server Error"; methods_line m; service_line m; ISTag x] ++
  transfer_lines x ++
  [if 0 <? options_ttl x then bytes "Options-TTL: " ++ print_d (options_ttl x) else bytes "Options-TTL: 3600";
   bytes "Date: " ++ date] ++
  opt_line (0 <=? preview_size x) (bytes "Preview: " ++ print_d (preview_size x)) ++
  opt_line (0 <=? max_connections x) (bytes "Max-Connections: " ++ print_d (max_connections x)) ++
  (if allow_204 x then [if allow_206 x then bytes "Allow: 204, 206" else bytes "Allow: 204"] else []) ++
  opt_line (negb (zlen (x_include (xopts x)) =? 0)) (bytes "X-Include: " ++ x_include (xopts x)).

Fixpoint add_all (h : ci_headers_list_t) (ls : list (list Z)) : outcome ci_headers_list_t :=
  match ls with
  | [] => Ret h
  | l :: ls' => let* h := add_line junk ai ab h l in add_all h ls'
  end.

(** The [do ... while] that sends the block. *)
Fixpoint options_send (fuel : nat) (s : session D) : outcome (session D) :=
  match fuel with
  | O => NoFuel
  | S fuel' =>
      let '(r, c) := wait_for_data (CHILD_HALT env) ci_wait_for_write (ss_conn s) in
      let s := with_conn 0 c s in
      if r <? 0 then Ret s
      else
      let* (b, s) := send_current_block_data s in
      if b =? CI_ERROR then Ret s
      else if 0 <? remain s then options_send fuel' s else Ret s
  end.

(** The option handlers of a service, by name, until one fails. *)
Fixpoint run_services_option_handlers (hs : list (list Z * (session D → Z * view D))) (s : session D) :
    outcome (bool * session D) :=
  match hs with
  | [] => Ret (true, s)
  | (name, f) :: hs' =>
      let '(ret, v) := f s in
      let s := apply_view v s in
      if ret =? CI_OK then run_services_option_handlers hs' s
      else
      let* xh := add_line junk ai ab (ss_xheaders s) (take 1023 (bytes "X-C-ICAP-Fail: " ++ name)) in
      Ret (false, with_xheaders xh s)
  end.

Definition options_responce (handlers : list (list Z * (session D → Z * view D))) (date : list Z) (s : session D) : outcome (session D) :=
  let s := with_code (Some EC_200) s in
  match current_service_mod (ss_req s) with
  | None => UB
  | Some m =>
      match service_data env m with
      | None => UB
      | Some x =>
          let h := ci_headers_reset (ss_response s) in
          let* (ok, s) := run_services_option_handlers handlers (with_response h s) in
          let* h := add_all h (options_lines ok date m x) in
          let* h := add_xheaders junk ai ab h (ss_xheaders s) in
          let* (es, h) := ci_request_t_pack junk ai ab false 0 (entities (ss_encaps s)) h in
          let r := ss_encaps s in
          let s := with_packed true (with_response h (with_encaps (mkEncaps es (trash_entities r) (hasbody r)) s)) in
          let s := point OHeader 0 (bufused h) s in
          options_send (S (length (waits (ss_conn s)))) s
      end
  end.

End options.

(** ** The description reaches the client *)

Section spec.
Context (junk : Z → Z) (env : server_env) {D : Type}.

Lemma options_send_flush fuel (s : session D) :
  0 < remain s →
  match flush_loop env (S fuel) s with
  | Ret (_, s') => options_send env fuel s = Ret s' ∨ options_send env fuel s = NoFuel
  | _ => True
  end.
Proof.
  revert s. induction fuel as [|fuel IH]; intros s Hr.
  { destruct (flush_loop env 1 s) as [[]| | |]; by try right. }
  cbn [flush_loop options_send]. rewrite (proj2 (Z.ltb_lt _ _) Hr).
  destruct (wait_for_data _ _ _) as [r c]. cbn zeta. destruct (r <? 0); [by left|].
  destruct (send_current_block_data _) as [[b s1]| | |] eqn:E; cbn [obind]; try done.
  destruct (b =? CI_ERROR); [by left|].
  destruct (Z.ltb_spec 0 (remain s1)) as [H1|H1]; [|by left].
  specialize (IH s1 H1). cbn [flush_loop] in IH. by rewrite (proj2 (Z.ltb_lt _ _) H1) in IH.
Qed.

Lemma options_send_fuel fuel (s : session D) :
  (length (waits (ss_conn s)) < fuel)%nat → block_in s → options_send env fuel s ≠ NoFuel.
Proof.
  revert s. induction fuel as [|fuel IH]; intros s Hf Hb; [lia|]. cbn [options_send].
  unfold wait_for_data. destruct (CHILD_HALT env); [done|].
  destruct (wait_loop ci_wait_for_write (waits (ss_conn s))) as [r ws] eqn:Hw. cbn zeta.
  destruct (Z.ltb_spec r 0) as [|Hr]; [done|].
  assert (Hl : (length ws < length (waits (ss_conn s)))%nat).
  { clear - Hw Hr. assert (H : (length ws ≤ length (waits (ss_conn s)))%nat ∧
      (0 ≤ r → (length ws < length (waits (ss_conn s)))%nat)); [|lia].
    revert r ws Hr Hw. induction (waits (ss_conn s)) as [|w l IHl]; intros r ws Hr Hw; cbn in Hw.
    { injection Hw as <- <-. lia. }
    repeat case_match; simplify_eq; cbn; try lia. destruct (IHl _ _ Hr Hw). lia. }
  set (c := mkConn ws (writes (ss_conn s)) (sent (ss_conn s))).
  destruct (Z.eq_dec (remain s) 0) as [H0|H0].
  { unfold send_current_block_data. change (remain (with_conn 0 c s)) with (remain s). rewrite H0.
    cbn [obind Z.eqb CI_ERROR]. change (remain (with_conn 0 c s)) with (remain s). by rewrite H0. }
  destruct (progress_block [] s (with_conn 0 c s)) as [Hb1 _]; [by apply progress_conn|done|destruct Hb; change (zlen []) with 0; lia|].
  destruct (send_block_spec (with_conn 0 c s) Hb1) as (b & d & s1 & -> & Hp & _ & Hd & Hwt & _).
  { change (remain (with_conn 0 c s)) with (remain s). destruct Hb. lia. }
  cbn [obind]. destruct (b =? CI_ERROR); [done|]. destruct (0 <? remain s1); [|done].
  apply IH; [rewrite Hwt; cbn; lia|]. by destruct (progress_block _ _ _ Hp Hb1 Hd).
Qed.

Lemma add_all_spec ls : ∀ h ks tl,
  hrepr h ks tl → Forall no_nul ls → sealed tl ∨ ls ≠ [] →
  ∃ h' tl', add_all junk true true h ls = Ret h' ∧ hrepr h' (ks ++ ls) tl' ∧ sealed tl'.
Proof.
  induction ls as [|l ls IH]; intros h ks tl Hr Hn Hs.
  { exists h, tl. rewrite app_nil_r. split; [done|]. split; [done|]. by destruct Hs. }
  apply Forall_cons_1 in Hn as [Hl Hn]. cbn [add_all].
  destruct (add_line_spec junk h ks tl l Hr Hl) as (h1 & t1 & -> & Hr1 & Hs1). cbn [obind].
  destruct (IH h1 _ t1 Hr1 Hn ltac:(by left)) as (h' & tl' & -> & Hr' & Hs'). exists h', tl'.
  by rewrite <- app_assoc in Hr'.
Qed.

Lemma no_nul_x_include n : no_nul (x_include n).
Proof.
  assert (H : ∀ f nm acc, no_nul nm → no_nul acc → no_nul (x_include_item n f nm acc)).
  { intros f nm acc H1 H2. unfold x_include_item. repeat case_match; try done.
    apply no_nul_app; [done|]. apply no_nul_app; [by repeat constructor|done]. }
  unfold x_include. repeat (apply H; [by repeat constructor|]). constructor.
Qed.

(** The strings of the service data are C strings. *)
Definition xdata_ok (x : ci_service_xdata_t) : Prop :=
  no_nul (TransferPreview x) ∧ no_nul (TransferIgnore x) ∧ no_nul (TransferComplete x).

Lemma no_nul_opt (c : bool) l : (c = true → no_nul l) → Forall no_nul (opt_line c l).
Proof. intros H. destruct c; constructor; [by apply H|constructor]. Qed.

Lemma options_lines_clean ok date m x :
  env_ok env m x → xdata_ok x → no_nul date → Forall no_nul (options_lines env ok date m x).
Proof.
  intros (H1 & H2 & H3 & H4) (H5 & H6 & H7) Hd. unfold options_lines.
  repeat (apply Forall_app; split).
  - repeat constructor; try done; [by destruct ok; repeat constructor| |].
    + unfold methods_line. repeat case_match; by repeat constructor.
    + unfold service_line. apply no_nul_take. repeat (apply no_nul_app; [by repeat constructor || done|]). done.
  - by apply no_nul_opt.
  - by apply no_nul_opt.
  - by apply no_nul_opt.
  - apply no_nul_opt. by repeat constructor.
  - constructor; [|constructor; [apply no_nul_app; [by repeat constructor|done]|constructor]].
    destruct (Z.ltb_spec 0 (options_ttl x)); [|by repeat constructor].
    apply no_nul_app; [by repeat constructor|apply no_nul_print_d; lia].
  - apply no_nul_opt. intros H%Z.leb_le. apply no_nul_app; [by repeat constructor|by apply no_nul_print_d].
  - apply no_nul_opt. intros H%Z.leb_le. apply no_nul_app; [by repeat constructor|by apply no_nul_print_d].
  - repeat case_match; by repeat constructor.
  - apply no_nul_opt. intros _. apply no_nul_app; [by repeat constructor|apply no_nul_x_include].
Qed.
End spec.

Lemma apply_view_of {D : Type} (s : session D) : apply_view (view_of s) s = s.
Proof. by destruct s as [[] st c [] l h xh p k e n cn dd]. Qed.

Lemma handlers_accept junk ai ab {D : Type} hs (s : session D) :
  Forall (λ nf, ∀ s, nf.2 s = (CI_OK, view_of s)) hs →
  run_services_option_handlers junk ai ab hs s = Ret (true, s).
Proof.
  induction hs as [|[name f] hs IH]; intros Hh; [done|]. apply Forall_cons_1 in Hh as [Hf Hh].
  cbn [run_services_option_handlers]. cbn in Hf. rewrite (Hf s), apply_view_of. cbn. by apply IH.
Qed.


Definition sample_options : session (list (list Z)) :=
  with_encaps fresh_encaps (sample_session []).

