(* ===== verification/Server.v ===== *)
(** * Serving a request (request.c)

    [get_send_body], the loop that at the same time decodes the body of the request, feeds it
    to the service and sends what the service gives; the calls of the handlers of the service
    ([do_request_preview], [do_fake_preview], [do_end_of_data]); and [do_request],
    which puts a request together from its header to its answer. *)

From stdpp Require Import base list list_numbers strings numbers option.
From Stdlib Require Import ZArith Lia.
From S2P Require Import Prelude CString Chunks ReadBody SendBody RingBuf Headers Encapsulated IcapHeader ParseRequest HttpApi Session Response Options.

(** What the handlers of a service return (service.h). *)
Definition CI_MOD_DONE : Z := 1.
Definition CI_MOD_CONTINUE : Z := 100.
Definition CI_MOD_ALLOW204 : Z := 204.
Definition CI_MOD_ALLOW206 : Z := 206.

Section server.
Context (junk : Z → Z) (ai ab : bool) (env : server_env) {D : Type} (ops : service_ops D).

(** ** The state of the loop *)

(** The session with the local variables [wchunkdata] (in the read block), [rchunkdata] (in [wbuf]),
    [rchunkisfull] and [service_eof]. *)
Record pump := mkPump {
  pm_session : session D;
  wchunkdata : option Z;
  rchunkdata : option Z;
  rchunkisfull : bool;
  service_eof : bool
}.

Definition ss_reader (s : session D) : reader := rq_reader (ss_req s).
Definition with_reader (r : reader) (s : session D) : session D := with_req (set_reader r (ss_req s)) s.
Definition with_rstream (t : rstream) (s : session D) : session D := with_reader (with_stream t (ss_reader s)) s.
Definition ss_stream (s : session D) : rstream := rd_stream (ss_reader s).
Definition with_keepalive (k : bool) (s : session D) : session D := with_req (set_keepalive k (ss_req s)) s.

(** [mod_null_io]: the data is dropped. *)
Definition mod_null_io : io_fun D := λ s room d eof,
  Ret (CI_OK, SrcCode (if eof then CI_EOF else 0), match d with Some x => zlen x | None => 0 end, s).

(** ** The inner loop *)

(** [parse_chunk_data(req, &wchunkdata)] and the mark of the end; the request and the response share
    [i206_use_original_body]. *)
Definition parse_step (pf : nat) (p : pump) : outcome (Z * pump) :=
  let s := pm_session p in
  let m := block_mem (ss_reader s) in
  let* (ret, wd, t) := parse_chunk_data pf m (set_i206 (use_original_body (ss_out s)) (ss_stream s)) in
  let t := if ret =? CI_EOF then set_eof_received true t else t in
  Ret (ret, mkPump (with_origin (i206_use_original_body t) (with_rstream t s)) wd (rchunkdata p)
              (rchunkisfull p) (service_eof p)).

(** How much the service may give, and where: [has_formated_data] is [fmt]. *)
Definition read_room (fmt : bool) (p : pump) : Z * pump :=
  let s := pm_session p in
  if (ss_status s =? SEND_BODY) && negb (service_eof p) then
    let p :=
      if remain s =? 0 then
        mkPump (point OWbuf EXTRA_CHUNK_SIZE 0 s) (wchunkdata p) (Some EXTRA_CHUNK_SIZE) false (service_eof p)
      else p in
    if (0 <? MAX_CHUNK_SIZE - remain s) && negb fmt then (MAX_CHUNK_SIZE - remain s, p)
    else (0, mkPump (pm_session p) (wchunkdata p) (rchunkdata p) true (service_eof p))
  else (0, p).

(** The bytes the service put at [rchunkdata]: the count or the code, and the session. *)
Definition put_service_data (o : option Z) (r : src_result) (s : session D) : outcome (Z * session D) :=
  match r, o with
  | SrcCode c, _ => Ret (c, s)
  | SrcData _, Some q => put_read q r s
  | SrcData d, None => if zlen d =? 0 then Ret (0, s) else UB
  end.

(** One turn: parse, exchange data with the service, move the pointers.  Gives [no_io] and [parse_chunk_ret], or
    nothing when CI_ERROR is returned. *)
Definition pump_step (pf : nat) (io : io_fun D) (fmt : bool) (parse_ret : Z) (p : pump) :
    outcome (option (bool * Z) * pump) :=
  let t := ss_stream (pm_session p) in
  let* (parse_ret, p) :=
    if negb (pstrblock_read_len t =? 0) && (write_to_module_pending t =? 0) then parse_step pf p
    else Ret (parse_ret, p) in
  if parse_ret =? CI_ERROR then Ret (None, p)
  else
  let t := ss_stream (pm_session p) in
  let wbytes := match wchunkdata p with Some _ => write_to_module_pending t | None => 0 end in
  let* d :=
    match wchunkdata p with
    | Some w => let* x := read_bytes (block_mem (ss_reader (pm_session p))) w wbytes in Ret (Some x)
    | None => Ret None
    end in
  let '(rbytes, p) := read_room fmt p in
  let room := match rchunkdata p with Some _ => Some rbytes | None => None end in
  let* (ret, r, wbytes, s) := io (pm_session p) room d (eof_received t) in
  let p := mkPump s (wchunkdata p) (rchunkdata p) (rchunkisfull p) (service_eof p) in
  if ret =? CI_ERROR then Ret (None, p)
  else
  let* (rbytes, s) := put_service_data (rchunkdata p) r s in
  let t := ss_stream s in
  let* (wd, s) :=
    if wbytes =? 0 then Ret (wchunkdata p, s)
    else match wchunkdata p with
         | Some w => Ret (Some (w + wbytes),
                          with_rstream (set_pending (to_uint (write_to_module_pending t - wbytes)) t) s)
         | None => UB
         end in
  let p :=
    if 0 <? rbytes then
      mkPump (point (ss_loc s) (ws_ptr (ss_out s)) (remain s + rbytes) s) wd
        (option_map (λ q, q + rbytes) (rchunkdata p)) (rchunkisfull p) (service_eof p)
    else mkPump s wd (rchunkdata p) (rchunkisfull p) ((rbytes =? CI_EOF) || service_eof p) in
  Ret (Some ((rbytes =? 0) && (wbytes =? 0), parse_ret), p).

(** The [do ... while]: [false] when CI_ERROR is returned. *)
Fixpoint pump_loop (fuel pf : nat) (io : io_fun D) (fmt : bool) (parse_ret : Z) (p : pump) : outcome (bool * pump) :=
  match fuel with
  | O => NoFuel
  | S fuel' =>
      let* (o, p) := pump_step pf io fmt parse_ret p in
      match o with
      | None => Ret (false, p)
      | Some (no_io, parse_ret) =>
          if negb no_io && negb (pstrblock_read_len (ss_stream (pm_session p)) =? 0)
             && negb (parse_ret =? CI_NEEDS_MORE) && negb (parse_ret =? CI_EOF) && negb (rchunkisfull p)
          then pump_loop fuel' pf io fmt parse_ret p
          else Ret (true, p)
      end
  end.

(** ** get_send_body *)

(** [pf] is the fuel of a run of the inner loop and of a call of the parser. *)

(** The network operations at the start of a turn: CI_ERROR, or the session; [None] when the wait failed. *)
Definition exchange (action : Z) (s : session D) : outcome (option Z * session D) :=
  let '(r, c) := wait_for_data (CHILD_HALT env) action (ss_conn s) in
  let s := with_conn 0 c s in
  if r <? 0 then Ret (None, s)
  else
  let* (a, s) :=
    if flag_set r ci_wait_for_read then
      let* (n, rd) := net_data_read (ss_reader s) in
      Ret (n, with_reader rd s)
    else Ret (CI_OK, s) in
  if a =? CI_ERROR then Ret (Some CI_ERROR, s)
  else if flag_set r ci_wait_for_write then
    let* s :=
      if negb (ss_locked s) && (ss_status s =? SEND_NOTHING) then
        let* (_, s) := update_send_status junk ai ab env s in Ret s
      else Ret s in
    let* (b, s) := send_current_block_data s in
    Ret (Some (if b =? CI_ERROR then CI_ERROR else CI_OK), s)
  else Ret (Some CI_OK, s).

(** After the inner loop: what has to be waited for, and the block to send. *)
Definition finish_turn (fmt : bool) (p : pump) : outcome (Z * pump) :=
  let s := pm_session p in
  let pending := write_to_module_pending (ss_stream s) in
  let action := if pending =? 0 then ci_wait_for_read else 0 in
  let wd := if pending =? 0 then None else wchunkdata p in
  let* s :=
    if ss_status s =? SEND_BODY then
      let s := if (remain s =? 0) && service_eof p then point (ss_loc s) (ws_ptr (ss_out s)) CI_EOF s else s in
      if fmt then Ret s
      else
      let* (ret, s) := format_chunk s in
      Ret (if ret =? CI_EOF then with_status SEND_EOF s else s)
    else Ret s in
  let action := if remain s =? 0 then action else Z.lor action ci_wait_for_write in
  Ret (action, mkPump s wd (rchunkdata p) (rchunkisfull p) (service_eof p)).

Definition got_all (s : session D) : Z := if eof_received (ss_stream s) then CI_OK else CI_ERROR.

Fixpoint send_loop (fuel pf : nat) (io : io_fun D) (action : Z) (p : pump) : outcome (Z * session D) :=
  match fuel with
  | O => NoFuel
  | S fuel' =>
      let* (o, s) := if action =? 0 then Ret (Some CI_OK, pm_session p) else exchange action (pm_session p) in
      match o with
      | None => Ret (got_all s, s)
      | Some a =>
          if a =? CI_ERROR then Ret (CI_ERROR, s)
          else
          let* (u, s) :=
            if negb (ss_locked s) && (remain s =? 0) then update_send_status junk ai ab env s else Ret (CI_OK, s) in
          if u =? CI_ERROR then Ret (CI_ERROR, s)
          else
          let lock_status := ss_locked s in
          let fmt := negb (remain s =? 0) in
          let p := mkPump s (wchunkdata p) (rchunkdata p) (rchunkisfull p) (service_eof p) in
          let* (ok, p) := pump_loop pf pf io fmt 0 p in
          if negb ok then Ret (CI_ERROR, pm_session p)
          else
          let* (action, p) := finish_turn fmt p in
          let s := pm_session p in
          let t := ss_stream s in
          if (negb (eof_received t) || negb (write_to_module_pending t =? 0))
             && (negb (action =? 0) || negb (eqb lock_status (ss_locked s)))
          then send_loop fuel' pf io action p
          else Ret (got_all s, s)
      end
  end.

Definition get_send_body (fuel pf : nat) (parse_only : bool) (s : session D) : outcome (Z * session D) :=
  match (if parse_only then Some mod_null_io else body_io ops s) with
  | None => Ret (CI_ERROR, s)
  | Some io =>
      let s := with_status SEND_NOTHING s in
      let action := if pstrblock_read_len (ss_stream s) =? 0 then ci_wait_for_read else 0 in
      send_loop fuel pf io action (mkPump s None None false false)
  end.

(** ** The handlers of the service *)

(** The data of the preview handler: [preview_data.buf] and [preview_data.used]. *)
Definition preview_bytes (b : ci_buf) : option (list Z) :=
  match bbuf b with Some m => Some (slice m 0 (bused b)) | None => None end.

(** An error is answered and the connection will be closed. *)
Definition close_with (e : ec) (s : session D) : outcome (Z * session D) :=
  let* (_, s) := ec_responce junk ai ab env (with_keepalive false s) e in Ret (CI_ERROR, s).

(** A 204 response: CI_ERROR when it cannot be sent. *)
Definition answer_204 (s : session D) : outcome (Z * session D) :=
  let* (len, s) := ec_responce junk ai ab env s EC_204 in
  if len <? 0 then Ret (CI_ERROR, with_keepalive false s) else Ret (CI_OK, s).

Definition do_request_preview (fuel pf : nat) (s : session D) : outcome (Z * session D) :=
  let* (status, s) :=
    if negb (hasbody (ss_encaps s)) then Ret (CI_EOF, s)
    else let* (st, r) := read_preview_data pf fuel (ss_reader s) in Ret (st, with_reader r s) in
  if status =? CI_ERROR then close_with EC_408 s
  else
  let* (res, s) :=
    match mod_check_preview_handler ops with
    | None => Ret (CI_MOD_CONTINUE, s)
    | Some f => let* (res, v) := f s (preview_bytes (rd_preview (ss_reader s))) in Ret (res, apply_view v s)
    end in
  if res =? CI_MOD_ALLOW204 then answer_204 s
  else if (res =? CI_MOD_ALLOW206) && allow206 (ss_req s) then Ret (CI_OK, with_code (Some EC_206) s)
  else if negb (res =? CI_MOD_CONTINUE) then close_with EC_500 s
  else Ret (status, if status =? CI_EOF then s else ec_responce_simple s EC_100).

Definition code_without_preview (s : session D) : ec := if hasbody (ss_encaps s) then EC_100 else EC_200.

(** [echo_body = ci_ring_buf_new(32768)]: [ar] is the result of its allocations. *)
Definition do_fake_preview (ar : bool) (fuel pf : nat) (s : session D) : outcome (Z * session D) :=
  match mod_check_preview_handler ops with
  | None => Ret (CI_OK, with_code (Some (code_without_preview s)) s)
  | Some f =>
      let* (res, v) := f s None in
      let s := apply_view v s in
      let has := hasbody (ss_encaps s) in
      if (res =? CI_MOD_ALLOW204) && allow204 (ss_req s) then
        let* (a, s) := answer_204 s in
        if a =? CI_ERROR then Ret (CI_ERROR, s)
        else
        let* (g, s) := if has then get_send_body fuel pf true s else Ret (CI_OK, s) in
        if g =? CI_ERROR then Ret (CI_ERROR, s)
        else Ret (CI_OK, with_code (Some EC_204) s)
      else if (res =? CI_MOD_ALLOW204) && negb has then Ret (CI_OK, with_code (Some EC_200) s)
      else if (res =? CI_MOD_ALLOW204) && FAKE_ALLOW204 env then
        Ret (CI_OK, with_code (Some EC_100) (with_echo (ci_ring_buf_new junk ar ar 32768) s))
      else if (res =? CI_MOD_ALLOW206) && allow204 (ss_req s) && allow206 (ss_req s) then
        Ret (CI_OK, with_code (Some EC_206) s)
      else if res =? CI_MOD_CONTINUE then Ret (CI_OK, with_code (Some (code_without_preview s)) s)
      else close_with EC_500 s
  end.

(** [ci_req_sent_data(req)] is its status. *)
Definition ci_req_sent_data (s : session D) : bool := negb (ss_status s =? SEND_NOTHING).

Definition do_end_of_data (s : session D) : outcome (Z * session D) :=
  match mod_end_of_data_handler ops with
  | None => Ret (CI_OK, s)
  | Some f =>
      let* (res, v) := f s in
      let s := apply_view v s in
      if (res =? CI_MOD_ALLOW204) && allow204 (ss_req s) && negb (ci_req_sent_data s) then
        let* (len, s) := ec_responce junk ai ab env s EC_204 in
        Ret (if len <? 0 then CI_ERROR else CI_OK, s)
      else if (res =? CI_MOD_ALLOW206) && allow204 (ss_req s) && allow206 (ss_req s) && negb (ci_req_sent_data s) then
        Ret (CI_OK, with_code (Some EC_206) s)
      else if negb (res =? CI_MOD_DONE) then
        if negb (ci_req_sent_data s) then close_with EC_500 s else Ret (CI_ERROR, s)
      else Ret (CI_OK, s)
  end.

(** ** do_request *)

(** What the request meets outside this file: the tables of services, the access control
    ([deny] and [auth_required]), the option handlers and the date, the configuration. *)
Record outside := mkOutside {
  o_tables : tables;
  o_access : session D → bool * bool;
  o_handlers : list (list Z * (session D → Z * view D));
  o_date : list Z;
  CHECK_FOR_BUGGY_CLIENT : bool
}.

(** REQMOD and RESPMOD requests, after the service was initialised. *)
Definition do_modification (ar : bool) (fuel pf : nat) (s : session D) : outcome (Z * session D) :=
  let* (preview_status, s) :=
    if 0 <=? preview (ss_req s) then do_request_preview fuel pf s else do_fake_preview ar fuel pf s in
  if preview_status =? CI_ERROR then Ret (CI_ERROR, s)
  else
  let s := if preview_status =? CI_EOF then with_code (Some EC_200) s else s in
  match ss_code s with
  | Some EC_204 => Ret (CI_OK, s)
  | Some EC_100 | Some EC_200 | Some EC_206 =>
      let* (ret, s) :=
        if bool_decide (ss_code s = Some EC_100) && hasbody (ss_encaps s) && negb (preview_status =? CI_EOF) then
          get_send_body fuel pf false (with_code (Some EC_200) s)
        else Ret (CI_OK, s) in
      if ret =? CI_ERROR then Ret (CI_ERROR, with_keepalive false s)
      else
      let* (ret, s) := do_end_of_data s in
      if ret =? CI_ERROR then Ret (CI_ERROR, with_keepalive false s)
      else if bool_decide (ss_code s = Some EC_204) then Ret (ret, s)
      else
      let* (ret, s) := send_remaining_response junk ai ab env fuel ops (with_locked false s) in
      if ret =? CI_ERROR then Ret (CI_ERROR, with_keepalive false s) else Ret (ret, s)
  | _ =>
      let* (_, s) := ec_responce junk ai ab env s EC_500 in Ret (CI_ERROR, s)
  end.

(** From the header on; [bufused] of the request header tells whether anything was read. *)
Definition do_request (ar : bool) (fuel pf : nat) (o : outside) (s : session D) : outcome (Z * session D) :=
  let* (res, q) := parse_header junk (PIPELINING env) fuel ai ab (o_tables o) (ss_req s) in
  let s := with_req q s in
  if negb (bool_decide (res = EC_100)) then
    let s := with_keepalive false (with_code (Some res) s) in
    let* s :=
      if 0 <? bufused (request_header (ss_req s)) then
        let* (_, s) := ec_responce junk ai ab env s res in Ret s
      else Ret s in
    Ret (CI_ERROR, s)
  else
  match current_service_mod (ss_req s) with
  | None => Abort
  | Some m =>
    if negb (match service_data env m with Some x => xd_ok x | None => false end) then close_with EC_500 s
    else
    let '(deny, auth) := o_access o s in
    if (deny : bool) then close_with (if (auth : bool) then EC_407 else EC_403) s
    else
    let* (res, q) := parse_encaps_headers junk (CHECK_FOR_BUGGY_CLIENT o) fuel ai (ss_req s) in
    let s := with_req q s in
    if negb (bool_decide (res = Some EC_100)) then close_with EC_400 s
    else
    let* s := match mod_init_request_data ops with
              | Some f => let* v := f s in Ret (apply_view v s)
              | None => Ret (with_data None s)
              end in
    let t := rtype (ss_req s) in
    let* (ret, s) :=
      if t =? ICAP_OPTIONS then
        let* s := options_responce junk ai ab env (o_handlers o) (o_date o) s in Ret (CI_OK, s)
      else if (t =? ICAP_REQMOD) || (t =? ICAP_RESPMOD) then do_modification ar fuel pf s
      else Ret (CI_ERROR, with_keepalive false s) in
    let* s := match mod_release_request_data ops, ss_data s with
              | Some f, Some d => let* v := f s d in Ret (apply_view v s)
              | _, _ => Ret s
              end in
    Ret (ret, s)
  end.

(** ** process_request *)

(** The counters a request adds to: those of the server and those of its service. *)
Inductive stat := STAT_REQUESTS | STAT_REQMODS | STAT_RESPMODS | STAT_OPTIONS | STAT_FAILED_REQUESTS | STAT_ALLOW204
| STAT_BYTES_IN | STAT_BYTES_OUT | STAT_HTTP_BYTES_IN | STAT_HTTP_BYTES_OUT | STAT_BODY_BYTES_IN | STAT_BODY_BYTES_OUT.

Inductive stat_of := OfServer (x : stat) | OfService (m : ci_service_module) (x : stat).

Definition count_both (m : option ci_service_module) (x : stat) (n : Z) : list (stat_of * Z) :=
  (OfServer x, n) :: match m with Some m => [(OfService m x, n)] | None => [] end.

(** The byte counters of the request, as [stat] and value. *)
Definition byte_stats (s : session D) : list (stat * Z) :=
  let t := ss_stream s in
  let w := ss_out s in
  [(STAT_BYTES_IN, rd_bytes_in (ss_reader s)); (STAT_BYTES_OUT, ss_bytes_out s);
   (STAT_HTTP_BYTES_IN, http_bytes_in t); (STAT_HTTP_BYTES_OUT, http_bytes_out w);
   (STAT_BODY_BYTES_IN, body_bytes_in t); (STAT_BODY_BYTES_OUT, body_bytes_out w)].

(** The increments, with every counter registered. *)
Definition request_stats (res : Z) (s : session D) : list (stat_of * Z) :=
  let m := if bool_decide (ss_code s = Some EC_404) then None
           else match current_service_mod (ss_req s) with
                | Some m => match service_data env m with Some _ => Some m | None => None end
                | None => None
                end in
  let t := rtype (ss_req s) in
  (OfServer STAT_REQUESTS, 1) ::
  (if t =? ICAP_REQMOD then count_both m STAT_REQMODS 1
   else if t =? ICAP_RESPMOD then count_both m STAT_RESPMODS 1
   else if t =? ICAP_OPTIONS then count_both m STAT_OPTIONS 1 else []) ++
  (if res <? 0 then [(OfServer STAT_FAILED_REQUESTS, 1)]
   else if bool_decide (ss_code s = Some EC_204) then count_both m STAT_ALLOW204 1 else []) ++
  concat (map (λ '(x, n), count_both m x n) (byte_stats s)).

(** [stats] is STATS, the statistics area. *)
Definition process_request (stats ar : bool) (fuel pf : nat) (o : outside) (s : session D) :
    outcome (Z * list (stat_of * Z) * session D) :=
  let* (res, s) := do_request ar fuel pf o s in
  if (res <? 0) && (bufused (request_header (ss_req s)) =? 0) then Ret (CI_NO_STATUS, [], s)
  else Ret (res, if stats then request_stats res s else [], s).
End server.
