(* ===== verification/Deliver.v ===== *)
(** * The body reaches the service (request.c)

    The receiving half of [get_send_body]: while the response is locked (the state in which every request
    starts), the whole body of the request is decoded and handed to the service, however the network
    delivers it.  [Consumer] is what the loop needs of the service. *)

From stdpp Require Import base list list_numbers strings numbers option.
From Stdlib Require Import ZArith Lia.
From S2P Require Import Prelude CString Chunks ReadBody SendBody RingBuf Headers Encapsulated IcapHeader ParseRequest HttpApi Session Response Options Server.

Section consumer.
Context {D : Type}.

Definition same_store (s s' : session D) : Prop := ss_data s' = ss_data s ∧ ss_echo s' = ss_echo s.

(** A function that takes all the data it is offered, as long as the whole [fits]: [took s eof a] says that it has
    taken [a], and whether it was told of the end. *)
Class Consumer (io : io_fun D) := {
  fits : list Z → Prop;
  fits_prefix : ∀ a b, fits (a ++ b) → fits a;
  took : session D → bool → list Z → Prop;
  took_frame : ∀ s s' eof a, took s eof a → same_store s s' → took s' eof a;
  took_step : ∀ s a d eof, took s false a → fits (a ++ default [] d) → ∃ ret c dt e,
    io s None d eof = Ret (ret, SrcCode c, zlen (default [] d), served dt e (ss_locked s) s) ∧
    ret ≠ CI_ERROR ∧ c ≤ 0 ∧ took (served dt e (ss_locked s) s) eof (a ++ default [] d)
}.
End consumer.

Section deliver.
Context (junk : Z → Z) (ai ab : bool) (env : server_env) {D : Type} (io : io_fun D) `{!Consumer io}.

(** Nothing is being sent, and nothing will be before the data is unlocked. *)
Record idle (s : session D) : Prop := {
  id_locked : ss_locked s = true;
  id_status : ss_status s = SEND_NOTHING;
  id_remain : remain s = 0
}.

(** What the answer depends on is left as it is; only the reader, the store of the service and the counters change. *)
Definition answer_frame (s s' : session D) : Prop :=
  (∃ r, ss_req s' = set_reader r (ss_req s)) ∧ ss_code s' = ss_code s ∧ ss_response s' = ss_response s ∧
  ss_xheaders s' = ss_xheaders s ∧ ss_packed s' = ss_packed s ∧ is_ec_206 (ss_out s') = is_ec_206 (ss_out s) ∧
  ws_wbuf (ss_out s') = ws_wbuf (ss_out s).

Lemma answer_frame_trans s s1 s2 : answer_frame s s1 → answer_frame s1 s2 → answer_frame s s2.
Proof.
  intros ((r & Hq1) & ? & ? & ? & ? & ? & ?) ((r' & Hq2) & ? & ? & ? & ? & ? & ?).
  split; [|split_and!; congruence]. exists r'. by rewrite Hq2, Hq1.
Qed.

Lemma answer_frame_same s s' : ss_req s' = ss_req s → ss_code s' = ss_code s → ss_response s' = ss_response s →
  ss_xheaders s' = ss_xheaders s → ss_packed s' = ss_packed s → ss_out s' = ss_out s → answer_frame s s'.
Proof. intros H1 ? ? ? ? H6. split; [|rewrite H6; by split_and!]. exists (ss_reader s). rewrite H1. unfold ss_reader. by destruct (ss_req s). Qed.

Definition stream_len (s : session D) : Z := pstrblock_read_len (ss_stream s).
Definition pending_len (s : session D) : Z := write_to_module_pending (ss_stream s).

(** What a turn leaves: the service has taken the data [D1] of [D]. *)
Definition turn_post (s s' : session D) (R Dt : list Z) (a : list Z) (ret : Z) : Prop :=
  idle s' ∧ answer_frame s s' ∧ ss_conn s' = ss_conn s ∧ pending_len s' = 0 ∧
  ∃ R' D1 D', Dt = D1 ++ D' ∧ took s' (eof_received (ss_stream s')) (a ++ D1) ∧
    (ret = CI_NEEDS_MORE ∧ reader_ok (ss_reader s') R' D' ∧ fut_of (rd_conn (ss_reader s')) ≠ [] ∧
       stream_len s' < BUFSIZE ∧ zlen R' ≤ zlen R ∧ rd_conn (ss_reader s') = rd_conn (ss_reader s) ∧
       eof_received (ss_stream s') = eof_received (ss_stream s) ∨
     ret = CI_OK ∧ reader_ok (ss_reader s') R' D' ∧ zlen R' < zlen R ∧ stream_len s' < stream_len s ∧
       rd_conn (ss_reader s') = rd_conn (ss_reader s) ∧
       eof_received (ss_stream s') = eof_received (ss_stream s) ∨
     ret = CI_EOF ∧ D' = [] ∧ eof_received (ss_stream s') = true).

Lemma pump_step_spec pf s wd se pr R Dt a :
  (Z.to_nat BUFSIZE < pf)%nat → idle s → reader_ok (ss_reader s) R Dt → pending_len s = 0 →
  0 < stream_len s ≤ BUFSIZE → eof_received (ss_stream s) = false → took s false a → fits (a ++ Dt) →
  ∃ ret no_io s' wd' se', pump_step pf io false pr (mkPump s wd None false se) =
      Ret (Some (no_io, ret), mkPump s' wd' None false se') ∧
    turn_post s s' R Dt a ret ∧ (ret = CI_OK → no_io = false).
Proof.
  intros Hpf [Hlk Hst Hrm] (Hinv & Hdata & Hsz) Hpd Hlen Hef Ht Hfit. unfold stream_len, pending_len in *.
  unfold pump_step. cbn [pm_session]. rewrite (proj2 (Z.eqb_neq _ _)) by lia. rewrite Hpd. cbn [negb andb Z.eqb].
  unfold parse_step. cbn [pm_session].
  destruct (parse_chunk_data_spec pf (block_mem (ss_reader s)) (fut_of (rd_conn (ss_reader s)))
    (set_i206 (use_original_body (ss_out s)) (ss_stream s)) R Dt) as
    (code & wd' & t & Hparse & R' & D' & Hpost & Hok & He & HD & Hle & Hlt & _); [cbn; lia|done|done|].
  rewrite Hparse. cbn [obind]. cbn [delivered app] in HD.
  set (t1 := if code =? CI_EOF then set_eof_received true t else t).
  assert (Ht1 : write_to_module_pending t1 = write_to_module_pending t) by (unfold t1; by destruct (_ =? _)).
  assert (Hce : code ≠ CI_ERROR) by (destruct Hpost as [[-> _]|[[-> _]|[-> _]]]; done).
  rewrite (proj2 (Z.eqb_neq _ _) Hce). cbn [pm_session wchunkdata rchunkdata rchunkisfull service_eof].
  set (s1 := with_origin (i206_use_original_body t1) (with_rstream t1 s)).
  change (ss_stream s1) with t1. change (block_mem (ss_reader s1)) with (block_mem (ss_reader s)).
  assert (Hdat : (match wd' with
    | Some w => let* x := read_bytes (block_mem (ss_reader s)) w
                  (match wd' with Some _ => write_to_module_pending t1 | None => 0 end) in Ret (Some x)
    | None => Ret None end) = Ret (option_map (λ _, delivered (block_mem (ss_reader s)) wd' t) wd')).
  { rewrite Ht1. pose proof (pending_data_spec _ _ _ Hok) as H. unfold pending_data in H.
    destruct wd' as [w|]; [|done]. rewrite H. done. }
  rewrite Hdat. cbn [obind]. unfold read_room. cbn [pm_session].
  change (ss_status s1) with (ss_status s). rewrite Hst. cbn [Z.eqb SEND_NOTHING SEND_BODY andb rchunkdata].
  assert (Ht' : took s1 false a) by (by eapply took_frame).
  assert (Hdel : default [] (option_map (λ _, delivered (block_mem (ss_reader s)) wd' t) wd') =
                 delivered (block_mem (ss_reader s)) wd' t) by (by destruct wd').
  destruct (took_step s1 a (option_map (λ _, delivered (block_mem (ss_reader s)) wd' t) wd') (eof_received t1) Ht')
    as (ret & c & dt & e & Hio & Hret & Hc & Htook).
  { rewrite Hdel. apply (fits_prefix _ D'). by rewrite <- app_assoc, <- HD. }
  change (pm_session (mkPump s1 wd' None false se)) with s1. rewrite Hio. cbn [obind].
  rewrite (proj2 (Z.eqb_neq _ _) Hret). cbn [put_service_data obind rchunkdata wchunkdata service_eof rchunkisfull].
  set (s2 := served dt e (ss_locked s1) s1) in *. change (ss_stream s2) with t1.
  rewrite Hdel in Htook |- *. rewrite (zlen_delivered _ _ _ Hok).
  rewrite (proj2 (Z.ltb_ge _ _)) by lia.
  (* the count of pending bytes goes to 0 *)
  set (mv := if write_to_module_pending t =? 0 then _ else _).
  assert (Hmv : ∃ s3 wd3, mv = Ret (wd3, s3) ∧ idle s3 ∧ answer_frame s s3 ∧ ss_conn s3 = ss_conn s ∧ same_store s2 s3 ∧
     ss_reader s3 = with_stream (set_pending 0 t1) (ss_reader s)).
  { unfold mv. destruct (Z.eqb_spec (write_to_module_pending t) 0) as [H0|H0].
    - exists s2, wd'. split; [done|]. split; [by split|]. split; [by split; [eexists|split_and!]|]. split; [done|]. split; [done|].
      unfold s2, s1, ss_reader. cbn. unfold ss_reader. f_equal. rewrite H0 in Ht1. clear - Ht1. by destruct t1; cbn in *; subst.
    - destruct wd' as [w|]; [|by cbn in Hok]. eexists _, _. split; [done|]. split; [by split|]. split; [by split; [eexists|split_and!]|]. split; [done|]. split; [done|].
      cbn. rewrite Ht1, Z.sub_diag. done. }
  destruct Hmv as (s3 & wd3 & -> & Hid & Hfr & Hcn & Hstore & Hrd). cbn [obind].
  eexists _, _, s3, wd3, _. split; [done|]. split.
  - split; [done|]. split; [done|]. split; [done|]. unfold pending_len, ss_stream, stream_len, ss_stream. rewrite Hrd. split; [done|].
    exists R', (delivered (block_mem (ss_reader s)) wd' t), D'. split; [done|].
    split; [cbn [rd_stream with_stream]; by eapply took_frame|]. unfold reader_ok. cbn [rd_stream rd_conn with_stream rd_rbuf].
    destruct Hpost as [(-> & Hf & I & Hl)|[(-> & I & Hl)|(-> & Hf & -> & _)]]; cbn [Z.eqb CI_OK CI_NEEDS_MORE CI_EOF] in t1; unfold t1.
    + left. split_and!; try done. by apply Hle.
    + right. left. pose proof (inv_block_len _ _ _ _ _ Hinv) as L1. pose proof (inv_block_len _ _ _ _ _ I) as L2.
      cbn in L1. specialize (Hlt eq_refl). split_and!; try done. cbn. lia.
    + right. right. done.
  - intros ->. destruct Hpost as [[? _]|[(_ & _ & Hl)|[? _]]]; [done| |done].
    rewrite (proj2 (Z.eqb_neq (write_to_module_pending t) 0)) by lia. by rewrite andb_false_r.
Qed.

Lemma phase_nonempty c r R Dt : phase c r R Dt → R ≠ [].
Proof.
  intros [c' cs _|c' r' d cs _ _ _ _|c' r' cs _ _ _ _]; [apply encode_nonempty| |done].
  intros H. by apply app_eq_nil in H as [_ H].
Qed.

(** After the inner loop: the body is complete, or more of it has to be read. *)
Definition loop_post (s s' : session D) (R Dt : list Z) (a : list Z) : Prop :=
  idle s' ∧ answer_frame s s' ∧ ss_conn s' = ss_conn s ∧ pending_len s' = 0 ∧
  ∃ R' D1 D', Dt = D1 ++ D' ∧ took s' (eof_received (ss_stream s')) (a ++ D1) ∧
    (D' = [] ∧ eof_received (ss_stream s') = true ∨
     reader_ok (ss_reader s') R' D' ∧ fut_of (rd_conn (ss_reader s')) ≠ [] ∧ stream_len s' < BUFSIZE ∧
       rd_conn (ss_reader s') = rd_conn (ss_reader s) ∧ eof_received (ss_stream s') = eof_received (ss_stream s)).

Lemma pump_loop_spec fuel pf s wd se pr R Dt a :
  (Z.to_nat BUFSIZE < pf)%nat → idle s → reader_ok (ss_reader s) R Dt → pending_len s = 0 →
  0 < stream_len s ≤ BUFSIZE → eof_received (ss_stream s) = false → took s false a → fits (a ++ Dt) → stream_len s < Z.of_nat fuel →
  ∃ s' wd' se', pump_loop fuel pf io false pr (mkPump s wd None false se) = Ret (true, mkPump s' wd' None false se') ∧
    loop_post s s' R Dt a.
Proof.
  intros Hpf. revert s wd se pr R Dt a.
  induction fuel as [|fuel IH]; intros s wd se pr R Dt a Hid Hr Hpd Hlen Hef Ht Hfit Hf; [lia|]. cbn [pump_loop].
  destruct (pump_step_spec pf s wd se pr R Dt a Hpf Hid Hr Hpd Hlen Hef Ht Hfit)
    as (ret & no_io & s1 & wd1 & se1 & -> & (Hid1 & Hfr1 & Hc1 & Hpd1 & R1 & D1 & D1' & HD & Ht1 & Hcase) & Hno).
  cbn [obind pm_session rchunkisfull].
  destruct Hcase as [(-> & Hr1 & Hf1 & Hl1 & HR & Hcn & He)|[(-> & Hr1 & HR & Hl1 & Hcn & He)|(-> & -> & He)]].
  - rewrite andb_false_r. cbn [andb]. exists s1, wd1, se1. split; [done|]. split; [done|]. split; [done|]. split; [done|]. split; [done|].
    exists R1, D1, D1'. split; [done|]. split; [done|]. by right.
  - rewrite Hno by done. destruct (Z.eqb_spec (pstrblock_read_len (ss_stream s1)) 0) as [H0|H0].
    + cbn [negb andb]. exists s1, wd1, se1. split; [done|]. split; [done|]. split; [done|]. split; [done|]. split; [done|].
      exists R1, D1, D1'. split; [done|]. split; [done|]. right. split; [done|]. unfold stream_len, BUFSIZE. split_and!; try done; [|lia].
      destruct Hr1 as ((blk & stale & _ & _ & Hb & HRb & Hph) & _). apply phase_nonempty in Hph.
      unfold ss_stream in H0. rewrite H0 in Hb. destruct blk; [|zlia]. cbn in HRb. by rewrite <- HRb.
    + cbn [negb andb Z.eqb CI_OK CI_NEEDS_MORE CI_EOF Pos.eqb].
      assert (0 ≤ stream_len s1).
      { destruct Hr1 as ((blk & stale & _ & _ & Hb & _) & _). unfold stream_len, ss_stream. rewrite Hb. zlia. }
      destruct (IH s1 wd1 se1 CI_OK R1 D1' (a ++ D1) Hid1 Hr1 Hpd1) as
        (s' & wd' & se' & Hrun & Hid' & Hfr' & Hc' & Hpd' & R2 & D2 & D2' & HD2 & Ht2 & Hcase2); [unfold stream_len in *; lia|congruence|by rewrite He, Hef in Ht1|by rewrite <- app_assoc, <- HD|lia|].
      exists s', wd', se'. split; [done|]. split; [done|]. split; [by eapply answer_frame_trans|]. split; [congruence|]. split; [done|].
      exists R2, (D1 ++ D2), D2'. split; [by rewrite HD, HD2, app_assoc|]. split; [by rewrite app_assoc|].
      destruct Hcase2 as [|(? & ? & ? & ? & ?)]; [by left|right]. split_and!; try done; congruence.
  - rewrite andb_false_r. cbn [andb]. exists s1, wd1, se1. split; [done|]. split; [done|]. split; [done|]. split; [done|]. split; [done|].
    exists R1, D1, []. split; [done|]. split; [done|]. by left.
Qed.

(** A turn without new data. *)
Lemma pump_loop_empty fuel pf s se R Dt a :
  idle s → reader_ok (ss_reader s) R Dt → pending_len s = 0 → stream_len s = 0 → eof_received (ss_stream s) = false → took s false a → fits (a ++ Dt) →
  fut_of (rd_conn (ss_reader s)) ≠ [] →
  ∃ s' wd' se', pump_loop (S fuel) pf io false 0 (mkPump s None None false se) = Ret (true, mkPump s' wd' None false se') ∧
    loop_post s s' R Dt a.
Proof.
  intros [Hlk Hst Hrm] Hr Hpd Hlen Hef Ht Hfit Hf. unfold stream_len in Hlen. cbn [pump_loop]. unfold pump_step. cbn [pm_session].
  rewrite Hlen. cbn [Z.eqb negb andb obind CI_ERROR wchunkdata pm_session]. unfold read_room. cbn [pm_session].
  rewrite Hst. cbn [Z.eqb SEND_NOTHING SEND_BODY andb rchunkdata].
  destruct (took_step s a None (eof_received (ss_stream s)) Ht) as (ret & c & dt & e & Hio & Hret & Hc & Htook).
  { cbn [default]. rewrite app_nil_r. by eapply fits_prefix. }
  cbn [pm_session]. rewrite Hio. cbn [obind]. rewrite (proj2 (Z.eqb_neq _ _) Hret).
  cbn [put_service_data obind rchunkdata wchunkdata service_eof rchunkisfull default].
  change (zlen [] =? 0) with true. cbn [obind]. rewrite (proj2 (Z.ltb_ge _ _)) by lia. cbn [pm_session].
  change (ss_stream (served dt e (ss_locked s) s)) with (ss_stream s). rewrite Hlen.
  cbn [Z.eqb negb]. rewrite andb_false_r. cbn [andb].
  eexists _, _, _. split; [done|]. split; [by split|]. split; [by apply answer_frame_same|]. split; [done|]. split; [done|].
  exists R, [], Dt. split; [done|]. split; [done|]. right. split_and!; try done.
  unfold stream_len. change (ss_stream (served dt e (ss_locked s) s)) with (ss_stream s). rewrite Hlen. done.
Qed.

Definition read_ready (w : Z) : Prop := ci_connection_wait ci_wait_for_read w = ci_wait_for_read.

(** The turn after the network operations. *)
Lemma turn_spec fuel pf action p s R Dt a :
  (Z.to_nat BUFSIZE < pf)%nat →
  (if action =? 0 then Ret (Some CI_OK, pm_session p) else exchange junk ai ab env action (pm_session p)) = Ret (Some CI_OK, s) →
  wchunkdata p = None → rchunkdata p = None → rchunkisfull p = false →
  idle s → reader_ok (ss_reader s) R Dt → pending_len s = 0 → 0 ≤ stream_len s ≤ BUFSIZE → eof_received (ss_stream s) = false → took s false a → fits (a ++ Dt) →
  (stream_len s = 0 → fut_of (rd_conn (ss_reader s)) ≠ []) →
  ∃ s' se', loop_post s s' R Dt a ∧
    send_loop junk ai ab env (S fuel) pf io action p =
      if eof_received (ss_stream s') then Ret (CI_OK, s')
      else send_loop junk ai ab env fuel pf io ci_wait_for_read (mkPump s' None None false se').
Proof.
  intros Hpf Hex Hw Hrc Hfull Hid Hr Hpd Hlen Hef Ht Hfit Hne. cbn [send_loop]. rewrite Hex. cbn [obind Z.eqb CI_OK CI_ERROR].
  rewrite (id_locked _ Hid). cbn [negb andb obind Z.eqb CI_OK CI_ERROR]. rewrite (id_remain _ Hid). cbn [Z.eqb negb].
  rewrite Hw, Hrc, Hfull.
  assert (Hl : ∃ s' wd' se', pump_loop pf pf io false 0 (mkPump s None None false (service_eof p)) =
      Ret (true, mkPump s' wd' None false se') ∧ loop_post s s' R Dt a).
  { destruct (Z.eq_dec (stream_len s) 0) as [H0|H0].
    - destruct pf as [|pf]; [lia|]. by apply pump_loop_empty; auto.
    - apply pump_loop_spec; try done; [lia|]. lia. }
  destruct Hl as (s' & wd' & se' & -> & Hpost). pose proof Hpost as (Hid' & _ & _ & Hpd' & _).
  cbn [obind negb]. unfold finish_turn. cbn [pm_session]. unfold pending_len in Hpd'. rewrite Hpd', (id_status _ Hid').
  cbn [Z.eqb SEND_NOTHING SEND_BODY obind]. rewrite (id_remain _ Hid'). cbn [Z.eqb obind pm_session rchunkdata rchunkisfull service_eof].
  rewrite Hpd', (id_locked _ Hid'). cbn [Z.eqb negb ci_wait_for_read orb eqb]. rewrite orb_false_r, andb_true_r.
  exists s', se'. split; [done|]. unfold got_all. by destruct (eof_received (ss_stream s')).
Qed.

Lemma exchange_read_spec s R Dt w ws :
  idle s → reader_ok (ss_reader s) R Dt → fut_of (rd_conn (ss_reader s)) ≠ [] → stream_len s < BUFSIZE →
  CHILD_HALT env = false → waits (ss_conn s) = w :: ws → read_ready w →
  ∃ s', exchange junk ai ab env ci_wait_for_read s = Ret (Some CI_OK, s') ∧ idle s' ∧ answer_frame s s' ∧ same_store s s' ∧
    reader_ok (ss_reader s') R Dt ∧ pending_len s' = pending_len s ∧ stream_len s' ≤ BUFSIZE ∧
    eof_received (ss_stream s') = eof_received (ss_stream s) ∧
    ss_conn s' = mkConn ws (writes (ss_conn s)) (sent (ss_conn s)) ∧
    zlen (fut_of (rd_conn (ss_reader s'))) + zlen (rd_conn (ss_reader s')) <
      zlen (fut_of (rd_conn (ss_reader s))) + zlen (rd_conn (ss_reader s)).
Proof.
  intros [Hlk Hst Hrm] Hr Hf Hlen Hh Hw Hrd.
  destruct (net_data_read_spec (ss_reader s) R Dt Hr (fut_nonempty _ Hf) Hlen) as (r' & Hn & Hr' & _ & Hp & He & Hl & Hm).
  unfold exchange, wait_for_data. rewrite Hh, Hw. cbn [wait_loop]. unfold read_ready in Hrd. rewrite Hrd.
  change (flag_set ci_wait_for_read ci_wait_should_retry) with false.
  cbn [ci_wait_for_read Z.ltb Z.compare Z.eqb]. cbn zeta.
  change (flag_set 1 1) with true. cbn match.
  change (ss_reader (with_conn 0 (mkConn ws (writes (ss_conn s)) (sent (ss_conn s))) s)) with (ss_reader s).
  rewrite Hn. cbn [obind Z.eqb CI_OK CI_ERROR]. change (flag_set 1 ci_wait_for_write) with false. cbn match.
  eexists. split; [done|]. split; [by split|]. split; [by split; [eexists|split_and!]|]. by split_and!.
Qed.

Lemma send_loop_spec pf fuel s se R Dt a :
  (Z.to_nat BUFSIZE < pf)%nat → idle s → reader_ok (ss_reader s) R Dt → pending_len s = 0 → stream_len s < BUFSIZE →
  took s false a → fits (a ++ Dt) → fut_of (rd_conn (ss_reader s)) ≠ [] → eof_received (ss_stream s) = false →
  CHILD_HALT env = false → Forall read_ready (waits (ss_conn s)) →
  let n := zlen (fut_of (rd_conn (ss_reader s))) + zlen (rd_conn (ss_reader s)) in
  n ≤ zlen (waits (ss_conn s)) → n < Z.of_nat fuel →
  ∃ s', send_loop junk ai ab env fuel pf io ci_wait_for_read (mkPump s None None false se) = Ret (CI_OK, s') ∧
    took s' true (a ++ Dt) ∧ idle s' ∧ answer_frame s s' ∧ (∃ k, (Z.of_nat k ≤ n) ∧ ss_conn s' = mkConn (drop k (waits (ss_conn s))) (writes (ss_conn s)) (sent (ss_conn s))) ∧
    eof_received (ss_stream s') = true.
Proof.
  intros Hpf. revert s se R Dt a. induction fuel as [|fuel IH];
    intros s se R Dt a Hid Hr Hpd Hlen Ht Hfit Hne He Hh Hw n Hn Hf; [unfold n in *; zlia|].
  destruct (waits (ss_conn s)) as [|w ws] eqn:Hws.
  { destruct (rd_conn (ss_reader s)); [done|]. unfold n in Hn. zlia. }
  apply Forall_cons_1 in Hw as [Hw1 Hw].
  destruct (exchange_read_spec s R Dt w ws Hid Hr Hne Hlen Hh Hws Hw1)
    as (s1 & Hex & Hid1 & Hfr1 & Hst1 & Hr1 & Hpd1 & Hl1 & He1 & Hc1 & Hm1). fold n in Hm1.
  assert (Hge : 0 ≤ stream_len s1).
  { destruct Hr1 as ((blk & stale & _ & _ & Hb & _) & _). unfold stream_len, ss_stream. rewrite Hb. zlia. }
  destruct (turn_spec fuel pf ci_wait_for_read (mkPump s None None false se) s1 R Dt a Hpf Hex) as
    (s2 & se2 & (Hid2 & Hfr2 & Hc2 & Hpd2 & R2 & D1 & D2 & HD & Ht2 & Hcase) & ->); try done.
  { by rewrite Hpd1. }
  { by rewrite He1. }
  { by eapply took_frame. }
  { intros H0. destruct Hr1 as ((blk & stale & _ & _ & Hb & HRb & Hph) & _). apply phase_nonempty in Hph.
    unfold stream_len, ss_stream in H0. rewrite H0 in Hb. destruct blk; [|zlia]. cbn in HRb. by rewrite <- HRb. }
  destruct Hcase as [(-> & He2)|(Hr2 & Hf2 & Hl2 & Hcn2 & He2)].
  - rewrite He2 in *. exists s2. rewrite app_nil_r in HD. subst D1. split; [done|]. split; [done|]. split; [done|]. split; [by eapply answer_frame_trans|].
    split; [|done]. exists 1%nat. rewrite Hc2, Hc1. split; [unfold n in *; zlia|done].
  - rewrite He2, He1, He. destruct (IH s2 se2 R2 D2 (a ++ D1)) as (s' & Hrun & Ht' & Hid' & Hfr' & (k & Hk & Hs') & Heof'); try done.
    + by rewrite He2, He1, He in Ht2.
    + by rewrite <- app_assoc, <- HD.
    + by rewrite He2, He1.
    + by rewrite Hc2, Hc1.
    + rewrite Hcn2, Hc2, Hc1. cbn [waits]. zlia.
    + rewrite Hcn2. lia.
    + exists s'. split; [done|]. rewrite HD, app_assoc. split; [done|]. split; [done|].
      split; [by do 2 (eapply answer_frame_trans; [done|])|]. split; [|done].
      exists (S k). rewrite Hs', Hc2, Hc1. rewrite Hcn2 in Hk. cbn [waits writes sent drop]. split; [lia|done].
Qed.

(** The whole function, from the block at hand and the events of the connection. *)
Lemma get_send_body_spec (ops : service_ops D) fuel pf (po : bool) s blk stale cs a :
  (if po then Some mod_null_io else body_io ops s) = Some io →
  ss_locked s = true → remain s = 0 → took s false a → fits (a ++ concat cs) →
  Forall good_chunk cs →
  0 ≤ pstrblock_read (ss_stream s) →
  drop (Z.to_nat (pstrblock_read (ss_stream s))) (block_mem (ss_reader s)) = blk ++ stale →
  stream_len s = zlen blk → zlen blk ≤ BUFSIZE → blk ++ fut_of (rd_conn (ss_reader s)) = encode cs →
  Forall is_data (rd_conn (ss_reader s)) → zlen (rd_rbuf (ss_reader s)) = BUFSIZE →
  current_chunk_len (ss_stream s) = chunk_bytes_read (ss_stream s) → pending_len s = 0 →
  eof_received (ss_stream s) = false → CHILD_HALT env = false → Forall read_ready (waits (ss_conn s)) →
  zlen (encode cs) + zlen (rd_conn (ss_reader s)) ≤ zlen (waits (ss_conn s)) →
  (Z.to_nat BUFSIZE < pf)%nat → zlen (encode cs) + zlen (rd_conn (ss_reader s)) + 1 < Z.of_nat fuel →
  ∃ s', get_send_body junk ai ab env ops fuel pf po s = Ret (CI_OK, s') ∧
    took s' true (a ++ concat cs) ∧ idle s' ∧ answer_frame s s' ∧ (∃ k, (Z.of_nat k ≤ zlen (encode cs) + zlen (rd_conn (ss_reader s))) ∧
      ss_conn s' = mkConn (drop k (waits (ss_conn s))) (writes (ss_conn s)) (sent (ss_conn s))) ∧
    eof_received (ss_stream s') = true.
Proof.
  intros Hio Hlk Hrm Ht Hfit Hcs Hp Hm Hlen Hle HR Hd Hsz Hch Hpd He Hh Hw Hn Hpf Hf.
  unfold get_send_body. rewrite Hio. cbn zeta. set (s0 := with_status SEND_NOTHING s).
  assert (Hid : idle s0) by by split.
  assert (Ht0 : took s0 false a) by (by eapply took_frame).
  assert (Hr : reader_ok (ss_reader s0) (encode cs) (concat cs)).
  { split_and!; [|done|done]. exists blk, stale. split_and!; try done.
    change (rd_stream (ss_reader s0)) with (ss_stream s). rewrite Hch. by apply phase_def. }
  assert (Hfut : zlen (fut_of (rd_conn (ss_reader s))) ≤ zlen (encode cs)) by (rewrite <- HR; zlia).
  change (pstrblock_read_len (ss_stream s0)) with (stream_len s). rewrite Hlen.
  destruct (Z.eqb_spec (zlen blk) 0) as [H0|H0].
  - destruct blk; [|zlia]. cbn in HR.
    destruct (send_loop_spec pf fuel s0 false (encode cs) (concat cs) a) as (s' & Hrun & Ht' & Hid' & Hfr' & (k & Hk & Hs') & Heof');
      try done; [..|by exists s'; split_and!; try done; exists k; split; [|done]; rewrite <- HR].
    + change (stream_len s0) with (stream_len s). rewrite Hlen. done.
    + change (ss_reader s0) with (ss_reader s). rewrite HR. apply encode_nonempty.
    + change (ss_reader s0) with (ss_reader s). change (ss_conn s0) with (ss_conn s). lia.
    + change (ss_reader s0) with (ss_reader s). lia.
  - destruct fuel as [|fuel]; [zlia|].
    destruct (turn_spec fuel pf 0 (mkPump s0 None None false false) s0 (encode cs) (concat cs) a Hpf) as
      (s2 & se2 & (Hid2 & Hfr2 & Hc2 & Hpd2 & R2 & D1 & D2 & HD & Ht2 & Hcase) & ->); try done.
    { change (stream_len s0) with (stream_len s). rewrite Hlen. zlia. }
    { change (stream_len s0) with (stream_len s). rewrite Hlen. lia. }
    destruct Hcase as [(-> & He2)|(Hr2 & Hf2 & Hl2 & Hcn2 & He2)].
    + rewrite He2 in *. exists s2. rewrite app_nil_r in HD. subst D1. split; [done|]. split; [done|]. split; [done|]. split; [done|]. split; [|done].
      exists 0%nat. rewrite Hc2. change (ss_conn s0) with (ss_conn s). rewrite drop_0. split; [zlia|]. by destruct (ss_conn s).
    + change (eof_received (ss_stream s0)) with (eof_received (ss_stream s)) in He2.
      rewrite He2, He. change (rd_conn (ss_reader s0)) with (rd_conn (ss_reader s)) in Hcn2.
      change (ss_conn s0) with (ss_conn s) in Hc2.
      destruct (send_loop_spec pf fuel s2 se2 R2 D2 (a ++ D1)) as (s' & Hrun & Ht' & Hid' & Hfr' & (k & Hk & Hs') & Heof'); try done.
      * by rewrite He2, He in Ht2.
      * by rewrite <- app_assoc, <- HD.
      * by rewrite He2.
      * by rewrite Hc2.
      * rewrite Hcn2, Hc2. lia.
      * rewrite Hcn2. lia.
      * exists s'. split; [done|]. rewrite HD, app_assoc. split; [done|]. split; [done|].
        split; [by eapply answer_frame_trans|]. split; [|done]. exists k. rewrite Hs', Hc2. rewrite Hcn2 in Hk. split; [lia|done].
Qed.
End deliver.

(** ** From the request to the response *)

Section answer.
Context (junk : Z → Z) (env : server_env) {D : Type}.

Lemma answerable_frame s s' m x code xls h ls b :
  answer_frame s s' → answerable (D:=D) env s m x code xls h ls b → answerable env s' m x code xls h ls b.
Proof.
  intros ((r & Hq) & H2 & H3 & H4 & H5 & _) [A1 A2 A3 A4 A5 A6 A7 A8 A9 A10 A11].
  unfold ss_encaps in *. split; unfold ss_encaps; rewrite ?Hq, ?H2, ?H3, ?H4, ?H5; done.
Qed.

Lemma response_message_frame s s' m x code xls ls b cs :
  answer_frame (D:=D) s s' → is_ec_206 (ss_out s) = false →
  response_message env s' m x code xls ls b cs = response_message env s m x code xls ls b cs.
Proof.
  intros ((r & Hq) & _ & _ & _ & _ & H6 & _) H0. unfold response_message, body_end. rewrite Hq, H6, H0. done.
Qed.

Lemma willing_drop n k c (w s : list Z) :
  Forall write_ready w → Forall (λ x, 0 ≤ x) c → n ≤ npos c → zlen c + k ≤ zlen w → 0 ≤ k →
  willing n (mkConn (drop (Z.to_nat k) w) c s).
Proof. intros. split_and!; cbn; try done; [by apply Forall_drop|rewrite zlen_drop; zlia]. Qed.

(** A request without preview whose body has the chunks [cs]: nothing is sent yet, the coding of the body is the block at hand
    and what the network will deliver, and the client takes [reply] bytes of answer. *)
Record upload (s : session D) (cs : list (list Z)) (reply : Z) : Prop := {
  up_locked : ss_locked s = true;
  up_remain : remain s = 0;
  up_wbuf : zlen (ws_wbuf (ss_out s)) = WBUF_SIZE;
  up_chunks : Forall good_chunk cs;
  up_ptr : 0 ≤ pstrblock_read (ss_stream s);
  up_block : ∃ blk stale, drop (Z.to_nat (pstrblock_read (ss_stream s))) (block_mem (ss_reader s)) = blk ++ stale ∧
    stream_len s = zlen blk ∧ zlen blk ≤ BUFSIZE ∧ blk ++ fut_of (rd_conn (ss_reader s)) = encode cs;
  up_data : Forall is_data (rd_conn (ss_reader s));
  up_rbuf : zlen (rd_rbuf (ss_reader s)) = BUFSIZE;
  up_phase : current_chunk_len (ss_stream s) = chunk_bytes_read (ss_stream s);
  up_pending : pending_len s = 0;
  up_eof : eof_received (ss_stream s) = false;
  up_halt : CHILD_HALT env = false;
  up_waits : Forall (λ w, read_ready w ∧ write_ready w) (waits (ss_conn s));
  up_writes : Forall (λ w, 0 ≤ w) (writes (ss_conn s));
  up_reply : reply ≤ npos (writes (ss_conn s));
  up_count : zlen (writes (ss_conn s)) + (zlen (encode cs) + zlen (rd_conn (ss_reader s))) ≤ zlen (waits (ss_conn s))
}.

(** The turns [get_send_body] needs for it. *)
Definition upload_fuel (s : session D) (cs : list (list Z)) (fuel pf : nat) : Prop :=
  (Z.to_nat BUFSIZE < pf)%nat ∧ zlen (encode cs) + zlen (rd_conn (ss_reader s)) + 1 < Z.of_nat fuel.

Lemma upload_received io `{!Consumer io} (ops : service_ops D) fuel pf s cs n a :
  upload s cs n → upload_fuel s cs fuel pf → body_io ops s = Some io → took s false a → fits (a ++ concat cs) →
  ∃ s', get_send_body junk true true env ops fuel pf false s = Ret (CI_OK, s') ∧ took s' true (a ++ concat cs) ∧
    idle s' ∧ answer_frame s s' ∧ eof_received (ss_stream s') = true ∧ willing n (ss_conn s') ∧
    sent (ss_conn s') = sent (ss_conn s).
Proof.
  intros [U1 U2 U3 U4 U5 (blk & stale & U6 & U7 & U8 & U9) U10 U11 U12 U13 U14 U15 U16 U17 U18 U19] [Hpf Hf] Hio Ht Hfit.
  destruct (get_send_body_spec junk true true env io ops fuel pf false s blk stale cs a) as
    (s' & Hg & Ht' & Hid & Hfr & (k & Hk & Hc) & He); try done.
  { eapply Forall_impl; [|exact U16]. by intros w [? _]. }
  { zlia. }
  exists s'. split_and!; try done; rewrite Hc; [|done]. rewrite <- (Nat2Z.id k). apply willing_drop; try done; [|lia|lia].
  eapply Forall_impl; [|exact U16]. by intros w [_ ?].
Qed.

(** C2: a REQMOD or RESPMOD request without preview is served from end to end.  A service that takes the body,
    and once it is complete gives the pieces [f] of it, gets exactly the decoded body, however the network
    delivers it, and the client gets the response whose body has these pieces; [do_modification]
    returns CI_OK and the connection is kept as the client asked. *)
Theorem request_served_end_to_end ar fuel pf (ops : service_ops D) io `{!Consumer io, !Supplier io}
    (f : list Z → list (list Z)) (s : session D) m x xls h ls b cs :
  let s1 := with_code (Some EC_200) s in
  let msg := response_message env s1 m x EC_200 xls ls b (f (concat cs)) in
  (∀ s a, took s true a → eof_received (ss_stream s) = true → gives s (f a)) →
  mod_check_preview_handler ops = None → mod_end_of_data_handler ops = None → (∀ s e a, took s e a → body_io ops s = Some io) →
  (preview (ss_req s) < 0) → hasbody (ss_encaps s) = true →
  answerable env s1 m x EC_200 xls h ls b → took s false [] → fits (concat cs) →
  upload s cs (zlen msg) → upload_fuel s cs fuel pf → (length (f (concat cs)) + 7 < fuel)%nat →
  ∃ s', do_modification junk true true env ops ar fuel pf s = Ret (CI_OK, s') ∧
    sent (ss_conn s') = sent (ss_conn s) ++ msg.
Proof.
  intros s1 msg Hturn Hpv Hend Hio Hprev Hhas Ha Ht Hfit Hup Hfu Hf2.
  unfold do_modification. solve_cmp. unfold do_fake_preview. rewrite Hpv. cbn [obind Z.eqb CI_OK CI_ERROR CI_EOF Pos.eqb].
  unfold code_without_preview. rewrite Hhas. cbn [ss_code with_code]. rewrite bool_decide_true by done.
  change (hasbody (ss_encaps (with_code (Some EC_100) s))) with (hasbody (ss_encaps s)). rewrite Hhas. cbn [andb negb].
  change (with_code (Some EC_200) (with_code (Some EC_100) s)) with s1.
  assert (Hup1 : upload s1 cs (zlen msg)) by (destruct Hup; by split).
  destruct (upload_received io ops fuel pf s1 cs (zlen msg) [] Hup1 Hfu) as (s2 & Hg & Ht2 & Hid2 & Hfr2 & He2 & Hw2 & Hc2); try done.
  { by apply (Hio s false []). }
  { by eapply took_frame. }
  rewrite Hg. cbn [obind Z.eqb CI_OK CI_ERROR]. unfold do_end_of_data. rewrite Hend. cbn [obind Z.eqb CI_OK CI_ERROR].
  pose proof (answerable_frame _ _ _ _ _ _ _ _ _ Hfr2 Ha) as Ha2.
  rewrite bool_decide_false by (rewrite (an_code _ _ _ _ _ _ _ _ _ Ha2); done).
  set (s3 := with_locked false s2).
  assert (Hfr3 : answer_frame s1 s3) by (eapply answer_frame_trans; [exact Hfr2|by apply answer_frame_same]).
  assert (H206 : is_ec_206 (ss_out s3) = false) by (by destruct Hfr3 as (_&_&_&_&_&->&_)).
  assert (Hmsg : response_message env s3 m x EC_200 xls ls b (f (concat cs)) = msg)
    by (by apply response_message_frame).
  destruct (send_remaining_response_spec junk env fuel ops io s3 m x EC_200 xls h ls b (f (concat cs))) as
    (ret & s' & d & rest & Hrun & Hsent & Hmr & Hret & Hlive).
  - by eapply answerable_frame.
  - exact (id_status _ Hid2).
  - exact (id_remain _ Hid2).
  - destruct Hfr3 as (_&_&_&_&_&_&->). exact (up_wbuf _ _ _ Hup).
  - by rewrite H206.
  - exact (Hio s2 _ _ Ht2).
  - eapply gives_frame; [exact (Hturn _ _ Ht2 He2)|by split_and!].
  - done.
  - rewrite Hmsg in *. rewrite Hlive in Hrun, Hret by (done || exact (up_halt _ _ _ Hup)).
    rewrite Hrun. cbn [obind Z.eqb CI_OK CI_ERROR]. exists s'. split; [done|].
    destruct Hret as [|[_ ->]]; [done|]. rewrite app_nil_r in Hmr. subst d.
    rewrite Hsent. change (ss_conn s3) with (ss_conn s2). by rewrite Hc2.
Qed.
End answer.

(** ** Services *)

(** Dropping the data of a request is a consumer. *)
#[export] Program Instance null_consumer {D : Type} : Consumer (D:=D) mod_null_io := {| fits a := True; took s e a := True |}.
Next Obligation. done. Qed.
Next Obligation. done. Qed.
Next Obligation.
  intros D s a d eof _ _. exists CI_OK, (if eof then CI_EOF else 0), (ss_data s), (ss_echo s).
  split; [|by destruct eof]. unfold mod_null_io. do 2 f_equal; [by destruct d|by destruct s].
Qed.

(** A service that stores the body and gives it back when it is complete, at most [MAX_CHUNK_SIZE] bytes at
    a time. *)
Definition store_io : service_io (list Z) := λ s room d eof,
  let a := default [] (ss_data s) ++ default [] d in
  let view a := mkView (Some a) (ss_locked s) (ss_encaps s) (use_original_body (ss_out s)) (ss_xheaders s) in
  match room with
  | None => Ret (CI_OK, SrcCode 0, zlen (default [] d), view a)
  | Some n =>
      if negb (eof_received (ss_stream s)) then Ret (CI_OK, SrcCode 0, zlen (default [] d), view a)
      else if zlen a =? 0 then Ret (CI_OK, SrcCode CI_EOF, zlen (default [] d), view a)
      else Ret (CI_OK, SrcData (take (Z.to_nat n) a), zlen (default [] d), view (drop (Z.to_nat n) a))
  end.

#[export] Program Instance store_consumer : Consumer (call_io store_io) :=
  {| fits a := True; took s e a := ss_data s = Some a ∧ ss_echo s = None |}.
Next Obligation. done. Qed.
Next Obligation. intros s s' e a [? ?] [H1 H2]. by rewrite H1, H2. Qed.
Next Obligation.
  intros s a d eof [Hd He] _. unfold call_io, store_io. cbv zeta. rewrite Hd. cbn [default obind].
  rewrite apply_same_view. eexists _, _, _, _. split; [done|]. split; [done|]. split; [lia|]. done.
Qed.

#[export] Program Instance store_supplier : Supplier (call_io store_io) :=
  {| gives s cs := eof_received (ss_stream s) = true ∧ ∃ a, ss_data s = Some a ∧ pieces a cs |}.
Next Obligation. intros s s' cs (He & a & Hd & Hp) (H1 & _ & H3). unfold ss_stream, ss_reader. rewrite H1, H3. by split; [|exists a]. Qed.
Next Obligation.
  intros s cs (He & a & Hd & Hp). unfold call_io, store_io. cbv zeta. rewrite Hd, He. cbn [default negb]. rewrite app_nil_r.
  destruct Hp as [|a cs Hne Hp].
  - change (zlen (id []) =? 0) with true. cbn [obind]. cbn match. rewrite apply_same_view. by eexists _, _, _, _, _.
  - unfold id. assert (Hz : zlen a ≠ 0) by (destruct a; [done|zlia]). rewrite (proj2 (Z.eqb_neq _ _) Hz). cbn [obind]. rewrite apply_same_view.
    eexists _, _, _, _, _. split; [done|]. intros c cs' [= <- <-]. split.
    + rewrite zlen_take. unfold MAX_CHUNK_SIZE, zlen in *. lia.
    + split; [done|]. eexists. split; [done|]. done.
Qed.

(** The pieces of a body, as a function. *)
Fixpoint cut_pieces (fuel : nat) (a : list Z) : list (list Z) :=
  match fuel, a with
  | S fuel', _ :: _ => take (Z.to_nat MAX_CHUNK_SIZE) a :: cut_pieces fuel' (drop (Z.to_nat MAX_CHUNK_SIZE) a)
  | _, _ => []
  end.

Lemma cut_pieces_spec fuel a : (length a ≤ fuel)%nat → pieces a (cut_pieces fuel a).
Proof.
  revert a. induction fuel as [|fuel IH]; intros a Hf.
  { destruct a; [constructor|cbn in Hf; lia]. }
  destruct a as [|c a]; [constructor|]. cbn [cut_pieces]. constructor; [done|].
  apply IH. rewrite length_drop. unfold MAX_CHUNK_SIZE. cbn in *. lia.
Qed.

Lemma pieces_length a cs : pieces a cs → (length cs ≤ length a)%nat.
Proof.
  induction 1 as [|a cs Hne Hp IH]; [done|]. rewrite length_drop in IH. cbn [length]. unfold MAX_CHUNK_SIZE in *.
  destruct a; [done|]. cbn [length] in *. lia.
Qed.

Definition store_ops : service_ops (list Z) := mkOps None None None None (Some store_io).

Definition sample_body : list (list Z) := [bytes "hello"; bytes " "; bytes "world"].

(** A RESPMOD request whose body arrives in three reads. *)
Definition sample_upload : session (list Z) :=
  mkSession
    (set_reader (mkReader (mkRstream 0 0 0 0 0 false (-1) 0 0 0) BNull [] (replicate 4096 0)
       [EvData (take 7 (encode sample_body)); EvData []; EvData (drop 7 (encode sample_body))] 0 ci_buf_init)
       (set_mod (Some sample_service) (set_type ICAP_RESPMOD (set_encaps sample_message sample_request))))
    SEND_NOTHING None (mkWstream (replicate 4096 0) 0 0 false false (-1) 0 0) ONull sample_empty sample_empty
    false true None 0 (mkConn (replicate 400 3) (replicate 300 5) []) (Some []).

Definition sample_response : list Z :=
  response_message sample_env (with_code (Some EC_200) sample_upload) sample_service sample_xdata EC_200 [] sample_lines
    (mkEntity 20 ICAP_RES_BODY None) [bytes "hello world"].

Lemma request_served_end_to_end_witness :
  ∃ s', do_modification (λ _, 7) true true sample_env store_ops true 60 4100 sample_upload = Ret (CI_OK, s') ∧
    sent (ss_conn s') = sample_response.
Proof.
  apply (request_served_end_to_end (λ _, 7) sample_env true 60 4100 store_ops (call_io store_io)
    (λ a, cut_pieces (length a) a) sample_upload sample_service sample_xdata [] sample_list sample_lines
    (mkEntity 20 ICAP_RES_BODY None) sample_body).
  - intros s a [Hd _] He. split; [done|]. exists a. split; [done|]. by apply cut_pieces_spec.
  - reflexivity.
  - reflexivity.
  - intros s e a [_ He]. unfold body_io. by rewrite He.
  - vm_compute; reflexivity.
  - reflexivity.
  - destruct (sample_answerable []) as [A1 A2 A3 A4 A5 A6 A7 A8 A9 A10 A11]. split; done.
  - split; reflexivity.
  - exact I.
  - split; try reflexivity.
    + repeat constructor; vm_compute; (reflexivity || discriminate).
    + exists [], []. split_and!; vm_compute; (reflexivity || discriminate).
    + repeat constructor.
    + apply Forall_replicate. split; vm_compute; reflexivity.
    + apply Forall_replicate. lia.
    + vm_compute; discriminate.
    + vm_compute; discriminate.
  - split; [unfold BUFSIZE; lia|vm_compute; reflexivity].
  - vm_compute. lia.
Defined.
