(* ===== verification/Duplex.v ===== *)
(** * Receiving and sending at the same time (request.c, [get_send_body])

    When the service has unlocked the data, [get_send_body] reads the body of the request, feeds it to the service and sends
    what the service gives back, all in the same turns of its loop.  [Pipe] is what the loop needs of a service
    that passes the data on; the loop is proved to lose, repeat and reorder nothing, whatever order the network
    imposes on the reads and the writes. *)

From stdpp Require Import base list list_numbers strings numbers option.
From Stdlib Require Import ZArith Lia.
From S2P Require Import Prelude CString Chunks ReadBody SendBody RingBuf Headers Encapsulated IcapHeader ParseRequest HttpApi Session Response Options Server Deliver.

Section pipe.
Context {D : Type}.

(** A function that takes data and gives it back in order: [holds s q] says that it has taken [q] and not given it back.
    It gives something when it may and has something, and takes something when it holds nothing. *)
Class Pipe (io : io_fun D) := {
  holds : session D → list Z → Prop;
  holds_frame : ∀ s s' q, holds s q → same_store s s' → holds s' q;
  pipe_step : ∀ s q room d eof, holds s q → 0 ≤ default 0 room → ∃ w x q' dt e,
    io s room d eof = Ret (CI_OK, if zlen x =? 0 then SrcCode 0 else SrcData x, w, served dt e (ss_locked s) s) ∧
    0 ≤ w ≤ zlen (default [] d) ∧ zlen x ≤ default 0 room ∧ holds (served dt e (ss_locked s) s) q' ∧
    q ++ take (Z.to_nat w) (default [] d) = x ++ q' ∧
    (0 < default 0 room → q ++ take (Z.to_nat w) (default [] d) ≠ [] → x ≠ []) ∧
    (q = [] → default [] d ≠ [] → 0 < w)
}.
End pipe.

Section duplex.
Context (junk : Z → Z) (env : server_env) {D : Type} (io : io_fun D) `{!Pipe io}.

(** ** The two sides *)

(** [pend] was decoded and waits for the service, [Dt] is still coded. *)
Record feed (s : session D) (wd : option Z) (pend Dt : list Z) : Prop := {
  fd_pending : pending_ok (block_mem (ss_reader s)) wd (ss_stream s);
  fd_data : delivered (block_mem (ss_reader s)) wd (ss_stream s) = pend;
  fd_len : 0 ≤ stream_len s ∧ stream_len s + zlen pend ≤ BUFSIZE;
  fd_rest : eof_received (ss_stream s) = true ∧ Dt = [] ∧ stream_len s = 0 ∨
            eof_received (ss_stream s) = false ∧ ∃ R, reader_ok (ss_reader s) R Dt
}.

(** An answer with a body is being sent. *)
Record answering (s : session D) : Prop := {
  as_status : SEND_RESPHEAD ≤ ss_status s ≤ SEND_BODY ∧ ss_status s ≠ SEND_HEAD3;
  as_body : responce_hasbody (ss_out s) = true;
  as_wbuf : zlen (ws_wbuf (ss_out s)) = WBUF_SIZE;
  as_206 : is_ec_206 (ss_out s) = false;
  as_headers : headers_ok (entities (ss_encaps s));
  as_sizes : ∀ i e h, entities (ss_encaps s) !! i = Some (Some e) → is_hdr (type e) = true → entity e = Some h → 0 < bufused h;
  as_locked : ss_locked s = false;
  as_code : ss_code s = Some EC_200
}.

(** Only the reader and what the service holds differ. *)
Record quiet (s s' : session D) : Prop := {
  qu_conn : ss_conn s' = ss_conn s;
  qu_status : ss_status s' = ss_status s;
  qu_loc : ss_loc s' = ss_loc s;
  qu_response : ss_response s' = ss_response s;
  qu_encaps : ss_encaps s' = ss_encaps s;
  qu_locked : ss_locked s' = ss_locked s;
  qu_wbuf : ws_wbuf (ss_out s') = ws_wbuf (ss_out s);
  qu_ptr : ws_ptr (ss_out s') = ws_ptr (ss_out s);
  qu_remain : remain s' = remain s;
  qu_body : responce_hasbody (ss_out s') = responce_hasbody (ss_out s);
  qu_206 : is_ec_206 (ss_out s') = is_ec_206 (ss_out s);
  qu_code : ss_code s' = ss_code s
}.

Lemma quiet_trans s s1 s2 : quiet s s1 → quiet s1 s2 → quiet s s2.
Proof. intros [] []. split; congruence. Qed.

Lemma quiet_refl s : quiet s s.
Proof. by split. Qed.

Lemma answering_quiet s s' : quiet s s' → answering s → answering s'.
Proof.
  intros Hq [A1 A2 A3 A4 A5 A6 A7 A8]. split; rewrite ?(qu_code _ _ Hq), ?(qu_status _ _ Hq), ?(qu_body _ _ Hq), ?(qu_wbuf _ _ Hq), ?(qu_206 _ _ Hq), ?(qu_encaps _ _ Hq), ?(qu_locked _ _ Hq); done.
Qed.

Lemma answering_sending s : answering s → block_in s → sending s.
Proof. intros [A1 A2 A3 A4 A5 A6 A7 A8] Hb. split; try done; [unfold SEND_EOF, SEND_BODY in *; lia|congruence]. Qed.

Lemma out_mem_quiet s s' : quiet s s' → out_mem s' = out_mem s.
Proof. intros Hq. unfold out_mem. by rewrite (qu_loc _ _ Hq), (qu_response _ _ Hq), (qu_encaps _ _ Hq), (qu_wbuf _ _ Hq). Qed.

Lemma block_quiet s s' : quiet s s' → block_in s → block_in s' ∧ out_block s' = out_block s.
Proof. intros Hq (H1 & H2 & H3). unfold block_in, out_block. by rewrite (out_mem_quiet _ _ Hq), (qu_ptr _ _ Hq), (qu_remain _ _ Hq). Qed.

Lemma body_of_plain s cs : responce_hasbody (ss_out s) = true → is_ec_206 (ss_out s) = false → body_of (D:=D) s cs = chunks cs ++ eof_chunk.
Proof. intros H1 H2. unfold body_of, body_end. by rewrite H1, H2. Qed.

Lemma rest_quiet s s' cs : quiet s s' → answering s → block_in s → rest_of s' cs = rest_of s cs.
Proof.
  intros Hq Ha Hb. pose proof (answering_quiet _ _ Hq Ha) as Ha'. unfold rest_of.
  rewrite !body_of_plain by (apply Ha || apply Ha'). by rewrite (proj2 (block_quiet _ _ Hq Hb)), (qu_status _ _ Hq), (qu_encaps _ _ Hq).
Qed.

(** ** A call of the parser *)

Lemma parse_spec pf p pr pend Dt :
  let s := pm_session p in
  (Z.to_nat BUFSIZE < pf)%nat → feed s (wchunkdata p) pend Dt → pr ≠ CI_ERROR →
  ∃ ret s1 wd1 pend1 Dt1,
    (if negb (pstrblock_read_len (ss_stream s) =? 0) && (write_to_module_pending (ss_stream s) =? 0) then parse_step pf p
     else Ret (pr, p)) = Ret (ret, mkPump s1 wd1 (rchunkdata p) (rchunkisfull p) (service_eof p)) ∧
    ret ≠ CI_ERROR ∧ feed s1 wd1 pend1 Dt1 ∧ pend ++ Dt = pend1 ++ Dt1 ∧ quiet s s1 ∧ same_store s s1 ∧
    2 * stream_len s1 + zlen pend1 ≤ 2 * stream_len s + zlen pend ∧ stream_len s1 < BUFSIZE ∧
    rd_conn (ss_reader s1) = rd_conn (ss_reader s).
Proof.
  intros s Hpf [Hp Hd Hl Hr] Hpr. pose proof (zlen_delivered _ _ _ Hp) as Hz. rewrite Hd in Hz.
  destruct p as [s0 wd rd fu se]. cbn [pm_session wchunkdata] in *. subst s.
  destruct (Z.eqb_spec (pstrblock_read_len (ss_stream s0)) 0) as [H0|H0]; cbn [negb andb].
  { exists pr, s0, wd, pend, Dt. split_and!; try done; unfold stream_len in *; try lia. rewrite H0. done. }
  destruct (Z.eqb_spec (write_to_module_pending (ss_stream s0)) 0) as [Hpd|Hpd].
  2:{ exists pr, s0, wd, pend, Dt. split_and!; try done. unfold stream_len in *. pose proof (zlen_nonneg pend). lia. }
  assert (pend = []) as -> by (destruct pend; [done|zlia]).
  destruct Hr as [(_ & _ & Hx)|(He & R & Hinv & Hdata & Hsz)]; [by unfold stream_len in Hx|].
  unfold parse_step. cbn [pm_session].
  destruct (parse_chunk_data_spec pf (block_mem (ss_reader s0)) (fut_of (rd_conn (ss_reader s0)))
    (set_i206 (use_original_body (ss_out s0)) (ss_stream s0)) R Dt) as
    (code & wd' & t & Hparse & R' & D' & Hpost & Hok & He' & HD & Hle & Hlt & Hsh); [unfold stream_len in *; cbn; lia|done|done|].
  rewrite Hparse. cbn [obind]. cbn [delivered app] in HD. unfold shrinks in Hsh. cbn in Hsh, He'.
  pose proof (zlen_delivered _ _ _ Hok) as Hz'. pose proof (zlen_nonneg (delivered (block_mem (ss_reader s0)) wd' t)) as Hnn.
  set (t1 := if code =? CI_EOF then set_eof_received true t else t).
  assert (Ht1 : write_to_module_pending t1 = write_to_module_pending t ∧ pstrblock_read_len t1 = pstrblock_read_len t) by (unfold t1; by destruct (_ =? _)).
  destruct Ht1 as [Hw1 Hl1]. set (s1 := with_origin _ _).
  change (stream_len s0) with (pstrblock_read_len (ss_stream s0)) in *.
  assert (Hl1' : stream_len s1 = pstrblock_read_len t) by exact Hl1.
  eexists code, s1, wd', (delivered (block_mem (ss_reader s0)) wd' t), D'. split; [done|].
  assert (Hlen : 0 ≤ pstrblock_read_len t).
  { destruct Hpost as [(_ & _ & I & _)|[(_ & I & _)|(_ & _ & _ & ->)]]; [..|done];
      destruct I as (blk & ? & _ & _ & -> & _); apply zlen_nonneg. }
  split; [destruct Hpost as [[-> _]|[[-> _]|[-> _]]]; done|]. split; [split|].
  - unfold pending_ok in *. destruct wd'; change (ss_stream s1) with t1; rewrite Hw1; exact Hok.
  - unfold delivered. destruct wd'; [|done]. change (ss_stream s1) with t1. by rewrite Hw1.
  - rewrite Hl1'. split; [done|]. lia.
  - destruct Hpost as [(-> & _ & I & _)|[(-> & I & _)|(-> & _ & -> & Hl0)]].
    + right. unfold t1 in s1. cbn in s1. split; [cbn; congruence|]. exists R'. by split_and!.
    + right. unfold t1 in s1. cbn in s1. split; [cbn; congruence|]. exists R'. by split_and!.
    + left. rewrite Hl1'. split; [done|]. done.
  - split; [done|]. split; [by split|]. split; [done|]. rewrite Hl1'. split; [lia|]. split; [|done].
    destruct Hpost as [(_ & _ & _ & ?)|[(_ & _ & ?)|(_ & _ & _ & ->)]]; [done|lia|done].
Qed.

(** The data handed to the service. *)
Lemma pending_read s wd pend Dt :
  feed s wd pend Dt →
  ∃ d, (match wd with
        | Some w => let* x := read_bytes (block_mem (ss_reader s)) w
                      (match wd with Some _ => write_to_module_pending (ss_stream s) | None => 0 end) in Ret (Some x)
        | None => Ret None
        end) = Ret d ∧ default [] d = pend ∧ (is_Some wd ↔ is_Some d).
Proof.
  intros [Hp Hd _ _]. unfold pending_ok, delivered in *. destruct wd as [w|].
  - destruct Hp as (? & ? & ?). rewrite read_bytes_ok by done. cbn [obind]. by exists (Some pend); subst.
  - by exists None.
Qed.

(** The service has taken [w] bytes. *)
Lemma take_pending s wd pend Dt w :
  feed s wd pend Dt → 0 ≤ w ≤ zlen pend →
  ∃ wd' s', (if w =? 0 then Ret (wd, s)
             else match wd with
                  | Some x => Ret (Some (x + w), with_rstream (set_pending (to_uint (write_to_module_pending (ss_stream s) - w)) (ss_stream s)) s)
                  | None => UB
                  end) = Ret (wd', s') ∧
    feed s' wd' (drop (Z.to_nat w) pend) Dt ∧ quiet s s' ∧ same_store s s' ∧ stream_len s' = stream_len s ∧
    eof_received (ss_stream s') = eof_received (ss_stream s) ∧ rd_conn (ss_reader s') = rd_conn (ss_reader s) ∧ ss_out s' = ss_out s.
Proof.
  intros Hf Hw. destruct (Z.eqb_spec w 0) as [->|Hw0].
  { exists wd, s. split_and!; try done. }
  pose proof Hf as [Hp Hd Hl Hr]. pose proof (zlen_delivered _ _ _ Hp) as Hz. rewrite Hd in Hz.
  destruct wd as [x|]; [|cbn in Hp; lia]. destruct Hp as (P1 & P2 & P3). unfold BUFSIZE in Hl.
  rewrite to_uint_id by lia. set (n := write_to_module_pending (ss_stream s)) in *.
  set (s' := with_rstream _ _). exists (Some (x + w)), s'. split; [done|]. split; [|by split_and!].
  assert (Hm : block_mem (ss_reader s') = block_mem (ss_reader s)) by done.
  assert (Hs : ss_stream s' = set_pending (n - w) (ss_stream s)) by done.
  pose proof (zlen_slice (block_mem (ss_reader s)) x w ltac:(lia) ltac:(lia) ltac:(lia)) as Hsl. split.
  - unfold pending_ok. rewrite Hm, Hs. cbn. lia.
  - unfold delivered in *. rewrite Hm, Hs, <- Hd. cbn [write_to_module_pending set_pending].
    replace (write_to_module_pending (ss_stream s)) with (w + (n - w)) by (unfold n; lia).
    rewrite slice_split by lia. rewrite drop_app_ge by (unfold zlen in *; lia).
    by replace (Z.to_nat w - length (slice (block_mem (ss_reader s)) x w))%nat with 0%nat by (unfold zlen in *; lia).
  - unfold stream_len. rewrite Hs. cbn. rewrite zlen_drop. unfold stream_len, BUFSIZE in *. lia.
  - rewrite Hs. destruct Hr as [(H1 & H2 & H3)|(H1 & R & H2)]; [left|right]; split_and!; try done. exists R. exact H2.
Qed.
(** ** A step of the inner loop *)

Definition piece (c : list Z) : Prop := 0 < zlen c ≤ MAX_CHUNK_SIZE.

(** [x] is what the service has given in this turn, not yet made a chunk. *)
Definition gather (s : session D) (rd : option Z) (x : list Z) : Prop :=
  ws_ptr (ss_out s) = EXTRA_CHUNK_SIZE ∧ ss_loc s = OWbuf ∧ rd = Some (EXTRA_CHUNK_SIZE + zlen x) ∧
  remain s = zlen x ∧ zlen x ≤ MAX_CHUNK_SIZE ∧ slice (ws_wbuf (ss_out s)) EXTRA_CHUNK_SIZE (zlen x) = x.

(** With [fmt] a block is being sent; without it the next chunk is gathered. *)
Definition mode (fmt : bool) (s : session D) (rd : option Z) (x : list Z) : Prop :=
  if fmt then 0 < remain s ∧ block_in s ∧ x = []
  else ss_status s = SEND_BODY ∧ (gather s rd x ∨ remain s = 0 ∧ x = []).

(** The whole body is: the chunks [cs] sent or being sent, [x], what the service holds, what waits for it, and what is
    still coded.  [M] is the message with a body of given chunks. *)
Record flow (M : list (list Z) → list Z) (body : list Z) (fmt : bool) (s : session D) (wd : option Z)
    (cs : list (list Z)) (x q pend Dt : list Z) : Prop := {
  fl_pieces : Forall piece cs;
  fl_owes : ∀ cs', sent (ss_conn s) ++ (if fmt then rest_of s cs' else body_of s cs') = M (cs ++ cs');
  fl_holds : holds s q;
  fl_feed : feed s wd pend Dt;
  fl_body : concat cs ++ x ++ q ++ pend ++ Dt = body
}.

Record pump_inv (M : list (list Z) → list Z) (body : list Z) (fmt : bool) (p : pump) (cs : list (list Z)) (x q pend Dt : list Z) : Prop := {
  pi_answering : answering (pm_session p);
  pi_eof : service_eof p = false;
  pi_mode : mode fmt (pm_session p) (rchunkdata p) x;
  pi_flow : flow M body fmt (pm_session p) (wchunkdata p) cs x q pend Dt
}.

Definition work (s : session D) (x pend : list Z) : Z := 2 * stream_len s + zlen pend + (MAX_CHUNK_SIZE - zlen x).

Lemma mode_quiet fmt s s' rd x : quiet s s' → mode fmt s rd x → mode fmt s' rd x.
Proof.
  intros Hq. unfold mode. destruct fmt.
  - intros (H1 & H2 & H3). rewrite (qu_remain _ _ Hq). split_and!; try done. by eapply block_quiet.
  - rewrite (qu_status _ _ Hq). unfold gather. rewrite (qu_ptr _ _ Hq), (qu_loc _ _ Hq), (qu_remain _ _ Hq), (qu_wbuf _ _ Hq). done.
Qed.

Lemma owes_quiet (fmt : bool) s s' rd x cs' :
  quiet s s' → answering s → mode fmt s rd x →
  sent (ss_conn s') ++ (if fmt then rest_of s' cs' else body_of s' cs') = sent (ss_conn s) ++ (if fmt then rest_of s cs' else body_of s cs').
Proof.
  intros Hq Ha Hm. rewrite (qu_conn _ _ Hq). f_equal. destruct fmt.
  - destruct Hm as (_ & Hb & _). by apply rest_quiet.
  - pose proof (answering_quiet _ _ Hq Ha) as Ha'. by rewrite !body_of_plain by (apply Ha || apply Ha').
Qed.

(** Where the service may put its data, and how much. *)
Lemma read_room_spec (fmt : bool) s wd rd fu x :
  answering s → mode fmt s rd x →
  ∃ rb s' rd' fu', read_room fmt (mkPump s wd rd fu false) = (rb, mkPump s' wd rd' fu' false) ∧
    rb = (if fmt then 0 else MAX_CHUNK_SIZE - zlen x) ∧ (fmt = false → is_Some rd') ∧
    ss_reader s' = ss_reader s ∧ same_store s s' ∧ answering s' ∧ ss_conn s' = ss_conn s ∧
    (if fmt then s' = s ∧ rd' = rd else ss_status s' = SEND_BODY ∧ gather s' rd' x).
Proof.
  intros Ha Hm. unfold read_room. cbn [pm_session wchunkdata rchunkdata service_eof negb andb]. rewrite andb_true_r. destruct fmt; cbn [mode] in Hm.
  - destruct Hm as (Hr & Hb & ->). destruct (ss_status s =? SEND_BODY); [|by exists 0, s, rd, fu].
    rewrite (proj2 (Z.eqb_neq (remain s) 0)) by lia. rewrite andb_false_r. by exists 0, s, rd, true.
  - destruct Hm as [Hst Hm]. rewrite Hst. cbn [Z.eqb SEND_BODY Pos.eqb]. rewrite andb_true_r.
    assert (Hx : remain s = zlen x ∧ zlen x ≤ MAX_CHUNK_SIZE).
    { destruct Hm as [(_ & _ & _ & ? & ? & _)|[? ->]]; [done|]. unfold MAX_CHUNK_SIZE. zlia. }
    destruct Hx as [Hx Hxm]. rewrite Hx.
    set (p1 := if zlen x =? 0 then _ else _).
    assert (Hp1 : ∃ s' rd' fu', p1 = mkPump s' wd rd' fu' false ∧ ss_reader s' = ss_reader s ∧ same_store s s' ∧ answering s' ∧
              ss_conn s' = ss_conn s ∧ ss_status s' = SEND_BODY ∧ gather s' rd' x).
    { unfold p1. destruct (Z.eqb_spec (zlen x) 0) as [H0|H0].
      - assert (x = []) as -> by (destruct x; [done|zlia]). eexists _, _, _. split; [done|]. split; [done|]. split; [done|].
        split; [by destruct Ha; split|]. split; [done|]. split; [done|]. by split_and!.
      - destruct Hm as [Hg|[Hr ->]]; [|done]. exists s, rd, fu. by split_and!. }
    destruct Hp1 as (s' & rd' & fu' & Hp1 & H1 & H2 & H3 & H4 & H5 & H6). rewrite Hp1. cbn [pm_session wchunkdata rchunkdata service_eof].
    assert (Hsome : is_Some rd') by (destruct H6 as (_ & _ & -> & _); done).
    destruct (Z.ltb_spec 0 (MAX_CHUNK_SIZE - zlen x)) as [Hpos|Hpos].
    + by exists (MAX_CHUNK_SIZE - zlen x), s', rd', fu'.
    + exists 0, s', rd', true. split; [done|]. by split; [lia|].
Qed.

Lemma feed_reader s s' wd pend Dt : ss_reader s' = ss_reader s → feed s wd pend Dt → feed s' wd pend Dt.
Proof. intros Hr [P1 P2 P3 P4]. unfold stream_len, ss_stream in *. by split; unfold stream_len, ss_stream; rewrite Hr. Qed.

(** What the service gave is put after what it gave before. *)
Lemma put_spec (fmt : bool) s rd x y :
  answering s → (if fmt then block_in s ∧ 0 < remain s ∧ y = [] ∧ x = [] else ss_status s = SEND_BODY ∧ gather s rd x) →
  zlen x + zlen y ≤ MAX_CHUNK_SIZE →
  ∃ s1, put_service_data rd (if zlen y =? 0 then SrcCode 0 else SrcData y) s = Ret (zlen y, s1) ∧
    ss_reader s1 = ss_reader s ∧ same_store s s1 ∧ answering s1 ∧ ss_conn s1 = ss_conn s ∧ ss_loc s1 = ss_loc s ∧
    (if fmt then quiet s s1 ∧ s1 = s
     else ss_status s1 = SEND_BODY ∧ gather (point (ss_loc s1) (ws_ptr (ss_out s1)) (remain s1 + zlen y) s1) (option_map (λ q, q + zlen y) rd) (x ++ y) ∧
       remain s1 = zlen x).
Proof.
  intros Ha Hm Hl. destruct (Z.eqb_spec (zlen y) 0) as [H0|H0].
  - assert (y = []) as -> by (destruct y; [done|zlia]). exists s. unfold put_service_data. split; [by destruct rd|]. split_and!; try done.
    destruct fmt; [by split; [apply quiet_refl|]|]. destruct Hm as [Hst (G1 & G2 & G3 & G4 & G5 & G6)]. split; [done|]. rewrite app_nil_r, G3. change (zlen []) with 0.
    split; [|done]. split_and!; try done; [cbn; f_equal; lia|unfold remain in *; cbn; lia].
  - destruct fmt; [destruct Hm as (_ & _ & -> & _); done|]. destruct Hm as [Hst (G1 & G2 & G3 & G4 & G5 & G6)].
    pose proof (as_wbuf _ Ha) as Hw. unfold WBUF_SIZE in Hw. unfold EXTRA_CHUNK_SIZE, MAX_CHUNK_SIZE in *.
    rewrite G3. unfold put_service_data, put_read. rewrite write_bytes_ok by zlia. cbn [obind].
    eexists. split; [done|]. split; [done|]. split; [done|].
    split. { destruct Ha as [A1 A2 A3 A4 A5 A6 A7 A8]. split; try done. cbn. rewrite zlen_splice by zlia. done. }
    split; [done|]. split; [done|]. split; [done|]. split; [|done]. split_and!; try done.
    + cbn. f_equal. unfold EXTRA_CHUNK_SIZE. zlia.
    + unfold remain in *. cbn. zlia.
    + unfold MAX_CHUNK_SIZE. zlia.
    + cbn. rewrite zlen_app. pose proof (slice_extend (ws_wbuf (ss_out s)) 30 (30 + zlen x) y ltac:(zlia) ltac:(zlia)) as He.
      replace (30 + zlen x - 30 + zlen y) with (zlen x + zlen y) in He by lia. unfold EXTRA_CHUNK_SIZE. rewrite He. f_equal.
      replace (30 + zlen x - 30) with (zlen x) by lia. done.
Qed.

Lemma duplex_step_spec pf (fmt : bool) pr p M body cs x q pend Dt :
  (Z.to_nat BUFSIZE < pf)%nat → pr ≠ CI_ERROR → pump_inv M body fmt p cs x q pend Dt →
  ∃ no_io ret p' x' q' pend' Dt', pump_step pf io fmt pr p = Ret (Some (no_io, ret), p') ∧ ret ≠ CI_ERROR ∧
    pump_inv M body fmt p' cs x' q' pend' Dt' ∧
    (no_io = false → work (pm_session p') x' pend' < work (pm_session p) x pend) ∧ stream_len (pm_session p') < BUFSIZE ∧
    ss_conn (pm_session p') = ss_conn (pm_session p) ∧ rd_conn (ss_reader (pm_session p')) = rd_conn (ss_reader (pm_session p)) ∧
    (fmt = false → gather (pm_session p') (rchunkdata p') x' ∧ (pend' ≠ [] → x' ≠ [])).
Proof.
  intros Hpf Hpr [Ha Hse Hm [F1 F2 F3 F4 F5]].
  destruct (parse_spec pf p pr pend Dt Hpf F4 Hpr) as (ret & s1 & wd1 & pend1 & Dt1 & Hparse & Hret & Hf1 & HD & Hq1 & Hst1 & Hw1 & Hl1 & Hc1).
  unfold pump_step. rewrite Hparse. cbn [obind]. rewrite (proj2 (Z.eqb_neq _ _) Hret). cbn [pm_session wchunkdata].
  destruct (pending_read s1 wd1 pend1 Dt1 Hf1) as (d & Hd & Hdp & Hds). rewrite Hd. cbn [obind]. rewrite Hse.
  pose proof (answering_quiet _ _ Hq1 Ha) as Ha1. pose proof (mode_quiet _ _ _ _ _ Hq1 Hm) as Hm1.
  destruct (read_room_spec fmt s1 wd1 (rchunkdata p) (rchunkisfull p) x Ha1 Hm1) as (rb & s2 & rd2 & fu2 & -> & Hrb & Hrd2 & Hr2 & Hst2 & Ha2 & Hc2 & Hg2).
  cbn [pm_session rchunkdata rchunkisfull service_eof wchunkdata].
  set (room := match rd2 with Some _ => Some rb | None => None end).
  assert (Hx : zlen x ≤ MAX_CHUNK_SIZE).
  { destruct fmt; [destruct Hm as (_ & _ & ->); unfold MAX_CHUNK_SIZE; zlia|]. by destruct Hg2 as (_ & _ & _ & _ & _ & ? & _). }
  assert (Hroom : default 0 room = rb).
  { unfold room. destruct rd2; [done|]. destruct fmt; [done|]. by destruct (Hrd2 eq_refl). }
  assert (Hrb0 : 0 ≤ rb) by (destruct fmt; lia).
  assert (Hh2 : holds s2 q) by (eapply holds_frame; [exact F3|]; destruct Hst1, Hst2; split; congruence).
  destruct (pipe_step s2 q room d (eof_received (ss_stream s1)) Hh2 ltac:(lia)) as (w & y & q' & dt & e & -> & Hw & Hy & Hh3 & Hqq & Hgive & Htake).
  rewrite Hdp, Hroom in *. cbn [obind Z.eqb CI_OK CI_ERROR].
  set (s3 := served dt e (ss_locked s2) s2) in *.
  assert (Hq23 : quiet s2 s3) by (by split).
  destruct (put_spec fmt s3 rd2 x y) as (s4 & -> & Hr4 & Hst4 & Ha4 & Hc4 & Hlo4 & Hg4).
  { by eapply answering_quiet. }
  { destruct fmt.
    - destruct Hg2 as [-> ->]. destruct Hm1 as (Hrm & Hb & ->). split_and!; try done. destruct y; [done|zlia].
    - destruct Hg2 as [G1 G2]. by split. }
  { destruct fmt; [|lia]. destruct Hm as (_ & _ & ->). unfold MAX_CHUNK_SIZE. zlia. }
  cbn [obind]. assert (Hf4 : feed s4 wd1 pend1 Dt1).
  { apply (feed_reader s1); [rewrite Hr4; exact Hr2|done]. }
  destruct (take_pending s4 wd1 pend1 Dt1 w Hf4 Hw) as (wd5 & s5 & -> & Hf5 & Hq5 & Hst5 & Hl5 & He5 & Hc5 & Ho5). cbn [obind].
  assert (Hlen5 : stream_len s5 = stream_len s1) by (rewrite Hl5; unfold stream_len, ss_stream; rewrite Hr4; unfold s3; change (ss_reader (served dt e (ss_locked s2) s2)) with (ss_reader s2); by rewrite Hr2).
  assert (Hcn5 : ss_conn s5 = ss_conn (pm_session p)) by (rewrite (qu_conn _ _ Hq5), Hc4; change (ss_conn s3) with (ss_conn s2); rewrite Hc2; apply Hq1).
  assert (Hrc5 : rd_conn (ss_reader s5) = rd_conn (ss_reader (pm_session p))) by (rewrite Hc5, Hr4; change (ss_reader s3) with (ss_reader s2); rewrite Hr2; exact Hc1).
  assert (Hh5 : holds s5 q').
  { eapply holds_frame; [exact Hh3|]. destruct Hst4, Hst5. split; congruence. }
  pose proof (answering_quiet _ _ Hq5 Ha4) as Ha5.
  (* the session after the step *)
  set (p6 := if 0 <? zlen y then _ else _).
  assert (Hp6 : ∃ s6 rd6, p6 = mkPump s6 wd5 rd6 fu2 false ∧ answering s6 ∧ mode fmt s6 rd6 (x ++ y) ∧ (fmt = false → gather s6 rd6 (x ++ y)) ∧ ss_conn s6 = ss_conn s5 ∧ ss_reader s6 = ss_reader s5 ∧
      same_store s5 s6 ∧ (∀ cs', sent (ss_conn s6) ++ (if fmt then rest_of s6 cs' else body_of s6 cs') = M (cs ++ cs'))).
  { unfold p6. destruct fmt.
    - destruct Hg2 as [-> ->]. destruct Hg4 as [_ ->]. destruct Hm1 as (Hrm & Hb & ->).
      assert (y = []) as -> by (destruct y; [done|zlia]). change (0 <? zlen []) with false. cbn match.
      assert (Hq15 : quiet s1 s5) by (by eapply quiet_trans).
      exists s5, (rchunkdata p). split; [done|]. split; [done|]. split; [by apply (mode_quiet true s1)|]. split; [done|]. split; [done|]. split; [done|]. split; [done|].
      intros cs'. rewrite (owes_quiet true (pm_session p) s5 (rchunkdata p) [] cs'); [apply F2|by eapply quiet_trans|done|by apply Hm].
    - destruct Hg4 as (Hst6 & Hga & Hrm4).
      assert (Hpt : (if 0 <? zlen y then mkPump (point (ss_loc s5) (ws_ptr (ss_out s5)) (remain s5 + zlen y) s5) wd5 (option_map (λ q, q + zlen y) rd2) fu2 false
                     else mkPump s5 wd5 rd2 fu2 ((zlen y =? CI_EOF) || false)) = mkPump (point (ss_loc s5) (ws_ptr (ss_out s5)) (remain s5 + zlen y) s5) wd5 (option_map (λ q, q + zlen y) rd2) fu2 false).
      { destruct (Z.ltb_spec 0 (zlen y)) as [Hy0|Hy0]; [done|]. assert (y = []) as -> by (destruct y; [done|zlia]). change (zlen []) with 0. rewrite Z.add_0_r.
        destruct (Hrd2 eq_refl) as [z ->]. cbn. rewrite Z.add_0_r. f_equal. destruct s5 as [? ? ? [] ? ? ? ? ? ? ? ? ?]; done. }
      assert (Hga' : gather (point (ss_loc s5) (ws_ptr (ss_out s5)) (remain s5 + zlen y) s5) (option_map (λ q, q + zlen y) rd2) (x ++ y)).
      { destruct Hga as (G1 & G2 & G3 & G4 & G5 & G6). unfold gather. cbn. rewrite Ho5, (qu_loc _ _ Hq5). unfold remain in *. cbn in *.
        rewrite Ho5. split_and!; done. }
      rewrite Hpt. eexists _, _. split; [done|]. split; [by destruct Ha5; split|]. split.
      { split; [cbn; by rewrite (qu_status _ _ Hq5)|]. left. exact Hga'. }
      split; [done|]. split; [done|]. split; [done|]. split; [done|]. intros cs'. change (ss_conn (point _ _ _ s5)) with (ss_conn s5). rewrite Hcn5.
      rewrite body_of_plain by apply Ha5. specialize (F2 cs'). rewrite body_of_plain in F2 by apply Ha. done. }
  destruct Hp6 as (s6 & rd6 & -> & Ha6 & Hm6 & Hg6 & Hc6 & Hr6 & Hst6 & Ho6). cbn [pm_session].
  eexists _, ret, _, (x ++ y), q', (drop (Z.to_nat w) pend1), Dt1. split; [done|]. split; [done|].
  assert (Hl6 : stream_len s6 = stream_len s1) by (rewrite <- Hlen5; unfold stream_len, ss_stream; by rewrite Hr6).
  split; [split; [done|done|done|split]|]; try done.
  - by eapply holds_frame.
  - by apply (feed_reader s5).
  - cbn [wchunkdata]. rewrite <- F5, HD. f_equal. rewrite <- !app_assoc. f_equal. rewrite (app_assoc y), <- Hqq, <- app_assoc. f_equal. by rewrite app_assoc, take_drop.
  - cbn [pm_session]. rewrite Hl6. split; [|split; [done|split; [congruence|split; [by rewrite Hr6|]]]].
    + intros Hno. unfold work. rewrite Hl6, zlen_app, zlen_drop. apply andb_false_iff in Hno as [Hno|Hno]; apply Z.eqb_neq in Hno; zlia.
    + intros ->. split; [by apply Hg6|]. intros Hpend Hxy. apply app_eq_nil in Hxy as [-> ->]. change (zlen []) with 0 in *.
      assert (Hne : pend1 ≠ []) by (intros ->; by rewrite drop_nil in Hpend).
      apply Hgive; [unfold MAX_CHUNK_SIZE in *; lia| |done]. intros Hnil. apply app_eq_nil in Hnil as [-> Htk].
      specialize (Htake eq_refl Hne). apply (f_equal zlen) in Htk. rewrite zlen_take in Htk. change (zlen []) with 0 in Htk. zlia.
Qed.

Lemma duplex_loop_spec fuel pf (fmt : bool) pr p M body cs x q pend Dt :
  (Z.to_nat BUFSIZE < pf)%nat → pr ≠ CI_ERROR → pump_inv M body fmt p cs x q pend Dt → work (pm_session p) x pend < Z.of_nat fuel →
  ∃ p' x' q' pend' Dt', pump_loop fuel pf io fmt pr p = Ret (true, p') ∧
    pump_inv M body fmt p' cs x' q' pend' Dt' ∧ stream_len (pm_session p') < BUFSIZE ∧
    ss_conn (pm_session p') = ss_conn (pm_session p) ∧ rd_conn (ss_reader (pm_session p')) = rd_conn (ss_reader (pm_session p)) ∧
    (fmt = false → gather (pm_session p') (rchunkdata p') x' ∧ (pend' ≠ [] → x' ≠ [])).
Proof.
  intros Hpf. revert pr p x q pend Dt. induction fuel as [|fuel IH]; intros pr p x q pend Dt Hpr Hi Hf.
  { exfalso. destruct Hi as [_ _ Hm [_ _ _ [_ _ Hl _] _]]. unfold work in Hf.
    assert (zlen x ≤ MAX_CHUNK_SIZE); [|zlia]. destruct fmt.
    - destruct Hm as (_ & _ & ->). unfold MAX_CHUNK_SIZE. zlia.
    - destruct Hm as [_ [(_ & _ & _ & _ & ? & _)|[_ ->]]]; [done|unfold MAX_CHUNK_SIZE; zlia]. }
  cbn [pump_loop]. destruct (duplex_step_spec pf fmt pr p M body cs x q pend Dt Hpf Hpr Hi) as
    (no_io & ret & p1 & x1 & q1 & pend1 & Dt1 & -> & Hret & Hi1 & Hw & Hl & Hc & Hrc & Hg). cbn [obind].
  destruct no_io; cbn [negb andb].
  { exists p1, x1, q1, pend1, Dt1. by split_and!. }
  destruct (_ && _); [|exists p1, x1, q1, pend1, Dt1; by split_and!].
  destruct (IH ret p1 x1 q1 pend1 Dt1 Hret Hi1) as (p2 & x2 & q2 & pend2 & Dt2 & -> & Hi2 & Hl2 & Hc2 & Hrc2 & Hg2); [specialize (Hw eq_refl); lia|].
  exists p2, x2, q2, pend2, Dt2. split_and!; try done; congruence.
Qed.

(** ** The end of a turn *)

Record turn_inv (M : list (list Z) → list Z) (body : list Z) (s : session D) (wd : option Z) (cs : list (list Z)) (q pend Dt : list Z) : Prop := {
  ti_answering : answering s;
  ti_block : block_in s;
  ti_flow : flow M body true s wd cs [] q pend Dt
}.

Lemma feed_forget s wd Dt : feed s wd [] Dt → feed s None [] Dt.
Proof.
  intros [P1 P2 P3 P4]. pose proof (zlen_delivered _ _ _ P1) as Hz. rewrite P2 in Hz. by split.
Qed.

(** What was gathered becomes a chunk. *)
Lemma format_gathered s rd x :
  answering s → ss_status s = SEND_BODY → gather s rd x →
  ∃ ret s', format_chunk s = Ret (ret, s') ∧ ret ≠ CI_EOF ∧ answering s' ∧ block_in s' ∧ ss_status s' = SEND_BODY ∧ ss_conn s' = ss_conn s ∧
    ss_reader s' = ss_reader s ∧ same_store s s' ∧ (x = [] → remain s' = 0) ∧ (x ≠ [] → 0 < remain s') ∧
    ∀ cs', rest_of s' cs' = body_of s (if decide (x = []) then cs' else x :: cs').
Proof.
  intros Ha Hst (G1 & G2 & G3 & G4 & G5 & G6). pose proof Ha as [A1 A2 A3 A4 A5 A6 A7 A8]. pose proof (zlen_nonneg x).
  destruct (decide (x = [])) as [->|Hne].
  - change (zlen []) with 0 in *. unfold format_chunk, format_body_chunk. unfold remain in G4. rewrite A2, G4. cbn [negb obind Z.ltb Z.eqb Z.compare CI_EOF CI_OK].
    exists CI_OK, s. split; [do 2 f_equal; unfold remain; rewrite G4; by destruct s|].
    assert (Hb : block_in s) by (unfold block_in, out_mem, remain; rewrite G1, G2, G4, A3; vm_compute; by split_and!).
    split_and!; try done. intros cs'. unfold rest_of, out_block, remain. by rewrite G4, Hst.
  - assert (0 < zlen x) by (destruct x; [done|zlia]).
    destruct (format_body_chunk_data (ss_out s) x A2 A3 G4 ltac:(lia) G6) as (w' & Hf & Hsb & Hw' & Hok & (B1 & B2 & B3)).
    assert (Hpos : 0 < remain_send_block_bytes w').
    { destruct (Z.leb_spec (remain_send_block_bytes w') 0) as [Hz0|Hz0]; [|done]. exfalso. unfold send_block in Hsb.
      rewrite (slice_nil _ _ _ Hz0) in Hsb. apply (f_equal zlen) in Hsb. unfold encode_chunk in Hsb. rewrite !zlen_app in Hsb. change (zlen []) with 0 in Hsb. zlia. }
    exists CI_OK, (with_out OWbuf w' s). split; [apply format_chunk_eq; try done; right; unfold remain in *; lia|]. split; [done|].
    split. { split; try done; cbn; congruence. }
    split_and!; try done. intros cs'. unfold rest_of. cbn [ss_status with_out]. rewrite Hst. cbn [Z.eqb SEND_BODY SEND_EOF Pos.eqb].
    rewrite !body_of_plain by (cbn; congruence). unfold chunks. cbn [map concat]. rewrite <- app_assoc. f_equal. exact Hsb.
Qed.

Definition next_action (s : session D) (pend : list Z) : Z :=
  Z.lor (if bool_decide (pend = []) then ci_wait_for_read else 0) (if remain s =? 0 then 0 else ci_wait_for_write).

(** There is always something to wait for. *)
Lemma next_action_some s pend : (pend ≠ [] → 0 < remain s) → next_action s pend ≠ 0.
Proof.
  intros Hs. unfold next_action. destruct (decide (pend = [])) as [->|Hne].
  - rewrite bool_decide_true by done. by destruct (remain s =? 0).
  - rewrite bool_decide_false by done. specialize (Hs Hne). by solve_cmp.
Qed.

Lemma finish_turn_spec (fmt : bool) p M body cs x q pend Dt :
  pump_inv M body fmt p cs x q pend Dt →
  (fmt = false → gather (pm_session p) (rchunkdata p) x ∧ (pend ≠ [] → x ≠ [])) →
  ∃ p' cs', finish_turn fmt p = Ret (next_action (pm_session p') pend, p') ∧ service_eof p' = false ∧
    turn_inv M body (pm_session p') (wchunkdata p') cs' q pend Dt ∧ (pend ≠ [] → 0 < remain (pm_session p')) ∧ (pend = [] → wchunkdata p' = None) ∧
    ss_conn (pm_session p') = ss_conn (pm_session p) ∧ ss_reader (pm_session p') = ss_reader (pm_session p).
Proof.
  intros [Ha Hse Hm [F1 F2 F3 F4 F5]] Hg. pose proof (fd_pending _ _ _ _ F4) as Hp. pose proof (zlen_delivered _ _ _ Hp) as Hz. rewrite (fd_data _ _ _ _ F4) in Hz.
  unfold finish_turn. rewrite <- Hz, Hse. rewrite andb_false_r.
  set (wd := if zlen pend =? 0 then None else wchunkdata p).
  assert (Hwd : feed (pm_session p) wd pend Dt).
  { unfold wd. destruct (Z.eqb_spec (zlen pend) 0) as [H0|H0]; [|done]. assert (pend = []) as -> by (destruct pend; [done|zlia]). by eapply feed_forget. }
  assert (Hwd0 : pend = [] → wd = None) by (by intros ->).
  assert (Hact : (if zlen pend =? 0 then ci_wait_for_read else 0) = if bool_decide (pend = []) then ci_wait_for_read else 0).
  { destruct pend; [done|]. rewrite bool_decide_false by done. destruct (Z.eqb_spec (zlen (z :: pend)) 0); [zlia|done]. }
  rewrite Hact. set (act := if bool_decide (pend = []) then _ else _).
  assert (Hna : ∀ s', (if remain s' =? 0 then act else Z.lor act ci_wait_for_write) = next_action s' pend).
  { intros s'. unfold next_action. fold act. destruct (remain s' =? 0); [by rewrite Z.lor_0_r|done]. }
  destruct fmt.
  - destruct Hm as (Hr & Hb & ->). exists (mkPump (pm_session p) wd (rchunkdata p) (rchunkisfull p) (service_eof p)), cs.
    split. { destruct (ss_status (pm_session p) =? SEND_BODY); cbn [obind]; by rewrite Hna, Hse. }
    cbn [pm_session wchunkdata service_eof]. split_and!; try done.
  - destruct Hm as [Hst _]. destruct (Hg eq_refl) as [Hga Hgp]. rewrite Hst. cbn [Z.eqb SEND_BODY Pos.eqb].
    destruct (format_gathered (pm_session p) (rchunkdata p) x Ha Hst Hga) as (ret & s' & -> & Hret & Ha' & Hb' & Hst' & Hc' & Hr' & Hss & Hx0 & Hx1 & Hrest).
    cbn [obind]. rewrite (proj2 (Z.eqb_neq _ _) Hret).
    exists (mkPump s' wd (rchunkdata p) (rchunkisfull p) (service_eof p)), (if decide (x = []) then cs else cs ++ [x]).
    split; [by rewrite Hna, Hse|]. cbn [pm_session wchunkdata service_eof]. split; [done|]. split; [|split_and!; [|done|done|done]].
    + split; [done|done|]. split; cbn [app].
      * destruct (decide (x = [])) as [|Hne]; [done|]. apply Forall_app. split; [done|]. constructor; [|constructor].
        destruct Hga as (_ & _ & _ & _ & ? & _). split; [|done]. destruct x; [done|zlia].
      * intros cs'. rewrite Hrest, Hc'. rewrite F2. destruct (decide (x = [])); [done|]. by rewrite <- app_assoc.
      * by eapply holds_frame.
      * by eapply feed_reader.
      * destruct (decide (x = [])) as [->|]; [done|]. rewrite concat_app. cbn. by rewrite app_nil_r, <- app_assoc.
    + intros Hne. apply Hx1. auto.
Qed.

(** ** The network operations of a turn *)

(** A poll that finds whatever is asked for. *)
Definition ready (w : Z) : Prop := 0 ≤ w ∧ Z.land w 7 = 3.

Lemma ready_wait w a : ready w → a = 1 ∨ a = 2 ∨ a = 3 → ci_connection_wait a w = a.
Proof.
  intros [H0 H7] Ha. unfold ci_connection_wait. solve_cmp.
  replace (Z.lor a ci_wait_should_retry) with (Z.land 7 (Z.lor a ci_wait_should_retry)) by (by destruct Ha as [-> | [-> | ->]]).
  rewrite Z.land_assoc, H7. by destruct Ha as [-> | [-> | ->]].
Qed.

(** The polls suffice for the reads and the writes to come. *)
Definition left (s : session D) : Z := zlen (fut_of (rd_conn (ss_reader s))) + zlen (rd_conn (ss_reader s)) + zlen (writes (ss_conn s)).
Definition polled (s : session D) : Prop := Forall ready (waits (ss_conn s)) ∧ left s < zlen (waits (ss_conn s)).

(** The client takes [n] bytes in all: no write fails before. *)
Definition takes (n : Z) (s : session D) : Prop :=
  Forall (λ w, 0 ≤ w) (writes (ss_conn s)) ∧ n ≤ zlen (sent (ss_conn s)) + npos (writes (ss_conn s)).

(** What was sent is the start of the message with some division of the body into chunks. *)
Definition begun (M : list (list Z) → list Z) (body : list Z) (s : session D) : Prop :=
  ∃ cs d, Forall piece cs ∧ concat cs = body ∧ sent (ss_conn s) ++ d = M cs.

Lemma pieces_concat a cs : pieces a cs → concat cs = a ∧ Forall piece cs.
Proof.
  induction 1 as [|a cs Hne Hp [IH1 IH2]]; [done|]. cbn. rewrite IH1, take_drop. split; [done|]. constructor; [|done].
  unfold piece. rewrite zlen_take. destruct a; [done|]. unfold MAX_CHUNK_SIZE. zlia.
Qed.

Lemma flow_begun M body s wd cs x q pend Dt : flow M body true s wd cs x q pend Dt → begun M body s.
Proof.
  intros [F1 F2 _ _ F5]. set (a := x ++ q ++ pend ++ Dt) in *. destruct (pieces_concat a (cut_pieces (length a) a)) as [H1 H2]; [by apply cut_pieces_spec|].
  exists (cs ++ cut_pieces (length a) a), (rest_of s (cut_pieces (length a) a)). split; [by apply Forall_app|]. split; [|done].
  by rewrite concat_app, H1.
Qed.

Lemma begun_sent M body s s' : sent (ss_conn s') = sent (ss_conn s) → begun M body s → begun M body s'.
Proof. intros He (cs & d & H1 & H2 & H3). exists cs, d. by rewrite He. Qed.

(** What holds between two turns. *)
Record between (M : list (list Z) → list Z) (body : list Z) (s : session D) (wd : option Z) (cs : list (list Z)) (q pend Dt : list Z) : Prop := {
  bt_turn : turn_inv M body s wd cs q pend Dt;
  bt_send : pend ≠ [] → 0 < remain s;
  bt_read : pend = [] → wd = None;
  bt_room : stream_len s < BUFSIZE;
  bt_more : eof_received (ss_stream s) = true → pend ≠ []
}.

Lemma turn_progress d M body s s' wd cs q pend Dt :
  progress d s s' → block_in s' → out_block s = d ++ out_block s' → turn_inv M body s wd cs q pend Dt → turn_inv M body s' wd cs q pend Dt.
Proof.
  intros Hp Hb Ho [Ha Hbl [F1 F2 F3 F4 F5]]. pose proof (pg_body _ _ _ Hp) as (B1 & B2 & B3). split; [|done|split; try done].
  - destruct Ha as [A1 A2 A3 A4 A5 A6 A7 A8]. split; unfold ss_encaps in *; rewrite ?(pg_status _ _ _ Hp), ?(pg_req _ _ _ Hp), ?(pg_wbuf _ _ _ Hp), ?(pg_locked _ _ _ Hp), ?(pg_code _ _ _ Hp), ?B1, ?B2; done.
  - intros cs'. rewrite (pg_sent _ _ _ Hp), <- F2, (rest_progress _ _ _ cs' Hp Ho). by rewrite <- app_assoc.
  - eapply holds_frame; [done|]. split; apply Hp.
  - apply (feed_reader s); [|done]. unfold ss_reader. by rewrite (pg_req _ _ _ Hp).
Qed.

Lemma takes_progress n d s s' :
  progress (D:=D) d s s' → (Forall (λ w, 0 ≤ w) (writes (ss_conn s)) → Forall (λ w, 0 ≤ w) (writes (ss_conn s')) ∧
       npos (writes (ss_conn s)) - zlen d ≤ npos (writes (ss_conn s')) ∧
       zlen (writes (ss_conn s')) ≤ Z.max 0 (zlen (writes (ss_conn s)) - 1)) → takes n s → takes n s'.
Proof. intros Hp Hw [H1 H2]. destruct (Hw H1) as (H3 & H4 & _). split; [done|]. rewrite (pg_sent _ _ _ Hp), zlen_app. lia. Qed.

(** Sending part of the block. *)
Lemma send_turn n M body s wd cs q pend Dt :
  (∀ cs, Forall piece cs → concat cs = body → zlen (M cs) ≤ n) → turn_inv M body s wd cs q pend Dt → 0 < remain s →
  ∃ b s', send_current_block_data s = Ret (b, s') ∧ turn_inv M body s' wd cs q pend Dt ∧ ss_reader s' = ss_reader s ∧
    waits (ss_conn s') = waits (ss_conn s) ∧ (b ≠ CI_ERROR → zlen (writes (ss_conn s')) + 1 = zlen (writes (ss_conn s))) ∧
    (takes n s → takes n s' ∧ b ≠ CI_ERROR).
Proof.
  intros Hn Hti Hr. destruct (send_block_spec s (ti_block _ _ _ _ _ _ _ _ Hti) Hr) as (b & d & s' & Hs & Hp & Hd & Hdl & Hwt & Hl & Hne & Hw).
  destruct (progress_block _ _ _ Hp (ti_block _ _ _ _ _ _ _ _ Hti) Hdl) as [Hb' Hob]. specialize (Hob Hd).
  exists b, s'. split; [done|]. split; [by eapply turn_progress|]. split; [unfold ss_reader; by rewrite (pg_req _ _ _ Hp)|]. split; [done|]. split; [done|].
  intros Ht. split; [by eapply takes_progress|]. destruct Ht as [Ht1 Ht2]. apply Hne; [done|].
  pose proof (ti_flow _ _ _ _ _ _ _ _ Hti) as [F1 F2 _ _ F5]. set (a := q ++ pend ++ Dt) in *.
  destruct (pieces_concat a (cut_pieces (length a) a)) as [H1 H2]; [by apply cut_pieces_spec|].
  specialize (F2 (cut_pieces (length a) a)). assert (Hle : zlen (M (cs ++ cut_pieces (length a) a)) ≤ n).
  { apply Hn; [by apply Forall_app|]. by rewrite concat_app, H1. }
  rewrite <- F2, zlen_app in Hle. unfold rest_of in Hle. rewrite zlen_app in Hle. unfold out_block in Hle.
  destruct (ti_block _ _ _ _ _ _ _ _ Hti) as (? & ? & ?). rewrite zlen_slice in Hle by lia. zlia.
Qed.

(** Reading more of the body, or the end of the connection. *)
Lemma duplex_read_turn M body s cs q Dt :
  turn_inv M body s None cs q [] Dt → stream_len s < BUFSIZE → eof_received (ss_stream s) = false →
  ∃ n r, net_data_read (ss_reader s) = Ret (n, r) ∧
    (n = CI_OK ∧ turn_inv M body (with_reader r s) None cs q [] Dt ∧
       zlen (fut_of (rd_conn r)) + zlen (rd_conn r) < zlen (fut_of (rd_conn (ss_reader s))) + zlen (rd_conn (ss_reader s)) ∧
       eof_received (rd_stream r) = false ∨
     n = CI_ERROR ∧ rd_conn r = []).
Proof.
  intros [Ha Hb [F1 F2 F3 F4 F5]] Hl He. pose proof F4 as [_ _ _ [[H _]|(_ & R & Hr)]]; [congruence|].
  pose proof (fd_pending _ _ _ _ F4) as Hpd. cbn in Hpd. unfold stream_len in Hl.
  destruct (decide (rd_conn (ss_reader s) = [])) as [Hnil|Hne].
  - destruct (reader_ok_window _ _ _ Hr) as (U & (stale & W1 & W2 & W3 & W4 & W5) & _). unfold ss_stream in Hl. rewrite W3 in Hl.
    destruct (net_move_spec (ss_reader s) U stale W1 W2 W3 ltac:(lia) W5) as (tl & Hmv & _).
    unfold net_data_read. rewrite W3, Hmv. cbn [obind rd_conn]. rewrite (proj2 (Z.leb_gt _ _)) by lia. rewrite Hnil. cbn [ci_connection_read_nonblock Z.ltb Z.compare].
    eexists _, _. split; [done|]. by right.
  - destruct (net_data_read_spec (ss_reader s) R Dt Hr Hne Hl) as (r & -> & Hr' & _ & Hp' & He' & Hl' & Hm'). exists CI_OK, r. split; [done|]. left.
    assert (Hq : quiet s (with_reader r s)) by (by split). assert (Hz : stream_len (with_reader r s) = pstrblock_read_len (rd_stream r)) by done.
    unfold ss_stream in *. split; [done|]. split; [|split; [done|by rewrite He']].
    split; [by eapply answering_quiet|by eapply block_quiet|]. split; try done.
    + by eapply holds_frame.
    + split; [change (write_to_module_pending (rd_stream r) = 0); by rewrite Hp'|done| |].
      * rewrite Hz. split; [|change (zlen []) with 0; lia]. destruct Hr' as ((blk & ? & _ & _ & -> & _) & _). apply zlen_nonneg.
      * right. split; [by etrans|]. by exists R.
Qed.

Lemma duplex_wait a c w ws :
  CHILD_HALT env = false → waits c = w :: ws → ready w → a = 1 ∨ a = 2 ∨ a = 3 →
  wait_for_data (CHILD_HALT env) a c = (a, mkConn ws (writes c) (sent c)).
Proof.
  intros Hh Hw Hr Ha. unfold wait_for_data. rewrite Hh, Hw. cbn [wait_loop]. rewrite (ready_wait w a Hr Ha).
  by destruct Ha as [-> | [-> | ->]].
Qed.

Lemma turn_conn M body n c s wd cs q pend Dt :
  sent c = sent (ss_conn s) → turn_inv M body s wd cs q pend Dt → turn_inv M body (with_conn n c s) wd cs q pend Dt.
Proof.
  intros Hc Hti. eapply (turn_progress []); [by apply progress_conn|apply Hti|done|done].
Qed.

(** A turn of the network ends the request, or leaves less to do; the error is the client's. *)
Lemma exchange_spec n M body s wd cs q pend Dt :
  CHILD_HALT env = false → (∀ cs, Forall piece cs → concat cs = body → zlen (M cs) ≤ n) →
  between M body s wd cs q pend Dt → polled s →
  ∃ a s', exchange junk true true env (next_action s pend) s = Ret (Some a, s') ∧
    (a = CI_OK ∧ turn_inv M body s' wd cs q pend Dt ∧ zlen (waits (ss_conn s')) < zlen (waits (ss_conn s)) ∧ polled s' ∧ (takes n s → takes n s') ∨
     a = CI_ERROR ∧ begun M body s' ∧ (takes n s → rd_conn (ss_reader s') = [])).
Proof.
  intros Hh Hn [Hti Hsd Hrd Hrm Hmo] [Hrdy Hleft]. unfold left in Hleft. pose proof (ti_flow _ _ _ _ _ _ _ _ Hti) as Hfl.
  pose proof (ti_block _ _ _ _ _ _ _ _ Hti) as Hbl.
  destruct (waits (ss_conn s)) as [|w ws] eqn:Hws; [zlia|]. apply Forall_cons_1 in Hrdy as [Hw1 Hw2].
  rewrite <- Hws. set (a := next_action s pend).
  assert (Hbit : ∀ r : bool, pend = [] ∧ 0 < remain s ∧ a = 3 ∨ pend = [] ∧ remain s = 0 ∧ a = 1 ∨ pend ≠ [] ∧ 0 < remain s ∧ a = 2).
  { intros _. unfold a, next_action. destruct Hbl as (_ & Hge & _). destruct (decide (pend = [])) as [->|Hne].
    - rewrite bool_decide_true by done. destruct (Z.eqb_spec (remain s) 0); [right; left|left]; split_and!; done || lia.
    - rewrite bool_decide_false by done. specialize (Hsd Hne). solve_cmp. right. right. by split_and!. }
  specialize (Hbit true).
  unfold exchange. rewrite (duplex_wait a (ss_conn s) w ws Hh Hws Hw1) by (destruct Hbit as [(_ & _ & ->)|[(_ & _ & ->)|(_ & _ & ->)]]; auto).
  set (c := mkConn ws (writes (ss_conn s)) (sent (ss_conn s))). set (s1 := with_conn 0 c s).
  assert (Hti1 : turn_inv M body s1 wd cs q pend Dt) by (by apply turn_conn).
  assert (Hneg : (a <? 0) = false) by (destruct Hbit as [(_ & _ & ->)|[(_ & _ & ->)|(_ & _ & ->)]]; done). rewrite Hneg.
  assert (Hsb : ∀ s2, turn_inv M body s2 wd cs q pend Dt → 0 < remain s2 → waits (ss_conn s2) = ws → writes (ss_conn s2) = writes (ss_conn s) → sent (ss_conn s2) = sent (ss_conn s) →
     zlen (fut_of (rd_conn (ss_reader s2))) + zlen (rd_conn (ss_reader s2)) ≤ zlen (fut_of (rd_conn (ss_reader s))) + zlen (rd_conn (ss_reader s)) →
     ∃ a' s', (let* s2 := if negb (ss_locked s2) && (ss_status s2 =? SEND_NOTHING) then let* (_, s2) := update_send_status junk true true env s2 in Ret s2 else Ret s2 in
               let* (b, s2) := send_current_block_data s2 in Ret (Some (if b =? CI_ERROR then CI_ERROR else CI_OK), s2)) = Ret (Some a', s') ∧
     (a' = CI_OK ∧ turn_inv M body s' wd cs q pend Dt ∧ zlen (waits (ss_conn s')) < zlen (waits (ss_conn s)) ∧ polled s' ∧ (takes n s → takes n s') ∨
      a' = CI_ERROR ∧ begun M body s' ∧ (takes n s → rd_conn (ss_reader s') = []))).
  { intros s2 Ht2 Hr2 E1 E2 E3 E4. pose proof (as_status _ (ti_answering _ _ _ _ _ _ _ _ Ht2)) as [[Hs _] _]. unfold SEND_RESPHEAD, SEND_NOTHING in *.
    rewrite (proj2 (Z.eqb_neq (ss_status s2) 0)) by lia. rewrite andb_false_r. cbn [obind].
    destruct (send_turn n M body s2 wd cs q pend Dt Hn Ht2 Hr2) as (b & s' & -> & Ht' & Hr' & Hw' & Hl' & Htk). cbn [obind].
    assert (Htk2 : takes n s → takes n s2) by (intros [? ?]; split; by rewrite E2, ?E3).
    exists (if b =? CI_ERROR then CI_ERROR else CI_OK), s'. split; [done|]. destruct (Z.eqb_spec b CI_ERROR) as [Hb|Hb].
    - right. split; [done|]. split; [by eapply flow_begun, ti_flow|]. intros Ht. by destruct (Htk (Htk2 Ht)) as [_ ?].
    - left. split; [done|]. split; [done|]. rewrite Hw', E1, Hws. split; [zlia|]. split; [|intros Ht; by apply Htk, Htk2].
      split; [by rewrite Hw', E1|]. unfold left. rewrite Hr', Hw', E1. specialize (Hl' Hb). rewrite E2 in Hl'. zlia. }
  destruct Hbit as [(-> & Hr & ->)|[(-> & Hr & ->)|(Hne & Hr & ->)]].
  - change (flag_set 3 ci_wait_for_read) with true. change (flag_set 3 ci_wait_for_write) with true. cbn match. specialize (Hrd eq_refl). subst wd.
    assert (He : eof_received (ss_stream s1) = false) by (destruct (eof_received (ss_stream s1)) eqn:E; [by destruct (Hmo E)|done]).
    destruct (duplex_read_turn M body s1 cs q Dt Hti1 Hrm He) as (n' & r & -> & [(-> & Ht2 & Hm & He2)|(-> & Hnil)]); cbn [obind Z.eqb CI_OK CI_ERROR Pos.eqb].
    + apply Hsb; try done. change (ss_reader (with_reader r s1)) with r. change (ss_reader s1) with (ss_reader s) in Hm. lia.
    + eexists _, _. split; [done|]. right. split; [done|]. split; [|done]. apply (begun_sent _ _ s); [done|by eapply flow_begun].
  - change (flag_set 1 ci_wait_for_read) with true. change (flag_set 1 ci_wait_for_write) with false. cbn match. specialize (Hrd eq_refl). subst wd.
    assert (He : eof_received (ss_stream s1) = false) by (destruct (eof_received (ss_stream s1)) eqn:E; [by destruct (Hmo E)|done]).
    destruct (duplex_read_turn M body s1 cs q Dt Hti1 Hrm He) as (n' & r & -> & [(-> & Ht2 & Hm & He2)|(-> & Hnil)]); cbn [obind Z.eqb CI_OK CI_ERROR Pos.eqb].
    + eexists _, _. split; [done|]. left. split; [done|]. split; [done|]. cbn [ss_conn with_reader with_req s1 with_conn waits c]. rewrite Hws. split; [zlia|]. split; [|done].
      split; [done|]. unfold left. cbn. change (ss_reader (with_reader r s1)) with r. change (ss_reader s1) with (ss_reader s) in Hm. zlia.
    + eexists _, _. split; [done|]. right. split; [done|]. split; [|done]. apply (begun_sent _ _ s); [done|by eapply flow_begun].
  - change (flag_set 2 ci_wait_for_read) with false. change (flag_set 2 ci_wait_for_write) with true. cbn [obind Z.eqb CI_OK CI_ERROR Pos.eqb].
    by apply Hsb.
Qed.

(** ** A whole turn *)

(** The next block, when the last one is sent. *)
Lemma next_block_turn M body s wd cs q pend Dt :
  turn_inv M body s wd cs q pend Dt →
  ∃ s', (if negb (ss_locked s) && (remain s =? 0) then update_send_status junk true true env s else Ret (CI_OK, s)) = Ret (CI_OK, s') ∧
    turn_inv M body s' wd cs q pend Dt ∧ (0 < remain s' ∨ ss_status s' = SEND_BODY ∧ remain s' = 0) ∧
    ss_conn s' = ss_conn s ∧ ss_reader s' = ss_reader s.
Proof.
  intros [Ha Hb [F1 F2 F3 F4 F5]]. rewrite (as_locked _ Ha). cbn [negb andb]. pose proof Hb as (_ & Hge & _).
  destruct (Z.eqb_spec (remain s) 0) as [Hr|Hr]; [|exists s; split_and!; try done; left; lia].
  pose proof (answering_sending s Ha Hb) as Hsd. pose proof (as_status _ Ha) as [Hst _].
  destruct (Z.eq_dec (ss_status s) SEND_BODY) as [Hbd|Hbd].
  { rewrite update_pending_spec; [|done|lia|by right]. exists s. split_and!; try done. by right. }
  destruct (update_headers_spec junk true true env s Hsd Hr ltac:(lia)) as (ret & s' & -> & Hsd' & (S1 & S2 & S3) & Hc & [(-> & Hlt & Hrest & N1 & [N2 N2'] & (B1 & B2 & B3) & N3)|(_ & Hx & _)]).
  2:{ by rewrite (as_body _ Ha) in Hx. }
  exists s'. split; [done|]. assert (Hrd : ss_reader s' = ss_reader s) by (unfold ss_reader; by rewrite N1).
  split; [split|].
  - destruct Ha as [A1 A2 A3 A4 A5 A6 A7 A8]. unfold ss_encaps in *. split; unfold ss_encaps; rewrite ?N1, ?N2, ?N2'; try congruence; [|by apply Hsd'|done].
    pose proof (sd_status _ Hsd') as [? ?]. destruct N3 as [[-> _]|[? _]]; [done|]. unfold SEND_BODY in *. lia.
  - apply Hsd'.
  - split; try done.
    + intros cs'. rewrite Hc, <- Hrest. apply F2.
    + by eapply holds_frame.
    + by eapply feed_reader.
  - split; [|done]. destruct N3 as [[-> ->]|(_ & i & e & h & Hi & Hhd & He & ->)]; [by right|left]. by eapply (as_sizes _ Ha).
Qed.

Lemma work_bound fmt p M body cs x q pend Dt : pump_inv M body fmt p cs x q pend Dt → work (pm_session p) x pend ≤ 3 * BUFSIZE.
Proof.
  intros [_ _ _ [_ _ _ [_ _ Hl _] _]]. unfold work, MAX_CHUNK_SIZE, BUFSIZE in *. pose proof (zlen_nonneg x). pose proof (zlen_nonneg pend). lia.
Qed.

(** From the choice of the block to the end of the turn. *)
Lemma turn_tail fuel pf s wd rd fu M body cs q pend Dt :
  3 * BUFSIZE < Z.of_nat pf → turn_inv M body s wd cs q pend Dt → 0 < remain s ∨ ss_status s = SEND_BODY ∧ remain s = 0 →
  ∃ p' cs' q' pend' Dt',
    (let lock_status := ss_locked s in
     let fmt := negb (remain s =? 0) in
     let p := mkPump s wd rd fu false in
     let* (ok, p) := pump_loop pf pf io fmt 0 p in
     if negb ok then Ret (CI_ERROR, pm_session p)
     else
     let* (action, p) := finish_turn fmt p in
     let s := pm_session p in
     let t := ss_stream s in
     if (negb (eof_received t) || negb (write_to_module_pending t =? 0))
        && (negb (action =? 0) || negb (eqb lock_status (ss_locked s)))
     then send_loop junk true true env fuel pf io action p
     else Ret (got_all s, s)) =
    (if eof_received (ss_stream (pm_session p')) && bool_decide (pend' = []) then Ret (CI_OK, pm_session p')
     else send_loop junk true true env fuel pf io (next_action (pm_session p') pend') p') ∧
    turn_inv M body (pm_session p') (wchunkdata p') cs' q' pend' Dt' ∧ service_eof p' = false ∧
    (pend' ≠ [] → 0 < remain (pm_session p')) ∧ (pend' = [] → wchunkdata p' = None) ∧ stream_len (pm_session p') < BUFSIZE ∧
    ss_conn (pm_session p') = ss_conn s ∧ rd_conn (ss_reader (pm_session p')) = rd_conn (ss_reader s).
Proof.
  intros Hpf Hti Hrm. cbn zeta. set (fmt := negb (remain s =? 0)). destruct Hti as [Ha Hb [F1 F2 F3 F4 F5]].
  assert (Hi : pump_inv M body fmt (mkPump s wd rd fu false) cs [] q pend Dt).
  { split; [done|done| |]; cbn [pm_session rchunkdata wchunkdata].
    - unfold fmt, mode. destruct (Z.eqb_spec (remain s) 0) as [H0|H0]; cbn [negb].
      + destruct Hrm as [?|[? _]]; [lia|]. split; [done|]. by right.
      + split_and!; try done. destruct Hrm as [?|[_ ?]]; [done|lia].
    - split; try done. intros cs'. unfold fmt. destruct (Z.eqb_spec (remain s) 0) as [H0|H0]; cbn [negb]; [|done].
      rewrite <- F2. f_equal. destruct Hrm as [?|[Hst _]]; [lia|]. unfold rest_of, out_block. by rewrite H0, Hst. }
  destruct (duplex_loop_spec pf pf fmt 0 (mkPump s wd rd fu false) M body cs [] q pend Dt ltac:(unfold BUFSIZE in *; lia) ltac:(done) Hi ltac:(pose proof (work_bound _ _ _ _ _ _ _ _ _ Hi); lia))
    as (p1 & x1 & q1 & pend1 & Dt1 & -> & Hi1 & Hl1 & Hc1 & Hrc1 & Hg1). cbn [obind negb].
  destruct (finish_turn_spec fmt p1 M body cs x1 q1 pend1 Dt1 Hi1 Hg1) as (p2 & cs2 & -> & Hse2 & Hti2 & Hsd2 & Hwd2 & Hc2 & Hr2). cbn [obind].
  exists p2, cs2, q1, pend1, Dt1. pose proof (ti_flow _ _ _ _ _ _ _ _ Hti2) as [_ _ _ F4' _].
  pose proof (zlen_delivered _ _ _ (fd_pending _ _ _ _ F4')) as Hz. rewrite (fd_data _ _ _ _ F4') in Hz.
  split.
  - rewrite (as_locked _ (ti_answering _ _ _ _ _ _ _ _ Hti2)), (as_locked _ Ha). cbn [eqb negb]. rewrite orb_false_r, <- Hz.
    rewrite (proj2 (Z.eqb_neq _ _) (next_action_some _ _ Hsd2)). cbn [negb]. rewrite andb_true_r.
    destruct (decide (pend1 = [])) as [->|Hne].
    + rewrite bool_decide_true by done. change (zlen [] =? 0) with true. cbn [negb]. rewrite orb_false_r, andb_true_r. unfold got_all. by destruct (eof_received _).
    + rewrite bool_decide_false by done. rewrite (proj2 (Z.eqb_neq (zlen pend1) 0)) by (destruct pend1; [done|zlia]). cbn [negb]. by rewrite orb_true_r, andb_false_r.
  - split_and!; try done; [|by rewrite Hc2|by rewrite Hr2]. unfold stream_len, ss_stream in *. by rewrite Hr2.
Qed.

(** ** The loop *)

(** The whole body has been received, or the client is at fault. *)
Definition pumped (n : Z) (M : list (list Z) → list Z) (body : list Z) (s : session D) (ret : Z) (s' : session D) : Prop :=
  ret = CI_OK ∧ (∃ wd cs q, turn_inv M body s' wd cs q [] []) ∧ eof_received (ss_stream s') = true ∧ polled s' ∧ (takes n s → takes n s') ∨
  ret = CI_ERROR ∧ begun M body s' ∧ (takes n s → rd_conn (ss_reader s') = []).

Lemma turn_over n pf fuel M body s0 p cs q pend Dt :
  (∀ p' cs' q' pend' Dt', zlen (waits (ss_conn (pm_session p'))) ≤ zlen (waits (ss_conn (pm_session p))) →
     service_eof p' = false → between M body (pm_session p') (wchunkdata p') cs' q' pend' Dt' → polled (pm_session p') →
     ∃ ret s', send_loop junk true true env fuel pf io (next_action (pm_session p') pend') p' = Ret (ret, s') ∧ pumped n M body (pm_session p') ret s') →
  turn_inv M body (pm_session p) (wchunkdata p) cs q pend Dt → service_eof p = false →
  (pend ≠ [] → 0 < remain (pm_session p)) → (pend = [] → wchunkdata p = None) → stream_len (pm_session p) < BUFSIZE →
  polled (pm_session p) → (takes n s0 → takes n (pm_session p)) →
  ∃ ret s', (if eof_received (ss_stream (pm_session p)) && bool_decide (pend = []) then Ret (CI_OK, pm_session p)
     else send_loop junk true true env fuel pf io (next_action (pm_session p) pend) p) = Ret (ret, s') ∧ pumped n M body s0 ret s'.
Proof.
  intros IH Hti Hse Hsd Hwd Hl Hpo Htk. destruct (eof_received (ss_stream (pm_session p))) eqn:He; cbn [andb].
  - destruct (decide (pend = [])) as [->|Hne].
    + rewrite bool_decide_true by done. exists CI_OK, (pm_session p). split; [done|]. left. split; [done|].
      pose proof (ti_flow _ _ _ _ _ _ _ _ Hti) as [_ _ _ [_ _ _ [(_ & -> & _)|(? & _)]] _]; [|congruence]. split_and!; try done. eauto.
    + rewrite bool_decide_false by done. destruct (IH p cs q pend Dt) as (ret & s' & -> & Hp); try done.
      exists ret, s'. split; [done|]. destruct Hp as [(-> & ? & ? & ? & ?)|(-> & ? & ?)]; [left|right]; split_and!; auto.
  - destruct (IH p cs q pend Dt) as (ret & s' & -> & Hp); try done.
    { split; try done. congruence. }
    exists ret, s'. split; [done|]. destruct Hp as [(-> & ? & ? & ? & ?)|(-> & ? & ?)]; [left|right]; split_and!; auto.
Qed.

Lemma duplex_send_loop n pf fuel M body p cs q pend Dt :
  3 * BUFSIZE < Z.of_nat pf → CHILD_HALT env = false → (∀ cs, Forall piece cs → concat cs = body → zlen (M cs) ≤ n) →
  zlen (waits (ss_conn (pm_session p))) < Z.of_nat fuel → service_eof p = false →
  between M body (pm_session p) (wchunkdata p) cs q pend Dt → polled (pm_session p) →
  ∃ ret s', send_loop junk true true env fuel pf io (next_action (pm_session p) pend) p = Ret (ret, s') ∧ pumped n M body (pm_session p) ret s'.
Proof.
  intros Hpf Hh Hn. revert p cs q pend Dt. induction fuel as [|fuel IH]; intros p cs q pend Dt Hf Hse Hbt Hpo; [zlia|].
  cbn [send_loop]. rewrite (proj2 (Z.eqb_neq _ _) (next_action_some _ _ (bt_send _ _ _ _ _ _ _ _ Hbt))).
  destruct (exchange_spec n M body (pm_session p) (wchunkdata p) cs q pend Dt Hh Hn Hbt Hpo) as (a & s1 & -> & [(-> & Hti1 & Hw1 & Hpo1 & Htk1)|(-> & Hb1 & Htk1)]); cbn [obind Z.eqb CI_OK CI_ERROR Pos.eqb].
  2:{ exists CI_ERROR, s1. split; [done|]. by right. }
  destruct (next_block_turn M body s1 _ cs q pend Dt Hti1) as (s2 & -> & Hti2 & Hrm2 & Hc2 & Hr2). cbn [obind Z.eqb CI_OK CI_ERROR Pos.eqb]. rewrite Hse.
  destruct (turn_tail fuel pf s2 (wchunkdata p) (rchunkdata p) (rchunkisfull p) M body cs q pend Dt Hpf Hti2 Hrm2) as (p3 & cs3 & q3 & pend3 & Dt3 & Htl & Hti3 & Hse3 & Hsd3 & Hwd3 & Hl3 & Hc3 & Hr3).
  cbn zeta in Htl |- *. rewrite Htl. clear Htl.
  apply (turn_over n pf fuel M body (pm_session p) p3 cs3 q3 pend3 Dt3); try done.
  - intros p' cs' q' pend' Dt' Hle Hse' Hbt' Hpo'. apply (IH p' cs' q' pend' Dt'); try done. rewrite Hc3, Hc2 in Hle. lia.
  - destruct Hpo1 as [P1 P2]. unfold polled, left in *. by rewrite Hr3, Hc3, Hr2, Hc2.
  - intros Ht. destruct (Htk1 Ht) as [T1 T2]. unfold takes. by rewrite Hc3, Hc2.
Qed.

(** ** From the first turn on *)

(** A request whose body has the coded rest [cs] after [q], which the service has; nothing is sent yet. *)
Record starting (s : session D) (m : ci_service_module) (x : ci_service_xdata_t) (xls : list (list Z)) (h : ci_headers_list_t)
    (ls : list (list Z)) (b : ci_encaps_entity_t) (q Dt : list Z) : Prop := {
  st_answerable : answerable env s m x EC_200 xls h ls b;
  st_body : type b ≠ ICAP_NULL_BODY;
  st_locked : ss_locked s = false;
  st_remain : remain s = 0;
  st_wbuf : zlen (ws_wbuf (ss_out s)) = WBUF_SIZE;
  st_206 : is_ec_206 (ss_out s) = false;
  st_holds : holds s q;
  st_feed : feed s None [] Dt;
  st_eof : eof_received (ss_stream s) = false
}.

Lemma start_turn s0 s m x xls h ls b q Dt :
  starting s m x xls h ls b q Dt → ss_status s = SEND_NOTHING → answer_frame s0 s → is_ec_206 (ss_out s0) = false → sent (ss_conn s) = sent (ss_conn s0) →
  ∃ s', update_send_status junk true true env s = Ret (CI_OK, s') ∧
    turn_inv (λ cs, sent (ss_conn s0) ++ response_message env s0 m x EC_200 xls ls b cs) (q ++ Dt) s' None [] q [] Dt ∧
    0 < remain s' ∧ ss_conn s' = ss_conn s ∧ ss_reader s' = ss_reader s.
Proof.
  intros [S1 S2 S3 S4 S5 S6 S7 S8 S9] Hst Hfr H206 Hsent.
  destruct (start_answer junk env s m x EC_200 xls h ls b S1 Hst S5) as (s' & -> & Hsd & Hst' & Hrest & (V1 & V2 & _) & Hc & Hr & [Hl Hcd] & Hpos & Hb & H6 & Hsz); [congruence|].
  exists s'. split; [done|]. split; [|by split_and!]. split.
  - split; try congruence.
    + rewrite Hst'. by unfold SEND_RESPHEAD, SEND_BODY, SEND_HEAD3.
    + by rewrite Hb, (proj2 (Z.eqb_neq _ _) S2).
    + apply (sd_wbuf _ Hsd).
    + apply (sd_headers _ Hsd).
    + done.
    + rewrite Hcd. apply S1.
  - apply Hsd.
  - split; [done| | | |done].
    + intros cs'. cbn [app]. rewrite Hc, Hsent, Hrest. f_equal. by apply response_message_frame.
    + by eapply holds_frame.
    + by apply (feed_reader s).
Qed.

(** [get_send_body] with the data unlocked.  It returns, whatever the writes do; unless the client stops taking
    or giving data it returns CI_OK, and what was sent and what the service holds are the body so far. *)
Lemma get_send_body_duplex (ops : service_ops D) n fuel pf s m x xls h ls b q Dt :
  let M := λ cs, sent (ss_conn s) ++ response_message env s m x EC_200 xls ls b cs in
  body_io ops s = Some io → starting s m x xls h ls b q Dt → CHILD_HALT env = false → polled s →
  (stream_len s = 0 → rd_conn (ss_reader s) ≠ []) →
  (∀ cs, Forall piece cs → concat cs = q ++ Dt → zlen (M cs) ≤ n) →
  3 * BUFSIZE < Z.of_nat pf → zlen (waits (ss_conn s)) + 1 < Z.of_nat fuel →
  ∃ ret s', get_send_body junk true true env ops fuel pf false s = Ret (ret, s') ∧ pumped n M (q ++ Dt) s ret s'.
Proof.
  intros M Hio Hs Hh Hpo Hne Hn Hpf Hf. unfold get_send_body. rewrite Hio. cbn zeta. set (s0 := with_status SEND_NOTHING s).
  destruct fuel as [|fuel]; [zlia|]. cbn [send_loop].
  set (ex := if _ =? 0 then Ret (Some CI_OK, _) else _).
  assert (Hex : ∃ s1, ex = Ret (Some CI_OK, s1) ∧ starting s1 m x xls h ls b q Dt ∧ ss_status s1 = SEND_NOTHING ∧ answer_frame s s1 ∧ sent (ss_conn s1) = sent (ss_conn s) ∧
     polled s1 ∧ writes (ss_conn s1) = writes (ss_conn s) ∧ zlen (waits (ss_conn s1)) ≤ zlen (waits (ss_conn s))).
  { unfold ex. change (pstrblock_read_len (ss_stream s0)) with (stream_len s). pose proof Hs as [S1 S2 S3 S4 S5 S6 S7 S8 S9]. destruct Hpo as [Hp1 Hp2].
    destruct (Z.eqb_spec (stream_len s) 0) as [H0|H0]; cbn [ci_wait_for_read Z.eqb Pos.eqb].
    2:{ exists s0. split; [done|]. split; [|split_and!; try done; by apply answer_frame_same]. split; try done; [|by eapply holds_frame|by apply (feed_reader s)].
        by apply (answerable_frame env s); [by apply answer_frame_same|]. }
    cbn [pm_session]. unfold left in Hp2. destruct (waits (ss_conn s)) as [|w ws] eqn:Hws; [zlia|]. apply Forall_cons_1 in Hp1 as [Hw1 Hw2].
    unfold exchange. change (wait_for_data _ _ (ss_conn s0)) with (wait_for_data (CHILD_HALT env) 1 (ss_conn s)). rewrite (duplex_wait 1 (ss_conn s) w ws Hh Hws Hw1) by auto. cbn [Z.ltb Z.compare].
    change (flag_set 1 ci_wait_for_read) with true. change (flag_set 1 ci_wait_for_write) with false. cbn match.
    pose proof S8 as [P1 _ _ [[? _]|(_ & R & Hr)]]; [congruence|]. cbn in P1. set (c := mkConn ws _ _).
    change (ss_reader (with_conn 0 c s0)) with (ss_reader s).
    destruct (net_data_read_spec (ss_reader s) R Dt Hr (Hne H0)) as (r & -> & Hr' & _ & Hp' & He' & Hl' & Hm'); [unfold stream_len, ss_stream in H0; rewrite H0; done|].
    cbn [obind Z.eqb CI_OK CI_ERROR Pos.eqb]. eexists. split; [done|]. set (s1 := with_reader r _).
    assert (Hfr : answer_frame s s1) by (by split; [eexists|split_and!]).
    split; [split; try done|].
    - by eapply answerable_frame.
    - by eapply holds_frame.
    - split; [change (write_to_module_pending (rd_stream r) = 0); by rewrite Hp'|done| |right].
      + change (stream_len s1) with (pstrblock_read_len (rd_stream r)). split; [|change (zlen []) with 0; lia]. destruct Hr' as ((blk & ? & _ & _ & -> & _) & _). apply zlen_nonneg.
      + split; [by etrans|]. by exists R.
    - by etrans.
    - split_and!; try done; [|cbn; zlia]. split; [done|]. unfold left. change (ss_reader s1) with r. cbn. zlia. }
  destruct Hex as (s1 & -> & Hs1 & Hst1 & Hfr1 & Hsent1 & Hpo1 & Hwr1 & Hw1). cbn [obind Z.eqb CI_OK CI_ERROR Pos.eqb].
  rewrite (st_locked _ _ _ _ _ _ _ _ _ Hs1), (st_remain _ _ _ _ _ _ _ _ _ Hs1). cbn [negb andb Z.eqb].
  destruct (start_turn s s1 m x xls h ls b q Dt Hs1 Hst1 Hfr1 (st_206 _ _ _ _ _ _ _ _ _ Hs) Hsent1) as (s2 & -> & Hti2 & Hr2 & Hc2 & Hrd2). cbn [obind Z.eqb CI_OK CI_ERROR Pos.eqb].
  cbn [wchunkdata rchunkdata rchunkisfull service_eof].
  destruct (turn_tail fuel pf s2 None None false M (q ++ Dt) [] q [] Dt Hpf Hti2 ltac:(by left)) as (p3 & cs3 & q3 & pend3 & Dt3 & Htl & Hti3 & Hse3 & Hsd3 & Hwd3 & Hl3 & Hc3 & Hr3).
  cbn zeta in Htl |- *. rewrite Htl. clear Htl.
  apply (turn_over n pf fuel M (q ++ Dt) s p3 cs3 q3 pend3 Dt3); try done.
  - intros p' cs' q' pend' Dt' Hle Hse' Hbt' Hpo'. apply (duplex_send_loop n pf fuel M (q ++ Dt) p' cs' q' pend' Dt'); try done. rewrite Hc3, Hc2 in Hle. lia.
  - destruct Hpo1 as [P1 P2]. unfold polled, left in *. by rewrite Hr3, Hc3, Hrd2, Hc2.
  - intros [T1 T2]. unfold takes. by rewrite Hc3, Hc2, Hwr1, Hsent1.
Qed.
End duplex.
