(* ===== verification/Echo.v ===== *)
(** * The echo service (services/echo/srv_echo.c) behind the server

    The service keeps the body in a ring buffer of 4096 bytes and gives it back while it is received.  It implements
    [Pipe] during the request and [Supplier] after its end, so that the theorems about the server give the response of the
    whole: the body comes back as it was sent, whatever the order of the reads and writes. *)

From stdpp Require Import base list list_numbers strings numbers option.
From Stdlib Require Import ZArith Lia.
From S2P Require Import Prelude CString Chunks ReadBody SendBody RingBuf Headers Encapsulated IcapHeader ParseRequest HttpApi Session Response Options Server Deliver Duplex.

(** ** The service *)

Record echo_req_data := mkEcho { echo_body : option ci_ring_buf; echo_eof : bool }.

Definition set_ring (b : ci_ring_buf) (e : echo_req_data) : echo_req_data := mkEcho (Some b) (echo_eof e).
Definition echo_view (d : option echo_req_data) (l : bool) (s : session echo_req_data) : view echo_req_data :=
  mkView d l (ss_encaps s) (use_original_body (ss_out s)) (ss_xheaders s).

(** [a] and [ar] are the results of the two allocations. *)
Definition echo_init_request_data (junk : Z → Z) (a ar : bool) (s : session echo_req_data) : outcome (view echo_req_data) :=
  if negb a then Ret (echo_view None (ss_locked s) s)
  else Ret (echo_view (Some (mkEcho (if hasbody (ss_encaps s) then ci_ring_buf_new junk ar ar 4096 else None) false)) (ss_locked s) s).

(** The static [whattodo] is an argument and part of the result. *)
Definition echo_check_preview_handler (whattodo : Z) (s : session echo_req_data) (preview : option (list Z)) :
    outcome (Z * view echo_req_data * Z) :=
  if negb (hasbody (ss_encaps s)) then Ret (CI_MOD_ALLOW204, view_of s, whattodo)
  else
  match default [] preview with
  | [] => Ret (CI_MOD_CONTINUE, echo_view (ss_data s) false s, whattodo)
  | d =>
      if whattodo =? 0 then
        match ss_data s with
        | Some (mkEcho (Some b) _) =>
            let* (_, b) := ci_ring_buf_write b d in
            Ret (CI_MOD_CONTINUE, echo_view (Some (mkEcho (Some b) (eof_received (ss_stream s)))) false s, 1)
        | _ => UB
        end
      else Ret (CI_MOD_ALLOW204, echo_view (ss_data s) false s, 0)
  end.

Definition echo_end_of_data_handler (s : session echo_req_data) : outcome (Z * view echo_req_data) :=
  match ss_data s with
  | None => UB
  | Some e => Ret (CI_MOD_DONE, echo_view (Some (mkEcho (echo_body e) true)) (ss_locked s) s)
  end.

Definition echo_io : service_io echo_req_data := λ s wbuf rbuf iseof,
  match ss_data s with
  | None => UB
  | Some e =>
      let* (n, e) :=
        match rbuf with
        | None => Ret (0, e)
        | Some d =>
            match echo_body e with
            | None => UB
            | Some b => let* (n, b) := ci_ring_buf_write b d in Ret (n, set_ring b e)
            end
        end in
      let ret := if n <? 0 then CI_ERROR else CI_OK in
      let* (r, e) :=
        match wbuf with
        | None => Ret (SrcCode 0, e)
        | Some len =>
            match echo_body e with
            | None => UB
            | Some b =>
                let* (k, x, b) := ci_ring_buf_read b len in
                Ret (if (k =? 0) && echo_eof e then SrcCode CI_EOF else if 0 <? k then SrcData x else SrcCode k, set_ring b e)
            end
        end in
      Ret (ret, r, n, echo_view (Some e) (ss_locked s) s)
  end.

(** [echo_release_request_data] frees the ring buffer and the structure; a null pointer is dereferenced. *)
Definition echo_release_request_data (s : session echo_req_data) (data : option echo_req_data) : outcome (view echo_req_data) :=
  match data with None => UB | Some _ => Ret (echo_view None (ss_locked s) s) end.

(** The handlers as the server calls them, with the value [whattodo] has. *)
Definition echo_ops (junk : Z → Z) (a ar : bool) (whattodo : Z) : service_ops echo_req_data :=
  mkOps (Some (echo_init_request_data junk a ar)) (Some (λ s d, echo_release_request_data s (Some d)))
    (Some (λ s d, let* (res, v, _) := echo_check_preview_handler whattodo s d in Ret (res, v)))
    (Some echo_end_of_data_handler) (Some echo_io).

(** ** What it promises the server *)

Lemma apply_echo_view d l (s : session echo_req_data) : apply_view (echo_view d l s) s = served d (ss_echo s) l s.
Proof. by destruct s as [[] st c [] lo h xh p k e n cn dd]. Qed.

Definition has_ring (s : session echo_req_data) (eof : bool) (b : ci_ring_buf) : Prop := ss_data s = Some (mkEcho (Some b) eof) ∧ ring_ok b.

Lemma ring_write_takes b d :
  ring_ok b → ∃ w b', ci_ring_buf_write b d = Ret (w, b') ∧ ring_ok b' ∧ contents b' = contents b ++ take (Z.to_nat w) d ∧
    0 ≤ w ≤ zlen d ∧ (contents b = [] → d ≠ [] → 0 < w).
Proof.
  intros Hok. destruct (ci_ring_buf_write_spec b d Hok) as (b' & -> & Hok' & Hc & _). pose proof (zlen_nonneg d). pose proof (contents_bound b Hok).
  pose proof (ro_write _ Hok). assert (Hwr : 0 ≤ writable b ∧ (contents b = [] → 0 < writable b)).
  { unfold writable, RingBuf.room. pose proof (is_empty_spec b Hok) as He. destruct (ci_ring_buf_is_empty b); [split; intros; lia|].
    split; [lia|]. intros Hnil. by destruct He as [_ He]; specialize (He Hnil). }
  eexists _, b'. split; [done|]. split; [done|]. split; [|split; [lia|]].
  - rewrite Hc. f_equal. destruct (Z.le_ge_cases (zlen d) (writable b)).
    + rewrite Z.min_l by lia. rewrite !take_ge by (unfold zlen in *; lia). done.
    + by rewrite Z.min_r by lia.
  - intros Hnil Hd. assert (0 < zlen d) by (destruct d; [done|zlia]). destruct Hwr as [_ Hw]. specialize (Hw Hnil). lia.
Qed.

#[export] Program Instance echo_pipe : Pipe (call_io echo_io) := {|
  holds s q := ss_echo s = None ∧ ∃ b, has_ring s false b ∧ contents b = q
|}.
Next Obligation. intros s s' q (H0 & b & [H1 H2] & H3) [H4 H5]. split; [congruence|]. exists b. split; [|done]. split; [congruence|done]. Qed.
Next Obligation.
  intros s q room d eof (Hno & b & [Hb Hok] & Hq) Hroom. unfold call_io, echo_io. rewrite Hb. cbn [echo_body echo_eof].
  assert (Hwr : ∃ w b1, (match d with None => Ret (0, mkEcho (Some b) false) | Some d => let* (n, b') := ci_ring_buf_write b d in Ret (n, set_ring b' (mkEcho (Some b) false)) end) =
      Ret (w, mkEcho (Some b1) false) ∧ ring_ok b1 ∧ contents b1 = q ++ take (Z.to_nat w) (default [] d) ∧ 0 ≤ w ≤ zlen (default [] d) ∧ (q = [] → default [] d ≠ [] → 0 < w)).
  { destruct d as [d|]; [|exists 0, b; rewrite app_nil_r; by split_and!]. destruct (ring_write_takes b d Hok) as (w & b' & -> & Hok' & Hc & Hw & Ht).
    exists w, b'. subst q. split_and!; try done; cbn; lia. }
  destruct Hwr as (w & b1 & -> & Hok1 & Hc1 & Hw & Ht). cbn [obind echo_body echo_eof]. rewrite (proj2 (Z.ltb_ge w 0)) by lia.
  destruct room as [k|]; cbn [default from_option id] in *.
  - destruct (ring_read_loop_spec (S (Z.to_nat k)) b1 k [] Hok1) as (x & b2 & Hrd & Hok2 & Hc2 & Hx & _); [lia|].
    unfold ci_ring_buf_read. rewrite Hrd. cbn [obind app]. rewrite andb_false_r, apply_echo_view.
    exists w, x, (contents b2), (Some (mkEcho (Some b2) false)), (ss_echo s). split.
    { destruct (Z.eqb_spec (zlen x) 0) as [H0|H0]; [by rewrite H0|]. pose proof (zlen_nonneg x). by solve_cmp. }
    split; [done|]. split; [lia|]. split; [split; [done|by exists b2]|]. split; [congruence|]. split; [|done].
    intros Hk Hne ->. rewrite Hc1 in Hx. change (zlen []) with 0 in Hx. destruct (q ++ _); [done|zlia].
  - cbn [obind]. rewrite apply_echo_view. exists w, [], (contents b1), (Some (mkEcho (Some b1) false)), (ss_echo s).
    split; [done|]. split; [done|]. split; [done|]. split; [split; [done|by exists b1]|]. split; [done|]. split; [done|done].
Qed.

#[export] Program Instance echo_service_supplier : Supplier (call_io echo_io) := {|
  gives s cs := ∃ b, has_ring s true b ∧ pieces (contents b) cs
|}.
Next Obligation. intros s s' cs (b & [H1 H2] & H3) (H4 & _). exists b. split; [|done]. split; [congruence|done]. Qed.
Next Obligation.
  intros s cs (b & [Hb Hok] & Hp). unfold call_io, echo_io. rewrite Hb. cbn [echo_body echo_eof obind Z.ltb Z.compare].
  destruct (ring_read_piece b cs Hok Hp) as (x & b' & -> & Hok' & Hcs). cbn [obind]. rewrite andb_true_r, apply_echo_view.
  exists CI_OK, 0, (Some (mkEcho (Some b') true)), (ss_echo s), (ss_locked s). destruct cs as [|c cs].
  - subst x. by split.
  - destruct Hcs as (-> & Hpos & Hp'). solve_cmp. split; [done|].
    intros c' cs' [= <- <-]. split; [done|]. by exists b'.
Qed.

(** ** A request served *)

Section served.
Context (junk : Z → Z) (env : server_env).

(** Every chunk of [cs] costs at most 16 bytes more than its data. *)
Lemma chunks_bound cs : Forall piece cs → zlen (chunks cs) ≤ 17 * zlen (concat cs).
Proof.
  induction 1 as [|c cs [H1 H2] _ IH]; [done|]. unfold chunks in *. cbn [map concat]. rewrite !zlen_app.
  pose proof (zlen_print_x_small (zlen c) ltac:(lia)). unfold encode_chunk at 1. rewrite !zlen_app. change (zlen CRLF) with 2. lia.
Qed.

(** The bytes that suffice for a response whose body is [body], however it is cut into chunks. *)
Definition reply_bound (s : session echo_req_data) (m : ci_service_module) (x : ci_service_xdata_t) (xls ls : list (list Z))
    (b : ci_encaps_entity_t) (body : list Z) : Z :=
  zlen (sent (ss_conn s)) + zlen (response_message env s m x EC_200 xls ls b []) + 17 * zlen body.

Lemma reply_bound_ok s m x xls ls b body cs :
  Forall piece cs → concat cs = body →
  zlen (sent (ss_conn s) ++ response_message env s m x EC_200 xls ls b cs) ≤ reply_bound s m x xls ls b body.
Proof.
  intros Hp Hc. pose proof (chunks_bound cs Hp) as Hb. unfold reply_bound, response_message. rewrite !zlen_app, Hc in *.
  pose proof (zlen_nonneg body). destruct (type b =? ICAP_NULL_BODY); rewrite ?zlen_app; change (chunks []) with (@nil Z); change (zlen []) with 0; lia.
Qed.

(** A request without preview on its way to the service: its body is [cs], the ring buffer of the service is empty. *)
Record echo_request (s : session echo_req_data) (cs : list (list Z)) : Prop := {
  er_preview : preview (ss_req s) < 0;
  er_hasbody : hasbody (ss_encaps s) = true;
  er_ring : ∃ r, has_ring s false r ∧ contents r = [];
  er_noecho : ss_echo s = None;
  er_remain : remain s = 0;
  er_wbuf : zlen (ws_wbuf (ss_out s)) = WBUF_SIZE;
  er_chunks : Forall good_chunk cs;
  er_ptr : 0 ≤ pstrblock_read (ss_stream s);
  er_block : ∃ blk stale, drop (Z.to_nat (pstrblock_read (ss_stream s))) (block_mem (ss_reader s)) = blk ++ stale ∧
    stream_len s = zlen blk ∧ zlen blk ≤ BUFSIZE ∧ blk ++ fut_of (rd_conn (ss_reader s)) = encode cs;
  er_data : Forall is_data (rd_conn (ss_reader s));
  er_rbuf : zlen (rd_rbuf (ss_reader s)) = BUFSIZE;
  er_phase : current_chunk_len (ss_stream s) = chunk_bytes_read (ss_stream s);
  er_pending : pending_len s = 0;
  er_eof : eof_received (ss_stream s) = false
}.

Lemma request_starting s cs m x xls h ls b :
  echo_request s cs → answerable env (with_code (Some EC_200) s) m x EC_200 xls h ls b → type b ≠ ICAP_NULL_BODY →
  starting env (call_io echo_io) (with_code (Some EC_200) (with_locked false s)) m x xls h ls b [] (concat cs).
Proof.
  intros [E1 E2 (r & Hr & Hnil) E4 E5 E6 E7 E8 (blk & stale & B1 & B2 & B3 & B4) E10 E11 E12 E13 E14] [A1 A2 A3 A4 A5 A6 A7 A8 A9 A10 A11] Hb.
  split; try done.
  - split; [done|by exists r].
  - unfold pending_len in E13. split; [done|done| |].
    + change (stream_len _) with (stream_len s). rewrite B2. zlia.
    + right. split; [done|]. exists (encode cs). split_and!; [|done|done]. exists blk, stale. split_and!; try done.
      change (rd_stream (ss_reader (with_code (Some EC_200) (with_locked false s)))) with (ss_stream s). rewrite E12. by apply phase_def.
Qed.

Lemma echo_end_spec w s b eof :
  ss_data s = Some (mkEcho (Some b) eof) →
  do_end_of_data junk true true env (echo_ops junk true true w) s = Ret (CI_OK, served (Some (mkEcho (Some b) true)) (ss_echo s) (ss_locked s) s).
Proof.
  intros Hd. unfold do_end_of_data, echo_ops. cbn [mod_end_of_data_handler]. unfold echo_end_of_data_handler. rewrite Hd. cbn [obind echo_body].
  by rewrite apply_echo_view.
Qed.

(** What is left to send once the service knows the end. *)
Lemma rest_sent n fuel w s r q cs1 M body :
  let s5 := served (Some (mkEcho (Some r) true)) (ss_echo s) (ss_locked s) s in
  answering s → block_in s → ss_echo s = None → has_ring s false r → contents r = q → Forall piece cs1 → concat cs1 ++ q = body →
  (∀ cs, sent (ss_conn s) ++ rest_of s cs = M (cs1 ++ cs)) → (∀ cs, Forall piece cs → concat cs = body → zlen (M cs) ≤ n) →
  polled s → CHILD_HALT env = false → (length q + 6 < fuel)%nat →
  ∃ ret s' cs', send_remaining_response junk true true env fuel (echo_ops junk true true w) (with_locked false s5) = Ret (ret, s') ∧
    Forall piece cs' ∧ concat cs' = body ∧
    (ret = CI_OK ∧ sent (ss_conn s') = M cs' ∨ ret = CI_ERROR ∧ (∃ d, sent (ss_conn s') ++ d = M cs') ∧ ~ takes n s).
Proof.
  intros s5 Ha Hb Hno [Hd Hok] Hq Hp1 Hbody HM Hn [Hpo1 Hpo2] Hh Hf. set (s6 := with_locked false s5). set (cs2 := cut_pieces (length q) q).
  pose proof (cut_pieces_spec (length q) q ltac:(done)) as Hpc. fold cs2 in Hpc. destruct (pieces_concat _ _ Hpc) as [Hc2 Hp2]. pose proof (pieces_length _ _ Hpc) as Hl2.
  assert (Hp : Forall piece (cs1 ++ cs2)) by (by apply Forall_app). assert (Hc : concat (cs1 ++ cs2) = body) by (by rewrite concat_app, Hc2).
  assert (Hio : body_io (echo_ops junk true true w) s6 = Some (call_io echo_io)) by (unfold body_io; change (ss_echo s6) with (ss_echo s); by rewrite Hno).
  destruct (as_status _ Ha) as [[Hs1 Hs2] _]. unfold SEND_RESPHEAD, SEND_BODY in *. unfold send_remaining_response. rewrite Hio.
  change (ss_status s6) with (ss_status s). rewrite (proj2 (Z.eqb_neq (ss_status s) SEND_EOF)) by (unfold SEND_EOF; lia). cbn [andb].
  assert (Hsd : sending s6) by (destruct (answering_sending _ Ha Hb) as [A1 A2 A3 A4 A5 A6]; by split).
  destruct (remaining_loop_spec junk true true env (call_io echo_io) fuel s6 cs2 Hsd) as (ret & d & s' & Hrun & Hs & (d2 & Hd2) & Hret & Hlive).
  { right. exists r. split; [by split|]. by subst q. }
  { change (ss_status s6) with (ss_status s). unfold SEND_EOF. lia. }
  change (rest_of s6 cs2) with (rest_of s cs2) in *. change (ss_conn s6) with (ss_conn s) in *.
  exists ret, s', (cs1 ++ cs2). split; [done|]. split; [done|]. split; [done|]. rewrite <- HM.
  destruct Hret as [-> | [-> ->]]; [right|by left]. split; [done|]. split.
  - exists d2. by rewrite Hs, Hd2, <- app_assoc.
  - intros [T1 T2]. specialize (Hn _ Hp Hc). rewrite <- HM, zlen_app in Hn. discriminate (Hlive Hh). split_and!; try done; [|lia|].
    + eapply Forall_impl; [|exact Hpo1]. intros z Hz. apply ready_wait; auto.
    + unfold left in Hpo2. pose proof (zlen_nonneg (rd_conn (ss_reader s))). pose proof (zlen_nonneg (fut_of (rd_conn (ss_reader s)))). lia.
Qed.

End served.

(** A RESPMOD request whose body arrives in three reads; the client takes at most five bytes of the response at a time. *)
Definition sample_echo : session echo_req_data :=
  mkSession
    (set_reader (mkReader (mkRstream 0 0 0 0 0 false (-1) 0 0 0) BNull [] (replicate 4096 0)
       [EvData (take 7 (encode sample_body)); EvData []; EvData (drop 7 (encode sample_body))] 0 ci_buf_init)
       (set_mod (Some sample_service) (set_type ICAP_RESPMOD (set_encaps sample_message sample_request))))
    SEND_NOTHING None (mkWstream (replicate 4096 0) 0 0 false false (-1) 0 0) ONull sample_empty sample_empty
    false true None 0 (mkConn (replicate 700 3) (replicate 600 5) [])
    (Some (mkEcho (ci_ring_buf_new (λ _, 7) true true 4096) false)).

Lemma sample_ring : ∃ r, ci_ring_buf_new (λ _, 7) true true 4096 = Some r ∧ ring_ok r ∧ contents r = [].
Proof. eexists. split; [reflexivity|]. split; [split; vm_compute; (reflexivity || (try discriminate; split; congruence))|]. reflexivity. Qed.

Lemma sample_echo_request : echo_request sample_echo sample_body.
Proof.
  split; try reflexivity.
  - destruct sample_ring as (r & Hr & Hok & Hc). exists r. split; [|done]. split; [|done]. unfold sample_echo. cbn [ss_data]. by rewrite Hr.
  - repeat constructor; vm_compute; (reflexivity || discriminate).
  - exists [], []. split_and!; vm_compute; (reflexivity || discriminate).
  - repeat constructor.
Qed.


(** ** A client that is slow to take the response *)

Definition slow_body : list (list Z) := [replicate (Z.to_nat 4000) 65; replicate (Z.to_nat 500) 66].

(** The body arrives in two reads; then the client takes nothing until the wait has timed out once. *)
Definition slow_echo : session echo_req_data :=
  mkSession
    (set_reader (mkReader (mkRstream 0 0 0 0 0 false (-1) 0 0 0) BNull [] (replicate 4096 0)
       [EvData (take 4009 (encode slow_body)); EvData (drop 4009 (encode slow_body))] 0 ci_buf_init)
       (set_mod (Some sample_service) (set_type ICAP_RESPMOD (set_encaps sample_message sample_request))))
    SEND_NOTHING None (mkWstream (replicate 4096 0) 0 0 false false (-1) 0 0) ONull sample_empty sample_empty
    false true None 0 (mkConn (1 :: 1 :: 0 :: replicate 100 3) (replicate 100 4096) [])
    (Some (mkEcho (ci_ring_buf_new (λ _, 7) true true 4096) false)).

(** After the last chunk is parsed a wait that times out ends [get_send_body] with CI_OK, also while the service has not taken
    all of the data: the client gets a response that is complete in form and lacks the end of the body. *)
Lemma slow_client_gets_part_of_body :
  ∃ s' cs', do_modification (λ _, 7) true true sample_env (echo_ops (λ _, 7) true true 0) true (Z.to_nat 800) (Z.to_nat 13000) slow_echo = Ret (CI_OK, s') ∧
    sent (ss_conn s') = response_message sample_env (with_code (Some EC_200) slow_echo) sample_service sample_xdata EC_200 [] sample_lines
      (mkEntity 20 ICAP_RES_BODY None) cs' ∧
    concat cs' = take 4096 (concat slow_body) ∧ zlen (concat slow_body) = 4500.
Proof.
  set (o := do_modification _ _ _ _ _ _ _ _ _). set (cs := cut_pieces 4096 (take 4096 (concat slow_body))).
  assert (Ho : match o with Ret (r, s') => bool_decide (r = CI_OK ∧ sent (ss_conn s') = response_message sample_env (with_code (Some EC_200) slow_echo)
    sample_service sample_xdata EC_200 [] sample_lines (mkEntity 20 ICAP_RES_BODY None) cs) | _ => false end = true) by (vm_compute; reflexivity).
  destruct o as [[r s']| | |] eqn:Heq; [|discriminate..]. apply bool_decide_eq_true in Ho as [-> Hs]. exists s', cs.
  split; [done|]. split; [done|]. split; vm_compute; reflexivity.
Qed.

(** The preview is put into the ring buffer whatever room there is: what does not fit is lost, and the handler goes on. *)
Lemma preview_beyond_ring_lost b d (s : session echo_req_data) :
  ring_ok b → zlen (RingBuf.buf b) < zlen d → hasbody (ss_encaps s) = true → ss_data s = Some (mkEcho (Some b) false) →
  ∃ b' v, echo_check_preview_handler 0 s (Some d) = Ret (CI_MOD_CONTINUE, v, 1) ∧
    v_data v = Some (mkEcho (Some b') (eof_received (ss_stream s))) ∧ zlen (contents b') < zlen d.
Proof.
  intros Hok Hlen Hb Hd. pose proof (zlen_nonneg (RingBuf.buf b)). unfold echo_check_preview_handler. rewrite Hb, Hd. cbn [negb default from_option id].
  destruct d as [|c d]; [zlia|]. cbn [Z.eqb].
  destruct (ci_ring_buf_write_spec b (c :: d) Hok) as (b' & -> & Hok' & _ & Hz). cbn [obind].
  eexists b', _. split; [done|]. split; [done|]. pose proof (contents_bound b' Hok'). lia.
Qed.
