(* ===== verification/Md5.v ===== *)
(** * MD5 (md5.c)

    The digest as the library computes it, fed piece by piece, and the digest of RFC 1321 of a whole message.  The words of
    the machine are written as their bytes in memory, so that [byteReverse] and the two views of [ctx->in], bytes and words, are
    those of the code; [big] says whether the machine is big-endian. *)

From stdpp Require Import base list list_numbers strings numbers option.
From Stdlib Require Import ZArith Lia.
From S2P Require Import Prelude.

(** ** Words in memory *)

Definition le_word (b0 b1 b2 b3 : Z) : Z := b0 + 2 ^ 8 * b1 + 2 ^ 16 * b2 + 2 ^ 24 * b3.
Definition le_bytes (w : Z) : list Z := [w mod 2 ^ 8; w / 2 ^ 8 mod 2 ^ 8; w / 2 ^ 16 mod 2 ^ 8; w / 2 ^ 24 mod 2 ^ 8].

(** The words of a block as the machine reads and writes them. *)
Definition word_of (big : bool) (b0 b1 b2 b3 : Z) : Z := if big then le_word b3 b2 b1 b0 else le_word b0 b1 b2 b3.
Definition bytes_of (big : bool) (w : Z) : list Z := if big then rev (le_bytes w) else le_bytes w.

Fixpoint words (big : bool) (m : list Z) : list Z :=
  match m with b0 :: b1 :: b2 :: b3 :: m' => word_of big b0 b1 b2 b3 :: words big m' | _ => [] end.

(** [byteReverse] reads [longs] words low byte first and stores them as the machine does; it is empty on a big-endian machine. *)
Fixpoint byteReverse (big : bool) (m : list Z) (longs : nat) {struct longs} : list Z :=
  if big then m
  else
  match longs, m with
  | S n, b0 :: b1 :: b2 :: b3 :: m' =>
      bytes_of big (Z.lor (Z.shiftl (to_uint (Z.lor (Z.shiftl b3 8) b2)) 16 mod 2 ^ 32) (Z.lor (Z.shiftl b1 8) b0)) ++ byteReverse big m' n
  | _, _ => m
  end.

(** ** The transformation of a block *)

Definition F1 (x y z : Z) : Z := Z.lxor z (Z.land x (Z.lxor y z)).
Definition F2 (x y z : Z) : Z := F1 z x y.
Definition F3 (x y z : Z) : Z := Z.lxor (Z.lxor x y) z.
Definition F4 (x y z : Z) : Z := Z.lxor y (Z.lor x (to_uint (Z.lnot z))).

(** The local variables, and a use of the macro MD5STEP: function, the four variables, the index of the word, the constant, the shift. *)
Inductive reg := RA | RB | RC | RD.
#[export] Instance reg_eq : EqDecision reg.
Proof. solve_decision. Defined.
Record regs := mkRegs { ra : Z; rb : Z; rc : Z; rd : Z }.
Definition get (r : reg) (s : regs) : Z := match r with RA => ra s | RB => rb s | RC => rc s | RD => rd s end.
Definition put (r : reg) (v : Z) (s : regs) : regs :=
  match r with
  | RA => mkRegs v (rb s) (rc s) (rd s) | RB => mkRegs (ra s) v (rc s) (rd s)
  | RC => mkRegs (ra s) (rb s) v (rd s) | RD => mkRegs (ra s) (rb s) (rc s) v
  end.

Record step := mkStep {
  st_f : Z → Z → Z → Z; st_w : reg; st_x : reg; st_y : reg; st_z : reg; st_in : nat; st_const : Z; st_shift : Z
}.

Definition MD5STEP (block : list Z) (p : step) (s : regs) : regs :=
  let x := get (st_x p) s in
  let w := to_uint (get (st_w p) s + to_uint (st_f p x (get (st_y p) s) (get (st_z p) s) + to_uint (nth (st_in p) block 0 + st_const p))) in
  let w := Z.lor (to_uint (Z.shiftl w (st_shift p))) (Z.shiftr w (32 - st_shift p)) in
  put (st_w p) (to_uint (w + x)) s.

Definition round1 : list step :=
  [mkStep F1 RA RB RC RD 0 0xd76aa478 7;
   mkStep F1 RD RA RB RC 1 0xe8c7b756 12;
   mkStep F1 RC RD RA RB 2 0x242070db 17;
   mkStep F1 RB RC RD RA 3 0xc1bdceee 22;
   mkStep F1 RA RB RC RD 4 0xf57c0faf 7;
   mkStep F1 RD RA RB RC 5 0x4787c62a 12;
   mkStep F1 RC RD RA RB 6 0xa8304613 17;
   mkStep F1 RB RC RD RA 7 0xfd469501 22;
   mkStep F1 RA RB RC RD 8 0x698098d8 7;
   mkStep F1 RD RA RB RC 9 0x8b44f7af 12;
   mkStep F1 RC RD RA RB 10 0xffff5bb1 17;
   mkStep F1 RB RC RD RA 11 0x895cd7be 22;
   mkStep F1 RA RB RC RD 12 0x6b901122 7;
   mkStep F1 RD RA RB RC 13 0xfd987193 12;
   mkStep F1 RC RD RA RB 14 0xa679438e 17;
   mkStep F1 RB RC RD RA 15 0x49b40821 22].

Definition round2 : list step :=
  [mkStep F2 RA RB RC RD 1 0xf61e2562 5;
   mkStep F2 RD RA RB RC 6 0xc040b340 9;
   mkStep F2 RC RD RA RB 11 0x265e5a51 14;
   mkStep F2 RB RC RD RA 0 0xe9b6c7aa 20;
   mkStep F2 RA RB RC RD 5 0xd62f105d 5;
   mkStep F2 RD RA RB RC 10 0x02441453 9;
   mkStep F2 RC RD RA RB 15 0xd8a1e681 14;
   mkStep F2 RB RC RD RA 4 0xe7d3fbc8 20;
   mkStep F2 RA RB RC RD 9 0x21e1cde6 5;
   mkStep F2 RD RA RB RC 14 0xc33707d6 9;
   mkStep F2 RC RD RA RB 3 0xf4d50d87 14;
   mkStep F2 RB RC RD RA 8 0x455a14ed 20;
   mkStep F2 RA RB RC RD 13 0xa9e3e905 5;
   mkStep F2 RD RA RB RC 2 0xfcefa3f8 9;
   mkStep F2 RC RD RA RB 7 0x676f02d9 14;
   mkStep F2 RB RC RD RA 12 0x8d2a4c8a 20].

Definition round3 : list step :=
  [mkStep F3 RA RB RC RD 5 0xfffa3942 4;
   mkStep F3 RD RA RB RC 8 0x8771f681 11;
   mkStep F3 RC RD RA RB 11 0x6d9d6122 16;
   mkStep F3 RB RC RD RA 14 0xfde5380c 23;
   mkStep F3 RA RB RC RD 1 0xa4beea44 4;
   mkStep F3 RD RA RB RC 4 0x4bdecfa9 11;
   mkStep F3 RC RD RA RB 7 0xf6bb4b60 16;
   mkStep F3 RB RC RD RA 10 0xbebfbc70 23;
   mkStep F3 RA RB RC RD 13 0x289b7ec6 4;
   mkStep F3 RD RA RB RC 0 0xeaa127fa 11;
   mkStep F3 RC RD RA RB 3 0xd4ef3085 16;
   mkStep F3 RB RC RD RA 6 0x04881d05 23;
   mkStep F3 RA RB RC RD 9 0xd9d4d039 4;
   mkStep F3 RD RA RB RC 12 0xe6db99e5 11;
   mkStep F3 RC RD RA RB 15 0x1fa27cf8 16;
   mkStep F3 RB RC RD RA 2 0xc4ac5665 23].

Definition round4 : list step :=
  [mkStep F4 RA RB RC RD 0 0xf4292244 6;
   mkStep F4 RD RA RB RC 7 0x432aff97 10;
   mkStep F4 RC RD RA RB 14 0xab9423a7 15;
   mkStep F4 RB RC RD RA 5 0xfc93a039 21;
   mkStep F4 RA RB RC RD 12 0x655b59c3 6;
   mkStep F4 RD RA RB RC 3 0x8f0ccc92 10;
   mkStep F4 RC RD RA RB 10 0xffeff47d 15;
   mkStep F4 RB RC RD RA 1 0x85845dd1 21;
   mkStep F4 RA RB RC RD 8 0x6fa87e4f 6;
   mkStep F4 RD RA RB RC 15 0xfe2ce6e0 10;
   mkStep F4 RC RD RA RB 6 0xa3014314 15;
   mkStep F4 RB RC RD RA 13 0x4e0811a1 21;
   mkStep F4 RA RB RC RD 4 0xf7537e82 6;
   mkStep F4 RD RA RB RC 11 0xbd3af235 10;
   mkStep F4 RC RD RA RB 2 0x2ad7d2bb 15;
   mkStep F4 RB RC RD RA 9 0xeb86d391 21].

Definition MD5Transform (s : regs) (block : list Z) : regs :=
  let t := foldl (λ t p, MD5STEP block p t) s (round1 ++ round2 ++ round3 ++ round4) in
  mkRegs (to_uint (ra s + ra t)) (to_uint (rb s + rb t)) (to_uint (rc s + rc t)) (to_uint (rd s + rd t)).

(** ** The digest of a stream *)

Record ci_MD5Context := mkCtx { md_buf : regs; md_bits0 : Z; md_bits1 : Z; md_in : list Z }.

Definition md5_start : regs := mkRegs 0x67452301 0xefcdab89 0x98badcfe 0x10325476.

Definition ci_MD5Init (ctx : ci_MD5Context) : ci_MD5Context := mkCtx md5_start 0 0 (md_in ctx).

(** One block of [ctx->in]. *)
Definition md5_block (big : bool) (ctx : ci_MD5Context) : ci_MD5Context :=
  let m := byteReverse big (md_in ctx) 16 in
  mkCtx (MD5Transform (md_buf ctx) (words big m)) (md_bits0 ctx) (md_bits1 ctx) m.

Definition set_in (m : list Z) (ctx : ci_MD5Context) : ci_MD5Context := mkCtx (md_buf ctx) (md_bits0 ctx) (md_bits1 ctx) m.

(** The loop over the whole blocks of [d]; the rest is put into [ctx->in]. *)
Fixpoint md5_blocks (fuel : nat) (big : bool) (ctx : ci_MD5Context) (d : list Z) : outcome ci_MD5Context :=
  match fuel with
  | O => NoFuel
  | S fuel' =>
      if 64 <=? zlen d then
        let* m := write_bytes (md_in ctx) 0 (take 64 d) in
        md5_blocks fuel' big (md5_block big (set_in m ctx)) (drop 64 d)
      else
        let* m := write_bytes (md_in ctx) 0 d in
        Ret (set_in m ctx)
  end.

Definition ci_MD5Update (fuel : nat) (big : bool) (ctx : ci_MD5Context) (d : list Z) : outcome ci_MD5Context :=
  let len := zlen d in
  let t := md_bits0 ctx in
  let bits0 := to_uint (t + to_uint (Z.shiftl (to_uint len) 3)) in
  let bits1 := if bits0 <? t then to_uint (md_bits1 ctx + 1) else md_bits1 ctx in
  let bits1 := to_uint (bits1 + Z.shiftr len 29) in
  let ctx := mkCtx (md_buf ctx) bits0 bits1 (md_in ctx) in
  let t := Z.land (Z.shiftr t 3) 0x3f in
  if t =? 0 then md5_blocks fuel big ctx d
  else
  let n := 64 - t in
  if len <? n then
    let* m := write_bytes (md_in ctx) t d in Ret (set_in m ctx)
  else
    let* m := write_bytes (md_in ctx) t (take (Z.to_nat n) d) in
    md5_blocks fuel big (md5_block big (set_in m ctx)) (drop (Z.to_nat n) d).

(** The bytes of [ctx->buf]. *)
Definition buf_bytes (big : bool) (s : regs) : list Z :=
  bytes_of big (ra s) ++ bytes_of big (rb s) ++ bytes_of big (rc s) ++ bytes_of big (rd s).

Definition ci_MD5Final (big : bool) (ctx : ci_MD5Context) : outcome (list Z * ci_MD5Context) :=
  let count := Z.land (Z.shiftr (md_bits0 ctx) 3) 0x3f in
  let* m := store (md_in ctx) count 0x80 in
  let p := count + 1 in
  let count := 64 - 1 - count in
  let* ctx :=
    if count <? 8 then
      let* m := write_bytes m p (replicate (Z.to_nat count) 0) in
      let ctx := md5_block big (set_in m ctx) in
      let* m := write_bytes (md_in ctx) 0 (replicate 56 0) in
      Ret (set_in m ctx)
    else
      let* m := write_bytes m p (replicate (Z.to_nat (count - 8)) 0) in
      Ret (set_in m ctx) in
  let m := byteReverse big (md_in ctx) 14 in
  let* m := write_bytes m 56 (bytes_of big (md_bits0 ctx)) in
  let* m := write_bytes m 60 (bytes_of big (md_bits1 ctx)) in
  let s := MD5Transform (md_buf ctx) (words big m) in
  Ret (byteReverse big (buf_bytes big s) 4, mkCtx (mkRegs 0 0 0 0) 0 0 (replicate 64 0)).

Fixpoint updates (fuel : nat) (big : bool) (ctx : ci_MD5Context) (ds : list (list Z)) : outcome ci_MD5Context :=
  match ds with
  | [] => Ret ctx
  | d :: ds => let* ctx := ci_MD5Update fuel big ctx d in updates fuel big ctx ds
  end.

(** A digest of the pieces [ds], with whatever the memory of the context held. *)
Definition digest (fuel : nat) (big : bool) (ctx : ci_MD5Context) (ds : list (list Z)) : outcome (list Z) :=
  let* ctx := updates fuel big (ci_MD5Init ctx) ds in
  let* (r, _) := ci_MD5Final big ctx in
  Ret r.

(** ** RFC 1321 *)

Module Rfc1321.

Definition F (x y z : Z) : Z := Z.lor (Z.land x y) (Z.land (Z.lnot x) z).
Definition G (x y z : Z) : Z := Z.lor (Z.land x z) (Z.land y (Z.lnot z)).
Definition H (x y z : Z) : Z := Z.lxor x (Z.lxor y z).
Definition I (x y z : Z) : Z := Z.lxor y (Z.lor x (to_uint (Z.lnot z))).

(** The integer part of 4294967296 times the absolute value of sin i, for i from 1. *)
Definition T : list Z :=
  [0xd76aa478; 0xe8c7b756; 0x242070db; 0xc1bdceee; 0xf57c0faf; 0x4787c62a; 0xa8304613; 0xfd469501;
   0x698098d8; 0x8b44f7af; 0xffff5bb1; 0x895cd7be; 0x6b901122; 0xfd987193; 0xa679438e; 0x49b40821;
   0xf61e2562; 0xc040b340; 0x265e5a51; 0xe9b6c7aa; 0xd62f105d; 0x02441453; 0xd8a1e681; 0xe7d3fbc8;
   0x21e1cde6; 0xc33707d6; 0xf4d50d87; 0x455a14ed; 0xa9e3e905; 0xfcefa3f8; 0x676f02d9; 0x8d2a4c8a;
   0xfffa3942; 0x8771f681; 0x6d9d6122; 0xfde5380c; 0xa4beea44; 0x4bdecfa9; 0xf6bb4b60; 0xbebfbc70;
   0x289b7ec6; 0xeaa127fa; 0xd4ef3085; 0x04881d05; 0xd9d4d039; 0xe6db99e5; 0x1fa27cf8; 0xc4ac5665;
   0xf4292244; 0x432aff97; 0xab9423a7; 0xfc93a039; 0x655b59c3; 0x8f0ccc92; 0xffeff47d; 0x85845dd1;
   0x6fa87e4f; 0xfe2ce6e0; 0xa3014314; 0x4e0811a1; 0xf7537e82; 0xbd3af235; 0x2ad7d2bb; 0xeb86d391].

Definition fn (i : nat) : Z → Z → Z → Z := match (i / 16)%nat with 0%nat => F | 1%nat => G | 2%nat => H | _ => I end.

(** The index of the word in step [i], and the shift. *)
Definition idx (i : nat) : nat :=
  match (i / 16)%nat with 0%nat => i mod 16 | 1%nat => (5 * i + 1) mod 16 | 2%nat => (3 * i + 5) mod 16 | _ => (7 * i) mod 16 end.
Definition shifts : list (list Z) := [[7; 12; 17; 22]; [5; 9; 14; 20]; [4; 11; 16; 23]; [6; 10; 15; 21]].
Definition shift (i : nat) : Z := nth (i mod 4) (nth (i / 16) shifts []) 0.

Definition rotl (x s : Z) : Z := Z.lor (Z.shiftl x s mod 2 ^ 32) (Z.shiftr x (32 - s)).

(** Step [i]: a = b + ((a + f(b,c,d) + X[k] + T[i]) <<< s), and the names move on by one. *)
Definition one (X : list Z) (i : nat) (s : Z * Z * Z * Z) : Z * Z * Z * Z :=
  let '(a, b, c, d) := s in
  (d, (b + rotl ((a + fn i b c d + nth (idx i) X 0 + nth i T 0) mod 2 ^ 32) (shift i)) mod 2 ^ 32, b, c).

Definition add4 (s t : Z * Z * Z * Z) : Z * Z * Z * Z :=
  let '(a, b, c, d) := s in let '(a', b', c', d') := t in
  ((a + a') mod 2 ^ 32, (b + b') mod 2 ^ 32, (c + c') mod 2 ^ 32, (d + d') mod 2 ^ 32).

Definition compress (s : Z * Z * Z * Z) (X : list Z) : Z * Z * Z * Z := add4 s (foldl (λ t i, one X i t) s (seq 0 64)).

Fixpoint le_words (m : list Z) : list Z :=
  match m with b0 :: b1 :: b2 :: b3 :: m' => le_word b0 b1 b2 b3 :: le_words m' | _ => [] end.

(** The whole blocks of 64 bytes in turn. *)
Fixpoint absorb (fuel : nat) (s : Z * Z * Z * Z) (m : list Z) : Z * Z * Z * Z :=
  match fuel with
  | O => s
  | S fuel' => if 64 <=? zlen m then absorb fuel' (compress s (le_words (take 64 m))) (drop 64 m) else s
  end.

(** A bit 1, zeros up to 56 modulo 64, the number of bits modulo 2^64 low byte first. *)
Definition pad (m : list Z) : list Z :=
  m ++ [0x80] ++ replicate (Z.to_nat ((55 - zlen m) mod 64)) 0 ++
  le_bytes ((8 * zlen m) mod 2 ^ 32) ++ le_bytes ((8 * zlen m) / 2 ^ 32 mod 2 ^ 32).

Definition start : Z * Z * Z * Z := (0x67452301, 0xefcdab89, 0x98badcfe, 0x10325476).

Definition md5 (m : list Z) : list Z :=
  let '(a, b, c, d) := absorb (length (pad m)) start (pad m) in le_bytes a ++ le_bytes b ++ le_bytes c ++ le_bytes d.
End Rfc1321.

(** ** Words and bytes *)

Lemma le_bytes_word b0 b1 b2 b3 : is_byte b0 → is_byte b1 → is_byte b2 → is_byte b3 → le_bytes (le_word b0 b1 b2 b3) = [b0; b1; b2; b3].
Proof.
  unfold is_byte, le_bytes, le_word. change (2 ^ 8) with 256. change (2 ^ 16) with 65536. change (2 ^ 24) with 16777216. intros.
  repeat f_equal; Z.to_euclidean_division_equations; lia.
Qed.

Lemma byteReverse_id n m : (4 * n ≤ length m)%nat → Forall is_byte (take (4 * n) m) → byteReverse false m n = m.
Proof.
  revert m. induction n as [|n IH]; intros m Hl Hm; [done|]. destruct m as [|b0 [|b1 [|b2 [|b3 m]]]]; cbn [length] in Hl; [lia..|].
  replace (4 * S n)%nat with (S (S (S (S (4 * n))))) in Hm by lia. cbn [take] in Hm.
  apply Forall_cons_1 in Hm as [H0 Hm]. apply Forall_cons_1 in Hm as [H1 Hm]. apply Forall_cons_1 in Hm as [H2 Hm]. apply Forall_cons_1 in Hm as [H3 Hm].
  cbn [byteReverse]. rewrite (IH m) by (done || lia). unfold bytes_of.
  unfold is_byte in *. rewrite !lor_shiftl_add by lia. rewrite to_uint_id by lia. rewrite Z.shiftl_mul_pow2, Z.mod_small by lia.
  rewrite <- Z.shiftl_mul_pow2, lor_shiftl_add by lia.
  replace (_ + _) with (le_word b0 b1 b2 b3) by (unfold le_word; lia). by rewrite le_bytes_word.
Qed.

Lemma words_le m : words false m = Rfc1321.le_words m.
Proof. revert m. fix IH 1. intros [|b0 [|b1 [|b2 [|b3 m]]]]; try reflexivity. cbn. by rewrite IH. Qed.

(** ** The transformation *)

Lemma F1_spec x y z : F1 x y z = Rfc1321.F x y z.
Proof.
  apply Z.bits_inj'. intros k Hk. unfold F1, Rfc1321.F. rewrite Z.lxor_spec, Z.land_spec, Z.lxor_spec, Z.lor_spec, !Z.land_spec, Z.lnot_spec by done.
  by destruct (Z.testbit x k), (Z.testbit y k), (Z.testbit z k).
Qed.

Lemma F2_spec x y z : F2 x y z = Rfc1321.G x y z.
Proof. unfold F2. rewrite F1_spec. unfold Rfc1321.F, Rfc1321.G. by rewrite (Z.land_comm z x), (Z.land_comm (Z.lnot z) y). Qed.

Lemma F3_spec x y z : F3 x y z = Rfc1321.H x y z.
Proof. apply Z.lxor_assoc. Qed.

(** The names of the variables in the order a step takes them; the next step has them moved on. *)
Definition names : Type := reg * reg * reg * reg.
Definition rot (n : names) : names := let '(w, x, y, z) := n in (z, w, x, y).
Definition distinct (n : names) : Prop := let '(w, x, y, z) := n in w ≠ x ∧ w ≠ y ∧ w ≠ z ∧ x ≠ y ∧ x ≠ z ∧ y ≠ z.
Definition look (n : names) (s : regs) : Z * Z * Z * Z := let '(w, x, y, z) := n in (get w s, get x s, get y s, get z s).

(** The macro calls from step [i] on are the steps of the RFC. *)
Fixpoint follows (i : nat) (n : names) (l : list step) : Prop :=
  match l with
  | [] => True
  | p :: l =>
      (st_w p, st_x p, st_y p, st_z p) = n ∧ st_in p = Rfc1321.idx i ∧ st_const p = nth i Rfc1321.T 0 ∧ st_shift p = Rfc1321.shift i ∧
      (∀ x y z, st_f p x y z = Rfc1321.fn i x y z) ∧ follows (S i) (rot n) l
  end.

Lemma rounds_follow : follows 0 (RA, RB, RC, RD) (round1 ++ round2 ++ round3 ++ round4).
Proof. repeat (do 4 (split; [reflexivity|]); split; [intros; first [apply F1_spec | apply F2_spec | apply F3_spec | reflexivity]|]). exact I. Qed.

Lemma get_put r r' v s : get r (put r' v s) = if decide (r = r') then v else get r s.
Proof. by destruct r, r'. Qed.

Lemma step_one X i n p l s :
  distinct n → follows i n (p :: l) → Rfc1321.one X i (look n s) = look (rot n) (MD5STEP X p s).
Proof.
  intros Hd (<- & Hj & Hk & Hs & Hf & _). unfold MD5STEP. rewrite Hj, Hk, Hs. cbn [look rot Rfc1321.one].
  destruct Hd as (Hwx & Hwy & Hwz & _).
  rewrite !get_put, (decide_False (P := st_x p = st_w p)), (decide_False (P := st_y p = st_w p)), (decide_False (P := st_z p = st_w p)), decide_True by done.
  rewrite Hf. unfold Rfc1321.rotl, to_uint.
  rewrite (Z.add_mod_idemp_r _ (Rfc1321.fn _ _ _ _ + _)), Z.add_assoc, Z.add_mod_idemp_r, !Z.add_assoc by lia. by rewrite (Z.add_comm (get (st_x p) s)).
Qed.

Lemma distinct_rot n : distinct n → distinct (rot n).
Proof. destruct n as [[[w x] y] z]. cbn. intros (? & ? & ? & ? & ? & ?). by split_and!. Qed.

Lemma steps_all X i n l s :
  distinct n → follows i n l →
  foldl (λ t i, Rfc1321.one X i t) (look n s) (seq i (length l)) = look (Nat.iter (length l) rot n) (foldl (λ t p, MD5STEP X p t) s l).
Proof.
  revert i n s. induction l as [|p l IH]; intros i n s Hd Hf; [done|]. cbn [length seq foldl].
  rewrite (step_one X i n p l s Hd Hf). rewrite IH; [|by apply distinct_rot|apply Hf].
  by rewrite <- Nat.iter_succ_r.
Qed.

Definition tuple (s : regs) : Z * Z * Z * Z := look (RA, RB, RC, RD) s.

Lemma add_back s t :
  tuple (mkRegs (to_uint (ra s + ra t)) (to_uint (rb s + rb t)) (to_uint (rc s + rc t)) (to_uint (rd s + rd t))) = Rfc1321.add4 (tuple s) (tuple t).
Proof. reflexivity. Qed.

Lemma all_steps X s :
  foldl (λ t i, Rfc1321.one X i t) (tuple s) (seq 0 64) = tuple (foldl (λ t p, MD5STEP X p t) s (round1 ++ round2 ++ round3 ++ round4)).
Proof.
  assert (Hl : length (round1 ++ round2 ++ round3 ++ round4) = 64%nat) by reflexivity.
  assert (Hr : Nat.iter 64 rot (RA, RB, RC, RD) = (RA, RB, RC, RD)) by reflexivity.
  pose proof (steps_all X 0 (RA, RB, RC, RD) _ s ltac:(done) rounds_follow) as Hall. rewrite Hl, Hr in Hall. exact Hall.
Qed.

Lemma MD5Transform_spec s X : tuple (MD5Transform s X) = Rfc1321.compress (tuple s) X.
Proof. unfold Rfc1321.compress. rewrite all_steps. unfold MD5Transform. apply add_back. Qed.

(** ** Whole blocks *)

Definition absorbed (m : list Z) : Z * Z * Z * Z := Rfc1321.absorb (length m) Rfc1321.start m.

Lemma absorb_more fuel fuel' s m : (length m ≤ fuel)%nat → (length m ≤ fuel')%nat → Rfc1321.absorb fuel s m = Rfc1321.absorb fuel' s m.
Proof.
  revert fuel' s m. induction fuel as [|fuel IH]; intros [|fuel'] s m H1 H2; cbn [Rfc1321.absorb]; [done| | |].
  - destruct m; [done|cbn in H1; lia].
  - destruct m; [done|cbn in H2; lia].
  - case_cmp; [|done]. apply IH; rewrite length_drop; lia.
Qed.

Lemma absorb_app k fuel s a b :
  zlen a = 64 * Z.of_nat k → (length (a ++ b) ≤ fuel)%nat →
  Rfc1321.absorb fuel s (a ++ b) = Rfc1321.absorb (length b) (Rfc1321.absorb (length a) s a) b.
Proof.
  revert fuel s a. induction k as [|k IH]; intros fuel s a Ha Hf.
  - destruct a; [|zlia]. cbn [app length Rfc1321.absorb]. by apply absorb_more.
  - rewrite length_app in Hf. destruct fuel as [|fuel]; [unfold zlen in *; lia|]. cbn [Rfc1321.absorb]. rewrite zlen_app. pose proof (zlen_nonneg b). solve_cmp.
    rewrite take_app_le, drop_app_le by (unfold zlen in *; lia). rewrite IH; [|rewrite zlen_drop; lia|rewrite length_app, length_drop; unfold zlen in *; lia].
    f_equal. destruct (length a) as [|la] eqn:El; [unfold zlen in *; lia|]. cbn [Rfc1321.absorb]. solve_cmp. apply absorb_more; rewrite length_drop; lia.
Qed.

Lemma absorbed_block k m blk :
  zlen m = 64 * Z.of_nat k → zlen blk = 64 → absorbed (m ++ blk) = Rfc1321.compress (absorbed m) (Rfc1321.le_words blk).
Proof.
  intros Hm Hb. unfold absorbed at 1. rewrite (absorb_app k) by done. fold (absorbed m).
  destruct (length blk) as [|n] eqn:Hl; [unfold zlen in *; lia|]. cbn [Rfc1321.absorb]. solve_cmp.
  rewrite take_ge, drop_ge by (unfold zlen in *; lia). by destruct n.
Qed.

(** ** The stream *)

(** The context has taken [whole] as whole blocks and keeps [rest]. *)
Record taken (ctx : ci_MD5Context) (whole rest : list Z) : Prop := {
  tk_buf : tuple (md_buf ctx) = absorbed whole;
  tk_whole : zlen whole mod 64 = 0;
  tk_room : zlen (md_in ctx) = 64;
  tk_rest : zlen rest < 64 ∧ slice (md_in ctx) 0 (zlen rest) = rest;
  tk_bytes : Forall is_byte rest
}.

Definition counted (ctx : ci_MD5Context) (n : Z) : Prop :=
  md_bits0 ctx = (8 * n) mod 2 ^ 32 ∧ md_bits1 ctx = (8 * n) / 2 ^ 32 mod 2 ^ 32.

(** The block is full. *)
Lemma md5_block_spec ctx whole blk :
  tuple (md_buf ctx) = absorbed whole → zlen whole mod 64 = 0 → zlen blk = 64 → md_in ctx = blk → Forall is_byte blk →
  taken (md5_block false ctx) (whole ++ blk) [] ∧ md_bits0 (md5_block false ctx) = md_bits0 ctx ∧ md_bits1 (md5_block false ctx) = md_bits1 ctx.
Proof.
  intros Hb Hw Hl Hin Hby. unfold md5_block. rewrite Hin. assert (length blk = 64%nat) as Hn by (unfold zlen in *; lia).
  rewrite byteReverse_id; [|lia|by apply Forall_take]. split; [|done]. split; cbn [md_buf md_in]; try done.
  - rewrite MD5Transform_spec, Hb, words_le. symmetry. apply (absorbed_block (Z.to_nat (zlen whole / 64))); [|done].
    pose proof (zlen_nonneg whole). Z.to_euclidean_division_equations; lia.
  - rewrite zlen_app, Hl. Z.to_euclidean_division_equations; lia.
Qed.

Lemma splice_fills m off r d :
  slice m 0 (zlen r) = r → off = zlen r → zlen r + zlen d = zlen m → splice m off d = r ++ d.
Proof.
  intros Hr -> Hl. unfold splice. unfold slice in Hr. rewrite drop_0 in Hr. rewrite Hr. f_equal. rewrite drop_ge, app_nil_r; [done|]. unfold zlen in *. lia.
Qed.

Lemma md5_blocks_spec fuel ctx whole d :
  taken ctx whole [] → Forall is_byte d → (length d / 64 < fuel)%nat →
  ∃ ctx' w' r', md5_blocks fuel false ctx d = Ret ctx' ∧ d = w' ++ r' ∧ taken ctx' (whole ++ w') r' ∧
    md_bits0 ctx' = md_bits0 ctx ∧ md_bits1 ctx' = md_bits1 ctx.
Proof.
  revert ctx whole d. induction fuel as [|fuel IH]; intros ctx whole d [T1 T2 T3 T4 T5] Hd Hf; [lia|]. cbn [md5_blocks].
  destruct (Z.leb_spec 64 (zlen d)) as [Hlen|Hlen].
  - rewrite write_bytes_ok by (rewrite ?zlen_take; lia). cbn [obind]. set (c := set_in _ ctx).
    assert (Hin : md_in c = take 64 d).
    { apply (splice_fills _ 0 []); [done..|]. rewrite zlen_take. change (zlen []) with 0. lia. }
    destruct (md5_block_spec c whole (take 64 d)) as (Htk & B0 & B1); try done; [rewrite zlen_take; lia|by apply Forall_take|].
    destruct (IH (md5_block false c) (whole ++ take 64 d) (drop 64 d)) as (c' & w' & r' & -> & Hdr & Htk' & C0 & C1); [done|by apply Forall_drop| |].
    { rewrite length_drop. replace (length d) with (1 * 64 + (length d - 64))%nat in Hf by (unfold zlen in *; lia). rewrite Nat.div_add_l in Hf by lia. lia. }
    exists c', (take 64 d ++ w'), r'. split; [done|]. split; [by rewrite <- app_assoc, <- Hdr, take_drop|]. rewrite app_assoc. split_and!; [done|by rewrite C0, B0|by rewrite C1, B1].
  - rewrite write_bytes_ok by zlia. cbn [obind]. eexists _, [], d. split; [done|]. split; [done|]. rewrite app_nil_r. split; [|done]. split; cbn [md_buf md_in set_in]; try done.
    + rewrite zlen_splice; zlia.
    + split; [done|]. apply slice_splice_same; zlia.
Qed.

Lemma count_spec ctx n len t :
  counted ctx n → 0 ≤ n → 0 ≤ len → t = md_bits0 ctx →
  let bits0 := to_uint (t + to_uint (Z.shiftl (to_uint len) 3)) in
  let bits1 := if bits0 <? t then to_uint (md_bits1 ctx + 1) else md_bits1 ctx in
  bits0 = (8 * (n + len)) mod 2 ^ 32 ∧ to_uint (bits1 + Z.shiftr len 29) = (8 * (n + len)) / 2 ^ 32 mod 2 ^ 32 ∧
  Z.land (Z.shiftr t 3) 0x3f = n mod 64.
Proof.
  intros [C0 C1] Hn Hl -> bits0 bits1. unfold bits1, bits0. clear bits0 bits1. rewrite C0, C1. unfold to_uint.
  rewrite Z.shiftl_mul_pow2, !Z.shiftr_div_pow2 by lia. change 0x3f with (Z.ones 6). rewrite Z.land_ones by lia.
  change (2 ^ 32) with 4294967296. change (2 ^ 29) with 536870912. change (2 ^ 6) with 64. change (2 ^ 3) with 8.
  assert (H1 : (8 * n mod 4294967296 + len mod 4294967296 * 8 mod 4294967296) mod 4294967296 = 8 * (n + len) mod 4294967296).
  { Z.to_euclidean_division_equations; lia. }
  split; [done|]. rewrite H1. split; [|Z.to_euclidean_division_equations; lia].
  destruct (Z.ltb_spec (8 * (n + len) mod 4294967296) (8 * n mod 4294967296)); Z.to_euclidean_division_equations; lia.
Qed.

Lemma md5_update_spec fuel ctx whole rest d :
  taken ctx whole rest → counted ctx (zlen (whole ++ rest)) → Forall is_byte d → (length d / 64 < fuel)%nat →
  ∃ ctx' w' r', ci_MD5Update fuel false ctx d = Ret ctx' ∧ (whole ++ rest) ++ d = w' ++ r' ∧ taken ctx' w' r' ∧ counted ctx' (zlen (w' ++ r')).
Proof.
  intros Htk Hc Hd Hf. pose proof Htk as [T1 T2 T3 [T4 T4'] T5]. pose proof (zlen_nonneg d). pose proof (zlen_nonneg rest). pose proof (zlen_nonneg whole).
  unfold ci_MD5Update. destruct (count_spec ctx _ (zlen d) _ Hc (zlen_nonneg _) (zlen_nonneg d) eq_refl) as (K0 & K1 & K2). cbv zeta in K0, K1. cbv zeta. rewrite K1, K0, K2.
  rewrite zlen_app in *. replace ((zlen whole + zlen rest) mod 64) with (zlen rest) by (Z.to_euclidean_division_equations; lia).
  set (c := mkCtx _ _ _ _). assert (Hcnt : ∀ c' w r, md_bits0 c' = md_bits0 c → md_bits1 c' = md_bits1 c → (whole ++ rest) ++ d = w ++ r → counted c' (zlen (w ++ r))).
  { intros c' w r E0 E1 <-. unfold counted. by rewrite E0, E1, !zlen_app. }
  destruct (Z.eqb_spec (zlen rest) 0) as [Hr|Hr].
  { assert (rest = []) as -> by (destruct rest; [done|zlia]). destruct (md5_blocks_spec fuel c whole d) as (c' & w' & r' & -> & -> & Htk' & E0 & E1); [by split|done|done|].
    exists c', (whole ++ w'), r'. assert (((whole ++ []) ++ w' ++ r') = (whole ++ w') ++ r') by (by rewrite app_nil_r, app_assoc). split_and!; auto. }
  destruct (Z.ltb_spec (zlen d) (64 - zlen rest)) as [Hs|Hs].
  - rewrite write_bytes_ok by (cbn [md_in c]; lia). cbn [obind]. eexists _, whole, (rest ++ d). split; [done|]. rewrite app_assoc. split; [done|].
    split; [|rewrite <- app_assoc; apply Hcnt; [done..|by rewrite app_assoc]]. split; cbn [md_buf md_in set_in c]; try done.
    + rewrite zlen_splice; lia.
    + rewrite zlen_app. split; [lia|]. rewrite (slice_split _ 0 (zlen rest)) by (rewrite ?zlen_splice; lia).
      rewrite slice_splice_before, slice_splice_same, T4' by lia. done.
    + by apply Forall_app.
  - rewrite write_bytes_ok by (rewrite ?zlen_take; cbn [md_in c]; lia). cbn [obind]. set (k := Z.to_nat (64 - zlen rest)). set (c1 := set_in _ c).
    assert (Hin : md_in c1 = rest ++ take k d) by (apply splice_fills; [done..|rewrite zlen_take; change (md_in c) with (md_in ctx); lia]).
    destruct (md5_block_spec c1 whole (rest ++ take k d)) as (Htk1 & B0 & B1); try done.
    { rewrite zlen_app, zlen_take. lia. }
    { apply Forall_app. split; [done|by apply Forall_take]. }
    destruct (md5_blocks_spec fuel (md5_block false c1) _ (drop k d) Htk1) as (c' & w' & r' & -> & Hdr & Htk' & E0 & E1); [by apply Forall_drop| |].
    { rewrite length_drop. apply (Nat.le_lt_trans _ (length d / 64)); [|done]. apply Nat.Div0.div_le_mono. lia. }
    exists c', ((whole ++ rest ++ take k d) ++ w'), r'. assert (Heq : (whole ++ rest) ++ d = ((whole ++ rest ++ take k d) ++ w') ++ r').
    { by rewrite <- (take_drop k d) at 1; rewrite Hdr, <- !app_assoc. }
    split_and!; try done. apply Hcnt; [by rewrite E0, B0|by rewrite E1, B1|done].
Qed.

Lemma md5_updates_spec fuel ctx whole rest ds :
  taken ctx whole rest → counted ctx (zlen (whole ++ rest)) → Forall (Forall is_byte) ds → Forall (λ d, (length d / 64 < fuel)%nat) ds →
  ∃ ctx' w' r', updates fuel false ctx ds = Ret ctx' ∧ (whole ++ rest) ++ concat ds = w' ++ r' ∧ taken ctx' w' r' ∧ counted ctx' (zlen (w' ++ r')).
Proof.
  intros Htk Hc Hds. revert ctx whole rest Htk Hc. induction Hds as [|d ds Hd _ IH]; intros ctx whole rest Htk Hc Hf; cbn [updates concat].
  { exists ctx, whole, rest. by rewrite app_nil_r. }
  apply Forall_cons_1 in Hf as [Hf Hfs]. destruct (md5_update_spec fuel ctx whole rest d Htk Hc Hd Hf) as (c1 & w1 & r1 & -> & Heq & Htk1 & Hc1). cbn [obind].
  destruct (IH c1 w1 r1 Htk1 Hc1 Hfs) as (c2 & w2 & r2 & -> & Heq2 & Htk2 & Hc2). exists c2, w2, r2. by rewrite app_assoc, Heq, Heq2.
Qed.

(** ** The end *)

Lemma splice_prefix m off r d :
  slice m 0 (zlen r) = r → off = zlen r → zlen r + zlen d ≤ zlen m → splice m off d = r ++ d ++ drop (Z.to_nat (zlen r + zlen d)) m.
Proof. intros Hr -> Hl. unfold splice. unfold slice in Hr. rewrite drop_0 in Hr. rewrite Hr. repeat f_equal. unfold zlen. lia. Qed.

(** Bytes written one after another. *)
Lemma write_next m r d k :
  slice m 0 (zlen r) = r → zlen r + zlen d ≤ zlen m → k = zlen r →
  ∃ m', write_bytes m k d = Ret m' ∧ zlen m' = zlen m ∧ slice m' 0 (zlen (r ++ d)) = r ++ d.
Proof.
  intros Hr Hl ->. pose proof (zlen_nonneg r). pose proof (zlen_nonneg d). eexists. split; [by apply write_bytes_ok|]. split; [apply zlen_splice; lia|].
  rewrite (splice_prefix m _ r) by done. rewrite app_assoc, slice_app_l by (rewrite ?zlen_app; lia). by apply slice_all.
Qed.

Lemma le_bytes_len w : zlen (le_bytes w) = 4.
Proof. done. Qed.

Lemma le_bytes_bytes w : Forall is_byte (le_bytes w).
Proof. repeat constructor; apply Z.mod_pos_bound; lia. Qed.

Lemma zeros_bytes n : Forall is_byte (replicate n 0).
Proof. apply Forall_replicate. done. Qed.

(** The block with the number of bits. *)
Lemma last_block s m r b0 b1 :
  zlen m = 64 → slice m 0 56 = r → Forall is_byte r →
  (let m := byteReverse false m 14 in
   let* m := write_bytes m 56 (bytes_of false b0) in
   let* m := write_bytes m 60 (bytes_of false b1) in
   let s := MD5Transform s (words false m) in
   Ret (byteReverse false (buf_bytes false s) 4, mkCtx (mkRegs 0 0 0 0) 0 0 (replicate 64 0))) =
  (let s := MD5Transform s (Rfc1321.le_words (r ++ le_bytes b0 ++ le_bytes b1)) in
   Ret (buf_bytes false s, mkCtx (mkRegs 0 0 0 0) 0 0 (replicate 64 0))).
Proof.
  intros Hm Hr Hb. assert (Hl : zlen r = 56) by (subst r; apply zlen_slice; lia).
  rewrite byteReverse_id; [|unfold zlen in *; lia|unfold slice in Hr; rewrite drop_0 in Hr; change (Z.to_nat 56) with (4 * 14)%nat in Hr; by rewrite Hr]. cbn zeta.
  change (bytes_of false b0) with (le_bytes b0). change (bytes_of false b1) with (le_bytes b1).
  destruct (write_next m r (le_bytes b0) 56) as (m1 & -> & Hm1 & Hs1); [by rewrite Hl|rewrite Hl, Hm; done|done|]. cbn [obind].
  destruct (write_next m1 (r ++ le_bytes b0) (le_bytes b1) 60) as (m2 & -> & Hm2 & Hs2); [done|rewrite zlen_app, Hl, Hm1, Hm; done|by rewrite zlen_app, Hl|]. cbn [obind].
  rewrite slice_all in Hs2 by (rewrite !zlen_app, Hl, Hm2, Hm1, Hm; done). rewrite Hs2, words_le, <- app_assoc.
  rewrite byteReverse_id; [done|done|]. unfold buf_bytes, bytes_of. apply Forall_take. rewrite !Forall_app. split_and!; apply le_bytes_bytes.
Qed.

Lemma md5_of m s : tuple s = absorbed (Rfc1321.pad m) → buf_bytes false s = Rfc1321.md5 m.
Proof. unfold Rfc1321.md5, absorbed, buf_bytes, bytes_of. intros <-. by destruct s. Qed.

Lemma md5_final_spec ctx whole rest :
  taken ctx whole rest → counted ctx (zlen (whole ++ rest)) → ∃ ctx', ci_MD5Final false ctx = Ret (Rfc1321.md5 (whole ++ rest), ctx').
Proof.
  intros [T1 T2 T3 [T4 T4'] T5] [C0 C1]. pose proof (zlen_nonneg rest). pose proof (zlen_nonneg whole). unfold ci_MD5Final.
  destruct (count_spec ctx (zlen (whole ++ rest)) 0 (md_bits0 ctx) ltac:(by split) (zlen_nonneg _) ltac:(lia) eq_refl) as (_ & _ & Hcount). rewrite Hcount.
  assert (Hmod : zlen (whole ++ rest) mod 64 = zlen rest) by (rewrite zlen_app; Z.to_euclidean_division_equations; lia). rewrite Hmod. clear Hcount.
  assert (Hpad : ∀ z, (55 - zlen (whole ++ rest)) mod 64 = z → Rfc1321.pad (whole ++ rest) = whole ++ rest ++ [0x80] ++ replicate (Z.to_nat z) 0 ++ le_bytes (md_bits0 ctx) ++ le_bytes (md_bits1 ctx)).
  { intros z <-. unfold Rfc1321.pad. by rewrite C0, C1, <- app_assoc. }
  rewrite store_splice by lia.
  destruct (write_next (md_in ctx) rest [0x80] (zlen rest) T4' ltac:(rewrite T3; change (zlen [128]) with 1; lia) eq_refl) as (m1 & Hw1 & Hm1 & Hs1).
  rewrite write_bytes_ok in Hw1 by (rewrite ?T3; change (zlen [128]) with 1; lia). injection Hw1 as ->. cbn [obind].
  assert (Hr1 : zlen (rest ++ [128]) = zlen rest + 1) by (by rewrite zlen_app).
  assert (Hb1 : Forall is_byte (rest ++ [128])) by (apply Forall_app; split; [done|by repeat constructor]).
  destruct (Z.ltb_spec (64 - 1 - zlen rest) 8) as [Hlt|Hge].
  - set (z := replicate (Z.to_nat (64 - 1 - zlen rest)) 0).
    assert (Hz : zlen z = 63 - zlen rest) by (unfold z; rewrite zlen_replicate; lia).
    destruct (write_next m1 (rest ++ [128]) z (zlen rest + 1) Hs1 ltac:(lia) ltac:(done)) as (m2 & -> & Hm2 & Hs2). cbn [obind].
    rewrite slice_all in Hs2 by (rewrite zlen_app; lia).
    destruct (md5_block_spec (set_in m2 ctx) whole m2) as ([U1 U2 U3 _ _] & B0 & B1); try done; [lia| |].
    { rewrite Hs2. apply Forall_app. split; [done|apply zeros_bytes]. }
    destruct (write_next (md_in (md5_block false (set_in m2 ctx))) [] (replicate 56 0) 0) as (m3 & -> & Hm3 & Hs3); [done|rewrite U3; done|done|]. cbn [obind].
    cbn [md_in md_buf md_bits0 md_bits1 set_in]. rewrite (last_block _ m3 (replicate 56 0)) by (done || apply zeros_bytes || congruence). eexists. cbn zeta. repeat f_equal.
    apply md5_of. rewrite MD5Transform_spec, U1. rewrite <- (absorbed_block (Z.to_nat (zlen (whole ++ m2) / 64))); [|pose proof (zlen_nonneg (whole ++ m2)); Z.to_euclidean_division_equations; lia|done].
    f_equal. rewrite (Hpad (63 - zlen rest + 56)).
    + rewrite Hs2. unfold z. rewrite Z2Nat.inj_add, replicate_add by lia. change (Z.to_nat 56) with 56%nat. replace (64 - 1 - zlen rest) with (63 - zlen rest) by lia. by rewrite <- !app_assoc.
    + rewrite zlen_app in *. Z.to_euclidean_division_equations; lia.
  - set (z := replicate (Z.to_nat (64 - 1 - zlen rest - 8)) 0).
    assert (Hz : zlen z = 55 - zlen rest) by (unfold z; rewrite zlen_replicate; lia).
    destruct (write_next m1 (rest ++ [128]) z (zlen rest + 1) Hs1 ltac:(lia) ltac:(done)) as (m2 & -> & Hm2 & Hs2). cbn [obind].
    cbn [md_in md_buf md_bits0 md_bits1 set_in].
    rewrite (last_block _ m2 ((rest ++ [128]) ++ z)); [|lia|rewrite <- Hs2; f_equal; rewrite zlen_app; lia|apply Forall_app; split; [done|apply zeros_bytes]].
    eexists. cbn zeta. repeat f_equal. apply md5_of. rewrite MD5Transform_spec, T1.
    rewrite <- (absorbed_block (Z.to_nat (zlen whole / 64))); [|Z.to_euclidean_division_equations; lia|rewrite !zlen_app, Hz, !le_bytes_len; change (zlen [128]) with 1; lia].
    f_equal. rewrite (Hpad (55 - zlen rest)).
    + unfold z. replace (64 - 1 - zlen rest - 8) with (55 - zlen rest) by lia. by rewrite <- !app_assoc.
    + rewrite zlen_app in *. Z.to_euclidean_division_equations; lia.
Qed.

(** C31: on a little-endian machine the library computes the MD5 of RFC 1321.  Whatever the context held before [ci_MD5Init], and
    however the message is cut into calls of [ci_MD5Update], [ci_MD5Final] gives the digest of the whole message; no
    call writes outside of the context, whatever the lengths. *)
Theorem md5_computes_rfc1321 fuel ctx ds :
  zlen (md_in ctx) = 64 → Forall (Forall is_byte) ds → Forall (λ d, (length d / 64 < fuel)%nat) ds →
  digest fuel false ctx ds = Ret (Rfc1321.md5 (concat ds)).
Proof.
  intros Hin Hb Hf. unfold digest.
  destruct (md5_updates_spec fuel (ci_MD5Init ctx) [] [] ds) as (c & w & r & -> & Heq & Htk & Hc); [by split|by split|done|done|].
  cbn [obind app] in Heq |- *. destruct (md5_final_spec c w r Htk Hc) as (c' & ->). cbn [obind]. by rewrite Heq.
Qed.

Definition sample_ctx : ci_MD5Context := mkCtx (mkRegs 1 2 3 4) 5 6 (replicate 64 255).

Lemma md5_computes_rfc1321_witness :
  digest 2 false sample_ctx [bytes "mess"; []; bytes "age digest"] = Ret (Rfc1321.md5 (bytes "message digest")).
Proof.
  apply (md5_computes_rfc1321 2 sample_ctx [bytes "mess"; []; bytes "age digest"]); [reflexivity| |].
  - repeat constructor; vm_compute; (reflexivity || discriminate).
  - repeat constructor.
Defined.

(** Digests of the test suite of the RFC. *)
Definition hex (s : string) : Z :=
  foldl (λ a c, 16 * a + (if c <? 58 then c - 48 else c - 87)) 0 (bytes s).
Definition number (d : list Z) : Z := foldl (λ a c, 256 * a + c) 0 d.

Example rfc1321_test_suite :
  number (Rfc1321.md5 (bytes "")) = hex "d41d8cd98f00b204e9800998ecf8427e" ∧
  number (Rfc1321.md5 (bytes "abc")) = hex "900150983cd24fb0d6963f7d28e17f72" ∧
  number (Rfc1321.md5 (bytes "12345678901234567890123456789012345678901234567890123456789012345678901234567890")) =
    hex "57edf4a22be3c955ac49da2e2107b67a".
Proof. split_and!; vm_compute; reflexivity. Qed.

(** Where [WORDS_BIGENDIAN] is defined [byteReverse] is empty, and the words are read high byte first: the digest is another one. *)
Lemma md5_big_endian_differs : ∃ d, digest 2 true sample_ctx [bytes "abc"] = Ret d ∧ d ≠ Rfc1321.md5 (bytes "abc").
Proof. eexists. split; [vm_compute; reflexivity|]. vm_compute. discriminate. Qed.
