(* ===== verification/Keepalive.v ===== *)
(** * The life of a request on its connection (request_common.c, request.c)

    A request is allocated with its connection ([ci_request_alloc]), served, and reset for the next request of the
    same connection ([ci_request_reset], [keepalive_request]).  The theorems say when a
    connection is kept after an error, and what the reset request is. *)

From stdpp Require Import base list list_numbers strings numbers option.
From Stdlib Require Import ZArith Lia.
From S2P Require Import Prelude CString Chunks ReadBody SendBody RingBuf Headers Encapsulated IcapHeader ParseRequest HttpApi Session Response Options Server.

Section life.
Context (junk : Z → Z) {D : Type}.

(** The stream of a request from which nothing was read. *)
Definition new_rstream : rstream := mkRstream 0 0 0 0 0 false (-1) 0 0 0.

(** [h1], [h2] and [h3] are the lists [ci_headers_create] gave, [evs] and [c] the connection; [a] is the
    result of the allocation. *)
Definition ci_request_alloc (a : bool) (h1 h2 h3 : ci_headers_list_t) (evs : list net_event) (c : conn) : option (session D) :=
  if negb a then None
  else Some (mkSession
    (mkReq (-1) [] [] [] (-1) true false false None h1 (mkEncaps (replicate 5 None) (replicate 7 None) false)
       (mkReader new_rstream BNull (buf h1) (fresh junk 0 BUFSIZE) evs 0 ci_buf_init))
    SEND_NOTHING None (mkWstream (fresh junk 0 WBUF_SIZE) 0 0 false false (-1) 0 0) ONull h2 h3 false true None 0 c None).

(** [for (i = 0; req->entities[i] != NULL; i++) ci_request_release_entity(req, i);] *)
Fixpoint release_entities (n : nat) (i : Z) (r : encaps) : outcome encaps :=
  let* o := arr_get (entities r) i in
  match o, n with
  | None, _ => Ret r
  | Some _, O => NoFuel
  | Some _, S n' => let* (_, r) := ci_request_release_entity r i in release_entities n' (i + 1) r
  end.

(** The header list of a released entity is emptied. *)
Definition reset_trash (t : Z) (ts : list (option ci_encaps_entity_t)) : outcome (list (option ci_encaps_entity_t)) :=
  let* o := arr_get ts t in
  match o with
  | Some (mkEntity st ty (Some h)) => arr_set ts t (Some (mkEntity st ty (Some (ci_headers_reset h))))
  | _ => Ret ts
  end.

Definition reset_entities (r : encaps) : outcome encaps :=
  let* r := release_entities 5 0 r in
  let* ts := reset_trash ICAP_REQ_HDR (trash_entities r) in
  let* ts := reset_trash ICAP_RES_HDR ts in
  Ret (mkEncaps (entities r) ts false).

Definition ci_request_reset (s : session D) : outcome (session D) :=
  let q := ss_req s in
  let r := rq_reader q in
  let w := ss_out s in
  let h := ci_headers_reset (request_header q) in
  let* e := reset_entities (rq_encaps q) in
  Ret (mkSession
    (mkReq (-1) (req_server q) [] [] (-1) true false false None h e
       (mkReader new_rstream BNull (rd_hdr r) (rd_rbuf r) (rd_conn r) 0 (ci_buf_reset (rd_preview r))))
    SEND_NOTHING None (mkWstream (ws_wbuf w) 0 0 false false (-1) 0 0) ONull
    (ci_headers_reset (ss_response s)) (ci_headers_reset (ss_xheaders s)) false true None 0 (ss_conn s) None).

(** [keepalive_request]: with pipelining, the bytes read after the request are kept. *)
Definition keepalive_request (pipelining halt : bool) (s : session D) : outcome (Z * session D) :=
  let r := ss_reader s in
  let t := ss_stream s in
  let* s := ci_request_reset s in
  let s :=
    if pipelining then
      let r' := ss_reader s in
      with_reader (mkReader (set_block (pstrblock_read t) (pstrblock_read_len t) (rd_stream r')) (rd_loc r) (rd_hdr r')
        (rd_rbuf r') (rd_conn r') (rd_bytes_in r') (rd_preview r')) s
    else s in
  let null := match rd_loc (ss_reader s) with BNull => true | _ => false end in
  if negb null && (0 <? pstrblock_read_len (ss_stream s)) then Ret (1, s)
  else
  let '(w, c) := wait_for_data halt ci_wait_for_read (ss_conn s) in
  Ret (w, with_conn 0 c s).

(** ** The reset request *)

(** The array of entities is ended by its first null pointer, and released entities have their places. *)
Definition null_ended (r : encaps) : Prop :=
  (∃ ds n, entities r = map Some ds ++ replicate (S n) None ∧ length (entities r) = 5%nat) ∧ zlen (trash_entities r) = 7.

Lemma release_entity_spec r pre x post :
  entities r = pre ++ Some x :: post → zlen (trash_entities r) = 7 →
  ∃ b tr, ci_request_release_entity r (zlen pre) = Ret (b, mkEncaps (pre ++ None :: post) tr (hasbody r)) ∧ zlen tr = 7.
Proof.
  intros He Ht. unfold ci_request_release_entity, arr_get, arr_set. rewrite He.
  rewrite (proj2 (Z.ltb_ge _ _)) by zlia. rewrite zlen_to_nat, list_lookup_middle by done. cbn [obind].
  rewrite (proj2 (Z.leb_le _ _)), (proj2 (Z.ltb_lt _ _)) by (rewrite ?zlen_app, ?zlen_cons; zlia). cbn [andb obind].
  replace (<[length pre := None]> (pre ++ Some x :: post)) with (pre ++ None :: post)
    by (by rewrite insert_app_r_alt, Nat.sub_diag by lia).
  destruct (_ || _) eqn:E; [by eexists _, _|]. apply orb_false_iff in E as [E1 E2].
  rewrite Ht. unfold ICAP_OPT_BODY in E1. apply Z.ltb_ge in E1, E2.
  rewrite (proj2 (Z.leb_le _ _)), (proj2 (Z.ltb_lt _ _)) by lia. cbn [andb obind]. eexists _, _. split; [done|].
  unfold zlen in *. by rewrite length_insert.
Qed.

Lemma release_entities_spec n : ∀ ds k m r,
  entities r = replicate k None ++ map Some ds ++ replicate (S m) None → (length ds ≤ n)%nat → zlen (trash_entities r) = 7 →
  ∃ tr, release_entities n (Z.of_nat k) r = Ret (mkEncaps (replicate (k + length ds + S m) None) tr (hasbody r)) ∧ zlen tr = 7.
Proof.
  assert (Hnull : ∀ k m, arr_get (replicate k (@None ci_encaps_entity_t) ++ replicate (S m) None) (Z.of_nat k) = Ret None).
  { intros k m. unfold arr_get. rewrite (proj2 (Z.ltb_ge _ _)) by lia. rewrite Nat2Z.id, lookup_app_r by (by rewrite length_replicate).
    by rewrite length_replicate, Nat.sub_diag. }
  induction n as [|n IH]; intros ds k m r He Hn Ht.
  - destruct ds; [|cbn in Hn; lia]. cbn [release_entities]. rewrite He. cbn [map app]. rewrite Hnull. cbn [obind].
    exists (trash_entities r). split; [|done]. cbn [length]. rewrite Nat.add_0_r, replicate_add. cbn [map app] in He. rewrite <- He. by destruct r.
  - destruct ds as [|x ds]; cbn [release_entities]; rewrite He.
    { cbn [map app]. rewrite Hnull. cbn [obind]. exists (trash_entities r). split; [|done].
      cbn [length]. rewrite Nat.add_0_r, replicate_add. cbn [map app] in He. rewrite <- He. by destruct r. }
    cbn [map app] in *. unfold arr_get at 1. rewrite (proj2 (Z.ltb_ge _ _)) by lia. rewrite Nat2Z.id.
    rewrite list_lookup_middle by (by rewrite length_replicate). cbn [obind].
    destruct (release_entity_spec r (replicate k None) x (map Some ds ++ replicate (S m) None) He Ht) as (b & tr & Hrel & Htr).
    unfold zlen in Hrel. rewrite length_replicate in Hrel. rewrite Hrel. cbn [obind].
    replace (Z.of_nat k + 1) with (Z.of_nat (S k)) by lia.
    destruct (IH ds (S k) m (mkEncaps (replicate k None ++ None :: map Some ds ++ replicate (S m) None) tr (hasbody r))) as (tr2 & -> & Htr2);
      [|cbn in Hn; lia|done|].
    + cbn [entities]. by rewrite (replicate_S_end k None), <- (assoc_L (++)).
    + exists tr2. split; [|done]. cbn [hasbody length]. do 3 f_equal. lia.
Qed.

Lemma reset_trash_spec t ts :
  0 ≤ t < zlen ts → ∃ ts', reset_trash t ts = Ret ts' ∧ zlen ts' = zlen ts ∧
    (∀ k, k ≠ Z.to_nat t → ts' !! k = ts !! k) ∧
    match ts' !! Z.to_nat t with Some (Some (mkEntity _ _ (Some h))) => used h = 0 | _ => True end.
Proof.
  intros Ht. unfold reset_trash, arr_get. rewrite (proj2 (Z.ltb_ge _ _)) by lia.
  destruct (lookup_lt_is_Some_2 ts (Z.to_nat t)) as (o & Ho); [unfold zlen in Ht; lia|]. rewrite Ho. cbn [obind].
  destruct o as [[st ty [h|]]|]; [|exists ts; by rewrite Ho..].
  unfold arr_set. rewrite (proj2 (Z.leb_le _ _)), (proj2 (Z.ltb_lt _ _)) by lia. cbn [andb].
  eexists. split; [done|]. split; [unfold zlen; by rewrite length_insert|]. split.
  - intros k Hk. by apply list_lookup_insert_ne.
  - rewrite list_lookup_insert_eq; [done|]. by eapply lookup_lt_Some.
Qed.

(** A request as [ci_request_alloc] makes it, but for the memory it owns. *)
Definition as_new (s : session D) : Prop :=
  let q := ss_req s in
  let r := rq_reader q in
  let w := ss_out s in
  rtype q = -1 ∧ service q = [] ∧ args q = [] ∧ preview q = -1 ∧ keepalive q = true ∧ allow204 q = false ∧ allow206 q = false ∧
  current_service_mod q = None ∧ used (request_header q) = 0 ∧ used (ss_response s) = 0 ∧ used (ss_xheaders s) = 0 ∧
  entities (rq_encaps q) = replicate 5 None ∧ hasbody (rq_encaps q) = false ∧
  rd_stream r = new_rstream ∧ rd_loc r = BNull ∧ rd_bytes_in r = 0 ∧ bused (rd_preview r) = 0 ∧
  ss_status s = SEND_NOTHING ∧ ss_code s = None ∧ remain s = 0 ∧ responce_hasbody w = false ∧ is_ec_206 w = false ∧
  use_original_body w = -1 ∧ http_bytes_out w = 0 ∧ body_bytes_out w = 0 ∧ ss_loc s = ONull ∧ ss_packed s = false ∧
  ss_locked s = true ∧ ss_echo s = None ∧ ss_bytes_out s = 0 ∧ ss_data s = None.

Lemma alloc_as_new h1 h2 h3 evs c s :
  used h1 = 0 → used h2 = 0 → used h3 = 0 → ci_request_alloc true h1 h2 h3 evs c = Some s → as_new s.
Proof. intros ? ? ? [= <-]. unfold as_new. cbn. by split_and!. Qed.

Lemma ci_request_reset_spec (s : session D) :
  null_ended (rq_encaps (ss_req s)) →
  ∃ s', ci_request_reset s = Ret s' ∧ as_new s' ∧
    ci_http_request_headers (rq_encaps (ss_req s')) = Ret None ∧ ci_http_response_headers (rq_encaps (ss_req s')) = Ret None ∧
    ss_conn s' = ss_conn s ∧ rd_conn (ss_reader s') = rd_conn (ss_reader s) ∧
    rd_hdr (ss_reader s') = rd_hdr (ss_reader s) ∧ rd_rbuf (ss_reader s') = rd_rbuf (ss_reader s).
Proof.
  intros ((ds & n & He & Hl) & Ht). unfold ci_request_reset, reset_entities.
  rewrite He, length_app, length_map, length_replicate in Hl.
  destruct (release_entities_spec 5 ds 0 n (rq_encaps (ss_req s)) He ltac:(lia) Ht) as (tr & Hrel & Htr).
  change (Z.of_nat 0) with 0 in Hrel. rewrite Hrel. cbn [obind trash_entities entities].
  replace (0 + length ds + S n)%nat with 5%nat by lia.
  destruct (reset_trash_spec ICAP_REQ_HDR tr) as (t1 & -> & Hz1 & _ & Hu1); [by rewrite Htr|]. cbn [obind].
  destruct (reset_trash_spec ICAP_RES_HDR t1) as (t2 & -> & Hz2 & Hk2 & _); [by rewrite Hz1, Htr|]. cbn [obind].
  rewrite <- (Hk2 (Z.to_nat ICAP_REQ_HDR)) in Hu1 by done.
  eexists. split; [done|]. split; [by unfold as_new; cbn; split_and!|]. split; [|by split_and!].
  unfold ci_http_request_headers. cbn [ss_req rq_encaps entities trash_entities].
  change (arr_get (replicate 5 None) 0) with (Ret (@None ci_encaps_entity_t)). cbn [obind].
  unfold arr_get. change (ICAP_REQ_HDR <? 0) with false. cbn match. destruct (t2 !! Z.to_nat ICAP_REQ_HDR) as [o|] eqn:Eo.
  - cbn [obind]. destruct o as [[st ty [h|]]|]; [|done..]. by rewrite Hu1.
  - exfalso. apply lookup_ge_None_1 in Eo. unfold zlen in Hz1, Hz2, Htr. change (Z.to_nat ICAP_REQ_HDR) with 0%nat in Eo. lia.
Qed.
End life.

(** ** Errors close the connection *)

Section closing.
Context (junk : Z → Z) (ai ab : bool) (env : server_env) {D : Type} (ops : service_ops D).

Lemma ec_responce_req (s : session D) e n s' : ec_responce junk ai ab env s e = Ret (n, s') → ss_req s' = ss_req s.
Proof.
  unfold ec_responce. intros H. do 8 (apply obind_Ret in H as (? & _ & H)).
  destruct (ci_write _ _) as [len c]. destruct (len <? 0); by injection H as <- <-.
Qed.

Lemma ec_responce_code (s : session D) e n s' : ec_responce junk ai ab env s e = Ret (n, s') →
  ss_code s' = Some e ∨ ss_code s' = Some EC_200.
Proof.
  unfold ec_responce. intros H. do 8 (apply obind_Ret in H as (? & _ & H)).
  destruct (ci_write _ _) as [len c].
  destruct (len <? 0); injection H as <- <-; cbn; destruct (_ && _); auto.
Qed.

Lemma close_with_closes (s : session D) e c s' : close_with junk ai ab env e s = Ret (c, s') →
  c = CI_ERROR ∧ keepalive (ss_req s') = false.
Proof.
  unfold close_with. intros H. apply obind_Ret in H as ([n s1] & H1 & H). apply ec_responce_req in H1.
  injection H as <- <-. by rewrite H1.
Qed.

Lemma answer_204_closes (s : session D) c s' : answer_204 junk ai ab env s = Ret (c, s') →
  (c = CI_ERROR ∧ keepalive (ss_req s') = false) ∨
  (c = CI_OK ∧ (ss_code s' = Some EC_204 ∨ ss_code s' = Some EC_200)).
Proof.
  unfold answer_204. intros H. apply obind_Ret in H as ([n s1] & H1 & H).
  destruct (n <? 0); injection H as <- <-; [by left|right]. by apply ec_responce_code in H1.
Qed.

(** The codes with which a request goes on after the preview. *)
Definition go_on (c : Z) (s : session D) : Prop :=
  c = CI_EOF ∨ ss_code s = Some EC_100 ∨ ss_code s = Some EC_200 ∨ ss_code s = Some EC_204 ∨ ss_code s = Some EC_206.

Lemma do_request_preview_closes fuel pf (s : session D) c s' :
  do_request_preview junk ai ab env ops fuel pf s = Ret (c, s') →
  (c = CI_ERROR ∧ keepalive (ss_req s') = false) ∨ (c ≠ CI_ERROR ∧ go_on c s').
Proof.
  unfold do_request_preview, go_on. intros H. apply obind_Ret in H as ([st s1] & _ & H).
  destruct (Z.eqb_spec st CI_ERROR) as [|Hst]; [left; by apply close_with_closes in H|].
  apply obind_Ret in H as ([res s2] & _ & H).
  destruct (res =? CI_MOD_ALLOW204).
  { apply answer_204_closes in H as [|[-> [H|H]]]; [by left|right..]; split; auto; done. }
  destruct (_ && _); [right; injection H as <- <-; split; [done|auto]|].
  destruct (negb _); [left; by apply close_with_closes in H|]. right. injection H as <- <-. split; [done|].
  destruct (Z.eqb_spec st CI_EOF) as [->|]; [by left|right; left].
  unfold ec_responce_simple. by destruct (ci_write _ _).
Qed.

(** Draining the body after a 204 outside of a preview has failed. *)
Definition drain_failed (fuel pf : nat) (s' : session D) : Prop :=
  ∃ s1, get_send_body junk ai ab env ops fuel pf true s1 = Ret (CI_ERROR, s').

Lemma do_fake_preview_closes ar fuel pf (s : session D) c s' :
  do_fake_preview junk ai ab env ops ar fuel pf s = Ret (c, s') →
  (c = CI_ERROR ∧ (keepalive (ss_req s') = false ∨ drain_failed fuel pf s')) ∨ (c = CI_OK ∧ go_on c s').
Proof.
  unfold do_fake_preview, go_on. intros H. destruct (mod_check_preview_handler ops) as [f|].
  2:{ right. injection H as <- <-. split; [done|]. unfold code_without_preview. cbn. destruct (hasbody _); auto. }
  apply obind_Ret in H as ([res v] & _ & H). cbn zeta in H.
  destruct ((res =? CI_MOD_ALLOW204) && allow204 (ss_req (apply_view v s))).
  { apply obind_Ret in H as ([a s1] & H1 & H). apply answer_204_closes in H1 as [[-> Hk]|[-> _]].
    { injection H as <- <-. left. auto. }
    cbn [Z.eqb CI_OK CI_ERROR] in H. apply obind_Ret in H as ([g s2] & H2 & H).
    destruct (Z.eqb_spec g CI_ERROR) as [->|Hg]; injection H as <- <-; [left|right; split; [done|]; cbn; auto].
    split; [done|]. right. destruct (hasbody _); [by exists s1|by injection H2]. }
  destruct (_ && _); [right; injection H as <- <-; cbn; auto|].
  destruct (_ && _); [right; injection H as <- <-; cbn; auto|].
  destruct (_ && _ && _); [right; injection H as <- <-; split; [done|]; cbn; auto|].
  destruct (_ =? _).
  { right. injection H as <- <-. split; [done|]. unfold code_without_preview. cbn. destruct (hasbody _); auto. }
  left. apply close_with_closes in H as [-> H]. auto.
Qed.

Lemma do_modification_closes ar fuel pf (s : session D) s' :
  do_modification junk ai ab env ops ar fuel pf s = Ret (CI_ERROR, s') →
  keepalive (ss_req s') = false ∨ drain_failed fuel pf s'.
Proof.
  unfold do_modification. intros H. apply obind_Ret in H as ([c s1] & H1 & H).
  assert (Hpre : (c = CI_ERROR ∧ (keepalive (ss_req s1) = false ∨ drain_failed fuel pf s1)) ∨ (c ≠ CI_ERROR ∧ go_on c s1)).
  { destruct (0 <=? _).
    - apply do_request_preview_closes in H1 as [[-> H1]|H1]; auto.
    - apply do_fake_preview_closes in H1 as [H1|[-> H1]]; auto. }
  destruct Hpre as [[-> Hk]|[Hc Hgo]].
  { cbn [Z.eqb CI_ERROR Pos.eqb] in H. by injection H as <-. }
  rewrite (proj2 (Z.eqb_neq _ _) Hc) in H. cbn zeta in H.
  set (s2 := if c =? CI_EOF then _ else _) in H.
  assert (Hgo2 : ss_code s2 = Some EC_100 ∨ ss_code s2 = Some EC_200 ∨ ss_code s2 = Some EC_204 ∨ ss_code s2 = Some EC_206).
  { unfold s2. destruct (Z.eqb_spec c CI_EOF); [cbn; auto|]. destruct Hgo as [|Hgo]; [done|]. done. }
  clearbody s2. left.
  assert (Hrest : ∀ (m : outcome (Z * session D)),
    (let* (ret, s) := m in
     if ret =? CI_ERROR then Ret (CI_ERROR, with_keepalive false s)
     else let* (ret, s) := do_end_of_data junk ai ab env ops s in
       if ret =? CI_ERROR then Ret (CI_ERROR, with_keepalive false s)
       else if bool_decide (ss_code s = Some EC_204) then Ret (ret, s)
       else let* (ret, s) := send_remaining_response junk ai ab env fuel ops (with_locked false s) in
         if ret =? CI_ERROR then Ret (CI_ERROR, with_keepalive false s) else Ret (ret, s)) = Ret (CI_ERROR, s') →
    keepalive (ss_req s') = false).
  { clear. intros m H. apply obind_Ret in H as ([r s3] & _ & H).
    destruct (r =? CI_ERROR); [by injection H as <-|]. apply obind_Ret in H as ([r2 s4] & _ & H).
    destruct (Z.eqb_spec r2 CI_ERROR); [by injection H as <-|].
    destruct (bool_decide _); [by injection H|]. apply obind_Ret in H as ([r3 s5] & _ & H).
    destruct (Z.eqb_spec r3 CI_ERROR); [by injection H as <-|]. by injection H. }
  destruct Hgo2 as [E|[E|[E|E]]]; rewrite E in H; try (by injection H); by eapply Hrest.
Qed.
End closing.

(** ** Properties *)

(** The bytes read from the connection that were not consumed. *)
Definition read_ahead (r : reader) : list Z :=
  slice (block_mem r) (pstrblock_read (rd_stream r)) (pstrblock_read_len (rd_stream r)).



(** A served request whose HTTP request header was released with its lines, and two bytes of the next request read. *)
Definition sample_served : session (list (list Z)) :=
  let s := sample_session [] in
  let q := set_encaps (mkEncaps [Some (mkEntity 20 ICAP_RES_BODY None); None; None; None; None]
             (<[0%nat := Some (mkEntity 0 ICAP_REQ_HDR (Some sample_list))]> (replicate 7 None)) true) (ss_req s) in
  with_req (set_reader (mkReader (set_block 1 2 new_rstream) BRbuf [] (bytes "abcd") [] 0 ci_buf_init) q) s.


Definition sample_outside : outside (D := list (list Z)) :=
  mkOutside sample_tables (λ _, (false, false)) [] (bytes "Mon") false.

(** A client that sends nothing. *)
Definition sample_silent : session (list (list Z)) := with_req sample_request (sample_session []).

Definition silent_run : outcome (Z * session (list (list Z))) :=
  do_request (λ _, 7) true true sample_env sample_ops true 20 20 sample_outside sample_silent.


(** A service that wants nothing modified. *)
Definition allow_ops (unlock : bool) : service_ops unit :=
  mkOps None None
    (Some (λ s _, Ret (CI_MOD_ALLOW204, mkView (ss_data s) (negb unlock) (ss_encaps s) (use_original_body (ss_out s)) (ss_xheaders s))))
    None (Some (λ s _ _ _, Ret (CI_OK, SrcCode CI_EOF, 0, view_of s))).

(** A RESPMOD request of a client that accepts 204 responses or not, with what its connection delivers. *)
Definition sample_client (a204 : bool) (evs : list net_event) (c : conn) : session unit :=
  mkSession
    (set_reader (mkReader new_rstream BNull [] (replicate 4096 0) evs 0 ci_buf_init)
       (set_allow a204 false (set_mod (Some sample_service) (set_type ICAP_RESPMOD (set_encaps sample_message sample_request)))))
    SEND_NOTHING None (mkWstream (replicate 4096 0) 0 0 false false (-1) 0 0) ONull sample_empty sample_empty
    false true None 0 c None.

(** Bytes a client sends where the body of its request should be, and a request after them. *)
Definition smuggled : list Z := bytes "zz" ++ CRLF ++ bytes "OPTIONS icap://h/echo ICAP/1.0" ++ CRLF ++ CRLF.

(** A body that is not well formed after a 204 outside of a preview.  The request fails, but the connection is
    kept, and the bytes that could not be read as a body are left for the next request:
    [keepalive_request] goes on with them at once. *)
Theorem bad_body_after_204_kept :
  match do_modification (λ _, 7) true true sample_env (allow_ops false) true 50 4200
          (sample_client true [EvData smuggled] (mkConn (replicate 9 3) [1000] [])) with
  | Ret (ret, s') =>
      ret = CI_ERROR ∧ keepalive (ss_req s') = true ∧
      match keepalive_request true false s' with
      | Ret (k, s2) =>
          k = 1 ∧ slice (block_mem (ss_reader s2)) (pstrblock_read (ss_stream s2)) (pstrblock_read_len (ss_stream s2)) = smuggled
      | _ => False
      end
  | _ => False
  end.
Proof. vm_compute. repeat split; reflexivity. Qed.

(** The reads of a body, at most 4000 bytes each. *)
Fixpoint reads (fuel : nat) (l : list Z) : list net_event :=
  match fuel, l with
  | S fuel', _ :: _ => EvData (take 4000 l) :: reads fuel' (drop 4000 l)
  | _, _ => []
  end.

(** The echo of a body when the client does not accept a 204 ([FAKE_ALLOW204]).  If the service
    did not unlock the data, a body larger than the ring buffer makes the request fail with nothing sent.
    If it did, and the client reads slowly, 38000 bytes are echoed as the first 4064 of them with a last chunk,
    and the request succeeds with the connection kept. *)
Theorem fake_204_echo_loses_data :
  (match do_modification (λ _, 7) true true sample_env (allow_ops false) true 400 (Z.to_nat 9000)
           (sample_client false (reads 20 (encode [replicate (Z.to_nat 38000) 65])) (mkConn (replicate 400 3) (replicate 400 1000) [])) with
   | Ret (ret, s') => ret = CI_ERROR ∧ sent (ss_conn s') = []
   | _ => False
   end) ∧
  (let s := sample_client false (reads 20 (encode [replicate (Z.to_nat 38000) 65]))
              (mkConn (replicate 400 3) ([1000; 1000] ++ replicate 60 100 ++ replicate 60 1000) []) in
   match do_modification (λ _, 7) true true sample_env (allow_ops true) true 400 (Z.to_nat 9000) s with
   | Ret (ret, s') =>
       ret = CI_OK ∧ keepalive (ss_req s') = true ∧
       sent (ss_conn s') = response_message sample_env s sample_service sample_xdata EC_200 [] sample_lines
         (mkEntity 20 ICAP_RES_BODY None) [replicate (Z.to_nat 4064) 65]
   | _ => False
   end).
Proof. vm_compute. repeat split; reflexivity. Qed.
