(* ===== verification/GwRebuild.v ===== *)
(** * The rebuild service (services/gw_rebuild: gw_rebuild.c, gw_body.c)

    The service stores the body of a request in a temporary file, has an external program write a rebuilt copy
    into a second file, and answers with that copy, with the body as it came, or with an error page.  The files
    of a request are objects reached by pointers, because the service lets two pointers name the same file.
    What the system and the external program do are arguments. *)

From stdpp Require Import base list list_numbers strings numbers option.
From Stdlib Require Import ZArith Lia.
From S2P Require Import Prelude CString Store Membuf SimpleFile Chunks ReadBody SendBody RingBuf Headers Encapsulated IcapHeader ParseRequest HttpApi Session Response Server.

(** ** The files of a request (gw_body.c) *)

(** A slot per file created; a destroyed file leaves its slot empty. *)
Definition files := list (option ci_simple_file).

Definition deref (H : files) (p : option nat) : outcome ci_simple_file :=
  match p with
  | Some i => match H !! i with Some (Some f) => Ret f | _ => UB end
  | None => UB
  end.

Definition assign (H : files) (p : option nat) (f : ci_simple_file) : outcome files :=
  let* _ := deref H p in
  Ret (match p with Some i => <[i := Some f]> H | None => H end).

(** A null pointer is accepted; a file destroyed before is freed twice. *)
Definition ci_simple_file_destroy (H : files) (p : option nat) : outcome files :=
  match p with
  | None => Ret H
  | Some i => match H !! i with Some (Some _) => Ret (<[i := None]> H) | _ => UB end
  end.

(** struct gw_body_data. *)
Record gw_body_data := mkBody { bd_store : option nat; bd_rebuild : option nat; buf_exceed : Z; bd_decoded : option nat }.

(** What the system answers: [new_file n] gives for the file of slot [n] whether its object is allocated, and
    its descriptor; [wr] and [rd] are those of [ci_simple_file]; [fstat_ok] tells whether [fstat] succeeds. *)
Record gw_system := mkSystem {
  new_file : nat → bool * Z;
  wr : Z → Z;
  rd : bool;
  fstat_ok : bool
}.

Section body.
Context (sys : gw_system).

Definition simple_file_new (H : files) (maxsize : Z) : option nat * files :=
  let '(a, mk) := new_file sys (length H) in
  match ci_simple_file_new a mk maxsize with
  | Some f => (Some (length H), H ++ [Some f])
  | None => (None, H)
  end.

(** [size] is an int. *)
Definition gw_body_data_new (H : files) (size : Z) : gw_body_data * files :=
  let '(st, H) := simple_file_new H (to_int size) in
  let '(rb, H) := simple_file_new H 0 in
  (mkBody st rb 0 None, H).

Definition gw_body_data_destroy (bd : gw_body_data) (H : files) : outcome (gw_body_data * files) :=
  let* H := ci_simple_file_destroy H (bd_store bd) in
  let* H := ci_simple_file_destroy H (bd_decoded bd) in
  let* H := ci_simple_file_destroy H (bd_rebuild bd) in
  Ret (mkBody None None (buf_exceed bd) None, H).

Definition gw_body_data_write (bd : gw_body_data) (H : files) (data : list Z) (iseof : bool) : outcome (Z * files) :=
  let* f := deref H (bd_store bd) in
  let '(n, f) := ci_simple_file_write (wr sys) f data iseof in
  let* H := assign H (bd_store bd) f in
  Ret (n, H).

Definition gw_body_data_read (bd : gw_body_data) (H : files) (len : Z) : outcome (Z * list Z * files) :=
  let* f := deref H (bd_store bd) in
  let* (n, d, f) := ci_simple_file_read (rd sys) f len in
  let* H := assign H (bd_store bd) f in
  Ret (n, d, H).

Definition gw_body_data_replace_body (bd : gw_body_data) (H : files) (data : list Z) :
    outcome (gw_body_data * files) :=
  let* (bd, H) := gw_body_data_destroy bd H in
  let '(bd, H) := gw_body_data_new H (zlen data) in
  let* (_, H) := gw_body_data_write bd H data true in
  Ret (bd, H).

(** [op] is the descriptor of the named file; the other pointers are left as they are. *)
Definition gw_body_data_named (bd : gw_body_data) (H : files) (op : Z) : gw_body_data * files :=
  let '(a, mk) := new_file sys (length H) in
  match ci_simple_file_named_new a op mk true 0 with
  | Some f => (mkBody (Some (length H)) (bd_rebuild bd) 0 (bd_decoded bd), H ++ [Some f])
  | None => (mkBody None (bd_rebuild bd) 0 (bd_decoded bd), H)
  end.

(** Releasing frees the objects and leaves the files on disk; the pointer to the rebuilt file stays. *)
Definition gw_body_data_release (bd : gw_body_data) (H : files) : outcome (gw_body_data * files) :=
  let* H := ci_simple_file_destroy H (bd_store bd) in
  let* H := ci_simple_file_destroy H (bd_rebuild bd) in
  let* H := ci_simple_file_destroy H (bd_decoded bd) in
  Ret (mkBody None (bd_rebuild bd) (buf_exceed bd) None, H).

(** The macros of gw_body.h. *)
Definition gw_body_data_lock_all (bd : gw_body_data) (H : files) : outcome files :=
  let* f := deref H (bd_store bd) in assign H (bd_store bd) (ci_simple_file_lock_all f).
Definition gw_body_data_unlock_all (bd : gw_body_data) (H : files) : outcome files :=
  let* f := deref H (bd_store bd) in assign H (bd_store bd) (ci_simple_file_unlock_all f).
Definition gw_body_data_size (bd : gw_body_data) (H : files) : outcome Z :=
  let* f := deref H (bd_store bd) in Ret (SimpleFile.endpos f).
End body.

(** ** The external program (exec_prog) *)

(** The answers of [waitpid] with WNOHANG: still running, the status of an exited or a killed
    process, an error that leaves the status unset. *)
Inductive wait_answer := Running | Exited (code : Z) | Killed | WaitFailed.

(** [fork] returns twice: in the child, which comes back only when [execvp] fails, and in the parent. *)
Inductive process := Child | Parent (answers : list wait_answer).

Definition GW_UNPROCESSED : Z := 0.
Definition GW_REBUILT : Z := 1.
Definition GW_FAILED : Z := 2.
Definition GW_ERROR : Z := 9.
Definition GW_STATUS_UNDEFINED : Z := 99.
Definition GW_PROCESSING_UNDEFINED : Z := -1.

(** The loop of [exec_prog]: [timeout] more polls are allowed; the list ends when the program never does. *)
Fixpoint wait_proxy (timeout : nat) (answers : list wait_answer) : outcome Z :=
  match default Running (head answers) with
  | Running => match timeout with O => Ret GW_ERROR | S t => wait_proxy t (tail answers) end
  | Exited code => Ret code
  | Killed => Ret GW_ERROR
  | WaitFailed => UB
  end.

Definition exec_prog (p : process) : outcome Z :=
  match p with
  | Child => Ret GW_ERROR
  | Parent answers => wait_proxy 1000 answers
  end.

(** ** The data of a request (gw_rebuild.h) *)

Record gw_data := mkGw {
  gw_files : files;
  gw_body : gw_body_data;
  gw_allow204 : bool;
  gw_status : Z;
  gw_processing : Z;
  error_page : option ci_membuf;
  url_log : list Z;
  expected_size : Z;
  enable204 : bool;
  sizelimit : bool;
  mode : Z;
  max_object_size : Z
}.

Definition set_body (bd : gw_body_data) (H : files) (d : gw_data) : gw_data :=
  mkGw H bd (gw_allow204 d) (gw_status d) (gw_processing d) (error_page d) (url_log d) (expected_size d)
    (enable204 d) (sizelimit d) (mode d) (max_object_size d).
Definition set_files (H : files) (d : gw_data) : gw_data := set_body (gw_body d) H d.
Definition set_status (n : Z) (d : gw_data) : gw_data :=
  mkGw (gw_files d) (gw_body d) (gw_allow204 d) n (gw_processing d) (error_page d) (url_log d) (expected_size d)
    (enable204 d) (sizelimit d) (mode d) (max_object_size d).
Definition set_page (p : option ci_membuf) (d : gw_data) : gw_data :=
  mkGw (gw_files d) (gw_body d) (gw_allow204 d) (gw_status d) (gw_processing d) p (url_log d) (expected_size d)
    (enable204 d) (sizelimit d) (mode d) (max_object_size d).
Definition set_expected (url : list Z) (n m : Z) (d : gw_data) : gw_data :=
  mkGw (gw_files d) (gw_body d) (gw_allow204 d) (gw_status d) (gw_processing d) (error_page d) url n
    (enable204 d) (sizelimit d) (mode d) m.

(** The statistics of the service. *)
Inductive gw_stat := GW_SCAN_REQS | GW_SCAN_BYTES | GW_REBUILD_FAILURES | GW_REBUILD_ERRORS | GW_REBUILD_SUCCESSES
| GW_NOT_PROCESSED | GW_UNPROCESSABLE.

(** [strstr]: the text from the first occurrence on. *)
Fixpoint starts (lit s : list Z) : bool :=
  match lit, s with
  | [], _ => true
  | c :: lit', d :: s' => (c =? d) && starts lit' s'
  | _ :: _, [] => false
  end.

Fixpoint strstr (lit s : list Z) : option (list Z) :=
  if starts lit s then Some s
  else match s with [] => None | _ :: s' => strstr lit s' end.

(** The arguments of the service in the request: allow204=on|off, sizelimit=off. *)
Definition gw_rebuild_parse_args (args : list Z) (e204 slimit : bool) : bool * bool :=
  let e204 :=
    match strstr (bytes "allow204=") args with
    | Some s => let v := drop 9 s in
        if starts (bytes "on") v then true else if starts (bytes "off") v then false else e204
    | None => e204
    end in
  let slimit :=
    match strstr (bytes "sizelimit=") args with
    | Some s => if starts (bytes "off") (drop 10 s) then false else slimit
    | None => slimit
    end in
  (e204, slimit).

(** The configuration; [external] is the program, from its input file to the process that runs it and the
    output file it leaves; [template] the result of [ci_txt_template_build_content], with the attribute lang. *)
Record gw_conf := mkConf {
  MAX_OBJECT_SIZE : Z;
  ALLOW204 : bool;
  DATA_CLEANUP : bool;
  external : list Z → process * list Z;
  template : session gw_data → gw_data → option (ci_membuf * option (list Z))
}.

Section service.
Context (junk : Z → Z) (ai ab a ah : bool) (sys : gw_system) (conf : gw_conf).

(** What a handler leaves of the request: its data and the encapsulated headers. *)
Definition gw_view (d : option gw_data) (locked : bool) (e : encaps) (s : session gw_data) : view gw_data :=
  mkView d locked e (use_original_body (ss_out s)) (ss_xheaders s).

(** [pool] tells whether the object is allocated; the fields the function does not set keep what [old] has. *)
Definition gw_rebuild_init_request_data (pool : bool) (old : Z * Z) (s : session gw_data) : option gw_data :=
  if hasbody (ss_encaps s) && pool then
    let '(e204, slimit) :=
      if bool_decide (args (ss_req s) = []) then (ALLOW204 conf, true)
      else gw_rebuild_parse_args (args (ss_req s)) (ALLOW204 conf) true in
    Some (mkGw [] (mkBody None None 0 None) (e204 && allow204 (ss_req s)) GW_STATUS_UNDEFINED
            GW_PROCESSING_UNDEFINED None [] (fst old) e204 slimit 0 (snd old))
  else None.

Definition gw_rebuild_release_request_data (d : gw_data) : outcome gw_data :=
  let* d :=
    if DATA_CLEANUP conf then
      let* (bd, H) := gw_body_data_destroy (gw_body d) (gw_files d) in Ret (set_body bd H d)
    else Ret d in
  Ret (set_page None d).

Definition init_body_data (d : gw_data) : outcome gw_data :=
  let '(bd, H) := gw_body_data_new sys (gw_files d) (if sizelimit d then max_object_size d else 0) in
  let* H := gw_body_data_lock_all bd H in
  Ret (set_body bd H d).

Definition LOG_URL_SIZE : Z := 256.

(** The preview handler, with the statistics it counts. *)
Definition gw_rebuild_check_preview_handler (s : session gw_data) (preview : option (list Z)) :
    outcome (Z * list (gw_stat * Z) * option gw_data) :=
  match ss_data s with
  | None => Ret (CI_MOD_ALLOW204, [(GW_UNPROCESSABLE, 1)], None)
  | Some d =>
      if negb (hasbody (ss_encaps s)) then Ret (CI_MOD_ALLOW204, [(GW_UNPROCESSABLE, 1)], Some d)
      else
      let* size := ci_http_content_length (ss_encaps s) in
      let* url := ci_http_request_url (ss_encaps s) LOG_URL_SIZE in
      let d := set_expected (default (url_log d) url) size (MAX_OBJECT_SIZE conf) d in
      let* d := init_body_data d in
      let data := default [] preview in
      if zlen data =? 0 then Ret (CI_MOD_CONTINUE, [], Some d)
      else
      let* (n, H) := gw_body_data_write sys (gw_body d) (gw_files d) data (eof_received (rd_stream (rq_reader (ss_req s)))) in
      let d := set_files H d in
      if n =? CI_ERROR then Ret (CI_ERROR, [(GW_REBUILD_ERRORS, 1)], Some d)
      else Ret (CI_MOD_CONTINUE, [], Some d)
  end.

Definition gw_rebuild_write_to_net (od : option gw_data) (len : Z) : outcome (Z * list Z * option gw_data) :=
  match od with
  | None => Ret (CI_ERROR, [], None)
  | Some d =>
      let* (n, x, H) := gw_body_data_read sys (gw_body d) (gw_files d) len in
      Ret (n, x, Some (set_files H d))
  end.

Definition gw_rebuild_read_from_net (od : option gw_data) (data : list Z) (iseof : bool) :
    outcome (Z * option gw_data) :=
  match od with
  | None => Ret (CI_ERROR, None)
  | Some d =>
      let* full :=
        if sizelimit d then
          let* n := gw_body_data_size (gw_body d) (gw_files d) in Ret (max_object_size d <=? n)
        else Ret false in
      if (full : bool) then Ret (CI_ERROR, Some d)
      else
      let* (n, H) := gw_body_data_write sys (gw_body d) (gw_files d) data iseof in
      Ret (n, Some (set_files H d))
  end.

(** A length that is not changed is given back as it was. *)
Definition gw_rebuild_io : service_io gw_data := λ s room data iseof,
  let keep := SrcCode (default 0 room) in
  let view od := gw_view od (ss_locked s) (ss_encaps s) s in
  let* (err, rlen, od) :=
    match data with
    | Some x =>
        let* (n, od) := gw_rebuild_read_from_net (ss_data s) x iseof in Ret (n =? CI_ERROR, n, od)
    | None =>
        if iseof then
          let* (n, od) := gw_rebuild_read_from_net (ss_data s) [] iseof in Ret (n =? CI_ERROR, 0, od)
        else Ret (false, 0, ss_data s)
    end in
  if (err : bool) then Ret (CI_ERROR, keep, rlen, view od)
  else
  match room with
  | None => Ret (CI_OK, keep, rlen, view od)
  | Some len =>
      let* (n, x, od) := gw_rebuild_write_to_net od len in
      Ret (CI_OK, if 0 <? n then SrcData x else SrcCode n, rlen, view od)
  end.

(** ** The end of the data *)

(** [call_proxy_application] runs the program on the two files; it writes the second. *)
Definition call_proxy_application (H : files) (input output : option nat) : outcome (Z * files) :=
  let* i := deref H input in
  let* o := deref H output in
  let '(p, out) := external conf (SimpleFile.file i) in
  let* code := exec_prog p in
  let* H := assign H output
    (mkSimple (SimpleFile.endpos o) (SimpleFile.readpos o) (max_store_size o) (SimpleFile.bytes_in o) (SimpleFile.bytes_out o)
       (SimpleFile.flags o) (SimpleFile.unlocked o) (fd o) out (mmap_addr o)) in
  Ret (code, H).

(** [file_size] returns an int. *)
Definition file_size (f : ci_simple_file) : Z := if fstat_ok sys then to_int (zlen (SimpleFile.file f)) else -1.

Definition refresh_externally_updated_file (H : files) (p : option nat) : outcome (Z * files) :=
  let* f := deref H p in
  let '(_, f) := ci_simple_file_write (wr sys) f [] true in
  let n := file_size f in
  let* H := assign H p (if n <? 0 then f else set_read 0 (set_end n f)) in
  Ret (if n <? 0 then CI_ERROR else CI_OK, H).

(** From here on two pointers name the rebuilt file. *)
Definition replace_request_body (bd : gw_body_data) (H : files) (rebuild : option nat) :
    outcome (gw_body_data * files) :=
  let* H := ci_simple_file_destroy H (bd_store bd) in
  Ret (mkBody rebuild (bd_rebuild bd) (buf_exceed bd) (bd_decoded bd), H).

Definition content_length_line (n : Z) : list Z := bytes "Content-Length: " ++ print_d n.

Definition rebuild_content_length (t : Z) (packed : bool) (bd : gw_body_data) (H : files) (e : encaps) : outcome encaps :=
  let* f := deref H (bd_store bd) in
  let* _ := assert_ (SimpleFile.readpos f =? 0) in
  let line := content_length_line (SimpleFile.endpos f) in
  if t =? ICAP_REQMOD then
    let* (_, e) := ci_http_request_remove_header packed e (bytes "Content-Length") in
    let* (_, e) := ci_http_request_add_header junk ai ab packed e line in Ret e
  else if t =? ICAP_RESPMOD then
    let* (_, e) := ci_http_response_remove_header packed e (bytes "Content-Length") in
    let* (_, e) := ci_http_response_add_header junk ai ab packed e line in Ret e
  else Ret e.

(** CI_OK to go on with the rebuilt content, CI_MOD_ALLOW204 with the content as it is, CI_ERROR
    to report an error. *)
Definition rebuild_request_body (t : Z) (packed : bool) (e : encaps) (d : gw_data) :
    outcome (Z * list (gw_stat * Z) * gw_data * encaps) :=
  let* size := gw_body_data_size (gw_body d) (gw_files d) in
  let scan := [(GW_SCAN_REQS, 1); (GW_SCAN_BYTES, to_int size)] in
  let output := bd_rebuild (gw_body d) in
  let* (code, H) := call_proxy_application (gw_files d) (bd_store (gw_body d)) output in
  let d := set_status code (set_files H d) in
  if code =? GW_FAILED then Ret (CI_ERROR, scan ++ [(GW_REBUILD_FAILURES, 1)], d, e)
  else if code =? GW_UNPROCESSED then Ret (CI_MOD_ALLOW204, scan ++ [(GW_NOT_PROCESSED, 1)], d, e)
  else if code =? GW_REBUILT then
    let* (r, H) := refresh_externally_updated_file (gw_files d) output in
    let d := set_files H d in
    let* o := deref H output in
    if (r =? CI_ERROR) || (SimpleFile.endpos o =? 0) then Ret (CI_ERROR, scan ++ [(GW_REBUILD_ERRORS, 1)], d, e)
    else
    let* (bd, H) := replace_request_body (gw_body d) H output in
    let* e := rebuild_content_length t packed bd H e in
    Ret (CI_OK, scan ++ [(GW_REBUILD_SUCCESSES, 1)], set_body bd H d, e)
  else Ret (CI_ERROR, scan ++ [(GW_REBUILD_ERRORS, 1)], d, e).

Definition add_response_lines (packed : bool) : list (list Z) → encaps → outcome encaps :=
  fix go ls e :=
  match ls with
  | [] => Ret e
  | l :: ls' => let* (_, e) := ci_http_response_add_header junk ai ab packed e l in go ls' e
  end.

Definition error_lines (lang : option (list Z)) : list (list Z) :=
  [bytes "HTTP/1.0 403 Forbidden"; bytes "Server: C-ICAP"; bytes "Connection: close"; bytes "Content-Type: text/html";
   match lang with
   | Some l => take 1023 (bytes "content-language: " ++ l)
   | None => bytes "Content-Language: en"
   end].

(** A null page is read for its attribute. *)
Definition generate_error_page (s : session gw_data) (e : encaps) (d : gw_data) : outcome (gw_data * encaps) :=
  let* o := ci_http_response_headers e in
  let* (_, e) :=
    match o with
    | Some _ => ci_http_response_reset_headers e
    | None => ci_http_response_create junk a ah e true true
    end in
  match template conf s d with
  | None => UB
  | Some (page, lang) =>
      let* e := add_response_lines (ss_packed s) (error_lines lang) e in
      Ret (set_page (Some page) d, e)
  end.

Definition gw_rebuild_end_of_data_handler (s : session gw_data) :
    outcome (Z * list (gw_stat * Z) * gw_data * bool * encaps) :=
  match ss_data s with
  | None => UB
  | Some d =>
      let t := rtype (ss_req s) in
      let* (status, stats, d, e) := rebuild_request_body t (ss_packed s) (ss_encaps s) d in
      let* (d, e) :=
        if status =? CI_ERROR then
          let* (d, e) := generate_error_page s e d in
          match error_page d with
          | None => UB
          | Some page =>
              let n := Membuf.endpos page in
              let* (bd, H) := gw_body_data_destroy (gw_body d) (gw_files d) in
              let '(bd, H) := gw_body_data_new sys H n in
              let* x := read_bytes (Membuf.buf page) 0 n in
              let* (_, H) := gw_body_data_write sys bd H x true in
              let* e := rebuild_content_length t (ss_packed s) bd H e in
              Ret (set_body bd H d, e)
          end
        else Ret (d, e) in
      if gw_allow204 d && (status =? CI_MOD_ALLOW204) then Ret (CI_MOD_ALLOW204, stats, d, ss_locked s, e)
      else
      let* H := gw_body_data_unlock_all (gw_body d) (gw_files d) in
      Ret (CI_MOD_DONE, stats, set_files H d, false, e)
  end.

(** The service as the server calls it; what it counts is not seen there. *)
Definition gw_service (pool : bool) (old : Z * Z) : service_ops gw_data :=
  mkOps
    (Some (λ s, Ret (gw_view (gw_rebuild_init_request_data pool old s) (ss_locked s) (ss_encaps s) s)))
    (Some (λ s d, let* d := gw_rebuild_release_request_data d in Ret (gw_view (Some d) (ss_locked s) (ss_encaps s) s)))
    (Some (λ s p, let* (res, _, od) := gw_rebuild_check_preview_handler s p in
                  Ret (res, gw_view od (ss_locked s) (ss_encaps s) s)))
    (Some (λ s, let* (res, _, d, locked, e) := gw_rebuild_end_of_data_handler s in
                Ret (res, gw_view (Some d) locked e s)))
    (Some gw_rebuild_io).
End service.

(** ** The store *)

(** The whole of [a] is in the file and nothing of it was read. *)
Record stored (f : ci_simple_file) (eof lock : bool) (a : list Z) : Prop := {
  st_file : SimpleFile.file f = a;
  st_end : SimpleFile.endpos f = zlen a;
  st_read : SimpleFile.readpos f = 0;
  st_eof : SimpleFile.flagged f CI_FILE_HAS_EOF = eof;
  st_lock : SimpleFile.flagged f CI_FILE_USELOCK = lock;
  st_max : 0 ≤ max_store_size f
}.

(** What is left to read is [x]. *)
Record readable (f : ci_simple_file) (x : list Z) : Prop := {
  re_pos : 0 ≤ SimpleFile.readpos f ≤ SimpleFile.endpos f;
  re_file : SimpleFile.endpos f ≤ zlen (SimpleFile.file f) ≤ INT_MAX;
  re_data : slice (SimpleFile.file f) (SimpleFile.readpos f) (SimpleFile.endpos f - SimpleFile.readpos f) = x;
  re_lock : SimpleFile.flagged f CI_FILE_USELOCK = false;
  re_max : max_store_size f = 0 ∨ SimpleFile.endpos f ≤ max_store_size f
}.

Lemma flag_lor f x y : flag_set (Z.lor f x) y = flag_set f y || flag_set x y.
Proof.
  unfold flag_set. rewrite Z.land_lor_distr_l. destruct (Z.eqb_spec (Z.land f y) 0) as [->|Hf].
  - by rewrite Z.lor_0_l.
  - cbn [negb orb]. rewrite (proj2 (Z.eqb_neq _ _)); [done|]. intros H. by apply Z.lor_eq_0_iff in H as [? _].
Qed.

Lemma stored_readable f e a : stored f e false a → zlen a ≤ INT_MAX → max_store_size f = 0 ∨ zlen a ≤ max_store_size f →
  readable f a.
Proof.
  intros [Hf He Hr _ Hl _] Ha Hm. split; rewrite ?Hf, ?He, ?Hr; try done; try zlia.
  rewrite Z.sub_0_r. by apply slice_all.
Qed.

Lemma stored_write w f lk a x e :
  (∀ n, w n = n) → stored f false lk a → max_store_size f = 0 ∨ zlen (a ++ x) ≤ max_store_size f →
  ∃ f', ci_simple_file_write w f x e = (zlen x, f') ∧ stored f' e lk (a ++ x) ∧ max_store_size f' = max_store_size f.
Proof.
  intros Hw Hs Hm. pose proof Hs as [Hf He Hr Heof Hl Hmx]. unfold ci_simple_file_write. rewrite Heof.
  destruct (Z.leb_spec (zlen x) 0) as [H0|H0].
  { destruct x; [|zlia]. rewrite app_nil_r in *. change (zlen []) with 0. destruct e; [|by exists f].
    eexists. split; [done|]. split; [|done]. split; try done.
    - unfold SimpleFile.flagged. cbn. by rewrite flag_lor, orb_true_r.
    - unfold SimpleFile.flagged in *. cbn. rewrite flag_lor, Hl. by rewrite orb_false_r. }
  rewrite zlen_app in Hm. unfold write_window. rewrite Hr, He. rewrite (proj2 (Z.ltb_ge _ _)) by zlia.
  assert (Hwin : (if negb (max_store_size f =? 0) && (max_store_size f <=? zlen a) then
      (if negb (0 =? 0) && negb (SimpleFile.flagged f CI_FILE_USELOCK)
       then let b := add_flag CI_FILE_RING_MODE (set_end 0 f) in
            Some (Z.min (SimpleFile.readpos b - SimpleFile.endpos b - 1) (zlen x), b) else None)
     else if negb (max_store_size f =? 0) then Some (Z.min (max_store_size f - zlen a) (zlen x), f) else Some (zlen x, f)) = Some (zlen x, f)).
  { destruct (Z.eqb_spec (max_store_size f) 0) as [->|Hn]; cbn [negb andb]; [done|].
    destruct Hm as [?|Hm]; [done|]. rewrite (proj2 (Z.leb_gt _ _)) by lia. by rewrite Z.min_r by lia. }
  cbn zeta in *. rewrite Hwin, Hw. rewrite (proj2 (Z.ltb_ge _ _)) by zlia. rewrite Z.eqb_refl, andb_true_r.
  set (f1 := mkSimple _ _ _ _ _ _ _ _ _ _).
  assert (H1 : stored f1 false lk (a ++ x)).
  { split; try done; unfold f1; cbn.
    - rewrite Hf, He. rewrite do_write_in by zlia. rewrite take_ge by (unfold zlen; lia).
      rewrite drop_ge by (unfold zlen; lia). rewrite take_ge by (unfold zlen; lia). by rewrite app_nil_r.
    - by rewrite He, zlen_app. }
  destruct e; [|by exists f1]. eexists. split; [done|]. split; [|done]. destruct H1 as [? ? ? ? Hl1 ?]. split; try done.
  - unfold SimpleFile.flagged. cbn [SimpleFile.flags add_flag]. by rewrite flag_lor, orb_true_r.
  - unfold SimpleFile.flagged in *. cbn [SimpleFile.flags add_flag]. rewrite flag_lor, Hl1. by rewrite orb_false_r.
Qed.

Lemma readable_read f x :
  readable f x → SimpleFile.flagged f CI_FILE_HAS_EOF = true →
  ∃ f', ci_simple_file_read true f MAX_CHUNK_SIZE =
      Ret (if bool_decide (x = []) then (CI_EOF, [], f) else (zlen (take (Z.to_nat MAX_CHUNK_SIZE) x), take (Z.to_nat MAX_CHUNK_SIZE) x, f')) ∧
    readable f' (drop (Z.to_nat MAX_CHUNK_SIZE) x) ∧ SimpleFile.flagged f' CI_FILE_HAS_EOF = true ∧
    SimpleFile.endpos f' = SimpleFile.endpos f.
Proof.
  intros Hre Heof. pose proof Hre as [Hp Hf Hd Hl Hm]. unfold ci_simple_file_read. cbn [Z.leb Z.compare MAX_CHUNK_SIZE].
  rewrite Heof.
  assert (Hx : zlen x = SimpleFile.endpos f - SimpleFile.readpos f) by (rewrite <- Hd; apply zlen_slice; lia).
  destruct (Z.eqb_spec (SimpleFile.readpos f) (SimpleFile.endpos f)) as [E|Hne].
  { exists f. destruct x; [|zlia]. by rewrite drop_nil. }
  rewrite bool_decide_false by (intros ->; zlia).
  assert (Hwrap : negb (max_store_size f =? 0) && (SimpleFile.readpos f =? max_store_size f) = false).
  { destruct Hm as [->|Hm]; [done|]. rewrite (proj2 (Z.eqb_neq (SimpleFile.readpos f) _)) by lia. apply andb_false_r. }
  rewrite Hwrap.
  rewrite Hl. cbn [andb]. rewrite (proj2 (Z.ltb_lt _ _)) by lia. rewrite <- Hx.
  rewrite to_int_id by (unfold INT_MIN, INT_MAX in *; zlia). rewrite (proj2 (Z.leb_le _ _)) by zlia. cbn [assert_ obind].
  set (n := if MAX_CHUNK_SIZE <? zlen x then MAX_CHUNK_SIZE else zlen x).
  assert (Hn : n = Z.min MAX_CHUNK_SIZE (zlen x)) by (unfold n; case_cmp; lia).
  assert (Htake : slice (SimpleFile.file f) (SimpleFile.readpos f) n = take (Z.to_nat MAX_CHUNK_SIZE) x).
  { rewrite <- Hd, Hn, <- Hx. unfold slice. rewrite take_take. f_equal. unfold MAX_CHUNK_SIZE, zlen in *. lia. }
  assert (Hz : zlen (take (Z.to_nat MAX_CHUNK_SIZE) x) = n) by (rewrite zlen_take; unfold MAX_CHUNK_SIZE, zlen in *; lia).
  unfold do_read. rewrite Htake, Hz. rewrite (proj2 (Z.ltb_lt _ _)) by (unfold MAX_CHUNK_SIZE in *; lia).
  eexists. split; [done|]. split; [|done]. assert (0 < n) by (unfold MAX_CHUNK_SIZE in *; lia). split; cbn; try done; [lia|].
  replace (SimpleFile.endpos f - (SimpleFile.readpos f + n)) with (zlen x - n) by lia.
  apply (app_inv_head (take (Z.to_nat MAX_CHUNK_SIZE) x)). rewrite take_drop, <- Htake, <- slice_split by lia.
  replace (n + (zlen x - n)) with (SimpleFile.endpos f - SimpleFile.readpos f) by lia. done.
Qed.

(** ** The state of a request *)

(** The two files of the body: distinct objects, both alive. *)
Definition holds (d : gw_data) (f g : ci_simple_file) : Prop :=
  ∃ i j, bd_store (gw_body d) = Some i ∧ bd_rebuild (gw_body d) = Some j ∧ bd_decoded (gw_body d) = None ∧ i ≠ j ∧
    gw_files d !! i = Some (Some f) ∧ gw_files d !! j = Some (Some g).

Definition blank (g : ci_simple_file) : Prop := stored g false false [] ∧ max_store_size g = 0 ∧ SimpleFile.flags g = 0.

(** The limit on the size of an object. *)
Definition limited (lim : Z) (d : gw_data) (f : ci_simple_file) : Prop :=
  if sizelimit d then max_object_size d = lim ∧ max_store_size f = lim else max_store_size f = 0.

(** [a] was received; the reader is locked out. *)
Definition receiving (lim : Z) (d : gw_data) (eof : bool) (a : list Z) : Prop :=
  ∃ f g, holds d f g ∧ stored f eof true a ∧ blank g ∧ limited lim d f.

Lemma deref_live H i f : H !! i = Some (Some f) → deref H (Some i) = Ret f.
Proof. intros E. unfold deref. by rewrite E. Qed.

Lemma assign_live H i f f' : H !! i = Some (Some f) → assign H (Some i) f' = Ret (<[i := Some f']> H).
Proof. intros E. unfold assign. by rewrite (deref_live _ _ _ E). Qed.

Lemma holds_put d f g f' i :
  holds d f g → bd_store (gw_body d) = Some i → holds (set_files (<[i := Some f']> (gw_files d)) d) f' g.
Proof.
  intros (i' & j & Hi & Hj & Hd & Hne & Hf & Hg) E. rewrite E in Hi. injection Hi as <-.
  exists i, j. split_and!; try done; cbn [gw_files set_files set_body].
  - apply list_lookup_insert_eq. by eapply lookup_lt_Some.
  - etransitivity; [by apply list_lookup_insert_ne|done].
Qed.

Section state.
Context (junk : Z → Z) (ai ab a ah : bool) (sys : gw_system) (conf : gw_conf).
Context (wr_all : ∀ n, wr sys n = n) (rd_all : rd sys = true).
Context (new_all : ∀ n, ∃ k, new_file sys n = (true, k) ∧ 0 ≤ k).

Lemma simple_file_new_spec H n :
  ∃ f, simple_file_new sys H n = (Some (length H), H ++ [Some f]) ∧ stored f false false [] ∧
    max_store_size f = Z.max 0 n ∧ SimpleFile.flags f = 0.
Proof.
  unfold simple_file_new. destruct (new_all (length H)) as (k & -> & Hk). unfold ci_simple_file_new. cbn [negb].
  rewrite (proj2 (Z.ltb_ge _ _)) by lia. eexists. split; [done|]. split; [split; try done; cbn; case_cmp; lia|].
  split; [|done]. cbn. case_cmp; lia.
Qed.

Lemma gw_body_data_new_spec H n :
  INT_MIN ≤ n ≤ INT_MAX →
  ∃ f g, gw_body_data_new sys H n =
      (mkBody (Some (length H)) (Some (S (length H))) 0 None, H ++ [Some f; Some g]) ∧
    stored f false false [] ∧ max_store_size f = Z.max 0 n ∧ blank g.
Proof.
  intros Hn. unfold gw_body_data_new. rewrite to_int_id by done.
  destruct (simple_file_new_spec H n) as (f & -> & Hf & Hm & _).
  destruct (simple_file_new_spec (H ++ [Some f]) 0) as (g & -> & Hg & Hm0).
  exists f, g. rewrite length_app, Nat.add_1_r, <- app_assoc. by split.
Qed.

Lemma lookup_new H (f g : option ci_simple_file) :
  (H ++ [f; g]) !! length H = Some f ∧ (H ++ [f; g]) !! S (length H) = Some g.
Proof.
  split; [by rewrite list_lookup_middle|]. rewrite lookup_app_r by lia.
  by replace (S (length H) - length H)%nat with 1%nat by lia.
Qed.

Lemma init_body_data_spec lim d :
  0 < lim ≤ INT_MAX → (sizelimit d = true → max_object_size d = lim) →
  ∃ bd H, init_body_data sys d = Ret (set_body bd H d) ∧ receiving lim (set_body bd H d) false [].
Proof.
  intros Hlim Hmax. unfold init_body_data.
  destruct (gw_body_data_new_spec (gw_files d) (if sizelimit d then max_object_size d else 0)) as (f & g & -> & Hf & Hm & Hg).
  { destruct (sizelimit d); [rewrite Hmax by done|]; unfold INT_MIN, INT_MAX in *; lia. }
  destruct (lookup_new (gw_files d) (Some f) (Some g)) as [L1 L2].
  unfold gw_body_data_lock_all. cbn [bd_store]. rewrite (deref_live _ _ _ L1). cbn [obind]. rewrite (assign_live _ _ _ _ L1).
  cbn [obind]. eexists _, _. split; [done|]. exists (ci_simple_file_lock_all f), g. split; [|split; [|split; [done|]]].
  - exists (length (gw_files d)), (S (length (gw_files d))). split_and!; try done; try lia; cbn [gw_files set_body].
    + apply list_lookup_insert_eq. rewrite length_app. cbn. lia.
    + etransitivity; [apply list_lookup_insert_ne; lia|done].
  - destruct Hf as [H1 H2 H3 H4 H5 H6]. split; try done; unfold SimpleFile.flagged in *; cbn; rewrite flag_lor.
    + by rewrite H4.
    + by rewrite orb_true_r.
  - unfold limited. change (max_store_size (ci_simple_file_lock_all f)) with (max_store_size f). cbn [sizelimit max_object_size set_body].
    rewrite Hm. destruct (sizelimit d); [|done]. rewrite Hmax by done. lia.
Qed.

Lemma body_write_spec d f g lk a0 x e :
  holds d f g → stored f false lk a0 → max_store_size f = 0 ∨ zlen (a0 ++ x) ≤ max_store_size f →
  ∃ f' H, gw_body_data_write sys (gw_body d) (gw_files d) x e = Ret (zlen x, H) ∧ holds (set_files H d) f' g ∧
    stored f' e lk (a0 ++ x) ∧ max_store_size f' = max_store_size f.
Proof.
  intros Hh Hs Hm. destruct (stored_write _ f lk a0 x e wr_all Hs Hm) as (f' & Hw & Hs' & Hm').
  pose proof Hh as (i & j & Hi & _ & _ & _ & Hf & _).
  unfold gw_body_data_write. rewrite Hi, (deref_live _ _ _ Hf). cbn [obind]. rewrite Hw, (assign_live _ _ _ _ Hf). cbn [obind].
  eexists f', _. split; [done|]. split; [by apply (holds_put d f)|]. done.
Qed.

Lemma read_from_net_spec lim d a0 x e :
  receiving lim d false a0 → zlen (a0 ++ x) < lim →
  ∃ H, gw_rebuild_read_from_net sys (Some d) x e = Ret (zlen x, Some (set_files H d)) ∧
    receiving lim (set_files H d) e (a0 ++ x).
Proof.
  intros (f & g & Hh & Hs & Hg & Hl) Hlt. unfold gw_rebuild_read_from_net.
  pose proof Hh as (i & j & Hi & _ & _ & _ & Hf & _).
  assert (Hfull : (if sizelimit d then let* n := gw_body_data_size (gw_body d) (gw_files d) in Ret (max_object_size d <=? n)
                   else Ret false) = Ret false).
  { destruct (sizelimit d) eqn:E; [|done]. unfold limited in Hl. rewrite E in Hl. destruct Hl as [Hl _].
    unfold gw_body_data_size. rewrite Hi, (deref_live _ _ _ Hf). cbn [obind].
    rewrite (st_end _ _ _ _ Hs), Hl. rewrite (proj2 (Z.leb_gt _ _)) by zlia. done. }
  rewrite Hfull. cbn [obind].
  destruct (body_write_spec d f g true a0 x e Hh Hs) as (f' & H & -> & Hh' & Hs' & Hm').
  { unfold limited in Hl. destruct (sizelimit d); [right; destruct Hl as [_ ->]; lia|by left]. }
  cbn [obind]. exists H. split; [done|]. exists f', g. split_and!; try done.
  unfold limited in *. cbn. by rewrite Hm'.
Qed.
(** ** The verdict of the program *)

Lemma call_proxy_spec d f g eof lk a0 p out code :
  holds d f g → stored f eof lk a0 → blank g → external conf a0 = (p, out) → exec_prog p = Ret code →
  ∃ g' H, call_proxy_application conf (gw_files d) (bd_store (gw_body d)) (bd_rebuild (gw_body d)) = Ret (code, H) ∧
    holds (set_files H d) f g' ∧ SimpleFile.file g' = out ∧ SimpleFile.flags g' = SimpleFile.flags g ∧
    max_store_size g' = 0.
Proof.
  intros (i & j & Hi & Hj & Hd & Hne & Hf & Hg) Hs (Hb & Hm & _) He Hx. unfold call_proxy_application.
  rewrite Hi, Hj, (deref_live _ _ _ Hf), (deref_live _ _ _ Hg). cbn [obind]. rewrite (st_file _ _ _ _ Hs), He, Hx.
  cbn [obind]. rewrite (assign_live _ _ _ _ Hg). cbn [obind]. set (g' := mkSimple _ _ _ _ _ _ _ _ _ _).
  exists g', (<[j := Some g']> (gw_files d)). split; [done|]. split; [|by split_and!].
  exists i, j. split_and!; try done; cbn [gw_files set_files set_body].
  - etransitivity; [by apply list_lookup_insert_ne|done].
  - apply list_lookup_insert_eq. by eapply lookup_lt_Some.
Qed.

Lemma refresh_spec d f g out :
  fstat_ok sys = true → holds d f g → SimpleFile.file g = out → SimpleFile.flags g = 0 → max_store_size g = 0 →
  zlen out ≤ INT_MAX →
  ∃ g' H, refresh_externally_updated_file sys (gw_files d) (bd_rebuild (gw_body d)) = Ret (CI_OK, H) ∧
    deref H (bd_rebuild (gw_body d)) = Ret g' ∧ holds (set_files H d) f g' ∧ stored g' true false out ∧ max_store_size g' = 0.
Proof.
  intros Hst (i & j & Hi & Hj & Hd & Hne & Hf & Hg) Ho Hfl Hm Hlen. unfold refresh_externally_updated_file.
  rewrite Hj, (deref_live _ _ _ Hg). cbn [obind]. unfold ci_simple_file_write, SimpleFile.flagged. rewrite Hfl.
  change (flag_set 0 CI_FILE_HAS_EOF) with false. change (zlen [] <=? 0) with true. cbn match.
  unfold file_size. rewrite Hst. cbn [SimpleFile.file add_flag]. rewrite Ho.
  rewrite to_int_id by (unfold INT_MIN; zlia). rewrite (proj2 (Z.ltb_ge _ _)) by zlia. rewrite (assign_live _ _ _ _ Hg).
  cbn [obind]. set (g' := set_read 0 _).
  assert (Hl : (<[j := Some g']> (gw_files d)) !! j = Some (Some g')) by (apply list_lookup_insert_eq; by eapply lookup_lt_Some).
  exists g', (<[j := Some g']> (gw_files d)). split; [done|]. split; [by apply deref_live|]. split.
  - exists i, j. split_and!; try done. cbn [gw_files set_files set_body]. etransitivity; [by apply list_lookup_insert_ne|done].
  - split; [|done]. split; try done; unfold SimpleFile.flagged, g'; cbn; rewrite ?Hfl; try done. lia.
Qed.
End state.

(** ** Editing the encapsulated header *)

Lemma edit_at {A : Type} (x0 : A) f es tr hb k st ty h x h' :
  es !! k = Some (Some (mkEntity st ty (Some h))) → f h = Ret (x, h') →
  edit_heads x0 f (Some (InEntities (Z.of_nat k))) (mkEncaps es tr hb) =
    Ret (x, mkEncaps (<[k := Some (mkEntity st ty (Some h'))]> es) tr hb).
Proof.
  intros Hk Hf. assert (Hg : arr_get es (Z.of_nat k) = Ret (Some (mkEntity st ty (Some h)))).
  { unfold arr_get. rewrite (proj2 (Z.ltb_ge _ _)) by lia. by rewrite Nat2Z.id, Hk. }
  unfold edit_heads, heads_at, set_heads, slot. cbn [entities trash_entities hasbody]. rewrite Hg. cbn [obind]. rewrite Hf.
  cbn [obind]. unfold arr_set. apply lookup_lt_Some in Hk.
  rewrite (proj2 (Z.leb_le _ _)), (proj2 (Z.ltb_lt _ _)) by (unfold zlen; lia). by rewrite Nat2Z.id.
Qed.

(** The header of the message is edited in its place. *)
Lemma message_edit {A : Type} (x0 : A) f t e h b x h' :
  message t (entities e) h b → f h = Ret (x, h') →
  ∃ e', (let* o := if t =? ICAP_REQMOD then ci_http_request_headers e else ci_http_response_headers e in
         edit_heads x0 f o e) = Ret (x, e') ∧
    message t (entities e') h' b ∧ trash_entities e' = trash_entities e ∧ hasbody e' = hasbody e.
Proof.
  intros Hm Hf. destruct e as [es tr hb]. cbn [entities trash_entities hasbody] in *.
  destruct Hm as [(-> & st & ->) | [(-> & st & ->) | (-> & e0 & st & H0 & ->)]]; set (es := [_; _; _; _; _]).
  - change (if ICAP_REQMOD =? ICAP_REQMOD then ci_http_request_headers (mkEncaps es tr hb) else ci_http_response_headers (mkEncaps es tr hb)) with
      (Ret (Some (InEntities (Z.of_nat 0)))). cbn [obind].
    rewrite (edit_at x0 f es tr hb 0 st ICAP_REQ_HDR h x h' eq_refl Hf). eexists. split; [done|].
    split; [|done]. left. split; [done|]. by exists st.
  - change (if ICAP_RESPMOD =? ICAP_REQMOD then ci_http_request_headers (mkEncaps es tr hb) else ci_http_response_headers (mkEncaps es tr hb)) with
      (Ret (Some (InEntities (Z.of_nat 0)))). cbn [obind].
    rewrite (edit_at x0 f es tr hb 0 st ICAP_RES_HDR h x h' eq_refl Hf). eexists. split; [done|].
    split; [|done]. right; left. split; [done|]. by exists st.
  - assert (Hh : ci_http_response_headers (mkEncaps es tr hb) = Ret (Some (InEntities (Z.of_nat 1)))).
    { unfold ci_http_response_headers. cbn [response_headers_from entities].
      change (arr_get es 0) with (Ret (Some e0)). cbn [obind]. by rewrite H0. }
    change (if ICAP_RESPMOD =? ICAP_REQMOD then ci_http_request_headers (mkEncaps es tr hb) else ci_http_response_headers (mkEncaps es tr hb)) with
      (ci_http_response_headers (mkEncaps es tr hb)). rewrite Hh. cbn [obind].
    rewrite (edit_at x0 f es tr hb 1 st ICAP_RES_HDR h x h' eq_refl Hf). eexists. split; [done|].
    split; [|done]. right; right. split; [done|]. by exists e0, st.
Qed.

Lemma remove_first_none name ls : existsb (field_match name) ls = false → remove_first name ls = ls.
Proof.
  induction ls as [|l ls IH]; [done|]. cbn. intros H. apply orb_false_iff in H as [-> H]. by rewrite IH.
Qed.

(** The lines of a header whose Content-Length is set to [n]. *)
Definition with_length (n : Z) (ls : list (list Z)) : list (list Z) :=
  remove_first (bytes "Content-Length") ls ++ [content_length_line n].

Section header_edit.
Context (junk : Z → Z).

Lemma message_type t es h b : message t es h b → t = ICAP_REQMOD ∨ t = ICAP_RESPMOD.
Proof. intros [[? _]|[[? _]|[? _]]]; auto. Qed.

(** Adding a line through the API of the message's kind. *)
Lemma message_add t e h b ls tl line :
  message t (entities e) h b → hrepr h ls tl → no_nul line →
  ∃ x e' h' tl', (if t =? ICAP_REQMOD then ci_http_request_add_header junk true true false e line
                  else ci_http_response_add_header junk true true false e line) = Ret (x, e') ∧
    message t (entities e') h' b ∧ hrepr h' (ls ++ [line]) tl' ∧ sealed tl' ∧
    trash_entities e' = trash_entities e ∧ hasbody e' = hasbody e.
Proof.
  intros Hm Hr Hn. destruct (ci_headers_add_spec junk h ls tl line Hr Hn) as (h' & tl' & Ha & Hr' & Hs').
  destruct (message_edit None (λ h, ci_headers_add junk true true h line) t e h b _ h' Hm Ha) as (e' & He & Hm' & Ht & Hb).
  exists (Some (zlen (edit ls))), e', h', tl'. split; [|done].
  unfold ci_http_request_add_header, ci_http_response_add_header.
  destruct (message_type _ _ _ _ Hm) as [-> | ->]; exact He.
Qed.

Lemma message_remove t e h b ls tl name :
  message t (entities e) h b → hrepr h ls tl → tl ≠ [] → good_name name →
  ∃ x e' h' tl', (if t =? ICAP_REQMOD then ci_http_request_remove_header false e name
                  else ci_http_response_remove_header false e name) = Ret (x, e') ∧
    message t (entities e') h' b ∧ hrepr h' (remove_first name ls) tl' ∧
    trash_entities e' = trash_entities e ∧ hasbody e' = hasbody e.
Proof.
  intros Hm Hr Htl Hn.
  assert (Hx : ∃ x h' tl', ci_headers_remove h name = Ret (x, h') ∧ hrepr h' (remove_first name ls) tl').
  { pose proof (ci_headers_remove_spec h ls tl name Hr Htl Hn) as H. destruct (existsb (field_match name) ls) eqn:E.
    - destruct H as (h' & tl' & H & Hr'). by exists 1, h', tl'.
    - exists 0, h, tl. by rewrite remove_first_none. }
  destruct Hx as (x & h' & tl' & Hx & Hr').
  destruct (message_edit 0 (λ h, ci_headers_remove h name) t e h b x h' Hm Hx) as (e' & He & Hm' & Ht & Hb).
  exists x, e', h', tl'. split; [|done].
  unfold ci_http_request_remove_header, ci_http_response_remove_header.
  destruct (message_type _ _ _ _ Hm) as [-> | ->]; exact He.
Qed.

Lemma content_length_no_nul n : 0 ≤ n → no_nul (content_length_line n).
Proof. intros Hn. apply no_nul_app; [by repeat constructor|by apply no_nul_print_d]. Qed.

Lemma rebuild_content_length_spec t bd H e h b ls tl f :
  message t (entities e) h b → hrepr h ls tl → tl ≠ [] → deref H (bd_store bd) = Ret f → SimpleFile.readpos f = 0 →
  0 ≤ SimpleFile.endpos f →
  ∃ e' h' tl', rebuild_content_length junk true true t false bd H e = Ret e' ∧ message t (entities e') h' b ∧
    hrepr h' (with_length (SimpleFile.endpos f) ls) tl' ∧ sealed tl' ∧
    trash_entities e' = trash_entities e ∧ hasbody e' = hasbody e.
Proof.
  intros Hm Hr Htl Hd Hp He. unfold rebuild_content_length. rewrite Hd. cbn [obind]. rewrite Hp. cbn [Z.eqb assert_ obind].
  destruct (message_remove t e h b ls tl (bytes "Content-Length") Hm Hr Htl) as (x & e1 & h1 & tl1 & H1 & Hm1 & Hr1 & Ht1 & Hb1).
  { repeat constructor; vm_compute; discriminate. }
  destruct (message_add t e1 h1 b _ tl1 (content_length_line (SimpleFile.endpos f)) Hm1 Hr1 (content_length_no_nul _ He))
    as (y & e2 & h2 & tl2 & H2 & Hm2 & Hr2 & Hs2 & Ht2 & Hb2).
  exists e2, h2, tl2. split; [|split_and!; try done; congruence].
  destruct (message_type _ _ _ _ Hm) as [-> | ->].
  - change (ICAP_REQMOD =? ICAP_REQMOD) with true in *. cbn match in *. rewrite H1. cbn [obind]. by rewrite H2.
  - change (ICAP_RESPMOD =? ICAP_REQMOD) with false in *. change (ICAP_RESPMOD =? ICAP_RESPMOD) with true. cbn match in *.
    rewrite H1. cbn [obind]. by rewrite H2.
Qed.

Lemma add_response_lines_spec ks : ∀ e h b ls tl,
  message ICAP_RESPMOD (entities e) h b → hrepr h ls tl → Forall no_nul ks →
  ∃ e' h' tl', add_response_lines junk true true false ks e = Ret e' ∧ message ICAP_RESPMOD (entities e') h' b ∧
    hrepr h' (ls ++ ks) tl' ∧ (sealed tl ∨ ks ≠ [] → sealed tl') ∧ trash_entities e' = trash_entities e ∧ hasbody e' = hasbody e.
Proof.
  induction ks as [|k ks IH]; intros e h b ls tl Hm Hr Hk.
  { exists e, h, tl. rewrite app_nil_r. split_and!; try done. by intros [?|?]. }
  apply Forall_cons_1 in Hk as [Hk Hks].
  destruct (message_add ICAP_RESPMOD e h b ls tl k Hm Hr Hk) as (x & e1 & h1 & tl1 & H1 & Hm1 & Hr1 & Hs1 & Ht1 & Hb1).
  change (ICAP_RESPMOD =? ICAP_REQMOD) with false in H1. cbn match in H1.
  destruct (IH e1 h1 b _ tl1 Hm1 Hr1 Hks) as (e2 & h2 & tl2 & H2 & Hm2 & Hr2 & Hs2 & Ht2 & Hb2).
  exists e2, h2, tl2. cbn [add_response_lines]. rewrite H1. cbn [obind]. rewrite H2. rewrite <- app_assoc in Hr2.
  split_and!; try done; try congruence. auto.
Qed.
End header_edit.

(** ** What becomes of a body *)

(** The abstract contract of the service: by the exit code of the program and the file it wrote, the body is
    passed on, replaced, or refused. *)
Inductive decision := Pass | Replace (out : list Z) | Refuse.

Definition decide_body (code : Z) (out : list Z) : decision :=
  if code =? GW_UNPROCESSED then Pass
  else if (code =? GW_REBUILT) && negb (zlen out =? 0) then Replace out
  else Refuse.

Definition answer_body (page body : list Z) (dec : decision) : list Z :=
  match dec with Pass => body | Replace out => out | Refuse => page end.

Definition answer_lines (page : list Z) (lang : option (list Z)) (ls : list (list Z)) (dec : decision) : list (list Z) :=
  match dec with
  | Pass => ls
  | Replace out => with_length (zlen out) ls
  | Refuse => with_length (zlen page) (error_lines lang)
  end.

(** The body the reader will get. *)
Definition offers (d : gw_data) (x : list Z) : Prop :=
  ∃ i f, bd_store (gw_body d) = Some i ∧ gw_files d !! i = Some (Some f) ∧ readable f x ∧ SimpleFile.endpos f = zlen x.

(** The store holds [x], unread. *)
Definition held (d : gw_data) (x : list Z) : Prop :=
  ∃ i f e lk, bd_store (gw_body d) = Some i ∧ gw_files d !! i = Some (Some f) ∧ stored f e lk x ∧
    (max_store_size f = 0 ∨ zlen x ≤ max_store_size f).

Lemma unlock_offers d x :
  held d x → zlen x ≤ INT_MAX →
  ∃ H, gw_body_data_unlock_all (gw_body d) (gw_files d) = Ret H ∧ offers (set_files H d) x.
Proof.
  intros (i & f & e & lk & Hi & Hf & Hs & Hm) Hx. unfold gw_body_data_unlock_all. rewrite Hi, (deref_live _ _ _ Hf). cbn [obind].
  rewrite (assign_live _ _ _ _ Hf). eexists. split; [done|].
  eexists i, _. split; [done|]. split; [apply list_lookup_insert_eq; by eapply lookup_lt_Some|].
  destruct Hs as [H1 H2 H3 H4 H5 H6]. split; [|done]. apply (stored_readable _ e); [|done|done].
  split; try done; unfold SimpleFile.flagged, flag_set, ci_simple_file_unlock_all in *; cbn [SimpleFile.flags set_lock].
  - rewrite <- H4. do 2 f_equal. apply Z.bits_inj'. intros n Hn. rewrite !Z.land_spec, Z.ldiff_spec.
    unfold CI_FILE_HAS_EOF, CI_FILE_USELOCK. change 1 with (2 ^ 0) at 1. change 2 with (2 ^ 1).
    rewrite !Z.pow2_bits_eqb by lia. destruct (Z.eqb_spec 0 n), (Z.eqb_spec 1 n); try lia; by rewrite ?andb_true_r, ?andb_false_r.
  - assert (E : Z.land (Z.ldiff (SimpleFile.flags f) CI_FILE_USELOCK) CI_FILE_USELOCK = 0); [|by rewrite E].
    apply Z.bits_inj'. intros n Hn. rewrite Z.land_spec, Z.ldiff_spec, Z.bits_0.
    by destruct (Z.testbit CI_FILE_USELOCK n); rewrite ?andb_false_r.
Qed.

Section verdict.
Context (junk : Z → Z) (a ah : bool) (sys : gw_system) (conf : gw_conf).
Context (wr_all : ∀ n, wr sys n = n) (fstat_all : fstat_ok sys = true).
Context (new_all : ∀ n, ∃ k, new_file sys n = (true, k) ∧ 0 ≤ k).

(** The status of [rebuild_request_body] by the decision, and what it leaves. *)
Lemma rebuild_request_body_spec t e d lim eof a0 p out code h b ls tl :
  receiving lim d eof a0 → zlen a0 < lim ≤ INT_MAX → external conf a0 = (p, out) → exec_prog p = Ret code →
  zlen out ≤ INT_MAX → message t (entities e) h b → hrepr h ls tl → tl ≠ [] →
  ∃ st stats d' e' h' tl', rebuild_request_body junk true true sys conf t false e d = Ret (st, stats, d', e') ∧
    message t (entities e') h' b ∧ trash_entities e' = trash_entities e ∧ hasbody e' = hasbody e ∧
    gw_allow204 d' = gw_allow204 d ∧ sizelimit d' = sizelimit d ∧ max_object_size d' = max_object_size d ∧ gw_status d' = code ∧
    match decide_body code out with
    | Pass => st = CI_MOD_ALLOW204 ∧ e' = e ∧ h' = h ∧ tl' = tl ∧ held d' a0
    | Replace x => st = CI_OK ∧ hrepr h' (with_length (zlen x) ls) tl' ∧ sealed tl' ∧ held d' x ∧ bd_rebuild (gw_body d') = bd_store (gw_body d')
    | Refuse => st = CI_ERROR ∧ e' = e ∧ ∃ f g, holds d' f g
    end.
Proof.
  intros (f & g & Hh & Hs & Hg & Hl) Hlim Hx He Hlen Hm Hr Htl. unfold rebuild_request_body.
  pose proof Hh as (i & j & Hi & Hj & Hd & Hne & Hf & Hg').
  unfold gw_body_data_size. rewrite Hi, (deref_live _ _ _ Hf). cbn [obind]. rewrite <- Hi.
  destruct (call_proxy_spec conf d f g eof true a0 p out code Hh Hs Hg Hx He) as (g1 & H1 & -> & Hh1 & Ho1 & Hfl1 & Hm1).
  cbn [obind]. set (d1 := set_status code (set_files H1 d)).
  assert (Hh1' : holds d1 f g1) by done.
  unfold decide_body. destruct (Z.eqb_spec code GW_FAILED) as [->|N1].
  { eexists _, _, d1, e, h, tl. split; [done|]. do 9 (split; [done|]). by exists f, g1. }
  destruct (Z.eqb_spec code GW_UNPROCESSED) as [->|N2].
  { eexists _, _, d1, e, h, tl. split; [done|]. do 11 (split; [done|]).
    destruct Hh1' as (i1 & j1 & Hi1 & _ & _ & _ & Hf1 & _). exists i1, f, eof, true. split_and!; try done.
    unfold limited in Hl. destruct (sizelimit d); [right; destruct Hl as [_ ->]; lia|by left]. }
  destruct (Z.eqb_spec code GW_REBUILT) as [->|N3]; cbn [andb].
  2:{ eexists _, _, d1, e, h, tl. split; [done|]. do 9 (split; [done|]). by exists f, g1. }
  destruct (refresh_spec sys d1 f g1 out fstat_all Hh1' Ho1) as (g2 & H2 & Hrf & Hd2 & Hh2 & Hs2 & Hm2);
    [rewrite Hfl1; apply Hg|done|done|].
  change (bd_rebuild (gw_body d1)) with (bd_rebuild (gw_body d)) in *. rewrite Hrf. cbn [obind]. rewrite Hd2. cbn [obind Z.eqb CI_OK CI_ERROR orb].
  rewrite (st_end _ _ _ _ Hs2). destruct (Z.eqb_spec (zlen out) 0) as [E0|E0]; cbn [negb].
  { eexists _, _, (set_files H2 d1), e, h, tl. split; [done|]. do 9 (split; [done|]). by exists f, g2. }
  pose proof Hh2 as (i2 & j2 & Hi2 & Hj2 & Hdc2 & Hne2 & Hf2 & Hg2). cbn [gw_files set_files set_body] in Hf2, Hg2.
  change (bd_store (gw_body (set_files H2 d1))) with (bd_store (gw_body d)) in Hi2.
  change (bd_rebuild (gw_body (set_files H2 d1))) with (bd_rebuild (gw_body d)) in Hj2.
  unfold replace_request_body, ci_simple_file_destroy.
  change (bd_store (gw_body (set_files H2 d1))) with (bd_store (gw_body d)). rewrite Hi2, Hf2. cbn [obind].
  set (bd := mkBody _ _ _ _). set (H3 := <[i2 := None]> H2).
  assert (L3 : H3 !! j2 = Some (Some g2)) by (etransitivity; [by apply list_lookup_insert_ne|done]).
  destruct (rebuild_content_length_spec junk t bd H3 e h b ls tl g2 Hm Hr Htl) as
    (e' & h' & tl' & -> & Hm' & Hr' & Hs' & Ht' & Hb').
  { cbn [bd_store bd]. rewrite Hj2. by apply deref_live. }
  { exact (st_read _ _ _ _ Hs2). }
  { rewrite (st_end _ _ _ _ Hs2). zlia. }
  cbn [obind]. eexists _, _, _, e', h', tl'. split; [done|]. rewrite (st_end _ _ _ _ Hs2) in Hr'.
  do 10 (split; [done|]). split; [|done].
  exists j2, g2, true, false. split_and!; try done. by left.
Qed.

Lemma destroy_spec d f g :
  holds d f g → ∃ H, gw_body_data_destroy (gw_body d) (gw_files d) = Ret (mkBody None None (buf_exceed (gw_body d)) None, H).
Proof.
  intros (i & j & Hi & Hj & Hd & Hne & Hf & Hg). unfold gw_body_data_destroy. rewrite Hi, Hj, Hd. unfold ci_simple_file_destroy.
  rewrite Hf. cbn [obind].
  assert (L : (<[i := None]> (gw_files d)) !! j = Some (Some g)) by (etransitivity; [by apply list_lookup_insert_ne|done]).
  rewrite L. cbn [obind]. by eexists.
Qed.

(** A readable error page. *)
Definition page_ok (pg : ci_membuf) (page : list Z) : Prop :=
  read_bytes (Membuf.buf pg) 0 (Membuf.endpos pg) = Ret page ∧ zlen page = Membuf.endpos pg ∧ zlen page ≤ INT_MAX.

Lemma error_lines_no_nul lang : (∀ l, lang = Some l → no_nul l) → Forall no_nul (error_lines lang).
Proof.
  intros Hl. unfold error_lines. do 4 (constructor; [by repeat constructor|]). constructor; [|done].
  destruct lang as [l|]; [|by repeat constructor]. apply no_nul_take, no_nul_app; [by repeat constructor|by apply Hl].
Qed.

(** The error page takes the place of the body, its header that of the message. *)
Lemma generate_error_page_spec s e d h b ls tl pg lang :
  message ICAP_RESPMOD (entities e) h b → hrepr h ls tl → ss_packed s = false →
  template conf s d = Some (pg, lang) → (∀ l, lang = Some l → no_nul l) →
  ∃ e' h' tl', generate_error_page junk true true a ah conf s e d = Ret (set_page (Some pg) d, e') ∧
    message ICAP_RESPMOD (entities e') h' b ∧ hrepr h' (error_lines lang) tl' ∧ sealed tl' ∧
    trash_entities e' = trash_entities e ∧ hasbody e' = hasbody e.
Proof.
  intros Hm Hr Hp Ht Hl. unfold generate_error_page.
  assert (Ho : ∃ l, ci_http_response_headers e = Ret (Some l)).
  { destruct e as [es tr hb]. destruct Hm as [[? _]|[[_ (st & E)]|[_ (e0 & st & H0 & E)]]]; [done|..]; cbn [entities] in E; subst es.
    - by eexists.
    - eexists. unfold ci_http_response_headers. cbn [response_headers_from entities arr_get].
      change (arr_get _ 0) with (Ret (Some e0)). cbn [obind]. by rewrite H0. }
  destruct Ho as (l & Ho). rewrite Ho. cbn [obind]. unfold ci_http_response_reset_headers.
  destruct (message_edit 0 (λ h, Ret (1, ci_headers_reset h)) ICAP_RESPMOD e h b 1 _ Hm eq_refl) as (e1 & He1 & Hm1 & Ht1 & Hb1).
  change (ICAP_RESPMOD =? ICAP_REQMOD) with false in He1. cbn match in He1. rewrite He1. cbn [obind]. rewrite Ht, Hp.
  destruct (add_response_lines_spec junk (error_lines lang) e1 (ci_headers_reset h) b [] (buf h) Hm1 (reset_repr _ _ _ Hr)
    (error_lines_no_nul _ Hl)) as (e2 & h2 & tl2 & -> & Hm2 & Hr2 & Hs2 & Ht2 & Hb2).
  cbn [obind]. exists e2, h2, tl2. split; [done|]. split_and!; try done; try congruence. apply Hs2. by right.
Qed.

Lemma end_of_data_spec s d lim eof a0 p out code h b ls tl pg page lang :
  let t := rtype (ss_req s) in
  let dec := decide_body code out in
  ss_data s = Some d → receiving lim d eof a0 → zlen a0 < lim ≤ INT_MAX →
  external conf a0 = (p, out) → exec_prog p = Ret code → zlen out ≤ INT_MAX →
  ss_packed s = false → message t (entities (ss_encaps s)) h b → hrepr h ls tl → tl ≠ [] →
  (∀ d, template conf s d = Some (pg, lang)) → page_ok pg page → (∀ l, lang = Some l → no_nul l) →
  (dec = Refuse → t = ICAP_RESPMOD) → (dec = Pass → gw_allow204 d = false) →
  ∃ stats d' e' h' tl', gw_rebuild_end_of_data_handler junk true true a ah sys conf s =
      Ret (CI_MOD_DONE, stats, d', false, e') ∧
    offers d' (answer_body page a0 dec) ∧ message t (entities e') h' b ∧ hrepr h' (answer_lines page lang ls dec) tl' ∧
    trash_entities e' = trash_entities (ss_encaps s) ∧ hasbody e' = hasbody (ss_encaps s) ∧
    sizelimit d' = sizelimit d ∧ max_object_size d' = max_object_size d ∧
    (dec ≠ Pass → dec ≠ Refuse → bd_rebuild (gw_body d') = bd_store (gw_body d')).
Proof.
  intros t dec Hd Hrec Hlim Hx He Hlen Hp Hm Hr Htl Htmp Hpg Hlang Href Hpass. unfold gw_rebuild_end_of_data_handler.
  rewrite Hd, Hp. fold t.
  destruct (rebuild_request_body_spec t (ss_encaps s) d lim eof a0 p out code h b ls tl Hrec Hlim Hx He Hlen Hm Hr Htl)
    as (st & stats & d1 & e1 & h1 & tl1 & -> & Hm1 & Ht1 & Hb1 & H204 & Hsl & Hmx & Hst & Hcase). fold dec in Hcase.
  cbn [obind]. destruct dec as [|x|] eqn:Edec; cbn [answer_body answer_lines].
  - destruct Hcase as (-> & -> & -> & -> & Hh). cbn [Z.eqb CI_MOD_ALLOW204 CI_ERROR obind]. rewrite H204, (Hpass eq_refl). cbn [andb].
    destruct (unlock_offers d1 a0 Hh ltac:(lia)) as (H & -> & Hof). cbn [obind].
    exists stats, (set_files H d1), (ss_encaps s), h, tl. by split_and!.
  - destruct Hcase as (-> & Hr1 & Hs1 & Hh & Hal). cbn [Z.eqb CI_OK CI_MOD_ALLOW204 CI_ERROR obind]. rewrite andb_false_r.
    assert (x = out) as ->.
    { unfold dec, decide_body in Edec. destruct (code =? GW_UNPROCESSED); [done|]. destruct (_ && _); [|done]. by injection Edec. }
    destruct (unlock_offers d1 out Hh Hlen) as (H & -> & Hof). cbn [obind].
    exists stats, (set_files H d1), e1, h1, tl1. by split_and!.
  - destruct Hcase as (-> & -> & f & g & Hh). cbn [Z.eqb CI_ERROR Pos.eqb]. specialize (Href eq_refl). rewrite Href in *.
    destruct (generate_error_page_spec s (ss_encaps s) d1 h b ls tl pg lang Hm Hr Hp (Htmp d1) Hlang)
      as (e2 & h2 & tl2 & -> & Hm2 & Hr2 & Hs2 & Ht2 & Hb2). cbn [obind error_page set_page].
    change (gw_body (set_page (Some pg) d1)) with (gw_body d1). change (gw_files (set_page (Some pg) d1)) with (gw_files d1).
    destruct (destroy_spec d1 f g Hh) as (H1 & ->). cbn [obind]. destruct Hpg as (Hrd & Hz & Hzm).
    destruct (gw_body_data_new_spec sys new_all H1 (Membuf.endpos pg)) as (f1 & g1 & -> & Hf1 & Hm1' & Hg1); [unfold INT_MIN; zlia|].
    rewrite Hrd. cbn [obind]. set (bd := mkBody _ _ _ _). set (H2 := H1 ++ _).
    destruct (lookup_new H1 (Some f1) (Some g1)) as [L1 L2]. fold H2 in L1, L2.
    assert (Hh2 : holds (set_body bd H2 d1) f1 g1).
    { exists (length H1), (S (length H1)). split_and!; done || lia. }
    destruct (body_write_spec sys wr_all (set_body bd H2 d1) f1 g1 false [] page true Hh2 Hf1) as (f2 & H3 & Hw & Hh3 & Hs3 & Hm3).
    { right. rewrite Hm1'. cbn [app]. lia. }
    cbn [gw_body gw_files set_body] in Hw. rewrite Hw. cbn [obind].
    pose proof Hh3 as (i3 & j3 & Hi3 & _ & _ & _ & Hf3 & _). cbn [gw_files set_files set_body gw_body] in Hi3, Hf3. cbn [app] in Hs3.
    destruct (rebuild_content_length_spec junk ICAP_RESPMOD bd H3 e2 h2 b _ tl2 f2 Hm2 Hr2) as
      (e3 & h3 & tl3 & -> & Hm3' & Hr3 & Hs3' & Ht3 & Hb3).
    { destruct Hs2 as (c & r & ->). done. }
    { rewrite Hi3. by apply deref_live. }
    { exact (st_read _ _ _ _ Hs3). }
    { rewrite (st_end _ _ _ _ Hs3). zlia. }
    cbn [obind gw_allow204 set_body set_page Z.eqb CI_MOD_ALLOW204]. rewrite andb_false_r.
    destruct (unlock_offers (set_body bd H3 (set_page (Some pg) d1)) page) as (H4 & Hu & Hof).
    { exists i3, f2, true, false. split_and!; try done. right. rewrite Hm3, Hm1'. lia. }
    { done. }
    rewrite Hu. cbn [obind].
    eexists stats, _, e3, h3, tl3. split; [done|]. rewrite (st_end _ _ _ _ Hs3) in Hr3.
    split_and!; try done; congruence.
Qed.
End verdict.

(** ** A destroyed file stays destroyed *)

Definition dead (H : files) (i : nat) : Prop := H !! i = Some None.

Lemma assign_dead H p f H' i : assign H p f = Ret H' → dead H i → dead H' i.
Proof.
  unfold assign, deref, dead. intros E Hi. apply obind_Ret in E as (g & E & [= <-]). destruct p as [k|]; [|done].
  destruct (decide (i = k)) as [->|Hne]; [by rewrite Hi in E|]. etransitivity; [by apply list_lookup_insert_ne|done].
Qed.

Lemma destroy_dead H p H' i : ci_simple_file_destroy H p = Ret H' → dead H i → dead H' i.
Proof.
  unfold ci_simple_file_destroy, dead. intros E Hi. destruct p as [k|]; [|by injection E as <-].
  destruct (H !! k) as [[g|]|] eqn:Ek; try done. injection E as <-.
  destruct (decide (i = k)) as [->|Hne]; [by rewrite Hi in Ek|]. etransitivity; [by apply list_lookup_insert_ne|done].
Qed.

Lemma destroy_kills H i H' : ci_simple_file_destroy H (Some i) = Ret H' → dead H' i.
Proof.
  unfold ci_simple_file_destroy, dead. intros E. destruct (H !! i) as [[g|]|] eqn:Ei; try done. injection E as <-.
  apply list_lookup_insert_eq. by eapply lookup_lt_Some.
Qed.

Lemma new_dead sys H n i : dead H i → dead (snd (gw_body_data_new sys H n)) i.
Proof.
  intros Hi. assert (Hs : ∀ H n, dead H i → dead (snd (simple_file_new sys H n)) i).
  { clear. intros H n Hi. unfold simple_file_new. destruct (new_file sys (length H)) as [al k].
    destruct (ci_simple_file_new al k n); [|done]. unfold dead in *. cbn [snd].
    etransitivity; [apply lookup_app_l; by eapply lookup_lt_Some|done]. }
  unfold gw_body_data_new. pose proof (Hs H (to_int n) Hi) as H1. destruct (simple_file_new sys H (to_int n)) as [st H2].
  pose proof (Hs H2 0 H1) as H3. by destruct (simple_file_new sys H2 0).
Qed.

Lemma write_dead sys bd H x e n H' i : gw_body_data_write sys bd H x e = Ret (n, H') → dead H i → dead H' i.
Proof.
  unfold gw_body_data_write. intros E Hi. apply obind_Ret in E as (f & _ & E). destruct (ci_simple_file_write _ _ _ _).
  apply obind_Ret in E as (H1 & E1 & [= _ <-]). by eapply assign_dead.
Qed.

Lemma destroy_body_kills bd H bd' H' i :
  gw_body_data_destroy bd H = Ret (bd', H') → bd_store bd = Some i → dead H' i.
Proof.
  unfold gw_body_data_destroy. intros E Hi. rewrite Hi in E. apply obind_Ret in E as (H1 & E1 & E).
  apply obind_Ret in E as (H2 & E2 & E). apply obind_Ret in E as (H3 & E3 & [= _ <-]).
  eapply destroy_dead; [done|]. eapply destroy_dead; [done|]. by eapply destroy_kills.
Qed.

(** The pointers of the body are those of the request until a rebuilt file replaces the store, and then the store is
    destroyed; this holds whatever the system and the program do. *)
Lemma rebuild_request_body_store junk ai ab sys conf t packed e d st stats d' e' i f :
  bd_store (gw_body d) = Some i → gw_files d !! i = Some (Some f) →
  rebuild_request_body junk ai ab sys conf t packed e d = Ret (st, stats, d', e') →
  (st = CI_MOD_ALLOW204 ∧ exec_prog (fst (external conf (SimpleFile.file f))) = Ret GW_UNPROCESSED) ∨
  (st = CI_ERROR ∧ bd_store (gw_body d') = Some i) ∨
  (st = CI_OK ∧ dead (gw_files d') i).
Proof.
  intros Hi Hf. unfold rebuild_request_body. intros E. apply obind_Ret in E as (size & _ & E).
  apply obind_Ret in E as ([code H1] & E1 & E).
  assert (Hc : exec_prog (fst (external conf (SimpleFile.file f))) = Ret code).
  { unfold call_proxy_application in E1. rewrite Hi, (deref_live _ _ _ Hf) in E1. cbn [obind] in E1.
    apply obind_Ret in E1 as (o & _ & E1). destruct (external conf _) as [p out]. cbn [fst].
    apply obind_Ret in E1 as (c & Ec & E1). apply obind_Ret in E1 as (H2 & _ & [= <- _]). done. }
  destruct (code =? GW_FAILED); [injection E as <- _ <- _; auto|].
  destruct (Z.eqb_spec code GW_UNPROCESSED) as [->|]; [injection E as <- _ <- _; auto|].
  destruct (code =? GW_REBUILT); [|injection E as <- _ <- _; auto].
  apply obind_Ret in E as ([r H2] & _ & E). apply obind_Ret in E as (o & _ & E).
  destruct (_ || _); [injection E as <- _ <- _; auto|].
  apply obind_Ret in E as ([bd H3] & E3 & E). apply obind_Ret in E as (e2 & _ & [= <- _ <- _]).
  right. right. split; [done|]. unfold replace_request_body in E3.
  apply obind_Ret in E3 as (H4 & E4 & [= _ <-]). cbn [gw_files set_body].
  change (bd_store (gw_body (set_files H2 (set_status code (set_files H1 d))))) with (bd_store (gw_body d)) in E4. rewrite Hi in E4.
  by eapply destroy_kills.
Qed.


(** The rebuilt file is freed twice.  When the program has rebuilt the body, the file it wrote becomes the store and stays
    the rebuilt file: two pointers name one object.  With DataCleanup on (the default), releasing the data of the
    request destroys it through both. *)
Theorem gw_rebuilt_freed_twice junk a ah sys conf (s : session gw_data) d lim eof a0 p out h b ls tl :
  (∀ n, wr sys n = n) → fstat_ok sys = true →
  ss_data s = Some d → receiving lim d eof a0 → zlen a0 < lim ≤ INT_MAX →
  external conf a0 = (p, out) → exec_prog p = Ret GW_REBUILT → 0 < zlen out ≤ INT_MAX →
  ss_packed s = false → message (rtype (ss_req s)) (entities (ss_encaps s)) h b → hrepr h ls tl → tl ≠ [] →
  DATA_CLEANUP conf = true →
  ∃ stats d' e', gw_rebuild_end_of_data_handler junk true true a ah sys conf s = Ret (CI_MOD_DONE, stats, d', false, e') ∧
    offers d' out ∧ gw_rebuild_release_request_data conf d' = UB.
Proof.
  intros Hwr Hst Hd Hrec Hlim Hx He Hlen Hp Hm Hr Htl Hcl. unfold gw_rebuild_end_of_data_handler. rewrite Hd, Hp.
  destruct (rebuild_request_body_spec junk sys conf Hst (rtype (ss_req s)) (ss_encaps s) d lim eof a0 p out GW_REBUILT h b ls tl)
    as (st & stats & d1 & e1 & h1 & tl1 & -> & _ & _ & _ & _ & _ & _ & _ & Hcase); try done; [lia|].
  unfold decide_body in Hcase. cbn [Z.eqb GW_REBUILT GW_UNPROCESSED andb] in Hcase.
  rewrite (proj2 (Z.eqb_neq (zlen out) 0)) in Hcase by lia. cbn [negb Pos.eqb] in Hcase.
  destruct Hcase as (-> & _ & _ & Hh & Hal). cbn [obind Z.eqb CI_OK CI_ERROR CI_MOD_ALLOW204]. rewrite andb_false_r.
  destruct (unlock_offers d1 out Hh ltac:(lia)) as (H & -> & Hof). cbn [obind].
  eexists _, _, e1. split; [done|]. split; [exact Hof|].
  destruct Hof as (i & f & Hi & Hf & _). unfold gw_rebuild_release_request_data. rewrite Hcl. unfold gw_body_data_destroy.
  cbn [gw_body set_files set_body] in Hi. cbn [gw_body set_files set_body gw_files]. rewrite Hal, Hi.
  unfold ci_simple_file_destroy at 1. cbn [gw_files set_files set_body] in Hf. rewrite Hf. cbn [obind].
  destruct (ci_simple_file_destroy (<[i := None]> H) (bd_decoded (gw_body d1))) as [H'| | |] eqn:E.
  - cbn [obind]. assert (K : dead H' i).
    { eapply destroy_dead; [exact E|]. unfold dead. apply list_lookup_insert_eq. by eapply lookup_lt_Some. }
    unfold ci_simple_file_destroy. by rewrite K.
  - done.
  - unfold ci_simple_file_destroy in E. destruct (bd_decoded (gw_body d1)) as [k|]; [|done]. by destruct (_ !! k) as [[|]|].
  - unfold ci_simple_file_destroy in E. destruct (bd_decoded (gw_body d1)) as [k|]; [|done]. by destruct (_ !! k) as [[|]|].
Qed.

(** ** Samples *)

(** A program that rejects a body starting with "bad", leaves one starting with "raw" as it is, and rebuilds any other. *)
Definition sample_program (a : list Z) : process * list Z :=
  if starts (bytes "bad") a then (Parent [Exited GW_FAILED], [])
  else if starts (bytes "raw") a then (Parent [Running; Exited GW_UNPROCESSED], [])
  else (Parent [Running; Running; Exited GW_REBUILT], bytes "clean").

Definition sample_page : ci_membuf := mkMembuf 6 0 8 (-1) 0 (bytes "denied" ++ [0; 0]).

Definition sample_conf : gw_conf := mkConf 4000 true true sample_program (λ _ _, Some (sample_page, None)).

Definition sample_system : gw_system := mkSystem (λ n, (true, Z.of_nat n + 5)) (λ n, n) true true.

(** The data of a request after the preview handler, with a body received. *)
Definition sample_gw (body : list Z) : gw_data :=
  mkGw [Some (mkSimple (zlen body) 0 4000 (zlen body) 0 3 0 5 body None); Some (mkSimple 0 0 0 0 0 0 0 6 [] None)]
    (mkBody (Some 0%nat) (Some 1%nat) 0 None) false 99 (-1) None [] (-1) true true 0 4000.

Definition sample_gw_session (body : list Z) : session gw_data :=
  mkSession (set_mod (Some sample_service) (set_type ICAP_RESPMOD (set_encaps sample_message sample_request)))
    SEND_NOTHING (Some EC_200) (mkWstream (replicate 4096 0) 0 0 false false (-1) 0 0) ONull sample_empty sample_empty
    false true None 0 (mkConn (replicate 400 3) (replicate 300 5) []) (Some (sample_gw body)).

Lemma sample_receiving body : zlen body < 4000 → receiving 4000 (sample_gw body) true body.
Proof.
  intros Hb. eexists _, _. split; [|split; [|split]].
  - exists 0%nat, 1%nat. by split_and!.
  - by split.
  - split; [by split|done].
  - by split.
Qed.


Lemma gw_rebuilt_freed_twice_witness :
  ∃ stats d' e', gw_rebuild_end_of_data_handler (λ _, 7) true true true true sample_system sample_conf
      (sample_gw_session (bytes "dirty")) = Ret (CI_MOD_DONE, stats, d', false, e') ∧
    offers d' (bytes "clean") ∧ gw_rebuild_release_request_data sample_conf d' = UB.
Proof.
  apply (gw_rebuilt_freed_twice (λ _, 7) true true sample_system sample_conf (sample_gw_session (bytes "dirty"))
    (sample_gw (bytes "dirty")) 4000 true (bytes "dirty") (Parent [Running; Running; Exited GW_REBUILT]) (bytes "clean")
    sample_list (mkEntity 20 ICAP_RES_BODY None) sample_lines [CR; LF; 0]); try reflexivity.
  - apply sample_receiving. vm_compute. reflexivity.
  - split; [vm_compute; reflexivity|vm_compute; discriminate].
  - split; [vm_compute; reflexivity|vm_compute; discriminate].
  - right. right. split; [reflexivity|]. exists (mkEntity 0 ICAP_REQ_HDR None), 10. split; reflexivity.
  - exact sample_repr.
  - discriminate.
Defined.
