(* ===== verification/GwServe.v ===== *)
(** * The rebuild service behind the server (gw_rebuild.c with request.c)

    The store of the service meets the interfaces of the server: it is a [Consumer] of the body
    while it is received and a [Supplier] of the answer afterwards.  With the theorems about the server this gives
    the response to a request, by the verdict of the external program. *)

From stdpp Require Import base list list_numbers strings numbers option.
From Stdlib Require Import ZArith Lia.
From S2P Require Import Prelude CString Store Membuf SimpleFile Chunks ReadBody SendBody RingBuf Headers Encapsulated IcapHeader ParseRequest HttpApi Session Response Server Deliver GwRebuild.

Lemma gw_view_same od (s : session gw_data) :
  apply_view (gw_view od (ss_locked s) (ss_encaps s) s) s = served od (ss_echo s) (ss_locked s) s.
Proof. apply apply_same_view. Qed.

Section io.
Context (sys : gw_system) (wr_all : ∀ n, wr sys n = n) (rd_all : rd sys = true).

(** ** Receiving *)

#[local] Program Instance gw_consumer (lim : Z) (al : bool) : Consumer (call_io (gw_rebuild_io sys)) := {|
  fits a := zlen a < lim;
  took s eof a := ss_echo s = None ∧ ∃ d, ss_data s = Some d ∧ gw_allow204 d = al ∧ receiving lim d eof a
|}.
Next Obligation. intros lim al a b H. cbv beta in *. rewrite zlen_app in H. zlia. Qed.
Next Obligation. intros lim al s s' eof a (He & d & Hd & Hr) [H1 H2]. rewrite H1, H2. split; [done|]. by exists d. Qed.
Next Obligation.
  intros lim al s a d eof (He & dt & Hd & Hal & Hr) Hfit. unfold call_io, gw_rebuild_io. cbn zeta. rewrite Hd.
  destruct (read_from_net_spec sys wr_all lim dt a (default [] d) eof Hr Hfit) as (H & Hrun & Hr').
  assert (Hio : ∃ od, (match d with
      | Some x => let* (n, od) := gw_rebuild_read_from_net sys (Some dt) x eof in Ret (n =? CI_ERROR, n, od)
      | None => if eof then let* (n, od) := gw_rebuild_read_from_net sys (Some dt) [] eof in Ret (n =? CI_ERROR, 0, od)
                else Ret (false, 0, Some dt)
      end) = Ret (false, zlen (default [] d), od) ∧ ∃ d', od = Some d' ∧ gw_allow204 d' = al ∧ receiving lim d' eof (a ++ default [] d)).
  { destruct d as [x|]; [change (default [] (Some x)) with x in *|change (default [] None) with (@nil Z) in *].
    - rewrite Hrun. cbn [obind]. rewrite (proj2 (Z.eqb_neq _ _)) by (unfold CI_ERROR; zlia). eexists. split; [done|]. by eexists.
    - destruct eof.
      + rewrite Hrun. eexists. split; [done|]. by eexists.
      + eexists. split; [done|]. exists dt. by rewrite app_nil_r. }
  destruct Hio as (od & -> & d' & -> & Hal' & Hr2). cbn [obind]. unfold gw_view. rewrite apply_same_view.
  eexists CI_OK, 0, _, _. split; [done|]. split; [done|]. split; [lia|]. split; [done|]. by exists d'.
Qed.

(** ** Answering *)

(** [x] is left of the answer, and the store is below the limit. *)
Definition left_of (d : gw_data) (x : list Z) : Prop :=
  ∃ i f, bd_store (gw_body d) = Some i ∧ gw_files d !! i = Some (Some f) ∧ readable f x ∧
    (sizelimit d = true → SimpleFile.endpos f < max_object_size d).

Lemma readable_close w f x :
  readable f x → ∃ f', ci_simple_file_write w f [] true = (0, f') ∧ readable f' x ∧
    SimpleFile.flagged f' CI_FILE_HAS_EOF = true ∧ SimpleFile.endpos f' = SimpleFile.endpos f.
Proof.
  intros Hr. unfold ci_simple_file_write. destruct (SimpleFile.flagged f CI_FILE_HAS_EOF) eqn:E; [by exists f|].
  change (zlen [] <=? 0) with true. cbn match. eexists. split; [done|]. split; [|split; [|done]].
  - destruct Hr as [H1 H2 H3 H4 H5]. split; try done. unfold SimpleFile.flagged in *. cbn [SimpleFile.flags add_flag].
    by rewrite flag_lor, H4.
  - unfold SimpleFile.flagged. cbn [SimpleFile.flags add_flag]. by rewrite flag_lor, orb_true_r.
Qed.

Lemma gw_supply d x :
  left_of d x →
  ∃ d', (let* (n, od) := gw_rebuild_read_from_net sys (Some d) [] true in
         if n =? CI_ERROR then Ret (CI_ERROR, [], od) else gw_rebuild_write_to_net sys od MAX_CHUNK_SIZE) =
      Ret (if bool_decide (x = []) then (CI_EOF, [], Some d')
           else (zlen (take (Z.to_nat MAX_CHUNK_SIZE) x), take (Z.to_nat MAX_CHUNK_SIZE) x, Some d')) ∧
    left_of d' (drop (Z.to_nat MAX_CHUNK_SIZE) x) ∧ ∃ n, gw_rebuild_read_from_net sys (Some d) [] true = Ret (0, n).
Proof.
  intros (i & f & Hi & Hf & Hr & Hl). destruct (readable_close (wr sys) f x Hr) as (f1 & Hw & Hr1 & He1 & Hn1).
  unfold gw_rebuild_read_from_net.
  assert (Hfull : (if sizelimit d then let* n := gw_body_data_size (gw_body d) (gw_files d) in Ret (max_object_size d <=? n)
                   else Ret false) = Ret false).
  { destruct (sizelimit d) eqn:E; [|done]. unfold gw_body_data_size. rewrite Hi, (deref_live _ _ _ Hf). cbn [obind].
    specialize (Hl eq_refl). rewrite (proj2 (Z.leb_gt _ _)) by lia. done. }
  rewrite Hfull. cbn [obind]. unfold gw_body_data_write. rewrite Hi, (deref_live _ _ _ Hf). cbn [obind]. rewrite Hw.
  rewrite (assign_live _ _ _ _ Hf). cbn [obind Z.eqb CI_ERROR].
  assert (L1 : (<[i := Some f1]> (gw_files d)) !! i = Some (Some f1)) by (apply list_lookup_insert_eq; by eapply lookup_lt_Some).
  destruct (readable_read f1 x Hr1 He1) as (f2 & Hrd & Hr2 & He2 & Hn2).
  unfold gw_rebuild_write_to_net, gw_body_data_read. cbn [gw_body set_files set_body gw_files].
  rewrite Hi, (deref_live _ _ _ L1). cbn [obind]. rewrite rd_all, Hrd. cbn [obind].
  destruct (bool_decide (x = [])) eqn:Ex.
  - rewrite (assign_live _ _ _ _ L1). cbn [obind]. apply bool_decide_eq_true in Ex as ->. rewrite drop_nil.
    eexists. split; [done|]. split; [|by eexists].
    exists i, f1. split; [done|]. split; [apply list_lookup_insert_eq; by eapply lookup_lt_Some|]. rewrite Hn1. done.
  - rewrite (assign_live _ _ _ _ L1). cbn [obind]. eexists. split; [done|]. split; [|by eexists].
    exists i, f2. split; [done|]. split; [apply list_lookup_insert_eq; by eapply lookup_lt_Some|]. rewrite Hn2, Hn1. done.
Qed.

#[local] Program Instance gw_supplier : Supplier (call_io (gw_rebuild_io sys)) := {|
  gives s cs := ∃ d x, ss_data s = Some d ∧ left_of d x ∧ pieces x cs
|}.
Next Obligation. intros s s' cs (d & x & Hd & H) (H1 & _). exists d, x. by rewrite H1. Qed.
Next Obligation.
  intros s cs (d & x & Hd & Hl & Hp). destruct (gw_supply d x Hl) as (d' & Hrun & Hl' & (od & Hrd)).
  unfold call_io, gw_rebuild_io. cbn zeta. rewrite Hd. rewrite Hrd in Hrun |- *. cbn [obind Z.eqb CI_ERROR] in Hrun |- *.
  rewrite Hrun. cbn [obind]. unfold gw_view. destruct Hp as [|x cs Hne Hp].
  - rewrite bool_decide_true by done. cbn [obind Z.ltb Z.compare CI_EOF]. rewrite apply_same_view. by eexists _, _, _, _, _.
  - rewrite bool_decide_false by done. cbn [obind].
    assert (0 < zlen (take (Z.to_nat MAX_CHUNK_SIZE) x) ≤ MAX_CHUNK_SIZE).
    { rewrite zlen_take. destruct x; [done|]. unfold MAX_CHUNK_SIZE, zlen in *. cbn [length]. lia. }
    rewrite (proj2 (Z.ltb_lt _ _)) by lia. rewrite apply_same_view.
    eexists _, _, _, _, _. split; [done|]. intros c cs' [= <- <-]. split; [done|].
    exists d', (drop (Z.to_nat MAX_CHUNK_SIZE) x). done.
Qed.
End io.

(** ** A request from end to end *)

Section serve.
Context (junk : Z → Z) (a ah : bool) (sys : gw_system) (conf : gw_conf) (env : server_env).
Context (wr_all : ∀ n, wr sys n = n) (rd_all : rd sys = true) (fstat_all : fstat_ok sys = true).
Context (new_all : ∀ n, ∃ k, new_file sys n = (true, k) ∧ 0 ≤ k).

#[local] Instance store_receives lim al : Consumer (call_io (gw_rebuild_io sys)) := gw_consumer sys wr_all lim al.
#[local] Instance store_answers : Supplier (call_io (gw_rebuild_io sys)) := gw_supplier sys rd_all.

Lemma preview_handler_spec s d n u :
  ss_data s = Some d → hasbody (ss_encaps s) = true → 0 < MAX_OBJECT_SIZE conf ≤ INT_MAX →
  ci_http_content_length (ss_encaps s) = Ret n → ci_http_request_url (ss_encaps s) LOG_URL_SIZE = Ret u →
  ∃ d', gw_rebuild_check_preview_handler sys conf s None = Ret (CI_MOD_CONTINUE, [], Some d') ∧
    receiving (MAX_OBJECT_SIZE conf) d' false [] ∧ gw_allow204 d' = gw_allow204 d ∧
    max_object_size d' = MAX_OBJECT_SIZE conf.
Proof.
  intros Hd Hb Hlim Hn Hu. unfold gw_rebuild_check_preview_handler. rewrite Hd, Hb. cbn [negb]. rewrite Hn. cbn [obind].
  rewrite Hu. cbn [obind]. set (d1 := set_expected _ _ _ d).
  destruct (init_body_data_spec sys new_all (MAX_OBJECT_SIZE conf) d1 Hlim) as (bd & H & -> & Hr); [done|]. cbn [obind].
  change (zlen (default [] None) =? 0) with true. cbn match. eexists. split; [done|]. by split_and!.
Qed.

(** The answer to a request whose whole body the service has received. *)
Lemma gw_answer s d eof a0 p out code h b ls tl pg page lang m x xls fuel :
  let lim := MAX_OBJECT_SIZE conf in
  let dec := decide_body code out in
  let answer := answer_body page a0 dec in
  let ops := gw_service junk true true a ah sys conf true (0, 0) in
  let msg := response_message env s m x EC_200 xls (answer_lines page lang ls dec) b (cut_pieces (length answer) answer) in
  ss_echo s = None → ss_data s = Some d → receiving lim d eof a0 →
  zlen a0 < lim ≤ INT_MAX → zlen answer < lim →
  external conf a0 = (p, out) → exec_prog p = Ret code → zlen out ≤ INT_MAX →
  (∀ s d, template conf s d = Some (pg, lang)) → page_ok pg page → (∀ l, lang = Some l → no_nul l) →
  (dec = Refuse → rtype (ss_req s) = ICAP_RESPMOD) → (dec = Pass → gw_allow204 d = false) →
  answerable env s m x EC_200 xls h ls b → hrepr h ls tl → tl ≠ [] →
  idle s → is_ec_206 (ss_out s) = false → zlen (ws_wbuf (ss_out s)) = WBUF_SIZE →
  CHILD_HALT env = false → willing (zlen msg) (ss_conn s) → (length answer + 7 < fuel)%nat →
  ∃ s1 s', do_end_of_data junk true true env ops s = Ret (CI_OK, s1) ∧ ss_code s1 = Some EC_200 ∧
    send_remaining_response junk true true env fuel ops (with_locked false s1) = Ret (CI_OK, s') ∧
    sent (ss_conn s') = sent (ss_conn s) ++ msg.
Proof.
  intros lim dec answer ops msg Hec Hd Hrec Hlim Hans Hx He Hlen Htmp Hpg Hlang Href Hpass Ha Hr Htl Hid H206 Hwb Hh Hwill Hf.
  destruct (end_of_data_spec junk a ah sys conf wr_all fstat_all new_all s d lim eof a0 p out code h b ls tl pg page lang)
    as (stats & d' & e' & h' & tl' & Hrun & (i & f & Hi & Hfl & Hre & Hend) & Hm' & Hr' & Htr & Hb' & Hsl & Hmx' & _); try done.
  { exact (an_packed _ _ _ _ _ _ _ _ _ Ha). }
  { exact (an_message _ _ _ _ _ _ _ _ _ Ha). }
  fold dec answer in Hre, Hend, Hr'.
  unfold do_end_of_data. cbn [ops gw_service mod_end_of_data_handler]. rewrite Hrun. cbn [obind Z.eqb CI_MOD_DONE CI_MOD_ALLOW204 CI_MOD_ALLOW206 andb negb Pos.eqb].
  set (s1 := apply_view _ s). exists s1.
  assert (Ha1 : answerable env (with_locked false s1) m x EC_200 xls h' (answer_lines page lang ls dec) b).
  { destruct Ha as [A1 A2 A3 A4 A5 A6 A7 A8 A9 A10 A11]. split; try done; [cbn; by rewrite Htr|by exists tl']. }
  assert (Hp : pieces answer (cut_pieces (length answer) answer)) by (by apply cut_pieces_spec).
  assert (Hmsg : response_message env (with_locked false s1) m x EC_200 xls (answer_lines page lang ls dec) b (cut_pieces (length answer) answer) = msg).
  { unfold msg, response_message, body_end. cbn [ss_req with_locked s1 apply_view rtype keepalive set_encaps ss_out is_ec_206]. by rewrite H206. }
  destruct (send_remaining_response_spec junk env fuel ops (call_io (gw_rebuild_io sys)) (with_locked false s1) m x EC_200 xls h'
    (answer_lines page lang ls dec) b (cut_pieces (length answer) answer) Ha1) as (ret & s' & dd & rest & Hs & Hsent & Hmr & Hret & Hlive).
  - exact (id_status _ Hid).
  - exact (id_remain _ Hid).
  - exact Hwb.
  - cbn. by rewrite H206.
  - unfold body_io. cbn [ss_echo with_locked s1 apply_view]. by rewrite Hec.
  - exists d', answer. split; [done|]. split; [|done]. exists i, f. split_and!; try done. rewrite Hend, Hsl, Hmx'.
    destruct Hrec as (? & ? & _ & _ & _ & Hl). unfold limited in Hl. intros E. rewrite E in Hl. destruct Hl as [-> _]. lia.
  - pose proof (pieces_length _ _ Hp). lia.
  - rewrite Hmsg in *. rewrite Hlive in Hs, Hret by done. exists s'. split_and!; try done; [exact (an_code _ _ _ _ _ _ _ _ _ Ha)|].
    destruct Hret as [|[_ ->]]; [done|]. rewrite app_nil_r in Hmr. subst dd. exact Hsent.
Qed.

End serve.

(** ** A request without a body *)

(** A request without a body crashes the service.  A REQMOD or RESPMOD request without preview, of a client that does not
    accept 204, and without a body has no service data; its preview handler asks for a 204, the server goes on with a 200, and
    the end of data handler writes through the null pointer. *)
Theorem gw_no_body_crashes junk ai ab a ah sys conf env ar fuel pf pool old (s : session gw_data) :
  ss_data s = gw_rebuild_init_request_data conf pool old s → hasbody (ss_encaps s) = false →
  preview (ss_req s) < 0 → allow204 (ss_req s) = false →
  do_modification junk ai ab env (gw_service junk ai ab a ah sys conf pool old) ar fuel pf s = UB.
Proof.
  intros Hinit Hb Hprev H204.
  assert (Hd : ss_data s = None) by (rewrite Hinit; unfold gw_rebuild_init_request_data; by rewrite Hb).
  unfold do_modification. solve_cmp. unfold do_fake_preview. cbn [gw_service mod_check_preview_handler].
  unfold gw_rebuild_check_preview_handler. rewrite Hd. cbn [obind]. rewrite !gw_view_same.
  set (s0 := served None (ss_echo s) (ss_locked s) s). change (allow204 (ss_req s0)) with (allow204 (ss_req s)).
  change (hasbody (ss_encaps s0)) with (hasbody (ss_encaps s)). rewrite H204, Hb, andb_false_r.
  cbn [Z.eqb CI_MOD_ALLOW204 andb negb obind CI_OK CI_ERROR CI_EOF Pos.eqb ss_code with_code].
  rewrite bool_decide_false by done. cbn [andb obind Z.eqb]. unfold do_end_of_data. cbn [gw_service mod_end_of_data_handler].
  unfold gw_rebuild_end_of_data_handler. reflexivity.
Qed.

Definition sample_get : session gw_data :=
  mkSession (set_mod (Some sample_service) (set_type ICAP_RESPMOD (set_encaps
      (mkEncaps [Some (mkEntity 0 ICAP_RES_HDR (Some sample_list)); Some (mkEntity 20 ICAP_NULL_BODY None); None; None; None]
         (replicate 7 None) false) sample_request)))
    SEND_NOTHING None (mkWstream (replicate 4096 0) 0 0 false false (-1) 0 0) ONull sample_empty sample_empty
    false true None 0 (mkConn (replicate 400 3) (replicate 300 5) []) None.

Lemma gw_no_body_crashes_witness :
  do_modification (λ _, 7) true true sample_env (gw_service (λ _, 7) true true true true sample_system sample_conf true (0, 0))
    true 60 4100 sample_get = UB.
Proof. apply (gw_no_body_crashes (λ _, 7) true true true true sample_system sample_conf); reflexivity. Defined.

(** ** An answer at the limit *)

(** A whole block of [wbuf] is framed as a chunk and stays as it was. *)
Lemma frame_full wbuf :
  zlen wbuf = WBUF_SIZE → let x := slice wbuf EXTRA_CHUNK_SIZE MAX_CHUNK_SIZE in
  ∃ w p, frame_chunk wbuf MAX_CHUNK_SIZE = Ret (w, p, zlen (encode_chunk x)) ∧ zlen w = WBUF_SIZE ∧
    slice w p (zlen (encode_chunk x)) = encode_chunk x ∧ 0 ≤ p ∧ p + zlen (encode_chunk x) ≤ WBUF_SIZE ∧
    slice w EXTRA_CHUNK_SIZE MAX_CHUNK_SIZE = x.
Proof.
  intros Hz x. assert (Hx : zlen x = MAX_CHUNK_SIZE).
  { unfold x, WBUF_SIZE, MAX_CHUNK_SIZE, EXTRA_CHUNK_SIZE in *. rewrite zlen_slice; lia. }
  destruct (frame_chunk_spec wbuf x Hz) as (w & p & Hf & Hw & Hs & Hp & Hpl);
    [rewrite Hx; by unfold MAX_CHUNK_SIZE|by rewrite Hx|].
  rewrite Hx in Hf. exists w, p. split_and!; try done.
  assert (Hpv : p = EXTRA_CHUNK_SIZE - zlen (print_x MAX_CHUNK_SIZE ++ CRLF)).
  { unfold frame_chunk in Hf. apply obind_Ret in Hf as (w1 & _ & Hf). apply obind_Ret in Hf as (w2 & _ & Hf).
    apply obind_Ret in Hf as (w3 & _ & Hf). by injection Hf. }
  unfold encode_chunk in Hs. rewrite Hx in Hs. rewrite app_assoc in Hs. set (def := print_x MAX_CHUNK_SIZE ++ CRLF) in *.
  rewrite !zlen_app, Hx in Hs. rewrite slice_split in Hs by (unfold MAX_CHUNK_SIZE; zlia).
  replace (p + zlen def) with EXTRA_CHUNK_SIZE in Hs by lia. rewrite slice_split in Hs by (unfold MAX_CHUNK_SIZE, EXTRA_CHUNK_SIZE; zlia).
  apply app_inj_1 in Hs as [_ Hs].
  2:{ apply Nat2Z.inj. change (zlen (slice w p (zlen def)) = zlen def).
      apply zlen_slice; [done|zlia|]. unfold WBUF_SIZE, MAX_CHUNK_SIZE, EXTRA_CHUNK_SIZE in *. rewrite Hw. rewrite Hpv. zlia. }
  apply app_inj_1 in Hs as [Hs _]; [done|].
  apply Nat2Z.inj. change (zlen (slice w EXTRA_CHUNK_SIZE MAX_CHUNK_SIZE) = zlen x). rewrite Hx.
  apply zlen_slice; unfold WBUF_SIZE, MAX_CHUNK_SIZE, EXTRA_CHUNK_SIZE in *; lia.
Qed.

Section endless.
Context (junk : Z → Z) (ai ab : bool) (sys : gw_system) (env : server_env) (halt : CHILD_HALT env = false).

#[local] Abbreviation io := (call_io (gw_rebuild_io sys)).

(** The answer is being sent and its size has reached the limit; the buffer holds [x] at the place of the next chunk. *)
Record at_limit (s : session gw_data) (x : list Z) : Prop := {
  al_status : ss_status s = SEND_BODY;
  al_body : responce_hasbody (ss_out s) = true;
  al_wbuf : zlen (ws_wbuf (ss_out s)) = WBUF_SIZE;
  al_data : slice (ws_wbuf (ss_out s)) EXTRA_CHUNK_SIZE MAX_CHUNK_SIZE = x;
  al_size : ∃ d i f, ss_data s = Some d ∧ sizelimit d = true ∧ bd_store (gw_body d) = Some i ∧
    gw_files d !! i = Some (Some f) ∧ max_object_size d ≤ SimpleFile.endpos f
}.

(** A chunk of it is ready. *)
Definition framed (s : session gw_data) (x : list Z) : Prop :=
  at_limit s x ∧ ss_loc s = OWbuf ∧ remain s = zlen (encode_chunk x) ∧ 0 ≤ ws_ptr (ss_out s) ∧
  ws_ptr (ss_out s) + remain s ≤ WBUF_SIZE ∧ out_block s = encode_chunk x.

(** The service reports an error and leaves the length of the block as it was. *)
Lemma limit_fetch s x :
  at_limit s x → remain s = 0 → ∃ s', fetch_chunk io s = Ret (None, s') ∧ framed s' x ∧ ss_conn s' = ss_conn s.
Proof.
  intros [Hst Hb Hw Hx (d & i & f & Hd & Hsl & Hi & Hf & Hmax)] Hr. unfold fetch_chunk.
  set (s1 := point OWbuf EXTRA_CHUNK_SIZE MAX_CHUNK_SIZE s).
  assert (Hio : io s1 (Some MAX_CHUNK_SIZE) None true = Ret (CI_ERROR, SrcCode MAX_CHUNK_SIZE, 0, served (Some d) (ss_echo s1) (ss_locked s1) s1)).
  { unfold call_io, gw_rebuild_io, gw_rebuild_read_from_net. change (ss_data s1) with (ss_data s). rewrite Hd, Hsl.
    unfold gw_body_data_size. rewrite Hi, (deref_live _ _ _ Hf). cbn [obind]. rewrite (proj2 (Z.leb_le _ _) Hmax).
    cbn [obind Z.eqb CI_ERROR Pos.eqb]. by rewrite gw_view_same. }
  rewrite Hio. cbn [obind put_read]. change (MAX_CHUNK_SIZE =? CI_ERROR) with false. change (MAX_CHUNK_SIZE =? 0) with false. cbn match.
  set (s2 := point OWbuf EXTRA_CHUNK_SIZE MAX_CHUNK_SIZE _).
  assert (Hlen : zlen x = MAX_CHUNK_SIZE).
  { rewrite <- Hx. unfold WBUF_SIZE, MAX_CHUNK_SIZE, EXTRA_CHUNK_SIZE in *. rewrite zlen_slice; lia. }
  destruct (frame_full (ws_wbuf (ss_out s)) Hw) as (w & p & Hfr & Hzw & Hsl2 & Hp & Hpl & Hx2). cbn zeta in *. rewrite Hx in *.
  assert (Hfmt : ∃ o, format_body_chunk (ss_out s2) = Ret (CI_OK, o) ∧ ws_wbuf o = w ∧ ws_ptr o = p ∧
    remain_send_block_bytes o = zlen (encode_chunk x) ∧ responce_hasbody o = true).
  { unfold format_body_chunk. change (responce_hasbody (ss_out s2)) with (responce_hasbody (ss_out s)). rewrite Hb. cbn [negb].
    change (remain_send_block_bytes (ss_out s2)) with MAX_CHUNK_SIZE. change (0 <? MAX_CHUNK_SIZE) with true.
    change (MAX_CHUNK_SIZE <=? MAX_CHUNK_SIZE) with true. cbn [assert_ obind]. change (ws_wbuf (ss_out s2)) with (ws_wbuf (ss_out s)).
    rewrite Hfr. cbn [obind]. eexists. split; [done|]. by split_and!. }
  destruct Hfmt as (o & Hfmt & Ho1 & Ho2 & Ho3 & Ho4).
  rewrite (format_chunk_eq s2 CI_OK o Hfmt); [|exact Hb|right; by unfold remain]. cbn [obind Z.eqb CI_OK CI_EOF].
  eexists. split; [done|]. split; [|done]. unfold framed, remain, out_block. cbn [ss_loc with_out ss_out out_mem].
  unfold remain. cbn [ss_out with_out]. rewrite Ho1, Ho2, Ho3. split_and!; try done.
  split; cbn [ss_status ss_out with_out]; try done; [by rewrite Ho1|by rewrite Ho1|]. exists d, i, f. done.
Qed.

Lemma limit_round fuel s x ws wr w :
  framed s x → waits (ss_conn s) = ci_wait_for_write :: ws → writes (ss_conn s) = w :: wr → WBUF_SIZE ≤ w →
  ∃ s', remaining_loop junk ai ab env (S fuel) io s = remaining_loop junk ai ab env fuel io s' ∧ framed s' x ∧
    ss_conn s' = mkConn ws wr (sent (ss_conn s) ++ encode_chunk x).
Proof.
  intros (Hal & Hloc & Hrem & Hp & Hpl & Hblk) Hws Hwr Hw. cbn [remaining_loop].
  assert (Hpos : 0 < zlen (encode_chunk x)) by (unfold encode_chunk, CRLF; zlia).
  assert (Hflush : ∃ s1, flush env s = Ret (CI_OK, s1) ∧ at_limit s1 x ∧ remain s1 = 0 ∧
    ss_conn s1 = mkConn ws wr (sent (ss_conn s) ++ encode_chunk x)).
  { unfold flush. rewrite Hws. cbn [length flush_loop]. rewrite Hrem, (proj2 (Z.ltb_lt _ _) Hpos).
    unfold wait_for_data. rewrite halt, Hws. cbn [wait_loop].
    change (ci_connection_wait ci_wait_for_write ci_wait_for_write) with 2. change (flag_set 2 ci_wait_should_retry) with false.
    cbn [Z.ltb Z.compare Z.eqb]. set (s0 := with_conn 0 _ s).
    unfold send_current_block_data. change (remain s0) with (remain s). rewrite Hrem.
    rewrite (proj2 (Z.eqb_neq _ _)) by lia. change (out_mem s0) with (out_mem s). change (ws_ptr (ss_out s0)) with (ws_ptr (ss_out s)).
    assert (Hmem : out_mem s = ws_wbuf (ss_out s)) by (unfold out_mem; by rewrite Hloc).
    rewrite read_bytes_ok; [|done|lia|rewrite Hmem, (al_wbuf _ _ Hal); lia]. cbn [obind].
    assert (Hsl : slice (out_mem s) (ws_ptr (ss_out s)) (zlen (encode_chunk x)) = encode_chunk x)
      by (rewrite <- Hrem; exact Hblk).
    rewrite Hsl. unfold ci_write_nonblock. cbn [ss_conn s0 with_conn writes]. rewrite Hwr.
    rewrite (proj2 (Z.ltb_ge w 0)) by (unfold WBUF_SIZE, MAX_CHUNK_SIZE, EXTRA_CHUNK_SIZE in *; lia).
    rewrite Z.min_r by lia. rewrite (proj2 (Z.ltb_ge _ _)) by lia.
    set (s1 := advance _ _). assert (Hr1 : remain s1 = 0).
    { unfold s1, remain. cbn. unfold remain in Hrem. rewrite Hrem. lia. }
    cbn [obind]. change (remain_send_block_bytes (ss_out s1)) with (remain s1). rewrite Hr1. cbn [Z.eqb CI_ERROR Z.ltb Z.compare].
    exists s1. split; [done|]. split; [by destruct Hal; split|]. split; [done|].
    cbn. f_equal. by rewrite zlen_to_nat, firstn_all. }
  destruct Hflush as (s1 & -> & Hal1 & Hr1 & Hc1). cbn [obind Z.eqb CI_OK CI_ERROR].
  rewrite (al_status _ _ Hal1), Hr1. cbn [Z.eqb SEND_BODY Pos.eqb andb].
  destruct (limit_fetch s1 x Hal1 Hr1) as (s2 & -> & Hf2 & Hc2). cbn [obind]. unfold update_send_status.
  rewrite (al_status _ _ (proj1 Hf2)). cbn [Z.eqb SEND_BODY SEND_NOTHING SEND_EOF Pos.eqb obind Z.leb Z.compare CI_OK].
  exists s2. split; [done|]. split; [done|]. by rewrite Hc2.
Qed.

Lemma limit_rounds n fuel s x :
  framed s x → waits (ss_conn s) = replicate n ci_wait_for_write → writes (ss_conn s) = replicate n WBUF_SIZE → (n < fuel)%nat →
  ∃ s', remaining_loop junk ai ab env fuel io s = Ret (CI_ERROR, s') ∧
    sent (ss_conn s') = sent (ss_conn s) ++ concat (replicate n (encode_chunk x)).
Proof.
  revert fuel s. induction n as [|n IH]; intros fuel s Hfr Hws Hwr Hf; (destruct fuel as [|fuel]; [lia|]).
  - cbn [remaining_loop]. unfold flush. cbn [flush_loop]. destruct Hfr as (_ & _ & Hrem & _).
    assert (0 < zlen (encode_chunk x)) by (unfold encode_chunk, CRLF; zlia).
    rewrite Hrem, (proj2 (Z.ltb_lt _ _)) by lia. unfold wait_for_data. rewrite halt, Hws. cbn [wait_loop obind replicate Z.ltb Z.compare].
    eexists. split; [done|]. cbn. by rewrite app_nil_r.
  - cbn [replicate] in Hws, Hwr. destruct (limit_round fuel s x _ _ _ Hfr Hws Hwr ltac:(lia)) as (s1 & -> & Hfr1 & Hc1).
    destruct (IH fuel s1 Hfr1) as (s' & -> & Hs'); [by rewrite Hc1|by rewrite Hc1|lia|]. exists s'. split; [done|].
    rewrite Hs', Hc1. cbn [sent replicate concat]. by rewrite <- app_assoc.
Qed.
End endless.

(** An answer that has reached MaxObjectSize is never ended.  Once the store the answer is read from is as large as the
    limit (a rebuilt file may be, and so may a body of exactly that size), the service reports an error for
    every block and leaves its length as it was; the server does not look at the error and sends the 4064 stale bytes
    of its buffer as the next chunk.  A client that takes [n] blocks gets [n] chunks of them: no number of
    blocks ends the response. *)
Theorem gw_answer_at_limit_never_ends junk ai ab a ah sys conf env fuel pool old (s : session gw_data) x n :
  CHILD_HALT env = false → at_limit s x → remain s = 0 → ss_echo s = None →
  waits (ss_conn s) = replicate n ci_wait_for_write → writes (ss_conn s) = replicate n WBUF_SIZE → (S n < fuel)%nat →
  ∃ s', send_remaining_response junk ai ab env fuel (gw_service junk ai ab a ah sys conf pool old) s = Ret (CI_ERROR, s') ∧
    sent (ss_conn s') = sent (ss_conn s) ++ concat (replicate n (encode_chunk x)).
Proof.
  intros Hh Hal Hr He Hws Hwr Hf. unfold send_remaining_response, body_io. rewrite He, (al_status _ _ Hal).
  cbn [gw_service mod_service_io option_map Z.eqb SEND_BODY SEND_EOF Pos.eqb andb]. destruct fuel as [|fuel]; [lia|].
  cbn [remaining_loop]. unfold flush. cbn [flush_loop]. rewrite Hr. cbn [Z.ltb Z.compare obind Z.eqb CI_OK CI_ERROR].
  rewrite (al_status _ _ Hal), Hr. cbn [Z.eqb SEND_BODY Pos.eqb andb].
  destruct (limit_fetch sys s x Hal Hr) as (s2 & -> & Hf2 & Hc2). cbn [obind]. unfold update_send_status.
  rewrite (al_status _ _ (proj1 Hf2)). cbn [Z.eqb SEND_BODY SEND_NOTHING SEND_EOF Pos.eqb obind Z.leb Z.compare CI_OK].
  rewrite <- Hc2. apply limit_rounds; try done; [by rewrite Hc2|by rewrite Hc2|lia].
Qed.

(** A file of exactly the limit, and what an earlier response left in the buffer. *)
Definition sample_stale : session gw_data :=
  mkSession (set_mod (Some sample_service) (set_type ICAP_RESPMOD (set_encaps sample_message sample_request)))
    SEND_BODY (Some EC_200) (mkWstream (replicate 30 0 ++ replicate 4064 83 ++ [0; 0]) 0 0 true false (-1) 0 0) ONull sample_empty sample_empty
    false false None 0 (mkConn (replicate 3 ci_wait_for_write) (replicate 3 WBUF_SIZE) [])
    (Some (mkGw [Some (mkSimple 4 0 0 4 0 2 0 5 (bytes "data") None)] (mkBody (Some 0%nat) (Some 0%nat) 0 None) false 1 (-1) None [] (-1) true true 0 4)).

Lemma gw_answer_at_limit_never_ends_witness :
  ∃ s', send_remaining_response (λ _, 7) true true sample_env 10
      (gw_service (λ _, 7) true true true true sample_system sample_conf true (0, 0)) sample_stale = Ret (CI_ERROR, s') ∧
    sent (ss_conn s') = concat (replicate 3 (encode_chunk (replicate 4064 83))).
Proof.
  apply (gw_answer_at_limit_never_ends (λ _, 7) true true true true sample_system sample_conf sample_env 10 true (0, 0)
    sample_stale (replicate 4064 83) 3); try reflexivity.
  - split; try (vm_compute; reflexivity). eexists _, 0%nat, _. split_and!; reflexivity.
  - lia.
Defined.

(** ** A sample request to the service *)

Definition sample_gw_upload : session gw_data :=
  let s0 := mkSession
    (set_reader (mkReader (mkRstream 0 0 0 0 0 false (-1) 0 0 0) BNull [] (replicate 4096 0)
       [EvData (take 7 (encode sample_body)); EvData []; EvData (drop 7 (encode sample_body))] 0 ci_buf_init)
       (set_mod (Some sample_service) (set_type ICAP_RESPMOD (set_encaps sample_message sample_request))))
    SEND_NOTHING None (mkWstream (replicate 4096 0) 0 0 false false (-1) 0 0) ONull sample_empty sample_empty
    false true None 0 (mkConn (replicate 400 3) (replicate 300 5) []) None in
  with_data (gw_rebuild_init_request_data sample_conf true (0, 0) s0) s0.

(** The body is "hello world", which the sample program rebuilds as "clean". *)
Definition sample_gw_response : list Z :=
  response_message sample_env (with_code (Some EC_200) sample_gw_upload) sample_service sample_xdata EC_200 []
    (with_length 5 sample_lines) (mkEntity 20 ICAP_RES_BODY None) [bytes "clean"].

