(* ===== verification/Client.v ===== *)
(** * The ICAP client library (request_common.c)

    A client sends a request to an ICAP server and reads the response, without blocking:
    [ci_client_icapfilter_nonblocking] does what the connection allows and says what it waits for, and
    [ci_client_icapfilter] runs it to its end.  The data of the user comes from [source_read] and goes to
    [dest_write], which are arguments.  [client] is [ci_request_t] as a client uses it; it shares the
    request, the reader and the entities with the server. *)

From stdpp Require Import base list list_numbers strings numbers option.
From Stdlib Require Import ZArith Lia.
From S2P Require Import Prelude CString Chunks ReadBody SendBody Headers Encapsulated IcapHeader ParseRequest HttpApi Session Keepalive.

(** enum CLIENT_STATUS. *)
Definition CLIENT_INIT : Z := 0.
Definition CLIENT_SEND_HEADERS : Z := 1.
Definition CLIENT_SEND_HEADERS_WRITE_NOTHING : Z := CLIENT_SEND_HEADERS.
Definition CLIENT_SEND_HEADERS_WRITE_ICAP_HEADERS : Z := 2.
Definition CLIENT_SEND_HEADERS_WRITE_REQ_HEADERS : Z := 3.
Definition CLIENT_SEND_HEADERS_WRITE_RES_HEADERS : Z := 4.
Definition CLIENT_SEND_HEADERS_WRITE_PREVIEW_INFO : Z := 5.
Definition CLIENT_SEND_HEADERS_WRITE_PREVIEW : Z := 6.
Definition CLIENT_SEND_HEADERS_WRITE_EOF_INFO : Z := 7.
Definition CLIENT_SEND_HEADERS_FINISHED : Z := 8.
Definition CLIENT_READ_PREVIEW_RESPONSE : Z := 9.
Definition CLIENT_PROCESS_DATA : Z := 10.
Definition CLIENT_PROCESS_DATA_GET_NOTHING : Z := CLIENT_PROCESS_DATA.
Definition CLIENT_PROCESS_DATA_GET_HEADERS : Z := 11.
Definition CLIENT_PROCESS_DATA_HEADERS_FINISHED : Z := 12.
Definition CLIENT_PROCESS_DATA_GET_BODY : Z := 13.
Definition CLIENT_PROCESS_DATA_GET_EOF : Z := 14.

Definition NEEDS_TO_READ_FROM_ICAP : Z := 1.
Definition NEEDS_TO_WRITE_TO_ICAP : Z := 2.
Definition NEEDS_TO_READ_USER_DATA : Z := 4.
Definition NEEDS_TO_WRITE_USER_DATA : Z := 8.

(** Where [pstrblock_responce] points. *)
Inductive cl_loc := CNull | CIcap | CEntity (i : Z) | CWbuf | CPreview | CEofStr.

Section client.
Context {S W : Type}.

(** [cl_code] is [return_code]; [cl_source] is the data source, [None] for the null pointer, [cl_dest] what the
    user has been given.  [data_locked], which no client function reads, is left out. *)
Record client := mkClient {
  cl_req : ci_request;
  cl_status : Z;
  cl_code : Z;
  cl_out : wstream;
  cl_at : cl_loc;
  cl_response : ci_headers_list_t;
  cl_xheaders : ci_headers_list_t;
  cl_packed : bool;
  cl_eof_sent : bool;
  cl_bytes_out : Z;
  cl_conn : conn;
  cl_source : option S;
  cl_dest : W
}.

Definition to_req (q : ci_request) (c : client) : client :=
  mkClient q (cl_status c) (cl_code c) (cl_out c) (cl_at c) (cl_response c) (cl_xheaders c) (cl_packed c) (cl_eof_sent c)
    (cl_bytes_out c) (cl_conn c) (cl_source c) (cl_dest c).
Definition to_status (x : Z) (c : client) : client :=
  mkClient (cl_req c) x (cl_code c) (cl_out c) (cl_at c) (cl_response c) (cl_xheaders c) (cl_packed c) (cl_eof_sent c)
    (cl_bytes_out c) (cl_conn c) (cl_source c) (cl_dest c).
Definition to_code (x : Z) (c : client) : client :=
  mkClient (cl_req c) (cl_status c) x (cl_out c) (cl_at c) (cl_response c) (cl_xheaders c) (cl_packed c) (cl_eof_sent c)
    (cl_bytes_out c) (cl_conn c) (cl_source c) (cl_dest c).
Definition to_out (l : cl_loc) (w : wstream) (c : client) : client :=
  mkClient (cl_req c) (cl_status c) (cl_code c) w l (cl_response c) (cl_xheaders c) (cl_packed c) (cl_eof_sent c)
    (cl_bytes_out c) (cl_conn c) (cl_source c) (cl_dest c).
Definition to_response (h : ci_headers_list_t) (c : client) : client :=
  mkClient (cl_req c) (cl_status c) (cl_code c) (cl_out c) (cl_at c) h (cl_xheaders c) (cl_packed c) (cl_eof_sent c)
    (cl_bytes_out c) (cl_conn c) (cl_source c) (cl_dest c).
Definition to_packed (b : bool) (c : client) : client :=
  mkClient (cl_req c) (cl_status c) (cl_code c) (cl_out c) (cl_at c) (cl_response c) (cl_xheaders c) b (cl_eof_sent c)
    (cl_bytes_out c) (cl_conn c) (cl_source c) (cl_dest c).
Definition to_eof_sent (b : bool) (c : client) : client :=
  mkClient (cl_req c) (cl_status c) (cl_code c) (cl_out c) (cl_at c) (cl_response c) (cl_xheaders c) (cl_packed c) b
    (cl_bytes_out c) (cl_conn c) (cl_source c) (cl_dest c).
Definition to_conn (n : Z) (k : conn) (c : client) : client :=
  mkClient (cl_req c) (cl_status c) (cl_code c) (cl_out c) (cl_at c) (cl_response c) (cl_xheaders c) (cl_packed c) (cl_eof_sent c)
    (to_u64 (cl_bytes_out c + n)) k (cl_source c) (cl_dest c).
Definition to_source (d : option S) (c : client) : client :=
  mkClient (cl_req c) (cl_status c) (cl_code c) (cl_out c) (cl_at c) (cl_response c) (cl_xheaders c) (cl_packed c) (cl_eof_sent c)
    (cl_bytes_out c) (cl_conn c) d (cl_dest c).
Definition to_dest (d : W) (c : client) : client :=
  mkClient (cl_req c) (cl_status c) (cl_code c) (cl_out c) (cl_at c) (cl_response c) (cl_xheaders c) (cl_packed c) (cl_eof_sent c)
    (cl_bytes_out c) (cl_conn c) (cl_source c) d.

Definition cl_reader (c : client) : reader := rq_reader (cl_req c).
Definition cl_stream (c : client) : rstream := rd_stream (cl_reader c).
Definition cl_encaps (c : client) : encaps := rq_encaps (cl_req c).
Definition cl_remain (c : client) : Z := remain_send_block_bytes (cl_out c).
Definition to_reader (r : reader) (c : client) : client := to_req (set_reader r (cl_req c)) c.
Definition to_encaps (e : encaps) (c : client) : client := to_req (set_encaps e (cl_req c)) c.

(** [pstrblock_responce] and [remain_send_block_bytes]. *)
Definition to_block (l : cl_loc) (p n : Z) (c : client) : client :=
  to_out l (set_send (ws_wbuf (cl_out c)) p n (cl_out c)) c.

(** [sprintf(req->wbuf, ...)] of [d], which is then the block to send. *)
Definition to_wbuf (d : list Z) (c : client) : outcome client :=
  let* w := write_bytes (ws_wbuf (cl_out c)) 0 (d ++ [NUL]) in
  Ret (to_out CWbuf (set_send w 0 (zlen d) (cl_out c)) c).

(** ** Starting *)

Context (junk : Z → Z) (ai ab a ah : bool) (ra : nat → bool) (version : list Z) (agent : option (list Z)).

(** The strings are those before the NUL. *)
Definition ci_client_request (al : bool) (h1 h2 h3 : ci_headers_list_t) (evs : list net_event) (k : conn)
    (server svc : list Z) (src : option S) (dst : W) : option client :=
  if negb al then None
  else
  let r := mkReader new_rstream BNull (buf h1) (fresh junk 0 BUFSIZE) evs 0 ci_buf_init in
  let q := mkReq (-1) (take (Z.to_nat CI_MAXHOSTNAMELEN) server) (take (Z.to_nat MAX_SERVICE_NAME) svc) [] (-1) true false false
             None h1 (mkEncaps (replicate 5 None) (replicate 7 None) false) r in
  Some (mkClient q CLIENT_INIT (-1) (mkWstream (fresh junk 0 WBUF_SIZE) 0 0 false false (-1) 0 0) CNull h2 h3 false false 0 k src dst).

Definition ci_client_request_reuse (c : client) : outcome client :=
  let q := cl_req c in
  let r := rq_reader q in
  let w := cl_out c in
  let* e := release_entities 5 0 (rq_encaps q) in
  let t := mkRstream 0 0 0 0 0 false (-1) (request_bytes_in (rd_stream r)) 0 0 in
  Ret (mkClient
    (mkReq (-1) (req_server q) (service q) [] (preview q) (keepalive q) false false (current_service_mod q)
       (ci_headers_reset (request_header q)) (mkEncaps (entities e) (trash_entities e) false)
       (mkReader t BNull (rd_hdr r) (rd_rbuf r) (rd_conn r) 0 (ci_buf_reset (rd_preview r))))
    0 (cl_code c) (mkWstream (ws_wbuf w) 0 0 false (is_ec_206 w) (-1) 0 0) CNull
    (ci_headers_reset (cl_response c)) (ci_headers_reset (cl_xheaders c)) false false 0 (cl_conn c) (cl_source c) (cl_dest c)).

(** [snprintf(buf, 255, ...)]. *)
Definition snprintf_255 (s : list Z) : list Z := take 254 s.

Definition add (line : list Z) (h : ci_headers_list_t) : outcome ci_headers_list_t :=
  let* (_, h) := ci_headers_add junk ai ab h line in Ret h.

Definition ci_methods : list (list Z) := [[]; bytes "OPTIONS"; bytes "REQMOD"; []; bytes "RESPMOD"].

Definition ci_method_string (m : Z) : list Z :=
  if (m <=? ICAP_RESPMOD) && (ICAP_OPTIONS <=? m) then nth (Z.to_nat m) ci_methods [] else bytes "UNKNOWN".

Definition user_agent : option (list Z) :=
  match agent with
  | Some x => if zlen x =? 0 then None else Some x
  | None => Some (bytes "C-ICAP-Client-Library/" ++ version)
  end.

(** The lines of the ICAP header, but for the extra headers. *)
Definition request_lines (q : ci_request) (reqtype : Z) : list (list Z) :=
  [snprintf_255 (ci_method_string reqtype ++ bytes " icap://" ++ req_server q ++ bytes "/" ++ service q ++ bytes " ICAP/1.0");
   snprintf_255 (bytes "Host: " ++ req_server q)] ++
  match user_agent with Some u => [snprintf_255 (bytes "User-Agent: " ++ u)] | None => [] end ++
  (if allow204 q && allow206 q then [bytes "Allow: 204, 206"] else if allow204 q then [bytes "Allow: 204"] else []) ++
  (if allow206 q then [bytes "Allow: 206"] else []).

Definition add_all (ls : list (list Z)) (h : ci_headers_list_t) : outcome ci_headers_list_t :=
  foldl (λ m l, let* h := m in add l h) (Ret h) ls.

Definition client_create_request (reqtype : Z) (c : client) : outcome (Z * client) :=
  if negb ((reqtype =? ICAP_OPTIONS) || (reqtype =? ICAP_REQMOD) || (reqtype =? ICAP_RESPMOD)) then Ret (CI_ERROR, c)
  else
  let q := set_type reqtype (cl_req c) in
  let* h := add_all (request_lines q reqtype) (request_header q) in
  let* h :=
    if used (cl_xheaders c) =? 0 then Ret h
    else let* (_, h) := ci_headers_addheaders junk ai ab h (cl_xheaders c) in Ret h in
  Ret (CI_OK, to_req (set_header h q) c).

Definition get_request_options (h : ci_headers_list_t) (q : ci_request) : outcome ci_request :=
  let at_ p := drop (Z.to_nat p) (buf h) in
  let* o := ci_headers_value h (bytes "Preview") in
  let* pv := match o with Some p => let* (v, _) := scan (strtol 10 (at_ p)) in Ret (to_int v) | None => Ret (-1) end in
  let* o := ci_headers_value h (bytes "Allow") in
  let* a4 := match o with Some p => let* (v, _) := scan (strtol 10 (at_ p)) in Ret (v =? 204) | None => Ret false end in
  let* o := ci_headers_value h (bytes "Connection") in
  let* close := match o with Some p => scan (str_prefix (bytes "close") (at_ p)) | None => Ret false end in
  let q := set_preview pv (set_allow a4 (allow206 q) q) in
  Ret (if close : bool then set_keepalive false q else q).

(** ** Sending the headers *)

(** The object a block is in. *)
Definition block_object (c : client) : outcome (list Z) :=
  match cl_at c with
  | CNull => UB
  | CIcap => Ret (buf (request_header (cl_req c)))
  | CEntity i => let* h := heads_at (cl_encaps c) (InEntities i) in Ret (buf h)
  | CWbuf => Ret (ws_wbuf (cl_out c))
  | CPreview => match bbuf (rd_preview (cl_reader c)) with Some m => Ret m | None => UB end
  | CEofStr => Ret (eof_chunk ++ [NUL])
  end.

(** The write of the block: the bytes written, negative for an error. *)
Definition write_block (c : client) : outcome (Z * client) :=
  let w := cl_out c in
  let* m := block_object c in
  let* d := read_bytes m (ws_ptr w) (cl_remain c) in
  let '(n, k) := ci_write_nonblock (cl_conn c) d in
  if n <? 0 then Ret (n, to_conn 0 k c)
  else Ret (n, to_conn n k (to_block (cl_at c) (ws_ptr w + n) (cl_remain c - n) c)).

Definition block_write_nonblock (c : client) : outcome (Z * client) :=
  match cl_at c with
  | CNull => Ret (CI_ERROR, c)
  | _ =>
      if cl_remain c =? 0 then Ret (CI_OK, c)
      else
      let* (n, c) := write_block c in
      if n <? 0 then Ret (CI_ERROR, c)
      else Ret (if 0 <? cl_remain c then CI_NEEDS_MORE else CI_OK, c)
  end.

(** The place of the header list of the first entity of type [t]; the array has five places. *)
Fixpoint get_headers_from_entities (n : nat) (i t : Z) (es : list (option ci_encaps_entity_t)) :
    outcome (option (Z * ci_headers_list_t)) :=
  let* o := arr_get es i in
  match o, n with
  | None, _ => Ret None
  | Some _, O => NoFuel
  | Some e, Datatypes.S n' =>
      if type e =? t then Ret (match entity e with Some h => Some (i, h) | None => None end)
      else get_headers_from_entities n' (i + 1) t es
  end.

(** The headers of type [t] are the next block; whether there are any. *)
Definition next_headers (t : Z) (c : client) : outcome (bool * client) :=
  let* o := get_headers_from_entities 5 0 t (entities (cl_encaps c)) in
  Ret (match o with
       | Some (i, h) => (true, to_block (CEntity i) 0 (bufused h) c)
       | None => (false, c)
       end).

Definition preview_end (has_eof : bool) : list Z :=
  bytes "0" ++ (if has_eof then bytes "; ieof" else []) ++ CRLF ++ CRLF.

(** The first call packs the request. *)
Definition start_headers (c : client) : outcome client :=
  if cl_status c =? CLIENT_SEND_HEADERS_WRITE_NOTHING then
    let q := cl_req c in
    let* (es, h) := ci_request_t_pack junk ai ab true (preview q) (entities (rq_encaps q)) (request_header q) in
    let e := mkEncaps es (trash_entities (rq_encaps q)) (hasbody (rq_encaps q)) in
    Ret (to_block CIcap 0 (bufused h)
      (to_packed true (to_status CLIENT_SEND_HEADERS_WRITE_ICAP_HEADERS (to_req (set_header h (set_encaps e q)) c))))
  else Ret c.

(** The steps after a block was sent: whether there is a new block to send. *)
Definition after_icap (c : client) : outcome (bool * client) :=
  if cl_status c =? CLIENT_SEND_HEADERS_WRITE_ICAP_HEADERS then
    next_headers ICAP_REQ_HDR (to_status CLIENT_SEND_HEADERS_WRITE_REQ_HEADERS c)
  else Ret (false, c).

Definition after_req (c : client) : outcome (bool * client) :=
  if cl_status c =? CLIENT_SEND_HEADERS_WRITE_REQ_HEADERS then
    next_headers ICAP_RES_HDR (to_status CLIENT_SEND_HEADERS_WRITE_RES_HEADERS c)
  else Ret (false, c).

Definition after_res (has_eof : bool) (c : client) : outcome (bool * client) :=
  if cl_status c =? CLIENT_SEND_HEADERS_WRITE_RES_HEADERS then
    let p := preview (cl_req c) in
    if (0 <? p) && (0 <? bused (rd_preview (cl_reader c))) then
      let* c := to_wbuf (print_x p ++ CRLF) c in Ret (true, to_status CLIENT_SEND_HEADERS_WRITE_PREVIEW_INFO c)
    else if p =? 0 then
      let* c := to_wbuf (preview_end has_eof) c in Ret (true, to_status CLIENT_SEND_HEADERS_WRITE_EOF_INFO c)
    else
      let* _ := assert_ (cl_remain c =? 0) in Ret (false, to_status CLIENT_PROCESS_DATA c)
  else Ret (false, c).

Definition after_preview (has_eof : bool) (c : client) : outcome (bool * client) :=
  if cl_status c =? CLIENT_SEND_HEADERS_WRITE_PREVIEW_INFO then
    Ret (true, to_block CPreview 0 (bused (rd_preview (cl_reader c))) (to_status CLIENT_SEND_HEADERS_WRITE_PREVIEW c))
  else if cl_status c =? CLIENT_SEND_HEADERS_WRITE_PREVIEW then
    let* c := to_wbuf (CRLF ++ preview_end has_eof) (to_status CLIENT_SEND_HEADERS_WRITE_EOF_INFO c) in Ret (true, c)
  else if cl_status c =? CLIENT_SEND_HEADERS_WRITE_EOF_INFO then
    Ret (false, to_status CLIENT_PROCESS_DATA (if has_eof then to_eof_sent true c else c))
  else Ret (false, c).

(** The statements run in turn until one returns. *)
Definition or_else (m : outcome (bool * client)) (k : client → outcome (bool * client)) : outcome (bool * client) :=
  let* (more, c) := m in if (more : bool) then Ret (true, c) else k c.

Definition next_block (has_eof : bool) (c : client) : outcome (bool * client) :=
  or_else (after_icap c) (λ c, or_else (after_req c) (λ c, or_else (after_res has_eof c) (after_preview has_eof))).

Definition client_send_request_headers (has_eof : bool) (c : client) : outcome (Z * client) :=
  let* c := start_headers c in
  if cl_remain c =? 0 then Ret (CI_OK, c)
  else
  let* (ret, c) := block_write_nonblock c in
  if negb (ret =? CI_OK) then Ret (ret, c)
  else
  let* (more, c) := next_block has_eof c in
  Ret (if (more : bool) then CI_NEEDS_MORE else CI_OK, c).

(** ** Reading the headers of the response *)

(** [while (size - used < mustadded)] the buffer is enlarged; [ra i] is the result of the i-th reallocation. *)
Fixpoint check_realloc (fuel i : nat) (h : ci_headers_list_t) (mustadded : Z) : outcome (bool * ci_headers_list_t) :=
  if bufsize h - bufused h <? mustadded then
    match fuel with
    | O => NoFuel
    | Datatypes.S fuel' =>
        if ra i then
          let len := bufsize h + HEADSBUFSIZE in
          check_realloc fuel' (Datatypes.S i) (mkHeaders (size h) (headers h) len (bufused h) (grow junk (buf h) len) (packed h)) mustadded
        else Ret (false, h)
    end
  else Ret (true, h).

(** [n] bytes of the block are moved to the end of the header buffer. *)
Definition take_block (n : Z) (r : reader) (h : ci_headers_list_t) : outcome (reader * ci_headers_list_t) :=
  let s := rd_stream r in
  let* d := read_bytes (block_mem r) (pstrblock_read s) n in
  let* m := write_bytes (buf h) (bufused h) d in
  Ret (with_stream (set_block (pstrblock_read s + n) (pstrblock_read_len s - n) s) r, set_buf m (bufused h + n) h).

Definition client_parse_icap_header (r : reader) (h : ci_headers_list_t) : outcome (Z * reader * ci_headers_list_t) :=
  let s := rd_stream r in
  let len := pstrblock_read_len s in
  if len <? 4 then Ret (CI_NEEDS_MORE, r, h)
  else
  let* o := scan (ci_strnstr CRLFCRLF (Z.to_nat len) (drop (Z.to_nat (pstrblock_read s)) (block_mem r))) in
  let readed := match o with Some e => e + 4 | None => len - 3 end in
  let* (ok, h) := check_realloc (Z.to_nat readed) 0 h readed in
  if negb ok then Ret (CI_ERROR, r, h)
  else
  let* (r, h) := take_block readed r h in
  match o with
  | None => Ret (CI_NEEDS_MORE, r, h)
  | Some _ =>
      let* m := store (buf h) (bufused h - 2) NUL in
      Ret (CI_OK, r, set_buf m (bufused h - 2) h)
  end.

Definition client_parse_encaps_header (r : reader) (h : ci_headers_list_t) (size : Z) : outcome (Z * reader * ci_headers_list_t) :=
  let remains := size - bufused h in
  if remains <? 0 then Ret (CI_ERROR, r, h)
  else if remains =? 0 then Ret (CI_OK, r, h)
  else
  let len := pstrblock_read_len (rd_stream r) in
  let* (r, h) := if 0 <? len then take_block (if len <? remains then len else remains) r h else Ret (r, h) in
  if bufused h <? size then Ret (CI_NEEDS_MORE, r, h)
  else
  let* ok := cmp_at CRLFCRLF (buf h) (bufused h - 4) in
  if (ok : bool) then Ret (CI_OK, r, set_buf (buf h) (bufused h - 2) h)
  else Ret (CI_ERROR, r, h).

(** ** Reading the response *)

(** [%d] of [sscanf] with at most [w] characters, on the characters of a string: the number and what follows. *)
Definition scan_d (w : nat) (s : list Z) : option (Z * list Z) :=
  match skip_while isspace (s ++ [NUL]) with
  | Some (k, _) =>
      let s := drop k s in
      let neg := match s with 45 :: _ => true | _ => false end in
      let signed := match s with c :: _ => (c =? 45) || (c =? 43) | [] => false end in
      let s1 := if signed then tail s else s in
      let w1 := if signed then Nat.pred w else w in
      match scan_digits 10 0 0 (take w1 s1 ++ [NUL]) with
      | Some (v, n) => if (n =? 0)%nat then None else Some (if neg then - v else v, drop n s1)
      | None => None
      end
  | None => None
  end.

(** A literal character of the format. *)
Definition scan_char (c : Z) (s : list Z) : option (list Z) :=
  match s with x :: s' => if x =? c then Some s' else None | [] => None end.

Definition scan_chars (lit s : list Z) : option (list Z) := foldl (λ o c, s ← o; scan_char c s) (Some s) lit.

(** [sscanf(buf, "ICAP/%d.%d %3d", &v1, &v2, &status) == 3]. *)
Definition status_of (s : list Z) : option Z :=
  s ← scan_chars (bytes "ICAP/") s;
  '(_, s) ← scan_d (length s) s;
  s ← scan_char 46 s;
  '(_, s) ← scan_d (length s) s;
  '(v, _) ← scan_d 3 s;
  Some v.

Definition response_status (h : ci_headers_list_t) : outcome (option Z) :=
  let* s := scan (cstr (buf h)) in Ret (status_of s).

(** The Encapsulated header of the response; [false] when there is none.  The result of
    [process_encapsulated] is not looked at. *)
Definition read_encapsulated (c : client) : outcome (bool * client) :=
  let* o := ci_headers_search (cl_response c) (bytes "Encapsulated") in
  match o with
  | None => Ret (false, c)
  | Some p =>
      let* (_, e) := process_encapsulated junk a ah (cl_encaps c) (drop (Z.to_nat p) (buf (cl_response c))) in
      Ret (true, to_encaps e c)
  end.

(** [ci_headers_unpack] of the response header; its result is not looked at. *)
Definition unpack_response (c : client) : outcome client :=
  let* (_, h) := ci_headers_unpack a (cl_response c) in Ret (to_response h c).

(** The header block of entity 0, its announced size, and the change of it. *)
Definition first_heads (c : client) : outcome (Z * ci_headers_list_t) :=
  let* e0 := arr_get (entities (cl_encaps c)) 0 in
  let* e1 := arr_get (entities (cl_encaps c)) 1 in
  match e0, e1 with
  | Some x, Some y =>
      let size := start y - start x in
      if (size <? INT_MIN) || (INT_MAX <? size) then UB
      else match entity x with Some h => Ret (size, h) | None => UB end
  | _, _ => UB
  end.

Definition put_heads (h : ci_headers_list_t) (c : client) : outcome client :=
  let* e := set_heads (cl_encaps c) (InEntities 0) h in Ret (to_encaps e c).

(** The status line and the headers of the response.  [Some r] is a value to return. *)
Definition get_response_header (c : client) : outcome (option Z * client) :=
  let* (ret, r, h) := client_parse_icap_header (cl_reader c) (cl_response c) in
  let c := to_response h (to_reader r c) in
  if negb (ret =? CI_OK) then Ret (Some ret, c)
  else
  let* o := response_status h in
  match o with
  | None => Ret (Some CI_ERROR, c)
  | Some status =>
      let* c := unpack_response (to_code status c) in
      if allow204 (cl_req c) && (status =? 204) then Ret (Some 204, to_status CLIENT_PROCESS_DATA_GET_EOF c)
      else
      let* (found, c) := read_encapsulated c in
      if negb found then Ret (Some CI_ERROR, c)
      else
      let* e0 := arr_get (entities (cl_encaps c)) 0 in
      let* e1 := arr_get (entities (cl_encaps c)) 1 in
      match e0, e1 with
      | None, _ => Ret (Some CI_ERROR, c)
      | Some _, None =>
          let c := to_status CLIENT_PROCESS_DATA_GET_BODY c in
          Ret (if pstrblock_read_len (cl_stream c) =? 0 then Some CI_NEEDS_MORE else None, c)
      | Some _, Some _ =>
          let c := to_status CLIENT_PROCESS_DATA_GET_HEADERS c in
          let* (size, h) := first_heads c in
          let '(ok, h) := ci_headers_setsize junk a h size in
          let* c := put_heads h c in
          Ret (if ok =? 0 then Some CI_ERROR else None, c)
      end
  end.

Definition get_encaps_headers (c : client) : outcome (option Z * client) :=
  let* (size, h) := first_heads c in
  let* (ret, r, h) := client_parse_encaps_header (cl_reader c) h size in
  let* c := put_heads h (to_reader r c) in
  if negb (ret =? CI_OK) then Ret (Some ret, c)
  else
  let* (_, h) := ci_headers_unpack a h in
  let* c := put_heads h c in
  let s := cl_stream c in
  let c := to_reader (with_stream (set_pending 0 (set_chunk 0 0 s)) (cl_reader c)) c in
  let* e1 := arr_get (entities (cl_encaps c)) 1 in
  match e1 with
  | None => UB
  | Some y =>
      if type y =? ICAP_NULL_BODY then Ret (Some CI_OK, to_status CLIENT_PROCESS_DATA_GET_EOF c)
      else
      let c := to_status CLIENT_PROCESS_DATA_GET_BODY c in
      Ret (if pstrblock_read_len (cl_stream c) =? 0 then Some CI_NEEDS_MORE else None, c)
  end.

Context (source_read : S → Z → src_result * S) (dest_write : W → list Z → Z * W).

(** [while (write_to_module_pending > 0)]: every call gets the same pointer [wd]. *)
Fixpoint dest_loop (fuel : nat) (m : list Z) (wd : option Z) (c : client) : outcome (bool * client) :=
  let n := write_to_module_pending (cl_stream c) in
  if 0 <? n then
    match fuel with
    | O => NoFuel
    | Datatypes.S fuel' =>
        let* d := pending_data m wd n in
        let '(k, w) := dest_write (cl_dest c) d in
        let c := to_dest w c in
        if k <? 0 then Ret (false, c)
        else dest_loop fuel' m wd (to_reader (with_stream (set_pending (to_uint (n - k)) (cl_stream c)) (cl_reader c)) c)
    end
  else Ret (true, c).

(** One call of [parse_chunk_data] per step; [pf] is its fuel, [df] that of the loop above. *)
Fixpoint body_loop (pf df fuel : nat) (c : client) : outcome (Z * client) :=
  match fuel with
  | O => NoFuel
  | Datatypes.S fuel' =>
      let m := block_mem (cl_reader c) in
      let* (ret, wd, s) := parse_chunk_data pf m (cl_stream c) in
      let c := to_reader (with_stream s (cl_reader c)) c in
      if ret =? CI_ERROR then Ret (CI_ERROR, c)
      else
      let* (ok, c) := dest_loop df m wd c in
      if negb ok then Ret (CI_ERROR, c)
      else if ret =? CI_EOF then Ret (CI_OK, to_status CLIENT_PROCESS_DATA_GET_EOF c)
      else if ret =? CI_NEEDS_MORE then Ret (CI_NEEDS_MORE, c)
      else body_loop pf df fuel' c
  end.

Definition client_parse_incoming_data (pf df fuel : nat) (c : client) : outcome (Z * client) :=
  let* (o, c) :=
    if cl_status c =? CLIENT_PROCESS_DATA_GET_NOTHING then get_response_header c else Ret (None, c) in
  match o with
  | Some ret => Ret (ret, c)
  | None =>
      let* (o, c) :=
        if cl_status c =? CLIENT_PROCESS_DATA_GET_HEADERS then get_encaps_headers c else Ret (None, c) in
      match o with
      | Some ret => Ret (ret, c)
      | None =>
          if cl_status c =? CLIENT_PROCESS_DATA_GET_BODY then body_loop pf df fuel c else Ret (CI_OK, c)
      end
  end.

(** ** Sending the body and reading the response *)

(** What the writable connection gets: the error, whether the user's data is needed. *)
Definition send_data (c : client) : outcome (bool * bool * client) :=
  let* (err, needs, c) :=
    match cl_source c with
    | Some src =>
        if (cl_remain c =? 0) && negb (cl_eof_sent c) then
          let '(x, src) := source_read src MAX_CHUNK_SIZE in
          let* (r, w) := client_prepere_body_chunk x (cl_out c) in
          let at_ := match x with SrcData _ => CWbuf | SrcCode _ => cl_at c end in
          let c := to_out at_ w (to_source (Some src) c) in
          if r =? CI_ERROR then Ret (true, false, c)
          else if r =? CI_NEEDS_MORE then Ret (false, true, c)
          else if r =? CI_EOF then Ret (false, false, to_block CEofStr 0 5 (to_eof_sent true c))
          else Ret (false, false, c)
        else Ret (false, false, c)
    | None => Ret (false, false, c)
    end in
  if (err : bool) then Ret (true, needs, c)
  else if 0 <? cl_remain c then
    let* (n, c) := write_block c in Ret (n <? 0, needs, c)
  else Ret (false, needs, c).

Definition or_if (b : bool) (f x : Z) : Z := if b then Z.lor x f else x.

(** What the client waits for. *)
Definition client_action (needs : bool) (c : client) : Z :=
  or_if (negb (cl_status c =? CLIENT_PROCESS_DATA_GET_EOF)) NEEDS_TO_READ_FROM_ICAP
    (or_if (negb (cl_eof_sent c) || negb (cl_remain c =? 0)) NEEDS_TO_WRITE_TO_ICAP
      (or_if (0 <? write_to_module_pending (cl_stream c)) NEEDS_TO_WRITE_USER_DATA
        (or_if needs NEEDS_TO_READ_USER_DATA 0))).

Definition ci_client_send_and_get_data (pf df fuel : nat) (io_action : Z) (c : client) : outcome (Z * client) :=
  let c := match cl_source c with None => to_eof_sent true c | Some _ => c end in
  let* (err, needs, c) := if flag_set io_action ci_wait_for_write then send_data c else Ret (false, false, c) in
  if (err : bool) then Ret (CI_ERROR, c)
  else if flag_set io_action ci_wait_for_read then
    let* (n, r) := net_data_read (cl_reader c) in
    let c := to_reader r c in
    if n =? CI_ERROR then Ret (CI_ERROR, c)
    else
    let* (st, c) := client_parse_incoming_data pf df fuel c in
    if st =? CI_ERROR then Ret (CI_ERROR, c)
    else if st =? 204 then Ret (0, to_code 204 c)
    else Ret (client_action needs c, c)
  else Ret (client_action needs c, c).

(** ** The request *)

Definition release_four (e : encaps) : outcome encaps :=
  foldl (λ m i, let* e := m in let* (_, e) := ci_request_release_entity e i in Ret e) (Ret e) [0; 1; 2; 3].

(** [req->entities[i++] = ci_request_alloc_entity(req, t, 0)]. *)
Definition put_entity (t : Z) (x : Z * encaps) : outcome (Z * encaps) :=
  let '(i, e) := x in
  let* (o, e) := ci_request_alloc_entity junk a ah e t 0 in
  let* es := arr_set (entities e) i o in
  Ret (i + 1, mkEncaps es (trash_entities e) (hasbody e)).

Definition client_build_headers (rtype : Z) (has_reqhdr has_reshdr has_body : bool) (e : encaps) : outcome encaps :=
  let* e := release_four e in
  let* x := if has_reqhdr then put_entity ICAP_REQ_HDR (0, e) else Ret (0, e) in
  let* x := if has_reshdr then put_entity ICAP_RES_HDR x else Ret x in
  let* (_, e) := put_entity (if has_body then (if rtype =? ICAP_RESPMOD then ICAP_RES_BODY else ICAP_REQ_BODY) else ICAP_NULL_BODY) x in
  Ret e.

(** The loop that gets the preview: every call gets the start of the buffer.  Gives the value to
    return, if any, what is left, and whether the end was seen. *)
Fixpoint preview_read (fuel : nat) (remains : Z) (m : option (list Z)) (src : S) :
    outcome (option Z * Z * bool * option (list Z) * S) :=
  if remains =? 0 then Ret (None, remains, false, m, src)
  else
  match fuel with
  | O => NoFuel
  | Datatypes.S fuel' =>
      let '(x, src) := source_read src remains in
      match x with
      | SrcData d =>
          if zlen d =? 0 then Ret (None, remains, true, m, src)
          else if remains <? zlen d then UB
          else
          match m with
          | None => UB
          | Some b => let* b := write_bytes b 0 d in preview_read fuel' (remains - zlen d) (Some b) src
          end
      | SrcCode n =>
          if (n =? CI_EOF) || (n =? 0) then Ret (None, remains, true, m, src) else Ret (Some n, remains, false, m, src)
      end
  end.

Definition header_lines (h : ci_headers_list_t) : outcome (list (list Z)) :=
  foldr (λ p m, let* s := scan (cstr (drop (Z.to_nat p) (buf h))) in let* r := m in Ret (s :: r)) (Ret []) (headers h).

Definition add_http (f : encaps → list Z → outcome (option Z * encaps)) (ls : list (list Z)) (e : encaps) : outcome encaps :=
  foldl (λ m l, let* e := m in let* (_, e) := f e l in Ret e) (Ret e) ls.

(** The preview is read into its buffer: the value to return, if any. *)
Definition get_preview (c : client) : outcome (option Z * bool * client) :=
  match cl_source c with
  | None => Ret (None, false, to_req (set_preview (-1) (cl_req c)) c)
  | Some src =>
      let p := preview (cl_req c) in
      if 0 <? p then
        let '(_, b) := ci_buf_mem_alloc junk a (rd_preview (cl_reader c)) p in
        let* (o, remains, eof, m, src) := preview_read (Z.to_nat p) p (bbuf b) src in
        let b := mkBuf m (bsize b) (bused b) in
        let c := to_source (Some src) (to_reader (with_preview b (cl_reader c)) c) in
        match o with
        | Some _ => Ret (o, eof, c)
        | None =>
            let n := p - remains in
            let c := to_reader (with_preview (mkBuf m (bsize b) n) (cl_reader c)) c in
            Ret (None, eof, to_req (set_preview n (cl_req c)) c)
        end
      else Ret (None, false, c)
  end.

Definition prepare_headers (rqh rsh : option ci_headers_list_t) (c : client) : outcome (Z * client) :=
  let* (ret, c) := client_create_request (rtype (cl_req c)) c in
  if negb (ret =? CI_OK) then Ret (CI_ERROR, c)
  else
  let* (o, eof, c) := get_preview c in
  match o with
  | Some ret => Ret (ret, c)
  | None =>
      let c := if (eof : bool) then to_eof_sent true c else c in
      let has {A : Type} (o : option A) := match o with Some _ => true | None => false end in
      let* e := client_build_headers (rtype (cl_req c)) (has rqh) (has rsh) (has (cl_source c)) (cl_encaps c) in
      let* e :=
        match rqh with
        | Some h => let* ls := header_lines h in add_http (ci_http_request_add_header junk ai ab (cl_packed c)) ls e
        | None => Ret e
        end in
      let* e :=
        match rsh with
        | Some h => let* ls := header_lines h in add_http (ci_http_response_add_header junk ai ab (cl_packed c)) ls e
        | None => Ret e
        end in
      Ret (CI_OK, to_status CLIENT_SEND_HEADERS (to_encaps e c))
  end.

(** The response to a preview: the value returned and the status. *)
Definition ci_client_handle_previewed_response (c : client) : outcome (Z * Z * client) :=
  let* (n, r) := net_data_read (cl_reader c) in
  let c := to_reader r c in
  if n =? CI_ERROR then Ret (CI_ERROR, 100, c)
  else
  let* (ret, r, h) := client_parse_icap_header (cl_reader c) (cl_response c) in
  let c := to_response h (to_reader r c) in
  if negb (ret =? CI_OK) then Ret (ret, 100, c)
  else
  let* o := response_status h in
  match o with
  | None => Ret (CI_ERROR, 100, c)
  | Some st =>
      if st =? 204 then let* c := unpack_response c in Ret (CI_OK, st, c)
      else if (cl_eof_sent c && (st =? 200)) || (st =? 206) then
        let* c := unpack_response c in
        let* (found, c) := read_encapsulated c in
        if negb found then Ret (CI_ERROR, st, c)
        else
        let* e1 := arr_get (entities (cl_encaps c)) 1 in
        Ret (CI_OK, st, to_status (match e1 with None => CLIENT_PROCESS_DATA_GET_BODY | Some _ => CLIENT_PROCESS_DATA_GET_HEADERS end) c)
      else
        let c := if st =? 100 then to_status CLIENT_PROCESS_DATA c else c in
        Ret (CI_OK, st, to_response (ci_headers_reset (cl_response c)) c)
  end.

(** [Some r] is a value to return. *)
Definition step_init (rqh rsh : option ci_headers_list_t) (c : client) : outcome (option Z * client) :=
  if cl_status c =? CLIENT_INIT then
    let* (ret, c) := prepare_headers rqh rsh c in
    if ret =? CI_NEEDS_MORE then Ret (Some NEEDS_TO_READ_USER_DATA, c)
    else if negb (ret =? CI_OK) then Ret (Some ret, c)
    else Ret (None, to_status CLIENT_SEND_HEADERS c)
  else Ret (None, c).

Definition step_headers (eof : bool) (c : client) : outcome (option Z * client) :=
  if (CLIENT_SEND_HEADERS <=? cl_status c) && (cl_status c <? CLIENT_SEND_HEADERS_FINISHED) then
    let* (ret, c) := client_send_request_headers eof c in
    if ret =? CI_NEEDS_MORE then Ret (Some NEEDS_TO_WRITE_TO_ICAP, c)
    else if ret =? CI_ERROR then Ret (Some CI_ERROR, c)
    else Ret (None, to_status CLIENT_SEND_HEADERS_FINISHED c)
  else Ret (None, c).

Definition step_finished (c : client) : outcome (option Z * client) :=
  if cl_status c =? CLIENT_SEND_HEADERS_FINISHED then
    let* e := release_entities 5 0 (cl_encaps c) in
    let c := to_encaps e c in
    if 0 <=? preview (cl_req c) then Ret (Some NEEDS_TO_READ_FROM_ICAP, to_status CLIENT_READ_PREVIEW_RESPONSE c)
    else Ret (None, to_status CLIENT_PROCESS_DATA c)
  else Ret (None, c).

Definition step_preview (c : client) : outcome (option Z * client) :=
  if (0 <=? preview (cl_req c)) && (cl_status c =? CLIENT_READ_PREVIEW_RESPONSE) then
    let* (ret, st, c) := ci_client_handle_previewed_response c in
    if ret =? CI_NEEDS_MORE then Ret (Some NEEDS_TO_READ_FROM_ICAP, c)
    else if ret =? CI_ERROR then Ret (Some CI_ERROR, c)
    else
    let c := to_code st c in
    if (st =? 204) || (st =? 206) then Ret (Some 0, c)
    else if st =? 100 then Ret (Some NEEDS_TO_WRITE_TO_ICAP, c)
    else Ret (None, c)
  else Ret (None, c).

(** As [or_else], with the value to return. *)
Definition and_then (m : outcome (option Z * client)) (k : client → outcome (option Z * client)) : outcome (option Z * client) :=
  let* (o, c) := m in match o with Some _ => Ret (o, c) | None => k c end.

Definition ci_client_icapfilter_nonblocking (pf df fuel : nat) (io_action : Z) (rqh rsh : option ci_headers_list_t) (c : client) :
    outcome (Z * client) :=
  let* (o, c) :=
    and_then (step_init rqh rsh c) (λ c,
    and_then (step_headers (cl_eof_sent c) c) (λ c,
    and_then (step_finished c) step_preview)) in
  match o with
  | Some ret => Ret (ret, c)
  | None =>
      if CLIENT_PROCESS_DATA <=? cl_status c then ci_client_send_and_get_data pf df fuel io_action c
      else Ret (0, c)
  end.

(** The events to wait for. *)
Definition wait_bits (ret : Z) : Z :=
  or_if (flag_set ret NEEDS_TO_WRITE_TO_ICAP) ci_wait_for_write
    (or_if (flag_set ret NEEDS_TO_READ_FROM_ICAP) ci_wait_for_read 0).

Definition wait_for (what : Z) (c : client) : Z * client :=
  let k := cl_conn c in
  let '(r, ws) := wait_loop what (waits k) in (r, to_conn 0 (mkConn ws (writes k) (sent k)) c).

(** [turns] bounds the rounds of the endless loop. *)
Fixpoint ci_client_icapfilter (pf df fuel turns : nat) (io_action : Z) (rqh rsh : option ci_headers_list_t) (c : client) :
    outcome (Z * client) :=
  match turns with
  | O => NoFuel
  | Datatypes.S turns' =>
      let* (ret, c) := ci_client_icapfilter_nonblocking pf df fuel io_action rqh rsh c in
      if ret <? 0 then Ret (CI_ERROR, c)
      else if ret =? 0 then Ret (cl_code c, c)
      else
      let what := wait_bits ret in
      if what =? 0 then ci_client_icapfilter pf df fuel turns' io_action rqh rsh c
      else
      let '(w, c) := wait_for what c in
      if w <=? 0 then Ret (CI_ERROR, c) else ci_client_icapfilter pf df fuel turns' w rqh rsh c
  end.

(** ** The options of a server *)

Definition ci_client_get_server_options_nonblocking (c : client) : outcome (Z * client) :=
  let* (o, c) :=
    and_then
      (if cl_status c =? CLIENT_INIT then
         let* (ret, c) := client_create_request ICAP_OPTIONS c in
         if negb (ret =? CI_OK) then Ret (Some CI_ERROR, c) else Ret (None, to_status CLIENT_SEND_HEADERS c)
       else Ret (None, c)) (λ c,
    and_then (step_headers false c) (λ c,
      if cl_status c =? CLIENT_SEND_HEADERS_FINISHED then
        let* e := release_entities 5 0 (cl_encaps c) in
        Ret (Some NEEDS_TO_READ_FROM_ICAP, to_status CLIENT_PROCESS_DATA (to_encaps e c))
      else Ret (None, c))) in
  match o with
  | Some ret => Ret (ret, c)
  | None =>
      if CLIENT_PROCESS_DATA <=? cl_status c then
        let* (n, r) := net_data_read (cl_reader c) in
        let c := to_reader r c in
        if n =? CI_ERROR then Ret (CI_ERROR, c)
        else
        let* (ret, r, h) := client_parse_icap_header (cl_reader c) (cl_response c) in
        let c := to_response h (to_reader r c) in
        if ret =? CI_NEEDS_MORE then Ret (NEEDS_TO_READ_FROM_ICAP, c)
        else if ret =? CI_ERROR then Ret (CI_ERROR, c)
        else
        let* c := unpack_response c in
        let* q := get_request_options (cl_response c) (cl_req c) in
        Ret (0, to_req q c)
      else Ret (0, c)
  end.

Fixpoint ci_client_get_server_options (turns : nat) (c : client) : outcome (Z * client) :=
  match turns with
  | O => NoFuel
  | Datatypes.S turns' =>
      let* (status, c) := ci_client_get_server_options_nonblocking c in
      if status =? CI_ERROR then Ret (CI_ERROR, c)
      else
      let what := wait_bits status in
      if what =? 0 then (if status =? 0 then Ret (CI_OK, c) else ci_client_get_server_options turns' c)
      else
      let '(w, c) := wait_for what c in
      if w <=? 0 then Ret (CI_ERROR, c) else ci_client_get_server_options turns' c
  end.

Definition ci_client_http_headers_completed (c : client) : bool := CLIENT_PROCESS_DATA_HEADERS_FINISHED <=? cl_status c.
End client.
Arguments client : clear implicits.

(** CI_USER_AGENT, [None] for the null pointer; [a] is the result of strdup. *)
Definition ci_client_set_user_agent (a : bool) (agent current : option (list Z)) : option (list Z) :=
  match agent with
  | None => current
  | Some s => if a then Some s else None
  end.

Definition ci_client_library_release (current : option (list Z)) : option (list Z) := None.
