(* ===== verification/ClientSend.v ===== *)
(** * The request a client sends (request_common.c)

    The client sends the packed ICAP header, the HTTP headers and the preview in blocks, as the connection takes them.
    The theorems say what it sends for every sequence of short writes, and that the server reads it
    as what the client meant. *)

From stdpp Require Import base list list_numbers strings numbers option.
From Stdlib Require Import ZArith Lia.
From S2P Require Import Prelude CString Chunks ReadBody SendBody Headers Encapsulated IcapHeader ParseRequest HttpApi Session Keepalive Client.

(** The tests of a known status. *)
Ltac known_status :=
  repeat match goal with
  | |- context [?a =? ?b] => first [change (a =? b) with true | change (a =? b) with false]
  | |- context [?a <=? ?b] => first [change (a <=? b) with true | change (a <=? b) with false]
  | |- context [?a <? ?b] => first [change (a <? b) with true | change (a <? b) with false]
  end; cbv iota; cbn [negb andb orb].

Section send.
Context {S W : Type} (junk : Z → Z).
Implicit Types c : client S W.

(** ** Blocks *)

(** The bytes of the current block that are still to be sent. *)
Definition block_is (c : client S W) (d : list Z) : Prop :=
  ∃ m, block_object c = Ret m ∧ 0 ≤ ws_ptr (cl_out c) ∧ 0 ≤ cl_remain c ∧ ws_ptr (cl_out c) + cl_remain c ≤ zlen m ∧
    d = slice m (ws_ptr (cl_out c)) (cl_remain c).

(** What sending does not change. *)
Record kept (c c' : client S W) : Prop := {
  k_req : cl_req c' = cl_req c;
  k_code : cl_code c' = cl_code c;
  k_response : cl_response c' = cl_response c;
  k_xheaders : cl_xheaders c' = cl_xheaders c;
  k_packed : cl_packed c' = cl_packed c;
  k_source : cl_source c' = cl_source c;
  k_dest : cl_dest c' = cl_dest c;
  k_wbuf : zlen (ws_wbuf (cl_out c')) = zlen (ws_wbuf (cl_out c));
  k_waits : waits (cl_conn c') = waits (cl_conn c)
}.

#[local] Instance kept_refl : Reflexive kept.
Proof. intros c. by split. Qed.

#[local] Instance kept_trans : Transitive kept.
Proof. intros c1 c2 c3 [] []. split; congruence. Qed.

Lemma block_is_zlen c d : block_is c d → zlen d = cl_remain c.
Proof. intros (m & _ & ? & ? & ? & ->). by rewrite zlen_slice. Qed.

(** One write of a block. *)
Lemma write_block_spec c d w ws :
  block_is c d → writes (cl_conn c) = w :: ws → 0 ≤ w →
  let n := Z.min w (zlen d) in
  ∃ c', write_block c = Ret (n, c') ∧ kept c c' ∧ block_is c' (drop (Z.to_nat n) d) ∧
    sent (cl_conn c') = sent (cl_conn c) ++ take (Z.to_nat n) d ∧ writes (cl_conn c') = ws ∧
    cl_status c' = cl_status c ∧ cl_eof_sent c' = cl_eof_sent c ∧ cl_at c' = cl_at c.
Proof.
  intros Hb Hw Hp n. pose proof (block_is_zlen _ _ Hb) as Hz. destruct Hb as (m & Hm & Hptr & Hr & Hle & Hd).
  pose proof (zlen_nonneg d). unfold write_block. rewrite Hm. cbn [obind]. rewrite read_bytes_ok by done. cbn [obind].
  rewrite <- Hd. unfold ci_write_nonblock. rewrite Hw. rewrite (proj2 (Z.ltb_ge w 0)) by lia.
  fold n. rewrite (proj2 (Z.ltb_ge n 0)) by lia. eexists. split; [done|]. split; [by split|]. split; [|done].
  exists m. split; [exact Hm|]. unfold cl_remain in *. cbn.
  split_and!; try lia. subst d. unfold slice. rewrite skipn_firstn_comm, drop_drop. f_equal; [lia|]. f_equal. lia.
Qed.

(** ** What follows a block *)

(** The block [bl] is that of the headers of type [t]; it is empty when there are none. *)
Definition sends (t : Z) (bl : list Z) (q : ci_request) : Prop :=
  ∃ o, get_headers_from_entities 5 0 t (entities (rq_encaps q)) = Ret o ∧
    match o with
    | Some (i, h) => heads_at (rq_encaps q) (InEntities i) = Ret h ∧ 0 < bufused h ≤ zlen (buf h) ∧ bl = slice (buf h) 0 (bufused h)
    | None => bl = []
    end.

(** The preview of the request, with its data [pd]. *)
Definition previews (q : ci_request) (pd : list Z) : Prop :=
  preview q ≤ INT_MAX ∧
  (0 < preview q → bused (rd_preview (rq_reader q)) = preview q ∧
     ∃ m, bbuf (rd_preview (rq_reader q)) = Some m ∧ preview q ≤ zlen m ∧ pd = slice m 0 (preview q)).

Definition preview_part (eof : bool) (p : Z) (pd : list Z) : list Z :=
  if 0 <? p then print_x p ++ CRLF ++ pd ++ CRLF ++ preview_end eof
  else if p =? 0 then preview_end eof else [].

(** What is sent after the block of a status. *)
Definition after_block (eof : bool) (st p : Z) (rq rs pd : list Z) : list Z :=
  if st =? CLIENT_SEND_HEADERS_WRITE_ICAP_HEADERS then rq ++ rs ++ preview_part eof p pd
  else if st =? CLIENT_SEND_HEADERS_WRITE_REQ_HEADERS then rs ++ preview_part eof p pd
  else if st =? CLIENT_SEND_HEADERS_WRITE_RES_HEADERS then preview_part eof p pd
  else if st =? CLIENT_SEND_HEADERS_WRITE_PREVIEW_INFO then pd ++ CRLF ++ preview_end eof
  else if st =? CLIENT_SEND_HEADERS_WRITE_PREVIEW then CRLF ++ preview_end eof
  else [].

(** The headers are being sent: [d] is left of the current block. *)
Record in_headers (c : client S W) (rq rs pd d : list Z) : Prop := {
  ih_status : CLIENT_SEND_HEADERS_WRITE_ICAP_HEADERS ≤ cl_status c ≤ CLIENT_SEND_HEADERS_WRITE_EOF_INFO;
  ih_block : block_is c d;
  ih_at : cl_at c ≠ CNull;
  ih_rq : sends ICAP_REQ_HDR rq (cl_req c);
  ih_rs : sends ICAP_RES_HDR rs (cl_req c);
  ih_pv : previews (cl_req c) pd;
  ih_info : cl_status c = CLIENT_SEND_HEADERS_WRITE_PREVIEW_INFO ∨ cl_status c = CLIENT_SEND_HEADERS_WRITE_PREVIEW →
    0 < preview (cl_req c);
  ih_wbuf : zlen (ws_wbuf (cl_out c)) = WBUF_SIZE
}.

Lemma zlen_print_x_int n : 0 ≤ n ≤ INT_MAX → 0 < zlen (print_x n) ≤ 31.
Proof.
  unfold INT_MAX. intros Hn. unfold zlen, print_x, print_num. rewrite length_print_aux.
  assert (H : ∀ f x, (ndigits 16 f x ≤ f)%nat).
  { induction f as [|f IH]; intros x; simpl; [lia|]. case_cmp; [lia|]. specialize (IH (x / 16)). lia. }
  specialize (H (Datatypes.S (Z.to_nat (Z.log2 n))) n).
  assert (Z.log2 n ≤ 30). { change 30 with (Z.log2 2147483647). apply Z.log2_le_mono. lia. }
  split; [|simpl length; lia]. simpl. case_cmp; simpl; lia.
Qed.

(** A text printed into [wbuf] is the next block. *)
Lemma to_wbuf_spec c d :
  zlen (ws_wbuf (cl_out c)) = WBUF_SIZE → zlen d < WBUF_SIZE →
  ∃ c', to_wbuf d c = Ret c' ∧ kept c c' ∧ block_is c' d ∧ cl_at c' = CWbuf ∧ cl_conn c' = cl_conn c ∧
    cl_status c' = cl_status c ∧ cl_eof_sent c' = cl_eof_sent c.
Proof.
  intros Hz Hd. unfold to_wbuf. pose proof (zlen_nonneg d). rewrite write_bytes_ok by zlia. cbn [obind].
  eexists. split; [done|]. split; [split; try done; cbn; rewrite zlen_splice; zlia|]. split; [|done].
  eexists. split; [done|]. unfold cl_remain. cbn. rewrite zlen_splice by zlia. split_and!; try zlia.
  unfold splice. change (Z.to_nat 0) with 0%nat. rewrite take_0. cbn [app]. rewrite <- app_assoc, slice_app_l by zlia.
  symmetry. by apply slice_all.
Qed.

(** The result of looking for the next block: [x] is what is left to send. *)
Definition goes_on (eof : bool) (c : client S W) (rq rs pd x : list Z) (r : outcome (bool * client S W)) : Prop :=
  ∃ more c', r = Ret (more, c') ∧ kept c c' ∧ cl_conn c' = cl_conn c ∧ cl_eof_sent c' = cl_eof_sent c ∧
    if (more : bool) then
      ∃ d, d ≠ [] ∧ in_headers c' rq rs pd d ∧ x = d ++ after_block eof (cl_status c') (preview (cl_req c')) rq rs pd
    else x = [] ∧ cl_remain c' = 0 ∧ cl_status c' = CLIENT_PROCESS_DATA.

Lemma in_headers_kept c c' rq rs pd d d' :
  in_headers c rq rs pd d → kept c c' → block_is c' d' → cl_at c' ≠ CNull →
  CLIENT_SEND_HEADERS_WRITE_ICAP_HEADERS ≤ cl_status c' ≤ CLIENT_SEND_HEADERS_WRITE_EOF_INFO →
  (cl_status c' = CLIENT_SEND_HEADERS_WRITE_PREVIEW_INFO ∨ cl_status c' = CLIENT_SEND_HEADERS_WRITE_PREVIEW → 0 < preview (cl_req c)) →
  in_headers c' rq rs pd d'.
Proof. intros [] [] ? ? ? ?. split; try done; try congruence. by rewrite k_req0. Qed.

(** The statuses from the last to the first. *)
Lemma after_preview_spec eof c rq rs pd :
  in_headers c rq rs pd [] → CLIENT_SEND_HEADERS_WRITE_PREVIEW_INFO ≤ cl_status c → (eof = true → cl_eof_sent c = true) →
  goes_on eof c rq rs pd (after_block eof (cl_status c) (preview (cl_req c)) rq rs pd) (after_preview eof c).
Proof.
  intros Hc Hs He. pose proof Hc as [Hst Hb Hat _ _ [_ Hpv] Hinfo Hwb]. unfold after_preview, after_block.
  apply block_is_zlen in Hb.
  assert (cl_status c = 5 ∨ cl_status c = 6 ∨ cl_status c = 7) as [E|[E|E]]
    by (unfold CLIENT_SEND_HEADERS_WRITE_EOF_INFO, CLIENT_SEND_HEADERS_WRITE_PREVIEW_INFO in *; lia); rewrite E; known_status.
  - destruct (Hpv (Hinfo (or_introl E))) as (Hu & m & Hm & Hle & ->). specialize (Hinfo (or_introl E)).
    eexists true, _. split; [done|]. split; [by split|]. split; [done|]. split; [done|].
    exists (slice m 0 (preview (cl_req c))). split.
    { intros H%(f_equal zlen). rewrite zlen_slice in H by lia. change (zlen []) with 0 in H. lia. }
    split; [|done]. eapply in_headers_kept; [done|by split| |done|done|by intros].
    exists m. unfold block_object. cbn. unfold cl_reader, to_status. cbn. rewrite Hm. rewrite Hu. unfold cl_remain. cbn. split_and!; (done || lia).
  - destruct (to_wbuf_spec (to_status CLIENT_SEND_HEADERS_WRITE_EOF_INFO c) (CRLF ++ preview_end eof)) as (c' & -> & Hk & Hb' & Hat' & Hcn & Hst' & Heo).
    { done. } { by destruct eof. }
    exists true, c'. split; [done|]. assert (Hk' : kept c c') by (etransitivity; [|done]; by split). split; [done|].
    split; [by rewrite Hcn|]. split; [by rewrite Heo|]. exists (CRLF ++ preview_end eof). split; [done|].
    split; [|by rewrite Hst', app_nil_r].
    eapply in_headers_kept; [done|done|done|by rewrite Hat'|by rewrite Hst'|]. rewrite Hst'. intros [[=]|[=]].
  - eexists false, _. split; [done|]. destruct eof; (split; [by split|]); split_and!; try done. cbn. by rewrite He.
Qed.

(** The next status, when it has no block of its own. *)
Lemma in_headers_status c rq rs pd st :
  in_headers c rq rs pd [] → CLIENT_SEND_HEADERS_WRITE_ICAP_HEADERS ≤ st ≤ CLIENT_SEND_HEADERS_WRITE_RES_HEADERS →
  in_headers (to_status st c) rq rs pd [].
Proof.
  intros Hc Hst. pose proof (ih_block _ _ _ _ _ Hc) as (m & Hm & Hb). pose proof (ih_at _ _ _ _ _ Hc).
  eapply in_headers_kept; [done|by split|by exists m|done| |];
    unfold CLIENT_SEND_HEADERS_WRITE_ICAP_HEADERS, CLIENT_SEND_HEADERS_WRITE_RES_HEADERS, CLIENT_SEND_HEADERS_WRITE_EOF_INFO,
      CLIENT_SEND_HEADERS_WRITE_PREVIEW_INFO, CLIENT_SEND_HEADERS_WRITE_PREVIEW in *; cbn [to_status cl_status]; lia.
Qed.

Lemma after_res_spec eof c rq rs pd :
  in_headers c rq rs pd [] → cl_status c = CLIENT_SEND_HEADERS_WRITE_RES_HEADERS → (eof = true → cl_eof_sent c = true) →
  goes_on eof c rq rs pd (after_block eof (cl_status c) (preview (cl_req c)) rq rs pd)
    (or_else (after_res eof c) (after_preview eof)).
Proof.
  intros Hc E He. pose proof Hc as [Hst Hb Hat _ _ [Hmax Hpv] Hinfo Hwb]. apply block_is_zlen in Hb.
  unfold or_else, after_res, after_block. rewrite E. known_status. unfold preview_part.
  destruct (Z.ltb_spec 0 (preview (cl_req c))) as [Hp|Hp].
  - destruct (Hpv Hp) as (Hu & m & Hm & Hle & ->). unfold cl_reader. rewrite Hu, (proj2 (Z.ltb_lt _ _)) by done. cbn [andb].
    pose proof (zlen_print_x_int (preview (cl_req c)) ltac:(lia)) as Hpx.
    destruct (to_wbuf_spec c (print_x (preview (cl_req c)) ++ CRLF)) as (c' & -> & Hk & Hb' & Hat' & Hcn & Hst' & Heo); [done| |].
    { rewrite zlen_app. change (zlen CRLF) with 2. unfold WBUF_SIZE, MAX_CHUNK_SIZE, EXTRA_CHUNK_SIZE. lia. }
    cbn [obind]. eexists true, _. split; [done|]. assert (Hk' : kept c (to_status CLIENT_SEND_HEADERS_WRITE_PREVIEW_INFO c'))
      by (etransitivity; [done|]; by split).
    split; [done|]. split; [done|]. split; [done|]. exists (print_x (preview (cl_req c)) ++ CRLF).
    split. { intros H%(f_equal zlen). rewrite zlen_app in H. change (zlen CRLF) with 2 in H. change (zlen []) with 0 in H. lia. }
    cbn [to_status cl_status cl_req]. split; [|known_status; by_app].
    destruct Hb' as (m' & Hm' & Hb'). eapply in_headers_kept; [done|done|by exists m'|by cbn; rewrite Hat'|done|done].
  - cbn [andb]. destruct (Z.eqb_spec (preview (cl_req c)) 0) as [Hp0|Hp0].
    + destruct (to_wbuf_spec c (preview_end eof)) as (c' & -> & Hk & Hb' & Hat' & Hcn & Hst' & Heo); [done|by destruct eof|].
      cbn [obind]. eexists true, _. split; [done|]. assert (Hk' : kept c (to_status CLIENT_SEND_HEADERS_WRITE_EOF_INFO c'))
        by (etransitivity; [done|]; by split).
      split; [done|]. split; [done|]. split; [done|]. exists (preview_end eof). split; [by destruct eof|].
      cbn [to_status cl_status cl_req]. split; [|known_status; by rewrite app_nil_r].
      destruct Hb' as (m' & Hm' & Hb'). eapply in_headers_kept; [done|done|by exists m'|by cbn; rewrite Hat'|done|intros [[=]|[=]]].
    + rewrite <- Hb. cbn [obind assert_]. change (zlen [] =? 0) with true. cbn [obind assert_].
      unfold after_preview. cbn [to_status cl_status]. known_status.
      eexists false, _. split; [done|]. by split_and!.
Qed.

(** The headers of one type, before the status [st]. *)
Lemma next_headers_spec eof c rq rs pd t bl st (k : client S W → outcome (bool * client S W)) x :
  in_headers c rq rs pd [] → sends t bl (cl_req c) →
  CLIENT_SEND_HEADERS_WRITE_ICAP_HEADERS ≤ st ≤ CLIENT_SEND_HEADERS_WRITE_RES_HEADERS →
  x = bl ++ after_block eof st (preview (cl_req c)) rq rs pd →
  goes_on eof (to_status st c) rq rs pd (after_block eof st (preview (cl_req c)) rq rs pd) (k (to_status st c)) →
  goes_on eof c rq rs pd x (or_else (next_headers t (to_status st c)) k).
Proof.
  intros Hc (o & Ho & Hs) Hst -> Hk. unfold or_else, next_headers, cl_encaps. cbn [to_status cl_req]. rewrite Ho. cbn [obind].
  destruct o as [[i h]|].
  - destruct Hs as (Hh & Hu & ->). eexists true, _. split; [done|]. split; [by split|]. split; [done|]. split; [done|].
    exists (slice (buf h) 0 (bufused h)). split.
    { intros H%(f_equal zlen). rewrite zlen_slice in H by lia. change (zlen []) with 0 in H. lia. }
    split; [|done]. pose proof (ih_at _ _ _ _ _ Hc). eapply in_headers_kept; [done|by split| |done| |].
    + exists (buf h). unfold block_object, cl_encaps. cbn. rewrite Hh. cbn. unfold cl_remain. cbn. split_and!; (done || lia).
    + cbn. unfold CLIENT_SEND_HEADERS_WRITE_RES_HEADERS, CLIENT_SEND_HEADERS_WRITE_EOF_INFO in *. lia.
    + cbn. unfold CLIENT_SEND_HEADERS_WRITE_RES_HEADERS, CLIENT_SEND_HEADERS_WRITE_PREVIEW_INFO, CLIENT_SEND_HEADERS_WRITE_PREVIEW in *. lia.
  - subst bl. cbn [app]. destruct Hk as (more & c' & -> & Hk & Hrest). exists more, c'. split; [done|].
    split; [etransitivity; [|done]; by split|]. done.
Qed.

Lemma next_block_spec eof c rq rs pd :
  in_headers c rq rs pd [] → (eof = true → cl_eof_sent c = true) →
  goes_on eof c rq rs pd (after_block eof (cl_status c) (preview (cl_req c)) rq rs pd) (next_block eof c).
Proof.
  intros Hc He. pose proof Hc as [Hst _ _ Hrq Hrs _ _ _]. unfold next_block.
  assert (Hlate : ∀ c, in_headers c rq rs pd [] → (eof = true → cl_eof_sent c = true) → CLIENT_SEND_HEADERS_WRITE_RES_HEADERS ≤ cl_status c →
    goes_on eof c rq rs pd (after_block eof (cl_status c) (preview (cl_req c)) rq rs pd) (or_else (after_res eof c) (after_preview eof))).
  { clear - junk. intros c Hc He Hst. destruct (Z.eq_dec (cl_status c) CLIENT_SEND_HEADERS_WRITE_RES_HEADERS); [by apply after_res_spec|].
    unfold or_else at 1, after_res. rewrite (proj2 (Z.eqb_neq _ _)) by done. cbn [obind]. apply after_preview_spec; [done| |done].
    unfold CLIENT_SEND_HEADERS_WRITE_RES_HEADERS, CLIENT_SEND_HEADERS_WRITE_PREVIEW_INFO in *. lia. }
  assert (Hmid : ∀ c, in_headers c rq rs pd [] → (eof = true → cl_eof_sent c = true) → CLIENT_SEND_HEADERS_WRITE_REQ_HEADERS ≤ cl_status c →
    goes_on eof c rq rs pd (after_block eof (cl_status c) (preview (cl_req c)) rq rs pd)
      (or_else (after_req c) (λ c, or_else (after_res eof c) (after_preview eof)))).
  { clear - Hlate. intros c Hc He Hst. unfold after_req.
    destruct (Z.eqb_spec (cl_status c) CLIENT_SEND_HEADERS_WRITE_REQ_HEADERS) as [E|E].
    - eapply next_headers_spec; [done|by apply (ih_rs _ _ _ _ _ Hc)|done|by rewrite E|].
      by apply (Hlate (to_status CLIENT_SEND_HEADERS_WRITE_RES_HEADERS c)); [apply in_headers_status| |].
    - unfold or_else at 1. cbn [obind]. apply Hlate; [done|done|].
      unfold CLIENT_SEND_HEADERS_WRITE_RES_HEADERS, CLIENT_SEND_HEADERS_WRITE_REQ_HEADERS in *. lia. }
  unfold after_icap. destruct (Z.eqb_spec (cl_status c) CLIENT_SEND_HEADERS_WRITE_ICAP_HEADERS) as [E|E].
  - eapply next_headers_spec; [done|by apply (ih_rq _ _ _ _ _ Hc)|done|by rewrite E|].
    by apply (Hmid (to_status CLIENT_SEND_HEADERS_WRITE_REQ_HEADERS c)); [apply in_headers_status| |].
  - unfold or_else at 1. cbn [obind]. apply Hmid; [done|done|].
    unfold CLIENT_SEND_HEADERS_WRITE_ICAP_HEADERS, CLIENT_SEND_HEADERS_WRITE_REQ_HEADERS in *. lia.
Qed.

(** ** A call *)

Lemma send_headers_step eof c rq rs pd d w ws :
  in_headers c rq rs pd d → d ≠ [] → (eof = true → cl_eof_sent c = true) → writes (cl_conn c) = w :: ws → 0 < w →
  ∃ ret c' y, client_send_request_headers junk true true eof c = Ret (ret, c') ∧ kept c c' ∧ cl_eof_sent c' = cl_eof_sent c ∧
    sent (cl_conn c') = sent (cl_conn c) ++ y ∧ writes (cl_conn c') = ws ∧ y ≠ [] ∧
    let x := d ++ after_block eof (cl_status c) (preview (cl_req c)) rq rs pd in
    (ret = CI_NEEDS_MORE ∧ ∃ d', d' ≠ [] ∧ in_headers c' rq rs pd d' ∧
       x = y ++ d' ++ after_block eof (cl_status c') (preview (cl_req c')) rq rs pd) ∨
    (ret = CI_OK ∧ x = y ∧ cl_remain c' = 0 ∧ cl_status c' = CLIENT_PROCESS_DATA).
Proof.
  intros Hc Hd He Hw Hp. pose proof (ih_block _ _ _ _ _ Hc) as Hb. pose proof (block_is_zlen _ _ Hb) as Hz.
  pose proof (ih_status _ _ _ _ _ Hc) as Hst. assert (Hpos : 0 < zlen d) by (destruct d; [done|zlia]).
  unfold client_send_request_headers, start_headers.
  rewrite (proj2 (Z.eqb_neq (cl_status c) _)) by (unfold CLIENT_SEND_HEADERS_WRITE_NOTHING, CLIENT_SEND_HEADERS, CLIENT_SEND_HEADERS_WRITE_ICAP_HEADERS in *; lia).
  cbn [obind]. rewrite (proj2 (Z.eqb_neq (cl_remain c) 0)) by lia.
  destruct (write_block_spec c d w ws Hb Hw ltac:(lia)) as (c1 & Hwb & Hk & Hb1 & Hs1 & Hw1 & Hst1 & He1 & Ha1).
  assert (Hbw : block_write_nonblock c = Ret (if 0 <? cl_remain c1 then CI_NEEDS_MORE else CI_OK, c1)).
  { unfold block_write_nonblock. pose proof (ih_at _ _ _ _ _ Hc). destruct (cl_at c); [done|..];
      rewrite (proj2 (Z.eqb_neq (cl_remain c) 0)), Hwb by lia; cbn [obind]; by rewrite (proj2 (Z.ltb_ge _ 0)) by lia. }
  rewrite Hbw. cbn [obind]. pose proof (block_is_zlen _ _ Hb1) as Hz1.
  set (n := Z.min w (zlen d)) in *. set (y := take (Z.to_nat n) d) in *. set (d1 := drop (Z.to_nat n) d) in *.
  assert (Hd1 : d = y ++ d1) by (symmetry; apply take_drop). assert (Hy : y ≠ []).
  { intros E%(f_equal zlen). unfold y in E. rewrite zlen_take in E. change (zlen []) with 0 in E. lia. }
  assert (Hc1 : in_headers c1 rq rs pd d1).
  { eapply in_headers_kept; [done|done|done|by rewrite Ha1; apply (ih_at _ _ _ _ _ Hc)|by rewrite Hst1|].
    rewrite Hst1. apply (ih_info _ _ _ _ _ Hc). }
  destruct (Z.ltb_spec 0 (cl_remain c1)) as [Hr|Hr]; cbn [negb Z.eqb CI_NEEDS_MORE CI_OK Pos.eqb].
  { exists CI_NEEDS_MORE, c1, y. split_and!; try done. left. split; [done|]. exists d1. split.
    { intros E. rewrite E in Hz1. change (zlen []) with 0 in Hz1. lia. }
    split; [done|]. rewrite Hst1, (k_req _ _ Hk), app_assoc. by rewrite <- Hd1. }
  assert (Hnil : d1 = []). { pose proof (zlen_nonneg d1). destruct d1; [done|]. revert Hz1. zlia. }
  rewrite Hnil in *. rewrite app_nil_r in Hd1. rewrite <- Hd1 in *.
  destruct (next_block_spec eof c1 rq rs pd Hc1) as (more & c2 & -> & Hk2 & Hcn & He2 & Hrest); [by rewrite He1|].
  cbn [obind]. rewrite Hst1, (k_req _ _ Hk) in Hrest. assert (Hk' : kept c c2) by (by etransitivity).
  eexists _, c2, d. split; [done|]. split; [done|]. split; [by rewrite He2|]. rewrite Hcn. split; [done|]. split; [done|]. split; [done|].
  destruct more.
  - left. split; [done|]. destruct Hrest as (d' & ? & ? & ->). by exists d'.
  - right. destruct Hrest as (-> & ? & ?). by rewrite app_nil_r.
Qed.

(** ** The first call *)

Fixpoint hdr_block (t : Z) (xs : list ci_encaps_entity_t) : list Z :=
  match xs with [] => [] | x :: xs' => if type x =? t then block x else hdr_block t xs' end.

Lemma get_headers_spec t : is_hdr t = true → ∀ n xs pre T, (length xs ≤ n)%nat → Forall whole xs →
  ∃ o, get_headers_from_entities n (zlen pre) t (pre ++ (Some <$> xs) ++ None :: T) = Ret o ∧
    match o with
    | Some (i, h) => (∃ x, arr_get (pre ++ (Some <$> xs) ++ None :: T) i = Ret (Some x) ∧ entity x = Some h) ∧
        0 < bufused h ≤ zlen (buf h) ∧ hdr_block t xs = slice (buf h) 0 (bufused h)
    | None => hdr_block t xs = []
    end.
Proof.
  intros Ht. induction n as [|n IH]; intros xs pre T Hn Hwh.
  - destruct xs; [|cbn in Hn; lia]. exists None. cbn [get_headers_from_entities fmap list_fmap app]. by rewrite arr_get_app.
  - destruct xs as [|x xs]; cbn [get_headers_from_entities fmap list_fmap app].
    { exists None. by rewrite arr_get_app. }
    rewrite arr_get_app. cbn [obind]. apply Forall_cons_1 in Hwh as [Hx Hwh].
    destruct (Z.eqb_spec (type x) t) as [E|E].
    + destruct Hx as (h & Hh & Hu & _); [by rewrite E|]. rewrite Hh. exists (Some (zlen pre, h)). split; [done|].
      split; [exists x; by rewrite arr_get_app|]. split; [done|]. cbn [hdr_block]. rewrite E, Z.eqb_refl. unfold block. by rewrite Hh, E, Ht.
    + destruct (IH xs (pre ++ [Some x]) T) as (o & Ho & Hr); [cbn in Hn; lia|done|]. exists o.
      replace (zlen pre + 1) with (zlen (pre ++ [Some x])) by zlia. rewrite <- app_assoc in Ho, Hr. cbn [app] in Ho, Hr.
      split; [done|]. cbn [hdr_block]. by rewrite (proj2 (Z.eqb_neq _ _)) by done.
Qed.

Lemma sends_entities q t xs T :
  entities (rq_encaps q) = (Some <$> xs) ++ None :: T → (length xs ≤ 5)%nat → Forall whole xs → is_hdr t = true →
  sends t (hdr_block t xs) q.
Proof.
  intros He Hl Hw Ht. destruct (get_headers_spec t Ht 5 xs [] T Hl Hw) as (o & Ho & Hr). cbn [app] in Ho, Hr.
  exists o. rewrite He. split; [done|]. destruct o as [[i h]|]; [|done]. destruct Hr as ((x & Hx & Hh) & ? & ?).
  split; [|done]. unfold heads_at, slot. rewrite He, Hx. cbn [obind]. destruct x. cbn in Hh. by rewrite Hh.
Qed.

(** The message of the client: the ICAP header, the HTTP headers, the preview. *)
Lemma start_headers_spec c xs bls k hls htl pd :
  cl_status c = CLIENT_SEND_HEADERS → hrepr (request_header (cl_req c)) hls htl →
  entities (cl_encaps c) = (Some <$> xs) ++ None :: replicate k None → (1 ≤ length xs ≤ 3)%nat → Forall2 ent_block xs bls →
  previews (cl_req c) pd → zlen (ws_wbuf (cl_out c)) = WBUF_SIZE →
  ∃ c1 xs', start_headers junk true true c = Ret c1 ∧
    let es' := (Some <$> xs') ++ None :: replicate k None in
    let p := preview (cl_req c) in
    let ls := hls ++ (if 0 <=? p then [bytes "Preview: " ++ print_d p] else []) ++ [encaps_line es'] in
    offsets_ok 0 es' ∧ type <$> xs' = type <$> xs ∧ block <$> xs' = bls ∧ Forall (λ x, 0 ≤ start x) xs' ∧
    in_headers c1 (hdr_block ICAP_REQ_HDR xs') (hdr_block ICAP_RES_HDR xs') pd (wire ls ++ CRLF) ∧
    cl_status c1 = CLIENT_SEND_HEADERS_WRITE_ICAP_HEADERS ∧
    (∃ h, cl_req c1 = set_header h (set_encaps (mkEncaps es' (trash_entities (cl_encaps c)) (hasbody (cl_encaps c))) (cl_req c))) ∧
    cl_code c1 = cl_code c ∧ cl_response c1 = cl_response c ∧ cl_eof_sent c1 = cl_eof_sent c ∧ cl_source c1 = cl_source c ∧
    cl_dest c1 = cl_dest c ∧ cl_conn c1 = cl_conn c ∧ Forall whole xs'.
Proof.
  intros Hst Hr He Hl Hbl Hpv Hw. unfold start_headers. rewrite Hst. known_status. fold (cl_encaps c). rewrite He.
  destruct (ci_request_t_pack_spec junk true (preview (cl_req c)) xs bls k _ hls htl Hl Hbl Hr)
    as (xs' & h' & r & -> & Ho & Ht & Hb & Hs & Hwh & Hbuf & Hu). cbn [obind andb] in *.
  assert (Hlen : (length xs' ≤ 5)%nat) by (rewrite <- (length_fmap type), Ht, length_fmap; lia).
  eexists _, xs'. split; [done|]. cbn zeta. do 4 (split; [done|]). split; [|split; [done|]; split; [by exists h'|done]].
  split; try done.
  - exists (buf h'). split; [done|]. unfold cl_remain. cbn. rewrite Hu, Hbuf. pose proof (zlen_nonneg r).
    set (x := wire _). split_and!; try zlia. rewrite app_assoc, slice_app_l by zlia. symmetry. by apply slice_all.
  - by eapply (sends_entities _ _ xs').
  - by eapply (sends_entities _ _ xs').
  - intros [[=]|[=]].
Qed.
End send.

(** ** Building the request *)

Section build.
Context {S W : Type} (junk : Z → Z).
Implicit Types c : client S W.

(** A header list that was used before. *)
Definition usable (h : ci_headers_list_t) : Prop := zlen (buf h) = bufsize h ∧ 1 ≤ size h.

Lemma usable_reset h : usable h → hrepr (ci_headers_reset h) [] (buf h).
Proof. intros []. split; cbn; try done. change (zlen []) with 0. lia. Qed.

(** The entities between two requests: none in use, the released ones with their lists. *)
Record recycled (e : encaps) : Prop := {
  rc_trash : zlen (trash_entities e) = 7;
  rc_heads : ∀ t x, is_hdr t = true → trash_entities e !! Z.to_nat t = Some (Some x) → ∃ h, entity x = Some h ∧ usable h
}.

Lemma recycled_drop e t : recycled e → recycled (mkEncaps (entities e) (<[t := None]> (trash_entities e)) (hasbody e)).
Proof.
  intros [Hz Hh]. split; cbn; [by rewrite zlen_insert|]. intros t' x Ht Hx.
  destruct (decide (t = Z.to_nat t')) as [->|Hne].
  - destruct (decide (Z.to_nat t' < length (trash_entities e))%nat).
    + rewrite list_lookup_insert_eq in Hx by done. done.
    + rewrite list_insert_ge in Hx by lia. by eapply Hh.
  - rewrite list_lookup_insert_ne in Hx by done. by eapply Hh.
Qed.

Lemma alloc_entity_spec e t v :
  recycled e → 0 ≤ t ≤ ICAP_OPT_BODY → ∃ x e', ci_request_alloc_entity junk true true e t v = Ret (Some x, e') ∧
    recycled e' ∧ entities e' = entities e ∧ hasbody e' = hasbody e ∧ type x = t ∧ start x = v ∧
    (is_hdr t = true → ∃ h tl, entity x = Some h ∧ hrepr h [] tl ∧ 1 ≤ size h).
Proof.
  intros He Ht. unfold ci_request_alloc_entity. rewrite (proj2 (Z.ltb_ge _ _)), (proj2 (Z.ltb_ge _ _)) by lia. cbn [orb].
  unfold arr_get. rewrite (proj2 (Z.ltb_ge _ _)) by lia.
  destruct (lookup_lt_is_Some_2 (trash_entities e) (Z.to_nat t)) as (o & Ho).
  { pose proof (rc_trash _ He) as Hz. unfold zlen, ICAP_OPT_BODY in *. lia. }
  rewrite Ho. cbn [obind]. destruct o as [x|].
  - unfold arr_set. rewrite (proj2 (Z.leb_le _ _)), (proj2 (Z.ltb_lt _ _)) by (rewrite ?(rc_trash _ He); unfold ICAP_OPT_BODY in *; lia).
    cbn [andb obind]. eexists _, _. split; [done|]. split; [by apply recycled_drop|]. cbn. split_and!; try done.
    intros Hh. rewrite Hh. destruct (rc_heads _ He t x Hh Ho) as (h & -> & Hu). exists (ci_headers_reset h), (buf h).
    split; [done|]. split; [by apply usable_reset|apply Hu].
  - eexists _, e. split; [done|]. split_and!; try done. intros Hh. cbn [entity]. rewrite Hh.
    destruct (create_repr junk) as (h & tl & Hc & Hr). exists h, tl. rewrite Hc. split; [done|]. split; [done|]. by injection Hc as <-.
Qed.

(** The first places of the array hold [xs], the others are null. *)
Definition has_entities (xs : list ci_encaps_entity_t) (e : encaps) : Prop :=
  entities e = (Some <$> xs) ++ replicate (5 - length xs) None.

Lemma put_entity_spec xs e t :
  recycled e → has_entities xs e → (length xs < 5)%nat → 0 ≤ t ≤ ICAP_OPT_BODY →
  ∃ x e', put_entity junk true true t (zlen xs, e) = Ret (zlen (xs ++ [x]), e') ∧ recycled e' ∧ has_entities (xs ++ [x]) e' ∧
    hasbody e' = hasbody e ∧ type x = t ∧ (is_hdr t = true → ∃ h tl, entity x = Some h ∧ hrepr h [] tl ∧ 1 ≤ size h).
Proof.
  intros Hr He Hl Ht. unfold put_entity. destruct (alloc_entity_spec e t 0 Hr Ht) as (x & e' & -> & Hr' & Hes & Hb & Hty & _ & Hh).
  cbn [obind]. unfold has_entities in *. rewrite Hes, He.
  replace (5 - length xs)%nat with (Datatypes.S (5 - length (xs ++ [x])))%nat by (rewrite length_app; cbn; lia). cbn [replicate].
  rewrite <- (zlen_fmap Some xs), arr_set_app. cbn [obind]. eexists x, _. split.
  { f_equal. f_equal. rewrite zlen_fmap. zlia. }
  split; [by destruct Hr'; split|]. split; [|done]. cbn. rewrite fmap_app. cbn. by rewrite <- app_assoc.
Qed.

(** The entities of a request with these headers: the lists are empty. *)
Definition new_entity (t : Z) (x : ci_encaps_entity_t) : Prop :=
  type x = t ∧ (is_hdr t = true → ∃ h tl, entity x = Some h ∧ hrepr h [] tl ∧ 1 ≤ size h).

Definition entity_types (rtype : Z) (b1 b2 b3 : bool) : list Z :=
  (if b1 then [ICAP_REQ_HDR] else []) ++ (if b2 then [ICAP_RES_HDR] else []) ++
  [if b3 then (if rtype =? ICAP_RESPMOD then ICAP_RES_BODY else ICAP_REQ_BODY) else ICAP_NULL_BODY].

Lemma release_four_blank e : entities e = replicate 5 None → release_four e = Ret e.
Proof.
  intros He. assert (H : ∀ i, i = 0 ∨ i = 1 ∨ i = 2 ∨ i = 3 → ci_request_release_entity e i = Ret (0, e)).
  { intros i Hi. unfold ci_request_release_entity, arr_get. rewrite He. by destruct Hi as [-> | [-> | [-> | ->]]]. }
  unfold release_four. cbn [foldl obind]. rewrite (H 0) by lia. cbn [obind]. rewrite (H 1) by lia. cbn [obind].
  rewrite (H 2) by lia. cbn [obind]. by rewrite (H 3) by lia.
Qed.

Lemma client_build_headers_spec rtype b1 b2 b3 e :
  recycled e → entities e = replicate 5 None →
  ∃ xs e', client_build_headers junk true true rtype b1 b2 b3 e = Ret e' ∧ recycled e' ∧ has_entities xs e' ∧ hasbody e' = hasbody e ∧
    Forall2 new_entity (entity_types rtype b1 b2 b3) xs.
Proof.
  intros Hr He. unfold client_build_headers. rewrite release_four_blank by done. cbn [obind].
  set (t3 := if b3 then _ else _). assert (Ht3 : 0 ≤ t3 ≤ ICAP_OPT_BODY) by (unfold t3; repeat case_match; done).
  assert (Hput : ∀ (b : bool) t xs e0, 0 ≤ t ≤ ICAP_OPT_BODY → recycled e0 → has_entities xs e0 → (length xs < 4)%nat →
    ∃ ys e', (if b then put_entity junk true true t (zlen xs, e0) else Ret (zlen xs, e0)) = Ret (zlen (xs ++ ys), e') ∧ recycled e' ∧
      has_entities (xs ++ ys) e' ∧ hasbody e' = hasbody e0 ∧ Forall2 new_entity (if b then [t] else []) ys ∧ (length ys ≤ 1)%nat).
  { intros [] t xs e0 Ht H1 H2 H3.
    - destruct (put_entity_spec xs e0 t H1 H2 ltac:(lia) Ht) as (x & e' & -> & ? & ? & ? & ? & ?). exists [x], e'.
      split_and!; try done. by repeat constructor.
    - exists [], e0. rewrite app_nil_r. split_and!; try done. cbn; lia. }
  destruct (Hput b1 ICAP_REQ_HDR [] e) as (y1 & e1 & H1 & Hr1 & He1 & Hb1 & Hn1 & Hl1); [done|done|done|cbn; lia|].
  change (zlen []) with 0 in H1. rewrite H1. cbn [obind app] in *.
  destruct (Hput b2 ICAP_RES_HDR y1 e1) as (y2 & e2 & H2 & Hr2 & He2 & Hb2 & Hn2 & Hl2); [done|done|done|lia|].
  rewrite H2. cbn [obind].
  destruct (put_entity_spec (y1 ++ y2) e2 t3 Hr2 He2) as (x & e3 & H3 & Hr3 & He3 & Hb3 & Ht & Hh); [rewrite length_app; lia|done|].
  rewrite H3. cbn [obind]. exists ((y1 ++ y2) ++ [x]), e3. split; [done|]. split; [done|]. split; [done|]. split; [congruence|].
  rewrite <- app_assoc. unfold entity_types. apply Forall2_app; [done|]. apply Forall2_app; [done|]. by repeat constructor.
Qed.

(** ** The HTTP headers *)

Lemma header_lines_spec h ls tl : hrepr h ls tl → header_lines h = Ret ls.
Proof.
  intros Hr. unfold header_lines. rewrite (hr_index _ _ _ Hr), (hr_buf _ _ _ Hr).
  assert (H : ∀ ls pre tl, Forall no_nul ls →
    foldr (λ p m, let* s := scan (cstr (drop (Z.to_nat p) (pre ++ edit ls ++ tl))) in let* r := m in Ret (s :: r)) (Ret []) (offs (zlen pre) ls) = Ret ls).
  { clear. induction ls as [|l ls IH]; intros pre tl Hls; [done|]. apply Forall_cons_1 in Hls as [Hl Hls].
    cbn [offs foldr]. rewrite zlen_to_nat, drop_app_length, edit_cons. rewrite <- app_assoc. cbn [app].
    rewrite cstr_no_nul by done. cbn [scan obind].
    specialize (IH (pre ++ l ++ [NUL; LF]) tl Hls).
    replace (zlen (pre ++ l ++ [NUL; LF])) with (zlen pre + zlen l + 2) in IH by zlia.
    replace ((pre ++ l ++ [NUL; LF]) ++ edit ls ++ tl) with (pre ++ l ++ NUL :: LF :: edit ls ++ tl) in IH by by_app.
    rewrite IH. done. }
  apply (H ls [] tl), (hr_lines _ _ _ Hr).
Qed.

Definition with_heads (x : ci_encaps_entity_t) (h : ci_headers_list_t) : ci_encaps_entity_t := mkEntity (start x) (type x) (Some h).

(** Lines added to the list of one entity. *)
Lemma add_http_spec (f : encaps → list Z → outcome (option Z * encaps)) pre post x ls : ∀ e h ks tl,
  (∀ e h l, entities e = pre ++ Some (with_heads x h) :: post →
     f e l = edit_heads None (λ h, ci_headers_add junk true true h l) (Some (InEntities (zlen pre))) e) →
  entities e = pre ++ Some (with_heads x h) :: post → hrepr h ks tl → Forall no_nul ls → (ls = [] → sealed tl) →
  ∃ e' h' tl', add_http f ls e = Ret e' ∧ entities e' = pre ++ Some (with_heads x h') :: post ∧
    trash_entities e' = trash_entities e ∧ hasbody e' = hasbody e ∧ hrepr h' (ks ++ ls) tl' ∧ sealed tl'.
Proof.
  unfold add_http. induction ls as [|l ls IH]; intros e h ks tl Hf He Hh Hls Hs.
  { exists e, h, tl. rewrite app_nil_r. cbn. split_and!; try done. by apply Hs. }
  apply Forall_cons_1 in Hls as [Hl Hls]. cbn [foldl obind]. rewrite (Hf e h l He). unfold edit_heads, heads_at, slot.
  rewrite He, arr_get_app. cbn [obind with_heads].
  destruct (ci_headers_add_spec junk h ks tl l Hh Hl) as (h1 & tl1 & -> & Hh1 & Hs1). cbn [obind].
  unfold set_heads, slot. rewrite He, arr_get_app. cbn [obind with_heads start type]. rewrite arr_set_app. cbn [obind].
  destruct (IH (mkEncaps (pre ++ Some (mkEntity (start x) (type x) (Some h1)) :: post) (trash_entities e) (hasbody e)) h1 (ks ++ [l]) tl1)
    as (e' & h' & tl' & Hrun & Hent & Ht & Hb & Hrep & Hseal); [done|done|done|done|done|].
  exists e', h', tl'. split; [exact Hrun|]. rewrite <- app_assoc in Hrep. by split_and!.
Qed.

Lemma request_headers_at e x h post :
  type x = ICAP_REQ_HDR → entities e = Some (with_heads x h) :: post → ci_http_request_headers e = Ret (Some (InEntities 0)).
Proof.
  intros Ht He. unfold ci_http_request_headers. rewrite He. change (arr_get (?a :: post) 0) with (Ret a). cbn [obind with_heads type].
  by rewrite Ht.
Qed.

Lemma response_headers_at e pre x h post :
  type x = ICAP_RES_HDR → entities e = pre ++ Some (with_heads x h) :: post →
  (pre = [] ∨ ∃ y, pre = [Some y] ∧ type y = ICAP_REQ_HDR) → ci_http_response_headers e = Ret (Some (InEntities (zlen pre))).
Proof.
  intros Ht He [-> | (y & -> & Hy)]; unfold ci_http_response_headers; rewrite He; cbn [response_headers_from app].
  - change (arr_get (?a :: post) 0) with (Ret a). cbn [obind with_heads type entity]. by rewrite Ht.
  - change (arr_get (Some y :: ?l) 0) with (Ret (Some y)). cbn [obind]. rewrite Hy.
    change (ICAP_REQ_HDR =? ICAP_RES_HDR) with false. cbv iota.
    change (arr_get (Some y :: ?a :: post) (0 + 1)) with (Ret a). cbn [obind with_heads type entity]. by rewrite Ht.
Qed.
End build.

(** ** The preview *)

Section prepare.
Context {S W : Type} (junk : Z → Z) (source_read : S → Z → src_result * S).
Implicit Types c : client S W.

(** What [get_preview] may change: the preview, its buffer and the source. *)
Record previewed (c : client S W) (eof : bool) (pd : list Z) (c' : client S W) : Prop := {
  pw_get : get_preview junk true source_read c = Ret (None, eof, c');
  pw_req : ∃ p b, cl_req c' = set_preview p (set_reader (with_preview b (cl_reader c)) (cl_req c));
  pw_data : previews (cl_req c') pd;
  pw_none : cl_source c' = None ↔ cl_source c = None;
  pw_rest : ∃ src, c' = to_source src (to_req (cl_req c') c)
}.

Lemma set_preview_same (q : ci_request) :
  set_preview (preview q) (set_reader (with_preview (rd_preview (rq_reader q)) (rq_reader q)) q) = q.
Proof. by destruct q as [???????????[]]. Qed.

Lemma same_source c : c = to_source (cl_source c) (to_req (cl_req c) c).
Proof. by destruct c. Qed.

Lemma preview_none c : cl_source c = None →
  previewed c false [] (to_req (set_preview (-1) (cl_req c)) c).
Proof.
  intros Hs. split.
  - unfold get_preview. by rewrite Hs.
  - exists (-1), (rd_preview (cl_reader c)). by destruct c as [[???????????[]]].
  - split; [done|]. cbn. lia.
  - done.
  - exists None. destruct c. cbn in *. by subst.
Qed.

Lemma preview_off c src : cl_source c = Some src → preview (cl_req c) ≤ 0 → previewed c false [] c.
Proof.
  intros Hs Hp. split.
  - unfold get_preview. by rewrite Hs, (proj2 (Z.ltb_ge _ _)) by done.
  - exists (preview (cl_req c)), (rd_preview (cl_reader c)). by rewrite set_preview_same.
  - split; [unfold INT_MAX; lia|lia].
  - done.
  - eexists. apply same_source.
Qed.

(** A source whose first piece fills the preview, or is all it has. *)
Lemma preview_read_spec src d src1 p m :
  source_read src p = (SrcData d, src1) → 0 < zlen d ≤ p → zlen m = p → ∀ fuel, (1 < fuel)%nat ∨ zlen d = p →
  (zlen d = p → preview_read source_read fuel p (Some m) src = (match fuel with O => NoFuel | _ => Ret (None, 0, false, Some (splice m 0 d), src1) end)) ∧
  (∀ src2, zlen d < p → source_read src1 (p - zlen d) = (SrcCode CI_EOF, src2) →
     preview_read source_read fuel p (Some m) src = Ret (None, p - zlen d, true, Some (splice m 0 d), src2)).
Proof.
  intros Hr Hd Hm fuel Hf. split.
  - intros E. destruct fuel as [|fuel]; cbn [preview_read]; rewrite (proj2 (Z.eqb_neq p 0)) by lia; [done|].
    rewrite Hr. rewrite (proj2 (Z.eqb_neq (zlen d) 0)), (proj2 (Z.ltb_ge p (zlen d))) by lia.
    rewrite write_bytes_ok by lia. cbn [obind]. rewrite E, Z.sub_diag. by destruct fuel.
  - intros src2 E Hr2. destruct fuel as [|[|fuel]]; [lia|lia|]. cbn [preview_read]. rewrite (proj2 (Z.eqb_neq p 0)) by lia.
    rewrite Hr. rewrite (proj2 (Z.eqb_neq (zlen d) 0)), (proj2 (Z.ltb_ge p (zlen d))) by lia.
    rewrite write_bytes_ok by lia. cbn [obind]. rewrite (proj2 (Z.eqb_neq (p - zlen d) 0)) by lia. by rewrite Hr2.
Qed.

Lemma preview_first c src d src1 src2 (eof : bool) :
  let p := preview (cl_req c) in
  cl_source c = Some src → p ≤ INT_MAX → source_read src p = (SrcData d, src1) → 0 < zlen d ≤ p →
  (if eof then zlen d < p ∧ source_read src1 (p - zlen d) = (SrcCode CI_EOF, src2) else zlen d = p ∧ src2 = src1) →
  ∃ c', previewed c eof d c' ∧ cl_source c' = Some src2 ∧ preview (cl_req c') = zlen d.
Proof.
  intros p Hs Hmax Hr Hd Heof.
  assert (Hrd : preview_read source_read (Z.to_nat p) p (Some (fresh junk 0 p)) src =
    Ret (None, p - zlen d, eof, Some (splice (fresh junk 0 p) 0 d), src2)).
  { assert (Hz : zlen (fresh junk 0 p) = p) by (rewrite zlen_fresh; lia). destruct eof.
    - destruct Heof as [Hlt Hr2]. by apply (preview_read_spec src d src1 p _ Hr Hd Hz (Z.to_nat p) ltac:(lia)).
    - destruct Heof as [E ->]. destruct (preview_read_spec src d src1 p _ Hr Hd Hz (Z.to_nat p) ltac:(lia)) as [H _].
      rewrite (H E), E, Z.sub_diag. destruct (Z.to_nat p) eqn:Ep; [lia|done]. }
  set (b := mkBuf (Some (splice (fresh junk 0 p) 0 d)) p (zlen d)).
  exists (to_source (Some src2) (to_req (set_preview (zlen d) (set_reader (with_preview b (cl_reader c)) (cl_req c))) c)).
  split; [|done]. split.
  - unfold get_preview. rewrite Hs. fold p. rewrite (proj2 (Z.ltb_lt 0 p)) by lia. cbn [ci_buf_mem_alloc bbuf].
    rewrite Hrd. cbn [obind]. unfold b. replace (p - (p - zlen d)) with (zlen d) by lia. done.
  - by exists (zlen d), b.
  - split; cbn; [lia|]. intros _. split; [done|]. exists (splice (fresh junk 0 p) 0 d). split; [done|].
    assert (Hz : zlen (fresh junk 0 p) = p) by (rewrite zlen_fresh; lia). rewrite zlen_splice by lia. split; [lia|].
    by rewrite slice_splice_same by lia.
  - cbn. rewrite Hs. by split.
  - by exists (Some src2).
Qed.

(** ** The whole preparation *)

Context (version : list Z) (agent : option (list Z)).

(** A list of headers of the user. *)
Definition given (o : option ci_headers_list_t) (ls : list (list Z)) : Prop :=
  match o with Some h => (∃ tl, hrepr h ls tl) ∧ ls ≠ [] | None => ls = [] end.

(** A client before its request, with the extra headers [xls]. *)
Record new_client (c : client S W) (xls : list (list Z)) : Prop := {
  nc_status : cl_status c = CLIENT_INIT;
  nc_type : rtype (cl_req c) = ICAP_REQMOD ∨ rtype (cl_req c) = ICAP_RESPMOD;
  nc_header : ∃ tl, hrepr (request_header (cl_req c)) [] tl;
  nc_lines : Forall no_nul (request_lines version agent (cl_req c) (rtype (cl_req c)));
  nc_xheaders : ∃ tl, hrepr (cl_xheaders c) xls tl ∧ (xls ≠ [] → sealed tl);
  nc_packed : cl_packed c = false;
  nc_entities : entities (cl_encaps c) = replicate 5 None;
  nc_recycled : recycled (cl_encaps c);
  nc_wbuf : zlen (ws_wbuf (cl_out c)) = WBUF_SIZE
}.

Definition is_some {A : Type} (o : option A) : bool := match o with Some _ => true | None => false end.

Lemma set_type_same q : set_type (rtype q) q = q.
Proof. by destruct q. Qed.

Lemma client_add_all_spec ls : ∀ h ks tl, hrepr h ks tl → Forall no_nul ls →
  ∃ h' tl', add_all junk true true ls h = Ret h' ∧ hrepr h' (ks ++ ls) tl'.
Proof.
  unfold add_all. induction ls as [|l ls IH]; intros h ks tl Hh Hls; cbn [foldl].
  { exists h, tl. by rewrite app_nil_r. }
  apply Forall_cons_1 in Hls as [Hl Hls]. cbn [obind]. unfold add at 2.
  destruct (ci_headers_add_spec junk h ks tl l Hh Hl) as (h1 & tl1 & -> & Hh1 & _). cbn [obind].
  destruct (IH h1 _ tl1 Hh1 Hls) as (h' & tl' & ? & Hr). exists h', tl'. rewrite <- app_assoc in Hr. by split.
Qed.

Lemma client_create_request_spec c xls :
  new_client c xls → ∃ h tl, client_create_request junk true true version agent (rtype (cl_req c)) c = Ret (CI_OK, to_req (set_header h (cl_req c)) c) ∧
    hrepr h (request_lines version agent (cl_req c) (rtype (cl_req c)) ++ xls) tl.
Proof.
  intros [Hst Ht (tl & Hh) Hl (xtl & Hx & Hs) _ _ _ _]. unfold client_create_request.
  assert (Hc : negb ((rtype (cl_req c) =? ICAP_OPTIONS) || (rtype (cl_req c) =? ICAP_REQMOD) || (rtype (cl_req c) =? ICAP_RESPMOD)) = false)
    by (by destruct Ht as [-> | ->]). rewrite Hc, set_type_same. clear Hc.
  destruct (client_add_all_spec _ _ [] tl Hh Hl) as (h1 & tl1 & -> & Hh1). cbn [obind app] in *.
  destruct (Z.eqb_spec (used (cl_xheaders c)) 0) as [E|E].
  - assert (xls = []) as ->. { unfold used, zlen in E. rewrite (hr_index _ _ _ Hx), length_offs in E. by destruct xls. }
    exists h1, tl1. by rewrite app_nil_r.
  - assert (Hne : xls ≠ []). { intros ->. unfold used in E. by rewrite (hr_index _ _ _ Hx) in E. }
    destruct (ci_headers_addheaders_spec junk h1 _ tl1 _ _ xtl Hh1 Hx (Hs Hne)) as (h2 & tl2 & -> & Hh2 & _). by exists h2, tl2.
Qed.

(** The blocks of the headers. *)
Definition opt_block (o : option ci_headers_list_t) (ls : list (list Z)) : list (list Z) := if is_some o then [wire ls ++ CRLF] else [].

(** The lines of one list go to the new entity at its place. *)
Lemma add_given (f : encaps → list Z → outcome (option Z * encaps)) (o : option ci_headers_list_t) ls t pre (ys : list ci_encaps_entity_t) post e :
  given o ls → is_hdr t = true → Forall2 new_entity (if is_some o then [t] else []) ys →
  entities e = pre ++ (Some <$> ys) ++ post →
  (∀ x h e l, type x = t → entities e = pre ++ Some (with_heads x h) :: post →
     f e l = edit_heads None (λ h, ci_headers_add junk true true h l) (Some (InEntities (zlen pre))) e) →
  ∃ e' ys', match o with Some h => let* ls := header_lines h in add_http f ls e | None => Ret e end = Ret e' ∧
    entities e' = pre ++ (Some <$> ys') ++ post ∧ trash_entities e' = trash_entities e ∧ hasbody e' = hasbody e ∧
    type <$> ys' = type <$> ys ∧ Forall2 ent_block ys' (opt_block o ls).
Proof.
  intros Hg Ht Hys He Hf. destruct o as [h|]; cbn [is_some] in Hys.
  - destruct Hg as ((tl & Hh) & Hne). apply Forall2_cons_inv_l in Hys as (x & ys0 & (Hty & Hx) & Hys0 & ->).
    apply Forall2_nil_inv_l in Hys0 as ->. destruct (Hx Ht) as (h0 & tl0 & Hh0 & Hr0 & _). cbn [fmap list_fmap app] in *.
    rewrite (header_lines_spec h ls tl Hh). cbn [obind].
    assert (Hx0 : x = with_heads x h0) by (destruct x; cbn in *; by subst).
    destruct (add_http_spec junk f pre post x ls e h0 [] tl0) as (e' & h' & tl' & Hrun & Hent & Htr & Hb & Hrep & Hseal).
    + intros e1 h1 l. by apply Hf.
    + by rewrite <- Hx0.
    + done.
    + apply (hr_lines _ _ _ Hh).
    + done.
    + exists e', [with_heads x h']. split; [done|]. split; [done|]. do 2 (split; [done|]). split; [done|].
      constructor; [|done]. unfold ent_block. cbn [with_heads type]. rewrite Hty, Ht. by exists h', ls, tl'.
  - cbn in Hg. subst ls. apply Forall2_nil_inv_l in Hys as ->. exists e, []. by split_and!.
Qed.

(** The blocks of the message: the headers, and nothing for the body. *)
Definition message_blocks (rqh rsh : option ci_headers_list_t) (rql rsl : list (list Z)) : list (list Z) :=
  opt_block rqh rql ++ opt_block rsh rsl ++ [[]].

(** The preview of the request will be [pd], of [p] bytes; the source is then [src]. *)
Definition plan (c : client S W) (eof : bool) (pd : list Z) (p : Z) (src : option S) : Prop :=
  ∀ h, ∃ c', previewed (to_req (set_header h (cl_req c)) c) eof pd c' ∧ preview (cl_req c') = p ∧ cl_source c' = src.

Lemma prepare_headers_spec c xls rqh rql rsh rsl eof pd p src :
  new_client c xls → given rqh rql → given rsh rsl → plan c eof pd p src →
  ∃ c' xs k tl b, prepare_headers junk true true true true version agent source_read rqh rsh c = Ret (CI_OK, c') ∧
    cl_status c' = CLIENT_SEND_HEADERS ∧
    hrepr (request_header (cl_req c')) (request_lines version agent (cl_req c) (rtype (cl_req c)) ++ xls) tl ∧
    entities (cl_encaps c') = (Some <$> xs) ++ None :: replicate k None ∧ (length xs + Datatypes.S k = 5)%nat ∧
    type <$> xs = entity_types (rtype (cl_req c)) (is_some rqh) (is_some rsh) (is_some (cl_source c)) ∧
    Forall2 ent_block xs (message_blocks rqh rsh rql rsl) ∧ recycled (cl_encaps c') ∧ previews (cl_req c') pd ∧
    (∃ h e, cl_req c' = set_encaps e (set_preview p (set_reader (with_preview b (rq_reader (set_header h (cl_req c)))) (set_header h (cl_req c))))) ∧
    (∃ q st, c' = to_status st (to_eof_sent (eof || cl_eof_sent c) (to_source src (to_req q c)))) ∧ is_some src = is_some (cl_source c).
Proof.
  intros Hc Hrq Hrs Hpv. pose proof Hc as [_ _ _ _ _ Hpk Hent Hrec _]. unfold prepare_headers.
  destruct (client_create_request_spec c xls Hc) as (h & tl & -> & Hh). cbn [obind negb Z.eqb CI_OK Pos.eqb].
  destruct (Hpv h) as (c2 & [Hget (p' & b & Hreq) Hdata Hnone (src' & Hrest)] & Hp & Hsr). rewrite Hget. cbn [obind].
  rewrite Hreq in Hp. cbn in Hp. subst p'. rewrite Hrest in Hsr. cbn in Hsr. subst src'.
  set (c3 := if eof then to_eof_sent true c2 else c2).
  assert (H3 : cl_req c3 = cl_req c2 ∧ cl_source c3 = cl_source c2 ∧ cl_packed c3 = cl_packed c ∧
    c3 = to_eof_sent (eof || cl_eof_sent c) (to_source src (to_req (cl_req c2) c))).
  { unfold c3. rewrite Hrest. by destruct eof. }
  clearbody c3. destruct H3 as (Hq3 & Hs3 & Hp3 & Hc3).
  assert (Hsrc : is_some (cl_source c3) = is_some (cl_source c)).
  { rewrite Hs3. cbn in Hnone. destruct (cl_source c2), (cl_source c); cbn; try done; destruct Hnone as [H1 H2]; [by discriminate H2|by discriminate H1]. }
  assert (Hty : rtype (cl_req c3) = rtype (cl_req c)) by (by rewrite Hq3, Hreq).
  assert (Henc : cl_encaps c3 = cl_encaps c) by (unfold cl_encaps; by rewrite Hq3, Hreq).
  fold (is_some rqh) (is_some rsh) (is_some (cl_source c3)). rewrite Hty, Hsrc, Henc, Hp3, Hpk.
  destruct (client_build_headers_spec junk (rtype (cl_req c)) (is_some rqh) (is_some rsh) (is_some (cl_source c)) (cl_encaps c) Hrec Hent)
    as (xs & e1 & -> & Hr1 & He1 & _ & Hxs). cbn [obind].
  unfold entity_types in Hxs. set (t3 := if is_some (cl_source c) then _ else _) in Hxs.
  apply Forall2_app_inv_l in Hxs as (y1 & y23 & Hy1 & Hxs & ->). apply Forall2_app_inv_l in Hxs as (y2 & y3 & Hy2 & Hy3 & ->).
  apply Forall2_cons_inv_l in Hy3 as (x3 & l & (Ht3 & _) & Hl & ->). apply Forall2_nil_inv_l in Hl as ->.
  set (k := (3 - length (y1 ++ y2))%nat).
  assert (Hlen : (length (y1 ++ y2) ≤ 2)%nat).
  { rewrite length_app. apply Forall2_length in Hy1, Hy2. destruct (is_some rqh), (is_some rsh); cbn in Hy1, Hy2; lia. }
  assert (Hes : entities e1 = [] ++ (Some <$> y1) ++ (Some <$> y2) ++ Some x3 :: None :: replicate k None).
  { rewrite He1, !fmap_app. cbn. rewrite <- !app_assoc. do 2 f_equal. cbn. rewrite !length_app in *. cbn. unfold k. rewrite length_app.
    destruct (5 - (length y1 + (length y2 + 1)))%nat eqn:E; [lia|]. cbn. do 3 f_equal. lia. }
  destruct (add_given (ci_http_request_add_header junk true true false) rqh rql ICAP_REQ_HDR [] y1 _ e1 Hrq eq_refl Hy1 Hes)
    as (e2 & y1' & Hadd1 & He2 & Htr2 & _ & Hty1 & Hbl1).
  { intros x h1 e0 l Hx He0. unfold ci_http_request_add_header. by rewrite (request_headers_at _ _ _ _ Hx He0). }
  rewrite Hadd1. cbn [obind app] in *.
  destruct (add_given (ci_http_response_add_header junk true true false) rsh rsl ICAP_RES_HDR (Some <$> y1') y2 _ e2 Hrs eq_refl Hy2 He2)
    as (e3 & y2' & Hadd2 & He3 & Htr3 & _ & Hty2 & Hbl2).
  { intros x h1 e0 l Hx He0. unfold ci_http_response_add_header. rewrite (response_headers_at _ _ _ _ _ Hx He0); [done|].
    unfold opt_block in Hbl1. destruct (is_some rqh); cbn in Hy1.
    - right. apply Forall2_cons_inv_l in Hy1 as (x1 & l1 & (Hx1 & _) & Hl1 & ->). apply Forall2_nil_inv_l in Hl1 as ->.
      destruct y1' as [|z [|]]; cbn in Hty1; try done. exists z. split; [done|]. congruence.
    - left. by apply Forall2_nil_inv_r in Hbl1 as ->. }
  rewrite Hadd2. cbn [obind]. eexists _, (y1' ++ y2' ++ [x3]), k, tl, b. split; [done|]. split; [done|].
  assert (Hq : cl_req (to_status CLIENT_SEND_HEADERS (to_encaps e3 c3)) = set_encaps e3 (cl_req c2)) by (cbn; by rewrite Hq3).
  split; [rewrite Hq, Hreq; done|]. split; [unfold cl_encaps; rewrite Hq; cbn; rewrite He3, !fmap_app; by_app|].
  split. { apply (f_equal length) in Hty1, Hty2. rewrite !length_fmap in Hty1, Hty2. rewrite !length_app in *. cbn. unfold k. rewrite length_app. lia. }
  split. { rewrite !fmap_app, Hty1, Hty2. cbn. unfold entity_types. fold t3. rewrite Ht3.
    assert (Ht : ∀ (b : bool) t ys, Forall2 new_entity (if b then [t] else []) ys → type <$> ys = if b then [t] else []).
    { clear. intros [] t ys Hys; [|by apply Forall2_nil_inv_l in Hys as ->].
      apply Forall2_cons_inv_l in Hys as (y & l & (Hy & _) & Hl & ->). apply Forall2_nil_inv_l in Hl as ->. cbn. by rewrite Hy. }
    by rewrite (Ht _ _ _ Hy1), (Ht _ _ _ Hy2). }
  split. { unfold message_blocks. apply Forall2_app; [done|]. apply Forall2_app; [done|]. constructor; [|constructor].
    unfold ent_block. rewrite Ht3. unfold t3. by repeat case_match. }
  split. { unfold cl_encaps. rewrite Hq. cbn. destruct Hr1 as [Hz Hh1]. split; rewrite Htr3, Htr2; [done|exact Hh1]. }
  split; [rewrite Hq; done|]. split; [exists h, e3; rewrite Hq, Hreq; done|].
  split; [rewrite Hc3; by eexists _, _|]. rewrite <- Hsrc, Hc3. done.
Qed.
End prepare.
