(* ===== verification/ClientReceive.v ===== *)
(** * The response a client reads (request_common.c)

    The client reads the ICAP header, the HTTP header and the body of the response as the network delivers them.  The
    lemmas follow one call of [client_parse_incoming_data] through the statuses of the client; the
    theorem says what the client has at the end, however the response is cut into reads. *)

From stdpp Require Import base list list_numbers strings numbers option.
From Stdlib Require Import ZArith Lia.
From S2P Require Import Prelude CString Chunks ReadBody SendBody Headers Encapsulated IcapHeader ParseRequest HttpApi Session Keepalive Client ClientSend.

(** ** Looking for the end of a header *)

Lemma strnstr_spec n : ∀ P s, (n ≤ length s)%nat → 0 ≤ P →
  (∀ j, 0 ≤ j < P → j + 4 ≤ Z.of_nat n → slice s j 4 ≠ CRLFCRLF) → (P + 4 ≤ Z.of_nat n → slice s P 4 = CRLFCRLF) →
  ci_strnstr CRLFCRLF n s = Some (if P + 4 <=? Z.of_nat n then Some P else None).
Proof.
  induction n as [|n IH]; intros P s Hn HP Hno Hat.
  { rewrite ci_strnstr_short by (cbn; lia). by rewrite (proj2 (Z.leb_gt _ _)) by lia. }
  destruct (decide (4 ≤ Datatypes.S n)%nat) as [H4|H4].
  2:{ rewrite ci_strnstr_short by (cbn; lia). by rewrite (proj2 (Z.leb_gt _ _)) by lia. }
  rewrite ci_strnstr_step by (cbn; lia). rewrite str_prefix_exact by (cbn; lia). cbn [mbind option_bind].
  change (take (length CRLFCRLF) s) with (slice s 0 4). destruct (decide (P = 0)) as [->|Hne].
  - rewrite bool_decide_eq_true_2 by (apply Hat; lia). by rewrite (proj2 (Z.leb_le _ _)) by lia.
  - rewrite bool_decide_eq_false_2 by (apply Hno; lia). destruct s as [|b s]; [cbn in Hn; lia|]. cbn [tail].
    assert (Hsl : ∀ j, 0 ≤ j → slice (b :: s) (j + 1) 4 = slice s j 4).
    { intros j Hj. unfold slice. by replace (Z.to_nat (j + 1)) with (Datatypes.S (Z.to_nat j)) by lia. }
    rewrite (IH (P - 1) s); [|cbn in Hn; lia|lia| |].
    + cbn [mbind option_bind]. destruct (Z.leb_spec (P - 1 + 4) (Z.of_nat n)), (Z.leb_spec (P + 4) (Z.of_nat (Datatypes.S n))); try lia; [|done].
      cbn. do 2 f_equal. lia.
    + intros j Hj Hjn. rewrite <- Hsl by lia. apply Hno; lia.
    + intros H. rewrite <- Hsl by lia. replace (P - 1 + 1) with P by lia. apply Hat. lia.
Qed.

(** ** Entities of a response *)

(** The header entities have empty lists. *)
Definition new_heads (es : list (option ci_encaps_entity_t)) : Prop :=
  ∀ i x, es !! i = Some (Some x) → is_hdr (type x) = true → ∃ h tl, entity x = Some h ∧ hrepr h [] tl ∧ 1 ≤ size h.

Lemma new_heads_set es i o es' :
  new_heads es → arr_set es i o = Ret es' →
  (∀ x, o = Some x → is_hdr (type x) = true → ∃ h tl, entity x = Some h ∧ hrepr h [] tl ∧ 1 ≤ size h) → new_heads es'.
Proof.
  intros Hes Ha Ho. unfold arr_set in Ha. destruct (_ && _); [|done]. injection Ha as <-. intros j x Hj Hx.
  apply list_lookup_insert_Some in Hj as [(_ & Eo & _)|[_ Hj]]; [by apply (Ho x)|by eapply Hes].
Qed.

Lemma encaps_loop_heads junk m st r' fuel : ∀ pos num body r,
  recycled r → new_heads (entities r) → encaps_loop junk fuel true true m pos num body r = Ret (st, r') →
  recycled r' ∧ new_heads (entities r').
Proof.
  induction fuel as [|fuel IH]; intros pos num body r Hr Hn H; [done|]. cbn [encaps_loop] in H.
  apply obind_Ret in H as (c & _ & H). destruct (c =? NUL). { injection H as <- <-. split; [by destruct Hr|done]. }
  apply obind_Ret in H as ([[t v] l] & _ & H). destruct (Z.ltb_spec t 0) as [|Ht]; [by injection H as <- <-|].
  destruct (5 <? num). { injection H as <- <-. split; [by destruct Hr|done]. }
  apply obind_Ret in H as ([o r1] & Halloc & H). apply obind_Ret in H as (es & Hes & H).
  apply obind_Ret in H as (? & _ & H). apply obind_Ret in H as ([k' ?] & _ & H).
  destruct (Z.leb_spec t ICAP_OPT_BODY) as [Hle|Hgt].
  - destruct (alloc_entity_spec junk r t v Hr ltac:(lia)) as (xe & r2 & Ha & Hr2 & He2 & _ & Htx & _ & Hh).
    rewrite Halloc in Ha. injection Ha as -> ->. eapply IH; [| |exact H]; [by destruct Hr2|].
    eapply new_heads_set; [rewrite He2 in Hes; exact Hn|by rewrite <- He2|]. intros x0 [= <-]. rewrite Htx. done.
  - unfold ci_request_alloc_entity in Halloc. rewrite (proj2 (Z.ltb_lt ICAP_OPT_BODY t)) in Halloc by done. injection Halloc as <- <-.
    eapply IH; [| |exact H]; [by destruct Hr|]. by eapply new_heads_set.
Qed.

Lemma process_encapsulated_heads junk r m st r' :
  recycled r → new_heads (entities r) → process_encapsulated junk true true r m = Ret (st, r') → recycled r' ∧ new_heads (entities r').
Proof.
  intros Hr Hn H. unfold process_encapsulated in H. apply obind_Ret in H as ([k y] & _ & H). by eapply encaps_loop_heads.
Qed.

Section receive.
Context {S W : Type} (junk : Z → Z) (ra : nat → bool) (Hra : ∀ i, ra i = true).
Implicit Types c : client S W.

(** A header list that is being filled: it holds the bytes [P]. *)
Record holding (h : ci_headers_list_t) (P : list Z) : Prop := {
  ho_buf : ∃ tl, buf h = P ++ tl;
  ho_used : bufused h = zlen P;
  ho_size : zlen (buf h) = bufsize h;
  ho_index : 1 ≤ size h
}.

Lemma check_realloc_spec fuel : ∀ i h P n, holding h P → n - (bufsize h - zlen P) ≤ Z.of_nat fuel →
  ∃ h', check_realloc junk ra fuel i h n = Ret (true, h') ∧ holding h' P ∧ zlen P + n ≤ bufsize h'.
Proof.
  induction fuel as [|fuel IH]; intros i h P n Hh Hn; cbn [check_realloc]; rewrite (ho_used _ _ Hh);
    (destruct (Z.ltb_spec (bufsize h - zlen P) n); [|exists h; split_and!; (done || lia)]); [lia|].
  rewrite Hra. pose proof Hh as [(tl & Hb) Hu Hz Hi].
  destruct (IH (Datatypes.S i) (mkHeaders (size h) (headers h) (bufsize h + HEADSBUFSIZE) (zlen P) (grow junk (buf h) (bufsize h + HEADSBUFSIZE)) (packed h)) P n)
    as (h' & Hrun & Hh' & Hle).
  - split; cbn; try done.
    + unfold grow. rewrite Hb, <- app_assoc. by eexists.
    + rewrite zlen_grow; [done|]. unfold HEADSBUFSIZE, BUFSIZE. lia.
  - cbn. unfold HEADSBUFSIZE, BUFSIZE. lia.
  - by exists h'.
Qed.

(** Bytes move from the block to the list. *)
Lemma take_block_spec r h P X U :
  window r (X ++ U) → 0 < zlen X → holding h P → zlen P + zlen X ≤ bufsize h →
  ∃ r' h', take_block (zlen X) r h = Ret (r', h') ∧ window r' U ∧ holding h' (P ++ X) ∧ bufsize h' = bufsize h ∧
    r' = with_stream (set_block (pstrblock_read (rd_stream r) + zlen X) (zlen U) (rd_stream r)) r.
Proof.
  intros (stale & Hp & Hm & Hl & Hd & Hz) HX [(tl & Hb) Hu Hs Hi] Hle. unfold take_block. rewrite <- app_assoc in Hm.
  assert (Hlen : pstrblock_read (rd_stream r) + zlen X ≤ zlen (block_mem r)).
  { apply (f_equal zlen) in Hm. zlia. }
  rewrite read_bytes_ok by lia. cbn [obind]. rewrite (slice_drop_app _ _ _ _ Hm), Hu, write_bytes_ok by zlia. cbn [obind].
  rewrite Hl. eexists _, _. split; [done|]. split; [|split; [|split; [done|]]].
  - assert (Hd' : drop (Z.to_nat (pstrblock_read (rd_stream r) + zlen X)) (block_mem r) = U ++ stale)
      by (by rewrite Z2Nat.inj_add, <- drop_drop, zlen_to_nat, Hm, drop_app_length by lia).
    exists stale. split_and!; try done; cbn; zlia.
  - split; cbn; try done.
    + rewrite Hb. unfold splice. rewrite zlen_to_nat, take_app_length, app_assoc. by eexists.
    + by rewrite zlen_app.
    + by rewrite zlen_splice by zlia.
  - f_equal. f_equal. zlia.
Qed.

(** ** The ICAP header *)

Context (rls : list (list Z)) (Hclean : Forall clean_line rls) (Hne : rls ≠ []) (rest : list Z).

Lemma eoh_position : ∃ w, wire rls = w ++ CRLF ∧ first_eoh w rest ∧ wire rls ++ CRLF ++ rest = w ++ CRLFCRLF ++ rest.
Proof.
  destruct (wire_first_eoh rls rest Hclean Hne) as (w & Hw & Hf). exists w. split_and!; [done|done|]. rewrite Hw. by_app.
Qed.

(** The list was filled up to the empty line, of which a NUL took the first byte. *)
Definition header_read (h : ci_headers_list_t) : Prop :=
  (∃ tl, buf h = wire rls ++ NUL :: tl) ∧ bufused h = zlen (wire rls) ∧ zlen (buf h) = bufsize h ∧ 1 ≤ size h.

Lemma parse_icap_header_step r h P U :
  window r U → holding h P → P ++ U ++ fut_of (rd_conn r) = wire rls ++ CRLF ++ rest → zlen P ≤ zlen (wire rls) - 2 →
  ∃ ret r' h' U', client_parse_icap_header junk ra r h = Ret (ret, r', h') ∧ window r' U' ∧
    (∃ p, r' = with_stream (set_block p (zlen U') (rd_stream r)) r) ∧
    ((ret = CI_NEEDS_MORE ∧ ∃ P', holding h' P' ∧ P' ++ U' = P ++ U ∧ zlen P' ≤ zlen (wire rls) - 2 ∧ zlen U' ≤ 3 ∧ fut_of (rd_conn r) ≠ []) ∨
     (ret = CI_OK ∧ header_read h' ∧ U' ++ fut_of (rd_conn r) = rest)).
Proof.
  intros Hw Hh HS HP. destruct eoh_position as (w & Hwire & Hfirst & Hstr). rewrite Hstr in HS.
  assert (Hwz : zlen (wire rls) - 2 = zlen w) by (rewrite Hwire; unfold CRLF; zlia). rewrite Hwz in *.
  assert (Hlen : pstrblock_read_len (rd_stream r) = zlen U) by (by destruct Hw as (? & _ & _ & ? & _)).
  assert (Htot : zlen P + zlen U + zlen (fut_of (rd_conn r)) = zlen w + 4 + zlen rest).
  { apply (f_equal zlen) in HS. change CRLFCRLF with [CR; LF; CR; LF] in HS. zlia. }
  pose proof (zlen_nonneg rest). unfold client_parse_icap_header. rewrite Hlen.
  destruct (Z.ltb_spec (zlen U) 4) as [H4|H4].
  { exists CI_NEEDS_MORE, r, h, U. split; [done|]. split; [done|]. split.
    { exists (pstrblock_read (rd_stream r)). destruct r as [[] ? ? ? ? ? ?]. cbn in *. by subst. }
    left. split; [done|]. exists P. split_and!; try done; [lia|]. intros E. rewrite E in Htot. change (zlen []) with 0 in Htot. lia. }
  pose proof Hw as (stale & Hp & Hm & _). rewrite Hm.
  assert (Hsub : ∀ j, 0 ≤ j → j + 4 ≤ zlen U → slice (U ++ stale) j 4 = slice (w ++ CRLFCRLF ++ rest) (zlen P + j) 4).
  { intros j Hj Hj4. rewrite <- HS, (slice_app_r P) by lia. replace (zlen P + j - zlen P) with j by lia. by rewrite !slice_app_l by lia. }
  rewrite (strnstr_spec (Z.to_nat (zlen U)) (zlen w - zlen P)); [|rewrite zlen_to_nat, length_app; lia|lia| |].
  2:{ intros j Hj Hj4. rewrite Hsub by lia. apply Hfirst. zlia. }
  2:{ intros HPn. rewrite Hsub by lia. replace (zlen P + (zlen w - zlen P)) with (zlen w) by lia. rewrite slice_app_r by lia.
      rewrite Z.sub_diag, slice_app_l by (done || lia). by apply slice_all. }
  rewrite Z2Nat.id by lia. cbn [scan obind].
  set (fnd := zlen w - zlen P + 4 <=? zlen U). set (n := match (if fnd then Some (zlen w - zlen P) else None) with Some e => e + 4 | None => zlen U - 3 end).
  assert (Hn : 0 < n ≤ zlen U) by (unfold n, fnd; destruct (Z.leb_spec (zlen w - zlen P + 4) (zlen U)); lia).
  destruct (check_realloc_spec (Z.to_nat n) 0 h P n Hh) as (h1 & -> & Hh1 & Hle1).
  { pose proof (ho_size _ _ Hh) as Hz. destruct (ho_buf _ _ Hh) as (tl & Hb). rewrite Hb in Hz. rewrite zlen_app in Hz. pose proof (zlen_nonneg tl). lia. }
  cbn [obind negb]. assert (HU : U = take (Z.to_nat n) U ++ drop (Z.to_nat n) U) by (symmetry; apply take_drop).
  set (X := take (Z.to_nat n) U) in *. set (U' := drop (Z.to_nat n) U) in *.
  assert (HXz : zlen X = n) by (unfold X; rewrite zlen_take; lia). rewrite HU in Hw.
  destruct (take_block_spec r h1 P X U' Hw ltac:(lia) Hh1 ltac:(lia)) as (r' & h2 & Htb & Hw' & Hh2 & Hbs & Hr').
  rewrite HXz in Htb. rewrite Htb. cbn [obind]. unfold fnd in *. destruct (Z.leb_spec (zlen w - zlen P + 4) (zlen U)) as [Hf|Hf].
  - assert (HPX : P ++ X = w ++ CRLFCRLF).
    { rewrite HU in HS. apply (f_equal (take (length w + 4))) in HS. rewrite (app_assoc w), <- app_assoc, (app_assoc P) in HS.
      rewrite !take_app_length' in HS; [done| |].
      - rewrite length_app. cbn. lia.
      - rewrite length_app. unfold zlen in *. lia. }
    pose proof Hh2 as [(tl & Hb2) Hu2 Hz2 Hi2]. rewrite HPX in Hb2, Hu2.
    assert (Hb3 : buf h2 = wire rls ++ CR :: LF :: tl) by (rewrite Hb2, Hwire; by_app).
    assert (Hu3 : bufused h2 - 2 = zlen (wire rls)) by (rewrite Hu2, Hwire; unfold CRLF; change CRLFCRLF with [CR; LF; CR; LF]; zlia).
    rewrite Hu3, Hb3, store_app by done. cbn [obind]. eexists _, r', _, U'. split; [done|]. split; [done|].
    split; [by eexists|]. right. split; [done|]. split.
    + split; cbn; [by eexists|]. split; [done|]. rewrite <- Hz2, Hb3. split; [zlia|done].
    + rewrite HU in HS. rewrite <- app_assoc, (app_assoc P), HPX in HS. rewrite <- app_assoc in HS. by do 2 apply app_inv_head in HS.
  - eexists _, r', h2, U'. split; [done|]. split; [done|]. split; [by eexists|]. left. split; [done|]. exists (P ++ X). split; [done|].
    split; [by rewrite <- app_assoc, <- HU|]. assert (HU'z : zlen U' = 3) by (unfold U', n in *; rewrite zlen_drop; lia).
    split; [rewrite zlen_app; lia|]. split; [lia|]. intros E. rewrite E in Htot. change (zlen []) with 0 in Htot. lia.
Qed.
End receive.

(** ** The body *)

Section body.
Context {S W : Type} (junk : Z → Z) (dest_write : W → list Z → Z * W) (content : W → list Z).
Implicit Types c : client S W.

(** A destination that takes what it is given. *)
Definition takes_all : Prop :=
  ∀ w d, d ≠ [] → ∃ w', dest_write w d = (zlen d, w') ∧ content w' = content w ++ d.

Context (Hdest : takes_all).

(** What reading does not change. *)
Record read_kept (c c' : client S W) : Prop := {
  rk_out : cl_out c' = cl_out c;
  rk_at : cl_at c' = cl_at c;
  rk_eof : cl_eof_sent c' = cl_eof_sent c;
  rk_conn : cl_conn c' = cl_conn c;
  rk_source : cl_source c' = cl_source c;
  rk_events : rd_conn (cl_reader c') = rd_conn (cl_reader c);
  rk_allow : allow204 (cl_req c') = allow204 (cl_req c);
  rk_preview : preview (cl_req c') = preview (cl_req c)
}.

#[export] Instance read_kept_refl : Reflexive read_kept.
Proof. intros c. by split. Qed.

#[export] Instance read_kept_trans : Transitive read_kept.
Proof. intros c1 c2 c3 [] []. split; congruence. Qed.

(** The rest of the body is [R]; its data are [D]. *)
Definition in_body (c : client S W) (R D : list Z) : Prop :=
  reader_ok (cl_reader c) R D ∧ write_to_module_pending (cl_stream c) = 0.

Definition same_message (c c' : client S W) : Prop :=
  cl_encaps c' = cl_encaps c ∧ cl_response c' = cl_response c ∧ cl_code c' = cl_code c.

(** The data of a call of the parser reach the destination. *)
Lemma dest_loop_spec df m wd c :
  (1 ≤ df)%nat → pending_ok m wd (cl_stream c) →
  let d := delivered m wd (cl_stream c) in
  ∃ w, dest_loop dest_write df m wd c =
         Ret (true, to_dest w (to_reader (with_stream (set_pending 0 (cl_stream c)) (cl_reader c)) c)) ∧
    content w = content (cl_dest c) ++ d.
Proof.
  intros Hdf Hok d. pose proof (zlen_delivered _ _ _ Hok) as Hz. fold d in Hz.
  destruct df as [|df]; [lia|]. cbn [dest_loop].
  destruct (Z.ltb_spec 0 (write_to_module_pending (cl_stream c))) as [Hp|Hp].
  - rewrite pending_data_spec by done. cbn [obind]. fold d.
    destruct (Hdest (cl_dest c) d) as (w & Hw & Hc). { intros E. rewrite E in Hz. change (zlen []) with 0 in Hz. lia. }
    rewrite Hw. rewrite (proj2 (Z.ltb_ge (zlen d) 0)) by zlia.
    exists w. split; [|done]. rewrite Hz.
    replace (to_uint (write_to_module_pending (cl_stream c) - write_to_module_pending (cl_stream c))) with 0 by (by rewrite Z.sub_diag).
    change (cl_stream (to_dest w c)) with (cl_stream c). change (cl_reader (to_dest w c)) with (cl_reader c).
    destruct df; cbn [dest_loop]; done.
  - exists (cl_dest c). assert (Hd0 : d = []). { destruct d; [done|]. revert Hz. zlia. }
    rewrite Hd0, app_nil_r. split; [|done]. do 2 f_equal.
    assert (E : write_to_module_pending (cl_stream c) = 0) by (rewrite <- Hz, Hd0; done). clear - E.
    destruct c as [[???????????[[]]]]. cbn in *. by subst.
Qed.

Lemma body_loop_spec pf df fuel : ∀ c R D,
  (Z.to_nat BUFSIZE < pf)%nat → (1 ≤ df)%nat → in_body c R D → pstrblock_read_len (cl_stream c) ≤ BUFSIZE → zlen R < Z.of_nat fuel →
  ∃ ret c', body_loop dest_write pf df fuel c = Ret (ret, c') ∧ read_kept c c' ∧ same_message c c' ∧
    ((ret = CI_NEEDS_MORE ∧ cl_status c' = cl_status c ∧ ∃ R' D', in_body c' R' D' ∧ pstrblock_read_len (cl_stream c') < BUFSIZE ∧
        fut_of (rd_conn (cl_reader c')) ≠ [] ∧ content (cl_dest c') ++ D' = content (cl_dest c) ++ D) ∨
     (ret = CI_OK ∧ cl_status c' = CLIENT_PROCESS_DATA_GET_EOF ∧ write_to_module_pending (cl_stream c') = 0 ∧ content (cl_dest c') = content (cl_dest c) ++ D)).
Proof.
  induction fuel as [|fuel IH]; intros c R D Hpf Hdf ((Hinv & Hd & Hsz) & Hpd) Hlen Hf; [zlia|].
  destruct (parse_chunk_data_spec pf _ _ (cl_stream c) _ _ ltac:(unfold cl_stream in *; lia) Hinv Hpd)
    as (code & wd & s & Hparse & R' & D' & Hpost & Hok & He & HD & Hle & Hlt & _).
  cbn [delivered app] in HD. cbn [body_loop]. rewrite Hparse. cbn [obind].
  set (c1 := to_reader (with_stream s (cl_reader c)) c).
  destruct (dest_loop_spec df (block_mem (cl_reader c)) wd c1 Hdf Hok) as (w & Hdl & Hcw).
  change (cl_dest c1) with (cl_dest c) in Hcw. change (cl_stream c1) with s in *. rewrite Hdl.
  set (c2 := to_dest w (to_reader (with_stream (set_pending 0 s) (cl_reader c1)) c1)).
  assert (Hk : read_kept c c2) by (by split). assert (Hm : same_message c c2) by done.
  assert (Hc2 : ∀ x, content (cl_dest c2) ++ x = content (cl_dest c) ++ delivered (block_mem (cl_reader c)) wd s ++ x).
  { intros x. change (content w ++ x = content (cl_dest c) ++ delivered (block_mem (cl_reader c)) wd s ++ x). by rewrite Hcw, <- app_assoc. }
  assert (Hb : ∀ R D, inv (block_mem (cl_reader c)) (fut_of (rd_conn (cl_reader c))) s R D → in_body c2 R D).
  { intros R0 D0 HI. split; [|done]. split_and!; [|done|done]. by apply inv_set_pending. }
  destruct Hpost as [(-> & Hfut & I & Hl)|[(-> & I & Hl)|(-> & Hfut & -> & _)]];
    cbn [Z.eqb CI_ERROR CI_OK CI_NEEDS_MORE CI_EOF obind negb Pos.eqb].
  - exists CI_NEEDS_MORE, c2. split; [done|]. split; [done|]. split; [done|]. left. split; [done|]. split; [done|].
    exists R', D'. split; [by apply Hb|]. split; [done|]. split; [done|]. rewrite Hc2, HD. done.
  - specialize (Hlt eq_refl). pose proof (inv_block_len _ _ _ _ _ Hinv) as H1. pose proof (inv_block_len _ _ _ _ _ I) as H2.
    destruct (IH c2 R' D') as (ret & c' & Hrun & Hk' & Hm' & Hres); [done|done|by apply Hb| |lia|].
    { change (pstrblock_read_len s ≤ BUFSIZE). unfold cl_stream in *. lia. }
    exists ret, c'. split; [done|]. split; [by etransitivity|]. split.
    { destruct Hm as (?&?&?), Hm' as (?&?&?). split_and!; congruence. }
    destruct Hres as [(-> & Hst & R2 & D2 & ? & ? & ? & Hcc)|(-> & ? & ? & Hcc)]; [left|right].
    + split; [done|]. split; [done|]. exists R2, D2. split_and!; try done. by rewrite Hcc, Hc2, HD.
    + split; [done|]. split; [done|]. split; [done|]. by rewrite Hcc, Hc2, HD.
  - eexists _, _. split; [done|]. split; [by split|]. split; [done|]. right. split; [done|]. split; [done|]. split; [done|].
    specialize (Hc2 []). rewrite !app_nil_r in Hc2. rewrite app_nil_r in HD. by rewrite HD.
Qed.
End body.

(** ** The reply of a server *)

(** Nothing (a 204), a body alone, or an HTTP header of type [t] with a body of type [bt]. *)
Inductive reply :=
| RUnchanged
| RBody (t : Z) (ds : list (list Z))
| RMessage (t bt : Z) (hls ds : list (list Z)).

Definition http_block (hls : list (list Z)) : list Z := wire hls ++ CRLF.

Definition reply_items (r : reply) : list (Z * Z) :=
  match r with
  | RUnchanged => []
  | RBody t _ => [(t, 0)]
  | RMessage t bt hls _ => [(t, 0); (bt, zlen (http_block hls))]
  end.

Definition body_text (bt : Z) (ds : list (list Z)) : list Z := if bt =? ICAP_NULL_BODY then [] else encode ds.

Definition reply_text (r : reply) : list Z :=
  match r with
  | RUnchanged => []
  | RBody _ ds => encode ds
  | RMessage _ bt hls ds => http_block hls ++ body_text bt ds
  end.

Definition reply_data (r : reply) : list Z :=
  match r with RUnchanged => [] | RBody _ ds => concat ds | RMessage _ _ _ ds => concat ds end.

Definition is_body (t : Z) : Prop := t = ICAP_REQ_BODY ∨ t = ICAP_RES_BODY.

Definition reply_ok (allow : bool) (st : Z) (r : reply) : Prop :=
  match r with
  | RUnchanged => allow = true ∧ st = 204
  | RBody t ds => allow && (st =? 204) = false ∧ is_body t ∧ Forall good_chunk ds
  | RMessage t bt hls ds =>
      allow && (st =? 204) = false ∧ is_hdr t = true ∧ (is_body bt ∨ bt = ICAP_NULL_BODY ∧ ds = []) ∧
      hls ≠ [] ∧ Forall clean_line hls ∧ zlen (http_block hls) ≤ INT_MAX ∧ Forall good_chunk ds
  end.

(** The ICAP header of a response with the status [st] that announces the reply. *)
Record announces (rls : list (list Z)) (st : Z) (r : reply) : Prop := {
  an_clean : Forall clean_line rls;
  an_some : rls ≠ [];
  an_status : status_of (wire rls) = Some st;
  an_encaps : r ≠ RUnchanged → List.find (field_match (bytes "Encapsulated")) rls = Some (bytes "Encapsulated: " ++ items_text (reply_items r))
}.

Definition response_text (rls : list (list Z)) (r : reply) : list Z := wire rls ++ CRLF ++ reply_text r.

Section reply.
Context {S W : Type} (junk : Z → Z) (ra : nat → bool) (Hra : ∀ i, ra i = true)
  (dest_write : W → list Z → Z * W) (content : W → list Z) (Hdest : takes_all dest_write content)
  (rls : list (list Z)) (st : Z) (rep : reply) (Han : announces rls st rep).
Implicit Types c : client S W.

(** The first entity is the HTTP header, with its list. *)
Definition first_entity (c : client S W) (h : ci_headers_list_t) : Prop :=
  match rep with
  | RMessage t bt hls _ => ∃ y post, entities (cl_encaps c) = Some (mkEntity 0 t (Some h)) :: Some y :: post ∧
      type y = bt ∧ start y = zlen (http_block hls)
  | _ => True
  end.

(** The HTTP header was read. *)
Definition got_http (c : client S W) : Prop :=
  match rep with RMessage _ _ hls _ => ∃ h tl, first_entity c h ∧ hrepr h hls tl | _ => True end.

(** The ICAP header was read. *)
Definition got_icap (c : client S W) : Prop := cl_code c = st ∧ ∃ tl, hrepr (cl_response c) rls tl.

(** The states of a client that reads the response: [U] is in its block, [D] is the data to come. *)
Inductive receiving (c : client S W) (U D : list Z) : Prop :=
| rv_icap P :
    cl_status c = CLIENT_PROCESS_DATA → D = reply_data rep → reply_ok (allow204 (cl_req c)) st rep →
    holding (cl_response c) P → P ++ U ++ fut_of (rd_conn (cl_reader c)) = response_text rls rep →
    current_chunk_len (cl_stream c) = chunk_bytes_read (cl_stream c) →
    zlen P ≤ zlen (wire rls) - 2 → entities (cl_encaps c) = replicate 5 None → recycled (cl_encaps c) → receiving c U D
| rv_http h P t bt hls ds :
    cl_status c = CLIENT_PROCESS_DATA_GET_HEADERS → D = reply_data rep → reply_ok (allow204 (cl_req c)) st rep → got_icap c →
    rep = RMessage t bt hls ds → first_entity c h → holding h P → zlen (http_block hls) < bufsize h →
    P ++ U ++ fut_of (rd_conn (cl_reader c)) = reply_text rep → zlen P < zlen (http_block hls) → receiving c U D
| rv_body :
    cl_status c = CLIENT_PROCESS_DATA_GET_BODY → rep ≠ RUnchanged → got_icap c → got_http c →
    phase (current_chunk_len (cl_stream c)) (chunk_bytes_read (cl_stream c)) (U ++ fut_of (rd_conn (cl_reader c))) D → receiving c U D.

Definition received (c : client S W) : Prop :=
  cl_status c = CLIENT_PROCESS_DATA_GET_EOF ∧ got_icap c ∧ got_http c.

Lemma status_read h : header_read rls h → response_status h = Ret (Some st).
Proof.
  intros ((tl & Hb) & _). unfold response_status. rewrite Hb.
  assert (Hnn : no_nul (wire rls)).
  { pose proof (an_clean _ _ _ Han) as Hc. clear - Hc. induction Hc as [|l ls Hl _ IH]; [constructor|]. rewrite wire_cons.
    apply Forall_app. split; [by apply clean_no_nul|]. by repeat constructor. }
  rewrite cstr_no_nul by done. cbn [scan obind]. by rewrite (an_status _ _ _ Han).
Qed.

Lemma unpack_response_spec c : header_read rls (cl_response c) →
  ∃ h tl, unpack_response true c = Ret (to_response h c) ∧ hrepr h rls (NUL :: tl).
Proof.
  intros ((tl & Hb) & Hu & Hz & Hi). unfold unpack_response.
  destruct (ci_headers_unpack_spec (cl_response c) rls (NUL :: tl)) as (h & -> & Hh);
    [apply (an_some _ _ _ Han)|apply (an_clean _ _ _ Han)|done|done|done|done|]. by exists h, tl.
Qed.

Lemma reply_items_ok allow : reply_ok allow st rep → rep ≠ RUnchanged →
  Forall item_ok (reply_items rep) ∧ reply_items rep ≠ [] ∧ zlen (reply_items rep) ≤ 2.
Proof.
  intros Hok Hne. unfold item_ok, ICAP_REQ_HDR, ICAP_NULL_BODY. destruct rep as [|t ds|t bt hls ds]; [done|..]; cbn [reply_items].
  - destruct Hok as (_ & [-> | ->] & _); (split; [apply Forall_singleton; cbn; unfold ICAP_REQ_BODY, ICAP_RES_BODY, INT_MAX; lia|split; [done|unfold zlen; cbn; lia]]).
  - destruct Hok as (_ & Ht & Hbt & _ & _ & Hz & _). pose proof (zlen_nonneg (http_block hls)).
    assert (t = 0 ∨ t = 1). { unfold is_hdr, ICAP_REQ_HDR, ICAP_RES_HDR in Ht. apply orb_prop in Ht as [E|E]; apply Z.eqb_eq in E; lia. }
    assert (2 ≤ bt ≤ 4). { unfold is_body, ICAP_REQ_BODY, ICAP_RES_BODY, ICAP_NULL_BODY in Hbt. lia. }
    split; [|split; [done|unfold zlen; cbn; lia]]. constructor; [|constructor; [|constructor]]; cbn [fst snd]; unfold INT_MAX in *; lia.
Qed.

(** The Encapsulated header of the response fills the entities. *)
Lemma read_encapsulated_spec c tl :
  hrepr (cl_response c) rls tl → tl ≠ [] → reply_ok (allow204 (cl_req c)) st rep → rep ≠ RUnchanged →
  entities (cl_encaps c) = replicate 5 None → recycled (cl_encaps c) →
  ∃ e, read_encapsulated junk true true c = Ret (true, to_encaps e c) ∧ recycled e ∧
    match rep with
    | RMessage t bt hls _ => ∃ y h tl, entities e = [Some (mkEntity 0 t (Some h)); Some y; None; None; None] ∧ hrepr h [] tl ∧ 1 ≤ size h ∧
        type y = bt ∧ start y = zlen (http_block hls)
    | _ => ∃ x, entities e = [Some x; None; None; None; None]
    end.
Proof.
  intros Hh Htl Hok Hne He Hr. unfold read_encapsulated.
  destruct (ci_headers_search_found (cl_response c) rls tl (bytes "Encapsulated") (bytes "Encapsulated: " ++ items_text (reply_items rep)) Hh Htl) as (p & s & -> & Hp);
    [by repeat constructor|done|by apply (an_encaps _ _ _ Han)|]. cbn [obind]. rewrite Hp.
  destruct (reply_items_ok _ Hok Hne) as (Hio & Hin & Hil).
  destruct (process_encapsulated_spec junk (cl_encaps c) (reply_items rep) s) as (e & Hrun & [Hfl Hz] & _ & _);
    [split; [done|apply (rc_trash _ Hr)]|done|done|lia|].
  replace ((bytes "Encapsulated: " ++ items_text (reply_items rep)) ++ NUL :: s)
    with (bytes "Encapsulated: " ++ items_text (reply_items rep) ++ NUL :: s) by by_app.
  rewrite Hrun. cbn [obind]. assert (Hnil : new_heads (entities (cl_encaps c))).
  { rewrite He. intros i x Hx. by apply lookup_replicate in Hx as [? _]. }
  destruct (process_encapsulated_heads _ _ _ _ _ Hr Hnil Hrun) as [Hre Hnh].
  exists e. split; [done|]. split; [done|]. unfold shape in Hfl.
  destruct rep as [|t ds|t bt hls ds]; [done|..]; cbn in Hfl.
  - destruct (entities e) as [|[x|] [|[|] [|[|] [|[|] [|[|] []]]]]]; try done. by exists x.
  - destruct (entities e) as [|[x|] [|[y|] [|[|] [|[|] [|[|] []]]]]] eqn:Ee; try done. cbn in Hfl. injection Hfl as Ht Hs Hbt Hsy.
    destruct (Hnh 0%nat x) as (h & tl' & Hx & Hrep & Hsz); [done|by rewrite Ht; apply Hok|]. exists y, h, tl'.
    split; [|done]. destruct x. cbn in *. by subst.
Qed.

(** The result of a step that reads a part of the response: [o] is the value to return. *)
Definition step_result (c : client S W) (D : list Z) (o : option Z) (c' : client S W) : Prop :=
  read_kept c c' ∧ (write_to_module_pending (cl_stream c) = 0 → write_to_module_pending (cl_stream c') = 0) ∧ cl_dest c' = cl_dest c ∧
  ((o = Some CI_NEEDS_MORE ∧ ∃ U, window (cl_reader c') U ∧ receiving c' U D ∧ zlen U < BUFSIZE ∧ fut_of (rd_conn (cl_reader c')) ≠ []) ∨
   (o = Some 204 ∧ rep = RUnchanged ∧ received c') ∨
   (o = Some CI_OK ∧ rep ≠ RUnchanged ∧ D = [] ∧ received c') ∨
   (o = None ∧ rep ≠ RUnchanged ∧ CLIENT_PROCESS_DATA < cl_status c' ∧ ∃ U, window (cl_reader c') U ∧ receiving c' U D ∧ pstrblock_read_len (cl_stream c') ≤ pstrblock_read_len (cl_stream c))).

Lemma window_len r U : window r U → pstrblock_read_len (rd_stream r) = zlen U.
Proof. by intros (? & _ & _ & ? & _). Qed.

(** The body begins: at once, or with the next read. *)
Lemma enter_body c c' U D ds :
  read_kept c c' → (write_to_module_pending (cl_stream c) = 0 → write_to_module_pending (cl_stream c') = 0) → cl_dest c' = cl_dest c →
  window (cl_reader c') U → zlen U ≤ pstrblock_read_len (cl_stream c) → current_chunk_len (cl_stream c') = chunk_bytes_read (cl_stream c') →
  U ++ fut_of (rd_conn (cl_reader c')) = encode ds → Forall good_chunk ds → D = concat ds → got_icap c' → got_http c' → rep ≠ RUnchanged →
  cl_status c' = CLIENT_PROCESS_DATA_GET_BODY →
  step_result c D (if pstrblock_read_len (cl_stream c') =? 0 then Some CI_NEEDS_MORE else None) c'.
Proof.
  intros Hk Hp Hd Hw Hl Hcr Hb Hds -> Hi Hh Hun Hst. split; [done|]. split; [done|]. split; [done|].
  pose proof (window_len _ _ Hw) as Hlen. assert (Hr : receiving c' U (concat ds)).
  { apply rv_body; [done|done|done|done|]. rewrite Hb, Hcr. by apply phase_def. }
  change (rd_stream (cl_reader c')) with (cl_stream c') in Hlen. rewrite Hlen. destruct (Z.eqb_spec (zlen U) 0) as [E|E].
  - left. split; [done|]. exists U. split_and!; try done; [unfold BUFSIZE; lia|].
    assert (U = []) as -> by (destruct U; [done|revert E; zlia]). cbn [app] in Hb. rewrite Hb. apply encode_nonempty.
  - right; right; right. split; [done|]. split; [done|]. split; [rewrite Hst; reflexivity|]. by exists U.
Qed.

Lemma get_response_header_spec c U D :
  window (cl_reader c) U → receiving c U D → cl_status c = CLIENT_PROCESS_DATA →
  ∃ o c', get_response_header junk true true ra c = Ret (o, c') ∧ step_result c D o c'.
Proof.
  intros Hw Hrv Hst. destruct Hrv as [P _ -> Hok Hho HS Hcr HP Hent Hrec|? ? ? ? ? ? E|E]; [|by rewrite E in Hst..].
  pose proof (window_len _ _ Hw) as Hlen. unfold get_response_header.
  destruct (parse_icap_header_step junk ra Hra rls (an_clean _ _ _ Han) (an_some _ _ _ Han) (reply_text rep) _ _ P U Hw Hho HS HP)
    as (ret & r' & h' & U' & -> & Hw' & (p & Hr') & Hres). cbn [obind].
  set (c1 := to_response h' (to_reader r' c)).
  assert (Hk1 : read_kept c c1) by (split; try done; cbn; by rewrite Hr').
  assert (Hp1 : write_to_module_pending (cl_stream c) = 0 → write_to_module_pending (cl_stream c1) = 0) by (unfold c1, cl_stream; cbn; by rewrite Hr').
  assert (Hcr1 : current_chunk_len (cl_stream c1) = chunk_bytes_read (cl_stream c1)) by (unfold c1, cl_stream; cbn; by rewrite Hr').
  assert (Hev : rd_conn r' = rd_conn (cl_reader c)) by (by rewrite Hr').
  destruct Hres as [(-> & P' & Hho' & HPU & HP' & HU' & Hfut)|(-> & Hread & Hrest)]; cbn [negb Z.eqb CI_NEEDS_MORE CI_OK Pos.eqb].
  { eexists _, c1. split; [done|]. split; [done|]. split; [done|]. split; [done|]. left. split; [done|]. exists U'. split; [done|].
    change (cl_reader c1) with r'. rewrite Hev. split; [|split; [unfold BUFSIZE; lia|done]].
    eapply (rv_icap _ _ _ P'); try done. change (cl_reader c1) with r'. rewrite Hev, app_assoc, HPU, <- app_assoc. done. }
  rewrite (status_read _ Hread). cbn [obind].
  destruct (unpack_response_spec (to_code st c1) Hread) as (h & tl & -> & Hh). cbn [obind].
  set (c2 := to_response h (to_code st c1)). change (allow204 (cl_req c2)) with (allow204 (cl_req c)).
  assert (Hi2 : got_icap c2) by (split; [done|by eexists]). assert (Hk2 : read_kept c c2) by (destruct Hk1; by split).
  destruct (allow204 (cl_req c) && (st =? 204)) eqn:E204.
  { assert (rep = RUnchanged) as Hrep by (unfold reply_ok in Hok; destruct rep; [done|by destruct Hok as [? _]; congruence..]).
    eexists _, _. split; [done|]. split; [by destruct Hk2; split|]. split; [done|]. split; [done|]. right; left. split; [done|]. split; [done|].
    split; [done|]. split; [done|]. unfold got_http. by rewrite Hrep. }
  assert (Hne : rep ≠ RUnchanged).
  { intros ->. destruct Hok as [Ha ->]. by rewrite Ha in E204. }
  destruct (read_encapsulated_spec c2 (NUL :: tl) Hh ltac:(done) Hok Hne Hent Hrec) as (e & -> & Hrec' & He). cbn [obind negb].
  set (c3 := to_encaps e c2). change (cl_encaps c3) with e.
  assert (Hi3 : got_icap c3) by (split; [done|by eexists]). assert (Hk3 : read_kept c c3) by (destruct Hk2; by split).
  assert (Hlu : zlen U' ≤ pstrblock_read_len (cl_stream c)).
  { unfold cl_stream. rewrite Hlen. apply (f_equal zlen) in HS. unfold response_text in HS. apply (f_equal zlen) in Hrest.
    rewrite !zlen_app in *. change (zlen CRLF) with 2 in HS. lia. }
  assert (Hcase : (∃ t ds, rep = RBody t ds) ∨ ∃ t bt hls ds, rep = RMessage t bt hls ds)
    by (destruct rep; [done|left; by eexists _, _|right; by eexists _, _, _, _]).
  destruct Hcase as [(t & ds & Erep)|(t & bt & hls & ds & Erep)]; pose proof Hok as Hok'; rewrite Erep in Hok', He.
  - destruct He as (x & He). rewrite He. change (arr_get [Some x; None; None; None; None] 0) with (Ret (Some x)).
    change (arr_get [Some x; None; None; None; None] 1) with (Ret (@None ci_encaps_entity_t)). cbn [obind]. eexists _, _. split; [done|].
    destruct Hok' as (_ & _ & Hds). eapply (enter_body c _ U' _ ds); try done.
    + change (U' ++ fut_of (rd_conn r') = encode ds). by rewrite Hev, Hrest, Erep.
    + by rewrite Erep.
    + unfold got_http. by rewrite Erep.
  - destruct He as (y & h0 & tl0 & He & Hh0 & Hsz0 & Hty & Hsy). rewrite He.
    change (arr_get (?a :: ?l) 0) with (Ret a). change (arr_get (?a :: ?b :: ?l) 1) with (Ret b). cbn [obind].
    set (c4 := to_status CLIENT_PROCESS_DATA_GET_HEADERS c3).
    assert (Hfh : first_heads c4 = Ret (zlen (http_block hls), h0)).
    { unfold first_heads. change (cl_encaps c4) with e. rewrite He. change (arr_get (?a :: ?l) 0) with (Ret a).
      change (arr_get (?a :: ?b :: ?l) 1) with (Ret b). cbn [obind start entity]. rewrite Hsy, Z.sub_0_r.
      destruct Hok' as (_ & _ & _ & _ & _ & Hz & _). pose proof (zlen_nonneg (http_block hls)).
      rewrite (proj2 (Z.ltb_ge _ INT_MIN)), (proj2 (Z.ltb_ge INT_MAX _)) by (unfold INT_MIN, INT_MAX in *; lia). done. }
    rewrite Hfh. cbn [obind].
    destruct (setsize_ok junk h0 (zlen (http_block hls)) (hr_size _ _ _ Hh0) (zlen_nonneg _)) as (h1 & tl1 & -> & Hb1 & Hz1 & Hcap & Hs1 & _ & _ & Hu1).
    unfold put_heads, set_heads, slot. change (cl_encaps c4) with e. rewrite He. change (arr_get (?a :: ?l) 0) with (Ret a). cbn [obind start type].
    change (arr_set (?a :: ?l) 0 ?x) with (Ret (x :: l)). cbn [obind Z.eqb]. eexists _, _. split; [done|].
    split; [by destruct Hk3; split|]. split; [done|]. split; [done|]. right; right; right. split; [done|]. split; [done|]. split; [done|]. exists U'.
    split; [done|]. split; [|change (pstrblock_read_len (rd_stream r') ≤ pstrblock_read_len (cl_stream c)); by rewrite (window_len _ _ Hw')].
    eapply (rv_http _ _ _ h1 [] t bt hls ds); try done.
    + unfold first_entity. rewrite Erep. exists y. by eexists.
    + split; [by exists (buf h1)|by rewrite Hu1, (hr_used _ _ _ Hh0)|done|by rewrite Hs1].
    + change (U' ++ fut_of (rd_conn r') = reply_text rep). by rewrite Hev.
    + unfold http_block, CRLF. pose proof (zlen_nonneg (wire hls)). zlia.
Qed.

(** A header block of announced size. *)
Lemma parse_encaps_header_step r h P U hls txt :
  window r U → holding h P → zlen (http_block hls) < bufsize h → Forall clean_line hls → hls ≠ [] →
  P ++ U ++ fut_of (rd_conn r) = http_block hls ++ txt → zlen P < zlen (http_block hls) →
  ∃ ret r' h' U', client_parse_encaps_header r h (zlen (http_block hls)) = Ret (ret, r', h') ∧ window r' U' ∧ zlen U' ≤ zlen U ∧
    (∃ p, r' = with_stream (set_block p (zlen U') (rd_stream r)) r) ∧
    ((ret = CI_NEEDS_MORE ∧ U' = [] ∧ (∃ P', holding h' P' ∧ bufsize h' = bufsize h ∧ P' = P ++ U ∧ zlen P' < zlen (http_block hls)) ∧ fut_of (rd_conn r) ≠ []) ∨
     (ret = CI_OK ∧ U' ++ fut_of (rd_conn r) = txt ∧
       ∃ tl, buf h' = wire hls ++ tl ∧ bufused h' = zlen (wire hls) ∧ bufsize h' = zlen (buf h') ∧ 1 ≤ size h')).
Proof.
  intros Hw Hho Hcap Hcl Hne HS HP. pose proof (window_len _ _ Hw) as Hlen. unfold client_parse_encaps_header.
  rewrite (ho_used _ _ Hho). rewrite (proj2 (Z.ltb_ge _ 0)), (proj2 (Z.eqb_neq _ 0)) by lia. rewrite Hlen.
  set (size := zlen (http_block hls)) in *. set (n := if zlen U <? size - zlen P then zlen U else size - zlen P).
  assert (Hn : n = Z.min (zlen U) (size - zlen P)) by (unfold n; destruct (Z.ltb_spec (zlen U) (size - zlen P)); lia).
  assert (HU : U = take (Z.to_nat n) U ++ drop (Z.to_nat n) U) by (symmetry; apply take_drop).
  set (X := take (Z.to_nat n) U) in *. set (U' := drop (Z.to_nat n) U) in *. pose proof (zlen_nonneg U). pose proof (zlen_nonneg P).
  assert (HXz : zlen X = n) by (unfold X; rewrite zlen_take; lia).
  assert (HU'z : zlen U' = zlen U - n) by (unfold U'; rewrite zlen_drop; lia).
  assert (Htb : ∃ r' h1, (if 0 <? zlen U then take_block n r h else Ret (r, h)) = Ret (r', h1) ∧ window r' U' ∧ holding h1 (P ++ X) ∧
    bufsize h1 = bufsize h ∧ ∃ p, r' = with_stream (set_block p (zlen U') (rd_stream r)) r).
  { destruct (Z.ltb_spec 0 (zlen U)) as [Hpos|Hz].
    - rewrite HU in Hw. destruct (take_block_spec r h P X U' Hw ltac:(lia) Hho ltac:(lia)) as (r' & h1 & Ht & ? & ? & ? & ?).
      rewrite HXz in Ht. exists r', h1. split_and!; try done. by eexists.
    - assert (E0 : U = []) by (destruct U; [done|zlia]). exists r, h.
      assert (EX : X = []) by (unfold X; by rewrite E0, take_nil). assert (EU : U' = []) by (unfold U'; by rewrite E0, drop_nil).
      rewrite EX, EU, app_nil_r. rewrite E0 in Hw. split_and!; try done. exists (pstrblock_read (rd_stream r)).
      rewrite E0 in Hlen. clear - Hlen. destruct r as [[] ? ? ? ? ? ?]. cbn in *. by subst. }
  destruct Htb as (r' & h1 & -> & Hw' & Hho1 & Hbs1 & Hr'). cbn [obind]. rewrite (ho_used _ _ Hho1), zlen_app, HXz.
  destruct (Z.ltb_spec (zlen P + n) size) as [Hlt|Hge].
  - exists CI_NEEDS_MORE, r', h1, U'. split; [done|]. split; [done|]. split; [lia|]. split; [done|]. left. split; [done|].
    assert (EU : U' = []) by (destruct U'; [done|]; revert HU'z; zlia). rewrite EU, app_nil_r in HU. split; [done|]. split.
    + exists (P ++ X). rewrite <- HU. rewrite zlen_app. rewrite <- HU in Hho1. split_and!; try done. rewrite HU, HXz. lia.
    + intros E. rewrite E, app_nil_r in HS. apply (f_equal zlen) in HS. rewrite !zlen_app in HS. fold size in HS. pose proof (zlen_nonneg txt). lia.
  - assert (HPX : P ++ X = http_block hls).
    { rewrite HU in HS. rewrite <- app_assoc, app_assoc in HS. apply (f_equal (take (Z.to_nat size))) in HS.
      rewrite !take_app_length' in HS; [done| |]; [unfold size; by rewrite zlen_to_nat|]. rewrite length_app. unfold zlen in *. lia. }
    destruct (wire_first_eoh hls [] Hcl Hne) as (w & Hwire & _).
    pose proof Hho1 as [(tl & Hb1) Hu1 Hz1 Hi1]. rewrite HPX in Hb1.
    assert (Hb2 : buf h1 = w ++ CRLFCRLF ++ tl) by (rewrite Hb1; unfold http_block; rewrite Hwire; by_app).
    assert (Hsz : size = zlen w + 4) by (unfold size, http_block; rewrite Hwire; unfold CRLF; zlia).
    unfold cmp_at. replace (zlen P + n - 4) with (zlen w) by lia. pose proof (zlen_nonneg w). rewrite (proj2 (Z.ltb_ge _ 0)) by lia.
    rewrite Hb2, zlen_to_nat, drop_app_length. rewrite str_prefix_exact by (rewrite length_app; cbn; lia).
    rewrite take_app_length, bool_decide_eq_true_2 by done. cbn [scan obind].
    eexists CI_OK, r', _, U'. split; [done|]. split; [done|]. split; [lia|]. split; [done|]. right. split; [done|]. split.
    + rewrite HU in HS. rewrite <- app_assoc, app_assoc, HPX in HS. by apply app_inv_head in HS.
    + exists (CRLF ++ tl). cbn [set_buf buf bufused bufsize Headers.size]. split; [rewrite Hwire; by_app|].
      split; [rewrite Hwire; unfold CRLF; zlia|]. rewrite <- Hb2. by split.
Qed.

(** The list of the first entity and its change. *)
Lemma first_heads_spec c h t bt hls ds :
  rep = RMessage t bt hls ds → zlen (http_block hls) ≤ INT_MAX → first_entity c h →
  first_heads c = Ret (zlen (http_block hls), h) ∧
  (∀ h', ∃ e, put_heads h' c = Ret (to_encaps e c) ∧ first_entity (to_encaps e c) h') ∧
  ∃ y, arr_get (entities (cl_encaps c)) 1 = Ret (Some y) ∧ type y = bt.
Proof.
  intros Erep Hz Hf. unfold first_entity in *. rewrite Erep in *. destruct Hf as (y & post & He & Hty & Hsy). split_and!.
  - unfold first_heads. rewrite He. change (arr_get (?a :: ?l) 0) with (Ret a). change (arr_get (?a :: ?b :: ?l) 1) with (Ret b).
    cbn [obind start entity]. rewrite Hsy, Z.sub_0_r. pose proof (zlen_nonneg (http_block hls)).
    by rewrite (proj2 (Z.ltb_ge _ INT_MIN)), (proj2 (Z.ltb_ge INT_MAX _)) by (unfold INT_MIN, INT_MAX in *; lia).
  - intros h'. unfold put_heads, set_heads, slot. rewrite He. change (arr_get (?a :: ?l) 0) with (Ret a). cbn [obind start type].
    change (arr_set (?a :: ?l) 0 ?x) with (Ret (x :: l)). cbn [obind]. eexists. split; [done|]. exists y. by eexists.
  - exists y. by rewrite He.
Qed.

Lemma get_encaps_headers_spec c U D :
  window (cl_reader c) U → receiving c U D → cl_status c = CLIENT_PROCESS_DATA_GET_HEADERS →
  ∃ o c', get_encaps_headers true c = Ret (o, c') ∧ step_result c D o c' ∧ (o = None → cl_status c' = CLIENT_PROCESS_DATA_GET_BODY).
Proof.
  intros Hw Hrv Hst. destruct Hrv as [? E|h P t bt hls ds _ -> Hok (Hcode & rtl & Hresp) Erep Hfe Hho Hcap HS HP|E]; [by rewrite E in Hst| |by rewrite E in Hst].
  pose proof Hok as Hok'. rewrite Erep in Hok'. destruct Hok' as (_ & _ & Hbt & Hne & Hcl & Hz & Hds).
  destruct (first_heads_spec c h t bt hls ds Erep Hz Hfe) as (Hfh & _ & _). unfold get_encaps_headers. rewrite Hfh. cbn [obind].
  pose proof HS as HS'. rewrite Erep in HS'. cbn [reply_text] in HS'.
  destruct (parse_encaps_header_step (cl_reader c) h P U hls (body_text bt ds) Hw Hho Hcap Hcl Hne HS' HP)
    as (ret & r' & h1 & U' & -> & Hw' & Hlu & (p & Hr') & Hres). cbn [obind].
  assert (Hev : rd_conn r' = rd_conn (cl_reader c)) by (by rewrite Hr').
  assert (Hpd : write_to_module_pending (cl_stream c) = 0 → write_to_module_pending (rd_stream r') = 0) by (by rewrite Hr').
  set (c1 := to_reader r' c).
  destruct (first_heads_spec c1 h t bt hls ds Erep Hz Hfe) as (_ & Hput & _). destruct (Hput h1) as (e1 & -> & Hfe1). cbn [obind].
  destruct Hres as [(-> & -> & (P' & Hho1 & Hbs & -> & HP') & Hfut)|(-> & Htxt & tl & Hb & Hu & Hbs & Hi)]; cbn [negb Z.eqb CI_NEEDS_MORE CI_OK Pos.eqb].
  { eexists _, _. split; [done|]. split; [|done]. split; [by split|]. split; [done|]. split; [done|]. left. split; [done|]. exists []. split; [done|].
    split; [|split; [done|by change (fut_of (rd_conn r') ≠ []); rewrite Hev]].
    eapply (rv_http _ _ _ h1 (P ++ U)); try done.
    - split; [done|by eexists].
    - by rewrite Hbs.
    - change ((P ++ U) ++ fut_of (rd_conn r') = reply_text rep). by rewrite Hev, <- app_assoc. }
  destruct (ci_headers_unpack_spec h1 hls tl Hne Hcl Hi Hb Hu Hbs) as (h2 & -> & Hh2). cbn [obind].
  destruct (first_heads_spec (to_encaps e1 c1) h1 t bt hls ds Erep Hz Hfe1) as (_ & Hput2 & _). destruct (Hput2 h2) as (e2 & -> & Hfe2). cbn [obind].
  set (c2 := to_encaps e2 (to_encaps e1 c1)) in *.
  set (c3 := to_reader (with_stream (set_pending 0 (set_chunk 0 0 (cl_stream c2))) (cl_reader c2)) c2).
  destruct (first_heads_spec c3 h2 t bt hls ds Erep Hz Hfe2) as (_ & _ & y & -> & Hty). cbn [obind]. rewrite Hty.
  assert (Hgi : got_icap c3) by (split; [done|by eexists]).
  assert (Hgh : got_http c3) by (unfold got_http; rewrite Erep; exists h2, tl; done).
  assert (Hk3 : read_kept c c3) by (by split). destruct (Z.eqb_spec bt ICAP_NULL_BODY) as [Enull|Enull].
  - destruct Hbt as [[Hb2|Hb2]|(_ & Hd)]; [by rewrite Enull in Hb2..|]. eexists _, _. split; [done|]. split; [|done]. split; [done|]. split; [done|]. split; [done|].
    right; right; left. split; [done|]. split; [by rewrite Erep|]. rewrite Erep. cbn [reply_data]. by rewrite Hd.
  - eexists _, _. split; [done|]. split; [|done]. eapply (enter_body c _ U' _ ds); try done.
    + unfold cl_stream. by rewrite (window_len _ _ Hw).
    + change (U' ++ fut_of (rd_conn r') = encode ds). rewrite Hev, Htxt. unfold body_text. by rewrite (proj2 (Z.eqb_neq _ _)).
    + by rewrite Erep.
    + by rewrite Erep.
Qed.

(** ** A call *)

(** What a call of [client_parse_incoming_data] does with what is in the block. *)
Definition call_result (c : client S W) (D : list Z) (ret : Z) (c' : client S W) : Prop :=
  read_kept c c' ∧
  ((ret = CI_NEEDS_MORE ∧ write_to_module_pending (cl_stream c') = 0 ∧ ∃ U D', window (cl_reader c') U ∧ receiving c' U D' ∧ zlen U < BUFSIZE ∧
      fut_of (rd_conn (cl_reader c')) ≠ [] ∧ content (cl_dest c') ++ D' = content (cl_dest c) ++ D) ∨
   (ret = CI_OK ∧ rep ≠ RUnchanged ∧ received c' ∧ write_to_module_pending (cl_stream c') = 0 ∧ content (cl_dest c') = content (cl_dest c) ++ D) ∨
   (ret = 204 ∧ rep = RUnchanged ∧ received c' ∧ cl_dest c' = cl_dest c)).

Lemma body_call pf df fuel c U D :
  (Z.to_nat BUFSIZE < pf)%nat → (1 ≤ df)%nat → window (cl_reader c) U → receiving c U D → cl_status c = CLIENT_PROCESS_DATA_GET_BODY →
  rep ≠ RUnchanged → write_to_module_pending (cl_stream c) = 0 → pstrblock_read_len (cl_stream c) ≤ BUFSIZE →
  zlen U + zlen (fut_of (rd_conn (cl_reader c))) < Z.of_nat fuel →
  ∃ ret c', body_loop dest_write pf df fuel c = Ret (ret, c') ∧ call_result c D ret c'.
Proof.
  intros Hpf Hdf Hw Hrv Hst Hun Hp Hl Hf. destruct Hrv as [? E|? ? ? ? ? ? E|_ _ Hi Hh Hph]; [by rewrite E in Hst..|].
  assert (Hb : in_body c (U ++ fut_of (rd_conn (cl_reader c))) D) by (split; [by apply window_reader_ok|done]).
  destruct (body_loop_spec dest_write content Hdest pf df fuel c _ D Hpf Hdf Hb Hl) as (ret & c' & -> & Hk & (Hm1 & Hm2 & Hm3) & Hres); [by rewrite zlen_app|].
  assert (Hi' : got_icap c') by (destruct Hi as (? & tl & ?); split; [congruence|exists tl; congruence]).
  assert (Hh' : got_http c'). { unfold got_http, first_entity in *. destruct rep; [done|done|]. by rewrite Hm1. }
  exists ret, c'. split; [done|]. split; [done|]. destruct Hres as [(-> & Hst' & R' & D' & (Hok & Hp') & Hl' & Hfut & Hc)|(-> & Hst' & Hp' & Hc)].
  - left. split; [done|]. split; [done|]. destruct (reader_ok_window _ _ _ Hok) as (U' & Hw' & -> & Hph'). exists U', D'.
    split; [done|]. split; [apply rv_body; [congruence|done|done|done|done]|]. split; [|done].
    unfold cl_stream in Hl'. by rewrite (window_len _ _ Hw') in Hl'.
  - right; left. done.
Qed.

Lemma parse_incoming_spec pf df fuel c U D :
  (Z.to_nat BUFSIZE < pf)%nat → (1 ≤ df)%nat → window (cl_reader c) U → zlen U ≤ BUFSIZE → receiving c U D →
  write_to_module_pending (cl_stream c) = 0 → BUFSIZE + zlen (fut_of (rd_conn (cl_reader c))) < Z.of_nat fuel →
  ∃ ret c', client_parse_incoming_data junk true true ra dest_write pf df fuel c = Ret (ret, c') ∧ call_result c D ret c'.
Proof.
  intros Hpf Hdf Hw HU Hrv Hp Hf. unfold client_parse_incoming_data.
  assert (Hlen : pstrblock_read_len (cl_stream c) ≤ BUFSIZE) by (unfold cl_stream; by rewrite (window_len _ _ Hw)).
  (* the body, when the status is that *)
  assert (Hbody : ∀ c1 U1 D, read_kept c c1 → cl_dest c1 = cl_dest c → window (cl_reader c1) U1 → receiving c1 U1 D → cl_status c1 = CLIENT_PROCESS_DATA_GET_BODY →
    rep ≠ RUnchanged → write_to_module_pending (cl_stream c1) = 0 → pstrblock_read_len (cl_stream c1) ≤ BUFSIZE →
    ∃ ret c', body_loop dest_write pf df fuel c1 = Ret (ret, c') ∧ call_result c D ret c').
  { intros c1 U1 D1 Hk Hd Hw1 Hr1 Hst1 Hu1 Hp1 Hl1. destruct (body_call pf df fuel c1 U1 D1 Hpf Hdf Hw1 Hr1 Hst1 Hu1 Hp1 Hl1) as (ret & c' & Hrun & Hk' & Hres).
    - rewrite (rk_events _ _ Hk). unfold cl_stream in Hl1. rewrite (window_len _ _ Hw1) in Hl1. lia.
    - exists ret, c'. split; [done|]. split; [by etransitivity|]. by rewrite Hd in Hres. }
  (* the HTTP header, when the status is that, and what follows *)
  assert (Hhttp : ∀ c1 U1, read_kept c c1 → cl_dest c1 = cl_dest c → window (cl_reader c1) U1 → receiving c1 U1 D → CLIENT_PROCESS_DATA < cl_status c1 →
    rep ≠ RUnchanged → write_to_module_pending (cl_stream c1) = 0 → pstrblock_read_len (cl_stream c1) ≤ BUFSIZE →
    ∃ ret c', (let* (o, c) := if cl_status c1 =? CLIENT_PROCESS_DATA_GET_HEADERS then get_encaps_headers true c1 else Ret (None, c1) in
      match o with Some ret => Ret (ret, c) | None => if cl_status c =? CLIENT_PROCESS_DATA_GET_BODY then body_loop dest_write pf df fuel c else Ret (CI_OK, c) end) = Ret (ret, c') ∧
      call_result c D ret c').
  { intros c1 U1 Hk Hd Hw1 Hr1 Hst1 Hu1 Hp1 Hl1. destruct (Z.eqb_spec (cl_status c1) CLIENT_PROCESS_DATA_GET_HEADERS) as [E|E].
    - destruct (get_encaps_headers_spec c1 U1 D Hw1 Hr1 E) as (o & c2 & -> & (Hk2 & Hp2 & Hd2 & Hres) & Hnone). cbn [obind]. specialize (Hp2 Hp1).
      assert (Hkk : read_kept c c2) by (by etransitivity). rewrite Hd in Hd2.
      destruct Hres as [(-> & U2 & Hw2 & Hr2 & Hl2 & Hf2)|[(-> & Er & _)|[(-> & _ & -> & Hrec)|(-> & _ & Hst2 & U2 & Hw2 & Hr2 & Hl2)]]].
      + eexists _, c2. split; [done|]. split; [done|]. left. split; [done|]. split; [done|]. exists U2, D. rewrite Hd2. done.
      + done.
      + eexists _, c2. split; [done|]. split; [done|]. right; left. rewrite Hd2, app_nil_r. done.
      + rewrite (Hnone eq_refl), Z.eqb_refl. eapply Hbody; try done; [by apply Hnone|lia].
    - cbn [obind]. destruct (Z.eqb_spec (cl_status c1) CLIENT_PROCESS_DATA_GET_BODY) as [E2|E2]; [by eapply Hbody|].
      exfalso. destruct Hr1 as [? E3|? ? ? ? ? ? E3|E3]; [rewrite E3 in Hst1; unfold CLIENT_PROCESS_DATA in Hst1; lia|done|done]. }
  destruct (Z.eqb_spec (cl_status c) CLIENT_PROCESS_DATA_GET_NOTHING) as [E|E].
  - destruct (get_response_header_spec c U D Hw Hrv E) as (o & c1 & -> & Hk1 & Hp1 & Hd1 & Hres). cbn [obind]. specialize (Hp1 Hp).
    destruct Hres as [(-> & U1 & Hw1 & Hr1 & Hl1 & Hf1)|[(-> & Er & Hrec)|[(-> & Hu1 & -> & Hrec)|(-> & Hu1 & Hst1 & U1 & Hw1 & Hr1 & Hl1)]]].
    + eexists _, c1. split; [done|]. split; [done|]. left. split; [done|]. split; [done|]. exists U1, D. rewrite Hd1. done.
    + eexists _, c1. split; [done|]. split; [done|]. right; right. done.
    + eexists _, c1. split; [done|]. split; [done|]. right; left. rewrite Hd1, app_nil_r. done.
    + eapply Hhttp; try done. lia.
  - cbn [obind].
    assert (Hun : CLIENT_PROCESS_DATA < cl_status c ∧ rep ≠ RUnchanged).
    { destruct Hrv as [? E3|? ? ? ? ? ? E3 ? ? ? Er|E3]; [done|by rewrite E3, Er|by rewrite E3]. }
    destruct Hun. by eapply Hhttp.
Qed.
End reply.
