(* ===== verification/ClientRun.v ===== *)
(** * A request of a client, from its start to its answer (request_common.c)

    The loop of [ci_client_icapfilter]: the request is sent and the response read at the same time, as the connection allows. *)

From stdpp Require Import base list list_numbers strings numbers option.
From Stdlib Require Import ZArith Lia.
From S2P Require Import Prelude CString Chunks ReadBody SendBody Headers Encapsulated IcapHeader ParseRequest HttpApi Session Keepalive Client ClientSend ClientReceive.

(** ** The entities after the headers were sent *)

Definition releasable (e : encaps) : Prop := ∃ e', release_entities 5 0 e = Ret e' ∧ entities e' = replicate 5 None ∧ recycled e'.

(** An entity whose list can be used again. *)
Definition reusable (x : ci_encaps_entity_t) : Prop :=
  0 ≤ type x ≤ ICAP_OPT_BODY ∧ (is_hdr (type x) = true → ∃ h, entity x = Some h ∧ usable h).

Lemma release_recycled n : ∀ ds k m e,
  entities e = replicate k None ++ (Some <$> ds) ++ replicate (S m) None → (length ds ≤ n)%nat → recycled e → Forall reusable ds →
  ∃ e', release_entities n (Z.of_nat k) e = Ret e' ∧ entities e' = replicate (k + length ds + S m) None ∧ recycled e'.
Proof.
  assert (Hnull : ∀ k m, arr_get (replicate k (@None ci_encaps_entity_t) ++ replicate (S m) None) (Z.of_nat k) = Ret None).
  { intros k m. unfold arr_get. rewrite (proj2 (Z.ltb_ge _ _)) by lia. rewrite Nat2Z.id, lookup_app_r by (by rewrite length_replicate).
    by rewrite length_replicate, Nat.sub_diag. }
  induction n as [|n IH]; intros ds k m e He Hn Hr Hds; (destruct ds as [|x ds]; [|cbn in Hn; try lia]); cbn [release_entities]; rewrite He; cbn [fmap list_fmap app].
  1,2: rewrite Hnull; cbn [obind]; exists e; rewrite He; cbn [length fmap list_fmap app]; by rewrite Nat.add_0_r, replicate_add.
  assert (Hk : Z.of_nat k = zlen (replicate k (@None ci_encaps_entity_t))) by (unfold zlen; by rewrite length_replicate).
  rewrite Hk, arr_get_app. cbn [obind]. unfold ci_request_release_entity. rewrite He. cbn [fmap list_fmap app]. rewrite arr_get_app. cbn [obind].
  apply Forall_cons_1 in Hds as [[Ht Hx] Hds]. pose proof Hr as [Hz Hh].
  assert (Hset : arr_set (replicate k None ++ Some x :: (Some <$> ds) ++ replicate (S m) None) (zlen (replicate k (@None ci_encaps_entity_t))) None =
    Ret (replicate (S k) None ++ (Some <$> ds) ++ replicate (S m) None)).
  { unfold arr_set. rewrite (proj2 (Z.leb_le _ _)), (proj2 (Z.ltb_lt _ _)) by zlia. cbn [andb]. rewrite zlen_to_nat, insert_app_r_alt, Nat.sub_diag by lia.
    cbn [list_insert]. by rewrite (replicate_S_end k None), <- app_assoc. }
  rewrite Hset. cbn [obind]. rewrite (proj2 (Z.ltb_ge _ _)), (proj2 (Z.ltb_ge _ _)) by lia. cbn [orb].
  unfold arr_set. rewrite Hz. unfold ICAP_OPT_BODY in Ht. rewrite (proj2 (Z.leb_le _ _)), (proj2 (Z.ltb_lt _ _)) by lia. cbn [andb obind].
  rewrite <- Hk. replace (Z.of_nat k + 1) with (Z.of_nat (S k)) by lia.
  destruct (IH ds (S k) m (mkEncaps (replicate (S k) None ++ (Some <$> ds) ++ replicate (S m) None) (<[Z.to_nat (type x) := Some x]> (trash_entities e)) (hasbody e)))
    as (e' & -> & He' & Hr'); [done|cbn in Hn; lia| |done|].
  - split; cbn; [by rewrite zlen_insert|]. intros t y Hty Hy. destruct (decide (Z.to_nat (type x) = Z.to_nat t)) as [E|E].
    + rewrite E, list_lookup_insert_eq in Hy by (unfold zlen in Hz; unfold is_hdr, ICAP_REQ_HDR, ICAP_RES_HDR in Hty; lia). injection Hy as <-.
      apply Hx. replace (type x) with t; [done|]. unfold is_hdr, ICAP_REQ_HDR, ICAP_RES_HDR in Hty. lia.
    + rewrite list_lookup_insert_ne in Hy by done. by eapply Hh.
  - exists e'. split; [done|]. split; [|done]. rewrite He'. cbn [length]. f_equal. lia.
Qed.

Section run.
Context {S W : Type} (junk : Z → Z) (ra : nat → bool) (Hra : ∀ i, ra i = true) (version : list Z) (agent : option (list Z))
  (source_read : S → Z → src_result * S) (dest_write : W → list Z → Z * W) (content : W → list Z) (Hdest : takes_all dest_write content).
Implicit Types c : client S W.

(** ** Sending the body *)

(** The source gives the pieces [cs] and then the end. *)
Fixpoint supplies (src : S) (cs : list (list Z)) : Prop :=
  match cs with
  | [] => ∃ src', source_read src MAX_CHUNK_SIZE = (SrcCode CI_EOF, src')
  | x :: cs' => 0 < zlen x ≤ MAX_CHUNK_SIZE ∧ ∃ src', source_read src MAX_CHUNK_SIZE = (SrcData x, src') ∧ supplies src' cs'
  end.

(** [d] is left of the current block, which reading does not change. *)
Definition left_of (c : client S W) (d : list Z) : Prop :=
  zlen d = cl_remain c ∧ (d ≠ [] → block_is c d ∧ (cl_at c = CWbuf ∨ cl_at c = CEofStr)).

(** [X] is still to be sent. *)
Inductive outgoing (c : client S W) (X : list Z) : Prop :=
| og_more d src cs :
    cl_eof_sent c = false → cl_source c = Some src → supplies src cs → left_of c d → X = d ++ encode cs →
    zlen (ws_wbuf (cl_out c)) = WBUF_SIZE → outgoing c X
| og_last : cl_eof_sent c = true → left_of c X → outgoing c X.

(** What sending does not change of the reading side. *)
Record write_kept (c c' : client S W) : Prop := {
  wk_req : cl_req c' = cl_req c;
  wk_status : cl_status c' = cl_status c;
  wk_code : cl_code c' = cl_code c;
  wk_response : cl_response c' = cl_response c;
  wk_dest : cl_dest c' = cl_dest c;
  wk_waits : waits (cl_conn c') = waits (cl_conn c)
}.

(** The chunk of a piece of the source. *)
Lemma prepare_chunk w d :
  zlen (ws_wbuf w) = WBUF_SIZE → 0 < zlen d ≤ MAX_CHUNK_SIZE →
  ∃ w', client_prepere_body_chunk (SrcData d) w = Ret (CI_OK, w') ∧ zlen (ws_wbuf w') = WBUF_SIZE ∧ 0 ≤ ws_ptr w' ∧
    remain_send_block_bytes w' = zlen (encode_chunk d) ∧ ws_ptr w' + zlen (encode_chunk d) ≤ WBUF_SIZE ∧
    slice (ws_wbuf w') (ws_ptr w') (zlen (encode_chunk d)) = encode_chunk d.
Proof.
  intros Hw Hd. unfold client_prepere_body_chunk. unfold WBUF_SIZE, EXTRA_CHUNK_SIZE, MAX_CHUNK_SIZE in *.
  rewrite write_bytes_ok by lia. cbn [obind].
  destruct (frame_chunk_spec (splice (ws_wbuf w) 30 d) d) as (b & p & Hf & Hb & Hs & Hp & Hle).
  - rewrite zlen_splice by lia. done.
  - done.
  - unfold EXTRA_CHUNK_SIZE. apply slice_splice_same; lia.
  - unfold EXTRA_CHUNK_SIZE in *. rewrite Hf. cbn [obind]. eexists. split; [done|]. cbn. split_and!; done.
Qed.

Lemma encode_chunk_nonempty d : encode_chunk d ≠ [].
Proof. intros H. pose proof (encode_nonempty [d]) as H1. cbn in H1. rewrite H in H1. unfold encode_chunk in H. by destruct (print_x (zlen d)). Qed.

(** The next block, when the last one was sent. *)
Lemma next_chunk c src cs :
  cl_eof_sent c = false → cl_source c = Some src → supplies src cs → cl_remain c = 0 → zlen (ws_wbuf (cl_out c)) = WBUF_SIZE →
  ∃ x src' r w d, source_read src MAX_CHUNK_SIZE = (x, src') ∧ client_prepere_body_chunk x (cl_out c) = Ret (r, w) ∧
    (r =? CI_ERROR) = false ∧ (r =? CI_NEEDS_MORE) = false ∧ d ≠ [] ∧
    let c1 := to_out (match x with SrcData _ => CWbuf | SrcCode _ => cl_at c end) w (to_source (Some src') c) in
    let c2 := if r =? CI_EOF then to_block CEofStr 0 5 (to_eof_sent true c1) else c1 in
    left_of c2 d ∧ ∃ cs', encode cs = d ++ (if r =? CI_EOF then [] else encode cs') ∧
      (if r =? CI_EOF then cl_eof_sent c2 = true else cl_eof_sent c2 = false ∧ supplies src' cs' ∧ zlen (ws_wbuf (cl_out c2)) = WBUF_SIZE).
Proof.
  intros He Hs Hsup Hr Hw. destruct cs as [|x cs]; cbn [supplies] in Hsup.
  - destruct Hsup as (src' & Hrd). exists (SrcCode CI_EOF), src', CI_EOF, (set_send (ws_wbuf (cl_out c)) (ws_ptr (cl_out c)) 0 (cl_out c)), eof_chunk.
    split; [done|]. split; [done|]. split; [done|]. split; [done|]. split; [done|]. cbn zeta. rewrite Z.eqb_refl. split; [|by exists []].
    split; [done|]. intros _. split; [|by right]. eexists. split; [done|]. cbn. split_and!; (done || lia || vm_compute; done).
  - destruct Hsup as (Hx & src' & Hrd & Hsup). destruct (prepare_chunk (cl_out c) x Hw Hx) as (w & Hp & Hwb & Hptr & Hrem & Hle & Hsl).
    exists (SrcData x), src', CI_OK, w, (encode_chunk x). split; [done|]. split; [done|]. split; [done|]. split; [done|].
    split; [apply encode_chunk_nonempty|]. cbn zeta. change (CI_OK =? CI_EOF) with false. cbv iota. split; [|exists cs; by split_and!].
    split; [by unfold cl_remain; cbn|]. intros _. split; [|by left]. exists (ws_wbuf w). split; [done|]. unfold cl_remain. cbn. rewrite Hrem. pose proof (zlen_nonneg (encode_chunk x)).
    split_and!; try done; lia.
Qed.

(** The write of what is left of a block. *)
Lemma write_left c d w ws :
  left_of c d → d ≠ [] → writes (cl_conn c) = w :: ws → 0 < w →
  ∃ c' y d', (if 0 <? cl_remain c then let* (n, c) := write_block c in Ret (n <? 0, false, c) else Ret (false, false, c)) = Ret (false, false, c') ∧
    kept c c' ∧ left_of c' d' ∧ d = y ++ d' ∧ y ≠ [] ∧ sent (cl_conn c') = sent (cl_conn c) ++ y ∧ writes (cl_conn c') = ws ∧
    cl_status c' = cl_status c ∧ cl_eof_sent c' = cl_eof_sent c ∧ zlen (ws_wbuf (cl_out c')) = zlen (ws_wbuf (cl_out c)).
Proof.
  intros [Hz Hb] Hne Hw Hp. assert (0 < zlen d) by (destruct d; [done|zlia]). rewrite (proj2 (Z.ltb_lt 0 _)) by lia.
  destruct (Hb Hne) as [Hbk Hat].
  destruct (write_block_spec c d w ws Hbk Hw ltac:(lia)) as (c' & -> & Hk & Hb' & Hs & Hws & Hst & He & Ha).
  cbn [obind]. rewrite (proj2 (Z.ltb_ge _ 0)) by lia. set (n := Z.min w (zlen d)) in *.
  exists c', (take (Z.to_nat n) d), (drop (Z.to_nat n) d). split; [done|]. split; [done|]. split.
  { split; [by apply block_is_zlen|]. by rewrite Ha. }
  split; [symmetry; apply take_drop|]. split.
  { intros E%(f_equal zlen). rewrite zlen_take in E. change (zlen []) with 0 in E. lia. }
  split_and!; try done. apply (k_wbuf _ _ Hk).
Qed.

Lemma send_data_spec c X w ws :
  outgoing c X → X ≠ [] → writes (cl_conn c) = w :: ws → 0 < w →
  ∃ c' y X', send_data source_read c = Ret (false, false, c') ∧ write_kept c c' ∧ outgoing c' X' ∧ X = y ++ X' ∧ y ≠ [] ∧
    sent (cl_conn c') = sent (cl_conn c) ++ y ∧ writes (cl_conn c') = ws ∧ (cl_source c' = None ↔ cl_source c = None).
Proof.
  intros Hog Hne Hw Hp. destruct Hog as [d src cs He Hs Hsup Hleft -> Hwb|He Hleft].
  - unfold send_data. rewrite Hs, He. destruct (decide (d = [])) as [->|Hd].
    + destruct Hleft as [Hz _]. change (zlen []) with 0 in Hz. rewrite <- Hz. change (0 =? 0) with true. cbn [andb negb].
      destruct (next_chunk c src cs He Hs Hsup (eq_sym Hz) Hwb) as (x & src' & r & w0 & d & -> & -> & H1 & H2 & Hdne & Hl & cs' & Henc & Hrest).
      cbn [obind] in *. rewrite H1, H2. cbn zeta in Hl, Hrest. rewrite Henc. cbn [app].
      set (c1 := to_out _ w0 (to_source (Some src') c)) in *.
      assert (Hk1 : ∀ b, write_kept c (if b : bool then to_block CEofStr 0 5 (to_eof_sent true c1) else c1)) by (by intros []).
      set (c2 := if r =? CI_EOF then to_block CEofStr 0 5 (to_eof_sent true c1) else c1) in *.
      assert (Hc2 : writes (cl_conn c2) = w :: ws) by (unfold c2; by destruct (r =? CI_EOF)).
      destruct (write_left c2 d w ws Hl Hdne Hc2 Hp) as (c' & y & d' & Hrun & Hk & Hl' & Hd' & Hy & Hsent & Hws & Hst & Heo & Hwb').
      exists c', y, (d' ++ (if r =? CI_EOF then [] else encode cs')). split.
      { rewrite <- Hrun. unfold c2. by destruct (r =? CI_EOF). }
      split. { specialize (Hk1 (r =? CI_EOF)). fold c2 in Hk1. destruct Hk1, Hk. split; congruence. }
      split. { destruct (r =? CI_EOF) eqn:Er.
        - apply og_last; [by rewrite Heo|]. by rewrite app_nil_r.
        - destruct Hrest as (He2 & Hsup' & Hwb2). eapply (og_more _ _ d' src' cs'); try done; [by rewrite Heo|by rewrite (k_source _ _ Hk)|by rewrite Hwb']. }
      split; [by rewrite Hd', <- app_assoc|]. split; [done|]. split; [rewrite Hsent; unfold c2; by destruct (r =? CI_EOF)|]. split; [done|].
      rewrite (k_source _ _ Hk). unfold c2. by destruct (r =? CI_EOF).
    + destruct Hleft as [Hz Hb]. assert (0 < zlen d) by (destruct d; [done|zlia]). rewrite (proj2 (Z.eqb_neq (cl_remain c) 0)) by lia. cbn [andb obind].
      destruct (write_left c d w ws (conj Hz Hb) Hd Hw Hp) as (c' & y & d' & Hrun & Hk & Hl' & Hd' & Hy & Hsent & Hws & Hst & Heo & Hwb').
      exists c', y, (d' ++ encode cs). split; [done|]. split; [by destruct Hk; split|]. split.
      { eapply (og_more _ _ d' src cs); try done; [by rewrite Heo|by rewrite (k_source _ _ Hk)|by rewrite Hwb']. }
      split; [by rewrite Hd', <- app_assoc|]. split_and!; done || by rewrite (k_source _ _ Hk), Hs.
  - assert (Hskip : send_data source_read c = if 0 <? cl_remain c then let* (n, c) := write_block c in Ret (n <? 0, false, c) else Ret (false, false, c)).
    { unfold send_data. destruct (cl_source c); [by rewrite He, andb_false_r|done]. }
    rewrite Hskip.
    destruct (write_left c X w ws Hleft Hne Hw Hp) as (c' & y & d' & Hrun & Hk & Hl' & Hd' & Hy & Hsent & Hws & Hst & Heo & Hwb').
    exists c', y, d'. split; [done|]. split; [by destruct Hk; split|]. split; [apply og_last; [by rewrite Heo|done]|].
    split_and!; done || by rewrite (k_source _ _ Hk).
Qed.

(** Nothing to send. *)
Lemma send_nothing c : outgoing c [] → send_data source_read c = Ret (false, false, c).
Proof.
  intros [d src cs _ _ _ _ E _|He [Hz _]].
  { symmetry in E. apply app_nil in E as [_ E]. by destruct (encode_nonempty cs). }
  unfold send_data. change (zlen []) with 0 in Hz.
  destruct (cl_source c); [rewrite He, andb_false_r|]; cbn [obind]; by rewrite <- Hz.
Qed.

Lemma outgoing_wants c X : outgoing c X → negb (cl_eof_sent c) || negb (cl_remain c =? 0) = negb (bool_decide (X = [])).
Proof.
  intros [d src cs -> _ _ _ -> _ | -> [Hz _]]; cbn [negb orb].
  - rewrite bool_decide_eq_false_2; [done|]. intros E. apply app_nil in E as [_ E]. by destruct (encode_nonempty cs).
  - rewrite <- Hz. f_equal. case_bool_decide as E; [by subst|]. apply Z.eqb_neq. destruct X; [done|zlia].
Qed.

Lemma outgoing_source c X : outgoing c X → match cl_source c with None => to_eof_sent true c | Some _ => c end = c.
Proof. intros [? ? ? _ Hs|He _]; [by rewrite Hs|]. destruct (cl_source c); [done|]. destruct c. cbn in He. by subst. Qed.

(** What reading does not change of the sending side. *)
Definition out_kept (c c' : client S W) : Prop :=
  cl_out c' = cl_out c ∧ cl_at c' = cl_at c ∧ cl_eof_sent c' = cl_eof_sent c ∧ cl_source c' = cl_source c.

Lemma left_of_read c c' d : out_kept c c' → left_of c d → left_of c' d.
Proof.
  intros (Ho & Ha & _) [Hz Hb]. split; [unfold cl_remain; by rewrite Ho|]. intros Hd. destruct (Hb Hd) as [(m & Hm & Hr) Hat].
  rewrite Ha. split; [|done]. exists m. unfold cl_remain, block_object in *. rewrite Ha, Ho. split; [|done]. by destruct Hat as [E|E]; rewrite E in *.
Qed.

Lemma outgoing_read c c' X : out_kept c c' → outgoing c X → outgoing c' X.
Proof.
  intros Hk Hog. pose proof Hk as (Ho & Ha & Heo & Hso). destruct Hog as [d src cs He Hs Hsup Hl HX Hw|He Hl].
  - eapply (og_more _ _ d src cs); try done; [by rewrite Heo|by rewrite Hso|by eapply left_of_read|by rewrite Ho].
  - apply og_last; [by rewrite Heo|by eapply left_of_read].
Qed.

(** ** Sending and reading *)

Context (rls : list (list Z)) (st : Z) (rep : reply) (Han : announces rls st rep).

(** The response is being read, or was: [T] is what the destination has at its end. *)
Inductive reads (c : client S W) (T : list Z) : Prop :=
| rd_reading U D :
    window (cl_reader c) U → receiving rls st rep c U D → zlen U < BUFSIZE → fut_of (rd_conn (cl_reader c)) ≠ [] →
    write_to_module_pending (cl_stream c) = 0 → content (cl_dest c) ++ D = T → reads c T
| rd_received :
    received rls st rep c → rep ≠ RUnchanged → write_to_module_pending (cl_stream c) = 0 → content (cl_dest c) = T → reads c T.

Definition events (c : client S W) : Z := zlen (fut_of (rd_conn (cl_reader c))) + zlen (rd_conn (cl_reader c)).

Lemma receiving_more c r U d D :
  receiving rls st rep c U D → fut_of (rd_conn (cl_reader c)) = d ++ fut_of (rd_conn r) →
  rd_stream r = set_block 0 (zlen (U ++ d)) (cl_stream c) → receiving rls st rep (to_reader r c) (U ++ d) D.
Proof.
  intros Hrv Hf Hs. assert (Hcat : ∀ P, P ++ (U ++ d) ++ fut_of (rd_conn r) = P ++ U ++ fut_of (rd_conn (cl_reader c))) by (intros; rewrite Hf; by_app).
  assert (Hcl : current_chunk_len (rd_stream r) = current_chunk_len (cl_stream c) ∧ chunk_bytes_read (rd_stream r) = chunk_bytes_read (cl_stream c)) by (by rewrite Hs).
  destruct Hcl as [Hc1 Hc2].
  destruct Hrv as [P ? ? ? ? HS ? ? ? ?|h P t bt hls ds ? ? ? ? Er ? ? ? HS ?|? ? ? ? Hph].
  - eapply (rv_icap _ _ _ _ _ _ P); try done; [by rewrite <- HS; apply Hcat|]. change (current_chunk_len (rd_stream r) = chunk_bytes_read (rd_stream r)). congruence.
  - eapply (rv_http _ _ _ _ _ _ h P t bt hls ds); try done. by rewrite <- HS; apply Hcat.
  - apply rv_body; try done. change (phase (current_chunk_len (rd_stream r)) (chunk_bytes_read (rd_stream r)) ((U ++ d) ++ fut_of (rd_conn r)) D).
    rewrite Hc1, Hc2. specialize (Hcat []). cbn [app] in Hcat. by rewrite Hcat.
Qed.

(** The connection takes at least one byte per write, for as long as there is something to send. *)
Definition takes_writes (c : client S W) (X : list Z) : Prop :=
  Forall (λ w, 0 < w) (writes (cl_conn c)) ∧ zlen X ≤ zlen (writes (cl_conn c)).

Definition settled (c : client S W) : client S W := match cl_source c with None => to_eof_sent true c | Some _ => c end.

Lemma reads_eof_sent c T : reads c T → reads (settled c) T.
Proof.
  unfold settled. destruct (cl_source c); [done|]. intros [U D ? Hrv|? ? ? ?]; [|by apply rd_received].
  eapply (rd_reading _ _ U D); try done.
  destruct Hrv as [P|h P t bt hls ds|]; [by eapply (rv_icap _ _ _ _ _ _ P)|by eapply (rv_http _ _ _ _ _ _ h P t bt hls ds)|by apply rv_body].
Qed.

(** Sending and waiting change nothing of the response. *)
Lemma reads_same c c' T : cl_req c' = cl_req c → cl_status c' = cl_status c → cl_dest c' = cl_dest c → cl_response c' = cl_response c →
  cl_code c' = cl_code c → reads c T → reads c' T.
Proof.
  intros Hq Hst Hde Hre Hco Hrd. destruct Hrd as [U D Hwi Hrv Hu Hf Hpd HT|(Hs1 & Hi & Hh) Hu Hpd HT].
  - apply (rd_reading _ _ U D); try done; try (unfold cl_stream, cl_reader in *; rewrite Hq; done); [|by rewrite Hde].
    destruct Hrv as [P|h P t bt hls ds ? ? ? [? ?]|? ? [? ?] ?].
    + apply (rv_icap _ _ _ _ _ _ P); unfold cl_stream, cl_reader, cl_encaps in *; rewrite ?Hst, ?Hre, ?Hq; done.
    + eapply (rv_http _ _ _ _ _ _ h P t bt hls ds); unfold got_icap, first_entity, cl_stream, cl_reader, cl_encaps in *; rewrite ?Hst, ?Hre, ?Hq, ?Hco; done.
    + apply rv_body; unfold got_icap, got_http, first_entity, cl_stream, cl_reader, cl_encaps in *; rewrite ?Hst, ?Hre, ?Hq, ?Hco; done.
  - apply rd_received; [|done|unfold cl_stream, cl_reader in *; by rewrite Hq|by rewrite Hde].
    unfold received, got_icap, got_http, first_entity, cl_encaps in *. rewrite Hst, Hco, Hre, Hq. done.
Qed.
(** The writing half of a turn. *)
Lemma write_turn io c X T :
  outgoing c X → reads c T → takes_writes c X →
  ∃ c' y X', (if flag_set io ci_wait_for_write then send_data source_read c else Ret (false, false, c)) = Ret (false, false, c') ∧
    outgoing c' X' ∧ reads c' T ∧ takes_writes c' X' ∧ X = y ++ X' ∧ sent (cl_conn c') = sent (cl_conn c) ++ y ∧
    write_kept c c' ∧ (flag_set io ci_wait_for_write = true → X ≠ [] → y ≠ []).
Proof.
  intros Hog Hrd [Hpos Hlen]. destruct (flag_set io ci_wait_for_write).
  2:{ exists c, [], X. rewrite (app_nil_r (sent _)). by split_and!. }
  destruct (decide (X = [])) as [->|Hne].
  { exists c, [], []. rewrite send_nothing by done. rewrite (app_nil_r (sent _)). by split_and!. }
  assert (Hx : 0 < zlen X) by (destruct X; [done|zlia]).
  destruct (writes (cl_conn c)) as [|w ws] eqn:Hw; [change (zlen []) with 0 in Hlen; lia|]. apply Forall_cons_1 in Hpos as [Hp Hpos].
  destruct (send_data_spec c X w ws Hog Hne Hw Hp) as (c' & y & X' & -> & Hk & Hog' & -> & Hy & Hs & Hw' & _).
  exists c', y, X'. split; [done|]. split; [done|]. split.
  { destruct Hk. by eapply reads_same. }
  split; [split; rewrite Hw'; [done|]; destruct y; [done|]; revert Hlen; zlia|]. by split_and!.
Qed.

(** Every poll finds the connection ready. *)
Definition ready (n : Z) (c : client S W) : Prop := Forall (λ w, w = 3) (waits (cl_conn c)) ∧ n ≤ zlen (waits (cl_conn c)).

Lemma wait_ready n c what : ready n c → 1 ≤ n → what = 1 ∨ what = 2 ∨ what = 3 →
  ∃ c', wait_for what c = (what, c') ∧ ready (n - 1) c' ∧
    cl_req c' = cl_req c ∧ cl_status c' = cl_status c ∧ cl_dest c' = cl_dest c ∧ cl_response c' = cl_response c ∧ cl_code c' = cl_code c ∧
    out_kept c c' ∧ sent (cl_conn c') = sent (cl_conn c) ∧ writes (cl_conn c') = writes (cl_conn c) ∧ ∃ k, c' = to_conn 0 k c.
Proof.
  intros [Hall Hn] Hpos Hw. unfold wait_for. destruct (waits (cl_conn c)) as [|w ws]; [change (zlen []) with 0 in Hn; lia|].
  apply Forall_cons_1 in Hall as [-> Hall]. cbn [wait_loop].
  assert (Hc : ci_connection_wait what 3 = what ∧ flag_set what ci_wait_should_retry = false) by (by destruct Hw as [-> | [-> | ->]]).
  destruct Hc as [-> ->]. rewrite (proj2 (Z.ltb_ge what 0)), (proj2 (Z.eqb_neq what 0)) by lia.
  eexists. split; [done|]. split; [split; [done|]; cbn; revert Hn; zlia|]. split_and!; try done. by eexists.
Qed.


Context (pf df fuel : nat) (Hpf : (Z.to_nat BUFSIZE < pf)%nat) (Hdf : (1 ≤ df)%nat).

(** The end of a 204: the user's data were not changed. *)
Definition unchanged (c : client S W) (T : list Z) : Prop :=
  rep = RUnchanged ∧ received rls st rep c ∧ cl_code c = 204 ∧ content (cl_dest c) = T.

(** The reading half of a turn. *)
Lemma read_turn c X T :
  outgoing c X → reads c T → cl_status c ≠ CLIENT_PROCESS_DATA_GET_EOF → BUFSIZE + zlen (fut_of (rd_conn (cl_reader c))) < Z.of_nat fuel →
  ∃ ret c', (let* (n, r) := net_data_read (cl_reader c) in
      let c := to_reader r c in
      if n =? CI_ERROR then Ret (CI_ERROR, c)
      else
      let* (st, c) := client_parse_incoming_data junk true true ra dest_write pf df fuel c in
      if st =? CI_ERROR then Ret (CI_ERROR, c)
      else if st =? 204 then Ret (0, to_code 204 c)
      else Ret (client_action false c, c)) = Ret (ret, c') ∧ cl_conn c' = cl_conn c ∧ events c' < events c ∧
    (ret = 0 ∧ unchanged c' T ∨ ret = client_action false c' ∧ outgoing c' X ∧ reads c' T).
Proof.
  intros Hog Hrd Hns Hf. destruct Hrd as [U D Hw Hrv Hu Hfut Hpd HT|(E & _)]; [|done].
  destruct (net_data_read_window (cl_reader c) U Hw (fut_nonempty _ Hfut) Hu) as (d & r & -> & Hw1 & Hfd & Hu1 & _ & Hs & Hms).
  cbn [obind Z.eqb CI_OK CI_ERROR Pos.eqb]. set (c1 := to_reader r c).
  assert (Hrv1 : receiving rls st rep c1 (U ++ d) D) by (by apply receiving_more).
  assert (Hpd1 : write_to_module_pending (cl_stream c1) = 0) by (change (write_to_module_pending (rd_stream r) = 0); by rewrite Hs).
  destruct (parse_incoming_spec junk ra Hra dest_write content Hdest rls st rep Han pf df fuel c1 (U ++ d) D Hpf Hdf Hw1 Hu1 Hrv1 Hpd1) as (ret & c' & -> & Hk & Hres).
  { change (BUFSIZE + zlen (fut_of (rd_conn r)) < Z.of_nat fuel). rewrite Hfd, zlen_app in Hf. pose proof (zlen_nonneg d). lia. }
  cbn [obind]. assert (Hev : events c' < events c) by (unfold events; rewrite (rk_events _ _ Hk); exact Hms).
  assert (Hog' : outgoing c' X) by (eapply outgoing_read; [|exact Hog]; destruct Hk; done).
  pose proof (rk_conn _ _ Hk) as Hcn. change (cl_conn c1) with (cl_conn c) in Hcn.
  destruct Hres as [(-> & Hp' & U' & D' & Hw' & Hrv' & Hu' & Hf' & Hc)|[(-> & Hun & Hrc & Hp' & Hc)|(-> & Hun & (Hs1 & [? ?] & ?) & Hc)]];
    cbn [Z.eqb CI_ERROR CI_NEEDS_MORE CI_OK Pos.eqb]; eexists _, _; (split; [done|]); (split; [done|]); (split; [done|]).
  - right. split; [done|]. split; [done|]. apply (rd_reading _ _ U' D'); try done. by rewrite Hc.
  - right. split; [done|]. split; [done|]. apply rd_received; try done. by rewrite Hc.
  - left. split; [done|]. split; [done|]. split; [|split; [done|]].
    + split; [done|]. split; [|done]. split; [|done]. cbn. destruct Hrv as [? ? ? Hok|? ? ? ? ? ? ? ? ? ? Er|? ?]; [|by rewrite Er in Hun|done].
      rewrite Hun in Hok. by destruct Hok.
    + cbn. rewrite Hc, <- HT. destruct Hrv as [? ? -> |? ? ? ? ? ? ? ? ? ? Er|? ?]; [|by rewrite Er in Hun|done]. by rewrite Hun, app_nil_r.
Qed.

Lemma client_turn_spec io c X T :
  outgoing (settled c) X → reads c T → takes_writes c X →
  (flag_set io ci_wait_for_read = true → cl_status c ≠ CLIENT_PROCESS_DATA_GET_EOF) → BUFSIZE + zlen (fut_of (rd_conn (cl_reader c))) < Z.of_nat fuel →
  ∃ ret c' y X', ci_client_send_and_get_data junk true true ra source_read dest_write pf df fuel io c = Ret (ret, c') ∧
    X = y ++ X' ∧ sent (cl_conn c') = sent (cl_conn c) ++ y ∧ waits (cl_conn c') = waits (cl_conn c) ∧
    (ret = 0 ∧ unchanged c' T ∨
     ret = client_action false c' ∧ outgoing c' X' ∧ reads c' T ∧ takes_writes c' X' ∧ events c' ≤ events c ∧
       (flag_set io ci_wait_for_read = true → events c' < events c) ∧ (flag_set io ci_wait_for_write = true → X ≠ [] → y ≠ [])).
Proof.
  intros Hog Hrd Htw Hio Hf. unfold ci_client_send_and_get_data. fold (settled c). apply reads_eof_sent in Hrd.
  assert (Hset : cl_req (settled c) = cl_req c ∧ cl_conn (settled c) = cl_conn c ∧ cl_status (settled c) = cl_status c)
    by (unfold settled; by destruct (cl_source c)).
  destruct Hset as (Hq & Hcn & Hst). unfold takes_writes in Htw. rewrite <- Hcn in *. rewrite <- Hst in Hio.
  unfold events, cl_reader in *. rewrite <- Hq in *. set (c0 := settled c) in *. clearbody c0.
  destruct (write_turn io c0 X T Hog Hrd Htw) as (c1 & y & X' & -> & Hog1 & Hrd1 & Htw1 & -> & Hs1 & Hk & Hy). cbn [obind].
  destruct (flag_set io ci_wait_for_read).
  - destruct (read_turn c1 X' T Hog1 Hrd1) as (ret & c' & Hrun & Hc' & Hev & Hres).
    { rewrite (wk_status _ _ Hk). by apply Hio. }
    { unfold cl_reader. by rewrite (wk_req _ _ Hk). }
    unfold events, cl_reader in Hev. rewrite (wk_req _ _ Hk) in Hev.
    exists ret, c', y, X'. split; [exact Hrun|]. split; [done|]. rewrite Hc'. split; [done|]. split; [apply (wk_waits _ _ Hk)|].
    destruct Hres as [?|(? & ? & ?)]; [by left|right]. split_and!; try done; [|lia]. unfold takes_writes in *. by rewrite Hc'.
  - exists (client_action false c1), c1, y, X'. split; [done|]. split; [done|]. split; [done|]. split; [apply (wk_waits _ _ Hk)|].
    right. rewrite (wk_req _ _ Hk). by split_and!.
Qed.

(** ** The loop *)

Lemma reads_status c T : reads c T → CLIENT_PROCESS_DATA ≤ cl_status c ∧ write_to_module_pending (cl_stream c) = 0 ∧
  (cl_status c = CLIENT_PROCESS_DATA_GET_EOF → received rls st rep c ∧ rep ≠ RUnchanged ∧ content (cl_dest c) = T).
Proof.
  intros [U D _ Hrv _ _ Hpd _|[Hs Hr] Hu Hpd HT].
  - destruct Hrv as [? E|? ? ? ? ? ? E|E]; rewrite E; split_and!; done.
  - by rewrite Hs.
Qed.

(** What the client waits for after a turn. *)
Lemma action_bits c X T : outgoing c X → reads c T →
  client_action false c = Z.lor (if cl_status c =? CLIENT_PROCESS_DATA_GET_EOF then 0 else 1) (if bool_decide (X = []) then 0 else 2).
Proof.
  intros Hog Hrd. destruct (reads_status c T Hrd) as (_ & Hpd & _). unfold client_action.
  rewrite Hpd, (outgoing_wants c X Hog). by destruct (cl_status c =? _), (bool_decide (X = [])).
Qed.

Lemma nonblocking_data io rqh rsh c :
  CLIENT_PROCESS_DATA ≤ cl_status c →
  ci_client_icapfilter_nonblocking junk true true true true ra version agent source_read dest_write pf df fuel io rqh rsh c =
  ci_client_send_and_get_data junk true true ra source_read dest_write pf df fuel io c.
Proof.
  unfold CLIENT_PROCESS_DATA. intros Hs. unfold ci_client_icapfilter_nonblocking, and_then, step_init, step_headers, step_finished, step_preview.
  unfold CLIENT_INIT, CLIENT_SEND_HEADERS_FINISHED, CLIENT_READ_PREVIEW_RESPONSE, CLIENT_PROCESS_DATA.
  rewrite (proj2 (Z.eqb_neq (cl_status c) 0)) by lia. cbn [obind].
  rewrite (proj2 (Z.ltb_ge (cl_status c) 8)), andb_false_r by lia. cbn [obind].
  rewrite (proj2 (Z.eqb_neq (cl_status c) 8)) by lia. cbn [obind].
  rewrite (proj2 (Z.eqb_neq (cl_status c) 9)), andb_false_r by lia. cbn [obind].
  by rewrite (proj2 (Z.leb_le 10 _)) by lia.
Qed.

(** The end of a request: a 204, or the whole request sent and the whole response read. *)
Definition completed (c : client S W) (X T : list Z) : Prop :=
  unchanged c T ∨ rep ≠ RUnchanged ∧ X = [] ∧ received rls st rep c ∧ content (cl_dest c) = T.

Definition icapfilter := ci_client_icapfilter junk true true true true ra version agent source_read dest_write pf df fuel.

(** After a step that asks to wait for [what], the loop goes on. *)
Lemma loop_waits turns io rqh rsh c what c1 :
  ci_client_icapfilter_nonblocking junk true true true true ra version agent source_read dest_write pf df fuel io rqh rsh c = Ret (what, c1) →
  what = 1 ∨ what = 2 ∨ what = 3 → ready 1 c1 →
  icapfilter (Datatypes.S turns) io rqh rsh c = let '(w, c) := wait_for what c1 in icapfilter turns w rqh rsh c.
Proof.
  intros Hstep Hw Hr. unfold icapfilter. cbn [ci_client_icapfilter]. rewrite Hstep. cbn [obind].
  assert (Hb : wait_bits what = what) by (by destruct Hw as [-> | [-> | ->]]). rewrite Hb.
  destruct (wait_ready 1 c1 what Hr (Z.le_refl 1) Hw) as (c2 & -> & _).
  by destruct Hw as [-> | [-> | ->]].
Qed.

Definition progress (io : Z) (X : list Z) : Prop :=
  flag_set io ci_wait_for_read = true ∨ flag_set io ci_wait_for_write = true ∧ X ≠ [].

Lemma data_loop turns : ∀ io rqh rsh c X T n,
  outgoing (settled c) X → reads c T → takes_writes c X →
  (flag_set io ci_wait_for_read = true → cl_status c ≠ CLIENT_PROCESS_DATA_GET_EOF) → BUFSIZE + events c < Z.of_nat fuel →
  ready n c → (progress io X ∧ zlen X + events c ≤ n ∨ zlen X + events c + 1 ≤ n) → n < Z.of_nat turns →
  ∃ c' y X', icapfilter turns io rqh rsh c = Ret (cl_code c', c') ∧ X = y ++ X' ∧ sent (cl_conn c') = sent (cl_conn c) ++ y ∧ completed c' X' T.
Proof.
  induction turns as [|turns IH]; intros io rqh rsh c X T n Hog Hrd Htw Hio Hf Hr Hm Hn.
  { pose proof (zlen_nonneg X). assert (0 ≤ events c) by (unfold events; zlia). lia. }
  destruct (reads_status c T Hrd) as (Hst & _). destruct (client_turn_spec io c X T Hog Hrd Htw Hio) as (ret & c1 & y & X1 & Hrun & -> & Hs1 & Hw1 & Hres).
  { unfold events in Hf. pose proof (zlen_nonneg (rd_conn (cl_reader c))). lia. }
  rewrite <- (nonblocking_data io rqh rsh) in Hrun by done.
  assert (Hr1 : ready n c1) by (unfold ready; by rewrite Hw1).
  destruct Hres as [(-> & Hun)|(Ea & Hog1 & Hrd1 & Htw1 & Hev & Hev1 & Hy)].
  { exists c1, y, X1. split; [unfold icapfilter; cbn [ci_client_icapfilter]; by rewrite Hrun|]. split; [done|]. split; [done|]. by left. }
  rewrite (action_bits c1 X1 T Hog1 Hrd1) in Ea. destruct (reads_status c1 T Hrd1) as (_ & _ & Hend).
  destruct (decide (cl_status c1 = CLIENT_PROCESS_DATA_GET_EOF ∧ X1 = [])) as [[Es ->]|Hcont].
  { rewrite Es in Ea. cbn in Ea. subst ret. exists c1, y, []. split; [unfold icapfilter; cbn [ci_client_icapfilter]; by rewrite Hrun|].
    split; [done|]. split; [done|]. right. destruct (Hend Es) as (? & ? & ?). done. }
  assert (Hlt : zlen X1 + events c1 ≤ n - 1).
  { rewrite zlen_app in Hm. pose proof (zlen_nonneg y). destruct Hm as [[Hp Hm]|Hm]; [|lia]. destruct Hp as [Hp|[Hp Hx]]; [specialize (Hev1 Hp); lia|].
    assert (0 < zlen y) by (specialize (Hy Hp Hx); destruct y; [done|zlia]). lia. }
  assert (Hret : ret = 1 ∨ ret = 2 ∨ ret = 3).
  { rewrite Ea. destruct (Z.eqb_spec (cl_status c1) CLIENT_PROCESS_DATA_GET_EOF) as [E|E]; case_bool_decide; cbn; tauto. }
  pose proof (zlen_nonneg X1). assert (0 ≤ events c1) by (unfold events; zlia).
  rewrite (loop_waits turns io rqh rsh c ret c1 Hrun Hret) by (destruct Hr1; split; [done|lia]).
  destruct (wait_ready n c1 ret Hr1 ltac:(lia) Hret) as (c2 & -> & Hr2 & Hq & Hst2 & Hde & Hre & Hco & Hk & Hs2 & Hw2 & _).
  assert (Hset : settled c2 = c2).
  { unfold settled. apply (outgoing_source c2 X1). by eapply outgoing_read. }
  destruct (IH ret rqh rsh c2 X1 T (n - 1)) as (c' & y' & X' & Hrun' & -> & Hs' & Hcomp); try lia.
  - rewrite Hset. by eapply outgoing_read.
  - by eapply reads_same.
  - unfold takes_writes in *. by rewrite Hw2.
  - rewrite Hst2, Ea. destruct (Z.eqb_spec (cl_status c1) CLIENT_PROCESS_DATA_GET_EOF); [|done]. by case_bool_decide.
  - unfold events, cl_reader in *. rewrite Hq. lia.
  - done.
  - left. unfold events, cl_reader in *. rewrite Hq. split; [|lia]. unfold progress. rewrite Ea.
    destruct (Z.eqb_spec (cl_status c1) CLIENT_PROCESS_DATA_GET_EOF) as [E|E]; [right|by case_bool_decide; left].
    case_bool_decide as Ex; [by destruct Hcont|done].
  - exists c', (y ++ y'), X'. split; [done|]. split; [by_app|]. split; [by rewrite Hs', Hs2, Hs1, <- app_assoc|done].
Qed.

(** ** The headers *)

Definition nonblocking := ci_client_icapfilter_nonblocking junk true true true true ra version agent source_read dest_write pf df fuel.

Definition header_text (c : client S W) (rq rs pd d : list Z) : list Z :=
  d ++ after_block (cl_eof_sent c) (cl_status c) (preview (cl_req c)) rq rs pd.

(** The client after the headers: [e] has the entities of the request released. *)
Definition headers_sent (e : encaps) (c : client S W) : client S W :=
  to_status (if 0 <=? preview (cl_req c) then CLIENT_READ_PREVIEW_RESPONSE else CLIENT_PROCESS_DATA) (to_encaps e c).

Lemma nonblocking_headers io rqh rsh c rq rs pd d w ws :
  in_headers c rq rs pd d → d ≠ [] → writes (cl_conn c) = w :: ws → 0 < w → releasable (cl_encaps c) →
  ∃ c' y, kept c c' ∧ cl_eof_sent c' = cl_eof_sent c ∧ sent (cl_conn c') = sent (cl_conn c) ++ y ∧ writes (cl_conn c') = ws ∧ y ≠ [] ∧
    ((nonblocking io rqh rsh c = Ret (2, c') ∧ ∃ d', d' ≠ [] ∧ in_headers c' rq rs pd d' ∧
        header_text c rq rs pd d = y ++ header_text c' rq rs pd d') ∨
     (header_text c rq rs pd d = y ∧ cl_remain c' = 0 ∧ ∃ e, entities e = replicate 5 None ∧ recycled e ∧
        nonblocking io rqh rsh c =
          if 0 <=? preview (cl_req c) then Ret (1, headers_sent e c') else nonblocking io rqh rsh (headers_sent e c'))).
Proof.
  intros Hin Hd Hw Hp (e & Hrel & Hent & Hrec). pose proof (ih_status _ _ _ _ _ Hin) as Hst.
  destruct (send_headers_step junk (cl_eof_sent c) c rq rs pd d w ws Hin Hd ltac:(done) Hw Hp)
    as (ret & c' & y & Hrun & Hk & He & Hs & Hws & Hy & Hres). cbn zeta in Hres. exists c', y. do 5 (split; [done|]).
  unfold nonblocking at 1 2, ci_client_icapfilter_nonblocking, and_then, step_init, step_headers.
  unfold CLIENT_SEND_HEADERS_WRITE_ICAP_HEADERS, CLIENT_SEND_HEADERS_WRITE_EOF_INFO in Hst.
  unfold CLIENT_INIT, CLIENT_SEND_HEADERS, CLIENT_SEND_HEADERS_FINISHED. rewrite (proj2 (Z.eqb_neq (cl_status c) 0)) by lia. cbn [obind].
  rewrite (proj2 (Z.leb_le 1 _)), (proj2 (Z.ltb_lt _ 8)) by lia. cbn [andb]. rewrite Hrun. cbn [obind].
  destruct Hres as [(-> & d' & Hd' & Hin' & Hx)|(-> & Hx & Hrem & Hst')]; cbn [Z.eqb CI_NEEDS_MORE CI_ERROR CI_OK Pos.eqb obind].
  - left. split; [done|]. exists d'. unfold header_text. rewrite He. done.
  - right. split; [done|]. split; [done|]. exists e. split; [done|]. split; [done|].
    unfold step_finished. change (cl_status (to_status 8 c') =? CLIENT_SEND_HEADERS_FINISHED) with true. cbv iota.
    change (cl_encaps (to_status 8 c')) with (cl_encaps c'). unfold cl_encaps in Hrel |- *. rewrite (k_req _ _ Hk), Hrel. cbn [obind].
    unfold headers_sent. change (preview (cl_req (to_encaps e (to_status 8 c')))) with (preview (cl_req c')). rewrite (k_req _ _ Hk).
    destruct (0 <=? preview (cl_req c)) eqn:Epv; cbn [obind]; [done|].
    unfold nonblocking. rewrite nonblocking_data by done. unfold step_preview. cbn. rewrite (k_req _ _ Hk), Epv. done.
Qed.

(** The client [c'] after the headers of [c] were sent as [x]; [Y] is to come. *)
Record after_headers (c c' : client S W) (x Y : list Z) (n : Z) : Prop := {
  ah_encaps : ∃ e, cl_req c' = set_encaps e (cl_req c) ∧ entities e = replicate 5 None ∧ recycled e;
  ah_status : cl_status c' = if 0 <=? preview (cl_req c) then CLIENT_READ_PREVIEW_RESPONSE else CLIENT_PROCESS_DATA;
  ah_code : cl_code c' = cl_code c;
  ah_response : cl_response c' = cl_response c;
  ah_dest : cl_dest c' = cl_dest c;
  ah_source : cl_source c' = cl_source c;
  ah_eof : cl_eof_sent c' = cl_eof_sent c;
  ah_remain : cl_remain c' = 0;
  ah_wbuf : zlen (ws_wbuf (cl_out c')) = WBUF_SIZE;
  ah_sent : sent (cl_conn c') = sent (cl_conn c) ++ x;
  ah_writes : takes_writes c' Y;
  ah_ready : ready n c'
}.

Lemma headers_loop turns : ∀ io rqh rsh c rq rs pd d Y n,
  in_headers c rq rs pd d → d ≠ [] → releasable (cl_encaps c) → takes_writes c (header_text c rq rs pd d ++ Y) → ready n c →
  zlen (header_text c rq rs pd d) ≤ n → n < Z.of_nat turns → io = 0 ∨ io = 2 →
  ∃ c' turns' io', icapfilter turns io rqh rsh c = icapfilter turns' io' rqh rsh c' ∧
    after_headers c c' (header_text c rq rs pd d) Y (n - zlen (header_text c rq rs pd d)) ∧ n - zlen (header_text c rq rs pd d) < Z.of_nat turns' ∧
    if 0 <=? preview (cl_req c) then io' = 1 else io' = 0 ∨ io' = 2.
Proof.
  induction turns as [|turns IH]; intros io rqh rsh c rq rs pd d Y n Hin Hd Hrel [Hpos Hlen] Hr Hx Hn Hio.
  { pose proof (zlen_nonneg (header_text c rq rs pd d)). lia. }
  assert (0 < zlen d) by (destruct d; [done|zlia]).
  assert (Hxd : zlen d ≤ zlen (header_text c rq rs pd d)) by (unfold header_text; zlia).
  destruct (writes (cl_conn c)) as [|w ws] eqn:Hw; [rewrite zlen_app in Hlen; change (zlen []) with 0 in Hlen; zlia|].
  apply Forall_cons_1 in Hpos as [Hp Hpos].
  destruct (nonblocking_headers io rqh rsh c rq rs pd d w ws Hin Hd Hw Hp Hrel) as (c1 & y & Hk & He & Hs & Hws & Hy & Hres).
  assert (Hy1 : 0 < zlen y) by (destruct y; [done|zlia]).
  assert (Hr1 : ready n c1) by (unfold ready; by rewrite (k_waits _ _ Hk)).
  assert (H1 : ready 1 c1) by (destruct Hr1; split; [done|lia]).
  destruct Hres as [(Hrun & d' & Hd' & Hin' & Hx1)|(Hx1 & Hrem & e & Hent & Hrec & Hrun)]; rewrite Hx1 in *; clear Hx1.
  - rewrite (loop_waits turns io rqh rsh c 2 c1 Hrun) by (done || tauto).
    destruct (wait_ready n c1 2 Hr1 ltac:(lia) ltac:(tauto)) as (c2 & -> & Hr2 & Hq & Hst2 & Hde & Hre & Hco & (Ho & Ha & Heo & Hso) & Hs2 & Hw2 & (k & Hc2)).
    assert (Hin2 : in_headers c2 rq rs pd d') by (rewrite Hc2; destruct Hin' as [? (m & ? & ?)]; split; try done; by exists m).
    assert (Hht : header_text c2 rq rs pd d' = header_text c1 rq rs pd d') by (by rewrite Hc2). rewrite zlen_app in Hx.
    destruct (IH 2 rqh rsh c2 rq rs pd d' Y (n - 1)) as (c' & turns' & io' & -> & Hah & Hn' & Hio'); try done; try (rewrite ?Hht; lia).
    + unfold cl_encaps. by rewrite Hq, (k_req _ _ Hk).
    + split; rewrite Hw2, Hws; [done|]. rewrite Hht. rewrite <- app_assoc, zlen_app, zlen_cons in Hlen. lia.
    + rewrite Hht in *. rewrite Hq, (k_req _ _ Hk) in Hio'. exists c', turns', io'. split; [done|].
      split; [|split; [rewrite zlen_app; lia|done]].
      destruct Hah as [(e & Hqe & Hen & Hrc) H2 H3 H4 H5 H6 H7 H8 H9 H10 H11 [H12 H13]]. rewrite Hq, (k_req _ _ Hk) in Hqe, H2.
      split; try done; try (destruct Hk; congruence).
      * by exists e.
      * rewrite H10, Hs2, Hs. by_app.
      * split; [done|]. rewrite zlen_app. lia.
  - assert (Hah : ∀ c', (∃ k, c' = to_conn 0 k (headers_sent e c1) ∧ writes k = ws ∧ sent k = sent (cl_conn c1)) ∨ c' = headers_sent e c1 →
      ready (n - zlen y) c' → after_headers c c' y Y (n - zlen y)).
    { intros c' Hc' Hr'. assert (Hc1 : cl_req c' = set_encaps e (cl_req c1) ∧ cl_status c' = cl_status (headers_sent e c1) ∧ cl_out c' = cl_out c1 ∧
        cl_code c' = cl_code c1 ∧ cl_response c' = cl_response c1 ∧ cl_dest c' = cl_dest c1 ∧ cl_source c' = cl_source c1 ∧ cl_eof_sent c' = cl_eof_sent c1 ∧
        sent (cl_conn c') = sent (cl_conn c1) ∧ writes (cl_conn c') = ws) by (destruct Hc' as [(k & -> & ? & ?) | ->]; done).
      destruct Hc1 as (Hq & Hst & Ho & ? & ? & ? & ? & ? & ? & Hww). pose proof (k_wbuf _ _ Hk) as Hkw. destruct Hk as [Hkq]. split; try congruence.
      - exists e. by rewrite Hq, Hkq.
      - rewrite Hst. unfold headers_sent. by rewrite Hkq.
      - unfold cl_remain in *. by rewrite Ho.
      - rewrite Ho, Hkw. apply (ih_wbuf _ _ _ _ _ Hin).
      - split; rewrite Hww; [done|]. rewrite zlen_app, zlen_cons in Hlen. lia. }
    destruct (0 <=? preview (cl_req c)) eqn:Epv.
    + rewrite (loop_waits turns io rqh rsh c 1 (headers_sent e c1) Hrun) by (done || tauto).
      destruct (wait_ready n (headers_sent e c1) 1 Hr1 ltac:(lia) ltac:(tauto)) as (c2 & -> & Hr2 & _ & _ & _ & _ & _ & _ & Hs2 & Hw2 & (k & Hc2)).
      exists c2, turns, 1. split; [done|]. split; [|split; [lia|done]]. apply Hah; [|destruct Hr2; split; [done|lia]].
      left. exists k. rewrite Hc2 in Hs2, Hw2. split; [done|]. by rewrite <- Hws.
    + exists (headers_sent e c1), (Datatypes.S turns), io. split.
      { unfold icapfilter. cbn [ci_client_icapfilter]. unfold nonblocking in Hrun. by rewrite Hrun. }
      split; [|split; [lia|done]]. apply Hah; [by right|]. destruct Hr1. split; [done|]. change (n - zlen y ≤ zlen (waits (cl_conn c1))). lia.
Qed.
End run.
