(* ===== verification/ClientTransaction.v ===== *)
(** * What a client says and what it gets (request_common.c)

    The request of a client as a message, and the theorems on [ci_client_icapfilter]: the
    whole request reaches the server and the whole response the user, without a preview, after a
    preview that the server wants continued, and after one it answers with a 204. *)

From stdpp Require Import base list list_numbers strings numbers option.
From Stdlib Require Import ZArith Lia.
From S2P Require Import Prelude CString Chunks ReadBody SendBody Headers Encapsulated IcapHeader ParseRequest HttpApi Session Keepalive Client ClientSend ClientReceive ClientRun.

(** ** The message *)

(** The items of the Encapsulated header: where the blocks of the types start. *)
Fixpoint layout (p : Z) (ts : list Z) (bls : list (list Z)) : list (Z * Z) :=
  match ts, bls with
  | t :: ts', bl :: bls' => (t, p) :: layout (p + zlen bl) ts' bls'
  | _, _ => []
  end.

Lemma layout_line xs k bls :
  (1 ≤ length xs ≤ 3)%nat → offsets_ok 0 ((Some <$> xs) ++ None :: replicate k None) → block <$> xs = bls →
  encaps_line ((Some <$> xs) ++ None :: replicate k None) = bytes "Encapsulated: " ++ items_text (layout 0 (type <$> xs) bls).
Proof.
  intros Hl Ho <-.
  assert (Hsh : ∀ xs p, offsets_ok p ((Some <$> xs) ++ None :: replicate k None) →
    shape ((Some <$> xs) ++ None :: replicate k None) = (Some <$> layout p (type <$> xs) (block <$> xs)) ++ replicate (Datatypes.S k) None).
  { clear. unfold shape. induction xs as [|x xs IH]; intros p Hp; cbn [fmap list_fmap app layout map] in *.
    - cbn [replicate option_map]. by rewrite fmap_replicate.
    - destruct Hp as [<- Hp]. cbn. f_equal. by apply IH. }
  assert (Hlen : length (layout 0 (type <$> xs) (block <$> xs)) = length xs).
  { generalize 0. clear. induction xs as [|x xs IH]; intros p; cbn; [done|]. by rewrite IH. }
  rewrite <- (encaps_items_text ((Some <$> xs) ++ None :: replicate k None) (layout 0 (type <$> xs) (block <$> xs)) (Datatypes.S k)); [by destruct xs; [cbn in Hl; lia|]| | |].
  - by apply Hsh.
  - destruct (layout _ _ _); [cbn in Hlen; lia|done].
  - rewrite Hlen. lia.
Qed.

(** ** The first call *)

Section transaction.
Context {S W : Type} (junk : Z → Z) (ra : nat → bool) (Hra : ∀ i, ra i = true) (version : list Z) (agent : option (list Z))
  (source_read : S → Z → src_result * S) (dest_write : W → list Z → Z * W) (content : W → list Z) (Hdest : takes_all dest_write content)
  (pf df fuel : nat) (Hpf : (Z.to_nat BUFSIZE < pf)%nat) (Hdf : (1 ≤ df)%nat).
Implicit Types c : client S W.

(** The lines of the ICAP header of a request with the preview [p] and the HTTP headers given. *)
Definition icap_lines (c : client S W) (xls : list (list Z)) (p : Z) (rqh rsh : option ci_headers_list_t) (rql rsl : list (list Z)) : list (list Z) :=
  (request_lines version agent (cl_req c) (rtype (cl_req c)) ++ xls) ++
  (if 0 <=? p then [bytes "Preview: " ++ print_d p] else []) ++
  [bytes "Encapsulated: " ++
     items_text (layout 0 (entity_types (rtype (cl_req c)) (is_some rqh) (is_some rsh) (is_some (cl_source c))) (message_blocks rqh rsh rql rsl))].

(** The headers of the request as they are sent. *)
Definition request_head (c : client S W) (xls : list (list Z)) (p : Z) (rqh rsh : option ci_headers_list_t) (rql rsl : list (list Z)) : list Z :=
  wire (icap_lines c xls p rqh rsh rql rsl) ++ CRLF ++ concat (message_blocks rqh rsh rql rsl).

Lemma hdr_blocks rqh rsh rql rsl t (b3 : bool) rtype xs :
  type <$> xs = entity_types rtype (is_some rqh) (is_some rsh) b3 → block <$> xs = message_blocks rqh rsh rql rsl →
  hdr_block ICAP_REQ_HDR xs ++ hdr_block ICAP_RES_HDR xs ++ t = concat (message_blocks rqh rsh rql rsl) ++ t.
Proof.
  unfold entity_types, message_blocks, opt_block. set (t3 := if b3 then _ else _).
  assert (H3 : t3 = 3 ∨ t3 = 2 ∨ t3 = 4) by (unfold t3; destruct b3; [case_cmp|]; tauto). clearbody t3.
  intros Ht Hb. destruct (is_some rqh), (is_some rsh); cbn [app] in *;
    destruct xs as [|x [|y [|z [|]]]]; cbn in Ht, Hb; try discriminate; injection Ht as Ht; injection Hb as Hb; subst; cbn [hdr_block concat];
    repeat match goal with H : type _ = _ |- _ => rewrite H end;
    repeat match goal with H : block _ = _ |- _ => rewrite H end; destruct H3 as [-> | [-> | ->]]; cbn; by rewrite ?app_nil_r, <- ?app_assoc.
Qed.

Lemma sent_reusable rqh rsh rql rsl (b3 : bool) rtype xs :
  given rqh rql → given rsh rsl → Forall whole xs →
  type <$> xs = entity_types rtype (is_some rqh) (is_some rsh) b3 → block <$> xs = message_blocks rqh rsh rql rsl → Forall reusable xs.
Proof.
  intros Hrq Hrs Hwh Ht Hb.
  assert (Hlarge : ∀ o ls bl, given o ls → bl ∈ opt_block o ls → 2 < zlen bl).
  { intros [h|] ls bl Hg; cbn; [|by intros ?%elem_of_nil]. destruct Hg as [_ Hne]. intros ->%list_elem_of_singleton.
    destruct ls as [|l ls]; [done|]. rewrite wire_cons, !zlen_app. unfold CRLF. zlia. }
  apply Forall_forall. intros x Hx. rewrite Forall_forall in Hwh. specialize (Hwh x Hx).
  apply list_elem_of_In, list_elem_of_lookup in Hx as (i & Hi).
  assert (Hti : (type <$> xs) !! i = Some (type x)) by (by rewrite list_lookup_fmap, Hi).
  assert (Hbi : (block <$> xs) !! i = Some (block x)) by (by rewrite list_lookup_fmap, Hi).
  rewrite Ht in Hti. rewrite Hb in Hbi. clear Ht Hb Hi xs.
  assert (Hx : 0 ≤ type x ≤ ICAP_OPT_BODY ∧ (is_hdr (type x) = true → block x ∈ opt_block rqh rql ∨ block x ∈ opt_block rsh rsl)).
  { unfold entity_types, message_blocks, opt_block in *. set (t3 := if b3 then _ else _) in Hti.
    assert (H3 : t3 = 3 ∨ t3 = 2 ∨ t3 = 4) by (unfold t3; destruct b3; [case_cmp|]; tauto). clearbody t3. unfold ICAP_OPT_BODY.
    destruct (is_some rqh), (is_some rsh); cbn [app] in *; destruct i as [|[|[|i]]]; cbn in Hti, Hbi; try discriminate;
      injection Hti as <-; injection Hbi as <-;
      (split; [unfold ICAP_REQ_HDR, ICAP_RES_HDR; lia|]); intros Hh;
      try (left; by apply list_elem_of_singleton); try (right; by apply list_elem_of_singleton);
      exfalso; by destruct H3 as [-> | [-> | ->]]. }
  destruct Hx as [Htr Hbx]. split; [done|]. intros Hh. destruct (Hwh Hh) as (h & He & Hu & Hz & Hsz). exists h. split; [done|].
  split; [done|]. apply Hsz. assert (Hbl : block x = slice (buf h) 0 (bufused h)) by (unfold block; by rewrite He, Hh).
  destruct (Hbx Hh) as [Hin|Hin]; apply Hlarge in Hin; try done; rewrite Hbl, zlen_slice in Hin; lia.
Qed.

Abbreviation run := (icapfilter junk ra version agent source_read dest_write pf df fuel).

(** The client [c1] has packed the request of [c] and begins to send it. *)
Record started (c c1 : client S W) (rqh rsh : option ci_headers_list_t) (eof : bool) (pd : list Z) (p : Z) (src : option S) (x : list Z) : Prop := {
  sd_run : ∀ turns io, run (Datatypes.S turns) io rqh rsh c = run (Datatypes.S turns) io rqh rsh c1;
  sd_headers : ∃ rq rs d, in_headers c1 rq rs pd d ∧ d ≠ [] ∧ header_text c1 rq rs pd d = x;
  sd_entities : releasable (cl_encaps c1);
  sd_preview : preview (cl_req c1) = p;
  sd_reader : ∃ m b, let r := cl_reader c in cl_reader c1 = mkReader (rd_stream r) (rd_loc r) m (rd_rbuf r) (rd_conn r) (rd_bytes_in r) b;
  sd_allow : allow204 (cl_req c1) = allow204 (cl_req c);
  sd_response : cl_response c1 = cl_response c;
  sd_eof : cl_eof_sent c1 = eof;
  sd_source : cl_source c1 = src;
  sd_dest : cl_dest c1 = cl_dest c;
  sd_conn : cl_conn c1 = cl_conn c
}.

Lemma nonblocking_start io rqh rsh c c0 c1 :
  cl_status c = CLIENT_INIT → prepare_headers junk true true true true version agent source_read rqh rsh c = Ret (CI_OK, c0) →
  start_headers junk true true (to_status CLIENT_SEND_HEADERS c0) = Ret c1 → cl_status c1 = CLIENT_SEND_HEADERS_WRITE_ICAP_HEADERS →
  cl_eof_sent c1 = cl_eof_sent c0 →
  nonblocking junk ra version agent source_read dest_write pf df fuel io rqh rsh c =
  nonblocking junk ra version agent source_read dest_write pf df fuel io rqh rsh c1.
Proof.
  intros Hst Hprep Hstart Hst1 He. unfold nonblocking, ci_client_icapfilter_nonblocking, and_then, step_init.
  rewrite Hst, Hst1, Z.eqb_refl, Hprep. change (CLIENT_SEND_HEADERS_WRITE_ICAP_HEADERS =? CLIENT_INIT) with false. cbn [obind Z.eqb CI_OK CI_NEEDS_MORE negb Pos.eqb].
  unfold step_headers. rewrite Hst1. change (cl_status (to_status CLIENT_SEND_HEADERS c0)) with CLIENT_SEND_HEADERS.
  cbn [Z.leb Z.ltb Z.compare CLIENT_SEND_HEADERS CLIENT_SEND_HEADERS_FINISHED CLIENT_SEND_HEADERS_WRITE_ICAP_HEADERS Pos.compare Pos.compare_cont andb].
  change (cl_eof_sent (to_status 1 c0)) with (cl_eof_sent c0). unfold client_send_request_headers at 1 2.
  change (to_status 1 c0) with (to_status CLIENT_SEND_HEADERS c0). rewrite Hstart, He. unfold start_headers. rewrite Hst1.
  change (CLIENT_SEND_HEADERS_WRITE_ICAP_HEADERS =? CLIENT_SEND_HEADERS_WRITE_NOTHING) with false. done.
Qed.

Lemma start_spec c xls rqh rql rsh rsl eof pd p src :
  new_client version agent c xls → given rqh rql → given rsh rsl → plan junk source_read c eof pd p src → cl_eof_sent c = false →
  ∃ c1, started c c1 rqh rsh eof pd p src (request_head c xls p rqh rsh rql rsl ++ preview_part eof p pd).
Proof.
  intros Hc Hrq Hrs Hpv Heof. pose proof Hc as [Hst _ _ _ _ _ _ _ Hwb].
  destruct (prepare_headers_spec junk source_read version agent c xls rqh rql rsh rsl eof pd p src Hc Hrq Hrs Hpv)
    as (c0 & xs & k & tl & b & Hprep & Hst0 & Hh & Hent & Hk & Hty & Hbl & Hrec & Hdata & (h & e & Hreq) & (q & st0 & Hc0) & Hsrc).
  assert (Hlen : (1 ≤ length xs ≤ 3)%nat).
  { apply (f_equal length) in Hty. rewrite length_fmap in Hty. rewrite Hty. unfold entity_types. destruct (is_some rqh), (is_some rsh); cbn; lia. }
  set (c' := to_status CLIENT_SEND_HEADERS c0).
  destruct (start_headers_spec junk c' xs _ k _ tl pd eq_refl Hh Hent Hlen Hbl Hdata) as (c1 & xs' & Hstart & Hrest).
  { unfold c'. cbn. rewrite Hc0. done. }
  cbn zeta in Hrest. change (cl_req c') with (cl_req c0) in Hrest. change (cl_encaps c') with (cl_encaps c0) in Hrest.
  destruct Hrest as (Hoff & Hty' & Hbl' & Hpos & Hin & Hst1 & (h1 & Hq1) & Hco1 & Hre1 & Heo1 & Hso1 & Hde1 & Hcn1 & Hwh).
  assert (Hp : preview (cl_req c0) = p) by (by rewrite Hreq). rewrite Hp in Hin.
  rewrite Hty in Hty'. assert (Hlen' : length xs' = length xs).
  { apply (f_equal length) in Hty'. rewrite length_fmap in Hty'. apply (f_equal length) in Hty. rewrite length_fmap in Hty. congruence. }
  assert (Hline := layout_line xs' k _ ltac:(lia) Hoff Hbl'). rewrite Hty' in Hline. rewrite Hline in Hin.
  assert (Heq : cl_eof_sent c1 = eof). { rewrite Heo1. unfold c'. cbn. rewrite Hc0. cbn. by rewrite Heof, orb_false_r. }
  exists c1. split.
  - intros turns io. unfold icapfilter. cbn [ci_client_icapfilter].
    pose proof (nonblocking_start io rqh rsh c c0 c1 Hst Hprep Hstart Hst1 Heo1) as Hnb. unfold nonblocking in Hnb. by rewrite Hnb.
  - eexists _, _, _. split; [exact Hin|]. split; [by intros [_ ?]%app_nil|]. unfold header_text. rewrite Heq, Hst1.
    assert (preview (cl_req c1) = p) as -> by (rewrite Hq1; cbn; done). unfold after_block. change (?a =? ?a) with true. cbv iota.
    rewrite (hdr_blocks rqh rsh rql rsl _ _ _ xs' Hty' Hbl'). unfold request_head, icap_lines. by_app.
  - unfold releasable. destruct (release_recycled 5 xs' 0 k (cl_encaps c1)) as (e' & He' & Hnil & Hrec').
    + unfold cl_encaps. rewrite Hq1. done.
    + lia.
    + unfold cl_encaps. rewrite Hq1. cbn. destruct Hrec as [Hz Hhd]. by split.
    + by apply (sent_reusable rqh rsh rql rsl (is_some (cl_source c)) (rtype (cl_req c))).
    + exists e'. split; [exact He'|]. split; [|done]. rewrite Hnil. f_equal. lia.
  - rewrite Hq1. done.
  - eexists _, b. cbn zeta. unfold cl_reader. rewrite Hq1. cbn. rewrite Hreq. done.
  - rewrite Hq1. cbn. rewrite Hreq. done.
  - rewrite Hre1. unfold c'. cbn. rewrite Hc0. done.
  - done.
  - rewrite Hso1. unfold c'. cbn. rewrite Hc0. done.
  - rewrite Hde1. unfold c'. cbn. rewrite Hc0. done.
  - rewrite Hcn1. unfold c'. cbn. rewrite Hc0. done.
Qed.

(** ** The answer to a preview *)

(** A read takes nothing of the events [e2] while there is one before them. *)
Lemma net_data_read_events r e1 e2 n r' :
  rd_conn r = e1 ++ e2 → e1 ≠ [] → net_data_read r = Ret (n, r') → ∃ e1', rd_conn r' = e1' ++ e2.
Proof.
  intros He Hne H. unfold net_data_read in H. apply obind_Ret in H as (m & _ & H). rewrite He in H. cbn [rd_conn] in H.
  destruct (_ <=? 0). { injection H as _ <-. by eexists. }
  destruct e1 as [|e e1]; [done|]. cbn [app ci_connection_read_nonblock] in H.
  destruct e as [| |d]; [| |destruct (zlen d <=? _)]; cbv beta iota zeta in H;
    (match type of H with (if ?b then _ else _) = _ => destruct b end); try apply obind_Ret in H as (? & _ & H);
    injection H as _ <-; first [by exists e1|by eexists (_ :: e1)].
Qed.

Section preview_answer.
Context (pls : list (list Z)) (Hclean : Forall clean_line pls) (Hsome : pls ≠ []) (evs : list net_event).

(** The client waits for the answer; it has [P] of its header, [U] is in the block.  The events [evs] come after the answer. *)
Record previewing (c : client S W) (P U : list Z) : Prop := {
  pg_status : cl_status c = CLIENT_READ_PREVIEW_RESPONSE;
  pg_preview : 0 ≤ preview (cl_req c);
  pg_window : window (cl_reader c) U;
  pg_holding : holding (cl_response c) P;
  pg_events : ∃ es, rd_conn (cl_reader c) = es ++ evs ∧ P ++ U ++ fut_of es = wire pls ++ CRLF;
  pg_short : zlen P ≤ zlen (wire pls) - 2;
  pg_room : zlen U ≤ 3
}.

Lemma fut_of_app a b : fut_of (a ++ b) = fut_of a ++ fut_of b.
Proof. unfold fut_of. by rewrite map_app, concat_app. Qed.

Lemma answer_more (P U : list Z) es : P ++ U ++ fut_of es = wire pls ++ CRLF → zlen P ≤ zlen (wire pls) - 2 → zlen U ≤ 3 → fut_of es ≠ [].
Proof.
  intros HS HP HU E. apply (f_equal zlen) in HS. rewrite E, app_nil_r, !zlen_app in HS. change (zlen CRLF) with 2 in HS. lia.
Qed.

(** What the answer does not change. *)
Definition same_request (c c' : client S W) : Prop :=
  out_kept c c' ∧ sent (cl_conn c') = sent (cl_conn c) ∧ writes (cl_conn c') = writes (cl_conn c) ∧ cl_dest c' = cl_dest c ∧ cl_encaps c' = cl_encaps c ∧ allow204 (cl_req c') = allow204 (cl_req c) ∧
  current_chunk_len (cl_stream c') = current_chunk_len (cl_stream c) ∧ chunk_bytes_read (cl_stream c') = chunk_bytes_read (cl_stream c) ∧
  write_to_module_pending (cl_stream c') = write_to_module_pending (cl_stream c).

Lemma header_read_unpacks h : header_read pls h → ∃ h' tl, ci_headers_unpack true h = Ret (EC_100, h') ∧ hrepr h' pls tl.
Proof.
  intros ((tl & Hb) & Hu & Hz & Hi). destruct (ci_headers_unpack_spec h pls (NUL :: tl)) as (h' & -> & Hh); try done. by eexists _, _.
Qed.

(** An answer to a preview that is neither a 100 nor a 204, nor a response that the client takes. *)
Definition other_answer (eof : bool) (st : Z) : Prop := st ≠ 100 ∧ st ≠ 204 ∧ st ≠ 206 ∧ (st = 200 → eof = false).

Lemma preview_turn io rqh rsh c P U :
  previewing c P U →
  ∃ c', same_request c c' ∧ waits (cl_conn c') = waits (cl_conn c) ∧ events c' < events c ∧
    ((nonblocking junk ra version agent source_read dest_write pf df fuel io rqh rsh c = Ret (1, c') ∧ ∃ P' U', previewing c' P' U') ∨
     (window (cl_reader c') [] ∧ fut_of (rd_conn (cl_reader c')) = fut_of evs ∧
       ∀ st, status_of (wire pls) = Some st →
       (st = 100 → nonblocking junk ra version agent source_read dest_write pf df fuel io rqh rsh c =
          Ret (2, to_code st (to_status CLIENT_PROCESS_DATA c')) ∧ holding (cl_response c') []) ∧
       (st = 204 → ∃ h tl, nonblocking junk ra version agent source_read dest_write pf df fuel io rqh rsh c = Ret (0, to_code st (to_response h c')) ∧
          hrepr h pls tl) ∧
       (other_answer (cl_eof_sent c) st → nonblocking junk ra version agent source_read dest_write pf df fuel io rqh rsh c = Ret (0, to_code st c') ∧ holding (cl_response c') []))).
Proof.
  intros [Hst Hpv Hw Hho (es & Hes & HS) HP HU]. pose proof (answer_more P U es HS HP HU) as Hmore.
  assert (Hf : fut_of (rd_conn (cl_reader c)) ≠ []) by (rewrite Hes, fut_of_app; by intros [? _]%app_nil).
  unfold nonblocking, ci_client_icapfilter_nonblocking, and_then, step_init, step_headers, step_finished, step_preview.
  rewrite Hst. change (CLIENT_READ_PREVIEW_RESPONSE =? CLIENT_INIT) with false. cbn [obind]. rewrite Hst.
  change ((CLIENT_SEND_HEADERS <=? CLIENT_READ_PREVIEW_RESPONSE) && (CLIENT_READ_PREVIEW_RESPONSE <? CLIENT_SEND_HEADERS_FINISHED)) with false.
  cbn [obind]. rewrite Hst. change (CLIENT_READ_PREVIEW_RESPONSE =? CLIENT_SEND_HEADERS_FINISHED) with false. cbn [obind]. rewrite Hst, Z.eqb_refl.
  rewrite (proj2 (Z.leb_le 0 _)) by done. cbn [andb]. unfold ci_client_handle_previewed_response.
  destruct (net_data_read_window (cl_reader c) U Hw (fut_nonempty _ Hf)) as (d & r & Hrd & Hw1 & Hfd & Hu1 & _ & Hs & Hms); [unfold BUFSIZE; lia|].
  destruct (net_data_read_events _ es evs _ _ Hes (fut_nonempty _ Hmore) Hrd) as (es' & Hes'). rewrite Hrd.
  assert (Hde : fut_of es = d ++ fut_of es').
  { rewrite Hes, Hes', !fut_of_app, app_assoc in Hfd. by apply app_inv_tail in Hfd. }
  cbn [obind Z.eqb CI_OK CI_ERROR Pos.eqb]. set (c1 := to_reader r c). change (cl_reader c1) with r. change (cl_response c1) with (cl_response c).
  destruct (parse_icap_header_step junk ra Hra pls Hclean Hsome (fut_of evs) r (cl_response c) P (U ++ d) Hw1 Hho) as (ret & r' & h & U' & -> & Hw' & (q & Hr') & Hres); [|done|].
  { rewrite Hes', fut_of_app. transitivity ((P ++ U ++ fut_of es) ++ fut_of evs); [rewrite Hde; by_app|rewrite HS; by_app]. }
  cbn [obind]. set (c2 := to_response h (to_reader r' c1)).
  assert (Hev : rd_conn r' = rd_conn r) by (by rewrite Hr').
  assert (Hstr : current_chunk_len (rd_stream r') = current_chunk_len (cl_stream c) ∧ chunk_bytes_read (rd_stream r') = chunk_bytes_read (cl_stream c) ∧
    write_to_module_pending (rd_stream r') = write_to_module_pending (cl_stream c)) by (rewrite Hr'; cbn; by rewrite Hs).
  assert (Hsame : same_request c c2) by (unfold same_request, out_kept; destruct Hstr as (? & ? & ?); by split_and!).
  assert (Hdec : zlen (fut_of (rd_conn r')) + zlen (rd_conn r') < events c) by (rewrite Hev; exact Hms).
  destruct Hres as [(-> & P' & Hho' & HPU & HP' & HU' & Hf')|(-> & Hread & Hrest)]; cbn [negb Z.eqb CI_NEEDS_MORE CI_OK Pos.eqb obind].
  - exists c2. split; [done|]. split; [done|]. split; [done|]. left. split; [done|]. exists P', U'.
    split; try done. exists es'. change (cl_reader c2) with r'. rewrite Hev. split; [done|].
    transitivity ((P' ++ U') ++ fut_of es'); [by_app|]. rewrite HPU, <- HS, Hde. by_app.
  - exists (to_response (ci_headers_reset h) c2). split; [exact Hsame|]. split; [done|]. split; [done|]. right.
    rewrite Hes', fut_of_app, app_assoc in Hrest. apply (app_inv_tail (fut_of evs) _ []) in Hrest. apply app_nil in Hrest as [-> E0].
    split; [done|]. split; [change (fut_of (rd_conn r') = fut_of evs); by rewrite Hev, Hes', fut_of_app, E0|].
    intros st Est.
    assert (Hstat : response_status h = Ret (Some st)).
    { eapply (status_read pls st RUnchanged); [|done]. by split. }
    assert (Hreset : holding (ci_headers_reset h) []).
    { destruct Hread as ((tl & Hb) & Hu & Hz & Hi). split; cbn; try done. by exists (buf h). }
    rewrite Hstat. cbn [obind]. split_and!; [intros -> ..|intros (H1 & H2 & H3 & H4)].
    + cbn [Z.eqb Pos.eqb orb andb]. rewrite andb_false_r. cbn [orb]. by split.
    + cbn [Z.eqb Pos.eqb]. destruct (header_read_unpacks h Hread) as (h' & tl & Hun & Hh'). unfold unpack_response. change (cl_response c2) with h.
      rewrite Hun. cbn [obind]. exists h', tl. done.
    + change (cl_eof_sent c2) with (cl_eof_sent c). rewrite (proj2 (Z.eqb_neq st 204)), (proj2 (Z.eqb_neq st 206)), (proj2 (Z.eqb_neq st 100)) by done.
      assert (cl_eof_sent c && (st =? 200) = false) as ->.
      { destruct (Z.eqb_spec st 200) as [E|E]; [by rewrite (H4 E)|by rewrite andb_false_r]. }
      cbn [orb obind Z.eqb CI_OK CI_NEEDS_MORE CI_ERROR Pos.eqb]. split; [|done].
      rewrite (proj2 (Z.eqb_neq st 204)), (proj2 (Z.eqb_neq st 206)), (proj2 (Z.eqb_neq st 100)) by done. cbn [orb obind].
      change (cl_status (to_code st (to_response (ci_headers_reset (cl_response c2)) c2))) with (cl_status c). by rewrite Hst.
Qed.

#[local] Instance same_request_trans : Transitive same_request.
Proof.
  intros c1 c2 c3 ((? & ? & ? & ?) & ? & ? & ? & ? & ? & ? & ? & ?) ((? & ? & ? & ?) & ? & ? & ? & ? & ? & ? & ? & ?).
  unfold same_request, out_kept. split_and!; congruence.
Qed.

Lemma answer_loop turns : ∀ io rqh rsh c P U n,
  previewing c P U → ready n c → events c ≤ n → n < Z.of_nat turns → (∃ st, status_of (wire pls) = Some st ∧ (st = 100 ∨ st = 204 ∨ other_answer (cl_eof_sent c) st)) →
  ∃ c', same_request c c' ∧ window (cl_reader c') [] ∧ fut_of (rd_conn (cl_reader c')) = fut_of evs ∧ events c' < events c ∧
    (status_of (wire pls) = Some 100 → holding (cl_response c') [] ∧ ready (n - events c + events c') c' ∧ ∃ turns', n - events c + events c' < Z.of_nat turns' ∧
       run turns io rqh rsh c = run turns' 2 rqh rsh (to_code 100 (to_status CLIENT_PROCESS_DATA c'))) ∧
    (status_of (wire pls) = Some 204 → ∃ h tl, run turns io rqh rsh c = Ret (204, to_code 204 (to_response h c')) ∧ hrepr h pls tl) ∧
    (∀ st, status_of (wire pls) = Some st → other_answer (cl_eof_sent c) st → run turns io rqh rsh c = Ret (st, to_code st c') ∧ holding (cl_response c') []).
Proof.
  induction turns as [|turns IH]; intros io rqh rsh c P U n Hpg Hr Hn Ht Hst.
  { assert (0 ≤ events c) by (unfold events; zlia). lia. }
  destruct (preview_turn io rqh rsh c P U Hpg) as (c1 & Hsame & Hwt & Hev & Hres).
  assert (0 ≤ events c1) by (unfold events; zlia).
  assert (Hr1 : ready n c1) by (unfold ready; by rewrite Hwt). assert (H1 : ready 1 c1) by (destruct Hr1; split; [done|lia]).
  destruct Hres as [(Hrun & P' & U' & Hpg')|(Hw' & Hrest & Hans)].
  - rewrite (loop_waits junk ra version agent source_read dest_write pf df fuel turns io rqh rsh c 1 c1 Hrun) by (done || tauto).
    destruct (wait_ready n c1 1 Hr1 ltac:(lia) ltac:(tauto)) as (c2 & -> & Hr2 & _ & _ & _ & _ & _ & _ & Hs2 & Hw2 & (k & Hc2)).
    assert (Hsame2 : same_request c1 c2) by (rewrite Hc2 in *; done).
    assert (Hpg2 : previewing c2 P' U') by (rewrite Hc2; by destruct Hpg').
    assert (Hev2 : events c2 = events c1) by (by rewrite Hc2).
    assert (Heo : cl_eof_sent c2 = cl_eof_sent c) by (destruct Hsame2 as ((_ & _ & -> & _) & _), Hsame as ((_ & _ & -> & _) & _); done).
    destruct (IH 1 rqh rsh c2 P' U' (n - 1) Hpg2 Hr2 ltac:(lia) ltac:(lia)) as (c' & Hs' & ? & ? & ? & H100 & H204 & Hoth); [by rewrite Heo|]. rewrite Heo in Hoth.
    exists c'. split; [by do 2 (etransitivity; [eassumption|])|]. split_and!; try done; [lia|].
    intros E. destruct (H100 E) as (? & [? ?] & turns' & ? & ?). split; [done|]. split; [split; [done|lia]|]. exists turns'. split; [lia|done].
  - destruct Hst as (st & E & Hst). destruct (Hans _ E) as (H100 & H204 & Hoth). rewrite E in *. destruct Hst as [-> |[-> |Hst]].
    + destruct (H100 eq_refl) as [Hrun Hho]. rewrite (loop_waits junk ra version agent source_read dest_write pf df fuel turns io rqh rsh c 2 _ Hrun) by (done || tauto).
      destruct (wait_ready n (to_code 100 (to_status CLIENT_PROCESS_DATA c1)) 2 Hr1 ltac:(lia) ltac:(tauto)) as (c2 & -> & Hr2 & _ & _ & _ & _ & _ & _ & Hs2 & Hw2 & (k & Hc2)).
      exists (to_conn 0 k c1). rewrite Hc2 in *. split; [etransitivity; [eassumption|done]|]. split; [done|]. split; [done|]. split; [done|].
      split; [|split; [done|intros ? [= <-] (? & _); done]]. intros _. split; [done|]. change (events (to_conn 0 k c1)) with (events c1). destruct Hr2 as [Hr2 Hr3]. split.
      * split; [done|]. cbn in Hr3 |- *. lia.
      * exists turns. split; [lia|done].
    + destruct (H204 eq_refl) as (h & tl & Hrun & Hh). exists c1. split_and!; try done; [|intros ? [= <-] (_ & ? & _); done]. intros _.
      exists h, tl. split; [|done]. unfold icapfilter. cbn [ci_client_icapfilter]. unfold nonblocking in Hrun. by rewrite Hrun.
    + destruct (Hoth Hst) as [Hrun Hho]. exists c1. destruct Hst as (? & ? & ? & ?). split_and!; try done; [by intros [= ->]..|]. intros st' [= <-] _.
      split; [|done]. unfold icapfilter. cbn [ci_client_icapfilter]. unfold nonblocking in Hrun. by rewrite Hrun.
Qed.
End preview_answer.

(** ** The transactions *)

(** A client that has read nothing yet. *)
Record idle_client (c : client S W) : Prop := {
  ic_window : window (cl_reader c) [];
  ic_place : rd_loc (cl_reader c) ≠ BHeader;
  ic_chunk : current_chunk_len (cl_stream c) = chunk_bytes_read (cl_stream c);
  ic_pending : write_to_module_pending (cl_stream c) = 0;
  ic_response : holding (cl_response c) [];
  ic_eof : cl_eof_sent c = false
}.

Lemma reads_begin rls st rep c :
  announces rls st rep → reply_ok (allow204 (cl_req c)) st rep → cl_status c = CLIENT_PROCESS_DATA →
  window (cl_reader c) [] → fut_of (rd_conn (cl_reader c)) = response_text rls rep → holding (cl_response c) [] →
  current_chunk_len (cl_stream c) = chunk_bytes_read (cl_stream c) → write_to_module_pending (cl_stream c) = 0 →
  entities (cl_encaps c) = replicate 5 None → recycled (cl_encaps c) → reads content rls st rep c (content (cl_dest c) ++ reply_data rep).
Proof.
  intros Han Hok Hst Hw Hf Hho Hch Hpd Hen Hrc. destruct Han as [_ Hne _ _].
  apply (rd_reading _ _ _ _ _ _ [] (reply_data rep)); try done.
  - apply (rv_icap _ _ _ _ _ _ []); try done. destruct rls as [|l ls]; [done|]. rewrite wire_cons. unfold CRLF. change (zlen []) with 0. zlia.
  - rewrite Hf. unfold response_text. intros [_ [? _]%app_nil]%app_nil. done.
Qed.

(** The end of a transaction that sent [sent0] and then [X], as far as the server let it. *)
Definition transacted (rls : list (list Z)) (rep : reply) (c c' : client S W) (sent0 X : list Z) : Prop :=
  ∃ y X', sent (cl_conn c') = sent (cl_conn c) ++ sent0 ++ y ∧ X = y ++ X' ∧ (rep ≠ RUnchanged → X' = []) ∧
    (∃ tl, hrepr (cl_response c') rls tl) ∧ got_http rep c' ∧ content (cl_dest c') = content (cl_dest c) ++ reply_data rep.

(** The last part: the body is sent and the response read. *)
Lemma finish_spec rls st rep c0 c x X n turns io rqh rsh :
  announces rls st rep → reads content rls st rep c (content (cl_dest c0) ++ reply_data rep) → outgoing source_read (settled c) X →
  takes_writes c X → sent (cl_conn c) = sent (cl_conn c0) ++ x → cl_status c = CLIENT_PROCESS_DATA → io = 0 ∨ io = 2 →
  ready n c → zlen X + events c + 1 ≤ n → n < Z.of_nat turns → BUFSIZE + events c < Z.of_nat fuel →
  ∃ c', run turns io rqh rsh c = Ret (st, c') ∧ transacted rls rep c0 c' x X.
Proof.
  intros Han Hrd Hog Htw Hs Hst Hio Hr Hn Ht Hf.
  destruct (data_loop junk ra Hra version agent source_read dest_write content Hdest rls st rep Han pf df fuel Hpf Hdf turns io rqh rsh c X _ n Hog Hrd Htw)
    as (c' & y & X' & Hrun & -> & Hs' & Hend); try done; [by destruct Hio as [-> | ->]|by right|].
  assert (Hgot : received rls st rep c' ∧ content (cl_dest c') = content (cl_dest c0) ++ reply_data rep ∧ (rep ≠ RUnchanged → X' = [])).
  { destruct Hend as [(? & ? & ? & ?)|(? & ? & ? & ?)]; by split_and!. }
  destruct Hgot as ((_ & (Hco & Hh) & Hhttp) & Hct & HX). exists c'. split; [by rewrite Hrun, Hco|].
  exists y, X'. split; [by rewrite Hs', Hs, <- app_assoc|]. by split_and!.
Qed.

(** The headers of a request are sent. *)
Lemma headers_phase c xls rqh rql rsh rsl eof pd p src Y n turns x :
  new_client version agent c xls → given rqh rql → given rsh rsl → idle_client c → plan junk source_read c eof pd p src →
  request_head c xls p rqh rsh rql rsl ++ preview_part eof p pd = x →
  takes_writes c (x ++ Y) → ready n c → zlen x ≤ n → n < Z.of_nat turns →
  ∃ c2 turns2 io2, run turns 0 rqh rsh c = run turns2 io2 rqh rsh c2 ∧ n - zlen x < Z.of_nat turns2 ∧
    cl_status c2 = (if 0 <=? p then CLIENT_READ_PREVIEW_RESPONSE else CLIENT_PROCESS_DATA) ∧ (if 0 <=? p then io2 = 1 else io2 = 0 ∨ io2 = 2) ∧
    window (cl_reader c2) [] ∧ rd_conn (cl_reader c2) = rd_conn (cl_reader c) ∧ rd_stream (cl_reader c2) = rd_stream (cl_reader c) ∧
    preview (cl_req c2) = p ∧ allow204 (cl_req c2) = allow204 (cl_req c) ∧ holding (cl_response c2) [] ∧
    entities (cl_encaps c2) = replicate 5 None ∧ recycled (cl_encaps c2) ∧ cl_dest c2 = cl_dest c ∧ cl_source c2 = src ∧ cl_eof_sent c2 = eof ∧
    cl_remain c2 = 0 ∧ zlen (ws_wbuf (cl_out c2)) = WBUF_SIZE ∧ sent (cl_conn c2) = sent (cl_conn c) ++ x ∧ takes_writes c2 Y ∧ ready (n - zlen x) c2.
Proof.
  intros Hc Hrq Hrs [Hwin Hloc Hch Hpd Hho Heof] Hplan Ex Htw Hr Hn Ht.
  destruct (start_spec c xls rqh rql rsh rsl eof pd p src Hc Hrq Hrs Hplan Heof) as (c1 & [Hrun (rq & rs & d & Hin & Hd & Hx) Hrel Hp (m & b & Hrd) Hal Hre He Hso Hde Hcn]).
  rewrite Ex in Hx. assert (Ht1 : (∃ t, turns = Datatypes.S t)) by (destruct turns; [pose proof (zlen_nonneg x); lia|by eexists]). destruct Ht1 as (t & ->). rewrite Hrun.
  destruct (headers_loop junk ra version agent source_read dest_write pf df fuel Hpf Hdf (Datatypes.S t) 0 rqh rsh c1 rq rs pd d Y n Hin Hd Hrel)
    as (c2 & turns2 & io2 & -> & Hah & Ht2 & Hio2); rewrite ?Hx in *; try (done || lia || tauto).
  { unfold takes_writes. by rewrite Hcn. }
  { unfold ready. by rewrite Hcn. }
  destruct Hah as [(e & Hq & Hen & Hrc) Hst2 Hco2 Hre2 Hde2 Hso2 Heo2 Hrem2 Hwb2 Hs2 Hw2 Hr2]. rewrite Hp in *.
  exists c2, turns2, io2. split; [done|]. split; [done|]. split; [done|]. split; [done|].
  assert (Hrd2 : cl_reader c2 = cl_reader c1) by (unfold cl_reader; by rewrite Hq). rewrite Hrd2, Hrd. cbn [rd_conn rd_stream].
  split. { destruct Hwin as (stale & Hw0 & Hm0 & Hl0 & Hd0 & Hz0). exists stale. split_and!; try done. cbn. unfold block_mem in *. cbn. by destruct (rd_loc (cl_reader c)). }
  unfold cl_encaps. rewrite Hq. cbn. split_and!; try done; try congruence.
Qed.

(** The chunks of the user's data, or nothing without a source. *)
Definition body_of (o : option S) (X : list Z) : Prop :=
  match o with Some src => ∃ cs, supplies source_read src cs ∧ X = encode cs | None => X = [] end.

Lemma outgoing_begin c X :
  body_of (cl_source c) X → cl_eof_sent c = false → cl_remain c = 0 → zlen (ws_wbuf (cl_out c)) = WBUF_SIZE → outgoing source_read (settled c) X.
Proof.
  intros Hb He Hrem Hwb. unfold settled, body_of in *. destruct (cl_source c) as [src|] eqn:Es.
  - destruct Hb as (cs & Hsup & ->). apply (og_more _ _ _ [] src cs); by try split.
  - subst X. apply og_last; [done|]. split; [exact (eq_sym Hrem)|done].
Qed.

Lemma plan_without c : preview (cl_req c) < 0 → ∃ p, p < 0 ∧ plan junk source_read c false [] p (cl_source c).
Proof.
  intros Hp. destruct (cl_source c) as [src|] eqn:Es.
  - exists (preview (cl_req c)). split; [done|]. intros h. exists (to_req (set_header h (cl_req c)) c).
    split; [apply (preview_off junk source_read _ src); [done|cbn; lia]|done].
  - exists (-1). split; [done|]. intros h. eexists. split; [by apply preview_none|]. done.
Qed.

Lemma request_head_without c xls p rqh rsh rql rsl : p < 0 →
  request_head c xls p rqh rsh rql rsl ++ preview_part false p [] = request_head c xls (-1) rqh rsh rql rsl.
Proof.
  intros Hp. unfold request_head, icap_lines, preview_part. rewrite (proj2 (Z.leb_gt 0 p)), (proj2 (Z.ltb_ge 0 p)), (proj2 (Z.eqb_neq p 0)) by lia. by rewrite app_nil_r.
Qed.

(** C6: a request without a preview.  The client sends its headers and its body to the last byte, whatever the
    connection takes at a time, and reads the response at the same time: it ends with the status of the
    response, its ICAP lines, its HTTP lines and all its data at the destination.  When the response is a
    204 the client may stop sending. *)
Theorem client_transaction c xls rqh rql rsh rsl X rls st rep n turns :
  new_client version agent c xls → given rqh rql → given rsh rsl → idle_client c → preview (cl_req c) < 0 → body_of (cl_source c) X →
  announces rls st rep → reply_ok (allow204 (cl_req c)) st rep → fut_of (rd_conn (cl_reader c)) = response_text rls rep →
  let x := request_head c xls (-1) rqh rsh rql rsl in
  takes_writes c (x ++ X) → ready n c → zlen x + zlen X + events c < n → n < Z.of_nat turns → BUFSIZE + events c < Z.of_nat fuel →
  ∃ c', run turns 0 rqh rsh c = Ret (st, c') ∧ transacted rls rep c c' x X.
Proof.
  intros Hc Hrq Hrs Hid Hpv HX Han Hok Hf x Htw Hr Hn Ht Hfu. destruct (plan_without c Hpv) as (p & Hp & Hplan).
  assert (Hx := request_head_without c xls p rqh rsh rql rsl Hp). fold x in Hx.
  assert (0 ≤ events c) by (unfold events; zlia). pose proof (zlen_nonneg X).
  destruct (headers_phase c xls rqh rql rsh rsl false [] p _ X n turns x Hc Hrq Hrs Hid Hplan Hx Htw Hr)
    as (c2 & turns2 & io2 & -> & Ht2 & Hst2 & Hio2 & Hw2 & Hev2 & Hstr2 & Hp2 & Hal2 & Hho2 & Hen2 & Hrc2 & Hde2 & Hso2 & Heo2 & Hrem2 & Hwb2 & Hs2 & Htw2 & Hr2);
    try lia.
  rewrite (proj2 (Z.leb_gt 0 p)) in Hst2, Hio2 by done.
  assert (Hevc : events c2 = events c) by (unfold events; by rewrite Hev2).
  eapply (finish_spec rls st rep c c2 x X (n - zlen x)); try done; try (rewrite ?Hevc; lia).
  - rewrite <- Hde2. destruct Hid. apply reads_begin; try done; [by rewrite Hal2|by rewrite Hev2|unfold cl_stream in *; by rewrite Hstr2|unfold cl_stream in *; by rewrite Hstr2].
  - apply outgoing_begin; try done. by rewrite Hso2.
Qed.

(** The client has sent its preview and waits for the answer. *)
Lemma preview_phase c xls rqh rql rsh rsl eof pd p src Y pls evs0 evs n turns x :
  new_client version agent c xls → given rqh rql → given rsh rsl → idle_client c → plan junk source_read c eof pd p src → 0 ≤ p →
  pls ≠ [] → rd_conn (cl_reader c) = evs0 ++ evs → fut_of evs0 = wire pls ++ CRLF →
  request_head c xls p rqh rsh rql rsl ++ preview_part eof p pd = x →
  takes_writes c (x ++ Y) → ready n c → zlen x ≤ n → n < Z.of_nat turns →
  ∃ c2 turns2, run turns 0 rqh rsh c = run turns2 1 rqh rsh c2 ∧ previewing pls evs c2 [] [] ∧ n - zlen x < Z.of_nat turns2 ∧ ready (n - zlen x) c2 ∧
    events c2 = events c ∧ rd_stream (cl_reader c2) = rd_stream (cl_reader c) ∧ allow204 (cl_req c2) = allow204 (cl_req c) ∧
    entities (cl_encaps c2) = replicate 5 None ∧ recycled (cl_encaps c2) ∧ cl_dest c2 = cl_dest c ∧ cl_source c2 = src ∧ cl_eof_sent c2 = eof ∧
    cl_remain c2 = 0 ∧ zlen (ws_wbuf (cl_out c2)) = WBUF_SIZE ∧ sent (cl_conn c2) = sent (cl_conn c) ++ x ∧ takes_writes c2 Y.
Proof.
  intros Hc Hrq Hrs Hid Hplan Hp Hpne Hevs Hf0 Ex Htw Hr Hn Ht.
  destruct (headers_phase c xls rqh rql rsh rsl eof pd p src Y n turns x Hc Hrq Hrs Hid Hplan Ex Htw Hr Hn Ht)
    as (c2 & turns2 & io2 & Hrun & Ht2 & Hst2 & Hio2 & Hw2 & Hev2 & Hstr2 & Hp2 & Hal2 & Hho2 & Hen2 & Hrc2 & Hde2 & Hso2 & Heo2 & Hrem2 & Hwb2 & Hs2 & Htw2 & Hr2).
  rewrite (proj2 (Z.leb_le 0 p)) in Hst2, Hio2 by done. subst io2.
  exists c2, turns2. split; [done|]. split.
  { split; try done; [by rewrite Hp2|exists evs0; by rewrite Hev2|].
    destruct pls as [|l ls]; [done|]. rewrite wire_cons. unfold CRLF. change (zlen []) with 0. zlia. }
  split_and!; try done. unfold events. by rewrite Hev2.
Qed.

(** C21: a request with a preview that the server wants continued.  The client sends its headers, the preview and
    its end, waits for the 100, which is taken whole however it is cut, then sends the rest of the body and reads the response. *)
Theorem client_continues_preview c xls rqh rql rsh rsl pd p src cs pls evs0 evs rls st rep n turns :
  new_client version agent c xls → given rqh rql → given rsh rsl → idle_client c → plan junk source_read c false pd p (Some src) → 0 ≤ p →
  supplies source_read src cs → Forall clean_line pls → pls ≠ [] → status_of (wire pls) = Some 100 →
  announces rls st rep → reply_ok (allow204 (cl_req c)) st rep →
  rd_conn (cl_reader c) = evs0 ++ evs → fut_of evs0 = wire pls ++ CRLF → fut_of evs = response_text rls rep →
  let x := request_head c xls p rqh rsh rql rsl ++ preview_part false p pd in
  takes_writes c (x ++ encode cs) → ready n c → zlen x + zlen (encode cs) + events c < n → n < Z.of_nat turns → BUFSIZE + events c < Z.of_nat fuel →
  ∃ c', run turns 0 rqh rsh c = Ret (st, c') ∧ transacted rls rep c c' x (encode cs).
Proof.
  intros Hc Hrq Hrs Hid Hplan Hp Hsup Hpcl Hpne Hp100 Han Hok Hevs Hf0 Hf1 x Htw Hr Hn Ht Hfu.
  assert (0 ≤ events c) by (unfold events; zlia). pose proof (zlen_nonneg (encode cs)).
  destruct (preview_phase c xls rqh rql rsh rsl false pd p _ (encode cs) pls evs0 evs n turns x Hc Hrq Hrs Hid Hplan Hp Hpne Hevs Hf0 eq_refl Htw Hr ltac:(lia) Ht)
    as (c2 & turns2 & -> & Hpg & Ht2 & Hr2 & Hevc & Hstr2 & Hal2 & Hen2 & Hrc2 & Hde2 & Hso2 & Heo2 & Hrem2 & Hwb2 & Hs2 & Htw2).
  destruct (answer_loop pls Hpcl Hpne evs turns2 1 rqh rsh c2 [] [] (n - zlen x) Hpg Hr2 ltac:(lia) Ht2 ltac:(eexists; split; [done|by left]))
    as (c3 & ((Ho & Ha & He & Hso) & Hs3 & Hw3 & Hd3 & Hen3 & Hal3 & Hc3 & Hb3 & Hpd3) & Hwin3 & Hfut3 & Hev3 & H100 & _).
  destruct (H100 Hp100) as (Hho3 & Hr3 & turns3 & Ht3 & ->).
  eapply (finish_spec rls st rep c _ x (encode cs) (n - zlen x - events c2 + events c3)); try done; try (by right).
  - rewrite <- Hde2, <- Hd3. destruct Hid. change (cl_dest c3) with (cl_dest (to_code 100 (to_status CLIENT_PROCESS_DATA c3))).
    apply reads_begin; try done.
    + change (reply_ok (allow204 (cl_req c3)) st rep). by rewrite Hal3, Hal2.
    + change (fut_of (rd_conn (cl_reader c3)) = response_text rls rep). by rewrite Hfut3.
    + change (current_chunk_len (cl_stream c3) = chunk_bytes_read (cl_stream c3)). rewrite Hc3, Hb3. unfold cl_stream in *. by rewrite Hstr2.
    + change (write_to_module_pending (cl_stream c3) = 0). rewrite Hpd3. unfold cl_stream in *. by rewrite Hstr2.
    + change (entities (cl_encaps c3) = replicate 5 None). by rewrite Hen3.
    + change (recycled (cl_encaps c3)). by rewrite Hen3.
  - apply outgoing_begin; cbn; [rewrite Hso, Hso2; by exists cs|by rewrite He|unfold cl_remain in *; cbn; by rewrite Ho|by rewrite Ho].
  - unfold takes_writes in *. cbn. by rewrite Hw3.
  - cbn. by rewrite Hs3.
  - change (events (to_code 100 (to_status CLIENT_PROCESS_DATA c3))) with (events c3). lia.
  - change (events (to_code 100 (to_status CLIENT_PROCESS_DATA c3))) with (events c3). lia.
Qed.

(** A request with a preview that the server answers with a 204: the client stops after the preview, with the status 204, and
    its destination gets nothing. *)
Theorem client_preview_unchanged c xls rqh rql rsh rsl eof pd p src pls n turns :
  new_client version agent c xls → given rqh rql → given rsh rsl → idle_client c → plan junk source_read c eof pd p src → 0 ≤ p →
  Forall clean_line pls → pls ≠ [] → status_of (wire pls) = Some 204 → fut_of (rd_conn (cl_reader c)) = wire pls ++ CRLF →
  let x := request_head c xls p rqh rsh rql rsl ++ preview_part eof p pd in
  takes_writes c x → ready n c → zlen x + events c ≤ n → n < Z.of_nat turns →
  ∃ c' tl, run turns 0 rqh rsh c = Ret (204, c') ∧ sent (cl_conn c') = sent (cl_conn c) ++ x ∧
    hrepr (cl_response c') pls tl ∧ cl_dest c' = cl_dest c ∧ cl_source c' = src.
Proof.
  intros Hc Hrq Hrs Hid Hplan Hp Hpcl Hpne Hp204 Hf x Htw Hr Hn Ht. assert (0 ≤ events c) by (unfold events; zlia).
  rewrite <- (app_nil_r x) in Htw.
  destruct (preview_phase c xls rqh rql rsh rsl eof pd p src [] pls _ [] n turns x Hc Hrq Hrs Hid Hplan Hp Hpne (eq_sym (app_nil_r _)) Hf eq_refl Htw Hr ltac:(lia) Ht)
    as (c2 & turns2 & -> & Hpg & Ht2 & Hr2 & Hevc & _ & _ & _ & _ & Hde2 & Hso2 & _ & _ & _ & Hs2 & _).
  destruct (answer_loop pls Hpcl Hpne [] turns2 1 rqh rsh c2 [] [] (n - zlen x) Hpg Hr2 ltac:(lia) Ht2 ltac:(eexists; split; [done|by right; left]))
    as (c3 & ((Ho & Ha & He & Hso) & Hs3 & Hw3 & Hd3 & _) & _ & _ & _ & _ & H204 & _).
  destruct (H204 Hp204) as (h & tl & -> & Hh). eexists _, tl. split; [done|]. cbn. by rewrite Hs3, Hd3, Hso.
Qed.

(** A server may answer a preview with its response at once, without a 100.  The client then returns the status of
    the response and nothing of it: the response header is emptied, the destination gets no data, and the HTTP header and the body stay unread. *)
Theorem client_drops_early_response c xls rqh rql rsh rsl eof pd p src pls st evs0 evs n turns :
  new_client version agent c xls → given rqh rql → given rsh rsl → idle_client c → plan junk source_read c eof pd p src → 0 ≤ p →
  Forall clean_line pls → pls ≠ [] → status_of (wire pls) = Some st → other_answer eof st →
  rd_conn (cl_reader c) = evs0 ++ evs → fut_of evs0 = wire pls ++ CRLF →
  let x := request_head c xls p rqh rsh rql rsl ++ preview_part eof p pd in
  takes_writes c x → ready n c → zlen x + events c ≤ n → n < Z.of_nat turns →
  ∃ c', run turns 0 rqh rsh c = Ret (st, c') ∧ sent (cl_conn c') = sent (cl_conn c) ++ x ∧
    bufused (cl_response c') = 0 ∧ cl_dest c' = cl_dest c ∧ fut_of (rd_conn (cl_reader c')) = fut_of evs.
Proof.
  intros Hc Hrq Hrs Hid Hplan Hp Hpcl Hpne Hst Hoth Hevs Hf x Htw Hr Hn Ht. assert (0 ≤ events c) by (unfold events; zlia).
  rewrite <- (app_nil_r x) in Htw.
  destruct (preview_phase c xls rqh rql rsh rsl eof pd p src [] pls evs0 evs n turns x Hc Hrq Hrs Hid Hplan Hp Hpne Hevs Hf eq_refl Htw Hr ltac:(lia) Ht)
    as (c2 & turns2 & -> & Hpg & Ht2 & Hr2 & Hevc & _ & _ & _ & _ & Hde2 & Hso2 & Heo2 & _ & _ & Hs2 & _). rewrite <- Heo2 in Hoth.
  destruct (answer_loop pls Hpcl Hpne evs turns2 1 rqh rsh c2 [] [] (n - zlen x) Hpg Hr2 ltac:(lia) Ht2 ltac:(eexists; split; [done|by right; right]))
    as (c3 & (_ & Hs3 & Hw3 & Hd3 & _) & _ & Hf3 & _ & _ & _ & Hrun).
  destruct (Hrun st Hst Hoth) as [-> Hho]. eexists. split; [done|]. cbn. rewrite Hs3, Hd3. split_and!; try done. apply (ho_used _ _ Hho).
Qed.
End transaction.

(** ** A new client and one that is used again *)

Section start.
Context {S W : Type} (junk : Z → Z) (version : list Z) (agent : option (list Z)).
Implicit Types c : client S W.

(** The user of the library sets the method and the preview. *)
Definition request_of (m pv : Z) (c : client S W) : client S W := to_req (set_preview pv (set_type m (cl_req c))) c.

Lemma ci_client_request_ready h1 h2 h3 t1 t3 evs k server svc src dst m pv :
  hrepr h1 [] t1 → holding h2 [] → hrepr h3 [] t3 → Forall is_data evs → m = ICAP_REQMOD ∨ m = ICAP_RESPMOD →
  ∃ c, ci_client_request junk true h1 h2 h3 evs k server svc src dst = Some c ∧
    (Forall no_nul (request_lines version agent (cl_req (request_of m pv c)) m) → new_client version agent (request_of m pv c) []) ∧ idle_client (request_of m pv c).
Proof.
  intros H1 H2 H3 Hev Hm. eexists. split; [done|]. split.
  - intros Hl. split; try done; [by exists t1|exists t3; by split|].
    split; [done|]. intros t x Ht Hx. by apply lookup_replicate in Hx as [? _].
  - split; try done. exists []. cbn. by split_and!.
Qed.

(** A client whose request is over can be used for the next one: [ci_client_request_reuse] releases the entities, keeps their header lists for the
    next request and leaves nothing of the old one. *)
Theorem ci_client_request_reuse_ready c m pv :
  releasable (cl_encaps c) → usable (request_header (cl_req c)) → usable (cl_response c) → usable (cl_xheaders c) →
  zlen (rd_rbuf (cl_reader c)) = BUFSIZE → zlen (ws_wbuf (cl_out c)) = WBUF_SIZE → Forall is_data (rd_conn (cl_reader c)) → m = ICAP_REQMOD ∨ m = ICAP_RESPMOD →
  ∃ c', ci_client_request_reuse c = Ret c' ∧
    (Forall no_nul (request_lines version agent (cl_req (request_of m pv c')) m) → new_client version agent (request_of m pv c') []) ∧ idle_client (request_of m pv c') ∧
    rd_conn (cl_reader c') = rd_conn (cl_reader c) ∧ cl_conn c' = cl_conn c ∧ cl_dest c' = cl_dest c.
Proof.
  intros (e & He & Hent & Hrec) H1 [H2 H2'] H3 Hrb Hwb Hev Hm. unfold ci_client_request_reuse. fold (cl_encaps c). rewrite He. cbn [obind].
  eexists. split; [done|]. split; [|split; [|done]].
  - intros Hl. split; try done; [eexists; by apply usable_reset|eexists; split; [by apply usable_reset|done]|].
    split; [apply (rc_trash _ Hrec)|apply (rc_heads _ Hrec)].
  - split; try done.
    + exists []. cbn. by split_and!.
    + cbn. split; cbn; try done. by eexists.
Qed.
End start.

(** ** Witnesses *)

(** The user's data are pieces; the destination is a list of bytes. *)
Definition sample_read (l : list (list Z)) (n : Z) : src_result * list (list Z) :=
  match l with [] => (SrcCode CI_EOF, []) | d :: l' => (SrcData d, l') end.
Definition sample_write (w d : list Z) : Z * list Z := (zlen d, w ++ d).

Lemma sample_write_takes : takes_all sample_write id.
Proof. intros w d _. by eexists. Qed.

Definition new_list : ci_headers_list_t := mkHeaders 64 [] HEADSBUFSIZE 0 (fresh (λ _, 7) 0 HEADSBUFSIZE) false.

Lemma new_list_ready : hrepr new_list [] (fresh (λ _, 7) 0 HEADSBUFSIZE) ∧ holding new_list [].
Proof. split; split; try done. by eexists. Qed.

Definition sample_client (pv : Z) (l : list (list Z)) (evs : list net_event) : client (list (list Z)) (list Z) :=
  match ci_client_request (λ _, 7) true new_list new_list new_list evs (mkConn (replicate 1000 3) (replicate 500 7) []) (bytes "localhost") (bytes "echo") (Some l) [] with
  | Some c => request_of ICAP_REQMOD pv c
  | None => mkClient (mkReq 0 [] [] [] 0 false false false None new_list fresh_encaps (mkReader new_rstream BNull [] [] [] 0 ci_buf_init)) 0 0
      (mkWstream [] 0 0 false false 0 0 0) CNull new_list new_list false false 0 (mkConn [] [] []) None []
  end.

Lemma sample_client_ready pv l evs : Forall is_data evs →
  new_client (bytes "0.5") None (sample_client pv l evs) [] ∧ idle_client (sample_client pv l evs).
Proof.
  intros Hev. destruct (ci_client_request_ready (λ _, 7) (bytes "0.5") None new_list new_list new_list (fresh (λ _, 7) 0 HEADSBUFSIZE) (fresh (λ _, 7) 0 HEADSBUFSIZE) evs
    (mkConn (replicate 1000 3) (replicate 500 7) []) (bytes "localhost") (bytes "echo") (Some l) ([] : list Z) ICAP_REQMOD pv) as (c & Hc & Hn & Hi); try apply new_list_ready; [done|by left|].
  unfold sample_client. rewrite Hc. injection Hc as <-. split; [|done]. apply Hn. by repeat constructor.
Qed.

(** The 200 with which the server answers, cut into reads. *)
Definition sample_http : list (list Z) := [bytes "GET / HTTP/1.1"; bytes "Host: a"].
Definition sample_reply : reply := RMessage ICAP_REQ_HDR ICAP_REQ_BODY sample_http [bytes "HELLO"; bytes " WORLD"].
Definition sample_icap : list (list Z) := [bytes "ICAP/1.0 200 OK"; bytes "Encapsulated: " ++ items_text (reply_items sample_reply)].
Definition in_two (k : nat) (s : list Z) : list net_event := [EvData (take k s); EvData (drop k s)].

Lemma in_two_spec k s : fut_of (in_two k s) = s ∧ Forall is_data (in_two k s).
Proof. unfold fut_of, in_two. cbn. rewrite app_nil_r, take_drop. by repeat constructor. Qed.

Lemma sample_announces : announces sample_icap 200 sample_reply ∧ reply_ok false 200 sample_reply.
Proof.
  split.
  - split; [|done|vm_compute; reflexivity|intros _; vm_compute; reflexivity].
    constructor; [|constructor; [|constructor]]; (split; [vm_compute; repeat constructor; done|by eexists _, _]).
  - split; [done|]. split; [done|]. split; [by left; left|]. split; [done|]. split; [|split; [done|]].
    + constructor; [|constructor; [|constructor]]; (split; [vm_compute; repeat constructor; done|by eexists _, _]).
    + by constructor; [|constructor; [|constructor]].
Qed.

Lemma given_sample : given (Some sample_list) sample_lines.
Proof. split; [|done]. eexists. apply sample_repr. Qed.

Lemma client_transaction_witness :
  let c := sample_client (-1) [bytes "hello"; bytes " world"] (in_two 9 (response_text sample_icap sample_reply)) in
  ∃ c', icapfilter (λ _, 7) (λ _, true) (bytes "0.5") None sample_read sample_write (Z.to_nat 5000) 1 (Z.to_nat 9000) 1001 0 (Some sample_list) None c = Ret (200, c') ∧
    transacted id sample_icap sample_reply c c' (request_head (bytes "0.5") None c [] (-1) (Some sample_list) None sample_lines [])
      (encode [bytes "hello"; bytes " world"]).
Proof.
  intros c. destruct (in_two_spec 9 (response_text sample_icap sample_reply)) as [Hf Hd]. destruct (sample_client_ready (-1) [bytes "hello"; bytes " world"] _ Hd) as [Hn Hi].
  apply (client_transaction (λ _, 7) (λ _, true) ltac:(done) (bytes "0.5") None sample_read sample_write id sample_write_takes (Z.to_nat 5000) 1 (Z.to_nat 9000)
    ltac:(unfold BUFSIZE; lia) ltac:(lia) c [] (Some sample_list) sample_lines None [] _ sample_icap 200 sample_reply 1000 1001 Hn given_sample eq_refl Hi).
  - done.
  - eexists. split; [|done]. cbn. split; [done|]. eexists. split; [done|]. split; [done|]. eexists. split; [done|]. by eexists.
  - apply sample_announces.
  - apply sample_announces.
  - exact Hf.
  - split; [by apply Forall_replicate|vm_compute; by intros [=]].
  - split; [by apply Forall_replicate|done].
  - vm_compute. reflexivity.
  - done.
  - vm_compute. reflexivity.
Defined.

(** A preview of the first five bytes. *)
Lemma sample_plan evs :
  plan (λ _, 7) sample_read (sample_client 5 [bytes "hello"; bytes " world"] evs) false (bytes "hello") 5 (Some [bytes " world"]).
Proof.
  intros h. destruct (preview_first (λ _, 7) sample_read (to_req (set_header h (cl_req (sample_client 5 [bytes "hello"; bytes " world"] evs))) (sample_client 5 [bytes "hello"; bytes " world"] evs))
    [bytes "hello"; bytes " world"] (bytes "hello") [bytes " world"] [bytes " world"] false) as (c' & Hp & Hs & Hv); try done. by exists c'.
Qed.

Definition sample_continue : list (list Z) := [bytes "ICAP/1.0 100 Continue"].

Lemma clean_continue : Forall clean_line sample_continue.
Proof. constructor; [|constructor]. split; [vm_compute; repeat constructor; done|by eexists _, _]. Qed.

Lemma client_continues_preview_witness :
  let evs := in_two 9 (response_text sample_icap sample_reply) in
  let c := sample_client 5 [bytes "hello"; bytes " world"] (in_two 3 (wire sample_continue ++ CRLF) ++ evs) in
  ∃ c', icapfilter (λ _, 7) (λ _, true) (bytes "0.5") None sample_read sample_write (Z.to_nat 5000) 1 (Z.to_nat 9000) 1001 0 (Some sample_list) None c = Ret (200, c') ∧
    transacted id sample_icap sample_reply c c'
      (request_head (bytes "0.5") None c [] 5 (Some sample_list) None sample_lines [] ++ preview_part false 5 (bytes "hello")) (encode [bytes " world"]).
Proof.
  intros evs c. destruct (in_two_spec 9 (response_text sample_icap sample_reply)) as [Hf Hd]. destruct (in_two_spec 3 (wire sample_continue ++ CRLF)) as [Hf0 Hd0].
  destruct (sample_client_ready 5 [bytes "hello"; bytes " world"] _ (Forall_app_2 _ _ _ Hd0 Hd)) as [Hn Hi].
  apply (client_continues_preview (λ _, 7) (λ _, true) ltac:(done) (bytes "0.5") None sample_read sample_write id sample_write_takes (Z.to_nat 5000) 1 (Z.to_nat 9000)
    ltac:(unfold BUFSIZE; lia) ltac:(lia) c [] (Some sample_list) sample_lines None [] _ 5 [bytes " world"] [bytes " world"] sample_continue
    (in_two 3 (wire sample_continue ++ CRLF)) evs sample_icap 200 sample_reply 1000 1001 Hn given_sample eq_refl Hi (sample_plan _)).
  - done.
  - split; [done|]. eexists. split; [done|]. by eexists.
  - apply clean_continue.
  - done.
  - vm_compute. reflexivity.
  - apply sample_announces.
  - apply sample_announces.
  - done.
  - exact Hf0.
  - exact Hf.
  - split; [by apply Forall_replicate|vm_compute; by intros [=]].
  - split; [by apply Forall_replicate|done].
  - vm_compute. reflexivity.
  - done.
  - vm_compute. reflexivity.
Defined.

Definition sample_no_content : list (list Z) := [bytes "ICAP/1.0 204 Unmodified"].

Lemma client_preview_unchanged_witness :
  let c := sample_client 5 [bytes "hello"; bytes " world"] (in_two 3 (wire sample_no_content ++ CRLF)) in
  let x := request_head (bytes "0.5") None c [] 5 (Some sample_list) None sample_lines [] ++ preview_part false 5 (bytes "hello") in
  ∃ c' tl, icapfilter (λ _, 7) (λ _, true) (bytes "0.5") None sample_read sample_write (Z.to_nat 5000) 1 (Z.to_nat 9000) 1001 0 (Some sample_list) None c = Ret (204, c') ∧
    sent (cl_conn c') = sent (cl_conn c) ++ x ∧ hrepr (cl_response c') sample_no_content tl ∧ cl_dest c' = cl_dest c ∧ cl_source c' = Some [bytes " world"].
Proof.
  intros c x. destruct (in_two_spec 3 (wire sample_no_content ++ CRLF)) as [Hf0 Hd0].
  destruct (sample_client_ready 5 [bytes "hello"; bytes " world"] _ Hd0) as [Hn Hi].
  apply (client_preview_unchanged (λ _, 7) (λ _, true) ltac:(done) (bytes "0.5") None sample_read sample_write (Z.to_nat 5000) 1 (Z.to_nat 9000)
    ltac:(unfold BUFSIZE; lia) ltac:(lia) c [] (Some sample_list) sample_lines None [] false (bytes "hello") 5 (Some [bytes " world"]) sample_no_content
    1000 1001 Hn given_sample eq_refl Hi (sample_plan _)).
  - done.
  - constructor; [|constructor]. split; [vm_compute; repeat constructor; done|by eexists _, _].
  - done.
  - vm_compute. reflexivity.
  - exact Hf0.
  - split; [by apply Forall_replicate|vm_compute; by intros [=]].
  - split; [by apply Forall_replicate|done].
  - vm_compute. by intros [=].
  - done.
Defined.

Lemma client_drops_early_response_witness :
  let evs := in_two 9 (reply_text sample_reply) in
  let c := sample_client 5 [bytes "hello"; bytes " world"] (in_two 3 (wire sample_icap ++ CRLF) ++ evs) in
  let x := request_head (bytes "0.5") None c [] 5 (Some sample_list) None sample_lines [] ++ preview_part false 5 (bytes "hello") in
  ∃ c', icapfilter (λ _, 7) (λ _, true) (bytes "0.5") None sample_read sample_write (Z.to_nat 5000) 1 (Z.to_nat 9000) 1001 0 (Some sample_list) None c = Ret (200, c') ∧
    sent (cl_conn c') = sent (cl_conn c) ++ x ∧ bufused (cl_response c') = 0 ∧ cl_dest c' = cl_dest c ∧ fut_of (rd_conn (cl_reader c')) = fut_of evs.
Proof.
  intros evs c x. destruct (in_two_spec 9 (reply_text sample_reply)) as [Hf Hd]. destruct (in_two_spec 3 (wire sample_icap ++ CRLF)) as [Hf0 Hd0].
  destruct (sample_client_ready 5 [bytes "hello"; bytes " world"] _ (Forall_app_2 _ _ _ Hd0 Hd)) as [Hn Hi].
  apply (client_drops_early_response (λ _, 7) (λ _, true) ltac:(done) (bytes "0.5") None sample_read sample_write (Z.to_nat 5000) 1 (Z.to_nat 9000)
    ltac:(unfold BUFSIZE; lia) ltac:(lia) c [] (Some sample_list) sample_lines None [] false (bytes "hello") 5 (Some [bytes " world"]) sample_icap 200
    (in_two 3 (wire sample_icap ++ CRLF)) evs 1000 1001 Hn given_sample eq_refl Hi (sample_plan _)).
  - done.
  - apply (an_clean _ _ _ (proj1 sample_announces)).
  - done.
  - vm_compute. reflexivity.
  - by split_and!.
  - done.
  - exact Hf0.
  - split; [by apply Forall_replicate|vm_compute; by intros [=]].
  - split; [by apply Forall_replicate|done].
  - vm_compute. by intros [=].
  - done.
Defined.

(** The client above, used again before its first request. *)
Lemma ci_client_request_reuse_ready_witness :
  let c := sample_client (-1) [bytes "hello"] [] in
  ∃ c', ci_client_request_reuse c = Ret c' ∧
    (Forall no_nul (request_lines (bytes "0.5") None (cl_req (request_of ICAP_RESPMOD (-1) c')) ICAP_RESPMOD) → new_client (bytes "0.5") None (request_of ICAP_RESPMOD (-1) c') []) ∧
    idle_client (request_of ICAP_RESPMOD (-1) c') ∧ rd_conn (cl_reader c') = rd_conn (cl_reader c) ∧ cl_conn c' = cl_conn c ∧ cl_dest c' = cl_dest c.
Proof.
  intros c. apply (ci_client_request_reuse_ready (bytes "0.5") None c ICAP_RESPMOD (-1)); try (by split); try (vm_compute; reflexivity); [|constructor|by right].
  eexists. split; [reflexivity|]. split; [reflexivity|]. split; [reflexivity|]. intros t x _ Hx. by apply lookup_replicate in Hx as [? _].
Defined.
