(* ===== verification/ClientServer.v ===== *)
(** * The server reads what the client sends

    The request that [ci_client_icapfilter] sends (request_common.c) is read by [parse_header] and
    [parse_encaps_headers] of the server (request.c): the server has the method, the service, the
    preview, what the client allows and the HTTP headers that the user of the client gave it. *)

From stdpp Require Import base list list_numbers strings numbers option.
From Stdlib Require Import ZArith Lia.
From S2P Require Import Prelude CString Chunks ReadBody SendBody Headers Encapsulated IcapHeader ParseRequest HttpApi Session Keepalive Client ClientSend ClientReceive ClientRun ClientTransaction.

(** ** Lines *)

Lemma clean_digits v : 0 ≤ v → Forall clean_byte (print_d v).
Proof.
  intros Hv. unfold print_d. rewrite (proj2 (Z.ltb_ge v 0)) by lia.
  apply print_num_chars; [lia|done|]. intros d Hd. pose proof (digit_char_range d ltac:(lia)). unfold clean_byte, NUL, CR, LF. lia.
Qed.

Lemma clean_items xs : Forall item_ok xs → Forall clean_byte (items_text xs).
Proof.
  assert (Hone : ∀ x, item_ok x → Forall clean_byte (item_text x)).
  { intros [t v] [Ht Hv]. cbn [fst snd] in *. unfold item_text. cbn [fst snd]. apply Forall_app. split.
    - unfold ICAP_REQ_HDR, ICAP_NULL_BODY in Ht. assert (t = 0 ∨ t = 1 ∨ t = 2 ∨ t = 3 ∨ t = 4) as [->|[->|[->|[->| ->]]]] by lia; by repeat constructor.
    - constructor; [done|]. apply clean_digits. lia. }
  induction 1 as [|x xs Hx Hxs IH]; [constructor|]. destruct xs as [|y xs]; cbn [items_text]; [by apply Hone|].
  apply Forall_app. split; [by apply Hone|]. apply Forall_app. split; [by repeat constructor|done].
Qed.

(** A line that means nothing to the server. *)
Definition plain_line (l : list Z) : Prop :=
  ∀ name s, name ∈ [bytes "Preview:"; bytes "Encapsulated:"; bytes "Connection:"; bytes "Allow:"] → str_prefix_case name (l ++ NUL :: s) = Some false.

Section lines.
Context (junk : Z → Z).

Lemma plain_line_spec q l s : plain_line l → parse_icap_line junk true true q (l ++ NUL :: s) = Ret (EC_100, q).
Proof. intros Hl. unfold parse_icap_line. by rewrite !Hl by (apply list_elem_of_In; cbn; tauto). Qed.

(** The loop over the lines of a header list. *)
Lemma parse_lines_step q l ls (pre tl : list Z) :
  parse_icap_lines junk true true q (pre ++ edit (l :: ls) ++ tl) (offs (zlen pre) (l :: ls)) =
  let* (st, q) := parse_icap_line junk true true q (l ++ NUL :: LF :: edit ls ++ tl) in
  if bool_decide (st = EC_100) then
    parse_icap_lines junk true true q ((pre ++ l ++ [NUL; LF]) ++ edit ls ++ tl) (offs (zlen (pre ++ l ++ [NUL; LF])) ls)
  else Ret (st, q).
Proof.
  cbn [offs parse_icap_lines]. rewrite zlen_to_nat, drop_app_length, edit_cons.
  replace ((l ++ NUL :: LF :: edit ls) ++ tl) with (l ++ NUL :: LF :: edit ls ++ tl) by by_app.
  replace (pre ++ l ++ NUL :: LF :: edit ls ++ tl) with ((pre ++ l ++ [NUL; LF]) ++ edit ls ++ tl) by by_app.
  by replace (zlen (pre ++ l ++ [NUL; LF])) with (zlen pre + zlen l + 2) by zlia.
Qed.

(** Lines that take the request from [q] to [q']. *)
Inductive lines_read : ci_request → list (list Z) → ci_request → Prop :=
| lr_nil q : lines_read q [] q
| lr_cons q l q1 ls q2 :
    (∀ s, parse_icap_line junk true true q (l ++ NUL :: s) = Ret (EC_100, q1)) → lines_read q1 ls q2 → lines_read q (l :: ls) q2.

Lemma parse_lines_read q ls q' : lines_read q ls q' → ∀ ks pre tl q2 r,
  (∀ pre, parse_icap_lines junk true true q' (pre ++ edit ks ++ tl) (offs (zlen pre) ks) = Ret (r, q2)) →
  parse_icap_lines junk true true q (pre ++ edit (ls ++ ks) ++ tl) (offs (zlen pre) (ls ++ ks)) = Ret (r, q2).
Proof.
  induction 1 as [q|q l q1 ls q' Hl _ IH]; intros ks pre tl q2 r Hk; [apply Hk|].
  cbn [app]. rewrite parse_lines_step, Hl. cbn [obind]. rewrite bool_decide_eq_true_2 by done. by apply IH.
Qed.

Lemma lines_read_plain q ls : Forall plain_line ls → lines_read q ls q.
Proof. induction 1 as [|l ls Hl _ IH]; econstructor; [intros s; by apply plain_line_spec|done]. Qed.

Lemma lines_read_app q1 ls1 q2 ls2 q3 : lines_read q1 ls1 q2 → lines_read q2 ls2 q3 → lines_read q1 (ls1 ++ ls2) q3.
Proof. induction 1 as [|q l q' ls q2 Hl _ IH]; intros H2; [done|]. econstructor; [done|]. by apply IH. Qed.

Lemma allow_lines_read q (a4 a6 : bool) :
  lines_read q ((if a4 && a6 then [bytes "Allow: 204, 206"] else if a4 then [bytes "Allow: 204"] else []) ++ (if a6 then [bytes "Allow: 206"] else []))
    (set_allow (allow204 q || a4) (allow206 q || a6) q).
Proof.
  assert (H4 : ∀ q s, parse_icap_line junk true true q (bytes "Allow: 204" ++ NUL :: s) = Ret (EC_100, set_allow (allow204 q || true) (allow206 q || false) q)) by done.
  assert (H6 : ∀ q s, parse_icap_line junk true true q (bytes "Allow: 206" ++ NUL :: s) = Ret (EC_100, set_allow (allow204 q || false) (allow206 q || true) q)) by done.
  assert (H46 : ∀ q s, parse_icap_line junk true true q (bytes "Allow: 204, 206" ++ NUL :: s) = Ret (EC_100, set_allow (allow204 q || true) (allow206 q || true) q)) by done.
  destruct a4, a6; cbn [andb app].
  - econstructor; [apply H46|]. econstructor; [apply H6|]. cbn. rewrite !orb_true_r, !orb_false_r. constructor.
  - econstructor; [apply H4|]. constructor.
  - econstructor; [apply H6|]. constructor.
  - rewrite !orb_false_r. destruct q. constructor.
Qed.

(** A Preview header, with the buffer it gets. *)
Lemma preview_line_read q p : 0 ≤ p → p + 64 ≤ INT_MAX →
  ∃ b, lines_read q [bytes "Preview: " ++ print_d p] (set_reader (with_preview b (rq_reader q)) (set_preview p q)).
Proof.
  intros Hp Hmax. eexists. econstructor; [|constructor]. intros s.
  change ((bytes "Preview: " ++ print_d p) ++ NUL :: s) with (bytes "Preview:" ++ (SP :: print_d p) ++ NUL :: s).
  assert (Hpre : ∀ x, str_prefix_case (bytes "Preview:") (bytes "Preview:" ++ x) = Some true ∧ drop 8 (bytes "Preview:" ++ x) = x) by done.
  unfold parse_icap_line. destruct (Hpre ((SP :: print_d p) ++ NUL :: s)) as [-> ->]. cbn [scan obind app]. rewrite parse_preview_value by lia.
  rewrite (proj2 (Z.ltb_ge INT_MAX _)) by lia. done.
Qed.
End lines.

(** ** The request *)

Section serve_client.
Context {S W : Type} (junk : Z → Z) (pipelining buggy : bool) (fuel : nat) (version : list Z) (agent : option (list Z)) (t : tables).

(** The lines of the HTTP headers that are sent, with the types of their entities. *)
Definition http_parts (rqh rsh : option ci_headers_list_t) (rql rsl : list (list Z)) : list (Z * list (list Z)) :=
  (if is_some rqh then [(ICAP_REQ_HDR, rql)] else []) ++ (if is_some rsh then [(ICAP_RES_HDR, rsl)] else []).

Definition body_type (c : client S W) : Z :=
  if is_some (cl_source c) then (if rtype (cl_req c) =? ICAP_RESPMOD then ICAP_RES_BODY else ICAP_REQ_BODY) else ICAP_NULL_BODY.

(** The combinations of headers and body a server accepts. *)
Definition acceptable (c : client S W) (rqh rsh : option ci_headers_list_t) : Prop :=
  rtype (cl_req c) = ICAP_REQMOD ∧ rsh = None ∧ (is_some rqh || is_some (cl_source c)) = true ∨
  rtype (cl_req c) = ICAP_RESPMOD ∧ (is_some rqh || is_some rsh || is_some (cl_source c)) = true.

Lemma acceptable_check c rqh rsh e lay :
  acceptable c rqh rsh → filled lay (entities e) →
  fst <$> lay = entity_types (rtype (cl_req c)) (is_some rqh) (is_some rsh) (is_some (cl_source c)) →
  check_request (rtype (cl_req c)) e = Ret EC_100.
Proof.
  intros Hacc [Hsh Hz] Hty.
  assert (Hes : ∃ os, entities e = os ∧ (option_map type <$> os) = (Some <$> (fst <$> lay)) ++ replicate (5 - length lay) None).
  { exists (entities e). split; [done|]. unfold shape in Hsh. apply (f_equal (fmap (option_map fst))) in Hsh. rewrite <- list_fmap_compose in Hsh.
    rewrite fmap_app, <- !list_fmap_compose in Hsh. rewrite fmap_replicate in Hsh. rewrite <- list_fmap_compose. etransitivity; [|exact Hsh].
    apply list_fmap_ext. by intros ? [x|]. }
  destruct Hes as (os & Eos & Hos). unfold check_request. rewrite Eos. rewrite <- (length_fmap fst) in Hos. rewrite Hty in Hos. clear Hty Hsh Hz Eos e lay.
  unfold entity_types in Hos. destruct Hacc as [(Ht & -> & Hs)|(Ht & Hs)]; rewrite Ht in *.
  - destruct (is_some rqh), (is_some (cl_source c)); try done; cbn in Hos;
      destruct os as [|[x|] [|[y|] [|[z|] [|[u|] [|[v|] []]]]]]; cbn in Hos; simplify_eq; unfold expect, type_of, arr_get;
      change (Z.to_nat 0) with 0%nat; change (Z.to_nat 1) with 1%nat; change (Z.to_nat 2) with 2%nat; change (Z.to_nat 3) with 3%nat; cbn;
      repeat match goal with H : type _ = _ |- _ => rewrite H end; done.
  - destruct (is_some rqh), (is_some rsh), (is_some (cl_source c)); try done; cbn in Hos;
      destruct os as [|[x|] [|[y|] [|[z|] [|[u|] [|[v|] []]]]]]; cbn in Hos; simplify_eq; unfold expect, type_of, arr_get;
      change (Z.to_nat 0) with 0%nat; change (Z.to_nat 1) with 1%nat; change (Z.to_nat 2) with 2%nat; change (Z.to_nat 3) with 3%nat; cbn;
      repeat match goal with H : type _ = _ |- _ => rewrite H end; done.
Qed.

Definition items (c : client S W) (rqh rsh : option ci_headers_list_t) (rql rsl : list (list Z)) : list (Z * Z) :=
  layout 0 (entity_types (rtype (cl_req c)) (is_some rqh) (is_some rsh) (is_some (cl_source c))) (message_blocks rqh rsh rql rsl).

(** The HTTP headers are lines that can be sent. *)
Definition sendable (o : option ci_headers_list_t) (ls : list (list Z)) : Prop := is_some o = true → ls ≠ [] ∧ Forall clean_line ls.

Lemma items_spec c rqh rsh rql rsl :
  zlen (concat (message_blocks rqh rsh rql rsl)) ≤ INT_MAX →
  let its := items c rqh rsh rql rsl in
  Forall item_ok its ∧ its ≠ [] ∧ zlen its ≤ 3 ∧ no_null_body its = is_some (cl_source c) ∧
  fst <$> its = entity_types (rtype (cl_req c)) (is_some rqh) (is_some rsh) (is_some (cl_source c)).
Proof.
  unfold items, entity_types, message_blocks, opt_block. intros Hz. set (t3 := if is_some (cl_source c) then _ else _).
  assert (H3 : t3 = 3 ∨ t3 = 2 ∨ t3 = 4) by (unfold t3; destruct (is_some (cl_source c)); [case_cmp|]; tauto).
  assert (Hnb : negb (t3 =? ICAP_NULL_BODY) = is_some (cl_source c)) by (unfold t3; destruct (is_some (cl_source c)); [by destruct (rtype (cl_req c) =? ICAP_RESPMOD)|done]).
  pose proof (zlen_nonneg (wire rql ++ CRLF)). pose proof (zlen_nonneg (wire rsl ++ CRLF)).
  clearbody t3. destruct (is_some rqh), (is_some rsh); cbn [app layout concat] in *; rewrite ?app_nil_r in Hz; repeat rewrite zlen_app in Hz;
    unfold no_null_body; cbn [forallb fst fmap list_fmap]; rewrite Hnb, ?andb_true_r;
    (split; [|split; [done|split; [unfold zlen; cbn; lia|done]]]);
    repeat (constructor; [split; cbn [fst snd]; unfold ICAP_REQ_HDR, ICAP_RES_HDR, ICAP_NULL_BODY, INT_MAX in *; rewrite ?zlen_app; zlia|]); constructor.
Qed.

Lemma announced_parts c rqh rsh rql rsl e :
  filled (items c rqh rsh rql rsl) (entities e) → new_heads (entities e) → sendable rqh rql → sendable rsh rsl →
  zlen (concat (message_blocks rqh rsh rql rsl)) ≤ INT_MAX →
  ∃ xs y k, entities e = (Some <$> (xs ++ [y])) ++ replicate k None ∧ announced xs y (snd <$> http_parts rqh rsh rql rsl) ∧
    type <$> xs = fst <$> http_parts rqh rsh rql rsl ∧ type y = body_type c ∧ (length xs < 5)%nat.
Proof.
  intros [Hsh _] Hnh Hrq Hrs Hz. unfold items, entity_types, message_blocks, opt_block, http_parts, shape in *. fold (body_type c) in Hsh.
  assert (Hb : ICAP_RES_HDR < body_type c) by (unfold body_type; destruct (is_some (cl_source c)); [case_cmp|]; done).
  assert (Hhd : ∀ i x, entities e !! i = Some (Some x) → type x = 0 ∨ type x = 1 → ∃ h, entity x = Some h ∧ zlen (buf h) = bufsize h ∧ 1 ≤ size h).
  { intros i x Hx Ht. destruct (Hnh i x Hx) as (h & tl & He & Hr & Hs); [by destruct Ht as [-> | ->]|]. exists h. split; [done|]. split; [apply (hr_size _ _ _ Hr)|done]. }
  pose proof (zlen_nonneg (wire rql ++ CRLF)). pose proof (zlen_nonneg (wire rsl ++ CRLF)).
  unfold sendable in *. set (t3 := body_type c) in *. clearbody t3.
  destruct (is_some rqh), (is_some rsh); cbn [app layout concat fmap list_fmap length Nat.sub replicate] in *; rewrite ?app_nil_r in Hz; repeat rewrite zlen_app in Hz;
    destruct (entities e) as [|[x|] [|[y|] [|[z|] [|[u|] [|[v|] []]]]]]; cbn in Hsh; simplify_eq.
  1: exists [x; y], z, 2%nat; destruct (Hrq eq_refl), (Hrs eq_refl).
  2: exists [x], y, 3%nat; destruct (Hrq eq_refl).
  3: exists [x], y, 3%nat; destruct (Hrs eq_refl).
  4: exists [], x, 4%nat.
  all: cbn [fmap list_fmap app announced hd snd fst length replicate]; unfold ICAP_REQ_HDR, ICAP_RES_HDR in *; rewrite ?zlen_app in *;
    split_and!; try (done || lia || congruence); first [by apply (Hhd 0%nat); [done|lia]|by apply (Hhd 1%nat); [done|lia]].
Qed.

(** A request of the server before its header is read. *)
Record awaiting (q : ci_request) : Prop := {
  aw_ready : IcapHeader.ready (rq_reader q) (request_header q);
  aw_entities : entities (rq_encaps q) = replicate 5 None;
  aw_recycled : recycled (rq_encaps q);
  aw_args : args q = []
}.

(** A request whose lines the server can take apart: [m] is offered by the service [sv]. *)
Record addressed (c : client S W) (xls : list (list Z)) (sv : ci_service_module) : Prop := {
  ad_method : rtype (cl_req c) = ICAP_REQMOD ∨ rtype (cl_req c) = ICAP_RESPMOD;
  ad_host : without (λ b, (b =? 47) || (b =? SP)) (req_server (cl_req c)) ∧ zlen (req_server (cl_req c)) ≤ CI_MAXHOSTNAMELEN;
  ad_service : service (cl_req c) ≠ [] ∧ without (λ b, (b =? SP) || (b =? 63)) (service (cl_req c)) ∧ zlen (service (cl_req c)) ≤ MAX_SERVICE_NAME;
  ad_short : zlen (request_line (rtype (cl_req c)) (req_server (cl_req c)) (service (cl_req c)) []) ≤ 254;
  ad_clean : Forall clean_line (request_lines version agent (cl_req c) (rtype (cl_req c)) ++ xls);
  ad_plain : Forall plain_line xls;
  ad_found : find_service (service_list t) (service (cl_req c)) = Some sv;
  ad_offers : Z.land (mod_type sv) (rtype (cl_req c)) ≠ 0
}.

Lemma request_lines_head c xls sv : addressed c xls sv →
  ∃ ls, request_lines version agent (cl_req c) (rtype (cl_req c)) = request_line (rtype (cl_req c)) (req_server (cl_req c)) (service (cl_req c)) [] :: ls ∧
    ∀ q, lines_read junk q ls (set_allow (allow204 q || allow204 (cl_req c)) (allow206 q || allow206 (cl_req c)) q).
Proof.
  intros [Hm _ _ Hsh _ _ _ _]. unfold request_lines. eexists. split.
  - cbn [app]. f_equal. unfold snprintf_255. assert (Hl : ci_method_string (rtype (cl_req c)) ++ bytes " icap://" ++ req_server (cl_req c) ++ bytes "/" ++ service (cl_req c) ++ bytes " ICAP/1.0" =
      request_line (rtype (cl_req c)) (req_server (cl_req c)) (service (cl_req c)) []).
    { unfold request_line. cbn [args_text app]. by destruct Hm as [-> | ->]. }
    rewrite Hl, take_ge; [done|]. unfold zlen in Hsh. lia.
  - intros q. assert (Hhost : plain_line (snprintf_255 (bytes "Host: " ++ req_server (cl_req c)))).
    { intros name s Hin. apply list_elem_of_In in Hin. cbn in Hin. by destruct Hin as [<- |[<- |[<- |[<- |[]]]]]. }
    assert (Hua : Forall plain_line (match user_agent version agent with Some u => [snprintf_255 (bytes "User-Agent: " ++ u)] | None => [] end)).
    { destruct (user_agent version agent) as [u|]; constructor; [|constructor]. intros name s Hin. apply list_elem_of_In in Hin. cbn in Hin. by destruct Hin as [<- |[<- |[<- |[<- |[]]]]]. }
    apply (lines_read_app _ _ [_] q); [by apply lines_read_plain; repeat constructor|].
    apply (lines_read_app _ _ _ q); [by apply lines_read_plain|]. apply allow_lines_read.
Qed.

Lemma find_request_service_spec q sv :
  service q ≠ [] → find_service (service_list t) (service q) = Some sv → Z.land (mod_type sv) (rtype q) ≠ 0 →
  find_request_service t q = (EC_100, set_mod (Some sv) q).
Proof.
  intros Hne Hf Ho. unfold find_request_service. assert (Hz : (zlen (service q) =? 0) = false) by (apply Z.eqb_neq; destruct (service q); [done|zlia]).
  assert (Hd : match DEFAULT_SERVICE t with Some d => if zlen (service q) =? 0 then set_service (take (Z.to_nat MAX_SERVICE_NAME) d) q else q | None => q end = q)
    by (rewrite Hz; by destruct (DEFAULT_SERVICE t)).
  rewrite Hd, Hz, Hf. cbn. by rewrite (proj2 (Z.eqb_neq _ 0) Ho).
Qed.

(** The lines of the ICAP header, up to the Encapsulated header. *)
Lemma head_lines_read c xls sv p q :
  addressed c xls sv → p + 64 ≤ INT_MAX →
  ∃ ls b, (request_lines version agent (cl_req c) (rtype (cl_req c)) ++ xls) ++ (if 0 <=? p then [bytes "Preview: " ++ print_d p] else []) =
      request_line (rtype (cl_req c)) (req_server (cl_req c)) (service (cl_req c)) [] :: ls ∧
    let q1 := set_allow (allow204 q || allow204 (cl_req c)) (allow206 q || allow206 (cl_req c)) q in
    lines_read junk q ls (if 0 <=? p then set_reader (with_preview b (rq_reader q)) (set_preview p q1) else q1).
Proof.
  intros Had Hp. destruct (request_lines_head c xls sv Had) as (ls & -> & Hls). pose proof (ad_plain _ _ _ Had) as Hpl. cbn [app].
  set (q1 := set_allow (allow204 q || allow204 (cl_req c)) (allow206 q || allow206 (cl_req c)) q).
  assert (Hx : lines_read junk q (ls ++ xls) q1) by (eapply lines_read_app; [apply Hls|by apply lines_read_plain]).
  destruct (Z.leb_spec 0 p).
  - destruct (preview_line_read junk q1 p ltac:(done) Hp) as (b & Hb). exists ((ls ++ xls) ++ [bytes "Preview: " ++ print_d p]), b. split; [done|].
    eapply lines_read_app; [exact Hx|exact Hb].
  - exists ((ls ++ xls) ++ []), (rd_preview (rq_reader q)). rewrite app_nil_r. by split.
Qed.

Lemma head_clean c xls sv p rqh rsh rql rsl :
  addressed c xls sv → zlen (concat (message_blocks rqh rsh rql rsl)) ≤ INT_MAX →
  Forall clean_line (icap_lines version agent c xls p rqh rsh rql rsl).
Proof.
  intros Had Hz. unfold icap_lines. apply Forall_app. split; [apply (ad_clean _ _ _ Had)|]. apply Forall_app. split.
  - destruct (Z.leb_spec 0 p); constructor; [|constructor]. split; [|by eexists _, _]. apply Forall_app. split; [by repeat constructor|by apply clean_digits].
  - constructor; [|constructor]. split; [|by eexists _, _]. apply Forall_app. split; [by repeat constructor|].
    apply clean_items. by apply items_spec.
Qed.

(** What the server has after the ICAP header of such a request. *)
Record read_head (c : client S W) (sv : ci_service_module) (p : Z) rqh rsh rql rsl (body : list Z) (q q1 : ci_request) : Prop := {
  rh_type : rtype q1 = rtype (cl_req c);
  rh_server : req_server q1 = req_server (cl_req c);
  rh_service : service q1 = service (cl_req c);
  rh_mod : current_service_mod q1 = Some sv;
  rh_preview : preview q1 = (if 0 <=? p then p else preview q);
  rh_204 : allow204 q1 = allow204 q || allow204 (cl_req c);
  rh_206 : allow206 q1 = allow206 q || allow206 (cl_req c);
  rh_body : hasbody (rq_encaps q1) = is_some (cl_source c);
  rh_filled : filled (items c rqh rsh rql rsl) (entities (rq_encaps q1));
  rh_heads : new_heads (entities (rq_encaps q1));
  rh_unread : unread (rq_reader q1) = blocks (snd <$> http_parts rqh rsh rql rsl) ++ body;
  rh_block : block_ok (rq_reader q1);
  rh_data : Forall is_data (rd_conn (rq_reader q1));
  rh_fuel : zlen (fut_of (rd_conn (rq_reader q1))) + zlen (rd_conn (rq_reader q1)) < Z.of_nat fuel
}.

(** The Encapsulated header is the last line. *)
Lemma encapsulated_line_read q e xs pre tl :
  process_encapsulated junk true true (rq_encaps q) (bytes "Encapsulated: " ++ items_text xs ++ NUL :: LF :: edit [] ++ CRLF ++ tl) = Ret (EC_100, e) →
  let el := bytes "Encapsulated: " ++ items_text xs in
  parse_icap_lines junk true true q (pre ++ edit [el] ++ CRLF ++ tl) (offs (zlen pre) [el]) = Ret (EC_100, set_encaps e q).
Proof.
  intros Hpe el. rewrite parse_lines_step.
  assert (Hel : el ++ NUL :: LF :: edit [] ++ CRLF ++ tl = bytes "Encapsulated: " ++ items_text xs ++ NUL :: LF :: edit [] ++ CRLF ++ tl) by (unfold el; by_app).
  rewrite Hel. unfold parse_icap_line.
  assert (Hpre : ∀ x, str_prefix_case (bytes "Preview:") (bytes "Encapsulated: " ++ x) = Some false ∧
    str_prefix_case (bytes "Encapsulated:") (bytes "Encapsulated: " ++ x) = Some true) by done.
  destruct (Hpre (items_text xs ++ NUL :: LF :: edit [] ++ CRLF ++ tl)) as [-> ->]. cbn [scan obind].
  rewrite Hpe. cbn [obind]. rewrite bool_decide_eq_true_2 by done. done.
Qed.

(** What follows the ICAP header in its block is not changed when the lines are unpacked. *)
Lemma header_tail_slice (h1 h2 : ci_headers_list_t) ls tl a n :
  buf h2 = edit ls ++ CRLF ++ tl → buf h1 = wire ls ++ CRLF ++ tl → a = zlen (wire ls) + 2 → zlen (edit ls) = zlen (wire ls) →
  slice (buf h2) a n = slice (buf h1) a n.
Proof.
  intros -> -> -> Hwe. rewrite !(app_assoc _ CRLF). change 2 with (zlen CRLF).
  rewrite !slice_app_r by (rewrite !zlen_app; lia). by rewrite !zlen_app, Hwe.
Qed.

(** The entities that hold the lists have the types and the lines of the parts. *)
Lemma parts_held (ps : list (Z * list (list Z))) : ∀ xs os,
  type <$> xs = fst <$> ps → Forall2 (λ '(x, ls) o, holds x ls o) (combine xs (snd <$> ps)) os →
  Forall2 (λ '(ty, ls) o, ∃ st h tl, o = Some (mkEntity st ty (Some h)) ∧ hrepr h ls tl) ps os.
Proof.
  induction ps as [|[ty l] ps IH]; intros [|x xs] os Htx Hall; cbn in *; try discriminate.
  - apply Forall2_nil_inv_l in Hall as ->. constructor.
  - injection Htx as Hx Htx. apply Forall2_cons_inv_l in Hall as (o & os' & (h & tl & -> & Hh) & Hall & ->).
    constructor; [|by eapply IH]. exists (start x), h, tl. by rewrite Hx.
Qed.

Lemma parse_client_header c xls sv p rqh rsh rql rsl body q :
  addressed c xls sv → acceptable c rqh rsh → awaiting q → p + 64 ≤ INT_MAX →
  zlen (concat (message_blocks rqh rsh rql rsl)) ≤ INT_MAX →
  fut_of (rd_conn (rq_reader q)) = request_head version agent c xls p rqh rsh rql rsl ++ body →
  zlen (fut_of (rd_conn (rq_reader q))) + zlen (rd_conn (rq_reader q)) < Z.of_nat fuel →
  ∃ q1, parse_header junk pipelining fuel true true t q = Ret (EC_100, q1) ∧ read_head c sv p rqh rsh rql rsl body q q1.
Proof.
  intros Had Hacc Haw Hp Hz Hf Hfu. pose proof Haw as [Hrd Hent Hrec Hargs].
  pose proof (head_clean c xls sv p rqh rsh rql rsl Had Hz) as Hcl. set (ls := icap_lines version agent c xls p rqh rsh rql rsl) in *.
  assert (Hne : ls ≠ []) by (unfold ls, icap_lines; by intros [_ [_ [=]]%app_nil]%app_nil).
  unfold request_head in Hf. fold ls in Hf. rewrite <- !app_assoc in Hf.
  destruct (read_icap_header_spec junk pipelining fuel _ _ ls _ Hrd Hcl Hne Hf Hfu)
    as (h1 & r1 & tl & Hread & Hb1 & Hu1 & Hz1 & Hs1 & Hun1 & Hloc & Hhdr & Hdata1 & _ & Hptr & Hlen & Hfit & Hms).
  destruct (ci_headers_unpack_spec h1 ls (CRLF ++ tl) Hne Hcl) as (h2 & Hunp & Hr2); try done; [rewrite Hs1; apply Hrd|].
  unfold parse_header. rewrite Hread. cbn [obind]. rewrite bool_decide_eq_true_2 by done. cbn [negb]. rewrite Hunp. cbn [obind].
  rewrite bool_decide_eq_true_2 by done. cbn [negb]. set (q0 := set_header h2 (set_header h1 (set_reader r1 q))).
  destruct (head_lines_read c xls sv p (set_mod (Some sv) (set_args [] (set_service (service (cl_req c)) (set_server (req_server (cl_req c)) (set_type (rtype (cl_req c)) q0))))) Had Hp)
    as (hs & b & Hhs & Hlr). cbn zeta in Hlr. set (q1 := set_mod (Some sv) _) in Hlr. set (q2 := if 0 <=? p then _ else _) in Hlr.
  set (el := bytes "Encapsulated: " ++ items_text (items c rqh rsh rql rsl)).
  set (rl := request_line (rtype (cl_req c)) (req_server (cl_req c)) (service (cl_req c)) []) in *.
  assert (Hls : ls = rl :: hs ++ [el]) by (unfold ls, icap_lines; rewrite app_assoc, Hhs; done).
  (* the request line *)
  rewrite (hr_index _ _ _ Hr2), (hr_buf _ _ _ Hr2), Hls, edit_cons. cbn [offs]. cbn [Z.to_nat drop].
  replace ((rl ++ NUL :: LF :: edit (hs ++ [el])) ++ CRLF ++ tl) with (rl ++ NUL :: LF :: edit (hs ++ [el]) ++ CRLF ++ tl) by by_app.
  destruct (ad_host _ _ _ Had) as [Hh1 Hh2]. destruct (ad_service _ _ _ Had) as (Hsv1 & Hsv2 & Hsv3).
  assert (Hm : is_method (rtype (cl_req c))) by (destruct (ad_method _ _ _ Had) as [-> | ->]; unfold is_method; tauto).
  assert (Hpr : ∀ s, parse_request t q0 (rl ++ NUL :: s) = Ret (EC_100, q1)).
  { intros s. unfold rl. rewrite parse_request_line; [|done|done|done|done|done|done|exact Hargs|constructor|done].
    by rewrite (find_request_service_spec _ sv); [|done|apply (ad_found _ _ _ Had)|apply (ad_offers _ _ _ Had)]. }
  change (drop (Z.to_nat 0) ?x) with x. rewrite Hpr. cbn [obind].
  rewrite bool_decide_eq_true_2 by done. cbn [negb].
  (* the other lines *)
  destruct (items_spec c rqh rsh rql rsl Hz) as (Hio & Hin & Hil & Hnb & Hty).
  destruct (process_encapsulated_spec junk (rq_encaps q) (items c rqh rsh rql rsl) (LF :: edit [] ++ CRLF ++ tl)) as (e & Hpe & Hfl & Hzt & Hhb);
    [split; [done|apply (rc_trash _ Hrec)]|done|done|lia|].
  assert (Henc2 : rq_encaps q2 = rq_encaps q) by (unfold q2; by destruct (0 <=? p)).
  pose proof (parse_lines_read junk q1 hs q2 Hlr [el] (rl ++ [NUL; LF]) (CRLF ++ tl) (set_encaps e q2) EC_100
    (λ pre, encapsulated_line_read q2 e _ pre tl ltac:(by rewrite Henc2))) as Hlines.
  replace ((rl ++ [NUL; LF]) ++ edit (hs ++ [el]) ++ CRLF ++ tl) with (rl ++ NUL :: LF :: edit (hs ++ [el]) ++ CRLF ++ tl) in Hlines by by_app.
  replace (zlen (rl ++ [NUL; LF])) with (0 + zlen rl + 2) in Hlines by zlia. rewrite Hlines. cbn [obind]. rewrite bool_decide_eq_true_2 by done. cbn [negb].
  assert (Hrt : rtype (set_encaps e q2) = rtype (cl_req c)) by (unfold q2; by destruct (0 <=? p)). rewrite Hrt.
  rewrite (acceptable_check c rqh rsh (rq_encaps (set_encaps e q2)) _ Hacc Hfl Hty). cbn [obind].
  eexists. split; [done|]. assert (Hwe : zlen (edit ls) = zlen (wire ls)) by (by rewrite zlen_wire).
  assert (Hr2' : ∃ b', rq_reader (set_encaps e q2) = mkReader (rd_stream r1) BHeader (buf h2) (rd_rbuf r1) (rd_conn r1) (rd_bytes_in r1) b').
  { unfold q2. destruct (0 <=? p); eexists; cbn; rewrite <- Hloc; done. }
  destruct Hr2' as (b' & Hrdr).
  split; try (unfold q2; by destruct (0 <=? p)); [by rewrite <- Hnb, <- Hhb| | | |]; rewrite ?Hrdr.
  - eapply (process_encapsulated_heads junk (rq_encaps q)); [done| |exact Hpe]. rewrite Hent. intros i x Hx. by apply lookup_replicate in Hx as [? _].
  - unfold unread, block_mem in Hun1 |- *. cbn [rd_loc rd_hdr rd_stream rd_conn]. rewrite Hloc, Hhdr in Hun1.
    rewrite (header_tail_slice h1 h2 ls tl _ _ (hr_buf _ _ _ Hr2) Hb1 Hptr Hwe), Hun1. f_equal.
    unfold blocks, http_parts, message_blocks, opt_block. destruct (is_some rqh), (is_some rsh); cbn; by rewrite ?app_nil_r.
  - split; [done|]. intros _. cbn. rewrite Hptr. split; [pose proof (zlen_nonneg (wire ls)); lia|].
    assert (zlen (buf h2) = zlen (buf h1)); [|lia]. rewrite (hr_buf _ _ _ Hr2), Hb1, !zlen_app, Hwe. lia.
  - cbn [rd_conn]. lia.
Qed.

(** C7: the server reads the request that the client of the same library sends, however it arrives: it
    has the method, the server, the service, the preview and what the client allows; every HTTP header
    list has the lines that the user gave the client, the request has a body when the client has a
    source, and the body is what the server reads next. *)
Theorem server_reads_client_request c xls sv p rqh rsh rql rsl body q :
  addressed c xls sv → acceptable c rqh rsh → sendable rqh rql → sendable rsh rsl → awaiting q → p + 64 ≤ INT_MAX →
  zlen (concat (message_blocks rqh rsh rql rsl)) ≤ INT_MAX →
  fut_of (rd_conn (rq_reader q)) = request_head version agent c xls p rqh rsh rql rsl ++ body →
  zlen (fut_of (rd_conn (rq_reader q))) + zlen (rd_conn (rq_reader q)) < Z.of_nat fuel →
  ∃ q1 q2 os y k,
    parse_header junk pipelining fuel true true t q = Ret (EC_100, q1) ∧
    rtype q1 = rtype (cl_req c) ∧ req_server q1 = req_server (cl_req c) ∧ service q1 = service (cl_req c) ∧ current_service_mod q1 = Some sv ∧
    preview q1 = (if 0 <=? p then p else preview q) ∧
    allow204 q1 = allow204 q || allow204 (cl_req c) ∧ allow206 q1 = allow206 q || allow206 (cl_req c) ∧
    hasbody (rq_encaps q1) = is_some (cl_source c) ∧
    parse_encaps_headers junk buggy fuel true q1 = Ret (Some EC_100, q2) ∧
    entities (rq_encaps q2) = os ++ Some y :: replicate k None ∧ type y = body_type c ∧
    Forall2 (λ '(ty, ls) o, ∃ st h tl, o = Some (mkEntity st ty (Some h)) ∧ hrepr h ls tl) (http_parts rqh rsh rql rsl) os ∧
    unread (rq_reader q2) = body.
Proof.
  intros Had Hacc Hrq Hrs Haw Hp Hz Hf Hfu.
  destruct (parse_client_header c xls sv p rqh rsh rql rsl body q Had Hacc Haw Hp Hz Hf Hfu) as (q1 & Hrun1 & H1).
  destruct (announced_parts c rqh rsh rql rsl _ (rh_filled _ _ _ _ _ _ _ _ _ _ H1) (rh_heads _ _ _ _ _ _ _ _ _ _ H1) Hrq Hrs Hz)
    as (xs & y & k & Hes & Hann & Htx & Hty & Hlx). destruct H1.
  destruct (parse_encaps_loop_spec junk buggy fuel xs 5 y (snd <$> http_parts rqh rsh rql rsl) [] (replicate k None) body q1 Hann Hes)
    as (q2 & os & Hrun & Hes2 & Hun2 & Hall); try done.
  exists q1, q2, os, y, k. split_and!; try done. by apply (parts_held _ xs).
Qed.
End serve_client.

(** ** A witness *)

Definition echo_service : ci_service_module := mkService (bytes "echo") (Z.lor ICAP_REQMOD ICAP_RESPMOD).

Definition server_request (evs : list net_event) : ci_request :=
  mkReq (-1) [] [] [] (-1) true false false None new_list fresh_encaps
    (mkReader new_rstream BNull (buf new_list) (fresh (λ _, 7) 0 BUFSIZE) evs 0 ci_buf_init).

Lemma server_reads_client_request_witness :
  let c := sample_client 5 [bytes "hello"; bytes " world"] [] in
  let body := preview_part false 5 (bytes "hello") in
  let x := request_head (bytes "0.5") None c [] 5 (Some sample_list) None sample_lines [] in
  let q := server_request (in_two 100 (x ++ body)) in
  ∃ q1 q2 os y k,
    parse_header (λ _, 7) true (Z.to_nat 3000) true true (mkTables [echo_service] [] None) q = Ret (EC_100, q1) ∧
    rtype q1 = rtype (cl_req c) ∧ req_server q1 = req_server (cl_req c) ∧ service q1 = service (cl_req c) ∧ current_service_mod q1 = Some echo_service ∧
    preview q1 = 5 ∧ allow204 q1 = allow204 q || allow204 (cl_req c) ∧ allow206 q1 = allow206 q || allow206 (cl_req c) ∧
    hasbody (rq_encaps q1) = is_some (cl_source c) ∧
    parse_encaps_headers (λ _, 7) true (Z.to_nat 3000) true q1 = Ret (Some EC_100, q2) ∧
    entities (rq_encaps q2) = os ++ Some y :: replicate k None ∧ type y = body_type c ∧
    Forall2 (λ '(ty, ls) o, ∃ st h tl, o = Some (mkEntity st ty (Some h)) ∧ hrepr h ls tl) (http_parts (Some sample_list) None sample_lines []) os ∧
    unread (rq_reader q2) = body.
Proof.
  intros c body x q. destruct (in_two_spec 100 (x ++ body)) as [Hf Hd].
  apply (server_reads_client_request (λ _, 7) true true (Z.to_nat 3000) (bytes "0.5") None (mkTables [echo_service] [] None) c [] echo_service 5 (Some sample_list) None sample_lines [] body q).
  - split; [by left| | |vm_compute; by intros [=]| |constructor|reflexivity|vm_compute; by intros [=]].
    + split; [by repeat constructor|vm_compute; by intros [=]].
    + split; [done|]. split; [by repeat constructor|vm_compute; by intros [=]].
    + constructor; [|constructor; [|constructor; [|constructor]]]; (split; [vm_compute; repeat constructor; done|by eexists _, _]).
  - by left.
  - intros _. split; [done|apply sample_clean].
  - by intros [=].
  - split; try done.
    split; [done|]. intros t x0 _ Hx. by apply lookup_replicate in Hx as [? _].
  - by vm_compute.
  - vm_compute. by intros [=].
  - exact Hf.
  - vm_compute. reflexivity.
Defined.
