(* ===== verification/ClientFaults.v ===== *)
(** * Where the client loses or repeats data (request_common.c) *)

From stdpp Require Import base list list_numbers strings numbers option.
From Stdlib Require Import ZArith Lia.
From S2P Require Import Prelude CString Chunks ReadBody SendBody Headers Encapsulated IcapHeader ParseRequest HttpApi Session Keepalive Client ClientSend ClientReceive.

Section faults.
Context {S W : Type} (junk : Z → Z) (source_read : S → Z → src_result * S) (dest_write : W → list Z → Z * W) (content : W → list Z).
Implicit Types c : client S W.

(** When the source gives the preview in two pieces, the second is stored over the first, and the end of the preview is
    what the memory held. *)
Theorem preview_pieces_overwritten c src d1 src1 d2 src2 :
  let p := preview (cl_req c) in
  cl_source c = Some src → source_read src p = (SrcData d1, src1) → source_read src1 (p - zlen d1) = (SrcData d2, src2) →
  0 < zlen d1 → 0 < zlen d2 → zlen d1 + zlen d2 = p →
  ∃ c' m, get_preview junk true source_read c = Ret (None, false, c') ∧ preview (cl_req c') = p ∧
    bbuf (rd_preview (cl_reader c')) = Some m ∧ bused (rd_preview (cl_reader c')) = p ∧
    slice m 0 p = d2 ++ drop (length d2) (d1 ++ drop (length d1) (fresh junk 0 p)).
Proof.
  intros p Hs H1 H2 Hz1 Hz2 Hp. assert (Hz : zlen (fresh junk 0 p) = p) by (rewrite zlen_fresh; lia).
  assert (Hw : zlen (splice (fresh junk 0 p) 0 d1) = p) by (rewrite zlen_splice; lia).
  assert (Hrd : preview_read source_read (Z.to_nat p) p (Some (fresh junk 0 p)) src = Ret (None, 0, false, Some (splice (splice (fresh junk 0 p) 0 d1) 0 d2), src2)).
  { destruct (Z.to_nat p) as [|[|k]] eqn:E; [lia|lia|]. cbn [preview_read]. rewrite (proj2 (Z.eqb_neq p 0)) by lia. rewrite H1.
    rewrite (proj2 (Z.eqb_neq (zlen d1) 0)), (proj2 (Z.ltb_ge p (zlen d1))) by lia. rewrite write_bytes_ok by lia. cbn [obind].
    rewrite (proj2 (Z.eqb_neq (p - zlen d1) 0)) by lia. rewrite H2.
    rewrite (proj2 (Z.eqb_neq (zlen d2) 0)), (proj2 (Z.ltb_ge (p - zlen d1) (zlen d2))) by lia. rewrite write_bytes_ok by lia. cbn [obind].
    replace (p - zlen d1 - zlen d2) with 0 by lia. by destruct k. }
  unfold get_preview. rewrite Hs. fold p. rewrite (proj2 (Z.ltb_lt 0 p)) by lia. cbn [ci_buf_mem_alloc bbuf]. rewrite Hrd. cbn [obind].
  eexists _, _. split; [done|]. cbn. rewrite Z.sub_0_r. split_and!; try done. rewrite slice_all by (by rewrite zlen_splice; lia).
  unfold splice. cbn [Z.to_nat take app]. done.
Qed.

(** A destination that takes one byte of what it is given. *)
Definition takes_one : Prop := ∀ w b d, ∃ w', dest_write w (b :: d) = (1, w') ∧ content w' = content w ++ [b].

(** A destination that takes less than it is offered is offered the same bytes again: one that takes a byte at a time
    gets the first byte of the data over and over. *)
Theorem short_write_repeats m wd b df c :
  takes_one → let n := write_to_module_pending (cl_stream c) in
  0 ≤ wd → 0 < n ≤ BUFSIZE → wd + n ≤ zlen m → m !! Z.to_nat wd = Some b → (Z.to_nat n ≤ df)%nat →
  ∃ c', dest_loop dest_write df m (Some wd) c = Ret (true, c') ∧ content (cl_dest c') = content (cl_dest c) ++ replicate (Z.to_nat n) b.
Proof.
  intros Hone n Hwd Hn Hm Hb Hdf.
  assert (Hloop : ∀ k df c, write_to_module_pending (cl_stream c) = Z.of_nat k → Z.of_nat k ≤ n → (k ≤ df)%nat →
    ∃ c', dest_loop dest_write df m (Some wd) c = Ret (true, c') ∧ content (cl_dest c') = content (cl_dest c) ++ replicate k b).
  { clear df Hdf. induction k as [|k IH]; intros df c0 Hp Hk Hd.
    - exists c0. rewrite app_nil_r. destruct df; cbn [dest_loop]; rewrite Hp; done.
    - destruct df as [|df]; [lia|]. cbn [dest_loop]. rewrite Hp, (proj2 (Z.ltb_lt 0 _)) by lia. unfold pending_data.
      rewrite read_bytes_ok by lia. cbn [obind].
      assert (Hsl : slice m wd (Z.of_nat (Datatypes.S k)) = b :: slice m (wd + 1) (Z.of_nat k)).
      { unfold slice. rewrite (drop_S _ _ _ Hb). rewrite !Nat2Z.id. cbn [take]. do 3 f_equal. lia. }
      rewrite Hsl. destruct (Hone (cl_dest c0) b (slice m (wd + 1) (Z.of_nat k))) as (w & -> & Hc). cbn [Z.ltb Z.compare].
      set (c1 := to_reader _ (to_dest w c0)). destruct (IH df c1) as (c' & -> & Hc'); [|lia|lia|].
      + cbn. unfold to_uint. rewrite Z.mod_small; [lia|]. unfold BUFSIZE in Hn. lia.
      + exists c'. split; [done|]. rewrite Hc'. cbn [replicate]. change (cl_dest c1) with w. by rewrite Hc, <- app_assoc. }
  apply Hloop; [|lia|done]. rewrite Z2Nat.id; [done|lia].
Qed.
End faults.

(** ** Witnesses *)

Definition faulty_client (pv n : Z) (l : list (list Z)) : client (list (list Z)) (list Z) :=
  let h := mkHeaders 64 [] 4 0 [7; 7; 7; 7] false in
  mkClient (mkReq ICAP_REQMOD [] [] [] pv true false false None h fresh_encaps
      (mkReader (mkRstream 0 0 0 0 n false (-1) 0 0 0) BNull [] [] [] 0 ci_buf_init))
    CLIENT_INIT (-1) (mkWstream [] 0 0 false false (-1) 0 0) CNull h h false false 0 (mkConn [] [] []) (Some l) [].

Definition read_piece (l : list (list Z)) (n : Z) : src_result * list (list Z) :=
  match l with [] => (SrcCode CI_EOF, []) | d :: l' => (SrcData d, l') end.

(** The preview of "abc" and "de" is "dec" and two bytes of the memory. *)
Lemma preview_pieces_overwritten_witness :
  ∃ c' m, get_preview (λ _, 7) true read_piece (faulty_client 5 0 [bytes "abc"; bytes "de"]) = Ret (None, false, c') ∧ preview (cl_req c') = 5 ∧
    bbuf (rd_preview (cl_reader c')) = Some m ∧ bused (rd_preview (cl_reader c')) = 5 ∧ slice m 0 5 = bytes "dec" ++ [7; 7].
Proof.
  apply (preview_pieces_overwritten (λ _, 7) read_piece (faulty_client 5 0 [bytes "abc"; bytes "de"]) [bytes "abc"; bytes "de"] (bytes "abc") [bytes "de"] (bytes "de") []);
    reflexivity.
Defined.

(** Of "xyz" a destination that takes a byte at a time gets "xxx". *)
Lemma short_write_repeats_witness :
  ∃ c', dest_loop (λ w d, match d with [] => (0, w) | b :: _ => (1, w ++ [b]) end) 3 (bytes "xyz") (Some 0) (faulty_client 0 3 []) = Ret (true, c') ∧
    cl_dest c' = bytes "xxx".
Proof.
  apply (short_write_repeats (λ w d, match d with [] => (0, w) | b :: _ => (1, w ++ [b]) end) id (bytes "xyz") 0 120 3 (faulty_client 0 3 []));
    try reflexivity; try lia.
  - intros w b d. by eexists.
  - vm_compute. by split; [|intros [=]].
Defined.
