(* ===== verification/ConnQueue.v ===== *)
(** * The queue of accepted connections (proc_threads_queues.c, net_io.c)

    A child process has one listener thread, which accepts connections and puts them in this queue, and worker
    threads, which take them out.  The queue is an array with a count.  Every access of [put_to_queue] and
    [get_from_queue] is made under the mutex of the queue, so that one call is one step of the process. *)

From stdpp Require Import base list numbers option.
From Stdlib Require Import ZArith Lia.
From S2P Require Import Prelude.

(** A connection that is not encrypted; the addresses are the bytes of their structures. *)
Record ci_connection_t := mkConnection {
  fd : Z;
  claddr : list Z;
  srvaddr : list Z;
  flags : Z
}.

#[export] Instance connection_eq_dec : EqDecision ci_connection_t.
Proof. solve_decision. Defined.

Definition ci_copy_connection (dest src : ci_connection_t) : ci_connection_t :=
  mkConnection (fd src) (claddr src) (srvaddr src) (flags src).

Record connections_queue := mkQueue {
  connections : list ci_connection_t;
  used : Z;
  size : Z
}.

(** [a] tells whether there was memory for the queue, [mtx] whether the mutexes and the condition were made; [mem] is
    what [malloc] gave for the array: [None] for no memory, else the array as the memory was.  When a mutex cannot be
    made the code frees [q->connections], which was never set. *)
Definition init_queue (a mtx : bool) (mem : option (list ci_connection_t)) (n : Z) : outcome (option connections_queue) :=
  if negb a then Ret None
  else if negb mtx then UB
  else Ret ((λ cs, mkQueue cs 0 n) <$> mem).

(** [lock] tells whether the mutex was taken; the caller signals the condition when the result is positive. *)
Definition put_to_queue (lock : bool) (q : connections_queue) (con : ci_connection_t) : outcome (Z * connections_queue) :=
  if negb lock then Ret (-1, q)
  else if used q =? size q then Ret (0, q)
  else
  let* old := arr_get (connections q) (used q) in
  let* cs := arr_set (connections q) (used q) (ci_copy_connection old con) in
  Ret (used q + 1, mkQueue cs (used q + 1) (size q)).

(** The result with the connection and the queue as they are left. *)
Definition get_from_queue (lock : bool) (q : connections_queue) (con : ci_connection_t) :
    outcome (Z * ci_connection_t * connections_queue) :=
  if negb lock then Ret (-1, con, q)
  else if used q =? 0 then Ret (0, con, q)
  else
  let n := used q - 1 in
  let* c := arr_get (connections q) n in
  Ret (1, ci_copy_connection con c, mkQueue (connections q) n (size q)).

(** ** The queue is a bounded stack *)

(** The connections in the queue, the one put last first. *)
Definition pending (q : connections_queue) : list ci_connection_t := reverse (take (Z.to_nat (used q)) (connections q)).

Record queue_wf (q : connections_queue) : Prop := {
  qw_used : 0 ≤ used q ≤ size q;
  qw_array : zlen (connections q) = size q
}.

Lemma copy_connection d c : ci_copy_connection d c = c.
Proof. by destruct c. Qed.

Lemma zlen_pending q : queue_wf q → zlen (pending q) = used q.
Proof. intros [Hu Ha]. unfold pending, zlen in *. rewrite length_reverse, length_take. lia. Qed.

Lemma pending_nil q : queue_wf q → pending q = [] ↔ used q = 0.
Proof.
  intros Hq. pose proof (zlen_pending q Hq) as Hz. split; [by intros H; rewrite H in Hz|].
  intros H. destruct (pending q); [done|]. rewrite zlen_cons in Hz. zlia.
Qed.

Lemma put_to_queue_spec lock q con :
  queue_wf q →
  ∃ n q', put_to_queue lock q con = Ret (n, q') ∧ queue_wf q' ∧ size q' = size q ∧
    ((n = -1 ∧ lock = false ∧ q' = q) ∨ (n = 0 ∧ lock = true ∧ q' = q ∧ zlen (pending q) = size q) ∨
     (0 < n ∧ lock = true ∧ n = zlen (pending q') ∧ pending q' = con :: pending q)).
Proof.
  intros Hq. pose proof (zlen_pending q Hq) as Hz. destruct Hq as [Hu Ha]. unfold put_to_queue. destruct lock; cbn [negb].
  2: { exists (-1), q. split_and!; [done|by split|done|by left]. }
  destruct (Z.eqb_spec (used q) (size q)) as [He|He].
  { exists 0, q. split_and!; [done|by split|done|]. right. left. split_and!; try done. lia. }
  destruct (lookup_lt_is_Some_2 (connections q) (Z.to_nat (used q))) as (old & Ho); [unfold zlen in Ha; lia|].
  rewrite (arr_get_lookup _ _ old) by (done || lia). cbn [obind]. rewrite arr_set_ok by lia. cbn [obind]. rewrite copy_connection.
  set (q' := mkQueue _ _ _). assert (Hq' : queue_wf q') by (split; cbn; [lia|by rewrite zlen_insert]).
  exists (used q + 1), q'. split; [done|]. split; [done|]. split; [done|]. right. right.
  split; [lia|]. split; [done|]. split; [by rewrite zlen_pending|].
  unfold pending, q'. cbn. replace (Z.to_nat (used q + 1)) with (S (Z.to_nat (used q))) by lia.
  rewrite (take_S_r _ _ con), reverse_app by (apply list_lookup_insert_eq; by eapply lookup_lt_Some). cbn [reverse app]. f_equal.
  by rewrite take_insert_ge.
Qed.

Lemma get_from_queue_spec lock q con :
  queue_wf q →
  ∃ n c q', get_from_queue lock q con = Ret (n, c, q') ∧ queue_wf q' ∧ size q' = size q ∧
    ((n = -1 ∧ lock = false ∧ q' = q ∧ c = con) ∨ (n = 0 ∧ lock = true ∧ q' = q ∧ c = con ∧ pending q = []) ∨
     (n = 1 ∧ lock = true ∧ pending q = c :: pending q')).
Proof.
  intros Hq. pose proof (pending_nil q Hq) as Hp. destruct Hq as [Hu Ha]. unfold get_from_queue. destruct lock; cbn [negb].
  2: { exists (-1), con, q. split_and!; [done|by split|done|by left]. }
  destruct (Z.eqb_spec (used q) 0) as [He|He].
  { exists 0, con, q. split_and!; [done|by split|done|]. right. left. by rewrite Hp. }
  destruct (lookup_lt_is_Some_2 (connections q) (Z.to_nat (used q - 1))) as (c & Hc); [unfold zlen in Ha; lia|].
  rewrite (arr_get_lookup _ _ c) by (done || lia). cbn [obind]. rewrite copy_connection.
  exists 1, c, (mkQueue (connections q) (used q - 1) (size q)). split; [done|]. split; [split; cbn; [lia|done]|]. split; [done|]. right. right.
  split; [done|]. split; [done|]. unfold pending. cbn. replace (Z.to_nat (used q)) with (S (Z.to_nat (used q - 1))) by lia.
  by rewrite (take_S_r _ _ c), reverse_app.
Qed.

(** ** Properties *)

(** The calls of the queue, in the order in which they take the mutex. *)
Inductive queue_call := Put (con : ci_connection_t) | Get.

(** What the calls answer: the result, and the connection that [get_from_queue] gives. *)
Fixpoint run_calls (cs : list queue_call) (q : connections_queue) : outcome (list (Z * option ci_connection_t) * connections_queue) :=
  match cs with
  | [] => Ret ([], q)
  | Put c :: cs =>
      let* (n, q) := put_to_queue true q c in
      let* (rs, q) := run_calls cs q in Ret ((n, None) :: rs, q)
  | Get :: cs =>
      let* (n, c, q) := get_from_queue true q (mkConnection 0 [] [] 0) in
      let* (rs, q) := run_calls cs q in Ret ((n, if n =? 1 then Some c else None) :: rs, q)
  end.

(** A stack of at most [n] connections. *)
Fixpoint stack_calls (n : Z) (cs : list queue_call) (l : list ci_connection_t) : list (Z * option ci_connection_t) * list ci_connection_t :=
  match cs with
  | [] => ([], l)
  | Put c :: cs =>
      let (r, l) := if zlen l =? n then (0, l) else (zlen l + 1, c :: l) in
      let (rs, l) := stack_calls n cs l in ((r, None) :: rs, l)
  | Get :: cs =>
      let '(r, l) := match l with [] => ((0, None), []) | c :: l => ((1, Some c), l) end in
      let (rs, l) := stack_calls n cs l in (r :: rs, l)
  end.

(** The queue of connections is a bounded stack: the connection accepted last is served first. *)
Theorem connections_queue_is_stack cs q :
  queue_wf q →
  ∃ q', run_calls cs q = Ret (fst (stack_calls (size q) cs (pending q)), q') ∧ queue_wf q' ∧
    pending q' = snd (stack_calls (size q) cs (pending q)).
Proof.
  revert q. induction cs as [|[c|] cs IH]; intros q Hq; cbn [run_calls stack_calls]; [by exists q| |].
  - destruct (put_to_queue_spec true q c Hq) as (n & q1 & -> & Hq1 & Hs & Hc). cbn [obind].
    destruct (IH q1 Hq1) as (q2 & H2 & Hq2 & Hp). rewrite H2, Hs in *. cbn [obind].
    destruct Hc as [(_ & ? & _) | [(-> & _ & -> & Hz) | (Hn & _ & Hz & Hpc)]]; [done| |].
    + rewrite Hz, Z.eqb_refl. exists q2. by destruct (stack_calls _ _ _).
    + rewrite Hpc, zlen_cons in Hz. rewrite (proj2 (Z.eqb_neq _ _)).
      * rewrite <- Hpc. exists q2. replace (zlen (pending q) + 1) with n by lia. by destruct (stack_calls _ _ _).
      * pose proof (zlen_pending q1 Hq1) as Hz1. rewrite Hpc, zlen_cons in Hz1. destruct Hq1. lia.
  - destruct (get_from_queue_spec true q (mkConnection 0 [] [] 0) Hq) as (n & c & q1 & -> & Hq1 & Hs & Hc). cbn [obind].
    destruct (IH q1 Hq1) as (q2 & H2 & Hq2 & Hp). rewrite H2, Hs in *. cbn [obind].
    destruct Hc as [(_ & ? & _) | [(-> & _ & -> & _ & Hn) | (-> & _ & Hpc)]]; [done| |].
    + rewrite Hn in *. exists q2. by destruct (stack_calls _ _ _).
    + rewrite Hpc in *. exists q2. by destruct (stack_calls _ _ _).
Qed.

Lemma connections_queue_is_stack_witness :
  let c n := mkConnection n [] [] 0 in
  let q := mkQueue (replicate 2 (c 0)) 0 2 in
  queue_wf q ∧ ∃ q', run_calls [Get; Put (c 5); Put (c 6); Put (c 7); Get; Get] q =
    Ret ([(0, None); (1, None); (2, None); (0, None); (1, Some (c 6)); (1, Some (c 5))], q').
Proof.
  intros c q. assert (Hq : queue_wf q) by (split; [cbn; lia|done]). split; [exact Hq|].
  destruct (connections_queue_is_stack [Get; Put (c 5); Put (c 6); Put (c 7); Get; Get] q Hq) as (q' & H & _).
  exists q'. exact H.
Defined.
