(* ===== verification/Workers.v ===== *)
(** * A child process of the server (mpmt_server.c)

    A child process runs a listener thread, which accepts connections and puts them in the queue, worker threads,
    which take connections from the queue and serve their requests, and its first thread, which waits for the
    parent.  They share the counters of the child, the queue and two conditions.  The model is a machine with one
    place for each point of the code at which another thread may come in between: a step reads or changes the shared
    state once, and a section of code under a mutex is one step.  What the system, the client and the parent do is in
    the [answer] that a step is given.  Connections are not encrypted; the counters do not overflow. *)

From stdpp Require Import base list numbers option.
From Stdlib Require Import ZArith Lia.
From S2P Require Import Prelude Chunks ConnQueue.

Inductive KILL_MODE := NO_KILL | GRACEFULLY | IMMEDIATELY.

#[export] Instance kill_eq_dec : EqDecision KILL_MODE.
Proof. solve_decision. Defined.

Definition killed (k : KILL_MODE) : bool := negb (bool_decide (k = NO_KILL)).
Definition at_once (k : KILL_MODE) : bool := bool_decide (k = IMMEDIATELY).

(** The part of [child_shared_data_t] the threads use. *)
Record child_shared_data := mkShared {
  to_be_killed : KILL_MODE;
  father_said : KILL_MODE;
  freeservers : Z;
  usedservers : Z;
  requests : Z;
  connections_num : Z;
  idle : bool
}.

(** Where a worker is in [thread_main]; [k] is [keepalive_reqs], [st] is [request_status]. *)
Inductive wpc :=
| WTop                    (* the head of the loop *)
| WGet                    (* before [get_from_queue] *)
| WEmpty                  (* the queue was empty *)
| WWait                   (* before [wait_for_queue] *)
| WWaiting                (* waiting for the condition of the queue *)
| WWoken                  (* the condition was signalled *)
| WGot                    (* has a connection *)
| WOpen                   (* counted, before [newrequest] or [recycle_request] *)
| WServe (k : Z)          (* the head of the keep-alive loop *)
| WProcess (k : Z)        (* before [process_request] *)
| WCount (k st : Z)       (* before the request is counted *)
| WKilled (k st : Z)      (* before the test for IMMEDIATELY *)
| WGraceful (k st : Z)    (* before the test for GRACEFULLY *)
| WAgain (k st : Z)       (* before [keepalive_request] *)
| WClose (st : Z)         (* before the connection is closed *)
| WEnd                    (* end_of_main_loop_thread *)
| WSignal                 (* before the listener is signalled *)
| WDone.                  (* returned *)

#[export] Instance wpc_eq_dec : EqDecision wpc.
Proof. solve_decision. Defined.

(** The part of a request that the loop of the worker uses: its own copy of the connection. *)
Record current := mkCurrent { rq_connection : ci_connection_t; rq_keepalive : bool }.

Record server_decl := mkServer {
  pc : wpc;
  con : ci_connection_t;
  current_req : option current;
  served_requests : Z;
  served_requests_no_reallocation : Z;
  running : bool
}.

(** Where the listener is in [listener_thread]; [rdy] has the ports that are still to be looked at. *)
Inductive lpc :=
| LInit | LStart | LTop | LLock | LPoll
| LPorts (rdy : list bool)
| LPut (conn : ci_connection_t) (rdy : list bool)
| LSignal (rdy : list bool)
| LKill | LHas | LUnlock | LCheck | LWait | LFails | LDone.

(** Where the first thread is in [child_main]. *)
Inductive mpc := MBoot | MStart | MGo | MLoop | MPipe | MListen | MCancel | MBroadcast | MJoin | MDone.

(** [fds] are the open descriptors of accepted connections; [lost] are the connections the listener dropped. *)
Record child := mkChild {
  child_data : child_shared_data;
  con_queue : connections_queue;
  threads_list : list server_decl;
  listener : lpc;
  jobs_in_queue : Z;
  listener_running : bool;
  main_thread : mpc;
  fds : list Z;
  lost : list ci_connection_t
}.

(** What a step is told: success or failure of a call, and the rest by the call. *)
Inductive answer :=
| Go | Fails | Interrupted
| Access (allow : bool)                       (* [access_check_client] *)
| Processed (status : Z) (keep : bool)        (* [process_request], and whether it leaves keepalive *)
| More (b : bool)                             (* [keepalive_request] *)
| Ready (rdy : list bool)                     (* [poll] *)
| Accepted (n : Z) (cl srv : list Z)          (* [accept] *)
| Aborted                                     (* [accept], ECONNABORTED *)
| Wakes (i : option nat).                     (* the thread that a signal wakes *)

Inductive event :=
| Worker (i : nat) (a : answer)
| Listener (a : answer)
| Main (a : answer)
| Spurious (i : nat)                          (* a worker leaves its wait without a signal *)
| SpuriousListener
| FatherSays (k : KILL_MODE)                  (* the parent writes father_said *)
| Term.                                       (* SIGTERM *)

(** ** Changing the state *)

Definition with_data (d : child_shared_data) (s : child) : child :=
  mkChild d (con_queue s) (threads_list s) (listener s) (jobs_in_queue s) (listener_running s) (main_thread s) (fds s) (lost s).
Definition with_queue (q : connections_queue) (s : child) : child :=
  mkChild (child_data s) q (threads_list s) (listener s) (jobs_in_queue s) (listener_running s) (main_thread s) (fds s) (lost s).
Definition with_threads (ws : list server_decl) (s : child) : child :=
  mkChild (child_data s) (con_queue s) ws (listener s) (jobs_in_queue s) (listener_running s) (main_thread s) (fds s) (lost s).
Definition with_listener (l : lpc) (s : child) : child :=
  mkChild (child_data s) (con_queue s) (threads_list s) l (jobs_in_queue s) (listener_running s) (main_thread s) (fds s) (lost s).
Definition with_jobs (n : Z) (s : child) : child :=
  mkChild (child_data s) (con_queue s) (threads_list s) (listener s) n (listener_running s) (main_thread s) (fds s) (lost s).
Definition with_running (b : bool) (s : child) : child :=
  mkChild (child_data s) (con_queue s) (threads_list s) (listener s) (jobs_in_queue s) b (main_thread s) (fds s) (lost s).
Definition with_main (m : mpc) (s : child) : child :=
  mkChild (child_data s) (con_queue s) (threads_list s) (listener s) (jobs_in_queue s) (listener_running s) m (fds s) (lost s).
Definition with_fds (f : list Z) (s : child) : child :=
  mkChild (child_data s) (con_queue s) (threads_list s) (listener s) (jobs_in_queue s) (listener_running s) (main_thread s) f (lost s).
Definition lose (c : ci_connection_t) (s : child) : child :=
  mkChild (child_data s) (con_queue s) (threads_list s) (listener s) (jobs_in_queue s) (listener_running s) (main_thread s) (fds s) (c :: lost s).

Definition set_kill (k : KILL_MODE) (s : child) : child :=
  let d := child_data s in
  with_data (mkShared k (father_said d) (freeservers d) (usedservers d) (requests d) (connections_num d) (idle d)) s.
Definition set_father (k : KILL_MODE) (s : child) : child :=
  let d := child_data s in
  with_data (mkShared (to_be_killed d) k (freeservers d) (usedservers d) (requests d) (connections_num d) (idle d)) s.
Definition set_idle (b : bool) (s : child) : child :=
  let d := child_data s in
  with_data (mkShared (to_be_killed d) (father_said d) (freeservers d) (usedservers d) (requests d) (connections_num d) b) s.
(** [free] more free servers, [req] more requests, [conn] more connections. *)
Definition count (free req conn : Z) (s : child) : child :=
  let d := child_data s in
  with_data (mkShared (to_be_killed d) (father_said d) (freeservers d + free) (usedservers d - free) (requests d + req)
    (connections_num d + conn) (idle d)) s.

(** [close(n)]: a descriptor that is not open is refused by the system. *)
Definition close_fd (n : Z) (s : child) : child := with_fds (filter (λ m, m ≠ n) (fds s)) s.

Definition at_pc (p : wpc) (w : server_decl) : server_decl :=
  mkServer p (con w) (current_req w) (served_requests w) (served_requests_no_reallocation w) (running w).
Definition with_con (c : ci_connection_t) (w : server_decl) : server_decl :=
  mkServer (pc w) c (current_req w) (served_requests w) (served_requests_no_reallocation w) (running w).
Definition with_req (r : option current) (w : server_decl) : server_decl :=
  mkServer (pc w) (con w) r (served_requests w) (served_requests_no_reallocation w) (running w).
Definition with_served (n m : Z) (w : server_decl) : server_decl :=
  mkServer (pc w) (con w) (current_req w) n m (running w).
(** [srv->running = 0; return]. *)
Definition stop (w : server_decl) : server_decl :=
  mkServer WDone (con w) (current_req w) (served_requests w) (served_requests_no_reallocation w) false.

(** ** The steps

    [Ret None] says that the thread cannot make a step with this answer; [UB] that its step is undefined. *)

Section threads.
Context (nports MAX_KEEPALIVE_REQUESTS MAX_REQUESTS_BEFORE_REALLOCATE_MEM : Z).

Definition goes (s : child) : outcome (option child) := Ret (Some s).
Definition blocked : outcome (option child) := Ret None.

(** Worker [i] becomes [w]. *)
Definition put_worker (i : nat) (w : server_decl) (s : child) : child := with_threads (<[i := w]> (threads_list s)) s.

(** [ci_thread_cond_signal(&free_server_cond)]: only the listener waits for it. *)
Definition signal_listener (s : child) : child :=
  match listener s with LStart | LWait => with_listener LTop s | _ => s end.

(** [ci_connection_hard_close] of a connection the caller holds. *)
Definition hard_close (c : ci_connection_t) : ci_connection_t := mkConnection (-1) (claddr c) (srvaddr c) (flags c).

(** [newrequest] and [recycle_request] on [con], with the answer of the access list. *)
Definition open_request (i : nat) (w : server_decl) (allow : bool) (s : child) : child :=
  let r := match current_req w with
    | None => if allow then Some (mkCurrent (ci_copy_connection (con w) (con w)) true) else None
    | Some r => Some (mkCurrent (ci_copy_connection (rq_connection r) (con w)) true)
    end in
  if allow then put_worker i (at_pc (WServe 0) (with_req r w)) s
  else close_fd (fd (con w)) (put_worker i (at_pc WEnd (with_con (hard_close (con w)) (with_req r w))) s).

(** The end of the body of the loop: the connection is closed and the request is perhaps destroyed. *)
Definition close_request (i : nat) (w : server_decl) (st : Z) (s : child) : child :=
  let (w, s) := match current_req w with
    | None => (w, s)
    | Some r =>
        let s' := close_fd (fd (rq_connection r)) s in
        if negb (st =? CI_OK) || killed (to_be_killed (child_data s))
        then (with_req (Some (mkCurrent (hard_close (rq_connection r)) (rq_keepalive r))) w, s')
        else (w, s')
    end in
  let w := if MAX_REQUESTS_BEFORE_REALLOCATE_MEM <? served_requests_no_reallocation w
           then with_served (served_requests w) 0 (with_req None w) else w in
  put_worker i (at_pc WEnd w) s.

(** A step of [thread_main]. *)
Definition thread_main (i : nat) (w : server_decl) (a : answer) (s : child) : outcome (option child) :=
  let kill := to_be_killed (child_data s) in
  let go p := goes (put_worker i (at_pc p w) s) in
  match pc w, a with
  | WTop, Go => if at_once kill then goes (put_worker i (stop w) s) else go WGet
  | WGet, (Go | Fails) =>
      let* (n, c, q) := get_from_queue (match a with Go => true | _ => false end) (con_queue s) (con w) in
      if n =? 0 then go WEmpty
      else if n <? 0 then goes (put_worker i (stop w) s)
      else goes (put_worker i (at_pc WGot (with_con c w)) (with_queue q s))
  | WEmpty, Go => if killed kill then goes (put_worker i (stop w) s) else go WWait
  | WWait, Go => go WWaiting
  | WWait, Fails => goes (put_worker i (stop w) s)
  | WWoken, Go => go WTop
  | WWoken, Fails => goes (put_worker i (stop w) s)
  | WGot, Go => goes (count (-1) 0 0 (put_worker i (at_pc WOpen w) s))
  | WOpen, Access allow => goes (open_request i w allow s)
  | WServe k, Go =>
      match current_req w with
      | None => UB
      | Some r =>
          let ka := rq_keepalive r && negb ((0 <? MAX_KEEPALIVE_REQUESTS) && (MAX_KEEPALIVE_REQUESTS <=? k)) && negb (killed kill) in
          goes (put_worker i (at_pc (WProcess k) (with_req (Some (mkCurrent (rq_connection r) ka)) w)) s)
      end
  | WProcess k, Processed st keep =>
      match current_req w with
      | None => UB
      | Some r =>
          if st =? CI_NO_STATUS
          then goes (close_fd (fd (rq_connection r))
                 (put_worker i (at_pc (WClose st) (with_req (Some (mkCurrent (hard_close (rq_connection r)) true)) w)) s))
          else goes (put_worker i (at_pc (WCount (k + 1) st)
                 (with_served (served_requests w + 1) (served_requests_no_reallocation w + 1)
                   (with_req (Some (mkCurrent (rq_connection r) (rq_keepalive r && keep))) w))) s)
      end
  | WCount k st, Go => goes (count 0 1 0 (put_worker i (at_pc (WKilled k st) w) s))
  | WKilled k st, Go => if at_once kill then go (WClose st) else go (WGraceful k st)
  | WGraceful k st, Go =>
      match current_req w with
      | None => UB
      | Some r => if bool_decide (kill = GRACEFULLY) && negb (rq_keepalive r) then go (WClose st) else go (WAgain k st)
      end
  | WAgain k st, More b =>
      match current_req w with
      | None => UB
      | Some r =>
          if rq_keepalive r
          then goes (put_worker i (at_pc (if b then WServe k else WClose st) (with_req (Some (mkCurrent (rq_connection r) true)) w)) s)
          else go (WClose st)
      end
  | WClose st, Go => goes (close_request i w st s)
  | WEnd, Go => goes (count 1 0 0 (put_worker i (at_pc WSignal w) s))
  | WSignal, Go => goes (signal_listener (put_worker i (at_pc WTop w) s))
  | _, _ => blocked
  end.

(** The listener leaves its loop: with the lock of the accepting process, or without it. *)
Definition listener_fails (s : child) : child := with_listener LFails (with_running false s).
Definition listener_ends (s : child) : child := with_listener LDone (with_running false s).

(** A worker that waits for the queue is woken. *)
Definition wake (w : server_decl) : server_decl := if bool_decide (pc w = WWaiting) then at_pc WWoken w else w.

(** [ci_thread_cond_signal(&q->queue_cond)] wakes one of the workers that wait, if there are any. *)
Definition signal_queue (o : option nat) (s : child) : option child :=
  match o with
  | Some i => w ← threads_list s !! i; if bool_decide (pc w = WWaiting) then Some (put_worker i (wake w) s) else None
  | None => if forallb (λ w, negb (bool_decide (pc w = WWaiting))) (threads_list s) then Some s else None
  end.

(** A step of [listener_thread]. *)
Definition listener_thread (a : answer) (s : child) : outcome (option child) :=
  let d := child_data s in
  let go l := goes (with_listener l s) in
  match listener s, a with
  | LInit, Go => goes (with_listener LStart (with_running true s))
  | LTop, Go => if killed (to_be_killed d) then goes (listener_ends s) else go LLock
  | LLock, Go => goes (with_listener LPoll (set_idle false s))
  | LLock, Interrupted => go LTop
  | LLock, Fails => goes (listener_ends s)
  | LPoll, Ready rdy => if zlen rdy =? nports then go (LPorts rdy) else blocked
  | LPoll, Interrupted => if killed (to_be_killed d) then goes (listener_fails s) else go LPoll
  | LPoll, Fails => goes (listener_fails s)
  | LPorts [], Go => go LKill
  | LPorts (false :: rdy), Go => go (LPorts rdy)
  | LPorts (true :: rdy), Accepted n cl srv =>
      if (0 <=? n) && negb (bool_decide (n ∈ fds s))
      then goes (with_listener (LPut (mkConnection n cl srv 0) rdy) (with_fds (n :: fds s) s))
      else blocked
  | LPorts (true :: rdy), Interrupted => if killed (to_be_killed d) then goes (listener_fails s) else go (LPorts (true :: rdy))
  | LPorts (true :: rdy), Aborted => if killed (to_be_killed d) then goes (listener_fails s) else go (LPorts rdy)
  | LPorts (true :: rdy), Fails => goes (listener_fails s)
  | LPut c rdy, (Go | Fails) =>
      let* (n, q) := put_to_queue (match a with Go => true | _ => false end) (con_queue s) c in
      let s := with_jobs n s in
      if n =? 0 then goes (listener_fails (lose c s))
      else if n <? 0 then goes (count 0 0 1 (with_listener (LPorts rdy) (lose c s)))
      else goes (with_listener (LSignal rdy) (with_queue q s))
  | LSignal rdy, Wakes o =>
      match signal_queue o s with
      | Some s => goes (count 0 0 1 (with_listener (LPorts rdy) s))
      | None => blocked
      end
  | LKill, Go => if killed (to_be_killed d) then goes (listener_fails s) else go LHas
  | LHas, Go => if 0 <? freeservers d - jobs_in_queue s then go LPoll else goes (with_listener LUnlock (set_idle true s))
  | LUnlock, Go => go LCheck
  | LUnlock, Interrupted => go LUnlock
  | LUnlock, Fails => goes (listener_ends s)
  | LCheck, Go => if freeservers d - used (con_queue s) <=? 0 then go LWait else go LTop
  | LFails, (Go | Fails) => go LDone
  | LFails, Interrupted => go LFails
  | _, _ => blocked
  end.

(** A step of [child_main] after the threads were made. *)
Definition child_main (a : answer) (s : child) : outcome (option child) :=
  let d := child_data s in
  let go m := goes (with_main m s) in
  match main_thread s, a with
  | MBoot, Go => goes (with_main MStart (if killed (father_said d) then set_kill IMMEDIATELY s else s))
  | MStart, Go => go (if listener_running s then MGo else MStart)
  | MGo, Go => goes (with_main MLoop (signal_listener s))
  | MLoop, Go => go (if killed (to_be_killed d) then MCancel else MPipe)
  | MPipe, Go => go MListen
  | MPipe, Fails => goes (with_main MListen (set_kill IMMEDIATELY s))
  | MListen, Go =>
      goes (with_main MLoop (if negb (listener_running s) && negb (killed (to_be_killed d)) then set_kill GRACEFULLY s else s))
  | MCancel, Go => goes (if listener_running s then signal_listener s else with_main MBroadcast s)
  | MCancel, Fails => go MBroadcast
  | MBroadcast, Go => goes (with_main MJoin (with_threads (wake <$> threads_list s) s))
  | MJoin, Go => if forallb (λ w, negb (running w)) (threads_list s) then go MDone else blocked
  | MJoin, Fails => if at_once (to_be_killed d) then go MDone else blocked
  | _, _ => blocked
  end.

Definition term_handler_child (s : child) : child :=
  set_kill (if killed (father_said (child_data s)) then father_said (child_data s) else IMMEDIATELY) s.

Definition step (e : event) (s : child) : outcome (option child) :=
  match e with
  | Worker i a => match threads_list s !! i with Some w => thread_main i w a s | None => blocked end
  | Listener a => listener_thread a s
  | Main a => child_main a s
  | Spurious i => Ret (signal_queue (Some i) s)
  | SpuriousListener => goes (signal_listener s)
  | FatherSays k => goes (set_father k s)
  | Term => goes (term_handler_child s)
  end.

Fixpoint run (es : list event) (s : child) : outcome (option child) :=
  match es with
  | [] => goes s
  | e :: es => let* o := step e s in match o with Some s => run es s | None => blocked end
  end.
End threads.

(** A new child: [newthread] for every worker, and [register_child]. *)
Definition newthread (c : ci_connection_t) : server_decl := mkServer WTop c None 0 0 true.

Definition new_child (n : nat) (c : ci_connection_t) (q : connections_queue) : child :=
  mkChild (mkShared NO_KILL NO_KILL (Z.of_nat n) 0 0 0 true) q (replicate n (newthread c)) LInit 0 false MBoot [] [].
