(* ===== verification/WorkersSafe.v ===== *)
(** * The threads of a child process keep its state in order

    Whatever the clients, the system and the parent do, and in whatever order the threads come to run: no step
    is undefined, the counters tell how many workers are serving, and every open connection has exactly one owner. *)

From stdpp Require Import base list numbers option sets.
From Stdlib Require Import ZArith Lia.
From S2P Require Import Prelude Chunks ConnQueue Workers.

(** ** The invariant *)

(** The descriptor of a connection, if it is open. *)
Definition open_fd (c : ci_connection_t) : list Z := if fd c <? 0 then [] else [fd c].

(** The connection a worker holds. *)
Definition held (w : server_decl) : list Z :=
  match pc w with
  | WGot | WOpen => [fd (con w)]
  | WServe _ | WProcess _ | WCount _ _ | WKilled _ _ | WGraceful _ _ | WAgain _ _ | WClose _ =>
      match current_req w with Some r => open_fd (rq_connection r) | None => [] end
  | _ => []
  end.

(** A worker that is counted as used. *)
Definition busy (w : server_decl) : bool :=
  match pc w with
  | WOpen | WServe _ | WProcess _ | WCount _ _ | WKilled _ _ | WGraceful _ _ | WAgain _ _ | WClose _ | WEnd => true
  | _ => false
  end.

Definition busy_workers (ws : list server_decl) : Z := zlen (filter (λ w, busy w = true) ws).

Definition listener_holds (l : lpc) : list Z := match l with LPut c _ => [fd c] | _ => [] end.

(** The descriptors of the connections the child still has: waiting, being served, just accepted, and dropped. *)
Definition owned (s : child) : list Z :=
  (fd <$> pending (con_queue s)) ++ concat (held <$> threads_list s) ++ listener_holds (listener s) ++ (fd <$> lost s).

(** What a worker relies on: it has a request while it serves, and has served no more requests of the connection
    than it may. *)
Definition worker_ok (max : Z) (w : server_decl) : Prop :=
  match pc w with
  | WServe k => current_req w ≠ None ∧ 0 ≤ k ∧ (0 < max → k ≤ max)
  | WProcess k => ∃ r, current_req w = Some r ∧ 0 ≤ k ∧ (0 < max → k ≤ max ∧ (k = max → rq_keepalive r = false))
  | WCount k _ | WKilled k _ | WGraceful k _ | WAgain k _ =>
      ∃ r, current_req w = Some r ∧ 0 ≤ k ∧ (0 < max → k ≤ max + 1 ∧ (k = max + 1 → rq_keepalive r = false))
  | _ => True
  end.

Record inv (max : Z) (s : child) : Prop := {
  iv_queue : queue_wf (con_queue s);
  iv_free : freeservers (child_data s) = zlen (threads_list s) - busy_workers (threads_list s);
  iv_used : usedservers (child_data s) = busy_workers (threads_list s);
  iv_fds : fds s ≡ₚ owned s;
  iv_nodup : NoDup (fds s);
  iv_open : Forall (λ n, 0 ≤ n) (fds s);
  iv_workers : Forall (worker_ok max) (threads_list s)
}.

(** ** One worker of many *)

Definition busyZ (w : server_decl) : Z := if busy w then 1 else 0.

Lemma busy_workers_app ws vs : busy_workers (ws ++ vs) = busy_workers ws + busy_workers vs.
Proof. unfold busy_workers. by rewrite filter_app, zlen_app. Qed.

Lemma busy_workers_cons w ws : busy_workers (w :: ws) = busyZ w + busy_workers ws.
Proof.
  unfold busy_workers, busyZ. destruct (busy w) eqn:E.
  - rewrite filter_cons_True by done. by rewrite zlen_cons.
  - rewrite filter_cons_False by (by rewrite E). lia.
Qed.

Lemma busy_workers_insert ws i w w' :
  ws !! i = Some w → busy_workers (<[i := w']> ws) = busy_workers ws - busyZ w + busyZ w'.
Proof.
  intros Hi. rewrite <- (take_drop_middle ws i w Hi) at 2. rewrite insert_take_drop by (by eapply lookup_lt_Some).
  rewrite !busy_workers_app, !busy_workers_cons. lia.
Qed.

Lemma busy_workers_bound ws : 0 ≤ busy_workers ws ≤ zlen ws.
Proof. unfold busy_workers, zlen. pose proof (length_filter (λ w, busy w = true) ws). lia. Qed.

Lemma held_insert ws i w :
  ws !! i = Some w →
  ∃ R, concat (held <$> ws) ≡ₚ held w ++ R ∧ ∀ w', concat (held <$> <[i := w']> ws) ≡ₚ held w' ++ R.
Proof.
  intros Hi. exists (concat (held <$> take i ws) ++ concat (held <$> drop (S i) ws)).
  assert (Hw : ∀ v, concat (held <$> take i ws ++ v :: drop (S i) ws) ≡ₚ
    held v ++ concat (held <$> take i ws) ++ concat (held <$> drop (S i) ws)).
  { intros v. rewrite fmap_app, concat_app. cbn [fmap list_fmap concat]. by rewrite !app_assoc, (Permutation_app_comm (held v)). }
  split; [by rewrite <- (take_drop_middle ws i w Hi) at 1|].
  intros w'. by rewrite insert_take_drop by (by eapply lookup_lt_Some).
Qed.

(** ** What keeps the invariant *)

Section keeps.
Context (max : Z).

(** Worker [i] becomes [w'], and the queue and the descriptors change with it. *)
Lemma inv_worker s i w w' d q f :
  inv max s → threads_list s !! i = Some w → queue_wf q → worker_ok max w' →
  freeservers d = freeservers (child_data s) + busyZ w - busyZ w' →
  usedservers d = usedservers (child_data s) - busyZ w + busyZ w' →
  (∀ R, fds s ≡ₚ (fd <$> pending (con_queue s)) ++ held w ++ R → f ≡ₚ (fd <$> pending q) ++ held w' ++ R) →
  NoDup f → Forall (λ n, 0 ≤ n) f →
  inv max (mkChild d q (<[i := w']> (threads_list s)) (listener s) (jobs_in_queue s) (listener_running s) (main_thread s) f (lost s)).
Proof.
  intros [Hq Hf Hu Hp Hn Ho Hw] Hi Hq' Hok Hd1 Hd2 HR Hn' Ho'. destruct (held_insert _ i w Hi) as (R & HR1 & HR2).
  split; cbn; try done.
  - rewrite zlen_insert, (busy_workers_insert _ _ w) by done. lia.
  - rewrite (busy_workers_insert _ _ w) by done. lia.
  - unfold owned in *. cbn. rewrite HR2, <- app_assoc. apply HR. by rewrite Hp, HR1, <- app_assoc.
  - by apply Forall_insert.
Qed.

Lemma inv_move s i w w' :
  inv max s → threads_list s !! i = Some w → worker_ok max w' → held w' = held w → busy w' = busy w → inv max (put_worker i w' s).
Proof.
  intros Hs Hi Hok Hh Hb. pose proof Hs as [Hq _ _ _ Hn Ho _].
  apply (inv_worker s i w); try done; [cbn; unfold busyZ; rewrite Hb; lia..|]. intros R HR. by rewrite Hh.
Qed.

(** The worker takes a connection off the queue. *)
Lemma inv_take s i w w' q c :
  inv max s → threads_list s !! i = Some w → worker_ok max w' → queue_wf q → pending (con_queue s) = c :: pending q →
  held w = [] → held w' = [fd c] → busy w' = busy w → inv max (put_worker i w' (with_queue q s)).
Proof.
  intros Hs Hi Hok Hq' Hc Hh Hh' Hb. pose proof Hs as [Hq _ _ _ Hn Ho _].
  apply (inv_worker s i w); try done; [cbn; unfold busyZ; rewrite Hb; lia..|].
  intros R. rewrite Hc, Hh, Hh'. cbn. intros ->. by rewrite Permutation_middle.
Qed.

(** Closing a connection takes its descriptor, and no other, from the open ones. *)
Lemma close_owned (f R : list Z) c :
  NoDup f → Forall (λ n, 0 ≤ n) f → f ≡ₚ open_fd c ++ R → filter (λ m, m ≠ fd c) f ≡ₚ R.
Proof.
  intros Hn Ho HR. unfold open_fd in HR.
  assert (Hall : ∀ l : list Z, fd c ∉ l → filter (λ m, m ≠ fd c) l = l).
  { induction l as [|x l IH]; [done|]. intros [Hx Hl]%not_elem_of_cons. rewrite filter_cons_True by done. by rewrite IH. }
  destruct (Z.ltb_spec (fd c) 0); cbn in HR; rewrite HR in Hn, Ho |- *.
  - rewrite Hall; [done|]. intros Hc. rewrite Forall_forall in Ho. specialize (Ho _ Hc). cbn in Ho. lia.
  - apply NoDup_cons in Hn as [Hc _]. rewrite filter_cons_False by naive_solver. by rewrite Hall.
Qed.

Lemma inv_close s i w w' c :
  inv max s → threads_list s !! i = Some w → worker_ok max w' → held w = open_fd c → held w' = [] → busy w' = busy w →
  inv max (close_fd (fd c) (put_worker i w' s)).
Proof.
  intros Hs Hi Hok Hh Hh' Hb. pose proof Hs as [Hq _ _ _ Hn Ho _].
  apply (inv_worker s i w); try done; [cbn; unfold busyZ; rewrite Hb; lia..| |by apply NoDup_filter|].
  2: { apply Forall_forall. intros n [_ Hn']%list_elem_of_filter. by eapply Forall_forall. }
  intros R HR. rewrite Hh'. cbn. apply close_owned; [done|done|]. by rewrite HR, Hh, !app_assoc, (Permutation_app_comm (open_fd c)).
Qed.

(** A worker is counted, or no longer. *)
Lemma inv_count s i w w' n :
  inv max s → threads_list s !! i = Some w → worker_ok max w' → held w' = held w → busyZ w' = busyZ w - n →
  inv max (count n 0 0 (put_worker i w' s)).
Proof.
  intros Hs Hi Hok Hh Hb. pose proof Hs as [Hq _ _ _ Hn Ho _].
  apply (inv_worker s i w); try done; [cbn; lia..|]. intros R HR. by rewrite Hh.
Qed.

(** What does not touch the workers, the queue and the descriptors. *)
Lemma inv_frame s d l j r m :
  inv max s → freeservers d = freeservers (child_data s) → usedservers d = usedservers (child_data s) →
  listener_holds l = listener_holds (listener s) →
  inv max (mkChild d (con_queue s) (threads_list s) l j r m (fds s) (lost s)).
Proof. intros [Hq Hf Hu Hp Hn Ho Hw] Hd1 Hd2 Hl. split; cbn; try done; [congruence..|]. unfold owned in *. cbn. by rewrite Hl. Qed.

(** The listener changes the queue and the descriptors. *)
Lemma inv_listen s d q l j r f lo :
  inv max s → freeservers d = freeservers (child_data s) → usedservers d = usedservers (child_data s) → queue_wf q →
  (∀ R, fds s ≡ₚ (fd <$> pending (con_queue s)) ++ R ++ listener_holds (listener s) ++ (fd <$> lost s) →
    f ≡ₚ (fd <$> pending q) ++ R ++ listener_holds l ++ (fd <$> lo)) → NoDup f → Forall (λ n, 0 ≤ n) f →
  inv max (mkChild d q (threads_list s) l j r (main_thread s) f lo).
Proof. intros [Hq Hf Hu Hp Hn Ho Hw] Hd1 Hd2 Hq' HR Hn' Ho'. split; cbn; try done; [congruence..|]. by apply HR. Qed.

Lemma inv_signal s : inv max s → inv max (signal_listener s).
Proof. intros Hs. unfold signal_listener. destruct (listener s) eqn:Hl; try done; (apply inv_frame; try done; by rewrite Hl). Qed.

Lemma inv_wake s i w : inv max s → threads_list s !! i = Some w → inv max (put_worker i (wake w) s).
Proof.
  intros Hs Hi. pose proof (Forall_lookup_1 _ _ _ _ (iv_workers _ _ Hs) Hi) as Hok.
  unfold wake. case_bool_decide as Hpc; [|by apply (inv_move s i w)].
  apply (inv_move s i w); try done; unfold held, busy; cbn; by rewrite Hpc.
Qed.

Lemma inv_wake_all s m : inv max s → inv max (with_main m (with_threads (wake <$> threads_list s) s)).
Proof.
  assert (Hw : ∀ w, held (wake w) = held w ∧ busyZ (wake w) = busyZ w ∧ (worker_ok max w → worker_ok max (wake w))).
  { intros w. unfold wake. case_bool_decide as Hpc; [|done]. by unfold held, busyZ, busy, worker_ok; cbn; rewrite Hpc. }
  assert (Hb : ∀ ws, busy_workers (wake <$> ws) = busy_workers ws).
  { induction ws as [|w ws IH]; [done|]. cbn [fmap list_fmap]. rewrite !busy_workers_cons. destruct (Hw w) as (_ & -> & _). by f_equal. }
  intros [Hq Hf Hu Hp Hn Ho Hws]. split; cbn; rewrite ?Hb, ?zlen_fmap; try done.
  - unfold owned in *. cbn. replace (held <$> (wake <$> threads_list s)) with (held <$> threads_list s); [done|].
    rewrite <- list_fmap_compose. apply list_fmap_ext. intros ? w _. cbn. by destruct (Hw w) as [-> _].
  - apply Forall_fmap. eapply Forall_impl; [exact Hws|]. intros w. apply Hw.
Qed.

(** A step is defined, and keeps the invariant. *)
Definition keeps (m : outcome (option child)) : Prop := ∃ o, m = Ret o ∧ ∀ s, o = Some s → inv max s.

Lemma keeps_goes s : inv max s → keeps (goes s).
Proof. intros Hs. exists (Some s). split; [done|]. by intros ? [= <-]. Qed.

Lemma keeps_blocked : keeps blocked.
Proof. by exists None. Qed.
End keeps.

Create HintDb child discriminated.
#[export] Hint Resolve keeps_goes keeps_blocked inv_frame : child.

Ltac worker_cases Hpc := unfold held, busyZ, busy, worker_ok; cbn; rewrite ?Hpc; cbn; try done; eauto.

Section steps.
Context (nports MAX_KEEPALIVE_REQUESTS MAX_REQUESTS_BEFORE_REALLOCATE_MEM : Z).
Abbreviation max := MAX_KEEPALIVE_REQUESTS.

(** Between [recycle_request] and the counting of the end, the access list may have refused the connection. *)
Lemma open_request_inv s i w allow :
  inv max s → threads_list s !! i = Some w → pc w = WOpen → inv max (open_request i w allow s).
Proof.
  intros Hs Hi Hpc. unfold open_request.
  assert (Ho : 0 ≤ fd (con w)).
  { pose proof Hs as [_ _ _ Hp _ Ho _]. destruct (held_insert _ i w Hi) as (R & HR & _). rewrite Forall_forall in Ho. apply Ho.
    rewrite Hp. unfold owned. rewrite HR. unfold held. rewrite Hpc. apply elem_of_app; right; apply elem_of_app; left; by left. }
  assert (Hfd : open_fd (con w) = [fd (con w)]) by (unfold open_fd; by rewrite (proj2 (Z.ltb_ge _ _) Ho)).
  destruct allow.
  - apply (inv_move max s i w); try done.
    + unfold worker_ok. cbn. split; [by destruct (current_req w)|lia].
    + unfold held. cbn. rewrite Hpc. by destruct (current_req w); cbn; rewrite copy_connection.
    + unfold busy. cbn. by rewrite Hpc.
  - apply (inv_close max s i w); try done; [by worker_cases Hpc..|]. worker_cases Hpc.
Qed.

Lemma close_request_inv s i w st :
  inv max s → threads_list s !! i = Some w → pc w = WClose st → inv max (close_request MAX_REQUESTS_BEFORE_REALLOCATE_MEM i w st s).
Proof.
  intros Hs Hi Hpc. unfold close_request.
  assert (Hend : ∀ v, worker_ok max (at_pc WEnd v) ∧ held (at_pc WEnd v) = [] ∧ busy (at_pc WEnd v) = busy w) by (intros v; worker_cases Hpc).
  destruct (current_req w) as [r|] eqn:Hr.
  2: { apply (inv_move max s i w); try done; try apply Hend. destruct (Hend (if MAX_REQUESTS_BEFORE_REALLOCATE_MEM <? served_requests_no_reallocation w
         then with_served (served_requests w) 0 (with_req None w) else w)) as (_ & -> & _). unfold held. by rewrite Hpc, Hr. }
  assert (Hh : held w = open_fd (rq_connection r)) by (unfold held; by rewrite Hpc, Hr).
  destruct (_ || _); apply (inv_close max s i w); try done; apply Hend.
Qed.

Lemma thread_main_inv s i w a :
  inv max s → threads_list s !! i = Some w → keeps max (thread_main max MAX_REQUESTS_BEFORE_REALLOCATE_MEM i w a s).
Proof.
  intros Hs Hi. pose proof (Forall_lookup_1 _ _ _ _ (iv_workers _ _ Hs) Hi) as Hok. unfold worker_ok in Hok.
  assert (Hmove : ∀ w', worker_ok max w' → held w' = held w → busy w' = busy w → keeps max (goes (put_worker i w' s))).
  { intros w' ? ? ?. by apply keeps_goes, (inv_move max s i w). }
  unfold thread_main. destruct (pc w) eqn:Hpc, a; try apply keeps_blocked; cbn zeta.
  all: try (destruct (at_once _)); try (destruct (killed _)); try (apply Hmove; by worker_cases Hpc).
  all: try (destruct Hok as (r & Hr & Hk0 & Hk); rewrite Hr).
  - destruct (get_from_queue_spec true (con_queue s) (con w) (iv_queue _ _ Hs)) as (n & c & q & -> & Hq & _ & Hc). cbn [obind].
    destruct Hc as [(-> & ? & _) | [(-> & _) | (-> & _ & Hp)]]; cbn; [done|apply Hmove; by worker_cases Hpc|].
    apply keeps_goes, (inv_take max s i w _ q c); worker_cases Hpc.
  - apply keeps_goes, (inv_count max s i w); worker_cases Hpc.
  - by apply keeps_goes, open_request_inv.
  - destruct Hok as (Hn & Hk). destruct (current_req w) as [r|] eqn:Hr; [|done]. apply Hmove; worker_cases Hpc; [|by rewrite Hr].
    eexists. split; [done|]. split; [apply Hk|]. intros Hm. split; [by apply Hk|]. intros ->. by rewrite andb_false_r.
  - destruct Hok as (Hn & Hk). destruct (current_req w) as [r|] eqn:Hr; [|done]. apply Hmove; worker_cases Hpc; [|by rewrite Hr].
    eexists. split; [done|]. split; [apply Hk|]. intros Hm. split; [by apply Hk|]. intros ->.
    rewrite (proj2 (Z.ltb_lt _ _) Hm), Z.leb_refl. cbn. by rewrite andb_false_r.
  - destruct (_ =? _).
    + apply keeps_goes, (inv_close max s i w); worker_cases Hpc. by rewrite Hr.
    + apply Hmove; worker_cases Hpc; [|by rewrite Hr]. eexists. split; [done|]. split; [lia|]. intros Hm.
      destruct (Hk Hm) as [Hle Heq]. split; [lia|]. intros ?. cbn. by rewrite Heq by lia.
  - apply keeps_goes, (inv_frame max (put_worker i (at_pc (WKilled k st) w) s)); cbn; try lia; [|done].
    apply (inv_move max s i w); worker_cases Hpc.
  - destruct (_ && _); apply Hmove; worker_cases Hpc.
  - destruct (rq_keepalive r) eqn:Hka; [|apply Hmove; by worker_cases Hpc].
    apply Hmove; destruct b; worker_cases Hpc; [|by rewrite Hr..]. split; [done|]. split; [lia|]. intros Hm. destruct (Hk Hm) as [Hle Heq].
    destruct (decide (k = max + 1)) as [He|]; [by specialize (Heq He)|lia].
  - by apply keeps_goes, close_request_inv.
  - apply keeps_goes, (inv_count max s i w); worker_cases Hpc.
  - apply keeps_goes, inv_signal, (inv_move max s i w); worker_cases Hpc.
Qed.

Lemma signal_queue_inv s o s' : inv max s → signal_queue o s = Some s' → inv max s' ∧ listener s' = listener s.
Proof.
  intros Hs. unfold signal_queue. destruct o as [i|].
  - intros (w & Hi & Hw)%bind_Some. case_bool_decide; [|done]. injection Hw as <-. split; [by apply inv_wake|done].
  - destruct (forallb _ _); [|done]. by intros [= <-].
Qed.

Lemma accept_inv s n cl srv b rdy :
  inv max s → listener s = LPorts (b :: rdy) → 0 ≤ n → n ∉ fds s →
  inv max (with_listener (LPut (mkConnection n cl srv 0) rdy) (with_fds (n :: fds s) s)).
Proof.
  intros Hs Hl Hn Hin. pose proof Hs as [Hq _ _ _ Hnd Ho _]. apply (inv_listen max s); try done; [|by apply NoDup_cons|by constructor].
  intros R HR. rewrite Hl in HR. cbn in HR |- *. rewrite HR. by rewrite 2!Permutation_middle.
Qed.

Lemma put_inv s c rdy lock :
  inv max s → listener s = LPut c rdy →
  keeps max (let* (n, q) := put_to_queue lock (con_queue s) c in
    let s := with_jobs n s in
    if n =? 0 then goes (listener_fails (lose c s))
    else if n <? 0 then goes (count 0 0 1 (with_listener (LPorts rdy) (lose c s)))
    else goes (with_listener (LSignal rdy) (with_queue q s))).
Proof.
  intros Hs Hl. pose proof Hs as [Hq _ _ _ Hnd Ho _].
  assert (Hlose : ∀ R : list Z, fds s ≡ₚ (fd <$> pending (con_queue s)) ++ R ++ listener_holds (listener s) ++ (fd <$> lost s) →
    fds s ≡ₚ (fd <$> pending (con_queue s)) ++ R ++ [] ++ (fd <$> c :: lost s)) by (intros R; by rewrite Hl).
  destruct (put_to_queue_spec lock (con_queue s) c Hq) as (n & q & -> & Hq' & _ & Hc). cbn [obind].
  destruct Hc as [(-> & _ & ->) | [(-> & _ & -> & _) | (Hn & _ & _ & Hp)]]; cbn zeta.
  - apply keeps_goes, (inv_listen max s); cbn; try done; lia.
  - by apply keeps_goes, (inv_listen max s).
  - rewrite (proj2 (Z.eqb_neq n 0)), (proj2 (Z.ltb_ge n 0)) by lia. apply keeps_goes, (inv_listen max s); try done.
    intros R HR. rewrite Hl in HR. cbn in HR |- *. rewrite HR, Hp. cbn. by rewrite 2!Permutation_middle.
Qed.

Lemma listener_thread_inv s a : inv max s → keeps max (listener_thread nports a s).
Proof.
  intros Hs. pose proof Hs as [Hq _ _ _ Hnd Ho _].
  assert (Hgo : ∀ l d j r, listener_holds l = listener_holds (listener s) → freeservers d = freeservers (child_data s) →
    usedservers d = usedservers (child_data s) →
    keeps max (goes (mkChild d (con_queue s) (threads_list s) l j r (main_thread s) (fds s) (lost s)))).
  { intros l d j r ? ? ?. by apply keeps_goes, inv_frame. }
  unfold listener_thread. destruct (listener s) as [| | | | |rdy|c rdy|rdy| | | | | | | ] eqn:Hl; cbn zeta.
  6: destruct rdy as [|[] rdy].
  all: destruct a; try apply keeps_blocked; try (by apply put_inv); try (by apply Hgo).
  all: try (destruct (killed _); by apply Hgo); try (destruct (_ <=? _); by apply Hgo); try (destruct (_ <? _); by apply Hgo).
  - destruct (_ =? _); [by apply Hgo|apply keeps_blocked].
  - destruct (Z.leb_spec 0 n); [|apply keeps_blocked]. case_bool_decide; [apply keeps_blocked|].
    by eapply keeps_goes, accept_inv.
  - destruct (signal_queue i s) as [s'|] eqn:E; [|apply keeps_blocked]. destruct (signal_queue_inv s i s' Hs E) as [Hs' Hl'].
    apply keeps_goes, (inv_frame max s'); cbn; try done; [lia..|]. by rewrite Hl', Hl.
Qed.

Lemma child_main_inv s a : inv max s → keeps max (child_main a s).
Proof.
  intros Hs.
  assert (Hgo : ∀ d m, freeservers d = freeservers (child_data s) → usedservers d = usedservers (child_data s) →
    keeps max (goes (mkChild d (con_queue s) (threads_list s) (listener s) (jobs_in_queue s) (listener_running s) m (fds s) (lost s)))).
  { intros d m ? ?. by apply keeps_goes, inv_frame. }
  unfold child_main. destruct (main_thread s) eqn:Hm, a; try apply keeps_blocked; cbn zeta; try (by apply Hgo).
  - destruct (killed _); by apply Hgo.
  - apply keeps_goes, (inv_frame max (signal_listener s)); try done. by apply inv_signal.
  - destruct (_ && _); by apply Hgo.
  - case (listener_running s); [by apply keeps_goes, inv_signal|by apply Hgo].
  - by apply keeps_goes, inv_wake_all.
  - destruct (forallb _ _); [by apply Hgo|apply keeps_blocked].
  - destruct (at_once _); [by apply Hgo|apply keeps_blocked].
Qed.

Abbreviation step := (step nports max MAX_REQUESTS_BEFORE_REALLOCATE_MEM).
Abbreviation run := (run nports max MAX_REQUESTS_BEFORE_REALLOCATE_MEM).

Lemma step_inv e s : inv max s → keeps max (step e s).
Proof.
  intros Hs. destruct e as [i a|a|a|i| |k| ]; cbn [Workers.step].
  - destruct (_ !! i) eqn:Hi; [by apply thread_main_inv|apply keeps_blocked].
  - by apply listener_thread_inv.
  - by apply child_main_inv.
  - eexists. split; [done|]. intros s' Hs'. by eapply signal_queue_inv.
  - by apply keeps_goes, inv_signal.
  - by apply keeps_goes, inv_frame.
  - by apply keeps_goes, inv_frame.
Qed.

Lemma run_inv es : ∀ s, inv max s → keeps max (run es s).
Proof.
  induction es as [|e es IH]; intros s Hs; cbn [Workers.run]; [by apply keeps_goes|].
  destruct (step_inv e s Hs) as (o & -> & Ho). cbn [obind]. destruct o as [s'|]; [|apply keeps_blocked]. by apply IH, Ho.
Qed.

Lemma new_child_inv n c q : queue_wf q → used q = 0 → inv max (new_child n c q).
Proof.
  intros Hq Hu. assert (Hw : ∀ (P : server_decl → Prop), P (newthread c) → Forall P (replicate n (newthread c))).
  { intros P HP. apply Forall_forall. by intros w [-> _]%elem_of_replicate. }
  assert (Hb : ∀ m, busy_workers (replicate m (newthread c)) = 0).
  { induction m as [|m IH]; [done|]. cbn [replicate]. rewrite busy_workers_cons, IH. done. }
  split; cbn; rewrite ?Hb, ?zlen_replicate; try done; [lia| |constructor|by apply Hw].
  unfold owned. cbn. apply pending_nil in Hu as ->; [|done]. cbn. clear.
  induction n as [|n IH]; [done|]. cbn in *. done.
Qed.
(** The workers stay the same threads. *)
Lemma signal_queue_threads o s s' : signal_queue o s = Some s' → length (threads_list s') = length (threads_list s).
Proof.
  unfold signal_queue. destruct o as [i|]; intros H; [|by case_match; simplify_eq].
  apply bind_Some in H as (w & _ & H). case_match; [|done]. injection H as <-. cbn. by rewrite length_insert.
Qed.

Lemma step_threads e s s' : step e s = Ret (Some s') → length (threads_list s') = length (threads_list s).
Proof.
  destruct e as [i a|a|a|i| |k| ]; cbn [Workers.step].
  - unfold thread_main, open_request, close_request, signal_listener, goes, blocked. intros H.
    repeat (case_match; simplify_eq/=; try done); try (apply obind_Ret in H as ([[n c] q] & _ & H); repeat (case_match; simplify_eq/=; try done));
      by rewrite ?length_insert.
  - unfold listener_thread, goes, blocked. intros H.
    repeat (case_match; simplify_eq/=; try done); try (by eapply signal_queue_threads); try (apply obind_Ret in H as ([n q] & _ & H); repeat (case_match; simplify_eq/=; try done)).
  - unfold child_main, signal_listener, goes, blocked. intros H. repeat (case_match; simplify_eq/=; try done); by rewrite ?length_fmap.
  - intros H. apply (signal_queue_threads (Some i)). by injection H.
  - unfold signal_listener. intros [= <-]. by destruct (listener s).
  - by intros [= <-].
  - by intros [= <-].
Qed.

Lemma run_threads es : ∀ s s', run es s = Ret (Some s') → length (threads_list s') = length (threads_list s).
Proof.
  induction es as [|e es IH]; intros s s' H; cbn [Workers.run] in H; [by injection H as <-|].
  apply obind_Ret in H as ([s1|] & H1 & H); [|done]. apply IH in H as ->. by eapply step_threads.
Qed.


(** With MaxKeepAliveRequests set, no worker serves more requests of a connection than one more than that. *)
Theorem keepalive_requests_bounded n c q es s i w k st :
  queue_wf q → used q = 0 → 0 < max → run es (new_child n c q) = Ret (Some s) →
  threads_list s !! i = Some w → pc w = WCount k st → k ≤ max + 1.
Proof.
  intros Hq Hu Hm Hrun Hi Hpc. destruct (run_inv es _ (new_child_inv n c q Hq Hu)) as (o & Hrun' & Ho).
  rewrite Hrun in Hrun'. injection Hrun' as <-. pose proof (Forall_lookup_1 _ _ _ _ (iv_workers _ _ (Ho s eq_refl)) Hi) as Hok.
  unfold worker_ok in Hok. rewrite Hpc in Hok. destruct Hok as (r & _ & _ & Hk). by apply Hk.
Qed.
End steps.

(** ** Witnesses *)

Definition one_worker : child := new_child 1 (mkConnection 0 [] [] 0) (mkQueue [mkConnection 0 [] [] 0] 0 1).

(** The child starts, a connection arrives, the worker takes it and has served a request. *)
Definition one_served : list event :=
  (Listener <$> [Go]) ++ (Main <$> replicate 3 Go) ++ (Listener <$> [Go; Go; Ready [true]; Accepted 5 [] []; Go; Wakes None]) ++
  (Worker 0 <$> [Go; Go; Go; Access true; Go; Processed CI_OK true]).


Lemma keepalive_requests_bounded_witness :
  ∃ s w, run 1 100 100 one_served one_worker = Ret (Some s) ∧ threads_list s !! 0%nat = Some w ∧ pc w = WCount 1 CI_OK ∧ 1 ≤ 100 + 1.
Proof.
  eexists _, _. split; [vm_compute; reflexivity|]. split; [vm_compute; reflexivity|]. split; [reflexivity|].
  eapply (keepalive_requests_bounded 1 100 100 1 (mkConnection 0 [] [] 0) (mkQueue [mkConnection 0 [] [] 0] 0 1) one_served _ 0 _ 1 CI_OK);
    [by split; [cbn; lia|]|reflexivity|lia|vm_compute; reflexivity|vm_compute; reflexivity|reflexivity].
Defined.
