(* ===== verification/WorkersFaults.v ===== *)
(** * What a child process gets wrong (mpmt_server.c, proc_threads_queues.c)

    A worker that finds the queue empty waits for its condition without looking at the queue again, and the
    listener that is woken goes on without looking at the counters again: between the look and the wait, and between
    the signal and the next accept, the other thread may come in.  The runs below use only calls that succeed. *)

From stdpp Require Import base list numbers option.
From Stdlib Require Import ZArith Lia.
From S2P Require Import Prelude Chunks ConnQueue Workers WorkersSafe.

Definition blank_connection : ci_connection_t := mkConnection 0 [] [] 0.

(** The child of [n] workers, with one port, as it starts. *)
Definition started (n : nat) : child := new_child n blank_connection (mkQueue (replicate n blank_connection) 0 (Z.of_nat n)).

Lemma started_queue n : queue_wf (con_queue (started n)).
Proof. split; cbn; [lia|]. by rewrite zlen_replicate. Qed.

(** The listener and the first thread up to the point where the listener accepts connections. *)
Definition boot : list event := Listener Go :: replicate 3 (Main Go) ++ replicate 2 (Listener Go).

(** A connection with descriptor [n] arrives, is accepted and put in the queue; no worker waits for it. *)
Definition arrives (n : Z) : list event := Listener <$> [Ready [true]; Accepted n [] []; Go; Wakes None; Go; Go; Go].

(** ** A connection that no worker is told of *)

(** Everybody waits: the workers for a connection, the listener for a free worker. *)
Record asleep (s : child) : Prop := {
  as_workers : Forall (λ w, pc w = WWaiting) (threads_list s);
  as_listener : listener s = LWait ∧ listener_running s = true;
  as_alive : to_be_killed (child_data s) = NO_KILL;
  as_main : main_thread s = MLoop ∨ main_thread s = MPipe ∨ main_thread s = MListen
}.

(** Events that come neither from the parent nor from a wait that ends without a signal. *)
Definition own_event (e : event) : Prop := match e with Worker _ _ | Listener _ | Main Go => True | _ => False end.

Section sleep.
Context (nports MAX_KEEPALIVE_REQUESTS MAX_REQUESTS_BEFORE_REALLOCATE_MEM : Z).
Abbreviation step := (step nports MAX_KEEPALIVE_REQUESTS MAX_REQUESTS_BEFORE_REALLOCATE_MEM).
Abbreviation run := (run nports MAX_KEEPALIVE_REQUESTS MAX_REQUESTS_BEFORE_REALLOCATE_MEM).

Lemma asleep_step e s s' :
  own_event e → asleep s → step e s = Ret (Some s') → asleep s' ∧ con_queue s' = con_queue s ∧ threads_list s' = threads_list s.
Proof.
  intros He [Hw [Hl Hr] Hk Hm]. destruct e as [i a|a|[]| | | | ]; try done; cbn [Workers.step].
  - destruct (_ !! i) as [w|] eqn:Hi; [|done]. pose proof (Forall_lookup_1 _ _ _ _ Hw Hi) as Hpc. cbn in Hpc.
    unfold thread_main. rewrite Hpc. by destruct a.
  - unfold listener_thread. rewrite Hl. by destruct a.
  - unfold child_main. rewrite Hk, Hr. destruct Hm as [-> | [-> | ->]]; cbn; intros [= <-]; (split; [|done]); split; cbn; auto.
Qed.

Lemma asleep_run es : ∀ s s',
  Forall own_event es → asleep s → run es s = Ret (Some s') → asleep s' ∧ con_queue s' = con_queue s ∧ threads_list s' = threads_list s.
Proof.
  induction es as [|e es IH]; intros s s' Hes Hs; cbn [Workers.run]; [by intros [= <-]|].
  apply Forall_cons_1 in Hes as [He Hes]. intros ([s1|] & H1 & H)%obind_Ret; [|done].
  destruct (asleep_step e s s1 He Hs H1) as (Hs1 & <- & <-). by apply IH.
Qed.
End sleep.

(** All workers look at the empty queue, then as many connections arrive, then the workers wait. *)
Definition missed_signals (n : nat) : list event :=
  boot ++ concat ((λ i, replicate 3 (Worker i Go)) <$> seq 0 n) ++ concat (arrives <$> seqZ 5 (Z.of_nat n)) ++
  replicate 2 (Listener Go) ++ ((λ i, Worker i Go) <$> seq 0 n).

Definition missed_state (n : nat) : child :=
  match run 1 100 100 (missed_signals n) (started n) with Ret (Some s) => s | _ => started n end.

(** ** A listener that gives up *)

(** Worker [i] takes a connection and starts to serve it, serves one request and closes it, without the signal to the
    listener at the end. *)
Definition takes (i : nat) : list event := Worker i <$> [Go; Go; Go; Access true].
Definition serves (i : nat) : list event := Worker i <$> [Go; Processed CI_OK false; Go; Go; Go; More false; Go; Go].

(** The workers are busy but the last, which has taken its connection and is not counted yet when the listener looks
    at the counters: the listener accepts one connection more than there are workers.  Then every worker ends and tells the
    listener, which accepts a connection each time, before any worker takes one. *)
Definition too_many (n : nat) : list event :=
  let l := (n - 1)%nat in
  boot ++ concat ((λ i, arrives (5 + Z.of_nat i) ++ takes i) <$> seq 0 l) ++
  arrives (5 + Z.of_nat l) ++ [Worker l Go; Worker l Go] ++ replicate 4 (Listener Go) ++ [Worker l Go; Worker l (Access true)] ++
  arrives (5 + Z.of_nat n) ++ replicate 2 (Listener Go) ++
  concat ((λ i, serves i ++ [Worker i Go] ++ replicate 2 (Listener Go) ++ arrives (6 + Z.of_nat (n + i)) ++ replicate 2 (Listener Go)) <$> seq 0 l) ++
  serves l ++ [Worker l Go] ++ replicate 2 (Listener Go) ++ (Listener <$> [Ready [true]; Accepted (6 + Z.of_nat (n + l)) [] []; Go]).

(** ** One request more than MaxKeepAliveRequests *)

(** Worker [i] is at the head of the keep-alive loop with [k] requests served, and [m] were counted by the child. *)
Record serving (i : nat) (k m : Z) (s : child) : Prop := {
  sv_worker : ∃ w c, threads_list s !! i = Some w ∧ pc w = WServe k ∧ current_req w = Some (mkCurrent c true);
  sv_alive : to_be_killed (child_data s) = NO_KILL;
  sv_counts : requests (child_data s) = m ∧ connections_num (child_data s) = 1
}.

(** A request is served, and the client sends another. *)
Definition one_more (i : nat) (more : bool) : list event := Worker i <$> [Go; Processed CI_OK true; Go; Go; Go; More more].

Section keepalive.
Context (nports MAX_KEEPALIVE_REQUESTS MAX_REQUESTS_BEFORE_REALLOCATE_MEM : Z).
Abbreviation run := (run nports MAX_KEEPALIVE_REQUESTS MAX_REQUESTS_BEFORE_REALLOCATE_MEM).

Lemma run_app es1 es2 s s1 : run es1 s = Ret (Some s1) → run (es1 ++ es2) s = run es2 s1.
Proof.
  revert s. induction es1 as [|e es1 IH]; intros s; cbn [Workers.run app]; [by intros [= <-]|].
  intros ([s2|] & -> & H)%obind_Ret; [|done]. cbn [obind]. by apply IH.
Qed.

Lemma run_worker i w a es s :
  threads_list s !! i = Some w →
  run (Worker i a :: es) s =
    let* o := thread_main MAX_KEEPALIVE_REQUESTS MAX_REQUESTS_BEFORE_REALLOCATE_MEM i w a s in
    match o with Some s => run es s | None => blocked end.
Proof. intros Hi. cbn [Workers.run step]. by rewrite Hi. Qed.

Lemma put_lookup i w w' s : threads_list s !! i = Some w → threads_list (put_worker i w' s) !! i = Some w'.
Proof. intros Hi. apply list_lookup_insert_eq. by eapply lookup_lt_Some. Qed.

Lemma count_lookup i w a b c s : threads_list s !! i = Some w → threads_list (count a b c s) !! i = Some w.
Proof. done. Qed.

Lemma put_worker_data i w s : child_data (put_worker i w s) = child_data s.
Proof. done. Qed.

(** One step of a worker of a child that is not to be killed. *)
Ltac worker_turn Hk :=
  erewrite run_worker by (repeat first [apply count_lookup | eapply put_lookup | eassumption]);
  repeat (progress (cbn -[Workers.run put_worker]; rewrite ?put_worker_data, ?Hk));
  change (killed NO_KILL) with false; change (at_once NO_KILL) with false;
  change (bool_decide (NO_KILL = GRACEFULLY)) with false; cbn -[Workers.run put_worker].

(** A round of the keep-alive loop before the limit, and the last. *)
Lemma serving_round i k m s :
  serving i k m s →
  let last := (0 <? MAX_KEEPALIVE_REQUESTS) && (MAX_KEEPALIVE_REQUESTS <=? k) in
  ∃ s', run (one_more i true) s = Ret (Some s') ∧
    if last then to_be_killed (child_data s') = NO_KILL ∧ requests (child_data s') = m + 1 ∧ connections_num (child_data s') = 1
    else serving i (k + 1) (m + 1) s'.
Proof.
  intros [(w & c & Hi & Hpc & Hr) Hk [Hm Hc]] last. destruct w as [p cn cr n1 n2 rn]. cbn in Hpc, Hr. subst p cr.
  unfold one_more. cbn [fmap list_fmap]. worker_turn Hk. fold last. destruct last; cbn -[Workers.run put_worker]; do 5 worker_turn Hk.
  - eexists. split; [done|]. cbn. rewrite Hm, Hc, Hk. by split_and!.
  - eexists. split; [done|]. split; [|done|cbn; lia].
    eexists _, c. split; [repeat first [apply count_lookup | eapply put_lookup | eassumption]|by split].
Qed.

Lemma serving_rounds i n : ∀ k m s,
  serving i k m s → k + Z.of_nat n ≤ MAX_KEEPALIVE_REQUESTS →
  ∃ s', run (concat (replicate n (one_more i true))) s = Ret (Some s') ∧ serving i (k + Z.of_nat n) (m + Z.of_nat n) s'.
Proof.
  induction n as [|n IH]; intros k m s Hs Hle; cbn [replicate concat].
  { exists s. split; [done|]. by rewrite !Z.add_0_r. }
  destruct (serving_round i k m s Hs) as (s1 & H1 & Hs1). rewrite (proj2 (Z.leb_gt _ _)), andb_false_r in Hs1 by lia.
  destruct (IH _ _ s1 Hs1) as (s2 & H2 & Hs2); [lia|]. exists s2. split; [by rewrite (run_app _ _ _ _ H1)|].
  by replace (k + Z.of_nat (S n)) with (k + 1 + Z.of_nat n) by lia; replace (m + Z.of_nat (S n)) with (m + 1 + Z.of_nat n) by lia.
Qed.
End keepalive.

(** ** Properties *)

(** MaxKeepAliveRequests is documented as the most requests that one connection is served; a client that keeps its
    connection has one request more served on it, whatever the setting. *)
Theorem keepalive_one_too_many realloc max :
  0 < max →
  ∃ es s, run 1 max realloc es (started 1) = Ret (Some s) ∧
    connections_num (child_data s) = 1 ∧ to_be_killed (child_data s) = NO_KILL ∧ requests (child_data s) = max + 1.
Proof.
  intros Hm. set (es := boot ++ arrives 5 ++ takes 0).
  assert (∃ s, run 1 max realloc es (started 1) = Ret (Some s) ∧ serving 0 0 0 s) as (s & Hs & Hsv).
  { let r := eval vm_compute in (run 1 max realloc es (started 1)) in match r with Ret (Some ?x) => exists x end.
    split; [vm_compute; reflexivity|]. split; [by eexists _, _|done|done]. }
  destruct (serving_rounds 1 max realloc 0 (Z.to_nat max) 0 0 s Hsv) as (s1 & H1 & Hs1); [lia|].
  destruct (serving_round 1 max realloc 0 _ _ s1 Hs1) as (s2 & H2 & Hs2).
  rewrite (proj2 (Z.ltb_lt _ _) Hm), (proj2 (Z.leb_le _ _)) in Hs2 by lia. cbn [andb] in Hs2. destruct Hs2 as (Hk & Hr & Hc).
  exists (es ++ concat (replicate (Z.to_nat max) (one_more 0 true)) ++ one_more 0 true), s2.
  rewrite (run_app _ _ _ _ _ _ _ Hs), (run_app _ _ _ _ _ _ _ H1). split_and!; [done..|]. rewrite Hr. lia.
Qed.

Lemma keepalive_one_too_many_witness :
  ∃ es s, run 1 100 100 es (started 1) = Ret (Some s) ∧
    connections_num (child_data s) = 1 ∧ to_be_killed (child_data s) = NO_KILL ∧ requests (child_data s) = 101.
Proof. apply (keepalive_one_too_many 100 100). lia. Defined.

(** C23: with the thirty workers of the default configuration and as many connections in its queue, a child comes to
    a stop: every worker waits for the signal of a connection that was given before it waited, the
    listener waits for a worker to end, and no thread of the child ever goes on by itself. *)
Theorem child_falls_asleep :
  ∃ s, run 1 100 100 (missed_signals 30) (started 30) = Ret (Some s) ∧ Forall own_event (missed_signals 30) ∧
    zlen (pending (con_queue s)) = 30 ∧ freeservers (child_data s) = 30 ∧ asleep s ∧
    ∀ es s', Forall own_event es → run 1 100 100 es s = Ret (Some s') → asleep s' ∧ con_queue s' = con_queue s ∧ threads_list s' = threads_list s.
Proof.
  exists (missed_state 30). assert (Hs : asleep (missed_state 30)).
  { split; [|by vm_compute..|by left; vm_compute]. vm_compute. repeat (constructor; [done|]). constructor. }
  split; [vm_compute; reflexivity|]. split; [by repeat constructor|]. split; [by vm_compute|]. split; [by vm_compute|]. split; [done|].
  intros es s' Hes. by apply asleep_run.
Qed.

Definition overfull_state (n : nat) : child :=
  match run 1 100 100 (too_many n) (started n) with Ret (Some s) => s | _ => started n end.

(** With thirty workers, all of them free, the listener finds the queue full, gives up and drops the connection it
    has accepted without closing it; then the child ends, though nothing failed and nobody asked it to. *)
Theorem listener_gives_up :
  ∃ s, run 1 100 100 (too_many 30) (started 30) = Ret (Some s) ∧ Forall own_event (too_many 30) ∧
    listener s = LFails ∧ freeservers (child_data s) = 30 ∧ (∃ c, lost s = [c] ∧ fd c ∈ fds s) ∧
    ∃ s', run 1 100 100 (replicate 3 (Main Go)) s = Ret (Some s') ∧ to_be_killed (child_data s') = GRACEFULLY.
Proof.
  exists (overfull_state 30). split; [vm_compute; reflexivity|]. split; [by repeat constructor|].
  split; [by vm_compute|]. split; [by vm_compute|]. split.
  - eexists. split; [vm_compute; reflexivity|]. vm_compute. by left.
  - eexists. split; [vm_compute; reflexivity|]. done.
Qed.
