(* ===== verification/Acl.v ===== *)
(** * Access lists (acl.c, access.c, default_acl.c)

    An acl is a named list of values of an acl type; an access list is a list of entries, each allowing or denying the
    requests that match all of its acls.  Acl types are in an array that grows, and acls point into it: a pointer is the
    index with the generation of the array, which a [realloc] that moves the array changes.  Access entries point to acls
    by their place in the list of acls, which only grows.  Strings are without their terminator.  What an acl type
    reads from a request, and its values, are arguments. *)

From stdpp Require Import base list numbers option strings.
From Stdlib Require Import ZArith Lia.
From S2P Require Import Prelude CString.

Definition CI_ACCESS_ALLOW : Z := 1.
Definition CI_ACCESS_UNKNOWN : Z := 0.
Definition CI_ACCESS_DENY : Z := -1.
Definition MAX_NAME_LEN : nat := 31.
Definition STEP : Z := 32.

(** The operations of a type of values that access lists use: reading one from a string, which may fail, and whether the
    value of a request matches it. *)
Record ci_type_ops_t (V : Type) := mkOps { dup : list Z → option V; equal : V → V → bool }.
Arguments mkOps {V} _ _. Arguments dup {V} _ _. Arguments equal {V} _ _ _.

Record ci_acl_type_t (R V : Type) := mkType {
  ty_name : list Z;
  get_test_data : R → option (list Z) → outcome (option V);
  free_test_data : Z;
  ty_ops : ci_type_ops_t V
}.
Arguments mkType {R V} _ _ _ _. Arguments ty_name {R V} _. Arguments get_test_data {R V} _ _ _.
Arguments free_test_data {R V} _. Arguments ty_ops {R V} _.

(** [tl_cap] is the number of types that the array has room for. *)
Record ci_acl_type_list (R V : Type) := mkTypes {
  acl_type_list : list (ci_acl_type_t R V);
  acl_type_list_size : Z;
  tl_cap : Z;
  tl_gen : Z
}.
Arguments mkTypes {R V} _ _ _ _. Arguments acl_type_list {R V} _. Arguments acl_type_list_size {R V} _.
Arguments tl_cap {R V} _. Arguments tl_gen {R V} _.

Record type_ptr := mkTypePtr { tp_gen : Z; tp_index : nat }.

#[export] Instance type_ptr_eq_dec : EqDecision type_ptr.
Proof. solve_decision. Defined.

Record ci_acl_spec_t (V : Type) := mkSpec {
  sp_name : list Z;
  sp_type : type_ptr;
  parameter : option (list Z);
  sp_data : list V
}.
Arguments mkSpec {V} _ _ _ _. Arguments sp_name {V} _. Arguments sp_type {V} _. Arguments parameter {V} _. Arguments sp_data {V} _.

(** An acl of an entry: its place in the list of acls, and whether it is negated. *)
Record ci_access_entry_t := mkEntry { ae_type : Z; spec_list : list (nat * bool) }.

(** [types_list], [specs_list] and the two access lists of the default access controller. *)
Record acls (R V : Type) := mkAcls {
  types_list : ci_acl_type_list R V;
  specs_list : list (ci_acl_spec_t V);
  acl_connection_access_list : list ci_access_entry_t;
  acl_access_list : list ci_access_entry_t
}.
Arguments mkAcls {R V} _ _ _ _. Arguments types_list {R V} _. Arguments specs_list {R V} _.
Arguments acl_connection_access_list {R V} _. Arguments acl_access_list {R V} _.

Section acl.
Context {R V : Type}.
Abbreviation typelist := (ci_acl_type_list R V).
Abbreviation st := (acls R V).

(** The first element with a property, and its place. *)
Fixpoint find_from {A : Type} (p : A → bool) (i : nat) (l : list A) : option (nat * A) :=
  match l with
  | [] => None
  | x :: l => if p x then Some (i, x) else find_from p (S i) l
  end.

(** ** Acl types *)

Definition ci_acl_typelist_search (l : typelist) (name : list Z) : option type_ptr :=
  (λ '(i, _), mkTypePtr (tl_gen l) i) <$> find_from (λ t, bool_decide (ty_name t = name)) 0 (acl_type_list l).

(** [*p]: a pointer into an array that was moved is dangling. *)
Definition deref_type (l : typelist) (p : type_ptr) : outcome (ci_acl_type_t R V) :=
  if tp_gen p =? tl_gen l then match acl_type_list l !! tp_index p with Some t => Ret t | None => UB end else UB.

Definition ci_acl_typelist_init (cap : bool) : typelist := mkTypes [] STEP (if cap then STEP else 0) 0.

(** [r] is what [realloc] does: nothing, or it gives an array that is, or is not, at another place; [junk] is what the new
    place of the array has where [free_test_data] is, which is not set. *)
Definition ci_acl_typelist_add (r : option bool) (junk : Z) (l : typelist) (t : ci_acl_type_t R V) : outcome (bool * typelist) :=
  match ci_acl_typelist_search l (ty_name t) with
  | Some _ => Ret (false, l)
  | None =>
      let full := zlen (acl_type_list l) =? acl_type_list_size l in
      let n := acl_type_list_size l + STEP in
      let grown := match r with
        | None => mkTypes (acl_type_list l) n (tl_cap l) (tl_gen l)
        | Some moved => mkTypes (acl_type_list l) n n (if moved then tl_gen l + 1 else tl_gen l)
        end in
      if full && match r with None => true | _ => false end then Ret (false, grown)
      else
      let l := if full then grown else l in
      if zlen (acl_type_list l) <? tl_cap l
      then Ret (true, mkTypes (acl_type_list l ++ [mkType (take MAX_NAME_LEN (ty_name t)) (get_test_data t) junk (ty_ops t)])
                 (acl_type_list_size l) (tl_cap l) (tl_gen l))
      else UB
  end.

Definition ci_acl_typelist_reset (l : typelist) : typelist := mkTypes [] (acl_type_list_size l) (tl_cap l) (tl_gen l).

(** [acl_load_defaults] adds the types of the program, [ts]; the results are not looked at. *)
Fixpoint acl_load_defaults (r : option bool) (junk : Z) (ts : list (ci_acl_type_t R V)) (l : typelist) : outcome typelist :=
  match ts with
  | [] => Ret l
  | t :: ts => let* (_, l) := ci_acl_typelist_add r junk l t in acl_load_defaults r junk ts l
  end.

(** ** Acls *)

Definition with_types (l : typelist) (s : st) : st := mkAcls l (specs_list s) (acl_connection_access_list s) (acl_access_list s).
Definition with_specs (l : list (ci_acl_spec_t V)) (s : st) : st := mkAcls (types_list s) l (acl_connection_access_list s) (acl_access_list s).

Definition ci_acl_spec_search (l : list (ci_acl_spec_t V)) (name : list Z) : option (nat * ci_acl_spec_t V) :=
  find_from (λ s, bool_decide (sp_name s = name)) 0 l.

(** [m] tells which allocations succeed: of the acl and of its parameter. *)
Definition ci_acl_spec_new (m : nat → bool) (name type : list Z) (param : option (list Z)) (s : st) : option (nat * st) :=
  match ci_acl_typelist_search (types_list s) type with
  | None => None
  | Some p =>
      if negb (m 1%nat) || (negb (m 2%nat) && bool_decide (param ≠ None)) then None
      else Some (length (specs_list s), with_specs (specs_list s ++ [mkSpec (take MAX_NAME_LEN name) p param []]) s)
  end.

(** The value is added at the end of the values of acl [i]. *)
Definition ci_acl_spec_new_data (a : bool) (i : nat) (val : list Z) (s : st) : outcome (bool * st) :=
  match specs_list s !! i with
  | None => UB
  | Some sp =>
      let* t := deref_type (types_list s) (sp_type sp) in
      match dup (ty_ops t) val with
      | None => Ret (false, s)
      | Some v =>
          if negb a then Ret (false, s)
          else Ret (true, with_specs (<[i := mkSpec (sp_name sp) (sp_type sp) (parameter sp) (sp_data sp ++ [v])]> (specs_list s)) s)
      end
  end.

(** The string up to the first [c], and what follows it. *)
Fixpoint strchr (c : Z) (s : list Z) : option (list Z * list Z) :=
  match s with
  | [] => None
  | x :: s => if x =? c then Some ([], s) else (λ '(a, b), (x :: a, b)) <$> strchr c s
  end.

(** [type{param}]. *)
Definition split_type (type : list Z) : list Z * option (list Z) :=
  match strchr 123 type with
  | None => (type, None)
  | Some (t, rest) => (t, Some (match strchr 125 rest with Some (p, _) => p | None => rest end))
  end.

Definition ci_acl_add_data (m : nat → bool) (name type data : list Z) (s : st) : outcome (bool * st) :=
  if negb (m 0%nat) then Ret (false, s)
  else
  let '(acl_type, param) := split_type type in
  let add i s := let* (_, s) := ci_acl_spec_new_data (m 3%nat) i data s in Ret (true, s) in
  match ci_acl_spec_search (specs_list s) name with
  | Some (i, sp) =>
      if bool_decide (ci_acl_typelist_search (types_list s) acl_type = Some (sp_type sp)) then add i s else Ret (false, s)
  | None =>
      match ci_acl_spec_new m name acl_type param s with
      | None => Ret (false, s)
      | Some (i, s) => add i s
      end
  end.

(** The directive acl (cfg_param.c); [m] has the allocations of every value. *)
Fixpoint add_values (m : nat → nat → bool) (name type : list Z) (vals : list (list Z)) (s : st) : outcome (bool * st) :=
  match vals with
  | [] => Ret (true, s)
  | v :: vals =>
      let* (ok, s) := ci_acl_add_data (m (length vals)) name type v s in
      if ok then add_values m name type vals s else Ret (false, s)
  end.

Definition cfg_acl_add (m : nat → nat → bool) (argv : list (list Z)) (s : st) : outcome (bool * st) :=
  match argv with
  | name :: type :: v :: vals => add_values m name type (v :: vals) s
  | _ => Ret (false, s)
  end.

(** [ci_acl_search]: the acl with the name in the list of the program. *)
Definition ci_acl_search (s : st) (name : list Z) : option (nat * ci_acl_spec_t V) := ci_acl_spec_search (specs_list s) name.

Definition ci_acl_reset (r : option bool) (junk : Z) (ts : list (ci_acl_type_t R V)) (s : st) : outcome st :=
  let* l := acl_load_defaults r junk ts (ci_acl_typelist_reset (types_list s)) in
  Ret (mkAcls l [] (acl_connection_access_list s) (acl_access_list s)).

(** ** Access entries *)

(** [a] tells whether there was memory for the new entry. *)
Definition ci_access_entry_new (a : bool) (l : list ci_access_entry_t) (type : Z) : option (nat * list ci_access_entry_t) :=
  if a then Some (length l, l ++ [mkEntry type []]) else None.

Definition ci_access_entry_add_acl (a : bool) (i : nat) (acl : nat) (negate : bool) (l : list ci_access_entry_t) :
    outcome (bool * list ci_access_entry_t) :=
  match l !! i with
  | None => UB
  | Some e => if a then Ret (true, <[i := mkEntry (ae_type e) (spec_list e ++ [(acl, negate)])]> l) else Ret (false, l)
  end.

(** [!name] is the negated acl. *)
Definition negated (name : list Z) : bool * list Z :=
  match name with 33 :: name => (true, name) | _ => (false, name) end.

Definition ci_access_entry_add_acl_by_name (a : bool) (s : st) (i : nat) (acl_name : list Z) (l : list ci_access_entry_t) :
    outcome (bool * list ci_access_entry_t) :=
  let '(negate, name) := negated acl_name in
  match ci_acl_search s name with
  | None => Ret (false, l)
  | Some (acl, _) => ci_access_entry_add_acl a i acl negate l
  end.

(** ** The decision *)

(** [spec_data_check]: a value of the acl that equals the value of the request. *)
Fixpoint spec_data_check (ops : ci_type_ops_t V) (data : list V) (v : V) : bool :=
  match data with
  | [] => false
  | d :: data => if equal ops d v then true else spec_data_check ops data v
  end.

Fixpoint request_match_specslist (s : st) (req : R) (l : list (nat * bool)) : outcome bool :=
  match l with
  | [] => Ret true
  | (i, negate) :: l =>
      match specs_list s !! i with
      | None => UB
      | Some spec =>
          let* t := deref_type (types_list s) (sp_type spec) in
          let* test_data := get_test_data t req (parameter spec) in
          match test_data with
          | None => Ret false
          | Some v =>
              let check := spec_data_check (ty_ops t) (sp_data spec) v in
              if negb (free_test_data t =? 0) then UB
              else if Bool.eqb check negate then Ret false
              else request_match_specslist s req l
          end
      end
  end.

Fixpoint match_entries (s : st) (req : R) (l : list ci_access_entry_t) : outcome Z :=
  match l with
  | [] => Ret CI_ACCESS_UNKNOWN
  | e :: l =>
      match spec_list e with
      | [] => match_entries s req l
      | _ :: _ =>
          let* b := request_match_specslist s req (spec_list e) in
          if b then Ret (ae_type e) else match_entries s req l
      end
  end.

Definition ci_access_entry_match_request (s : st) (req : R) (l : list ci_access_entry_t) : outcome Z :=
  match l with [] => Ret CI_ACCESS_ALLOW | _ => match_entries s req l end.

Definition default_acl_client_match (s : st) (req : R) : outcome Z := ci_access_entry_match_request s req (acl_connection_access_list s).
Definition default_acl_request_match (s : st) (req : R) : outcome Z := ci_access_entry_match_request s req (acl_access_list s).

(** ** The directives client_access and icap_access *)

Definition connection_types : list (list Z) := [bytes "port"; bytes "src"; bytes "srvip"].

(** The loop over the acls of the directive; [true] when one of them may not be in a list for connections. *)
Fixpoint add_acls (a : nat → bool) (only_connection : bool) (s : st) (i : nat) (argv : list (list Z)) (l : list ci_access_entry_t) :
    outcome (bool * list ci_access_entry_t) :=
  match argv with
  | [] => Ret (false, l)
  | name :: argv =>
      let* bad := match ci_acl_search s name with
        | None => Ret false
        | Some (_, spec) =>
            if only_connection
            then let* t := deref_type (types_list s) (sp_type spec) in Ret (negb (bool_decide (ty_name t ∈ connection_types)))
            else Ret false
        end in
      let* (_, l) := if bad then Ret (false, l) else ci_access_entry_add_acl_by_name (a (length argv)) s i name l in
      let* (error, l) := add_acls a only_connection s i argv l in
      Ret (bad || error, l)
  end.

Definition set_list (only_connection : bool) (l : list ci_access_entry_t) (s : st) : st :=
  if only_connection then mkAcls (types_list s) (specs_list s) l (acl_access_list s)
  else mkAcls (types_list s) (specs_list s) (acl_connection_access_list s) l.

(** A new entry with the acls named; [e] and [a] tell whether there is memory for the entry and for its acls. *)
Definition add_rule (e : bool) (a : nat → bool) (only_connection : bool) (verb : list Z) (names : list (list Z))
    (l : list ci_access_entry_t) (s : st) : outcome (bool * st) :=
  if bool_decide (verb = bytes "allow") || bool_decide (verb = bytes "deny") then
    match ci_access_entry_new e l (if bool_decide (verb = bytes "allow") then CI_ACCESS_ALLOW else CI_ACCESS_DENY) with
    | None => Ret (false, s)
    | Some (i, l) =>
        let* (error, l) := add_acls a only_connection s i names l in
        Ret (negb error, set_list only_connection l s)
    end
  else Ret (false, s).

Definition cfg_default_acl_access (e : bool) (a : nat → bool) (directive : list Z) (argv : list (list Z)) (s : st) : outcome (bool * st) :=
  match argv with
  | verb :: n :: ns =>
      if bool_decide (directive = bytes "client_access") then add_rule e a true verb (n :: ns) (acl_connection_access_list s) s
      else if bool_decide (directive = bytes "icap_access") then add_rule e a false verb (n :: ns) (acl_access_list s) s
      else Ret (false, s)
  | _ => Ret (false, s)
  end.
End acl.

(** ** Access controllers (access.c) *)

Section controllers.
Context {R : Type}.

(** A controller may leave out either check. *)
Record access_control_module_t := mkController {
  client_access : option (R → outcome Z);
  request_access : option (R → outcome Z)
}.

Fixpoint first_answer (checks : list (option (R → outcome Z))) (req : R) : outcome Z :=
  match checks with
  | [] => Ret CI_ACCESS_ALLOW
  | None :: checks => first_answer checks req
  | Some check :: checks =>
      let* res := check req in
      if negb (res =? CI_ACCESS_UNKNOWN) then Ret res else first_answer checks req
  end.

(** [None] for a null [used_access_controllers]. *)
Definition access_check_client (used_access_controllers : option (list access_control_module_t)) (req : R) : outcome Z :=
  match used_access_controllers with None => Ret CI_ACCESS_ALLOW | Some cs => first_answer (client_access <$> cs) req end.

Definition access_check_request (used_access_controllers : option (list access_control_module_t)) (req : R) : outcome Z :=
  match used_access_controllers with None => Ret CI_ACCESS_ALLOW | Some cs => first_answer (request_access <$> cs) req end.
End controllers.

(** [default_access_controllers]: access lists only. *)
Definition default_access_controllers {R V : Type} (s : acls R V) : list access_control_module_t :=
  [mkController (Some (default_acl_client_match s)) (Some (default_acl_request_match s))].
