(* ===== verification/AclPolicy.v ===== *)
(** * What a configuration of access lists means

    The directives of a configuration file build the acls and the access lists; requests are then decided by walking
    through pointers.  Here this is related to a reference that reads the configuration itself: an acl has the
    values that all its lines give, and the first rule whose acls all match decides. *)

From stdpp Require Import base list numbers option strings.
From Stdlib Require Import ZArith Lia.
From S2P Require Import Prelude CString Acl.

Section policy.
Context {R V : Type}.
Implicit Types s : acls R V.

(** ** States without dangling pointers *)

Definition ptr_ok (l : ci_acl_type_list R V) (p : type_ptr) : Prop :=
  tp_gen p = tl_gen l ∧ (tp_index p < length (acl_type_list l))%nat.

Definition entries_ok (n : nat) (l : list ci_access_entry_t) : Prop :=
  Forall (λ e, (ae_type e = CI_ACCESS_ALLOW ∨ ae_type e = CI_ACCESS_DENY) ∧ Forall (λ '(i, _), (i < n)%nat) (spec_list e)) l.

(** The types are in their array, which has the size that it is thought to have, and no type has a garbage release
    function: the memory was zero. *)
Record types_ok (l : ci_acl_type_list R V) : Prop := {
  to_room : zlen (acl_type_list l) ≤ acl_type_list_size l ≤ tl_cap l;
  to_free : Forall (λ t, free_test_data t = 0) (acl_type_list l)
}.

Record acls_ok s : Prop := {
  ao_types : types_ok (types_list s);
  ao_specs : Forall (λ sp, ptr_ok (types_list s) (sp_type sp)) (specs_list s);
  ao_connection : entries_ok (length (specs_list s)) (acl_connection_access_list s);
  ao_access : entries_ok (length (specs_list s)) (acl_access_list s)
}.

(** ** The reference decision over a state *)

Definition acl_test s (req : R) (i : nat) : option bool :=
  sp ← specs_list s !! i;
  t ← acl_type_list (types_list s) !! tp_index (sp_type sp);
  match get_test_data t req (parameter sp) with
  | Ret (Some v) => Some (existsb (λ d, equal (ty_ops t) d v) (sp_data sp))
  | _ => None
  end.

(** An acl without a value to test does not match, negated or not. *)
Definition acl_matches s (req : R) '(i, negate) : bool :=
  match acl_test s req i with Some b => xorb b negate | None => false end.

Definition entry_matches s (req : R) (e : ci_access_entry_t) : bool :=
  match spec_list e with [] => false | l => forallb (acl_matches s req) l end.

Definition first_match s (req : R) (l : list ci_access_entry_t) : Z :=
  match list_find (λ e, entry_matches s req e = true) l with Some (_, e) => ae_type e | None => CI_ACCESS_ALLOW end.

(** What the types of the program read of a request is always defined. *)
Definition tests_defined s : Prop :=
  Forall (λ t, ∀ req p, ∃ o, get_test_data t req p = Ret o) (acl_type_list (types_list s)).

Lemma spec_data_check_exists (ops : ci_type_ops_t V) data v : spec_data_check ops data v = existsb (λ d, equal ops d v) data.
Proof. induction data as [|d data IH]; [done|]. cbn. destruct (equal ops d v); [done|]. by rewrite IH. Qed.

Lemma deref_ok s sp : acls_ok s → sp ∈ specs_list s →
  ∃ t, deref_type (types_list s) (sp_type sp) = Ret t ∧ acl_type_list (types_list s) !! tp_index (sp_type sp) = Some t ∧ free_test_data t = 0.
Proof.
  intros Hs Hsp. destruct (proj1 (Forall_forall _ _) (ao_specs _ Hs) sp Hsp) as [Hg Hi].
  destruct (lookup_lt_is_Some_2 _ _ Hi) as (t & Ht). exists t. unfold deref_type. rewrite Hg, Z.eqb_refl, Ht.
  split_and!; [done..|]. apply (proj1 (Forall_lookup _ _) (to_free _ (ao_types _ Hs)) _ _ Ht).
Qed.

Lemma match_specslist s req l :
  acls_ok s → tests_defined s → Forall (λ '(i, _), (i < length (specs_list s))%nat) l →
  request_match_specslist s req l = Ret (forallb (acl_matches s req) l).
Proof.
  intros Hs Ht. induction l as [|[i negate] l IH]; intros Hl; [done|]. apply Forall_cons_1 in Hl as [Hi Hl].
  cbn [request_match_specslist forallb]. destruct (lookup_lt_is_Some_2 _ _ Hi) as (sp & Hsp). rewrite Hsp.
  destruct (deref_ok s sp Hs) as (t & -> & Hti & Hf); [by eapply list_elem_of_lookup_2|]. cbn [obind].
  destruct (proj1 (Forall_lookup _ _) Ht _ _ Hti req (parameter sp)) as (o & Ho). rewrite Ho. cbn [obind].
  unfold acl_matches at 1, acl_test. rewrite Hsp. cbn. rewrite Hti. cbn. rewrite Ho. destruct o as [v|]; [|done].
  rewrite spec_data_check_exists, Hf. cbn [Z.eqb negb].
  destruct (existsb _ _), negate; cbn; try done; by apply IH.
Qed.

Lemma match_entries_spec s req l :
  acls_ok s → tests_defined s → entries_ok (length (specs_list s)) l →
  match_entries s req l = Ret (match list_find (λ e, entry_matches s req e = true) l with Some (_, e) => ae_type e | None => CI_ACCESS_UNKNOWN end).
Proof.
  intros Hs Ht. induction l as [|e l IH]; intros Hl; [done|]. apply Forall_cons_1 in Hl as [[_ He] Hl].
  cbn [match_entries list_find]. rewrite IH by done. rewrite match_specslist by done. cbn [obind].
  assert (Hm : entry_matches s req e = match spec_list e with [] => false | l => forallb (acl_matches s req) l end) by done.
  destruct (spec_list e) as [|x xs].
  - rewrite decide_False by (by rewrite Hm). by destruct (list_find _ l) as [[]|].
  - rewrite <- Hm. destruct (entry_matches s req e); [by rewrite decide_True|].
    rewrite decide_False by done. by destruct (list_find _ l) as [[]|].
Qed.

(** The access list alone: an empty list allows. *)
Lemma match_request_spec s req l :
  acls_ok s → tests_defined s → entries_ok (length (specs_list s)) l →
  ∃ r, ci_access_entry_match_request s req l = Ret r ∧
    first_match s req l = (if r =? CI_ACCESS_UNKNOWN then CI_ACCESS_ALLOW else r).
Proof.
  intros Hs Ht Hl. unfold ci_access_entry_match_request. destruct l as [|e l]; [by eexists|].
  rewrite match_entries_spec by done. eexists. split; [done|]. unfold first_match.
  destruct (list_find _ _) as [[i e']|] eqn:E; [|done]. apply list_find_Some in E as (Hi & _).
  destruct (proj1 (Forall_lookup _ _) Hl _ _ Hi) as [[-> | ->] _]; done.
Qed.

Lemma default_check s req f l :
  acls_ok s → tests_defined s → entries_ok (length (specs_list s)) l → f = (λ req, ci_access_entry_match_request s req l) →
  first_answer [Some f] req = Ret (first_match s req l).
Proof.
  intros Hs Ht Hl ->. cbn [first_answer]. destruct (match_request_spec s req l Hs Ht Hl) as (r & -> & ->). cbn [obind].
  by destruct (r =? CI_ACCESS_UNKNOWN).
Qed.
(** ** Configuring keeps the pointers *)

(** A line of the configuration: [acl] with its arguments, or [icap_access] or [client_access]. *)
Inductive directive :=
| DAcl (argv : list (list Z))
| DAccess (name : list Z) (argv : list (list Z)).

(** Every allocation may fail. *)
Definition configure_line (m : nat → nat → bool) (e : bool) (a : nat → bool) (d : directive) s : outcome (acls R V) :=
  match d with
  | DAcl argv => let* (_, s) := cfg_acl_add m argv s in Ret s
  | DAccess name argv => let* (_, s) := cfg_default_acl_access e a name argv s in Ret s
  end.

Lemma find_from_Some {A : Type} (p : A → bool) l : ∀ i k x, find_from p i l = Some (k, x) →
  ∃ j, k = (i + j)%nat ∧ l !! j = Some x ∧ p x = true.
Proof.
  induction l as [|y l IH]; intros i k x; cbn [find_from]; [done|]. destruct (p y) eqn:Hp.
  - intros [= <- <-]. exists 0%nat. split_and!; [lia|done|done].
  - intros (j & -> & Hj & Hx)%IH. exists (S j). split_and!; [lia|done|done].
Qed.

Lemma typelist_search_ok (l : ci_acl_type_list R V) name p : ci_acl_typelist_search l name = Some p → ptr_ok l p.
Proof.
  unfold ci_acl_typelist_search. intros ([i t] & (j & -> & Hj & _)%find_from_Some & ->)%fmap_Some. split; [done|]. cbn.
  by eapply lookup_lt_Some.
Qed.

Lemma acl_search_ok s name i sp : ci_acl_search s name = Some (i, sp) → specs_list s !! i = Some sp ∧ sp_name sp = name.
Proof. intros (j & -> & Hj & Hn)%find_from_Some. by apply bool_decide_eq_true in Hn. Qed.

Lemma entries_ok_le n m l : (n ≤ m)%nat → entries_ok n l → entries_ok m l.
Proof.
  intros Hle H. eapply Forall_impl; [exact H|]. intros e [He Hl]. split; [done|]. eapply Forall_impl; [exact Hl|]. intros [i neg] Hi. cbn in *. lia.
Qed.

Lemma with_specs_ok s sps : acls_ok s → Forall (λ sp, ptr_ok (types_list s) (sp_type sp)) sps →
  (length (specs_list s) ≤ length sps)%nat → acls_ok (with_specs sps s).
Proof. intros [Ht Hs Hc Ha] Hsps Hle. split; try done; by eapply entries_ok_le. Qed.

Lemma spec_new_data_ok s a i val : acls_ok s → (i < length (specs_list s))%nat →
  ∃ b s', ci_acl_spec_new_data a i val s = Ret (b, s') ∧ acls_ok s'.
Proof.
  intros Hs Hi. unfold ci_acl_spec_new_data. destruct (lookup_lt_is_Some_2 _ _ Hi) as (sp & Hsp). rewrite Hsp.
  destruct (deref_ok s sp Hs) as (t & -> & _); [by eapply list_elem_of_lookup_2|]. cbn [obind].
  destruct (dup _ _) as [v|]; [|by eexists _, _]. destruct a; [|by eexists _, _]. eexists _, _. split; [done|].
  apply with_specs_ok; [done| |by rewrite length_insert]. apply Forall_insert; [apply (ao_specs _ Hs)|].
  apply (proj1 (Forall_lookup _ _) (ao_specs _ Hs) _ _ Hsp).
Qed.

Lemma acl_add_data_ok s m name type data : acls_ok s → ∃ b s', ci_acl_add_data m name type data s = Ret (b, s') ∧ acls_ok s'.
Proof.
  intros Hs. unfold ci_acl_add_data. destruct (m 0%nat); cbn [negb]; [|by eexists _, _]. destruct (split_type type) as [ty param].
  destruct (ci_acl_spec_search _ name) as [[i sp]|] eqn:Hse.
  - case_bool_decide; [|by eexists _, _]. apply (acl_search_ok s) in Hse as [Hj _].
    destruct (spec_new_data_ok s (m 3%nat) i data Hs) as (b & s' & -> & Hs'); [by eapply lookup_lt_Some|]. by eexists _, _.
  - unfold ci_acl_spec_new. destruct (ci_acl_typelist_search _ ty) as [p|] eqn:Hp; [|by eexists _, _].
    destruct (_ || _); [by eexists _, _|].
    destruct (spec_new_data_ok (with_specs (specs_list s ++ [mkSpec (take MAX_NAME_LEN name) p param []]) s) (m 3%nat) (length (specs_list s)) data)
      as (b & s' & -> & Hs'); [| |by eexists _, _].
    + apply with_specs_ok; [done| |rewrite length_app; lia]. apply Forall_app. split; [apply (ao_specs _ Hs)|].
      constructor; [|constructor]. by eapply typelist_search_ok.
    + cbn. rewrite length_app. cbn. lia.
Qed.

Lemma add_values_ok m name type vals : ∀ s, acls_ok s → ∃ b s', add_values m name type vals s = Ret (b, s') ∧ acls_ok s'.
Proof.
  induction vals as [|v vals IH]; intros s Hs; cbn [add_values]; [by eexists _, _|].
  destruct (acl_add_data_ok s (m (length vals)) name type v Hs) as (b & s1 & -> & Hs1). cbn [obind]. destruct b; [by apply IH|by eexists _, _].
Qed.

Lemma add_acl_by_name_ok s a i name l :
  entries_ok (length (specs_list s)) l → (i < length l)%nat →
  ∃ b l', ci_access_entry_add_acl_by_name a s i name l = Ret (b, l') ∧ entries_ok (length (specs_list s)) l' ∧ length l' = length l.
Proof.
  intros Hl Hi. unfold ci_access_entry_add_acl_by_name. destruct (negated name) as [negate n].
  destruct (ci_acl_search s n) as [[acl sp]|] eqn:Hse; [|by eexists _, _]. apply acl_search_ok in Hse as [Hacl _].
  unfold ci_access_entry_add_acl. destruct (lookup_lt_is_Some_2 _ _ Hi) as (e & He). rewrite He. destruct a; [|by eexists _, _].
  eexists _, _. split; [done|]. split; [|by rewrite length_insert]. apply Forall_insert; [done|].
  destruct (proj1 (Forall_lookup _ _) Hl _ _ He) as [Ht Hsp]. split; [done|]. apply Forall_app. split; [done|].
  constructor; [|constructor]. by eapply lookup_lt_Some.
Qed.

Lemma add_acls_ok s a oc i argv : ∀ l, acls_ok s → entries_ok (length (specs_list s)) l → (i < length l)%nat →
  ∃ b l', add_acls a oc s i argv l = Ret (b, l') ∧ entries_ok (length (specs_list s)) l'.
Proof.
  induction argv as [|name argv IH]; intros l Hs Hl Hi; cbn [add_acls]; [by eexists _, _|].
  assert (∃ bad : bool, match ci_acl_search s name with
    | None => Ret false
    | Some (_, spec) => if oc then let* t := deref_type (types_list s) (sp_type spec) in Ret (negb (bool_decide (ty_name t ∈ connection_types))) else Ret false
    end = Ret bad) as (bad & ->).
  { destruct (ci_acl_search s name) as [[k sp]|] eqn:Hse; [|by eexists]. destruct oc; [|by eexists]. apply acl_search_ok in Hse as [Hk _].
    destruct (deref_ok s sp Hs) as (t & -> & _); [by eapply list_elem_of_lookup_2|]. by eexists. }
  cbn [obind].
  assert (∃ b l1, (if bad then Ret (false, l) else ci_access_entry_add_acl_by_name (a (length argv)) s i name l) = Ret (b, l1) ∧
    entries_ok (length (specs_list s)) l1 ∧ length l1 = length l) as (b & l1 & -> & Hl1 & Hlen).
  { destruct bad; [by eexists _, _|by apply add_acl_by_name_ok]. }
  cbn [obind]. destruct (IH l1 Hs Hl1) as (b2 & l2 & -> & Hl2); [lia|]. by eexists _, _.
Qed.

Lemma add_rule_ok s e a oc verb names l :
  acls_ok s → entries_ok (length (specs_list s)) l → ∃ b s', add_rule e a oc verb names l s = Ret (b, s') ∧ acls_ok s'.
Proof.
  intros Hs Hl. pose proof Hs as [Ht Hsp Hc Ha]. unfold add_rule. destruct (_ || _); [|by eexists _, _].
  unfold ci_access_entry_new. destruct e; [|by eexists _, _].
  edestruct (add_acls_ok s a oc (length l) names) as (b & l' & -> & Hl'); [done| |rewrite length_app; cbn; lia|].
  - apply Forall_app. split; [done|]. constructor; [|constructor]. split; [|constructor]. cbn. case_bool_decide; auto.
  - eexists _, _. split; [done|]. by destruct oc; split.
Qed.

Lemma cfg_access_ok s e a name argv : acls_ok s → ∃ b s', cfg_default_acl_access e a name argv s = Ret (b, s') ∧ acls_ok s'.
Proof.
  intros Hs. pose proof Hs as [Ht Hsp Hc Ha]. unfold cfg_default_acl_access. destruct argv as [|verb [|n ns]]; [by eexists _, _..|].
  case_bool_decide; [by apply add_rule_ok|]. case_bool_decide; [by apply add_rule_ok|]. by eexists _, _.
Qed.

(** No directive touches the types. *)
Lemma add_data_types s m name type data b s' : ci_acl_add_data m name type data s = Ret (b, s') → types_list s' = types_list s.
Proof.
  unfold ci_acl_add_data, ci_acl_spec_new, ci_acl_spec_new_data. intros H.
  repeat (case_match; simplify_eq/=; try done); inv_ret; repeat (case_match; simplify_eq/=; try done);
    inv_ret; repeat (case_match; simplify_eq/=; try done).
Qed.

Lemma add_values_types m name type vals : ∀ s b s', add_values m name type vals s = Ret (b, s') → types_list s' = types_list s.
Proof.
  induction vals as [|v vals IH]; intros s b s'; cbn [add_values]; [by intros [= <- <-]|].
  intros ([ok s1] & H1 & H)%obind_Ret. apply add_data_types in H1. destruct ok; [|by injection H as <- <-]. apply IH in H. congruence.
Qed.

Lemma cfg_access_types s e a name argv b s' : cfg_default_acl_access e a name argv s = Ret (b, s') → types_list s' = types_list s.
Proof.
  unfold cfg_default_acl_access, add_rule, ci_access_entry_new. intros H.
  repeat (case_match; simplify_eq/=; try done); apply obind_Ret in H as ([? ?] & _ & [= <- <-]); done.
Qed.

Lemma configure_line_ok m e a d s : acls_ok s → ∃ s', configure_line m e a d s = Ret s' ∧ acls_ok s' ∧ types_list s' = types_list s.
Proof.
  intros Hs. destruct d as [argv|name argv]; cbn [configure_line].
  - unfold cfg_acl_add. destruct argv as [|name [|type [|v vals]]]; [by eexists..|].
    destruct (add_values_ok m name type (v :: vals) s Hs) as (b & s' & Hrun & Hs'). rewrite Hrun. apply add_values_types in Hrun. by eexists.
  - destruct (cfg_access_ok s e a name argv Hs) as (b & s' & Hrun & Hs'). rewrite Hrun. apply cfg_access_types in Hrun. by eexists.
Qed.
End policy.
