(* ===== verification/AclConfig.v ===== *)
(** * Access is decided as the configuration says

    The reference is the configuration as an administrator reads it: a map from the names of acls to their types and
    values, and the rules in their order.  The theorem relates it to the acls and access lists that the directives build and
    the decisions taken with them. *)

From stdpp Require Import base list numbers option strings gmap.
From Stdlib Require Import ZArith Lia.
From S2P Require Import Prelude CString Acl AclPolicy.

(** ** The reference *)

Record rule := mkRule { ru_type : Z; ru_acls : list (bool * list Z) }.

Record conf := mkConf {
  cf_acls : gmap (list Z) (list Z * list (list Z));
  cf_client : list rule;
  cf_access : list rule
}.

Section reference.
Context {R V : Type} (types : ci_acl_type_list R V).

(** The acl type with a name. *)
Definition type_named (name : list Z) : option (ci_acl_type_t R V) :=
  snd <$> find_from (λ t, bool_decide (ty_name t = name)) 0 (acl_type_list types).

(** A value is added to an acl; its lines must have the same type, of those there are, and names have their length. *)
Definition conf_value (name type v : list Z) (c : conf) : option conf :=
  if bool_decide (length name ≤ MAX_NAME_LEN)%nat && bool_decide (is_Some (type_named (fst (split_type type)))) then
    match cf_acls c !! name with
    | None => Some (mkConf (<[name := (type, [v])]> (cf_acls c)) (cf_client c) (cf_access c))
    | Some (type', vs) =>
        if bool_decide (type' = type) then Some (mkConf (<[name := (type, vs ++ [v])]> (cf_acls c)) (cf_client c) (cf_access c)) else None
    end
  else None.

Fixpoint conf_values (name type : list Z) (vs : list (list Z)) (c : conf) : option conf :=
  match vs with [] => Some c | v :: vs => c ← conf_value name type v c; conf_values name type vs c end.

(** The acls of a rule are defined; rules for connections have only acls that need no request, and none is negated. *)
Definition acl_usable (oc : bool) (c : conf) (name : list Z) : bool :=
  let '(negate, n) := negated name in
  match cf_acls c !! n with
  | None => false
  | Some (type, _) => negb oc || (negb negate && bool_decide (fst (split_type type) ∈ connection_types))
  end.

Definition conf_rule (oc : bool) (verb : list Z) (names : list (list Z)) (c : conf) : option conf :=
  if forallb (acl_usable oc c) names && (bool_decide (verb = bytes "allow") || bool_decide (verb = bytes "deny")) then
    let r := mkRule (if bool_decide (verb = bytes "allow") then CI_ACCESS_ALLOW else CI_ACCESS_DENY) (negated <$> names) in
    Some (if oc then mkConf (cf_acls c) (cf_client c ++ [r]) (cf_access c) else mkConf (cf_acls c) (cf_client c) (cf_access c ++ [r]))
  else None.

Definition read_line (d : directive) (c : conf) : option conf :=
  match d with
  | DAcl (name :: type :: v :: vs) => conf_values name type (v :: vs) c
  | DAccess name (verb :: n :: ns) =>
      if bool_decide (name = bytes "client_access") then conf_rule true verb (n :: ns) c
      else if bool_decide (name = bytes "icap_access") then conf_rule false verb (n :: ns) c
      else None
  | _ => None
  end.

Fixpoint read_conf (ds : list directive) (c : conf) : option conf :=
  match ds with [] => Some c | d :: ds => c ← read_line d c; read_conf ds c end.

(** Whether a value of the acl matches what the request has; [None] when the request has nothing to test. *)
Definition conf_test (c : conf) (req : R) (name : list Z) : option bool :=
  '(type, vs) ← cf_acls c !! name;
  let '(ty, param) := split_type type in
  t ← type_named ty;
  match get_test_data t req param with
  | Ret (Some v) => Some (existsb (λ d, equal (ty_ops t) d v) (omap (dup (ty_ops t)) vs))
  | _ => None
  end.

Definition conf_matches (c : conf) (req : R) '(negate, name) : bool :=
  match conf_test c req name with Some b => xorb b negate | None => false end.

(** The first rule whose acls all match; without one the request is allowed. *)
Definition conf_decision (c : conf) (rules : list rule) (req : R) : Z :=
  match list_find (λ r, forallb (conf_matches c req) (ru_acls r) = true) rules with Some (_, r) => ru_type r | None => CI_ACCESS_ALLOW end.
End reference.

(** All allocations succeed. *)
Fixpoint configure {R V : Type} (ds : list directive) (s : acls R V) : outcome (acls R V) :=
  match ds with
  | [] => Ret s
  | d :: ds => let* s := configure_line (λ _ _, true) true (λ _, true) d s in configure ds s
  end.

(** ** Searching by name *)

Lemma find_from_app {A : Type} (p : A → bool) l k : ∀ i,
  find_from p i (l ++ k) = match find_from p i l with Some x => Some x | None => find_from p (i + length l) k end.
Proof.
  induction l as [|x l IH]; intros i; cbn [find_from app length]; [by rewrite Nat.add_0_r|]. destruct (p x); [done|].
  rewrite IH. by replace (S i + length l)%nat with (i + S (length l))%nat by lia.
Qed.

Lemma find_from_insert {A : Type} (p : A → bool) l x y : ∀ i j, l !! j = Some x → p y = p x →
  find_from p i (<[j := y]> l) = match find_from p i l with Some (k, z) => Some (k, if decide (k = i + j)%nat then y else z) | None => None end.
Proof.
  induction l as [|z l IH]; intros i [|j] Hj Hp; cbn [lookup list_lookup] in Hj; try done.
  - injection Hj as ->. cbn. rewrite Hp. destruct (p x); [by rewrite decide_True by lia|].
    destruct (find_from p (S i) l) as [[k z]|] eqn:E; [|done]. apply find_from_Some in E as (j & -> & _). by rewrite decide_False by lia.
  - change (<[S j := y]> (z :: l)) with (z :: <[j := y]> l). cbn [find_from]. destruct (p z); [by rewrite decide_False by lia|]. rewrite (IH (S i) j) by done.
    destruct (find_from p (S i) l) as [[k w]|]; [|done]. by replace (i + S j)%nat with (S i + j)%nat by lia.
Qed.

(** ** The relation *)

Section relation.
Context {R V : Type} (types : ci_acl_type_list R V) (types_fine : types_ok types).
Implicit Types (s : acls R V) (c : conf).

(** The acl of the program that an acl of the configuration is. *)
Definition spec_of (name type : list Z) (vs : list (list Z)) : option (ci_acl_spec_t V) :=
  let '(ty, param) := split_type type in
  p ← ci_acl_typelist_search types ty; t ← type_named types ty;
  Some (mkSpec name p param (omap (dup (ty_ops t)) vs)).

Definition rule_rel s (r : rule) (e : ci_access_entry_t) : Prop :=
  ae_type e = ru_type r ∧ spec_list e ≠ [] ∧
  Forall2 (λ '(negate, n) '(i, negate'), negate = negate' ∧ ∃ sp, ci_acl_search s n = Some (i, sp)) (ru_acls r) (spec_list e).

Record built c s : Prop := {
  bu_ok : acls_ok s;
  bu_types : types_list s = types;
  bu_acls : ∀ n, match cf_acls c !! n with
    | None => ci_acl_search s n = None
    | Some (type, vs) => ∃ i sp, ci_acl_search s n = Some (i, sp) ∧ spec_of n type vs = Some sp
    end;
  bu_client : Forall2 (rule_rel s) (cf_client c) (acl_connection_access_list s);
  bu_access : Forall2 (rule_rel s) (cf_access c) (acl_access_list s)
}.

Lemma type_search ty p t : ci_acl_typelist_search types ty = Some p → type_named types ty = Some t →
  acl_type_list types !! tp_index p = Some t ∧ ty_name t = ty.
Proof.
  unfold ci_acl_typelist_search, type_named. intros ([i x] & Hf & ->)%fmap_Some. rewrite Hf. intros [= <-].
  apply find_from_Some in Hf as (j & -> & Hj & Hn). by apply bool_decide_eq_true in Hn.
Qed.

Lemma type_search_both ty : is_Some (type_named types ty) → ∃ p t, ci_acl_typelist_search types ty = Some p ∧ type_named types ty = Some t.
Proof. unfold ci_acl_typelist_search, type_named. intros (t & ([i x] & -> & ->)%fmap_Some). by eexists _, _. Qed.

(** The acls may change as long as every name keeps its place. *)
Lemma rule_rel_mono s s' r e :
  (∀ n i sp, ci_acl_search s n = Some (i, sp) → ∃ sp', ci_acl_search s' n = Some (i, sp')) → rule_rel s r e → rule_rel s' r e.
Proof.
  intros Hn (Ht & Hne & Hl). split; [done|]. split; [done|]. eapply Forall2_impl; [exact Hl|].
  intros [neg n] [i neg'] (-> & sp & Hsp). split; [done|]. by eapply Hn.
Qed.

Lemma acl_test_conf c s req n i sp :
  built c s → ci_acl_search s n = Some (i, sp) → acl_test s req i = conf_test types c req n.
Proof.
  intros Hb Hse. pose proof (bu_acls _ _ Hb n) as Hn. unfold acl_test, conf_test.
  destruct (cf_acls c !! n) as [[type vs]|]; [|by rewrite Hse in Hn]. destruct Hn as (i' & sp' & Hse' & Hsp). rewrite Hse in Hse'. injection Hse' as <- <-.
  apply acl_search_ok in Hse as [-> _]. unfold spec_of in Hsp. cbn. destruct (split_type type) as [ty param].
  apply bind_Some in Hsp as (p & Hp & (t & Ht & [= <-])%bind_Some). cbn. rewrite (bu_types _ _ Hb).
  destruct (type_search ty p t Hp Ht) as [-> _]. by rewrite Ht.
Qed.

Lemma decision_conf c s req rules l :
  built c s → Forall2 (rule_rel s) rules l → first_match s req l = conf_decision types c rules req.
Proof.
  intros Hb Hl. unfold first_match, conf_decision.
  assert (He : ∀ r e, rule_rel s r e → entry_matches s req e = forallb (conf_matches types c req) (ru_acls r)).
  { intros r e (_ & Hne & Hm). unfold entry_matches.
    assert (forallb (acl_matches s req) (spec_list e) = forallb (conf_matches types c req) (ru_acls r)); [|by destruct (spec_list e)].
    clear Hne. induction Hm as [|[neg n] [i neg'] ns ks (<- & sp & Hsp) _ IH]; [done|]. cbn [forallb]. rewrite <- IH. f_equal.
    unfold acl_matches, conf_matches. by rewrite (acl_test_conf c s req n i sp Hb Hsp). }
  assert (Hf : ∀ r e, rule_rel s r e → ae_type e = ru_type r) by (by intros r e [? _]).
  induction Hl as [|r e rs es Hre Hrs IH]; [done|]. cbn [list_find].
  rewrite (He r e Hre). destruct (forallb _ (ru_acls r)); [rewrite !decide_True by done; by apply Hf|]. rewrite !decide_False by done.
  by destruct (list_find _ es) as [[? ?]|], (list_find _ rs) as [[? ?]|].
Qed.

(** ** The directive acl *)

Lemma built_specs c s name type vs i sp sps :
  built c s → acls_ok (with_specs sps s) → spec_of name type vs = Some sp →
  (∀ n, ci_acl_spec_search sps n = if decide (n = name) then Some (i, sp) else ci_acl_search s n) →
  (∀ k x, ci_acl_search s name = Some (k, x) → k = i) →
  built (mkConf (<[name := (type, vs)]> (cf_acls c)) (cf_client c) (cf_access c)) (with_specs sps s).
Proof.
  intros [Hok Hty Hac Hcl Hax] Hok' Hsp Hse Hi.
  assert (Hm : ∀ r e, rule_rel s r e → rule_rel (with_specs sps s) r e).
  { intros r e. apply rule_rel_mono. intros n k x Hk. change (ci_acl_search (with_specs sps s) n) with (ci_acl_spec_search sps n). rewrite Hse.
    destruct (decide (n = name)) as [->|]; [|by eexists]. rewrite (Hi k x Hk). by eexists. }
  split; try done; cbn [cf_acls cf_client cf_access acl_connection_access_list acl_access_list with_specs].
  - intros n. change (ci_acl_search (with_specs sps s) n) with (ci_acl_spec_search sps n). rewrite Hse. destruct (decide (n = name)) as [->|Hne].
    + rewrite lookup_insert_eq. by exists i, sp.
    + rewrite lookup_insert_ne by done. apply Hac.
  - eapply Forall2_impl; [exact Hcl|]. intros r e. apply Hm.
  - eapply Forall2_impl; [exact Hax|]. intros r e. apply Hm.
Qed.

(** A value is added to the acl with a place; a value that cannot be read is left out. *)
Lemma new_data_spec s i sp t v :
  acls_ok s → specs_list s !! i = Some sp → acl_type_list (types_list s) !! tp_index (sp_type sp) = Some t →
  ∃ b, ci_acl_spec_new_data true i v s =
    Ret (b, with_specs (<[i := mkSpec (sp_name sp) (sp_type sp) (parameter sp) (sp_data sp ++ omap (dup (ty_ops t)) [v])]> (specs_list s)) s).
Proof.
  intros Hs Hi Ht. unfold ci_acl_spec_new_data. rewrite Hi.
  destruct (deref_ok s sp Hs) as (t' & -> & Ht' & _); [by eapply list_elem_of_lookup_2|]. rewrite Ht in Ht'. injection Ht' as <-. cbn.
  destruct (dup (ty_ops t) v) as [x|]; [by eexists|]. exists false. rewrite app_nil_r.
  rewrite list_insert_id; [by destruct s|]. rewrite Hi. by destruct sp.
Qed.

Lemma search_insert s i sp sp' name n :
  ci_acl_search s name = Some (i, sp) → sp_name sp' = name →
  ci_acl_spec_search (<[i := sp']> (specs_list s)) n = if decide (n = name) then Some (i, sp') else ci_acl_search s n.
Proof.
  intros Hse Hn'. pose proof (acl_search_ok s name i sp Hse) as [Hi Hn].
  unfold ci_acl_spec_search. rewrite (find_from_insert _ _ sp); [|done|by rewrite Hn, Hn'].
  change (find_from _ 0 (specs_list s)) with (ci_acl_search s n).
  destruct (decide (n = name)) as [->|Hne]; [by rewrite Hse, decide_True|].
  destruct (ci_acl_search s n) as [[k z]|] eqn:E; [|done]. apply acl_search_ok in E as [Hk Hz].
  rewrite decide_False; [done|]. cbn. intros ->. rewrite Hi in Hk. congruence.
Qed.

Lemma search_new s sp n :
  ci_acl_search s (sp_name sp) = None →
  ci_acl_spec_search (specs_list s ++ [sp]) n = if decide (n = sp_name sp) then Some (length (specs_list s), sp) else ci_acl_search s n.
Proof.
  intros Hse. unfold ci_acl_spec_search. rewrite find_from_app. change (find_from _ 0 (specs_list s)) with (ci_acl_search s n). cbn [find_from].
  destruct (decide (n = sp_name sp)) as [->|Hne]; [by rewrite Hse, bool_decide_eq_true_2|].
  rewrite bool_decide_eq_false_2 by done. by destruct (ci_acl_search s n).
Qed.

Lemma spec_of_named name type vs p t :
  ci_acl_typelist_search types (fst (split_type type)) = Some p → type_named types (fst (split_type type)) = Some t →
  spec_of name type vs = Some (mkSpec name p (snd (split_type type)) (omap (dup (ty_ops t)) vs)).
Proof. intros Hp Ht. unfold spec_of. destruct (split_type type) as [ty param]. cbn in *. rewrite Hp. cbn. by rewrite Ht. Qed.

(** The acl is there, or is made; then it gets the value. *)
Lemma add_data_to c s i sp name type vs v t :
  built c s → ci_acl_search s name = Some (i, sp) → spec_of name type vs = Some sp → type_named types (fst (split_type type)) = Some t →
  ∃ b s', ci_acl_spec_new_data true i v s = Ret (b, s') ∧
    built (mkConf (<[name := (type, vs ++ [v])]> (cf_acls c)) (cf_client c) (cf_access c)) s'.
Proof.
  intros Hb Hse Hsp Ht. pose proof (bu_ok _ _ Hb) as Hok. pose proof (acl_search_ok s name i sp Hse) as [Hi Hn].
  destruct (type_search_both _ (ex_intro _ t Ht)) as (p & t' & Hp & Ht'). rewrite Ht in Ht'. injection Ht' as <-.
  rewrite (spec_of_named _ _ _ p t Hp Ht) in Hsp. injection Hsp as <-.
  destruct (new_data_spec s i _ t v Hok Hi) as (b & Hnd); [rewrite (bu_types _ _ Hb); by apply (type_search _ p t Hp Ht)|].
  destruct (spec_new_data_ok s true i v Hok) as (b' & s' & Hnd' & Hok'); [by eapply lookup_lt_Some|].
  rewrite Hnd in Hnd'. injection Hnd' as <- <-. eexists _, _. split; [exact Hnd|].
  eapply built_specs; [done|done|by apply spec_of_named| |].
  - intros n. erewrite search_insert by (done || exact Hse). by rewrite omap_app.
  - intros k x Hk. rewrite Hse in Hk. by injection Hk.
Qed.

Lemma add_value_built c s name type v c' :
  built c s → conf_value types name type v c = Some c' → ∃ s', ci_acl_add_data (λ _, true) name type v s = Ret (true, s') ∧ built c' s'.
Proof.
  intros Hb. unfold conf_value. destruct (bool_decide _) eqn:Hlen; [|done]. apply bool_decide_eq_true in Hlen.
  destruct (bool_decide (is_Some _)) eqn:Hty; [|done]. apply bool_decide_eq_true in Hty. cbn [andb].
  destruct (type_search_both _ Hty) as (p & t & Hp & Ht). pose proof (bu_acls _ _ Hb name) as Hn. pose proof (spec_of_named name type) as Hof.
  unfold ci_acl_add_data. cbn [negb]. destruct (split_type type) as [ty param] eqn:Esp. cbn [fst snd] in *.
  change (ci_acl_spec_search (specs_list s) name) with (ci_acl_search s name). rewrite (bu_types _ _ Hb), Hp.
  destruct (cf_acls c !! name) as [[type' vs]|] eqn:Hc.
  - case_bool_decide as He; [subst type'|done]. intros [= <-]. destruct Hn as (i & sp & Hse & Hsp). rewrite Hse.
    rewrite bool_decide_eq_true_2 by (rewrite (Hof vs p t Hp Ht) in Hsp; by injection Hsp as <-).
    destruct (add_data_to c s i sp name type vs v t) as (b & s' & -> & Hb'); [done|done|done|by rewrite Esp|by eexists].
  - intros [= <-]. rewrite Hn. unfold ci_acl_spec_new. rewrite (bu_types _ _ Hb), Hp. cbn [negb orb andb]. rewrite take_ge by done.
    set (sp := mkSpec name p param []).
    assert (Hb0 : built (mkConf (<[name := (type, [])]> (cf_acls c)) (cf_client c) (cf_access c)) (with_specs (specs_list s ++ [sp]) s)).
    { eapply (built_specs c s name type [] (length (specs_list s)) sp); [done| |exact (Hof [] p t Hp Ht)| |by intros k x Hk; rewrite Hn in Hk].
      - pose proof (bu_ok _ _ Hb) as Hok. apply with_specs_ok; [done| |rewrite length_app; lia]. apply Forall_app. split; [apply (ao_specs _ Hok)|].
        constructor; [|constructor]. cbn. rewrite (bu_types _ _ Hb). by eapply typelist_search_ok.
      - intros n. apply (search_new s sp). exact Hn. }
    destruct (add_data_to _ _ (length (specs_list s)) sp name type [] v t Hb0) as (b & s' & -> & Hb'); [|exact (Hof [] p t Hp Ht)|by rewrite Esp|].
    + change (ci_acl_search (with_specs (specs_list s ++ [sp]) s) name) with (ci_acl_spec_search (specs_list s ++ [sp]) name).
      rewrite search_new by done. by rewrite decide_True.
    + cbn [obind]. eexists. split; [done|]. cbn in Hb'. by rewrite insert_insert_eq in Hb'.
Qed.

Lemma add_values_built name type vs : ∀ c s c',
  built c s → conf_values types name type vs c = Some c' → ∃ s', add_values (λ _ _, true) name type vs s = Ret (true, s') ∧ built c' s'.
Proof.
  induction vs as [|v vs IH]; intros c s c' Hb; cbn [conf_values add_values]; [intros [= <-]; by eexists|].
  intros (c1 & Hc1 & Hc)%bind_Some. destruct (add_value_built c s name type v c1 Hb Hc1) as (s1 & -> & Hb1). cbn [obind]. by eapply IH.
Qed.

(** ** The directives icap_access and client_access *)

Lemma usable_search oc c s name :
  built c s → acl_usable oc c name = true →
  ∃ i sp, ci_acl_search s (snd (negated name)) = Some (i, sp) ∧
    (oc = true → negated name = (false, name) ∧ ∃ t, deref_type (types_list s) (sp_type sp) = Ret t ∧ ty_name t ∈ connection_types).
Proof.
  intros Hb. unfold acl_usable. destruct (negated name) as [negate n] eqn:En. cbn [snd]. pose proof (bu_acls _ _ Hb n) as Hn.
  destruct (cf_acls c !! n) as [[type vs]|]; [|done]. destruct Hn as (i & sp & Hse & Hsp). intros Hu. exists i, sp. split; [done|]. intros ->.
  cbn [negb orb] in Hu. apply andb_true_iff in Hu as [Hneg Hct]. destruct negate; [done|]. apply bool_decide_eq_true in Hct.
  assert (n = name) as ->. { unfold negated in En. repeat (case_match; simplify_eq; try done). }
  split; [done|]. destruct (acl_search_ok s name i sp Hse) as [Hi _].
  destruct (deref_ok s sp (bu_ok _ _ Hb)) as (t & Hd & Ht & _); [by eapply list_elem_of_lookup_2|]. exists t. split; [done|].
  unfold spec_of in Hsp. destruct (split_type type) as [ty param]. apply bind_Some in Hsp as (p & Hp & (t' & Ht' & [= <-])%bind_Some).
  cbn in Ht. rewrite (bu_types _ _ Hb) in Ht. destruct (type_search ty p t' Hp Ht') as [Hx Hy]. rewrite Hx in Ht. injection Ht as <-. by rewrite Hy.
Qed.

Lemma add_acls_built oc c s names l : ∀ e,
  built c s → forallb (acl_usable oc c) names = true →
  ∃ ks, add_acls (λ _, true) oc s (length l) names (l ++ [e]) = Ret (false, l ++ [mkEntry (ae_type e) (spec_list e ++ ks)]) ∧
    Forall2 (λ '(negate, n) '(i, negate'), negate = negate' ∧ ∃ sp, ci_acl_search s n = Some (i, sp)) (negated <$> names) ks.
Proof.
  induction names as [|name names IH]; intros e Hb Hu; cbn [add_acls].
  { exists []. rewrite app_nil_r. split; [by destruct e|constructor]. }
  cbn [forallb] in Hu. apply andb_true_iff in Hu as [Hu Hus]. destruct (usable_search oc c s name Hb Hu) as (i & sp & Hse & Hoc).
  assert (Hbad : match ci_acl_search s name with
    | None => Ret false
    | Some (_, spec) => if oc then let* t := deref_type (types_list s) (sp_type spec) in Ret (negb (bool_decide (ty_name t ∈ connection_types))) else Ret false
    end = Ret false).
  { destruct oc; [|by destruct (ci_acl_search s name) as [[]|]]. destruct (Hoc eq_refl) as (Hn & t & Ht & Hct).
    rewrite Hn in Hse. cbn in Hse. rewrite Hse, Ht. cbn. by rewrite bool_decide_eq_true_2. }
  rewrite Hbad. cbn [obind]. unfold ci_access_entry_add_acl_by_name. destruct (negated name) as [negate n] eqn:En. cbn [snd] in Hse. rewrite Hse.
  unfold ci_access_entry_add_acl. rewrite list_lookup_middle by done. cbn [obind].
  rewrite insert_app_r_alt, Nat.sub_diag by lia. cbn [list_insert insert].
  destruct (IH (mkEntry (ae_type e) (spec_list e ++ [(i, negate)])) Hb Hus) as (ks & Hrun & Hks).
  change (<[0%nat := ?y]> [e]) with [y]. rewrite Hrun. cbn [obind orb ae_type spec_list].
  exists ((i, negate) :: ks). rewrite <- app_assoc. split; [done|]. cbn [fmap list_fmap]. rewrite En. constructor; [|done]. split; [done|]. by eexists.
Qed.

Lemma rule_built oc verb n ns c s c' :
  built c s → conf_rule oc verb (n :: ns) c = Some c' →
  ∃ s', add_rule true (λ _, true) oc verb (n :: ns) (if oc then acl_connection_access_list s else acl_access_list s) s = Ret (true, s') ∧ built c' s'.
Proof.
  intros Hb. set (l := if oc then _ else _).
  assert (Hl : entries_ok (length (specs_list s)) l) by (destruct oc; apply (bu_ok _ _ Hb)).
  destruct (add_rule_ok s true (λ _, true) oc verb (n :: ns) l (bu_ok _ _ Hb) Hl) as (b & s' & Hrun' & Hok'). revert Hrun'.
  unfold conf_rule, add_rule. destruct (forallb _ _) eqn:Hu; [|done]. cbn [andb]. destruct (_ || _); [|done].
  set (ty := if bool_decide (verb = bytes "allow") then _ else _). unfold ci_access_entry_new.
  destruct (add_acls_built oc c s (n :: ns) l (mkEntry ty []) Hb Hu) as (ks & Hrun & Hks). rewrite Hrun. cbn [obind negb ae_type spec_list app].
  intros [= <- <-] [= <-]. eexists. split; [done|]. pose proof Hb as [_ Hty Hac Hcl Hax].
  assert (Hre : rule_rel s (mkRule ty (negated <$> n :: ns)) (mkEntry ty ks)).
  { split; [done|]. split; [|exact Hks]. cbn. intros Hk0. rewrite Hk0 in Hks. cbn in Hks. by apply Forall2_nil_inv_r in Hks. }
  destruct oc; (split; [exact Hok'|exact Hty|exact Hac|..]); cbn [set_list acl_connection_access_list acl_access_list cf_client cf_access];
    try exact Hcl; try exact Hax; apply Forall2_app; try exact Hcl; try exact Hax; constructor; try exact Hre; constructor.
Qed.

Lemma configure_line_built d c s c' :
  built c s → read_line types d c = Some c' → ∃ s', configure_line (λ _ _, true) true (λ _, true) d s = Ret s' ∧ built c' s'.
Proof.
  intros Hb. destruct d as [[|name [|type [|v vs]]]|name [|verb [|n ns]]]; cbn [read_line configure_line]; try done.
  - intros Hc. unfold cfg_acl_add. destruct (add_values_built _ _ _ c s c' Hb Hc) as (s' & -> & Hb'). by eexists.
  - unfold cfg_default_acl_access. case_bool_decide; [|case_bool_decide; [|done]]; intros Hc.
    + destruct (rule_built true verb n ns c s c' Hb Hc) as (s' & -> & Hb'). by eexists.
    + destruct (rule_built false verb n ns c s c' Hb Hc) as (s' & -> & Hb'). by eexists.
Qed.

Lemma configure_built ds : ∀ c s c',
  built c s → read_conf types ds c = Some c' → ∃ s', configure ds s = Ret s' ∧ built c' s'.
Proof.
  induction ds as [|d ds IH]; intros c s c' Hb; cbn [read_conf configure]; [intros [= <-]; by eexists|].
  intros (c1 & Hc1 & Hc)%bind_Some. destruct (configure_line_built d c s c1 Hb Hc1) as (s1 & -> & Hb1). cbn [obind]. by eapply IH.
Qed.
End relation.

(** ** Properties *)


(** Every line with the answers of its allocations. *)
Fixpoint configure_any {R V : Type} (ds : list ((nat → nat → bool) * bool * (nat → bool) * directive)) (s : acls R V) : outcome (acls R V) :=
  match ds with
  | [] => Ret s
  | (m, e, a, d) :: ds => let* s := configure_line m e a d s in configure_any ds s
  end.


(** An acl that a rule names and that is not defined is left out, and the rule still counts as read: a rule to deny the
    requests of one acl, whose name has a mistake, denies nothing. *)
Lemma misspelled_acl_allows {R V : Type} (types : ci_acl_type_list R V) name req :
  ∃ s, cfg_default_acl_access true (λ _, true) (bytes "icap_access") [bytes "deny"; name] (mkAcls types [] [] []) = Ret (true, s) ∧
    access_check_request (Some (default_access_controllers s)) req = Ret CI_ACCESS_ALLOW.
Proof.
  exists (mkAcls types [] [] [mkEntry CI_ACCESS_DENY []]). split; [|done]. unfold cfg_default_acl_access.
  rewrite (bool_decide_eq_false_2 (bytes "icap_access" = bytes "client_access")), (bool_decide_eq_true_2 (bytes "icap_access" = _)) by done.
  unfold add_rule. rewrite (bool_decide_eq_false_2 (bytes "deny" = bytes "allow")), (bool_decide_eq_true_2 (bytes "deny" = _)) by done.
  cbn. unfold ci_access_entry_add_acl_by_name. by destruct (negated name).
Qed.

(** ** Witnesses *)

(** One acl type, the name of the service. *)
Definition service_type : ci_acl_type_t (list Z) (list Z) :=
  mkType (bytes "service") (λ req _, Ret (Some req)) 0 (mkOps Some (λ a b, bool_decide (a = b))).
Definition service_types : ci_acl_type_list (list Z) (list Z) := mkTypes [service_type] STEP STEP 0.

Lemma service_types_fine : types_ok service_types ∧ (∀ t r p, t ∈ acl_type_list service_types → ∃ o, get_test_data t r p = Ret o).
Proof.
  split; [by split; [|repeat constructor]|]. intros t r p Ht. apply list_elem_of_singleton in Ht as ->. by eexists.
Qed.

Definition sample_conf : list directive :=
  [DAcl [bytes "E"; bytes "service"; bytes "echo"]; DAccess (bytes "icap_access") [bytes "deny"; bytes "!E"];
   DAcl [bytes "E"; bytes "service"; bytes "gw"]].


