(* ===== verification/AclTypes.v ===== *)
(** * Types of acls (acl.c, types_ops.c)

    The values that acls of the types time, content_length, user, service, type, port, src, srvip and http_client_ip
    have, how they are read from the configuration and how a request is compared with them. *)

From stdpp Require Import base list numbers option strings.
From Stdlib Require Import ZArith Lia.
From S2P Require Import Prelude CString Acl.

(** ** Times *)

Record acl_time_data := mkTime { days : Z; start_time : Z; end_time : Z }.

(** The names of the days in the order of the table. *)
Definition day_table : list (list Z * Z) :=
  [(bytes "Sunday", 0); (bytes "Monday", 1); (bytes "Tuesday", 2); (bytes "Wednesday", 3); (bytes "Thursday", 4);
   (bytes "Friday", 5); (bytes "Saturday", 6); (bytes "S", 0); (bytes "M", 1); (bytes "T", 2); (bytes "W", 3); (bytes "H", 4);
   (bytes "F", 5); (bytes "A", 6)].

(** The first day of the table that the string starts with: its number, and what follows it. *)
Fixpoint find_day (table : list (list Z * Z)) (s : list Z) : outcome (option (Z * list Z)) :=
  match table with
  | [] => Ret None
  | (d, id) :: table =>
      match str_prefix_case d s with
      | None => UB
      | Some true => Ret (Some (id, drop (length d) s))
      | Some false => find_day table s
      end
  end.

(** The loop over the days; [None] when a day is not known. *)
Fixpoint read_days (fuel : nat) (ds : Z) (s : list Z) : outcome (option (Z * list Z)) :=
  match fuel with
  | O => NoFuel
  | S fuel =>
      let* c := load s 0 in
      let s := if c =? 44 then drop 1 s else s in
      let* o := find_day day_table s in
      match o with
      | None => Ret None
      | Some (id, s) =>
          let ds := Z.lor ds (Z.shiftl 1 id) in
          let* c := load s 0 in
          if c =? 44 then read_days fuel ds s else Ret (Some (ds, s))
      end
  end.

(** A number up to [max], and what follows it. *)
Definition read_number (max : Z) (s : list Z) : outcome (option (Z * list Z)) :=
  match strtol 10 s with
  | None => UB
  | Some (v, n) => let h := to_int v in if (h <? 0) || (max <? h) then Ret None else Ret (Some (h, drop (Z.to_nat n) s))
  end.

(** The character [sep], then a digit. *)
Definition skip_separator (sep : Z) (e : list Z) : outcome (option (list Z)) :=
  let* c := load e 0 in
  if negb (c =? sep) then Ret None
  else
  let* d := load e 1 in
  if negb (is_digit 10 d) then Ret None else Ret (Some (drop 1 e)).

(** [let s := e in k] when [e] is there, else the string is refused. *)
Definition and_then {A B : Type} (e : outcome (option A)) (k : A → outcome (option B)) : outcome (option B) :=
  let* o := e in match o with None => Ret None | Some x => k x end.

(** HH:MM-HH:MM. *)
Definition read_region (ds : Z) (s : list Z) : outcome (option acl_time_data) :=
  let* c := load s 0 in
  if negb (is_digit 10 c) then Ret None
  else
  and_then (read_number 24 s) (λ '(h1, e), and_then (skip_separator 58 e) (λ s,
  and_then (read_number 59 s) (λ '(m1, e), and_then (skip_separator 45 e) (λ s,
  and_then (read_number 24 s) (λ '(h2, e), and_then (skip_separator 58 e) (λ s,
  and_then (read_number 59 s) (λ '(m2, _),
    let t := mkTime ds (h1 * 60 + m1) (h2 * 60 + m2) in
    if start_time t <=? end_time t then Ret (Some t) else Ret None))))))).

(** [str] is the string of the configuration without its terminator; there is memory for the value. *)
Definition acl_time_dup (str : list Z) : outcome (option acl_time_data) :=
  let s := take 1023 str ++ [NUL] in
  let* c := load s 0 in
  if is_digit 10 c then read_region 0 s
  else
  and_then (read_days (length s) 0 s) (λ '(ds, s),
    let* c := load s 0 in
    if negb (c =? 47) then Ret None else read_region ds (drop 1 s)).

Definition acl_time_equal (acl req : acl_time_data) : bool :=
  negb (Z.land (days acl) (days req) =? 0) && (start_time acl <=? start_time req) && (start_time req <=? end_time acl).

(** [get_time_data] at a local time: the day of the week from Sunday, the hour and the minute. *)
Definition get_time_data (wday hour min : Z) : acl_time_data := mkTime (Z.shiftl 1 wday) (hour * 60 + min) 0.

(** ** Times: what is read *)

(** HH:MM-HH:MM as a configuration has it. *)
Definition print_region (h1 m1 h2 m2 : Z) : list Z := print_d h1 ++ 58 :: print_d m1 ++ 45 :: print_d h2 ++ 58 :: print_d m2.

Definition valid_region (h1 m1 h2 m2 : Z) : Prop := 0 ≤ h1 ≤ 24 ∧ 0 ≤ m1 ≤ 59 ∧ 0 ≤ h2 ≤ 24 ∧ 0 ≤ m2 ≤ 59 ∧ h1 * 60 + m1 ≤ h2 * 60 + m2.

Lemma print_d_num n : 0 ≤ n → print_d n = print_num 10 n.
Proof. intros Hn. unfold print_d. by rewrite (proj2 (Z.ltb_ge _ _) Hn). Qed.

Lemma print_d_digit n : 0 ≤ n → ∃ d ds, print_d n = d :: ds ∧ is_digit 10 d = true.
Proof.
  intros Hn. rewrite print_d_num by done. pose proof (print_num_nonempty 10 n) as Hne.
  pose proof (print_num_chars 10 n (λ b, is_digit 10 b = true) ltac:(lia) Hn) as Hch.
  destruct (print_num 10 n) as [|d ds]; [done|]. exists d, ds. split; [done|].
  refine (Forall_inv (Hch _)). intros x Hx. unfold is_digit. rewrite (digit_val_char 10) by lia. by solve_cmp.
Qed.

Lemma read_number_print max n c s :
  0 ≤ n ≤ max → max ≤ INT_MAX → is_digit 10 c = false → c ≠ 120 → c ≠ 88 →
  read_number max (print_d n ++ c :: s) = Ret (Some (n, c :: s)).
Proof.
  intros Hn Hm Hc Hx HX. unfold INT_MAX in Hm. rewrite print_d_num by lia. unfold read_number. rewrite strtol_print by (done || lia || (unfold LONG_MAX; lia)).
  rewrite to_int_id by (unfold INT_MIN, INT_MAX; lia). solve_cmp. by rewrite drop_zlen.
Qed.

Lemma skip_separator_print sep n r : 0 ≤ n → skip_separator sep (sep :: print_d n ++ r) = Ret (Some (print_d n ++ r)).
Proof.
  intros Hn. unfold skip_separator. destruct (print_d_digit n Hn) as (d & ds & -> & Hd).
  change (load (sep :: ?x) 0) with (Ret sep). cbn [obind]. rewrite Z.eqb_refl. cbn [negb].
  change (load (sep :: (d :: ds) ++ r) 1) with (Ret d). cbn [obind]. by rewrite Hd.
Qed.

Lemma read_region_print ds h1 m1 h2 m2 r :
  valid_region h1 m1 h2 m2 → read_region ds (print_region h1 m1 h2 m2 ++ NUL :: r) = Ret (Some (mkTime ds (h1 * 60 + m1) (h2 * 60 + m2))).
Proof.
  intros (H1 & H2 & H3 & H4 & Hle). unfold read_region, print_region.
  replace ((print_d h1 ++ 58 :: print_d m1 ++ 45 :: print_d h2 ++ 58 :: print_d m2) ++ NUL :: r)
    with (print_d h1 ++ 58 :: print_d m1 ++ 45 :: print_d h2 ++ 58 :: print_d m2 ++ NUL :: r) by by_app.
  assert (Hl : ∀ n x, 0 ≤ n → ∃ d, load (print_d n ++ x) 0 = Ret d ∧ is_digit 10 d = true).
  { intros n x Hn. destruct (print_d_digit n Hn) as (d & ds' & -> & Hd). by exists d. }
  destruct (Hl h1 (58 :: print_d m1 ++ 45 :: print_d h2 ++ 58 :: print_d m2 ++ NUL :: r) (proj1 H1)) as (d & -> & Hd). cbn [obind]. rewrite Hd. cbn [negb].
  rewrite (read_number_print 24 h1) by (done || lia). cbn [and_then obind]. rewrite skip_separator_print by lia. cbn [and_then obind].
  rewrite (read_number_print 59 m1) by (done || lia). cbn [and_then obind]. rewrite skip_separator_print by lia. cbn [and_then obind].
  rewrite (read_number_print 24 h2) by (done || lia). cbn [and_then obind]. rewrite skip_separator_print by lia. cbn [and_then obind].
  rewrite (read_number_print 59 m2) by (done || lia). cbn [and_then obind start_time end_time]. by solve_cmp.
Qed.

(** The days of a configuration, each by one of its names, with commas between them. *)
Fixpoint print_days (d : list Z * Z) (ds : list (list Z * Z)) : list Z :=
  match ds with [] => fst d | d' :: ds => fst d ++ 44 :: print_days d' ds end.

Definition days_bits (ds : list (list Z * Z)) (acc : Z) : Z := foldl (λ a d, Z.lor a (Z.shiftl 1 (snd d))) acc ds.

Lemma find_day_name d c s : d ∈ day_table → c = 44 ∨ c = 47 → find_day day_table (fst d ++ c :: s) = Ret (Some (snd d, c :: s)).
Proof.
  intros Hd Hc. unfold day_table in Hd. repeat (apply elem_of_cons in Hd as [-> | Hd]; [by destruct Hc as [-> | ->]|]). by apply elem_of_nil in Hd.
Qed.

Lemma day_name_start d : d ∈ day_table → ∃ c s, fst d = c :: s ∧ c ≠ 44 ∧ is_digit 10 c = false.
Proof.
  intros Hd. unfold day_table in Hd. repeat (apply elem_of_cons in Hd as [-> | Hd]; [by eexists _, _|]). by apply elem_of_nil in Hd.
Qed.

Lemma read_days_print ds : ∀ fuel d acc (comma : bool) s,
  d ∈ day_table → Forall (λ d, d ∈ day_table) ds → (length ds < fuel)%nat →
  read_days fuel acc ((if comma then [44] else []) ++ print_days d ds ++ 47 :: s) = Ret (Some (days_bits (d :: ds) acc, 47 :: s)).
Proof.
  induction ds as [|d' ds IH]; intros [|fuel] d acc comma s Hd Hds Hf; cbn [length] in Hf; try lia; cbn [read_days print_days];
    (destruct (day_name_start d Hd) as (c & x & Hc & Hne & _)).
  - assert (Hs : ∃ b, load ((if comma then [44] else []) ++ fst d ++ 47 :: s) 0 = Ret b ∧
        (if b =? 44 then drop 1 ((if comma then [44] else []) ++ fst d ++ 47 :: s) else (if comma then [44] else []) ++ fst d ++ 47 :: s) = fst d ++ 47 :: s).
    { destruct comma; [by eexists|]. rewrite Hc. exists c. split; [done|]. by rewrite (proj2 (Z.eqb_neq _ _) Hne). }
    destruct Hs as (b & -> & Hb). cbn [obind]. rewrite Hb. rewrite find_day_name by auto. done.
  - apply Forall_cons_1 in Hds as [Hd' Hds].
    assert (Hs : ∃ b, load ((if comma then [44] else []) ++ (fst d ++ 44 :: print_days d' ds) ++ 47 :: s) 0 = Ret b ∧
        (if b =? 44 then drop 1 ((if comma then [44] else []) ++ (fst d ++ 44 :: print_days d' ds) ++ 47 :: s)
         else (if comma then [44] else []) ++ (fst d ++ 44 :: print_days d' ds) ++ 47 :: s) = fst d ++ 44 :: print_days d' ds ++ 47 :: s).
    { rewrite <- app_assoc. cbn [app]. destruct comma; [by eexists|]. rewrite Hc. exists c. split; [done|]. by rewrite (proj2 (Z.eqb_neq _ _) Hne). }
    destruct Hs as (b & -> & Hb). cbn [obind]. rewrite Hb. rewrite find_day_name by auto. cbn [obind load].
    change (load (44 :: print_days d' ds ++ 47 :: s) 0) with (Ret 44). cbn [obind]. change (44 =? 44) with true. cbn match.
    apply (IH fuel d' _ true s); [done|done|lia].
Qed.

(** ** Numbers *)

(** A number with K, M or G after it, in the width of the type. *)
Definition read_scaled (wrap : Z → Z) (str : list Z) : outcome Z :=
  let s := str ++ [NUL] in
  match strtol 10 s with
  | None => UB
  | Some (v, n) =>
      let i := wrap v in
      let* e := load s n in
      if (e =? 75) || (e =? 107) then Ret (wrap (i * 1000))
      else if (e =? 77) || (e =? 109) then Ret (wrap (i * 1000000))
      else if (e =? 71) || (e =? 103) then Ret (wrap (i * 1000000000))
      else Ret i
  end.

(** [*i * 1000] is an overflow for an int that is too large. *)
Definition int32_dup (str : list Z) : outcome Z :=
  let s := str ++ [NUL] in
  match strtol 10 s with
  | None => UB
  | Some (v, n) =>
      let i := to_int v in
      let scale k := if (INT_MIN <=? i * k) && (i * k <=? INT_MAX) then Ret (i * k) else UB in
      let* e := load s n in
      if (e =? 75) || (e =? 107) then scale 1000
      else if (e =? 77) || (e =? 109) then scale 1000000
      else if (e =? 71) || (e =? 103) then scale 1000000000
      else Ret i
  end.

Definition int32_equal (k1 k2 : Z) : bool := k1 =? k2.
Definition uint64_dup (str : list Z) : outcome Z := read_scaled to_u64 str.
Definition stringequal (k1 k2 : list Z) : bool := bool_decide (k1 = k2).

(** What a request has to compare for content_length{op}. *)
Record acl_cmp_uint64_data := mkCmp { cmp_data : Z; operator : Z }.

Definition acl_cmp_uint64_equal (k1 : Z) (data : acl_cmp_uint64_data) : bool :=
  if operator data =? 1 then k1 <? cmp_data data
  else if operator data =? 2 then cmp_data data <? k1
  else k1 =? cmp_data data.

(** [clen] is what [ci_http_content_length] gives, [junk] what the memory has where the operator is; an acl without a
    parameter has a null pointer. *)
Definition get_content_length (clen junk : Z) (param : option (list Z)) : outcome (option acl_cmp_uint64_data) :=
  if clen <? 0 then Ret None
  else match param with
  | None => UB
  | Some p =>
      let* c := load (p ++ [NUL]) 0 in
      Ret (Some (mkCmp (to_u64 clen) (if c =? 61 then 0 else if c =? 62 then 1 else if c =? 60 then 2 else junk)))
  end.

(** ** Addresses *)

Inductive family := AF_INET | AF_INET6.

#[export] Instance family_eq_dec : EqDecision family.
Proof. solve_decision. Defined.

(** The sixteen bytes of the union, in network order; an IPv4 address is in the first four. *)
Record ci_ip_t := mkIp { ip_address : list Z; ip_netmask : list Z; ip_family : family }.

Definition land_bytes (a m : list Z) : list Z := zip_with Z.land a m.

(** The first words of an IPv4 address that is mapped into IPv6. *)
Definition v4_prefix : list Z := replicate 10 0 ++ [255; 255].

Definition ipv4_check_net (a b m : list Z) : bool := bool_decide (land_bytes (take 4 a) (take 4 m) = land_bytes (take 4 b) (take 4 m)).
Definition ipv6_check_net (a b m : list Z) : bool := bool_decide (land_bytes (take 16 a) (take 16 m) = land_bytes (take 16 b) (take 16 m)).
Definition ipv4_in_ipv6_check_net (a b m : list Z) : bool :=
  bool_decide (take 12 b = v4_prefix) && bool_decide (land_bytes (take 4 a) (take 4 m) = land_bytes (take 4 (drop 12 b)) (take 4 m)).
Definition ipv6_in_ipv4_check_net (a b m : list Z) : bool :=
  bool_decide (take 12 a = v4_prefix) && bool_decide (land_bytes (take 4 (drop 12 a)) (take 4 m) = land_bytes (take 4 b) (take 4 m)).

(** [ip_equal], and [ip_sockaddr_equal] on the address of a connection. *)
Definition ip_equal (ref : ci_ip_t) (fam : family) (check : list Z) : bool :=
  match fam, ip_family ref with
  | AF_INET, AF_INET => ipv4_check_net (ip_address ref) check (ip_netmask ref)
  | AF_INET, AF_INET6 => ipv6_in_ipv4_check_net (ip_address ref) check (ip_netmask ref)
  | AF_INET6, AF_INET6 => ipv6_check_net (ip_address ref) check (ip_netmask ref)
  | AF_INET6, AF_INET => ipv4_in_ipv6_check_net (ip_address ref) check (ip_netmask ref)
  end.

Definition CI_IPLEN : Z := 46.
Definition hostnetmask (f : family) : list Z := match f with AF_INET => replicate 4 255 ++ replicate 12 0 | AF_INET6 => replicate 16 255 end.

(** [aton] is [ci_inet_aton], which calls [inet_pton] of the C library: the bytes of an address. *)
Definition ip_dup (aton : family → list Z → option (list Z)) (value : list Z) : option ci_ip_t :=
  let f := if bool_decide (58 ∈ value) then AF_INET6 else AF_INET in
  match strchr 47 value with
  | Some (addr, mask) =>
      if CI_IPLEN <=? zlen addr then None
      else a ← aton f addr; m ← aton f (take (Z.to_nat CI_IPLEN) mask); Some (mkIp a m f)
  | None => a ← aton f value; Some (mkIp a (hostnetmask f) f)
  end.

(** ** Lemmas *)

Lemma land_one_bit a w : 0 ≤ w → Z.land a (Z.shiftl 1 w) = if Z.testbit a w then Z.shiftl 1 w else 0.
Proof.
  intros Hw. apply Z.bits_inj'. intros k Hk. rewrite Z.land_spec. rewrite Z.shiftl_1_l, Z.pow2_bits_eqb by done.
  destruct (Z.eqb_spec w k) as [->|Hne].
  - rewrite andb_true_r. destruct (Z.testbit a k); [by rewrite Z.pow2_bits_eqb, Z.eqb_refl by done|by rewrite Z.bits_0].
  - rewrite andb_false_r. destruct (Z.testbit a w); [rewrite Z.pow2_bits_eqb by done; by rewrite (proj2 (Z.eqb_neq _ _) Hne)|by rewrite Z.bits_0].
Qed.

Lemma days_bits_test ds w : 0 ≤ w → Forall (λ d, d ∈ day_table) ds → ∀ acc,
  Z.testbit (days_bits ds acc) w = Z.testbit acc w || existsb (λ d, snd d =? w) ds.
Proof.
  intros Hw Hds. induction Hds as [|d ds Hd _ IH]; intros acc; cbn [days_bits foldl existsb]; [by rewrite orb_false_r|].
  fold (days_bits ds (Z.lor acc (Z.shiftl 1 (snd d)))). rewrite IH, Z.lor_spec, Z.shiftl_1_l, Z.pow2_bits_eqb, orb_assoc; [done|].
  unfold day_table in Hd. repeat (apply elem_of_cons in Hd as [-> | Hd]; [done|]). by apply elem_of_nil in Hd.
Qed.

(** Bit [k] of byte [i]. *)
Definition addr_bit (a : list Z) (i : nat) (k : Z) : bool := match a !! i with Some x => Z.testbit x k | None => false end.

Lemma land_bytes_equal a b m :
  length a = length m → length b = length m →
  land_bytes a m = land_bytes b m ↔ ∀ i k, addr_bit m i k = true → addr_bit a i k = addr_bit b i k.
Proof.
  revert b m. induction a as [|x a IH]; intros [|y b] [|z m] Ha Hb; try done.
  injection Ha as Ha. injection Hb as Hb. cbn [land_bytes zip_with]. fold (land_bytes a m) (land_bytes b m). split.
  - intros [= Hx Hr]. rewrite IH in Hr by done. intros [|i] k Hk; [|by apply Hr].
    unfold addr_bit in *. cbn in *. apply (f_equal (λ v, Z.testbit v k)) in Hx. by rewrite !Z.land_spec, Hk, !andb_true_r in Hx.
  - intros Hbits. f_equal.
    + apply Z.bits_inj'. intros k _. rewrite !Z.land_spec. destruct (Z.testbit z k) eqn:Hz; [|by rewrite !andb_false_r].
      rewrite !andb_true_r. apply (Hbits 0%nat k Hz).
    + apply IH; [done|done|]. intros i k Hk. by apply (Hbits (S i) k).
Qed.

(** ** Properties *)

(** A time of the configuration, with days by either of their names and a region of time, is read, and matches
    exactly at the days given from the start to the end of the region. *)
Theorem time_acl_correct d ds h1 m1 h2 m2 wday hour min :
  Forall (λ d, d ∈ day_table) (d :: ds) → valid_region h1 m1 h2 m2 → 0 ≤ wday →
  let text := print_days d ds ++ 47 :: print_region h1 m1 h2 m2 in
  (length text ≤ 1023)%nat →
  ∃ t, acl_time_dup text = Ret (Some t) ∧
    acl_time_equal t (get_time_data wday hour min) =
      existsb (λ d, snd d =? wday) (d :: ds) && (h1 * 60 + m1 <=? hour * 60 + min) && (hour * 60 + min <=? h2 * 60 + m2).
Proof.
  intros Hds Hr Hw text Hlen. pose proof Hds as [Hd Hds']%Forall_cons_1.
  exists (mkTime (days_bits (d :: ds) 0) (h1 * 60 + m1) (h2 * 60 + m2)). split.
  - unfold acl_time_dup. rewrite take_ge by done. unfold text. rewrite <- app_assoc. cbn [app].
    set (s := print_days d ds ++ 47 :: print_region h1 m1 h2 m2 ++ [NUL]).
    destruct (day_name_start d Hd) as (c & x & Hc & Hne & Hdig).
    assert (Hl : load s 0 = Ret c) by (unfold s; destruct ds; cbn [print_days]; rewrite Hc; done). rewrite Hl. cbn [obind]. rewrite Hdig.
    assert (Hf : (length ds < length s)%nat).
    { unfold s. clear. rewrite length_app. cbn [length]. assert (length ds ≤ length (print_days d ds))%nat; [|lia].
      revert d. induction ds as [|d' ds IH]; intros d; cbn [print_days length]; [lia|]. rewrite length_app. cbn [length]. specialize (IH d'). lia. }
    pose proof (read_days_print ds (length s) d 0 false (print_region h1 m1 h2 m2 ++ [NUL]) Hd Hds' Hf) as Hrd. cbn [app] in Hrd.
    fold s in Hrd. rewrite Hrd. cbn [and_then obind]. change (load (47 :: ?y) 0) with (Ret 47). cbn [obind].
    change (negb (47 =? 47)) with false. cbn match. apply read_region_print. exact Hr.
  - unfold acl_time_equal, get_time_data. cbn [days start_time end_time]. rewrite land_one_bit by done.
    rewrite (days_bits_test (d :: ds) wday Hw Hds 0), Z.bits_0. cbn [orb].
    destruct (existsb _ _); cbn [andb]; [|done]. rewrite (proj2 (Z.eqb_neq _ 0)); [done|]. rewrite Z.shiftl_1_l. pose proof (Z.pow_pos_nonneg 2 wday). lia.
Qed.

Lemma time_acl_correct_witness :
  let text := bytes "M,Tuesday,F/9:0-18:30" in
  ∃ t, acl_time_dup text = Ret (Some t) ∧ acl_time_equal t (get_time_data 2 18 30) = true.
Proof.
  intros text. apply (time_acl_correct (bytes "M", 1) [(bytes "Tuesday", 2); (bytes "F", 5)] 9 0 18 30 2 18 30);
    [repeat first [apply Forall_nil_2 | apply Forall_cons_2; [apply list_elem_of_In; cbn; tauto|]]|unfold valid_region; lia|lia|vm_compute; lia].
Defined.

(** An address matches an address with a netmask exactly when it has the same bits where the mask has ones; an IPv4
    address that a connection has in its IPv6 form matches as the IPv4 address does. *)
Theorem ip_acl_correct ref a :
  ip_family ref = AF_INET → length (ip_address ref) = 16%nat → length (ip_netmask ref) = 16%nat → length a = 16%nat →
  (ip_equal ref AF_INET a = true ↔ ∀ i k, (i < 4)%nat → addr_bit (ip_netmask ref) i k = true → addr_bit (ip_address ref) i k = addr_bit a i k) ∧
  ip_equal ref AF_INET6 (v4_prefix ++ take 4 a) = ip_equal ref AF_INET a.
Proof.
  intros Hf H1 H2 H3. unfold ip_equal. rewrite Hf. split.
  - unfold ipv4_check_net. rewrite bool_decide_eq_true, land_bytes_equal by (rewrite !length_take; lia).
    assert (Ht : ∀ x i k, (i < 4)%nat → addr_bit (take 4 x) i k = addr_bit x i k) by (intros x i k Hi; unfold addr_bit; by rewrite lookup_take_lt).
    split; intros H i k.
    + intros Hi Hm. rewrite <- (Ht (ip_address ref)), <- (Ht a) by done. apply H. by rewrite Ht.
    + intros Hm. destruct (decide (i < 4)%nat) as [Hi|Hi].
      * rewrite !Ht by done. apply H; [done|]. by rewrite <- Ht.
      * unfold addr_bit in Hm. rewrite lookup_take_ge in Hm by lia. done.
  - unfold ipv4_in_ipv6_check_net, ipv4_check_net. rewrite (take_app_le v4_prefix) by (cbn; lia). rewrite bool_decide_eq_true_2 by done.
    change 12%nat with (length v4_prefix). rewrite drop_app_length, take_take. done.
Qed.

Lemma ip_acl_correct_witness :
  let ref := mkIp ([192; 168; 1; 0] ++ replicate 12 0) ([255; 255; 255; 0] ++ replicate 12 0) AF_INET in
  ip_equal ref AF_INET6 (v4_prefix ++ [192; 168; 1; 77]) = true ∧ ip_equal ref AF_INET ([192; 168; 1; 77] ++ replicate 12 0) = true.
Proof.
  intros ref. destruct (ip_acl_correct ref ([192; 168; 1; 77] ++ replicate 12 0)) as [_ H]; [reflexivity..|]. split; [exact H|reflexivity].
Defined.

(** A time without days, which the documentation allows, is read and never matches. *)
Lemma time_without_days_never_matches h1 m1 h2 m2 req :
  valid_region h1 m1 h2 m2 → (length (print_region h1 m1 h2 m2) ≤ 1023)%nat →
  ∃ t, acl_time_dup (print_region h1 m1 h2 m2) = Ret (Some t) ∧ acl_time_equal t req = false.
Proof.
  intros Hr Hlen. exists (mkTime 0 (h1 * 60 + m1) (h2 * 60 + m2)). split; [|done].
  unfold acl_time_dup. rewrite take_ge by done. pose proof Hr as ([Hh _] & _).
  destruct (print_d_digit h1 Hh) as (d & ds & Hp & Hd).
  assert (Hl : load (print_region h1 m1 h2 m2 ++ [NUL]) 0 = Ret d) by (unfold print_region; rewrite Hp; done).
  rewrite Hl. cbn [obind]. rewrite Hd. by apply read_region_print.
Qed.

(** An IPv6 network is compared with an IPv4 address under the first word of its mask, not the last. *)
Lemma ipv6_mask_word_wrong :
  let net := mkIp (v4_prefix ++ [10; 0; 0; 0]) (replicate 13 255 ++ [0; 0; 0]) AF_INET6 in
  let a := [10; 0; 0; 77] in
  ip_equal net AF_INET6 (v4_prefix ++ a) = true ∧ ip_equal net AF_INET (a ++ replicate 12 0) = false.
Proof. done. Qed.

(** content_length without a parameter follows a null pointer for a request that has the header. *)
Lemma content_length_without_operator clen junk : 0 ≤ clen → get_content_length clen junk None = UB.
Proof. intros Hc. unfold get_content_length. by rewrite (proj2 (Z.ltb_ge _ _) Hc). Qed.

(** With a parameter the request is compared as it says. *)
Lemma content_length_compares clen junk n op :
  0 ≤ clen < 2 ^ 64 → op = 61 ∨ op = 62 ∨ op = 60 →
  ∃ v, get_content_length clen junk (Some [op]) = Ret (Some v) ∧
    acl_cmp_uint64_equal n v = if op =? 61 then n =? clen else if op =? 62 then n <? clen else clen <? n.
Proof.
  intros Hc Hop. unfold get_content_length. rewrite (proj2 (Z.ltb_ge clen 0)) by lia. rewrite to_u64_id by lia.
  destruct Hop as [-> | [-> | ->]]; (eexists; split; [reflexivity|done]).
Qed.
