(* ===== verification/Buffers.v ===== *)
(** The buffer pools of mem.c: [ci_buffer_alloc], [ci_buffer_realloc] and [ci_buffer_free], with the pool allocators they
    take their blocks from.  The blocks malloc has given are a finite map; a pool keeps the blocks that were freed and hands
    them out again.  The answers of malloc are arguments, so every failure of it can be played. *)
From stdpp Require Import base tactics numbers list gmap.
From S2P Require Import Prelude.
From Stdlib Require Import ZArith Lia.
Open Scope Z_scope.

(** ** State *)

Definition BUF_SIGNATURE : Z := 43605.
Definition PTR_OFFSET : Z := 8.

(** A block: its header, and the bytes after it. *)
Record mem_buffer_block := mkBlock { sig : Z; ID : Z; ptr : list Z }.

(** The nodes of [pl_free] hold a block each; those of the list of allocated ones hold nothing and are counted. *)
Record pool_allocator := mkPool {
  items_size : Z;
  alloc_count : Z;
  hits_count : Z;
  pl_free : list nat;
  pl_allocated : nat
}.

(** The two tables have, for every class of sizes, the pool of the class. *)
Record mem := mkMem {
  heap : gmap nat mem_buffer_block;
  brk : nat;
  pools : list pool_allocator;
  short_buffers : list (option nat);
  long_buffers : list (option nat)
}.

Definition with_heap (h : gmap nat mem_buffer_block) (s : mem) : mem := mkMem h (brk s) (pools s) (short_buffers s) (long_buffers s).
Definition with_pool (k : nat) (p : pool_allocator) (s : mem) : mem :=
  mkMem (heap s) (brk s) (<[k := p]> (pools s)) (short_buffers s) (long_buffers s).

(** What malloc answers: to the node of a pool, to the block of a pool, to the block without a pool.  A block comes with
    the bytes its memory had. *)
Record answers := mkAnswers { an_node : bool; an_item : option (Z → Z); an_plain : option (Z → Z) }.

(** malloc of a block of [size] bytes with its header. *)
Definition malloc (a : option (Z → Z)) (size : Z) (s : mem) : option nat * mem :=
  match a with
  | Some junk =>
      if PTR_OFFSET <=? size then
        (Some (brk s), mkMem (<[brk s := mkBlock (junk (-1)) (junk (-2)) (fresh junk 0 (size - PTR_OFFSET))]> (heap s))
                             (S (brk s)) (pools s) (short_buffers s) (long_buffers s))
      else (None, s)
  | None => (None, s)
  end.

Definition free (b : nat) (s : mem) : outcome mem :=
  match heap s !! b with None => UB | Some _ => Ret (with_heap (delete b (heap s)) s) end.

Definition get_block (b : nat) (s : mem) : outcome mem_buffer_block :=
  match heap s !! b with None => UB | Some blk => Ret blk end.

(** [x++] of an int. *)
Definition incr (x : Z) : outcome Z := if x =? INT_MAX then UB else Ret (x + 1).

(** ** Pools *)

Definition pool_allocator_alloc (a : answers) (k : nat) (size : Z) (s : mem) : outcome (option nat * mem) :=
  match pools s !! k with
  | None => UB
  | Some p =>
      if items_size p <? to_u64 size then Ret (None, s)
      else
      match pl_free p with
      | b :: rest =>
          let* hits := incr (hits_count p) in
          Ret (Some b, with_pool k (mkPool (items_size p) (alloc_count p) hits rest (S (pl_allocated p))) s)
      | [] =>
          if negb (an_node a) then UB
          else
          let (b, s) := malloc (an_item a) (items_size p) s in
          let* n := incr (alloc_count p) in
          Ret (b, with_pool k (mkPool (items_size p) n (hits_count p) [] (S (pl_allocated p))) s)
      end
  end.

Definition pool_allocator_free (k : nat) (b : nat) (s : mem) : outcome mem :=
  match pools s !! k with
  | None => UB
  | Some p =>
      match pl_allocated p with
      | O => free b s
      | S n => Ret (with_pool k (mkPool (items_size p) (alloc_count p) (hits_count p) (b :: pl_free p) n) s)
      end
  end.

(** ** Buffers *)

Definition short_buffer_sizes : list Z := [64; 128; 256; 256; 512; 512; 512; 512; 1024; 1024; 1024; 1024; 1024; 1024; 1024; 1024].
Definition long_buffer_sizes : list Z :=
  [2048; 4096; 8192; 8192; 16384; 16384; 16384; 16384; 32768; 32768; 32768; 32768; 32768; 32768; 32768; 32768].

(** [ci_buffers_init] with all allocations of the pools made. *)
Definition pool_sizes : list Z := [64; 128; 256; 512; 1024; 2048; 4096; 8192; 16384; 32768].
Definition pool_table (first : nat) : list (option nat) :=
  Some <$> [first; first + 1; first + 2; first + 2; first + 3; first + 3; first + 3; first + 3; first + 4; first + 4; first + 4; first + 4;
            first + 4; first + 4; first + 4; first + 4]%nat.
Definition ci_buffers_init : mem :=
  mkMem ∅ 0 ((λ n, mkPool (n + PTR_OFFSET) 0 0 [] 0) <$> pool_sizes) (pool_table 0) (pool_table 5).

(** The class of a size, as [ci_buffer_alloc], [ci_buffer_blocksize] and [ci_buffer_free] find it: the size of its blocks
    and its pool. *)
Definition buffer_class (s : mem) (block_size : Z) : outcome (option (Z * nat)) :=
  if block_size =? INT_MIN then UB
  else
  let type := Z.shiftr (block_size - 1) 6 in
  let* short := if type <? 16 then arr_get (short_buffers s) type else Ret None in
  match short with
  | Some k => let* n := arr_get short_buffer_sizes type in Ret (Some (n, k))
  | None =>
      if type <? 512 then
        let* long := arr_get (long_buffers s) (Z.shiftr type 5) in
        match long with
        | Some k => let* n := arr_get long_buffer_sizes (Z.shiftr type 5) in Ret (Some (n, k))
        | None => Ret None
        end
      else Ret None
  end.

Definition ci_buffer_alloc (a : answers) (block_size : Z) (s : mem) : outcome (option nat * mem) :=
  let size := to_int (block_size + PTR_OFFSET) in
  let* c := buffer_class s block_size in
  let* (block, s) := match c with Some (_, k) => pool_allocator_alloc a k size s | None => Ret (None, s) end in
  let (block, s) := match block with Some b => (Some b, s) | None => malloc (an_plain a) size s end in
  match block with
  | None => Ret (None, s)
  | Some b =>
      let* blk := get_block b s in
      Ret (Some b, with_heap (<[b := mkBlock BUF_SIGNATURE block_size (ptr blk)]> (heap s)) s)
  end.

Definition ci_buffer_blocksize (data : nat) (s : mem) : outcome Z :=
  let* block := get_block data s in
  if negb (sig block =? BUF_SIGNATURE) then Ret 0
  else
  let* c := buffer_class s (ID block) in
  let n := match c with Some (n, _) => n | None => 0 end in
  Ret (if n =? 0 then ID block else n).

Definition ci_buffer_free (data : option nat) (s : mem) : outcome mem :=
  match data with
  | None => Ret s
  | Some b =>
      let* block := get_block b s in
      if negb (sig block =? BUF_SIGNATURE) then Ret s
      else
      let* c := buffer_class s (ID block) in
      match c with Some (_, k) => pool_allocator_free k b s | None => free b s end
  end.

Definition ci_buffer_realloc (a : answers) (data : option nat) (block_size : Z) (s : mem) : outcome (option nat * mem) :=
  match data with
  | None => ci_buffer_alloc a block_size s
  | Some b =>
      let* block := get_block b s in
      if negb (sig block =? BUF_SIGNATURE) then Ret (None, s)
      else
      let* n := ci_buffer_blocksize b s in
      let buffer_size := to_int n in
      let* _ := assert_ (0 <? buffer_size) in
      if buffer_size <? block_size then
        let* (d, s) := ci_buffer_alloc a block_size s in
        match d with
        | None => Ret (None, s)
        | Some d =>
            let* old := read_bytes (ptr block) 0 (ID block) in
            let* new := get_block d s in
            let* bs := write_bytes (ptr new) 0 old in
            let* s := ci_buffer_free (Some b) (with_heap (<[d := mkBlock (sig new) (ID new) bs]> (heap s)) s) in
            Ret (Some d, s)
        end
      else Ret (Some b, with_heap (<[b := mkBlock (sig block) block_size (ptr block)]> (heap s)) s)
  end.
