(* ===== verification/BuffersSafe.v ===== *)
(** The buffer pools give a program independent buffers: whatever it allocates, resizes, frees and writes, the bytes it
    reads are those it wrote, although freed blocks are handed out again.  The reference has one list of bytes for every
    buffer; the proof assigns an owner to every block. *)
From stdpp Require Import base tactics numbers list gmap.
From S2P Require Import Prelude Buffers.
From Stdlib Require Import ZArith Lia.
Open Scope Z_scope.

(** ** Classes of sizes *)

(** The least size of a pool that is enough, or the size itself. *)
Definition class_size (n : Z) : Z := foldr (λ sz r, if n <=? sz then sz else r) n pool_sizes.

(** Comparisons of a size with the sizes of the pools. *)
Ltac sizes := unfold class_size, pool_sizes; cbn [foldr]; repeat case_cmp; lia.

Lemma class_size_ge n : n ≤ class_size n.
Proof. sizes. Qed.

Lemma class_size_mono n m : n ≤ m → class_size n ≤ class_size m.
Proof. intros H. sizes. Qed.

Lemma class_size_large n : 32768 < n → class_size n = n.
Proof. intros H. sizes. Qed.

Lemma class_size_int n : 1 ≤ n ≤ INT_MAX → class_size n ≤ INT_MAX.
Proof. unfold INT_MAX. intros H. sizes. Qed.

Lemma short_class (i : nat) n :
  (i < 16)%nat → 64 * Z.of_nat i < n ≤ 64 * Z.of_nat i + 64 →
  ∃ k, pool_table 0 !! i = Some (Some k) ∧ short_buffer_sizes !! i = Some (class_size n) ∧ pool_sizes !! k = Some (class_size n).
Proof.
  intros Hi Hn. do 16 (destruct i as [|i]; [eexists; split_and!; [reflexivity|cbn; f_equal; sizes..]|]). lia.
Qed.

Lemma long_class (i : nat) n :
  (i < 16)%nat → 2048 * Z.of_nat i < n ≤ 2048 * Z.of_nat i + 2048 → 1024 < n →
  ∃ k, pool_table 5 !! i = Some (Some k) ∧ long_buffer_sizes !! i = Some (class_size n) ∧ pool_sizes !! k = Some (class_size n).
Proof.
  intros Hi Hn Hm. do 16 (destruct i as [|i]; [eexists; split_and!; [reflexivity|cbn; f_equal; sizes..]|]). lia.
Qed.

Definition std_tables (s : mem) : Prop := short_buffers s = pool_table 0 ∧ long_buffers s = pool_table 5.

Lemma buffer_class_spec s n :
  std_tables s → 1 ≤ n →
  if n <=? 32768 then ∃ k, buffer_class s n = Ret (Some (class_size n, k)) ∧ pool_sizes !! k = Some (class_size n)
  else buffer_class s n = Ret None.
Proof.
  intros [Hs Hl] Hn. unfold buffer_class. rewrite Hs, Hl. rewrite (proj2 (Z.eqb_neq n INT_MIN)) by (unfold INT_MIN; lia).
  rewrite !Z.shiftr_div_pow2, Z.div_div by lia. change (2 ^ 6 * 2 ^ 5) with 2048. change (2 ^ 6) with 64. cbn zeta.
  pose proof (Z.div_mod (n - 1) 64 ltac:(lia)). pose proof (Z.mod_pos_bound (n - 1) 64 ltac:(lia)).
  pose proof (Z.div_mod (n - 1) 2048 ltac:(lia)). pose proof (Z.mod_pos_bound (n - 1) 2048 ltac:(lia)).
  destruct (Z.leb_spec n 32768).
  - destruct (Z.ltb_spec ((n - 1) / 64) 16).
    + destruct (short_class (Z.to_nat ((n - 1) / 64)) n) as (k & Ht & Hz & Hp); [lia..|]. exists k. split; [|done].
      by rewrite (arr_get_lookup _ ((n - 1) / 64) _ ltac:(lia) Ht); cbn [obind]; rewrite (arr_get_lookup _ ((n - 1) / 64) _ ltac:(lia) Hz).
    + destruct (long_class (Z.to_nat ((n - 1) / 2048)) n) as (k & Ht & Hz & Hp); [lia..|]. exists k. split; [|done].
      cbn [obind]. rewrite (proj2 (Z.ltb_lt _ _)) by lia.
      by rewrite (arr_get_lookup _ ((n - 1) / 2048) _ ltac:(lia) Ht); cbn [obind]; rewrite (arr_get_lookup _ ((n - 1) / 2048) _ ltac:(lia) Hz).
  - rewrite !(proj2 (Z.ltb_ge _ _)) by lia. done.
Qed.

Lemma blocksize_spec s b d n :
  std_tables s → heap s !! b = Some (mkBlock BUF_SIGNATURE n d) → 1 ≤ n → ci_buffer_blocksize b s = Ret (class_size n).
Proof.
  intros Ht Hb Hn. unfold ci_buffer_blocksize, get_block. rewrite Hb. cbn [obind sig ID Z.eqb negb]. rewrite Z.eqb_refl. cbn [negb].
  pose proof (buffer_class_spec s n Ht Hn) as Hc. pose proof (class_size_ge n). destruct (Z.leb_spec n 32768) as [|Hlt].
  - destruct Hc as (k & -> & _). cbn [obind]. by rewrite (proj2 (Z.eqb_neq _ _)) by lia.
  - rewrite Hc. cbn [obind Z.eqb]. by rewrite class_size_large.
Qed.

(** ** Owners *)

(** A block is in the free list of a pool or in the hands of the program. *)
Inductive owner := Pooled (k : nat) | Held (h : nat).

(** A pool after at most [t] allocations: its free blocks are its own, each once. *)
Record pool_ok (t : Z) (own : gmap nat owner) (k : nat) (p : pool_allocator) : Prop := {
  po_size : pool_sizes !! k = Some (items_size p - PTR_OFFSET);
  po_count : alloc_count p ≤ t ∧ hits_count p ≤ t;
  po_nodup : NoDup (pl_free p);
  po_own : ∀ b, b ∈ pl_free p → own !! b = Some (Pooled k)
}.

(** The invariant of the allocator: a free block is large enough for its pool. *)
Record pools_inv (t : Z) (s : mem) (own : gmap nat owner) : Prop := {
  pi_tables : std_tables s;
  pi_length : length (pools s) = 10%nat;
  pi_pools : ∀ k p, pools s !! k = Some p → pool_ok t own k p;
  pi_free : ∀ b k, own !! b = Some (Pooled k) → ∃ blk n, heap s !! b = Some blk ∧ pool_sizes !! k = Some n ∧ n ≤ zlen (ptr blk);
  pi_held : ∀ b h, own !! b = Some (Held h) → is_Some (heap s !! b);
  pi_brk : ∀ b, (brk s ≤ b)%nat → heap s !! b = None
}.

(** A change of owners outside of the free list of a pool. *)
Lemma pool_ok_own t t' own own' k p :
  pool_ok t own k p → t ≤ t' → (∀ b, b ∈ pl_free p → own' !! b = own !! b) → pool_ok t' own' k p.
Proof. intros [H1 H2 H3 H4] Ht Ho. split; [done|lia|done|]. intros b Hb. rewrite Ho by done. by apply H4. Qed.

Lemma own_in_heap t s own b : pools_inv t s own → is_Some (own !! b) → is_Some (heap s !! b).
Proof.
  intros Hi [[k|h] Ho]; [destruct (pi_free _ _ _ Hi _ _ Ho) as (blk & _ & Hb & _); by exists blk|by apply (pi_held _ _ _ Hi _ h)].
Qed.

Lemma own_brk t s own : pools_inv t s own → own !! brk s = None.
Proof.
  intros Hi. apply eq_None_not_Some. intros Hs. apply (own_in_heap _ _ _ _ Hi) in Hs. rewrite (pi_brk _ _ _ Hi) in Hs by done. by destruct Hs.
Qed.

(** Handing a block to the program: the block [b] is new or was taken from the pool [k]. *)
Lemma give t s s' own b h k blk :
  pools_inv t s own → (k < 10)%nat →
  std_tables s' → pools s' = pools s ∨ (∃ p', pools s' = <[k := p']> (pools s) ∧ pool_ok (t + 1) (<[b := Held h]> own) k p') →
  (∀ k' p', pools s' !! k' = Some p' → b ∉ pl_free p') →
  heap s' = <[b := blk]> (heap s) → (brk s ≤ brk s')%nat → (b < brk s')%nat →
  pools_inv (t + 1) s' (<[b := Held h]> own).
Proof.
  intros Hi Hk Ht Hps Hnot Hh Hb1 Hb2. split; [done| | | | |].
  - destruct Hps as [-> | (p' & -> & _)]; [|rewrite length_insert]; apply Hi.
  - intros k' q Hq. assert (Hold : pools s !! k' = Some q → pool_ok (t + 1) (<[b := Held h]> own) k' q).
    { intros Hq'. apply (pool_ok_own t _ own); [by apply (pi_pools _ _ _ Hi)|lia|]. intros b' Hb'. rewrite lookup_insert_ne; [done|].
      intros ->. by apply (Hnot _ _ Hq). }
    destruct Hps as [Hps | (p' & Hps & Hok)]; rewrite Hps in Hq; [by apply Hold|].
    destruct (decide (k' = k)) as [->|Hne]; [|rewrite list_lookup_insert_ne in Hq by done; by apply Hold].
    rewrite list_lookup_insert_eq in Hq by (rewrite (pi_length _ _ _ Hi); done). by simplify_eq.
  - intros b' k' Ho. rewrite Hh. destruct (decide (b' = b)) as [->|Hne]; [by rewrite lookup_insert_eq in Ho|].
    rewrite lookup_insert_ne by done. rewrite lookup_insert_ne in Ho by done. by apply (pi_free _ _ _ Hi).
  - intros b' h' Ho. rewrite Hh. destruct (decide (b' = b)) as [->|Hne]; [rewrite lookup_insert_eq; by eexists|].
    rewrite lookup_insert_ne by done. rewrite lookup_insert_ne in Ho by done. by apply (pi_held _ _ _ Hi _ h').
  - intros b' Hb'. rewrite Hh, lookup_insert_ne by lia. apply (pi_brk _ _ _ Hi). lia.
Qed.

(** No node of a pool fails; a block outside of the pools is not given where one of a pool was refused. *)
Definition answers_ok (a : answers) : Prop := an_node a = true ∧ (is_Some (an_item a) ∨ an_plain a = None).

Lemma incr_ok x : x < INT_MAX → incr x = Ret (x + 1).
Proof. intros H. unfold incr. by rewrite (proj2 (Z.eqb_neq _ _)) by lia. Qed.

(** A pool whose free list is as before. *)
Lemma keep_pool t s own k p :
  pools_inv t s own → pools_inv (t + 1) s own ∧ (pool_ok (t + 1) own k p → (k < 10)%nat → pools_inv (t + 1) (with_pool k p s) own).
Proof.
  intros Hi. assert (Hall : ∀ k q, pools s !! k = Some q → pool_ok (t + 1) own k q).
  { intros k' q Hq. apply (pool_ok_own t _ own); [by apply (pi_pools _ _ _ Hi)|lia|done]. }
  split; [by destruct Hi; split|]. intros Hp Hk. destruct Hi as [H1 H2 _ H4 H5 H6]. split; [done|cbn; by rewrite length_insert| |done..].
  intros k' q Hq. cbn in Hq. destruct (decide (k' = k)) as [->|Hne]; [|rewrite list_lookup_insert_ne in Hq by done; by apply Hall].
  rewrite list_lookup_insert_eq in Hq by lia. by simplify_eq.
Qed.

(** The result of an allocation. *)
Definition alloc_post (t n : Z) (s : mem) (own : gmap nat owner) (r : option nat) (s' : mem) : Prop :=
  match r with
  | None => pools_inv (t + 1) s' own ∧ heap s' = heap s
  | Some b => (∀ h, own !! b ≠ Some (Held h)) ∧ (∀ h, pools_inv (t + 1) s' (<[b := Held h]> own)) ∧
      ∃ d, heap s' = <[b := mkBlock BUF_SIGNATURE n d]> (heap s) ∧ class_size n ≤ zlen d
  end.

Lemma alloc_plain t n s own a :
  pools_inv t s own → 32768 < n ≤ INT_MAX →
  ∃ r s', ci_buffer_alloc a n s = Ret (r, s') ∧ alloc_post t n s own r s'.
Proof.
  intros Hi Hn. unfold ci_buffer_alloc. pose proof (buffer_class_spec s n (pi_tables _ _ _ Hi) ltac:(lia)) as Hc.
  rewrite (proj2 (Z.leb_gt _ _)) in Hc by lia. rewrite Hc. cbn [obind]. unfold malloc.
  destruct (an_plain a) as [junk|]; [|eexists _, _; split; [done|]; split; [by apply (keep_pool t s own 0 (mkPool 0 0 0 [] 0))|done]].
  destruct (Z.leb_spec PTR_OFFSET (to_int (n + PTR_OFFSET))) as [Hle|Hgt]; [|eexists _, _; split; [done|]; split; [by apply (keep_pool t s own 0 (mkPool 0 0 0 [] 0))|done]].
  assert (Hsz : to_int (n + PTR_OFFSET) = n + PTR_OFFSET).
  { revert Hle. unfold to_int, PTR_OFFSET, INT_MAX in *. intros Hle. pose proof (Z.div_mod (n + 8 + 2 ^ 31) (2 ^ 32) ltac:(lia)).
    pose proof (Z.mod_pos_bound (n + 8 + 2 ^ 31) (2 ^ 32) ltac:(lia)). lia. }
  unfold get_block. cbn [heap]. rewrite lookup_insert_eq. cbn [obind ptr with_heap heap brk pools short_buffers long_buffers].
  eexists _, _. split; [done|]. pose proof (own_brk _ _ _ Hi) as Hbrk.
  split; [by rewrite Hbrk|]. split.
  - intros h. eapply (give t s _ own (brk s) h 0); [done|lia|apply Hi|by left| |cbn; by rewrite insert_insert_eq|cbn; lia..].
    intros k p Hp Hin. cbn in Hp. apply (po_own _ _ _ _ (pi_pools _ _ _ Hi _ _ Hp)) in Hin. by rewrite Hbrk in Hin.
  - eexists. cbn [with_heap heap]. rewrite insert_insert_eq. split; [done|]. rewrite class_size_large by lia. rewrite Hsz.
    rewrite zlen_fresh by (unfold PTR_OFFSET; lia). lia.
Qed.

Lemma alloc_pooled t n s own a :
  pools_inv t s own → answers_ok a → 1 ≤ n ≤ 32768 → t < INT_MAX →
  ∃ r s', ci_buffer_alloc a n s = Ret (r, s') ∧ alloc_post t n s own r s'.
Proof.
  intros Hi [Hnode Hans] Hn Ht. unfold ci_buffer_alloc. pose proof (buffer_class_spec s n (pi_tables _ _ _ Hi) ltac:(lia)) as Hc.
  rewrite (proj2 (Z.leb_le _ _)) in Hc by lia. destruct Hc as (k & -> & Hk). cbn [obind].
  pose proof (class_size_ge n) as Hge. rewrite to_int_id by (unfold INT_MIN, INT_MAX, PTR_OFFSET; lia).
  assert (Hk10 : (k < 10)%nat) by (apply lookup_lt_Some in Hk; done).
  destruct (lookup_lt_is_Some_2 (pools s) k) as [p Hp]; [rewrite (pi_length _ _ _ Hi); done|].
  destruct (pi_pools _ _ _ Hi _ _ Hp) as [Hsz [Hc1 Hc2] Hnd Hown]. rewrite Hk in Hsz. injection Hsz as Hsz.
  unfold pool_allocator_alloc. rewrite Hp. rewrite to_u64_id by (unfold PTR_OFFSET; lia).
  rewrite (proj2 (Z.ltb_ge _ _)) by lia.
  destruct (pl_free p) as [|b rest] eqn:Hf.
  - rewrite Hnode. cbn [negb]. destruct (an_item a) as [junk|] eqn:Hitem.
    + unfold malloc at 1. rewrite (proj2 (Z.leb_le _ _)) by lia. rewrite incr_ok by lia. cbn [obind].
      unfold get_block. cbn [with_pool heap]. rewrite lookup_insert_eq. cbn [obind ptr]. eexists _, _. split; [done|].
      pose proof (own_brk _ _ _ Hi) as Hbrk. split; [by rewrite Hbrk|]. split.
      * intros h. eapply (give t s _ own (brk s) h k); [done|done|apply Hi| | |cbn; by rewrite insert_insert_eq|cbn; lia..].
        { right. eexists. split; [done|]. split; cbn; [by rewrite Hk, Hsz|lia|constructor|]. intros b Hb. set_solver. }
        intros k' p' Hp' Hin. cbn in Hp'. destruct (decide (k' = k)) as [->|Hne].
        { rewrite list_lookup_insert_eq in Hp' by (rewrite (pi_length _ _ _ Hi); done). simplify_eq. cbn in Hin. set_solver. }
        rewrite list_lookup_insert_ne in Hp' by done. apply (po_own _ _ _ _ (pi_pools _ _ _ Hi _ _ Hp')) in Hin. by rewrite Hbrk in Hin.
      * eexists. cbn [with_heap with_pool heap]. rewrite insert_insert_eq. split; [done|]. rewrite zlen_fresh by lia. lia.
    + destruct Hans as [Hx|Hpl]; [by destruct Hx|]. unfold malloc at 2. rewrite incr_ok by lia. cbn [obind]. unfold malloc. rewrite Hpl.
      eexists _, _. split; [done|]. split; [|done]. apply keep_pool; [done| |done].
      split; cbn; [by rewrite Hk, Hsz|lia|constructor|]. intros b Hb. set_solver.
  - rewrite incr_ok by lia. cbn [obind]. apply NoDup_cons in Hnd as [Hnotin Hnd].
    assert (Hob : own !! b = Some (Pooled k)) by (apply Hown; set_solver).
    destruct (pi_free _ _ _ Hi _ _ Hob) as (blk & m & Hblk & Hm & Hlen). simplify_eq.
    unfold get_block. cbn [with_pool heap]. rewrite Hblk. cbn [obind]. eexists _, _. split; [done|]. split; [by rewrite Hob|]. split.
    + intros h. eapply (give t s _ own b h k); [done|done|apply Hi| | |done|cbn; lia|].
      { right. eexists. split; [done|]. split; cbn; [by rewrite Hk, Hsz|lia|done|]. intros b' Hb'.
        rewrite lookup_insert_ne by (intros ->; done). apply Hown. set_solver. }
      { intros k' p' Hp' Hin. cbn in Hp'. destruct (decide (k' = k)) as [->|Hne].
        { rewrite list_lookup_insert_eq in Hp' by (rewrite (pi_length _ _ _ Hi); done). simplify_eq. done. }
        rewrite list_lookup_insert_ne in Hp' by done. apply (po_own _ _ _ _ (pi_pools _ _ _ Hi _ _ Hp')) in Hin. congruence. }
      cbn. destruct (decide (b < brk s)%nat); [done|]. rewrite (pi_brk _ _ _ Hi) in Hblk by lia. done.
    + eexists. split; [done|]. lia.
Qed.

Lemma set_block t s own b h blk :
  pools_inv t s own → own !! b = Some (Held h) → pools_inv t (with_heap (<[b := blk]> (heap s)) s) own.
Proof.
  intros Hi Hb. pose proof (pi_held _ _ _ Hi _ _ Hb) as Hin. destruct Hi as [H1 H2 H3 H4 H5 H6]. split; [done..| | |].
  - intros b' k Ho. cbn. rewrite lookup_insert_ne by congruence. by apply H4.
  - intros b' h' Ho. cbn. rewrite lookup_insert_is_Some. destruct (decide (b = b')); [by left|right]. split; [done|]. by apply (H5 _ h').
  - intros b' Hb'. cbn. destruct (decide (b' = b)) as [->|Hne]; [|by rewrite lookup_insert_ne; [apply H6|]].
    rewrite H6 in Hin by done. by destruct Hin.
Qed.

Lemma drop_block t s own b h :
  pools_inv t s own → own !! b = Some (Held h) → pools_inv t (with_heap (delete b (heap s)) s) (delete b own).
Proof.
  intros Hi Hb. destruct Hi as [H1 H2 H3 H4 H5 H6]. split; [done..| | | |].
  - intros k p Hp. apply (pool_ok_own t _ own); [by apply H3|lia|]. intros b' Hb'. apply (po_own _ _ _ _ (H3 _ _ Hp)) in Hb'.
    rewrite lookup_delete_ne; congruence.
  - intros b' k Ho. apply lookup_delete_Some in Ho as [Hne Ho]. cbn. rewrite lookup_delete_ne by done. by apply H4.
  - intros b' h' Ho. apply lookup_delete_Some in Ho as [Hne Ho]. cbn. rewrite lookup_delete_ne by done. by apply (H5 _ h').
  - intros b' Hb'. cbn. destruct (decide (b' = b)) as [->|Hne]; [by rewrite lookup_delete_eq|rewrite lookup_delete_ne by done; by apply H6].
Qed.

Lemma pool_block t s own b h k p m blk n :
  pools_inv t s own → own !! b = Some (Held h) → pools s !! k = Some p →
  heap s !! b = Some blk → pool_sizes !! k = Some n → n ≤ zlen (ptr blk) →
  pools_inv t (with_pool k (mkPool (items_size p) (alloc_count p) (hits_count p) (b :: pl_free p) m) s) (<[b := Pooled k]> own).
Proof.
  intros Hi Hb Hp Hblk Hk Hn. pose proof (pi_pools _ _ _ Hi _ _ Hp) as [Hs1 Hs2 Hs3 Hs4]. destruct Hi as [H1 H2 H3 H4 H5 H6].
  assert (Hfree : ∀ k' p', pools s !! k' = Some p' → b ∉ pl_free p').
  { intros k' p' Hp' Hin. apply (po_own _ _ _ _ (H3 _ _ Hp')) in Hin. congruence. }
  split; [done|cbn; by rewrite length_insert| | | |done].
  - intros k' q Hq. cbn in Hq. apply list_lookup_insert_Some in Hq as [(<- & <- & _)|[Hne Hq]].
    + split; cbn; [done..| |]; [apply NoDup_cons; split; [by apply (Hfree k p)|done]|].
      intros b' Hb'. apply elem_of_cons in Hb' as [-> | Hb']; [by rewrite lookup_insert_eq|].
      rewrite lookup_insert_ne by (intros <-; by apply (Hfree k p)). by apply Hs4.
    + apply (pool_ok_own t _ own); [by apply H3|lia|]. intros b' Hb'. rewrite lookup_insert_ne; [done|]. intros <-. by apply (Hfree k' q).
  - intros b' k' Ho. cbn. destruct (decide (b' = b)) as [->|Hne]; [rewrite lookup_insert_eq in Ho; injection Ho as <-; by exists blk, n|].
    rewrite lookup_insert_ne in Ho by done. by apply H4.
  - intros b' h' Ho. destruct (decide (b' = b)) as [->|Hne]; [by rewrite lookup_insert_eq in Ho|].
    rewrite lookup_insert_ne in Ho by done. by apply (H5 _ h').
Qed.

Lemma free_spec t s own b h n d :
  pools_inv t s own → own !! b = Some (Held h) → heap s !! b = Some (mkBlock BUF_SIGNATURE n d) → 1 ≤ n → class_size n ≤ zlen d →
  ∃ s' own', ci_buffer_free (Some b) s = Ret s' ∧ pools_inv t s' own' ∧
    (∀ b', b' ≠ b → own' !! b' = own !! b' ∧ heap s' !! b' = heap s !! b') ∧ (∀ h', own' !! b ≠ Some (Held h')).
Proof.
  intros Hi Ho Hb Hn Hd. unfold ci_buffer_free, get_block. rewrite Hb. cbn [obind sig ID]. rewrite Z.eqb_refl. cbn [negb].
  pose proof (buffer_class_spec s n (pi_tables _ _ _ Hi) Hn) as Hc.
  assert (Hdrop : ∃ s' own', free b s = Ret s' ∧ pools_inv t s' own' ∧
    (∀ b', b' ≠ b → own' !! b' = own !! b' ∧ heap s' !! b' = heap s !! b') ∧ (∀ h', own' !! b ≠ Some (Held h'))).
  { unfold free. rewrite Hb. eexists _, (delete b own). split; [done|]. split; [by apply (drop_block t s own b h)|]. split.
    - intros b' Hne. cbn. by rewrite !lookup_delete_ne by done.
    - intros h'. by rewrite lookup_delete_eq. }
  destruct (n <=? 32768); [|by rewrite Hc]. destruct Hc as (k & -> & Hk). cbn [obind]. unfold pool_allocator_free.
  destruct (lookup_lt_is_Some_2 (pools s) k) as [p Hp]; [rewrite (pi_length _ _ _ Hi); by apply lookup_lt_Some in Hk|]. rewrite Hp.
  destruct (pl_allocated p) as [|m]; [done|]. eexists _, (<[b := Pooled k]> own). split; [done|].
  split; [by apply (pool_block t s own b h k p m _ _ Hi Ho Hp Hb Hk)|]. split.
  - intros b' Hne. cbn. by rewrite !lookup_insert_ne by done.
  - intros h'. by rewrite lookup_insert_eq.
Qed.

(** ** Programs that use buffers *)

(** A program names its buffers by numbers.  It does not write outside of the size it asked for. *)
Inductive op :=
  | OAlloc (n : Z)
  | ORealloc (h : nat) (n : Z)
  | OFree (h : nat)
  | OWrite (h : nat) (off : Z) (bs : list Z)
  | ORead (h : nat).

(** What the program sees: whether it got its buffer, and the bytes it reads. *)
Inductive seen := Got (b : bool) | Bytes (bs : list Z) | Nothing.

(** The pointers of the program with their sizes; a null pointer has size 0. *)
Abbreviation pointers := (list (option nat * Z)).

Definition step (a : answers) (o : op) (ps : pointers) (s : mem) : outcome (seen * pointers * mem) :=
  match o with
  | OAlloc n =>
      let* (b, s) := ci_buffer_alloc a n s in
      Ret (Got (bool_decide (is_Some b)), ps ++ [(b, match b with Some _ => n | None => 0 end)], s)
  | ORealloc h n =>
      match ps !! h with
      | None => Ret (Nothing, ps, s)
      | Some (p, _) =>
          let* (b, s) := ci_buffer_realloc a p n s in
          Ret (Got (bool_decide (is_Some b)), match b with Some _ => <[h := (b, n)]> ps | None => ps end, s)
      end
  | OFree h =>
      match ps !! h with
      | None => Ret (Nothing, ps, s)
      | Some (p, _) => let* s := ci_buffer_free p s in Ret (Nothing, <[h := (None, 0)]> ps, s)
      end
  | OWrite h off bs =>
      match ps !! h with
      | Some (Some b, n) =>
          if (0 <=? off) && (off + zlen bs <=? n) then
            let* blk := get_block b s in
            let* d := write_bytes (ptr blk) off bs in
            Ret (Nothing, ps, with_heap (<[b := mkBlock (sig blk) (ID blk) d]> (heap s)) s)
          else Ret (Nothing, ps, s)
      | _ => Ret (Nothing, ps, s)
      end
  | ORead h =>
      match ps !! h with
      | Some (Some b, n) => let* blk := get_block b s in let* d := read_bytes (ptr blk) 0 n in Ret (Bytes d, ps, s)
      | _ => Ret (Bytes [], ps, s)
      end
  end.

Fixpoint run (prog : list (answers * op)) (ps : pointers) (s : mem) : outcome (list seen) :=
  match prog with
  | [] => Ret []
  | (a, o) :: prog =>
      let* (x, ps, s) := step a o ps s in
      let* xs := run prog ps s in
      Ret (x :: xs)
  end.

(** ** The reference *)

(** The bytes of every buffer, [None] where the program has not written. *)
Abbreviation contents := (list (list (option Z))).

Definition resize (n : Z) (c : list (option Z)) : list (option Z) :=
  take (Z.to_nat n) c ++ replicate (Z.to_nat n - length c) None.

Definition overwrite (off : Z) (bs : list Z) (c : list (option Z)) : list (option Z) :=
  if (0 <=? off) && (off + zlen bs <=? zlen c) then
    take (Z.to_nat off) c ++ (Some <$> bs) ++ drop (Z.to_nat (off + zlen bs)) c
  else c.

(** A byte that is read is the one that was written. *)
Definition agree (c : option Z) (b : Z) : Prop := match c with Some x => x = b | None => True end.

Definition allowed (o : op) (x : seen) (cs cs' : contents) : Prop :=
  match o, x with
  | OAlloc n, Got b => cs' = cs ++ [if b then resize n [] else []]
  | ORealloc h n, Got b => is_Some (cs !! h) ∧ cs' = if b then alter (resize n) h cs else cs
  | OFree h, Nothing => cs' = alter (λ _, []) h cs
  | OWrite h off bs, Nothing => cs' = alter (overwrite off bs) h cs
  | ORead h, Bytes d => cs' = cs ∧ Forall2 agree (default [] (cs !! h)) d
  | ORealloc h _, Nothing => cs' = cs ∧ cs !! h = None
  | _, _ => False
  end.

Inductive allowed_run : list op → list seen → contents → Prop :=
  | allowed_nil cs : allowed_run [] [] cs
  | allowed_cons o os x xs cs cs' : allowed o x cs cs' → allowed_run os xs cs' → allowed_run (o :: os) (x :: xs) cs.

(** ** Simulation *)

Definition pointer_ok (s : mem) (own : gmap nat owner) (h : nat) (p : option nat * Z) (c : list (option Z)) : Prop :=
  match p with
  | (None, n) => n = 0 ∧ c = []
  | (Some b, n) => own !! b = Some (Held h) ∧ ∃ d, heap s !! b = Some (mkBlock BUF_SIGNATURE n d) ∧ 1 ≤ n ≤ INT_MAX ∧
      class_size n ≤ zlen d ∧ zlen c = n ∧ Forall2 agree c (take (Z.to_nat n) d)
  end.

Record sim (t : Z) (ps : pointers) (s : mem) (cs : contents) (own : gmap nat owner) : Prop := {
  si_inv : pools_inv t s own;
  si_length : length ps = length cs;
  si_ptr : ∀ h p c, ps !! h = Some p → cs !! h = Some c → pointer_ok s own h p c
}.

Definition op_ok (o : op) : Prop := match o with OAlloc n | ORealloc _ n => 1 ≤ n ≤ INT_MAX | _ => True end.

(** The blocks of the other pointers are left as they are. *)
Definition others_kept (h : nat) (own own' : gmap nat owner) (s s' : mem) : Prop :=
  ∀ b h', h' ≠ h → own !! b = Some (Held h') → own' !! b = own !! b ∧ heap s' !! b = heap s !! b.

Lemma pointer_ok_other s s' own own' h h' p c :
  pointer_ok s own h p c → h ≠ h' → others_kept h' own own' s s' → pointer_ok s' own' h p c.
Proof.
  destruct p as [[b|] n]; [|done]. intros (Ho & d & Hd & Hrest) Hne Heq.
  destruct (Heq b h Hne Ho) as [E1 E2]. split; [by rewrite E1|]. exists d. by rewrite E2.
Qed.

Lemma sim_set t t' ps s cs own h p c s' own' :
  sim t ps s cs own → pools_inv t' s' own' → others_kept h own own' s s' → (h < length ps)%nat →
  pointer_ok s' own' h p c → sim t' (<[h := p]> ps) s' (<[h := c]> cs) own'.
Proof.
  intros [Hi Hl Hp] Hi' Heq Hh Hnew. split; [done|by rewrite !length_insert|]. intros h' p' c' Hp' Hc'.
  apply list_lookup_insert_Some in Hp' as [(<- & <- & _)|[Hne Hp']].
  { rewrite list_lookup_insert_eq in Hc' by lia. by simplify_eq. }
  rewrite list_lookup_insert_ne in Hc' by done. eapply (pointer_ok_other s s' own own' h' h); eauto.
Qed.

Lemma sim_app t t' ps s cs own p c s' own' :
  sim t ps s cs own → pools_inv t' s' own' → others_kept (length ps) own own' s s' →
  pointer_ok s' own' (length ps) p c → sim t' (ps ++ [p]) s' (cs ++ [c]) own'.
Proof.
  intros [Hi Hl Hp] Hi' Heq Hnew. split; [done|rewrite !length_app; cbn; lia|]. intros h' p' c' Hp' Hc'.
  destruct (decide (h' = length ps)) as [->|Hne].
  { rewrite list_lookup_middle in Hp' by done. rewrite list_lookup_middle in Hc' by done. by simplify_eq. }
  assert (h' < length ps)%nat as Hlt by (apply lookup_lt_Some in Hp'; rewrite length_app in Hp'; cbn in Hp'; lia).
  rewrite lookup_app_l in Hp' by done. rewrite lookup_app_l in Hc' by lia.
  eapply (pointer_ok_other s s' own own' h' (length ps)); eauto.
Qed.

Lemma agree_none k l : length l = k → Forall2 agree (replicate k None) l.
Proof. intros <-. induction l; cbn; [constructor|by constructor]. Qed.

(** A pointer to a block that was just allocated. *)
Lemma alloc_pointer t n s own h b s' own' d :
  pools_inv t s own → 1 ≤ n ≤ INT_MAX → (∀ h, own !! b ≠ Some (Held h)) → own' = <[b := Held h]> own →
  heap s' = <[b := mkBlock BUF_SIGNATURE n d]> (heap s) → class_size n ≤ zlen d →
  others_kept h own own' s s' ∧ pointer_ok s' own' h (Some b, n) (resize n []).
Proof.
  intros Hi Hn Hb -> Hh Hd. pose proof (class_size_ge n). split.
  - intros b' h' _ Ho. assert (b' ≠ b) by (intros ->; by destruct (Hb h')). by rewrite Hh, !lookup_insert_ne.
  - split; [by rewrite lookup_insert_eq|]. exists d. rewrite Hh, lookup_insert_eq. unfold resize. rewrite take_nil, app_nil_l, Nat.sub_0_r.
    split_and!; [done|lia|lia|done|rewrite zlen_replicate; lia|]. apply agree_none. rewrite length_take. unfold zlen in *. lia.
Qed.

Lemma alloc_spec t n s own a :
  pools_inv t s own → answers_ok a → 1 ≤ n ≤ INT_MAX → t < INT_MAX →
  ∃ r s', ci_buffer_alloc a n s = Ret (r, s') ∧ alloc_post t n s own r s'.
Proof. intros Hi Ha Hn Ht. destruct (decide (n ≤ 32768)); [by apply alloc_pooled; try lia|by apply alloc_plain; try lia]. Qed.

Lemma alter_insert {A : Type} (f : A → A) (l : list A) i x : l !! i = Some x → alter f i l = <[i := f x]> l.
Proof.
  intros Hx. apply list_eq. intros j. destruct (decide (i = j)) as [<-|Hne].
  - rewrite list_lookup_alter_eq, Hx, list_lookup_insert_eq by (by apply lookup_lt_Some in Hx). done.
  - by rewrite list_lookup_alter_ne, list_lookup_insert_ne.
Qed.

Lemma alter_none {A : Type} (f : A → A) (l : list A) i : l !! i = None → alter f i l = l.
Proof.
  intros Hx. apply list_eq. intros j. destruct (decide (i = j)) as [<-|Hne].
  - by rewrite list_lookup_alter_eq, Hx.
  - by rewrite list_lookup_alter_ne.
Qed.

(** The contents of a buffer whose size becomes [n], with what the new block held after the old bytes. *)
Lemma agree_resize c l n r :
  Forall2 agree c l → Z.of_nat (length (take (Z.to_nat n) l ++ r)) = n →
  Forall2 agree (resize n c) (take (Z.to_nat n) l ++ r).
Proof.
  intros Hf Hr. pose proof (Forall2_length _ _ _ Hf) as Hl. unfold resize. apply Forall2_app; [by apply Forall2_take|].
  apply agree_none. rewrite length_app, length_take in Hr. lia.
Qed.

Lemma zlen_resize n c : 0 ≤ n → zlen (resize n c) = n.
Proof. intros Hn. unfold resize. rewrite zlen_app, zlen_take, zlen_replicate. unfold zlen. lia. Qed.

(** A buffer that is large enough keeps its block. *)
Lemma realloc_in_place t ps s cs own h b m n c a :
  sim t ps s cs own → ps !! h = Some (Some b, m) → cs !! h = Some c → 1 ≤ n ≤ class_size m →
  ∃ s', ci_buffer_realloc a (Some b) n s = Ret (Some b, s') ∧ sim (t + 1) (<[h := (Some b, n)]> ps) s' (<[h := resize n c]> cs) own.
Proof.
  intros Hs Hp Hc Hn. pose proof (si_ptr _ _ _ _ _ Hs _ _ _ Hp Hc) as (Ho & d & Hb & Hm & Hd & Hlc & Hag).
  pose proof (si_inv _ _ _ _ _ Hs) as Hi. pose proof (class_size_int m Hm). pose proof (class_size_ge m).
  unfold ci_buffer_realloc, get_block. rewrite Hb. cbn [obind sig]. rewrite Z.eqb_refl. cbn [negb].
  rewrite (blocksize_spec s b d m) by (done || apply Hi || lia). cbn [obind]. rewrite to_int_id by (unfold INT_MIN; lia).
  rewrite (proj2 (Z.ltb_lt 0 _)) by lia. cbn [assert_ obind]. rewrite (proj2 (Z.ltb_ge _ n)) by lia. eexists. split; [done|].
  assert (Hcn : class_size n ≤ class_size m).
  { destruct (decide (n ≤ m)); [by apply class_size_mono|]. destruct (decide (m ≤ 32768)); [|rewrite (class_size_large m) in Hn by lia; lia].
    clear -Hn n0 Hm. revert Hn. unfold class_size, pool_sizes. cbn [foldr]. repeat case_cmp; lia. }
  eapply (sim_set t _ ps s cs own h _ _ _ own Hs); [by apply (keep_pool t _ own 0 (mkPool 0 0 0 [] 0)), (set_block t s own b h)| | |].
  - intros b' h' Hne Ho'. split; [done|]. cbn. rewrite lookup_insert_ne; [done|congruence].
  - by apply lookup_lt_Some in Hp.
  - split; [done|]. exists d. cbn [with_heap heap ptr]. rewrite lookup_insert_eq. split_and!; [done|lia|lia|lia|apply zlen_resize; lia|].
    assert (Htk : take (Z.to_nat n) d = take (Z.to_nat n) (take (Z.to_nat m) d) ++ slice d m (n - m)).
    { unfold slice. destruct (decide (n ≤ m)).
      - replace (Z.to_nat (n - m)) with 0%nat by lia. rewrite take_0, app_nil_r, take_take. f_equal. lia.
      - rewrite take_take, Nat.min_r by lia. replace (Z.to_nat n) with (Z.to_nat m + Z.to_nat (n - m))%nat by lia. by rewrite take_take_drop. }
    rewrite Htk. apply agree_resize; [done|]. rewrite <- Htk, length_take. unfold zlen in *. lia.
Qed.

(** The new block of a buffer that grows has the old bytes. *)
Lemma grown_contents n m c d dd :
  1 ≤ m → m ≤ zlen d → m < n → n ≤ zlen dd → zlen c = m → Forall2 agree c (take (Z.to_nat m) d) →
  Forall2 agree (resize n c) (take (Z.to_nat n) (splice dd 0 (slice d 0 m))).
Proof.
  intros Hm Hd Hn Hdd Hc Hf. unfold splice, slice. rewrite take_0, drop_0, app_nil_l.
  assert (Hlen : zlen (take (Z.to_nat m) d) = m) by (rewrite zlen_take; lia).
  rewrite take_app_ge by (unfold zlen in *; lia). rewrite <- (firstn_all2 (n := Z.to_nat n) (take (Z.to_nat m) d)) by (unfold zlen in *; lia).
  apply agree_resize; [done|]. rewrite (firstn_all2 (n := Z.to_nat n)) by (unfold zlen in *; lia).
  rewrite length_app, (length_take (drop _ _)), length_drop. unfold zlen in *. lia.
Qed.

Lemma realloc_grow t ps s cs own h b m n c a :
  sim t ps s cs own → ps !! h = Some (Some b, m) → cs !! h = Some c → class_size m < n ≤ INT_MAX → answers_ok a → t < INT_MAX →
  ∃ r s' own', ci_buffer_realloc a (Some b) n s = Ret (r, s') ∧
    match r with
    | None => sim (t + 1) ps s' cs own'
    | Some d => sim (t + 1) (<[h := (Some d, n)]> ps) s' (<[h := resize n c]> cs) own'
    end.
Proof.
  intros Hs Hp Hc Hn Ha Ht. pose proof (si_ptr _ _ _ _ _ Hs _ _ _ Hp Hc) as (Ho & d & Hb & Hm & Hd & Hlc & Hag).
  pose proof (si_inv _ _ _ _ _ Hs) as Hi. pose proof (class_size_int m Hm). pose proof (class_size_ge m). pose proof (class_size_ge n).
  unfold ci_buffer_realloc. unfold get_block at 1. rewrite Hb. cbn [obind sig]. rewrite Z.eqb_refl. cbn [negb].
  rewrite (blocksize_spec s b d m) by (done || apply Hi || lia). cbn [obind]. rewrite to_int_id by (unfold INT_MIN; lia).
  rewrite (proj2 (Z.ltb_lt 0 _)) by lia. cbn [assert_ obind]. rewrite (proj2 (Z.ltb_lt _ n)) by lia.
  destruct (alloc_spec t n s own a Hi Ha) as (r & s1 & -> & Hpost); [lia..|]. cbn [obind].
  destruct r as [b2|]; cbn [alloc_post] in Hpost.
  2:{ destruct Hpost as [Hi1 Hh1]. eexists None, s1, own. split; [done|]. destruct Hs as [_ Hl Hq]. split; [done..|].
      intros h' p' c' Hp' Hc'. specialize (Hq h' p' c' Hp' Hc'). revert Hq. unfold pointer_ok. by rewrite Hh1. }
  destruct Hpost as (Hnew & Hinv & dd & Hh1 & Hdd). specialize (Hinv h).
  assert (Hne : b ≠ b2) by (intros ->; by destruct (Hnew h)).
  cbn [ID ptr]. rewrite read_bytes_ok by lia. cbn [obind]. unfold get_block at 1. rewrite Hh1, lookup_insert_eq. cbn [obind ptr sig ID].
  rewrite write_bytes_ok by (rewrite ?zlen_slice; lia). cbn [obind].
  set (s2 := with_heap _ s1).
  assert (Hi2 : pools_inv (t + 1) s2 (<[b2 := Held h]> own)).
  { unfold s2. rewrite <- Hh1. apply (set_block _ _ _ _ h); [done|by rewrite lookup_insert_eq]. }
  destruct (free_spec (t + 1) s2 (<[b2 := Held h]> own) b h m d) as (s3 & own3 & -> & Hi3 & Hk & _); [done|by rewrite lookup_insert_ne| |lia|done|].
  { unfold s2. cbn. by rewrite !lookup_insert_ne by done. }
  cbn [obind]. eexists (Some b2), s3, own3. split; [done|].
  assert (Hs2 : heap s2 = <[b2 := mkBlock BUF_SIGNATURE n (splice dd 0 (slice d 0 m))]> (heap s)).
  { unfold s2. cbn. by rewrite insert_insert_eq. }
  eapply (sim_set t _ ps s cs own h _ _ _ own3 Hs Hi3); [| |].
  - intros b' h' Hh' Ho'. assert (b' ≠ b) by congruence. assert (b' ≠ b2) by (intros ->; by destruct (Hnew h')).
    destruct (Hk b') as [-> ->]; [done|]. rewrite Hs2. by rewrite !lookup_insert_ne by done.
  - by apply lookup_lt_Some in Hp.
  - destruct (Hk b2) as [E1 E2]; [done|]. split; [by rewrite E1, lookup_insert_eq|].
    eexists. rewrite E2, Hs2, lookup_insert_eq. split; [done|]. rewrite zlen_splice by (rewrite ?zlen_slice; lia).
    split_and!; [lia..|apply zlen_resize; lia|]. apply grown_contents; try done; lia.
Qed.

(** The write of a program within its buffer. *)
Lemma overwrite_agree c d m off bs :
  zlen c = m → m ≤ zlen d → 0 ≤ off → off + zlen bs ≤ m → Forall2 agree c (take (Z.to_nat m) d) →
  Forall2 agree (overwrite off bs c) (take (Z.to_nat m) (splice d off bs)) ∧ zlen (overwrite off bs c) = m.
Proof.
  intros Hc Hd H0 Hm Hf. pose proof (zlen_nonneg bs). unfold overwrite. rewrite Hc, (proj2 (Z.leb_le 0 off)), (proj2 (Z.leb_le _ m)) by lia. cbn [andb].
  split; [|rewrite !zlen_app, zlen_take, zlen_drop, zlen_fmap; lia]. unfold splice.
  assert (Hl1 : length (take (Z.to_nat off) d) = Z.to_nat off) by (rewrite length_take; unfold zlen in *; lia).
  rewrite take_app_ge by lia. rewrite Hl1. rewrite take_app_ge by (unfold zlen in *; lia).
  apply Forall2_app; [|apply Forall2_app].
  - apply Forall2_take with (n := Z.to_nat off) in Hf. rewrite take_take, Nat.min_l in Hf by lia. done.
  - apply Forall2_fmap_l. clear. induction bs; constructor; done.
  - apply Forall2_drop with (n := Z.to_nat (off + zlen bs)) in Hf. rewrite skipn_firstn_comm in Hf.
    replace (Z.to_nat off + length bs)%nat with (Z.to_nat (off + zlen bs)) by (unfold zlen; lia).
    by replace (Z.to_nat m - Z.to_nat off - length bs)%nat with (Z.to_nat m - Z.to_nat (off + zlen bs))%nat by (unfold zlen; lia).
Qed.

(** What a step of the program is in the reference. *)
Definition step_sim (t : Z) (a : answers) (o : op) (ps : pointers) (s : mem) (cs : contents) : Prop :=
  ∃ x ps' s' cs' own', step a o ps s = Ret (x, ps', s') ∧ allowed o x cs cs' ∧ sim (t + 1) ps' s' cs' own'.

Lemma sim_later t ps s cs own : sim t ps s cs own → sim (t + 1) ps s cs own.
Proof. intros [Hi Hl Hp]. split; [by apply (keep_pool t s own 0 (mkPool 0 0 0 [] 0))|done..]. Qed.

Lemma step_alloc t a n ps s cs own :
  sim t ps s cs own → answers_ok a → 1 ≤ n ≤ INT_MAX → t < INT_MAX → step_sim t a (OAlloc n) ps s cs.
Proof.
  intros Hs Ha Hn Ht. pose proof (si_inv _ _ _ _ _ Hs) as Hi. destruct (alloc_spec t n s own a Hi Ha Hn Ht) as (r & s1 & Hr & Hpost).
  unfold step_sim. cbn [step]. rewrite Hr. cbn [obind]. destruct r as [b|]; cbn [alloc_post] in Hpost.
  - destruct Hpost as (Hnew & Hinv & d & Hh & Hd). eexists _, _, _, _, _. split; [done|]. split; [done|].
    destruct (alloc_pointer t n s own (length ps) b s1 _ d Hi Hn Hnew eq_refl Hh Hd) as [Hk Hok]. by eapply (sim_app t).
  - destruct Hpost as [Hi1 Hh1]. eexists _, _, _, _, own. split; [done|]. split; [done|].
    apply (sim_app t (t + 1) ps s cs own _ _ _ _ Hs Hi1); [|done]. intros b h' _ Ho. by rewrite Hh1.
Qed.

Lemma step_realloc t a h n ps s cs own :
  sim t ps s cs own → answers_ok a → 1 ≤ n ≤ INT_MAX → t < INT_MAX → step_sim t a (ORealloc h n) ps s cs.
Proof.
  intros Hs Ha Hn Ht. pose proof (si_inv _ _ _ _ _ Hs) as Hi. unfold step_sim. cbn [step].
  destruct (ps !! h) as [[p m]|] eqn:Hp.
  2:{ eexists _, _, _, cs, own. split; [done|]. split; [|by apply sim_later]. split; [done|].
      apply lookup_ge_None. rewrite <- (si_length _ _ _ _ _ Hs). by apply lookup_ge_None. }
  destruct (lookup_lt_is_Some_2 cs h) as [c Hc]; [rewrite <- (si_length _ _ _ _ _ Hs); by apply lookup_lt_Some in Hp|].
  assert (Hal : alter (resize n) h cs = <[h := resize n c]> cs) by (by apply alter_insert).
  destruct p as [b|].
  - destruct (decide (n ≤ class_size m)).
    + destruct (realloc_in_place t ps s cs own h b m n c a Hs Hp Hc) as (s1 & -> & Hs1); [lia|]. cbn [obind].
      eexists _, _, _, _, _. split; [done|]. split; [|exact Hs1]. cbn [allowed]. by rewrite Hc, Hal.
    + destruct (realloc_grow t ps s cs own h b m n c a Hs Hp Hc) as (r & s1 & own1 & -> & Hs1); [lia|done..|]. cbn [obind].
      destruct r as [d|]; (eexists _, _, _, _, own1; split; [done|]; split; [|exact Hs1]; cbn [allowed]; by rewrite Hc, ?Hal).
  - pose proof (si_ptr _ _ _ _ _ Hs _ _ _ Hp Hc) as [_ ->]. cbn [ci_buffer_realloc].
    destruct (alloc_spec t n s own a Hi Ha Hn Ht) as (r & s1 & -> & Hpost). cbn [obind].
    destruct r as [b|]; cbn [alloc_post] in Hpost.
    + destruct Hpost as (Hnew & Hinv & d & Hh & Hd). eexists _, _, _, _, _. split; [done|]. split; [cbn [allowed]; by rewrite Hc, Hal|].
      destruct (alloc_pointer t n s own h b s1 _ d Hi Hn Hnew eq_refl Hh Hd) as [Hk Hok].
      rewrite Hal. eapply (sim_set t); try done. by apply lookup_lt_Some in Hp.
    + destruct Hpost as [Hi1 Hh1]. eexists _, _, _, cs, own. split; [done|]. split; [cbn [allowed]; by rewrite Hc|].
      destruct Hs as [_ Hl Hq]. split; [done..|].
      intros h' p' c' Hp' Hc'. specialize (Hq h' p' c' Hp' Hc'). revert Hq. unfold pointer_ok. by rewrite Hh1.
Qed.

(** The contents of a pointer, or none of both. *)
Lemma sim_lookup t ps s cs own h :
  sim t ps s cs own →
  match ps !! h with
  | Some p => ∃ c, cs !! h = Some c ∧ pointer_ok s own h p c ∧ (h < length ps)%nat
  | None => cs !! h = None
  end.
Proof.
  intros Hs. pose proof (si_length _ _ _ _ _ Hs) as Hl. destruct (ps !! h) as [p|] eqn:Hp.
  - pose proof (lookup_lt_Some _ _ _ Hp). destruct (lookup_lt_is_Some_2 cs h) as [c Hc]; [lia|]. exists c.
    split_and!; [done|by apply (si_ptr _ _ _ _ _ Hs)|done].
  - apply lookup_ge_None. rewrite <- Hl. by apply lookup_ge_None.
Qed.

Lemma step_free t a h ps s cs own : sim t ps s cs own → step_sim t a (OFree h) ps s cs.
Proof.
  intros Hs. pose proof (si_inv _ _ _ _ _ Hs) as Hi. unfold step_sim. cbn [step allowed]. pose proof (sim_lookup _ _ _ _ _ h Hs) as Hh.
  destruct (ps !! h) as [[p m]|] eqn:Hp; [|eexists _, _, _, cs, own; split; [done|]; rewrite alter_none by done; split; [done|by apply sim_later]].
  destruct Hh as (c & Hc & Hok & Hlt). rewrite (alter_insert _ _ _ _ Hc). destruct p as [b|]; cbn [pointer_ok] in Hok.
  - destruct Hok as (Hob & d & Hb & Hm & Hd & _). destruct (free_spec t s own b h m d) as (s1 & own1 & -> & Hi1 & Hk & _); [done..|lia|done|].
    cbn [obind]. eexists _, _, _, _, own1. split; [done|]. split; [done|]. apply sim_later.
    apply (sim_set t t ps s cs own h _ _ _ _ Hs Hi1); [|done|done]. intros b' h' Hne Ho'. apply Hk. congruence.
  - destruct Hok as [-> ->]. cbn [ci_buffer_free obind]. eexists _, _, _, _, own. split; [done|]. split; [done|]. apply sim_later.
    apply (sim_set t t ps s cs own h _ _ _ _ Hs Hi); [done|done|done].
Qed.

Lemma step_write t a h off bs ps s cs own : sim t ps s cs own → step_sim t a (OWrite h off bs) ps s cs.
Proof.
  intros Hs. unfold step_sim. cbn [step allowed]. pose proof (sim_lookup _ _ _ _ _ h Hs) as Hh.
  destruct (ps !! h) as [[p m]|] eqn:Hp; [|eexists _, _, _, cs, own; split; [done|]; rewrite alter_none by done; split; [done|by apply sim_later]].
  destruct Hh as (c & Hc & Hok & Hlt). rewrite (alter_insert _ _ _ _ Hc). destruct p as [b|]; cbn [pointer_ok] in Hok.
  - destruct Hok as (Hob & d & Hb & Hm & Hd & Hlc & Hag). pose proof (class_size_ge m).
    destruct ((0 <=? off) && (off + zlen bs <=? m)) eqn:Hw.
    + apply andb_true_iff in Hw as [H1%Z.leb_le H2%Z.leb_le]. unfold get_block. rewrite Hb. cbn [obind ptr sig ID].
      rewrite write_bytes_ok by lia. cbn [obind]. eexists _, _, _, _, own. split; [done|]. split; [done|].
      rewrite <- (list_insert_id ps h (Some b, m) Hp). apply sim_later.
      destruct (overwrite_agree c d m off bs) as [Hag' Hl']; [done|lia|lia|lia|done|].
      apply (sim_set t t ps s cs own h _ _ _ _ Hs); [by apply (set_block t s own b h), Hob; apply Hs| |done|].
      { intros b' h' Hne Ho'. split; [done|]. cbn. rewrite lookup_insert_ne; [done|congruence]. }
      split; [done|]. eexists. cbn [with_heap heap]. rewrite lookup_insert_eq. split; [done|]. rewrite zlen_splice by lia. done.
    + eexists _, _, _, cs, own. split; [done|]. split; [|by apply sim_later]. unfold overwrite. rewrite Hlc, Hw. by rewrite list_insert_id.
  - destruct Hok as [-> ->]. eexists _, _, _, cs, own. split; [done|]. split; [|by apply sim_later].
    unfold overwrite. case_match eqn:Hw; [|by rewrite list_insert_id]. apply andb_true_iff in Hw as [H1%Z.leb_le H2%Z.leb_le].
    destruct bs as [|x bs]; [|rewrite zlen_cons in H2; change (zlen (@nil (option Z))) with 0 in H2; pose proof (zlen_nonneg bs); lia].
    cbn. rewrite take_nil, drop_nil. by rewrite list_insert_id.
Qed.

Lemma step_read t a h ps s cs own : sim t ps s cs own → step_sim t a (ORead h) ps s cs.
Proof.
  intros Hs. unfold step_sim. cbn [step allowed]. pose proof (sim_lookup _ _ _ _ _ h Hs) as Hh.
  destruct (ps !! h) as [[p m]|] eqn:Hp; [|eexists _, _, _, cs, own; split; [done|]; rewrite Hh; split; [by split|by apply sim_later]].
  destruct Hh as (c & Hc & Hok & Hlt). rewrite Hc. destruct p as [b|]; cbn [pointer_ok] in Hok.
  - destruct Hok as (Hob & d & Hb & Hm & Hd & Hlc & Hag). pose proof (class_size_ge m). unfold get_block. rewrite Hb. cbn [obind ptr].
    rewrite read_bytes_ok by lia. cbn [obind]. eexists _, _, _, cs, own. split; [done|]. by split; [split|apply sim_later].
  - destruct Hok as [-> ->]. eexists _, _, _, cs, own. split; [done|]. by split; [split|apply sim_later].
Qed.

Lemma run_sim prog : ∀ t ps s cs own,
  sim t ps s cs own → Forall (λ '(a, o), answers_ok a ∧ op_ok o) prog → t + zlen prog ≤ INT_MAX →
  ∃ xs, run prog ps s = Ret xs ∧ allowed_run (snd <$> prog) xs cs.
Proof.
  induction prog as [|[a o] prog IH]; intros t ps s cs own Hs Hp Ht; [exists []; split; [done|constructor]|].
  apply Forall_cons_1 in Hp as [[Ha Ho] Hp]. rewrite zlen_cons in Ht. pose proof (zlen_nonneg prog).
  assert (step_sim t a o ps s cs) as (x & ps' & s' & cs' & own' & Hst & Hal & Hs').
  { destruct o; [eapply step_alloc|eapply step_realloc|eapply step_free|eapply step_write|eapply step_read]; eauto; lia. }
  destruct (IH (t + 1) ps' s' cs' own' Hs' Hp) as (xs & Hr & Har); [lia|]. exists (x :: xs). cbn [run fmap list_fmap snd]. rewrite Hst. cbn [obind].
  rewrite Hr. split; [done|]. by econstructor.
Qed.

Lemma init_sim : sim 0 [] ci_buffers_init [] ∅.
Proof.
  split; [|done|done]. split; [done|done| |done|done|done]. intros k p Hp.
  do 10 (destruct k as [|k]; [cbn in Hp; simplify_eq; split; cbn; [done|lia|constructor|set_solver]|]). done.
Qed.

(** ** Properties *)


Definition zeros : answers := mkAnswers true (Some (λ _, 0)) (Some (λ _, 0)).

Definition sample_program : list (answers * op) :=
  pair zeros <$> [OAlloc 100; OWrite 0 0 [1; 2; 3]; OAlloc 100; OFree 1; ORealloc 0 5000; OAlloc 120; OWrite 2 0 [7]; ORead 0; ORealloc 0 2; ORead 0].


(** The bytes of the resized buffer are read back. *)
Lemma sample_program_reads :
  ∃ bs, run sample_program [] ci_buffers_init = Ret [Got true; Nothing; Got true; Nothing; Got true; Got true; Nothing; Bytes bs; Got true; Bytes [1; 2]]
    ∧ take 3 bs = [1; 2; 3] ∧ zlen bs = 5000.
Proof. eexists. split; [vm_compute; reflexivity|]. split; vm_compute; reflexivity. Qed.

(** When malloc refuses a block of a pool and gives the smaller one of the size asked for, the free of that block puts it in
    the pool, and a later buffer of the class is written past its end. *)
Lemma buffer_fallback_too_small :
  run [(mkAnswers true None (Some (λ _, 0)), OAlloc 100); (zeros, OFree 0); (zeros, OAlloc 120); (zeros, OWrite 1 0 (replicate 120 65))]
      [] ci_buffers_init = UB.
Proof. vm_compute. reflexivity. Qed.

(** A buffer of no bytes reads the table of the pools before its start. *)
Lemma buffer_alloc_zero a : ci_buffer_alloc a 0 ci_buffers_init = UB.
Proof. reflexivity. Qed.
