(* ===== verification/ListApi.v ===== *)
(** The linked lists of array.c ([ci_list_t]) over their nodes: the items of the list, its last item, the nodes that were
    removed and wait to be used again, and the cursor of an iteration.  Pointers are numbers of nodes. *)
From stdpp Require Import base tactics numbers list gmap.
From S2P Require Import Prelude.
From Stdlib Require Import ZArith Lia.
Open Scope Z_scope.

(** An object of the list: its bytes, or the pointer when the list keeps pointers. *)
Record ci_list_item_t (V : Type) := mkNode { it_item : V; it_next : option nat }.

(** [by_value]: [obj_size] is not 0.  [nodes_made] counts the nodes that were allocated; [freed] has the objects given to
    [free_func]. *)
Record ci_list_t (V : Type) := mkList {
  nodes : gmap nat (ci_list_item_t V);
  nodes_made : nat;
  items : option nat;
  last : option nat;
  trash : option nat;
  cursor : option nat;
  by_value : bool;
  cmp_func : option (V → V → Z);
  copy_func : option (V → V);
  free_func : bool;
  freed : list V
}.

Arguments mkNode {V}.  Arguments it_item {V}.  Arguments it_next {V}.
Arguments mkList {V}.  Arguments nodes {V}.  Arguments nodes_made {V}.  Arguments items {V}.  Arguments last {V}.
Arguments trash {V}.  Arguments cursor {V}.  Arguments by_value {V}.  Arguments cmp_func {V}.  Arguments copy_func {V}.
Arguments free_func {V}.  Arguments freed {V}.

Section lists.
Context {V : Type}.

(** Comparison of the bytes of two objects, and of two pointers. *)
Context (default_cmp pointers_cmp : V → V → Z).

Definition set_nodes (h : gmap nat (ci_list_item_t V)) (l : ci_list_t V) : ci_list_t V :=
  mkList h (nodes_made l) (items l) (last l) (trash l) (cursor l) (by_value l) (cmp_func l) (copy_func l) (free_func l) (freed l).
Definition set_ends (i la : option nat) (l : ci_list_t V) : ci_list_t V :=
  mkList (nodes l) (nodes_made l) i la (trash l) (cursor l) (by_value l) (cmp_func l) (copy_func l) (free_func l) (freed l).
Definition set_trash (t : option nat) (l : ci_list_t V) : ci_list_t V :=
  mkList (nodes l) (nodes_made l) (items l) (last l) t (cursor l) (by_value l) (cmp_func l) (copy_func l) (free_func l) (freed l).
Definition set_cursor (c : option nat) (l : ci_list_t V) : ci_list_t V :=
  mkList (nodes l) (nodes_made l) (items l) (last l) (trash l) c (by_value l) (cmp_func l) (copy_func l) (free_func l) (freed l).
Definition set_freed (f : list V) (l : ci_list_t V) : ci_list_t V :=
  mkList (nodes l) (nodes_made l) (items l) (last l) (trash l) (cursor l) (by_value l) (cmp_func l) (copy_func l) (free_func l) f.

Definition get_node (k : nat) (l : ci_list_t V) : outcome (ci_list_item_t V) := match nodes l !! k with Some n => Ret n | None => UB end.
Definition put_node (k : nat) (n : ci_list_item_t V) (l : ci_list_t V) : ci_list_t V := set_nodes (<[k := n]> (nodes l)) l.

Definition ci_list_create (byv : bool) : ci_list_t V := mkList ∅ 0 None None None None byv None None false [].

(** The object a list keeps of [v]: a copy, after [copy_func] when there is one, or the pointer. *)
Definition kept (l : ci_list_t V) (v : V) : V := if by_value l then match copy_func l with Some f => f v | None => v end else v.

(** [a] tells whether the node and its object could be allocated; a node of the trash has its object. *)
Definition list_alloc_item (a : bool * bool) (v : V) (l : ci_list_t V) : outcome (option nat * ci_list_t V) :=
  match trash l with
  | Some k =>
      let* n := get_node k l in
      Ret (Some k, put_node k (mkNode (kept l v) None) (set_trash (it_next n) l))
  | None =>
      if negb (fst a) || (by_value l && negb (snd a)) then Ret (None, l)
      else Ret (Some (nodes_made l),
                mkList (<[nodes_made l := mkNode (kept l v) None]> (nodes l)) (S (nodes_made l)) (items l) (last l) (trash l) (cursor l)
                       (by_value l) (cmp_func l) (copy_func l) (free_func l) (freed l))
  end.

Definition ci_list_push (a : bool * bool) (v : V) (l : ci_list_t V) : outcome (option V * ci_list_t V) :=
  let* (o, l) := list_alloc_item a v l in
  match o with
  | None => Ret (None, l)
  | Some k =>
      let* n := get_node k l in
      match items l with
      | Some h => Ret (Some (it_item n), set_ends (Some k) (last l) (put_node k (mkNode (it_item n) (Some h)) l))
      | None => Ret (Some (it_item n), set_ends (Some k) (Some k) l)
      end
  end.

Definition ci_list_push_back (a : bool * bool) (v : V) (l : ci_list_t V) : outcome (option V * ci_list_t V) :=
  let* (o, l) := list_alloc_item a v l in
  match o with
  | None => Ret (None, l)
  | Some k =>
      let* n := get_node k l in
      match last l with
      | Some e =>
          let* en := get_node e l in
          Ret (Some (it_item n), set_ends (items l) (Some k) (put_node e (mkNode (it_item en) (Some k)) l))
      | None => Ret (Some (it_item n), set_ends (Some k) (Some k) l)
      end
  end.

(** What a pop does with the node it took from the list: to the trash, and the object to the caller. *)
Definition give_item (k : nat) (l : ci_list_t V) : outcome (V * ci_list_t V) :=
  let* n := get_node k l in
  let l := set_trash (Some k) (put_node k (mkNode (it_item n) (trash l)) l) in
  if by_value l then
    let l := if free_func l then set_freed (freed l ++ [it_item n]) l else l in
    Ret (match copy_func l with Some f => f (it_item n) | None => it_item n end, l)
  else Ret (it_item n, l).

Definition ci_list_pop (l : ci_list_t V) : outcome (option V * ci_list_t V) :=
  match items l with
  | None => Ret (None, l)
  | Some k =>
      let* n := get_node k l in
      let l :=
        if bool_decide (last l = items l) then set_cursor None (set_ends None None l)
        else set_ends (it_next n) (last l) (if bool_decide (cursor l = items l) then set_cursor (it_next n) l else l) in
      let* (v, l) := give_item k l in
      Ret (Some v, l)
  end.

(** The loop of [ci_list_pop_back]: the node before the last. *)
Fixpoint before_last (fuel : nat) (tmp : option nat) (l : ci_list_t V) : outcome (option nat) :=
  match fuel with
  | O => NoFuel
  | S fuel =>
      match tmp with
      | None => Ret None
      | Some k => let* n := get_node k l in if bool_decide (it_next n = last l) then Ret (Some k) else before_last fuel (it_next n) l
      end
  end.

Definition ci_list_pop_back (fuel : nat) (l : ci_list_t V) : outcome (option V * ci_list_t V) :=
  match items l with
  | None => Ret (None, l)
  | Some _ =>
      match last l with
      | None => UB
      | Some k =>
          let* l :=
            if bool_decide (last l = items l) then Ret (set_cursor None (set_ends None None l))
            else
              let l := if bool_decide (cursor l = last l) then set_cursor None l else l in
              let* tmp := before_last fuel (items l) l in
              match tmp with
              | None => Abort
              | Some t =>
                  let* n := get_node t l in
                  Ret (set_ends (items l) (Some t) (put_node t (mkNode (it_item n) None) l))
              end in
          let* (v, l) := give_item k l in
          Ret (Some v, l)
      end
  end.

Definition cmp_of (l : ci_list_t V) : V → V → Z :=
  match cmp_func l with Some f => f | None => if by_value l then default_cmp else pointers_cmp end.

Fixpoint remove_from (fuel : nat) (prev it : option nat) (obj : V) (l : ci_list_t V) : outcome (bool * ci_list_t V) :=
  match fuel with
  | O => NoFuel
  | S fuel =>
      match it with
      | None => Ret (false, l)
      | Some k =>
          let* n := get_node k l in
          if cmp_of l (it_item n) obj =? 0 then
            let* l :=
              match prev with
              | Some p => let* pn := get_node p l in Ret (put_node p (mkNode (it_item pn) (it_next n)) l)
              | None => Ret (set_ends (it_next n) (last l) l)
              end in
            let l := if bool_decide (cursor l = Some k) then set_cursor (it_next n) l else l in
            let l := set_trash (Some k) (put_node k (mkNode (it_item n) (trash l)) l) in
            Ret (true, if free_func l && by_value l then set_freed (freed l ++ [it_item n]) l else l)
          else remove_from fuel (Some k) (it_next n) obj l
      end
  end.

Definition ci_list_remove (fuel : nat) (obj : V) (l : ci_list_t V) : outcome (bool * ci_list_t V) := remove_from fuel None (items l) obj l.

Fixpoint search_from (fuel : nat) (cmp : V → V → Z) (it : option nat) (data : V) (l : ci_list_t V) : outcome (option V) :=
  match fuel with
  | O => NoFuel
  | S fuel =>
      match it with
      | None => Ret None
      | Some k => let* n := get_node k l in if cmp (it_item n) data =? 0 then Ret (Some (it_item n)) else search_from fuel cmp (it_next n) data l
      end
  end.

Definition ci_list_search2 (fuel : nat) (data : V) (cmp : V → V → Z) (l : ci_list_t V) : outcome (option V) := search_from fuel cmp (items l) data l.
Definition ci_list_search (fuel : nat) (data : V) (l : ci_list_t V) : outcome (option V) := ci_list_search2 fuel data (cmp_of l) l.

(** The place of a node in the sorted part: the node before it, and the one after. *)
Fixpoint sorted_place (fuel : nat) (cmp : V → V → Z) (x : V) (prev cur : option nat) (l : ci_list_t V) : outcome (option nat * option nat) :=
  match fuel with
  | O => NoFuel
  | S fuel =>
      match cur with
      | None => Ret (prev, None)
      | Some k => let* n := get_node k l in if cmp x (it_item n) <? 0 then Ret (prev, Some k) else sorted_place fuel cmp x (Some k) (it_next n) l
      end
  end.

(** [fuel] for the items that are left, [f] for every search of a place. *)
Fixpoint sort_loop (fuel f : nat) (cmp : V → V → Z) (it sortedHead sortedTail : option nat) (l : ci_list_t V) : outcome (option nat * option nat * ci_list_t V) :=
  match fuel with
  | O => NoFuel
  | S fuel =>
      match it with
      | None => Ret (sortedHead, sortedTail, l)
      | Some k =>
          let* n := get_node k l in
          let* (prev, cur) := sorted_place f cmp (it_item n) None sortedHead l in
          let l := put_node k (mkNode (it_item n) cur) l in
          let* l := match prev with Some p => let* pn := get_node p l in Ret (put_node p (mkNode (it_item pn) (Some k)) l) | None => Ret l end in
          let sortedHead := match prev with Some _ => sortedHead | None => Some k end in
          let sortedTail := match cur with None => Some k | Some _ => sortedTail end in
          sort_loop fuel f cmp (it_next n) sortedHead sortedTail l
      end
  end.

Definition ci_list_sort2 (fuel : nat) (cmp : V → V → Z) (l : ci_list_t V) : outcome (ci_list_t V) :=
  match items l with
  | None => Ret l
  | Some k =>
      let* n := get_node k l in
      match it_next n with
      | None => Ret l
      | Some _ =>
          let* (h, t, l) := sort_loop fuel fuel cmp (items l) None None l in
          Ret (set_ends h t l)
      end
  end.

Definition ci_list_sort (fuel : nat) (l : ci_list_t V) : outcome (ci_list_t V) := ci_list_sort2 fuel (cmp_of l) l.

(** [ci_list_iterate]: the callback may change the list it is called from. *)
Fixpoint iterate_loop {D : Type} (fuel : nat) (fn : D → V → ci_list_t V → outcome (bool * D * ci_list_t V)) (data : D) (l : ci_list_t V) : outcome (D * ci_list_t V) :=
  match fuel with
  | O => NoFuel
  | S fuel =>
      match cursor l with
      | None => Ret (data, l)
      | Some k =>
          let* n := get_node k l in
          let* (stop, data, l) := fn data (it_item n) (set_cursor (it_next n) l) in
          if stop : bool then Ret (data, l) else iterate_loop fuel fn data l
      end
  end.

Definition ci_list_iterate {D : Type} (fuel : nat) (fn : D → V → ci_list_t V → outcome (bool * D * ci_list_t V)) (data : D) (l : ci_list_t V) :
    outcome (D * ci_list_t V) :=
  iterate_loop fuel fn data (set_cursor (items l) l).

(** [ci_list_head] and [ci_list_tail]. *)
Definition ci_list_head (l : ci_list_t V) : outcome (option V) := match items l with None => Ret None | Some k => let* n := get_node k l in Ret (Some (it_item n)) end.
Definition ci_list_tail (l : ci_list_t V) : outcome (option V) := match last l with None => Ret None | Some k => let* n := get_node k l in Ret (Some (it_item n)) end.

(** The handlers. *)
Definition ci_list_cmp_handler (f : V → V → Z) (l : ci_list_t V) : ci_list_t V :=
  mkList (nodes l) (nodes_made l) (items l) (last l) (trash l) (cursor l) (by_value l) (Some f) (copy_func l) (free_func l) (freed l).
Definition ci_list_copy_handler (f : V → V) (l : ci_list_t V) : ci_list_t V :=
  mkList (nodes l) (nodes_made l) (items l) (last l) (trash l) (cursor l) (by_value l) (cmp_func l) (Some f) (free_func l) (freed l).
Definition ci_list_free_handler (l : ci_list_t V) : ci_list_t V :=
  mkList (nodes l) (nodes_made l) (items l) (last l) (trash l) (cursor l) (by_value l) (cmp_func l) (copy_func l) true (freed l).
End lists.
