(* ===== verification/ListApiSafe.v ===== *)
(** What the linked lists of array.c are to a program: a sequence with pushes and pops at both ends, searches, removals and
    sorting, kept over nodes that are used again.  The exception is the removal of the last object, after which the list
    loses what is pushed at its end. *)
From stdpp Require Import base tactics numbers list gmap sorting.
From S2P Require Import Prelude ListApi.
From Stdlib Require Import ZArith Lia.
Open Scope Z_scope.

Section chains.
Context {V : Type}.
Implicit Types (h : gmap nat (ci_list_item_t V)) (kvs : list (nat * V)) (p q : option nat).

(** The nodes from [p] up to [q], with their objects. *)
Fixpoint seg h p kvs q : Prop :=
  match kvs with
  | [] => p = q
  | (k, v) :: kvs => p = Some k ∧ ∃ nx, h !! k = Some (mkNode v nx) ∧ seg h nx kvs q
  end.

Lemma seg_app h p kvs kvs' q : seg h p (kvs ++ kvs') q ↔ ∃ r, seg h p kvs r ∧ seg h r kvs' q.
Proof.
  revert p. induction kvs as [|[k v] kvs IH]; intros p; cbn.
  - split; [by exists p|by intros (r & -> & Hr)].
  - split.
    + intros (-> & nx & Hk & (r & H1 & H2)%IH). exists r. split; [|done]. split; [done|]. by exists nx.
    + intros (r & (-> & nx & Hk & H1) & H2). split; [done|]. exists nx. split; [done|]. apply IH. by exists r.
Qed.

Lemma seg_frame h h' p kvs q : seg h p kvs q → (∀ k, k ∈ kvs.*1 → h' !! k = h !! k) → seg h' p kvs q.
Proof.
  revert p. induction kvs as [|[k v] kvs IH]; intros p; cbn; [done|]. intros (-> & nx & Hk & Hs) Heq.
  split; [done|]. exists nx. split; [rewrite Heq; [done|set_solver]|]. apply IH; [done|]. intros k' Hk'. apply Heq. set_solver.
Qed.

Lemma seg_insert h p kvs q k n : seg h p kvs q → k ∉ kvs.*1 → seg (<[k := n]> h) p kvs q.
Proof. intros Hs Hk. apply (seg_frame h); [done|]. intros k' Hk'. rewrite lookup_insert_ne; [done|set_solver]. Qed.

(** The end of a chain is set to [r]. *)
Lemma seg_relink h p kvs k v q r :
  seg h p (kvs ++ [(k, v)]) q → NoDup (kvs ++ [(k, v)]).*1 → seg (<[k := mkNode v r]> h) p (kvs ++ [(k, v)]) r.
Proof.
  intros (m & H1 & (-> & nx & Hk & _))%seg_app Hn. rewrite fmap_app in Hn. apply NoDup_app in Hn as (_ & Hn & _).
  apply seg_app. exists (Some k). split; [apply seg_insert; [done|]; intros Hin; apply (Hn k Hin); set_solver|].
  split; [done|]. exists r. by rewrite lookup_insert_eq.
Qed.

Definition last_key kvs : option nat := foldl (λ _ kv, Some (fst kv)) None kvs.
Arguments last_key : simpl never.

Lemma last_key_snoc kvs k v : last_key (kvs ++ [(k, v)]) = Some k.
Proof. unfold last_key. by rewrite foldl_app. Qed.

Lemma last_key_cons k v kvs : last_key ((k, v) :: kvs) = match kvs with [] => Some k | _ => last_key kvs end.
Proof.
  destruct (decide (kvs = [])) as [->|Hne]; [done|]. destruct (exists_last Hne) as (kvs' & [k' v'] & ->).
  rewrite app_comm_cons, !last_key_snoc. by destruct kvs'.
Qed.

(** The list has the objects of [kvs]; the nodes of [ts] wait to be used again. *)
Record rep (l : ci_list_t V) kvs (ts : list (nat * V)) : Prop := {
  re_items : seg (nodes l) (items l) kvs None;
  re_last : last l = last_key kvs;
  re_trash : seg (nodes l) (trash l) ts None;
  re_nodup : NoDup (kvs ++ ts).*1;
  re_made : ∀ k, k ∈ (kvs ++ ts).*1 → (k < nodes_made l)%nat
}.

Lemma rep_length l kvs ts : rep l kvs ts → (length kvs + length ts ≤ nodes_made l)%nat.
Proof.
  intros Hr. rewrite <- length_app, <- (length_fmap fst). apply NoDup_bound; apply Hr.
Qed.

Lemma rep_empty byv : rep (ci_list_create byv) [] [].
Proof. split; cbn; try done; [constructor|set_solver]. Qed.

(** ** The operations *)

Definition settings (l : ci_list_t V) := (by_value l, cmp_func l, copy_func l, free_func l).

(** A node can be had: there is one to use again, or the allocations succeed. *)
Definition room (byv : bool) (a : bool * bool) (spare : nat) : bool := bool_decide (spare ≠ 0%nat) || (fst a && (negb byv || snd a)).

(** A list with one more node, which is not linked yet. *)
Record with_node (l l' : ci_list_t V) k (v : V) kvs ts : Prop := {
  wn_nodes : nodes l' = <[k := mkNode v None]> (nodes l);
  wn_items : items l' = items l;
  wn_last : last l' = last l;
  wn_settings : settings l' = settings l;
  wn_kvs : seg (nodes l') (items l') kvs None;
  wn_trash : seg (nodes l') (trash l') ts None;
  wn_nodup : NoDup (k :: (kvs ++ ts).*1);
  wn_made : ∀ k', k' ∈ k :: (kvs ++ ts).*1 → (k' < nodes_made l')%nat
}.

Lemma list_alloc_item_spec a v l kvs ts :
  rep l kvs ts →
  if room (by_value l) a (length ts)
  then ∃ k l' ts', list_alloc_item a v l = Ret (Some k, l') ∧ with_node l l' k (kept l v) kvs ts' ∧ length ts' = pred (length ts)
  else list_alloc_item a v l = Ret (None, l).
Proof.
  intros Hr. pose proof (re_trash _ _ _ Hr) as Ht. pose proof (re_nodup _ _ _ Hr) as Hn. pose proof (re_made _ _ _ Hr) as Hm.
  unfold list_alloc_item. destruct ts as [|[k x] ts]; cbn in Ht.
  - rewrite Ht. unfold room. cbn [length]. rewrite bool_decide_eq_false_2 by lia. cbn [orb].
    assert (Hfresh : nodes_made l ∉ (kvs ++ []).*1) by (intros Hin%Hm; lia).
    destruct a as [a1 a2]. cbn [fst snd]. destruct (a1 && (negb (by_value l) || a2)) eqn:E.
    + replace (negb a1 || by_value l && negb a2) with false by (revert E; by destruct a1, a2, (by_value l)). cbn [obind].
      eexists _, _, []. split; [done|]. split; [|done]. split; cbn; try done.
      * apply seg_insert; [apply Hr|]. rewrite app_nil_r in Hfresh. done.
      * by apply NoDup_cons.
      * intros k' [-> | Hk'%Hm]%elem_of_cons; lia.
    + by replace (negb a1 || by_value l && negb a2) with true by (revert E; by destruct a1, a2, (by_value l)).
  - destruct Ht as (-> & nx & Hk & Hts). unfold room. rewrite bool_decide_eq_true_2 by (cbn; lia). cbn [orb].
    rewrite fmap_app, fmap_cons in Hn. apply (NoDup_Permutation_proper _ _ (Permutation_sym (Permutation_middle _ _ _))) in Hn.
    rewrite <- fmap_app in Hn. cbn [fst] in Hn. pose proof Hn as [Hnk Hn']%NoDup_cons.
    unfold get_node. rewrite Hk. cbn [obind it_next]. eexists _, _, ts. split; [done|]. split; [|done].
    rewrite fmap_app in Hnk. split; cbn; try done.
    + apply seg_insert; [apply Hr|]. set_solver.
    + apply seg_insert; [done|]. set_solver.
    + intros k' Hk'. apply Hm. rewrite fmap_app in Hk' |- *. cbn. set_solver.
Qed.

Lemma push_spec a v l kvs ts :
  rep l kvs ts →
  if room (by_value l) a (length ts)
  then ∃ k l' ts', ci_list_push a v l = Ret (Some (kept l v), l') ∧ rep l' ((k, kept l v) :: kvs) ts' ∧ settings l' = settings l ∧ length ts' = pred (length ts)
  else ci_list_push a v l = Ret (None, l).
Proof.
  intros Hr. pose proof (list_alloc_item_spec a v l kvs ts Hr) as Ha. unfold ci_list_push. destruct (room _ _ _); [|by rewrite Ha].
  destruct Ha as (k & l1 & ts' & -> & Hw & Hl). cbn [obind]. unfold get_node. rewrite (wn_nodes _ _ _ _ _ _ Hw), lookup_insert_eq. cbn [obind it_item].
  pose proof (wn_nodup _ _ _ _ _ _ Hw) as Hn. pose proof Hn as [Hk _]%NoDup_cons. rewrite fmap_app in Hk.
  exists k. destruct (items l1) as [hd|] eqn:Hi; eexists _, ts'; (split; [done|]; split; [|split; [apply Hw|done]]); split; cbn.
  - split; [done|]. exists (Some hd). rewrite lookup_insert_eq. split; [done|]. rewrite <- Hi. apply seg_insert; [apply Hw|set_solver].
  - destruct kvs as [|[k0 v0] kvs]; [pose proof (wn_kvs _ _ _ _ _ _ Hw) as Hs; cbn in Hs; congruence|].
    rewrite (wn_last _ _ _ _ _ _ Hw), (re_last _ _ _ Hr). by rewrite (last_key_cons k).
  - apply seg_insert; [apply Hw|set_solver].
  - done.
  - apply Hw.
  - split; [done|]. exists None. rewrite (wn_nodes _ _ _ _ _ _ Hw), lookup_insert_eq. split; [done|].
    pose proof (wn_kvs _ _ _ _ _ _ Hw) as Hs. by rewrite Hi, (wn_nodes _ _ _ _ _ _ Hw) in Hs.
  - destruct kvs as [|[k0 v0] kvs]; [done|]. pose proof (wn_kvs _ _ _ _ _ _ Hw) as Hs. cbn in Hs. destruct Hs. congruence.
  - apply Hw.
  - done.
  - apply Hw.
Qed.

Lemma push_back_spec a v l kvs ts :
  rep l kvs ts →
  if room (by_value l) a (length ts)
  then ∃ k l' ts', ci_list_push_back a v l = Ret (Some (kept l v), l') ∧ rep l' (kvs ++ [(k, kept l v)]) ts' ∧ settings l' = settings l ∧ length ts' = pred (length ts)
  else ci_list_push_back a v l = Ret (None, l).
Proof.
  intros Hr. pose proof (list_alloc_item_spec a v l kvs ts Hr) as Ha. unfold ci_list_push_back. destruct (room _ _ _); [|by rewrite Ha].
  destruct Ha as (k & l1 & ts' & -> & Hw & Hl). cbn [obind]. unfold get_node at 1. rewrite (wn_nodes _ _ _ _ _ _ Hw), lookup_insert_eq. cbn [obind it_item].
  pose proof (wn_nodup _ _ _ _ _ _ Hw) as Hn. pose proof Hn as [Hk Hn']%NoDup_cons. rewrite fmap_app in Hk.
  assert (Hperm : (k :: (kvs ++ ts').*1) ≡ₚ ((kvs ++ [(k, kept l v)]) ++ ts').*1).
  { rewrite !fmap_app. cbn. rewrite <- app_assoc. cbn. apply Permutation_middle. }
  pose proof (wn_kvs _ _ _ _ _ _ Hw) as Hs. rewrite (wn_last _ _ _ _ _ _ Hw), (re_last _ _ _ Hr). exists k.
  destruct (decide (kvs = [])) as [->|Hne].
  - cbn. eexists _, ts'. split; [done|]. split; [|split; [apply Hw|done]]. split; cbn; [|done|apply Hw|by rewrite <- Hperm|].
    + split; [done|]. exists None. by rewrite (wn_nodes _ _ _ _ _ _ Hw), lookup_insert_eq.
    + intros k' Hk'. apply Hw. done.
  - destruct (exists_last Hne) as (kvs0 & [e x] & ->). rewrite last_key_snoc.
    assert (He : e ≠ k) by (intros ->; apply Hk; rewrite fmap_app; cbn; set_solver).
    assert (Hnd : NoDup (kvs0 ++ [(e, x)]).*1) by (rewrite fmap_app in Hn'; by apply NoDup_app in Hn' as [Hn' _]).
    pose proof Hs as (m & Hs0 & (-> & nx & Hnode & _))%seg_app. unfold get_node. rewrite Hnode. cbn [obind it_item].
    eexists _, ts'. split; [done|]. split; [|split; [apply Hw|done]]. split; cbn; [|by rewrite last_key_snoc| |by rewrite <- Hperm|].
    + apply seg_app. exists (Some k). split; [by eapply seg_relink|]. split; [done|]. exists None.
      rewrite lookup_insert_ne by done. by rewrite (wn_nodes _ _ _ _ _ _ Hw), lookup_insert_eq.
    + apply seg_insert; [apply Hw|]. intros Hin. rewrite !fmap_app in Hn'. apply NoDup_app in Hn' as (_ & Hn' & _). apply (Hn' e); [cbn; set_solver|done].
    + intros k' Hk'. apply Hw. by rewrite Hperm.
Qed.

(** A node that was unlinked goes to the trash, its object to the caller. *)
Lemma give_item_spec k v nx l kvs ts :
  nodes l !! k = Some (mkNode v nx) → seg (nodes l) (items l) kvs None → last l = last_key kvs → seg (nodes l) (trash l) ts None →
  NoDup (k :: (kvs ++ ts).*1) → (∀ k', k' ∈ k :: (kvs ++ ts).*1 → (k' < nodes_made l)%nat) →
  ∃ l', give_item k l = Ret (kept l v, l') ∧ rep l' kvs ((k, v) :: ts) ∧ settings l' = settings l.
Proof.
  intros Hk Hs Hl Ht Hn Hm. unfold give_item, get_node. rewrite Hk. cbn [obind it_item].
  pose proof Hn as [Hnk _]%NoDup_cons. rewrite fmap_app in Hnk.
  assert (Hr : ∀ f, rep (set_freed f (set_trash (Some k) (put_node k (mkNode v (trash l)) l))) kvs ((k, v) :: ts)).
  { assert (Hperm : (k :: (kvs ++ ts).*1) ≡ₚ (kvs ++ (k, v) :: ts).*1) by (rewrite !fmap_app; cbn; apply Permutation_middle).
    intros f. split; cbn; [apply seg_insert; [done|set_solver]|done| |by rewrite <- Hperm|intros k' Hk'; apply Hm; by rewrite Hperm].
    split; [done|]. exists (trash l). rewrite lookup_insert_eq. split; [done|]. apply seg_insert; [done|set_solver]. }
  unfold kept. cbn [set_trash put_node set_nodes by_value free_func copy_func]. destruct (by_value l) eqn:Hb.
  - destruct (free_func l) eqn:Hf; (eexists; split; [done|]; split; [|cbn; unfold settings; cbn; congruence]); [apply Hr|apply (Hr (freed l))].
  - eexists. split; [done|]. split; [apply (Hr (freed l))|unfold settings; cbn; congruence].
Qed.

Lemma pop_spec k v l kvs ts :
  rep l ((k, v) :: kvs) ts →
  ∃ l', ci_list_pop l = Ret (Some (kept l v), l') ∧ rep l' kvs ((k, v) :: ts) ∧ settings l' = settings l.
Proof.
  intros [Hs Hl Ht Hn Hm]. cbn in Hs, Hn, Hm. destruct Hs as (Hi & nx & Hk & Hs). unfold ci_list_pop. rewrite Hi. unfold get_node. rewrite Hk. cbn [obind it_next].
  pose proof Hn as [Hnk _]%NoDup_cons. rewrite last_key_cons in Hl.
  destruct (bool_decide_reflect (last l = Some k)) as [He|He].
  - destruct kvs as [|[k0 v0] kvs].
    2:{ exfalso. assert (Hin : k ∈ ((k0, v0) :: kvs).*1); [|apply Hnk; rewrite fmap_app; set_solver].
        rewrite Hl in He. destruct (exists_last (l := (k0, v0) :: kvs)) as (kvs' & [e x] & E); [done|]. rewrite E in He |- *.
        rewrite last_key_snoc in He. simplify_eq. rewrite fmap_app. cbn. set_solver. }
    destruct (give_item_spec k v nx (set_cursor None (set_ends None None l)) [] ts) as (l' & -> & Hr' & Hse); [done..|]. by exists l'.
  - destruct kvs as [|[k0 v0] kvs]; [done|].
    assert (∃ l', give_item k (set_ends nx (last l) (if bool_decide (cursor l = Some k) then set_cursor nx l else l)) = Ret (kept l v, l') ∧
                  rep l' ((k0, v0) :: kvs) ((k, v) :: ts) ∧ settings l' = settings l) as (l' & -> & Hr' & Hse); [|by exists l'].
    destruct (bool_decide _).
    + destruct (give_item_spec k v nx (set_ends nx (last l) (set_cursor nx l)) ((k0, v0) :: kvs) ts) as (l' & -> & Hr' & Hse); [done..|]. by exists l'.
    + destruct (give_item_spec k v nx (set_ends nx (last l) l) ((k0, v0) :: kvs) ts) as (l' & -> & Hr' & Hse); [done..|]. by exists l'.
Qed.

Lemma pop_empty l ts : rep l [] ts → ci_list_pop l = Ret (None, l) ∧ ∀ fuel, ci_list_pop_back fuel l = Ret (None, l).
Proof. intros [Hs _ _ _ _]. cbn in Hs. unfold ci_list_pop, ci_list_pop_back. by rewrite Hs. Qed.

(** The loop of [ci_list_pop_back] stops at the node before the last. *)
Lemma before_last_spec kvs : ∀ fuel p t x k l,
  seg (nodes l) p (kvs ++ [(t, x)]) (Some k) → k ∉ kvs.*1 ++ [t] → last l = Some k → (length kvs < fuel)%nat →
  before_last fuel p l = Ret (Some t).
Proof.
  induction kvs as [|[k0 v0] kvs IH]; intros [|fuel] p t x k l Hs Hk Hl Hf; try (cbn in Hf; lia); cbn [before_last app seg] in *.
  - destruct Hs as (-> & nx & Hn & ->). unfold get_node. rewrite Hn. cbn [obind it_next]. by rewrite bool_decide_eq_true_2.
  - destruct Hs as (-> & nx & Hn & Hs). unfold get_node. rewrite Hn. cbn [obind it_next]. rewrite bool_decide_eq_false_2.
    + apply (IH fuel nx t x k l Hs); [cbn in Hk; set_solver|done|cbn in Hf; lia].
    + rewrite Hl. intros ->. destruct kvs as [|[k1 v1] kvs]; cbn in Hs; destruct Hs as (He & _); cbn in Hk; simplify_eq; set_solver.
Qed.

Lemma pop_back_spec k v l kvs ts :
  rep l (kvs ++ [(k, v)]) ts →
  ∃ l', ci_list_pop_back (S (nodes_made l)) l = Ret (Some (kept l v), l') ∧ rep l' kvs ((k, v) :: ts) ∧ settings l' = settings l.
Proof.
  intros Hr. pose proof (rep_length _ _ _ Hr) as Hlen. rewrite length_app in Hlen. destruct Hr as [Hs Hl Ht Hn Hm].
  rewrite last_key_snoc in Hl. unfold ci_list_pop_back.
  assert (Hperm : (k :: (kvs ++ ts).*1) ≡ₚ ((kvs ++ [(k, v)]) ++ ts).*1).
  { rewrite !fmap_app. cbn. rewrite <- app_assoc. cbn. apply Permutation_middle. }
  rewrite <- Hperm in Hn. assert (Hm' : ∀ k', k' ∈ k :: (kvs ++ ts).*1 → (k' < nodes_made l)%nat) by (intros k' Hk'; apply Hm; by rewrite <- Hperm).
  pose proof Hn as [Hnk Hn']%NoDup_cons. rewrite fmap_app in Hnk. pose proof Hs as (m & Hs1 & (-> & nx & Hk & ->))%seg_app.
  destruct (decide (kvs = [])) as [->|Hne].
  - cbn in Hs1. rewrite Hs1, Hl, bool_decide_eq_true_2 by done. cbn [obind].
    destruct (give_item_spec k v None (set_cursor None (set_ends None None l)) [] ts) as (l' & -> & Hr' & Hse); [done..|]. by exists l'.
  - destruct (exists_last Hne) as (kvs0 & [t x] & ->). rewrite fmap_app in Hnk. cbn in Hnk.
    assert (Hfirst : ∃ k0, items l = Some k0 ∧ k0 ≠ k).
    { destruct kvs0 as [|[k0 v0] kvs0]; cbn in Hs1; destruct Hs1 as (Hi & _); eexists; (split; [exact Hi|]); cbn in Hnk; set_solver. }
    destruct Hfirst as (k0 & Hi & Hk0). rewrite Hi, Hl. rewrite bool_decide_eq_false_2 by congruence.
    set (l1 := if bool_decide (cursor l = Some k) then set_cursor None l else l).
    assert (Hsame : nodes l1 = nodes l ∧ items l1 = items l ∧ last l1 = last l ∧ trash l1 = trash l ∧ nodes_made l1 = nodes_made l ∧ settings l1 = settings l ∧ kept l1 v = kept l v)
      by (unfold l1; by destruct (bool_decide _)).
    destruct Hsame as (E1 & E2 & E3 & E4 & E5 & E6 & E7).
    rewrite (before_last_spec kvs0 _ (items l1) t x k l1); [|by rewrite E1, E2|set_solver|congruence|rewrite length_app in Hlen; cbn in Hlen; lia].
    cbn [obind]. pose proof Hs1 as (m & Hs0 & (-> & ny & Ht' & ->))%seg_app. unfold get_node at 1. rewrite E1, Ht'. cbn [obind it_item].
    assert (Hnd : NoDup (kvs0 ++ [(t, x)]).*1) by (rewrite fmap_app in Hn'; by apply NoDup_app in Hn' as [Hn' _]).
    assert (Htt : t ∉ ts.*1) by (rewrite !fmap_app in Hn'; apply NoDup_app in Hn' as (_ & Hn' & _); apply Hn'; cbn; set_solver).
    destruct (give_item_spec k v None (set_ends (items l1) (Some t) (put_node t (mkNode x None) l1)) (kvs0 ++ [(t, x)]) ts) as (l' & -> & Hr' & Hse); cbn.
    + rewrite lookup_insert_ne by (intros ->; set_solver). by rewrite E1.
    + rewrite E1, E2. eapply seg_relink; [exact Hs1|done].
    + by rewrite last_key_snoc.
    + rewrite E1, E4. by apply seg_insert.
    + done.
    + intros k' Hk'. rewrite E5. by apply Hm'.
    + exists l'. split; [by rewrite <- E7|]. split; [done|]. rewrite Hse. done.
Qed.

Context (default_cmp pointers_cmp : V → V → Z).
Abbreviation cmp_of := (cmp_of default_cmp pointers_cmp).

(** The objects before the first that equals [obj], and those after it. *)
Fixpoint split_at_match (eq : V → V → bool) (obj : V) kvs : option (list (nat * V) * (nat * V) * list (nat * V)) :=
  match kvs with
  | [] => None
  | kv :: kvs => if eq (snd kv) obj then Some ([], kv, kvs) else (λ '(a, x, b), (kv :: a, x, b)) <$> split_at_match eq obj kvs
  end.

Lemma split_at_match_app eq obj kvs a x b : split_at_match eq obj kvs = Some (a, x, b) → kvs = a ++ x :: b.
Proof.
  revert a. induction kvs as [|kv kvs IH]; intros a; cbn; [done|]. destruct (eq _ _); [by intros [= <- <- <-]|].
  destruct (split_at_match eq obj kvs) as [[[a0 x0] b0]|]; [|done]. cbn. intros [= <- <- <-]. cbn. f_equal. by apply IH.
Qed.

Definition matches (l : ci_list_t V) (x obj : V) : bool := cmp_of l x obj =? 0.

Lemma search_from_spec kvs : ∀ fuel cmp p obj l,
  seg (nodes l) p kvs None → (length kvs < fuel)%nat →
  search_from fuel cmp p obj l = Ret ((λ '(_, x, _), snd x) <$> split_at_match (λ x o, cmp x o =? 0) obj kvs).
Proof.
  induction kvs as [|[k v] kvs IH]; intros [|fuel] cmp p obj l Hs Hf; try (cbn in Hf; lia); cbn [seg search_from split_at_match snd] in *.
  - by rewrite Hs.
  - destruct Hs as (-> & nx & Hk & Hs). unfold get_node. rewrite Hk. cbn [obind it_item it_next]. destruct (cmp v obj =? 0); [done|].
    rewrite (IH fuel cmp nx obj l Hs) by (cbn in Hf; lia). by destruct (split_at_match _ _ _) as [[[??]?]|].
Qed.

(** [remove_from] after the nodes of [pre]. *)
Lemma remove_from_none kvs : ∀ fuel prev p obj l,
  seg (nodes l) p kvs None → (length kvs < fuel)%nat → split_at_match (matches l) obj kvs = None →
  remove_from default_cmp pointers_cmp fuel prev p obj l = Ret (false, l).
Proof.
  induction kvs as [|[k v] kvs IH]; intros [|fuel] prev p obj l Hs Hf Hm; try (cbn in Hf; lia); cbn [seg remove_from split_at_match snd] in *.
  - by rewrite Hs.
  - destruct Hs as (-> & nx & Hk & Hs). unfold get_node. rewrite Hk. cbn [obind it_item it_next]. unfold matches at 1 in Hm.
    destruct (ListApi.cmp_of _ _ l v obj =? 0); [done|]. apply IH; [done|cbn in Hf; lia|]. by destruct (split_at_match (matches l) obj kvs) as [[[??]?]|].
Qed.

Lemma remove_from_some a : ∀ fuel pre p obj l k v b,
  seg (nodes l) p (a ++ (k, v) :: b) None → (length a < fuel)%nat → split_at_match (matches l) obj (a ++ (k, v) :: b) = Some (a, (k, v), b) →
  remove_from default_cmp pointers_cmp fuel (last_key pre) p obj l =
  remove_from default_cmp pointers_cmp 1 (last_key (pre ++ a)) (Some k) obj l.
Proof.
  induction a as [|[k0 v0] a IH]; intros [|fuel] pre p obj l k v b Hs Hf Hm; try (cbn in Hf; lia); cbn [seg app split_at_match snd] in *.
  - destruct Hs as (-> & nx & Hk & Hs). rewrite app_nil_r. cbn [remove_from]. unfold get_node. rewrite Hk. cbn [obind it_item].
    destruct (matches l v obj) eqn:E; [unfold matches in E; by rewrite E|]. by destruct (split_at_match (matches l) obj b) as [[[??]?]|].
  - destruct Hs as (-> & nx & Hk & Hs). cbn [remove_from]. unfold get_node at 1. rewrite Hk. cbn [obind it_item it_next].
    destruct (matches l v0 obj) eqn:E; [done|]. unfold matches in E. rewrite E.
    rewrite <- (last_key_snoc pre k0 v0). rewrite (IH fuel (pre ++ [(k0, v0)]) nx obj l k v b); [by rewrite <- app_assoc|done|cbn in Hf; lia|].
    by destruct (split_at_match (matches l) obj (a ++ (k, v) :: b)) as [[[??]?]|]; cbn in Hm; simplify_eq.
Qed.

Lemma cmp_of_settings (l l' : ci_list_t V) : settings l' = settings l → matches l' = matches l.
Proof. unfold settings, matches, ListApi.cmp_of. intros [= -> -> _ _]. done. Qed.

(** The node before the removed one, or the start of the list, is linked to the next one. *)
Lemma unlink_spec l a k b ts nx :
  seg (nodes l) (items l) a (Some k) → seg (nodes l) nx b None → seg (nodes l) (trash l) ts None → NoDup (a.*1 ++ b.*1 ++ ts.*1) →
  ∃ l1, match last_key a with Some p => let* pn := get_node p l in Ret (put_node p (mkNode (it_item pn) nx) l) | None => Ret (set_ends nx (last l) l) end = Ret l1 ∧
    seg (nodes l1) (items l1) (a ++ b) None ∧ seg (nodes l1) (trash l1) ts None ∧ last l1 = last l ∧ nodes_made l1 = nodes_made l ∧ settings l1 = settings l.
Proof.
  intros Ha Hb Ht Hn. destruct (decide (a = [])) as [->|Hne].
  - cbn in Ha |- *. eexists. split; [done|]. by split_and!.
  - destruct (exists_last Hne) as (a' & [e x] & ->). rewrite last_key_snoc. pose proof Ha as (m & Ha' & (-> & ny & He & ->))%seg_app.
    unfold get_node. rewrite He. cbn [obind it_item]. eexists. split; [done|]. cbn. apply NoDup_app in Hn as (HnA & HnB & _). rewrite fmap_app in HnB. cbn in HnB.
    split_and!; try done; [apply seg_app; exists nx; split; [by eapply seg_relink|]|]; (apply seg_insert; [done|]); intros Hin; apply (HnB e); set_solver.
Qed.

(** Removal of an object that is not the last. *)
Lemma remove_spec l kvs ts obj a k v b :
  rep l kvs ts → split_at_match (matches l) obj kvs = Some (a, (k, v), b) → b ≠ [] →
  ∃ l', ci_list_remove default_cmp pointers_cmp (S (nodes_made l)) obj l = Ret (true, l') ∧ rep l' (a ++ b) ((k, v) :: ts) ∧ settings l' = settings l.
Proof.
  intros Hr Hsp Hb. pose proof (rep_length _ _ _ Hr) as Hlen. pose proof (split_at_match_app _ _ _ _ _ _ Hsp) as ->.
  rewrite length_app in Hlen. destruct Hr as [Hs Hl Ht Hn Hm].
  unfold ci_list_remove. change None with (last_key []) at 1. rewrite (remove_from_some a _ [] (items l) obj l k v b Hs) by (lia || done).
  pose proof Hs as (m & Ha & (-> & nx & Hk & Hbs))%seg_app. cbn [app remove_from]. unfold get_node at 1. rewrite Hk. cbn [obind it_item it_next].
  assert (Hma : matches l v obj = true).
  { clear -Hsp. induction a as [|kv a IH]; cbn [app split_at_match] in Hsp; destruct (matches l _ obj) eqn:E; try done.
    - by destruct (split_at_match (matches l) obj b) as [[[??]?]|].
    - apply IH. by destruct (split_at_match (matches l) obj (a ++ (k, v) :: b)) as [[[??]?]|]; cbn in Hsp; simplify_eq. }
  unfold matches in Hma. rewrite Hma.
  assert (Hperm : (k :: (a ++ b ++ ts).*1) ≡ₚ ((a ++ (k, v) :: b) ++ ts).*1) by (rewrite !fmap_app; cbn; rewrite <- app_assoc; cbn; apply Permutation_middle).
  rewrite <- Hperm in Hn. pose proof Hn as [Hnk Hn']%NoDup_cons. rewrite !fmap_app in Hnk, Hn'.
  assert (Hlast : last_key (a ++ (k, v) :: b) = last_key (a ++ b)).
  { destruct (exists_last Hb) as (b' & [e x] & ->). rewrite app_comm_cons, !app_assoc, !last_key_snoc. done. }
  destruct (unlink_spec l a k b ts nx Ha Hbs Ht Hn') as (l1 & -> & Hs1 & Ht1 & E1 & E2 & E3). cbn [obind].
  assert (Hfin : ∀ l2, nodes l2 = <[k := mkNode v (trash l1)]> (nodes l1) → items l2 = items l1 → last l2 = last l1 → trash l2 = Some k →
            nodes_made l2 = nodes_made l1 → rep l2 (a ++ b) ((k, v) :: ts)).
  { intros l2 F1 F2 F3 F4 F5. split.
    - rewrite F1, F2. apply seg_insert; [done|]. rewrite fmap_app. set_solver.
    - rewrite F3, E1, Hl. done.
    - rewrite F1, F4. split; [done|]. exists (trash l1). rewrite lookup_insert_eq. split; [done|]. apply seg_insert; [done|set_solver].
    - assert (Hp2 : ((a ++ b) ++ (k, v) :: ts).*1 ≡ₚ k :: (a ++ b ++ ts).*1) by (rewrite app_assoc, !fmap_app; cbn; symmetry; apply Permutation_middle). by rewrite Hp2.
    - intros k' Hk'. rewrite F5, E2. apply Hm. rewrite <- Hperm. rewrite !fmap_app in *. cbn in Hk'. set_solver. }
  destruct (bool_decide (cursor l1 = Some k)); cbn [set_cursor put_node set_nodes set_trash free_func by_value trash].
  all: destruct (free_func l1 && by_value l1); eexists; (split; [done|]); (split; [by apply Hfin|exact E3]).
Qed.

End chains.

(** *** Sorting *)

Section chain_sort.
Context {V : Type}.
Implicit Types (h : gmap nat (ci_list_item_t V)) (kvs : list (nat * V)) (p q : option nat).

(** An object comes after all that are not greater. *)
Fixpoint place (cmp : V → V → Z) (x : V) kvs : list (nat * V) * list (nat * V) :=
  match kvs with
  | [] => ([], [])
  | kv :: kvs' => if cmp x (snd kv) <? 0 then ([], kvs) else let '(a, b) := place cmp x kvs' in (kv :: a, b)
  end.
Definition ins cmp (kv : nat * V) kvs : list (nat * V) := let '(a, b) := place cmp (snd kv) kvs in a ++ kv :: b.
Definition isort cmp kvs : list (nat * V) := foldl (λ acc kv, ins cmp kv acc) [] kvs.

Definition head_key kvs : option nat := match kvs with [] => None | (k, _) :: _ => Some k end.

Lemma place_app cmp x kvs a b : place cmp x kvs = (a, b) → kvs = a ++ b.
Proof.
  revert a b. induction kvs as [|kv kvs IH]; intros a b; cbn; [by intros [= <- <-]|]. destruct (_ <? 0); [by intros [= <- <-]|].
  destruct (place cmp x kvs) as [a0 b0]. intros [= <- <-]. cbn. f_equal. by apply IH.
Qed.

Lemma ins_perm cmp kv kvs : ins cmp kv kvs ≡ₚ kv :: kvs.
Proof. unfold ins. destruct (place _ _ _) as [a b] eqn:E. apply place_app in E as ->. symmetry. apply Permutation_middle. Qed.

Lemma seg_head h p kvs : seg h p kvs None → p = head_key kvs.
Proof. destruct kvs as [|[k v] kvs]; cbn; [done|]. by intros [-> _]. Qed.

Lemma sorted_place_spec cmp x kvs : ∀ fuel pre p a b l,
  seg (nodes l) p kvs None → (length kvs < fuel)%nat → place cmp x kvs = (a, b) →
  sorted_place fuel cmp x (last_key pre) p l = Ret (last_key (pre ++ a), head_key b).
Proof.
  induction kvs as [|[k v] kvs IH]; intros [|fuel] pre p a b l Hs Hf Hp; try (cbn in Hf; lia); cbn [seg place sorted_place snd] in *.
  - simplify_eq. by rewrite app_nil_r.
  - destruct Hs as (-> & nx & Hk & Hs). unfold get_node. rewrite Hk. cbn [obind it_item it_next]. destruct (cmp x v <? 0); [simplify_eq; by rewrite app_nil_r|].
    destruct (place cmp x kvs) as [a0 b0] eqn:E. simplify_eq. rewrite <- (last_key_snoc pre k v).
    rewrite (IH fuel (pre ++ [(k, v)]) nx a0 b l Hs) by (done || (cbn in Hf; lia)). by rewrite <- app_assoc.
Qed.

(** One round: the node is linked into the sorted part. *)
Lemma sort_round cmp l k v it nx ss rest f :
  seg (nodes l) (head_key ss) ss None → nodes l !! k = Some (mkNode v nx) → seg (nodes l) nx rest None → it = Some k →
  NoDup (k :: (ss ++ rest).*1) → (length ss < f)%nat → ∀ fuel,
  ∃ l', sort_loop (S fuel) f cmp it (head_key ss) (last_key ss) l = sort_loop fuel f cmp nx (head_key (ins cmp (k, v) ss)) (last_key (ins cmp (k, v) ss)) l' ∧
    seg (nodes l') (head_key (ins cmp (k, v) ss)) (ins cmp (k, v) ss) None ∧ seg (nodes l') nx rest None ∧
    (∀ k', k' ∉ k :: ss.*1 → nodes l' !! k' = nodes l !! k') ∧ trash l' = trash l ∧ nodes_made l' = nodes_made l ∧ settings l' = settings l.
Proof.
  intros Hss Hk Hrest -> Hn Hf fuel. cbn [sort_loop]. unfold get_node at 1. rewrite Hk. cbn [obind it_item it_next]. unfold ins. cbn [snd].
  destruct (place cmp v ss) as [a b] eqn:E. change None with (last_key (@nil (nat * V))) at 1. rewrite (sorted_place_spec cmp v ss f [] _ a b l Hss Hf E). cbn [obind app].
  apply place_app in E as ->. pose proof Hn as [Hnk Hn']%NoDup_cons. rewrite !fmap_app in Hnk, Hn'. rewrite <- app_assoc in Hn'.
  apply NoDup_app in Hn' as (Hna & Hnab & [Hnb [Hnbr _]]%NoDup_app). pose proof Hss as (m & Ha & Hb)%seg_app.
  pose proof (seg_head _ _ _ Hb) as ->.
  assert (Hlast : last_key (a ++ (k, v) :: b) = match head_key b with Some _ => last_key (a ++ b) | None => Some k end).
  { destruct (decide (b = [])) as [->|Hne]; [cbn; by rewrite last_key_snoc|]. destruct (exists_last Hne) as (b' & [e x] & ->).
    rewrite app_comm_cons, !app_assoc, !last_key_snoc. by destruct b' as [|[??]?]. }
  assert (Hkb : seg (<[k := mkNode v (head_key b)]> (nodes l)) (Some k) ((k, v) :: b) None).
  { split; [done|]. eexists. rewrite lookup_insert_eq. split; [done|]. apply seg_insert; [done|set_solver]. }
  destruct (decide (a = [])) as [->|Hne].
  - cbn [app] in Hlast |- *. change (last_key (@nil (nat * V))) with (@None nat). cbn [obind]. rewrite Hlast. cbn [head_key].
    eexists. split; [by destruct b as [|[??]?]|]. cbn [put_node set_nodes nodes trash nodes_made]. split_and!; [done|apply seg_insert; [done|set_solver]| |done..].
    intros k' Hk'. rewrite lookup_insert_ne; [done|set_solver].
  - destruct (exists_last Hne) as (a' & [e x] & ->). rewrite last_key_snoc, Hlast. pose proof Ha as (m & Ha' & (-> & ny & He & ->))%seg_app.
    rewrite fmap_app in Hnk, Hnab, Hna. cbn in Hnk, Hnab, Hna.
    unfold get_node. cbn [put_node set_nodes nodes]. rewrite lookup_insert_ne by (intros ->; set_solver). rewrite He. cbn [obind it_item].
    assert (Hh : ∀ r : list (nat * V), head_key ((a' ++ [(e, x)]) ++ r) = head_key (a' ++ [(e, x)])) by (intros r; by destruct a' as [|[??]?]).
    rewrite !Hh. eexists. split; [by destruct b as [|[??]?]|]. cbn [put_node set_nodes nodes trash nodes_made]. split_and!; try done.
    + apply seg_app. exists (Some k). split; [|apply seg_insert; [done|]].
      * eapply seg_relink; [|by rewrite fmap_app]. apply seg_insert; [|rewrite fmap_app; cbn; set_solver]. by rewrite Hh in Ha.
      * cbn. intros [->|Hin]%elem_of_cons; [set_solver|]. apply (Hnab e); set_solver.
    + apply seg_insert; [apply seg_insert; [done|set_solver]|]. intros Hin. apply (Hnab e); set_solver.
    + intros k' Hk'. rewrite !fmap_app in Hk'. cbn in Hk'. rewrite !lookup_insert_ne; [done|set_solver|set_solver].
Qed.

Lemma foldl_ins_perm cmp rest : ∀ ss, foldl (λ acc kv, ins cmp kv acc) ss rest ≡ₚ ss ++ rest.
Proof.
  induction rest as [|kv rest IH]; intros ss; cbn [foldl]; [by rewrite app_nil_r|]. rewrite IH, ins_perm. cbn. apply Permutation_middle.
Qed.

Lemma sort_loop_spec cmp rest : ∀ fuel f it ss l,
  seg (nodes l) (head_key ss) ss None → seg (nodes l) it rest None → NoDup (ss ++ rest).*1 →
  (length rest < fuel)%nat → (length ss + length rest < f)%nat →
  ∃ l', sort_loop fuel f cmp it (head_key ss) (last_key ss) l =
      Ret (head_key (foldl (λ acc kv, ins cmp kv acc) ss rest), last_key (foldl (λ acc kv, ins cmp kv acc) ss rest), l') ∧
    seg (nodes l') (head_key (foldl (λ acc kv, ins cmp kv acc) ss rest)) (foldl (λ acc kv, ins cmp kv acc) ss rest) None ∧
    (∀ k', k' ∉ (ss ++ rest).*1 → nodes l' !! k' = nodes l !! k') ∧ trash l' = trash l ∧ nodes_made l' = nodes_made l ∧ settings l' = settings l.
Proof.
  induction rest as [|[k v] rest IH]; intros [|fuel] f it ss l Hss Hrest Hn Hfu Hf; try (cbn in Hfu; lia).
  - cbn in Hrest. subst it. cbn [sort_loop foldl]. exists l. by split_and!.
  - cbn in Hrest. destruct Hrest as (-> & nx & Hk & Hrest). cbn [length] in Hfu, Hf.
    assert (Hp : (ss ++ (k, v) :: rest).*1 ≡ₚ k :: (ss ++ rest).*1) by (rewrite !fmap_app; cbn; symmetry; apply Permutation_middle).
    rewrite Hp in Hn. destruct (sort_round cmp l k v (Some k) nx ss rest f Hss Hk Hrest eq_refl Hn ltac:(lia) fuel) as (l1 & -> & H1 & H2 & H3 & E1 & E2 & E3).
    assert (Hins : (ins cmp (k, v) ss ++ rest).*1 ≡ₚ k :: (ss ++ rest).*1) by (rewrite ins_perm; done).
    destruct (IH fuel f nx (ins cmp (k, v) ss) l1 H1 H2) as (l2 & -> & G1 & G2 & F1 & F2 & F3); [by rewrite Hins|lia| |].
    { rewrite (Permutation_length (ins_perm cmp (k, v) ss)). cbn. lia. }
    exists l2. cbn [foldl]. split; [done|]. split; [done|]. split; [|split_and!; congruence].
    intros k' Hk'. rewrite Hp in Hk'. rewrite G2 by (by rewrite Hins). apply H3. rewrite fmap_app in Hk'. set_solver.
Qed.

Lemma sort2_spec cmp l kvs ts :
  rep l kvs ts → ∃ l', ci_list_sort2 (S (nodes_made l)) cmp l = Ret l' ∧ rep l' (isort cmp kvs) ts ∧ settings l' = settings l.
Proof.
  intros Hr. pose proof (rep_length _ _ _ Hr) as Hlen. pose proof Hr as [Hs Hl Ht Hn Hm]. unfold ci_list_sort2.
  destruct kvs as [|[k v] kvs]; [cbn in Hs; rewrite Hs; by exists l|]. pose proof Hs as (Hi & nx & Hk & Hs'). rewrite Hi.
  unfold get_node. rewrite Hk. cbn [obind it_next]. destruct kvs as [|[k1 v1] kvs]; [cbn in Hs'; subst nx; by exists l|].
  pose proof Hs' as (-> & _). pose proof Hn as Hn'. rewrite fmap_app in Hn'. apply NoDup_app in Hn' as (Hnk & Hnt & _).
  destruct (sort_loop_spec cmp ((k, v) :: (k1, v1) :: kvs) (S (nodes_made l)) (S (nodes_made l)) (items l) [] l) as (l1 & Hrun & H1 & H2 & E1 & E2 & E3);
    [done|done|done|lia|cbn in *; lia|].
  change None with (last_key (@nil (nat * V))) at 2. change None with (head_key (@nil (nat * V))). rewrite <- Hi, Hrun. cbn [obind]. eexists. split; [done|]. split; [|exact E3].
  pose proof (foldl_ins_perm cmp ((k, v) :: (k1, v1) :: kvs) []) as Hp. cbn [app] in Hp. fold (isort cmp ((k, v) :: (k1, v1) :: kvs)) in *.
  split; cbn [set_ends items last trash nodes nodes_made]; [exact H1|done| | |].
  - rewrite E1. apply (seg_frame (nodes l)); [done|]. intros k' Hk'. apply H2. intros Hin. by apply (Hnt k').
  - by rewrite Hp.
  - intros k' Hk'. rewrite E2. apply Hm. by rewrite <- Hp.
Qed.
End chain_sort.

(** ** The reference: a sequence of objects *)

Section reference.
Context {V : Type} (default_cmp pointers_cmp : V → V → Z).
Context (byv : bool) (cmp : option (V → V → Z)) (copy : option (V → V)) (ff : bool).

Definition order : V → V → Z := match cmp with Some f => f | None => if byv then default_cmp else pointers_cmp end.
Definition keep (v : V) : V := if byv then match copy with Some f => f v | None => v end else v.

(** The sequence around the first object equal to [obj]. *)
Fixpoint around (obj : V) (xs : list V) : option (list V * V * list V) :=
  match xs with
  | [] => None
  | x :: xs => if order x obj =? 0 then Some ([], x, xs) else (λ '(a, y, b), (x :: a, y, b)) <$> around obj xs
  end.

(** Insertion after the objects that are not greater, and the sort that inserts one object after the other. *)
Fixpoint insert_sorted (f : V → V → Z) (x : V) (xs : list V) : list V :=
  match xs with [] => [x] | y :: ys => if f x y <? 0 then x :: xs else y :: insert_sorted f x ys end.
Definition insertion_sort (f : V → V → Z) (xs : list V) : list V := foldl (λ acc x, insert_sorted f x acc) [] xs.

Inductive lop := LPush (v : V) | LPushBack (v : V) | LPop | LPopBack | LRemove (v : V) | LSearch (v : V) | LSort | LHead | LTail.
Inductive lseen := LVal (o : option V) | LFlag (b : bool).

(** The end of a sequence: what is before the last object, and the object. *)
Fixpoint unsnoc (xs : list V) : option (list V * V) :=
  match xs with
  | [] => None
  | x :: xs => Some match unsnoc xs with None => ([], x) | Some (ys, y) => (x :: ys, y) end
  end.

(** [None] where an operation would remove the last object. *)
Definition ref_step (a : bool * bool) (o : lop) (xs : list V) (spare : nat) : option (lseen * list V * nat) :=
  match o with
  | LPush v => Some (if room byv a spare then (LVal (Some (keep v)), keep v :: xs, pred spare) else (LVal None, xs, spare))
  | LPushBack v => Some (if room byv a spare then (LVal (Some (keep v)), xs ++ [keep v], pred spare) else (LVal None, xs, spare))
  | LPop => Some match xs with [] => (LVal None, xs, spare) | x :: r => (LVal (Some (keep x)), r, S spare) end
  | LPopBack => Some match unsnoc xs with None => (LVal None, xs, spare) | Some (r, x) => (LVal (Some (keep x)), r, S spare) end
  | LRemove v =>
      match around v xs with
      | None => Some (LFlag false, xs, spare)
      | Some (_, _, []) => None
      | Some (l, _, r) => Some (LFlag true, l ++ r, S spare)
      end
  | LSearch v => Some (LVal ((λ '(_, x, _), x) <$> around v xs), xs, spare)
  | LSort => Some (LVal None, insertion_sort order xs, spare)
  | LHead => Some (LVal (head xs), xs, spare)
  | LTail => Some (LVal (snd <$> unsnoc xs), xs, spare)
  end.

Fixpoint ref_run (prog : list (bool * bool * lop)) (xs : list V) (spare : nat) : option (list lseen) :=
  match prog with
  | [] => Some []
  | (a, o) :: prog => '(y, xs, spare) ← ref_step a o xs spare; ys ← ref_run prog xs spare; Some (y :: ys)
  end.

(** The program on the list of the code; every loop gets one more round than there are nodes. *)
Definition lstep (a : bool * bool) (o : lop) (l : ci_list_t V) : outcome (lseen * ci_list_t V) :=
  let fuel := S (nodes_made l) in
  match o with
  | LPush v => let* (r, l) := ci_list_push a v l in Ret (LVal r, l)
  | LPushBack v => let* (r, l) := ci_list_push_back a v l in Ret (LVal r, l)
  | LPop => let* (r, l) := ci_list_pop l in Ret (LVal r, l)
  | LPopBack => let* (r, l) := ci_list_pop_back fuel l in Ret (LVal r, l)
  | LRemove v => let* (b, l) := ci_list_remove default_cmp pointers_cmp fuel v l in Ret (LFlag b, l)
  | LSearch v => let* r := ci_list_search default_cmp pointers_cmp fuel v l in Ret (LVal r, l)
  | LSort => let* l := ci_list_sort default_cmp pointers_cmp fuel l in Ret (LVal None, l)
  | LHead => let* r := ci_list_head l in Ret (LVal r, l)
  | LTail => let* r := ci_list_tail l in Ret (LVal r, l)
  end.

Fixpoint lrun (prog : list (bool * bool * lop)) (l : ci_list_t V) : outcome (list lseen) :=
  match prog with
  | [] => Ret []
  | (a, o) :: prog => let* (y, l) := lstep a o l in let* ys := lrun prog l in Ret (y :: ys)
  end.

(** A new list with its handlers. *)
Definition new_list : ci_list_t V :=
  let l := ci_list_create byv in
  let l := match cmp with Some f => ci_list_cmp_handler f l | None => l end in
  let l := match copy with Some f => ci_list_copy_handler f l | None => l end in
  if ff then ci_list_free_handler l else l.

(** ** Refinement *)

Definition ours : bool * option (V → V → Z) * option (V → V) * bool := (byv, cmp, copy, ff).

Lemma around_split l obj (kvs : list (nat * V)) :
  settings l = ours →
  around obj kvs.*2 = (λ '(a, x, b), (a.*2, snd x, b.*2)) <$> split_at_match (matches default_cmp pointers_cmp l) obj kvs.
Proof.
  intros Hs. assert (Ho : ∀ x, matches default_cmp pointers_cmp l x obj = (order x obj =? 0)).
  { intros x. unfold matches, ListApi.cmp_of, order. by injection Hs as -> -> _ _. }
  induction kvs as [|[k v] kvs IH]; [done|]. cbn [fmap list_fmap around split_at_match snd]. rewrite Ho. destruct (order v obj =? 0); [done|].
  change (list_fmap _ _ snd kvs) with (kvs.*2). rewrite IH. by destruct (split_at_match _ _ _) as [[[??]?]|].
Qed.

Lemma ins_values f (kv : nat * V) kvs : (ins f kv kvs).*2 = insert_sorted f (snd kv) kvs.*2.
Proof.
  unfold ins. induction kvs as [|kv' kvs IH]; cbn [place insert_sorted fmap list_fmap]; [done|]. destruct (f _ _ <? 0); [done|].
  destruct (place f (snd kv) kvs) as [a b]. cbn [app fmap list_fmap]. by f_equal.
Qed.

Lemma isort_values f (kvs : list (nat * V)) : (isort f kvs).*2 = insertion_sort f kvs.*2.
Proof.
  unfold isort, insertion_sort. change (@nil V) with ((@nil (nat * V)).*2). generalize (@nil (nat * V)).
  induction kvs as [|kv kvs IH]; intros acc; cbn [foldl fmap list_fmap]; [done|]. by rewrite IH, ins_values.
Qed.

Lemma unsnoc_snoc (xs : list V) x : unsnoc (xs ++ [x]) = Some (xs, x).
Proof. induction xs as [|y xs IH]; cbn; [done|]. by rewrite IH. Qed.

Lemma kept_ours l v : settings l = ours → kept l v = keep v.
Proof. unfold kept, keep. by injection 1 as -> _ -> _. Qed.

(** A list of the code that stands for a sequence, with [spare] nodes to use again. *)
Definition stands_for (l : ci_list_t V) (xs : list V) (spare : nat) : Prop :=
  ∃ kvs ts, rep l kvs ts ∧ settings l = ours ∧ kvs.*2 = xs ∧ length ts = spare.

Lemma lstep_push a v l xs spare y xs' spare' (back : bool) :
  stands_for l xs spare → ref_step a (if back then LPushBack v else LPush v) xs spare = Some (y, xs', spare') →
  ∃ l', lstep a (if back then LPushBack v else LPush v) l = Ret (y, l') ∧ stands_for l' xs' spare'.
Proof.
  intros (kvs & ts & Hr & Hs & <- & <-) He. assert (Hb : by_value l = byv) by (by injection Hs).
  destruct back; cbn [lstep ref_step] in *; injection He as He.
  - pose proof (push_back_spec a v l kvs ts Hr) as Hp. rewrite Hb in Hp. destruct (room byv a (length ts)); simplify_eq.
    + destruct Hp as (k & l' & ts' & -> & Hr' & Hse & Hl). rewrite kept_ours in * by done. eexists. split; [done|].
      eexists _, ts'. split; [done|]. split; [congruence|]. by rewrite fmap_app.
    + rewrite Hp. eexists. split; [done|]. by exists kvs, ts.
  - pose proof (push_spec a v l kvs ts Hr) as Hp. rewrite Hb in Hp. destruct (room byv a (length ts)); simplify_eq.
    + destruct Hp as (k & l' & ts' & -> & Hr' & Hse & Hl). rewrite kept_ours in * by done. eexists. split; [done|].
      eexists _, ts'. split; [done|]. split; [congruence|]. done.
    + rewrite Hp. eexists. split; [done|]. by exists kvs, ts.
Qed.

Lemma lstep_pop a l xs spare y xs' spare' (back : bool) :
  stands_for l xs spare → ref_step a (if back then LPopBack else LPop) xs spare = Some (y, xs', spare') →
  ∃ l', lstep a (if back then LPopBack else LPop) l = Ret (y, l') ∧ stands_for l' xs' spare'.
Proof.
  intros (kvs & ts & Hr & Hs & <- & <-) He. destruct back; cbn [lstep ref_step] in *; injection He as He.
  - destruct (decide (kvs = [])) as [->|Hne].
    + cbn in He. simplify_eq. destruct (pop_empty l ts Hr) as [_ Hp]. rewrite Hp. eexists. split; [done|]. by exists [], ts.
    + destruct (exists_last Hne) as (kvs' & [k v] & ->). rewrite fmap_app in He. cbn in He. rewrite unsnoc_snoc in He. simplify_eq.
      destruct (pop_back_spec k v l kvs' ts Hr) as (l' & -> & Hr' & Hse). rewrite kept_ours by done. eexists. split; [done|].
      eexists _, _. split; [done|]. split; [congruence|]. done.
  - destruct kvs as [|[k v] kvs].
    + cbn in He. simplify_eq. destruct (pop_empty l ts Hr) as [Hp _]. rewrite Hp. eexists. split; [done|]. by exists [], ts.
    + cbn in He. simplify_eq. destruct (pop_spec k v l kvs ts Hr) as (l' & -> & Hr' & Hse). rewrite kept_ours by done. eexists. split; [done|].
      eexists _, _. split; [done|]. split; [congruence|]. done.
Qed.

Lemma lstep_remove a v l xs spare y xs' spare' :
  stands_for l xs spare → ref_step a (LRemove v) xs spare = Some (y, xs', spare') →
  ∃ l', lstep a (LRemove v) l = Ret (y, l') ∧ stands_for l' xs' spare'.
Proof.
  intros (kvs & ts & Hr & Hs & <- & <-) He. cbn [lstep ref_step] in *. rewrite (around_split l) in He by done.
  pose proof (rep_length _ _ _ Hr) as Hlen.
  destruct (split_at_match _ v kvs) as [[[a0 [k x]] b]|] eqn:Hsp; cbn in He.
  - destruct b as [|kv b]; [done|]. cbn in He. simplify_eq.
    destruct (remove_spec default_cmp pointers_cmp l kvs ts v a0 k x (kv :: b) Hr Hsp) as (l' & -> & Hr' & Hse); [done|]. eexists. split; [done|].
    eexists _, _. split; [done|]. split; [congruence|]. by rewrite fmap_app.
  - simplify_eq. unfold ci_list_remove. rewrite (remove_from_none default_cmp pointers_cmp kvs) by (done || apply Hr || lia).
    eexists. split; [done|]. by exists kvs, ts.
Qed.

Lemma lstep_spec a o l xs spare y xs' spare' :
  stands_for l xs spare → ref_step a o xs spare = Some (y, xs', spare') → ∃ l', lstep a o l = Ret (y, l') ∧ stands_for l' xs' spare'.
Proof.
  intros Hst He. destruct o as [v|v| | |v|v| | |].
  - by apply (lstep_push a v l xs spare y xs' spare' false).
  - by apply (lstep_push a v l xs spare y xs' spare' true).
  - by apply (lstep_pop a l xs spare y xs' spare' false).
  - by apply (lstep_pop a l xs spare y xs' spare' true).
  - by eapply lstep_remove.
  - destruct Hst as (kvs & ts & Hr & Hs & <- & <-). cbn [lstep ref_step] in *. simplify_eq. pose proof (rep_length _ _ _ Hr).
    unfold ci_list_search, ci_list_search2. rewrite (search_from_spec kvs) by (apply Hr || lia). rewrite (around_split l) by done.
    eexists. split; [|by exists kvs, ts]. cbn [obind]. unfold matches. by destruct (split_at_match _ v kvs) as [[[??]?]|].
  - destruct Hst as (kvs & ts & Hr & Hs & <- & <-). cbn [lstep ref_step] in *. simplify_eq. unfold ci_list_sort.
    assert (Ho : ListApi.cmp_of default_cmp pointers_cmp l = order) by (unfold ListApi.cmp_of, order; by injection Hs as -> -> _ _).
    destruct (sort2_spec (ListApi.cmp_of default_cmp pointers_cmp l) l kvs ts Hr) as (l' & -> & Hr' & Hse). eexists. split; [done|].
    exists (isort order kvs), ts. rewrite Ho in Hr'. split_and!; [done|congruence|apply isort_values|done].
  - destruct Hst as (kvs & ts & Hr & Hs & <- & <-). cbn [lstep ref_step] in *. simplify_eq. unfold ci_list_head. pose proof (re_items _ _ _ Hr) as Hi.
    destruct kvs as [|[k v] kvs]; cbn in Hi; [rewrite Hi; eexists; split; [done|by exists [], ts]|].
    destruct Hi as (-> & nx & Hk & _). unfold get_node. rewrite Hk. eexists. split; [done|by exists ((k, v) :: kvs), ts].
  - destruct Hst as (kvs & ts & Hr & Hs & <- & <-). cbn [lstep ref_step] in *. simplify_eq. unfold ci_list_tail. rewrite (re_last _ _ _ Hr).
    destruct (decide (kvs = [])) as [->|Hne]; [eexists; split; [done|by exists [], ts]|]. destruct (exists_last Hne) as (kvs' & [k v] & ->).
    rewrite last_key_snoc. pose proof (re_items _ _ _ Hr) as (m & _ & (-> & nx & Hk & _))%seg_app. unfold get_node. rewrite Hk.
    eexists. split; [|by exists (kvs' ++ [(k, v)]), ts]. rewrite fmap_app. cbn. by rewrite unsnoc_snoc.
Qed.

Lemma lrun_spec prog : ∀ l xs spare ys, stands_for l xs spare → ref_run prog xs spare = Some ys → lrun prog l = Ret ys.
Proof.
  induction prog as [|[a o] prog IH]; intros l xs spare ys Hst He; cbn [ref_run lrun] in *; [by simplify_eq|].
  destruct (ref_step a o xs spare) as [[[y xs'] spare']|] eqn:E; [|done]. cbn in He. destruct (ref_run prog xs' spare') as [ys'|] eqn:E'; [|done].
  cbn in He. simplify_eq. destruct (lstep_spec _ _ _ _ _ _ _ _ Hst E) as (l' & -> & Hst'). cbn [obind]. by rewrite (IH l' xs' spare' ys').
Qed.

Lemma new_list_stands_for : stands_for new_list [] 0.
Proof.
  exists [], []. unfold new_list, ours. split_and!; [|destruct cmp, copy, ff; done|done|done].
  destruct cmp, copy, ff; (split; cbn; [done..|constructor|set_solver]).
Qed.
End reference.

(** ** Sorting gives an order *)

Section sorting.
Context {V : Type} (f : V → V → Z).
Hypothesis f_asym : ∀ x y, f x y < 0 → ¬ f y x < 0.
Hypothesis f_trans : ∀ x y z, ¬ f y x < 0 → ¬ f z y < 0 → ¬ f z x < 0.

Definition ordered (x y : V) : Prop := ¬ f y x < 0.

Lemma insert_sorted_perm x xs : insert_sorted f x xs ≡ₚ x :: xs.
Proof. induction xs as [|y xs IH]; cbn; [done|]. destruct (f x y <? 0); [done|]. rewrite IH. apply perm_swap. Qed.

Lemma insert_sorted_sorted x xs : StronglySorted ordered xs → StronglySorted ordered (insert_sorted f x xs).
Proof.
  induction 1 as [|y xs Hs IH Hy]; cbn; [by repeat constructor|]. destruct (Z.ltb_spec (f x y) 0) as [Hlt|Hge].
  - constructor; [by constructor|]. constructor; [by apply f_asym|]. eapply Forall_impl; [exact Hy|]. intros z Hz.
    apply (f_trans x y z); [by apply f_asym|done].
  - constructor; [done|]. rewrite insert_sorted_perm. constructor; [unfold ordered; lia|done].
Qed.

Lemma insertion_sort_spec xs : insertion_sort f xs ≡ₚ xs ∧ StronglySorted ordered (insertion_sort f xs).
Proof.
  unfold insertion_sort. assert (H : ∀ acc, StronglySorted ordered acc →
    foldl (λ acc x, insert_sorted f x acc) acc xs ≡ₚ acc ++ xs ∧ StronglySorted ordered (foldl (λ acc x, insert_sorted f x acc) acc xs)).
  { induction xs as [|x xs IH]; intros acc Ha; cbn [foldl]; [by rewrite app_nil_r|].
    destruct (IH (insert_sorted f x acc)) as [Hp Hs]; [by apply insert_sorted_sorted|]. split; [|done].
    rewrite Hp, insert_sorted_perm. cbn. apply Permutation_middle. }
  apply (H []). constructor.
Qed.
End sorting.

(** ** Reading a list *)

(** The callback that collects the objects it is given. *)
Definition collect {V : Type} (acc : list V) (v : V) (l : ci_list_t V) : outcome (bool * list V * ci_list_t V) := Ret (false, acc ++ [v], l).

Lemma iterate_collect {V : Type} (kvs : list (nat * V)) : ∀ fuel acc l,
  seg (nodes l) (cursor l) kvs None → (length kvs < fuel)%nat → ∃ l', iterate_loop fuel collect acc l = Ret (acc ++ kvs.*2, l').
Proof.
  induction kvs as [|[k v] kvs IH]; intros [|fuel] acc l Hs Hf; try (cbn in Hf; lia); cbn [seg iterate_loop] in *.
  - rewrite Hs. eexists. by rewrite app_nil_r.
  - destruct Hs as (-> & nx & Hk & Hs). unfold get_node. rewrite Hk. cbn [obind collect it_item it_next].
    destruct (IH fuel (acc ++ [v]) (set_cursor nx l) Hs) as (l' & ->); [cbn in Hf; lia|]. exists l'. by rewrite <- app_assoc.
Qed.

(** All objects pushed at the end, with memory for them. *)
Fixpoint push_all {V : Type} (xs : list V) (l : ci_list_t V) : outcome (ci_list_t V) :=
  match xs with [] => Ret l | x :: xs => let* (_, l) := ci_list_push_back (true, true) x l in push_all xs l end.

Lemma push_all_spec {V : Type} (xs : list V) : ∀ l ys spare,
  stands_for true None None false l ys spare → ∃ l' spare', push_all xs l = Ret l' ∧ stands_for true None None false l' (ys ++ xs) spare'.
Proof.
  induction xs as [|x xs IH]; intros l ys spare Hst; cbn [push_all]; [exists l, spare; by rewrite app_nil_r|].
  destruct Hst as (kvs & ts & Hr & Hs & <- & <-). pose proof (push_back_spec (true, true) x l kvs ts Hr) as Hp.
  unfold room in Hp. rewrite orb_true_r in Hp. cbn in Hp. rewrite ?orb_true_r in Hp. destruct Hp as (k & l1 & ts' & -> & Hr' & Hse & _).
  cbn [obind]. destruct (IH l1 (kvs.*2 ++ [x]) (length ts')) as (l' & sp & -> & Hst').
  { exists (kvs ++ [(k, kept l x)]), ts'. split_and!; [done|congruence| |done]. rewrite fmap_app. cbn. by rewrite (kept_ours true None None false). }
  exists l', sp. by rewrite <- app_assoc in Hst'.
Qed.

(** ** Properties *)

(** C28: a list is the sequence its operations describe.  Whatever objects are pushed and popped at both ends, searched,
    removed and sorted, with whatever handlers and whichever allocations fail, the list answers like a sequence, as long as no
    removal takes the last object of the list: nodes that are used again never mix up two objects. *)
Theorem list_is_sequence {V : Type} (default_cmp pointers_cmp : V → V → Z) byv cmp copy ff prog ys :
  ref_run default_cmp pointers_cmp byv cmp copy prog [] 0 = Some ys →
  lrun default_cmp pointers_cmp prog (new_list byv cmp copy ff) = Ret ys.
Proof. apply (lrun_spec _ _ byv cmp copy ff prog _ [] 0 ys), new_list_stands_for. Qed.

Definition zcmp (x y : Z) : Z := x - y.

Lemma list_is_sequence_witness :
  lrun zcmp zcmp (pair (true, true) <$> [LPushBack 5; LPush 7; LPushBack 3; LRemove 5; LPushBack 4; LSort; LPop; LSearch 4; LPopBack; LTail])
    (new_list true None (Some Z.succ) true) =
  Ret [LVal (Some 6); LVal (Some 8); LVal (Some 4); LFlag false; LVal (Some 5); LVal None; LVal (Some 5); LVal None; LVal (Some 9); LVal (Some 6)].
Proof. apply (list_is_sequence zcmp zcmp true None (Some Z.succ) true). vm_compute. reflexivity. Defined.

(** [ci_list_sort2] sorts.  For a comparison that is an order, the objects read by an iteration after the sort are those
    that were pushed, none lost and none twice, in ascending order. *)
Theorem list_sort_sorts {V : Type} (f : V → V → Z) (xs : list V) :
  (∀ x y, f x y < 0 → ¬ f y x < 0) → (∀ x y z, ¬ f y x < 0 → ¬ f z y < 0 → ¬ f z x < 0) →
  ∃ l1 l2 l3 zs, push_all xs (ci_list_create true) = Ret l1 ∧ ci_list_sort2 (S (nodes_made l1)) f l1 = Ret l2 ∧
    ci_list_iterate (S (nodes_made l2)) collect [] l2 = Ret (zs, l3) ∧ zs ≡ₚ xs ∧ StronglySorted (λ x y, ¬ f y x < 0) zs.
Proof.
  intros Ha Ht. destruct (push_all_spec xs (ci_list_create true) [] 0) as (l1 & spare & E1 & kvs & ts & Hr & Hs & Hv & _);
    [exact (new_list_stands_for true None None false)|].
  destruct (sort2_spec f l1 kvs ts Hr) as (l2 & E2 & Hr2 & _). pose proof (rep_length _ _ _ Hr2).
  destruct (iterate_collect (isort f kvs) (S (nodes_made l2)) [] (set_cursor (items l2) l2)) as (l3 & E3); [apply Hr2|lia|].
  exists l1, l2, l3, (insertion_sort f xs). cbn [app] in Hv. split; [done|]. split; [done|].
  split; [|by apply insertion_sort_spec]. unfold ci_list_iterate. rewrite E3. cbn [app]. by rewrite isort_values, Hv.
Qed.

Lemma list_sort_sorts_witness :
  ∃ l1 l2 l3 zs, push_all [3; 1; 2] (ci_list_create true) = Ret l1 ∧ ci_list_sort2 (S (nodes_made l1)) zcmp l1 = Ret l2 ∧
    ci_list_iterate (S (nodes_made l2)) collect [] l2 = Ret (zs, l3) ∧ zs ≡ₚ [3; 1; 2] ∧ StronglySorted (λ x y, ¬ zcmp y x < 0) zs.
Proof. apply (list_sort_sorts zcmp [3; 1; 2]); unfold zcmp; intros; lia. Defined.

(** [ci_list_remove] does not move the end of the list when it takes the last object: what is pushed at the end
    afterwards is reported as stored, and is in the list for nobody. *)
Theorem list_remove_last_loses {V : Type} (default_cmp pointers_cmp : V → V → Z) (x y : V) ff a :
  pointers_cmp x x = 0 → fst a = true →
  lrun default_cmp pointers_cmp [(a, LPushBack x); (a, LRemove x); (a, LPushBack y); (a, LSearch y); (a, LHead); (a, LPop)]
    (new_list false None None ff) =
  Ret [LVal (Some x); LFlag true; LVal (Some y); LVal None; LVal None; LVal None].
Proof.
  intros Hx Ha. destruct a as [a1 a2]. cbn in Ha. subst a1.
  destruct ff; vm_compute; rewrite Hx; reflexivity.
Qed.

Lemma list_remove_last_loses_witness :
  lrun zcmp zcmp [((true, true), LPushBack 5); ((true, true), LRemove 5); ((true, true), LPushBack 6); ((true, true), LSearch 6); ((true, true), LHead); ((true, true), LPop)]
    (new_list false None None false) =
  Ret [LVal (Some 5); LFlag true; LVal (Some 6); LVal None; LVal None; LVal None].
Proof. apply (list_remove_last_loses zcmp zcmp 5 6 false (true, true)); reflexivity. Defined.
