(* ===== verification/Cache.v ===== *)
(** Hash tables (hash.c) and the local cache (cache.c) with string keys ([ci_str_ops], the keys a cache has by default).  A
    chain of a hash table is only changed at its start and is a list; the entries of a cache are linked twice, into a queue
    by age and into the chains of a hash table, so they are numbered and their links are pointers. *)
From stdpp Require Import base tactics numbers list.
From S2P Require Import Prelude.
From Stdlib Require Import ZArith Lia.
Open Scope Z_scope.

(** ** hash.c *)

(** hash * 33 + byte, in an unsigned long. *)
Definition hash_step (hash b : Z) : Z := to_u64 (to_u64 (Z.shiftl hash 5) + hash + b).

(** The bytes up to the NUL. *)
Fixpoint c_string (m : list Z) : outcome (list Z) :=
  match m with [] => UB | b :: m => if b =? NUL then Ret [] else let* s := c_string m in Ret (b :: s) end.

(** [key] is the memory the key points to. *)
Definition ci_hash_compute (hash_max_value : Z) (key : list Z) (len : Z) : outcome Z :=
  let* bs := if negb (len =? 0) then (if len <? 0 then Ret [] else read_bytes key 0 len) else c_string key in
  let hash := foldl hash_step 5381 bs in
  let hash := if hash =? 0 then 1 else hash in
  Ret (to_uint (Z.land hash hash_max_value)).

(** The memory of a string, and [stringlen] of it as the int that is passed on. *)
Definition str_mem (key : list Z) : list Z := key ++ [NUL].
Definition stringlen (key : list Z) : Z := to_int (zlen key + 1).

Definition hash_of (size : Z) (key : list Z) : outcome Z := ci_hash_compute size (str_mem key) (stringlen key).

(** The size of the table: 63, or the next 2^k - 1; [fuel] for the rounds of the loop. *)
Fixpoint grow_size (fuel : nat) (new_hash_size hash_size : Z) : outcome Z :=
  if (new_hash_size <? hash_size) && (new_hash_size <? 16777215) then
    match fuel with
    | O => NoFuel
    | S fuel => grow_size fuel (to_uint (to_uint (Z.shiftl (to_uint (new_hash_size + 1)) 1) - 1)) hash_size
    end
  else Ret new_hash_size.
Definition new_size (hash_size : Z) : outcome Z := if 63 <? hash_size then grow_size 20 63 hash_size else Ret 63.

Record ci_hash_entry (T : Type) := mkHEntry { he_hash : Z; he_key : list Z; he_val : T }.
Record ci_hash_table (T : Type) := mkHTable { hash_table : list (list (ci_hash_entry T)); hash_table_size : Z }.
Arguments mkHEntry {T}.  Arguments he_hash {T}.  Arguments he_key {T}.  Arguments he_val {T}.
Arguments mkHTable {T}.  Arguments hash_table {T}.  Arguments hash_table_size {T}.

(** The allocations of the structure and of the table. *)
Definition ci_hash_build {T : Type} (a1 a2 : bool) (hash_size : Z) : outcome (option (ci_hash_table T)) :=
  if negb a1 then Ret None
  else
  let* n := new_size hash_size in
  if negb a2 then Ret None else Ret (Some (mkHTable (replicate (Z.to_nat (n + 1)) []) n)).

Definition ci_hash_search {T : Type} (h : ci_hash_table T) (key : list Z) : outcome (option T) :=
  let* hash := hash_of (hash_table_size h) key in
  let* _ := assert_ (hash <=? hash_table_size h) in
  let* chain := arr_get (hash_table h) hash in
  Ret (he_val <$> List.find (λ e, bool_decide (he_key e = key)) chain).

Definition ci_hash_add {T : Type} (a : bool) (h : ci_hash_table T) (key : list Z) (val : T) : outcome (bool * ci_hash_table T) :=
  let* hash := hash_of (hash_table_size h) key in
  let* _ := assert_ (hash <=? hash_table_size h) in
  if negb a then Ret (false, h)
  else
  let* chain := arr_get (hash_table h) hash in
  let* t := arr_set (hash_table h) hash (mkHEntry hash key val :: chain) in
  Ret (true, mkHTable t (hash_table_size h)).

(** ** cache.c *)

Record ci_cache_entry := mkEntry {
  ce_hash : Z;
  ce_time : Z;
  ce_key : option (list Z);
  ce_val : option (list Z);
  ce_val_size : Z;
  qnext : option nat;
  hnext : option nat
}.

Record ci_cache := mkCache {
  entries : list ci_cache_entry;
  first_queue_entry : option nat;
  last_queue_entry : option nat;
  cache_table : list (option nat);
  cache_table_size : Z;
  ttl : Z
}.

Definition with_entries (l : list ci_cache_entry) (c : ci_cache) : ci_cache :=
  mkCache l (first_queue_entry c) (last_queue_entry c) (cache_table c) (cache_table_size c) (ttl c).
Definition with_queue (f l : option nat) (c : ci_cache) : ci_cache :=
  mkCache (entries c) f l (cache_table c) (cache_table_size c) (ttl c).
Definition with_table (t : list (option nat)) (c : ci_cache) : ci_cache :=
  mkCache (entries c) (first_queue_entry c) (last_queue_entry c) t (cache_table_size c) (ttl c).

(** Following a pointer to an entry. *)
Definition entry (p : option nat) (c : ci_cache) : outcome (nat * ci_cache_entry) :=
  match p with
  | None => UB
  | Some k => match entries c !! k with Some e => Ret (k, e) | None => UB end
  end.
Definition put_entry (k : nat) (e : ci_cache_entry) (c : ci_cache) : ci_cache := with_entries (<[k := e]> (entries c)) c.
Definition set_hnext (h : option nat) (e : ci_cache_entry) : ci_cache_entry :=
  mkEntry (ce_hash e) (ce_time e) (ce_key e) (ce_val e) (ce_val_size e) (qnext e) h.
Definition set_qnext (q : option nat) (e : ci_cache_entry) : ci_cache_entry :=
  mkEntry (ce_hash e) (ce_time e) (ce_key e) (ce_val e) (ce_val_size e) q (hnext e).

Definition sizeof_entry : Z := 56.

(** [ci_local_cache_init] with all its allocations made; [None] when there is no room for an entry. *)
Definition ci_local_cache_init (mem_size max_object_size ttl : Z) : outcome (option ci_cache) :=
  let cache_items := to_uint (mem_size / (max_object_size + sizeof_entry)) in
  if cache_items =? 0 then Ret None
  else
  let n := Z.to_nat cache_items in
  let empty i := mkEntry 0 0 None None 0 (if (S i =? n)%nat then None else Some (S i)) None in
  let* size := new_size cache_items in
  Ret (Some (mkCache (empty <$> seq 0 n) (Some 0%nat) (Some (n - 1)%nat) (replicate (Z.to_nat (size + 1)) None) size ttl)).

(** The chain from [p]; [time] is the current time.  The answer tells whether the key is there and not too old, with the
    stored bytes that are copied for the caller. *)
Fixpoint search_chain (fuel : nat) (time : Z) (key : list Z) (p : option nat) (c : ci_cache) : outcome (bool * option (list Z)) :=
  match fuel with
  | O => NoFuel
  | S fuel =>
      match p with
      | None => Ret (false, None)
      | Some _ =>
          let* (k, e) := entry p c in
          match ce_key e with
          | None => UB
          | Some key' =>
              if bool_decide (key' = key) then
                if ttl c <? time - ce_time e then Ret (false, None)
                else if negb (ce_val_size e =? 0) then
                  match ce_val e with None => UB | Some v => let* bs := read_bytes v 0 (ce_val_size e) in Ret (true, Some bs) end
                else Ret (true, None)
              else
              let* _ := assert_ (bool_decide (hnext e ≠ Some k)) in
              search_chain fuel time key (hnext e) c
          end
      end
  end.

Definition ci_local_cache_search (fuel : nat) (time : Z) (key : list Z) (c : ci_cache) : outcome (bool * option (list Z)) :=
  let* hash := hash_of (cache_table_size c) key in
  let* _ := assert_ (hash <=? cache_table_size c) in
  let* p := arr_get (cache_table c) hash in
  search_chain fuel time key p c.

(** [tmp] moves to the entry before [e], or to the end of the chain; then [e] is unlinked. *)
Fixpoint unlink_after (fuel : nat) (e tmp : nat) (c : ci_cache) : outcome ci_cache :=
  match fuel with
  | O => NoFuel
  | S fuel =>
      let* (_, t) := entry (Some tmp) c in
      match hnext t with
      | None => Ret c
      | Some x =>
          if (x =? e)%nat then
            let* (_, n) := entry (Some x) c in
            Ret (put_entry tmp (set_hnext (hnext n) t) c)
          else unlink_after fuel e x c
      end
  end.

Definition unlink (fuel : nat) (k : nat) (e : ci_cache_entry) (c : ci_cache) : outcome ci_cache :=
  let* _ := assert_ (ce_hash e <=? cache_table_size c) in
  let* tmp := arr_get (cache_table c) (ce_hash e) in
  match tmp with
  | None => Ret c
  | Some t =>
      if (t =? k)%nat then
        let* (_, n) := entry (Some t) c in
        let* tb := arr_set (cache_table c) (ce_hash e) (hnext n) in
        Ret (with_table tb c)
      else unlink_after fuel k t c
  end.

(** Whether the memory for the key and for the value could be had, and the copy to the cache worked. *)
Record cache_answers := mkCA { ca_key : bool; ca_val : bool; ca_copy : bool }.

(** The entry filled again; [false] when the memory for it is missing. *)
Definition fill_entry (a : cache_answers) (hash time : Z) (key : list Z) (val : option (list Z)) (e : ci_cache_entry) : bool * ci_cache_entry :=
  let v0 := if bool_decide (is_Some (ce_val e)) && (0 <? ce_val_size e) then None else ce_val e in
  let e := mkEntry 0 0 None v0 (ce_val_size e) (qnext e) None in
  if negb (ca_key a) then (false, e)
  else
  match val with
  | Some (x :: v) =>
      if ca_val a && ca_copy a then (true, mkEntry hash time (Some key) (Some (x :: v)) (to_int (zlen (x :: v))) (qnext e) None)
      else (false, mkEntry 0 0 None None (to_int (zlen (x :: v))) (qnext e) None)
  | _ => (true, mkEntry hash time (Some key) None 0 (qnext e) None)
  end.

(** The filled entry [k], the first of the queue, becomes the last one, and the first of its chain. *)
Definition link_newest (k : nat) (hash : Z) (c : ci_cache) : outcome ci_cache :=
  let* (_, e) := entry (first_queue_entry c) c in
  let c := with_queue (qnext e) (last_queue_entry c) c in
  let* (kl, el) := entry (last_queue_entry c) c in
  let c := put_entry kl (set_qnext (Some k) el) c in
  let* (_, e) := entry (Some k) c in
  let c := put_entry k (set_qnext None e) (with_queue (first_queue_entry c) (Some k) c) in
  let* h := arr_get (cache_table c) hash in
  let* (_, e) := entry (Some k) c in
  let* tb := arr_set (cache_table c) hash (Some k) in
  Ret (with_table tb (put_entry k (set_hnext h e) c)).

Definition ci_local_cache_update (fuel : nat) (a : cache_answers) (time : Z) (key : list Z) (val : option (list Z)) (c : ci_cache) : outcome (bool * ci_cache) :=
  let* hash := hash_of (cache_table_size c) key in
  let* _ := assert_ (hash <=? cache_table_size c) in
  let* (k, e) := entry (first_queue_entry c) c in
  if time - ce_time e <? ttl c then Ret (false, c)
  else
  let* c := unlink fuel k e c in
  let* (_, e) := entry (Some k) c in
  let (ok, e) := fill_entry a hash time key val e in
  let c := put_entry k e c in
  if negb ok then Ret (false, c)
  else
  let* c := link_newest k hash c in
  Ret (true, c).
