(* ===== verification/CacheSafe.v ===== *)
(** What the hash table and the local cache promise.  A hash table finds the value added last under a key.  A cache is a
    log of its last entries: a search gives the value stored last under the key unless it is too old, and an entry is only
    given up when it is. *)
From stdpp Require Import base tactics numbers list sets strings.
From S2P Require Import Prelude Cache.
From Stdlib Require Import ZArith Lia.
Open Scope Z_scope.

(** ** The hash *)

Definition key_ok (key : list Z) : Prop := zlen key < INT_MAX.

Lemma land_bound a m : 0 ≤ m → 0 ≤ Z.land a m ≤ m.
Proof.
  intros Hm. apply Z.ldiff_le; [done|].
  apply Z.bits_inj'. intros n Hn. rewrite Z.ldiff_spec, Z.land_spec, Z.bits_0. by destruct (Z.testbit a n), (Z.testbit m n).
Qed.

Lemma hash_of_spec size key : 0 ≤ size < 2 ^ 32 → key_ok key → ∃ h, hash_of size key = Ret h ∧ 0 ≤ h ≤ size.
Proof.
  unfold key_ok. intros Hs Hk. unfold hash_of, ci_hash_compute, stringlen. pose proof (zlen_nonneg key).
  rewrite to_int_id by (unfold INT_MIN; lia). rewrite (proj2 (Z.eqb_neq _ 0)), (proj2 (Z.ltb_ge _ 0)) by lia. cbn [negb].
  assert (zlen (str_mem key) = zlen key + 1) by (unfold str_mem; by rewrite zlen_app). rewrite read_bytes_ok by lia. cbn [obind]. eexists. split; [done|].
  set (x := if _ =? 0 then _ else _). pose proof (land_bound x size ltac:(lia)). rewrite to_uint_id by lia. lia.
Qed.

(** The sizes of the table: one less than a power of two, at most 2^24 - 1. *)
Lemma grow_size_spec m fuel : ∀ k : Z, 6 ≤ k ≤ 24 → 24 - k ≤ Z.of_nat fuel → ∃ size, grow_size fuel (2 ^ k - 1) m = Ret size ∧ 63 ≤ size < 2 ^ 24.
Proof.
  induction fuel as [|fuel IH]; intros k Hk Hf.
  all: pose proof (Z.pow_le_mono_r 2 6 k ltac:(lia) ltac:(lia)); pose proof (Z.pow_le_mono_r 2 k 24 ltac:(lia) ltac:(lia)); cbn [grow_size].
  - rewrite (proj2 (Z.ltb_ge (2 ^ k - 1) 16777215)) by (assert (k = 24) as -> by lia; lia). rewrite andb_false_r. eexists. split; [done|lia].
  - destruct (2 ^ k - 1 <? m); cbn [andb]; [|eexists; split; [done|lia]].
    destruct (Z.ltb_spec (2 ^ k - 1) 16777215) as [Hlt|]; [|eexists; split; [done|lia]].
    assert (k ≠ 24) by (intros ->; lia). pose proof (Z.pow_succ_r 2 k ltac:(lia)). pose proof (Z.pow_le_mono_r 2 (Z.succ k) 24 ltac:(lia) ltac:(lia)).
    replace (2 ^ k - 1 + 1) with (2 ^ k) by lia. rewrite (to_uint_id (2 ^ k)), Z.shiftl_mul_pow2 by lia. change (2 ^ 1) with 2.
    rewrite (to_uint_id (2 ^ k * 2)), to_uint_id by lia. replace (2 ^ k * 2) with (2 ^ Z.succ k) by lia. apply IH; lia.
Qed.

Lemma new_size_spec n : ∃ size, new_size n = Ret size ∧ 63 ≤ size < 2 ^ 24.
Proof.
  unfold new_size. destruct (63 <? n); [|exists 63; split; [done|lia]]. change 63 with (2 ^ 6 - 1) at 1. apply grow_size_spec; lia.
Qed.

(** ** Hash tables *)

(** The entries of a table lie in the chains of their hashes. *)
Definition chain_of {T : Type} (size h : Z) (log : list (list Z * T)) : list (ci_hash_entry T) :=
  omap (λ '(key, v), if bool_decide (hash_of size key = Ret h) then Some (mkHEntry h key v) else None) log.

Definition table_ok {T : Type} (t : ci_hash_table T) (log : list (list Z * T)) : Prop :=
  63 ≤ hash_table_size t < 2 ^ 24 ∧ zlen (hash_table t) = hash_table_size t + 1 ∧
  ∀ h, 0 ≤ h ≤ hash_table_size t → hash_table t !! Z.to_nat h = Some (chain_of (hash_table_size t) h log).

Lemma find_chain {T : Type} size h key (log : list (list Z * T)) :
  hash_of size key = Ret h →
  he_val <$> List.find (λ e, bool_decide (he_key e = key)) (chain_of size h log) = snd <$> List.find (λ kv, bool_decide (fst kv = key)) log.
Proof.
  intros Hh. induction log as [|[k v] log IH]; [done|]. cbn [chain_of omap list_omap List.find fst]. fold (chain_of size h log).
  destruct (decide (k = key)) as [->|Hne].
  - rewrite !bool_decide_eq_true_2 by done. cbn. by rewrite bool_decide_eq_true_2.
  - rewrite (bool_decide_eq_false_2 (k = key)) by done. case_bool_decide; [|exact IH]. cbn. rewrite bool_decide_eq_false_2 by done. exact IH.
Qed.

Lemma table_search {T : Type} (t : ci_hash_table T) log key :
  table_ok t log → key_ok key → ci_hash_search t key = Ret (snd <$> List.find (λ kv, bool_decide (fst kv = key)) log).
Proof.
  intros (Hs & Hl & Hc) Hk. unfold ci_hash_search. destruct (hash_of_spec (hash_table_size t) key ltac:(lia) Hk) as (h & Hh & Hb). rewrite Hh.
  cbn [obind]. rewrite (proj2 (Z.leb_le _ _)) by lia. cbn [assert_ obind]. rewrite (arr_get_lookup _ h _ ltac:(lia) (Hc h Hb)). cbn [obind].
  by rewrite find_chain.
Qed.

Lemma table_add {T : Type} (t : ci_hash_table T) log key (v : T) a :
  table_ok t log → key_ok key → ∃ t', ci_hash_add a t key v = Ret (a, t') ∧ table_ok t' (if a then (key, v) :: log else log).
Proof.
  intros (Hs & Hl & Hc) Hk. unfold ci_hash_add. destruct (hash_of_spec (hash_table_size t) key ltac:(lia) Hk) as (h & Hh & Hb). rewrite Hh.
  cbn [obind]. rewrite (proj2 (Z.leb_le _ _)) by lia. cbn [assert_ obind]. destruct a; cbn [negb]; [|by exists t].
  rewrite (arr_get_lookup _ h _ ltac:(lia) (Hc h Hb)). cbn [obind]. rewrite arr_set_ok by lia. cbn [obind]. eexists. split; [done|].
  split; [done|]. cbn. split; [by rewrite zlen_insert|]. intros h' Hh'. rewrite Hh. destruct (decide (h' = h)) as [->|Hne].
  - rewrite list_lookup_insert_eq by (unfold zlen in Hl; lia). by rewrite bool_decide_eq_true_2.
  - rewrite list_lookup_insert_ne by lia. rewrite bool_decide_eq_false_2 by congruence. by apply Hc.
Qed.

(** ** Chains of entries *)

Implicit Types (es : list ci_cache_entry) (f : ci_cache_entry → option nat).

(** The entries [ids] are linked by [f], from [p] to the end. *)
Fixpoint lseg f es (p : option nat) (ids : list nat) : Prop :=
  match ids with
  | [] => p = None
  | k :: ids => p = Some k ∧ ∃ e, es !! k = Some e ∧ lseg f es (f e) ids
  end.

Lemma lseg_frame f es es' p ids :
  lseg f es p ids → (∀ k e, k ∈ ids → es !! k = Some e → ∃ e', es' !! k = Some e' ∧ f e' = f e) → lseg f es' p ids.
Proof.
  revert p. induction ids as [|k ids IH]; intros p Hs Hf; cbn in *; [done|]. destruct Hs as (-> & e & He & Hs). split; [done|].
  destruct (Hf k e) as (e' & He' & Hfe); [set_solver|done|]. exists e'. split; [done|]. rewrite Hfe. apply IH; [done|]. intros j x Hj. apply Hf. set_solver.
Qed.

Lemma lseg_insert f es p ids k e : lseg f es p ids → k ∉ ids → lseg f (<[k := e]> es) p ids.
Proof. intros Hs Hk. apply (lseg_frame f es); [done|]. intros j x Hj Hx. exists x. by rewrite list_lookup_insert_ne by (intros ->; done). Qed.

Lemma lseg_in f es p ids k : lseg f es p ids → k ∈ ids → is_Some (es !! k).
Proof.
  revert p. induction ids as [|j ids IH]; intros p Hs Hk; [set_solver|]. cbn in Hs. destruct Hs as (-> & e & He & Hs).
  apply elem_of_cons in Hk as [->|Hk]; [by exists e|by apply (IH (f e))].
Qed.

(** The last entry of a chain gets a next one. *)
Lemma lseg_snoc f es es' p ids kl k e' :
  lseg f es p (ids ++ [kl]) → NoDup (ids ++ [kl]) → k ∉ ids ++ [kl] →
  (∀ j x, j ∈ ids → es !! j = Some x → ∃ x', es' !! j = Some x' ∧ f x' = f x) →
  (∃ x', es' !! kl = Some x' ∧ f x' = Some k) → es' !! k = Some e' → f e' = None → lseg f es' p (ids ++ [kl; k]).
Proof.
  revert p. induction ids as [|j ids IH]; intros p Hs Hn Hk Hfr (x' & Hx & Hfx) Hk' Hfe; cbn [app lseg] in *.
  - destruct Hs as (-> & x & _ & _). split; [done|]. exists x'. split; [done|]. split; [done|]. by exists e'.
  - destruct Hs as (-> & e & He & Hs). split; [done|]. destruct (Hfr j e) as (y & Hy & Hfy); [set_solver|done|]. exists y. split; [done|]. rewrite Hfy.
    apply NoDup_cons in Hn as [_ Hn]. apply IH; try done; [set_solver| |by exists x']. intros i z Hi. apply Hfr. set_solver.
Qed.

(** ** The log behind a cache *)

(** An entry of the log: its place, and hash, key, value and time when it is used. *)
Abbreviation slot := (nat * option (Z * list Z * option (list Z) * Z))%type.

Definition in_chain (h : Z) (s : slot) : option nat :=
  match snd s with Some (h', _, _, _) => if h' =? h then Some (fst s) else None | None => None end.
(** The places in the chain of a hash, the newest first; the log has the oldest first. *)
Definition chain (h : Z) (q : list slot) : list nat := omap (in_chain h) (reverse q).

Lemma chain_cons h s q : chain h (s :: q) = chain h q ++ option_list (in_chain h s).
Proof. unfold chain. rewrite reverse_cons, omap_app. cbn. by destruct (in_chain h s). Qed.

Lemma chain_snoc h s q : chain h (q ++ [s]) = option_list (in_chain h s) ++ chain h q.
Proof. unfold chain. rewrite reverse_snoc. cbn. by destruct (in_chain h s). Qed.

Lemma chain_in h q k : k ∈ chain h q → k ∈ q.*1.
Proof.
  unfold chain. rewrite list_elem_of_omap. intros (s & Hs & Hin). rewrite elem_of_reverse in Hs. apply list_elem_of_fmap. exists s.
  unfold in_chain in Hin. destruct (snd s) as [[[[h' ?] ?] ?]|]; [|done]. destruct (h' =? h); [|done]. by injection Hin as <-.
Qed.

Definition slot_ok (size : Z) (e : ci_cache_entry) (s : option (Z * list Z * option (list Z) * Z)) : Prop :=
  match s with
  | None => ce_hash e = 0 ∧ ce_time e = 0 ∧ ce_key e = None ∧ ce_val e = None
  | Some (h, key, v, t) => ce_hash e = h ∧ hash_of size key = Ret h ∧ 0 ≤ h ≤ size ∧ ce_time e = t ∧ ce_key e = Some key ∧ ce_val e = v ∧
      match v with None => ce_val_size e = 0 | Some bs => ce_val_size e = zlen bs ∧ 0 < zlen bs end
  end.

Record cinv (c : ci_cache) (q : list slot) : Prop := {
  cv_size : 63 ≤ cache_table_size c < 2 ^ 24;
  cv_table : zlen (cache_table c) = cache_table_size c + 1;
  cv_queue : lseg qnext (entries c) (first_queue_entry c) q.*1;
  cv_last : last_queue_entry c = last q.*1;
  cv_nodup : NoDup q.*1;
  cv_slots : ∀ k s, (k, s) ∈ q → ∃ e, entries c !! k = Some e ∧ slot_ok (cache_table_size c) e s;
  cv_chains : ∀ h, 0 ≤ h ≤ cache_table_size c → ∃ p, cache_table c !! Z.to_nat h = Some p ∧ lseg hnext (entries c) p (chain h q)
}.

(** ** Search *)

(** The entry stored last under a key; the newest come first. *)
Fixpoint newest (key : list Z) (r : list slot) : option (option (list Z) * Z) :=
  match r with
  | [] => None
  | (_, Some (_, key', v, t)) :: r => if bool_decide (key' = key) then Some (v, t) else newest key r
  | (_, None) :: r => newest key r
  end.

Definition found (ttl time : Z) (o : option (option (list Z) * Z)) : bool * option (list Z) :=
  match o with None => (false, None) | Some (v, t) => if ttl <? time - t then (false, None) else (true, v) end.

Lemma search_chain_spec c time key h r : ∀ fuel p,
  hash_of (cache_table_size c) key = Ret h → NoDup r.*1 →
  (∀ k s, (k, s) ∈ r → ∃ e, entries c !! k = Some e ∧ slot_ok (cache_table_size c) e s) →
  lseg hnext (entries c) p (omap (in_chain h) r) → (length r < fuel)%nat →
  search_chain fuel time key p c = Ret (found (ttl c) time (newest key r)).
Proof.
  induction r as [|[k [[[[h' key'] v] t]|]] r IH]; intros fuel p Hh Hn Hok Hs Hf; cbn [omap list_omap in_chain fst snd newest fmap list_fmap length] in *.
  - destruct fuel; [lia|]. cbn in Hs. by rewrite Hs.
  - apply NoDup_cons in Hn as [Hk Hn]. assert (Hok' : ∀ k s, (k, s) ∈ r → ∃ e, entries c !! k = Some e ∧ slot_ok (cache_table_size c) e s) by (intros; apply Hok; set_solver).
    destruct (Hok k (Some (h', key', v, t))) as (e & He & (E1 & E2 & E3 & E4 & E5 & E6 & E7)); [set_solver|].
    destruct (Z.eqb_spec h' h) as [->|Hne].
    + destruct fuel as [|fuel]; [lia|]. destruct Hs as (-> & e' & He' & Hs). assert (e' = e) as -> by congruence. cbn [search_chain]. unfold entry. rewrite He. cbn [obind]. rewrite E4, E5, E6.
      destruct (bool_decide_reflect (key' = key)) as [->|Hne].
      * cbn [found]. destruct (ttl c <? time - t); [done|]. destruct v as [bs|]; [|by rewrite E7].
        destruct E7 as [E7 E8]. rewrite E7, (proj2 (Z.eqb_neq _ 0)) by lia. cbn [negb]. rewrite read_bytes_ok by lia. cbn [obind]. by rewrite slice_all.
      * rewrite bool_decide_eq_true_2; [cbn [assert_ obind]; apply (IH fuel); try done; lia|].
        intros Heq. apply Hk. rewrite Heq in Hs. destruct (omap (in_chain h) r) as [|k0 ids] eqn:E; cbn in Hs; [done|]. destruct Hs as ([= <-] & _).
        assert (k ∈ chain h (reverse r)) as Hin%chain_in by (unfold chain; rewrite reverse_involutive, E; set_solver).
        by rewrite fmap_reverse, elem_of_reverse in Hin.
    + rewrite bool_decide_eq_false_2 by congruence. apply IH; try done; lia.
  - apply NoDup_cons in Hn as [Hk Hn]. apply IH; try done; [|lia]. intros; apply Hok; set_solver.
Qed.

(** ** Taking the oldest entry out of its chain *)

Lemma unlink_after_none c e ids : ∀ fuel tmp,
  lseg hnext (entries c) (Some tmp) (tmp :: ids) → e ∉ ids → (length ids < fuel)%nat → unlink_after fuel e tmp c = Ret c.
Proof.
  induction ids as [|k ids IH]; intros [|fuel] tmp Hs He Hf; try (cbn in Hf; lia); destruct Hs as (_ & x & Hx & Hs); cbn [unlink_after]; unfold entry at 1; rewrite Hx; cbn [obind].
  - cbn in Hs. by rewrite Hs.
  - cbn [lseg] in Hs. destruct Hs as (Hn & y & Hy & Hs). rewrite Hn. rewrite (proj2 (Nat.eqb_neq k e)) by set_solver.
    apply IH; [|set_solver|cbn in Hf; lia]. split; [done|]. by exists y.
Qed.

Lemma unlink_after_last c e ids : ∀ fuel tmp,
  lseg hnext (entries c) (Some tmp) (tmp :: ids ++ [e]) → NoDup (tmp :: ids ++ [e]) → (length ids < fuel)%nat →
  ∃ j x, entries c !! j = Some x ∧ unlink_after fuel e tmp c = Ret (put_entry j (set_hnext None x) c) ∧ j ∈ tmp :: ids ∧
    lseg hnext (<[j := set_hnext None x]> (entries c)) (Some tmp) (tmp :: ids).
Proof.
  induction ids as [|k ids IH]; intros [|fuel] tmp Hs Hn Hf; try (cbn in Hf; lia); destruct Hs as (_ & x & Hx & Hs); cbn [unlink_after]; unfold entry at 1; rewrite Hx; cbn [obind].
  - cbn in Hs. destruct Hs as (Hnx & y & Hy & Hyn). rewrite Hnx, Nat.eqb_refl. unfold entry. rewrite Hy. cbn [obind]. rewrite Hyn.
    exists tmp, x. split; [done|]. split; [done|]. split; [set_solver|]. split; [done|]. eexists. rewrite list_lookup_insert_eq by (by apply lookup_lt_Some in Hx). by split.
  - cbn [app lseg] in Hs. destruct Hs as (Hnx & y & Hy & Hs). rewrite Hnx. apply NoDup_cons in Hn as [Ht Hn]. cbn [app] in Hn, Ht.
    rewrite (proj2 (Nat.eqb_neq k e)) by (intros ->; apply NoDup_cons in Hn as [Hn _]; set_solver).
    destruct (IH fuel k) as (j & z & Hz & -> & Hj & Hs'); [split; [done|]; by exists y|done|cbn in Hf; lia|].
    exists j, z. split; [done|]. split; [done|]. split; [set_solver|]. split; [done|]. exists x. rewrite list_lookup_insert_ne by (intros ->; set_solver). split; [done|].
    rewrite Hnx. exact Hs'.
Qed.

Lemma chain_slot h q k : k ∈ chain h q → ∃ key v t, (k, Some (h, key, v, t)) ∈ q.
Proof.
  unfold chain. rewrite list_elem_of_omap. intros ([j s] & Hs & Hin). rewrite elem_of_reverse in Hs.
  unfold in_chain in Hin. cbn in Hin. destruct s as [[[[h' key] v] t]|]; [|done]. destruct (Z.eqb_spec h' h); [|done]. simplify_eq. by exists key, v, t.
Qed.

Lemma chain_length h q : (length (chain h q) ≤ length q)%nat.
Proof. induction q as [|s q IH]; [done|]. rewrite chain_cons, length_app. cbn. destruct (in_chain h s); cbn; lia. Qed.

Lemma slot_unique (q : list slot) k s s' : NoDup q.*1 → (k, s) ∈ q → (k, s') ∈ q → s = s'.
Proof.
  intros Hn H1 H2. apply list_elem_of_lookup in H1 as [i Hi]. apply list_elem_of_lookup in H2 as [j Hj].
  assert (i = j) as ->; [|congruence]. eapply (NoDup_lookup q.*1); [done|by rewrite list_lookup_fmap, Hi|by rewrite list_lookup_fmap, Hj].
Qed.

Lemma chain_nodup h q : NoDup q.*1 → NoDup (chain h q).
Proof.
  induction q as [|s q IH]; intros Hn; [constructor|]. cbn in Hn. apply NoDup_cons in Hn as [Hs Hn]. rewrite chain_cons. apply NoDup_app. split; [by apply IH|].
  unfold in_chain. destruct s as [k [[[[h' ?] ?] ?]|]]; cbn; [destruct (h' =? h)|]; cbn; (split; [|repeat constructor; set_solver]); try set_solver.
  intros j Hj%chain_in. set_solver.
Qed.

(** Lookups of a cache whose entries differ in [hnext] only. *)
Definition kept_entries es es' : Prop := ∀ j x, es !! j = Some x → ∃ x', es' !! j = Some x' ∧ set_hnext None x' = set_hnext None x.

Definition same_cache (c c' : ci_cache) : Prop :=
  first_queue_entry c' = first_queue_entry c ∧ last_queue_entry c' = last_queue_entry c ∧ cache_table_size c' = cache_table_size c ∧ ttl c' = ttl c ∧
  zlen (cache_table c') = zlen (cache_table c) ∧ length (entries c') = length (entries c) ∧ kept_entries (entries c) (entries c').

Lemma same_cache_refl c : same_cache c c.
Proof. unfold same_cache, kept_entries. split_and!; try done. intros j x Hx. by exists x. Qed.

Lemma cinv_length c q : cinv c q → (length q ≤ length (entries c))%nat.
Proof.
  intros Hc. rewrite <- (length_fmap fst q). apply NoDup_bound; [apply Hc|]. intros k Hk. destruct (lseg_in _ _ _ _ _ (cv_queue _ _ Hc) Hk). by eapply lookup_lt_Some.
Qed.

(** Where the entry is used, it is the last of its chain. *)
Lemma unlink_used c k h key v t q e :
  cinv c ((k, Some (h, key, v, t)) :: q) → entries c !! k = Some e →
  ∃ c', unlink (S (length (entries c))) k e c = Ret c' ∧ same_cache c c' ∧
    ∀ h, 0 ≤ h ≤ cache_table_size c → ∃ p, cache_table c' !! Z.to_nat h = Some p ∧ lseg hnext (entries c') p (chain h q).
Proof.
  intros Hc He. pose proof (cinv_length _ _ Hc) as Hlen. cbn [length] in Hlen. pose proof (cv_nodup _ _ Hc) as Hn. cbn in Hn. apply NoDup_cons in Hn as [Hk Hn].
  destruct (cv_slots _ _ Hc k (Some (h, key, v, t))) as (e' & He' & (E1 & _ & Hh & _)); [set_solver|]. assert (e' = e) as -> by congruence.
  pose proof (cv_table _ _ Hc) as Htab. pose proof (cv_size _ _ Hc) as Hsize.
  destruct (cv_chains _ _ Hc h Hh) as (p & Hp & Hs). unfold unlink. rewrite E1, (proj2 (Z.leb_le _ _)) by lia. cbn [assert_ obind].
  rewrite (arr_get_lookup _ h _ ltac:(lia) Hp). cbn [obind]. rewrite chain_cons in Hs. unfold in_chain at 1 in Hs. cbn [snd fst] in Hs. rewrite Z.eqb_refl in Hs. cbn [option_list] in Hs.
  assert (Hother : ∀ h', h' ≠ h → chain h' ((k, Some (h, key, v, t)) :: q) = chain h' q).
  { intros h' Hne. rewrite chain_cons. unfold in_chain at 1. cbn. rewrite (proj2 (Z.eqb_neq h h')) by done. cbn. by rewrite app_nil_r. }
  destruct (chain h q) as [|t0 ids] eqn:Ech.
  - cbn in Hs. destruct Hs as (-> & x & Hx & Hnx). assert (x = e) as -> by congruence. rewrite Nat.eqb_refl. unfold entry. rewrite He. cbn [obind].
    rewrite arr_set_ok by lia. cbn [obind]. rewrite Hnx. eexists. split; [done|]. split; [unfold same_cache, kept_entries; split_and!; cbn; try done; [by rewrite zlen_insert|intros j x Hj; by exists x]|].
    intros h' Hh'. cbn. destruct (decide (h' = h)) as [->|Hne].
    + exists None. rewrite list_lookup_insert_eq by (unfold zlen in Htab; lia). by rewrite Ech.
    + destruct (cv_chains _ _ Hc h' Hh') as (p' & Hp' & Hs'). rewrite Hother in Hs' by done. exists p'. by rewrite list_lookup_insert_ne by lia.
  - pose proof Hs as [-> _]. assert (Ht0 : t0 ≠ k) by (intros ->; apply Hk, (chain_in h); rewrite Ech; set_solver). rewrite (proj2 (Nat.eqb_neq _ _) Ht0).
    pose proof (chain_length h q) as Hcl. rewrite Ech in Hcl. cbn [length] in Hcl.
    assert (Hnd : NoDup (t0 :: ids ++ [k])).
    { pose proof (chain_nodup h q Hn) as Hcn. rewrite Ech in Hcn. rewrite app_comm_cons. apply NoDup_app. split; [done|].
      split; [|repeat constructor; set_solver]. intros j Hj Hjk. apply list_elem_of_singleton in Hjk as ->. apply Hk, (chain_in h). by rewrite Ech. }
    destruct (unlink_after_last c k ids (S (length (entries c))) t0 Hs Hnd) as (j & x & Hx & -> & Hj & Hs'); [lia|].
    eexists. split; [done|]. split.
    + unfold same_cache, kept_entries. split_and!; cbn; try done; [by rewrite length_insert|]. intros i y Hi. destruct (decide (i = j)) as [->|Hne].
      * exists (set_hnext None x). rewrite list_lookup_insert_eq by (by apply lookup_lt_Some in Hx). split; [done|]. by assert (y = x) as -> by congruence.
      * exists y. by rewrite list_lookup_insert_ne.
    + intros h' Hh'. cbn. destruct (decide (h' = h)) as [->|Hne]; [exists (Some t0); by rewrite Ech|].
      destruct (cv_chains _ _ Hc h' Hh') as (p' & Hp' & Hs2). rewrite Hother in Hs2 by done. exists p'. split; [done|]. apply lseg_insert; [done|]. intros Hj'.
      rewrite <- Ech in Hj. apply chain_slot in Hj as (? & ? & ? & Hj1). apply chain_slot in Hj' as (? & ? & ? & Hj2).
      pose proof (slot_unique _ _ _ _ Hn Hj1 Hj2) as Heq. by simplify_eq.
Qed.

(** An entry that is not used is in no chain. *)
Lemma unlink_unused c k q e :
  cinv c ((k, None) :: q) → entries c !! k = Some e →
  unlink (S (length (entries c))) k e c = Ret c ∧
    ∀ h, 0 ≤ h ≤ cache_table_size c → ∃ p, cache_table c !! Z.to_nat h = Some p ∧ lseg hnext (entries c) p (chain h q).
Proof.
  intros Hc He. pose proof (cinv_length _ _ Hc) as Hlen. cbn [length] in Hlen. pose proof (cv_nodup _ _ Hc) as Hn. cbn in Hn. apply NoDup_cons in Hn as [Hk Hn].
  destruct (cv_slots _ _ Hc k None) as (e' & He' & (E1 & _)); [set_solver|]. assert (e' = e) as -> by congruence.
  assert (Hsame : ∀ h, chain h ((k, None) :: q) = chain h q) by (intros h; rewrite chain_cons; cbn; by rewrite app_nil_r).
  split; [|intros h Hh; rewrite <- Hsame; by apply (cv_chains _ _ Hc)].
  pose proof (cv_size _ _ Hc). destruct (cv_chains _ _ Hc 0 ltac:(lia)) as (p & Hp & Hs). rewrite Hsame in Hs.
  unfold unlink. rewrite E1, (proj2 (Z.leb_le _ _)) by lia. cbn [assert_ obind]. rewrite (arr_get_lookup _ 0 _ ltac:(lia) Hp). cbn [obind].
  destruct p as [t0|]; [|done]. pose proof (chain_length 0 q) as Hcl. destruct (chain 0 q) as [|t1 ids] eqn:Ech; [done|]. pose proof Hs as [[= <-] _]. cbn in Hcl.
  assert (Hni : k ∉ t0 :: ids) by (rewrite <- Ech; intros Hin%chain_in; done).
  rewrite (proj2 (Nat.eqb_neq t0 k)) by set_solver. apply (unlink_after_none c k ids); [done|set_solver|lia].
Qed.

(** ** Update *)

Definition stored_ok (a : cache_answers) (val : option (list Z)) : bool :=
  ca_key a && match val with Some (_ :: _) => ca_val a && ca_copy a | _ => true end.
(** A value without bytes is none. *)
Definition norm (val : option (list Z)) : option (list Z) := match val with Some [] => None | _ => val end.

Lemma fill_entry_spec size a h time key val e s :
  slot_ok size e s → hash_of size key = Ret h → 0 ≤ h ≤ size → match val with Some v => zlen v ≤ INT_MAX | None => True end →
  let '(ok, e') := fill_entry a h time key val (set_hnext None e) in
  ok = stored_ok a val ∧ hnext e' = None ∧ qnext e' = qnext e ∧
  slot_ok size e' (if stored_ok a val then Some (h, key, norm val, time) else None).
Proof.
  intros Hs Hh Hb Hv. unfold fill_entry, stored_ok. cbn [set_hnext ce_val ce_val_size qnext].
  set (v0 := if bool_decide _ && _ then None else ce_val e).
  assert (Hv0 : v0 = None).
  { unfold v0. destruct s as [[[[h0 k0] w] t0]|]; cbn in Hs.
    - destruct Hs as (_ & _ & _ & _ & _ & Ew & Es). rewrite Ew. destruct w as [bs|]; [|done]. destruct Es as [-> Hp]. rewrite (proj2 (Z.ltb_lt 0 _)) by done. done.
    - destruct Hs as (_ & _ & _ & Ew). by rewrite Ew. }
  clearbody v0. subst v0. destruct (ca_key a); cbn [negb andb]; [|by split_and!].
  destruct val as [[|x v]|]; [by split_and!| |by split_and!].
  destruct (ca_val a && ca_copy a); [|by split_and!]. pose proof (zlen_nonneg v). assert (zlen (x :: v) = 1 + zlen v) by apply zlen_cons.
  rewrite to_int_id by (unfold INT_MIN; lia). split_and!; try done; cbn [norm ce_val_size]; lia.
Qed.

Lemma kept_entries_fields x x' : set_hnext None x' = set_hnext None x →
  qnext x' = qnext x ∧ ∀ size s, slot_ok size x s → slot_ok size x' s.
Proof. destruct x, x'. unfold set_hnext. cbn. intros [= -> -> -> -> -> ->]. by split. Qed.

(** The memory for the entry is missing: it stays the oldest, and is not used. *)
Lemma update_failed c c1 k s q e' :
  cinv c ((k, s) :: q) → same_cache c c1 → hnext e' = None → slot_ok (cache_table_size c) e' None →
  (∃ x, entries c !! k = Some x ∧ qnext e' = qnext x) →
  (∀ h, 0 ≤ h ≤ cache_table_size c → ∃ p, cache_table c1 !! Z.to_nat h = Some p ∧ lseg hnext (entries c1) p (chain h q)) →
  cinv (put_entry k e' c1) ((k, None) :: q).
Proof.
  intros Hc (E1 & E2 & E3 & E4 & E5 & E6 & Hkept) Hh Hok (x & Hx & Hq) Hch. pose proof (cv_nodup _ _ Hc) as Hn. pose proof Hn as Hn'. cbn in Hn'. apply NoDup_cons in Hn' as [Hk _].
  assert (Hkl : (k < length (entries c1))%nat) by (rewrite E6; by apply lookup_lt_Some in Hx).
  split; cbn [put_entry with_entries entries cache_table cache_table_size first_queue_entry last_queue_entry].
  - rewrite E3. apply Hc.
  - rewrite E5, E3. apply Hc.
  - rewrite E1. apply (lseg_frame qnext (entries c)); [apply (cv_queue _ _ Hc)|]. intros j y Hj Hy. destruct (decide (j = k)) as [->|Hne].
    + exists e'. rewrite list_lookup_insert_eq by done. split; [done|]. congruence.
    + destruct (Hkept j y Hy) as (y' & Hy' & Hf). exists y'. rewrite list_lookup_insert_ne by done. split; [done|]. by apply kept_entries_fields in Hf as [-> _].
  - rewrite E2. apply (cv_last _ _ Hc).
  - done.
  - intros j s' Hin. rewrite E3. apply elem_of_cons in Hin as [[= -> ->]|Hin]; [exists e'; by rewrite list_lookup_insert_eq|].
    assert (j ≠ k) by (intros ->; apply Hk; apply list_elem_of_fmap; by exists (k, s')).
    destruct (cv_slots _ _ Hc j s') as (y & Hy & Hs); [set_solver|]. destruct (Hkept j y Hy) as (y' & Hy' & Hf). exists y'. rewrite list_lookup_insert_ne by done.
    split; [done|]. apply kept_entries_fields in Hf as [_ Hf]. by apply Hf.
  - intros h Hh'. rewrite E3 in Hh'. destruct (Hch h Hh') as (p & Hp & Hs). exists p. split; [done|]. rewrite chain_cons. cbn. rewrite app_nil_r.
    apply lseg_insert; [done|]. intros Hin%chain_in. done.
Qed.

(** The entry is filled again and becomes the newest, and the first of its chain. *)
Lemma update_stored c c1 k s q kl el h key v time e' p' :
  cinv c ((k, s) :: q) → same_cache c c1 → q ≠ [] → hnext e' = None → slot_ok (cache_table_size c) e' (Some (h, key, v, time)) → 0 ≤ h ≤ cache_table_size c →
  (∃ x, entries c !! k = Some x ∧ qnext e' = qnext x) →
  (∀ h, 0 ≤ h ≤ cache_table_size c → ∃ p, cache_table c1 !! Z.to_nat h = Some p ∧ lseg hnext (entries c1) p (chain h q)) →
  last q.*1 = Some kl → entries c1 !! kl = Some el → cache_table c1 !! Z.to_nat h = Some p' →
  let es := <[k := set_hnext p' (set_qnext None e')]> (<[kl := set_qnext (Some k) el]> (<[k := e']> (entries c1))) in
  cinv (mkCache es (qnext e') (Some k) (<[Z.to_nat h := Some k]> (cache_table c1)) (cache_table_size c1) (ttl c1)) (q ++ [(k, Some (h, key, v, time))]).
Proof.
  intros Hc (E1 & E2 & E3 & E4 & E5 & E6 & Hkept) Hne Hh Hok Hb (x & Hx & Hq) Hch Hlast Hel Hp' es. pose proof (cv_nodup _ _ Hc) as Hn. cbn in Hn. apply NoDup_cons in Hn as [Hk Hn].
  pose proof (cv_table _ _ Hc) as Htab. pose proof (cv_size _ _ Hc) as Hsz.
  assert (Hkl : (k < length (entries c1))%nat) by (rewrite E6; by apply lookup_lt_Some in Hx).
  apply last_Some in Hlast as (ids & Hids). assert (Hklk : kl ≠ k) by (intros ->; apply Hk; rewrite Hids; set_solver).
  assert (Hesk : es !! k = Some (set_hnext p' (set_qnext None e'))) by (unfold es; rewrite list_lookup_insert_eq by (rewrite !length_insert; done); done).
  assert (Heskl : es !! kl = Some (set_qnext (Some k) el)).
  { unfold es. rewrite list_lookup_insert_ne, list_lookup_insert_eq; [done|rewrite length_insert; by apply lookup_lt_Some in Hel|done]. }
  assert (Hesj : ∀ j, j ≠ k → j ≠ kl → es !! j = entries c1 !! j) by (intros j H1 H2; unfold es; by rewrite !list_lookup_insert_ne by done).
  assert (Hframe : ∀ j y, j ≠ k → entries c1 !! j = Some y → ∃ y', es !! j = Some y' ∧ hnext y' = hnext y ∧ (∀ size t, slot_ok size y t → slot_ok size y' t)).
  { intros j y Hj Hy. destruct (decide (j = kl)) as [->|Hjl]; [|exists y; by rewrite Hesj]. exists (set_qnext (Some k) el). assert (y = el) as -> by congruence. by rewrite Heskl. }
  pose proof (cv_queue _ _ Hc) as Hqueue. cbn in Hqueue. destruct Hqueue as (_ & x0 & Hx0 & Hqueue). assert (x0 = x) as -> by congruence.
  split; cbn [entries cache_table cache_table_size first_queue_entry last_queue_entry]; rewrite ?E3.
  - done.
  - rewrite zlen_insert, E5. done.
  - rewrite Hq, fmap_app, Hids, <- app_assoc. cbn [app fmap list_fmap fst]. rewrite Hids in Hqueue, Hn.
    apply (lseg_snoc qnext (entries c) es _ ids kl k (set_hnext p' (set_qnext None e'))); try done; [by rewrite <- Hids| |by exists (set_qnext (Some k) el)].
    intros j y Hj Hy. assert (j ≠ kl) by (intros ->; apply NoDup_app in Hn as (_ & Hn & _); apply (Hn kl Hj); set_solver).
    assert (j ≠ k) by (intros ->; apply Hk; rewrite Hids; set_solver). destruct (Hkept j y Hy) as (y' & Hy' & Hf). exists y'. rewrite Hesj by done. split; [done|]. by apply kept_entries_fields in Hf as [-> _].
  - rewrite fmap_app. cbn. by rewrite last_snoc.
  - rewrite fmap_app. apply NoDup_app. split; [done|]. split; [set_solver|]. cbn. repeat constructor. set_solver.
  - intros j s' [Hin|Hin]%elem_of_app; [|apply list_elem_of_singleton in Hin as [= -> ->]; by exists (set_hnext p' (set_qnext None e'))].
    assert (j ≠ k) by (intros ->; apply Hk, list_elem_of_fmap; by exists (k, s')).
    destruct (cv_slots _ _ Hc j s') as (y & Hy & Hs); [set_solver|]. destruct (Hkept j y Hy) as (y' & Hy' & Hf). destruct (Hframe j y') as (y2 & Hy2 & _ & Hf2); [done..|].
    exists y2. split; [done|]. apply Hf2. apply kept_entries_fields in Hf as [_ Hf]. by apply Hf.
  - intros h' Hh'. rewrite chain_snoc. unfold in_chain at 1. cbn [fst snd]. destruct (Hch h' Hh') as (p & Hp & Hs).
    assert (Hs' : lseg hnext es p (chain h' q)).
    { apply (lseg_frame hnext (entries c1)); [done|]. intros j y Hj Hy. destruct (Hframe j y) as (y' & Hy' & Hf & _); [intros ->; by apply Hk, (chain_in h')|done|]. by exists y'. }
    destruct (Z.eqb_spec h h') as [<-|Hhne]; cbn [option_list app].
    + exists (Some k). rewrite list_lookup_insert_eq by (unfold zlen in *; lia). split; [done|]. split; [done|]. eexists. split; [done|]. cbn. by assert (p' = p) as -> by congruence.
    + exists p. by rewrite list_lookup_insert_ne by lia.
Qed.

(** Evaluate the fields of a cache that was just changed. *)
Ltac cache_fields := cbn [put_entry with_entries with_queue with_table entries first_queue_entry last_queue_entry cache_table cache_table_size ttl obind].

Lemma link_newest_spec c1 k e' kl el h p' :
  first_queue_entry c1 = Some k → last_queue_entry c1 = Some kl → kl ≠ k → (k < length (entries c1))%nat → entries c1 !! kl = Some el →
  0 ≤ h < zlen (cache_table c1) → cache_table c1 !! Z.to_nat h = Some p' →
  link_newest k h (put_entry k e' c1) =
  Ret (mkCache (<[k := set_hnext p' (set_qnext None e')]> (<[kl := set_qnext (Some k) el]> (<[k := e']> (entries c1))))
         (qnext e') (Some k) (<[Z.to_nat h := Some k]> (cache_table c1)) (cache_table_size c1) (ttl c1)).
Proof.
  intros Hf Hl Hne Hk Hel Hh Hp. unfold link_newest. cache_fields. rewrite Hf.
  unfold entry at 1. cache_fields. rewrite list_lookup_insert_eq by done. cache_fields. rewrite Hl.
  unfold entry at 1. cache_fields. rewrite list_lookup_insert_ne, Hel by done. cache_fields.
  unfold entry at 1. cache_fields. rewrite list_lookup_insert_ne, list_lookup_insert_eq by done. cache_fields.
  rewrite (arr_get_lookup _ h _ ltac:(lia) Hp). cache_fields.
  unfold entry at 1. cache_fields. rewrite list_lookup_insert_eq by (by rewrite !length_insert). cache_fields.
  rewrite arr_set_ok by done. unfold with_table, put_entry, with_entries, with_queue. cache_fields. by rewrite list_insert_insert_eq.
Qed.

Definition slot_time (s : slot) : Z := match snd s with Some (_, _, _, t) => t | None => 0 end.
Definition val_ok (val : option (list Z)) : Prop := match val with Some v => zlen v ≤ INT_MAX | None => True end.

(** The log after an update: the oldest entry is only given up when it is old enough. *)
Definition log_update (size ttl : Z) (a : cache_answers) (time : Z) (key : list Z) (val : option (list Z)) (q : list slot) : bool * list slot :=
  match q with
  | [] => (false, [])
  | (k, s) :: q' =>
      if time - slot_time (k, s) <? ttl then (false, q)
      else if stored_ok a val then
        match hash_of size key with Ret h => (true, q' ++ [(k, Some (h, key, norm val, time))]) | _ => (false, q) end
      else (false, (k, None) :: q')
  end.

Lemma update_spec c q a time key val :
  cinv c q → (2 ≤ length q)%nat → key_ok key → val_ok val →
  ∃ c', ci_local_cache_update (S (length (entries c))) a time key val c = Ret (fst (log_update (cache_table_size c) (ttl c) a time key val q), c') ∧
    cinv c' (snd (log_update (cache_table_size c) (ttl c) a time key val q)) ∧
    cache_table_size c' = cache_table_size c ∧ ttl c' = ttl c.
Proof.
  intros Hc Hlen Hk Hv. destruct q as [|[k s] q]; [cbn in Hlen; lia|]. assert (Hne : q ≠ []) by (intros ->; cbn in Hlen; lia).
  unfold ci_local_cache_update, log_update. pose proof (cv_size _ _ Hc) as Hsz. destruct (hash_of_spec (cache_table_size c) key ltac:(lia) Hk) as (h & Hh & Hb). rewrite Hh.
  cbn [obind]. rewrite (proj2 (Z.leb_le _ _)) by lia. cbn [assert_ obind]. pose proof (cv_queue _ _ Hc) as Hqu. cbn in Hqu. destruct Hqu as (Hf & e & He & _). rewrite Hf.
  unfold entry at 1. rewrite He. cbn [obind]. destruct (cv_slots _ _ Hc k s) as (e0 & He0 & Hs); [set_solver|]. assert (e0 = e) as -> by congruence.
  assert (Ht : ce_time e = slot_time (k, s)) by (destruct s as [[[[??]?]?]|]; cbn in Hs |- *; by destruct_and! Hs). rewrite Ht.
  destruct (time - slot_time (k, s) <? ttl c); [by exists c|].
  assert (∃ c1, unlink (S (length (entries c))) k e c = Ret c1 ∧ same_cache c c1 ∧
    ∀ h, 0 ≤ h ≤ cache_table_size c → ∃ p, cache_table c1 !! Z.to_nat h = Some p ∧ lseg hnext (entries c1) p (chain h q)) as (c1 & -> & Hsame & Hch).
  { destruct s as [[[[h0 key0] v0] t0]|]; [by eapply unlink_used|]. destruct (unlink_unused c k q e Hc He) as [Hu Hch]. exists c. by split_and!; [|apply same_cache_refl|]. }
  cbn [obind]. pose proof Hsame as (E1 & E2 & E3 & E4 & E5 & E6 & Hkept). destruct (Hkept k e He) as (e1 & He1 & Hke). unfold entry at 1. rewrite He1. cbn [obind].
  pose proof (fill_entry_spec (cache_table_size c) a h time key val e s Hs Hh Hb Hv) as Hfill. rewrite <- Hke in Hfill.
  change (fill_entry a h time key val (set_hnext None e1)) with (fill_entry a h time key val e1) in Hfill.
  destruct (fill_entry a h time key val e1) as [ok e'] eqn:Efill. destruct Hfill as (-> & Hhn & Hqn & Hok).
  destruct (stored_ok a val) eqn:Est; cbn [negb fst snd].
  2:{ eexists. split; [done|]. split; [|by rewrite <- E3, <- E4]. eapply update_failed; try done. by exists e. }
  destruct (exists_last Hne) as (q0 & [kl sl] & Hq0).
  assert (Hlast : last q.*1 = Some kl) by (rewrite Hq0, fmap_app; cbn; apply last_snoc).
  assert (Hkl : kl ≠ k). { pose proof (cv_nodup _ _ Hc) as Hn. cbn in Hn. apply NoDup_cons in Hn as [Hn _]. intros ->. apply Hn. rewrite Hq0, fmap_app. cbn. set_solver. }
  destruct (cv_slots _ _ Hc kl sl) as (x & Hx & _); [rewrite Hq0; set_solver|]. destruct (Hkept kl x Hx) as (el & Hel & _).
  destruct (Hch h Hb) as (p' & Hp' & _).
  assert (Hl1 : last_queue_entry c1 = Some kl).
  { rewrite E2, (cv_last _ _ Hc). cbn [fmap list_fmap fst]. rewrite Hq0, fmap_app. cbn. by rewrite app_comm_cons, last_snoc. }
  pose proof (cv_table _ _ Hc). rewrite (link_newest_spec c1 k e' kl el h p'); [|congruence|done|done|by apply lookup_lt_Some in He1|done|lia|done].
  cbn [obind]. eexists. split; [done|]. split; [|done]. eapply update_stored; try done. by exists e.
Qed.

Lemma search_spec c q time key :
  cinv c q → key_ok key → ci_local_cache_search (S (length (entries c))) time key c = Ret (found (ttl c) time (newest key (reverse q))).
Proof.
  intros Hc Hk. unfold ci_local_cache_search. pose proof (cv_size _ _ Hc) as Hsz. destruct (hash_of_spec (cache_table_size c) key ltac:(lia) Hk) as (h & Hh & Hb). rewrite Hh.
  cbn [obind]. rewrite (proj2 (Z.leb_le _ _)) by lia. cbn [assert_ obind]. destruct (cv_chains _ _ Hc h Hb) as (p & Hp & Hs).
  rewrite (arr_get_lookup _ h _ ltac:(lia) Hp). cbn [obind]. pose proof (cinv_length _ _ Hc). apply (search_chain_spec c time key h); try done.
  - rewrite fmap_reverse, (reverse_Permutation q.*1). apply Hc.
  - intros k s Hin. rewrite elem_of_reverse in Hin. by apply (cv_slots _ _ Hc).
  - rewrite length_reverse. lia.
Qed.

(** ** Programs that use a cache, and the reference *)

Inductive cop := CUpdate (a : cache_answers) (time : Z) (key : list Z) (val : option (list Z)) | CSearch (time : Z) (key : list Z).
Inductive cseen := Stored (b : bool) | Found (b : bool) (val : option (list Z)).

Fixpoint crun (prog : list cop) (c : ci_cache) : outcome (list cseen) :=
  match prog with
  | [] => Ret []
  | CUpdate a time key val :: prog =>
      let* (b, c) := ci_local_cache_update (S (length (entries c))) a time key val c in let* r := crun prog c in Ret (Stored b :: r)
  | CSearch time key :: prog =>
      let* (b, v) := ci_local_cache_search (S (length (entries c))) time key c in let* r := crun prog c in Ret (Found b v :: r)
  end.

(** A log of as many places as the cache has entries, the oldest first: key, value and time of the updates. *)
Abbreviation log := (list (option (list Z * option (list Z) * Z))).

Definition ref_update (ttl : Z) (a : cache_answers) (time : Z) (key : list Z) (val : option (list Z)) (l : log) : bool * log :=
  match l with
  | [] => (false, [])
  | s :: l' =>
      if time - (match s with Some (_, _, t) => t | None => 0 end) <? ttl then (false, l)
      else if stored_ok a val then (true, l' ++ [Some (key, norm val, time)]) else (false, None :: l')
  end.

(** The value stored last under the key, unless it is older than [ttl]. *)
Definition ref_search (ttl time : Z) (key : list Z) (l : log) : bool * option (list Z) :=
  match List.find (λ s, match s with Some (key', _, _) => bool_decide (key' = key) | None => false end) (reverse l) with
  | Some (Some (_, v, t)) => if ttl <? time - t then (false, None) else (true, v)
  | _ => (false, None)
  end.

Fixpoint cref_run (ttl : Z) (prog : list cop) (l : log) : list cseen :=
  match prog with
  | [] => []
  | CUpdate a time key val :: prog => let '(b, l) := ref_update ttl a time key val l in Stored b :: cref_run ttl prog l
  | CSearch time key :: prog => let '(b, v) := ref_search ttl time key l in Found b v :: cref_run ttl prog l
  end.

Definition cop_ok (o : cop) : Prop := match o with CUpdate _ _ key val => key_ok key ∧ val_ok val | CSearch _ key => key_ok key end.

(** The log without places and hashes. *)
Definition forget (s : slot) : option (list Z * option (list Z) * Z) := match snd s with Some (_, key, v, t) => Some (key, v, t) | None => None end.

Lemma forget_search ttl time key q : ref_search ttl time key (forget <$> q) = found ttl time (newest key (reverse q)).
Proof.
  unfold ref_search. rewrite <- fmap_reverse. induction (reverse q) as [|[k [[[[h key'] v] t]|]] r IH]; cbn [fmap list_fmap forget snd List.find newest]; [done| |exact IH].
  destruct (bool_decide (key' = key)); [done|exact IH].
Qed.

Lemma forget_update size ttl a time key val q :
  (∃ h, hash_of size key = Ret h) →
  ref_update ttl a time key val (forget <$> q) = (λ '(b, q), (b, forget <$> q)) (log_update size ttl a time key val q).
Proof.
  intros [h Hh]. destruct q as [|[k s] q]; [done|]. unfold log_update. cbn [fmap list_fmap ref_update]. rewrite Hh.
  replace (match forget (k, s) with Some (_, _, t) => t | None => 0 end) with (slot_time (k, s)) by (by destruct s as [[[[??]?]?]|]).
  destruct (time - slot_time (k, s) <? ttl); [done|]. destruct (stored_ok a val); [|done]. by rewrite fmap_app.
Qed.

Lemma log_update_length size ttl a time key val q : length (snd (log_update size ttl a time key val q)) = length q.
Proof.
  destruct q as [|[k s] q]; [done|]. unfold log_update. destruct (_ <? ttl); [done|]. destruct (stored_ok a val); [|done].
  destruct (hash_of size key); cbn [snd length]; rewrite ?length_app; cbn; lia.
Qed.

Lemma crun_spec prog : ∀ c q,
  cinv c q → (2 ≤ length q)%nat → Forall cop_ok prog → crun prog c = Ret (cref_run (ttl c) prog (forget <$> q)).
Proof.
  induction prog as [|[a time key val|time key] prog IH]; intros c q Hc Hl Hp; cbn [crun cref_run]; [done|..]; apply Forall_cons_1 in Hp as [Ho Hp]; cbn [cop_ok] in Ho.
  - destruct Ho as [Hk Hv]. destruct (update_spec c q a time key val Hc Hl Hk Hv) as (c' & -> & Hc' & Hsz & Htl). cbn [obind].
    pose proof (cv_size _ _ Hc). destruct (hash_of_spec (cache_table_size c) key ltac:(lia) Hk) as (h & Hh & _).
    rewrite (forget_update (cache_table_size c)) by (by exists h). pose proof (log_update_length (cache_table_size c) (ttl c) a time key val q) as Hll.
    destruct (log_update (cache_table_size c) (ttl c) a time key val q) as [b q']. cbn [fst snd] in *. rewrite (IH c' q' Hc') by (done || lia). by rewrite Htl.
  - rewrite (search_spec c q time key Hc Ho), forget_search. destruct (found _ _ _) as [b v]. cbn [obind]. by rewrite (IH c q).
Qed.

(** A new cache: every entry is linked to the next one and is in no chain. *)
Lemma init_queue (n : nat) es : ∀ i m, (i + m = n)%nat → (∀ j, (i ≤ j < n)%nat → ∃ e, es !! j = Some e ∧ qnext e = if (S j =? n)%nat then None else Some (S j)) →
  lseg qnext es (if (m =? 0)%nat then None else Some i) (seq i m).
Proof.
  intros i m. revert i. induction m as [|m IH]; intros i Hn Hes; cbn [seq lseg]; [done|]. split; [done|].
  destruct (Hes i) as (e & He & Hq); [lia|]. exists e. split; [done|]. rewrite Hq. specialize (IH (S i) ltac:(lia)).
  destruct (Nat.eqb_spec (S i) n) as [Heq|Hne]; destruct m; cbn [Nat.eqb] in IH; try lia; apply IH; intros j Hj; apply Hes; lia.
Qed.

Lemma init_spec mem_size max_object_size ttl0 :
  0 ≤ max_object_size → 2 * (max_object_size + sizeof_entry) ≤ mem_size < 2 ^ 32 →
  ∃ c, ci_local_cache_init mem_size max_object_size ttl0 = Ret (Some c) ∧ ttl c = ttl0 ∧
    cinv c ((λ i, (i, None)) <$> seq 0 (Z.to_nat (mem_size / (max_object_size + sizeof_entry)))).
Proof.
  intros Hm Hs. unfold ci_local_cache_init. unfold sizeof_entry in *.
  pose proof (Z.div_le_lower_bound mem_size (max_object_size + 56) 2 ltac:(lia) ltac:(lia)).
  pose proof (Z.div_le_upper_bound mem_size (max_object_size + 56) (2 ^ 32 - 1) ltac:(lia) ltac:(lia)).
  rewrite to_uint_id by lia. rewrite (proj2 (Z.eqb_neq _ 0)) by lia. destruct (new_size_spec (mem_size / (max_object_size + 56))) as (size & -> & Hsz). cbn [obind].
  set (n := Z.to_nat (mem_size / (max_object_size + 56))). eexists. split; [done|]. split; [done|].
  assert (Hq : ((λ i, (i, None)) <$> seq 0 n : list slot).*1 = seq 0 n) by (rewrite <- list_fmap_compose; apply list_fmap_id).
  assert (Hes : ∀ j, (j < n)%nat → ((λ i, mkEntry 0 0 None None 0 (if (S i =? n)%nat then None else Some (S i)) None) <$> seq 0 n) !! j =
    Some (mkEntry 0 0 None None 0 (if (S j =? n)%nat then None else Some (S j)) None)).
  { intros j Hj. by rewrite list_lookup_fmap, lookup_seq_lt. }
  assert (Hchain : ∀ h, chain h ((λ i, (i, None)) <$> seq 0 n) = []).
  { intros h. unfold chain. rewrite <- fmap_reverse. induction (reverse (seq 0 n)); [done|]. exact IHl. }
  split; cbn [entries cache_table cache_table_size first_queue_entry last_queue_entry]; rewrite ?Hq.
  - done.
  - rewrite zlen_replicate. lia.
  - replace (Some 0%nat) with (if (n =? 0)%nat then None else Some 0%nat) by (by destruct (Nat.eqb_spec n 0); [lia|]).
    apply (init_queue n); [done|]. intros j Hj. eexists. split; [apply Hes; lia|done].
  - assert (Hn : n = S (n - 1)) by lia. rewrite Hn at 2. rewrite seq_S, last_snoc. f_equal.
  - apply NoDup_seq.
  - intros k s Hin. apply list_elem_of_fmap in Hin as (i & [= -> ->] & Hi). apply elem_of_seq in Hi. eexists. split; [apply Hes; lia|]. by split_and!.
  - intros h Hh. exists None. rewrite Hchain. split; [apply lookup_replicate; split; [done|lia]|done].
Qed.

(** The adds of a hash table, each with the answer of its allocation. *)
Fixpoint add_all {T : Type} (adds : list (bool * list Z * T)) (t : ci_hash_table T) : outcome (ci_hash_table T) :=
  match adds with [] => Ret t | (a, key, v) :: adds => let* (_, t) := ci_hash_add a t key v in add_all adds t end.

Lemma add_all_finds {T : Type} (adds : list (bool * list Z * T)) : ∀ t l,
  table_ok t l → Forall (λ '(_, key, _), key_ok key) adds →
  ∃ t', add_all adds t = Ret t' ∧ table_ok t' (reverse (omap (λ '(a, key, v), if a : bool then Some (key, v) else None) adds) ++ l).
Proof.
  induction adds as [|[[a key] v] adds IH]; intros t l Ht Hk; cbn [add_all omap list_omap]; [by exists t|]. apply Forall_cons_1 in Hk as [Hk Hks].
  destruct (table_add t l key v a Ht Hk) as (t1 & -> & Ht1). cbn [obind]. destruct (IH t1 _ Ht1 Hks) as (t' & -> & Ht'). exists t'. split; [done|].
  destruct a; [|done]. by rewrite reverse_cons, <- app_assoc.
Qed.

(** ** Properties *)

(** A hash table of any size finds under a key the value that was added last with that key, and nothing under a key that was
    not added; an add without memory changes nothing. *)
Theorem hash_table_finds_last {T : Type} (adds : list (bool * list Z * T)) n key :
  Forall (λ '(_, key, _), key_ok key) adds → key_ok key →
  ∃ t t', ci_hash_build true true n = Ret (Some t) ∧ add_all adds t = Ret t' ∧
    ci_hash_search t' key = Ret (snd <$> List.find (λ kv, bool_decide (fst kv = key)) (reverse (omap (λ '(a, key, v), if a : bool then Some (key, v) else None) adds))).
Proof.
  intros Ha Hk. unfold ci_hash_build. cbn [negb]. destruct (new_size_spec n) as (size & -> & Hs). cbn [obind].
  eexists _. destruct (add_all_finds adds (mkHTable (replicate (Z.to_nat (size + 1)) []) size) []) as (t' & Ht' & Hok); [|done|].
  - split; [done|]. cbn. split; [rewrite zlen_replicate; lia|]. intros h Hh. apply lookup_replicate. split; [done|lia].
  - exists t'. split; [done|]. split; [done|]. rewrite app_nil_r in Hok. by apply table_search.
Qed.

Lemma hash_table_finds_last_witness :
  ∃ t t', ci_hash_build true true 100 = Ret (Some t) ∧ add_all [(true, bytes "a", 1); (true, bytes "b", 2); (true, bytes "a", 3); (false, bytes "b", 4)] t = Ret t' ∧
    ci_hash_search t' (bytes "b") = Ret (Some 2).
Proof.
  apply (hash_table_finds_last [(true, bytes "a", 1); (true, bytes "b", 2); (true, bytes "a", 3); (false, bytes "b", 4)] 100 (bytes "b")); [|done].
  repeat first [apply Forall_nil_2 | apply Forall_cons_2; [done|]].
Defined.


Definition memory : cache_answers := mkCA true true true.

Definition sample_cache_program : list cop :=
  [CUpdate memory 100 (bytes "k") (Some [1]); CUpdate memory 101 (bytes "l") (Some [2]); CSearch 102 (bytes "k"); CUpdate memory 103 (bytes "m") None;
   CUpdate memory 130 (bytes "m") None; CSearch 131 (bytes "k"); CSearch 131 (bytes "l"); CSearch 131 (bytes "m")].


(** A cache with room for one entry loses it: the first update takes the only entry out of the queue, and the next
    one follows a null pointer. *)
Theorem cache_of_one_entry_breaks mem_size max_object_size ttl0 a time time2 key key2 val val2 a2 :
  0 ≤ max_object_size → max_object_size + sizeof_entry ≤ mem_size < 2 * (max_object_size + sizeof_entry) → mem_size < 2 ^ 32 →
  ttl0 ≤ time → key_ok key → key_ok key2 → val_ok val → stored_ok a val = true →
  ∃ c, ci_local_cache_init mem_size max_object_size ttl0 = Ret (Some c) ∧ crun [CUpdate a time key val; CUpdate a2 time2 key2 val2] c = UB.
Proof.
  intros Hm Hs Hs2 Ht Hk Hk2 Hv Hst. unfold ci_local_cache_init. unfold sizeof_entry in *.
  assert (Hn : mem_size / (max_object_size + 56) = 1) by (symmetry; apply (Z.div_unique _ _ 1 (mem_size - (max_object_size + 56))); lia).
  rewrite Hn. change (to_uint 1) with 1. cbn [Z.eqb]. destruct (new_size_spec 1) as (size & -> & Hsz). cbn [obind]. eexists. split; [done|].
  change (Z.to_nat 1) with 1%nat. cbn [seq fmap list_fmap Nat.eqb Nat.sub]. set (T := replicate (Z.to_nat (size + 1)) None).
  assert (HT : ∀ h, 0 ≤ h ≤ size → arr_get T h = Ret None) by (intros h Hh; apply arr_get_lookup; [lia|]; apply lookup_replicate; split; [done|lia]).
  assert (HTl : zlen T = size + 1) by (unfold T; rewrite zlen_replicate; lia).
  destruct (hash_of_spec size key ltac:(lia) Hk) as (h & Hh & Hb). destruct (hash_of_spec size key2 ltac:(lia) Hk2) as (h2 & Hh2 & Hb2).
  cbn [crun]. unfold ci_local_cache_update at 1. cache_fields. rewrite Hh. cache_fields. rewrite (proj2 (Z.leb_le h size)) by lia. cbn [assert_ obind].
  unfold entry at 1. cbn [entries lookup list_lookup obind ce_time]. rewrite (proj2 (Z.ltb_ge _ _)) by lia.
  unfold unlink. cbn [ce_hash cache_table_size cache_table]. rewrite (proj2 (Z.leb_le 0 size)) by lia. cbn [assert_ obind]. rewrite HT by lia. cbn [obind].
  unfold entry at 1. cbn [entries lookup list_lookup obind].
  pose proof (fill_entry_spec size a h time key val (mkEntry 0 0 None None 0 None None) None ltac:(by split_and!) Hh Hb Hv) as Hfill.
  change (set_hnext None (mkEntry 0 0 None None 0 None None)) with (mkEntry 0 0 None None 0 None None) in Hfill.
  destruct (fill_entry a h time key val (mkEntry 0 0 None None 0 None None)) as [ok e']. destruct Hfill as (-> & _ & Hq & _). rewrite Hst. cbn [negb].
  unfold link_newest. cache_fields. unfold entry at 1. cbn [entries lookup list_lookup insert list_insert obind]. cache_fields.
  unfold entry at 1. cache_fields. cbn [lookup list_lookup obind]. cache_fields. unfold entry at 1. cache_fields. cbn [lookup list_lookup insert list_insert obind]. cache_fields.
  rewrite HT by lia. cache_fields. unfold entry at 1. cache_fields. cbn [lookup list_lookup insert list_insert obind]. rewrite arr_set_ok by lia. cache_fields.
  cbn [crun]. unfold ci_local_cache_update. cache_fields. rewrite Hh2. cache_fields. rewrite (proj2 (Z.leb_le h2 size)) by lia. cbn [assert_ obind]. rewrite Hq. done.
Qed.

Lemma cache_of_one_entry_breaks_witness :
  ∃ c, ci_local_cache_init 100 44 20 = Ret (Some c) ∧ crun [CUpdate memory 100 (bytes "k") None; CUpdate memory 200 (bytes "l") None] c = UB.
Proof. apply (cache_of_one_entry_breaks 100 44 20 memory 100 200 (bytes "k") (bytes "l") None None memory); done. Defined.
