(* ===== verification/Arrays.v ===== *)
(** The pack allocator (mem.c) and the arrays and vectors that live in one block of it (array.c).  The allocator gives memory
    from both ends of the block: the items of an array from the front, their names and values from the rear.  Addresses are
    integers; the block has the items by their address, and the bytes of names and values by theirs.  Memory that was not
    written cannot be read. *)
From stdpp Require Import base tactics numbers list gmap.
From S2P Require Import Prelude.
From Stdlib Require Import ZArith Lia.
Open Scope Z_scope.

(** ** The pack allocator *)

(** [_CI_ALIGN] of a size_t: the next multiple of 8. *)
Definition CI_ALIGN (n : Z) : Z := let m := to_u64 (n + 7) in m - m mod 8.
Definition ALIGNED_OFFSET (off : Z) : Z := if negb (off =? CI_ALIGN off) then CI_ALIGN (to_u64 (off - 8)) else off.

Record pack_allocator := mkPack { memchunk : Z; curpos : Z; endpos : Z; pk_end : Z }.

Definition sizeof_pack_allocator : Z := 40.
Definition sizeof_mem_allocator : Z := 56.

Definition init_pack_allocator (memblock size : Z) : pack_allocator :=
  let size := ALIGNED_OFFSET size in mkPack memblock memblock (memblock + size) (memblock + size).

Definition ci_pack_allocator_required_size : Z := CI_ALIGN sizeof_pack_allocator + CI_ALIGN sizeof_mem_allocator.

Definition ci_create_pack_allocator_on_memblock (memblock size : Z) : option pack_allocator :=
  if size <=? ci_pack_allocator_required_size then None
  else Some (init_pack_allocator (memblock + ci_pack_allocator_required_size) (size - ci_pack_allocator_required_size)).

Definition ci_pack_allocator_alloc_unaligned (size : Z) (p : pack_allocator) : option Z * pack_allocator :=
  let max_size := to_int (endpos p - curpos p) in
  if to_u64 max_size <? size then (None, p) else (Some (curpos p), mkPack (memchunk p) (curpos p + size) (endpos p) (pk_end p)).

Definition ci_pack_allocator_alloc (size : Z) (p : pack_allocator) : option Z * pack_allocator :=
  ci_pack_allocator_alloc_unaligned (CI_ALIGN size) p.

Definition ci_pack_allocator_alloc_from_rear (size : Z) (p : pack_allocator) : option Z * pack_allocator :=
  let size := to_int (CI_ALIGN (to_u64 size)) in
  let max_size := to_int (endpos p - curpos p) in
  if max_size <? size then (None, p)
  else (Some (endpos p - size), mkPack (memchunk p) (curpos p) (endpos p - size) (pk_end p)).

Definition ci_pack_allocator_reset (p : pack_allocator) : pack_allocator := mkPack (memchunk p) (memchunk p) (pk_end p) (pk_end p).

Definition ci_pack_allocator_set_start_pos (a : Z) (p : pack_allocator) : outcome pack_allocator :=
  let* _ := assert_ (memchunk p <=? a) in Ret (mkPack (memchunk p) a (endpos p) (pk_end p)).

(** [None] for a null pointer. *)
Definition ci_pack_allocator_set_end_pos (a : option Z) (p : pack_allocator) : outcome pack_allocator :=
  match a with
  | None => Ret (mkPack (memchunk p) (curpos p) (pk_end p) (pk_end p))
  | Some a => let* _ := assert_ (a <=? pk_end p) in Ret (mkPack (memchunk p) (curpos p) a (pk_end p))
  end.

Definition ci_pack_allocator_data_size (p : pack_allocator) : Z := to_int (curpos p - memchunk p + (pk_end p - endpos p)).

(** ** Arrays *)

(** [name] and [value] of an item, null pointers included. *)
Record ci_array_item_t := mkItem { it_name : option Z; it_value : option Z }.
Definition sizeof_item : Z := 16.
Definition sizeof_array : Z := 40.

Record ci_array := mkArray {
  items : option Z;
  max_size : Z;
  count : Z;
  alloc : pack_allocator;
  item_mem : gmap Z ci_array_item_t;
  data_mem : gmap Z (list Z)
}.

Definition with_items (i : option Z) (c : Z) (a : ci_array) : ci_array := mkArray i (max_size a) c (alloc a) (item_mem a) (data_mem a).
Definition with_alloc (p : pack_allocator) (a : ci_array) : ci_array := mkArray (items a) (max_size a) (count a) p (item_mem a) (data_mem a).
Definition with_mem (m : gmap Z ci_array_item_t) (d : gmap Z (list Z)) (a : ci_array) : ci_array := mkArray (items a) (max_size a) (count a) (alloc a) m d.

(** [mem] is the address of the buffer, [None] when there is none. *)
Definition ci_array_new (mem : option Z) (size : Z) : option ci_array :=
  match mem with
  | None => None
  | Some buffer =>
      match ci_create_pack_allocator_on_memblock buffer size with
      | None => None
      | Some p =>
          match ci_pack_allocator_alloc sizeof_array p with
          | (None, _) => None
          | (Some _, p) => Some (mkArray None size 0 p ∅ ∅)
          end
      end
  end.

(** The item at an address; [items[i]]. *)
Definition get_item (p : option Z) (a : ci_array) : outcome ci_array_item_t :=
  match p with None => UB | Some x => match item_mem a !! x with Some it => Ret it | None => UB end end.
Definition item_at (i : Z) (a : ci_array) : outcome ci_array_item_t := get_item ((λ x, x + sizeof_item * i) <$> items a) a.
Definition get_data (p : option Z) (a : ci_array) : outcome (list Z) :=
  match p with None => UB | Some x => match data_mem a !! x with Some d => Ret d | None => UB end end.

(** The bytes of a name with its NUL; a value without bytes is not written. *)
Definition put_data (x : Z) (d : list Z) (m : gmap Z (list Z)) : gmap Z (list Z) := match d with [] => m | _ => <[x := d]> m end.

(** [value] has [size] bytes. *)
Definition ci_array_add (name value : list Z) (a : ci_array) : outcome (bool * ci_array) :=
  match ci_pack_allocator_alloc_unaligned sizeof_item (alloc a) with
  | (None, _) => Ret (false, a)
  | (Some item, p) =>
      let (nm, p) := ci_pack_allocator_alloc_from_rear (to_int (zlen name + 1)) p in
      let (vl, p) := ci_pack_allocator_alloc_from_rear (to_int (zlen value)) p in
      let a := with_mem (<[item := mkItem nm vl]> (item_mem a)) (data_mem a) (with_alloc p a) in
      match nm, vl with
      | Some n, Some v =>
          let a := with_mem (item_mem a) (put_data v value (put_data n (name ++ [NUL]) (data_mem a))) a in
          Ret (true, with_items (match items a with None => Some item | Some _ => items a end) (to_uint (count a + 1)) a)
      | _, _ => Ret (false, a)
      end
  end.

(** The value found is read with the [size] the caller knows. *)
Fixpoint array_search_from (n : nat) (i : Z) (name : list Z) (a : ci_array) : outcome (option (option Z)) :=
  match n with
  | O => Ret None
  | S n =>
      let* it := item_at i a in
      let* s := get_data (it_name it) a in
      if bool_decide (s = name ++ [NUL]) then Ret (Some (it_value it)) else array_search_from n (i + 1) name a
  end.

Definition ci_array_search (name : list Z) (a : ci_array) : outcome (option (option Z)) := array_search_from (Z.to_nat (count a)) 0 name a.

Definition MIN_P (x y : option Z) : option Z :=
  match x, y with Some x, Some y => Some (Z.min x y) | _, _ => None end.

Definition ci_array_pop (a : ci_array) : outcome (option ci_array_item_t * ci_array) :=
  if count a =? 0 then Ret (None, a)
  else
  match items a with
  | None => UB
  | Some base =>
      let x := base + sizeof_item * (count a - 1) in
      let* p := ci_pack_allocator_set_start_pos x (alloc a) in
      let a := with_items (items a) (count a - 1) (with_alloc p a) in
      let* p :=
        if count a =? 0 then ci_pack_allocator_set_end_pos None (alloc a)
        else let* it := item_at (count a - 1) a in ci_pack_allocator_set_end_pos (MIN_P (it_name it) (it_value it)) (alloc a) in
      let a := with_alloc p a in
      let* it := get_item (Some x) a in
      Ret (Some it, a)
  end.

(** Arrays of pointers: the value is a pointer of the caller. *)
Definition ci_ptr_array_add (name : list Z) (value : option Z) (a : ci_array) : outcome (bool * ci_array) :=
  match ci_pack_allocator_alloc_unaligned sizeof_item (alloc a) with
  | (None, _) => Ret (false, a)
  | (Some item, p) =>
      let (nm, p) := ci_pack_allocator_alloc_from_rear (to_int (zlen name + 1)) p in
      match nm with
      | Some n =>
          let a := with_mem (<[item := mkItem nm value]> (item_mem a)) (put_data n (name ++ [NUL]) (data_mem a)) (with_alloc p a) in
          Ret (true, with_items (match items a with None => Some item | Some _ => items a end) (to_uint (count a + 1)) a)
      | None => Ret (false, with_alloc p a)
      end
  end.

Definition ci_ptr_array_pop (a : ci_array) : outcome (option ci_array_item_t * ci_array) :=
  if count a =? 0 then Ret (None, a)
  else
  match items a with
  | None => UB
  | Some base =>
      let x := base + sizeof_item * (count a - 1) in
      let* p := ci_pack_allocator_set_start_pos x (alloc a) in
      let* it := get_item (Some x) a in
      Ret (Some it, with_items (items a) (count a - 1) (with_alloc p a))
  end.

(** ** Vectors *)

(** The index is an array of pointers that ends with a null pointer; [last] is the address of that one. *)
Record ci_vector := mkVector {
  v_items : Z;
  v_last : Z;
  v_count : Z;
  v_alloc : pack_allocator;
  v_index : gmap Z (option Z);
  v_data : gmap Z (list Z)
}.
Definition sizeof_vector : Z := 48.
Definition sizeof_ptr : Z := 8.

Definition ci_vector_create (mem : option Z) (size : Z) : option ci_vector :=
  match mem with
  | None => None
  | Some buffer =>
      match ci_create_pack_allocator_on_memblock buffer size with
      | None => None
      | Some p =>
          let (v, p) := ci_pack_allocator_alloc sizeof_vector p in
          let (indx, p) := ci_pack_allocator_alloc_unaligned sizeof_ptr p in
          match v, indx with
          | Some _, Some i => Some (mkVector i i 0 p {[ i := None ]} ∅)
          | _, _ => None
          end
      end
  end.

Definition ci_vector_add (value : list Z) (v : ci_vector) : bool * ci_vector :=
  let (indx, p) := ci_pack_allocator_alloc_unaligned sizeof_ptr (v_alloc v) in
  let (item, p) := ci_pack_allocator_alloc_from_rear (to_int (zlen value)) p in
  match item, indx with
  | Some x, Some i =>
      (true, mkVector (v_items v) i (to_int (v_count v + 1)) p (<[i := None]> (<[v_last v := Some x]> (v_index v))) (put_data x value (v_data v)))
  | _, _ => (false, mkVector (v_items v) (v_last v) (v_count v) p (v_index v) (v_data v))
  end.

(** [ci_vector_iterate] with a callback that goes on; what it is given are the values. *)
Fixpoint vector_iterate (fuel : nat) (i : Z) (v : ci_vector) : outcome (list Z) :=
  match fuel with
  | O => NoFuel
  | S fuel =>
      match v_index v !! (v_items v + sizeof_ptr * i) with
      | None => UB
      | Some None => Ret []
      | Some (Some x) => let* r := vector_iterate fuel (i + 1) v in Ret (x :: r)
      end
  end.

Definition ci_vector_pop (v : ci_vector) : outcome (option (option Z) * ci_vector) :=
  if v_count v =? 0 then Ret (None, v)
  else
  let* p := ci_pack_allocator_set_start_pos (v_last v) (v_alloc v) in
  let n := v_count v - 1 in
  let last := v_items v + sizeof_ptr * n in
  let* p :=
    if n =? 0 then ci_pack_allocator_set_end_pos None p
    else match v_index v !! (v_items v + sizeof_ptr * (n - 1)) with None => UB | Some x => ci_pack_allocator_set_end_pos x p end in
  match v_index v !! last with
  | None => UB
  | Some x => Ret (Some x, mkVector (v_items v) last n p (<[last := None]> (v_index v)) (v_data v))
  end.

(** ** Alignment *)

Lemma align_spec n : 0 ≤ n < 2 ^ 40 → n ≤ CI_ALIGN n < n + 8 ∧ CI_ALIGN n mod 8 = 0.
Proof.
  intros Hn. unfold CI_ALIGN. rewrite to_u64_id by lia. pose proof (Z.mod_pos_bound (n + 7) 8 ltac:(lia)). pose proof (Z.div_mod (n + 7) 8 ltac:(lia)).
  split; [lia|]. replace (n + 7 - (n + 7) mod 8) with ((n + 7) / 8 * 8) by lia. apply Z.mod_mul. lia.
Qed.
