(* ===== verification/ArraysSafe.v ===== *)
(** An array is a stack of named values in a block of fixed size: it takes an item exactly when there is room, finds the
    first value of a name and gives back the last item, as long as no item was refused.  After one was, the next items are not
    where the array looks for them. *)
From stdpp Require Import base tactics numbers list gmap strings.
From S2P Require Import Prelude Arrays.
From Stdlib Require Import ZArith Lia.
Open Scope Z_scope.

(** The room between the two ends. *)
Definition room (p : pack_allocator) : Z := endpos p - curpos p.

Lemma front_spec size p :
  0 ≤ room p ≤ INT_MAX → 0 ≤ size →
  ci_pack_allocator_alloc_unaligned size p =
  if size <=? room p then (Some (curpos p), mkPack (memchunk p) (curpos p + size) (endpos p) (pk_end p)) else (None, p).
Proof.
  unfold room, INT_MAX. intros Hr Hs. unfold ci_pack_allocator_alloc_unaligned. rewrite to_int_id by (unfold INT_MIN, INT_MAX; lia). rewrite to_u64_id by lia.
  destruct (Z.ltb_spec (endpos p - curpos p) size), (Z.leb_spec size (endpos p - curpos p)); (done || lia).
Qed.

Lemma rear_spec size p :
  0 ≤ room p ≤ INT_MAX → 0 ≤ size ≤ INT_MAX - 8 →
  ci_pack_allocator_alloc_from_rear size p =
  if CI_ALIGN size <=? room p then (Some (endpos p - CI_ALIGN size), mkPack (memchunk p) (curpos p) (endpos p - CI_ALIGN size) (pk_end p)) else (None, p).
Proof.
  unfold room, INT_MAX. intros Hr Hs. unfold ci_pack_allocator_alloc_from_rear. pose proof (align_spec size ltac:(lia)). rewrite (to_u64_id size) by lia.
  rewrite !to_int_id by (unfold INT_MIN, INT_MAX; lia).
  destruct (Z.ltb_spec (endpos p - curpos p) (CI_ALIGN size)), (Z.leb_spec (CI_ALIGN size) (endpos p - curpos p)); (done || lia).
Qed.

(** ** Layout *)

Abbreviation named := (list Z * list Z)%type.

Definition name_size (n : list Z) : Z := CI_ALIGN (zlen n + 1).
Definition value_size (v : list Z) : Z := CI_ALIGN (zlen v).
Definition item_ok (i : named) : Prop := zlen (fst i) + 1 ≤ INT_MAX - 8 ∧ zlen (snd i) ≤ INT_MAX - 8 ∧ NUL ∉ fst i.

Lemma name_size_pos n : zlen n + 1 ≤ INT_MAX - 8 → 0 < name_size n.
Proof. intros H. unfold INT_MAX in H. pose proof (zlen_nonneg n). unfold name_size. pose proof (align_spec (zlen n + 1) ltac:(lia)). lia. Qed.

Lemma value_size_pos v : zlen v ≤ INT_MAX - 8 → 0 ≤ value_size v ∧ (v ≠ [] → 0 < value_size v).
Proof.
  intros H. unfold INT_MAX in H. pose proof (zlen_nonneg v). unfold value_size. pose proof (align_spec (zlen v) ltac:(lia)). split; [lia|].
  destruct v; [done|]. intros _. rewrite zlen_cons in *. pose proof (zlen_nonneg v). lia.
Qed.

(** The items [xs] lie from [x] to [x'], their data from [e] down to [e']. *)
Fixpoint layout (im : gmap Z ci_array_item_t) (dm : gmap Z (list Z)) (x e : Z) (xs : list named) (x' e' : Z) : Prop :=
  match xs with
  | [] => x = x' ∧ e = e'
  | (n, v) :: xs =>
      let nm := e - name_size n in
      let vl := nm - value_size v in
      im !! x = Some (mkItem (Some nm) (Some vl)) ∧ dm !! nm = Some (n ++ [NUL]) ∧ (v ≠ [] → dm !! vl = Some v) ∧ layout im dm (x + sizeof_item) vl xs x' e'
  end.

Lemma layout_app im dm xs ys : ∀ x e x' e',
  layout im dm x e (xs ++ ys) x' e' ↔ ∃ x1 e1, layout im dm x e xs x1 e1 ∧ layout im dm x1 e1 ys x' e'.
Proof.
  induction xs as [|[n v] xs IH]; intros x e x' e'; cbn [app layout].
  - split; [by exists x, e|by intros (? & ? & [-> ->] & H)].
  - split.
    + intros (H1 & H2 & H3 & (x1 & e1 & H4 & H5)%IH). exists x1, e1. by split_and!.
    + intros (x1 & e1 & (H1 & H2 & H3 & H4) & H5). split_and!; [done..|]. apply IH. by exists x1, e1.
Qed.

Lemma layout_ends im dm xs : ∀ x e x' e', Forall item_ok xs → layout im dm x e xs x' e' → x' = x + sizeof_item * zlen xs ∧ e' ≤ e.
Proof.
  induction xs as [|[n v] xs IH]; intros x e x' e' Hok Hl; cbn [layout] in Hl.
  - destruct Hl as [-> ->]. split; [unfold zlen; cbn; lia|lia].
  - apply Forall_cons_1 in Hok as [(Hn & Hv & _) Hok]. destruct Hl as (_ & _ & _ & Hl). apply IH in Hl as [-> Hl]; [|done]. rewrite zlen_cons.
    pose proof (name_size_pos n Hn). pose proof (value_size_pos v Hv) as [? _]. split; [unfold sizeof_item; lia|lia].
Qed.

(** Items and data that lie elsewhere do not matter. *)
Lemma layout_frame im im' dm dm' xs : ∀ x e x' e',
  Forall item_ok xs → layout im dm x e xs x' e' → (∀ a, a < x' → im' !! a = im !! a) → (∀ a, e' ≤ a → dm' !! a = dm !! a) → layout im' dm' x e xs x' e'.
Proof.
  induction xs as [|[n v] xs IH]; intros x e x' e' Hok Hl Hi Hd; cbn [layout] in *; [done|].
  apply Forall_cons_1 in Hok as [(Hn & Hv & _) Hok]. destruct Hl as (H1 & H2 & H3 & Hl). pose proof (layout_ends _ _ _ _ _ _ _ Hok Hl) as [Ex Ee].
  pose proof (value_size_pos v Hv) as [? _]. cbn in Hn. pose proof (zlen_nonneg xs). unfold sizeof_item in *.
  split_and!; [rewrite Hi by lia; done|rewrite Hd by lia; done|intros Hne; rewrite Hd by lia; by apply H3|by apply IH].
Qed.

Lemma layout_snoc im dm xs n v x e x' e' :
  Forall item_ok xs → item_ok (n, v) → layout im dm x e xs x' e' →
  let nm := e' - name_size n in let vl := nm - value_size v in
  layout (<[x' := mkItem (Some nm) (Some vl)]> im) (put_data vl v (put_data nm (n ++ [NUL]) dm)) x e (xs ++ [(n, v)]) (x' + sizeof_item) vl.
Proof.
  intros Hok (Hn & Hv & _) Hl nm vl. cbn [fst snd] in *. pose proof (name_size_pos n Hn). pose proof (value_size_pos v Hv) as [Hv1 Hv2].
  assert (Hput : put_data nm (n ++ [NUL]) dm = <[nm := n ++ [NUL]]> dm) by (unfold put_data; by destruct n).
  rewrite Hput. apply layout_app. exists x', e'. split.
  - apply (layout_frame im _ dm); [done..| |].
    + intros a Ha. rewrite lookup_insert_ne by lia. done.
    + intros a Ha. unfold put_data. destruct v; rewrite ?lookup_insert_ne by lia; done.
  - cbn [layout]. fold nm vl. split_and!; [by rewrite lookup_insert_eq| | |done|done].
    + unfold put_data. destruct v as [|b v]; [by rewrite lookup_insert_eq|]. rewrite lookup_insert_ne by (specialize (Hv2 ltac:(done)); lia). by rewrite lookup_insert_eq.
    + intros Hne. unfold put_data. destruct v; [done|]. by rewrite lookup_insert_eq.
Qed.

(** ** Operations *)

(** The array holds [xs], the oldest first; [start] is the place of its first item. *)
Record arr_ok (start : Z) (a : ci_array) (xs : list named) : Prop := {
  ao_items : items a = Some start ∨ (items a = None ∧ xs = []);
  ao_count : count a = zlen xs ∧ zlen xs < 2 ^ 31;
  ao_layout : layout (item_mem a) (data_mem a) start (pk_end (alloc a)) xs (curpos (alloc a)) (endpos (alloc a));
  ao_room : 0 ≤ room (alloc a) ∧ memchunk (alloc a) ≤ start;
  ao_small : pk_end (alloc a) - start ≤ INT_MAX;
  ao_good : Forall item_ok xs
}.

Definition cost (i : named) : Z := sizeof_item + name_size (fst i) + value_size (snd i).

Lemma arr_room start a xs : arr_ok start a xs → 0 ≤ room (alloc a) ≤ INT_MAX ∧ curpos (alloc a) = start + sizeof_item * zlen xs.
Proof.
  intros Ha. pose proof (layout_ends _ _ _ _ _ _ _ (ao_good _ _ _ Ha) (ao_layout _ _ _ Ha)) as [E1 E2]. pose proof (ao_room _ _ _ Ha). pose proof (ao_small _ _ _ Ha).
  pose proof (zlen_nonneg xs). unfold room, sizeof_item in *. split; [lia|done].
Qed.

Lemma array_add_spec start a xs n v :
  arr_ok start a xs → item_ok (n, v) → zlen xs + 1 < 2 ^ 31 →
  if cost (n, v) <=? room (alloc a)
  then ∃ a', ci_array_add n v a = Ret (true, a') ∧ arr_ok start a' (xs ++ [(n, v)]) ∧ room (alloc a') = room (alloc a) - cost (n, v)
  else ∃ a', ci_array_add n v a = Ret (false, a').
Proof.
  intros Ha Hi Hc. pose proof (arr_room _ _ _ Ha) as [Hr Hcur]. pose proof Hi as (Hn & Hv & _). cbn [fst snd] in *.
  pose proof (zlen_nonneg n). pose proof (zlen_nonneg v). pose proof (name_size_pos n Hn). pose proof (value_size_pos v Hv) as [? _].
  unfold ci_array_add, cost. cbn [fst snd]. rewrite front_spec by (done || (unfold sizeof_item; lia)).
  unfold INT_MAX in *. rewrite !(to_int_id (zlen _ + _)), (to_int_id (zlen v)) by (unfold INT_MIN, INT_MAX; lia).
  destruct (Z.leb_spec sizeof_item (room (alloc a))) as [H16|H16]; [|rewrite (proj2 (Z.leb_gt _ _)) by lia; by eexists].
  set (p1 := mkPack _ (curpos (alloc a) + sizeof_item) _ _). assert (Hr1 : room p1 = room (alloc a) - sizeof_item) by (unfold room, p1; cbn; lia).
  rewrite (rear_spec (zlen n + 1) p1) by (rewrite ?Hr1; unfold sizeof_item, INT_MAX in *; lia). rewrite Hr1. fold (name_size n).
  destruct (Z.leb_spec (name_size n) (room (alloc a) - sizeof_item)) as [Hns|Hns].
  2:{ rewrite (proj2 (Z.leb_gt _ _)) by lia. rewrite rear_spec by (rewrite ?Hr1; unfold sizeof_item, INT_MAX in *; lia).
      destruct (CI_ALIGN (zlen v) <=? room p1); by eexists. }
  set (p2 := mkPack _ (curpos p1) _ _). assert (Hr2 : room p2 = room (alloc a) - sizeof_item - name_size n) by (unfold room, p2, p1 in *; cbn in *; lia).
  rewrite (rear_spec (zlen v) p2) by (rewrite ?Hr2; unfold sizeof_item, INT_MAX in *; lia). rewrite Hr2. fold (value_size v).
  destruct (Z.leb_spec (value_size v) (room (alloc a) - sizeof_item - name_size n)) as [Hvs|Hvs]; [|rewrite (proj2 (Z.leb_gt _ _)) by lia; by eexists].
  rewrite (proj2 (Z.leb_le _ _)) by lia. eexists. split; [done|].
  split; [|cbn; unfold room; cbn; lia]. destruct Ha as [Hit [Hct Hct'] Hlay Hro Hsm Hgo]. pose proof (zlen_nonneg xs). split.
  - cbn. destruct Hit as [->|[-> ->]]; [by left|]. left. f_equal. rewrite Hcur. unfold zlen, sizeof_item. cbn. lia.
  - cbn. rewrite zlen_app, Hct, to_uint_id by lia. change (zlen [(n, v)]) with 1. lia.
  - cbn [alloc item_mem data_mem curpos endpos pk_end with_items with_mem with_alloc p2 p1].
    by apply (layout_snoc (item_mem a) (data_mem a) xs n v).
  - cbn. unfold room. cbn. unfold room in *. lia.
  - done.
  - apply Forall_app. split; [done|]. apply Forall_cons_2; [exact Hi|apply Forall_nil_2].
Qed.

(** The items from [i] on. *)
Lemma array_search_spec a start xs : ∀ (pre : list named) e x' e' name,
  items a = Some start → layout (item_mem a) (data_mem a) (start + sizeof_item * zlen pre) e xs x' e' → Forall item_ok xs → NUL ∉ name →
  match List.find (λ i : named, bool_decide (fst i = name)) xs with
  | Some (_, v) => ∃ vl, array_search_from (length xs) (zlen pre) name a = Ret (Some (Some vl)) ∧ (v ≠ [] → data_mem a !! vl = Some v)
  | None => array_search_from (length xs) (zlen pre) name a = Ret None
  end.
Proof.
  induction xs as [|[n v] xs IH]; intros pre e x' e' name Hi Hl Hok Hname; [done|]. cbn [layout List.find fst length array_search_from] in *.
  apply Forall_cons_1 in Hok as [(_ & _ & Hnul) Hok]. cbn in Hnul. destruct Hl as (H1 & H2 & H3 & Hl).
  unfold item_at. rewrite Hi. cbn [fmap option_fmap option_map get_item]. rewrite H1. cbn [obind it_name it_value get_data]. rewrite H2. cbn [obind].
  destruct (bool_decide_reflect (n = name)) as [->|Hne].
  - rewrite bool_decide_eq_true_2 by done. eexists. by split.
  - rewrite bool_decide_eq_false_2 by (intros Heq; apply app_inj_tail in Heq as [Heq _]; done).
    specialize (IH (pre ++ [(n, v)]) (e - name_size n - value_size v) x' e' name Hi). rewrite zlen_app in IH. change (zlen [(n, v)]) with 1 in IH.
    apply IH; [|done|done]. by replace (start + sizeof_item * (zlen pre + 1)) with (start + sizeof_item * zlen pre + sizeof_item) by lia.
Qed.

(** The end of the data when the items of [xs] are left. *)
Lemma last_end a start xs x1 e1 p :
  layout (item_mem a) (data_mem a) start (pk_end p) xs x1 e1 → Forall item_ok xs → items a = Some start →
  (if zlen xs =? 0 then ci_pack_allocator_set_end_pos None p
   else let* it := item_at (zlen xs - 1) a in ci_pack_allocator_set_end_pos (MIN_P (it_name it) (it_value it)) p) =
  Ret (mkPack (memchunk p) (curpos p) e1 (pk_end p)).
Proof.
  intros Hl Hok Hi. pose proof (layout_ends _ _ _ _ _ _ _ Hok Hl) as [_ He]. destruct (decide (xs = [])) as [->|Hne].
  - destruct Hl as [_ <-]. done.
  - destruct (exists_last Hne) as (ys & [n v] & ->). rewrite zlen_app in *. change (zlen [(n, v)]) with 1. pose proof (zlen_nonneg ys).
    rewrite (proj2 (Z.eqb_neq _ 0)) by lia. apply layout_app in Hl as (x2 & e2 & Hl & (H1 & _ & _ & _ & <-)).
    apply Forall_app in Hok as [Hok Hnv]. apply Forall_cons_1 in Hnv as [(Hn & Hv & _) _]. cbn in Hn, Hv.
    pose proof (layout_ends _ _ _ _ _ _ _ Hok Hl) as [-> _]. pose proof (value_size_pos v Hv) as [? _].
    unfold item_at. rewrite Hi. cbn [fmap option_fmap option_map get_item]. replace (zlen ys + 1 - 1) with (zlen ys) by lia. rewrite H1. cbn [obind it_name it_value MIN_P].
    rewrite Z.min_r by lia. unfold ci_pack_allocator_set_end_pos. rewrite (proj2 (Z.leb_le _ _)) by lia. done.
Qed.

Lemma array_pop_spec start a xs n v :
  arr_ok start a (xs ++ [(n, v)]) →
  ∃ nm vl a', ci_array_pop a = Ret (Some (mkItem (Some nm) (Some vl)), a') ∧ arr_ok start a' xs ∧ data_mem a' !! nm = Some (n ++ [NUL]) ∧
    (v ≠ [] → data_mem a' !! vl = Some v) ∧ room (alloc a') = room (alloc a) + cost (n, v).
Proof.
  intros Ha. pose proof (arr_room _ _ _ Ha) as [Hr Hcur]. destruct Ha as [Hit [Hct Hct'] Hlay [Hro Hst] Hsm Hgo]. rewrite zlen_app in *. change (zlen [(n, v)]) with 1 in *.
  pose proof (zlen_nonneg xs). apply Forall_app in Hgo as [Hgo Hnv]. apply Forall_cons_1 in Hnv as [(Hn & Hv & _) _]. cbn in Hn, Hv.
  pose proof (name_size_pos n Hn). pose proof (value_size_pos v Hv) as [? _].
  destruct Hit as [Hit|[_ Hnil]]; [|by destruct xs]. apply layout_app in Hlay as (x1 & e1 & Hl & (L1 & L2 & L3 & L4 & L5)).
  pose proof (layout_ends _ _ _ _ _ _ _ Hgo Hl) as [Ex Ee].
  unfold ci_array_pop. rewrite Hct, (proj2 (Z.eqb_neq _ 0)), Hit by lia. replace (zlen xs + 1 - 1) with (zlen xs) by lia. rewrite <- Ex.
  unfold ci_pack_allocator_set_start_pos. rewrite (proj2 (Z.leb_le _ x1)) by (unfold sizeof_item in *; lia). cbn [assert_ obind].
  set (a1 := with_items _ _ _). change (count a1) with (zlen xs). change (alloc a1) with (mkPack (memchunk (alloc a)) x1 (endpos (alloc a)) (pk_end (alloc a))).
  rewrite (last_end a1 start xs x1 e1) by (done || exact Hit). cbn [obind memchunk curpos pk_end]. unfold get_item.
  change (item_mem (with_alloc _ a1)) with (item_mem a). rewrite L1. cbn [obind]. eexists _, _, _. split; [done|].
  split; [|split; [exact L2|split; [exact L3|unfold room, cost, sizeof_item in *; cbn; lia]]].
  split; [by left|split; [done|lia]|exact Hl| |done|done]. split; [|done]. unfold room, sizeof_item in *. cbn. lia.
Qed.

Lemma array_pop_empty start a : arr_ok start a [] → ci_array_pop a = Ret (None, a).
Proof. intros Ha. destruct (ao_count _ _ _ Ha) as [Hc _]. unfold ci_array_pop. by rewrite Hc. Qed.

(** ** Programs that use an array, and the reference *)

(** [k] is the number of bytes of the value the program reads. *)
Inductive aop := AAdd (name value : list Z) | ASearch (name : list Z) (k : Z) | APop (k : Z).
Inductive aseen := ABool (b : bool) | AVal (o : option (list Z)) | AItem (o : option (list Z * list Z)).

Definition read_value (p : option Z) (k : Z) (a : ci_array) : outcome (list Z) :=
  if k =? 0 then Ret [] else let* d := get_data p a in read_bytes d 0 k.

Definition astep (o : aop) (a : ci_array) : outcome (aseen * ci_array) :=
  match o with
  | AAdd n v => let* (b, a) := ci_array_add n v a in Ret (ABool b, a)
  | ASearch n k =>
      let* r := ci_array_search n a in
      match r with None => Ret (AVal None, a) | Some p => let* d := read_value p k a in Ret (AVal (Some d), a) end
  | APop k =>
      let* (r, a) := ci_array_pop a in
      match r with
      | None => Ret (AItem None, a)
      | Some it => let* n := get_data (it_name it) a in let* d := read_value (it_value it) k a in Ret (AItem (Some (n, d)), a)
      end
  end.

Fixpoint arun (prog : list aop) (a : ci_array) : outcome (list aseen) :=
  match prog with [] => Ret [] | o :: prog => let* (x, a) := astep o a in let* xs := arun prog a in Ret (x :: xs) end.

Fixpoint last_named (xs : list named) : option (list named * named) :=
  match xs with [] => None | x :: xs => Some match last_named xs with None => ([], x) | Some (ys, y) => (x :: ys, y) end end.

(** What is read of a value. *)
Definition value_read (k : Z) (v : list Z) : option (list Z) := if (0 <=? k) && (k <=? zlen v) then Some (take (Z.to_nat k) v) else None.

(** A stack of named values, the oldest first, with the room left; [None] when a value is read past its end. *)
Definition aref_step (o : aop) (xs : list named) (free : Z) : option (aseen * list named * Z) :=
  match o with
  | AAdd n v => Some (if cost (n, v) <=? free then (ABool true, xs ++ [(n, v)], free - cost (n, v)) else (ABool false, xs, free))
  | ASearch n k =>
      match List.find (λ i, bool_decide (fst i = n)) xs with
      | None => Some (AVal None, xs, free)
      | Some (_, v) => d ← value_read k v; Some (AVal (Some d), xs, free)
      end
  | APop k =>
      match last_named xs with
      | None => Some (AItem None, xs, free)
      | Some (ys, (n, v)) => d ← value_read k v; Some (AItem (Some (n ++ [NUL], d)), ys, free + cost (n, v))
      end
  end.

(** The program ends with the first item that is refused. *)
Fixpoint aref_run (prog : list aop) (xs : list named) (free : Z) : option (list aseen) :=
  match prog with
  | [] => Some []
  | o :: prog =>
      '(x, xs, free) ← aref_step o xs free;
      match x, prog with
      | ABool false, _ :: _ => None
      | _, _ => r ← aref_run prog xs free; Some (x :: r)
      end
  end.

Definition aop_ok (o : aop) : Prop := match o with AAdd n v => item_ok (n, v) | ASearch n _ => NUL ∉ n | APop _ => True end.

Lemma read_value_spec a p v k d :
  (v ≠ [] → data_mem a !! p = Some v) → value_read k v = Some d → read_value (Some p) k a = Ret d.
Proof.
  unfold value_read, read_value. intros Hd Hk. destruct ((0 <=? k) && (k <=? zlen v)) eqn:E; [|done]. apply andb_true_iff in E as [H1%Z.leb_le H2%Z.leb_le].
  injection Hk as <-. destruct (Z.eqb_spec k 0) as [->|Hk]; [done|]. unfold get_data. rewrite Hd by (intros ->; unfold zlen in H2; cbn in H2; lia). cbn [obind].
  by rewrite read_bytes_ok by lia.
Qed.

Lemma last_named_snoc xs i : last_named (xs ++ [i]) = Some (xs, i).
Proof. induction xs as [|x xs IH]; cbn; [done|]. by rewrite IH. Qed.

Lemma astep_spec o start a xs x xs' free' :
  arr_ok start a xs → aop_ok o → zlen xs + 1 < 2 ^ 31 → aref_step o xs (room (alloc a)) = Some (x, xs', free') →
  ∃ a', astep o a = Ret (x, a') ∧ (x = ABool false ∨ (arr_ok start a' xs' ∧ room (alloc a') = free' ∧ zlen xs' ≤ zlen xs + 1)).
Proof.
  intros Ha Ho Hc He. destruct o as [n v|n k|k]; cbn [astep aref_step aop_ok] in *.
  - pose proof (array_add_spec start a xs n v Ha Ho Hc) as Hadd. injection He as He. destruct (cost (n, v) <=? room (alloc a)); simplify_eq.
    + destruct Hadd as (a' & -> & Ha' & Hr). cbn [obind]. eexists. split; [done|]. right. split_and!; [done|done|]. rewrite zlen_app. unfold zlen. cbn. lia.
    + destruct Hadd as (a' & ->). eexists. split; [done|]. by left.
  - unfold ci_array_search. destruct (ao_count _ _ _ Ha) as [Hct _]. rewrite Hct, zlen_to_nat.
    destruct (ao_items _ _ _ Ha) as [Hi|[_ ->]]; [|cbn in He |- *; simplify_eq; eexists; split; [done|]; right; by split_and!].
    pose proof (array_search_spec a start xs [] (pk_end (alloc a)) (curpos (alloc a)) (endpos (alloc a)) n Hi) as Hs.
    change (zlen (@nil named)) with 0 in Hs. rewrite Z.mul_0_r, Z.add_0_r in Hs. specialize (Hs (ao_layout _ _ _ Ha) (ao_good _ _ _ Ha) Ho).
    destruct (List.find _ xs) as [[n' v]|].
    + destruct Hs as (vl & -> & Hv). destruct (value_read k v) as [d|] eqn:Ev; [|done]. cbn in He. simplify_eq. cbn [obind].
      rewrite (read_value_spec a vl v k d Hv Ev). eexists. split; [done|]. right. split_and!; [done|done|lia].
    + rewrite Hs. simplify_eq. eexists. split; [done|]. right. split_and!; [done|done|lia].
  - destruct (decide (xs = [])) as [->|Hne].
    + rewrite (array_pop_empty start a Ha). cbn in He. simplify_eq. eexists. split; [done|]. right. by split_and!.
    + destruct (exists_last Hne) as (ys & [n v] & ->). rewrite last_named_snoc in He. destruct (value_read k v) as [d|] eqn:Ev; [|done]. cbn in He. injection He as <- <- <-.
      destruct (array_pop_spec start a ys n v Ha) as (nm & vl & a' & -> & Ha' & Hn & Hv & Hr). cbn [obind it_name it_value get_data]. rewrite Hn. cbn [obind].
      rewrite (read_value_spec a' vl v k d Hv Ev). eexists. split; [done|]. right. split_and!; [done|done|rewrite zlen_app; unfold zlen; cbn; lia].
Qed.

Lemma arun_spec prog : ∀ start a xs outs,
  arr_ok start a xs → Forall aop_ok prog → zlen xs + zlen prog < 2 ^ 31 → aref_run prog xs (room (alloc a)) = Some outs → arun prog a = Ret outs.
Proof.
  induction prog as [|o prog IH]; intros start a xs outs Ha Hp Hc He; cbn [aref_run arun] in *; [by simplify_eq|].
  apply Forall_cons_1 in Hp as [Ho Hp]. rewrite zlen_cons in Hc. pose proof (zlen_nonneg prog).
  destruct (aref_step o xs (room (alloc a))) as [[[x xs'] free']|] eqn:E; [|done]. cbn in He.
  destruct (astep_spec o start a xs x xs' free' Ha Ho ltac:(lia) E) as (a' & -> & Hx). cbn [obind].
  destruct Hx as [->|(Ha' & <- & Hl)].
  - destruct prog; [|done]. cbn in He. by simplify_eq.
  - assert (∃ r, aref_run prog xs' (room (alloc a')) = Some r ∧ outs = x :: r) as (r & Er & ->).
    { destruct x as [[] | |]; try (destruct prog; [|done]); destruct (aref_run _ xs' (room (alloc a'))) as [r|]; cbn in He; simplify_eq; by exists r. }
    by rewrite (IH start a' xs' r Ha' Hp ltac:(lia) Er).
Qed.

(** The room of a new array: what its size leaves after the structures of the allocator and of the array. *)
Definition room_of (size : Z) : Z := (size - 96) - (size - 96) mod 8 - 40.

Lemma aligned_offset_spec n : 8 ≤ n < 2 ^ 40 → ALIGNED_OFFSET n = n - n mod 8.
Proof.
  intros Hn. unfold ALIGNED_OFFSET, CI_ALIGN. pose proof (Z.div_mod n 8 ltac:(lia)) as Hd. pose proof (Z.mod_pos_bound n 8 ltac:(lia)) as Hm.
  rewrite (to_u64_id (n + 7)) by lia. assert (Hm7 : (n + 7) mod 8 = if n mod 8 =? 0 then 7 else n mod 8 - 1).
  { symmetry. destruct (Z.eqb_spec (n mod 8) 0); [apply (Z.mod_unique (n + 7) 8 (n / 8))|apply (Z.mod_unique (n + 7) 8 (n / 8 + 1))]; lia. }
  rewrite Hm7. destruct (Z.eqb_spec (n mod 8) 0) as [E|E].
  - rewrite (proj2 (Z.eqb_eq n _)) by lia. cbn [negb]. lia.
  - rewrite (proj2 (Z.eqb_neq n _)) by lia. cbn [negb]. rewrite (to_u64_id (n - 8)) by lia. rewrite to_u64_id by lia. replace (n - 8 + 7) with (n - 1) by lia.
    rewrite <- (Z.mod_unique (n - 1) 8 (n / 8) (n mod 8 - 1)); lia.
Qed.

Lemma array_new_spec mem size :
  136 ≤ size ≤ INT_MAX → ∃ a, ci_array_new (Some mem) size = Some a ∧ arr_ok (mem + 136) a [] ∧ room (alloc a) = room_of size.
Proof.
  unfold INT_MAX. intros Hs. unfold ci_array_new, ci_create_pack_allocator_on_memblock. change ci_pack_allocator_required_size with 96.
  rewrite (proj2 (Z.leb_gt _ _)) by lia. unfold init_pack_allocator, room_of. rewrite aligned_offset_spec by lia. pose proof (Z.mod_pos_bound (size - 96) 8 ltac:(lia)).
  assert (40 ≤ size - 96 - (size - 96) mod 8).
  { destruct (decide (48 ≤ size - 96)); [lia|]. pose proof (Z.div_mod (size - 96) 8 ltac:(lia)). assert ((size - 96) / 8 = 5) by (symmetry; apply (Z.div_unique _ _ 5 (size - 96 - 40)); lia). lia. }
  unfold ci_pack_allocator_alloc. change (CI_ALIGN sizeof_array) with 40. rewrite front_spec by (unfold room, INT_MAX; cbn; lia). unfold room at 1. cbn [endpos curpos].
  rewrite (proj2 (Z.leb_le _ _)) by lia. eexists. split; [done|]. unfold room. cbn. split; [|lia].
  split; cbn; [by right|by split|split; lia|unfold room; cbn; lia|unfold INT_MAX; lia|constructor].
Qed.

(** ** Properties *)



(** An item that was refused keeps the place it was given at the front: the array then looks there for the next item, whose name
    it reads from memory that was never written. *)
Lemma array_refused_item_corrupts :
  ∃ a, ci_array_new (Some 4096) 1024 = Some a ∧
    arun [AAdd (bytes "a") [1]; AAdd (bytes "b") (replicate 1000 0); AAdd (bytes "c") [2]] a = Ret [ABool true; ABool false; ABool true] ∧
    arun [AAdd (bytes "a") [1]; AAdd (bytes "b") (replicate 1000 0); AAdd (bytes "c") [2]; ASearch (bytes "c") 1] a = UB.
Proof. eexists. split; [reflexivity|]. split; vm_compute; reflexivity. Qed.

(** A pop of an array of pointers does not give back the room of the name. *)
Lemma ptr_array_pop_leaks :
  ∃ a a1 a2 it, ci_array_new (Some 4096) 1024 = Some a ∧ ci_ptr_array_add (bytes "name") (Some 8) a = Ret (true, a1) ∧
    ci_ptr_array_pop a1 = Ret (Some it, a2) ∧ room (alloc a2) = room (alloc a) - name_size (bytes "name").
Proof. do 4 eexists. split; [reflexivity|]. split; [reflexivity|]. split; [vm_compute; reflexivity|]. vm_compute. reflexivity. Qed.

(** A value that a vector has no room for leaves a hole in its index: after the next value an iteration reads a pointer that was
    never written. *)
Lemma vector_refused_value_corrupts :
  ∃ v, ci_vector_create (Some 4096) 1024 = Some v ∧
    (let (b1, v) := ci_vector_add [1] v in let (b2, v) := ci_vector_add (replicate 1000 0) v in let (b3, v) := ci_vector_add [2] v in
     (b1, b2, b3, vector_iterate 10 0 v)) = (true, false, true, UB).
Proof. eexists. split; [reflexivity|]. vm_compute. reflexivity. Qed.
