(* ===== verification/Serial.v ===== *)
(** The serial allocator of mem.c over the buffers of the pools: chunks in a chain, each filled from its start; memory is never
    given back.  A request that no chunk of the chain has room for makes a new chunk of the size of the first. *)
From stdpp Require Import base tactics numbers list gmap.
From S2P Require Import Prelude Buffers BuffersSafe Arrays.
From Stdlib Require Import ZArith Lia.
Open Scope Z_scope.

(** A chunk: its buffer, the bytes after its structure, and how many of them are in use. *)
Record serial_allocator := mkChunk { sc_buf : nat; sc_size : Z; sc_used : Z }.
Definition sizeof_serial : Z := 32.

Definition serial_allocator_build (a : answers) (size : Z) (s : mem) : outcome (option serial_allocator * mem) :=
  let size := to_int (CI_ALIGN (to_u64 size)) in
  if to_u64 size <? sizeof_serial + sizeof_mem_allocator then Ret (None, s)
  else
  let* (b, s) := ci_buffer_alloc a size s in
  match b with
  | None => UB
  | Some b => let* n := ci_buffer_blocksize b s in Ret (Some (mkChunk b (to_int (to_int n - sizeof_serial)) 0), s)
  end.

(** The first chunk with room, between those before it and after it. *)
Fixpoint find_room (size : Z) (chain : list serial_allocator) : option (list serial_allocator * serial_allocator * list serial_allocator) :=
  match chain with
  | [] => None
  | c :: chain => if sc_size c - sc_used c <? size then (λ '(x, y, z), (c :: x, y, z)) <$> find_room size chain else Some ([], c, chain)
  end.

(** [mem = curpos; curpos += size]: the buffer and the place in it. *)
Definition take_from (size : Z) (c : serial_allocator) : (nat * Z) * serial_allocator :=
  ((sc_buf c, sizeof_serial + sc_used c), mkChunk (sc_buf c) (sc_size c) (sc_used c + size)).

(** New chunks until one has room; [a] has the answers of malloc for every one. *)
Fixpoint build_until (fuel : nat) (a : nat → answers) (size max_size : Z) (chain : list serial_allocator) (s : mem) :
    outcome (option (nat * Z) * list serial_allocator * mem) :=
  match fuel with
  | O => NoFuel
  | S fuel =>
      let* (o, s) := serial_allocator_build (a (length chain)) max_size s in
      match o with
      | None => Ret (None, chain, s)
      | Some c =>
          if sc_size c - sc_used c <? size then build_until fuel a size max_size (chain ++ [c]) s
          else let (r, c) := take_from size c in Ret (Some r, chain ++ [c], s)
      end
  end.

Definition serial_allocation (fuel : nat) (a : nat → answers) (size : Z) (chain : list serial_allocator) (s : mem) :
    outcome (option (nat * Z) * list serial_allocator * mem) :=
  match chain with
  | [] => UB
  | first :: _ =>
      let size := CI_ALIGN size in
      let max_size := to_int (sc_size first) in
      if to_u64 max_size <? size then Ret (None, chain, s)
      else
      match find_room size chain with
      | Some (x, c, z) => let (r, c) := take_from size c in Ret (Some r, x ++ c :: z, s)
      | None => build_until fuel a size max_size chain s
      end
  end.

(** [ci_create_serial_allocator]: the structure of the allocator is the first allocation. *)
Definition ci_create_serial_allocator (fuel : nat) (a : answers) (size : Z) (s : mem) : outcome (option (list serial_allocator) * mem) :=
  let* (o, s) := serial_allocator_build a size s in
  match o with
  | None => UB
  | Some c =>
      let* (r, chain, s) := serial_allocation fuel (λ _, a) sizeof_mem_allocator [c] s in
      match r with None => let* s := ci_buffer_free (Some (sc_buf c)) s in Ret (None, s) | Some _ => Ret (Some chain, s) end
  end.

(** [serial_allocator_reset]: all chunks but the first are freed, each before its link to the next is read. *)
Fixpoint free_chunks (chain : list serial_allocator) (s : mem) : outcome mem :=
  match chain with
  | [] => Ret s
  | c :: chain => let* s := ci_buffer_free (Some (sc_buf c)) s in let* _ := get_block (sc_buf c) s in free_chunks chain s
  end.
Definition serial_allocator_reset (chain : list serial_allocator) (s : mem) : outcome (list serial_allocator * mem) :=
  match chain with
  | [] => UB
  | c :: rest => let* s := free_chunks rest s in Ret ([mkChunk (sc_buf c) (sc_size c) (CI_ALIGN sizeof_mem_allocator)], s)
  end.

(** ** Requests that are answered *)

Lemma align_le n : 0 ≤ n → n mod 8 = 0 → n < 2 ^ 40 → CI_ALIGN n = n.
Proof.
  intros H0 Hm Hn. unfold CI_ALIGN. rewrite to_u64_id by lia. pose proof (Z.div_mod n 8 ltac:(lia)).
  rewrite <- (Z.mod_unique (n + 7) 8 (n / 8) 7); lia.
Qed.

Lemma class_size_pool n : 1 ≤ n ≤ 32768 → class_size n ∈ pool_sizes ∧ n ≤ class_size n.
Proof. intros Hn. split; [|apply class_size_ge]. unfold class_size, pool_sizes. cbn [foldr]. repeat case_cmp; (set_solver || lia). Qed.

(** A chunk of the size the first one offers is as large as the first. *)
Lemma class_size_stable n : 88 ≤ n ≤ 32768 → class_size (class_size n - 32) = class_size n.
Proof.
  intros Hn. assert (class_size n ∈ [128; 256; 512; 1024; 2048; 4096; 8192; 16384; 32768]) as Hin.
  { unfold class_size, pool_sizes. cbn [foldr]. repeat case_cmp; (set_solver || lia). }
  rewrite !elem_of_cons in Hin. destruct_or! Hin; try (rewrite Hin; reflexivity). by apply not_elem_of_nil in Hin.
Qed.

(** malloc always answers. *)
Definition answers_full (a : answers) : Prop := an_node a = true ∧ is_Some (an_item a) ∧ is_Some (an_plain a).

Lemma full_ok a : answers_full a → answers_ok a.
Proof. intros (H1 & H2 & _). split; [done|by left]. Qed.

Lemma alloc_full t n s own a s' :
  pools_inv t s own → answers_full a → 1 ≤ n ≤ INT_MAX - 8 → ci_buffer_alloc a n s ≠ Ret (None, s').
Proof.
  unfold INT_MAX. intros Hi (Hnode & [ji Hitem] & [jp Hplain]) Hn. unfold ci_buffer_alloc.
  pose proof (buffer_class_spec s n (pi_tables _ _ _ Hi) ltac:(lia)) as Hc. rewrite to_int_id by (unfold INT_MIN, INT_MAX, PTR_OFFSET; lia).
  destruct (n <=? 32768).
  - destruct Hc as (k & -> & Hk). cbn [obind]. destruct (lookup_lt_is_Some_2 (pools s) k) as [p Hp]; [rewrite (pi_length _ _ _ Hi); by apply lookup_lt_Some in Hk|].
    destruct (pi_pools _ _ _ Hi _ _ Hp) as [Hsz _ _ _]. rewrite Hk in Hsz. injection Hsz as Hsz. pose proof (class_size_ge n).
    unfold pool_allocator_alloc. rewrite Hp, to_u64_id by (unfold PTR_OFFSET; lia). rewrite (proj2 (Z.ltb_ge _ _)) by lia.
    destruct (pl_free p) as [|b rest].
    + rewrite Hnode. cbn [negb]. unfold malloc at 1. rewrite Hitem, (proj2 (Z.leb_le _ _)) by lia. unfold incr. destruct (_ =? INT_MAX); [done|]. cbn [obind].
      destruct (get_block _ _); cbn [obind]; done.
    + unfold incr. destruct (_ =? INT_MAX); [done|]. cbn [obind]. destruct (get_block _ _); cbn [obind]; done.
  - rewrite Hc. cbn [obind]. unfold malloc. rewrite Hplain, (proj2 (Z.leb_le _ _)) by (unfold PTR_OFFSET; lia). destruct (get_block _ _); cbn [obind]; done.
Qed.

Lemma build_spec t s own a size :
  pools_inv t s own → answers_full a → 88 ≤ size ≤ INT_MAX - 8 → size mod 8 = 0 → (t < INT_MAX ∨ 32768 < size) →
  ∃ b s' d, serial_allocator_build a size s = Ret (Some (mkChunk b (class_size size - 32) 0), s') ∧ (∀ h, own !! b ≠ Some (Held h)) ∧
    (∀ h, pools_inv (t + 1) s' (<[b := Held h]> own)) ∧ heap s' = <[b := mkBlock BUF_SIGNATURE size d]> (heap s) ∧ class_size size ≤ zlen d.
Proof.
  intros Hi Ha Hs Hm Ht. pose proof Hs as Hs'. unfold INT_MAX in Hs'. unfold serial_allocator_build. rewrite (to_u64_id size), align_le by lia. rewrite to_int_id by (unfold INT_MIN, INT_MAX; lia).
  rewrite to_u64_id by lia. change (sizeof_serial + sizeof_mem_allocator) with 88. rewrite (proj2 (Z.ltb_ge _ _)) by lia.
  assert (∃ r s1, ci_buffer_alloc a size s = Ret (r, s1) ∧ alloc_post t size s own r s1) as (r & s1 & Hr & Hpost).
  { destruct (decide (size ≤ 32768)); [apply alloc_pooled; [done|by apply full_ok|lia|destruct Ht; [done|lia]]|apply alloc_plain; [done|unfold INT_MAX; lia]]. }
  rewrite Hr. cbn [obind]. destruct r as [b|]; [|by destruct (alloc_full t size s own a s1 Hi Ha ltac:(lia))].
  destruct Hpost as (Hnew & Hinv & d & Hh & Hd). pose proof (class_size_int size ltac:(unfold INT_MAX; lia)). pose proof (class_size_ge size).
  rewrite (blocksize_spec s1 b d size); [|apply (Hinv 0%nat)|by rewrite Hh, lookup_insert_eq|lia]. cbn [obind].
  rewrite (to_int_id (class_size size)), to_int_id by (unfold INT_MIN, sizeof_serial in *; lia). exists b, s1, d. by split_and!.
Qed.

(** *** A request larger than a new chunk *)

(** With chunks of more than 32800 bytes a request that is not larger than the first chunk, but larger than the chunks made
    after it, is never answered: chunks are allocated without end.  The chunks become smaller because the size of the
    first, without its structure, is the size the next is made with. *)
Theorem serial_allocation_diverges size a s fuel :
  32800 < size ≤ INT_MAX - 8 → size mod 8 = 0 → (∀ i, answers_full (a i)) → pools_inv 0 s ∅ →
  ∃ c s', serial_allocator_build (a 0%nat) size s = Ret (Some c, s') ∧
    serial_allocation fuel a (size - 32) [mkChunk (sc_buf c) (sc_size c) 56] s' = NoFuel.
Proof.
  intros Hs Hm Ha Hi. pose proof Hs as Hs'. unfold INT_MAX in Hs'.
  destruct (build_spec 0 s ∅ (a 0%nat) size Hi (Ha _) ltac:(lia) Hm ltac:(unfold INT_MAX; lia)) as (b & s1 & d & -> & _ & Hinv & _ & _).
  rewrite class_size_large by lia. eexists _, s1. split; [done|]. cbn [sc_buf sc_size]. unfold serial_allocation. cbn [sc_size].
  assert (Hm32 : (size - 32) mod 8 = 0) by (rewrite Zminus_mod, Hm; reflexivity).
  rewrite align_le by lia. rewrite to_int_id by (unfold INT_MIN, INT_MAX; lia). rewrite to_u64_id by lia. rewrite Z.ltb_irrefl.
  cbn [find_room sc_size sc_used]. rewrite (proj2 (Z.ltb_lt _ _)) by lia. cbn [fmap option_fmap option_map].
  assert (Hloop : ∀ chain s own t, pools_inv t s own → build_until fuel a (size - 32) (size - 32) chain s = NoFuel).
  { induction fuel as [|fuel IH]; intros chain s2 own t Hi2; [done|]. cbn [build_until].
    destruct (build_spec t s2 own (a (length chain)) (size - 32) Hi2 (Ha _)) as (b2 & s3 & d2 & -> & _ & Hinv2 & _ & _); [unfold INT_MAX; lia|done|right; lia|].
    cbn [obind sc_size sc_used]. rewrite class_size_large by lia. rewrite (proj2 (Z.ltb_lt _ _)) by lia. by apply (IH _ _ (<[b2 := Held 0]> own) (t + 1)). }
  by apply (Hloop _ _ (<[b := Held 0]> ∅) 1).
Qed.

Lemma serial_allocation_diverges_witness :
  ∃ c s', serial_allocator_build zeros 40000 ci_buffers_init = Ret (Some c, s') ∧
    serial_allocation 1000 (λ _, zeros) 39968 [mkChunk (sc_buf c) (sc_size c) 56] s' = NoFuel.
Proof.
  apply (serial_allocation_diverges 40000 (λ _, zeros) ci_buffers_init 1000); [unfold INT_MAX; lia|done| |apply init_sim].
  intros i. split; [done|]. by split; eexists.
Defined.

(** *** Requests to an allocator of ordinary size *)

(** A piece of memory: buffer, place, length. *)
Abbreviation region := (nat * Z * Z)%type.
Definition apart (r1 r2 : region) : Prop :=
  let '(b1, o1, n1) := r1 in let '(b2, o2, n2) := r2 in b1 ≠ b2 ∨ o1 + n1 ≤ o2 ∨ o2 + n2 ≤ o1.

Record ser_ok (t : Z) (s : mem) (own : gmap nat owner) (m : Z) (chain : list serial_allocator) (regs : list region) : Prop := {
  so_inv : pools_inv t s own;
  so_chunks : ∀ i c, chain !! i = Some c → sc_size c = m ∧ 0 ≤ sc_used c ≤ m ∧ sc_used c mod 8 = 0 ∧ own !! sc_buf c = Some (Held i) ∧
    ∃ n d, heap s !! sc_buf c = Some (mkBlock BUF_SIGNATURE n d) ∧ m + sizeof_serial ≤ zlen d;
  so_regs : ∀ b off n, (b, off, n) ∈ regs → ∃ i c, chain !! i = Some c ∧ sc_buf c = b ∧ sizeof_serial ≤ off ∧ off mod 8 = 0 ∧ off + n ≤ sizeof_serial + sc_used c;
  so_apart : ∀ i j r1 r2, i ≠ j → regs !! i = Some r1 → regs !! j = Some r2 → apart r1 r2
}.

(** The piece given by a chunk of the chain. *)
Lemma take_from_ok t s own m chain regs i c n :
  ser_ok t s own m chain regs → chain !! i = Some c → 0 ≤ n → n mod 8 = 0 → n ≤ m - sc_used c →
  ser_ok t s own m (<[i := mkChunk (sc_buf c) (sc_size c) (sc_used c + n)]> chain) ((sc_buf c, sizeof_serial + sc_used c, n) :: regs).
Proof.
  intros [Hi Hc Hr Ha] Hci Hn Hm Hle. destruct (Hc i c Hci) as (E1 & E2 & E3 & E4 & E5). pose proof (lookup_lt_Some _ _ _ Hci) as Hlt.
  assert (Hmod : (sc_used c + n) mod 8 = 0) by (rewrite Z.add_mod, E3, Hm by lia; reflexivity).
  assert (Hnew : ∀ b off k, (b, off, k) ∈ regs → apart (sc_buf c, sizeof_serial + sc_used c, n) (b, off, k)).
  { intros b off k Hin. destruct (Hr b off k Hin) as (i' & c' & Hci' & <- & _ & _ & Hend). destruct (decide (sc_buf c' = sc_buf c)) as [Heq|Hne]; [|left; congruence].
    destruct (Hc i' c' Hci') as (_ & _ & _ & E4' & _). rewrite Heq, E4 in E4'. injection E4' as <-. assert (c' = c) as -> by congruence. right. right. done. }
  split; [done| | |].
  - intros i' c' Hci'. apply list_lookup_insert_Some in Hci' as [(<- & <- & _)|[_ Hci']]; [|by apply Hc]. cbn. split_and!; try done; lia.
  - intros b off k [Heq|Hin]%elem_of_cons.
    + injection Heq as -> -> ->. eexists i, _. rewrite list_lookup_insert_eq by done. split; [done|]. cbn. unfold sizeof_serial. split_and!; try done; try lia. rewrite Z.add_mod, E3 by lia. reflexivity.
    + destruct (Hr b off k Hin) as (i' & c' & Hci' & Hb & H1 & H2 & H3). destruct (decide (i' = i)) as [->|Hne]; [|exists i', c'; by rewrite list_lookup_insert_ne].
      assert (c' = c) as -> by congruence. eexists i, _. rewrite list_lookup_insert_eq by done. split; [done|]. cbn. split_and!; try done. lia.
  - intros [|x] [|y] [[b1 o1] n1] [[b2 o2] n2] Hne H1 H2; cbn in H1, H2; [done| | |by apply (Ha x y); [congruence|..]].
    + injection H1 as <- <- <-. apply Hnew. by apply list_elem_of_lookup_2 in H2.
    + injection H2 as <- <- <-. apply list_elem_of_lookup_2 in H1. apply Hnew in H1. cbn in *. naive_solver.
Qed.

(** One more chunk, with nothing taken from it. *)
Lemma chunk_added t s own m chain regs b s' d n :
  ser_ok t s own m chain regs → (∀ h, own !! b ≠ Some (Held h)) → pools_inv (t + 1) s' (<[b := Held (length chain)]> own) →
  heap s' = <[b := mkBlock BUF_SIGNATURE n d]> (heap s) → m + sizeof_serial ≤ zlen d → 0 ≤ m →
  ser_ok (t + 1) s' (<[b := Held (length chain)]> own) m (chain ++ [mkChunk b m 0]) regs.
Proof.
  intros [Hi Hc Hr Ha] Hnew Hi' Hh Hd Hm. split; [done| |  |done].
  - intros i c Hci. apply lookup_app_Some in Hci as [Hci|[Hge Hci]].
    + destruct (Hc i c Hci) as (E1 & E2 & E3 & E4 & n0 & d0 & E5 & E6). assert (sc_buf c ≠ b) by (intros Heq; rewrite Heq in E4; by destruct (Hnew i)).
      split_and!; try done; [lia|lia|by rewrite lookup_insert_ne|]. exists n0, d0. by rewrite Hh, lookup_insert_ne.
    + destruct (i - length chain)%nat as [|k] eqn:E; [|by destruct k]. cbn in Hci. injection Hci as <-. cbn. assert (i = length chain) as -> by lia.
      split_and!; try done; [by rewrite lookup_insert_eq|]. exists n, d. by rewrite Hh, lookup_insert_eq.
  - intros b' off k Hin. destruct (Hr b' off k Hin) as (i & c & Hci & Hrest). exists i, c. split; [|done]. by apply lookup_app_l_Some.
Qed.

Lemma find_room_spec size chain :
  match find_room size chain with
  | Some (x, c, z) => chain = x ++ c :: z ∧ size ≤ sc_size c - sc_used c
  | None => Forall (λ c, sc_size c - sc_used c < size) chain
  end.
Proof.
  induction chain as [|c chain IH]; [constructor|]. cbn [find_room]. destruct (Z.ltb_spec (sc_size c - sc_used c) size); [|done].
  destruct (find_room size chain) as [[[x y] z]|]; cbn; [|by constructor]. destruct IH as [-> Hy]. done.
Qed.

Lemma serial_step t s own m chain regs a k size fuel :
  ser_ok t s own m chain regs → m = class_size size - 32 → 88 ≤ size ≤ 32768 → (∀ i, answers_full (a i)) → chain ≠ [] → 1 ≤ k ≤ INT_MAX - 8 → t < INT_MAX →
  if CI_ALIGN k <=? m
  then ∃ b off chain' s' own', serial_allocation (S fuel) a k chain s = Ret (Some (b, off), chain', s') ∧ chain' ≠ [] ∧
         ser_ok (t + 1) s' own' m chain' ((b, off, CI_ALIGN k) :: regs)
  else serial_allocation (S fuel) a k chain s = Ret (None, chain, s).
Proof.
  intros Hok Hm Hsz Ha Hne Hk Ht. pose proof Hk as Hk'. unfold INT_MAX in Hk'. pose proof (align_spec k ltac:(lia)) as [Hal Hmod].
  destruct (class_size_pool size ltac:(lia)) as [Hpool Hge]. assert (Hbnd : 96 ≤ m ≤ 32736 ∧ m mod 8 = 0).
  { rewrite Hm. unfold pool_sizes in Hpool. rewrite !elem_of_cons in Hpool. destruct_or! Hpool; try (rewrite Hpool in *; (split; [lia|reflexivity])); lia || by apply not_elem_of_nil in Hpool. }
  destruct chain as [|c0 chain]; [done|]. destruct (so_chunks _ _ _ _ _ _ Hok 0%nat c0 eq_refl) as (Hs0 & _). unfold serial_allocation. rewrite Hs0.
  rewrite to_int_id, to_u64_id by (unfold INT_MIN, INT_MAX; lia).
  destruct (Z.leb_spec (CI_ALIGN k) m) as [Hle|Hgt]; [|by rewrite (proj2 (Z.ltb_lt _ _)) by lia]. rewrite (proj2 (Z.ltb_ge _ _)) by lia.
  pose proof (find_room_spec (CI_ALIGN k) (c0 :: chain)) as Hf. destruct (find_room (CI_ALIGN k) (c0 :: chain)) as [[[x c] z]|].
  - destruct Hf as [Heq Hc]. rewrite Heq in Hok. assert (Hci : (x ++ c :: z) !! length x = Some c) by (by rewrite list_lookup_middle).
    destruct (so_chunks _ _ _ _ _ _ Hok _ _ Hci) as (E1 & _). cbn. eexists _, _, _, s, own. split; [done|]. split; [by destruct x|].
    pose proof (take_from_ok _ _ _ _ _ _ _ _ (CI_ALIGN k) Hok Hci ltac:(lia) Hmod ltac:(lia)) as Hok'. rewrite <- (Nat.add_0_r (length x)) in Hok'.
    rewrite insert_app_r in Hok'. cbn in Hok'. destruct Hok' as [Hi1 Hc1 Hr1 Ha1]. split; [by apply (keep_pool t s own 0 (mkPool 0 0 0 [] 0))|done..].
  - cbn [build_until]. destruct (build_spec t s own (a (length (c0 :: chain))) m (so_inv _ _ _ _ _ _ Hok) (Ha _)) as (b & s1 & d & -> & Hnew & Hinv & Hh & Hd);
      [unfold INT_MAX; lia|apply Hbnd|by left|].
    cbn [obind]. assert (Hst : class_size m = m + 32) by (rewrite Hm, class_size_stable by done; lia). rewrite Hst. replace (m + 32 - 32) with m by lia.
    cbn [sc_size sc_used]. rewrite (proj2 (Z.ltb_ge _ _)) by lia. cbn [take_from sc_buf sc_used sc_size].
    pose proof (chunk_added _ _ _ _ _ _ b s1 d m Hok Hnew (Hinv _) Hh ltac:(unfold sizeof_serial; lia) ltac:(lia)) as Hok1.
    assert (Hci : ((c0 :: chain) ++ [mkChunk b m 0]) !! length (c0 :: chain) = Some (mkChunk b m 0)) by (by rewrite list_lookup_middle).
    pose proof (take_from_ok _ _ _ _ _ _ _ _ (CI_ALIGN k) Hok1 Hci ltac:(lia) Hmod ltac:(cbn; lia)) as Hok2. cbn [sc_buf sc_used sc_size] in Hok2.
    rewrite <- (Nat.add_0_r (length (c0 :: chain))) in Hok2 at 2. rewrite insert_app_r in Hok2. eexists _, _, _, s1, _. split; [done|]. split; [done|exact Hok2].
Qed.

(** A sequence of requests; a request that needs a new chunk needs one only. *)
Fixpoint serve (a : nat → answers) (sizes : list Z) (chain : list serial_allocator) (s : mem) : outcome (list (option (nat * Z))) :=
  match sizes with
  | [] => Ret []
  | k :: sizes => let* (r, chain, s) := serial_allocation 1 a k chain s in let* rs := serve a sizes chain s in Ret (r :: rs)
  end.

(** The pieces that were given. *)
Definition given (sizes : list Z) (rs : list (option (nat * Z))) : list region :=
  omap (λ '(k, r), match r with Some (b, off) => Some (b, off, CI_ALIGN k) | None => None end) (zip sizes rs).

(** Pieces that lie apart, in place, and within the [m] bytes of their chunk. *)
Definition pieces_ok (m : Z) (regs : list region) : Prop :=
  (∀ i j r1 r2, i ≠ j → regs !! i = Some r1 → regs !! j = Some r2 → apart r1 r2) ∧
  Forall (λ '(_, off, n), sizeof_serial ≤ off ∧ off mod 8 = 0 ∧ off + n ≤ sizeof_serial + m) regs.

Lemma ser_pieces t s own m chain regs : ser_ok t s own m chain regs → pieces_ok m regs.
Proof.
  intros Hok. split; [apply Hok|]. apply Forall_forall. intros [[b off] n] Hin. destruct (so_regs _ _ _ _ _ _ Hok b off n Hin) as (i & c & Hc & _ & H1 & H2 & H3).
  destruct (so_chunks _ _ _ _ _ _ Hok i c Hc) as (_ & H4 & _). split_and!; [done|done|lia].
Qed.

Lemma pieces_ok_perm m r1 r2 : r1 ≡ₚ r2 → pieces_ok m r1 → pieces_ok m r2.
Proof.
  intros Hp [Ha Hf]. split; [|by rewrite <- Hp]. intros i j x y Hij Hi Hj. apply Permutation_sym, Permutation_inj in Hp as (_ & f & Hinj & Hl).
  apply (Ha (f i) (f j)); [|by rewrite <- Hl..]. intros Heq. by apply Hij, Hinj.
Qed.

Lemma serve_spec size m a sizes : ∀ t s own chain regs,
  ser_ok t s own m chain regs → m = class_size size - 32 → 88 ≤ size ≤ 32768 → (∀ i, answers_full (a i)) → chain ≠ [] →
  Forall (λ k, 1 ≤ k ≤ INT_MAX - 8) sizes → t + zlen sizes ≤ INT_MAX →
  ∃ rs, serve a sizes chain s = Ret rs ∧ Forall2 (λ k r, is_Some r ↔ CI_ALIGN k ≤ m) sizes rs ∧ pieces_ok m (given sizes rs ++ regs).
Proof.
  induction sizes as [|k sizes IH]; intros t s own chain regs Hok Hm Hsz Ha Hne Hk Ht; cbn [serve]; [exists []; split_and!; [done|constructor|by eapply ser_pieces]|].
  apply Forall_cons_1 in Hk as [Hk Hks]. rewrite zlen_cons in Ht. pose proof (zlen_nonneg sizes).
  pose proof (serial_step t s own m chain regs a k size 0 Hok Hm Hsz Ha Hne Hk ltac:(lia)) as Hst. destruct (Z.leb_spec (CI_ALIGN k) m) as [Hle|Hgt].
  - destruct Hst as (b & off & chain' & s' & own' & -> & Hne' & Hok'). cbn [obind].
    destruct (IH _ _ _ _ _ Hok' Hm Hsz Ha Hne' Hks ltac:(lia)) as (rs & -> & Hf & Hp). eexists. split; [done|]. split; [constructor; [by split; [|eexists]|done]|].
    eapply pieces_ok_perm; [|exact Hp]. cbn. symmetry. apply Permutation_middle.
  - rewrite Hst. cbn [obind]. destruct (IH _ _ _ _ _ Hok Hm Hsz Ha Hne Hks ltac:(lia)) as (rs & -> & Hf & Hp). eexists. split; [done|]. split; [|exact Hp].
    constructor; [|done]. split; [by intros [? ?]|lia].
Qed.

(** C30: a serial allocator of at most 32768 bytes answers every request, with one new chunk at most: requests that are not
    larger than a chunk are granted and the others refused, and the pieces granted are aligned, lie within their chunk, and no
    two of them overlap. *)
Theorem serial_pieces_apart size a sizes :
  88 ≤ size ≤ 32768 → size mod 8 = 0 → (∀ i, answers_full (a i)) → Forall (λ k, 1 ≤ k ≤ INT_MAX - 8) sizes → zlen sizes < INT_MAX - 1 →
  ∃ chain s rs, ci_create_serial_allocator 1 (a 0%nat) size ci_buffers_init = Ret (Some chain, s) ∧ serve a sizes chain s = Ret rs ∧
    Forall2 (λ k r, is_Some r ↔ CI_ALIGN k ≤ class_size size - 32) sizes rs ∧ pieces_ok (class_size size - 32) (given sizes rs).
Proof.
  intros Hsz Hmod Ha Hk Hl. pose proof (zlen_nonneg sizes). unfold ci_create_serial_allocator.
  destruct (build_spec 0 ci_buffers_init ∅ (a 0%nat) size (si_inv _ _ _ _ _ init_sim) (Ha _)) as (b & s1 & d & -> & Hnew & Hinv & Hh & Hd); [unfold INT_MAX; lia|done|unfold INT_MAX; lia|].
  cbn [obind]. assert (Hok : ser_ok 1 s1 (<[b := Held 0]> ∅) (class_size size - 32) [mkChunk b (class_size size - 32) 0] []).
  { pose proof (class_size_ge size). apply (chunk_added 0 ci_buffers_init ∅ (class_size size - 32) [] [] b s1 d size); try done; [|unfold sizeof_serial; lia|lia].
    split; [apply init_sim|done|set_solver|done]. }
  pose proof (serial_step 1 s1 _ _ _ _ (λ _, a 0%nat) sizeof_mem_allocator size 0 Hok eq_refl Hsz (λ _, Ha _) ltac:(done) ltac:(done) ltac:(done)) as Hst.
  destruct (class_size_pool size ltac:(lia)) as [Hpool Hge]. assert (Hbnd : CI_ALIGN sizeof_mem_allocator ≤ class_size size - 32) by (change (CI_ALIGN sizeof_mem_allocator) with 56; lia).
  rewrite (proj2 (Z.leb_le _ _) Hbnd) in Hst. destruct Hst as (b' & off & chain & s2 & own2 & Hrun & Hne & Hok2). cbn [sc_buf]. rewrite Hrun. cbn [obind].
  destruct (serve_spec size (class_size size - 32) a sizes (1 + 1) s2 own2 chain _ Hok2 eq_refl Hsz Ha Hne Hk ltac:(lia)) as (rs & Hs & Hf & [Hp1 Hp2]).
  exists chain, s2, rs. split_and!; [done|done|done|]. apply Forall_app in Hp2 as [Hp2 _]. split; [|done].
  intros i j r1 r2 Hij Hi Hj. apply (Hp1 i j); [done|by apply lookup_app_l_Some..].
Qed.

Lemma serial_pieces_apart_witness :
  ∃ chain s rs, ci_create_serial_allocator 1 zeros 1024 ci_buffers_init = Ret (Some chain, s) ∧ serve (λ _, zeros) [100; 900; 30; 5000; 700] chain s = Ret rs ∧
    Forall2 (λ k r, is_Some r ↔ CI_ALIGN k ≤ class_size 1024 - 32) [100; 900; 30; 5000; 700] rs ∧ pieces_ok (class_size 1024 - 32) (given [100; 900; 30; 5000; 700] rs).
Proof.
  apply (serial_pieces_apart 1024 (λ _, zeros)); [lia|done| | |done].
  - intros i. split; [done|]. by split; eexists.
  - repeat first [apply Forall_nil_2 | apply Forall_cons_2; [unfold INT_MAX; lia|]].
Defined.

(** A chunk outside of the pools is read after it was freed when the allocator is reset. *)
Lemma serial_reset_reads_freed :
  (let* (o, s) := serial_allocator_build zeros 40000 ci_buffers_init in
   let* (o2, s) := serial_allocator_build zeros 40000 s in
   match o, o2 with Some c, Some c2 => serial_allocator_reset [c; c2] s | _, _ => Ret ([], s) end) = UB.
Proof. vm_compute. reflexivity. Qed.
