(* ===== verification/Config.v ===== *)
(** * Reading the configuration (cfg_param.c, cfg_lib.c)

    Lines of a file are cut into a directive and its arguments; the directive is looked up in the table of the server or in a table
    that a service or module registered, and its action called.  The buffer of a line is memory of 8192 bytes that
    [find_action] and [split_args] change in place.  The parameters are a finite map from variables to values; actions of
    other parts are an argument. *)

From stdpp Require Import base list list_numbers strings numbers option gmap.
From Stdlib Require Import ZArith Lia.
From S2P Require Import Prelude CString.

Definition LINESIZE : Z := 8192.
Definition MAX_ARGS : nat := 50.
Definition MAX_INCLUDE_LEVEL : Z := 5.

(** ** Numbers and words of arguments *)

Definition is_dec (b : Z) : bool := (48 <=? b) && (b <=? 57).

Fixpoint span (f : Z → bool) (s : list Z) : list Z * list Z :=
  match s with
  | [] => ([], [])
  | b :: s' => if f b then let '(a, r) := span f s' in (b :: a, r) else ([], s)
  end.

Definition dec_value (ds : list Z) : Z := foldl (λ v b, 10 * v + (b - 48)) 0 ds.

(** [strtoll(s, &end, 10)] of a whole string: the value, what [end] points at, and whether errno is set. *)
Definition strtoll (s : list Z) : Z * list Z * bool :=
  let s1 := (span isspace s).2 in
  let neg := match s1 with c :: _ => c =? 45 | [] => false end in
  let s2 := match s1 with c :: s' => if (c =? 45) || (c =? 43) then s' else s1 | [] => s1 end in
  let '(ds, r) := span is_dec s2 in
  match ds with
  | [] => (0, s, false)
  | _ =>
      let v := if neg then - dec_value ds else dec_value ds in
      (clamp_long v, r, negb (clamp_long v =? v))
  end.

(** [strcasecmp(a, b) == 0]. *)
Definition same_word (a b : list Z) : bool := bool_decide (map tolower a = map tolower b).

(** ** Parameters *)

Inductive value := VInt (z : Z) | VLong (z : Z) | VOff (z : Z) | VStr (s : option (list Z)).
#[export] Instance value_eq : EqDecision value.
Proof. solve_decision. Defined.

(** The directives whose actions belong to other parts. *)
Inductive custom :=
  SetPort | LoadMagicfile | SetLogger | SetAccesslog | SetLogformat | LoadService | ServiceAlias | LoadModule | SetTmpDir |
  SetAclControllers | AclAdd | DefaultAclAccess | SetAuthMethod | GroupSourceByGroup | GroupSourceByUser |
  SharedMemScheme | ProcLockScheme |
  SrvTransferPreview | SrvTransferIgnore | SrvTransferComplete | SrvPreviewSize | SrvMaxConnections | SrvOptionsTtl | SrvAllow206.

Inductive action :=
  | SetInt | SetStr | OnOff | Enable | Disable | SizeOff | SizeLong
  | DebugLevel | BodyMaxmem | IncludeFile
  | Custom (c : custom).

(** A row of a table: [ce_data] names the variable the action sets, [ce_xdata] says which settings of a service it works on: an index
    into the array of these settings, and which of the places the array has had. *)
Record ci_conf_entry := mkEntry { ce_name : list Z; ce_data : option string; ce_action : option action; ce_xdata : option (nat * nat) }.
Record sub_table := mkSub { su_name : list Z; su_type : Z; su_table : list ci_conf_entry }.

Definition row (n : string) (v : string) (a : action) : ci_conf_entry := mkEntry (bytes n) (Some v) (Some a) None.
Definition row_custom (n : string) (a : action) : ci_conf_entry := mkEntry (bytes n) None (Some a) None.

(** The directives of the server; [tls] says whether it is built with OpenSSL. *)
Definition conf_variables (tls : bool) : list ci_conf_entry :=
  [row "PidFile" "CI_CONF.PIDFILE" SetStr; row "CommandsSocket" "CI_CONF.COMMANDS_SOCKET" SetStr; row "Timeout" "TIMEOUT" SetInt;
   mkEntry (bytes "KeepAlive") None None None; row "MaxKeepAliveRequests" "MAX_KEEPALIVE_REQUESTS" SetInt;
   row "KeepAliveTimeout" "KEEPALIVE_TIMEOUT" SetInt; row "StartServers" "CI_CONF.START_SERVERS" SetInt;
   row "MaxServers" "CI_CONF.MAX_SERVERS" SetInt; row "MinSpareThreads" "CI_CONF.MIN_SPARE_THREADS" SetInt;
   row "MaxSpareThreads" "CI_CONF.MAX_SPARE_THREADS" SetInt; row "ThreadsPerChild" "CI_CONF.THREADS_PER_CHILD" SetInt;
   row "MaxRequestsPerChild" "MAX_REQUESTS_PER_CHILD" SetInt;
   row "MaxRequestsReallocateMem" "MAX_REQUESTS_BEFORE_REALLOCATE_MEM" SetInt; row "Port" "CI_CONF.PORTS" (Custom SetPort)] ++
  (if tls then
     [row "TlsPort" "CI_CONF.PORTS" (Custom SetPort); row "TlsPassphrase" "CI_CONF.TLS_PASSPHRASE" SetStr;
      row "SslPort" "CI_CONF.PORTS" (Custom SetPort); row "SslPassphrase" "CI_CONF.TLS_PASSPHRASE" SetStr]
   else []) ++
  [row "User" "CI_CONF.RUN_USER" SetStr; row "Group" "CI_CONF.RUN_GROUP" SetStr; row "ServerAdmin" "CI_CONF.SERVER_ADMIN" SetStr;
   row "ServerName" "CI_CONF.SERVER_NAME" SetStr; row_custom "LoadMagicFile" (Custom LoadMagicfile);
   row "Logger" "default_logger" (Custom SetLogger); row "ServerLog" "SERVER_LOG_FILE" SetStr;
   row_custom "AccessLog" (Custom SetAccesslog); row_custom "LogFormat" (Custom SetLogformat); row_custom "DebugLevel" DebugLevel;
   row "ServicesDir" "CI_CONF.SERVICES_DIR" SetStr; row "ModulesDir" "CI_CONF.MODULES_DIR" SetStr;
   row_custom "Service" (Custom LoadService); row_custom "ServiceAlias" (Custom ServiceAlias); row_custom "Module" (Custom LoadModule);
   row_custom "TmpDir" (Custom SetTmpDir); row_custom "MaxMemObject" BodyMaxmem; row_custom "AclControllers" (Custom SetAclControllers);
   row_custom "acl" (Custom AclAdd); row_custom "icap_access" (Custom DefaultAclAccess);
   row_custom "client_access" (Custom DefaultAclAccess); row_custom "AuthMethod" (Custom SetAuthMethod); row_custom "Include" IncludeFile;
   row "RemoteProxyUserHeader" "REMOTE_PROXY_USER_HEADER" SetStr;
   row "RemoteProxyUserHeaderEncoded" "REMOTE_PROXY_USER_HEADER_ENCODED" OnOff; row "RemoteProxyUsers" "ALLOW_REMOTE_PROXY_USERS" OnOff;
   row "TemplateDir" "TEMPLATE_DIR" SetStr; row "TemplateDefaultLanguage" "TEMPLATE_DEF_LANG" SetStr;
   row "TemplateReloadTime" "TEMPLATE_RELOAD_TIME" SetInt; row "TemplateCacheSize" "TEMPLATE_CACHE_SIZE" SetInt;
   row "TemplateMemBufSize" "TEMPLATE_MEMBUF_SIZE" SetInt; row_custom "GroupSourceByGroup" (Custom GroupSourceByGroup);
   row_custom "GroupSourceByUser" (Custom GroupSourceByUser); row_custom "InterProcessSharedMemScheme" (Custom SharedMemScheme);
   row_custom "InterProcessLockingScheme" (Custom ProcLockScheme); row "DefaultService" "DEFAULT_SERVICE" SetStr;
   row "Pipelining" "PIPELINING" OnOff; row "SupportBuggyClients" "CHECK_FOR_BUGGY_CLIENT" OnOff;
   row "Allow204As200okZeroEncaps" "ALLOW204_AS_200OK_ZERO_ENCAPS" Enable; row "FakeAllow204" "FAKE_ALLOW204" OnOff].

(** ** The state *)

(** [extra_conf_tables] with its holes and its size, [default_values] in the order of the list, the level of included files,
    and whether the debug level came from the command line; [c_world] is the state of the other parts. *)
Record config (W : Type) := mkConfig {
  c_vars : gmap string value;
  c_defaults : list (string * value);
  c_tables : option (list (option sub_table));
  c_size : Z;
  PARSE_LEVEL : Z;
  DebugLevelSetFromCmd : bool;
  c_world : W
}.
Arguments mkConfig {W}. Arguments c_vars {W}. Arguments c_defaults {W}. Arguments c_tables {W}. Arguments c_size {W}.
Arguments PARSE_LEVEL {W}. Arguments DebugLevelSetFromCmd {W}. Arguments c_world {W}.

Section config.
Context {W : Type}.

Definition with_vars (v : gmap string value) (c : config W) : config W := mkConfig v (c_defaults c) (c_tables c) (c_size c) (PARSE_LEVEL c) (DebugLevelSetFromCmd c) (c_world c).
Definition with_defaults (d : list (string * value)) (c : config W) : config W := mkConfig (c_vars c) d (c_tables c) (c_size c) (PARSE_LEVEL c) (DebugLevelSetFromCmd c) (c_world c).
Definition with_tables (t : option (list (option sub_table))) (n : Z) (c : config W) : config W := mkConfig (c_vars c) (c_defaults c) t n (PARSE_LEVEL c) (DebugLevelSetFromCmd c) (c_world c).
Definition with_level (l : Z) (c : config W) : config W := mkConfig (c_vars c) (c_defaults c) (c_tables c) (c_size c) l (DebugLevelSetFromCmd c) (c_world c).
Definition with_world (w : W) (c : config W) : config W := mkConfig (c_vars c) (c_defaults c) (c_tables c) (c_size c) (PARSE_LEVEL c) (DebugLevelSetFromCmd c) w.
Definition set_var (x : string) (v : value) (c : config W) : config W := with_vars (<[x := v]> (c_vars c)) c.

(** ** Setting parameters (cfg_lib.c) *)

(** [ac]: the allocator of the configuration has memory.  A variable is read and written with the type of the setter; the
    result is 0 or 1. *)
Definition ci_cfg_set_int (argv : option (list (list Z))) (x : option string) (c : config W) : outcome (Z * config W) :=
  match x, argv with
  | Some x, Some (a :: _) =>
      let '(v, _, err) := strtoll a in
      let v := to_int v in
      if (v =? 0) && err then Ret (0, c) else Ret (1, set_var x (VInt v) c)
  | _, _ => Ret (0, c)
  end.

Definition ci_cfg_set_str (ac : bool) (argv : option (list (list Z))) (x : option string) (c : config W) : outcome (Z * config W) :=
  match x, argv with
  | Some x, Some (a :: _) =>
      if ac then Ret (1, set_var x (VStr (Some a)) c) else Ret (0, set_var x (VStr None) c)
  | _, _ => Ret (0, c)
  end.

Definition ci_cfg_onoff (argv : option (list (list Z))) (x : option string) (c : config W) : outcome (Z * config W) :=
  match x, argv with
  | Some x, Some (a :: _) =>
      if same_word a (bytes "on") then Ret (1, set_var x (VInt 1) c)
      else if same_word a (bytes "off") then Ret (1, set_var x (VInt 0) c)
      else Ret (0, c)
  | _, _ => Ret (0, c)
  end.

Definition ci_cfg_disable (x : option string) (c : config W) : outcome (Z * config W) :=
  match x with Some x => Ret (1, set_var x (VInt 0) c) | None => Ret (0, c) end.

Definition ci_cfg_enable (x : option string) (c : config W) : outcome (Z * config W) :=
  match x with Some x => Ret (1, set_var x (VInt 1) c) | None => Ret (0, c) end.

(** The value with its unit; a product that is too large is a signed overflow. *)
Definition scaled (v : Z) (rest : list Z) : outcome Z :=
  let k := match rest with
           | b :: _ => if (b =? 107) || (b =? 75) then 1024 else if (b =? 109) || (b =? 77) then 1024 * 1024 else 1
           | [] => 1
           end in
  if v * k <=? LONG_MAX then Ret (v * k) else UB.

Definition cfg_size (mk : Z → value) (argv : option (list (list Z))) (x : option string) (c : config W) : outcome (Z * config W) :=
  match x, argv with
  | Some x, Some (a :: _) =>
      let '(v, rest, err) := strtoll a in
      if ((v =? 0) && err) || (v <? 0) then Ret (0, c)
      else
      let* v := scaled v rest in
      Ret (1, if 0 <? v then set_var x (mk v) c else c)
  | _, _ => Ret (0, c)
  end.

Definition ci_cfg_size_off := cfg_size VOff.
Definition ci_cfg_size_long := cfg_size VLong.

(** ** Default values *)

Fixpoint cfg_default_value_search (d : list (string * value)) (x : string) : option value :=
  match d with
  | [] => None
  | (y, v) :: d' => if bool_decide (y = x) then Some v else cfg_default_value_search d' x
  end.

(** [am]: malloc gives memory. *)
Definition cfg_default_value_store (am : bool) (x : string) (c : config W) : outcome (config W) :=
  match cfg_default_value_search (c_defaults c) x with
  | Some _ => Ret c
  | None =>
      match c_vars c !! x with
      | None => UB
      | Some v => Ret (if am then with_defaults (c_defaults c ++ [(x, v)]) c else c)
      end
  end.

Definition cfg_default_value_restore_all (c : config W) : config W :=
  with_vars (foldl (λ m p, <[p.1 := p.2]> m) (c_vars c) (c_defaults c)) c.

(** The actions that keep the default first. *)
Definition intl (am : bool) (x : option string) (f : option string → config W → outcome (Z * config W)) (c : config W) : outcome (Z * config W) :=
  match x with
  | None => Ret (0, c)
  | Some v => let* c := cfg_default_value_store am v c in f x c
  end.

Definition intl_cfg_set_str am ac argv x := intl am x (ci_cfg_set_str ac argv).
Definition intl_cfg_set_int am argv x := intl am x (ci_cfg_set_int argv).
Definition intl_cfg_onoff am argv x := intl am x (ci_cfg_onoff argv).
Definition intl_cfg_disable am x := intl am x ci_cfg_disable.
Definition intl_cfg_enable am x := intl am x ci_cfg_enable.
Definition intl_cfg_size_off am argv x := intl am x (ci_cfg_size_off argv).
Definition intl_cfg_size_long am argv x := intl am x (ci_cfg_size_long argv).

Definition cfg_set_debug_level am argv (c : config W) : outcome (Z * config W) :=
  if DebugLevelSetFromCmd c then Ret (1, c) else intl_cfg_set_int am argv (Some "CI_DEBUG_LEVEL"%string) c.
Definition cfg_set_body_maxmem am argv (c : config W) : outcome (Z * config W) :=
  intl_cfg_size_long am argv (Some "CI_BODY_MAX_MEM"%string) c.

(** ** The tables *)

Definition STEPSIZE : Z := 10.

Fixpoint search_conf_table (t : list ci_conf_entry) (name : list Z) : option ci_conf_entry :=
  match t with
  | [] => None
  | e :: t' => if bool_decide (name = ce_name e) then Some e else search_conf_table t' name
  end.

Definition init_conf_tables (am : bool) (c : config W) : config W :=
  if am then with_tables (Some []) STEPSIZE c else with_tables None (c_size c) c.
Definition reset_conf_tables (c : config W) : config W :=
  with_tables (option_map (λ _, []) (c_tables c)) (c_size c) c.

(** The first hole, unless the name is met before it. *)
Fixpoint insert_pos (name : list Z) (i : nat) (l : list (option sub_table)) : option (option nat) :=
  match l with
  | [] => Some None
  | None :: _ => Some (Some i)
  | Some s :: l' => if bool_decide (name = su_name s) then None else insert_pos name (S i) l'
  end.

(** [ar]: realloc gives memory. *)
Definition register_conf_table (ar : bool) (name : list Z) (t : list ci_conf_entry) (ty : Z) (c : config W) : Z * config W :=
  match c_tables c with
  | None => (0, c)
  | Some l =>
      match insert_pos name 0 l with
      | None => (0, c)
      | Some (Some i) => (1, with_tables (Some (<[i := Some (mkSub name ty t)]> l)) (c_size c) c)
      | Some None =>
          if zlen l =? c_size c then
            if ar then (1, with_tables (Some (l ++ [Some (mkSub name ty t)])) (c_size c + STEPSIZE) c) else (0, c)
          else (1, with_tables (Some (l ++ [Some (mkSub name ty t)])) (c_size c) c)
      end
  end.

Fixpoint table_at (name : list Z) (i : nat) (l : list (option sub_table)) : option (nat * sub_table) :=
  match l with
  | [] => None
  | Some s :: l' => if bool_decide (name = su_name s) then Some (i, s) else table_at name (S i) l'
  | None :: l' => table_at name (S i) l'
  end.

Definition unregister_conf_table (name : list Z) (c : config W) : option (list ci_conf_entry) * config W :=
  match c_tables c with
  | None => (None, c)
  | Some l =>
      match table_at name 0 l with
      | Some (i, s) => (Some (su_table s), with_tables (Some (<[i := None]> l)) (c_size c) c)
      | None => (None, c)
      end
  end.

Definition search_variables (tls : bool) (table : option (list Z)) (name : list Z) (c : config W) : option ci_conf_entry :=
  match table with
  | None => search_conf_table (conf_variables tls) name
  | Some t =>
      match c_tables c with
      | None => None
      | Some l => match table_at t 0 l with Some (_, s) => search_conf_table (su_table s) name | None => None end
      end
  end.

(** ** A line *)

(** [while (f( *p)) p++;] from offset [i] of the memory. *)
Definition scan (f : Z → bool) (m : list Z) (i : Z) : outcome Z :=
  match skip_while f (drop (Z.to_nat i) m) with Some (k, _) => Ret (i + Z.of_nat k) | None => UB end.

Definition string_at (m : list Z) (i : Z) : outcome (list Z) :=
  match cstr (drop (Z.to_nat i) m) with Some s => Ret s | None => UB end.

Definition blank (b : Z) : bool := negb (b =? 0) && isspace b.
Definition inword (b : Z) : bool := negb (b =? 0) && negb (isspace b).

(** The table and the name of the directive, and where the arguments start. *)
Definition find_action (m : list Z) (str : Z) : outcome (option (list Z) * list Z * Z * list Z) :=
  let* e := scan inword m str in
  let* m := store m e 0 in
  let* arg := scan blank m (e + 1) in
  let* s := string_at m str in
  let '(a, b) := span (λ c, negb (c =? 46)) s in
  match b with
  | [] => Ret (None, s, arg, m)
  | _ :: name => Ret (Some a, name, arg, <[Z.to_nat (str + zlen a) := 0]> m)
  end.

(** [for (p = end; *p != 0; p++) *p = *(p+1);] *)
Fixpoint shift_left (m : list Z) : outcome (list Z) :=
  match m with
  | [] => UB
  | c :: m' => if c =? 0 then Ret m else match m' with [] => UB | d :: _ => let* r := shift_left m' in Ret (d :: r) end
  end.

(** In quotes: the length up to the closing quote or the end, and the memory without the backslashes. *)
Fixpoint quoted (fuel : nat) (m : list Z) : outcome (nat * list Z) :=
  match fuel with
  | O => NoFuel
  | S fuel' =>
      match m with
      | [] => UB
      | c :: m' =>
          if (c =? 0) || (c =? 34) then Ret (O, m)
          else
          let* m :=
            if c =? 92 then match m' with [] => UB | d :: _ => if d =? 34 then shift_left m else Ret m end else Ret m in
          match m with
          | [] => UB
          | c :: m' => let* (k, r) := quoted fuel' m' in Ret (S k, c :: r)
          end
      end
  end.

(** A word, with white space between braces. *)
Fixpoint bare (brkt : bool) (m : list Z) : outcome nat :=
  match m with
  | [] => UB
  | c :: m' =>
      if negb (c =? 0) && (negb (isspace c) || brkt) then
        let* k := bare (if c =? 123 then true else if brkt && (c =? 125) then false else brkt) m' in Ret (S k)
      else Ret O
  end.

(** [m] is the memory from [end] on, [n] the number of arguments there is still room for. *)
Fixpoint split_loop (n : nat) (m : list Z) : outcome (list (list Z)) :=
  match n with
  | O => Ret []
  | S n' =>
      let* (len, m) :=
        match m with
        | [] => UB
        | c :: m' => if c =? 34 then quoted (S (length m')) m' else let* k := bare false m in Ret (k, m)
        end in
      let arg := take len m in
      let m := drop len m in
      if bool_decide (n' = O) then Ret [arg]
      else
      match m with
      | [] => UB
      | c :: m' =>
          match skip_while blank (if c =? 34 then m' else m) with
          | None => UB
          | Some (_, m) =>
              match m with
              | [] => UB
              | c :: _ => if c =? 0 then Ret [arg] else let* r := split_loop n' m in Ret (arg :: r)
              end
          end
      end
  end.

(** [am]: the allocations of the arguments succeed. *)
Definition split_args (am : bool) (m : list Z) (args : Z) : outcome (list (list Z)) :=
  if am then split_loop MAX_ARGS (drop (Z.to_nat args) m) else UB.

(** ** Files *)

(** What is left of the file, whether the end was met, and whether reads fail at the end of the bytes (a directory, a bad disk). *)
Record file := mkFile { f_rest : list Z; f_eof : bool; f_fails : bool }.

(** At most [n] characters, up to and with a newline; whether the file ended before that. *)
Fixpoint take_line (n : nat) (s : list Z) : list Z * bool * list Z :=
  match n with
  | O => ([], false, s)
  | S n' =>
      match s with
      | [] => ([], true, [])
      | c :: s' => if c =? 10 then ([c], false, s') else let '(l, e, r) := take_line n' s' in (c :: l, e, r)
      end
  end.

Definition fgets (n : Z) (f : file) : option (list Z) * file :=
  let '(l, e, r) := take_line (Z.to_nat (n - 1)) (f_rest f) in
  if e then
    if f_fails f then (None, mkFile [] (f_eof f) true)
    else (match l with [] => None | _ => Some l end, mkFile [] true false)
  else (Some l, mkFile r (f_eof f) (f_fails f)).

(** [while (!feof(f)) if (fgetc(f) == 10) return 1; return 0;] *)
Fixpoint skip_line (fuel : nat) (f : file) : outcome (Z * file) :=
  match fuel with
  | O => NoFuel
  | S fuel' =>
      if f_eof f then Ret (0, f)
      else
      match f_rest f with
      | [] => skip_line fuel' (mkFile [] (negb (f_fails f)) (f_fails f))
      | c :: r => let f := mkFile r false (f_fails f) in if c =? 10 then Ret (1, f) else skip_line fuel' f
      end
  end.

Definition fread_line (fuel : nat) (f : file) (line : list Z) : outcome (Z * list Z * file) :=
  let '(o, f) := fgets LINESIZE f in
  match o with
  | None =>
      if f_eof f then let* line := store line 0 0 in Ret (-1, line, f) else Ret (0, line, f)
  | Some l =>
      let* line := write_bytes line 0 (l ++ [0]) in
      let* s := string_at line 0 in
      let* b := load line (LINESIZE - 2) in
      if (LINESIZE - 2 <=? zlen s) && negb (b =? 10) then
        let* (r, f) := skip_line fuel f in Ret (r, line, f)
      else Ret (1, line, f)
  end.

(** ** Lines and files *)

(** [am], [ac]: malloc and the allocator of the configuration have memory; [cust] are the actions of other parts, [files] the files
    there are, CONFDIR the directory of the configuration. *)
Context (tls am ac : bool) (CONFDIR : list Z) (files : list Z → option (list Z * bool))
  (cust : custom → ci_conf_entry → list (list Z) → config W → outcome (Z * config W)).

Definition CI_MAX_PATH : Z := 4096.

(** [inc] parses another file. *)
Definition run_action (inc : list Z → config W → outcome (Z * config W)) (a : action) (e : ci_conf_entry) (argv : list (list Z))
    (c : config W) : outcome (Z * config W) :=
  let x := ce_data e in
  match a with
  | SetInt => intl_cfg_set_int am (Some argv) x c
  | SetStr => intl_cfg_set_str am ac (Some argv) x c
  | OnOff => intl_cfg_onoff am (Some argv) x c
  | Enable => intl_cfg_enable am x c
  | Disable => intl_cfg_disable am x c
  | SizeOff => intl_cfg_size_off am (Some argv) x c
  | SizeLong => intl_cfg_size_long am (Some argv) x c
  | DebugLevel => cfg_set_debug_level am (Some argv) c
  | BodyMaxmem => cfg_set_body_maxmem am (Some argv) c
  | IncludeFile =>
      match argv with
      | [] => Ret (0, c)
      | p :: _ => inc (if bool_decide (head p = Some 47) then p else take (Z.to_nat (CI_MAX_PATH - 1)) (CONFDIR ++ bytes "/" ++ p)) c
      end
  | Custom k => cust k e argv c
  end.

(** The line as a string in the buffer of the reader. *)
Definition line_buffer (s : list Z) : list Z :=
  let l := take (Z.to_nat LINESIZE) s in
  <[Z.to_nat (LINESIZE - 1) := 0]> (l ++ replicate (Z.to_nat (LINESIZE - zlen l)) 0).

Definition process_line (inc : list Z → config W → outcome (Z * config W)) (s : list Z) (c : config W) : outcome (Z * config W) :=
  let line := line_buffer s in
  let* str := scan blank line 0 in
  let* b := load line str in
  if (b =? 0) || (b =? 35) then Ret (1, c)
  else
  let* (table, name, args, line) := find_action line str in
  match search_variables tls table name c with
  | None => Ret (0, c)
  | Some e =>
      match ce_action e with
      | None => Ret (0, c)
      | Some a =>
          let* argv := split_args am line args in
          let* (r, c) := run_action inc a e argv c in
          Ret (if r =? 0 then 0 else 1, c)
      end
  end.

Fixpoint parse_lines (inc : list Z → config W → outcome (Z * config W)) (fuel : nat) (f : file) (line : list Z) (ret : Z) (c : config W) :
    outcome (Z * config W) :=
  match fuel with
  | O => NoFuel
  | S fuel' =>
      if f_eof f then Ret (ret, c)
      else
      let* (r, line, f) := fread_line fuel f line in
      let* (r, c) :=
        if r =? 0 then Ret (0, c) else let* s := string_at line 0 in process_line inc s c in
      parse_lines inc fuel' f line (if r =? 0 then 0 else ret) c
  end.

(** [junk] is what the buffer holds; [levels] bounds the depth of the recursion, [fuel] the lines of a file. *)
Fixpoint parse_file (junk : Z → Z) (levels fuel : nat) (path : list Z) (c : config W) : outcome (Z * config W) :=
  if MAX_INCLUDE_LEVEL <=? PARSE_LEVEL c then Ret (0, c)
  else
  match files path with
  | None => Ret (0, c)
  | Some (d, fails) =>
      match levels with
      | O => NoFuel
      | S levels' =>
          let* (r, c) := parse_lines (parse_file junk levels' fuel) fuel (mkFile d false fails) (fresh junk 0 LINESIZE) 1
            (with_level (PARSE_LEVEL c + 1) c) in
          Ret (r, with_level (PARSE_LEVEL c - 1) c)
      end
  end.
End config.
