(* ===== verification/ConfigSafe.v ===== *)
(** * What configuration lines do

    Arguments are read back as they were written, a line runs the action of its directive, a configuration is read to its end
    whatever files include each other, and the defaults come back when the configuration is read again. *)

From stdpp Require Import base list list_numbers strings numbers option gmap.
From Stdlib Require Import ZArith Lia.
From S2P Require Import Prelude CString Config.

(** ** Arguments *)

(** An argument as it is written: a word, or a string in quotes with a backslash before each quote in it. *)
Inductive item := Bare (a : list Z) | Quoted (a : list Z).
Definition value_of (i : item) : list Z := match i with Bare a | Quoted a => a end.

Fixpoint escape (a : list Z) : list Z :=
  match a with [] => [] | c :: a' => if c =? 34 then 92 :: 34 :: escape a' else c :: escape a' end.

Definition text_of (i : item) : list Z := match i with Bare a => a | Quoted a => 34 :: escape a ++ [34] end.

Definition nonzero (s : list Z) : Prop := Forall (λ c, c ≠ 0) s.

(** A word has white space only between braces, and its braces are closed. *)
Fixpoint word_ok (brkt : bool) (a : list Z) : bool :=
  match a with
  | [] => negb brkt
  | c :: a' => negb (c =? 0) && (negb (isspace c) || brkt) && word_ok (if c =? 123 then true else if brkt && (c =? 125) then false else brkt) a'
  end.

Definition item_ok (i : item) : Prop :=
  match i with
  | Bare a => a ≠ [] ∧ head a ≠ Some 34 ∧ word_ok false a = true
  | Quoted a => nonzero a ∧ last a ≠ Some 92
  end.

Lemma shift_left_cons c d m : c ≠ 0 → shift_left (c :: d :: m) = let* r := shift_left (d :: m) in Ret (d :: r).
Proof. intros Hc. unfold shift_left at 1. by rewrite (proj2 (Z.eqb_neq c 0)). Qed.

Lemma shift_left_spec c s st :
  c ≠ 0 → nonzero s → shift_left (c :: s ++ 0 :: st) = Ret (s ++ 0 :: 0 :: st).
Proof.
  intros Hc Hs. revert c Hc. induction Hs as [|d s Hd Hs IH]; intros c Hc; cbn [app]; rewrite shift_left_cons by done; [done|].
  by rewrite (IH d Hd).
Qed.

Lemma quoted_spec fuel a s st :
  nonzero a → last a ≠ Some 92 → nonzero s → (length a < fuel)%nat →
  ∃ st', quoted fuel (escape a ++ 34 :: s ++ 0 :: st) = Ret (length a, a ++ 34 :: s ++ 0 :: st').
Proof.
  intros Ha. revert fuel st. induction Ha as [|c a Hc Ha IH]; intros fuel st Hl Hs Hf; (destruct fuel as [|fuel]; [cbn in Hf; lia|]).
  { by exists st. }
  assert (Hl' : last a ≠ Some 92) by (destruct a; [done|by rewrite last_cons_cons in Hl]).
  assert (Hesc : nonzero (escape a ++ 34 :: s)).
  { apply Forall_app. split; [|by constructor]. clear -Ha. induction Ha as [|d a Hd Ha IHa]; cbn [escape]; [constructor|]. case_match; repeat constructor; done. }
  cbn [escape length]. destruct (Z.eqb_spec c 34) as [-> |Hq].
  - cbn [app quoted Z.eqb orb Pos.eqb].
    replace (92 :: 34 :: escape a ++ 34 :: s ++ 0 :: st) with (92 :: (34 :: escape a ++ 34 :: s) ++ 0 :: st) by (cbn [app]; by rewrite <- app_assoc).
    rewrite shift_left_spec by (done || (constructor; done)). cbn [obind app]. rewrite <- app_assoc. cbn [app].
    destruct (IH fuel (0 :: st) Hl' Hs) as (st' & ->); [cbn in Hf; lia|]. by exists st'.
  - cbn [app quoted]. rewrite (proj2 (Z.eqb_neq c 0)), (proj2 (Z.eqb_neq c 34)) by done. cbn [orb].
    assert (Hm : (if c =? 92 then match escape a ++ 34 :: s ++ 0 :: st with [] => UB | d :: _ => if d =? 34 then shift_left (c :: escape a ++ 34 :: s ++ 0 :: st) else Ret (c :: escape a ++ 34 :: s ++ 0 :: st) end
      else Ret (c :: escape a ++ 34 :: s ++ 0 :: st)) = Ret (c :: escape a ++ 34 :: s ++ 0 :: st)).
    { destruct (Z.eqb_spec c 92) as [-> |]; [|done]. destruct a as [|d a]; [done|]. cbn [escape]. destruct (Z.eqb_spec d 34); cbn [app]; [done|]. by rewrite (proj2 (Z.eqb_neq d 34)). }
    rewrite Hm. cbn [obind]. destruct (IH fuel st Hl' Hs) as (st' & ->); [cbn in Hf; lia|]. by exists st'.
Qed.

Lemma bare_spec brkt a c m : word_ok brkt a = true → c = 0 ∨ isspace c = true → bare brkt (a ++ c :: m) = Ret (length a).
Proof.
  revert brkt. induction a as [|d a IH]; intros brkt Hw Hc; cbn [app bare word_ok length] in *.
  - destruct brkt; [done|]. destruct Hc as [-> | ->]; [done|]. by rewrite orb_false_r, andb_false_r.
  - apply andb_prop in Hw as [H1 Hw]. rewrite H1, (IH _ Hw Hc). done.
Qed.

Definition blanks (s : list Z) : Prop := Forall (λ c, blank c = true) s.

(** The items with white space after each; only after the last there may be none. *)
Fixpoint args_text (l : list (item * list Z)) : list Z :=
  match l with [] => [] | (i, sp) :: l' => text_of i ++ sp ++ args_text l' end.
Fixpoint spaced (l : list (item * list Z)) : Prop :=
  match l with
  | [] => True
  | (i, sp) :: l' => item_ok i ∧ blanks sp ∧ (l' ≠ [] → sp ≠ []) ∧ spaced l'
  end.

Lemma blank_not_zero c : blank c = true → c ≠ 0 ∧ isspace c = true.
Proof. unfold blank. destruct (Z.eqb_spec c 0); [done|]. done. Qed.

Lemma blanks_nonzero s : blanks s → nonzero s.
Proof. intros Hs. eapply Forall_impl; [exact Hs|]. intros c Hc. by apply blank_not_zero. Qed.

Lemma word_nonzero brkt a : word_ok brkt a = true → nonzero a.
Proof.
  revert brkt. induction a as [|d a IH]; intros brkt Hw; [constructor|]. cbn [word_ok] in Hw.
  destruct (Z.eqb_spec d 0); [done|]. apply andb_prop in Hw as [_ Hw]. constructor; [done|by eapply IH].
Qed.

Lemma escape_nonzero a : nonzero a → nonzero (escape a).
Proof. induction 1 as [|d a Hd Ha IHa]; cbn [escape]; [constructor|]. case_match; repeat constructor; done. Qed.

Lemma args_nonzero l : spaced l → nonzero (args_text l).
Proof.
  induction l as [|[i sp] l IH]; [constructor|]. intros (Hi & Hsp & _ & Hl). cbn [args_text]. unfold nonzero. rewrite !Forall_app.
  split; [|split; [by apply blanks_nonzero|by apply IH]]. destruct i as [a|a]; cbn [text_of].
  - destruct Hi as (_ & _ & Hw). by eapply word_nonzero.
  - destruct Hi as [Ha _]. constructor; [done|]. apply Forall_app. split; [by apply escape_nonzero|by repeat constructor].
Qed.

Lemma skip_blanks sp c m : blanks sp → blank c = false → ∃ k, skip_while blank (sp ++ c :: m) = Some (k, c :: m).
Proof.
  intros Hs Hc. induction Hs as [|d sp Hd Hs [k IH]]; cbn [app skip_while].
  - rewrite Hc. by exists 0%nat.
  - rewrite Hd, IH. by exists (S k).
Qed.

(** The start of what follows an argument. *)
Lemma args_head l st : spaced l → ∃ c m, args_text l ++ 0 :: st = c :: m ∧ blank c = false ∧ (c = 0 ↔ l = []).
Proof.
  destruct l as [|[i sp] l]; [intros _; by exists 0, st|]. intros (Hi & _). destruct i as [a|a].
  - destruct Hi as (Hne & _ & Hw). destruct a as [|c a]; [done|]. exists c, ((a ++ sp ++ args_text l) ++ 0 :: st). split; [cbn; by rewrite <- !app_assoc|].
    cbn [word_ok] in Hw. unfold blank. destruct (Z.eqb_spec c 0); [done|]. cbn in Hw. apply andb_prop in Hw as [Hw _]. rewrite orb_false_r in Hw. split; [by destruct (isspace c)|]. split; done.
  - exists 34. eexists. split; [done|]. split; [done|]. split; done.
Qed.

Lemma split_loop_spec n l st :
  spaced l → l ≠ [] → (length l ≤ n)%nat → split_loop n (args_text l ++ 0 :: st) = Ret (map (value_of ∘ fst) l).
Proof.
  revert n st. induction l as [|[i sp] l IH]; intros n st Hsp Hne Hn; [done|]. destruct n as [|n]; [cbn in Hn; lia|].
  destruct Hsp as (Hi & Hbl & Hsep & Hl). cbn [args_text split_loop map compose fst].
  destruct (args_head l st Hl) as (c & m & Hhd & Hcb & Hc0).
  (* what is after the argument *)
  assert (Hafter : ∃ q r, (sp ++ args_text l) ++ 0 :: st = q :: r ∧ (q = 0 ∨ isspace q = true)).
  { destruct sp as [|d sp]; cbn [app].
    - destruct l as [|p l]; [by exists 0, st; auto|]. by destruct (Hsep ltac:(done)).
    - exists d. eexists. split; [done|]. apply Forall_cons_1 in Hbl as [Hd _]. apply blank_not_zero in Hd. tauto. }
  assert (Htail : ∀ st', (∃ c m, args_text l ++ 0 :: st' = c :: m ∧ blank c = false ∧ (c = 0 ↔ l = [])) →
    ∀ b, b = sp ++ args_text l ++ 0 :: st' →
    (if bool_decide (n = 0%nat) then Ret [value_of i]
     else match skip_while blank b with
          | None => UB
          | Some (_, m) => match m with [] => UB | c :: _ => if c =? 0 then Ret [value_of i] else let* r := split_loop n m in Ret (value_of i :: r) end
          end) = Ret (value_of i :: map (value_of ∘ fst) l)).
  { intros st' (c' & m' & Hhd' & Hcb' & Hc0') b ->. destruct (skip_blanks sp c' m' Hbl Hcb') as [k Hk]. rewrite <- Hhd' in Hk. rewrite Hk, Hhd'.
    destruct (decide (l = [])) as [-> |Hnl].
    - rewrite (proj2 Hc0' eq_refl). by destruct (bool_decide _).
    - rewrite bool_decide_false by (intros ->; destruct l; [done|cbn in Hn; lia]). rewrite (proj2 (Z.eqb_neq c' 0)) by tauto.
      rewrite <- Hhd', IH; [done|done|done|cbn in Hn; lia]. }
  destruct i as [a|a]; cbn [text_of value_of] in *.
  - destruct Hi as (Ha & Hh & Hw). destruct a as [|a0 a]; [done|]. set (w := a0 :: a) in *.
    destruct Hafter as (q & r & Hq & Hqs). rewrite <- !app_assoc in Hq.
    replace ((w ++ sp ++ args_text l) ++ 0 :: st) with (w ++ q :: r) by (by rewrite <- Hq, <- !app_assoc).
    assert (Ha0 : (a0 =? 34) = false) by (apply Z.eqb_neq; intros ->; done).
    change (w ++ q :: r) with (a0 :: a ++ q :: r) at 1. cbn match. rewrite Ha0. rewrite (bare_spec false w q r Hw Hqs). cbn [obind].
    rewrite take_app_length, drop_app_length.
    assert (Hq34 : (q =? 34) = false) by (destruct Hqs as [-> | Hqs]; [done|]; apply Z.eqb_neq; intros ->; done). rewrite Hq34.
    apply (Htail st); [by exists c, m|done].
  - destruct Hi as [Ha Hlast]. cbn [app]. change (34 =? 34) with true. cbn match.
    destruct (quoted_spec (S (length (((escape a ++ [34]) ++ sp ++ args_text l) ++ 0 :: st))) a (sp ++ args_text l) st) as (st' & Hqd); try done.
    { apply Forall_app. split; [by apply blanks_nonzero|by apply args_nonzero]. }
    { rewrite !length_app. assert (length a ≤ length (escape a))%nat; [|lia]. clear. induction a as [|d a IHa]; cbn [escape length]; [lia|]. case_match; cbn; lia. }
    replace (((escape a ++ [34]) ++ sp ++ args_text l) ++ 0 :: st) with (escape a ++ 34 :: (sp ++ args_text l) ++ 0 :: st) in * by (by rewrite <- !app_assoc).
    rewrite Hqd. cbn [obind]. rewrite take_app_length, drop_app_length. change (34 =? 34) with true. cbn match.
    apply (Htail st'); [|by rewrite <- app_assoc]. by apply args_head.
Qed.

(** ** Lines *)

Lemma line_buffer_spec s :
  zlen s ≤ LINESIZE - 2 → ∃ z, line_buffer s = s ++ 0 :: 0 :: z.
Proof.
  intros Hs. unfold line_buffer. rewrite take_ge by (unfold zlen, LINESIZE in *; lia).
  exists (replicate (Z.to_nat (LINESIZE - zlen s) - 2) 0). rewrite insert_app_r_alt by (unfold zlen, LINESIZE in *; lia).
  rewrite insert_replicate. f_equal. replace (Z.to_nat (LINESIZE - zlen s)) with (2 + (Z.to_nat (LINESIZE - zlen s) - 2))%nat at 1 by (unfold zlen, LINESIZE in *; lia).
  done.
Qed.

Lemma scan_stop f (pre : list Z) a c m i :
  i = zlen pre → Forall (λ b, f b = true) a → f c = false → scan f (pre ++ a ++ c :: m) i = Ret (i + zlen a).
Proof.
  intros -> Ha Hc. unfold scan. rewrite (drop_zlen pre _ _ eq_refl).
  assert (Hk : skip_while f (a ++ c :: m) = Some (length a, c :: m)) by (induction Ha as [|b a Hb Ha IH]; cbn [app skip_while]; [by rewrite Hc|by rewrite Hb, IH]).
  by rewrite Hk.
Qed.

Lemma cstr_stop s m : nonzero s → cstr (s ++ 0 :: m) = Some s.
Proof. induction 1 as [|c s Hc Hs IH]; [done|]. cbn [app cstr]. rewrite (proj2 (Z.eqb_neq c 0)) by done. by rewrite IH. Qed.

Lemma span_stop (a : list Z) b f : Forall (λ c, f c = true) a → match b with [] => True | c :: _ => f c = false end → span f (a ++ b) = (a, b).
Proof. induction 1 as [|c a Hc Ha IH]; intros Hb; cbn [app span]; [|by rewrite Hc, IH]. destruct b as [|c b]; [done|]. cbn. by rewrite Hb. Qed.

Definition no_dot (c : Z) : bool := negb (c =? 46).

Lemma span_app f s : (span f s).1 ++ (span f s).2 = s.
Proof. induction s as [|c s IH]; [done|]. cbn [span]. destruct (f c); [|done]. destruct (span f s) as [a b]. cbn in *. by rewrite IH. Qed.

(** The table and the name in a directive. *)
Definition named (dir : list Z) : option (list Z) * list Z :=
  match span no_dot dir with (_, []) => (None, dir) | (t, _ :: n) => (Some t, n) end.

(** The arguments of a line without arguments: one, which is empty. *)
Definition argv_of (l : list (item * list Z)) : list (list Z) := match l with [] => [[]] | _ => map (value_of ∘ fst) l end.

Definition directive (dir : list Z) : Prop := dir ≠ [] ∧ Forall (λ c, inword c = true) dir ∧ head dir ≠ Some 35.

Lemma find_action_spec lead dir sp l z :
  blanks lead → directive dir → blanks sp → (l ≠ [] → sp ≠ []) → spaced l →
  ∃ arg m, find_action (lead ++ dir ++ (sp ++ args_text l) ++ 0 :: 0 :: z) (zlen lead) = Ret (named dir, arg, m) ∧
    ∃ st, drop (Z.to_nat arg) m = args_text l ++ 0 :: st.
Proof.
  intros Hlead (Hne & Hd & Hh) Hsp Hsep Hl. unfold find_action.
  assert (Hdz : nonzero dir) by (eapply Forall_impl; [exact Hd|]; intros c; unfold inword; destruct (Z.eqb_spec c 0); done).
  (* the byte after the directive *)
  assert (Hq : ∃ q r st, (sp ++ args_text l) ++ 0 :: 0 :: z = q :: r ∧ inword q = false ∧ r = drop 1 sp ++ args_text l ++ 0 :: st).
  { destruct sp as [|q sp].
    - destruct l; [|by destruct (Hsep ltac:(done))]. by exists 0, (0 :: z), z.
    - exists q, ((sp ++ args_text l) ++ 0 :: 0 :: z), (0 :: z). apply Forall_cons_1 in Hsp as [Hq _]. split; [done|]. split.
      + unfold blank, inword in *. destruct (q =? 0); [done|]. cbn in Hq. by rewrite Hq.
      + cbn [drop]. by rewrite drop_0, <- app_assoc. }
  destruct Hq as (q & r & st & Hqr & Hqw & Hr). rewrite Hqr.
  rewrite (scan_stop inword lead dir q r) by done. cbn [obind].
  replace (lead ++ dir ++ q :: r) with ((lead ++ dir) ++ q :: r) by (by rewrite <- app_assoc).
  rewrite (store_app (lead ++ dir) r _ 0 q) by (by rewrite zlen_app). cbn [obind].
  destruct (args_head l st Hl) as (c & m & Hhd & Hcb & _).
  rewrite Hr, Hhd. replace ((lead ++ dir) ++ 0 :: drop 1 sp ++ c :: m) with (((lead ++ dir) ++ [0]) ++ drop 1 sp ++ c :: m) by (by rewrite <- !app_assoc).
  rewrite (scan_stop blank ((lead ++ dir) ++ [0]) (drop 1 sp) c m) by (done || (rewrite !zlen_app; done) || (by apply Forall_drop)). cbn [obind].
  set (arg := zlen lead + zlen dir + 1 + zlen (drop 1 sp)). set (M := ((lead ++ dir) ++ [0]) ++ drop 1 sp ++ c :: m).
  assert (Hdrop : drop (Z.to_nat arg) M = args_text l ++ 0 :: st).
  { unfold M, arg. rewrite Hhd, (app_assoc _ (drop 1 sp)). apply drop_zlen. rewrite !zlen_app. done. }
  assert (Hstr : string_at M (zlen lead) = Ret dir).
  { unfold string_at, M. replace (((lead ++ dir) ++ [0]) ++ drop 1 sp ++ c :: m) with (lead ++ dir ++ 0 :: drop 1 sp ++ c :: m) by (by rewrite <- !app_assoc).
    rewrite (drop_zlen lead _ _ eq_refl), cstr_stop by done. done. }
  rewrite Hstr. cbn [obind]. unfold named. change (λ c0, negb (c0 =? 46)) with no_dot. pose proof (span_app no_dot dir) as Hspan.
  destruct (span no_dot dir) as [t [|dot n]]; [by eauto|]. cbn in Hspan. eexists _, _. split; [done|]. exists st.
  rewrite drop_insert_lt; [done|]. assert (zlen dir = zlen t + (1 + zlen n)) by (by rewrite <- Hspan, zlen_app, zlen_cons). unfold arg. pose proof (zlen_nonneg (drop 1 sp)). pose proof (zlen_nonneg t). pose proof (zlen_nonneg n). pose proof (zlen_nonneg lead). lia.
Qed.

Section lines.
Context {W : Type} (tls ac : bool) (CONFDIR : list Z)
  (cust : custom → ci_conf_entry → list (list Z) → config W → outcome (Z * config W)).
Implicit Types (c : config W).

(** What the directive does with the arguments. *)
Definition perform (inc : list Z → config W → outcome (Z * config W)) (dir : list Z) (argv : list (list Z)) (c : config W) : outcome (Z * config W) :=
  match search_variables tls (named dir).1 (named dir).2 c with
  | None => Ret (0, c)
  | Some e =>
      match ce_action e with
      | None => Ret (0, c)
      | Some a => let* (r, c) := run_action true ac CONFDIR cust inc a e argv c in Ret (if r =? 0 then 0 else 1, c)
      end
  end.

Lemma process_line_spec inc c lead dir sp l :
  blanks lead → directive dir → blanks sp → (l ≠ [] → sp ≠ []) → spaced l → (length l ≤ MAX_ARGS)%nat →
  zlen (lead ++ dir ++ sp ++ args_text l) ≤ LINESIZE - 2 →
  process_line tls true ac CONFDIR cust inc (lead ++ dir ++ sp ++ args_text l) c = perform inc dir (argv_of l) c.
Proof.
  intros Hlead Hdir Hsp Hsep Hl Hn Hlen. unfold process_line. destruct (line_buffer_spec _ Hlen) as [z ->].
  rewrite <- !app_assoc. pose proof Hdir as (Hne & Hd & Hh). destruct dir as [|d0 dir]; [done|]. set (D := d0 :: dir) in *.
  assert (Hd0 : inword d0 = true) by (by apply Forall_cons_1 in Hd as [? _]).
  assert (blank d0 = false ∧ d0 ≠ 0) as [Hb0 Hz0] by (unfold inword, blank in *; destruct (Z.eqb_spec d0 0); [done|]; by destruct (isspace d0)).
  change (lead ++ D ++ sp ++ args_text l ++ 0 :: 0 :: z) with ([] ++ lead ++ d0 :: dir ++ sp ++ args_text l ++ 0 :: 0 :: z).
  rewrite (scan_stop blank [] lead d0) by done. cbn [obind app]. rewrite Z.add_0_l.
  rewrite (load_app lead _ _ d0) by done. cbn [obind]. rewrite (proj2 (Z.eqb_neq d0 0)), (proj2 (Z.eqb_neq d0 35)) by (done || (intros ->; done)). cbn [orb].
  destruct (find_action_spec lead D sp l z Hlead Hdir Hsp Hsep Hl) as (arg & m & Hfa & st & Hdrop).
  replace (lead ++ d0 :: dir ++ sp ++ args_text l ++ 0 :: 0 :: z) with (lead ++ D ++ (sp ++ args_text l) ++ 0 :: 0 :: z) by (unfold D; cbn [app]; by rewrite <- app_assoc).
  rewrite Hfa. cbn [obind]. unfold perform. destruct (named D) as [t n]. cbn [fst snd].
  destruct (search_variables tls t n c) as [e|]; [|done]. destruct (ce_action e) as [a|]; [|done].
  unfold split_args. rewrite Hdrop. destruct l as [|p l].
  - done.
  - by rewrite (split_loop_spec MAX_ARGS (p :: l) st) by done.
Qed.

(** Empty lines and comments. *)
Lemma process_line_blank inc c lead s :
  blanks lead → s = [] ∨ head s = Some 35 → zlen (lead ++ s) ≤ LINESIZE - 2 →
  process_line tls true ac CONFDIR cust inc (lead ++ s) c = Ret (1, c).
Proof.
  intros Hlead Hs Hlen. unfold process_line. destruct (line_buffer_spec _ Hlen) as [z ->]. rewrite <- app_assoc.
  assert (Hq : ∃ q r, s ++ 0 :: 0 :: z = q :: r ∧ (q = 0 ∨ q = 35)) by (destruct Hs as [-> |Hs]; [by eauto|]; destruct s; [done|]; injection Hs as ->; by eauto).
  destruct Hq as (q & r & -> & Hq). change (lead ++ q :: r) with ([] ++ lead ++ q :: r). rewrite (scan_stop blank [] lead q r) by (done || by destruct Hq as [-> | ->]).
  cbn [obind app]. rewrite Z.add_0_l, (load_app lead _ _ q) by done. cbn [obind]. by destruct Hq as [-> | ->].
Qed.
End lines.

(** ** Every line of every file *)

Lemma obind_ends {A B : Type} (m : outcome A) (k : A → outcome B) :
  m ≠ NoFuel → (∀ a, m = Ret a → k a ≠ NoFuel) → obind m k ≠ NoFuel.
Proof. intros H1 H2. destruct m; cbn; auto. Qed.

Lemma shift_left_length m m' : shift_left m = Ret m' → length m' = length m.
Proof.
  revert m'. induction m as [|c m IH]; intros m' H; [done|]. destruct m as [|d m].
  - cbn in H. destruct (c =? 0); [by injection H as <-|done].
  - destruct (Z.eqb_spec c 0) as [-> |Hc]; [by injection H as <-|]. rewrite shift_left_cons in H by done.
    apply obind_Ret in H as (r & Hr & [= <-]). cbn. by rewrite (IH _ Hr).
Qed.

Lemma shift_left_nofuel m : shift_left m ≠ NoFuel.
Proof.
  induction m as [|c m IH]; [done|]. destruct m as [|d m]; [cbn; by destruct (c =? 0)|].
  destruct (Z.eqb_spec c 0) as [-> |Hc]; [done|]. rewrite shift_left_cons by done. by apply obind_nofuel.
Qed.

Lemma quoted_nofuel fuel m : (length m < fuel)%nat → quoted fuel m ≠ NoFuel.
Proof.
  revert m. induction fuel as [|fuel IH]; intros m Hf; [lia|]. cbn [quoted]. destruct m as [|c m]; [done|]. destruct ((c =? 0) || (c =? 34)); [done|].
  assert (Hgo : ∀ m', length m' = S (length m) → match m' with [] => UB | c :: m' => let* (k, r) := quoted fuel m' in Ret (S k, c :: r) end ≠ NoFuel).
  { intros [|c' m'] Hl; [done|]. apply obind_nofuel; [apply IH; cbn in *; lia|]. by intros []. }
  apply obind_ends.
  - destruct (c =? 92); [|done]. destruct m as [|d m]; [done|]. destruct (d =? 34); [apply shift_left_nofuel|done].
  - intros m' Hm'. apply Hgo. destruct (c =? 92); [|by injection Hm' as <-]. destruct m as [|d m]; [done|].
    destruct (d =? 34); [|by injection Hm' as <-]. by apply shift_left_length in Hm'.
Qed.

Lemma bare_nofuel b m : bare b m ≠ NoFuel.
Proof. revert b. induction m as [|c m IH]; intros b; cbn [bare]; [done|]. case_match; [|done]. by apply obind_nofuel. Qed.

Lemma split_loop_nofuel n m : split_loop n m ≠ NoFuel.
Proof.
  revert m. induction n as [|n IH]; intros m; cbn [split_loop]; [done|]. apply obind_nofuel.
  - destruct m as [|c m]; [done|]. case_match; [apply quoted_nofuel; lia|]. by apply obind_nofuel; [apply bare_nofuel|].
  - intros [len m']. case_match; [done|]. destruct (drop len m') as [|c r]; [done|]. destruct (skip_while _ _) as [[k [|c' r']]|]; [done| |done].
    case_match; [done|]. by apply obind_nofuel.
Qed.

Lemma find_action_nofuel m i : find_action m i ≠ NoFuel.
Proof.
  unfold find_action, scan, string_at, store. repeat (apply obind_nofuel; [by repeat case_match|intros ?]). by repeat case_match.
Qed.

Section files.
Context {W : Type} (tls am ac : bool) (CONFDIR : list Z) (files : list Z → option (list Z * bool))
  (cust : custom → ci_conf_entry → list (list Z) → config W → outcome (Z * config W)).

(** A property of the configuration at a level of included files. *)
Context (Q : config W → Prop).
Definition at_level (k : Z) (c : config W) : Prop := PARSE_LEVEL c = k ∧ Q c.

(** The function comes to an end and keeps the property. *)
Definition fine (k : Z) (f : config W → outcome (Z * config W)) : Prop :=
  ∀ c, at_level k c → f c ≠ NoFuel ∧ ∀ r c', f c = Ret (r, c') → at_level k c'.

Inductive setter : (option string → config W → outcome (Z * config W)) → Prop :=
  | set_str argv : setter (ci_cfg_set_str ac argv)
  | set_int argv : setter (ci_cfg_set_int argv)
  | set_onoff argv : setter (ci_cfg_onoff argv)
  | set_disable : setter ci_cfg_disable
  | set_enable : setter ci_cfg_enable
  | set_size_off argv : setter (ci_cfg_size_off argv)
  | set_size_long argv : setter (ci_cfg_size_long argv).

Hypothesis (Q_level : ∀ l c, Q c → Q (with_level l c)).
Hypothesis (cust_fine : ∀ k a e argv, fine k (cust a e argv)).
Hypothesis (set_fine : ∀ k x f, setter f → fine k (intl am x f)).

Lemma fine_ret k (r : Z) c : at_level k c → Ret (r, c) ≠ NoFuel ∧ ∀ r' c', Ret (r, c) = Ret (r', c') → at_level k c'.
Proof. intros Hc. split; [done|]. intros r' c' [= <- <-]. done. Qed.

Lemma run_action_fine k inc a e argv : (∀ p, fine k (inc p)) → fine k (run_action am ac CONFDIR cust inc a e argv).
Proof.
  intros Hinc. destruct a; cbn [run_action]; try (apply set_fine; constructor).
  - intros c Hc. unfold run_action, cfg_set_debug_level. destruct (DebugLevelSetFromCmd c); [by apply fine_ret|]. apply set_fine; [constructor|done].
  - destruct argv as [|p argv]; [intros c Hc; by apply fine_ret|]. apply Hinc.
  - apply cust_fine.
Qed.

Lemma process_line_fine k inc s : (∀ p, fine k (inc p)) → fine k (process_line tls am ac CONFDIR cust inc s).
Proof.
  intros Hinc c Hc. unfold process_line. generalize (line_buffer s). intros line. cbn zeta. destruct (scan blank line 0) as [str| | |] eqn:Hscan; try done; cbn [obind];
    [|by unfold scan in Hscan; repeat case_match].
  destruct (load line str) as [b| | |] eqn:Hload; try done; cbn [obind]; [|by apply load_nofuel in Hload].
  case_match; [by apply fine_ret|].
  destruct (find_action line str) as [[[[t n] args] m]| | |] eqn:Hfa; try done; cbn [obind]; [|by apply find_action_nofuel in Hfa].
  destruct (search_variables tls t n c) as [e|]; [|by apply fine_ret]. destruct (ce_action e) as [a|]; [|by apply fine_ret].
  destruct (split_args am m args) as [argv| | |] eqn:Hsp; try done; cbn [obind];
    [|unfold split_args in Hsp; destruct am; [by apply split_loop_nofuel in Hsp|done]].
  destruct (run_action_fine k inc a e argv Hinc c Hc) as [H1 H2]. split.
  - apply obind_nofuel; [done|]. by intros [].
  - intros r c' Hr. apply obind_Ret in Hr as ([r1 c1] & Hr1 & [= _ <-]). by eapply H2.
Qed.

(** A line that is read takes something off the file, or the file has ended. *)
Definition todo (f : file) : nat := if f_eof f then 0%nat else S (length (f_rest f)).

Lemma skip_line_ends fuel f : f_fails f = false → (todo f < fuel)%nat → ∃ r f', skip_line fuel f = Ret (r, f') ∧ f_fails f' = false ∧ (todo f' ≤ todo f)%nat.
Proof.
  revert f. induction fuel as [|fuel IH]; intros f Hf Hlt; [lia|]. cbn [skip_line]. unfold todo in *. destruct (f_eof f) eqn:He; [exists 0, f; rewrite He; auto|].
  destruct (f_rest f) as [|c r] eqn:Hr; rewrite ?Hf; cbn [negb].
  - destruct fuel as [|fuel]; [cbn in Hlt; lia|]. cbn [skip_line f_eof]. eexists _, _. split; [done|]. split; [done|]. cbn. lia.
  - destruct (c =? 10); [eexists _, _; split; [done|]; cbn; split; [done|lia]|].
    destruct (IH (mkFile r false false)) as (r' & f' & -> & H1 & H2); [done|cbn in *; lia|]. exists r', f'. split; [done|]. split; [done|]. cbn in *. lia.
Qed.

Lemma take_line_length n s : let '(l, e, r) := take_line n s in (length l + length r = length s)%nat ∧ (length l ≤ n)%nat ∧ (e = true → r = []) ∧ (e = false → (0 < n)%nat → l ≠ []).
Proof.
  revert s. induction n as [|n IH]; intros s; cbn [take_line]; [split_and!; try done; cbn; lia|]. destruct s as [|c s]; [by split_and!; try done; cbn; lia|].
  destruct (c =? 10); [split_and!; try done; cbn; lia|]. specialize (IH s). destruct (take_line n s) as [[l e] r]. destruct IH as (H1 & H2 & H3 & H4).
  split_and!; try done; cbn; lia.
Qed.

Lemma fread_line_ends fuel f line :
  f_fails f = false → f_eof f = false → zlen line = LINESIZE → (todo f < fuel)%nat →
  ∃ r l f', fread_line fuel f line = Ret (r, l, f') ∧ f_fails f' = false ∧ zlen l = LINESIZE ∧ (todo f' < todo f)%nat ∧ 0 ∈ l.
Proof.
  intros Hf He Hl Hfuel. unfold fread_line, fgets. pose proof (take_line_length (Z.to_nat (LINESIZE - 1)) (f_rest f)) as Ht.
  destruct (take_line _ _) as [[l e] r]. destruct Ht as (H1 & H2 & H3 & H4). rewrite Hf.
  assert (Hll : zlen l ≤ LINESIZE - 1) by (unfold zlen, LINESIZE in *; lia). pose proof (zlen_nonneg l).
  assert (Hempty : 0 < zlen line) by (rewrite Hl; done).
  assert (Hgo : ∀ f', f_fails f' = false → (todo f' < todo f)%nat → l ≠ [] ∨ True → ∃ r' l' f'',
    (let* line := write_bytes line 0 (l ++ [0]) in let* s := string_at line 0 in let* b := load line (LINESIZE - 2) in
     if (LINESIZE - 2 <=? zlen s) && negb (b =? 10) then let* (r, f) := skip_line fuel f' in Ret (r, line, f) else Ret (1, line, f')) = Ret (r', l', f'') ∧
    f_fails f'' = false ∧ zlen l' = LINESIZE ∧ (todo f'' < todo f)%nat ∧ 0 ∈ l').
  { intros f' Hf' Hlt _. rewrite write_bytes_ok by (rewrite ?zlen_app; change (zlen [0]) with 1; lia). cbn [obind].
    set (l' := splice line 0 (l ++ [0])). assert (Hl' : zlen l' = LINESIZE) by (unfold l'; rewrite zlen_splice; rewrite ?zlen_app; change (zlen [0]) with 1; lia).
    assert (Hin : 0 ∈ l') by (unfold l', splice; apply elem_of_app; right; apply elem_of_app; left; apply elem_of_app; right; by apply list_elem_of_singleton).
    assert (Hstr : ∃ s, string_at l' 0 = Ret s).
    { unfold string_at. rewrite drop_0. assert (∃ s, cstr l' = Some s) as [s ->]; [|by eauto]. clear -Hin. induction l' as [|c m IH]; [by apply not_elem_of_nil in Hin|]. cbn [cstr]. destruct (Z.eqb_spec c 0); [by eauto|].
      apply elem_of_cons in Hin as [?|Hin]; [done|]. destruct (IH Hin) as [s ->]. by eexists. }
    destruct Hstr as [s ->]. cbn [obind]. destruct (load_in l' (LINESIZE - 2)) as (b & -> & _); [rewrite Hl'; done|]. cbn [obind].
    destruct (_ && _).
    - destruct (skip_line_ends fuel f' Hf') as (r' & f'' & -> & Hff & Hle); [lia|]. eexists _, _, _. split; [done|]. split_and!; try done. lia.
    - eexists _, _, _. split; [done|]. by split_and!. }
  destruct e.
  - destruct l as [|c l].
    + cbn [f_eof]. rewrite store_ok by lia. cbn [obind]. eexists _, _, _. split; [done|]. split; [done|]. split; [by rewrite zlen_insert|]. split.
      * unfold todo. rewrite He. cbn. lia.
      * apply list_elem_of_lookup. exists 0%nat. apply list_lookup_insert_eq. unfold zlen in Hempty. lia.
    + apply Hgo; [done| |by right]. unfold todo. rewrite He. cbn. lia.
  - specialize (H4 eq_refl ltac:(unfold LINESIZE; lia)). destruct l as [|c l]; [done|]. rewrite He. apply Hgo; [done| |by left].
    unfold todo. rewrite He. cbn in *. lia.
Qed.
Lemma cstr_in m : 0 ∈ m → ∃ s, cstr m = Some s.
Proof.
  induction m as [|c m IH]; intros Hin; [by apply not_elem_of_nil in Hin|]. cbn [cstr]. destruct (Z.eqb_spec c 0); [by eauto|].
  apply elem_of_cons in Hin as [?|Hin]; [done|]. destruct (IH Hin) as [s ->]. by eexists.
Qed.

Lemma parse_lines_fine k inc fuel f line ret :
  (∀ p, fine k (inc p)) → f_fails f = false → zlen line = LINESIZE → (todo f < fuel)%nat →
  fine k (parse_lines tls am ac CONFDIR cust inc fuel f line ret).
Proof.
  intros Hinc. revert f line ret. induction fuel as [|fuel IH]; intros f line ret Hf Hl Hlt c Hc; [lia|]. cbn [parse_lines].
  destruct (f_eof f) eqn:He; [by apply fine_ret|].
  destruct (fread_line_ends (S fuel) f line Hf He Hl Hlt) as (r & l & f' & -> & Hf' & Hl' & Hlt' & Hin). cbn [obind].
  assert (Hstep : fine k (λ c, if r =? 0 then Ret (0, c) else let* s := string_at l 0 in process_line tls am ac CONFDIR cust inc s c)).
  { intros c1 Hc1. destruct (r =? 0); [by apply fine_ret|]. unfold string_at. rewrite drop_0. destruct (cstr_in l Hin) as [s ->]. cbn [obind]. by apply process_line_fine. }
  destruct (Hstep c Hc) as [S1 S2]. split.
  - apply obind_ends; [done|]. intros [r1 c1] Hr1. apply IH; [done|done|lia|]. by eapply S2.
  - intros r' c' Hr. apply obind_Ret in Hr as ([r1 c1] & Hr1 & Hr). eapply (IH f' l _ Hf' Hl' ltac:(lia) c1); [by eapply S2|done].
Qed.

Hypothesis (files_read : ∀ p d b, files p = Some (d, b) → b = false).

Lemma parse_file_fine junk levels fuel k path :
  (∀ p d b, files p = Some (d, b) → (S (length d) < fuel)%nat) → MAX_INCLUDE_LEVEL ≤ k + Z.of_nat levels →
  fine k (parse_file tls am ac CONFDIR files cust junk levels fuel path).
Proof.
  intros Hfuel. revert k path. induction levels as [|levels IH]; intros k path Hk c Hc; cbn [parse_file].
  - destruct Hc as [Hl Hq]. rewrite (proj2 (Z.leb_le _ _)) by lia. by apply fine_ret.
  - destruct (MAX_INCLUDE_LEVEL <=? PARSE_LEVEL c); [by apply fine_ret|]. destruct (files path) as [[d b]|] eqn:Hfile; [|by apply fine_ret].
    rewrite (files_read _ _ _ Hfile) in *. destruct Hc as [Hl Hq].
    assert (Hc1 : at_level (k + 1) (with_level (PARSE_LEVEL c + 1) c)) by (split; [cbn; lia|by apply Q_level]).
    destruct (parse_lines_fine (k + 1) (parse_file tls am ac CONFDIR files cust junk levels fuel) fuel (mkFile d false false) (fresh junk 0 LINESIZE) 1) with (c := with_level (PARSE_LEVEL c + 1) c) as [P1 P2]; try done.
    { intros p. apply IH. lia. }
    { by eapply Hfuel. }
    split.
    + apply obind_nofuel; [done|]. by intros [].
    + intros r c' Hr. apply obind_Ret in Hr as ([r1 c1] & Hr1 & [= <- <-]). destruct (P2 _ _ Hr1) as [L1 Q1]. split; [cbn; lia|by apply Q_level].
Qed.
End files.

(** ** Properties *)

Section properties.
Context {W : Type}.

(** The actions of other parts return, and leave the parameters, the defaults and the level as they are. *)
Definition separate (cust : custom → ci_conf_entry → list (list Z) → config W → outcome (Z * config W)) : Prop :=
  ∀ a e argv c, cust a e argv c ≠ NoFuel ∧
    ∀ r c', cust a e argv c = Ret (r, c') → c_vars c' = c_vars c ∧ c_defaults c' = c_defaults c ∧ PARSE_LEVEL c' = PARSE_LEVEL c.

Lemma intl_sets (am ac : bool) x f (c : config W) :
  setter ac f → intl am x f c ≠ NoFuel ∧ ∀ r c', intl am x f c = Ret (r, c') →
    PARSE_LEVEL c' = PARSE_LEVEL c ∧
    (c' = c ∨ ∃ y c1, x = Some y ∧ cfg_default_value_store am y c = Ret c1 ∧ c_defaults c' = c_defaults c1 ∧ (c_vars c' = c_vars c1 ∨ ∃ v, c_vars c' = <[y := v]> (c_vars c1))).
Proof.
  intros Hf. unfold intl. destruct x as [y|]; [|split; [done|]; intros r c' [= <- <-]; auto].
  assert (Hst : cfg_default_value_store am y c ≠ NoFuel ∧ ∀ c1, cfg_default_value_store am y c = Ret c1 → PARSE_LEVEL c1 = PARSE_LEVEL c).
  { unfold cfg_default_value_store. repeat case_match; split; try done; by intros c1 [= <-]. }
  assert (Hset : ∀ c1, f (Some y) c1 ≠ NoFuel ∧ ∀ r c', f (Some y) c1 = Ret (r, c') → PARSE_LEVEL c' = PARSE_LEVEL c1 ∧ c_defaults c' = c_defaults c1 ∧ (c_vars c' = c_vars c1 ∨ ∃ v, c_vars c' = <[y := v]> (c_vars c1))).
  { intros c1. destruct Hf; unfold ci_cfg_set_str, ci_cfg_set_int, ci_cfg_onoff, ci_cfg_disable, ci_cfg_enable, ci_cfg_size_off, ci_cfg_size_long, cfg_size, scaled;
      repeat (case_match; cbn [obind]); split; try done; intros r c' Hr; try done; injection Hr as <- <-; cbn; eauto. }
  destruct Hst as [N1 N2]. split.
  - apply obind_ends; [done|]. intros c1 _. apply Hset.
  - intros r c' Hr. apply obind_Ret in Hr as (c1 & Hc1 & Hr). destruct (Hset c1) as [_ Hs]. destruct (Hs _ _ Hr) as (L & D & V). split; [by rewrite L, (N2 _ Hc1)|].
    right. eauto 6.
Qed.

(** C35: reading the configuration comes to an end.  Whatever bytes the files hold and however they include each other, also
    themselves, [parse_file] returns: at most five files are open at a time, and no line keeps the reader. *)
Theorem configuration_read_ends tls am ac CONFDIR files cust junk levels fuel path (c : config W) :
  separate cust → (∀ p d b, files p = Some (d, b) → b = false ∧ (S (length d) < fuel)%nat) → MAX_INCLUDE_LEVEL ≤ PARSE_LEVEL c + Z.of_nat levels →
  parse_file tls am ac CONFDIR files cust junk levels fuel path c ≠ NoFuel.
Proof.
  intros Hcust Hfiles Hlev. apply (parse_file_fine tls am ac CONFDIR files cust (λ _, True)) with (k := PARSE_LEVEL c); try done.
  - intros k a e argv c1 [Hl _]. destruct (Hcust a e argv c1) as [H1 H2]. split; [done|]. intros r c' Hr. split; [|done]. destruct (H2 _ _ Hr) as (_ & _ & ->). done.
  - intros k x f Hf c1 [Hl _]. destruct (intl_sets am ac x f c1 Hf) as [H1 H2]. split; [done|]. intros r c' Hr. split; [|done]. destruct (H2 _ _ Hr) as [-> _]. done.
  - intros p d b Hp. by destruct (Hfiles p d b Hp).
  - intros p d b Hp. by destruct (Hfiles p d b Hp).
Qed.
(** Every default kept is the value of [c0], and what has no default has the value of [c0]. *)
Definition defaults_kept (c0 c : config W) : Prop :=
  Forall (λ p, c_vars c0 !! p.1 = Some p.2) (c_defaults c) ∧
  ∀ x, cfg_default_value_search (c_defaults c) x = None → c_vars c !! x = c_vars c0 !! x.

Lemma search_app d x y v :
  cfg_default_value_search (d ++ [(y, v)]) x = match cfg_default_value_search d x with Some w => Some w | None => if bool_decide (y = x) then Some v else None end.
Proof. induction d as [|[z w] d IH]; [done|]. cbn [app cfg_default_value_search]. by destruct (bool_decide (z = x)). Qed.

Lemma store_kept c0 c y c1 :
  defaults_kept c0 c → cfg_default_value_store true y c = Ret c1 →
  defaults_kept c0 c1 ∧ cfg_default_value_search (c_defaults c1) y ≠ None.
Proof.
  intros [K1 K2]. unfold cfg_default_value_store. destruct (cfg_default_value_search (c_defaults c) y) as [v|] eqn:Hs; [intros [= <-]; split; [done|congruence]|].
  destruct (c_vars c !! y) as [v|] eqn:Hv; [|done]. intros [= <-]. cbn. split; [split|].
  - apply Forall_app. split; [done|]. constructor; [|done]. cbn. by rewrite <- (K2 y Hs).
  - intros x. cbn. rewrite search_app. destruct (cfg_default_value_search (c_defaults c) x) eqn:Hx; [done|]. intros _. by apply K2.
  - rewrite search_app, Hs. by rewrite bool_decide_true.
Qed.

Lemma set_kept c0 c1 c' y :
  defaults_kept c0 c1 → cfg_default_value_search (c_defaults c1) y ≠ None → c_defaults c' = c_defaults c1 →
  c_vars c' = c_vars c1 ∨ (∃ v, c_vars c' = <[y := v]> (c_vars c1)) → defaults_kept c0 c'.
Proof.
  intros [K1 K2] Hy Hd Hv. split; rewrite Hd; [done|]. intros x Hx. rewrite <- (K2 x Hx). destruct Hv as [-> |[v ->]]; [done|].
  apply lookup_insert_ne. congruence.
Qed.

Lemma restore_lookup d (m : gmap string value) x :
  foldl (λ m p, <[p.1 := p.2]> m) m d !! x = match cfg_default_value_search (rev d) x with Some v => Some v | None => m !! x end.
Proof.
  induction d as [|[y v] d IH] using rev_ind; [done|]. rewrite foldl_app, rev_app_distr. cbn [foldl rev app fst snd cfg_default_value_search].
  case_bool_decide as Hy; [subst; by rewrite lookup_insert_eq|]. by rewrite lookup_insert_ne, IH.
Qed.

Lemma search_elem d x v : cfg_default_value_search d x = Some v → (x, v) ∈ d.
Proof.
  induction d as [|[y w] d IH]; [done|]. cbn [cfg_default_value_search]. case_bool_decide as Hy; [intros [= ->]; subst; by left|]. intros Hs. right. auto.
Qed.

Lemma search_none d x : cfg_default_value_search d x = None ↔ ∀ v, (x, v) ∉ d.
Proof.
  induction d as [|[y w] d IH]; cbn [cfg_default_value_search]; [split; [intros _ v Hv; by apply not_elem_of_nil in Hv|done]|].
  case_bool_decide as Hy.
  - split; [done|]. intros Hn. subst. destruct (Hn w). by left.
  - rewrite IH. split; intros Hn v Hv; [apply elem_of_cons in Hv as [[=]|Hv]; [congruence|by eapply Hn]|]. eapply Hn. by right.
Qed.

Lemma restored_all c0 c : defaults_kept c0 c → c_vars (cfg_default_value_restore_all c) = c_vars c0.
Proof.
  intros [K1 K2]. apply map_eq. intros x. cbn. rewrite restore_lookup. destruct (cfg_default_value_search (rev (c_defaults c)) x) as [v|] eqn:Hs.
  - apply search_elem, list_elem_of_In, in_rev, list_elem_of_In in Hs. rewrite Forall_forall in K1. symmetry. by apply (K1 (x, v)).
  - apply K2. apply search_none. intros v Hv. rewrite search_none in Hs. apply (Hs v). apply list_elem_of_In, in_rev. rewrite rev_involutive. by apply list_elem_of_In.
Qed.

End properties.

(** ** Files of lines *)

(** A line as it is written: nothing but white space or a comment, or a directive with its arguments. *)
Inductive cline := Skip (lead s : list Z) | Line (lead dir sp : list Z) (l : list (item * list Z)).

Definition line_text (l : cline) : list Z :=
  match l with Skip lead s => lead ++ s | Line lead dir sp l => lead ++ dir ++ sp ++ args_text l end.

(** It ends in its only newline, and is not longer than the buffer allows. *)
Definition line_ok (l : cline) : Prop :=
  (∃ b, line_text l = b ++ [10] ∧ Forall (λ c, c ≠ 10) b) ∧ zlen (line_text l) ≤ LINESIZE - 3 ∧ nonzero (line_text l) ∧
  match l with
  | Skip lead s => blanks lead ∧ (s = [] ∨ head s = Some 35)
  | Line lead dir sp l => blanks lead ∧ directive dir ∧ blanks sp ∧ (l ≠ [] → sp ≠ []) ∧ spaced l ∧ (length l ≤ MAX_ARGS)%nat
  end.

Section reference.
Context {W : Type} (tls ac : bool) (CONFDIR : list Z) (conf : list Z → option (list cline))
  (cust : custom → ci_conf_entry → list (list Z) → config W → outcome (Z * config W)).

(** What the lines mean: each directive is performed in turn, and one that fails makes the result 0. *)
Definition perform_line (inc : list Z → config W → outcome (Z * config W)) (l : cline) (c : config W) : outcome (Z * config W) :=
  match l with Skip _ _ => Ret (1, c) | Line _ dir _ l => perform tls ac CONFDIR cust inc dir (argv_of l) c end.

Fixpoint perform_lines (inc : list Z → config W → outcome (Z * config W)) (ls : list cline) (ret : Z) (c : config W) : outcome (Z * config W) :=
  match ls with
  | [] => Ret (ret, c)
  | l :: ls => let* (r, c) := perform_line inc l c in perform_lines inc ls (if r =? 0 then 0 else ret) c
  end.

(** Included files are performed in place, five deep. *)
Fixpoint perform_file (levels : nat) (path : list Z) (c : config W) : outcome (Z * config W) :=
  if MAX_INCLUDE_LEVEL <=? PARSE_LEVEL c then Ret (0, c)
  else
  match conf path with
  | None => Ret (0, c)
  | Some ls =>
      match levels with
      | O => NoFuel
      | S levels' =>
          let* (r, c) := perform_lines (perform_file levels') ls 1 (with_level (PARSE_LEVEL c + 1) c) in
          Ret (r, with_level (PARSE_LEVEL c - 1) c)
      end
  end.

Lemma take_line_stop n b rest : Forall (λ c, c ≠ 10) b → (length b < n)%nat → take_line n (b ++ 10 :: rest) = (b ++ [10], false, rest).
Proof.
  intros Hb. revert n. induction Hb as [|c b Hc Hb IH]; intros n Hn; (destruct n as [|n]; [cbn in Hn; lia|]); cbn [app take_line]; [done|].
  rewrite (proj2 (Z.eqb_neq c 10)) by done. by rewrite IH by (cbn in Hn; lia).
Qed.

Lemma fread_line_text fuel l rest line :
  line_ok l → zlen line = LINESIZE →
  ∃ line', fread_line fuel (mkFile (line_text l ++ rest) false false) line = Ret (1, line', mkFile rest false false) ∧
    string_at line' 0 = Ret (line_text l) ∧ zlen line' = LINESIZE.
Proof.
  intros ((b & Hb & Hnl) & Hlen & Hnz & _) Hline. unfold fread_line, fgets. cbn [f_rest f_eof f_fails].
  assert (Hbl : zlen b = zlen (line_text l) - 1) by (rewrite Hb, zlen_app; change (zlen [10]) with 1; lia).
  replace (line_text l ++ rest) with (b ++ 10 :: rest) by (by rewrite Hb, <- app_assoc).
  rewrite take_line_stop; [|done|unfold zlen, LINESIZE in *; lia]. rewrite <- Hb.
  pose proof (zlen_nonneg (line_text l)). rewrite write_bytes_ok by (rewrite ?zlen_app; change (zlen [0]) with 1; lia). cbn [obind].
  set (line' := splice line 0 (line_text l ++ [0])).
  assert (Hz : zlen line' = LINESIZE) by (unfold line'; rewrite zlen_splice; rewrite ?zlen_app; change (zlen [0]) with 1; lia).
  assert (Hs : string_at line' 0 = Ret (line_text l)).
  { unfold string_at, line', splice. rewrite drop_0. change (take (Z.to_nat 0) line) with (@nil Z). cbn [app]. rewrite <- app_assoc. cbn [app]. by rewrite cstr_stop. }
  rewrite Hs. cbn [obind]. destruct (load_in line' (LINESIZE - 2)) as (x & -> & _); [rewrite Hz; done|]. cbn [obind].
  rewrite (proj2 (Z.leb_gt _ _)) by lia. cbn [andb]. by exists line'.
Qed.

Lemma parse_lines_spec inc fuel ls line ret (c : config W) :
  Forall line_ok ls → zlen line = LINESIZE → (length ls + 2 ≤ fuel)%nat →
  parse_lines tls true ac CONFDIR cust inc fuel (mkFile (concat (map line_text ls)) false false) line ret c = perform_lines inc ls ret c.
Proof.
  intros Hls. revert fuel line ret c. induction Hls as [|l ls Hl Hls IH]; intros fuel line ret c Hline Hf; (destruct fuel as [|fuel]; [cbn in Hf; lia|]); cbn [map concat parse_lines f_eof].
  - destruct fuel as [|fuel]; [cbn in Hf; lia|].
    unfold fread_line, fgets. cbn [f_rest f_eof f_fails]. assert (Htl : take_line (Z.to_nat (LINESIZE - 1)) [] = ([], true, [])) by (by destruct (Z.to_nat (LINESIZE - 1)) eqn:E; [unfold LINESIZE in E; lia|]).
    rewrite Htl. cbn [f_eof]. destruct line as [|x line]; [done|]. unfold store. rewrite Hline. cbn -[process_line parse_lines].
    pose proof (process_line_blank tls ac CONFDIR cust inc c [] [] ltac:(constructor) ltac:(auto) ltac:(done)) as Hp. cbn [app] in Hp.
    change (string_at (<[Z.to_nat 0:=0]> (x :: line)) 0) with (@Ret (list Z) []). cbn [obind]. by rewrite Hp.
  - destruct (fread_line_text (S fuel) l (concat (map line_text ls)) line Hl Hline) as (line' & -> & Hs & Hz). cbn [obind Z.eqb]. rewrite Hs. cbn [obind perform_lines].
    assert (Hp : process_line tls true ac CONFDIR cust inc (line_text l) c = perform_line inc l c).
    { destruct Hl as (_ & Hlen & _ & Hl). destruct l as [lead s|lead dir sp args]; cbn [line_text perform_line] in *.
      - destruct Hl as [H1 H2]. apply process_line_blank; [done|done|lia].
      - destruct Hl as (H1 & H2 & H3 & H4 & H5 & H6). apply process_line_spec; try done. lia. }
    rewrite Hp. destruct (perform_line inc l c) as [[r c1]| | |]; cbn [obind]; try done. apply IH; [done|cbn in Hf; lia].
Qed.

Lemma perform_lines_ext inc inc' ls ret (c : config W) : (∀ p c, inc p c = inc' p c) → perform_lines inc ls ret c = perform_lines inc' ls ret c.
Proof.
  intros Hinc. revert ret c. induction ls as [|l ls IH]; intros ret c; [done|]. cbn [perform_lines].
  assert (Hl : perform_line inc l c = perform_line inc' l c).
  { destruct l as [|lead dir sp args]; [done|]. cbn [perform_line]. unfold perform. destruct (search_variables _ _ _ _) as [e|]; [|done].
    destruct (ce_action e) as [a|]; [|done]. destruct a; try done. cbn [run_action]. destruct (argv_of args); [done|]. by rewrite Hinc. }
  rewrite Hl. destruct (perform_line inc' l c) as [[r c1]| | |]; cbn [obind]; try done.
Qed.

(** C33: a configuration does what its lines say.  For files of lines within the size of the buffer, reading them performs, in the
    order of the lines, the action of every directive on exactly the arguments written, quotes and braces included, in the
    table named before the dot; included files are performed in place; the result is 0 when a line failed. *)
Theorem configuration_performed files junk levels fuel path (c : config W) :
  (∀ p, files p = option_map (λ ls, (concat (map line_text ls), false)) (conf p)) →
  (∀ p ls, conf p = Some ls → Forall line_ok ls ∧ (length ls + 2 ≤ fuel)%nat) →
  parse_file tls true ac CONFDIR files cust junk levels fuel path c = perform_file levels path c.
Proof.
  intros Hfiles Hconf. revert path c. induction levels as [|levels IH]; intros path c; cbn [parse_file perform_file]; rewrite Hfiles; (destruct (MAX_INCLUDE_LEVEL <=? PARSE_LEVEL c); [done|]);
    destruct (conf path) as [ls|] eqn:Hp; cbn [option_map]; try done.
  destruct (Hconf path ls Hp) as [Hok Hf]. rewrite parse_lines_spec; [|done|by rewrite zlen_fresh|done].
  by rewrite (perform_lines_ext _ (perform_file levels)).
Qed.
End reference.

(** ** Samples *)

Definition no_cust : custom → ci_conf_entry → list (list Z) → config unit → outcome (Z * config unit) := λ _ _ _ c, Ret (1, c).

Definition sample_config : config unit :=
  mkConfig (<["TIMEOUT"%string := VInt 300]> (<["PIPELINING"%string := VInt 1]> (<["CI_CONF.SERVER_NAME"%string := VStr None]>
    (<["DEFAULT_SERVICE"%string := VStr None]> (<["CI_BODY_MAX_MEM"%string := VLong 131072]> ∅))))) [] (Some []) 10 0 false tt.

Definition one_arg (dir : string) (i : item) : cline := Line [] (bytes dir) [32] [(i, [10])].

(** A file that includes another one, which includes the first again. *)
Definition sample_conf (p : list Z) : option (list cline) :=
  if bool_decide (p = bytes "/etc/c-icap.conf") then
    Some [Skip [] (bytes "# limits" ++ [10]); one_arg "Timeout" (Bare (bytes "60")); one_arg "Include" (Quoted (bytes "more.conf"));
          one_arg "Pipelining" (Bare (bytes "off"))]
  else if bool_decide (p = bytes "/etc/more.conf") then
    Some [one_arg "ServerName" (Quoted ([34] ++ bytes "a b" ++ [34])); one_arg "Include" (Bare (bytes "/etc/c-icap.conf"))]
  else None.

Definition files_of (conf : list Z → option (list cline)) (p : list Z) : option (list Z * bool) :=
  option_map (λ ls, (concat (map line_text ls), false)) (conf p).

Lemma one_arg_ok dir i b :
  directive (bytes dir) → item_ok i → bytes dir ++ [32] ++ text_of i = b → Forall (λ c, c ≠ 10) b → nonzero b → zlen b < LINESIZE - 3 →
  line_ok (one_arg dir i).
Proof.
  intros Hd Hi Hb Hn Hz Hl. assert (Ht : line_text (one_arg dir i) = b ++ [10]) by (subst b; cbn; by rewrite <- !app_assoc).
  unfold line_ok. rewrite Ht, zlen_app. change (zlen [10]) with 1. split_and!; try done; [by exists b|lia|apply Forall_app; split; [done|by repeat constructor]|].
  cbn. split_and!; try done; by repeat constructor || (unfold MAX_ARGS; lia).
Qed.

Ltac by_chars := repeat (apply Forall_cons_2; [vm_compute; congruence|]); apply Forall_nil_2.

Lemma sample_conf_ok p ls : sample_conf p = Some ls → Forall line_ok ls ∧ (length ls + 2 ≤ 8)%nat.
Proof.
  unfold sample_conf. repeat case_bool_decide; intros [= <-]; (split; [|cbn; lia]); repeat apply Forall_cons_2; try apply Forall_nil_2.
  1: { split_and!; [exists (bytes "# limits"); split; [reflexivity|by_chars]|vm_compute; discriminate|by_chars|constructor|right; reflexivity]. }
  all: (eapply one_arg_ok; [split_and!; [discriminate|by_chars|vm_compute; discriminate]|split_and!; vm_compute; try (reflexivity || discriminate); by_chars|reflexivity|by_chars|by_chars|vm_compute; reflexivity]).
Qed.

Lemma no_cust_separate : separate no_cust.
Proof. intros a e argv c. split; [discriminate|]. by intros r c' [= <- <-]. Qed.

Lemma sample_files_short p d b : files_of sample_conf p = Some (d, b) → b = false ∧ (S (length d) < 60)%nat.
Proof. unfold files_of, sample_conf. repeat case_bool_decide; intros [= <- <-]; (split; [done|]); vm_compute; lia. Qed.

Lemma configuration_read_ends_witness :
  parse_file false true true (bytes "/etc") (files_of sample_conf) no_cust (λ _, 7) 5 60 (bytes "/etc/c-icap.conf") sample_config ≠ NoFuel.
Proof.
  apply configuration_read_ends; [apply no_cust_separate|apply sample_files_short|vm_compute; discriminate].
Defined.

Lemma sample_kept : defaults_kept sample_config sample_config.
Proof. split; [constructor|done]. Qed.


Lemma configuration_performed_witness :
  parse_file false true true (bytes "/etc") (files_of sample_conf) no_cust (λ _, 7) 5 8 (bytes "/etc/c-icap.conf") sample_config =
  perform_file false true (bytes "/etc") sample_conf no_cust 5 (bytes "/etc/c-icap.conf") sample_config.
Proof. apply configuration_performed; [reflexivity|apply sample_conf_ok]. Defined.

(** The innermost file is not opened, so the whole is reported as an error; what was read has been set. *)
Example sample_conf_sets :
  ∃ c1, perform_file false true (bytes "/etc") sample_conf no_cust 5 (bytes "/etc/c-icap.conf") sample_config = Ret (0, c1) ∧
    c_vars c1 !! "TIMEOUT"%string = Some (VInt 60) ∧ c_vars c1 !! "PIPELINING"%string = Some (VInt 0) ∧
    c_vars c1 !! "CI_CONF.SERVER_NAME"%string = Some (VStr (Some ([34] ++ bytes "a b" ++ [34]))).
Proof. eexists. split; [vm_compute; reflexivity|]. split_and!; vm_compute; reflexivity. Qed.

(** ** Lines the reader does not see as they are *)

Definition sample_line (s : list Z) : outcome (Z * config unit) :=
  process_line false true true (bytes "/etc") no_cust (λ _ c, Ret (0, c)) s sample_config.

(** The arguments of a directive are never missing: without any there is one, which is empty, and a number is set to 0. *)
Lemma missing_argument_sets_zero :
  ∃ c, sample_line (bytes "Timeout" ++ [10]) = Ret (1, c) ∧ c_vars c !! "TIMEOUT"%string = Some (VInt 0).
Proof. eexists. split; [vm_compute; reflexivity|]. vm_compute; reflexivity. Qed.

(** Neither is a number checked to be one. *)
Lemma word_for_number_sets_zero :
  ∃ c, sample_line (bytes "Timeout never" ++ [10]) = Ret (1, c) ∧ c_vars c !! "TIMEOUT"%string = Some (VInt 0).
Proof. eexists. split; [vm_compute; reflexivity|]. vm_compute; reflexivity. Qed.

(** A size with a unit is multiplied without a check. *)
Lemma large_size_overflows : sample_line (bytes "MaxMemObject 9007199254740992K" ++ [10]) = UB.
Proof. vm_compute; reflexivity. Qed.

(** After a word that fills the buffer [find_action] looks for the arguments behind the buffer. *)
Lemma long_word_read_past_buffer : sample_line (replicate (Z.to_nat (LINESIZE - 1)) 97) = UB.
Proof. vm_compute; reflexivity. Qed.

(** A line whose newline is the 8190th character is taken for one that does not fit: the line after it is skipped. *)
Lemma next_line_skipped :
  ∃ c, parse_file false true true (bytes "/etc") (λ _, Some (35 :: replicate (Z.to_nat 8188) 97 ++ [10] ++ bytes "Timeout 60" ++ [10], false)) no_cust (λ _, 7) 5
      (Z.to_nat 9000) (bytes "f") sample_config = Ret (1, c) ∧ c_vars c !! "TIMEOUT"%string = Some (VInt 300).
Proof. eexists. split; [vm_compute; reflexivity|]. vm_compute; reflexivity. Qed.

(** A file that cannot be read, such as a directory, has no end either: the loop never ends. *)
Lemma unreadable_file_never_ends {W : Type} tls am ac CONFDIR files cust junk levels fuel path (c : config W) :
  PARSE_LEVEL c < MAX_INCLUDE_LEVEL → files path = Some ([], true) → parse_file tls am ac CONFDIR files cust junk levels fuel path c = NoFuel.
Proof.
  intros Hl Hf. destruct levels as [|levels]; cbn [parse_file]; rewrite (proj2 (Z.leb_gt _ _)), Hf by done; [done|].
  assert (Hloop : ∀ fuel line ret c, parse_lines tls am ac CONFDIR cust (parse_file tls am ac CONFDIR files cust junk levels fuel) fuel (mkFile [] false true) line ret c = NoFuel); [|by rewrite Hloop].
  intros fuel0. generalize (parse_file tls am ac CONFDIR files cust junk levels fuel0). intros inc. induction fuel0 as [|fuel0 IH]; intros line ret c0; [done|]. cbn [parse_lines f_eof].
  unfold fread_line, fgets. cbn [f_rest f_fails f_eof]. assert (Htl : take_line (Z.to_nat (LINESIZE - 1)) [] = ([], true, [])) by (by destruct (Z.to_nat (LINESIZE - 1)) eqn:E; [unfold LINESIZE in E; lia|]).
  rewrite Htl. cbn. apply IH.
Qed.
