(* ===== verification/Services.v ===== *)
(** * The services of the server (service.c, service_lib.c)

    Services are loaded, given aliases and settings by lines of the configuration.  The settings of all services are in one
    array that grows with realloc; the configuration table of a service points into it.  [sv_place] counts the places the array
    has had, so that a pointer into an old one is seen; [sv_tables] has, for each service, the place its table points into. *)

From stdpp Require Import base list list_numbers strings numbers option gmap.
From Stdlib Require Import ZArith Lia.
From S2P Require Import Prelude CString Chunks ReadBody SendBody RingBuf Headers Encapsulated IcapHeader ParseRequest HttpApi Session Response Config.

Definition STEP : Z := 32.
Definition MAX_HEADER_SIZE : Z := 1023.
Definition SRV_ISTAG_SIZE : Z := 39.
Definition SRV_ISTAG_POS : Z := 13.
Definition XINCLUDES_SIZE : Z := 511.
Definition MAIN_TABLE : Z := 1.
Definition ALIAS_TABLE : Z := 2.

#[export] Instance ci_service_module_eq : EqDecision ci_service_module.
Proof. solve_decision. Defined.

(** ** The settings of a service *)

(** [sx] are the settings that responses use; [option_handlers] are kept by name and number. *)
Record srv_xdata := mkSrv { sx : ci_service_xdata_t; disable_206 : bool; xincludes : list Z; option_handlers : list (list Z * nat) }.

Definition set_sx (x : ci_service_xdata_t) (d : srv_xdata) : srv_xdata := mkSrv x (disable_206 d) (xincludes d) (option_handlers d).

Definition up_status (ok : bool) (x : ci_service_xdata_t) : ci_service_xdata_t :=
  mkXdata ok (xopts x) (ISTag x) (TransferPreview x) (TransferIgnore x) (TransferComplete x) (preview_size x) (max_connections x) (options_ttl x) (allow_204 x) (allow_206 x).
Definition up_xopts (o : Z) (x : ci_service_xdata_t) : ci_service_xdata_t :=
  mkXdata (xd_ok x) o (ISTag x) (TransferPreview x) (TransferIgnore x) (TransferComplete x) (preview_size x) (max_connections x) (options_ttl x) (allow_204 x) (allow_206 x).
Definition up_istag (t : list Z) (x : ci_service_xdata_t) : ci_service_xdata_t :=
  mkXdata (xd_ok x) (xopts x) t (TransferPreview x) (TransferIgnore x) (TransferComplete x) (preview_size x) (max_connections x) (options_ttl x) (allow_204 x) (allow_206 x).
Definition up_transfer (p i f : list Z) (x : ci_service_xdata_t) : ci_service_xdata_t :=
  mkXdata (xd_ok x) (xopts x) (ISTag x) p i f (preview_size x) (max_connections x) (options_ttl x) (allow_204 x) (allow_206 x).
Definition up_numbers (p m t : Z) (x : ci_service_xdata_t) : ci_service_xdata_t :=
  mkXdata (xd_ok x) (xopts x) (ISTag x) (TransferPreview x) (TransferIgnore x) (TransferComplete x) p m t (allow_204 x) (allow_206 x).
Definition up_allow (a b : bool) (x : ci_service_xdata_t) : ci_service_xdata_t :=
  mkXdata (xd_ok x) (xopts x) (ISTag x) (TransferPreview x) (TransferIgnore x) (TransferComplete x) (preview_size x) (max_connections x) (options_ttl x) a b.

Definition init_extra_data : srv_xdata :=
  mkSrv (mkXdata false 0 (bytes "ISTag: CI0001-XXXXXXXXX") [] [] [] 0 (-1) (-1) false false) false [] [].

Definition ci_service_set_istag (istag : list Z) (d : srv_xdata) : srv_xdata :=
  set_sx (up_istag (take (Z.to_nat SRV_ISTAG_POS) (ISTag (sx d)) ++ take (Z.to_nat (SRV_ISTAG_SIZE - SRV_ISTAG_POS)) istag) (sx d)) d.

(** A name and a value cut to the room of the field; sizeof counts the NUL of the literal. *)
Definition header_field (name v : list Z) : list Z := name ++ take (Z.to_nat (MAX_HEADER_SIZE - (zlen name + 1))) v.

Definition ci_service_set_transfer_preview (v : list Z) (d : srv_xdata) : srv_xdata :=
  set_sx (up_transfer (header_field (bytes "Transfer-Preview: ") v) (TransferIgnore (sx d)) (TransferComplete (sx d)) (sx d)) d.
Definition ci_service_set_transfer_ignore (v : list Z) (d : srv_xdata) : srv_xdata :=
  set_sx (up_transfer (TransferPreview (sx d)) (header_field (bytes "Transfer-Ignore: ") v) (TransferComplete (sx d)) (sx d)) d.
Definition ci_service_set_transfer_complete (v : list Z) (d : srv_xdata) : srv_xdata :=
  set_sx (up_transfer (TransferPreview (sx d)) (TransferIgnore (sx d)) (header_field (bytes "Transfer-Complete: ") v) (sx d)) d.
Definition ci_service_set_preview (n : Z) (d : srv_xdata) : srv_xdata :=
  set_sx (up_numbers n (max_connections (sx d)) (options_ttl (sx d)) (sx d)) d.
Definition ci_service_set_max_connections (n : Z) (d : srv_xdata) : srv_xdata :=
  set_sx (up_numbers (preview_size (sx d)) n (options_ttl (sx d)) (sx d)) d.
Definition ci_service_set_options_ttl (n : Z) (d : srv_xdata) : srv_xdata :=
  set_sx (up_numbers (preview_size (sx d)) (max_connections (sx d)) n (sx d)) d.
Definition ci_service_enable_204 (d : srv_xdata) : srv_xdata := set_sx (up_allow true (allow_206 (sx d)) (sx d)) d.
Definition ci_service_enable_206 (d : srv_xdata) : srv_xdata :=
  if disable_206 d then d else set_sx (up_allow (allow_204 (sx d)) true (sx d)) d.
Definition ci_service_set_xopts (o : Z) (d : srv_xdata) : srv_xdata := set_sx (up_xopts o (sx d)) d.
Definition ci_service_add_xopts (o : Z) (d : srv_xdata) : srv_xdata := set_sx (up_xopts (Z.lor (xopts (sx d)) o) (sx d)) d.

(** The names are appended with commas; [len] counts what this call has appended, the field may hold more. *)
Fixpoint add_xincludes (l : list (list Z)) (len : Z) (x : list Z) : outcome (list Z) :=
  match l with
  | [] => Ret x
  | a :: l' =>
      if 0 <? XINCLUDES_SIZE - len - 2 then
        let x := if len =? 0 then x else x ++ bytes ", " in
        let len := if len =? 0 then len else len + 2 in
        let x := x ++ take (Z.to_nat (XINCLUDES_SIZE - len)) a in
        if zlen x <=? XINCLUDES_SIZE then add_xincludes l' (len + zlen a) x else UB
      else Ret x
  end.
Definition ci_service_add_xincludes (l : list (list Z)) (d : srv_xdata) : outcome srv_xdata :=
  let* x := add_xincludes l 0 (xincludes d) in Ret (mkSrv (sx d) (disable_206 d) x (option_handlers d)).

Definition ci_service_add_option_handler (name : list Z) (h : nat) (d : srv_xdata) : srv_xdata :=
  mkSrv (sx d) (disable_206 d) (xincludes d) (option_handlers d ++ [(take 63 name, h)]).

(** ** The tables of services and aliases *)

Record services := mkServices {
  sv_list : list ci_service_module;
  sv_data : list srv_xdata;
  sv_size : Z;
  sv_place : nat;
  sv_aliases : list service_alias_t;
  sv_aliases_size : Z;
  sv_tables : list nat
}.

Definition no_services : services := mkServices [] [] 0 0 [] 0 [].

(** The array of settings gets memory for one more; [mv] says whether realloc moves it. *)
Definition grow_services (am mv : bool) (s : services) : outcome services :=
  if sv_size s =? 0 then
    if am then Ret (mkServices (sv_list s) (sv_data s) STEP (sv_place s) (sv_aliases s) (sv_aliases_size s) (sv_tables s)) else Abort
  else if zlen (sv_list s) =? sv_size s then
    if am then Ret (mkServices (sv_list s) (sv_data s) (sv_size s + STEP) (if mv then S (sv_place s) else sv_place s) (sv_aliases s) (sv_aliases_size s) (sv_tables s))
    else Abort
  else Ret s.

(** The index of a service; a service is known by its address. *)
Fixpoint service_index (l : list ci_service_module) (m : ci_service_module) (i : nat) : option nat :=
  match l with [] => None | s :: l' => if bool_decide (s = m) then Some i else service_index l' m (S i) end.

Definition service_data (s : services) (m : ci_service_module) : option srv_xdata :=
  match service_index (sv_list s) m 0 with Some i => sv_data s !! i | None => None end.

Definition srv_row (n : string) (k : custom) (p : nat * nat) : ci_conf_entry := mkEntry (bytes n) None (Some (Custom k)) (Some p).

Definition services_global_conf_table (p : nat * nat) : list ci_conf_entry :=
  [srv_row "TransferPreview" SrvTransferPreview p; srv_row "TransferIgnore" SrvTransferIgnore p;
   srv_row "TransferComplete" SrvTransferComplete p; srv_row "PreviewSize" SrvPreviewSize p; srv_row "MaxConnections" SrvMaxConnections p;
   srv_row "OptionsTTL" SrvOptionsTtl p; srv_row "Allow206" SrvAllow206 p].

Definition create_service_conf_table (p : nat * nat) (user_table : list ci_conf_entry) : list ci_conf_entry :=
  services_global_conf_table p ++ user_table.

Section services.
(** [load] opens the library of a service, [init] is the [mod_init_service] of a service, [user_table] its own table; [am], [mv]:
    allocations succeed, realloc moves; [other] are the actions of the remaining directives. *)
Context (am mv : bool) (load : list Z → list (list Z) → option ci_service_module)
  (init : ci_service_module → option (srv_xdata → Z * srv_xdata)) (user_table : ci_service_module → list ci_conf_entry)
  (other : custom → ci_conf_entry → list (list Z) → config services → outcome (Z * config services)).

Definition set_status (ok : bool) (d : srv_xdata) : srv_xdata := set_sx (up_status ok (sx d)) d.

Definition initialized (m : ci_service_module) : srv_xdata :=
  match init m with
  | None => set_status true init_extra_data
  | Some f => let '(r, d) := f init_extra_data in set_status (r =? CI_OK) d
  end.

(** The place in the array is the one after growing. *)
Definition add_service (m : ci_service_module) (c : config services) : outcome (config services) :=
  let* s := grow_services am mv (c_world c) in
  let i := length (sv_list s) in
  let s' := mkServices (sv_list s ++ [m]) (sv_data s ++ [initialized m]) (sv_size s) (sv_place s) (sv_aliases s) (sv_aliases_size s) (sv_tables s ++ [sv_place s]) in
  let c := with_world s' c in
  Ret (if am then (register_conf_table am (mod_name m) (create_service_conf_table (sv_place s, i) (user_table m)) MAIN_TABLE c).2 else c).

Definition register_service (file : list Z) (argv : list (list Z)) (c : config services) : outcome (option ci_service_module * config services) :=
  match load file argv with
  | None => Ret (None, c)
  | Some m =>
      match find_service (sv_list (c_world c)) (mod_name m) with
      | Some _ => Ret (None, c)
      | None => let* c := add_service m c in Ret (Some m, c)
      end
  end.

(** The arguments of an alias: those of the alias it stands for, then its own. *)
Definition alias_arguments (base : list Z) (own : option (list Z)) : outcome (list Z) :=
  match own with
  | None => Ret base
  | Some a =>
      let s := if zlen base =? 0 then base else base ++ bytes "&" in
      if 0 <? MAX_SERVICE_ARGS - zlen s then
        if zlen s + zlen a <=? MAX_SERVICE_ARGS then Ret (s ++ a) else UB
      else Ret (take (Z.to_nat MAX_SERVICE_ARGS) s)
  end.

(** Tables that aliases registered: their names are pointers into the array of aliases. *)
Definition alias_names (c : config services) : bool :=
  existsb (λ o, match o with Some t => su_type t =? ALIAS_TABLE | None => false end) (default [] (c_tables c)).

(** The alias gets the table that was made for the service when it was added.  When the array of aliases moves, the names of
    the tables registered for aliases are left in the memory that was freed; the next search reads them. *)
Definition add_service_alias (name target : list Z) (own : option (list Z)) (c : config services) : outcome (config services) :=
  let s := c_world c in
  if bool_decide (name = target) then Ret c
  else
  let* size :=
    if sv_aliases_size s =? 0 then if am then Ret STEP else Abort
    else if zlen (sv_aliases s) =? sv_aliases_size s then if am then if mv && alias_names c then UB else Ret (sv_aliases_size s + STEP) else Abort
    else Ret (sv_aliases_size s) in
  let s := mkServices (sv_list s) (sv_data s) (sv_size s) (sv_place s) (sv_aliases s) size (sv_tables s) in
  let c := with_world s c in
  let found :=
    match find_service (sv_list s) target with
    | Some m => Some (m, [])
    | None => match find_service_alias (sv_aliases s) target with Some a => Some (alias_service a, alias_args a) | None => None end
    end in
  match found with
  | None => Ret c
  | Some (m, base) =>
      let* args := alias_arguments base own in
      let name := take (Z.to_nat MAX_SERVICE_NAME) name in
      let s := mkServices (sv_list s) (sv_data s) (sv_size s) (sv_place s) (sv_aliases s ++ [mkAlias name m args]) size (sv_tables s) in
      let c := with_world s c in
      match service_index (sv_list s) m 0 with
      | None => UB
      | Some i =>
          match sv_tables s !! i with
          | None => UB
          | Some place => Ret (if am then (register_conf_table am name (create_service_conf_table (place, i) (user_table m)) ALIAS_TABLE c).2 else c)
          end
      end
  end.

(** The service that shows the state of the server is there from the start. *)
Definition init_services (info_service : ci_service_module) (c : config services) : outcome (Z * config services) :=
  let* c := add_service info_service c in Ret (1, c).

(** After the configuration is read; [post] is the [mod_post_init_service] of a service. *)
Definition post_init_services (post : ci_service_module → option (srv_xdata → Z * srv_xdata)) (s : services) : services :=
  mkServices (sv_list s)
    (zip_with (λ m d, if xd_ok (sx d) then match post m with Some f => let '(r, d) := f d in if r =? CI_OK then d else set_status false d | None => d end else d)
       (sv_list s) (sv_data s))
    (sv_size s) (sv_place s) (sv_aliases s) (sv_aliases_size s) (sv_tables s).

(** [closes] says which services have a [mod_close_service]; only their tables are unregistered.  The array of settings is not freed. *)
Definition release_services (closes : ci_service_module → bool) (c : config services) : config services :=
  let s := c_world c in
  let c := foldl (λ c a, (unregister_conf_table (alias a) c).2) c (sv_aliases s) in
  let c := foldl (λ c m, if closes m then (unregister_conf_table (mod_name m) c).2 else c) c (sv_list s) in
  with_world (mkServices [] [] 0 (S (sv_place s)) [] 0 []) c.

(** ** The directives *)

Definition cfg_load_service (argv : list (list Z)) (c : config services) : outcome (Z * config services) :=
  match argv with
  | name :: file :: rest =>
      let* (o, c) := register_service file rest c in
      match o with
      | None => Ret (0, c)
      | Some m => let* c := add_service_alias name (mod_name m) None c in Ret (1, c)
      end
  | _ => Ret (0, c)
  end.

Definition cfg_service_alias (argv : list (list Z)) (c : config services) : outcome (Z * config services) :=
  match argv with
  | name :: target :: _ =>
      let '(t, a) := span (λ b, negb (b =? 63)) target in
      let* c := add_service_alias name t (match a with [] => None | _ :: a => Some a end) c in
      Ret (1, c)
  | _ => Ret (0, c)
  end.

(** The settings a row points to; the array may have moved since. *)
Definition with_settings (e : ci_conf_entry) (f : srv_xdata → outcome (Z * srv_xdata)) (c : config services) : outcome (Z * config services) :=
  match ce_xdata e with
  | None => UB
  | Some (place, i) =>
      let s := c_world c in
      if bool_decide (place = sv_place s) then
        match sv_data s !! i with
        | None => UB
        | Some d =>
            let* (r, d) := f d in
            Ret (r, with_world (mkServices (sv_list s) (<[i := d]> (sv_data s)) (sv_size s) (sv_place s) (sv_aliases s) (sv_aliases_size s) (sv_tables s)) c)
        end
      else UB
  end.

Definition text_setting (f : list Z → srv_xdata → srv_xdata) (argv : list (list Z)) (d : srv_xdata) : outcome (Z * srv_xdata) :=
  match argv with [] => Ret (0, d) | a :: _ => Ret (1, f a d) end.

Definition cfg_srv_preview_size (argv : list (list Z)) (d : srv_xdata) : outcome (Z * srv_xdata) :=
  match argv with
  | [] => Ret (0, d)
  | a :: _ =>
      if bool_decide (a = bytes "-") then Ret (1, ci_service_set_preview (-1) d)
      else
      let '(v, _, err) := strtoll a in
      if err || (to_int v <? 0) then Ret (0, d) else Ret (1, ci_service_set_preview (to_int v) d)
  end.

Definition cfg_srv_max_connections (argv : list (list Z)) (d : srv_xdata) : outcome (Z * srv_xdata) :=
  match argv with
  | [] => Ret (0, d)
  | a :: _ =>
      let '(v, _, err) := strtoll a in
      if err || (to_int v <? 0) then Ret (0, d) else Ret (1, ci_service_set_max_connections (to_int v) d)
  end.

Definition ttl_unit (u : list Z) : option Z :=
  if same_word u (bytes "sec") || same_word u (bytes "secs") then Some 1
  else if same_word u (bytes "min") || same_word u (bytes "mins") then Some 60
  else if same_word u (bytes "hour") || same_word u (bytes "hours") then Some (60 * 60)
  else None.

Definition cfg_srv_options_ttl (argv : list (list Z)) (d : srv_xdata) : outcome (Z * srv_xdata) :=
  match argv with
  | [] => Ret (0, d)
  | a :: rest =>
      let '(v, e, err) := strtoll a in
      let ttl := to_int v in
      if err || (ttl <? 0) then Ret (0, d)
      else
      let units := match e with _ :: _ => Some e | [] => head rest end in
      match (match units with Some u => ttl_unit u | None => Some 1 end) with
      | None => Ret (0, d)
      | Some u => if ttl * u <=? INT_MAX then Ret (1, ci_service_set_options_ttl (ttl * u) d) else UB
      end
  end.

Definition cfg_srv_allow206 (argv : list (list Z)) (d : srv_xdata) : outcome (Z * srv_xdata) :=
  match argv with
  | [] => Ret (0, d)
  | a :: _ => Ret (1, if same_word a (bytes "off") then d else mkSrv (sx d) true (xincludes d) (option_handlers d))
  end.

Definition setting (k : custom) : option (list (list Z) → srv_xdata → outcome (Z * srv_xdata)) :=
  match k with
  | SrvTransferPreview => Some (text_setting ci_service_set_transfer_preview)
  | SrvTransferIgnore => Some (text_setting ci_service_set_transfer_ignore)
  | SrvTransferComplete => Some (text_setting ci_service_set_transfer_complete)
  | SrvPreviewSize => Some cfg_srv_preview_size
  | SrvMaxConnections => Some cfg_srv_max_connections
  | SrvOptionsTtl => Some cfg_srv_options_ttl
  | SrvAllow206 => Some cfg_srv_allow206
  | _ => None
  end.

(** The actions of the configuration that concern services. *)
Definition service_actions (k : custom) (e : ci_conf_entry) (argv : list (list Z)) (c : config services) : outcome (Z * config services) :=
  match k with
  | LoadService => cfg_load_service argv c
  | ServiceAlias => cfg_service_alias argv c
  | _ => match setting k with Some f => with_settings e (f argv) c | None => other k e argv c end
  end.
End services.

(** The settings of the echo service (srv_echo.c). *)
Definition CI_XAUTHENTICATEDUSER : Z := 8.
Definition CI_XAUTHENTICATEDGROUPS : Z := 16.
Definition echo_init_service (d : srv_xdata) : Z * srv_xdata :=
  let d := ci_service_set_preview 1024 d in
  let d := ci_service_enable_204 d in
  let d := ci_service_set_transfer_preview (bytes "*") d in
  (CI_OK, ci_service_set_xopts (Z.lor CI_XAUTHENTICATEDUSER CI_XAUTHENTICATEDGROUPS) d).
