(* ===== verification/ServicesSafe.v ===== *)
(** * Services as they are configured

    A registry is a list of services with their settings, a list of aliases, and the names under which settings can be given.  The
    lines of a configuration act on the arrays and tables of the server as they act on a registry. *)

From stdpp Require Import base list list_numbers strings numbers option gmap.
From Stdlib Require Import ZArith Lia.
From S2P Require Import Prelude CString Chunks ReadBody SendBody RingBuf Headers Encapsulated IcapHeader ParseRequest HttpApi Session Response Options Config ConfigSafe Services.

(** ** Registries *)

Record registry := mkReg { rg_services : list (ci_service_module * srv_xdata); rg_aliases : list service_alias_t; rg_names : list (list Z * nat) }.

(** The first with that name. *)
Fixpoint number_of {A : Type} (f : A → list Z) (name : list Z) (i : nat) (l : list A) : option (nat * A) :=
  match l with [] => None | a :: l' => if bool_decide (f a = name) then Some (i, a) else number_of f name (S i) l' end.

(** A name that is taken stays with what it names. *)
Definition give_name (name : list Z) (i : nat) (g : registry) : registry :=
  match number_of fst name 0 (rg_names g) with Some _ => g | None => mkReg (rg_services g) (rg_aliases g) (rg_names g ++ [(name, i)]) end.

Inductive field := FTransferPreview | FTransferIgnore | FTransferComplete | FPreviewSize | FMaxConnections | FOptionsTtl | FAllow206.

Definition field_name (f : field) : string :=
  match f with
  | FTransferPreview => "TransferPreview" | FTransferIgnore => "TransferIgnore" | FTransferComplete => "TransferComplete"
  | FPreviewSize => "PreviewSize" | FMaxConnections => "MaxConnections" | FOptionsTtl => "OptionsTTL" | FAllow206 => "Allow206"
  end.

Definition field_setting (f : field) : list (list Z) → srv_xdata → outcome (Z * srv_xdata) :=
  match f with
  | FTransferPreview => text_setting ci_service_set_transfer_preview | FTransferIgnore => text_setting ci_service_set_transfer_ignore
  | FTransferComplete => text_setting ci_service_set_transfer_complete | FPreviewSize => cfg_srv_preview_size
  | FMaxConnections => cfg_srv_max_connections | FOptionsTtl => cfg_srv_options_ttl | FAllow206 => cfg_srv_allow206
  end.

(** The lines that concern services: [Service name file ...], [ServiceAlias name target?args], [name.Field ...]. *)
Inductive sline := SLoad (name file : list Z) (rest : list (list Z)) | SAlias (name target : list Z) | SSet (table : list Z) (f : field) (argv : list (list Z)).

Definition sline_dir (l : sline) : list Z :=
  match l with SLoad _ _ _ => bytes "Service" | SAlias _ _ => bytes "ServiceAlias" | SSet t f _ => t ++ bytes "." ++ bytes (field_name f) end.
Definition sline_argv (l : sline) : list (list Z) :=
  match l with SLoad n f r => n :: f :: r | SAlias n t => [n; t] | SSet _ _ a => a end.

Section registry.
Context (load : list Z → list (list Z) → option ci_service_module) (init : ci_service_module → option (srv_xdata → Z * srv_xdata)).

(** An alias for a service, or for what an alias stands for, with its arguments after the other's. *)
Definition reg_alias (name target : list Z) (own : option (list Z)) (g : registry) : outcome registry :=
  if bool_decide (name = target) then Ret g
  else
  let found :=
    match number_of (mod_name ∘ fst) target 0 (rg_services g) with
    | Some (_, (m, _)) => Some (m, [])
    | None => match find_service_alias (rg_aliases g) target with Some a => Some (alias_service a, alias_args a) | None => None end
    end in
  match found with
  | None => Ret g
  | Some (m, base) =>
      let* args := alias_arguments base own in
      let name := take (Z.to_nat MAX_SERVICE_NAME) name in
      match number_of (mod_name ∘ fst) (mod_name m) 0 (rg_services g) with
      | None => UB
      | Some (i, _) => Ret (give_name name i (mkReg (rg_services g) (rg_aliases g ++ [mkAlias name m args]) (rg_names g)))
      end
  end.

Definition reg_line (l : sline) (g : registry) : outcome (Z * registry) :=
  match l with
  | SLoad name file rest =>
      match load file rest with
      | None => Ret (0, g)
      | Some m =>
          match number_of (mod_name ∘ fst) (mod_name m) 0 (rg_services g) with
          | Some _ => Ret (0, g)
          | None =>
              let i := length (rg_services g) in
              let g := give_name (mod_name m) i (mkReg (rg_services g ++ [(m, initialized init m)]) (rg_aliases g) (rg_names g)) in
              let* g := reg_alias name (mod_name m) None g in Ret (1, g)
          end
      end
  | SAlias name target =>
      let '(t, a) := span (λ b, negb (b =? 63)) target in
      let* g := reg_alias name t (match a with [] => None | _ :: a => Some a end) g in Ret (1, g)
  | SSet table f argv =>
      match number_of fst table 0 (rg_names g) with
      | None => Ret (0, g)
      | Some (_, (_, i)) =>
          match rg_services g !! i with
          | None => UB
          | Some (m, d) =>
              let* (r, d) := field_setting f argv d in
              Ret (if r =? 0 then 0 else 1, mkReg (<[i := (m, d)]> (rg_services g)) (rg_aliases g) (rg_names g))
          end
      end
  end.

Fixpoint reg_lines (ls : list sline) (g : registry) : outcome (list Z * registry) :=
  match ls with
  | [] => Ret ([], g)
  | l :: ls => let* (r, g) := reg_line l g in let* (rs, g) := reg_lines ls g in Ret (r :: rs, g)
  end.
End registry.

(** ** Names *)

Section names.
Context {A : Type} (f : A → list Z).

Lemma number_of_some name k l i a :
  number_of f name k l = Some (i, a) → (k ≤ i)%nat ∧ l !! (i - k)%nat = Some a ∧ f a = name.
Proof.
  revert k. induction l as [|b l IH]; intros k; [done|]. cbn [number_of]. case_bool_decide as Hb.
  - intros [= <- <-]. by rewrite Nat.sub_diag.
  - intros H. destruct (IH (S k) H) as (H1 & H2 & H3). split; [lia|]. split; [|done]. by replace (i - k)%nat with (S (i - S k)) by lia.
Qed.

Lemma number_of_none name k l : number_of f name k l = None ↔ name ∉ map f l.
Proof.
  revert k. induction l as [|b l IH]; intros k; cbn [number_of map]; [split; [intros _ H; by apply not_elem_of_nil in H|done]|].
  rewrite not_elem_of_cons. case_bool_decide as Hb; [split; [done|]; intros [H _]; congruence|]. rewrite IH. split; [intros H; split; [congruence|done]|tauto].
Qed.

Lemma number_of_app name k l b :
  number_of f name k (l ++ [b]) = match number_of f name k l with Some p => Some p | None => if bool_decide (f b = name) then Some ((k + length l)%nat, b) else None end.
Proof.
  revert k. induction l as [|a l IH]; intros k; cbn [app number_of length]; [by rewrite Nat.add_0_r|]. destruct (bool_decide (f a = name)); [done|]. rewrite IH.
  by replace (S k + length l)%nat with (k + S (length l))%nat by lia.
Qed.

End names.

Lemma find_service_number l name : find_service (map fst l) name = option_map (λ p, p.2.1) (number_of (mod_name ∘ @fst ci_service_module srv_xdata) name 0 l).
Proof. generalize 0%nat. induction l as [|[m d] l IH]; intros k; [done|]. cbn [map find_service number_of compose fst]. by destruct (bool_decide _). Qed.

Lemma service_index_number l m d k :
  NoDup (map (mod_name ∘ fst) l) → (m, d) ∈ l →
  ∃ i d', number_of (mod_name ∘ @fst ci_service_module srv_xdata) (mod_name m) k l = Some (i, (m, d')) ∧ service_index (map fst l) m k = Some i.
Proof.
  revert k. induction l as [|[m' d'] l IH]; intros k Hnd Hin; [by apply not_elem_of_nil in Hin|]. cbn [map number_of service_index compose fst] in *. inversion Hnd as [|? ? Hb Hnd']. subst.
  case_bool_decide as Hm.
  - assert (m' = m) as ->.
    { apply elem_of_cons in Hin as [[= -> _]|Hin]; [done|]. destruct Hb. cbn. rewrite Hm. by apply (list_elem_of_fmap_2 (mod_name ∘ fst) l (m, d)). }
    rewrite bool_decide_true by done. eauto.
  - rewrite bool_decide_false by congruence. apply elem_of_cons in Hin as [[= -> _]|Hin]; [done|]. eauto.
Qed.

Lemma map_insert {A B : Type} (f : A → B) (l : list A) i a : map f (<[i := a]> l) = <[i := f a]> (map f l).
Proof. revert i. induction l as [|b l IH]; intros [|i]; cbn; [done..|]. f_equal. apply IH. Qed.

Lemma map_insert_same {A B : Type} (f : A → B) (l : list A) i a b : l !! i = Some b → f a = f b → map f (<[i := a]> l) = map f l.
Proof. revert i. induction l as [|c l IH]; intros [|i] Hb Hf; cbn in *; [done..|by injection Hb as ->; rewrite Hf|]. f_equal. by apply IH. Qed.

(** ** The arrays and tables behind a registry *)

(** Names are not given twice; aliases and names lead to services there are. *)
Record reg_ok (g : registry) : Prop := {
  ro_names : NoDup (map (mod_name ∘ fst) (rg_services g));
  ro_aliases : Forall (λ a, ∃ d, (alias_service a, d) ∈ rg_services g) (rg_aliases g);
  ro_index : Forall (λ p, (p.2 < length (rg_services g))%nat) (rg_names g)
}.

Section refinement.
Context (tls ac mv : bool) (CONFDIR : list Z) (load : list Z → list (list Z) → option ci_service_module)
  (init : ci_service_module → option (srv_xdata → Z * srv_xdata)) (user_table : ci_service_module → list ci_conf_entry)
  (other : custom → ci_conf_entry → list (list Z) → config services → outcome (Z * config services)).

Definition table_for (place : nat) (o : option sub_table) (p : list Z * nat) : Prop :=
  ∃ ty m, o = Some (mkSub p.1 ty (create_service_conf_table (place, p.2) (user_table m))).

Record stands (c : config services) (g : registry) : Prop := {
  sd_list : sv_list (c_world c) = map fst (rg_services g);
  sd_data : sv_data (c_world c) = map snd (rg_services g);
  sd_places : sv_tables (c_world c) = replicate (length (rg_services g)) (sv_place (c_world c));
  sd_alias : sv_aliases (c_world c) = rg_aliases g;
  sd_size : sv_size (c_world c) = 0 ∧ rg_services g = [] ∨ STEP ≤ sv_size (c_world c) ∧ zlen (rg_services g) ≤ sv_size (c_world c);
  sd_room : sv_aliases_size (c_world c) = 0 ∧ rg_aliases g = [] ∨ STEP ≤ sv_aliases_size (c_world c) ∧ zlen (rg_aliases g) ≤ sv_aliases_size (c_world c);
  sd_tables : ∃ l, c_tables c = Some l ∧ Forall2 (table_for (sv_place (c_world c))) l (rg_names g)
}.

Lemma table_at_number place name k l ns :
  Forall2 (table_for place) l ns →
  match number_of fst name k ns with
  | None => table_at name k l = None ∧ insert_pos name k l = Some None
  | Some (i, p) => ∃ ty m, table_at name k l = Some (i, mkSub p.1 ty (create_service_conf_table (place, p.2) (user_table m))) ∧ insert_pos name k l = None
  end.
Proof.
  intros Hl. revert k. induction Hl as [|o p l ns (ty & m & ->) Hl IH]; intros k; cbn [number_of table_at insert_pos su_name]; [done|].
  case_bool_decide as Hp.
  - rewrite !bool_decide_true by done. by exists ty, m.
  - rewrite !bool_decide_false by congruence. apply IH.
Qed.

(** A table registered under a name. *)
Lemma register_stands name ty i m c g :
  stands c g → stands (register_conf_table true name (create_service_conf_table (sv_place (c_world c), i) (user_table m)) ty c).2 (give_name name i g).
Proof.
  intros [S1 S2 SP S3 S4 SA (l & Hl & Hf)]. pose proof (table_at_number _ name 0 l _ Hf) as Hn. unfold register_conf_table, give_name. rewrite Hl.
  destruct (number_of fst name 0 (rg_names g)) as [[j p]|].
  - destruct Hn as (ty' & m' & _ & ->). split; eauto.
  - destruct Hn as [_ ->]. assert (Hf' : Forall2 (table_for (sv_place (c_world c))) (l ++ [Some (mkSub name ty (create_service_conf_table (sv_place (c_world c), i) (user_table m)))]) (rg_names g ++ [(name, i)])).
    { apply Forall2_app; [done|]. constructor; [|constructor]. by exists ty, m. }
    destruct (zlen l =? c_size c); (split; cbn; [done..|]); by eexists.
Qed.

Lemma give_name_ok name i g : reg_ok g → (i < length (rg_services g))%nat → reg_ok (give_name name i g).
Proof.
  intros [R1 R2 R3] Hi. unfold give_name. destruct (number_of _ _ _ _); [done|]. split; try done. cbn. apply Forall_app. split; [done|]. by repeat constructor.
Qed.

(** A service loaded. *)
Lemma add_service_stands m c g :
  stands c g → reg_ok g → mod_name m ∉ map (mod_name ∘ fst) (rg_services g) → mv = false ∨ (length (rg_services g) < 32)%nat →
  let g' := give_name (mod_name m) (length (rg_services g)) (mkReg (rg_services g ++ [(m, initialized init m)]) (rg_aliases g) (rg_names g)) in
  ∃ c', add_service true mv init user_table m c = Ret c' ∧ stands c' g' ∧ reg_ok g'.
Proof.
  intros [S1 S2 SP S3 S4 SA S5] [R1 R2 R3] Hnew Hmv g'. unfold add_service.
  assert (Hgrow : ∃ s, grow_services true mv (c_world c) = Ret s ∧ sv_list s = sv_list (c_world c) ∧ sv_data s = sv_data (c_world c) ∧ sv_place s = sv_place (c_world c) ∧ sv_aliases s = sv_aliases (c_world c) ∧
    sv_tables s = sv_tables (c_world c) ∧ sv_aliases_size s = sv_aliases_size (c_world c) ∧ STEP ≤ sv_size s ∧ zlen (rg_services g) + 1 ≤ sv_size s).
  { unfold grow_services. assert (Hz : zlen (sv_list (c_world c)) = zlen (rg_services g)) by (rewrite S1; unfold zlen; by rewrite length_map). rewrite Hz.
    pose proof (zlen_nonneg (rg_services g)). destruct S4 as [[Hs Hnil]|[Hs1 Hs2]].
    - rewrite Hs, Hnil. eexists. split; [done|]. cbn. by split_and!.
    - rewrite (proj2 (Z.eqb_neq (sv_size (c_world c)) 0)) by (unfold STEP in *; lia). destruct (Z.eqb_spec (zlen (rg_services g)) (sv_size (c_world c))) as [He|He].
      + eexists. split; [done|]. cbn. split_and!; try done; [|unfold STEP in *; lia..]. destruct Hmv as [-> |Hmv]; [done|]. unfold zlen, STEP in *. lia.
      + eexists. split; [done|]. split_and!; try done. lia. }
  destruct Hgrow as (s & -> & G1 & G2 & G3 & G4 & G5 & G8 & G6 & G7). cbn [obind].
  assert (Hi : length (sv_list s) = length (rg_services g)) by (rewrite G1, S1; apply length_map). rewrite Hi.
  eexists. split; [done|]. set (c1 := with_world _ c).
  assert (Hst : stands c1 (mkReg (rg_services g ++ [(m, initialized init m)]) (rg_aliases g) (rg_names g))).
  { split; cbn.
    - by rewrite G1, S1, map_app.
    - by rewrite G2, S2, map_app.
    - by rewrite G5, SP, G3, length_app, replicate_add.
    - by rewrite G4.
    - right. split; [done|]. rewrite zlen_app. change (zlen [_]) with 1. lia.
    - by rewrite G8.
    - rewrite G3. done. }
  split.
  - change (sv_place s) with (sv_place (c_world c1)). by apply register_stands.
  - apply give_name_ok; [|cbn; rewrite length_app; cbn; lia]. split; cbn.
    + rewrite map_app. cbn. apply NoDup_app. split_and!; [done| |apply NoDup_singleton]. intros x Hx Hx'. apply list_elem_of_singleton in Hx'. subst. done.
    + eapply Forall_impl; [exact R2|]. intros a [d Hd]. exists d. apply elem_of_app. by left.
    + eapply Forall_impl; [exact R3|]. intros p Hp. cbn in Hp. rewrite length_app. cbn. lia.
Qed.
(** A computation on the configuration does what one on the registry does. *)
Definition refines {A : Type} (P : config services → registry → Prop) (o : outcome (A * config services)) (a : outcome (A * registry)) : Prop :=
  match a with
  | Ret (r, g) => ∃ c, o = Ret (r, c) ∧ P c g
  | UB => o = UB
  | Abort => o = Abort
  | NoFuel => o = NoFuel
  end.

Lemma alias_arguments_cases base own : (∃ a, alias_arguments base own = Ret a) ∨ alias_arguments base own = UB.
Proof. unfold alias_arguments. repeat case_match; eauto. Qed.

Definition sound (c : config services) (g : registry) : Prop := stands c g ∧ reg_ok g.

Lemma alias_size c g :
  stands c g → mv = false ∨ (length (rg_aliases g) < 32)%nat →
  ∃ n, (if sv_aliases_size (c_world c) =? 0 then Ret STEP
        else if zlen (sv_aliases (c_world c)) =? sv_aliases_size (c_world c) then if mv && alias_names c then UB else Ret (sv_aliases_size (c_world c) + STEP)
        else Ret (sv_aliases_size (c_world c))) = Ret n ∧ STEP ≤ n ∧ zlen (rg_aliases g) + 1 ≤ n.
Proof.
  intros [S1 S2 SP S3 S4 SA S5] Hmv. rewrite S3. destruct SA as [[-> ->]|[H1 H2]]; [by exists STEP|]. rewrite (proj2 (Z.eqb_neq (sv_aliases_size (c_world c)) 0)) by (unfold STEP in *; lia).
  destruct (Z.eqb_spec (zlen (rg_aliases g)) (sv_aliases_size (c_world c))) as [He|He].
  - destruct Hmv as [-> |Hmv]; [|unfold STEP, zlen in *; lia]. eexists. split; [done|]. unfold STEP in *. lia.
  - eexists. split; [done|]. lia.
Qed.

Lemma add_alias_stands name target own c g :
  sound c g → mv = false ∨ (length (rg_aliases g) < 32)%nat →
  refines sound (let* c := add_service_alias true mv user_table name target own c in Ret (1, c)) (let* g := reg_alias name target own g in Ret (1, g)).
Proof.
  intros [Hst Hok] Hmv. unfold add_service_alias, reg_alias. case_bool_decide; [cbn; by exists c|].
  set (size := if sv_aliases_size (c_world c) =? 0 then _ else _). pose proof Hst as [S1 S2 SP S3 S4 SA S5].
  assert (Hsize : ∃ n, size = Ret n ∧ STEP ≤ n ∧ zlen (rg_aliases g) + 1 ≤ n) by (by apply alias_size).
  destruct Hsize as (n & -> & Hn1 & Hn2). cbn [obind]. cbn [sv_list sv_aliases].
  rewrite S1, S3, find_service_number. set (c1 := with_world _ c). assert (Hst1 : stands c1 g) by (split; try done; right; cbn; split; [done|lia]).
  assert (Hfound : ∃ o, match option_map (λ p, p.2.1) (number_of (mod_name ∘ fst) target 0 (rg_services g)) with Some m => Some (m, []) | None => match find_service_alias (rg_aliases g) target with Some a => Some (alias_service a, alias_args a) | None => None end end = o ∧
    match number_of (mod_name ∘ fst) target 0 (rg_services g) with Some (_, (m, _)) => Some (m, []) | None => match find_service_alias (rg_aliases g) target with Some a => Some (alias_service a, alias_args a) | None => None end end = o ∧
    match o with Some (m, _) => ∃ d, (m, d) ∈ rg_services g | None => True end).
  { destruct (number_of (mod_name ∘ fst) target 0 (rg_services g)) as [[i [m d]]|] eqn:Hn; cbn [option_map snd fst].
    - eexists. split; [done|]. split; [done|]. apply number_of_some in Hn as (_ & Hn & _). exists d. by eapply list_elem_of_lookup_2.
    - destruct (find_service_alias (rg_aliases g) target) as [a|] eqn:Ha; [|by eexists]. eexists. split; [done|]. split; [done|].
      pose proof (ro_aliases _ Hok) as Hall. clear -Ha Hall. induction Hall as [|b l Hb Hall IH]; [done|]. cbn [find_service_alias] in Ha. destruct (bool_decide _); [by injection Ha as ->|auto]. }
  destruct Hfound as (o & -> & -> & Ho). destruct o as [[m base]|]; [|cbn; by exists c1].
  destruct (alias_arguments_cases base own) as [[args ->]| ->]; [|done]. cbn [obind]. destruct Ho as [d Hd].
  destruct (service_index_number (rg_services g) m d 0 (ro_names _ Hok) Hd) as (i & d' & Hnum & Hidx). rewrite Hnum. cbn [sv_list]. rewrite Hidx. cbn [sv_tables].
  assert (Hi : (i < length (rg_services g))%nat) by (apply number_of_some in Hnum as (_ & Hnum & _); rewrite Nat.sub_0_r in Hnum; by eapply lookup_lt_Some).
  rewrite SP, lookup_replicate_2 by done. cbn [obind refines sv_place].
  eexists. split; [done|]. set (nm := take _ name). set (c2 := with_world _ c1).
  assert (Hst2 : stands c2 (mkReg (rg_services g) (rg_aliases g ++ [mkAlias nm m args]) (rg_names g))).
  { split; cbn; try done; []. right. split; [done|]. rewrite zlen_app. change (zlen [_]) with 1. lia. }
  split.
  - change (sv_place (c_world c)) with (sv_place (c_world c2)). by apply register_stands.
  - apply give_name_ok; cbn.
    + destruct Hok as [R1 R2 R3]. split; cbn; try done. apply Forall_app. split; [done|]. constructor; [|constructor]. by exists d.
    + done.
Qed.

Definition do_line (inc : list Z → config services → outcome (Z * config services)) (l : sline) (c : config services) : outcome (Z * config services) :=
  perform tls ac CONFDIR (service_actions true mv load init user_table other) inc (sline_dir l) (sline_argv l) c.

Lemma search_field f p ut :
  search_conf_table (create_service_conf_table p ut) (bytes (field_name f)) =
  Some (srv_row (field_name f) (match f with FTransferPreview => SrvTransferPreview | FTransferIgnore => SrvTransferIgnore | FTransferComplete => SrvTransferComplete
    | FPreviewSize => SrvPreviewSize | FMaxConnections => SrvMaxConnections | FOptionsTtl => SrvOptionsTtl | FAllow206 => SrvAllow206 end) p).
Proof. by destruct f. Qed.

Lemma named_field t f : Forall (λ b, no_dot b = true) t → named (t ++ bytes "." ++ bytes (field_name f)) = (Some t, bytes (field_name f)).
Proof. intros Ht. unfold named. by rewrite (span_stop t (bytes "." ++ bytes (field_name f)) no_dot Ht). Qed.

Lemma field_setting_cases f argv d : (∃ r d', field_setting f argv d = Ret (r, d')) ∨ field_setting f argv d = UB.
Proof.
  destruct f; cbn [field_setting]; unfold text_setting, cfg_srv_preview_size, cfg_srv_max_connections, cfg_srv_options_ttl, cfg_srv_allow206; repeat case_match; eauto.
Qed.

Lemma set_stands inc table f argv c g :
  sound c g → Forall (λ b, no_dot b = true) table → refines sound (do_line inc (SSet table f argv) c) (reg_line load init (SSet table f argv) g).
Proof.
  intros [Hst Hok] Ht. pose proof Hst as [S1 S2 SP S3 S4 SA (l & Hl & Hf)]. unfold do_line, perform. cbn [sline_dir sline_argv reg_line]. rewrite (named_field table f Ht). cbn [fst snd].
  unfold search_variables. rewrite Hl. pose proof (table_at_number _ table 0 l _ Hf) as Hn. destruct (number_of fst table 0 (rg_names g)) as [[j [n i]]|] eqn:Hnum.
  2:{ destruct Hn as [-> _]. cbn. by exists c. }
  destruct Hn as (ty & m & -> & _). cbn [su_table fst snd]. rewrite search_field. cbn [ce_action srv_row run_action].
  assert (Hi : (i < length (rg_services g))%nat).
  { apply number_of_some in Hnum as (_ & Hnum & _). pose proof (ro_index _ Hok) as Hall. rewrite Forall_lookup in Hall. by apply (Hall _ _ Hnum). }
  destruct (lookup_lt_is_Some_2 _ _ Hi) as [[m' d] Hd]. rewrite Hd.
  assert (Hact : ∀ e, ce_xdata e = Some (sv_place (c_world c), i) →
    with_settings e (field_setting f argv) c = let* (r, d) := field_setting f argv d in
      Ret (r, with_world (mkServices (sv_list (c_world c)) (<[i := d]> (sv_data (c_world c))) (sv_size (c_world c)) (sv_place (c_world c)) (sv_aliases (c_world c)) (sv_aliases_size (c_world c)) (sv_tables (c_world c))) c)).
  { intros e He. unfold with_settings. rewrite He, bool_decide_true by done. rewrite S2, list_lookup_fmap, Hd. done. }
  match goal with |- refines _ (let* (_, _) := ?a in _) _ => replace a with (let* (r, d) := field_setting f argv d in
      Ret (r, with_world (mkServices (sv_list (c_world c)) (<[i := d]> (sv_data (c_world c))) (sv_size (c_world c)) (sv_place (c_world c)) (sv_aliases (c_world c)) (sv_aliases_size (c_world c)) (sv_tables (c_world c))) c))
    by (symmetry; destruct f; by apply Hact) end.
  destruct (field_setting_cases f argv d) as [(r & d' & ->)| ->]; [|done]. cbn. eexists. split; [done|]. split.
  - split; cbn; try done.
    + by rewrite S1, (map_insert_same fst _ i (m', d') (m', d)).
    + by rewrite S2, map_insert.
    + by rewrite SP, length_insert.
    + destruct S4 as [[? Hnil]|[? ?]]; [rewrite Hnil in Hi; cbn in Hi; lia|]. right. by rewrite zlen_insert.
    + eauto.
  - destruct Hok as [R1 R2 R3]. split; cbn.
    + by rewrite (map_insert_same (mod_name ∘ fst) _ i (m', d') (m', d)).
    + eapply Forall_impl; [exact R2|]. intros a [d0 Hd0]. apply list_elem_of_lookup in Hd0 as [k Hk]. destruct (decide (k = i)) as [-> |Hne].
      * rewrite Hd in Hk. injection Hk as -> ->. exists d'. apply list_elem_of_lookup. exists i. by apply list_lookup_insert_eq.
      * exists d0. apply list_elem_of_lookup. exists k. by rewrite list_lookup_insert_ne.
    + eapply Forall_impl; [exact R3|]. intros p Hp. by rewrite length_insert.
Qed.
Definition sline_ok (l : sline) : Prop := match l with SSet t _ _ => Forall (λ b, no_dot b = true) t | _ => True end.
Definition loads (l : sline) : nat := match l with SLoad _ _ _ => 1 | _ => 0 end.
Definition names (l : sline) : nat := match l with SSet _ _ _ => 0 | _ => 1 end.

(** The arrays do not grow. *)
Definition fits (g : registry) (ls : list sline) : Prop :=
  (length (rg_services g) + sum_list_with loads ls ≤ 32)%nat ∧ (length (rg_aliases g) + sum_list_with names ls ≤ 32)%nat.

Lemma alias_line inc name target c :
  do_line inc (SAlias name target) c =
  let* (r, c) := cfg_service_alias true mv user_table [name; target] c in Ret (if r =? 0 then 0 else 1, c).
Proof. unfold do_line, perform. by destruct tls. Qed.

Lemma load_line inc name file rest c :
  do_line inc (SLoad name file rest) c =
  let* (r, c) := cfg_load_service true mv load init user_table (name :: file :: rest) c in Ret (if r =? 0 then 0 else 1, c).
Proof. unfold do_line, perform. by destruct tls. Qed.

Lemma add_alias_more {A : Type} (k : config services → outcome (A * config services)) (k' : registry → outcome (A * registry)) name target own c g :
  sound c g → mv = false ∨ (length (rg_aliases g) < 32)%nat → (∀ c g, sound c g → refines sound (k c) (k' g)) →
  refines sound (let* c := add_service_alias true mv user_table name target own c in k c) (let* g := reg_alias name target own g in k' g).
Proof.
  intros Hs Hmv Hk. pose proof (add_alias_stands name target own c g Hs Hmv) as Ha. destruct (reg_alias name target own g) as [g1| | |]; cbn [obind refines] in *.
  - destruct Ha as (c1 & Hc1 & Hs1). apply obind_Ret in Hc1 as (c2 & -> & [= ->]). cbn [obind]. by apply Hk.
  - by destruct (add_service_alias true mv user_table name target own c).
  - by destruct (add_service_alias true mv user_table name target own c).
  - by destruct (add_service_alias true mv user_table name target own c).
Qed.

Lemma give_name_services n i g : rg_services (give_name n i g) = rg_services g.
Proof. unfold give_name. by destruct (number_of _ _ _ _). Qed.

Lemma give_name_aliases n i g : rg_aliases (give_name n i g) = rg_aliases g.
Proof. unfold give_name. by destruct (number_of _ _ _ _). Qed.

Lemma line_stands inc l c g :
  sound c g → sline_ok l → mv = false ∨ fits g [l] → refines sound (do_line inc l c) (reg_line load init l g).
Proof.
  intros Hs Hl Hmv. destruct l as [name file rest|name target|table f argv]; cbn [reg_line].
  - rewrite load_line. unfold cfg_load_service, register_service. destruct (load file rest) as [m|]; [|cbn; by exists c].
    destruct Hs as [Hst Hok]. rewrite (sd_list _ _ Hst), find_service_number. destruct (number_of _ (mod_name m) 0 _) as [p|] eqn:Hn; cbn [option_map]; [cbn; by exists c|].
    apply number_of_none in Hn. destruct (add_service_stands m c g Hst Hok Hn) as (c1 & -> & Hst1 & Hok1); [destruct Hmv as [?|[Hmv _]]; [by left|right; cbn in Hmv; lia]|]. cbn [obind].
    set (g1 := give_name _ _ _). pose proof (add_alias_more (λ c, Ret (1, c)) (λ g, Ret (1, g)) name (mod_name m) None c1 g1 ltac:(by split)) as Ha.
    assert (Hmv1 : mv = false ∨ (length (rg_aliases g1) < 32)%nat) by (destruct Hmv as [?|[_ Hmv]]; [by left|right; unfold g1; rewrite give_name_aliases; cbn in Hmv |- *; lia]).
    assert (Hk : ∀ c g, sound c g → refines sound (Ret (1, c)) (Ret (1, g))) by (intros c0 g0 H0; cbn; eauto). specialize (Ha Hmv1 Hk).
    destruct (reg_alias name (mod_name m) None g1) as [g2| | |]; cbn [obind refines] in *; destruct (add_service_alias true mv user_table name (mod_name m) None c1) as [c2| | |]; cbn [obind] in *; try done;
      by destruct Ha as (c3 & [= <-] & H3); eauto.
  - rewrite alias_line. unfold cfg_service_alias. destruct (span _ target) as [t a]. set (own := match a with [] => None | _ :: a => Some a end).
    pose proof (add_alias_more (λ c, Ret (1, c)) (λ g, Ret (1, g)) name t own c g Hs) as Ha.
    assert (Hk : ∀ c g, sound c g → refines sound (Ret (1, c)) (Ret (1, g))) by (intros c0 g0 H0; cbn; eauto). specialize (Ha ltac:(destruct Hmv as [?|[_ Hmv]]; [by left|right; cbn in Hmv; lia]) Hk).
    destruct (reg_alias name t own g) as [g2| | |]; cbn [obind refines] in *; destruct (add_service_alias true mv user_table name t own c) as [c2| | |]; cbn [obind] in *; try done;
      by destruct Ha as (c3 & [= <-] & H3); eauto.
  - by apply set_stands.
Qed.

Lemma reg_alias_length n t o g g' : reg_alias n t o g = Ret g' → rg_services g' = rg_services g ∧ (length (rg_aliases g') ≤ length (rg_aliases g) + 1)%nat.
Proof.
  unfold reg_alias. case_bool_decide; [intros [= <-]; split; [done|lia]|]. case_match; [|intros [= <-]; split; [done|lia]]. destruct p as [m base]. intros Hr. apply obind_Ret in Hr as (a & _ & Hr).
  case_match; [|done]. destruct p as [i d]. injection Hr as <-. rewrite give_name_services, give_name_aliases. cbn. rewrite length_app. by split.
Qed.

Lemma reg_line_length l g r g' : reg_line load init l g = Ret (r, g') →
  (length (rg_services g') ≤ length (rg_services g) + loads l)%nat ∧ (length (rg_aliases g') ≤ length (rg_aliases g) + names l)%nat.
Proof.
  destruct l as [name file rest|name target|table f argv]; cbn [reg_line loads names].
  - repeat case_match; try (intros [= <- <-]; lia). intros Hr. apply obind_Ret in Hr as (g1 & Hg1 & [= <- <-]). apply reg_alias_length in Hg1 as [H1 H2].
    rewrite give_name_aliases in H2. rewrite give_name_services in H1. rewrite H1. cbn in H2 |- *. rewrite length_app. cbn. lia.
  - case_match. intros Hr. apply obind_Ret in Hr as (g1 & Hg1 & [= <- <-]). apply reg_alias_length in Hg1 as [H1 H2]. rewrite H1. lia.
  - repeat case_match; try (intros [= <- <-]; lia); try done. intros Hr. apply obind_Ret in Hr as ([r1 d1] & _ & [= <- <-]). cbn. rewrite length_insert. lia.
Qed.

(** The lines one after another, with their results. *)
Fixpoint do_lines (inc : list Z → config services → outcome (Z * config services)) (ls : list sline) (c : config services) : outcome (list Z * config services) :=
  match ls with
  | [] => Ret ([], c)
  | l :: ls => let* (r, c) := do_line inc l c in let* (rs, c) := do_lines inc ls c in Ret (r :: rs, c)
  end.

End refinement.

(** ** A server with two services *)

(** A library holds the service that its file names. *)
Definition sample_load (file : list Z) (argv : list (list Z)) : option ci_service_module :=
  if bool_decide (file = bytes "missing.so") then None else Some (mkService file 4).
Definition sample_init (m : ci_service_module) : option (srv_xdata → Z * srv_xdata) :=
  if bool_decide (mod_name m = bytes "echo") then Some echo_init_service else None.
Definition no_table (m : ci_service_module) : list ci_conf_entry := [].
Definition no_other (k : custom) (e : ci_conf_entry) (argv : list (list Z)) (c : config services) : outcome (Z * config services) := Ret (0, c).
Definition no_inc (n : list Z) (c : config services) : outcome (Z * config services) := Ret (0, c).

Definition bare_server : config services := init_conf_tables true (mkConfig ∅ [] None 0 0 false no_services).
Definition bare_registry : registry := mkReg [] [] [].

Definition sample_slines : list sline :=
  [SLoad (bytes "echo_service") (bytes "echo") []; SLoad (bytes "gw_rebuild") (bytes "rebuild") []; SLoad (bytes "again") (bytes "echo") [];
   SAlias (bytes "avscan") (bytes "echo_service?allow204=on&sizelimit=off"); SAlias (bytes "avresp") (bytes "avscan?mode=simple");
   SSet (bytes "avresp") FPreviewSize [bytes "4096"]; SSet (bytes "rebuild") FOptionsTtl [bytes "2"; bytes "hours"]; SSet (bytes "none") FPreviewSize [bytes "1"]].

Definition sample_do (mv : bool) : list sline → config services → outcome (list Z * config services) :=
  do_lines false true mv (bytes "/etc") sample_load sample_init no_table no_other no_inc.

Lemma bare_stands : stands no_table bare_server bare_registry.
Proof. split; try done; [by left|by left|]. exists []. split; [done|constructor]. Qed.

Lemma bare_ok : reg_ok bare_registry.
Proof. split; constructor. Qed.


(** ** Settings that go wrong *)

(** The names of 33 services. *)
Definition many_services : list sline := map (λ i, SLoad [200; Z.of_nat i] [200; Z.of_nat i] []) (seq 1 33).

(** The 33rd service makes the array of settings grow.  When realloc moves it, the tables of the first 32 services point into
    memory that was freed: a setting of the first service is then a write there.  Its alias has the same table. *)
Lemma settings_after_growth_undefined :
  (∃ rs c, sample_do true many_services bare_server = Ret (rs, c) ∧ Forall (λ r, r = 1) rs) ∧
  sample_do true (many_services ++ [SSet [200; 1] FPreviewSize [bytes "1024"]]) bare_server = UB ∧
  sample_do true (many_services ++ [SAlias (bytes "first") [200; 1]; SSet (bytes "first") FPreviewSize [bytes "1024"]]) bare_server = UB ∧
  ∃ rs c, sample_do true (many_services ++ [SSet [200; 33] FPreviewSize [bytes "1024"]]) bare_server = Ret (rs, c).
Proof.
  split_and!; [|vm_compute; reflexivity..|].
  - destruct (sample_do true many_services bare_server) as [[rs c]| | |] eqn:E; [|vm_compute in E; discriminate..].
    exists rs, c. split; [done|]. vm_compute in E. injection E as <- _. repeat constructor.
  - destruct (sample_do _ _ _) as [[rs c]| | |] eqn:E; [by exists rs, c|vm_compute in E; discriminate..].
Qed.

(** [Allow206 on] forbids partial answers and [Allow206 off] leaves them: the test is the wrong way round. *)
Lemma allow206_reversed d :
  disable_206 d = false →
  (∃ d', cfg_srv_allow206 [bytes "on"] d = Ret (1, d') ∧ disable_206 d' = true ∧ ci_service_enable_206 d' = d') ∧
  cfg_srv_allow206 [bytes "off"] d = Ret (1, d) ∧ allow_206 (sx (ci_service_enable_206 d)) = true.
Proof.
  intros Hd. split; [by eexists|]. split; [done|]. unfold ci_service_enable_206. by rewrite Hd.
Qed.

(** The arguments of an alias are copied whatever their length, into 256 bytes. *)
Lemma alias_arguments_overflow base a :
  zlen base = 0 → 255 < zlen a → alias_arguments base (Some a) = UB.
Proof. intros Hb Ha. unfold alias_arguments. rewrite Hb. cbn. unfold MAX_SERVICE_ARGS. by rewrite Hb, (proj2 (Z.leb_gt _ _)) by lia. Qed.

(** A time of options in hours is multiplied as an int. *)
Lemma options_ttl_overflows d : cfg_srv_options_ttl [bytes "600000"; bytes "hours"] d = UB.
Proof. reflexivity. Qed.

(** The names of the headers to include are counted by call: two calls write past the field. *)
Lemma xincludes_twice_overflow :
  ∃ d, ci_service_add_xincludes [repeat 120 300] init_extra_data = Ret d ∧ ci_service_add_xincludes [repeat 120 300] d = UB.
Proof. eexists. split; vm_compute; reflexivity. Qed.

(** The 33rd alias makes the array of aliases grow, and the names of the tables are in it. *)
Lemma aliases_after_growth_undefined :
  let one := SLoad (bytes "echo") (bytes "echo") [] in
  let aliases (n : nat) := map (λ i, SAlias [200; Z.of_nat i] (bytes "echo")) (seq 1 n) in
  sample_do true (one :: aliases 33%nat) bare_server = UB ∧ ∃ rs c, sample_do true (one :: aliases 32%nat) bare_server = Ret (rs, c).
Proof.
  intros one aliases. split; [vm_compute; reflexivity|].
  destruct (sample_do true (one :: aliases 32%nat) bare_server) as [[rs c]| | |] eqn:E; [by exists rs, c|vm_compute in E; discriminate..].
Qed.
