(* ===== verification/ConfigTypes.v ===== *)
(** * Types of the parameters (cfg_param.c, cfg_param.h)

    A row of a configuration table joins a variable, given as a void pointer, with an action that writes through it.  The variables are
    declared with a type; that the rows and the declarations agree is checked here, and no compiler checks it. *)

From stdpp Require Import base list list_numbers strings numbers option gmap.
From Stdlib Require Import ZArith Lia.
From S2P Require Import Prelude CString Chunks ReadBody SendBody RingBuf Headers Encapsulated IcapHeader ParseRequest HttpApi Session Response Config ConfigSafe Services ServicesSafe.

Inductive ctype := TInt | TLong | TOff | TString | TOther.
#[export] Instance ctype_eq : EqDecision ctype.
Proof. solve_decision. Defined.

Definition has_type (t : ctype) (v : value) : Prop :=
  match t, v with
  | TInt, VInt z => INT_MIN ≤ z ≤ INT_MAX
  | TLong, VLong z | TOff, VOff z => LONG_MIN ≤ z ≤ LONG_MAX
  | TString, VStr _ | TOther, _ => True
  | _, _ => False
  end.

(** The variables the server declares. *)
Definition declarations : list (string * ctype) :=
  [("CI_CONF.PORTS"%string, TOther); ("CI_CONF.PIDFILE"%string, TString); ("CI_CONF.COMMANDS_SOCKET"%string, TString); ("CI_CONF.RUN_USER"%string, TString);
   ("CI_CONF.RUN_GROUP"%string, TString); ("CI_CONF.SERVICES_DIR"%string, TString); ("CI_CONF.MODULES_DIR"%string, TString);
   ("CI_CONF.SERVER_ADMIN"%string, TString); ("CI_CONF.SERVER_NAME"%string, TString); ("CI_CONF.START_SERVERS"%string, TInt);
   ("CI_CONF.MAX_SERVERS"%string, TInt); ("CI_CONF.THREADS_PER_CHILD"%string, TInt); ("CI_CONF.MIN_SPARE_THREADS"%string, TInt);
   ("CI_CONF.MAX_SPARE_THREADS"%string, TInt); ("CI_CONF.TLS_PASSPHRASE"%string, TString); ("TIMEOUT"%string, TInt);
   ("KEEPALIVE_TIMEOUT"%string, TInt); ("MAX_KEEPALIVE_REQUESTS"%string, TInt); ("MAX_REQUESTS_BEFORE_REALLOCATE_MEM"%string, TInt);
   ("MAX_REQUESTS_PER_CHILD"%string, TInt); ("DEFAULT_SERVICE"%string, TString); ("PIPELINING"%string, TInt); ("CHECK_FOR_BUGGY_CLIENT"%string, TInt);
   ("ALLOW204_AS_200OK_ZERO_ENCAPS"%string, TInt); ("FAKE_ALLOW204"%string, TInt); ("TEMPLATE_DIR"%string, TString); ("TEMPLATE_DEF_LANG"%string, TString);
   ("TEMPLATE_RELOAD_TIME"%string, TInt); ("TEMPLATE_CACHE_SIZE"%string, TInt); ("TEMPLATE_MEMBUF_SIZE"%string, TInt); ("SERVER_LOG_FILE"%string, TString);
   ("default_logger"%string, TOther); ("REMOTE_PROXY_USER_HEADER"%string, TString); ("ALLOW_REMOTE_PROXY_USERS"%string, TInt);
   ("REMOTE_PROXY_USER_HEADER_ENCODED"%string, TInt); ("CI_DEBUG_LEVEL"%string, TInt); ("CI_BODY_MAX_MEM"%string, TInt)].

(** [own] are the declarations of services and modules. *)
Definition declared (own : string → ctype) (x : string) : ctype :=
  match list_find (λ p, p.1 = x) declarations with Some (_, (_, t)) => t | None => own x end.

(** What an action writes. *)
Definition action_type (a : action) : option ctype :=
  match a with
  | SetInt | OnOff | Enable | Disable => Some TInt
  | SetStr => Some TString
  | SizeOff => Some TOff
  | SizeLong => Some TLong
  | DebugLevel | BodyMaxmem | IncludeFile | Custom _ => None
  end.

Section types.
Context {W : Type} (own : string → ctype).

Definition row_typed (e : ci_conf_entry) : Prop :=
  match ce_action e, ce_data e with
  | Some a, Some x => match action_type a with Some t => declared own x = t | None => True end
  | _, _ => True
  end.

(** The one variable that is written with another type than it has. *)
Definition MAXMEM : string := "CI_BODY_MAX_MEM".

Definition var_typed (x : string) (v : value) : Prop := x ≠ MAXMEM → has_type (declared own x) v.

Record typed (c : config W) : Prop := {
  ty_vars : ∀ x v, c_vars c !! x = Some v → var_typed x v;
  ty_defaults : Forall (λ p, var_typed p.1 p.2) (c_defaults c);
  ty_tables : ∀ l s, c_tables c = Some l → Some s ∈ l → Forall row_typed (su_table s)
}.

Lemma server_rows_typed tls : Forall row_typed (conf_variables tls).
Proof. destruct tls; repeat (constructor; [reflexivity || exact I|]); constructor. Qed.

Lemma search_conf_table_in t n e : search_conf_table t n = Some e → e ∈ t.
Proof. induction t as [|d t IH]; [done|]. cbn [search_conf_table]. case_bool_decide; [intros [= ->]; by left|]. intros He. right. auto. Qed.

Lemma table_at_in n i l j s : table_at n i l = Some (j, s) → Some s ∈ l.
Proof.
  revert i. induction l as [|[t|] l IH]; intros i; [done| |]; cbn [table_at].
  - case_bool_decide; [intros [= _ ->]; by left|]. intros Hs. right. eauto.
  - intros Hs. right. eauto.
Qed.

Lemma found_row_typed tls table n c e : typed c → search_variables tls table n c = Some e → row_typed e.
Proof.
  intros Hc. unfold search_variables. destruct table as [t|].
  - destruct (c_tables c) as [l|] eqn:Hl; [|done]. destruct (table_at t 0 l) as [[j s]|] eqn:Ht; [|done]. intros He.
    apply search_conf_table_in in He. apply table_at_in in Ht. pose proof (ty_tables c Hc l s Hl Ht) as Hall. rewrite Forall_forall in Hall. auto.
  - intros He. apply search_conf_table_in in He. pose proof (server_rows_typed tls) as Hall. rewrite Forall_forall in Hall. auto.
Qed.

Lemma set_var_typed x v c : typed c → var_typed x v → typed (set_var x v c).
Proof.
  intros [T1 T2 T3] Hv. split; try done. intros y w. cbn. destruct (decide (x = y)) as [<-|Hne]; [rewrite lookup_insert_eq; by intros [= <-]|].
  rewrite lookup_insert_ne by done. apply T1.
Qed.

Lemma store_typed am x c c' : typed c → cfg_default_value_store am x c = Ret c' → typed c'.
Proof.
  intros Hc. unfold cfg_default_value_store. destruct (cfg_default_value_search _ _); [by intros [= <-]|]. destruct (c_vars c !! x) as [v|] eqn:Hv; [|done].
  destruct am; intros [= <-]; [|done]. destruct Hc as [T1 T2 T3]. split; try done. cbn. apply Forall_app. split; [done|]. by repeat constructor; apply T1.
Qed.

(** A setter writes a value of its type. *)
Definition sets (t : ctype) (f : option string → config W → outcome (Z * config W)) : Prop :=
  ∀ x c r c', f (Some x) c = Ret (r, c') → c' = c ∨ ∃ v, c' = set_var x v c ∧ has_type t v.

Lemma int_sets argv : sets TInt (ci_cfg_set_int argv).
Proof.
  intros x c r c'. unfold ci_cfg_set_int. repeat case_match; intros Hr; simplify_eq; try (by left); try done. right. eexists. split; [done|]. apply to_int_range.
Qed.
Lemma str_sets ac argv : sets TString (ci_cfg_set_str ac argv).
Proof. intros x c r c'. unfold ci_cfg_set_str. repeat case_match; intros Hr; simplify_eq; try (by left); right; by eexists. Qed.
Lemma onoff_sets argv : sets TInt (ci_cfg_onoff argv).
Proof. intros x c r c'. unfold ci_cfg_onoff. repeat case_match; intros Hr; simplify_eq; try (by left); right; by eexists. Qed.
Lemma disable_sets : sets TInt ci_cfg_disable.
Proof. intros x c r c' [= <- <-]. right. by eexists. Qed.
Lemma enable_sets : sets TInt ci_cfg_enable.
Proof. intros x c r c' [= <- <-]. right. by eexists. Qed.
Lemma scaled_range v rest w : scaled v rest = Ret w → w ≤ LONG_MAX.
Proof. unfold scaled. repeat case_match; try done; intros [= <-]; lia. Qed.
Lemma size_sets t mk argv : (∀ z, LONG_MIN ≤ z ≤ LONG_MAX → has_type t (mk z)) → sets t (cfg_size mk argv).
Proof.
  intros Hmk x c r c'. unfold cfg_size. destruct argv as [[|a argv]|]; try (intros [= <- <-]; by left). destruct (strtoll a) as [[v rest] err].
  destruct (_ || _); [intros [= <- <-]; by left|]. intros Hr. apply obind_Ret in Hr as (w & Hw & [= <- <-]). destruct (0 <? w) eqn:H0; [|by left]. right. eexists. split; [done|].
  apply Hmk. apply scaled_range in Hw. unfold LONG_MIN in *. lia.
Qed.

Lemma intl_typed am x f t c r c' :
  typed c → sets t f → (∀ y, x = Some y → y = MAXMEM ∨ declared own y = t) → intl am x f c = Ret (r, c') → typed c'.
Proof.
  intros Hc Hf Hx. unfold intl. destruct x as [y|]; [|by intros [= <- <-]]. intros Hr. apply obind_Ret in Hr as (c1 & Hst & Hr). apply store_typed in Hst; [|done].
  destruct (Hf y c1 r c' Hr) as [-> |(v & -> & Hv)]; [done|]. apply set_var_typed; [done|]. intros Hne. by destruct (Hx y eq_refl) as [? | ->].
Qed.

Context (tls am ac : bool) (CONFDIR : list Z) (files : list Z → option (list Z * bool))
  (cust : custom → ci_conf_entry → list (list Z) → config W → outcome (Z * config W)).

(** What the actions of other parts promise. *)
Definition keeps_types (f : config W → outcome (Z * config W)) : Prop := ∀ c r c', typed c → f c = Ret (r, c') → typed c'.

Hypothesis cust_types : ∀ k e argv, keeps_types (cust k e argv).

Lemma run_action_types inc a e argv :
  (∀ p, keeps_types (inc p)) → ce_action e = Some a → row_typed e → keeps_types (run_action am ac CONFDIR cust inc a e argv).
Proof.
  intros Hinc Ha He c r c' Hc. unfold row_typed in He. rewrite Ha in He.
  assert (Hx : ∀ t, action_type a = Some t → ∀ y, ce_data e = Some y → y = MAXMEM ∨ declared own y = t).
  { intros t Ht y Hy. rewrite Hy, Ht in He. by right. }
  destruct a; cbn [run_action].
  - eapply intl_typed; [done|apply int_sets|by apply Hx].
  - eapply intl_typed; [done|apply str_sets|by apply Hx].
  - eapply intl_typed; [done|apply onoff_sets|by apply Hx].
  - eapply intl_typed; [done|apply enable_sets|by apply Hx].
  - eapply intl_typed; [done|apply disable_sets|by apply Hx].
  - eapply intl_typed; [done|by apply (size_sets TOff)|by apply Hx].
  - eapply intl_typed; [done|by apply (size_sets TLong)|by apply Hx].
  - unfold cfg_set_debug_level. destruct (DebugLevelSetFromCmd c); [by intros [= <- <-]|]. eapply intl_typed; [done|apply int_sets|]. intros y [= <-]. by right.
  - eapply intl_typed; [done|by apply (size_sets TLong)|]. intros y [= <-]. by left.
  - destruct argv as [|p argv]; [by intros [= <- <-]|]. by apply Hinc.
  - by apply cust_types.
Qed.

Lemma process_line_types inc s : (∀ p, keeps_types (inc p)) → keeps_types (process_line tls am ac CONFDIR cust inc s).
Proof.
  intros Hinc c r c' Hc. unfold process_line. generalize (line_buffer s). intros line Hr. apply obind_Ret in Hr as (str & _ & Hr). apply obind_Ret in Hr as (b & _ & Hr).
  destruct (_ || _); [by injection Hr as <- <-|]. apply obind_Ret in Hr as ([[[table name] args] line'] & _ & Hr).
  destruct (search_variables tls table name c) as [e|] eqn:He; [|by injection Hr as <- <-]. destruct (ce_action e) as [a|] eqn:Ha; [|by injection Hr as <- <-].
  apply obind_Ret in Hr as (argv & _ & Hr). apply obind_Ret in Hr as ([r1 c1] & Hrun & [= <- <-]). eapply run_action_types; eauto using found_row_typed.
Qed.

Lemma parse_lines_types inc fuel f line ret : (∀ p, keeps_types (inc p)) → keeps_types (parse_lines tls am ac CONFDIR cust inc fuel f line ret).
Proof.
  intros Hinc. revert f line ret. induction fuel as [|fuel IH]; intros f line ret c r c' Hc; [done|]. cbn [parse_lines]. destruct (f_eof f); [by intros [= <- <-]|].
  intros Hr. apply obind_Ret in Hr as ([[r1 l1] f1] & _ & Hr). apply obind_Ret in Hr as ([r2 c2] & Hstep & Hr).
  assert (Hc2 : typed c2).
  { destruct (r1 =? 0); [by injection Hstep as <- <-|]. apply obind_Ret in Hstep as (s & _ & Hstep). by eapply process_line_types. }
  by eapply IH.
Qed.

Lemma parse_file_types junk levels fuel path : keeps_types (parse_file tls am ac CONFDIR files cust junk levels fuel path).
Proof.
  revert path. induction levels as [|levels IH]; intros path c r c' Hc; cbn [parse_file]; (destruct (_ <=? _); [by intros [= <- <-]|]);
    (destruct (files path) as [[d b]|]; [|by intros [= <- <-]]); [done|].
  intros Hr. apply obind_Ret in Hr as ([r1 c1] & Hp & [= <- <-]).
  assert (Hc0 : typed (with_level (PARSE_LEVEL c + 1) c)) by (by destruct Hc; split).
  assert (Hc1 : typed c1) by (by eapply parse_lines_types). by destruct Hc1; split.
Qed.

Lemma restore_typed c : typed c → typed (cfg_default_value_restore_all c).
Proof.
  intros [T1 T2 T3]. split; try done. intros x v. cbn. rewrite restore_lookup. destruct (cfg_default_value_search _ x) as [w|] eqn:Hs; [|apply T1].
  intros [= <-]. apply search_elem, list_elem_of_In, in_rev, list_elem_of_In in Hs. rewrite Forall_forall in T2. by apply (T2 (x, w)).
Qed.
End types.


(** ** The actions of services *)

Section services.
Context (own : string → ctype) (am mv : bool) (load : list Z → list (list Z) → option ci_service_module)
  (init : ci_service_module → option (srv_xdata → Z * srv_xdata)) (user_table : ci_service_module → list ci_conf_entry)
  (other : custom → ci_conf_entry → list (list Z) → config services → outcome (Z * config services)).
Hypothesis user_rows : ∀ m, Forall (row_typed own) (user_table m).
Hypothesis other_types : ∀ k e argv, keeps_types own (other k e argv).

Lemma service_table_typed p m : Forall (row_typed own) (create_service_conf_table p (user_table m)).
Proof. apply Forall_app. split; [|done]. by repeat constructor. Qed.

Lemma with_world_typed w (c : config services) : typed own c → typed own (with_world w c).
Proof. by intros [T1 T2 T3]. Qed.

Lemma register_typed ar name t ty (c : config services) :
  typed own c → Forall (row_typed own) t → typed own (register_conf_table ar name t ty c).2.
Proof.
  intros Hc Ht. unfold register_conf_table. pose proof Hc as [T1 T2 T3].
  assert (Hins : ∀ l i s, c_tables c = Some l → Some s ∈ <[i := Some (mkSub name ty t)]> l → Forall (row_typed own) (su_table s)).
  { intros l i s Hl Hs. apply list_elem_of_lookup in Hs as [j Hj]. apply list_lookup_insert_Some in Hj as [(_ & [= <-] & _)|[_ Hj]]; [done|].
    eapply T3; [done|]. by eapply list_elem_of_lookup_2. }
  assert (Happ : ∀ l s, c_tables c = Some l → Some s ∈ l ++ [Some (mkSub name ty t)] → Forall (row_typed own) (su_table s)).
  { intros l s Hl [Hs|Hs%list_elem_of_singleton]%elem_of_app; [by eapply T3|]. by injection Hs as ->. }
  repeat case_match; try done; (split; [done..|]); cbn; intros ? s [= <-] Hs; eauto.
Qed.

Lemma add_service_typed m c c' : typed own c → add_service am mv init user_table m c = Ret c' → typed own c'.
Proof.
  intros Hc. unfold add_service. intros Hr. apply obind_Ret in Hr as (s & _ & [= <-]). destruct am; [|by apply with_world_typed].
  apply register_typed; [by apply with_world_typed|apply service_table_typed].
Qed.

Lemma add_alias_typed name target a c c' : typed own c → add_service_alias am mv user_table name target a c = Ret c' → typed own c'.
Proof.
  intros Hc. unfold add_service_alias. case_bool_decide; [by intros [= <-]|]. intros Hr. apply obind_Ret in Hr as (n & _ & Hr).
  match type of Hr with match ?f with _ => _ end = _ => destruct f as [[m base]|]; [|injection Hr as <-; by apply with_world_typed] end.
  apply obind_Ret in Hr as (args & _ & Hr). destruct (service_index _ m 0) as [i|]; [|done]. destruct (_ !! i) as [place|]; [|done]. injection Hr as <-.
  destruct am; [|by repeat apply with_world_typed]. apply register_typed; [by repeat apply with_world_typed|apply service_table_typed].
Qed.

(** They keep the types, so that the types are kept by a configuration with services. *)
Lemma service_actions_types k e argv : keeps_types own (service_actions am mv load init user_table other k e argv).
Proof.
  intros c r c' Hc.
  assert (Hset : ∀ f, with_settings e f c = Ret (r, c') → typed own c').
  { intros f. unfold with_settings. repeat case_match; try done. intros Hr. apply obind_Ret in Hr as ([r1 d1] & _ & [= <- <-]). by apply with_world_typed. }
  destruct k; cbn [service_actions setting]; try apply other_types; try apply Hset; try done.
  - unfold cfg_load_service, register_service. destruct argv as [|name [|file rest]]; try (by intros [= <- <-]). destruct (load file rest) as [m|]; [|by intros [= <- <-]].
    destruct (find_service _ _); [by intros [= <- <-]|]. intros Hr. apply obind_Ret in Hr as ([o c1] & Hadd & Hr). apply obind_Ret in Hadd as (c2 & Hadd & [= <- <-]).
    apply obind_Ret in Hr as (c3 & Hal & [= <- <-]). eauto using add_service_typed, add_alias_typed.
  - unfold cfg_service_alias. destruct argv as [|name [|target rest]]; try (by intros [= <- <-]). destruct (span _ target) as [t a]. intros Hr.
    apply obind_Ret in Hr as (c1 & Hal & [= <- <-]). by eapply add_alias_typed.
Qed.
End services.

(** ** A configuration with services *)

Definition typed_server : config services :=
  mkConfig (<["TIMEOUT"%string := VInt 300]> (<["DEFAULT_SERVICE"%string := VStr None]> (<["CI_BODY_MAX_MEM"%string := VInt 131072]> ∅))) []
    (Some []) STEPSIZE 0 false no_services.

Definition typed_files (p : list Z) : option (list Z * bool) :=
  if bool_decide (p = bytes "/etc/c-icap.conf") then
    Some (bytes "Timeout 60" ++ [10] ++ bytes "Service echo_service echo" ++ [10] ++ bytes "echo.PreviewSize 512" ++ [10] ++ bytes "DefaultService echo" ++ [10], false)
  else None.

Definition typed_run (files : list Z → option (list Z * bool)) : outcome (Z * config services) :=
  parse_file false true true (bytes "/etc") files (service_actions true true sample_load sample_init no_table no_other) (λ _, 7) 5 80 (bytes "/etc/c-icap.conf") typed_server.

Lemma typed_server_typed : typed (λ _, TOther) typed_server.
Proof.
  split; [|constructor|]; cbn.
  - intros x v Hv. apply lookup_insert_Some in Hv as [[<- <-]|[_ Hv]]; [by intros _|]. apply lookup_insert_Some in Hv as [[<- <-]|[_ Hv]]; [by intros _|].
    apply lookup_insert_Some in Hv as [[<- <-]|[_ Hv]]; [by intros []|]. by rewrite lookup_empty in Hv.
  - intros l s [= <-] Hs. by apply not_elem_of_nil in Hs.
Qed.


(** [MaxMemObject] writes a long over an int, and what is next to it. *)
Lemma max_mem_object_writes_long :
  let files p := if bool_decide (p = bytes "/etc/c-icap.conf") then Some (bytes "MaxMemObject 1M" ++ [10], false) else None in
  declared (λ _, TOther) MAXMEM = TInt ∧
  match typed_run files with Ret (r, c) => r = 1 ∧ c_vars c !! MAXMEM = Some (VLong 1048576) | _ => False end.
Proof. split; vm_compute; [reflexivity|]. split; reflexivity. Qed.
