(* ===== verification/Base64.v ===== *)
(** * Base64 and URL coding (decode.c)

    Strings are memory with a NUL; results are written to memory of a given size.  The reference coder is the one of RFC 4648, with
    padding. *)

From stdpp Require Import base list list_numbers strings numbers option.
From Stdlib Require Import ZArith Lia.
From S2P Require Import Prelude CString Headers.

(** ** The code *)

Definition base64_table : list Z :=
  replicate 43 255 ++ [62; 255; 255; 255; 63] ++ seqZ 52 10 ++ [255; 255; 255; 0; 255; 255; 255] ++ seqZ 0 26 ++ replicate 6 255 ++ seqZ 26 26 ++ replicate 133 255.

Definition sextet (m : list Z) (p : Z) : outcome Z := let* b := load m p in arr_get base64_table b.

(** Four characters; the tests stop at the first that is not valid, which the NUL is. *)
Definition quad (m : list Z) (p : Z) : outcome (option (Z * Z * Z * Z)) :=
  let* a := sextet m p in
  if 63 <? a then Ret None else
  let* b := sextet m (p + 1) in
  if 63 <? b then Ret None else
  let* c := sextet m (p + 2) in
  if 63 <? c then Ret None else
  let* d := sextet m (p + 3) in
  if 63 <? d then Ret None else Ret (Some (a, b, c, d)).

Definition byte (z : Z) : Z := z mod 256.

(** [p] and [r] are [str] and [result] as offsets. *)
Fixpoint decode_loop (fuel : nat) (encoded : list Z) (p r i : Z) (decoded : list Z) : outcome (Z * Z * list Z) :=
  match fuel with
  | O => NoFuel
  | S fuel' =>
      if 3 <? i then
        let* q := quad encoded p in
        match q with
        | None => Ret (r, i, decoded)
        | Some (a, b, c, d) =>
            let* decoded := store decoded r (byte (Z.lor (Z.shiftl a 2) (Z.shiftr b 4))) in
            let* decoded := store decoded (r + 1) (byte (Z.lor (Z.shiftl b 4) (Z.shiftr c 2))) in
            let* decoded := store decoded (r + 2) (byte (Z.lor (Z.shiftl c 6) d)) in
            decode_loop fuel' encoded (p + 4) (r + 3) (i - 3) decoded
        end
      else Ret (r, i, decoded)
  end.

Definition ci_base64_decode (encoded decoded : list Z) (len : Z) : outcome (Z * list Z) :=
  if len =? 0 then Ret (0, decoded)
  else
  let* (r, i, decoded) := decode_loop (S (Z.to_nat len)) encoded 0 0 len decoded in
  let* decoded := store decoded r 0 in
  Ret (len - i, decoded).

(** [am]: malloc gives memory, with [junk] in it. *)
Definition ci_base64_decode_dup (am : bool) (junk : Z → Z) (encoded : list Z) : outcome (option (list Z)) :=
  match strlen encoded with
  | None => UB
  | Some len =>
      let len := (len + 3) `div` 4 * 3 + 1 in
      if am then let* (_, r) := ci_base64_decode encoded (fresh junk 0 len) len in Ret (Some r) else Ret None
  end.

Definition base64_set : list Z := bytes "ABCDEFGHIJKLMNOPQRSTUVWXYZabcdefghijklmnopqrstuvwxyz0123456789+/".
Definition set_char (v : Z) : Z := nth (Z.to_nat (Z.land v 63)) base64_set 0.

Definition dobase64 (out : list Z) (k b0 b1 b2 : Z) : outcome (Z * list Z) :=
  let* out := store out k (set_char (Z.shiftr b0 2)) in
  let* out := store out (k + 1) (set_char (Z.lor (Z.shiftl b0 4) (Z.shiftr b1 4))) in
  let* out := store out (k + 2) (set_char (Z.lor (Z.shiftl b1 2) (Z.shiftr b2 6))) in
  let* out := store out (k + 3) (set_char b2) in
  Ret (k + 4, out).

(** The sizes are unsigned: [len - 3] and [outlen - 4] wrap around. *)
Fixpoint encode_loop (fuel : nat) (data : list Z) (len : Z) (out : list Z) (outlen i k : Z) : outcome (Z * Z * list Z) :=
  match fuel with
  | O => NoFuel
  | S fuel' =>
      if (i <? to_u64 (len - 3)) && (k <? to_u64 (outlen - 4)) then
        let* b0 := load data i in
        let* b1 := load data (i + 1) in
        let* b2 := load data (i + 2) in
        let* (k, out) := dobase64 out k b0 b1 b2 in
        encode_loop fuel' data len out outlen (i + 3) k
      else Ret (i, k, out)
  end.

Definition ci_base64_encode (fuel : nat) (data : list Z) (len : Z) (out : list Z) (outlen : Z) : outcome (Z * list Z) :=
  let* (i, k, out) := encode_loop fuel data len out outlen 0 0 in
  let* (k, out) :=
    if (k <? to_u64 (outlen - 4)) && (i <? len) then
      let* b0 := load data i in
      let* b1 := if i + 1 <? len then load data (i + 1) else Ret 0 in
      let* b2 := if i + 2 <? len then load data (i + 2) else Ret 0 in
      dobase64 out k b0 b1 b2
    else Ret (k, out) in
  let* out := store out k 0 in
  Ret (k, out).

(** ** The coding of RFC 4648 *)

Definition b64_char (v : Z) : Z := nth (Z.to_nat v) base64_set 0.
Definition b64_quad (a b c : Z) : list Z :=
  map b64_char [a `div` 4; a `mod` 4 * 16 + b `div` 16; b `mod` 16 * 4 + c `div` 64; c `mod` 64].

Fixpoint b64 (s : list Z) : list Z :=
  match s with
  | a :: b :: c :: s' => b64_quad a b c ++ b64 s'
  | [a; b] => take 3 (b64_quad a b 0) ++ [61]
  | [a] => take 2 (b64_quad a 0 0) ++ [61; 61]
  | [] => []
  end.

(** Data with zeros up to a multiple of three. *)
Fixpoint full3 (s : list Z) : list Z :=
  match s with a :: b :: c :: s' => a :: b :: c :: full3 s' | [a; b] => [a; b; 0] | [a] => [a; 0; 0] | [] => [] end.

(** The coding without padding that the encoder writes. *)
Fixpoint b64_full (s : list Z) : list Z :=
  match s with a :: b :: c :: s' => b64_quad a b c ++ b64_full s' | _ => [] end.

(** ** Characters *)

Definition bytesP (s : list Z) : Prop := Forall is_byte s.

Lemma table_char v : 0 ≤ v < 64 → arr_get base64_table (b64_char v) = Ret v.
Proof.
  intros Hv. assert (Hall : forallb (λ v, bool_decide (arr_get base64_table (b64_char v) = Ret v)) (seqZ 0 64) = true) by (vm_compute; reflexivity).
  rewrite forallb_forall in Hall. specialize (Hall v). apply bool_decide_eq_true in Hall; [done|]. apply list_elem_of_In, elem_of_seqZ. lia.
Qed.

Lemma table_pad : arr_get base64_table 61 = Ret 0.
Proof. reflexivity. Qed.

Lemma set_char_eq v : set_char v = b64_char (v `mod` 64).
Proof. unfold set_char, b64_char. change 63 with (Z.ones 6). by rewrite Z.land_ones. Qed.

(** The three bytes from the four values. *)
Lemma bytes_of_quad a b c :
  is_byte a → is_byte b → is_byte c →
  byte (Z.lor (Z.shiftl (a `div` 4) 2) (Z.shiftr (a `mod` 4 * 16 + b `div` 16) 4)) = a ∧
  byte (Z.lor (Z.shiftl (a `mod` 4 * 16 + b `div` 16) 4) (Z.shiftr (b `mod` 16 * 4 + c `div` 64) 2)) = b ∧
  byte (Z.lor (Z.shiftl (b `mod` 16 * 4 + c `div` 64) 6) (c `mod` 64)) = c.
Proof.
  unfold is_byte, byte. intros Ha Hb Hc.
  rewrite !Z.shiftr_div_pow2 by lia. change (2 ^ 4) with 16. change (2 ^ 2) with 4.
  rewrite !lor_shiftl_add by (try lia; change (2 ^ 2) with 4; change (2 ^ 4) with 16; change (2 ^ 6) with 64; Z.div_mod_to_equations; lia).
  change (2 ^ 2) with 4. change (2 ^ 4) with 16. change (2 ^ 6) with 64. split_and!; Z.div_mod_to_equations; lia.
Qed.

(** ** Decoding *)

(** Characters that stand for bytes, four for three. *)
Inductive coded : list Z → list Z → Prop :=
  | coded_nil : coded [] []
  | coded_quad c0 c1 c2 c3 v0 v1 v2 v3 w b0 b1 b2 s :
      arr_get base64_table c0 = Ret v0 → arr_get base64_table c1 = Ret v1 → arr_get base64_table c2 = Ret v2 → arr_get base64_table c3 = Ret v3 →
      v0 ≤ 63 → v1 ≤ 63 → v2 ≤ 63 → v3 ≤ 63 →
      byte (Z.lor (Z.shiftl v0 2) (Z.shiftr v1 4)) = b0 → byte (Z.lor (Z.shiftl v1 4) (Z.shiftr v2 2)) = b1 → byte (Z.lor (Z.shiftl v2 6) v3) = b2 →
      coded w s → coded (c0 :: c1 :: c2 :: c3 :: w) (b0 :: b1 :: b2 :: s).

Lemma coded_bytes a b c w s : is_byte a → is_byte b → is_byte c → coded w s → coded (b64_quad a b c ++ w) (a :: b :: c :: s).
Proof.
  intros Ha Hb Hc Hw. destruct (bytes_of_quad a b c Ha Hb Hc) as (E1 & E2 & E3). unfold is_byte in *.
  eapply coded_quad; [apply table_char; Z.div_mod_to_equations; lia..| | | | |exact E1|exact E2|exact E3|exact Hw]; Z.div_mod_to_equations; lia.
Qed.

Lemma coded_b64 s : bytesP s → coded (b64 s) (full3 s).
Proof.
  assert (H0 : is_byte 0) by (unfold is_byte; lia).
  revert s. fix IH 1. intros [|a [|b [|c s]]] Hs; cbn [b64 full3].
  - constructor.
  - apply Forall_cons_1 in Hs as [Ha _]. destruct (bytes_of_quad a 0 0 Ha H0 H0) as (E1 & E2 & E3). unfold is_byte in *.
    eapply coded_quad; [apply table_char; Z.div_mod_to_equations; lia..|apply table_pad|apply table_pad| | | | |exact E1|exact E2|exact E3|constructor]; Z.div_mod_to_equations; lia.
  - apply Forall_cons_1 in Hs as [Ha [Hb _]%Forall_cons_1]. destruct (bytes_of_quad a b 0 Ha Hb H0) as (E1 & E2 & E3). unfold is_byte in *.
    eapply coded_quad; [apply table_char; Z.div_mod_to_equations; lia..|apply table_pad| | | | |exact E1|exact E2|exact E3|constructor]; Z.div_mod_to_equations; lia.
  - apply Forall_cons_1 in Hs as [Ha [Hb [Hc Hs]%Forall_cons_1]%Forall_cons_1]. apply coded_bytes; try done. by apply IH.
Qed.

Lemma coded_b64_full s : bytesP s → coded (b64_full (full3 s)) (full3 s).
Proof.
  assert (H0 : is_byte 0) by (unfold is_byte; lia).
  revert s. fix IH 1. intros [|a [|b [|c s]]] Hs; cbn [b64_full full3].
  - constructor.
  - apply Forall_cons_1 in Hs as [Ha _]. rewrite <- (app_nil_r (b64_quad a 0 0)). apply coded_bytes; try done. constructor.
  - apply Forall_cons_1 in Hs as [Ha [Hb _]%Forall_cons_1]. rewrite <- (app_nil_r (b64_quad a b 0)). apply coded_bytes; try done. constructor.
  - apply Forall_cons_1 in Hs as [Ha [Hb [Hc Hs]%Forall_cons_1]%Forall_cons_1]. apply coded_bytes; try done. by apply IH.
Qed.

Lemma sextet_at pre c r v p : p = zlen pre → arr_get base64_table c = Ret v → sextet (pre ++ c :: r) p = Ret v.
Proof. intros -> Hv. unfold sextet. by rewrite load_app. Qed.

Lemma quad_nul pre r p : p = zlen pre → quad (pre ++ 0 :: r) p = Ret None.
Proof. intros Hp. unfold quad. by rewrite (sextet_at pre 0 r 255 p Hp eq_refl). Qed.

Lemma quad_at pre c0 c1 c2 c3 v0 v1 v2 v3 r p :
  p = zlen pre → arr_get base64_table c0 = Ret v0 → arr_get base64_table c1 = Ret v1 → arr_get base64_table c2 = Ret v2 → arr_get base64_table c3 = Ret v3 →
  v0 ≤ 63 → v1 ≤ 63 → v2 ≤ 63 → v3 ≤ 63 → quad (pre ++ c0 :: c1 :: c2 :: c3 :: r) p = Ret (Some (v0, v1, v2, v3)).
Proof.
  intros Hp H0 H1 H2 H3 L0 L1 L2 L3. unfold quad. rewrite (sextet_at pre c0 _ v0 p Hp H0). cbn [obind]. rewrite (proj2 (Z.ltb_ge _ _)) by lia.
  replace (pre ++ c0 :: c1 :: c2 :: c3 :: r) with ((pre ++ [c0]) ++ c1 :: c2 :: c3 :: r) by by_app. rewrite (sextet_at _ c1 _ v1 (p + 1)) by (done || zlia). cbn [obind]. rewrite (proj2 (Z.ltb_ge _ _)) by lia.
  replace ((pre ++ [c0]) ++ c1 :: c2 :: c3 :: r) with ((pre ++ [c0; c1]) ++ c2 :: c3 :: r) by by_app. rewrite (sextet_at _ c2 _ v2 (p + 2)) by (done || zlia). cbn [obind]. rewrite (proj2 (Z.ltb_ge _ _)) by lia.
  replace ((pre ++ [c0; c1]) ++ c2 :: c3 :: r) with ((pre ++ [c0; c1; c2]) ++ c3 :: r) by by_app. rewrite (sextet_at _ c3 _ v3 (p + 3)) by (done || zlia). cbn [obind].
  by rewrite (proj2 (Z.ltb_ge _ _)) by lia.
Qed.

(** Three bytes written one after another. *)
Lemma store3 {A : Type} (d x : list Z) r b0 b1 b2 (k : list Z → outcome A) :
  r = zlen d → 3 ≤ zlen x →
  (let* m := store (d ++ x) r b0 in let* m := store m (r + 1) b1 in let* m := store m (r + 2) b2 in k m) = k (d ++ b0 :: b1 :: b2 :: drop 3 x).
Proof.
  intros -> Hx. destruct x as [|x0 [|x1 [|x2 x]]]; [zlia..|]. rewrite (store_app d (x1 :: x2 :: x) (zlen d) b0 x0 eq_refl). cbn [obind].
  replace (d ++ b0 :: x1 :: x2 :: x) with ((d ++ [b0]) ++ x1 :: x2 :: x) by by_app. rewrite (store_app (d ++ [b0]) (x2 :: x) (zlen d + 1) b1 x1) by zlia. cbn [obind].
  replace ((d ++ [b0]) ++ b1 :: x2 :: x) with ((d ++ [b0; b1]) ++ x2 :: x) by by_app. rewrite (store_app (d ++ [b0; b1]) x (zlen d + 2) b2 x2) by zlia. cbn [obind drop]. f_equal. by_app.
Qed.

Lemma decode_loop_spec fuel w s pre tl d x p r i :
  coded w s → p = zlen pre → r = zlen d → zlen s < i → zlen s + 1 ≤ zlen x → (length s < fuel)%nat →
  decode_loop fuel (pre ++ w ++ 0 :: tl) p r i (d ++ x) = Ret (r + zlen s, i - zlen s, d ++ s ++ drop (length s) x).
Proof.
  intros Hw. revert fuel pre d x p r i. induction Hw as [|c0 c1 c2 c3 v0 v1 v2 v3 w b0 b1 b2 s H0 H1 H2 H3 L0 L1 L2 L3 E0 E1 E2 Hw IH]; intros fuel pre d x p r i Hp Hr Hi Hx Hf;
    (destruct fuel as [|fuel]; [cbn in Hf; lia|]); cbn [decode_loop].
  - cbn [app length drop]. rewrite quad_nul by done. change (zlen (@nil Z)) with 0. by destruct (3 <? i); rewrite Z.add_0_r, Z.sub_0_r.
  - rewrite !zlen_cons in *. pose proof (zlen_nonneg s). rewrite (proj2 (Z.ltb_lt _ _)) by lia. cbn [app]. rewrite (quad_at pre c0 c1 c2 c3 v0 v1 v2 v3) by done. cbn [obind].
    rewrite E0, E1, E2, store3 by (done || lia).
    replace (pre ++ c0 :: c1 :: c2 :: c3 :: w ++ 0 :: tl) with ((pre ++ [c0; c1; c2; c3]) ++ w ++ 0 :: tl) by by_app.
    replace (d ++ b0 :: b1 :: b2 :: drop 3 x) with ((d ++ [b0; b1; b2]) ++ drop 3 x) by by_app.
    rewrite IH; [|zlia..|rewrite zlen_drop; lia|cbn in Hf; lia].
    f_equal. f_equal; [f_equal; lia|]. rewrite drop_drop. rewrite <- app_assoc. cbn. by replace (3 + length s)%nat with (S (S (S (length s)))) by lia.
Qed.

(** The NUL after what was written. *)
Lemma store_nul (out dst : list Z) r : r = zlen out → zlen out < zlen dst → store (out ++ drop (length out) dst) r 0 = Ret (out ++ 0 :: drop (S (length out)) dst).
Proof.
  intros -> Hlt. destruct (drop (length out) dst) as [|y l] eqn:Hr.
  { apply (f_equal zlen) in Hr. rewrite zlen_drop in Hr. change (zlen (@nil Z)) with 0 in Hr. unfold zlen in *. lia. }
  rewrite (store_app out l _ 0 y) by done. replace (drop (S (length out)) dst) with l; [done|]. replace (S (length out)) with (length out + 1)%nat by lia. by rewrite <- drop_drop, Hr.
Qed.

Lemma decode_coded w s tl dst len :
  coded w s → zlen s < len → len ≤ zlen dst →
  ci_base64_decode (w ++ 0 :: tl) dst len = Ret (zlen s, s ++ 0 :: drop (S (length s)) dst).
Proof.
  intros Hw Hl Hd. unfold ci_base64_decode. pose proof (zlen_nonneg s). rewrite (proj2 (Z.eqb_neq len 0)) by lia.
  rewrite (decode_loop_spec _ w s [] tl [] dst 0 0 len Hw) by (try done; try lia; unfold zlen in *; lia). cbn [obind app].
  rewrite store_nul by lia. cbn [obind]. f_equal. f_equal. lia.
Qed.

(** ** Encoding *)

Lemma dobase64_spec d x k a b c :
  is_byte a → is_byte b → is_byte c → k = zlen d → 4 ≤ zlen x → dobase64 (d ++ x) k a b c = Ret (k + 4, d ++ b64_quad a b c ++ drop 4 x).
Proof.
  unfold is_byte. intros Ha Hb Hc -> Hx. unfold dobase64. rewrite !set_char_eq, !Z.shiftr_div_pow2, !lor_shiftl_add by (try lia; Z.div_mod_to_equations; lia).
  rewrite store3 by (done || lia). destruct x as [|x0 [|x1 [|x2 [|x3 x]]]]; [zlia..|]. cbn [drop].
  match goal with |- context [d ++ ?u :: ?v :: ?w :: x3 :: x] => replace (d ++ u :: v :: w :: x3 :: x) with ((d ++ [u; v; w]) ++ x3 :: x) by by_app end.
  rewrite (store_app _ x (zlen d + 3) _ x3) by zlia. cbn [obind]. unfold b64_quad. cbn [map]. rewrite <- app_assoc. cbn [app].
  change (2 ^ 2) with 4. change (2 ^ 4) with 16. change (2 ^ 6) with 64. repeat f_equal; Z.div_mod_to_equations; lia.
Qed.

Lemma b64_full_app a b c s : b64_full (a :: b :: c :: s) = b64_quad a b c ++ b64_full s.
Proof. done. Qed.

(** All groups but the last. *)
Lemma encode_loop_spec fuel s pre d x outlen i k :
  bytesP s → s ≠ [] → i = zlen pre → k = zlen d → zlen pre + zlen s < 2 ^ 62 → zlen d + zlen (b64_full (full3 s)) < outlen → outlen < 2 ^ 62 → zlen (b64_full (full3 s)) ≤ zlen x →
  (length s < fuel)%nat → 3 ≤ zlen pre + zlen s →
  ∃ s1 s2, s = s1 ++ s2 ∧ s2 ≠ [] ∧ zlen s2 ≤ 3 ∧ b64_full (full3 s) = b64_full s1 ++ b64_full (full3 s2) ∧
    encode_loop fuel (pre ++ s) (zlen pre + zlen s) (d ++ x) outlen i k = Ret (i + zlen s1, k + zlen (b64_full s1), d ++ b64_full s1 ++ drop (length (b64_full s1)) x).
Proof.
  revert s pre d x i k. induction fuel as [|fuel IH]; intros s pre d x i k Hs Hne Hi Hk Hlen Ho Hol Hx Hf H3; [lia|]. cbn [encode_loop].
  pose proof (zlen_nonneg pre). pose proof (zlen_nonneg d). pose proof (zlen_nonneg (b64_full (full3 s))).
  rewrite (to_u64_id (zlen pre + zlen s - 3)) by lia.
  destruct (decide (zlen s ≤ 3)) as [Hshort|Hlong].
  - exists [], s. split; [done|]. split; [done|]. split; [done|]. split; [done|]. rewrite (proj2 (Z.ltb_ge _ _)) by lia. cbn [andb b64_full app length drop]. change (zlen (@nil Z)) with 0. by rewrite !Z.add_0_r.
  - destruct s as [|a [|b [|c [|e s]]]]; [exfalso; apply Hlong; unfold zlen; cbn; lia..|].
    pose proof Hs as Hs0. apply Forall_cons_1 in Hs as [Ha [Hb [Hc Hs]%Forall_cons_1]%Forall_cons_1].
    assert (Hq : ∀ l, b64_full (full3 (a :: b :: c :: l)) = b64_quad a b c ++ b64_full (full3 l)) by done. rewrite Hq in *. rewrite zlen_app in *. change (zlen (b64_quad a b c)) with 4 in *.
    pose proof (zlen_nonneg (b64_full (full3 (e :: s)))). rewrite (to_u64_id (outlen - 4)) by lia.
    rewrite !zlen_cons in *. pose proof (zlen_nonneg s). rewrite (proj2 (Z.ltb_lt i _)) by lia. rewrite (proj2 (Z.ltb_lt k _)) by lia. cbn [andb].
    rewrite (load_app pre (b :: c :: e :: s) i a Hi). cbn [obind].
    replace (pre ++ a :: b :: c :: e :: s) with ((pre ++ [a]) ++ b :: c :: e :: s) by by_app. rewrite (load_app _ _ (i + 1) b) by zlia. cbn [obind].
    replace ((pre ++ [a]) ++ b :: c :: e :: s) with ((pre ++ [a; b]) ++ c :: e :: s) by by_app. rewrite (load_app _ _ (i + 2) c) by zlia. cbn [obind].
    rewrite dobase64_spec by (done || lia). cbn [obind].
    replace ((pre ++ [a; b]) ++ c :: e :: s) with ((pre ++ [a; b; c]) ++ e :: s) by by_app.
    replace (d ++ b64_quad a b c ++ drop 4 x) with ((d ++ b64_quad a b c) ++ drop 4 x) by by_app.
    destruct (IH (e :: s) (pre ++ [a; b; c]) (d ++ b64_quad a b c) (drop 4 x) (i + 3) (k + 4)) as (s1 & s2 & E & Hn2 & L2 & Q & R);
      [done|done|zlia|rewrite zlen_app; change (zlen (b64_quad a b c)) with 4; lia|zlia|rewrite zlen_app; change (zlen (b64_quad a b c)) with 4; lia|done|rewrite zlen_drop; lia|cbn in Hf |- *; lia|zlia|].
    exists (a :: b :: c :: s1), s2. split; [by rewrite E|]. split; [done|]. split; [done|]. split; [by rewrite Q, b64_full_app, app_assoc|].
    replace (zlen pre + (1 + (1 + (1 + (1 + zlen s))))) with (zlen (pre ++ [a; b; c]) + zlen (e :: s)) by zlia. rewrite R, b64_full_app, zlen_app, !zlen_cons, drop_drop, length_app, <- !app_assoc.
    change (zlen (b64_quad a b c)) with 4. change (length (b64_quad a b c)) with 4%nat. f_equal. f_equal. f_equal; lia.
Qed.

Lemma length_b64_full s : zlen (b64_full (full3 s)) = 4 * (zlen (full3 s) `div` 3).
Proof.
  assert (Hd : ∀ n, 4 * ((3 + n) `div` 3) = 4 + 4 * (n `div` 3)) by (intros n; replace (3 + n) with (n + 1 * 3) by lia; rewrite Z.div_add by lia; lia).
  revert s. fix IH 1. intros [|a [|b [|c s]]]; [done..|]. cbn [full3]. rewrite b64_full_app, zlen_app, IH, !zlen_cons. change (zlen (b64_quad a b c)) with 4.
  replace (1 + (1 + (1 + zlen (full3 s)))) with (3 + zlen (full3 s)) by lia. by rewrite Hd.
Qed.

(** At least three bytes are coded in groups of three; the last group is filled with zeros. *)
Lemma encode_spec fuel s out outlen :
  bytesP s → 3 ≤ zlen s → zlen s < 2 ^ 62 → zlen (b64_full (full3 s)) < outlen → outlen < 2 ^ 62 → outlen ≤ zlen out → (length s < fuel)%nat →
  ci_base64_encode fuel s (zlen s) out outlen = Ret (zlen (b64_full (full3 s)), b64_full (full3 s) ++ 0 :: drop (S (length (b64_full (full3 s)))) out).
Proof.
  intros Hs H3 Hlen Ho Hol Hout Hf. assert (H0 : is_byte 0) by (unfold is_byte; lia). unfold ci_base64_encode.
  destruct (encode_loop_spec fuel s [] [] out outlen 0 0) as (s1 & s2 & E & Hne & L2 & Q & R); [done|by intros ->|done|done|change (zlen (@nil Z)) with 0; lia..|done|change (zlen (@nil Z)) with 0; lia|].
  change (zlen (@nil Z)) with 0 in R. cbn [app] in R. rewrite !Z.add_0_l in R. rewrite R. clear R. cbn [obind].
  set (w := b64_full s1) in *. pose proof (zlen_nonneg w).
  assert (Hs2 : zlen (b64_full (full3 s2)) = 4 ∧ zlen s = zlen s1 + zlen s2) by (split; [|by rewrite E, zlen_app]; destruct s2 as [|? [|? [|? [|? ?]]]]; [done..|zlia]). destruct Hs2 as [W2 Ls].
  rewrite Q, zlen_app, W2 in *. rewrite to_u64_id by lia. rewrite (proj2 (Z.ltb_lt (zlen w) _)) by lia.
  assert (Hs12 : bytesP s2) by (rewrite E in Hs; by apply Forall_app in Hs as [_ Hs]).
  assert (Hlast : ∃ b0 b1 b2, full3 s2 = [b0; b1; b2] ∧ is_byte b0 ∧ is_byte b1 ∧ is_byte b2 ∧
    (zlen s1 <? zlen s) = true ∧ load s (zlen s1) = Ret b0 ∧ (if zlen s1 + 1 <? zlen s then load s (zlen s1 + 1) else Ret 0) = Ret b1 ∧
    (if zlen s1 + 2 <? zlen s then load s (zlen s1 + 2) else Ret 0) = Ret b2).
  { rewrite Ls, E. destruct s2 as [|b0 [|b1 [|b2 [|? ?]]]]; [done| | | |exfalso; clear -L2; rewrite !zlen_cons in L2; pose proof (zlen_nonneg l); lia].
    - apply Forall_cons_1 in Hs12 as [Hb0 _]. exists b0, 0, 0. rewrite zlen_cons. change (zlen (@nil Z)) with 0.
      rewrite (proj2 (Z.ltb_lt _ _)), !(proj2 (Z.ltb_ge _ _)) by lia. split_and!; try done. by apply load_app.
    - apply Forall_cons_1 in Hs12 as [Hb0 [Hb1 _]%Forall_cons_1]. exists b0, b1, 0. rewrite !zlen_cons. change (zlen (@nil Z)) with 0.
      rewrite !(proj2 (Z.ltb_lt _ _)), (proj2 (Z.ltb_ge _ _)) by lia. split_and!; try done; [by apply load_app|].
      replace (s1 ++ [b0; b1]) with ((s1 ++ [b0]) ++ [b1]) by by_app. apply load_app. zlia.
    - apply Forall_cons_1 in Hs12 as [Hb0 [Hb1 [Hb2 _]%Forall_cons_1]%Forall_cons_1]. exists b0, b1, b2. rewrite !zlen_cons. change (zlen (@nil Z)) with 0.
      rewrite !(proj2 (Z.ltb_lt _ _)) by lia. split_and!; try done; [by apply load_app| |].
      + replace (s1 ++ [b0; b1; b2]) with ((s1 ++ [b0]) ++ [b1; b2]) by by_app. apply load_app. zlia.
      + replace (s1 ++ [b0; b1; b2]) with ((s1 ++ [b0; b1]) ++ [b2]) by by_app. apply load_app. zlia. }
  destruct Hlast as (b0 & b1 & b2 & F & B0 & B1 & B2 & T & R0 & R1 & R2). rewrite T, R0. cbn [andb obind]. rewrite R1. cbn [obind]. rewrite R2. cbn [obind].
  rewrite dobase64_spec by (try done; rewrite zlen_drop; unfold zlen in *; lia). cbn [obind]. rewrite F. change (b64_full [b0; b1; b2]) with (b64_quad b0 b1 b2 ++ []). rewrite app_nil_r.
  rewrite drop_drop. replace (length w + 4)%nat with (length (w ++ b64_quad b0 b1 b2)) by (rewrite length_app; done). rewrite app_assoc.
  rewrite store_nul by (rewrite zlen_app; change (zlen (b64_quad b0 b1 b2)) with 4; lia). by cbn [obind].
Qed.

(** ** Any string *)

Lemma table_value b : is_byte b → ∃ v, arr_get base64_table b = Ret v ∧ (b = 0 → 63 < v).
Proof.
  intros Hb. assert (Hl : (Z.to_nat b < length base64_table)%nat) by (change (length base64_table) with 256%nat; unfold is_byte in Hb; lia).
  destruct (lookup_lt_is_Some_2 _ _ Hl) as [v Hv]. exists v. split; [apply arr_get_lookup; [unfold is_byte in Hb; lia|done]|]. intros ->. vm_compute in Hv. injection Hv as <-. lia.
Qed.

(** Four characters before the NUL that are valid, or none are taken; nothing after the NUL is read. *)
Lemma quad_any pre s tl p :
  bytesP s → p = zlen pre →
  quad (pre ++ s ++ 0 :: tl) p = Ret None ∨
  ∃ c0 c1 c2 c3 v0 v1 v2 v3 s', s = c0 :: c1 :: c2 :: c3 :: s' ∧ quad (pre ++ s ++ 0 :: tl) p = Ret (Some (v0, v1, v2, v3)) ∧
    arr_get base64_table c0 = Ret v0 ∧ arr_get base64_table c1 = Ret v1 ∧ arr_get base64_table c2 = Ret v2 ∧ arr_get base64_table c3 = Ret v3 ∧
    v0 ≤ 63 ∧ v1 ≤ 63 ∧ v2 ≤ 63 ∧ v3 ≤ 63.
Proof.
  intros Hs Hp.
  assert (Hstep : ∀ (pre s : list Z) p, bytesP s → p = zlen pre → ∃ v, sextet (pre ++ s ++ 0 :: tl) p = Ret v ∧ (63 < v ∨ ∃ c s', s = c :: s' ∧ arr_get base64_table c = Ret v ∧ v ≤ 63)).
  { clear. intros pre [|c s] p Hs Hp; cbn [app].
    - exists 255. split; [by apply sextet_at|left; lia].
    - apply Forall_cons_1 in Hs as [Hc _]. destruct (table_value c Hc) as (v & Hv & _). exists v. split; [by apply sextet_at|]. destruct (decide (v ≤ 63)); [right; by exists c, s|left; lia]. }
  assert (Hgo : ∀ (pre s : list Z) c, pre ++ (c :: s) ++ 0 :: tl = (pre ++ [c]) ++ s ++ 0 :: tl) by (intros; by_app).
  unfold quad. destruct (Hstep pre s p Hs Hp) as (v0 & -> & [H0|(c0 & s0 & -> & T0 & L0)]); cbn [obind]; [left; by rewrite (proj2 (Z.ltb_lt _ _))|].
  rewrite (proj2 (Z.ltb_ge _ _)) by lia. apply Forall_cons_1 in Hs as [_ Hs]. rewrite Hgo.
  destruct (Hstep (pre ++ [c0]) s0 (p + 1) Hs ltac:(zlia)) as (v1 & -> & [H1|(c1 & s1 & -> & T1 & L1)]); cbn [obind]; [left; by rewrite (proj2 (Z.ltb_lt _ _))|].
  rewrite (proj2 (Z.ltb_ge _ _)) by lia. apply Forall_cons_1 in Hs as [_ Hs]. rewrite Hgo.
  destruct (Hstep ((pre ++ [c0]) ++ [c1]) s1 (p + 2) Hs ltac:(zlia)) as (v2 & -> & [H2|(c2 & s2 & -> & T2 & L2)]); cbn [obind]; [left; by rewrite (proj2 (Z.ltb_lt _ _))|].
  rewrite (proj2 (Z.ltb_ge _ _)) by lia. apply Forall_cons_1 in Hs as [_ Hs]. rewrite Hgo.
  destruct (Hstep (((pre ++ [c0]) ++ [c1]) ++ [c2]) s2 (p + 3) Hs ltac:(zlia)) as (v3 & -> & [H3|(c3 & s3 & -> & T3 & L3)]); cbn [obind]; [left; by rewrite (proj2 (Z.ltb_lt _ _))|].
  rewrite (proj2 (Z.ltb_ge _ _)) by lia. right. exists c0, c1, c2, c3, v0, v1, v2, v3, s3. by split_and!.
Qed.

Lemma decode_loop_any fuel s pre tl d x p r i :
  bytesP s → p = zlen pre → r = zlen d → i ≤ zlen x → (Z.to_nat i < fuel)%nat →
  ∃ w s' out, s = w ++ s' ∧ coded w out ∧ (out = [] ∨ zlen out < i) ∧
    decode_loop fuel (pre ++ s ++ 0 :: tl) p r i (d ++ x) = Ret (r + zlen out, i - zlen out, d ++ out ++ drop (length out) x).
Proof.
  revert s pre d x p r i. induction fuel as [|fuel IH]; intros s pre d x p r i Hs Hp Hr Hi Hf; [lia|]. cbn [decode_loop].
  assert (Hstop : ∃ w s' out, s = w ++ s' ∧ coded w out ∧ (out = [] ∨ zlen out < i) ∧ Ret (r, i, d ++ x) = Ret (r + zlen out, i - zlen out, d ++ out ++ drop (length out) x)).
  { exists [], s, []. split; [done|]. split; [constructor|]. split; [by left|]. cbn [app length drop]. change (zlen (@nil Z)) with 0. by rewrite Z.add_0_r, Z.sub_0_r. }
  destruct (Z.ltb_spec 3 i) as [H3|H3]; [|done].
  destruct (quad_any pre s tl p Hs Hp) as [-> |(c0 & c1 & c2 & c3 & v0 & v1 & v2 & v3 & s' & -> & -> & T0 & T1 & T2 & T3 & L0 & L1 & L2 & L3)]; cbn [obind]; [done|]. clear Hstop.
  do 4 apply Forall_cons_1 in Hs as [_ Hs]. rewrite store3 by (done || lia).
  set (b0 := byte (Z.lor (Z.shiftl v0 2) (Z.shiftr v1 4))). set (b1 := byte (Z.lor (Z.shiftl v1 4) (Z.shiftr v2 2))). set (b2 := byte (Z.lor (Z.shiftl v2 6) v3)).
  replace (pre ++ (c0 :: c1 :: c2 :: c3 :: s') ++ 0 :: tl) with ((pre ++ [c0; c1; c2; c3]) ++ s' ++ 0 :: tl) by by_app.
  replace (d ++ b0 :: b1 :: b2 :: drop 3 x) with ((d ++ [b0; b1; b2]) ++ drop 3 x) by by_app.
  destruct (IH s' (pre ++ [c0; c1; c2; c3]) (d ++ [b0; b1; b2]) (drop 3 x) (p + 4) (r + 3) (i - 3)) as (w & s2 & out & -> & Hw & Ho & ->); [done|zlia|zlia|rewrite zlen_drop; lia|lia|].
  exists (c0 :: c1 :: c2 :: c3 :: w), s2, (b0 :: b1 :: b2 :: out). split; [done|]. split; [by eapply coded_quad|].
  split; [right; rewrite !zlen_cons; destruct Ho as [-> |?]; [change (zlen (@nil Z)) with 0; lia|lia]|].
  rewrite !zlen_cons, drop_drop, <- app_assoc. cbn. f_equal. f_equal. f_equal; lia.
Qed.

(** A string whose valid groups are a prefix is decoded up to them, within the memory given. *)
Lemma decode_any s tl dst len :
  bytesP s → 1 ≤ len → len ≤ zlen dst →
  ∃ w s' out, s = w ++ s' ∧ coded w out ∧ zlen out < len ∧ ci_base64_decode (s ++ 0 :: tl) dst len = Ret (zlen out, out ++ 0 :: drop (S (length out)) dst).
Proof.
  intros Hs H1 Hd. unfold ci_base64_decode. rewrite (proj2 (Z.eqb_neq len 0)) by lia.
  destruct (decode_loop_any (S (Z.to_nat len)) s [] tl [] dst 0 0 len Hs) as (w & s' & out & E & Hw & Ho & Hrun); [done|done|done|lia|].
  cbn [app] in Hrun. rewrite Hrun. cbn [obind].
  assert (Hlt : zlen out < len) by (destruct Ho as [-> |?]; [change (zlen (@nil Z)) with 0; lia|done]).
  exists w, s', out. split; [done|]. split; [done|]. split; [done|]. rewrite store_nul by lia. cbn [obind]. f_equal. f_equal. lia.
Qed.

(** ** URL coding *)

(** The character at [i], and where the next starts. *)
Definition url_char (input : list Z) (i c : Z) : outcome (Z * Z) :=
  if c =? 37 then
    let* h := load input (i + 1) in
    let* l := load input (i + 2) in
    match strtol 16 [h; l; 0] with Some (v, _) => Ret (byte v, i + 3) | None => UB end
  else if c =? 43 then Ret (32, i + 1)
  else Ret (c, i + 1).

Fixpoint url_loop (fuel : nat) (input : list Z) (output_len i k : Z) (output : list Z) : outcome (Z * list Z) :=
  match fuel with
  | O => NoFuel
  | S fuel' =>
      let* c := load input i in
      if negb (c =? 0) && (k <? output_len - 1) then
        let* (b, i) := url_char input i c in
        let* output := store output k b in
        url_loop fuel' input output_len i (k + 1) output
      else Ret (k, output)
  end.

Definition url_decoder (input output : list Z) (output_len : Z) : outcome (Z * list Z) :=
  let* (k, output) := url_loop (S (Z.to_nat output_len)) input output_len 0 0 output in
  let* output := store output k 0 in
  Ret (if k =? output_len - 1 then -1 else 1, output).

Fixpoint url_loop2 (fuel : nat) (i k : Z) (m : list Z) : outcome (Z * list Z) :=
  match fuel with
  | O => NoFuel
  | S fuel' =>
      let* c := load m i in
      if negb (c =? 0) then
        let* (b, i) := url_char m i c in
        let* m := store m k b in
        url_loop2 fuel' i (k + 1) m
      else Ret (k, m)
  end.

Definition url_decoder2 (fuel : nat) (input : list Z) : outcome (Z * list Z) :=
  let* (k, m) := url_loop2 fuel 0 0 input in
  let* m := store m k 0 in
  Ret (1, m).

(** The coding of a URL: letters, digits and some marks as they are, the rest in hexadecimal. *)
Definition plain (b : Z) : bool :=
  ((48 <=? b) && (b <=? 57)) || ((65 <=? b) && (b <=? 90)) || ((97 <=? b) && (b <=? 122)) || (b =? 45) || (b =? 46) || (b =? 95) || (b =? 126).
Definition url_code (b : Z) : list Z := if plain b then [b] else [37; digit_char (b `div` 16); digit_char (b `mod` 16)].
Definition url_encode (s : list Z) : list Z := concat (map url_code s).

Lemma hex_byte b : is_byte b → ∃ n, strtol 16 [digit_char (b `div` 16); digit_char (b `mod` 16); 0] = Some (b, n).
Proof.
  intros Hb. assert (Hall : forallb (λ b, match strtol 16 [digit_char (b `div` 16); digit_char (b `mod` 16); 0] with Some (v, _) => v =? b | None => false end) (seqZ 0 256) = true) by (vm_compute; reflexivity).
  rewrite forallb_forall in Hall. specialize (Hall b ltac:(apply list_elem_of_In, elem_of_seqZ; unfold is_byte in Hb; lia)).
  destruct (strtol _ _) as [[v n]|]; [|done]. apply Z.eqb_eq in Hall. subst. by exists n.
Qed.

(** The code of a character, wherever it is. *)
Lemma url_char_code pre b r i :
  is_byte b → i = zlen pre →
  ∃ c, load (pre ++ url_code b ++ r) i = Ret c ∧ c ≠ 0 ∧ url_char (pre ++ url_code b ++ r) i c = Ret (b, i + zlen (url_code b)).
Proof.
  intros Hb ->. unfold url_code, url_char. destruct (plain b) eqn:Hp.
  - exists b. cbn [app]. rewrite load_app by done. unfold plain in Hp. split; [done|]. split; [intros ->; done|].
    rewrite !(proj2 (Z.eqb_neq _ _)) by (intros ->; done). done.
  - exists 37. cbn [app]. rewrite load_app by done. split; [done|]. split; [done|]. cbn [Z.eqb Pos.eqb].
    replace (pre ++ 37 :: digit_char (b `div` 16) :: digit_char (b `mod` 16) :: r) with ((pre ++ [37]) ++ digit_char (b `div` 16) :: digit_char (b `mod` 16) :: r) by by_app.
    rewrite load_app by zlia. cbn [obind].
    replace ((pre ++ [37]) ++ digit_char (b `div` 16) :: digit_char (b `mod` 16) :: r) with ((pre ++ [37; digit_char (b `div` 16)]) ++ digit_char (b `mod` 16) :: r) by by_app.
    rewrite load_app by zlia. cbn [obind]. destruct (hex_byte b Hb) as [n ->]. unfold byte. by rewrite Z.mod_small.
Qed.

Lemma url_loop_spec s fuel pre tl d x output_len i k :
  bytesP s → i = zlen pre → k = zlen d → zlen d + zlen s ≤ output_len - 1 → zlen s ≤ zlen x → (length s < fuel)%nat →
  url_loop fuel (pre ++ url_encode s ++ 0 :: tl) output_len i k (d ++ x) = Ret (k + zlen s, d ++ s ++ drop (length s) x).
Proof.
  intros Hs. revert fuel pre d x i k. induction Hs as [|b s Hb Hs IH]; intros fuel pre d x i k Hi Hk Ho Hx Hf; (destruct fuel as [|fuel]; [cbn in Hf; lia|]); cbn [url_loop].
  - unfold url_encode. cbn [map concat app]. rewrite load_app by done. cbn. by rewrite Z.add_0_r.
  - change (url_encode (b :: s)) with (url_code b ++ url_encode s). rewrite <- (app_assoc (url_code b)). rewrite zlen_cons in *. pose proof (zlen_nonneg s).
    destruct (url_char_code pre b (url_encode s ++ 0 :: tl) i Hb Hi) as (c & -> & Hc & Hch). cbn [obind]. rewrite (proj2 (Z.eqb_neq c 0)) by done. cbn [negb andb].
    rewrite (proj2 (Z.ltb_lt _ _)) by lia. rewrite Hch. cbn [obind]. destruct x as [|y x]; [zlia|]. rewrite (store_app d x k b y Hk). cbn [obind].
    replace (pre ++ url_code b ++ url_encode s ++ 0 :: tl) with ((pre ++ url_code b) ++ url_encode s ++ 0 :: tl) by by_app.
    replace (d ++ b :: x) with ((d ++ [b]) ++ x) by by_app. rewrite zlen_cons in Hx. cbn in Hf.
    rewrite IH by (rewrite ?zlen_app, ?zlen_cons; change (zlen (@nil Z)) with 0; lia). cbn [length drop]. rewrite <- app_assoc. cbn [app]. f_equal. f_equal. lia.
Qed.

(** In place: [g] is what lies between the decoded part and the rest. *)
Lemma url_loop2_spec s fuel d g tl i k :
  bytesP s → i = zlen d + zlen g → k = zlen d → (length s < fuel)%nat →
  ∃ g', length (g' : list Z) = (length g + (length (url_encode s) - length s))%nat ∧
    url_loop2 fuel i k (d ++ g ++ url_encode s ++ 0 :: tl) = Ret (k + zlen s, (d ++ s) ++ g' ++ 0 :: tl).
Proof.
  intros Hs. revert fuel d g i k. induction Hs as [|b s Hb Hs IH]; intros fuel d g i k Hi Hk Hf; (destruct fuel as [|fuel]; [cbn in Hf; lia|]); cbn [url_loop2].
  - exists g. split; [cbn; lia|]. unfold url_encode. cbn [map concat app]. rewrite app_assoc, load_app by (rewrite zlen_app; lia). cbn. by rewrite Z.add_0_r, app_nil_r, app_assoc.
  - change (url_encode (b :: s)) with (url_code b ++ url_encode s). rewrite <- (app_assoc (url_code b)), app_assoc.
    destruct (url_char_code (d ++ g) b (url_encode s ++ 0 :: tl) i Hb ltac:(rewrite zlen_app; lia)) as (c & -> & Hc & Hch). cbn [obind]. rewrite (proj2 (Z.eqb_neq c 0)) by done. cbn [negb]. rewrite Hch. cbn [obind].
    destruct (g ++ url_code b) as [|y g1] eqn:Hg.
    { apply app_eq_nil in Hg as [_ Hg]. unfold url_code in Hg. by destruct (plain b). }
    assert (Hlen : (length g + length (url_code b) = S (length g1))%nat) by (rewrite <- length_app, Hg; done).
    replace ((d ++ g) ++ url_code b ++ url_encode s ++ 0 :: tl) with (d ++ (g ++ url_code b) ++ url_encode s ++ 0 :: tl) by by_app. rewrite Hg. cbn [app].
    rewrite (store_app d _ k b y Hk). cbn [obind]. replace (d ++ b :: g1 ++ url_encode s ++ 0 :: tl) with ((d ++ [b]) ++ g1 ++ url_encode s ++ 0 :: tl) by by_app. cbn in Hf.
    destruct (IH fuel (d ++ [b]) g1 (i + zlen (url_code b)) (k + 1)) as (g' & L & ->); [unfold zlen in *; rewrite length_app; cbn; lia|zlia|lia|].
    exists g'. split; [|rewrite zlen_cons, <- !app_assoc; cbn [app]; f_equal; f_equal; lia].
    assert (length s ≤ length (url_encode s))%nat.
    { clear. induction s as [|b s IH]; [done|]. change (url_encode (b :: s)) with (url_code b ++ url_encode s). rewrite length_app. unfold url_code. destruct (plain b); cbn; lia. }
    rewrite L, length_app. cbn [length]. assert (1 ≤ length (url_code b))%nat by (unfold url_code; destruct (plain b); cbn; lia). lia.
Qed.

(** ** Properties *)

(** Base64 is decoded as it is coded.  Text coded as RFC 4648 says is decoded to the text, with a zero for each padding character, and
    what the encoder writes for three bytes or more is decoded to these bytes, with zeros up to a multiple of three; the NUL follows,
    and the rest of the memory is as it was. *)
Theorem base64_roundtrip s tl dst len :
  bytesP s → zlen (full3 s) < len → len ≤ zlen dst →
  ci_base64_decode (b64 s ++ 0 :: tl) dst len = Ret (zlen (full3 s), full3 s ++ 0 :: drop (S (length (full3 s))) dst) ∧
  (∀ fuel out outlen, 3 ≤ zlen s → zlen s < 2 ^ 62 → zlen (b64_full (full3 s)) < outlen → outlen < 2 ^ 62 → outlen ≤ zlen out → (length s < fuel)%nat →
    ∃ k out', ci_base64_encode fuel s (zlen s) out outlen = Ret (k, out') ∧
      ci_base64_decode out' dst len = Ret (zlen (full3 s), full3 s ++ 0 :: drop (S (length (full3 s))) dst)).
Proof.
  intros Hs Hl Hd. split; [by apply decode_coded; [apply coded_b64|..]|]. intros fuel out outlen H3 Hb Ho Hob Hout Hf.
  rewrite encode_spec by done. do 2 eexists. split; [done|]. apply decode_coded; [by apply coded_b64_full|done..].
Qed.

Lemma base64_roundtrip_witness :
  ci_base64_decode (b64 (bytes "Aladdin:open sesame") ++ [0]) (replicate 64 7) 64 =
    Ret (21, bytes "Aladdin:open sesame" ++ [0; 0; 0] ++ replicate 42 7) ∧
  b64 (bytes "Aladdin:open sesame") = bytes "QWxhZGRpbjpvcGVuIHNlc2FtZQ==" ∧
  ∃ k out, ci_base64_encode 20 (bytes "Aladdin:open sesame") 19 (replicate 40 9) 40 = Ret (k, out) ∧
    ci_base64_decode out (replicate 64 7) 64 = Ret (21, bytes "Aladdin:open sesame" ++ [0; 0; 0] ++ replicate 42 7).
Proof.
  assert (Hb : bytesP (bytes "Aladdin:open sesame")) by (repeat constructor; vm_compute; (reflexivity || discriminate)).
  destruct (base64_roundtrip (bytes "Aladdin:open sesame") [] (replicate 64 7) 64 Hb ltac:(reflexivity) ltac:(discriminate)) as [H1 H2].
  split; [exact H1|]. split; [reflexivity|]. apply H2; try reflexivity; try discriminate. cbn. lia.
Defined.

(** Fewer than three bytes: [len - 3] wraps around, and the encoder reads past the data as long as there is room for what it writes. *)
Lemma encode_short_reads_past s fuel :
  s ≠ [] → zlen s < 3 → (0 < fuel)%nat → ci_base64_encode fuel s (zlen s) (replicate 100 0) 100 = UB.
Proof.
  intros Hne Hs Hf. destruct fuel as [|fuel]; [lia|]. unfold ci_base64_encode. cbn [encode_loop].
  destruct s as [|a [|b [|c s]]]; [done|done|done|]. exfalso. rewrite !zlen_cons in Hs. pose proof (zlen_nonneg s). lia.
Qed.

(** A URL is decoded to what was coded, into other memory and in place. *)
Lemma url_roundtrip s tl dst output_len fuel :
  bytesP s → zlen s < output_len → output_len ≤ zlen dst → (length s < fuel)%nat →
  url_decoder (url_encode s ++ 0 :: tl) dst output_len = Ret (if zlen s =? output_len - 1 then -1 else 1, s ++ 0 :: drop (S (length s)) dst) ∧
  ∃ r, url_decoder2 fuel (url_encode s ++ 0 :: tl) = Ret (1, s ++ 0 :: r).
Proof.
  intros Hs Ho Hd Hf. split.
  - unfold url_decoder. rewrite (url_loop_spec s _ [] tl [] dst output_len 0 0 Hs) by (try done; change (zlen (@nil Z)) with 0; unfold zlen in *; lia). cbn [obind app].
    rewrite store_nul by lia. cbn [obind]. done.
  - unfold url_decoder2. destruct (url_loop2_spec s fuel [] [] tl 0 0 Hs eq_refl eq_refl Hf) as (g & _ & Hrun). cbn [app] in Hrun. rewrite Hrun. cbn [obind].
    destruct g as [|y g]; [exists tl|exists (g ++ 0 :: tl)]; cbn [app]; by rewrite store_app.
Qed.

(** A percent sign at the end of a URL: the character after the NUL is read, and the decoding goes on behind it. *)
Lemma url_percent_reads_past :
  url_decoder (bytes "a%" ++ [0]) (replicate 10 0) 10 = UB ∧
  url_decoder (bytes "a%" ++ [0; 53] ++ bytes "secret" ++ [0]) (replicate 10 0) 10 = Ret (1, [97; 0] ++ bytes "secret" ++ [0; 0]).
Proof. split; reflexivity. Qed.
