(* ===== verification/Inflate.v ===== *)
(** * Decompression (decode.c)

    The decoders of zlib, bzip2 and brotli are arguments: a call gets the input that is left and the room for output, and gives a code,
    the bytes it wrote, the input left and its new state.  Where the bytes go is an argument too: a memory buffer, a file,
    or the buffer of the caller. *)

From stdpp Require Import base list list_numbers strings numbers option.
From Stdlib Require Import ZArith Lia.
From S2P Require Import Prelude CString Chunks ReadBody Headers.

Definition CHUNK : Z := 8192.
Definition kFileBufferSize : Z := 16384.

Definition CI_UNCOMP_ERR_BOMB : Z := -4.
Definition CI_UNCOMP_ERR_CORRUPT : Z := -3.
Definition CI_UNCOMP_ERR_OUTPUT : Z := -2.
Definition CI_UNCOMP_ERR_ERROR : Z := -1.
Definition CI_UNCOMP_ERR_NONE : Z := 0.
Definition CI_UNCOMP_OK : Z := 1.

Definition Z_STREAM_END : Z := 1.
Definition Z_NEED_DICT : Z := 2.
Definition Z_STREAM_ERROR : Z := -2.
Definition Z_DATA_ERROR : Z := -3.
Definition Z_MEM_ERROR : Z := -4.

Definition BZ_PARAM_ERROR : Z := -2.
Definition BZ_MEM_ERROR : Z := -3.
Definition BZ_DATA_ERROR : Z := -4.
Definition BZ_DATA_ERROR_MAGIC : Z := -5.

Definition BROTLI_SUCCESS : Z := 1.
Definition BROTLI_NEEDS_MORE_INPUT : Z := 2.
Definition BROTLI_NEEDS_MORE_OUTPUT : Z := 3.

(** ** Content codings *)

Inductive coding := ENCODE_UNKNOWN | ENCODE_NONE | ENCODE_GZIP | ENCODE_DEFLATE | ENCODE_BZIP2 | ENCODE_BROTLI.
#[export] Instance coding_eq : EqDecision coding.
Proof. solve_decision. Defined.

(** [strcasestr(s, w) != NULL]. *)
Fixpoint has_word (w s : list Z) : bool :=
  bool_decide (map tolower (take (length w) s) = map tolower w) || match s with [] => false | _ :: s' => has_word w s' end.

Definition ci_encoding_method (content_encoding : option (list Z)) : coding :=
  match content_encoding with
  | None => ENCODE_NONE
  | Some s =>
      if has_word (bytes "gzip") s then ENCODE_GZIP
      else if has_word (bytes "deflate") s then ENCODE_DEFLATE
      else if has_word (bytes "br") s then ENCODE_BROTLI
      else if has_word (bytes "bzip2") s then ENCODE_BZIP2
      else ENCODE_UNKNOWN
  end.

(** ** The loops *)

Section decompress.
Context {St T : Type} (decode : St → list Z → Z → Z * list Z * list Z * St)
  (get_outbuf : option (T → option (list Z))) (put_outbuf : T → list Z → T) (writefunc : T → list Z → Z → outcome (Z * T)).

(** The memory that is written to: the caller's, or the array of the function, which must have room. *)
Definition output_memory (OUT : list Z) (o : T) : option (list Z) := match get_outbuf with Some g => g o | None => Some OUT end.
Definition keep_output (m : list Z) (o : T) : T := match get_outbuf with Some _ => put_outbuf o m | None => o end.

(** How much of what was decoded is written. *)
Definition can_write (max_size unzipped have : Z) : Z := if (0 <? max_size) && (max_size - unzipped <? have) then max_size - unzipped else have.

Definition too_big (unzipped inlen : Z) : outcome Z :=
  if inlen =? 0 then UB else Ret (if 100 <? unzipped `div` inlen then CI_UNCOMP_ERR_BOMB else CI_UNCOMP_ERR_NONE).

(** zlib: data without a header are tried once more as raw data. *)
Fixpoint inflate_loop (fuel : nat) (raw : option St) (inbuf : list Z) (max_size : Z) (s : St) (rest : list Z) (retriable : bool) (unzipped : Z) (OUT : list Z) (o : T) : outcome (Z * T) :=
  match fuel with
  | O => NoFuel
  | S fuel' =>
      match output_memory OUT o with
      | None => Ret (CI_UNCOMP_ERR_OUTPUT, o)
      | Some m =>
          if zlen m =? 0 then Ret (CI_UNCOMP_ERR_OUTPUT, o)
          else
          let '(ret, produced, rest, s) := decode s rest (zlen m) in
          let* m' := write_bytes m 0 produced in
          let o := keep_output m' o in
          let bad := (ret =? Z_NEED_DICT) || (ret =? Z_DATA_ERROR) in
          match (if bad && retriable then raw else None) with
          | Some s => inflate_loop fuel' raw inbuf max_size s inbuf false unzipped m' o
          | None =>
              if bad || (ret =? Z_STREAM_ERROR) || (ret =? Z_MEM_ERROR) then Ret (CI_UNCOMP_ERR_CORRUPT, o)
              else
              let have := zlen produced in
              let n := can_write max_size unzipped have in
              let* (written, o) := writefunc o m' n in
              if negb (written =? n) then Ret (CI_UNCOMP_ERR_OUTPUT, o)
              else if written <? have then let* r := too_big (unzipped + written) (zlen inbuf) in Ret (r, o)
              else if have =? zlen m then inflate_loop fuel' raw inbuf max_size s rest false (unzipped + written) m' o
              else Ret (if ret =? Z_STREAM_END then CI_UNCOMP_OK else CI_UNCOMP_ERR_CORRUPT, o)
          end
      end
  end.

(** [init] and [raw] are what the two calls of [inflateInit2] give. *)
Definition ci_mem_inflate (fuel : nat) (init raw : option St) (inbuf : list Z) (max_size : Z) (OUT : list Z) (o : T) : outcome (Z * T) :=
  match init with
  | None => Ret (CI_UNCOMP_ERR_ERROR, o)
  | Some s => inflate_loop fuel raw inbuf max_size s inbuf true 0 OUT o
  end.

Fixpoint bz_loop (fuel : nat) (inlen max_size : Z) (s : St) (rest : list Z) (unzipped : Z) (OUT : list Z) (o : T) : outcome (Z * T) :=
  match fuel with
  | O => NoFuel
  | S fuel' =>
      match output_memory OUT o with
      | None => Ret (CI_UNCOMP_ERR_OUTPUT, o)
      | Some m =>
          if zlen m =? 0 then Ret (CI_UNCOMP_ERR_OUTPUT, o)
          else
          let '(ret, produced, rest, s) := decode s rest (zlen m) in
          let* m' := write_bytes m 0 produced in
          let o := keep_output m' o in
          if (ret =? BZ_PARAM_ERROR) || (ret =? BZ_DATA_ERROR) || (ret =? BZ_DATA_ERROR_MAGIC) || (ret =? BZ_MEM_ERROR) then Ret (CI_UNCOMP_ERR_ERROR, o)
          else
          let have := zlen produced in
          let n := can_write max_size unzipped have in
          if have =? 0 then Ret (CI_UNCOMP_ERR_OUTPUT, o)
          else
          let* (written, o) := writefunc o m' n in
          if negb (written =? n) then Ret (CI_UNCOMP_ERR_OUTPUT, o)
          else if written <? have then let* r := too_big (unzipped + written) inlen in Ret (r, o)
          else if have =? zlen m then bz_loop fuel' inlen max_size s rest (unzipped + written) m' o
          else Ret (CI_UNCOMP_OK, o)
      end
  end.

Definition ci_mem_bzunzip (fuel : nat) (init : option St) (inbuf : list Z) (max_size : Z) (OUT : list Z) (o : T) : outcome (Z * T) :=
  match init with
  | None => Ret (CI_UNCOMP_ERR_ERROR, o)
  | Some s => bz_loop fuel (zlen inbuf) max_size s inbuf 0 OUT o
  end.

(** The size of the own array is taken for that of the memory, whichever it is. *)
Fixpoint Br_Decompress (fuel : nat) (inlen max_size : Z) (s : St) (rest : list Z) (outsize : Z) (OUT : list Z) (o : T) : outcome (Z * T) :=
  match fuel with
  | O => NoFuel
  | S fuel' =>
      match output_memory OUT o with
      | None => Ret (CI_UNCOMP_ERR_OUTPUT, o)
      | Some m =>
          let '(ret, produced, rest, s) := decode s rest (zlen m) in
          let* m' := write_bytes m 0 produced in
          let o := keep_output m' o in
          let have := to_uint (kFileBufferSize - (zlen m - zlen produced)) in
          let n := can_write max_size outsize have in
          let* (written, o) := writefunc o m' n in
          if negb (written =? n) then Ret (CI_UNCOMP_ERR_OUTPUT, o)
          else if written <? have then let* r := too_big (outsize + written) inlen in Ret (r, o)
          else if ret =? BROTLI_NEEDS_MORE_INPUT then
            if zlen rest =? 0 then Ret (CI_UNCOMP_ERR_CORRUPT, o) else Br_Decompress fuel' inlen max_size s rest (outsize + written) m' o
          else if ret =? BROTLI_NEEDS_MORE_OUTPUT then Br_Decompress fuel' inlen max_size s rest (outsize + written) m' o
          else if ret =? BROTLI_SUCCESS then Ret (if zlen rest =? 0 then CI_UNCOMP_OK else CI_UNCOMP_ERR_CORRUPT, o)
          else Ret (CI_UNCOMP_ERR_CORRUPT, o)
      end
  end.

Definition ci_mem_brinflate (fuel : nat) (init : option St) (inbuf : list Z) (max_size : Z) (OUT : list Z) (o : T) : outcome (Z * T) :=
  match init with
  | None => Ret (-1, o)
  | Some s => Br_Decompress fuel (zlen inbuf) max_size s inbuf 0 OUT o
  end.
End decompress.

(** ** The buffer of a preview *)

Record unzipBuf := mkUnzip { ub_buf : list Z; ub_out_len : Z }.
Definition get_buf_outbuf (u : unzipBuf) : option (list Z) := Some (ub_buf u).
Definition put_buf_outbuf (u : unzipBuf) (m : list Z) : unzipBuf := mkUnzip m (ub_out_len u).

(** The bytes are there already; only their number is kept, and 0 is returned to stop. *)
Definition write_once_to_outbuf (u : unzipBuf) (m : list Z) (len : Z) : outcome (Z * unzipBuf) :=
  let n := if zlen (ub_buf u) <? len then zlen (ub_buf u) else len in
  let* d := read_bytes m 0 n in
  let* b := write_bytes (ub_buf u) 0 d in
  Ret (0, mkUnzip b n).

Definition step_result (o : outcome (Z * unzipBuf)) : outcome (Z * list Z) :=
  let* (_, u) := o in
  if 0 <? ub_out_len u then Ret (CI_OK, take (Z.to_nat (ub_out_len u)) (ub_buf u)) else Ret (CI_ERROR, []).

Section preview.
Context {St : Type} (decode : St → list Z → Z → Z * list Z * list Z * St).

Definition zlib_inflate_step (fuel : nat) (init raw : option St) (buf OUT unzipped : list Z) : outcome (Z * list Z) :=
  step_result (ci_mem_inflate decode (Some get_buf_outbuf) put_buf_outbuf write_once_to_outbuf fuel init raw buf (zlen buf) OUT (mkUnzip unzipped 0)).
Definition bzlib_uncompress_step (fuel : nat) (init : option St) (buf OUT unzipped : list Z) : outcome (Z * list Z) :=
  step_result (ci_mem_bzunzip decode (Some get_buf_outbuf) put_buf_outbuf write_once_to_outbuf fuel init buf (zlen buf) OUT (mkUnzip unzipped 0)).
Definition brotli_inflate_step (fuel : nat) (init : option St) (buf OUT unzipped : list Z) : outcome (Z * list Z) :=
  step_result (ci_mem_brinflate decode (Some get_buf_outbuf) put_buf_outbuf write_once_to_outbuf fuel init buf (zlen buf) OUT (mkUnzip unzipped 0)).
End preview.

(** ** What is written is bounded *)

(** A decoder keeps to the room it is given. *)
Definition fits {St : Type} (decode : St → list Z → Z → Z * list Z * list Z * St) : Prop := ∀ s rest n, 0 ≤ n → zlen (decode s rest n).1.1.2 ≤ n.

(** A writer takes at most what it is given; [size] is what it has taken. *)
Definition takes {T : Type} (writefunc : T → list Z → Z → outcome (Z * T)) (size : T → Z) : Prop :=
  ∀ o m n, 0 ≤ n ≤ zlen m → ∃ w o', writefunc o m n = Ret (w, o') ∧ size o' ≤ size o + n.

(** What brotli says of its codes: it asks for input when there is none, and for output when the room is used up. *)
Definition brotli_codes {St : Type} (decode : St → list Z → Z → Z * list Z * list Z * St) : Prop :=
  ∀ s rest n, let '(c, p, rest', _) := decode s rest n in (c = BROTLI_NEEDS_MORE_INPUT → rest' = []) ∧ (c = BROTLI_NEEDS_MORE_OUTPUT → zlen p = n).

Lemma can_write_range max_size unzipped have :
  0 < max_size → 0 ≤ unzipped ≤ max_size → 0 ≤ have →
  0 ≤ can_write max_size unzipped have ≤ have ∧ can_write max_size unzipped have ≤ max_size - unzipped.
Proof. intros Hm Hu Hh. unfold can_write. rewrite (proj2 (Z.ltb_lt 0 max_size)) by done. cbn [andb]. case_cmp; lia. Qed.

Lemma written_over (m p : list Z) : zlen p ≤ zlen m → ∃ m', write_bytes m 0 p = Ret m' ∧ zlen m' = zlen m ∧ take (length p) m' = p.
Proof.
  intros Hp. rewrite write_bytes_ok by lia. eexists. split; [done|]. split; [apply zlen_splice; lia|]. unfold splice. change (Z.to_nat 0) with 0%nat. rewrite take_0. cbn [app]. by rewrite take_app_length.
Qed.

Section bounded.
Context {St T : Type} (decode : St → list Z → Z → Z * list Z * list Z * St) (put_outbuf : T → list Z → T) (writefunc : T → list Z → Z → outcome (Z * T)) (size : T → Z).
Hypothesis decode_fits : fits decode.
Hypothesis writer_takes : takes writefunc size.

Lemma inflate_loop_bounded fuel raw inbuf max_size s rest (retriable : bool) unzipped OUT o :
  0 < max_size → 0 < zlen inbuf → 0 ≤ unzipped ≤ max_size → zlen OUT = CHUNK → max_size - unzipped + (if retriable then CHUNK else 0) < CHUNK * Z.of_nat fuel →
  ∃ r o', inflate_loop decode (@None (T → option (list Z))) put_outbuf writefunc fuel raw inbuf max_size s rest retriable unzipped OUT o = Ret (r, o') ∧ size o' ≤ size o + (max_size - unzipped).
Proof.
  intros Hmax Hin. revert s rest retriable unzipped OUT o. induction fuel as [|fuel IH]; intros s rest retriable unzipped OUT o Hu HO Hf; [unfold CHUNK in *; destruct retriable; lia|].
  cbn [inflate_loop output_memory keep_output]. rewrite (proj2 (Z.eqb_neq (zlen OUT) 0)) by (unfold CHUNK in *; lia).
  pose proof (decode_fits s rest (zlen OUT) (zlen_nonneg _)) as Hfit. destruct (decode s rest (zlen OUT)) as [[[ret p] rest'] s']. cbn [fst snd] in Hfit.
  destruct (written_over OUT p Hfit) as (m' & -> & Lm & Tm). cbn [obind]. pose proof (zlen_nonneg p).
  destruct (((ret =? Z_NEED_DICT) || (ret =? Z_DATA_ERROR)) && retriable) eqn:Hbad; [destruct raw as [s2|]|].
  - apply andb_true_iff in Hbad as [_ ->]. apply IH; [done|lia|unfold CHUNK in *; lia].
  - rewrite (proj1 (andb_prop _ _ Hbad)). cbn [orb]. do 2 eexists. split; [done|]. lia.
  - destruct (_ || _ || _); [do 2 eexists; split; [done|]; lia|].
    destruct (can_write_range max_size unzipped (zlen p) Hmax Hu ltac:(done)) as [Hn1 Hn2]. set (n := can_write _ _ _) in *.
    destruct (writer_takes o m' n ltac:(lia)) as (w & o' & -> & Hsz). cbn [obind].
    destruct (Z.eqb_spec w n) as [-> |?]; cbn [negb]; [|do 2 eexists; split; [done|]; lia].
    destruct (Z.ltb_spec n (zlen p)).
    { unfold too_big. rewrite (proj2 (Z.eqb_neq _ _)) by lia. do 2 eexists. split; [done|]. lia. }
    destruct (Z.eqb_spec (zlen p) (zlen OUT)) as [Hfull|?]; [|do 2 eexists; split; [done|]; lia].
    destruct (IH s' rest' false (unzipped + n) m' o') as (r & o2 & -> & Hs2); [lia|lia|unfold CHUNK in *; destruct retriable; lia|]. do 2 eexists. split; [done|]. lia.
Qed.

Lemma bz_loop_bounded fuel inlen max_size s rest unzipped OUT o :
  0 < max_size → 0 < inlen → 0 ≤ unzipped ≤ max_size → zlen OUT = CHUNK → max_size - unzipped < CHUNK * Z.of_nat fuel →
  ∃ r o', bz_loop decode (@None (T → option (list Z))) put_outbuf writefunc fuel inlen max_size s rest unzipped OUT o = Ret (r, o') ∧ size o' ≤ size o + (max_size - unzipped).
Proof.
  intros Hmax Hin. revert s rest unzipped OUT o. induction fuel as [|fuel IH]; intros s rest unzipped OUT o Hu HO Hf; [unfold CHUNK in *; lia|].
  cbn [bz_loop output_memory keep_output]. rewrite (proj2 (Z.eqb_neq (zlen OUT) 0)) by (unfold CHUNK in *; lia).
  pose proof (decode_fits s rest (zlen OUT) (zlen_nonneg _)) as Hfit. destruct (decode s rest (zlen OUT)) as [[[ret p] rest'] s']. cbn [fst snd] in Hfit.
  destruct (written_over OUT p Hfit) as (m' & -> & Lm & Tm). cbn [obind]. pose proof (zlen_nonneg p).
  destruct (_ || _ || _ || _); [do 2 eexists; split; [done|]; lia|]. destruct (zlen p =? 0); [do 2 eexists; split; [done|]; lia|].
  destruct (can_write_range max_size unzipped (zlen p) Hmax Hu ltac:(done)) as [Hn1 Hn2]. set (n := can_write _ _ _) in *.
  destruct (writer_takes o m' n ltac:(lia)) as (w & o' & -> & Hsz). cbn [obind].
  destruct (Z.eqb_spec w n) as [-> |?]; cbn [negb]; [|do 2 eexists; split; [done|]; lia].
  destruct (Z.ltb_spec n (zlen p)).
  { unfold too_big. rewrite (proj2 (Z.eqb_neq _ _)) by lia. do 2 eexists. split; [done|]. lia. }
  destruct (Z.eqb_spec (zlen p) (zlen OUT)) as [Hfull|?]; [|do 2 eexists; split; [done|]; lia].
  destruct (IH s' rest' (unzipped + n) m' o') as (r & o2 & -> & Hs2); [lia|lia|unfold CHUNK in *; lia|]. do 2 eexists. split; [done|]. lia.
Qed.

Hypothesis codes : brotli_codes decode.

Lemma br_bounded fuel inlen max_size s rest outsize OUT o :
  0 < max_size → 0 < inlen → 0 ≤ outsize ≤ max_size → zlen OUT = kFileBufferSize → max_size - outsize < kFileBufferSize * Z.of_nat fuel →
  ∃ r o', Br_Decompress decode (@None (T → option (list Z))) put_outbuf writefunc fuel inlen max_size s rest outsize OUT o = Ret (r, o') ∧ size o' ≤ size o + (max_size - outsize).
Proof.
  intros Hmax Hin. revert s rest outsize OUT o. induction fuel as [|fuel IH]; intros s rest outsize OUT o Hu HO Hf; [unfold kFileBufferSize in *; lia|].
  cbn [Br_Decompress output_memory keep_output].
  pose proof (decode_fits s rest (zlen OUT) (zlen_nonneg _)) as Hfit. pose proof (codes s rest (zlen OUT)) as Hcode. destruct (decode s rest (zlen OUT)) as [[[ret p] rest'] s']. cbn [fst snd] in Hfit.
  destruct Hcode as [C1 C2]. destruct (written_over OUT p Hfit) as (m' & -> & Lm & Tm). cbn [obind]. pose proof (zlen_nonneg p).
  rewrite to_uint_id by (unfold kFileBufferSize in *; lia). replace (kFileBufferSize - (zlen OUT - zlen p)) with (zlen p) by lia.
  destruct (can_write_range max_size outsize (zlen p) Hmax Hu ltac:(done)) as [Hn1 Hn2]. set (n := can_write _ _ _) in *.
  destruct (writer_takes o m' n ltac:(lia)) as (w & o' & -> & Hsz). cbn [obind].
  destruct (Z.eqb_spec w n) as [-> |?]; cbn [negb]; [|do 2 eexists; split; [done|]; lia].
  destruct (Z.ltb_spec n (zlen p)).
  { unfold too_big. rewrite (proj2 (Z.eqb_neq _ _)) by lia. do 2 eexists. split; [done|]. lia. }
  destruct (Z.eqb_spec ret BROTLI_NEEDS_MORE_INPUT) as [Hc|?]; [rewrite (C1 Hc); do 2 eexists; split; [done|]; lia|].
  destruct (Z.eqb_spec ret BROTLI_NEEDS_MORE_OUTPUT) as [Hc|?]; [|destruct (ret =? BROTLI_SUCCESS); do 2 eexists; (split; [done|]; lia)].
  specialize (C2 Hc). destruct (IH s' rest' (outsize + n) m' o') as (r & o2 & -> & Hs2); [lia|lia|lia|]. do 2 eexists. split; [done|]. lia.
Qed.
End bounded.

(** C39: a bomb does not go off.  Whatever the decoders make of the input, decompression with a limit returns after a number of rounds that
    the limit bounds, and no more than the limit is written; within its own memory, which the writer is never asked to
    read beyond. *)
Theorem decompression_bounded {St T : Type} (decode : St → list Z → Z → Z * list Z * list Z * St) (put_outbuf : T → list Z → T) writefunc (size : T → Z) init raw inbuf max_size OUT o fuel :
  fits decode → takes writefunc size → 0 < max_size → 0 < zlen inbuf → max_size + CHUNK < CHUNK * Z.of_nat fuel →
  (zlen OUT = CHUNK →
    (∃ r o', ci_mem_inflate decode None put_outbuf writefunc fuel init raw inbuf max_size OUT o = Ret (r, o') ∧ size o' ≤ size o + max_size) ∧
    (∃ r o', ci_mem_bzunzip decode None put_outbuf writefunc fuel init inbuf max_size OUT o = Ret (r, o') ∧ size o' ≤ size o + max_size)) ∧
  (zlen OUT = kFileBufferSize → brotli_codes decode →
    ∃ r o', ci_mem_brinflate decode None put_outbuf writefunc fuel init inbuf max_size OUT o = Ret (r, o') ∧ size o' ≤ size o + max_size).
Proof.
  intros Hd Hw Hm Hin Hf. unfold ci_mem_inflate, ci_mem_bzunzip, ci_mem_brinflate. destruct init as [s|]; [|split; [intros _; split|intros _ _]; do 2 eexists; (split; [done|]; lia)].
  split; [intros HO; split|intros HO Hc].
  - destruct (inflate_loop_bounded decode put_outbuf writefunc size Hd Hw fuel raw inbuf max_size s inbuf true 0 OUT o) as (r & o' & -> & Hs); try (done || lia). do 2 eexists. split; [done|]. lia.
  - destruct (bz_loop_bounded decode put_outbuf writefunc size Hd Hw fuel (zlen inbuf) max_size s inbuf 0 OUT o) as (r & o' & -> & Hs); try (done || (unfold CHUNK in *; lia)). do 2 eexists. split; [done|]. lia.
  - destruct (br_bounded decode put_outbuf writefunc size Hd Hw Hc fuel (zlen inbuf) max_size s inbuf 0 OUT o) as (r & o' & -> & Hs); try (done || (unfold CHUNK, kFileBufferSize in *; lia)). do 2 eexists. split; [done|]. lia.
Qed.

(** ** What is written is the text *)

Section exact.
Context {St T : Type} (decode : St → list Z → Z → Z * list Z * list Z * St) (put_outbuf : T → list Z → T) (writefunc : T → list Z → Z → outcome (Z * T)) (content : T → list Z).

(** What zlib says of a stream: [R s rest text e] holds of a decoder that has [text] to give yet and ends with the code [e].  A call gives as much as
    there is room for, and the code comes with the call that has room left. *)
Definition streams (R : St → list Z → list Z → Z → Prop) : Prop :=
  ∀ s rest text e n, 0 < n → R s rest text e →
    let '(c, p, rest', s') := decode s rest n in
    p = take (Z.to_nat n) text ∧ R s' rest' (drop (Z.to_nat n) text) e ∧ (zlen text < n → c = e) ∧
    c ≠ Z_NEED_DICT ∧ c ≠ Z_DATA_ERROR ∧ c ≠ Z_STREAM_ERROR ∧ c ≠ Z_MEM_ERROR.

(** A writer that appends. *)
Definition appends : Prop := ∀ o m n, 0 ≤ n ≤ zlen m → ∃ o', writefunc o m n = Ret (n, o') ∧ content o' = content o ++ take (Z.to_nat n) m.

(** The part of the text the limit lets through, and the code. *)
Definition limited (max_size : Z) (text : list Z) : list Z := if (0 <? max_size) && (max_size <? zlen text) then take (Z.to_nat max_size) text else text.
Definition code_of (inlen max_size : Z) (text : list Z) (e : Z) : Z :=
  if (0 <? max_size) && (max_size <? zlen text) then if 100 <? max_size `div` inlen then CI_UNCOMP_ERR_BOMB else CI_UNCOMP_ERR_NONE
  else if e =? Z_STREAM_END then CI_UNCOMP_OK else CI_UNCOMP_ERR_CORRUPT.

Context (R : St → list Z → list Z → Z → Prop).
Hypothesis zlib_streams : streams R.
Hypothesis writer_appends : appends.

Lemma inflate_loop_exact fuel raw inbuf max_size s rest retriable unzipped OUT o text e done :
  R s rest text e → 0 < zlen inbuf → zlen OUT = CHUNK → unzipped = zlen done → (0 < max_size → zlen done ≤ max_size) → zlen text < CHUNK * Z.of_nat fuel →
  ∃ o', inflate_loop decode None put_outbuf writefunc fuel raw inbuf max_size s rest retriable unzipped OUT o = Ret (code_of (zlen inbuf) max_size (done ++ text) e, o') ∧
    content o' = content o ++ drop (length done) (limited max_size (done ++ text)).
Proof.
  intros HR Hin. revert s rest retriable unzipped OUT o text done HR. induction fuel as [|fuel IH]; intros s rest retriable unzipped OUT o text done HR HO Hu Hm Hf; [pose proof (zlen_nonneg text); lia|].
  cbn [inflate_loop output_memory keep_output]. rewrite HO. cbn [Z.eqb CHUNK]. pose proof (zlib_streams s rest text e CHUNK ltac:(done) HR) as Hst.
  destruct (decode s rest CHUNK) as [[[ret p] rest'] s']. destruct Hst as (Hp & HR' & He & N1 & N2 & N3 & N4).
  assert (Lp : zlen p = Z.min CHUNK (zlen text)) by (rewrite Hp, zlen_take; unfold CHUNK; lia). pose proof (zlen_nonneg text). pose proof (zlen_nonneg done).
  destruct (written_over OUT p ltac:(lia)) as (m' & -> & Lm & Tm). cbn [obind]. rewrite !(proj2 (Z.eqb_neq ret _)) by done. cbn [orb andb].
  set (n := can_write max_size unzipped (zlen p)).
  assert (Hn : 0 ≤ n ≤ zlen p ∧ (n < zlen p → 0 < max_size ∧ n = max_size - zlen done) ∧ (0 < max_size → n = zlen p → zlen done + n ≤ max_size)).
  { unfold n, can_write. rewrite Hu. destruct (Z.ltb_spec 0 max_size); cbn [andb]; [destruct (Z.ltb_spec (max_size - zlen done) (zlen p))|]; lia. }
  destruct Hn as (Hn1 & Hn2 & Hn3). destruct (writer_appends o m' n ltac:(lia)) as (o' & -> & Hc). cbn [obind]. rewrite Z.eqb_refl. cbn [negb].
  assert (Htn : take (Z.to_nat n) m' = take (Z.to_nat n) text).
  { replace (take (Z.to_nat n) m') with (take (Z.to_nat n) (take (length p) m')) by (rewrite take_take; f_equal; unfold zlen in *; lia). rewrite Tm, Hp, take_take. f_equal. unfold CHUNK in *. lia. }
  rewrite Htn in Hc. clear Htn. destruct (Z.ltb_spec n (zlen p)) as [Hlt|Hge].
  - destruct (Hn2 Hlt) as [M1 M2]. unfold too_big. rewrite (proj2 (Z.eqb_neq _ _)) by lia. cbn [obind]. exists o'.
    unfold code_of, limited. rewrite zlen_app, !(proj2 (Z.ltb_lt 0 _)), (proj2 (Z.ltb_lt max_size _)) by lia. cbn [andb]. replace (unzipped + n) with max_size by lia.
    split; [done|]. rewrite Hc, M2. rewrite skipn_firstn_comm, drop_app_length. f_equal. f_equal. unfold zlen in *. lia.
  - assert (n = zlen p) as En by lia. rewrite En in *. destruct (Z.eqb_spec (zlen p) CHUNK) as [Hfull|Hrest].
    + destruct (IH s' rest' false (unzipped + zlen p) m' o' (drop (Z.to_nat CHUNK) text) (done ++ p)) as (o2 & -> & Hc2);
        [done|lia|rewrite zlen_app; lia|rewrite zlen_app; intros; by apply Hn3|rewrite zlen_drop; lia|].
      exists o2. rewrite Hp. rewrite <- (app_assoc done), take_drop. split; [done|]. rewrite Hc2, Hc. replace (Z.to_nat (zlen p)) with (Z.to_nat CHUNK) by lia. rewrite <- (app_assoc (content o)). f_equal.
      rewrite Hp, <- (app_assoc done), take_drop, length_app, <- drop_drop. rewrite <- (take_drop (length (take (Z.to_nat CHUNK) text)) (drop (length done) (limited max_size (done ++ text)))) at 2. f_equal.
      unfold limited. rewrite zlen_app. destruct ((0 <? max_size) && _) eqn:Hb.
      * apply andb_true_iff in Hb as [B1%Z.ltb_lt B2%Z.ltb_lt]. specialize (Hn3 B1 eq_refl). rewrite skipn_firstn_comm, drop_app_length, take_take. rewrite length_take. f_equal. unfold zlen, CHUNK in *. lia.
      * rewrite drop_app_length. rewrite length_take. rewrite Nat.min_l by (unfold zlen, CHUNK in *; lia). done.
    + assert (Hall : p = text) by (rewrite Hp; apply take_ge; unfold zlen, CHUNK in *; lia). exists o'. unfold code_of, limited. rewrite zlen_app.
      assert (Hno : (0 <? max_size) && (max_size <? zlen done + zlen text) = false).
      { destruct (Z.ltb_spec 0 max_size) as [B1|]; [|done]. specialize (Hn3 B1 eq_refl). rewrite Hall in Hn3. apply Z.ltb_ge. lia. }
      rewrite Hno, He by (rewrite Hall in *; unfold CHUNK in *; lia). split; [done|]. rewrite Hc, drop_app_length. f_equal. apply take_ge. rewrite Hall. unfold zlen. lia.
Qed.
End exact.

(** C40: text is decompressed.  When zlib decodes the input to a text, a writer that appends gets the text, cut at the limit when there is one,
    and the answer says whether the stream was complete, or that the text is larger than the limit. *)
Theorem inflate_exact {St T : Type} (decode : St → list Z → Z → Z * list Z * list Z * St) (put_outbuf : T → list Z → T) writefunc (content : T → list Z) R s raw inbuf max_size OUT o text e fuel :
  streams decode R → appends writefunc content → R s inbuf text e → 0 < zlen inbuf → 0 ≤ max_size → zlen OUT = CHUNK → zlen text < CHUNK * Z.of_nat fuel →
  ∃ o', ci_mem_inflate decode None put_outbuf writefunc fuel (Some s) raw inbuf max_size OUT o = Ret (code_of (zlen inbuf) max_size text e, o') ∧
    content o' = content o ++ limited max_size text.
Proof.
  intros Hz Hw HR Hin Hm HO Hf. destruct (inflate_loop_exact decode put_outbuf writefunc content R Hz Hw fuel raw inbuf max_size s inbuf true 0 OUT o text e []) as (o' & Hrun & Hc); try done.
  exists o'. split; [exact Hrun|exact Hc].
Qed.

(** ** A decoder of stored text *)

(** The state is the text to come, with the code at its end. *)
Definition stored (s : list Z * Z) (rest : list Z) (n : Z) : Z * list Z * list Z * (list Z * Z) :=
  (if zlen s.1 <? n then s.2 else 0, take (Z.to_nat n) s.1, [], (drop (Z.to_nat n) s.1, s.2)).
Definition holds (s : list Z * Z) (rest text : list Z) (e : Z) : Prop := s = (text, e) ∧ e = Z_STREAM_END.
Definition logger (o m : list Z) (n : Z) : outcome (Z * list Z) := let* d := read_bytes m 0 n in Ret (n, o ++ d).
Definition no_put (o m : list Z) : list Z := o.

Lemma stored_fits : fits stored.
Proof. intros s rest n Hn. cbn. rewrite zlen_take. lia. Qed.

Lemma logger_takes : takes logger zlen.
Proof.
  intros o m n Hn. unfold logger. rewrite read_bytes_ok by lia. cbn [obind]. do 2 eexists. split; [done|]. rewrite zlen_app, zlen_slice by lia. lia.
Qed.

Lemma stored_streams : streams stored holds.
Proof.
  intros [t c] rest text e n Hn [[= -> ->] He]. cbn. split; [done|]. split; [by split|]. split; [intros Hlt; by rewrite (proj2 (Z.ltb_lt _ _))|].
  destruct (zlen text <? n); subst; done.
Qed.

Lemma logger_appends : appends logger (λ o, o).
Proof. intros o m n Hn. unfold logger. rewrite read_bytes_ok by lia. cbn [obind]. eexists. split; [done|]. f_equal. Qed.

Lemma decompression_bounded_witness :
  ∃ r o, ci_mem_inflate stored None no_put logger 4 (Some (replicate 100 65, Z_STREAM_END)) None [1; 2; 3] 50 (replicate (Z.to_nat CHUNK) 0) [] = Ret (r, o) ∧ zlen o ≤ 50.
Proof.
  destruct (decompression_bounded stored no_put logger zlen (Some (replicate 100 65, Z_STREAM_END)) None [1; 2; 3] 50 (replicate (Z.to_nat CHUNK) 0) [] 4
    stored_fits logger_takes ltac:(reflexivity) ltac:(reflexivity) ltac:(reflexivity)) as [H _].
  destruct (H ltac:(rewrite zlen_replicate; reflexivity)) as [(r & o & H1 & H2) _]. exists r, o. split; [exact H1|exact H2].
Defined.

Lemma inflate_exact_witness :
  (∃ o, ci_mem_inflate stored None no_put logger 4 (Some (bytes "some text", Z_STREAM_END)) None [1; 2; 3] 0 (replicate (Z.to_nat CHUNK) 0) [] = Ret (CI_UNCOMP_OK, o) ∧ o = bytes "some text") ∧
  ∃ o, ci_mem_inflate stored None no_put logger 4 (Some (bytes "some text", Z_STREAM_END)) None [1; 2; 3] 4 (replicate (Z.to_nat CHUNK) 0) [] = Ret (CI_UNCOMP_ERR_NONE, o) ∧ o = bytes "some".
Proof.
  split.
  - destruct (inflate_exact stored no_put logger (λ o, o) holds (bytes "some text", Z_STREAM_END) None [1; 2; 3] 0 (replicate (Z.to_nat CHUNK) 0) [] (bytes "some text") Z_STREAM_END 4
      stored_streams logger_appends (conj eq_refl eq_refl) ltac:(reflexivity) ltac:(discriminate) ltac:(rewrite zlen_replicate; reflexivity) ltac:(reflexivity)) as (o & H1 & H2).
    exists o. split; [exact H1|exact H2].
  - destruct (inflate_exact stored no_put logger (λ o, o) holds (bytes "some text", Z_STREAM_END) None [1; 2; 3] 4 (replicate (Z.to_nat CHUNK) 0) [] (bytes "some text") Z_STREAM_END 4
      stored_streams logger_appends (conj eq_refl eq_refl) ltac:(reflexivity) ltac:(discriminate) ltac:(rewrite zlen_replicate; reflexivity) ltac:(reflexivity)) as (o & H1 & H2).
    exists o. split; [exact H1|exact H2].
Defined.

(** ** Where it is not the text *)

(** The preview of brotli data: the bytes decoded are counted as if the buffer were the array of the function, and bytes that were never written are given
    as decoded. *)
Lemma brotli_preview_gives_old_bytes :
  let decode (s : unit) (rest : list Z) (n : Z) := (BROTLI_SUCCESS, bytes "abc", @nil Z, tt) in
  brotli_inflate_step decode 1 (Some tt) (replicate 8 0) [] (bytes "..........") = Ret (CI_OK, bytes "abc.....").
Proof. reflexivity. Qed.

(** Text of bzip2 that fills the last buffer exactly: the call that finds nothing more is taken for an error; and a stream that breaks off is
    taken for complete. *)
Lemma bzip2_ends_wrong :
  (∃ o, ci_mem_bzunzip stored None no_put logger 3 (Some (replicate (Z.to_nat CHUNK) 65, 4)) [1] 0 (replicate (Z.to_nat CHUNK) 0) [] = Ret (CI_UNCOMP_ERR_OUTPUT, o)) ∧
  ∃ o, ci_mem_bzunzip stored None no_put logger 3 (Some (bytes "half of th", 0)) [1] 0 (replicate (Z.to_nat CHUNK) 0) [] = Ret (CI_UNCOMP_OK, o).
Proof. split; eexists; vm_compute; reflexivity. Qed.
